(* ===== verification/_CoqProject ===== *)
-Q . S2P
Prelude.v
EepromFs.v
EepromFsFacts.v
EepromFsInv.v
EepromFsFile.v
EepromFsWrite.v
EepromFsDir.v
EepromFsRead.v
EepromFsTheorems.v
Utils.v
UtilsTheorems.v
ErrorMsg.v
ErrorMsgTheorems.v
Buffers.v
BuffersTheorems.v
FatFs.v
FfBase.v
FfChain.v
FfTrace.v
FfMount.v
FfFile.v
FfDir.v
FfVolume.v
FfTable.v
FfChainFacts.v
FfFileFacts.v
FfWriteFacts.v
FfTheorems.v
Dirent.v
World.v
ImageIO.v
D64Geom.v
D64.v
D64GeomTheorems.v
D64Bam.v
D64BamOps.v
D64BamSpec.v
D64Alloc.v
D64Demo.v
D64BamTheorems.v
D64Files.v
D64Ops.v
D64Mount.v
P00Cache.v
EefsOps.v
FatNames.v
FatFile.v
Callbacks.v
FatOps.v
WrapOps.v
Parser.v
DirLines.v
FileOps.v
DemoWorld.v
FatNamesTheorems.v
FatFileTheorems.v
ParserTheorems.v
EefsOpsTheorems.v
DirLinesTheorems.v
FileOpsTheorems.v
D64SectorTheorems.v
FatOpsTheorems.v
DosFiles.v
Machine.v
Config.v
DosBlock.v
DosMemory.v
DosTime.v
DosCmd.v
SoftI2c.v
Clocks.v
Ieee.v
BusHosts.v
MachineFacts.v
DosTimeTheorems.v
ClockTheorems.v
ConfigTheorems.v
IeeeFacts.v
IeeeTheorems.v
TalkTheorems.v
