(* ===== verification/Prelude.v ===== *)
(** * A verification development for NODISKEMU

    NODISKEMU is the firmware of a disk drive emulator for Commodore
    computers: it answers the commands of an IEEE-488 or IEC host with files
    of SD cards and ATA disks (FAT), of disk images on them (D64, D71, D81,
    DNP, D80, D82) and of a small file system in the EEPROM of the processor.
    This library models the code between the bus and the media and proves what
    makes it correct.

    ** How the program is put together

    The bus code (iec.c, ieee.c) collects a name or command, and calls
    [file_open] (fileops.c) or the command parser (doscmd.c).  Both parse paths and
    search directories with parser.c, and call the file systems through the
    operations table of the partition (wrapops.h): fatops.c, d64ops.c and
    eefs-ops.c.  d64ops.c reads and writes the image through
    [image_read]/[image_write] of fatops.c; fatops.c stands on ff.c;
    eefs-ops.c stands on eeprom-fs.c.  An open file is a buffer (buffers.c)
    with a refill, a seek and a cleanup pointer; every failure is reported by
    [set_error] (errormsg.c) on channel 15, which is a buffer of its own.

    ** How it is modelled

    A C function is a computation of the error and state monad [comp S A]
    (below): [Done] with a result and a new state, [Stuck] when it accesses an
    array outside its bounds, takes a null pointer or fails an assertion, and
    [OutOfFuel] when a loop has not ended within its fuel.  [wp m Q s] says
    that [m] ends in [Done] and that [Q] holds then, so every theorem on [wp]
    includes memory safety and termination.  Integers are [Z] with the
    conversion of the C type at every assignment that can overflow ([u8],
    [u16], [u32], [s8]); a buffer or string is the list of its bytes, and a
    pointer into it is an index.  The components run on their own part of the
    state ([eefs], [errs], [bufs], [d64_state], [dos], [p00_state]) by [zoom]; [world]
    holds them all.

    - Prelude.v: the monad, its rules, arrays, C strings, machine integers.
    - EepromFs.v: eeprom-fs.c, on a record of the EEPROM bytes, the scratch
      area and the bitmaps.  EepromFsFacts/Inv/File/Write/Dir/Read.v: its
      lemmas.  EepromFsTheorems.v: the file system refines a finite map from
      names to contents, mounting, deleting, reading, appending.
    - Utils.v: utils.c and the string functions of parser.c.
      UtilsTheorems.v: wildcard matching, numbers and dates.
    - ErrorMsg.v: errormsg.c.  ErrorMsgTheorems.v: the size and the
      shape of the messages, the compressed strings.
    - Buffers.v: buffers.c and led.c.  BuffersTheorems.v: the invariant of the
      pool and of the LEDs, chains of buffers, freeing.
    - FatFs.v: what the program uses of ff.c, as the interface [FatFs] with
      the laws [FatFsLaws], and a driver in memory that satisfies them.
    - FfBase.v, FfChain.v, FfTrace.v, FfMount.v, FfFile.v, FfDir.v:
      ff.c itself (the sector buffer; the FAT; names and paths; mounting;
      files; directories), over disks that are the interface [Disks].
      FfVolume.v: disks without defects, with one in memory; the sector
      buffer is transparent there.  FfTable.v: the FAT as a function, for FAT12,
      FAT16 and FAT32.  FfChainFacts.v: freeing and stretching cluster chains.
      FfFileFacts.v, FfWriteFacts.v: reading, seeking and writing in a file.  FfTheorems.v: their theorems, a volume for the
      witnesses and what goes wrong.
      Dirent.v: dirent.h.  World.v: the state of the program, [parse_error],
      [image_read], [image_write].  ImageIO.v: images on undamaged media.
    - D64Geom.v, D64.v, D64Files.v, D64Ops.v, D64Mount.v: d64ops.c (layout; sectors and
      BAM; directories and buffers; files and formatting; unmounting).
      D64GeomTheorems.v: sectors and BAM bits do not overlap.  D64Bam.v,
      D64BamOps.v, D64BamSpec.v: the BAM buffers as a transparent write-back
      cache.  D64Alloc.v: the searches for free sectors.
      D64BamTheorems.v, D64SectorTheorems.v: allocation, sector access.
      D64Demo.v: a mounted image for the witnesses.
    - P00Cache.v: p00cache.c with its theorem.
    - FatNames.v, FatFile.v, FatOps.v: fatops.c (names; open files;
      directories and mounting).  FatNamesTheorems.v, FatFileTheorems.v,
      FatOpsTheorems.v: name conversion, creating X00 files, mounting.
    - EefsOps.v: eefs-ops.c.  EefsOpsTheorems.v: loading by pattern through
      all layers.
    - WrapOps.v: wrapops.h, the record of operations and its three instances.
      Callbacks.v: the cleanup pointer of a buffer.
    - Parser.v: the rest of parser.c, over the operations tables.
      ParserTheorems.v: searching, against the interface [directory] of a
      directory that lists its entries; EefsOpsTheorems.v gives the instance
      for the EEPROM.
    - DirLines.v, FileOps.v: fileops.c.  DirLinesTheorems.v,
      FileOpsTheorems.v: the lines of a directory listing.
    - DemoWorld.v: a state after start-up for the witnesses.
    - Machine.v: the state of the whole program: the world, the command
      parser, the ROM file, the bus address, the display and the clock.
      Config.v: eeprom-conf.c.  ConfigTheorems.v: the settings survive in the
      EEPROM.
    - DosFiles.v, DosBlock.v, DosMemory.v, DosTime.v, DosCmd.v: doscmd.c
      (directories, COPY, NEW, RENAME, SCRATCH; block, direct and partition
      commands; memory commands and the detection of fastloaders; T-R and T-W;
      P, U, I, X and [parse_doscommand]).  The loaders that run after a
      detection are the interface [Fastloaders], the cards and disks that the
      direct commands address the interface [DiskDrivers].
      DosTimeTheorems.v: the clock, the weekday.
    - Ieee.v: ieee.c.  The bus is the interface [BusHost]: before every access
      to a port the host takes a step, in which it sees the lines and may pull
      ATN; then the interrupt routine runs.  BusHosts.v: two hosts, a
      controller with a script and a listener, each with arbitrary delays.
      IeeeFacts.v, IeeeTheorems.v, TalkTheorems.v: sessions in both
      directions.
    - MachineFacts.v: lemmas for the last groups and a machine for their
      witnesses.
    - SoftI2c.v: softi2c.c, pin by pin.  The devices on the bus are the
      interface [I2CDevices]; a chip with registers, which may stretch the
      clock, is an instance, and with it the driver implements the interfaces
      [I2C] and [RegisterChip] of the drivers above.
      Clocks.v: ds1307-3231.c, pcf8583.c, softrtc.c, rtc_lpc17xx.c and rtc.c.
      ClockTheorems.v: setting and reading each clock, the choice of the
      clock, reading a clock that goes on.

    ** The limits of the theorems

    Where the code breaks a property in some case, the theorem leaves the case
    out, its comment says so, and an example or a theorem beside it shows what
    happens there.  The conditions that several theorems share are these.
    [mounted] (D64Bam.v) leaves out D80 and D82 images, whose sectors overlap
    ([d80_sectors_overlap]), and images on media that cannot be written.
    [bufs_ok] (BuffersTheorems.v) asks for at most 15 buffers, since more of
    them than the four bits of their number can name do not work.
    [positioned] and the freshness of the sector buffer (FfFileFacts.v, FfWriteFacts.v) leave out two seeks in a row
    ([seek_twice_reads_other_cluster]) and direct writes over a sector in the
    buffer ([direct_write_leaves_stale_buffer]).  The sessions on the bus need
    a controller or listener that leaves the drive a few steps
    ([fast_controller_loses_unlisten]).  [time_read_write] gives back the time
    except for the weekday of format I, which is the one the code computes.
    [match_name] is compared with [glob] with and without POSTMATCH; with
    it the text after the first star must not be longer than the name, else
    the code reads in front of the name ([match_name_postmatch_underrun]).
    The searches for free sectors need the BAM counters in agreement with the
    bits ([counters_agree]) and an image other than DNP, which has no tracks
    with counters; [next_sector_of_full_track] shows what happens without the
    agreement.

    ** Fuel

    [match_fuel] (524289) bounds the entries that a search may skip, and
    [dir_fuel] (65537) those of one FAT directory: both lie above what the
    media can hold.  Chains of D64 sectors and of EEPROM entries get the number of sectors
    or entries.  [create_open] needs 101 passes for the hundred X00 names
    and has no bound when there is no X00 extension ([create_open_hangs]).
    A walk
    through a FAT chain gets the number of clusters, with which
    [remove_chain] ends for every FAT; [scan_fuel] bounds the entries of a
    directory in ff.c (one whose chain is a ring has no end) and [name_fuel]
    the short names that it tries.  String loops get the length of the array.  [copy_fuel] bounds the passes
    of COPY over the blocks of a file and [bus_fuel] the passes of a waiting
    loop on the bus; the theorems hold for every value that is large enough,
    for [bus_fuel] above the longest delay of the host; [year_fuel] covers the years
    that 32 bits of seconds hold.

    ** What is not modelled

    In ff.c the code that ff.h switches off (f_opendir, f_truncate, f_chdir,
    f_utime, f_mkfs, the string functions).  The bit-level protocol of the IEC
    bus, the fastloaders and the drivers of the hardware (cards, ATA, SPI,
    UART, timers, LCD) act through I/O registers and timing, of which the
    sources say nothing more; the drawing on the display and the debug
    output leave no state that the rest reads.  A pointer to a local directory
    entry that [file_open] keeps on the stack is the entry itself. *)

From Stdlib Require Export ZArith Lia.
From stdpp Require Export base numbers option list list_numbers.

#[global] Open Scope Z_scope.
#[global] Open Scope general_if_scope.

(** * Machine integers

    A C integer of width [w] is a [Z]; the conversions below are the ones the
    C compiler inserts on assignment (modulo for the unsigned types, two's
    complement for [int8_t]). *)
Definition u8 (x : Z) : Z := Z.modulo x 256.
Definition u16 (x : Z) : Z := Z.modulo x 65536.
Definition u32 (x : Z) : Z := Z.modulo x 4294967296.
Definition s8 (x : Z) : Z := Z.modulo (x + 128) 256 - 128.

Definition is_byte (x : Z) : Prop := 0 <= x < 256.
Definition bytes (l : list Z) : Prop := Forall is_byte l.

#[export] Instance is_byte_dec x : Decision (is_byte x).
Proof. unfold is_byte. apply _. Defined.

Lemma u8_id x : 0 <= x < 256 -> u8 x = x.
Proof. intros. unfold u8. apply Z.mod_small. lia. Qed.

Lemma u16_id x : 0 <= x < 65536 -> u16 x = x.
Proof. intros. unfold u16. apply Z.mod_small. lia. Qed.

Lemma u32_id x : 0 <= x < 4294967296 -> u32 x = x.
Proof. intros. unfold u32. apply Z.mod_small. lia. Qed.

Lemma s8_id x : -128 <= x < 128 -> s8 x = x.
Proof. intros. unfold s8. rewrite Z.mod_small; lia. Qed.

Lemma u8_range x : 0 <= u8 x < 256.
Proof. unfold u8. apply Z.mod_pos_bound. lia. Qed.

Lemma u16_range x : 0 <= u16 x < 65536.
Proof. unfold u16. apply Z.mod_pos_bound. lia. Qed.

Lemma u8_is_byte x : is_byte (u8 x).
Proof. apply u8_range. Qed.

(** A property of all bytes, by computation. *)
Lemma every_byte (P : Z -> bool) x : forallb P (seqZ 0 256) = true -> is_byte x -> P x = true.
Proof. intros Hf Hx. rewrite forallb_forall in Hf. apply Hf, list_elem_of_In, elem_of_seqZ. unfold is_byte in Hx. lia. Qed.

Lemma u8_u8 x : u8 (u8 x) = u8 x.
Proof. apply u8_id, u8_range. Qed.

(** * Computations over C state

    A computation over the state [S] returns a value and a new state, or is
    [Stuck] (an access outside an array, a failed assertion: behaviour the C
    text leaves undefined), or ran [OutOfFuel] inside a loop. *)
Inductive outcome (S A : Type) : Type :=
| Done (a : A) (s : S)
| Stuck
| OutOfFuel.
Arguments Done {S A} a s.
Arguments Stuck {S A}.
Arguments OutOfFuel {S A}.

Definition comp (S A : Type) : Type := S -> outcome S A.

#[export] Instance comp_ret S : MRet (comp S) := fun A a s => Done a s.
#[export] Instance comp_bind S : MBind (comp S) := fun A B f m s =>
  match m s with
  | Done a s' => f a s'
  | Stuck => Stuck
  | OutOfFuel => OutOfFuel
  end.

Section operations.
Context {S : Type}.

Definition gets {A} (f : S -> A) : comp S A := fun s => Done (f s) s.
Definition modify (f : S -> S) : comp S unit := fun s => Done tt (f s).
Definition stuck {A} : comp S A := fun _ => Stuck.
Definition of_option {A} (o : option A) : comp S A :=
  match o with Some a => mret a | None => stuck end.
Definition when (b : bool) (m : comp S unit) : comp S unit :=
  if b then m else mret tt.

(** A loop: [body] continues with new loop variables ([inl]) or leaves the
    loop with a result ([inr]). *)
Fixpoint loop {L R} (fuel : nat) (body : L -> comp S (L + R)) (l : L) : comp S R :=
  match fuel with
  | O => fun _ => OutOfFuel
  | Datatypes.S fuel' =>
      r ← body l;
      match r with
      | inl l' => loop fuel' body l'
      | inr x => mret x
      end
  end.

(** [for (i = a; i < a+n; i++)] over a loop variable [x]. *)
Fixpoint for_range {X} (a : Z) (n : nat) (body : Z -> X -> comp S X) (x : X) : comp S X :=
  match n with
  | O => mret x
  | Datatypes.S n' => x' ← body a x; for_range (a + 1) n' body x'
  end.
End operations.

(** Running a computation on one component of a larger state. *)
Definition zoom {W S A} (get : W -> S) (put : S -> W -> W) (m : comp S A) : comp W A :=
  fun w => match m (get w) with
           | Done a s => Done a (put s w)
           | Stuck => Stuck
           | OutOfFuel => OutOfFuel
           end.

(** * Total-correctness specifications

    [wp m Q s]: started in [s], [m] returns (it is neither stuck nor out of
    fuel) and its result satisfies [Q]. *)
Definition wp {S A} (m : comp S A) (Q : A -> S -> Prop) (s : S) : Prop :=
  match m s with
  | Done a s' => Q a s'
  | _ => False
  end.

Section wp.
Context {S : Type}.
Implicit Types s : S.

Lemma wp_done {A} (m : comp S A) Q s :
  wp m Q s <-> exists a s', m s = Done a s' /\ Q a s'.
Proof.
  unfold wp. destruct (m s) as [a s'| |]; split;
    [eauto | | intros [] | | intros [] |];
    intros (a' & s'' & ? & ?); simplify_eq; done.
Qed.

Lemma wp_intro {A} (m : comp S A) Q s a s' : m s = Done a s' -> Q a s' -> wp m Q s.
Proof. intros Hm ?. unfold wp. by rewrite Hm. Qed.

(** The postcondition holds of the result that was computed. *)
Lemma wp_run {A} (m : comp S A) Q s a s' : wp m Q s -> m s = Done a s' -> Q a s'.
Proof. unfold wp. intros Hw Hm. by rewrite Hm in Hw. Qed.

Lemma wp_mono {A} (m : comp S A) (P Q : A -> S -> Prop) s :
  wp m P s -> (forall a s', P a s' -> Q a s') -> wp m Q s.
Proof. unfold wp. destruct (m s); naive_solver. Qed.

Lemma wp_ret {A} (a : A) Q s : wp (mret a) Q s = Q a s.
Proof. reflexivity. Qed.

Lemma wp_bind {A B} (m : comp S A) (f : A -> comp S B) Q s :
  wp (m ≫= f) Q s = wp m (fun a s' => wp (f a) Q s') s.
Proof. unfold wp, mbind, comp_bind. by destruct (m s). Qed.

Lemma wp_gets {A} (f : S -> A) Q s : wp (gets f) Q s = Q (f s) s.
Proof. reflexivity. Qed.

Lemma wp_modify (f : S -> S) Q s : wp (modify f) Q s = Q tt (f s).
Proof. reflexivity. Qed.

Lemma wp_of_option {A} (o : option A) Q s a : o = Some a -> Q a s -> wp (of_option o) Q s.
Proof. by intros ->. Qed.

Lemma wp_of_option_Some {A} (a : A) Q s : wp (of_option (Some a)) Q s = Q a s.
Proof. reflexivity. Qed.

(** A loop with an invariant over a ghost value whose measure decreases. *)
Lemma wp_loop_ghost {G L R} (I : G -> L -> S -> Prop) (meas : G -> nat)
    (body : L -> comp S (L + R)) (Q : R -> S -> Prop) :
  (forall g l s, I g l s ->
    wp (body l) (fun r s' => match r with
                             | inl l' => exists g', I g' l' s' /\ (meas g' < meas g)%nat
                             | inr x => Q x s'
                             end) s) ->
  forall fuel g l s, I g l s -> (meas g < fuel)%nat -> wp (loop fuel body l) Q s.
Proof.
  intros Hbody fuel. induction fuel as [|fuel IH]; intros g l s HI Hlt; [lia|].
  simpl. rewrite wp_bind. eapply wp_mono; [by eapply Hbody|].
  intros [l'|x] s'; [|done]. intros (g' & ? & ?). eapply IH; [done|lia].
Qed.

(** A loop with an invariant and a measure that decreases. *)
Lemma wp_loop {L R} (I : L -> S -> Prop) (meas : L -> S -> nat)
    (body : L -> comp S (L + R)) (Q : R -> S -> Prop) :
  (forall l s, I l s ->
    wp (body l) (fun r s' => match r with
                             | inl l' => I l' s' /\ (meas l' s' < meas l s)%nat
                             | inr x => Q x s'
                             end) s) ->
  forall fuel l s, I l s -> (meas l s < fuel)%nat -> wp (loop fuel body l) Q s.
Proof.
  intros Hbody fuel. induction fuel as [|fuel IH]; intros l s HI Hlt; [lia|].
  simpl. rewrite wp_bind. eapply wp_mono; [by apply Hbody|].
  intros [l'|x] s'; [|done]. intros [? ?]. apply IH; [done|lia].
Qed.

(** A loop whose body never leaves runs out of every amount of fuel. *)
Lemma loop_diverges {L R} (I : L -> S -> Prop) (body : L -> comp S (L + R)) :
  (forall l s, I l s -> wp (body l) (fun r s' => match r with
                                                 | inl l' => I l' s'
                                                 | inr _ => False
                                                 end) s) ->
  forall fuel l s, I l s -> loop fuel body l s = OutOfFuel.
Proof.
  intros Hbody fuel. induction fuel as [|fuel IH]; intros l s HI; [done|].
  simpl. unfold mbind, comp_bind.
  specialize (Hbody l s HI). unfold wp in Hbody.
  destruct (body l s) as [[l'|x] s'| |]; try done. by apply IH.
Qed.

(** Fuel only decides whether the loop finishes, not its result. *)
Lemma loop_fuel_mono {L R} (body : L -> comp S (L + R)) :
  forall n m l s, (n <= m)%nat -> loop n body l s <> OutOfFuel ->
  loop m body l s = loop n body l s.
Proof.
  induction n as [|n IH]; intros m l s Hle Hne; [done|].
  destruct m as [|m]; [lia|]. simpl in *. unfold mbind, comp_bind in *.
  destruct (body l s) as [[l'|x] s'| |]; try done. apply IH; [lia|done].
Qed.

Lemma wp_for_range {X} (I : Z -> X -> S -> Prop) (body : Z -> X -> comp S X) Q a0 n0 :
  (forall i x s, a0 <= i < a0 + Z.of_nat n0 -> I i x s ->
                 wp (body i x) (fun x' s' => I (i + 1) x' s') s) ->
  (forall x s, I (a0 + Z.of_nat n0) x s -> Q x s) ->
  forall x s, I a0 x s -> wp (for_range a0 n0 body x) Q s.
Proof.
  intros Hbody HQ.
  assert (forall n a x s, a0 <= a -> a + Z.of_nat n = a0 + Z.of_nat n0 -> I a x s ->
            wp (for_range a n body x) Q s) as Haux.
  { induction n as [|n IH]; intros a x s Ha Heq HI; simpl.
    - rewrite wp_ret. apply HQ. replace (a0 + Z.of_nat n0) with a by lia. done.
    - rewrite wp_bind. eapply wp_mono; [apply Hbody; [lia|done]|].
      intros x' s' HI'. apply IH; [lia|lia|done]. }
  intros x s HI. apply Haux; [lia|lia|done].
Qed.
End wp.

Lemma wp_zoom {W S A} (get : W -> S) (put : S -> W -> W) (m : comp S A) Q w :
  wp (zoom get put m) Q w = wp m (fun a s => Q a (put s w)) (get w).
Proof. unfold wp, zoom. by destruct (m (get w)). Qed.

Create Rewrite HintDb wp.
#[export] Hint Rewrite @wp_ret @wp_bind @wp_gets @wp_modify @wp_of_option_Some @wp_zoom : wp.

(** Symbolic execution of straight-line code. *)
Ltac wp_simpl := repeat (progress (autorewrite with wp; cbv beta)).

(** * Arrays of bytes

    A C array is a [list Z] indexed by [Z]; [slice] and [splice] read and
    overwrite a block.  [load], [store] and the block versions are the
    accesses of the code: they are [None] when they leave the array. *)
Definition zlen {A} (l : list A) : Z := Z.of_nat (length l).
Definition nthZ (l : list Z) (i : Z) : Z := nth (Z.to_nat i) l 0.
Definition slice {A} (i n : Z) (l : list A) : list A := take (Z.to_nat n) (drop (Z.to_nat i) l).
Definition splice {A} (i : Z) (bs l : list A) : list A :=
  take (Z.to_nat i) l ++ bs ++ drop (Z.to_nat i + length bs) l.
Definition fill {A} (n : Z) (x : A) : list A := replicate (Z.to_nat n) x.

Definition in_bounds {A} (l : list A) (i n : Z) : bool :=
  (0 <=? i) && (0 <=? n) && (i + n <=? zlen l).
Definition load (l : list Z) (i : Z) : option Z :=
  if in_bounds l i 1 then Some (nthZ l i) else None.
Definition load_block (l : list Z) (i n : Z) : option (list Z) :=
  if in_bounds l i n then Some (slice i n l) else None.
Definition store_block (l : list Z) (i : Z) (bs : list Z) : option (list Z) :=
  if in_bounds l i (zlen bs) then Some (splice i bs l) else None.
Definition store (l : list Z) (i x : Z) : option (list Z) := store_block l i [x].

Section arrays.
Context {A : Type}.
Implicit Types l : list A.

Lemma zlen_nonneg l : 0 <= zlen l.
Proof. unfold zlen. lia. Qed.

Lemma zlen_app l k : zlen (l ++ k) = zlen l + zlen k.
Proof. unfold zlen. rewrite length_app. lia. Qed.

Lemma zlen_cons (x : A) l : zlen (x :: l) = 1 + zlen l.
Proof. unfold zlen. simpl. lia. Qed.

Lemma zlen_nil : zlen (@nil A) = 0.
Proof. reflexivity. Qed.

Lemma zlen_fill n (x : A) : 0 <= n -> zlen (fill n x) = n.
Proof. intros. unfold zlen, fill. rewrite length_replicate. lia. Qed.

Lemma zlen_take n l : 0 <= n <= zlen l -> zlen (take (Z.to_nat n) l) = n.
Proof. unfold zlen. intros. rewrite length_take. lia. Qed.

Lemma zlen_slice i n l : 0 <= i -> 0 <= n -> i + n <= zlen l -> zlen (slice i n l) = n.
Proof. unfold zlen, slice. intros. rewrite length_take, length_drop. lia. Qed.

Lemma zlen_splice i bs l : 0 <= i -> i + zlen bs <= zlen l -> zlen (splice i bs l) = zlen l.
Proof.
  unfold zlen, splice. intros. rewrite !length_app, length_take, length_drop. lia.
Qed.

Lemma in_bounds_spec l i n : in_bounds l i n = true <-> 0 <= i /\ 0 <= n /\ i + n <= zlen l.
Proof. unfold in_bounds. rewrite !andb_true_iff, !Z.leb_le. tauto. Qed.

Lemma slice_all l : slice 0 (zlen l) l = l.
Proof. unfold slice, zlen. rewrite Nat2Z.id, drop_0. apply take_ge. lia. Qed.

Lemma splice_all bs l : zlen bs = zlen l -> splice 0 bs l = bs.
Proof.
  unfold zlen, splice. intros. simpl. rewrite drop_ge by lia. apply app_nil_r.
Qed.

Lemma splice_nil i l : 0 <= i <= zlen l -> splice i [] l = l.
Proof.
  unfold splice, zlen. intros. simpl. rewrite Nat.add_0_r. apply take_drop.
Qed.

Lemma splice_app i bs cs l :
  0 <= i -> i + zlen bs + zlen cs <= zlen l ->
  splice i (bs ++ cs) l = splice (i + zlen bs) cs (splice i bs l).
Proof.
  unfold splice, zlen. intros Hi Hle.
  rewrite take_app, length_take, drop_app, length_take.
  rewrite (take_ge (take _ _)) by (rewrite length_take; lia).
  rewrite (drop_ge (take _ _)) by (rewrite length_take; lia).
  replace (Z.to_nat (i + Z.of_nat (length bs)) - Nat.min (Z.to_nat i) (length l))%nat
    with (length bs) by lia.
  rewrite take_app_length.
  rewrite (drop_app bs), (drop_ge bs) by lia. rewrite drop_drop, <- !app_assoc, length_app.
  simpl. do 4 f_equal. lia.
Qed.
End arrays.

Section bytes.
Implicit Types l bs : list Z.

Lemma nthZ_lookup l i : 0 <= i < zlen l -> l !! Z.to_nat i = Some (nthZ l i).
Proof.
  unfold zlen, nthZ. intros. destruct (nth_lookup_or_length l (Z.to_nat i) 0); [done|lia].
Qed.

Lemma nthZ_of_lookup l (k : nat) x : l !! k = Some x -> nthZ l (Z.of_nat k) = x.
Proof. intros H. unfold nthZ. rewrite Nat2Z.id. by apply nth_lookup_Some. Qed.

Lemma nthZ_ext l k :
  zlen l = zlen k -> (forall i, 0 <= i < zlen l -> nthZ l i = nthZ k i) -> l = k.
Proof.
  unfold zlen. intros Hlen H. apply list_eq. intros i.
  destruct (decide (i < length l)%nat).
  - specialize (H (Z.of_nat i)). rewrite <- (Nat2Z.id i).
    rewrite !nthZ_lookup by (unfold zlen; lia). f_equal. apply H. lia.
  - rewrite !lookup_ge_None_2 by lia. done.
Qed.

Lemma nthZ_app l k i :
  0 <= i -> nthZ (l ++ k) i = if i <? zlen l then nthZ l i else nthZ k (i - zlen l).
Proof.
  unfold nthZ, zlen. intros. destruct (Z.ltb_spec i (Z.of_nat (length l))).
  - by rewrite app_nth1 by lia.
  - rewrite app_nth2 by lia. f_equal. lia.
Qed.

Lemma nthZ_cons x l i : 0 <= i -> nthZ (x :: l) i = if i =? 0 then x else nthZ l (i - 1).
Proof.
  intros. unfold nthZ. destruct (Z.eqb_spec i 0) as [->|]; [done|].
  replace (Z.to_nat i) with (S (Z.to_nat (i - 1))) by lia. done.
Qed.

Lemma nthZ_0 x l : nthZ (x :: l) 0 = x.
Proof. reflexivity. Qed.

Lemma nthZ_fill n x i : 0 <= i < n -> nthZ (fill n x) i = x.
Proof.
  unfold nthZ, fill. intros. apply nth_lookup_Some, lookup_replicate. lia.
Qed.

Lemma nthZ_slice i n l k :
  0 <= i -> 0 <= k < n -> nthZ (slice i n l) k = nthZ l (i + k).
Proof.
  unfold nthZ, slice. intros Hi Hk.
  rewrite !nth_lookup. rewrite lookup_take_lt by lia. rewrite lookup_drop. do 2 f_equal. lia.
Qed.

Lemma nthZ_splice i bs l k :
  0 <= i -> i + zlen bs <= zlen l -> 0 <= k ->
  nthZ (splice i bs l) k = if (i <=? k) && (k <? i + zlen bs) then nthZ bs (k - i) else nthZ l k.
Proof.
  unfold zlen, nthZ, splice. intros Hi Hle Hk. rewrite !nth_lookup.
  destruct (Z.leb_spec i k), (Z.ltb_spec k (i + Z.of_nat (length bs))); simpl; f_equal.
  - rewrite lookup_app_r by (rewrite length_take; lia).
    rewrite length_take, lookup_app_l by lia. f_equal. lia.
  - rewrite lookup_app_r by (rewrite length_take; lia).
    rewrite length_take, lookup_app_r by lia. rewrite lookup_drop. f_equal. lia.
  - rewrite lookup_app_l by (rewrite length_take; lia). apply lookup_take_lt. lia.
  - lia.
Qed.

Lemma bytes_nthZ l i : bytes l -> is_byte (nthZ l i).
Proof.
  intros Hl. unfold nthZ. rewrite nth_lookup. destruct (l !! Z.to_nat i) as [x|] eqn:E; simpl.
  - by eapply Forall_lookup_1.
  - unfold is_byte. lia.
Qed.

Lemma bytes_slice i n l : bytes l -> bytes (slice i n l).
Proof. intros. unfold bytes, slice. by apply Forall_take, Forall_drop. Qed.

Lemma bytes_splice i bs l : bytes bs -> bytes l -> bytes (splice i bs l).
Proof.
  intros. unfold bytes, splice. rewrite !Forall_app.
  split; [by apply Forall_take|]. split; [done|by apply Forall_drop].
Qed.

Lemma bytes_fill n x : is_byte x -> bytes (fill n x).
Proof. intros. by apply Forall_replicate. Qed.

Lemma bytes_app l k : bytes l -> bytes k -> bytes (l ++ k).
Proof. intros. by apply Forall_app. Qed.
End bytes.

(** Pointwise reasoning on byte arrays: turn every access to a spliced,
    sliced, filled or concatenated array into a conditional and solve the
    index arithmetic. *)
Ltac zlen_simpl :=
  repeat first
    [ rewrite zlen_app | rewrite zlen_cons | progress change (zlen (@nil Z)) with 0
    | rewrite zlen_splice by (zlen_simpl; lia)
    | rewrite zlen_slice by (zlen_simpl; lia)
    | rewrite zlen_fill by lia ].

Ltac case_bools :=
  repeat match goal with
  | |- context [?a <=? ?b] => destruct (Z.leb_spec a b); simpl
  | |- context [?a <? ?b] => destruct (Z.ltb_spec a b); simpl
  | |- context [?a =? ?b] => destruct (Z.eqb_spec a b); simpl
  end.

Section blocks.
Implicit Types l bs cs : list Z.

Lemma slice_splice_same i bs l :
  0 <= i -> i + zlen bs <= zlen l -> slice i (zlen bs) (splice i bs l) = bs.
Proof.
  intros. pose proof (zlen_nonneg bs). apply nthZ_ext.
  - by zlen_simpl.
  - intros k. zlen_simpl. intros Hk. rewrite nthZ_slice, nthZ_splice by lia.
    case_bools; try lia. f_equal. lia.
Qed.

Lemma slice_splice_ne i bs l j n :
  0 <= i -> i + zlen bs <= zlen l -> 0 <= j -> 0 <= n -> j + n <= zlen l ->
  j + n <= i \/ i + zlen bs <= j ->
  slice j n (splice i bs l) = slice j n l.
Proof.
  intros. pose proof (zlen_nonneg bs). apply nthZ_ext.
  - by zlen_simpl.
  - intros k. zlen_simpl. intros Hk. rewrite !nthZ_slice, nthZ_splice by lia.
    case_bools; lia || done.
Qed.

Lemma slice_splice_in i bs l j n :
  0 <= i -> i + zlen bs <= zlen l -> i <= j -> 0 <= n -> j + n <= i + zlen bs ->
  slice j n (splice i bs l) = slice (j - i) n bs.
Proof.
  intros. pose proof (zlen_nonneg bs). apply nthZ_ext.
  - zlen_simpl. lia.
  - intros k. zlen_simpl. intros Hk. rewrite !nthZ_slice, nthZ_splice by lia.
    case_bools; try lia. f_equal. lia.
Qed.

Lemma splice_splice_same i bs cs l :
  0 <= i -> zlen bs = zlen cs -> i + zlen bs <= zlen l ->
  splice i cs (splice i bs l) = splice i cs l.
Proof.
  intros Hi Heq ?. pose proof (zlen_nonneg bs). apply nthZ_ext.
  - by zlen_simpl.
  - intros k. zlen_simpl. intros Hk. rewrite !nthZ_splice by (zlen_simpl; lia).
    case_bools; lia || done.
Qed.

(** A block written inside a slice. *)
Lemma slice_splice_inside j n i bs l :
  0 <= j -> 0 <= i -> i + zlen bs <= n -> j + n <= zlen l ->
  slice j n (splice (j + i) bs l) = splice i bs (slice j n l).
Proof.
  intros. pose proof (zlen_nonneg bs). apply nthZ_ext.
  - zlen_simpl. lia.
  - intros k. zlen_simpl. intros Hk. rewrite nthZ_slice, nthZ_splice by lia.
    rewrite nthZ_splice by (zlen_simpl; lia). rewrite nthZ_slice by lia.
    case_bools; try lia; f_equal; lia.
Qed.

Lemma splice_slice i n l : 0 <= i -> 0 <= n -> i + n <= zlen l -> splice i (slice i n l) l = l.
Proof.
  intros. apply nthZ_ext.
  - by zlen_simpl.
  - intros k. zlen_simpl. intros Hk. rewrite !nthZ_splice by (zlen_simpl; lia).
    zlen_simpl. case_bools; try lia; try done. rewrite nthZ_slice by lia. f_equal. lia.
Qed.

Lemma slice_slice i n j m l :
  0 <= i -> 0 <= j -> 0 <= m -> j + m <= n -> i + n <= zlen l ->
  slice j m (slice i n l) = slice (i + j) m l.
Proof.
  intros. apply nthZ_ext.
  - by zlen_simpl.
  - intros k. zlen_simpl. intros Hk. rewrite !nthZ_slice by lia. f_equal. lia.
Qed.

Lemma load_some l i : 0 <= i < zlen l -> load l i = Some (nthZ l i).
Proof. intros. unfold load. destruct (in_bounds l i 1) eqn:E; [done|].
  exfalso. assert (in_bounds l i 1 = true) by (apply in_bounds_spec; lia). congruence. Qed.

Lemma load_block_some l i n :
  0 <= i -> 0 <= n -> i + n <= zlen l -> load_block l i n = Some (slice i n l).
Proof. intros. unfold load_block. destruct (in_bounds l i n) eqn:E; [done|].
  exfalso. assert (in_bounds l i n = true) by (apply in_bounds_spec; lia). congruence. Qed.

Lemma store_block_some l i bs :
  0 <= i -> i + zlen bs <= zlen l -> store_block l i bs = Some (splice i bs l).
Proof. intros. unfold store_block. destruct (in_bounds l i (zlen bs)) eqn:E; [done|].
  exfalso. assert (in_bounds l i (zlen bs) = true)
    by (apply in_bounds_spec; pose proof (zlen_nonneg bs); lia). congruence. Qed.

Lemma store_some l i x : 0 <= i < zlen l -> store l i x = Some (splice i [x] l).
Proof. intros. apply store_block_some; [lia|]. zlen_simpl. lia. Qed.
End blocks.

(** * Bits, flags and the assertion switch *)

(** [a & (1 << k)] used as a truth value. *)
Definition bit_test (a k : Z) : bool := negb (Z.land a (Z.shiftl 1 k) =? 0).

Lemma bit_test_testbit a k : 0 <= k -> bit_test a k = Z.testbit a k.
Proof.
  intros Hk. unfold bit_test. rewrite Z.shiftl_1_l.
  destruct (Z.eqb_spec (Z.land a (2 ^ k)) 0) as [He|He]; simpl.
  - apply (f_equal (fun x => Z.testbit x k)) in He.
    rewrite Z.land_spec, Z.pow2_bits_true, Z.bits_0, andb_true_r in He by lia. done.
  - destruct (Z.testbit a k) eqn:Ht; [done|]. exfalso. apply He.
    apply Z.bits_inj_iff. intros j. rewrite Z.land_spec, Z.bits_0.
    destruct (decide (j = k)) as [->|]; [by rewrite Ht|].
    rewrite Z.pow2_bits_false by lia. apply andb_false_r.
Qed.

Lemma testbit_byte_high a k : is_byte a -> 8 <= k -> Z.testbit a k = false.
Proof.
  intros [??] ?. rewrite <- (Z.mod_small a (2 ^ 8)) by lia.
  apply Z.mod_pow2_bits_high. lia.
Qed.

Lemma testbit_u8 a k : 0 <= k -> Z.testbit (u8 a) k = (k <? 8) && Z.testbit a k.
Proof.
  intros. unfold u8. change 256 with (2 ^ 8). destruct (Z.ltb_spec k 8); simpl.
  - by apply Z.mod_pow2_bits_low.
  - apply Z.mod_pow2_bits_high. lia.
Qed.

(** [b |= 1 << k] and [b &= ~(1 << k)] on a byte. *)
Definition bit_set (b k : Z) : Z := u8 (Z.lor b (Z.shiftl 1 k)).
Definition bit_clear (b k : Z) : Z := u8 (Z.land b (Z.lnot (Z.shiftl 1 k))).

Lemma testbit_bit_set b k j :
  is_byte b -> 0 <= k < 8 -> 0 <= j -> Z.testbit (bit_set b k) j = (j =? k) || Z.testbit b j.
Proof.
  intros Hb Hk Hj. unfold bit_set. rewrite testbit_u8, Z.lor_spec, Z.shiftl_1_l by lia.
  destruct (Z.eqb_spec j k) as [->|].
  - rewrite Z.pow2_bits_true, orb_true_r by lia. destruct (Z.ltb_spec k 8); [done|lia].
  - rewrite Z.pow2_bits_false, orb_false_r by lia. destruct (Z.ltb_spec j 8); [done|].
    by rewrite (testbit_byte_high b) by done.
Qed.

Lemma testbit_bit_clear b k j :
  is_byte b -> 0 <= k < 8 -> 0 <= j ->
  Z.testbit (bit_clear b k) j = negb (j =? k) && Z.testbit b j.
Proof.
  intros Hb Hk Hj. unfold bit_clear.
  rewrite testbit_u8, Z.land_spec, Z.lnot_spec, Z.shiftl_1_l by lia.
  destruct (Z.eqb_spec j k) as [->|]; simpl.
  - rewrite Z.pow2_bits_true by lia. simpl. rewrite andb_false_r. apply andb_false_r.
  - rewrite Z.pow2_bits_false, andb_true_r by lia. destruct (Z.ltb_spec j 8); [done|].
    by rewrite (testbit_byte_high b) by done.
Qed.

(** [assert] is compiled out unless CONFIG_ASSERTIONS is set (config.h). *)
Class Assertions := { CONFIG_ASSERTIONS : bool }.

Definition c_assert `{Assertions} {S} (b : bool) : comp S unit :=
  if CONFIG_ASSERTIONS && negb b then stuck else mret tt.

Lemma wp_assert `{Assertions} {S} (Q : unit -> S -> Prop) s b :
  b = true -> Q tt s -> wp (c_assert b) Q s.
Proof. intros -> ?. unfold c_assert. by rewrite andb_false_r. Qed.

(** Continue a [wp] goal after a command whose result is given by an equation. *)
Ltac wp_eq tac := wp_simpl; eapply wp_intro; [tac|]; cbv beta.

(** Facts about array bounds, left to [lia]. *)
Ltac arr := zlen_simpl; try lia.
