(* ===== verification/EepromFs.v ===== *)
(** * eeprom-fs.c: the EEPROM file system

    The directory, the sector bitmap and the file operations of
    src/eeprom-fs.c over an EEPROM modelled as one array of bytes.  A file
    handle ([eefs_fh_t]) and an output parameter of the code are values that
    the operations return.  [EepromFsFacts] and [EepromFsFile] hold the
    theorems. *)

From S2P Require Import Prelude.

(** The constants of arch-config.h. *)
Class EepromGeom := {
  EEPROMFS_OFFSET : Z;
  EEPROMFS_SIZE : Z;
  EEPROMFS_ENTRIES : Z;
  EEPROMFS_SECTORSIZE : Z
}.

Definition avr_geom : EepromGeom :=
  {| EEPROMFS_OFFSET := 512; EEPROMFS_SIZE := 3584;
     EEPROMFS_ENTRIES := 8; EEPROMFS_SECTORSIZE := 64 |}.
Definition lpc17xx_geom : EepromGeom :=
  {| EEPROMFS_OFFSET := 512; EEPROMFS_SIZE := 7680;
     EEPROMFS_ENTRIES := 16; EEPROMFS_SECTORSIZE := 64 |}.

Definition EEFS_NAME_LENGTH : Z := 16.
Definition SECTOR_FREE : Z := 255.
Definition EEFS_FLAG_DELETED : Z := 1.
Definition EEFS_FLAG_LISTENTRY : Z := 2.
Definition EEFS_MODE_READ : Z := 0.
Definition EEFS_MODE_WRITE : Z := 1.
Definition EEFS_MODE_APPEND : Z := 2.

(** [nameentry_t] and [listentry_t] are two views of the same 32 bytes:
    sectors at 0 (12 of them in a name entry, 30 in a list entry), name at
    12, size (little endian) at 28, flags at 30, nextentry at 31. *)
Definition ENTRY_SIZE : Z := 32.
Definition OFS_NAME : Z := 12.
Definition OFS_SIZE : Z := 28.
Definition OFS_FLAGS : Z := 30.
Definition OFS_NEXT : Z := 31.

Inductive eefs_error_t :=
| EEFS_ERROR_OK
| EEFS_ERROR_FILENOTFOUND
| EEFS_ERROR_FILEEXISTS
| EEFS_ERROR_DIRFULL
| EEFS_ERROR_DISKFULL
| EEFS_ERROR_INVALID
| EEFS_ERROR_UNIMPLEMENTED.

#[export] Instance eefs_error_t_dec : EqDecision eefs_error_t.
Proof. solve_decision. Defined.

Record eefs_dirent_t := {
  de_size : Z;
  de_name : list Z;
  de_flags : Z
}.

Record eefs_fh_t := {
  fh_size : Z;
  cur_offset : Z;
  fh_entry : Z;
  cur_sector : Z;
  cur_soffset : Z;
  cur_entry : Z;
  cur_sindex : Z;
  filemode : Z
}.

(** The static variables of eeprom-fs.c, the EEPROM and [ops_scratch]. *)
Record eefs := {
  eeprom : list Z;
  scratch : list Z;
  used_sectors : list Z;
  used_entries : list Z;
  free_sectors : Z
}.

Definition set_eeprom (e : list Z) (s : eefs) : eefs :=
  {| eeprom := e; scratch := scratch s; used_sectors := used_sectors s;
     used_entries := used_entries s; free_sectors := free_sectors s |}.
Definition set_scratch (b : list Z) (s : eefs) : eefs :=
  {| eeprom := eeprom s; scratch := b; used_sectors := used_sectors s;
     used_entries := used_entries s; free_sectors := free_sectors s |}.
Definition set_used_sectors (b : list Z) (s : eefs) : eefs :=
  {| eeprom := eeprom s; scratch := scratch s; used_sectors := b;
     used_entries := used_entries s; free_sectors := free_sectors s |}.
Definition set_used_entries (b : list Z) (s : eefs) : eefs :=
  {| eeprom := eeprom s; scratch := scratch s; used_sectors := used_sectors s;
     used_entries := b; free_sectors := free_sectors s |}.
Definition set_free_sectors (n : Z) (s : eefs) : eefs :=
  {| eeprom := eeprom s; scratch := scratch s; used_sectors := used_sectors s;
     used_entries := used_entries s; free_sectors := n |}.

(** [bitmap[bit / 8] & (1 << (bit % 8))]; [None] outside the bitmap. *)
Definition get_bit (bitmap : list Z) (bit : Z) : option bool :=
  b ← load bitmap (bit / 8); Some (bit_test b (bit `mod` 8)).

Definition set_bit (bitmap : list Z) (bit : Z) (state : bool) : option (list Z) :=
  b ← load bitmap (bit / 8);
  store bitmap (bit / 8)
    (if state then bit_set b (bit `mod` 8) else bit_clear b (bit `mod` 8)).

Definition min (a b : Z) : Z := if a <? b then a else b.

Section operations.
Context `{EepromGeom} `{Assertions}.

Definition DATA_OFFSET : Z := EEPROMFS_OFFSET + EEPROMFS_ENTRIES * ENTRY_SIZE.
Definition SECTOR_COUNT : Z :=
  (EEPROMFS_SIZE - EEPROMFS_ENTRIES * ENTRY_SIZE) / EEPROMFS_SECTORSIZE.

(** Address of a directory entry and of a byte of a sector. *)
Definition entry_addr (index : Z) : Z := EEPROMFS_OFFSET + ENTRY_SIZE * index.
Definition sector_addr (sector ofs : Z) : Z :=
  DATA_OFFSET + EEPROMFS_SECTORSIZE * sector + ofs.

Definition eeprom_read_block (addr n : Z) : comp eefs (list Z) :=
  e ← gets eeprom; of_option (load_block e addr n).
Definition eeprom_write_block (bs : list Z) (addr : Z) : comp eefs unit :=
  e ← gets eeprom; e' ← of_option (store_block e addr bs); modify (set_eeprom e').

(** Accesses to EEPROMFS_BUFFER. *)
Definition scratch_get (i : Z) : comp eefs Z :=
  b ← gets scratch; of_option (load b i).
Definition scratch_get16 (i : Z) : comp eefs Z :=
  lo ← scratch_get i; hi ← scratch_get (i + 1); mret (lo + 256 * hi).
Definition scratch_read (i n : Z) : comp eefs (list Z) :=
  b ← gets scratch; of_option (load_block b i n).
Definition scratch_put (i : Z) (bs : list Z) : comp eefs unit :=
  b ← gets scratch; b' ← of_option (store_block b i bs); modify (set_scratch b').
Definition scratch_put16 (i x : Z) : comp eefs unit :=
  scratch_put i [Z.land x 255; Z.shiftr x 8].

Definition read_entry (index : Z) : comp eefs unit :=
  bs ← eeprom_read_block (entry_addr index) ENTRY_SIZE;
  scratch_put 0 bs.

(** EEPROMFS_MINIMIZE_WRITES: only runs of changed bytes are written. *)
Definition write_entry (index : Z) : comp eefs unit :=
  orig ← eeprom_read_block (entry_addr index) ENTRY_SIZE;
  st ← for_range 0 (Z.to_nat ENTRY_SIZE)
         (fun i '(cur_nonmatching, nonmatch_start) =>
            b ← scratch_get i;
            o ← of_option (load orig i);
            if (cur_nonmatching : bool) then
              if b =? o then
                bs ← scratch_read nonmatch_start (i - nonmatch_start);
                eeprom_write_block bs (entry_addr index + nonmatch_start);;
                mret (false, nonmatch_start)
              else mret (cur_nonmatching, nonmatch_start)
            else
              if negb (b =? o) then mret (true, i)
              else mret (cur_nonmatching, nonmatch_start))
         (false, 0);
  when st.1
    (bs ← scratch_read st.2 (ENTRY_SIZE - st.2);
     eeprom_write_block bs (entry_addr index + st.2)).

Definition curentry_is_listentry : comp eefs bool :=
  flags ← scratch_get OFS_FLAGS;
  mret (negb (Z.land flags EEFS_FLAG_LISTENTRY =? 0)).

Definition curentry_max_sectors : comp eefs Z :=
  b ← curentry_is_listentry; mret (if (b : bool) then 30 else 12).

Definition mark_sector (sector : Z) (used : bool) : comp eefs unit :=
  bm ← gets used_sectors;
  old ← of_option (get_bit bm sector);
  c_assert (negb (eqb old used));;
  bm' ← of_option (set_bit bm sector used);
  modify (set_used_sectors bm');;
  modify (fun s => set_free_sectors
    (u8 (if used then free_sectors s - 1 else free_sectors s + 1)) s).

Definition next_free_sector (start : Z) : comp eefs Z :=
  loop 257
    (fun cur =>
       bm ← gets used_sectors;
       used ← of_option (get_bit bm cur);
       if (used : bool) then
         let cur := u8 (cur + 1) in
         let cur := if cur =? SECTOR_COUNT then 0 else cur in
         if cur =? start then mret (inr SECTOR_FREE) else mret (inl cur)
       else mret (inr cur)) start.

Definition find_entry (name : list Z) : comp eefs Z :=
  loop (S (Z.to_nat EEPROMFS_ENTRIES))
    (fun idx =>
       if idx <? EEPROMFS_ENTRIES then
         read_entry idx;;
         flags ← scratch_get OFS_FLAGS;
         if negb (Z.land flags (Z.lor EEFS_FLAG_DELETED EEFS_FLAG_LISTENTRY) =? 0)
         then mret (inl (idx + 1))
         else
           entname ← scratch_read OFS_NAME EEFS_NAME_LENGTH;
           wanted ← of_option (load_block name 0 EEFS_NAME_LENGTH);
           if bool_decide (entname = wanted) then mret (inr idx)
           else mret (inl (idx + 1))
       else mret (inr 255)) 0.

Definition next_free_entry (start : Z) : comp eefs Z :=
  r ← loop 257
    (fun cur =>
       bm ← gets used_entries;
       used ← of_option (get_bit bm cur);
       if (used : bool) then
         let cur := u8 (cur + 1) in
         let cur := if cur =? EEPROMFS_ENTRIES then 0 else cur in
         if cur =? start then mret (inr None) else mret (inl cur)
       else mret (inr (Some cur))) start;
  match r with
  | None => mret 255
  | Some cur =>
      bm ← gets used_entries;
      bm' ← of_option (set_bit bm cur true);
      modify (set_used_entries bm');;
      mret cur
  end.

(** The marking of the sectors of the entry in the buffer. *)
Definition mark_entry_sectors : comp eefs unit :=
  n ← curentry_max_sectors;
  for_range 0 (Z.to_nat n)
    (fun j (_ : unit) =>
       sec ← scratch_get j;
       when (negb (sec =? SECTOR_FREE)) (mark_sector sec true)) tt.

Definition eepromfs_init : comp eefs unit :=
  modify (set_free_sectors SECTOR_COUNT);;
  modify (fun s => set_used_sectors (fill ((SECTOR_COUNT + 7) / 8) 0) s);;
  modify (fun s => set_used_entries (fill ((EEPROMFS_ENTRIES + 7) / 8) 0) s);;
  for_range 0 (Z.to_nat EEPROMFS_ENTRIES)
    (fun i (_ : unit) =>
       read_entry i;;
       flags ← scratch_get OFS_FLAGS;
       when (Z.land flags EEFS_FLAG_DELETED =? 0)
         (bm ← gets used_entries;
          bm' ← of_option (set_bit bm i true);
          modify (set_used_entries bm');;
          mark_entry_sectors)) tt.

Definition eepromfs_format : comp eefs unit :=
  for_range 0 (Z.to_nat ((EEPROMFS_SIZE + 3) / 4))
    (fun i (_ : unit) =>
       let addr := EEPROMFS_OFFSET + 4 * i in
       val ← eeprom_read_block addr 4;
       when (negb (bool_decide (val = fill 4 255)))
         (eeprom_write_block (fill 4 255) addr)) tt;;
  eepromfs_init.

Definition eepromfs_free_sectors : comp eefs Z := gets free_sectors.

Definition eepromfs_opendir : Z := 0.

(** The directory handle is the entry index; the result carries it and the
    returned entry ([None] at the end of the directory). *)
Definition eepromfs_readdir (entry : Z) : comp eefs (Z * option eefs_dirent_t) :=
  loop (S (Z.to_nat EEPROMFS_ENTRIES))
    (fun entry =>
       if entry <? EEPROMFS_ENTRIES then
         read_entry entry;;
         flags ← scratch_get OFS_FLAGS;
         if negb (Z.land flags EEFS_FLAG_DELETED =? 0) then mret (inl (entry + 1))
         else
           islist ← curentry_is_listentry;
           if (islist : bool) then mret (inl (entry + 1))
           else
             name ← scratch_read OFS_NAME EEFS_NAME_LENGTH;
             size ← scratch_get16 OFS_SIZE;
             mret (inr (entry + 1, Some {| de_size := size; de_name := name; de_flags := flags |}))
       else mret (inr (entry, None))) entry.

Definition fh_zero : eefs_fh_t :=
  {| fh_size := 0; cur_offset := 0; fh_entry := 0; cur_sector := 0;
     cur_soffset := 0; cur_entry := 0; cur_sindex := 0; filemode := 0 |}.

(** Follow [nextentry] to the last directory entry of a file. *)
Definition last_direntry (diridx : Z) : comp eefs Z :=
  loop 257
    (fun diridx =>
       next ← scratch_get OFS_NEXT;
       if negb (next =? 255) then read_entry next;; mret (inl next)
       else mret (inr diridx)) diridx.

(** Index of the last allocated sector of the entry in the buffer. *)
Definition last_sectoridx : comp eefs Z :=
  n ← curentry_max_sectors;
  loop 31
    (fun '(i, sectoridx) =>
       if i <? n then
         sec ← scratch_get i;
         if sec =? SECTOR_FREE then mret (inr sectoridx)
         else mret (inl (i + 1, i))
       else mret (inr sectoridx)) (0, 0).

(** The new name entry of a file opened for writing. *)
Definition create_direntry (name : list Z) (entry : Z) : comp eefs unit :=
  scratch_put 0 (fill ENTRY_SIZE 255);;
  wanted ← of_option (load_block name 0 EEFS_NAME_LENGTH);
  scratch_put OFS_NAME wanted;;
  scratch_put16 OFS_SIZE 0;;
  scratch_put OFS_FLAGS [0];;
  write_entry entry.

Definition eepromfs_open (name : list Z) (flags : Z) : comp eefs (eefs_error_t * eefs_fh_t) :=
  diridx ← find_entry name;
  if flags =? EEFS_MODE_WRITE then
    if negb (diridx =? 255) then mret (EEFS_ERROR_FILEEXISTS, fh_zero)
    else
      entry ← next_free_entry 0;
      if entry =? 255 then
        mret (EEFS_ERROR_DIRFULL,
              {| fh_size := 0; cur_offset := 0; fh_entry := entry; cur_sector := 0;
                 cur_soffset := 0; cur_entry := 0; cur_sindex := 0; filemode := 0 |})
      else
        create_direntry name entry;;
        mret (EEFS_ERROR_OK,
              {| fh_size := 0; cur_offset := 0; fh_entry := entry; cur_sector := 0;
                 cur_soffset := 0; cur_entry := entry; cur_sindex := u8 (-1);
                 filemode := EEFS_MODE_WRITE |})
  else
    if diridx =? 255 then mret (EEFS_ERROR_FILENOTFOUND, fh_zero)
    else
      size ← scratch_get16 OFS_SIZE;
      if flags =? EEFS_MODE_APPEND then
        lastidx ← last_direntry diridx;
        sectoridx ← last_sectoridx;
        sec ← scratch_get sectoridx;
        mret (EEFS_ERROR_OK,
              {| fh_size := size; cur_offset := size; fh_entry := diridx; cur_sector := sec;
                 cur_soffset := u8 (size `mod` EEPROMFS_SECTORSIZE);
                 cur_entry := lastidx; cur_sindex := 0;
                 filemode := EEFS_MODE_WRITE |})
      else
        sec ← scratch_get 0;
        mret (EEFS_ERROR_OK,
              {| fh_size := size; cur_offset := 0; fh_entry := diridx; cur_sector := sec;
                 cur_soffset := 0; cur_entry := diridx; cur_sindex := 0;
                 filemode := EEFS_MODE_READ |}).

Definition fh_at (fh : eefs_fh_t) (sector entry sindex : Z) : eefs_fh_t :=
  {| fh_size := fh_size fh; cur_offset := cur_offset fh; fh_entry := fh_entry fh;
     cur_sector := sector; cur_soffset := cur_soffset fh; cur_entry := entry;
     cur_sindex := sindex; filemode := filemode fh |}.

(** Link a new list entry behind the current one and build it in the
    buffer. *)
Definition link_direntry (entry next_entry : Z) : comp eefs unit :=
  scratch_put OFS_NEXT [next_entry];;
  write_entry entry;;
  scratch_put 0 (fill ENTRY_SIZE 255);;
  scratch_put OFS_FLAGS [EEFS_FLAG_LISTENTRY].

(** The sector allocation inside [eepromfs_write]: a free sector is chosen
    and recorded in the current directory entry, a new list entry is
    linked when the current one is full. *)
Definition write_alloc (fh : eefs_fh_t) : comp eefs (eefs_error_t * eefs_fh_t) :=
  next_sector ← next_free_sector (cur_sector fh);
  if next_sector =? SECTOR_FREE then mret (EEFS_ERROR_DISKFULL, fh)
  else
    read_entry (cur_entry fh);;
    let sindex := u8 (cur_sindex fh + 1) in
    let fh := fh_at fh next_sector (cur_entry fh) sindex in
    n ← curentry_max_sectors;
    r ← (if n <=? sindex then
           next_entry ← next_free_entry (cur_entry fh);
           if next_entry =? 255 then mret (EEFS_ERROR_DIRFULL, fh)
           else
             link_direntry (cur_entry fh) next_entry;;
             mret (EEFS_ERROR_OK, fh_at fh next_sector next_entry 0)
         else mret (EEFS_ERROR_OK, fh));
    let '(err, fh) := r in
    if decide (err = EEFS_ERROR_OK) then
      mark_sector next_sector true;;
      scratch_put (cur_sindex fh) [next_sector];;
      write_entry (cur_entry fh);;
      mret (EEFS_ERROR_OK, fh)
    else mret (err, fh).

(** The byte counts and offsets after a transfer of [n] bytes. *)
Definition fh_wrote (fh : eefs_fh_t) (n : Z) : eefs_fh_t :=
  {| fh_size := u16 (fh_size fh + n); cur_offset := u16 (cur_offset fh + n);
     fh_entry := fh_entry fh; cur_sector := cur_sector fh;
     cur_soffset := u8 ((cur_soffset fh + n) `mod` EEPROMFS_SECTORSIZE);
     cur_entry := cur_entry fh; cur_sindex := cur_sindex fh; filemode := filemode fh |}.

Definition fh_moved (fh : eefs_fh_t) (n : Z) : eefs_fh_t :=
  {| fh_size := fh_size fh; cur_offset := u16 (cur_offset fh + n);
     fh_entry := fh_entry fh; cur_sector := cur_sector fh;
     cur_soffset := u8 ((cur_soffset fh + n) `mod` EEPROMFS_SECTORSIZE);
     cur_entry := cur_entry fh; cur_sindex := cur_sindex fh; filemode := filemode fh |}.

(** One pass of the loop of [eepromfs_write]; [bdata] is the data still to
    be written, [length] its declared length, [written] the output
    parameter. *)
Definition write_step (st : eefs_fh_t * list Z * Z * Z)
    : comp eefs (eefs_fh_t * list Z * Z * Z + eefs_error_t * eefs_fh_t * Z) :=
  let '(fh, bdata, length, written) := st in
  if length =? 0 then mret (inr (EEFS_ERROR_OK, fh, written))
  else
    r ← (if cur_soffset fh =? 0 then write_alloc fh else mret (EEFS_ERROR_OK, fh));
    let '(err, fh) := r in
    if decide (err = EEFS_ERROR_OK) then
      let n := u8 (min length (u16 (EEPROMFS_SECTORSIZE - cur_soffset fh))) in
      bs ← of_option (load_block bdata 0 n);
      eeprom_write_block bs (sector_addr (cur_sector fh) (cur_soffset fh));;
      mret (inl (fh_wrote fh n, drop (Z.to_nat n) bdata, u16 (length - n), u16 (written + n)))
    else mret (inr (err, fh, written)).

(** The result carries the error code, the handle and [*bytes_written]
    ([None]: the output parameter was not assigned). *)
Definition eepromfs_write (fh : eefs_fh_t) (data : list Z) (length : Z)
    : comp eefs (eefs_error_t * eefs_fh_t * option Z) :=
  if negb (filemode fh =? EEFS_MODE_WRITE) then mret (EEFS_ERROR_INVALID, fh, None)
  else
    r ← loop (S (Z.to_nat length)) write_step (fh, data, length, 0);
    let '(err, fh, written) := r in mret (err, fh, Some written).

(** Moving to the next sector inside [eepromfs_read]. *)
Definition read_advance (fh : eefs_fh_t) : comp eefs eefs_fh_t :=
  read_entry (cur_entry fh);;
  let sindex := u8 (cur_sindex fh + 1) in
  n ← curentry_max_sectors;
  pos ← (if n <=? sindex then
           next ← scratch_get OFS_NEXT;
           c_assert (negb (next =? 255));;
           read_entry next;;
           mret (next, 0)
         else mret (cur_entry fh, sindex));
  sec ← scratch_get pos.2;
  c_assert (negb (sec =? SECTOR_FREE));;
  mret (fh_at fh sec pos.1 pos.2).

Definition read_step (st : eefs_fh_t * list Z * Z * Z)
    : comp eefs (eefs_fh_t * list Z * Z * Z + eefs_fh_t * list Z * Z) :=
  let '(fh, out, length, nread) := st in
  if length =? 0 then mret (inr (fh, out, nread))
  else
    let n := u8 (min length (u16 (EEPROMFS_SECTORSIZE - cur_soffset fh))) in
    bs ← eeprom_read_block (sector_addr (cur_sector fh) (cur_soffset fh)) n;
    let fh := fh_moved fh n in
    fh ← (if negb (cur_offset fh =? fh_size fh) && (cur_soffset fh =? 0)
          then read_advance fh else mret fh);
    mret (inl (fh, out ++ bs, u16 (length - n), u16 (nread + n))).

(** The result carries the bytes stored through [data]. *)
Definition eepromfs_read (fh : eefs_fh_t) (length : Z)
    : comp eefs (eefs_error_t * eefs_fh_t * list Z * option Z) :=
  if negb (filemode fh =? EEFS_MODE_READ) then mret (EEFS_ERROR_INVALID, fh, [], None)
  else
    let left := fh_size fh - cur_offset fh in
    let length := if left <? length then u16 left else length in
    r ← loop (S (Z.to_nat length)) read_step (fh, [], length, 0);
    let '(fh, out, nread) := r in mret (EEFS_ERROR_OK, fh, out, Some nread).

Definition eepromfs_close (fh : eefs_fh_t) : comp eefs eefs_fh_t :=
  when (negb (filemode fh =? EEFS_MODE_READ))
    (read_entry (fh_entry fh);;
     scratch_put16 OFS_SIZE (fh_size fh);;
     write_entry (fh_entry fh));;
  mret {| fh_size := fh_size fh; cur_offset := cur_offset fh; fh_entry := fh_entry fh;
          cur_sector := cur_sector fh; cur_soffset := cur_soffset fh;
          cur_entry := cur_entry fh; cur_sindex := cur_sindex fh; filemode := 0 |}.

Definition eepromfs_rename (oldname newname : list Z) : comp eefs eefs_error_t :=
  diridx ← find_entry newname;
  if negb (diridx =? 255) then mret EEFS_ERROR_FILEEXISTS
  else
    diridx ← find_entry oldname;
    if diridx =? 255 then mret EEFS_ERROR_FILENOTFOUND
    else
      name ← of_option (load_block newname 0 EEFS_NAME_LENGTH);
      scratch_put OFS_NAME name;;
      write_entry diridx;;
      mret EEFS_ERROR_OK.

(** Free the sectors of the entry in the buffer, up to the first free slot. *)
Definition free_entry_sectors : comp eefs unit :=
  n ← curentry_max_sectors;
  loop 31
    (fun i =>
       if i <? n then
         sec ← scratch_get i;
         if sec =? SECTOR_FREE then mret (inr tt)
         else mark_sector sec false;; mret (inl (i + 1))
       else mret (inr tt)) 0.

Definition eepromfs_delete (name : list Z) : comp eefs eefs_error_t :=
  diridx ← find_entry name;
  if diridx =? 255 then mret EEFS_ERROR_FILENOTFOUND
  else
    loop 258
      (fun diridx =>
         if negb (diridx =? 255) then
           free_entry_sectors;;
           next ← scratch_get OFS_NEXT;
           scratch_put 0 (fill ENTRY_SIZE 255);;
           write_entry diridx;;
           when (negb (next =? 255)) (read_entry next);;
           mret (inl next)
         else mret (inr EEFS_ERROR_OK)) diridx.
End operations.
