(* ===== verification/EepromFsFacts.v ===== *)
(** * eeprom-fs.c: directory entries, bitmaps and allocation

    The entry transfers [read_entry] and [write_entry] (whose write
    minimisation is shown to be invisible), the bitmaps with their free
    counter, and the two next-fit searches. *)

From S2P Require Import Prelude EepromFs.

(** What arch-config.h and the static assertions of eeprom-fs.c provide. *)
Class EepromGeomOk `{EepromGeom} : Prop := {
  geom_offset : 0 <= EEPROMFS_OFFSET;
  geom_entries : 0 < EEPROMFS_ENTRIES < 256;
  geom_sectorsize : 0 < EEPROMFS_SECTORSIZE < 256;
  geom_size : EEPROMFS_ENTRIES * ENTRY_SIZE <= EEPROMFS_SIZE;
  geom_align : EEPROMFS_SIZE `mod` 4 = 0;
  geom_count : 0 < SECTOR_COUNT < 256;
  geom_capacity : SECTOR_COUNT * EEPROMFS_SECTORSIZE < 65536
}.

#[export] Instance avr_geom_ok : @EepromGeomOk avr_geom.
Proof. split; vm_compute; (split; congruence) || congruence. Qed.
#[export] Instance lpc17xx_geom_ok : @EepromGeomOk lpc17xx_geom.
Proof. split; vm_compute; (split; congruence) || congruence. Qed.

Record wf_base `{EepromGeom} (s : eefs) : Prop := {
  wb_eeprom : EEPROMFS_OFFSET + EEPROMFS_SIZE <= zlen (eeprom s);
  wb_eeprom_bytes : bytes (eeprom s);
  wb_scratch : zlen (scratch s) = 33;
  wb_scratch_bytes : bytes (scratch s);
  wb_sectors : zlen (used_sectors s) = (SECTOR_COUNT + 7) / 8;
  wb_sectors_bytes : bytes (used_sectors s);
  wb_entries : zlen (used_entries s) = (EEPROMFS_ENTRIES + 7) / 8;
  wb_entries_bytes : bytes (used_entries s)
}.

(** The entry in the buffer and the entry [i] on the EEPROM. *)
Definition buf (s : eefs) : list Z := slice 0 ENTRY_SIZE (scratch s).
Definition ent `{EepromGeom} (s : eefs) (i : Z) : list Z :=
  slice (entry_addr i) ENTRY_SIZE (eeprom s).

Definition e_flags (e : list Z) : Z := nthZ e OFS_FLAGS.
Definition e_next (e : list Z) : Z := nthZ e OFS_NEXT.
Definition e_name (e : list Z) : list Z := slice OFS_NAME EEFS_NAME_LENGTH e.
Definition e_size (e : list Z) : Z := nthZ e OFS_SIZE + 256 * nthZ e (OFS_SIZE + 1).
Definition e_deleted (e : list Z) : bool := negb (Z.land (e_flags e) EEFS_FLAG_DELETED =? 0).
Definition e_islist (e : list Z) : bool := negb (Z.land (e_flags e) EEFS_FLAG_LISTENTRY =? 0).
Definition e_cap (e : list Z) : Z := if e_islist e then 30 else 12.

Definition with_buf (e : list Z) (s : eefs) : eefs := set_scratch (splice 0 e (scratch s)) s.
Definition with_ent `{EepromGeom} (i : Z) (e : list Z) (s : eefs) : eefs :=
  set_eeprom (splice (entry_addr i) e (eeprom s)) s.

Ltac unfold_consts :=
  unfold entry_addr, sector_addr, DATA_OFFSET, ENTRY_SIZE, OFS_NAME, OFS_SIZE, OFS_FLAGS,
    OFS_NEXT, EEFS_NAME_LENGTH in *.

Ltac Zify.zify_pre_hook ::= unfold_consts.

Section facts.
Context `{EepromGeomOk} `{Assertions}.
Implicit Types s : eefs.

Lemma entry_in_range s i :
  wf_base s -> 0 <= i < EEPROMFS_ENTRIES ->
  0 <= entry_addr i /\ entry_addr i + 32 <= DATA_OFFSET /\ DATA_OFFSET <= zlen (eeprom s).
Proof.
  intros Hwf Hi. pose proof (wb_eeprom s Hwf). pose proof geom_offset. pose proof geom_size.
  unfold_consts. lia.
Qed.

Lemma zlen_buf s : wf_base s -> zlen (buf s) = 32.
Proof. intros Hwf. pose proof (wb_scratch s Hwf). unfold buf, ENTRY_SIZE. by arr. Qed.

Lemma zlen_ent s i : wf_base s -> 0 <= i < EEPROMFS_ENTRIES -> zlen (ent s i) = 32.
Proof.
  intros Hwf Hi. destruct (entry_in_range s i Hwf Hi) as (?&?&?).
  unfold ent, ENTRY_SIZE. by arr.
Qed.

Lemma bytes_buf s : wf_base s -> bytes (buf s).
Proof. intros Hwf. apply bytes_slice, (wb_scratch_bytes s Hwf). Qed.

Lemma bytes_ent s i : wf_base s -> bytes (ent s i).
Proof. intros Hwf. apply bytes_slice, (wb_eeprom_bytes s Hwf). Qed.

Lemma buf_with_buf e s : wf_base s -> zlen e = 32 -> buf (with_buf e s) = e.
Proof.
  intros Hwf He. pose proof (wb_scratch s Hwf). unfold buf, with_buf, ENTRY_SIZE. simpl.
  rewrite <- He at 1. apply slice_splice_same; lia.
Qed.

Lemma ent_with_ent_eq i e s :
  wf_base s -> 0 <= i < EEPROMFS_ENTRIES -> zlen e = 32 -> ent (with_ent i e s) i = e.
Proof.
  intros Hwf Hi He. destruct (entry_in_range s i Hwf Hi) as (?&?&?).
  unfold ent, with_ent, ENTRY_SIZE. simpl. rewrite <- He at 1. apply slice_splice_same; lia.
Qed.

Lemma ent_with_ent_ne i j e s :
  wf_base s -> 0 <= i < EEPROMFS_ENTRIES -> 0 <= j < EEPROMFS_ENTRIES -> zlen e = 32 ->
  i <> j -> ent (with_ent i e s) j = ent s j.
Proof.
  intros Hwf Hi Hj He Hne. destruct (entry_in_range s i Hwf Hi) as (?&?&?).
  destruct (entry_in_range s j Hwf Hj) as (?&?&?). unfold ent, with_ent. simpl.
  apply slice_splice_ne; unfold_consts; lia.
Qed.

Lemma wf_with_buf e s : wf_base s -> zlen e = 32 -> bytes e -> wf_base (with_buf e s).
Proof.
  intros [] ??. split; simpl; try done; [arr|by apply bytes_splice].
Qed.

Lemma wf_with_ent i e s :
  wf_base s -> 0 <= i < EEPROMFS_ENTRIES -> zlen e = 32 -> bytes e -> wf_base (with_ent i e s).
Proof.
  intros Hwf Hi He Hb. destruct (entry_in_range s i Hwf Hi) as (?&?&?).
  destruct Hwf. split; simpl; try done; [arr|by apply bytes_splice].
Qed.

Lemma with_buf_with_buf e e' s :
  wf_base s -> zlen e = 32 -> zlen e' = 32 -> with_buf e (with_buf e' s) = with_buf e s.
Proof.
  intros Hwf ??. pose proof (wb_scratch s Hwf). unfold with_buf, set_scratch. simpl.
  f_equal. apply splice_splice_same; lia.
Qed.

(** ** Buffer accesses *)
Lemma scratch_get_eq i s :
  wf_base s -> 0 <= i < 32 -> scratch_get i s = Done (nthZ (buf s) i) s.
Proof.
  intros Hwf Hi. pose proof (wb_scratch s Hwf).
  unfold scratch_get, mbind, comp_bind, gets. rewrite load_some by lia.
  unfold buf, ENTRY_SIZE. by rewrite nthZ_slice by lia.
Qed.

Lemma scratch_get16_eq i s :
  wf_base s -> 0 <= i < 31 ->
  scratch_get16 i s = Done (nthZ (buf s) i + 256 * nthZ (buf s) (i + 1)) s.
Proof.
  intros Hwf Hi. unfold scratch_get16, mbind, comp_bind.
  by rewrite !scratch_get_eq by (done || lia).
Qed.

Lemma scratch_read_eq i n s :
  wf_base s -> 0 <= i -> 0 <= n -> i + n <= 32 -> scratch_read i n s = Done (slice i n (buf s)) s.
Proof.
  intros Hwf ???. pose proof (wb_scratch s Hwf).
  unfold scratch_read, mbind, comp_bind, gets. rewrite load_block_some by lia.
  unfold buf, ENTRY_SIZE. by rewrite slice_slice by lia.
Qed.

Lemma scratch_put_eq i bs s :
  wf_base s -> 0 <= i -> i + zlen bs <= 32 ->
  scratch_put i bs s = Done tt (with_buf (splice i bs (buf s)) s).
Proof.
  intros Hwf ??. pose proof (wb_scratch s Hwf). pose proof (zlen_nonneg bs).
  unfold scratch_put, mbind, comp_bind, gets. rewrite store_block_some by lia.
  simpl. unfold with_buf, modify. do 2 f_equal. unfold buf, ENTRY_SIZE. apply nthZ_ext; [by arr|].
  intros k. arr. intros Hk. rewrite !nthZ_splice by arr. arr.
  case_bools; try lia; try done; rewrite ?nthZ_slice by lia; f_equal; lia.
Qed.

Lemma read_entry_eq i s :
  wf_base s -> 0 <= i < EEPROMFS_ENTRIES -> read_entry i s = Done tt (with_buf (ent s i) s).
Proof.
  intros Hwf Hi. destruct (entry_in_range s i Hwf Hi) as (?&?&?).
  unfold read_entry, eeprom_read_block, mbind, comp_bind, gets.
  rewrite load_block_some by (unfold ENTRY_SIZE; lia). simpl.
  pose proof (zlen_ent s i Hwf Hi). pose proof (wb_scratch s Hwf).
  unfold scratch_put, mbind, comp_bind, gets. unfold ent in *.
  by rewrite store_block_some by lia.
Qed.

(** ** The minimised write *)
Definition write_inv (i : Z) (e b : list Z) (s0 : eefs) (k : Z) (st : bool * Z) (s : eefs) : Prop :=
  exists e', s = set_eeprom e' s0 /\ zlen e' = zlen e /\ 0 <= st.2 /\
    (if st.1 then st.2 <= k else True) /\
    (forall p, 0 <= p -> nthZ e' p =
       if (entry_addr i <=? p) && (p <? entry_addr i + (if st.1 then st.2 else k))
       then nthZ b (p - entry_addr i) else nthZ e p).

Lemma scratch_read_raw a n s :
  zlen (scratch s) = 33 -> 0 <= a -> 0 <= n -> a + n <= 32 ->
  scratch_read a n s = Done (slice a n (buf s)) s.
Proof.
  intros ????. unfold scratch_read, mbind, comp_bind, gets. rewrite load_block_some by lia.
  unfold buf, ENTRY_SIZE. by rewrite slice_slice by lia.
Qed.

Lemma eeprom_write_eq bs a s :
  0 <= a -> a + zlen bs <= zlen (eeprom s) ->
  eeprom_write_block bs a s = Done tt (set_eeprom (splice a bs (eeprom s)) s).
Proof.
  intros ??. unfold eeprom_write_block, mbind, comp_bind, gets.
  by rewrite store_block_some by lia.
Qed.

Lemma write_entry_eq i s :
  wf_base s -> 0 <= i < EEPROMFS_ENTRIES -> write_entry i s = Done tt (with_ent i (buf s) s).
Proof.
  intros Hwf Hi. destruct (entry_in_range s i Hwf Hi) as (?&?&?).
  pose proof (zlen_buf s Hwf) as Hbuf.
  enough (wp (write_entry i) (fun _ s' => s' = with_ent i (buf s) s) s) as Hw.
  { apply wp_done in Hw as ([] & s' & -> & ->). done. }
  unfold write_entry, eeprom_read_block. wp_simpl.
  rewrite load_block_some by (unfold ENTRY_SIZE; lia). wp_simpl. fold (ent s i).
  eapply (wp_for_range (write_inv i (eeprom s) (buf s) s)).
  - intros k [nm nms] s' Hk (e' & -> & He & Hnn & Hle & Hp). simpl in Hle, Hp, Hnn.
    change (Z.to_nat ENTRY_SIZE) with 32%nat in Hk.
    unfold scratch_get. wp_simpl. simpl.
    pose proof (wb_scratch s Hwf). rewrite load_some by lia. wp_simpl.
    pose proof (zlen_ent s i Hwf Hi). rewrite load_some by lia. wp_simpl.
    assert (nthZ (scratch s) k = nthZ (buf s) k) as ->
      by (unfold buf, ENTRY_SIZE; rewrite nthZ_slice by lia; done).
    unfold ent. rewrite nthZ_slice by (unfold ENTRY_SIZE; lia).
    destruct nm; destruct (Z.eqb_spec (nthZ (buf s) k) (nthZ (eeprom s) (entry_addr i + k))) as [Heq|Hne];
      simpl negb; cbv iota; wp_simpl.
    + wp_eq ltac:(apply scratch_read_raw; done || lia). wp_simpl.
      change (buf (set_eeprom e' s)) with (buf s).
      wp_eq ltac:(apply eeprom_write_eq; simpl; arr). wp_simpl.
      eexists; split; [reflexivity|]. simpl. split; [by arr|].
      split; [done|]. split; [done|].
      intros p Hp0. rewrite nthZ_splice, Hp by arr. arr.
      case_bools; try lia; try done.
      * rewrite nthZ_slice by lia. f_equal. lia.
      * replace p with (entry_addr i + k) by lia. rewrite <- Heq. f_equal. lia.
    + exists e'. simpl. split_and!; try done; lia.
    + exists e'. simpl. split_and!; try done. intros p Hp0. rewrite Hp by done.
      case_bools; try lia; try done.
      replace p with (entry_addr i + k) by lia. rewrite <- Heq. f_equal. lia.
    + exists e'. simpl. split_and!; try done; try lia.
  - intros [nm nms] s' (e' & -> & He & Hnn & Hle & Hp).
    change (0 + Z.of_nat (Z.to_nat ENTRY_SIZE)) with 32 in *. simpl in *.
    assert (forall ee, zlen ee = zlen (eeprom s) ->
      (forall p, 0 <= p -> nthZ ee p = if (entry_addr i <=? p) && (p <? entry_addr i + 32)
         then nthZ (buf s) (p - entry_addr i) else nthZ (eeprom s) p) ->
      set_eeprom ee s = with_ent i (buf s) s) as Hdone.
    { intros ee Hl Hn. unfold with_ent. f_equal. apply nthZ_ext; [by arr|].
      intros p Hp0. rewrite Hn, nthZ_splice by lia. by rewrite Hbuf. }
    destruct nm; simpl.
    + unfold ENTRY_SIZE. wp_simpl. pose proof (wb_scratch s Hwf).
      wp_eq ltac:(apply scratch_read_raw; done || lia).
      change (buf (set_eeprom e' s)) with (buf s).
      wp_eq ltac:(apply eeprom_write_eq; simpl; arr).
      simpl. apply Hdone; [by arr|]. intros p Hp0. rewrite nthZ_splice, Hp by arr. arr.
      case_bools; try lia; try done. rewrite nthZ_slice by lia. f_equal. lia.
    + wp_simpl. by apply Hdone.
  - exists (eeprom s). simpl. split; [by destruct s|]. split; [done|]. split; [lia|]. split; [done|].
    intros p Hp0. case_bools; lia || done.
Qed.
End facts.

(** ** Bitmaps *)
Definition bm_test (bm : list Z) (i : Z) : bool := Z.testbit (nthZ bm (i / 8)) (i `mod` 8).
Definition bm_set (bm : list Z) (i : Z) (v : bool) : list Z :=
  splice (i / 8) [if v then bit_set (nthZ bm (i / 8)) (i `mod` 8)
                  else bit_clear (nthZ bm (i / 8)) (i `mod` 8)] bm.

(** Number of clear bits among the first [n]. *)
Definition free_count (bm : list Z) (n : Z) : Z :=
  zlen (filter (fun i => bm_test bm i = false) (seqZ 0 n)).

Section bitmaps.
Implicit Types bm : list Z.

Lemma bit_index_in bm i n : 0 <= i < n -> zlen bm = (n + 7) / 8 -> 0 <= i / 8 < zlen bm.
Proof. intros ? ->. split; [apply Z.div_pos; lia|]. apply Z.div_lt_upper_bound; [lia|].
  pose proof (Z.div_mod (n + 7) 8). pose proof (Z.mod_pos_bound (n + 7) 8). lia. Qed.

Lemma get_bit_eq bm i : 0 <= i -> i / 8 < zlen bm -> get_bit bm i = Some (bm_test bm i).
Proof.
  intros Hi Hl. assert (0 <= i / 8) by (apply Z.div_pos; lia).
  unfold get_bit. rewrite load_some by lia. simpl. f_equal. unfold bm_test.
  apply bit_test_testbit. apply Z.mod_pos_bound. lia.
Qed.

Lemma set_bit_eq bm i v : 0 <= i -> i / 8 < zlen bm -> set_bit bm i v = Some (bm_set bm i v).
Proof.
  intros Hi Hl. assert (0 <= i / 8) by (apply Z.div_pos; lia).
  unfold set_bit. rewrite load_some by lia. simpl. rewrite store_some by lia. done.
Qed.

Lemma zlen_bm_set bm i v : 0 <= i -> i / 8 < zlen bm -> zlen (bm_set bm i v) = zlen bm.
Proof. intros Hi Hl. assert (0 <= i / 8) by (apply Z.div_pos; lia). unfold bm_set. arr. Qed.

Lemma bytes_bm_set bm i v : bytes bm -> bytes (bm_set bm i v).
Proof.
  intros. apply bytes_splice; [|done]. apply Forall_singleton. destruct v; apply u8_is_byte.
Qed.

Lemma bm_test_set bm i j v :
  bytes bm -> 0 <= i -> i / 8 < zlen bm -> 0 <= j ->
  bm_test (bm_set bm i v) j = if j =? i then v else bm_test bm j.
Proof.
  intros Hb Hi Hl Hj. assert (0 <= i / 8) by (apply Z.div_pos; lia).
  pose proof (Z.mod_pos_bound i 8). pose proof (Z.mod_pos_bound j 8).
  pose proof (bytes_nthZ bm (i / 8) Hb) as Hbyte.
  unfold bm_test, bm_set. rewrite nthZ_splice by (arr; apply Z.div_pos; lia). arr.
  destruct (Z.eqb_spec j i) as [->|Hne].
  - assert ((i / 8 <=? i / 8) && (i / 8 <? i / 8 + (1 + 0)) = true) as -> by lia.
    rewrite Z.sub_diag, nthZ_0.
    destruct v; [rewrite testbit_bit_set by (done || lia)|rewrite testbit_bit_clear by (done || lia)];
      by rewrite Z.eqb_refl.
  - destruct (Z.eqb_spec (j / 8) (i / 8)) as [He|He].
    + assert (j `mod` 8 <> i `mod` 8).
      { intros Hm. apply Hne. rewrite (Z.div_mod j 8), (Z.div_mod i 8) by lia. congruence. }
      rewrite He. assert ((i / 8 <=? i / 8) && (i / 8 <? i / 8 + (1 + 0)) = true) as -> by lia.
      rewrite Z.sub_diag, nthZ_0.
      destruct v; [rewrite testbit_bit_set by (done || lia)|rewrite testbit_bit_clear by (done || lia)];
        by destruct (Z.eqb_spec (j `mod` 8) (i `mod` 8)).
    + assert ((i / 8 <=? j / 8) && (j / 8 <? i / 8 + (1 + 0)) = false) as -> by lia. done.
Qed.

Lemma filter_all (P : Z -> Prop) `{forall x, Decision (P x)} l : Forall P l -> filter P l = l.
Proof.
  induction 1 as [|x l Hx ? IH]; [done|].
  by rewrite filter_cons, decide_True, IH by done.
Qed.

Lemma seqZ_split n i : 0 <= i < n -> seqZ 0 n = seqZ 0 i ++ i :: seqZ (i + 1) (n - i - 1).
Proof.
  intros. replace n with (i + (1 + (n - i - 1))) at 1 by lia.
  rewrite seqZ_app by lia. f_equal. rewrite Z.add_0_l.
  rewrite seqZ_cons by lia. f_equal; unfold seqZ; repeat f_equal; lia.
Qed.

Lemma free_count_set bm i n v :
  bytes bm -> 0 <= i < n -> zlen bm = (n + 7) / 8 -> bm_test bm i = negb v ->
  free_count (bm_set bm i v) n = free_count bm n + (if v then -1 else 1).
Proof.
  intros Hb Hi Hl Ht. destruct (bit_index_in bm i n Hi Hl).
  unfold free_count. rewrite (seqZ_split n i) by done. rewrite !filter_app, !zlen_app.
  assert (forall l, Forall (fun j => 0 <= j /\ j <> i) l ->
    filter (fun j => bm_test (bm_set bm i v) j = false) l
    = filter (fun j => bm_test bm j = false) l) as Hext.
  { induction l as [|x l IH]; intros Hf; [done|]. apply Forall_cons in Hf as [[Hx0 Hxi] Hf].
    rewrite !filter_cons, IH by done. rewrite bm_test_set by (done || lia).
    by destruct (Z.eqb_spec x i). }
  rewrite !Hext by (apply Forall_seqZ; lia). rewrite !filter_cons.
  rewrite !Hext by (apply Forall_seqZ; lia).
  rewrite bm_test_set, Z.eqb_refl, Ht by (done || lia).
  destruct v; simpl; rewrite ?zlen_cons; lia.
Qed.

Lemma free_count_range bm n : 0 <= n -> 0 <= free_count bm n <= n.
Proof.
  intros. unfold free_count, zlen. pose proof (length_filter (fun i => bm_test bm i = false) (seqZ 0 n)).
  rewrite length_seqZ in *. lia.
Qed.

Lemma free_count_pos bm n i : 0 <= i < n -> bm_test bm i = false -> 0 < free_count bm n.
Proof.
  intros Hi Ht. unfold free_count. rewrite (seqZ_split n i) by done.
  rewrite filter_app, filter_cons, decide_True by done. rewrite zlen_app, zlen_cons.
  pose proof (zlen_nonneg (filter (fun i => bm_test bm i = false) (seqZ 0 i))).
  pose proof (zlen_nonneg (filter (fun i => bm_test bm i = false) (seqZ (i + 1) (n - i - 1)))). lia.
Qed.

Lemma free_count_fill n : 0 <= n -> free_count (fill ((n + 7) / 8) 0) n = n.
Proof.
  intros. unfold free_count. rewrite filter_all.
  - unfold zlen. rewrite length_seqZ. lia.
  - apply Forall_seqZ. intros i Hi.
    destruct (bit_index_in (fill ((n + 7) / 8) 0) i n) as [? Hlt]; [lia| |].
    { apply zlen_fill. apply Z.div_pos; lia. }
    rewrite zlen_fill in Hlt by (apply Z.div_pos; lia).
    unfold bm_test. rewrite nthZ_fill by lia. apply Z.bits_0.
Qed.

Lemma bm_test_fill k i : 0 <= i / 8 < k -> bm_test (fill k 0) i = false.
Proof. intros. unfold bm_test. rewrite nthZ_fill by lia. apply Z.bits_0. Qed.
End bitmaps.

(** ** The cyclic next-fit search used for sectors and entries *)

(** [r] is the position [n] steps after [start], and everything before it
    is in use. *)
Definition next_fit (bm : list Z) (count start r : Z) : Prop :=
  exists k, 0 <= k < count /\ r = (start + k) `mod` count /\ bm_test bm r = false /\
    forall j, 0 <= j < k -> bm_test bm ((start + j) `mod` count) = true.

Definition all_used (bm : list Z) (count : Z) : Prop :=
  forall i, 0 <= i < count -> bm_test bm i = true.

Section next_fit.
Context `{EepromGeomOk} `{Assertions}.

Definition next_fit_body {R} (get : eefs -> list Z) (count : Z) (fail : R) (found : Z -> R)
    (start cur : Z) : comp eefs (Z + R) :=
  bm ← gets get;
  used ← of_option (get_bit bm cur);
  if (used : bool) then
    let cur := u8 (cur + 1) in
    let cur := if cur =? count then 0 else cur in
    if cur =? start then mret (inr fail) else mret (inl cur)
  else mret (inr (found cur)).

Lemma mod_next count start k :
  0 < count -> 0 <= k ->
  (if (start + k) `mod` count + 1 =? count then 0 else (start + k) `mod` count + 1)
    = (start + (k + 1)) `mod` count.
Proof.
  intros Hc Hk. pose proof (Z.mod_pos_bound (start + k) count Hc).
  pose proof (Z.div_mod (start + k) count).
  destruct (Z.eqb_spec ((start + k) `mod` count + 1) count) as [He|Hne].
  - apply Z.mod_unique with (q := (start + k) / count + 1); lia.
  - apply Z.mod_unique with (q := (start + k) / count); lia.
Qed.

Lemma mod_start count start k :
  0 <= start < count -> 0 <= k < count -> (start + k) `mod` count = start -> k = 0.
Proof.
  intros Hs Hk Hm. pose proof (Z.div_mod (start + k) count).
  assert (start + k = count * ((start + k) / count) + start) by lia.
  assert ((start + k) / count = 0 \/ 1 <= (start + k) / count) as [?|?]; nia.
Qed.

Lemma all_used_cycle bm count start :
  0 <= start < count ->
  (forall j, 0 <= j < count -> bm_test bm ((start + j) `mod` count) = true) -> all_used bm count.
Proof.
  intros Hs Hall i Hi. destruct (decide (start <= i)).
  - specialize (Hall (i - start)). replace (start + (i - start)) with i in Hall by lia.
    rewrite Z.mod_small in Hall by lia. apply Hall. lia.
  - specialize (Hall (i - start + count)). replace (start + (i - start + count)) with (i + 1 * count)
      in Hall by lia. rewrite Z.mod_add, Z.mod_small in Hall by lia. apply Hall. lia.
Qed.

Lemma next_fit_loop {R} get count (fail : R) found start s :
  0 < count < 256 -> 0 <= start < count -> zlen (get s) = (count + 7) / 8 ->
  exists r, loop 257 (next_fit_body get count fail found start) start s = Done r s /\
    ((exists c, r = found c /\ 0 <= c < count /\ next_fit (get s) count start c) \/
     (r = fail /\ all_used (get s) count)).
Proof.
  intros Hc Hs Hl.
  enough (wp (loop 257 (next_fit_body get count fail found start) start) (fun r s' => s' = s /\
    ((exists c, r = found c /\ 0 <= c < count /\ next_fit (get s) count start c) \/
     (r = fail /\ all_used (get s) count))) s) as Hw.
  { apply wp_done in Hw as (r & s' & ? & -> & ?). eauto. }
  eapply (wp_loop (fun cur s' => s' = s /\ exists k, 0 <= k < count /\ cur = (start + k) `mod` count /\
            forall j, 0 <= j < k -> bm_test (get s) ((start + j) `mod` count) = true)
          (fun cur _ => Z.to_nat (count - (cur - start) `mod` count))).
  - intros cur s' [-> (k & Hk & -> & Hused)].
    pose proof (Z.mod_pos_bound (start + k) count). unfold next_fit_body. wp_simpl.
    destruct (bit_index_in (get s) ((start + k) `mod` count) count) as [? Hlt]; [lia|done|].
    rewrite get_bit_eq by lia. wp_simpl.
    destruct (bm_test (get s) ((start + k) `mod` count)) eqn:Hbit.
    + rewrite u8_id by lia. rewrite mod_next by lia.
      assert (forall j, 0 <= j < k + 1 -> bm_test (get s) ((start + j) `mod` count) = true) as Hused'.
      { intros j Hj. destruct (decide (j = k)) as [->|]; [done|]. apply Hused. lia. }
      assert (start + k + 1 = start + (k + 1)) as Hassoc by lia.
      destruct (Z.eqb_spec ((start + (k + 1)) `mod` count) start) as [He|Hne]; wp_simpl.
      * split; [done|]. right. split; [done|]. apply (all_used_cycle _ _ start); [done|].
        assert (k + 1 = count).
        { destruct (decide (k + 1 = count)); [done|]. exfalso.
          apply mod_start in He; lia. }
        intros j Hj. apply Hused'. lia.
      * assert (k + 1 < count).
        { destruct (decide (k + 1 = count)) as [Heq|]; [|lia]. exfalso. apply Hne.
          rewrite Heq. replace (start + count) with (start + 1 * count) by lia.
          rewrite Z.mod_add, Z.mod_small; lia. }
        split.
        { split; [done|]. exists (k + 1). split; [lia|]. done. }
        rewrite !Zminus_mod_idemp_l. replace (start + (k + 1) - start) with (k + 1) by lia.
        replace (start + k - start) with k by lia. rewrite !Z.mod_small by lia. lia.
    + wp_simpl. split; [done|]. left. eexists. split; [done|]. split; [lia|].
      exists k. done.
  - split; [done|]. exists 0. rewrite Z.add_0_r, Z.mod_small by lia. split; [lia|]. split; [done|lia].
  - pose proof (Z.mod_pos_bound (start - start) count). lia.
Qed.

Lemma next_free_sector_spec start s :
  wf_base s -> 0 <= start < SECTOR_COUNT ->
  exists r, next_free_sector start s = Done r s /\
    ((0 <= r < SECTOR_COUNT /\ next_fit (used_sectors s) SECTOR_COUNT start r) \/
     (r = SECTOR_FREE /\ all_used (used_sectors s) SECTOR_COUNT)).
Proof.
  intros Hwf Hs.
  destruct (next_fit_loop used_sectors SECTOR_COUNT SECTOR_FREE (fun c => c) start s)
    as (r & Hr & Hcases); [apply geom_count|done|apply (wb_sectors s Hwf)|].
  exists r. split; [exact Hr|]. destruct Hcases as [(c & -> & ?)|?]; [by left|by right].
Qed.

Lemma next_free_entry_spec start s :
  wf_base s -> 0 <= start < EEPROMFS_ENTRIES ->
  (exists r, 0 <= r < EEPROMFS_ENTRIES /\ next_fit (used_entries s) EEPROMFS_ENTRIES start r /\
     next_free_entry start s = Done r (set_used_entries (bm_set (used_entries s) r true) s)) \/
  (all_used (used_entries s) EEPROMFS_ENTRIES /\ next_free_entry start s = Done 255 s).
Proof.
  intros Hwf Hs.
  destruct (next_fit_loop used_entries EEPROMFS_ENTRIES None Some start s)
    as (r & Hr & Hcases); [apply geom_entries|done|apply (wb_entries s Hwf)|].
  assert (next_free_entry start s = match r with
    | None => Done 255 s
    | Some cur => (bm ← gets used_entries; bm' ← of_option (set_bit bm cur true);
                   modify (set_used_entries bm');; mret cur) s end) as ->.
  { unfold next_free_entry. unfold mbind at 1, comp_bind at 1.
    change (loop 257 _ start s) with
      (loop 257 (next_fit_body used_entries EEPROMFS_ENTRIES None Some start) start s).
    rewrite Hr. by destruct r. }
  destruct Hcases as [(c & -> & Hc & Hf)|[-> Hu]]; [left|by right].
  exists c. split; [done|]. split; [done|].
  destruct (bit_index_in (used_entries s) c EEPROMFS_ENTRIES) as [? Hlt]; [done|apply (wb_entries s Hwf)|].
  unfold mbind, comp_bind, gets. by rewrite set_bit_eq by lia.
Qed.

Lemma mark_sector_eq sec used s :
  wf_base s -> 0 <= sec < SECTOR_COUNT -> bm_test (used_sectors s) sec = negb used ->
  mark_sector sec used s =
    Done tt (set_free_sectors (u8 (if used then free_sectors s - 1 else free_sectors s + 1))
              (set_used_sectors (bm_set (used_sectors s) sec used) s)).
Proof.
  intros Hwf Hsec Ht.
  destruct (bit_index_in (used_sectors s) sec SECTOR_COUNT) as [? Hlt]; [done|apply (wb_sectors s Hwf)|].
  unfold mark_sector, mbind, comp_bind, gets, modify.
  rewrite get_bit_eq, set_bit_eq by lia. simpl. rewrite Ht.
  unfold c_assert. by destruct used, CONFIG_ASSERTIONS.
Qed.

(** The counter [free_sectors] agrees with the bitmap. *)
Definition free_ok (s : eefs) : Prop := free_sectors s = free_count (used_sectors s) SECTOR_COUNT.

Lemma mark_sector_wf sec used s s' :
  wf_base s -> free_ok s -> 0 <= sec < SECTOR_COUNT -> bm_test (used_sectors s) sec = negb used ->
  mark_sector sec used s = Done tt s' ->
  wf_base s' /\ free_ok s' /\ eeprom s' = eeprom s /\ scratch s' = scratch s /\
  used_entries s' = used_entries s /\ used_sectors s' = bm_set (used_sectors s) sec used.
Proof.
  intros Hwf Hfree Hsec Ht Hm. rewrite mark_sector_eq in Hm by done. simplify_eq.
  destruct (bit_index_in (used_sectors s) sec SECTOR_COUNT) as [? Hlt]; [done|apply (wb_sectors s Hwf)|].
  pose proof geom_count. destruct Hwf.
  pose proof (free_count_range (used_sectors s) SECTOR_COUNT).
  assert (used = false -> bm_test (used_sectors s) sec = true) by (by intros ->).
  assert (free_count (bm_set (used_sectors s) sec used) SECTOR_COUNT =
          free_count (used_sectors s) SECTOR_COUNT + (if used then -1 else 1)) as Hc
    by (by apply free_count_set).
  pose proof (free_count_range (bm_set (used_sectors s) sec used) SECTOR_COUNT).
  split; [|split]; simpl; try done.
  - split; simpl; try done; [by rewrite zlen_bm_set by lia|by apply bytes_bm_set].
  - unfold free_ok in *. simpl. rewrite Hc, <- Hfree in *.
    destruct used; rewrite u8_id; lia.
Qed.
End next_fit.
