(* ===== verification/EepromFsInv.v ===== *)
(** * eeprom-fs.c: the file system invariant

    A file is described by its chain of directory entries, each with the
    sectors it lists.  [fs_inv] says that the directory on the EEPROM is a
    set of such chains, disjoint in entries and sectors, and that the
    bitmaps and the free counter in RAM agree with it. *)

From stdpp Require Import gmap.
From S2P Require Import Prelude EepromFs EepromFsFacts.

Ltac Zify.zify_pre_hook ::= unfold_consts.

(** A chain: directory entries in order, each with its sectors. *)
Abbreviation file := (list (Z * list Z)).
Definition f_entries (f : file) : list Z := f.*1.
Definition f_sectors (f : file) : list Z := concat f.*2.
Definition f_first (f : file) : Z := default 0 (fst <$> head f).

(** Sectors an entry can list: the first of a chain is a name entry. *)
Definition cap (k : nat) : Z := if decide (k = 0%nat) then 12 else 30.

Section invariant.
Context `{EepromGeom}.
Implicit Types d : Z -> list Z.

(** The entry [i] as [k]-th of a chain, listing the sectors [ss]. *)
Record ent_ok (d : Z -> list Z) (k : nat) (i : Z) (ss : list Z) : Prop := {
  eo_range : 0 <= i < EEPROMFS_ENTRIES;
  eo_live : e_deleted (d i) = false;
  eo_list : e_islist (d i) = negb (bool_decide (k = 0%nat));
  eo_cap : zlen ss <= cap k;
  eo_secs : Forall (fun x => 0 <= x < SECTOR_COUNT) ss;
  eo_bytes : forall p, 0 <= p < cap k ->
    nthZ (d i) p = if p <? zlen ss then nthZ ss p else 255
}.

Definition next_of (f : file) (k : nat) : Z :=
  match f !! S k with Some (j, _) => j | None => 255 end.

Record chain_ok (d : Z -> list Z) (f : file) : Prop := {
  co_nonempty : f <> [];
  co_ent : forall k i ss, f !! k = Some (i, ss) -> ent_ok d k i ss;
  co_next : forall k i ss, f !! k = Some (i, ss) -> e_next (d i) = next_of f k;
  co_full : forall k i ss, f !! k = Some (i, ss) -> (S k < length f)%nat -> zlen ss = cap k;
  co_entries : NoDup (f_entries f);
  co_sectors : NoDup (f_sectors f)
}.

Record file_ok (d : Z -> list Z) (n : list Z) (f : file) : Prop := {
  fo_chain : chain_ok d f;
  fo_zlen : zlen n = EEFS_NAME_LENGTH;
  fo_name : e_name (d (f_first f)) = n;
  fo_size : e_size (d (f_first f)) <= EEPROMFS_SECTORSIZE * zlen (f_sectors f)
}.

Abbreviation files_t := (gmap (list Z) file).

(** The directory is a set of disjoint chains, one per name. *)
Record disk_ok (d : Z -> list Z) (files : files_t) : Prop := {
  dk_file : forall n f, files !! n = Some f -> file_ok d n f;
  dk_entries : forall n1 f1 n2 f2 i, files !! n1 = Some f1 -> files !! n2 = Some f2 ->
    i ∈ f_entries f1 -> i ∈ f_entries f2 -> n1 = n2;
  dk_sectors : forall n1 f1 n2 f2 x, files !! n1 = Some f1 -> files !! n2 = Some f2 ->
    x ∈ f_sectors f1 -> x ∈ f_sectors f2 -> n1 = n2;
  dk_live : forall i, 0 <= i < EEPROMFS_ENTRIES -> e_deleted (d i) = false ->
    exists n f, files !! n = Some f /\ i ∈ f_entries f
}.

Definition sector_used (files : files_t) (x : Z) : Prop :=
  exists n f, files !! n = Some f /\ x ∈ f_sectors f.
Definition entry_used (files : files_t) (i : Z) : Prop :=
  exists n f, files !! n = Some f /\ i ∈ f_entries f.

(** The bitmaps and the counter in RAM.  [used_entries] may hold more than
    the live entries: [eepromfs_delete] does not clear it. *)
Record maps_ok (s : eefs) (files : files_t) : Prop := {
  mo_sectors : forall x, 0 <= x < SECTOR_COUNT ->
    bm_test (used_sectors s) x = true <-> sector_used files x;
  mo_entries : forall i, 0 <= i < EEPROMFS_ENTRIES -> entry_used files i ->
    bm_test (used_entries s) i = true;
  mo_free : free_ok s
}.

Record fs_inv (s : eefs) (files : files_t) : Prop := {
  fi_base : wf_base s;
  fi_disk : disk_ok (ent s) files;
  fi_maps : maps_ok s files
}.

(** The bytes of a list of sectors, and the contents of a file. *)
Definition content (s : eefs) (secs : list Z) : list Z :=
  concat ((fun x => slice (sector_addr x 0) EEPROMFS_SECTORSIZE (eeprom s)) <$> secs).
Definition f_data (s : eefs) (f : file) : list Z :=
  slice 0 (e_size (ent s (f_first f))) (content s (f_sectors f)).

(** The abstract file system: names to contents. *)
Definition view (s : eefs) (files : files_t) : gmap (list Z) (list Z) := f_data s <$> files.
End invariant.

Section chains.
Context `{EepromGeomOk}.
Implicit Types d : Z -> list Z.

Lemma f_entries_app f1 f2 : f_entries (f1 ++ f2) = f_entries f1 ++ f_entries f2.
Proof. apply fmap_app. Qed.
Lemma f_sectors_app f1 f2 : f_sectors (f1 ++ f2) = f_sectors f1 ++ f_sectors f2.
Proof. unfold f_sectors. by rewrite fmap_app, concat_app. Qed.
Lemma f_sectors_one i ss : f_sectors [(i, ss)] = ss.
Proof. apply app_nil_r. Qed.
Lemma f_first_app f1 f2 : f1 <> [] -> f_first (f1 ++ f2) = f_first f1.
Proof. by destruct f1. Qed.

Lemma f_first_in f : f <> [] -> f_first f ∈ f_entries f.
Proof. destruct f as [|[i ss] f]; [done|]. intros _. apply list_elem_of_here. Qed.

Lemma f_entries_lookup f i : i ∈ f_entries f <-> exists k ss, f !! k = Some (i, ss).
Proof.
  unfold f_entries. rewrite list_elem_of_lookup. setoid_rewrite list_lookup_fmap.
  setoid_rewrite fmap_Some. split.
  - intros (k & [j ss] & ? & ->). eauto.
  - intros (k & ss & ?). exists k, (i, ss). done.
Qed.

Lemma f_sectors_elem f x : x ∈ f_sectors f <-> exists k i ss, f !! k = Some (i, ss) /\ x ∈ ss.
Proof.
  unfold f_sectors. rewrite list_elem_of_In, in_concat. split.
  - intros (ss & Hss & Hx). apply list_elem_of_In, list_elem_of_fmap in Hss as ([i ss'] & -> & Hin).
    apply list_elem_of_lookup in Hin as [k Hk]. exists k, i, ss'. by rewrite list_elem_of_In.
  - intros (k & i & ss & Hk & Hx). exists ss. rewrite <- !list_elem_of_In. split; [|done].
    apply list_elem_of_fmap. exists (i, ss). split; [done|]. by eapply list_elem_of_lookup_2.
Qed.

Lemma chain_sector_range d f x : chain_ok d f -> x ∈ f_sectors f -> 0 <= x < SECTOR_COUNT.
Proof.
  intros Hf (k & i & ss & Hk & Hx)%f_sectors_elem.
  pose proof (eo_secs _ _ _ _ (co_ent d f Hf k i ss Hk)) as Hss.
  rewrite Forall_forall in Hss. by apply Hss.
Qed.

Lemma chain_entry_range d f i : chain_ok d f -> i ∈ f_entries f -> 0 <= i < EEPROMFS_ENTRIES.
Proof. intros Hf (k & ss & Hk)%f_entries_lookup. by eapply eo_range, co_ent. Qed.

(** Only the entries of the chain matter. *)
Lemma chain_ok_ext d d' f :
  (forall i, i ∈ f_entries f -> d' i = d i) -> chain_ok d f -> chain_ok d' f.
Proof.
  intros Heq [Hne Hent Hnext Hfull He Hs].
  assert (forall k i ss, f !! k = Some (i, ss) -> d' i = d i) as Heq'.
  { intros k i ss Hk. apply Heq, f_entries_lookup. eauto. }
  split; try done.
  - intros k i ss Hk. destruct (Hent k i ss Hk). split; rewrite ?(Heq' k i ss Hk); done.
  - intros k i ss Hk. rewrite (Heq' k i ss Hk). by eapply Hnext.
Qed.

Lemma file_ok_ext d d' n f :
  (forall i, i ∈ f_entries f -> d' i = d i) -> file_ok d n f -> file_ok d' n f.
Proof.
  intros Heq [Hc ???]. split; [by eapply chain_ok_ext|done|..];
    rewrite Heq by (apply f_first_in, Hc); done.
Qed.

Lemma next_of_last f i ss : next_of (f ++ [(i, ss)]) (length f) = 255.
Proof.
  unfold next_of. rewrite lookup_ge_None_2; [done|]. rewrite length_app. simpl. lia.
Qed.

Lemma next_of_app f g k : (S k < length f)%nat -> next_of (f ++ g) k = next_of f k.
Proof. intros. unfold next_of. by rewrite lookup_app_l by lia. Qed.

(** Looking up a chain whose last entry was replaced. *)
Lemma lookup_snoc_inv (f : file) i ss k j sj :
  (f ++ [(i, ss)]) !! k = Some (j, sj) ->
  (k < length f)%nat /\ f !! k = Some (j, sj) \/ k = length f /\ j = i /\ sj = ss.
Proof.
  intros Hk. destruct (decide (k < length f)%nat).
  - rewrite lookup_app_l in Hk by lia. by left.
  - right. rewrite lookup_app_r in Hk by lia.
    destruct (k - length f)%nat eqn:E; [|done]. simpl in Hk. simplify_eq. split; [lia|done].
Qed.

Lemma lookup_snoc_last (f : file) i ss : (f ++ [(i, ss)]) !! length f = Some (i, ss).
Proof. by rewrite lookup_app_r, Nat.sub_diag by lia. Qed.

Lemma chain_last_unique d f i ss k sk :
  chain_ok d (f ++ [(i, ss)]) -> f !! k = Some (i, sk) -> False.
Proof.
  intros Hf Hk. pose proof (co_entries _ _ Hf) as Hnd.
  rewrite f_entries_app in Hnd. apply NoDup_app in Hnd as (_ & Hdis & _).
  apply (Hdis i); [apply f_entries_lookup; eauto|apply list_elem_of_here].
Qed.

(** Fields of an entry after one sector slot or the link was written. *)
Lemma e_fields_slot e p x :
  zlen e = 32 -> 0 <= p < 30 ->
  e_flags (splice p [x] e) = e_flags e /\ e_next (splice p [x] e) = e_next e.
Proof.
  intros He Hp. unfold e_flags, e_next. rewrite !nthZ_splice by (arr; unfold_consts; lia). arr.
  unfold_consts. case_bools; lia || done.
Qed.

Lemma e_head_slot e p x :
  zlen e = 32 -> 0 <= p < 12 ->
  e_name (splice p [x] e) = e_name e /\ e_size (splice p [x] e) = e_size e.
Proof.
  intros He Hp. unfold e_name, e_size. rewrite !nthZ_splice by (arr; unfold_consts; lia). arr.
  unfold_consts. rewrite slice_splice_ne by (arr). case_bools; lia || done.
Qed.

Lemma e_fields_next e j :
  zlen e = 32 ->
  e_flags (splice 31 [j] e) = e_flags e /\ e_next (splice 31 [j] e) = j /\
  e_name (splice 31 [j] e) = e_name e /\ e_size (splice 31 [j] e) = e_size e.
Proof.
  intros He. unfold e_flags, e_next, e_name, e_size.
  rewrite !nthZ_splice by (arr; unfold_consts; lia). arr.
  unfold_consts. rewrite slice_splice_ne by arr. case_bools; lia || done.
Qed.

Lemma e_deleted_flags e e' : e_flags e' = e_flags e -> e_deleted e' = e_deleted e.
Proof. unfold e_deleted. by intros ->. Qed.
Lemma e_islist_flags e e' : e_flags e' = e_flags e -> e_islist e' = e_islist e.
Proof. unfold e_islist. by intros ->. Qed.

Lemma cap_le k : 12 <= cap k <= 30.
Proof. unfold cap. case_decide; lia. Qed.

(** A sector appended to the last entry of a chain. *)
Lemma chain_add_sector d d' f i ss x :
  chain_ok d (f ++ [(i, ss)]) -> zlen (d i) = 32 ->
  zlen ss < cap (length f) -> 0 <= x < SECTOR_COUNT -> x ∉ f_sectors (f ++ [(i, ss)]) ->
  d' i = splice (zlen ss) [x] (d i) -> (forall j, j <> i -> d' j = d j) ->
  chain_ok d' (f ++ [(i, ss ++ [x])]).
Proof.
  intros Hf Hd Hcap Hx Hnew Hdi Hdj. pose proof (cap_le (length f)). pose proof (zlen_nonneg ss).
  destruct (e_fields_slot (d i) (zlen ss) x) as [Hfl Hnx]; [done|lia|]. rewrite <- Hdi in *.
  pose proof (lookup_snoc_last f i ss) as Hlast.
  split.
  - by destruct f.
  - intros k j sj [[Hlt Hk]|(-> & -> & ->)]%lookup_snoc_inv.
    + assert (j <> i) by (intros ->; by eapply chain_last_unique).
      destruct (co_ent _ _ Hf k j sj) as [????? Hb]; [by rewrite lookup_app_l|].
      split; rewrite ?Hdj by done; done.
    + destruct (co_ent _ _ Hf _ _ _ Hlast) as [? Hl Hi ? Hs Hb].
      split; [done|by rewrite (e_deleted_flags _ _ Hfl)|by rewrite (e_islist_flags _ _ Hfl)| | |].
      * arr.
      * apply Forall_app. split; [done|]. by apply Forall_singleton.
      * intros p Hp. rewrite Hdi, nthZ_splice by arr. rewrite nthZ_app by lia. arr.
        case_bools; try lia; rewrite ?Hb by lia; case_bools; lia || done.
  - intros k j sj [[Hlt Hk]|(-> & -> & ->)]%lookup_snoc_inv.
    + assert (j <> i) by (intros ->; by eapply chain_last_unique).
      rewrite Hdj by done. rewrite (co_next _ _ Hf k j sj) by (by rewrite lookup_app_l).
      unfold next_of. destruct (decide (S k < length f)%nat).
      * by rewrite !lookup_app_l by lia.
      * rewrite !lookup_app_r by lia. by replace (S k - length f)%nat with 0%nat by lia.
    + rewrite Hnx, (co_next _ _ Hf _ _ _ Hlast). by rewrite !next_of_last.
  - intros k j sj [[Hlt Hk]|(-> & -> & ->)]%lookup_snoc_inv; rewrite length_app; simpl; [|lia].
    intros _. apply (co_full _ _ Hf k j sj); [by rewrite lookup_app_l|rewrite length_app; simpl; lia].
  - pose proof (co_entries _ _ Hf) as Hnd. by rewrite f_entries_app in *.
  - pose proof (co_sectors _ _ Hf) as Hnd. rewrite f_sectors_app, f_sectors_one in *.
    rewrite app_assoc. apply NoDup_app. split; [done|]. split; [|apply NoDup_singleton].
    intros y Hy ->%list_elem_of_singleton. by apply Hnew.
Qed.

(** A new list entry, holding one sector, linked behind a full chain. *)
Lemma chain_add_entry d d' f i ss j x :
  chain_ok d (f ++ [(i, ss)]) -> zlen (d i) = 32 ->
  zlen ss = cap (length f) -> 0 <= x < SECTOR_COUNT -> x ∉ f_sectors (f ++ [(i, ss)]) ->
  0 <= j < EEPROMFS_ENTRIES -> j ∉ f_entries (f ++ [(i, ss)]) ->
  d' i = splice 31 [j] (d i) ->
  d' j = splice 0 [x] (splice OFS_FLAGS [EEFS_FLAG_LISTENTRY] (fill ENTRY_SIZE 255)) ->
  (forall m, m <> i -> m <> j -> d' m = d m) ->
  chain_ok d' ((f ++ [(i, ss)]) ++ [(j, [x])]).
Proof.
  intros Hf Hd Hcap Hx Hnew Hj Hnewj Hdi Hdj Hdm. pose proof (cap_le (length f)).
  destruct (e_fields_next (d i) j Hd) as (Hfl & Hnx & _). rewrite <- Hdi in *.
  pose proof (lookup_snoc_last f i ss) as Hlast.
  assert (forall k m sm, (f ++ [(i, ss)]) !! k = Some (m, sm) -> m <> j) as Hmj.
  { intros k m sm Hk ->. apply Hnewj, f_entries_lookup. eauto. }
  assert (forall p, 0 <= p < 30 -> nthZ (d' i) p = nthZ (d i) p) as Hbi.
  { intros p Hp. rewrite Hdi, nthZ_splice by arr. arr. case_bools; lia || done. }
  split.
  - by destruct f.
  - intros k m sm [[Hlt Hk]|(-> & -> & ->)]%lookup_snoc_inv.
    + pose proof (Hmj _ _ _ Hk). destruct (co_ent _ _ Hf k m sm Hk) as [? Hl Hi ? Hs Hb].
      destruct (decide (m = i)) as [->|].
      * split; rewrite ?(e_deleted_flags _ _ Hfl), ?(e_islist_flags _ _ Hfl); try done.
        intros p Hp. pose proof (cap_le k). rewrite Hbi by lia. by apply Hb.
      * split; rewrite ?Hdm by done; done.
    + rewrite length_app. simpl length.
      assert (cap (length f + 1) = 30) as Hc by (unfold cap; by rewrite decide_False by lia).
      assert (bool_decide (length f + 1 = 0)%nat = false) as Hb
        by (apply bool_decide_eq_false_2; lia).
      split; rewrite ?Hdj, ?Hc, ?Hb; try done; [by apply Forall_singleton|].
      intros p Hp. unfold OFS_FLAGS, ENTRY_SIZE. rewrite !nthZ_splice by arr. rewrite nthZ_fill by lia. arr.
      case_bools; try lia; done || (by replace (p - 0) with p by lia).
  - intros k m sm [[Hlt Hk]|(-> & -> & ->)]%lookup_snoc_inv.
    + pose proof (Hmj _ _ _ Hk). destruct (decide (S k < length (f ++ [(i, ss)]))%nat) as [Hlt'|].
      * rewrite next_of_app by done.
        assert (m <> i).
        { intros ->. rewrite length_app in Hlt'. simpl in Hlt'.
          eapply (chain_last_unique d f i ss k sm); [done|]. by rewrite lookup_app_l in Hk by lia. }
        rewrite Hdm by done. by apply (co_next _ _ Hf k m sm).
      * assert (k = length f) as -> by (rewrite length_app in *; simpl in *; lia).
        rewrite Hlast in Hk. injection Hk as <- <-. rewrite Hnx. unfold next_of.
        rewrite lookup_app_r by (rewrite length_app; simpl; lia).
        rewrite length_app. simpl. by replace (S (length f) - (length f + 1))%nat with 0%nat by lia.
    + rewrite next_of_last, Hdj. reflexivity.
  - intros k m sm [[Hlt Hk]|(-> & -> & ->)]%lookup_snoc_inv; rewrite !length_app in *; simpl in *; [|lia].
    intros _. destruct (decide (k = length f)) as [->|].
    + rewrite Hlast in Hk. by simplify_eq.
    + apply (co_full _ _ Hf k m sm); [done|rewrite length_app; simpl; lia].
  - rewrite f_entries_app. apply NoDup_app. split; [apply (co_entries _ _ Hf)|].
    split; [|apply NoDup_singleton]. by intros y Hy ->%list_elem_of_singleton.
  - rewrite f_sectors_app, f_sectors_one. apply NoDup_app. split; [apply (co_sectors _ _ Hf)|].
    split; [|apply NoDup_singleton]. by intros y Hy ->%list_elem_of_singleton.
Qed.
End chains.

(** ** Sectors and contents *)
Section contents.
Context `{EepromGeomOk}.
Implicit Types s : eefs.

Lemma sector_addr_range s x o :
  wf_base s -> 0 <= x < SECTOR_COUNT -> 0 <= o < EEPROMFS_SECTORSIZE ->
  DATA_OFFSET <= sector_addr x o /\ sector_addr x 0 + EEPROMFS_SECTORSIZE <= zlen (eeprom s).
Proof.
  intros Hwf Hx Ho. pose proof (wb_eeprom s Hwf). pose proof geom_sectorsize.
  assert (SECTOR_COUNT * EEPROMFS_SECTORSIZE <= EEPROMFS_SIZE - EEPROMFS_ENTRIES * ENTRY_SIZE).
  { unfold SECTOR_COUNT. rewrite Z.mul_comm. apply Z.mul_div_le. lia. }
  unfold sector_addr, DATA_OFFSET in *. split; nia.
Qed.

Lemma sector_addr_inj x o y p :
  0 <= o < EEPROMFS_SECTORSIZE -> 0 <= p < EEPROMFS_SECTORSIZE ->
  sector_addr x o = sector_addr y p -> x = y /\ o = p.
Proof.
  intros Ho Hp He. unfold sector_addr in He.
  assert (x = y) by (destruct (Z.lt_trichotomy x y) as [?|[?|?]]; nia). split; [done|]. nia.
Qed.

Lemma data_offset_nonneg : 0 <= DATA_OFFSET.
Proof. pose proof geom_offset. pose proof geom_entries. unfold_consts. lia. Qed.

Definition secs_in (secs : list Z) : Prop := Forall (fun x => 0 <= x < SECTOR_COUNT) secs.

Lemma secs_in_nth secs i : secs_in secs -> 0 <= i < zlen secs -> 0 <= nthZ secs i < SECTOR_COUNT.
Proof.
  intros Hs Hi. unfold secs_in in Hs. rewrite Forall_lookup in Hs.
  apply (Hs (Z.to_nat i)). by apply nthZ_lookup.
Qed.

Lemma chain_secs_in d f : chain_ok d f -> secs_in (f_sectors f).
Proof. intros Hf. apply Forall_forall. intros x. by eapply chain_sector_range. Qed.

Lemma content_cons s x secs :
  content s (x :: secs) = slice (sector_addr x 0) EEPROMFS_SECTORSIZE (eeprom s) ++ content s secs.
Proof. reflexivity. Qed.

Lemma zlen_content s secs :
  wf_base s -> secs_in secs -> zlen (content s secs) = EEPROMFS_SECTORSIZE * zlen secs.
Proof.
  intros Hwf. pose proof geom_sectorsize. pose proof data_offset_nonneg.
  induction 1 as [|x secs Hx ? IH]; [simpl; unfold zlen; simpl; lia|].
  destruct (sector_addr_range s x 0 Hwf Hx); [lia|].
  rewrite content_cons, zlen_app, zlen_cons, zlen_slice, IH by lia. lia.
Qed.

Lemma nthZ_content s secs p :
  wf_base s -> secs_in secs -> 0 <= p < EEPROMFS_SECTORSIZE * zlen secs ->
  nthZ (content s secs) p =
    nthZ (eeprom s) (sector_addr (nthZ secs (p / EEPROMFS_SECTORSIZE)) (p `mod` EEPROMFS_SECTORSIZE)).
Proof.
  intros Hwf Hs. pose proof geom_sectorsize. pose proof data_offset_nonneg. revert p.
  induction Hs as [|x secs Hx Hs IH]; intros p; [rewrite (@zlen_nil Z); lia|].
  rewrite zlen_cons. intros Hp. destruct (sector_addr_range s x 0 Hwf Hx); [lia|].
  rewrite content_cons, nthZ_app, zlen_slice by lia.
  pose proof (Z.div_pos p EEPROMFS_SECTORSIZE). rewrite nthZ_cons by lia.
  destruct (Z.ltb_spec p EEPROMFS_SECTORSIZE).
  - rewrite Z.div_small, Z.mod_small by lia. simpl. rewrite nthZ_slice by lia.
    f_equal. unfold sector_addr. lia.
  - rewrite IH by lia. replace p with (p - EEPROMFS_SECTORSIZE + 1 * EEPROMFS_SECTORSIZE) at 3 4 by lia.
    rewrite Z.div_add, Z.mod_add by lia.
    pose proof (Z.div_pos (p - EEPROMFS_SECTORSIZE) EEPROMFS_SECTORSIZE).
    replace (p / EEPROMFS_SECTORSIZE) with ((p - EEPROMFS_SECTORSIZE) / EEPROMFS_SECTORSIZE + 1)
      by (rewrite <- Z.div_add by lia; f_equal; lia).
    destruct (Z.eqb_spec ((p - EEPROMFS_SECTORSIZE) / EEPROMFS_SECTORSIZE + 1) 0); [lia|].
    by rewrite Z.add_simpl_r.
Qed.

(** Contents only depend on the bytes of the sectors. *)
Definition same_sector (s s' : eefs) (x : Z) : Prop :=
  slice (sector_addr x 0) EEPROMFS_SECTORSIZE (eeprom s')
    = slice (sector_addr x 0) EEPROMFS_SECTORSIZE (eeprom s).

Lemma content_ext s s' secs :
  (forall x, x ∈ secs -> same_sector s s' x) -> content s' secs = content s secs.
Proof.
  induction secs as [|x secs IH]; intros Hs; [done|].
  rewrite !content_cons, IH by (intros; apply Hs; by apply list_elem_of_further).
  by rewrite Hs by apply list_elem_of_here.
Qed.

Lemma same_sector_with_ent i e s x :
  wf_base s -> 0 <= i < EEPROMFS_ENTRIES -> zlen e = 32 -> 0 <= x < SECTOR_COUNT ->
  same_sector s (with_ent i e s) x.
Proof.
  intros Hwf Hi He Hx. destruct (entry_in_range s i Hwf Hi) as (?&?&?).
  pose proof geom_sectorsize. destruct (sector_addr_range s x 0 Hwf Hx); [lia|].
  unfold same_sector, with_ent. simpl. apply slice_splice_ne; lia.
Qed.

(** A transfer of [bs] into sector [y] leaves the other sectors and the
    directory alone. *)
Lemma same_sector_write s x y o bs :
  wf_base s -> 0 <= x < SECTOR_COUNT -> 0 <= y < SECTOR_COUNT -> x <> y ->
  0 <= o -> o + zlen bs <= EEPROMFS_SECTORSIZE ->
  same_sector s (set_eeprom (splice (sector_addr y o) bs (eeprom s)) s) x.
Proof.
  intros Hwf Hx Hy Hne Ho Hle. pose proof geom_sectorsize. pose proof data_offset_nonneg.
  destruct (sector_addr_range s x 0 Hwf Hx); [lia|]. destruct (sector_addr_range s y 0 Hwf Hy); [lia|].
  pose proof (zlen_nonneg bs). unfold same_sector. simpl.
  assert (sector_addr y o = sector_addr y 0 + o) by (unfold sector_addr; lia).
  assert (sector_addr x 0 + EEPROMFS_SECTORSIZE <= sector_addr y 0 \/
          sector_addr y 0 + EEPROMFS_SECTORSIZE <= sector_addr x 0).
  { unfold sector_addr in *. destruct (Z.lt_trichotomy x y) as [?|[?|?]]; nia. }
  apply slice_splice_ne; lia.
Qed.

Lemma ent_write s i y o bs :
  wf_base s -> 0 <= i < EEPROMFS_ENTRIES -> 0 <= y < SECTOR_COUNT ->
  0 <= o -> o + zlen bs <= EEPROMFS_SECTORSIZE ->
  ent (set_eeprom (splice (sector_addr y o) bs (eeprom s)) s) i = ent s i.
Proof.
  intros Hwf Hi Hy Ho Hle. pose proof geom_sectorsize. pose proof data_offset_nonneg.
  destruct (entry_in_range s i Hwf Hi) as (?&?&?). destruct (sector_addr_range s y 0 Hwf Hy); [lia|].
  pose proof (zlen_nonneg bs). assert (sector_addr y o = sector_addr y 0 + o) by (unfold sector_addr; lia).
  unfold ent. simpl. apply slice_splice_ne; lia.
Qed.

Lemma wf_write s y o bs :
  wf_base s -> 0 <= y < SECTOR_COUNT -> 0 <= o -> o + zlen bs <= EEPROMFS_SECTORSIZE ->
  bytes bs -> wf_base (set_eeprom (splice (sector_addr y o) bs (eeprom s)) s).
Proof.
  intros Hwf Hy Ho Hle Hb. pose proof geom_sectorsize. pose proof data_offset_nonneg.
  destruct (sector_addr_range s y 0 Hwf Hy); [lia|]. pose proof (zlen_nonneg bs).
  assert (sector_addr y o = sector_addr y 0 + o) by (unfold sector_addr; lia).
  destruct Hwf. split; simpl; try done; [arr|by apply bytes_splice].
Qed.
End contents.

(** ** Updating one file *)
Section update.
Context `{EepromGeomOk}.
Implicit Types s : eefs.

Lemma disk_ok_insert d d' files n f' :
  disk_ok d files -> file_ok d' n f' ->
  (forall i, 0 <= i < EEPROMFS_ENTRIES -> i ∉ f_entries f' -> d' i = d i) ->
  (forall f i, files !! n = Some f -> i ∈ f_entries f -> i ∈ f_entries f') ->
  (forall m g i, m <> n -> files !! m = Some g -> i ∈ f_entries g -> i ∉ f_entries f') ->
  (forall m g x, m <> n -> files !! m = Some g -> x ∈ f_sectors g -> x ∉ f_sectors f') ->
  disk_ok d' (<[n := f']> files).
Proof.
  intros [Hfile Hde Hds Hlive] Hf' Hd' Hsub Hne Hns. split.
  - intros m g. rewrite lookup_insert_Some. intros [[<- <-]|[Hmn Hg]]; [done|].
    apply (file_ok_ext d); [|by apply Hfile]. intros i Hi. apply Hd'; [|by eapply Hne].
    by eapply chain_entry_range, Hi; eapply fo_chain, Hfile.
  - intros n1 f1 n2 f2 i. rewrite !lookup_insert_Some.
    intros [[<- <-]|[H1 H1']] [[<- <-]|[H2 H2']] Hi1 Hi2; try done.
    + by destruct (Hne _ _ _ (not_eq_sym H2) H2' Hi2).
    + by destruct (Hne _ _ _ (not_eq_sym H1) H1' Hi1).
    + by eapply Hde.
  - intros n1 f1 n2 f2 i. rewrite !lookup_insert_Some.
    intros [[<- <-]|[H1 H1']] [[<- <-]|[H2 H2']] Hi1 Hi2; try done.
    + by destruct (Hns _ _ _ (not_eq_sym H2) H2' Hi2).
    + by destruct (Hns _ _ _ (not_eq_sym H1) H1' Hi1).
    + by eapply Hds.
  - intros i Hi Hdel. destruct (decide (i ∈ f_entries f')) as [Hin|Hnin].
    + exists n, f'. by rewrite lookup_insert_eq.
    + rewrite Hd' in Hdel by done. destruct (Hlive i Hi Hdel) as (m & g & Hg & Hig).
      exists m, g. split; [|done]. rewrite lookup_insert_ne; [done|].
      intros ->. by apply Hnin, (Hsub g).
Qed.

(** The view after one file changed and the others kept their bytes. *)
Lemma view_insert s s' files n f' :
  disk_ok (ent s) files -> disk_ok (ent s') (<[n := f']> files) ->
  (forall m g i, m <> n -> files !! m = Some g -> i ∈ f_entries g -> ent s' i = ent s i) ->
  (forall m g x, m <> n -> files !! m = Some g -> x ∈ f_sectors g -> same_sector s s' x) ->
  view s' (<[n := f']> files) = <[n := f_data s' f']> (view s files).
Proof.
  intros Hd Hd' He Hs. unfold view. rewrite fmap_insert. apply map_eq. intros m.
  destruct (decide (m = n)) as [->|Hmn]; [by rewrite !lookup_insert_eq|].
  rewrite !lookup_insert_ne, !lookup_fmap by done. destruct (files !! m) as [g|] eqn:Hg; [|done].
  simpl. f_equal. unfold f_data.
  rewrite (content_ext s s') by (intros; by eapply Hs).
  rewrite (He m g) by (done || apply f_first_in, (co_nonempty (ent s)), (fo_chain _ m), Hd, Hg). done.
Qed.
End update.
