(* ===== verification/EepromFsFile.v ===== *)
(** * eeprom-fs.c: creating and writing a file

    [find_entry], the creation of a name entry, the sector allocation of the
    write path, the write loop and [eepromfs_close] against the invariant of
    [EepromFsInv]. *)

From stdpp Require Import gmap.
From S2P Require Import Prelude EepromFs EepromFsFacts EepromFsInv.

Ltac Zify.zify_pre_hook ::= unfold_consts.

Section lookup.
Context `{EepromGeomOk} `{Assertions}.
Implicit Types s : eefs.

(** States that differ in the buffer only. *)
Definition rebuf (s s' : eefs) : Prop := exists b, zlen b = 32 /\ bytes b /\ s' = with_buf b s.

Lemma rebuf_refl s : wf_base s -> rebuf s s.
Proof.
  intros Hwf. exists (buf s). split; [by apply zlen_buf|]. split; [by apply bytes_buf|].
  pose proof (wb_scratch s Hwf). unfold with_buf, buf. destruct s; simpl in *. unfold set_scratch. simpl.
  f_equal. symmetry. apply splice_slice; unfold_consts; lia.
Qed.

Lemma rebuf_with_buf s s' e : wf_base s -> rebuf s s' -> zlen e = 32 -> bytes e -> rebuf s (with_buf e s').
Proof. intros Hwf (b & ? & ? & ->) ? ?. exists e. by rewrite with_buf_with_buf. Qed.

Lemma rebuf_wf s s' : wf_base s -> rebuf s s' -> wf_base s'.
Proof. intros ? (b & ? & ? & ->). by apply wf_with_buf. Qed.

Lemma rebuf_eeprom s s' : rebuf s s' -> eeprom s' = eeprom s.
Proof. by intros (b & ? & ? & ->). Qed.

Lemma rebuf_ent s s' i : rebuf s s' -> ent s' i = ent s i.
Proof. by intros (b & ? & ? & ->). Qed.

Lemma fs_inv_rebuf s s' files : rebuf s s' -> fs_inv s files -> fs_inv s' files.
Proof.
  intros Hr [Hwf Hd [Hms Hme Hmf]]. pose proof Hr as (b & Hb & ? & ->).
  split; [by apply wf_with_buf|done|split; done].
Qed.

Lemma view_rebuf s s' files : rebuf s s' -> view s' files = view s files.
Proof. by intros (b & Hb & ? & ->). Qed.

(** Loading an entry into the buffer. *)
Lemma read_entry_rebuf s s' i :
  wf_base s -> rebuf s s' -> 0 <= i < EEPROMFS_ENTRIES ->
  read_entry i s' = Done tt (with_buf (ent s i) s') /\
  rebuf s (with_buf (ent s i) s') /\ buf (with_buf (ent s i) s') = ent s i.
Proof.
  intros Hwf Hr Hi. pose proof (rebuf_wf s s' Hwf Hr) as Hwf'. rewrite <- (rebuf_ent s s' i Hr).
  split; [by apply read_entry_eq|]. split; [|apply buf_with_buf; [done|by apply zlen_ent]].
  apply rebuf_with_buf; [done|done|by apply zlen_ent|by apply bytes_ent].
Qed.

Lemma flags_test e :
  negb (Z.land (nthZ e OFS_FLAGS) (Z.lor EEFS_FLAG_DELETED EEFS_FLAG_LISTENTRY) =? 0)
    = e_deleted e || e_islist e.
Proof.
  unfold e_deleted, e_islist, e_flags. rewrite Z.land_lor_distr_r, <- negb_andb. f_equal.
  destruct (Z.eqb_spec (Z.land (nthZ e OFS_FLAGS) EEFS_FLAG_DELETED) 0) as [->|Hne]; [done|].
  apply Z.eqb_neq. rewrite Z.lor_eq_0_iff. tauto.
Qed.

(** A live name entry is the head of a file, and conversely. *)
Lemma head_entry d files n f :
  disk_ok d files -> files !! n = Some f ->
  0 <= f_first f < EEPROMFS_ENTRIES /\ e_deleted (d (f_first f)) = false /\
  e_islist (d (f_first f)) = false /\ e_name (d (f_first f)) = n.
Proof.
  intros Hd Hf. destruct (dk_file _ _ Hd n f Hf) as [Hc _ Hn _].
  destruct f as [|[i ss] f]; [by destruct (co_nonempty _ _ Hc)|].
  destruct (co_ent _ _ Hc 0%nat i ss) as [? ? Hl]; done.
Qed.

Lemma live_is_head d files i :
  disk_ok d files -> 0 <= i < EEPROMFS_ENTRIES -> e_deleted (d i) = false -> e_islist (d i) = false ->
  exists f, files !! e_name (d i) = Some f /\ f_first f = i.
Proof.
  intros Hd Hi Hdel Hl. destruct (dk_live _ _ Hd i Hi Hdel) as (n & f & Hf & (k & ss & Hk)%f_entries_lookup).
  destruct (dk_file _ _ Hd n f Hf) as [Hc _ Hn _]. destruct (co_ent _ _ Hc k i ss Hk) as [_ _ Hl' _ _ _].
  rewrite Hl in Hl'. destruct k as [|k]; [|by rewrite bool_decide_eq_false_2 in Hl'].
  destruct f as [|[j sj] f]; [done|]. injection Hk as -> ->. exists ((i, ss) :: f).
  split; [|done]. rewrite <- Hf. f_equal. exact Hn.
Qed.

Lemma find_entry_spec s files name :
  fs_inv s files -> zlen name = EEFS_NAME_LENGTH ->
  wp (find_entry name) (fun r s' => rebuf s s' /\
    match files !! name with
    | Some f => r = f_first f /\ buf s' = ent s r
    | None => r = 255
    end) s.
Proof.
  intros [Hwf Hd Hm] Hlen. unfold find_entry.
  eapply (wp_loop (fun idx s' => rebuf s s' /\ 0 <= idx <= EEPROMFS_ENTRIES /\
            forall f, files !! name = Some f -> idx <= f_first f)
          (fun idx _ => Z.to_nat (EEPROMFS_ENTRIES - idx))).
  - intros idx s' (Hr & Hidx & Hno). destruct (Z.ltb_spec idx EEPROMFS_ENTRIES); wp_simpl.
    2: { split; [done|]. destruct (files !! name) as [f|] eqn:Hf; [|done]. exfalso.
         destruct (head_entry _ _ _ _ Hd Hf). specialize (Hno f eq_refl). lia. }
    destruct (read_entry_rebuf s s' idx Hwf Hr) as (Hread & Hr' & Hbuf); [lia|].
    pose proof (rebuf_wf _ _ Hwf Hr') as Hwf'.
    wp_eq ltac:(exact Hread). wp_simpl.
    wp_eq ltac:(apply scratch_get_eq; [done|unfold_consts; lia]). rewrite Hbuf, flags_test.
    destruct (e_deleted (ent s idx) || e_islist (ent s idx)) eqn:Hfl.
    { wp_simpl. split; [|lia]. split; [done|]. split; [lia|]. intros f Hf.
      destruct (head_entry _ _ _ _ Hd Hf) as (_ & Hd' & Hl' & _). specialize (Hno f Hf).
      destruct (Z.eq_dec idx (f_first f)) as [->|]; [by rewrite Hd', Hl' in Hfl|lia]. }
    apply orb_false_iff in Hfl as [Hdel Hl].
    wp_simpl. wp_eq ltac:(apply scratch_read_eq; [done|unfold_consts; lia..]). rewrite Hbuf.
    fold (e_name (ent s idx)). rewrite load_block_some by lia. wp_simpl.
    assert (slice 0 EEFS_NAME_LENGTH name = name) as Hsl by (rewrite <- Hlen; apply slice_all).
    case_bool_decide as Hname; rewrite Hsl in Hname; wp_simpl.
    + split; [done|]. destruct (live_is_head _ _ idx Hd) as (f & Hf & Hfirst); [lia|done|done|].
      rewrite Hname in Hf. by rewrite Hf.
    + split; [|lia]. split; [done|]. split; [lia|]. intros f Hf.
      destruct (head_entry _ _ _ _ Hd Hf) as (_ & _ & _ & Hn). specialize (Hno f Hf).
      destruct (Z.eq_dec idx (f_first f)) as [->|]; [done|lia].
  - split; [by apply rebuf_refl|]. pose proof geom_entries. split; [lia|].
    intros f Hf. destruct (head_entry _ _ _ _ Hd Hf). lia.
  - lia.
Qed.
End lookup.

(** ** Steps that write the directory *)
Section commit.
Context `{EepromGeomOk} `{Assertions}.
Implicit Types s : eefs.

Lemma scratch_put_buf i bs e s :
  wf_base s -> zlen e = 32 -> bytes e -> 0 <= i -> i + zlen bs <= 32 ->
  scratch_put i bs (with_buf e s) = Done tt (with_buf (splice i bs e) s).
Proof.
  intros Hwf He Hb Hi Hle. rewrite scratch_put_eq; [|by apply wf_with_buf|done|done].
  rewrite buf_with_buf, with_buf_with_buf by (done || arr). done.
Qed.

Lemma scratch_put_fill e s :
  wf_base s -> zlen e = 32 -> scratch_put 0 e s = Done tt (with_buf e s).
Proof.
  intros Hwf He. pose proof (zlen_buf s Hwf).
  rewrite scratch_put_eq by (done || lia). by rewrite splice_all by lia.
Qed.

Lemma write_entry_buf i e s :
  wf_base s -> 0 <= i < EEPROMFS_ENTRIES -> zlen e = 32 -> bytes e ->
  write_entry i (with_buf e s) = Done tt (with_ent i e (with_buf e s)).
Proof.
  intros Hwf Hi He Hb. rewrite write_entry_eq by (done || by apply wf_with_buf).
  by rewrite buf_with_buf by done.
Qed.

Lemma wf_set_used_entries s i :
  wf_base s -> 0 <= i < EEPROMFS_ENTRIES -> wf_base (set_used_entries (bm_set (used_entries s) i true) s).
Proof.
  intros Hwf Hi. pose proof (wb_entries s Hwf).
  destruct (bit_index_in (used_entries s) i EEPROMFS_ENTRIES) as [? Hlt]; [done|done|].
  destruct Hwf. split; simpl; try done; [by rewrite zlen_bm_set by lia|by apply bytes_bm_set].
Qed.

(** [s'] has the directory [d] and the sector bytes of [s]. *)
Record dir_upd (s s' : eefs) (d : Z -> list Z) : Prop := {
  du_base : wf_base s';
  du_ent : forall j, 0 <= j < EEPROMFS_ENTRIES -> ent s' j = d j;
  du_same : forall x, 0 <= x < SECTOR_COUNT -> same_sector s s' x
}.

Definition upd (d : Z -> list Z) (i : Z) (e : list Z) : Z -> list Z :=
  fun j => if j =? i then e else d j.

Lemma upd_eq d i e : upd d i e i = e.
Proof. unfold upd. by rewrite Z.eqb_refl. Qed.
Lemma upd_ne d i e j : j <> i -> upd d i e j = d j.
Proof. intros. unfold upd. by destruct (Z.eqb_spec j i). Qed.

Lemma dir_upd_same s s' : wf_base s' -> eeprom s' = eeprom s -> dir_upd s s' (ent s).
Proof. intros Hwf He. split; [done|..]; intros; unfold ent, same_sector; by rewrite He. Qed.

Lemma dir_upd_write s s' d i e :
  dir_upd s s' d -> 0 <= i < EEPROMFS_ENTRIES -> zlen e = 32 -> bytes e ->
  dir_upd s (with_ent i e s') (upd d i e).
Proof.
  intros [Hwf Hent Hsame] Hi He Hb. split.
  - by apply wf_with_ent.
  - intros j Hj. unfold upd. destruct (Z.eqb_spec j i) as [->|].
    + by apply ent_with_ent_eq.
    + rewrite ent_with_ent_ne by done. by apply Hent.
  - intros x Hx. pose proof (same_sector_with_ent i e s' x Hwf Hi He Hx) as Hw.
    unfold same_sector in *. rewrite Hw. by apply Hsame.
Qed.

(** Nothing but the EEPROM and the buffer matters. *)
Lemma dir_upd_eeprom s s' s'' d :
  dir_upd s s' d -> eeprom s'' = eeprom s' -> wf_base s'' -> dir_upd s s'' d.
Proof.
  intros [Hwf Hent Hsame] He ?. split; [done|..]; intros; unfold ent, same_sector in *; rewrite He; auto.
Qed.

Lemma dir_upd_buf s s' d e :
  dir_upd s s' d -> zlen e = 32 -> bytes e -> dir_upd s (with_buf e s') d.
Proof. intros Hd ??. eapply dir_upd_eeprom; [done|done|]. apply wf_with_buf; [apply Hd|done|done]. Qed.

Lemma disk_ok_ext d d' files :
  (forall j, 0 <= j < EEPROMFS_ENTRIES -> d' j = d j) -> disk_ok d files -> disk_ok d' files.
Proof.
  intros Heq [Hfile ?? Hlive]. split; try done.
  - intros n f Hf. pose proof (Hfile n f Hf) as Hok. apply (file_ok_ext d); [|done].
    intros i Hi. apply Heq. by eapply chain_entry_range, Hi; apply Hok.
  - intros i Hi. rewrite Heq by done. by apply Hlive.
Qed.

Lemma view_dir_upd s s' d files n f' :
  dir_upd s s' d -> disk_ok (ent s) files -> disk_ok d (<[n := f']> files) ->
  (forall m g i, m <> n -> files !! m = Some g -> i ∈ f_entries g -> d i = ent s i) ->
  view s' (<[n := f']> files) = <[n := f_data s' f']> (view s files).
Proof.
  intros Hu Hd Hd' He. apply view_insert; [done|by apply (disk_ok_ext d); [apply Hu|]|..].
  - intros m g i Hm Hg Hi. assert (0 <= i < EEPROMFS_ENTRIES)
      by (eapply chain_entry_range, Hi; eapply fo_chain, Hd, Hg).
    rewrite (du_ent _ _ _ Hu) by done. by eapply He.
  - intros m g x Hm Hg Hx. apply (du_same _ _ _ Hu).
    by eapply chain_sector_range, Hx; eapply fo_chain, Hd, Hg.
Qed.
End commit.

(** ** Write handles *)
Section whandle.
Context `{EepromGeomOk} `{Assertions}.
Implicit Types s : eefs.

(** The bytes of [data] lie in the sectors [secs]. *)
Definition data_at (s : eefs) (secs data : list Z) : Prop :=
  forall p, 0 <= p < zlen data -> nthZ data p =
    nthZ (eeprom s) (sector_addr (nthZ secs (p / EEPROMFS_SECTORSIZE)) (p `mod` EEPROMFS_SECTORSIZE)).

(** A file [f] open for writing that holds [data] so far: what
    [eepromfs_close] needs of the handle. *)
Record w_file (s : eefs) (f : file) (fh : eefs_fh_t) (data : list Z) : Prop := {
  wf_entry : fh_entry fh = f_first f;
  wf_mode : filemode fh = EEFS_MODE_WRITE;
  wf_size : fh_size fh = zlen data;
  wf_room : zlen data <= EEPROMFS_SECTORSIZE * zlen (f_sectors f);
  wf_stored : e_size (ent s (f_first f)) <= zlen data;
  wf_data : data_at s (f_sectors f) data
}.

(** The position in the chain [f0 ++ [(i, ss)]]. *)
Record w_pos (i : Z) (ss : list Z) (fh : eefs_fh_t) (data : list Z) : Prop := {
  wp_cur : cur_entry fh = i;
  wp_sindex : cur_sindex fh = u8 (zlen ss - 1);
  wp_offset : cur_offset fh = zlen data;
  wp_soffset : cur_soffset fh = zlen data `mod` EEPROMFS_SECTORSIZE;
  wp_sector : 0 <= cur_sector fh < SECTOR_COUNT
}.

Definition last_sector (f : file) : Z := nthZ (f_sectors f) (zlen (f_sectors f) - 1).

(** A handle between two writes, and one whose last sector has room. *)
Definition w_handle (s : eefs) (f0 : file) (i : Z) (ss : list Z) (fh : eefs_fh_t) (data : list Z) : Prop :=
  let f := f0 ++ [(i, ss)] in
  w_file s f fh data /\ w_pos i ss fh data /\
  EEPROMFS_SECTORSIZE * zlen (f_sectors f) < zlen data + EEPROMFS_SECTORSIZE /\
  (cur_soffset fh <> 0 -> cur_sector fh = last_sector f).
Definition w_ready (s : eefs) (f0 : file) (i : Z) (ss : list Z) (fh : eefs_fh_t) (data : list Z) : Prop :=
  let f := f0 ++ [(i, ss)] in
  w_file s f fh data /\ w_pos i ss fh data /\
  zlen data < EEPROMFS_SECTORSIZE * zlen (f_sectors f) <= zlen data + EEPROMFS_SECTORSIZE /\
  cur_sector fh = last_sector f.

(** The name entry that [eepromfs_open] creates. *)
Definition new_entry (name : list Z) : list Z :=
  splice OFS_FLAGS [0] (splice OFS_SIZE [0; 0] (splice OFS_NAME name (fill ENTRY_SIZE 255))).

Lemma new_entry_bytes name :
  zlen name = EEFS_NAME_LENGTH ->
  zlen (new_entry name) = 32 /\
  (forall p, 0 <= p < 32 -> nthZ (new_entry name) p =
     if (30 <=? p) && (p <? 31) then 0 else if (28 <=? p) && (p <? 30) then nthZ [0; 0] (p - 28)
     else if (12 <=? p) && (p <? 28) then nthZ name (p - 12) else 255).
Proof.
  intros Hn. unfold new_entry. unfold_consts.
  set (e1 := fill 32 255). assert (zlen e1 = 32) by by apply zlen_fill.
  set (e2 := splice 12 name e1). assert (zlen e2 = 32) by (unfold e2; rewrite zlen_splice; lia).
  set (e3 := splice 28 [0; 0] e2). assert (zlen e3 = 32) by (unfold e3; rewrite zlen_splice; arr).
  split; [rewrite zlen_splice; arr|]. intros p Hp.
  rewrite nthZ_splice by arr. unfold e3. rewrite nthZ_splice by arr.
  unfold e2. rewrite nthZ_splice by lia. unfold e1. rewrite nthZ_fill, Hn by lia.
  change (zlen [0]) with 1. change (zlen [0; 0]) with 2.
  change (30 + 1) with 31. change (28 + 2) with 30. change (12 + 16) with 28.
  destruct ((30 <=? p) && (p <? 31)) eqn:?; [|done]. by replace (p - 30) with 0 by lia.
Qed.

Lemma new_entry_fields name :
  zlen name = EEFS_NAME_LENGTH -> bytes name ->
  bytes (new_entry name) /\ e_flags (new_entry name) = 0 /\
  e_next (new_entry name) = 255 /\ e_name (new_entry name) = name /\ e_size (new_entry name) = 0 /\
  (forall p, 0 <= p < 12 -> nthZ (new_entry name) p = 255).
Proof.
  intros Hn Hb. destruct (new_entry_bytes name Hn) as [Hlen Hp]. split_and!.
  - unfold new_entry. repeat apply bytes_splice; try done; [..|by apply bytes_fill];
      by repeat constructor.
  - by apply Hp.
  - by apply Hp.
  - unfold e_name. unfold_consts. apply nthZ_ext; [arr|]. rewrite zlen_slice by lia. intros q Hq.
    rewrite nthZ_slice, Hp by lia.
    assert ((30 <=? 12 + q) = false) as -> by lia. assert ((28 <=? 12 + q) = false) as -> by lia.
    assert ((12 <=? 12 + q) && (12 + q <? 28) = true) as -> by lia. simpl. f_equal. lia.
  - unfold e_size. unfold_consts. by rewrite !Hp by lia.
  - intros q Hq. rewrite Hp by lia.
    assert ((30 <=? q) = false) as -> by lia. assert ((28 <=? q) = false) as -> by lia.
    assert ((12 <=? q) = false) as -> by lia. done.
Qed.

Lemma new_chain_ok d r name :
  0 <= r < EEPROMFS_ENTRIES -> zlen name = EEFS_NAME_LENGTH -> bytes name ->
  d r = new_entry name -> file_ok d name [(r, [])].
Proof.
  intros Hr Hn Hb Hd. destruct (new_entry_fields name Hn Hb) as (? & Hfl & Hnx & Hnm & Hsz & Hsec).
  assert (forall k j sj, [(r, @nil Z)] !! k = Some (j, sj) -> k = 0%nat /\ j = r /\ sj = []) as Hinv.
  { intros [|k] j sj Hk; [|done]. by simplify_list_eq. }
  split; [|done|change (e_name (d r) = name); by rewrite Hd|].
  2: { change (e_size (d r) <= EEPROMFS_SECTORSIZE * 0). rewrite Hd, Hsz. lia. }
  split; [done|..].
  - intros k j sj (-> & -> & ->)%Hinv. split; try done.
    + unfold e_deleted. by rewrite Hd, Hfl.
    + unfold e_islist. by rewrite Hd, Hfl.
    + intros p Hp. rewrite Hd. change (zlen []) with 0. destruct (Z.ltb_spec p 0); [lia|].
      apply Hsec. done.
  - intros k j sj (-> & -> & ->)%Hinv. by rewrite Hd.
  - intros k j sj (-> & -> & ->)%Hinv. simpl. lia.
  - apply NoDup_singleton.
  - apply NoDup_nil_2.
Qed.
End whandle.

Section create.
Context `{EepromGeomOk} `{Assertions}.
Implicit Types s : eefs.

(** [scratch_put] chains that build an entry, then write it. *)
Lemma create_entry_wp r name s (Q : unit -> eefs -> Prop) :
  wf_base s -> 0 <= r < EEPROMFS_ENTRIES -> zlen name = EEFS_NAME_LENGTH -> bytes name ->
  Q tt (with_ent r (new_entry name) (with_buf (new_entry name) s)) ->
  wp (create_direntry name r) Q s.
Proof.
  intros Hwf Hr Hn Hb HQ. destruct (new_entry_bytes name Hn) as [Hlen _].
  destruct (new_entry_fields name Hn Hb) as [Hby _]. unfold create_direntry. wp_simpl.
  set (e1 := fill ENTRY_SIZE 255).
  assert (zlen e1 = 32 /\ bytes e1) as [He1 Hb1] by (split; [by apply zlen_fill|by apply bytes_fill]).
  set (e2 := splice OFS_NAME name e1).
  assert (zlen e2 = 32 /\ bytes e2) as [He2 Hb2].
  { split; [unfold e2; rewrite zlen_splice; lia|by apply bytes_splice]. }
  set (e3 := splice OFS_SIZE [0; 0] e2).
  assert (zlen e3 = 32 /\ bytes e3) as [He3 Hb3].
  { split; [unfold e3; rewrite zlen_splice; arr|apply bytes_splice; [by repeat constructor|done]]. }
  wp_eq ltac:(by apply scratch_put_fill). rewrite load_block_some by lia. wp_simpl.
  assert (slice 0 EEFS_NAME_LENGTH name = name) as -> by (rewrite <- Hn; apply slice_all).
  wp_eq ltac:(apply scratch_put_buf; done || lia). unfold scratch_put16.
  wp_eq ltac:(apply scratch_put_buf; try done; arr). wp_simpl.
  wp_eq ltac:(apply scratch_put_buf; try done; arr).
  by wp_eq ltac:(by apply write_entry_buf).
Qed.

Lemma maps_ok_mark s s' files files' r :
  wf_base s -> 0 <= r < EEPROMFS_ENTRIES -> maps_ok s files ->
  used_sectors s' = used_sectors s -> free_sectors s' = free_sectors s ->
  used_entries s' = bm_set (used_entries s) r true ->
  (forall x, sector_used files' x <-> sector_used files x) ->
  (forall i, entry_used files' i -> i = r \/ entry_used files i) ->
  maps_ok s' files'.
Proof.
  intros Hwf Hr [Hms Hme Hmf] Hus Hfs Hue Hs He. split.
  - intros x Hx. rewrite Hus, Hs. by apply Hms.
  - intros i Hi Hiu. rewrite Hue. destruct (bit_index_in (used_entries s) r EEPROMFS_ENTRIES) as [? Hlt];
      [done|apply (wb_entries s Hwf)|].
    rewrite bm_test_set by (lia || apply (wb_entries_bytes s Hwf)).
    destruct (Z.eqb_spec i r); [done|]. destruct (He i Hiu) as [->|Hold]; [done|]. by apply Hme.
  - unfold free_ok in *. by rewrite Hus, Hfs.
Qed.

Lemma sector_used_insert files n f' x :
  sector_used (<[n := f']> files) x <->
    x ∈ f_sectors f' \/ exists m g, m <> n /\ files !! m = Some g /\ x ∈ f_sectors g.
Proof.
  unfold sector_used. setoid_rewrite lookup_insert_Some. naive_solver.
Qed.

Lemma entry_used_insert files n f' i :
  entry_used (<[n := f']> files) i <->
    i ∈ f_entries f' \/ exists m g, m <> n /\ files !! m = Some g /\ i ∈ f_entries g.
Proof.
  unfold entry_used. setoid_rewrite lookup_insert_Some. naive_solver.
Qed.

(** A fresh name entry makes an empty file. *)
Lemma create_file s s' files name r :
  fs_inv s files -> files !! name = None -> zlen name = EEFS_NAME_LENGTH -> bytes name ->
  0 <= r < EEPROMFS_ENTRIES -> bm_test (used_entries s) r = false ->
  dir_upd s s' (upd (ent s) r (new_entry name)) ->
  used_sectors s' = used_sectors s -> free_sectors s' = free_sectors s ->
  used_entries s' = bm_set (used_entries s) r true ->
  fs_inv s' (<[name := [(r, [])]]> files) /\
  view s' (<[name := [(r, [])]]> files) = <[name := []]> (view s files).
Proof.
  intros [Hwf Hd Hm] Hfresh Hn Hb Hr Hfree Hu Hus Hfs Hue.
  assert (forall m g i, files !! m = Some g -> i ∈ f_entries g -> i <> r) as Hnr.
  { intros m g i Hg Hi ->. rewrite (mo_entries _ _ Hm) in Hfree; [done|done|]. by exists m, g. }
  assert (disk_ok (upd (ent s) r (new_entry name)) (<[name := [(r, [])]]> files)) as Hd'.
  { apply (disk_ok_insert (ent s)); [done|..].
    - apply new_chain_ok; [done|done|done|apply upd_eq].
    - intros i _ Hi. apply upd_ne. intros ->. apply Hi, list_elem_of_here.
    - intros f i Hf. congruence.
    - intros m g i _ Hg Hi ->%list_elem_of_singleton. by apply (Hnr m g r).
    - intros m g x _ Hg Hx. change (f_sectors [(r, @nil Z)]) with (@nil Z). apply not_elem_of_nil. }
  split; [split|].
  - apply Hu.
  - apply (disk_ok_ext (upd (ent s) r (new_entry name))); [apply Hu|done].
  - eapply maps_ok_mark; try done.
    + intros x. rewrite sector_used_insert. unfold sector_used. split.
      * intros [Hx|(m & g & _ & ?)]; [by apply elem_of_nil in Hx|by eauto].
      * intros (m & g & Hg & Hx). right. exists m, g. split; [|done]. congruence.
    + intros i. rewrite entry_used_insert. unfold entry_used.
      intros [->%list_elem_of_singleton|(m & g & _ & ?)]; [by left|right; by eauto].
  - rewrite (view_dir_upd s s' (upd (ent s) r (new_entry name))); try done.
    + f_equal. unfold f_data. change (f_first [(r, @nil Z)]) with r. rewrite (du_ent _ _ _ Hu), upd_eq by done.
      by destruct (new_entry_fields name Hn Hb) as (_ & _ & _ & _ & -> & _).
    + intros m g i _ Hg Hi. apply upd_ne. by eapply Hnr.
Qed.

(** What [eepromfs_open] promises for a new file. *)
Definition open_write_post (s : eefs) (files : gmap (list Z) file) (name : list Z)
    (r : eefs_error_t * eefs_fh_t) (s' : eefs) : Prop :=
  match files !! name with
  | Some _ => r.1 = EEFS_ERROR_FILEEXISTS /\ rebuf s s'
  | None =>
      (r.1 = EEFS_ERROR_OK /\ exists i : Z,
         fs_inv s' (<[name := [(i, [])]]> files) /\ w_handle s' [] i [] r.2 [] /\
         view s' (<[name := [(i, [])]]> files) = <[name := []]> (view s files)) \/
      (r.1 = EEFS_ERROR_DIRFULL /\ all_used (used_entries s) EEPROMFS_ENTRIES /\ rebuf s s')
  end.

Lemma open_write_spec s files name :
  fs_inv s files -> zlen name = EEFS_NAME_LENGTH -> bytes name ->
  wp (eepromfs_open name EEFS_MODE_WRITE) (open_write_post s files name) s.
Proof.
  intros Hinv Hn Hb. pose proof Hinv as [Hwf Hd Hm]. unfold eepromfs_open, open_write_post. wp_simpl.
  eapply wp_mono; [by apply find_entry_spec|]. intros idx s1 [Hr Hres].
  change (EEFS_MODE_WRITE =? EEFS_MODE_WRITE) with true. cbv iota.
  pose proof (rebuf_wf _ _ Hwf Hr) as Hwf1. pose proof geom_entries.
  destruct (files !! name) as [f|] eqn:Hf.
  { destruct Hres as [-> _]. destruct (head_entry _ _ _ _ Hd Hf) as [? _].
    destruct (Z.eqb_spec (f_first f) 255); [lia|]. by wp_simpl. }
  subst idx. simpl. pose proof Hr as (b & Hbl & Hbb & Hs1).
  destruct (next_free_entry_spec 0 s1) as [(r & Hrng & (k & _ & _ & Hfree & _) & Heq)|[Hall Heq]];
    [done|lia| |]; subst s1; wp_eq ltac:(exact Heq).
  2: { wp_simpl. right. done. }
  destruct (Z.eqb_spec r 255); [lia|]. simpl in Hfree.
  set (s2 := set_used_entries _ _). assert (wf_base s2) as Hwf2 by (by apply wf_set_used_entries).
  assert (dir_upd s s2 (ent s)) as Hu2 by (by apply dir_upd_same).
  destruct (new_entry_bytes name Hn) as [Hlen _]. destruct (new_entry_fields name Hn Hb) as [Hby _].
  assert (dir_upd s (with_ent r (new_entry name) (with_buf (new_entry name) s2))
            (upd (ent s) r (new_entry name))) as Hu3
    by (apply dir_upd_write; [by apply dir_upd_buf|done..]).
  destruct (create_file s _ files name r Hinv Hf Hn Hb Hrng Hfree Hu3) as [Hinv' Hview]; [done..|].
  wp_simpl. apply create_entry_wp; [done..|]. wp_simpl. left. split; [done|]. exists r.
  split; [done|]. split; [|done]. pose proof geom_count.
  pose proof geom_sectorsize. unfold w_handle. simpl app. change (f_sectors [(r, @nil Z)]) with (@nil Z).
  rewrite (@zlen_nil Z). split_and!; [split|split|lia|]; simpl; rewrite ?(@zlen_nil Z); try done; try lia.
  - change (f_sectors [(r, @nil Z)]) with (@nil Z). change (zlen []) with 0. lia.
  - rewrite (du_ent _ _ _ Hu3) by done. change (f_first [(r, [])]) with r. rewrite upd_eq.
    by destruct (new_entry_fields name Hn Hb) as (_ & _ & _ & _ & -> & _).
  - intros p Hp. change (zlen []) with 0 in Hp. lia.
Qed.
End create.
