(* ===== verification/EepromFsWrite.v ===== *)
(** * eeprom-fs.c: writing to a file

    The sector allocation of the write path, the write loop and
    [eepromfs_close] against the invariant of [EepromFsInv]. *)

From stdpp Require Import gmap.
From S2P Require Import Prelude EepromFs EepromFsFacts EepromFsInv EepromFsFile.

Ltac Zify.zify_pre_hook ::= unfold_consts.

Section grow.
Context `{EepromGeomOk} `{Assertions}.
Implicit Types s : eefs.

(** The sectors of a chain are pairwise different, so there are at most
    [SECTOR_COUNT] of them. *)
Lemma chain_sectors_le d f : chain_ok d f -> zlen (f_sectors f) <= SECTOR_COUNT.
Proof.
  intros Hf. pose proof geom_count. unfold zlen.
  assert (f_sectors f ⊆+ seqZ 0 SECTOR_COUNT) as Hle%submseteq_length.
  { apply NoDup_submseteq; [apply (co_sectors _ _ Hf)|]. intros x Hx.
    apply elem_of_seqZ. apply (chain_sector_range _ _ _ Hf) in Hx. lia. }
  rewrite length_seqZ in Hle. lia.
Qed.

Lemma slice_app_l {A} n (l k : list A) : 0 <= n <= zlen l -> slice 0 n (l ++ k) = slice 0 n l.
Proof. intros Hn. unfold slice, zlen in *. simpl. rewrite !drop_0. apply take_app_le. lia. Qed.

Lemma nthZ_last l x : nthZ (l ++ [x]) (zlen (l ++ [x]) - 1) = x.
Proof.
  pose proof (zlen_nonneg l). rewrite zlen_app. change (zlen [x]) with 1.
  rewrite nthZ_app by lia. destruct (Z.ltb_spec (zlen l + 1 - 1) (zlen l)); [lia|].
  by replace (zlen l + 1 - 1 - zlen l) with 0 by lia.
Qed.

Lemma content_app s l k : content s (l ++ k) = content s l ++ content s k.
Proof. unfold content. by rewrite fmap_app, concat_app. Qed.

Lemma f_data_grow s s' f f' x :
  wf_base s -> secs_in (f_sectors f) -> (forall y, y ∈ f_sectors f -> same_sector s s' y) ->
  f_sectors f' = f_sectors f ++ [x] -> f_first f' = f_first f ->
  e_size (ent s' (f_first f)) = e_size (ent s (f_first f)) ->
  0 <= e_size (ent s (f_first f)) <= EEPROMFS_SECTORSIZE * zlen (f_sectors f) ->
  f_data s' f' = f_data s f.
Proof.
  intros Hwf Hs Hsame Hf' Hfirst Hsz Hle. unfold f_data. rewrite Hfirst, Hsz, Hf', content_app.
  rewrite (content_ext s s') by done. apply slice_app_l. by rewrite zlen_content.
Qed.

Lemma e_size_range s i : wf_base s -> 0 <= i < EEPROMFS_ENTRIES -> 0 <= e_size (ent s i) < 65536.
Proof.
  intros Hwf Hi. pose proof (bytes_ent s i Hwf) as Hb. pose proof (zlen_ent s i Hwf Hi).
  unfold e_size. pose proof (bytes_nthZ (ent s i) OFS_SIZE Hb). 
  pose proof (bytes_nthZ (ent s i) (OFS_SIZE + 1) Hb). unfold is_byte in *. lia.
Qed.

(** A file gained the free sector [x]; its other data are as before. *)
Lemma grow_file s s' d files name f f' x :
  fs_inv s files -> files !! name = Some f -> dir_upd s s' d -> chain_ok d f' ->
  f_first f' = f_first f -> f_sectors f' = f_sectors f ++ [x] ->
  (forall i, i ∈ f_entries f -> i ∈ f_entries f') ->
  (forall i, i ∈ f_entries f' -> i ∈ f_entries f \/ ~ entry_used files i) ->
  (forall i, 0 <= i < EEPROMFS_ENTRIES -> i ∉ f_entries f' -> d i = ent s i) ->
  e_name (d (f_first f)) = name -> e_size (d (f_first f)) = e_size (ent s (f_first f)) ->
  0 <= x < SECTOR_COUNT -> bm_test (used_sectors s) x = false ->
  used_sectors s' = bm_set (used_sectors s) x true -> free_ok s' ->
  (forall i, 0 <= i < EEPROMFS_ENTRIES -> i ∈ f_entries f' -> bm_test (used_entries s') i = true) ->
  (forall i, 0 <= i < EEPROMFS_ENTRIES -> bm_test (used_entries s) i = true ->
     bm_test (used_entries s') i = true) ->
  fs_inv s' (<[name := f']> files) /\ view s' (<[name := f']> files) = view s files.
Proof.
  intros [Hwf Hd Hm] Hf Hu Hc Hfirst Hsec Hsub Hnew Hother Hname Hsize Hx Hfree Hus Hfok He Hmono.
  pose proof (dk_file _ _ Hd name f Hf) as [Hcf Hln Hn Hsz].
  assert (~ sector_used files x) as Hxu by (rewrite <- (mo_sectors _ _ Hm x Hx), Hfree; done).
  assert (forall m g i, m <> name -> files !! m = Some g -> i ∈ f_entries g -> i ∉ f_entries f') as Hdisj.
  { intros m g i Hmn Hg Hi [Hi'|Hi']%Hnew.
    - by apply Hmn, (dk_entries _ _ Hd m g name f i).
    - apply Hi'. by exists m, g. }
  assert (disk_ok d (<[name := f']> files)) as Hd'.
  { apply (disk_ok_insert (ent s)); try done.
    - split; [done|done|by rewrite Hfirst|]. rewrite Hfirst, Hsize, Hsec, zlen_app. arr.
      pose proof geom_sectorsize. lia.
    - intros g i Hg. replace g with f by congruence. apply Hsub.
    - intros m g y Hmn Hg Hy. rewrite Hsec, elem_of_app, list_elem_of_singleton. intros [Hy'| ->].
      + by apply Hmn, (dk_sectors _ _ Hd m g name f y).
      + apply Hxu. by exists m, g. }
  pose proof (f_first_in f (co_nonempty _ _ Hcf)) as Hfi.
  pose proof (chain_entry_range _ _ _ Hcf Hfi) as Hfr.
  split; [split|].
  - apply Hu.
  - apply (disk_ok_ext d); [apply Hu|done].
  - split; [| |done].
    + intros y Hy. rewrite Hus. destruct (bit_index_in (used_sectors s) x SECTOR_COUNT) as [? Hlt];
        [done|apply (wb_sectors s Hwf)|].
      rewrite bm_test_set by (lia || apply (wb_sectors_bytes s Hwf)).
      rewrite sector_used_insert, Hsec, elem_of_app, list_elem_of_singleton.
      destruct (Z.eqb_spec y x) as [->|Hyx]; [naive_solver|].
      rewrite (mo_sectors _ _ Hm y Hy). unfold sector_used. split.
      * intros (m & g & Hg & Hyg). destruct (decide (m = name)) as [->|]; [|naive_solver].
        left. left. by replace f with g by congruence.
      * intros [[?|?]|(m & g & ? & ?)]; [by exists name, f|done|by exists m, g].
    + intros i Hi. rewrite entry_used_insert. intros [Hin|(m & g & Hmn & Hg & Hig)]; [by apply He|].
      apply Hmono; [done|]. apply (mo_entries _ _ Hm); [done|]. by exists m, g.
  - assert (forall m g i, m <> name -> files !! m = Some g -> i ∈ f_entries g -> d i = ent s i) as Hdi.
    { intros m g i Hmn Hg Hi. apply Hother; [|by eapply Hdisj].
      by eapply chain_entry_range, Hi; eapply fo_chain, Hd, Hg. }
    rewrite (view_dir_upd s s' d) by done.
    apply insert_id. unfold view. rewrite lookup_fmap, Hf. simpl. f_equal. symmetry.
    apply (f_data_grow s s' f f' x); try done.
    + by eapply chain_secs_in.
    + intros y Hy. apply (du_same _ _ _ Hu). by eapply chain_sector_range.
    + by rewrite (du_ent _ _ _ Hu).
    + pose proof (e_size_range s (f_first f) Hwf Hfr). lia.
Qed.
End grow.

(** ** Allocating a sector *)
Section alloc.
Context `{EepromGeomOk} `{Assertions}.
Implicit Types s : eefs.

Lemma curentry_max_sectors_eq s :
  wf_base s -> curentry_max_sectors s = Done (e_cap (buf s)) s.
Proof.
  intros Hwf. unfold curentry_max_sectors, curentry_is_listentry, mbind, comp_bind.
  rewrite scratch_get_eq by (done || unfold_consts; lia). done.
Qed.

Lemma e_cap_cap d k i ss : ent_ok d k i ss -> e_cap (d i) = cap k.
Proof.
  intros Hok. unfold e_cap, cap. rewrite (eo_list _ _ _ _ Hok).
  case_bool_decide; case_decide; done.
Qed.

Lemma same_sector_byte s s' x o :
  wf_base s -> same_sector s s' x -> 0 <= x < SECTOR_COUNT -> 0 <= o < EEPROMFS_SECTORSIZE ->
  nthZ (eeprom s') (sector_addr x o) = nthZ (eeprom s) (sector_addr x o).
Proof.
  intros Hwf Hs Hx Ho. unfold same_sector in Hs. pose proof data_offset_nonneg.
  destruct (sector_addr_range s x 0 Hwf Hx); [lia|].
  assert (sector_addr x o = sector_addr x 0 + o) as -> by (unfold sector_addr; lia).
  apply (f_equal (fun l => nthZ l o)) in Hs. by rewrite !nthZ_slice in Hs by lia.
Qed.

Lemma pos_div p n :
  0 <= p < EEPROMFS_SECTORSIZE * n ->
  0 <= p / EEPROMFS_SECTORSIZE < n /\ 0 <= p `mod` EEPROMFS_SECTORSIZE < EEPROMFS_SECTORSIZE.
Proof.
  intros Hp. pose proof geom_sectorsize. split; [|apply Z.mod_pos_bound; lia].
  split; [apply Z.div_pos; lia|]. apply Z.div_lt_upper_bound; lia.
Qed.

Lemma data_at_ext s s' secs secs' data :
  wf_base s -> secs_in secs -> (forall x, x ∈ secs -> same_sector s s' x) ->
  (forall k, 0 <= k < zlen secs -> nthZ secs' k = nthZ secs k) ->
  zlen data <= EEPROMFS_SECTORSIZE * zlen secs ->
  data_at s secs data -> data_at s' secs' data.
Proof.
  intros Hwf Hin Hs Hsecs Hle Hd p Hp. rewrite (Hd p Hp).
  destruct (pos_div p (zlen secs)) as [Hk Ho]; [lia|]. rewrite Hsecs by done. symmetry.
  apply same_sector_byte; [done| |by apply secs_in_nth|done].
  apply Hs. eapply list_elem_of_lookup_2. by apply nthZ_lookup.
Qed.

(** The handle after a sector was added to the file. *)
Lemma w_handle_grow s s' f0 i ss f0' i' ss' fh data x :
  wf_base s -> secs_in (f_sectors (f0 ++ [(i, ss)])) ->
  (forall y, y ∈ f_sectors (f0 ++ [(i, ss)]) -> same_sector s s' y) ->
  w_handle s f0 i ss fh data -> cur_soffset fh = 0 ->
  f_sectors (f0' ++ [(i', ss')]) = f_sectors (f0 ++ [(i, ss)]) ++ [x] ->
  f_first (f0' ++ [(i', ss')]) = f_first (f0 ++ [(i, ss)]) ->
  e_size (ent s' (f_first (f0 ++ [(i, ss)]))) = e_size (ent s (f_first (f0 ++ [(i, ss)]))) ->
  0 <= x < SECTOR_COUNT -> 0 <= zlen ss' - 1 < 256 ->
  w_ready s' f0' i' ss' (fh_at fh x i' (zlen ss' - 1)) data.
Proof.
  intros Hwf Hin Hsame (Hf & [? ? Ho Hso ?] & Hroom & _) Hsoff Hsec Hfirst Hsz Hx Hlen.
  destruct Hf as [He Hm Hs Hr Hst Hda]. pose proof geom_sectorsize.
  unfold w_ready. rewrite Hsec, zlen_app. split_and!.
  - split; simpl; rewrite ?Hfirst, ?Hsec, ?Hsz, ?zlen_app; arr.
    apply (data_at_ext s s' (f_sectors (f0 ++ [(i, ss)]))); try done.
    intros k Hk. rewrite nthZ_app by lia. destruct (Z.ltb_spec k (zlen (f_sectors (f0 ++ [(i, ss)])))); lia.
  - split; simpl; try done. by rewrite u8_id.
  - rewrite Hso in Hsoff. apply Z.mod_divide in Hsoff as [q Hq]; [|lia]. arr.
  - change (zlen [x]) with 1. rewrite Hso in Hsoff. apply Z.mod_divide in Hsoff as [q Hq]; [|lia]. cbv zeta in *. set (n := zlen (f_sectors _)) in *.
    assert (n < q + 1) by (apply (Zmult_gt_0_lt_reg_r n (q + 1) EEPROMFS_SECTORSIZE); lia). nia.
  - unfold last_sector. by rewrite Hsec, nthZ_last.
Qed.

(** Recording a new sector in the entry in the buffer. *)
Lemma record_sector_wp s x p i {A} (m : comp eefs A) Q :
  wf_base s -> free_ok s -> 0 <= x < SECTOR_COUNT -> bm_test (used_sectors s) x = false ->
  0 <= p < 32 -> 0 <= i < EEPROMFS_ENTRIES ->
  (forall s', wf_base s' -> free_ok s' -> eeprom s' = eeprom (with_ent i (splice p [x] (buf s)) s) ->
     used_entries s' = used_entries s -> used_sectors s' = bm_set (used_sectors s) x true -> wp m Q s') ->
  wp (mark_sector x true;; scratch_put p [x];; write_entry i;; m) Q s.
Proof.
  intros Hwf Hfok Hx Hfree Hp Hi HQ. pose proof (mark_sector_eq x true s Hwf Hx Hfree) as Heq.
  destruct (mark_sector_wf x true s _ Hwf Hfok Hx Hfree Heq) as (Hwf1 & Hfok1 & Hee1 & Hsc1 & Hue1 & Hus1).
  set (s1 := set_free_sectors _ _) in *. wp_simpl. wp_eq ltac:(exact Heq). wp_simpl.
  assert (buf s1 = buf s) as Hbuf by (unfold buf; by rewrite Hsc1).
  pose proof (zlen_buf s Hwf) as Hlb. pose proof (bytes_buf s Hwf) as Hbb.
  assert (is_byte x) by (unfold is_byte; pose proof geom_count; lia).
  assert (zlen (splice p [x] (buf s)) = 32) by arr.
  assert (bytes (splice p [x] (buf s))) by (apply bytes_splice; [by apply Forall_singleton|done]).
  wp_eq ltac:(apply scratch_put_eq; [done|lia|arr]). rewrite Hbuf. wp_simpl.
  wp_eq ltac:(by apply write_entry_buf). apply HQ; try done.
  by apply wf_with_ent; [apply wf_with_buf|..].
Qed.

(** What a failed allocation leaves: nothing but the buffer changed. *)
Definition alloc_failed (s : eefs) (f : file) (data : list Z) (r : eefs_error_t * eefs_fh_t) (s' : eefs) : Prop :=
  rebuf s s' /\ w_file s f r.2 data /\
  ((r.1 = EEFS_ERROR_DISKFULL /\ all_used (used_sectors s) SECTOR_COUNT) \/
   (r.1 = EEFS_ERROR_DIRFULL /\ all_used (used_entries s) EEPROMFS_ENTRIES)).

Definition alloc_done (s : eefs) (files : gmap (list Z) file) (name : list Z) (f : file) (data : list Z)
    (r : eefs_error_t * eefs_fh_t) (s' : eefs) : Prop :=
  r.1 = EEFS_ERROR_OK /\ exists f0 i ss x,
    let f' := f0 ++ [(i, ss)] in
    fs_inv s' (<[name := f']> files) /\ view s' (<[name := f']> files) = view s files /\
    f_sectors f' = f_sectors f ++ [x] /\ w_ready s' f0 i ss r.2 data.

(** Name and size of a file survive an update of its last entry. *)
Lemma head_upd d f0 i ss e' :
  chain_ok d (f0 ++ [(i, ss)]) ->
  (f0 = [] -> e_name e' = e_name (d i) /\ e_size e' = e_size (d i)) ->
  let h := f_first (f0 ++ [(i, ss)]) in
  e_name (upd d i e' h) = e_name (d h) /\ e_size (upd d i e' h) = e_size (d h).
Proof.
  intros Hc He. destruct f0 as [|[j sj] f0]; simpl.
  - change (f_first [(i, ss)]) with i. rewrite upd_eq. by apply He.
  - change (f_first ((j, sj) :: f0 ++ [(i, ss)])) with j. rewrite upd_ne; [done|]. intros ->.
    by eapply (chain_last_unique d ((i, sj) :: f0) i ss 0).
Qed.

(** The chain after a sector was put into a free slot of the last entry. *)
Lemma alloc_slot s s' files name f0 i ss fh data x :
  fs_inv s files -> files !! name = Some (f0 ++ [(i, ss)]) ->
  w_handle s f0 i ss fh data -> cur_soffset fh = 0 ->
  0 <= x < SECTOR_COUNT -> bm_test (used_sectors s) x = false -> zlen ss < cap (length f0) ->
  wf_base s' -> free_ok s' -> eeprom s' = eeprom (with_ent i (splice (zlen ss) [x] (ent s i)) s) ->
  used_entries s' = used_entries s -> used_sectors s' = bm_set (used_sectors s) x true ->
  alloc_done s files name (f0 ++ [(i, ss)]) data
    (EEFS_ERROR_OK, fh_at fh x i (zlen ss)) s'.
Proof.
  intros Hinv Hf Hw Hso Hx Hfree Hcap Hwf' Hfok' Hee Hue Hus.
  pose proof Hinv as [Hwf Hd Hm]. pose proof (dk_file _ _ Hd name _ Hf) as [Hc Hln Hn Hsz].
  pose proof (lookup_snoc_last f0 i ss) as Hlast. pose proof (co_ent _ _ Hc _ _ _ Hlast) as Hent.
  pose proof (eo_range _ _ _ _ Hent) as Hi. pose proof (zlen_ent s i Hwf Hi) as Hle.
  pose proof (cap_le (length f0)). pose proof (zlen_nonneg ss).
  set (e := splice (zlen ss) [x] (ent s i)) in *.
  assert (zlen e = 32) by (unfold e; arr).
  assert (is_byte x) by (unfold is_byte; pose proof geom_count; lia).
  assert (bytes e) by (apply bytes_splice; [by apply Forall_singleton|by apply bytes_ent]).
  assert (dir_upd s s' (upd (ent s) i e)) as Hu.
  { apply (dir_upd_eeprom s (with_ent i e s)); [|done|done].
    apply dir_upd_write; [by apply dir_upd_same|done..]. }
  assert (~ sector_used files x) as Hxu by (rewrite <- (mo_sectors _ _ Hm x Hx), Hfree; done).
  assert (x ∉ f_sectors (f0 ++ [(i, ss)])) by (intros ?; apply Hxu; by exists name, (f0 ++ [(i, ss)])).
  assert (chain_ok (upd (ent s) i e) (f0 ++ [(i, ss ++ [x])])) as Hc'.
  { apply (chain_add_sector (ent s)); try done; [apply upd_eq|intros; by apply upd_ne]. }
  assert (f_sectors (f0 ++ [(i, ss ++ [x])]) = f_sectors (f0 ++ [(i, ss)]) ++ [x]) as Hsec.
  { rewrite !f_sectors_app, !f_sectors_one. by rewrite app_assoc. }
  assert (f_entries (f0 ++ [(i, ss ++ [x])]) = f_entries (f0 ++ [(i, ss)])) as Hents
    by by rewrite !f_entries_app.
  assert (f_first (f0 ++ [(i, ss ++ [x])]) = f_first (f0 ++ [(i, ss)])) as Hfirst by by destruct f0.
  destruct (head_upd (ent s) f0 i ss e Hc) as [Hnm Hszh].
  { intros ->. apply e_head_slot; [done|]. by change (cap (length [])) with 12 in Hcap. }
  assert (i ∈ f_entries (f0 ++ [(i, ss)])) as Hini by (apply f_entries_lookup; eauto).
  destruct (grow_file s s' (upd (ent s) i e) files name (f0 ++ [(i, ss)]) (f0 ++ [(i, ss ++ [x])]) x)
    as [Hinv' Hview]; try done.
  - intros j. by rewrite Hents.
  - intros j. rewrite Hents. by left.
  - intros j Hj Hjn. rewrite Hents in Hjn. apply upd_ne. by intros ->.
  - by rewrite Hnm.
  - intros j Hj. rewrite Hents, Hue. intros Hin. apply (mo_entries _ _ Hm); [done|]. by exists name, (f0 ++ [(i, ss)]).
  - intros j Hj. by rewrite Hue.
  - split; [done|]. exists f0, i, (ss ++ [x]), x. simpl. split; [done|]. split; [done|]. split; [done|].
    replace (fh_at fh x i (zlen ss)) with (fh_at fh x i (zlen (ss ++ [x]) - 1)) by (f_equal; arr).
    apply (w_handle_grow s s' f0 i ss); try done.
    + by eapply chain_secs_in.
    + intros y Hy. apply (du_same _ _ _ Hu). by eapply chain_sector_range, Hy.
    + rewrite (du_ent _ _ _ Hu) by (eapply chain_entry_range, f_first_in; [done|by destruct f0]). done.
    + arr.
Qed.

Definition list_entry (x : Z) : list Z :=
  splice 0 [x] (splice OFS_FLAGS [EEFS_FLAG_LISTENTRY] (fill ENTRY_SIZE 255)).

Lemma list_entry_ok x : is_byte x -> zlen (list_entry x) = 32 /\ bytes (list_entry x).
Proof.
  intros Hx. unfold list_entry. set (e1 := fill ENTRY_SIZE 255).
  assert (zlen e1 = 32) by by apply zlen_fill. assert (bytes e1) by by apply bytes_fill.
  set (e2 := splice OFS_FLAGS [EEFS_FLAG_LISTENTRY] e1).
  assert (zlen e2 = 32) by (unfold e2; arr).
  assert (bytes e2) by (apply bytes_splice; [by apply Forall_singleton|done]).
  split; [arr|]. apply bytes_splice; [by apply Forall_singleton|done].
Qed.

Lemma f_entries_snoc f i ss : f_entries (f ++ [(i, ss)]) = f_entries f ++ [i].
Proof. apply f_entries_app. Qed.

(** The chain after a new list entry was linked behind its full last one. *)
Lemma alloc_entry s s' files name f0 i ss fh data x j :
  fs_inv s files -> files !! name = Some (f0 ++ [(i, ss)]) ->
  w_handle s f0 i ss fh data -> cur_soffset fh = 0 ->
  0 <= x < SECTOR_COUNT -> bm_test (used_sectors s) x = false -> zlen ss = cap (length f0) ->
  0 <= j < EEPROMFS_ENTRIES -> bm_test (used_entries s) j = false ->
  wf_base s' -> free_ok s' ->
  eeprom s' = eeprom (with_ent j (list_entry x) (with_ent i (splice 31 [j] (ent s i)) s)) ->
  used_entries s' = bm_set (used_entries s) j true -> used_sectors s' = bm_set (used_sectors s) x true ->
  alloc_done s files name (f0 ++ [(i, ss)]) data (EEFS_ERROR_OK, fh_at fh x j 0) s'.
Proof.
  intros Hinv Hf Hw Hso Hx Hfree Hcap Hj Hjfree Hwf' Hfok' Hee Hue Hus.
  pose proof Hinv as [Hwf Hd Hm]. pose proof (dk_file _ _ Hd name _ Hf) as [Hc Hln Hn Hsz].
  pose proof (lookup_snoc_last f0 i ss) as Hlast. pose proof (co_ent _ _ Hc _ _ _ Hlast) as Hent.
  pose proof (eo_range _ _ _ _ Hent) as Hi. pose proof (zlen_ent s i Hwf Hi) as Hle.
  set (f := f0 ++ [(i, ss)]) in *.
  set (e1 := splice 31 [j] (ent s i)) in *. assert (zlen e1 = 32) by (unfold e1; arr).
  assert (is_byte x) by (unfold is_byte; pose proof geom_count; lia).
  assert (is_byte j) by (unfold is_byte; pose proof geom_entries; lia).
  assert (bytes e1) by (apply bytes_splice; [by apply Forall_singleton|by apply bytes_ent]).
  destruct (list_entry_ok x) as [Hl2 Hb2]; [done|].
  set (d := upd (upd (ent s) i e1) j (list_entry x)).
  assert (dir_upd s s' d) as Hu.
  { apply (dir_upd_eeprom s (with_ent j (list_entry x) (with_ent i e1 s))); [|done|done].
    apply dir_upd_write; [|done..]. apply dir_upd_write; [by apply dir_upd_same|done..]. }
  assert (~ sector_used files x) as Hxu by (rewrite <- (mo_sectors _ _ Hm x Hx), Hfree; done).
  assert (~ entry_used files j) as Hju by (intros Hju%(mo_entries _ _ Hm); congruence).
  assert (x ∉ f_sectors f) by (intros ?; apply Hxu; by exists name, f).
  assert (j ∉ f_entries f) by (intros ?; apply Hju; by exists name, f).
  assert (i ∈ f_entries f) as Hini by (apply f_entries_lookup; eauto).
  assert (i <> j) as Hij by congruence.
  assert (chain_ok d (f ++ [(j, [x])])) as Hc'.
  { apply (chain_add_entry (ent s)); try done; unfold d; [by rewrite upd_ne, upd_eq|by rewrite upd_eq|].
    intros m Hmi Hmj. by rewrite !upd_ne. }
  assert (f_first (f ++ [(j, [x])]) = f_first f) as Hfirst by by apply f_first_app, (co_nonempty (ent s)).
  pose proof (f_first_in f (co_nonempty _ _ Hc)) as Hfi.
  assert (d (f_first f) = upd (ent s) i e1 (f_first f)) as Hdf by (apply upd_ne; congruence).
  destruct (head_upd (ent s) f0 i ss e1 Hc) as [Hnm Hszh]; [by intros _; apply e_fields_next|].
  fold f in Hnm, Hszh. rewrite <- Hdf in Hnm, Hszh.
  destruct (bit_index_in (used_entries s) j EEPROMFS_ENTRIES) as [? Hlt]; [done|apply (wb_entries s Hwf)|].
  assert (forall k, 0 <= k < EEPROMFS_ENTRIES -> bm_test (used_entries s') k =
    if k =? j then true else bm_test (used_entries s) k) as Hbm.
  { intros k Hk. rewrite Hue. apply bm_test_set; lia || apply (wb_entries_bytes s Hwf). }
  destruct (grow_file s s' d files name f (f ++ [(j, [x])]) x) as [Hinv' Hview]; try done.
  - by rewrite f_sectors_app, f_sectors_one.
  - intros k Hk. rewrite f_entries_snoc. apply elem_of_app. by left.
  - intros k. rewrite f_entries_snoc, elem_of_app, list_elem_of_singleton. intros [?| ->]; [by left|by right].
  - intros k Hk. rewrite f_entries_snoc, elem_of_app, list_elem_of_singleton. intros Hkn. unfold d.
    assert (k <> j) by tauto. assert (k <> i) by (intros ->; tauto). by rewrite !upd_ne.
  - by rewrite Hnm.
  - intros k Hk. rewrite Hbm by done. rewrite f_entries_snoc, elem_of_app, list_elem_of_singleton.
    destruct (Z.eqb_spec k j); [done|]. intros [Hin|]; [|done]. apply (mo_entries _ _ Hm); [done|]. by exists name, f.
  - intros k Hk Hkt. rewrite Hbm, Hkt by done. by case_match.
  - split; [done|]. exists f, j, [x], x. simpl. split; [done|]. split; [done|].
    split; [by rewrite f_sectors_app, f_sectors_one|].
    apply (w_handle_grow s s' f0 i ss f j [x]); try done.
    + by eapply chain_secs_in.
    + intros y Hy. apply (du_same _ _ _ Hu). by eapply chain_sector_range, Hy.
    + fold f. by rewrite f_sectors_app, f_sectors_one.
    + fold f. by rewrite (du_ent _ _ _ Hu) by (by eapply chain_entry_range, Hfi).
Qed.

Lemma link_direntry_wp s i j (Q : unit -> eefs -> Prop) :
  wf_base s -> 0 <= i < EEPROMFS_ENTRIES -> is_byte j ->
  (forall e, e = splice OFS_FLAGS [EEFS_FLAG_LISTENTRY] (fill ENTRY_SIZE 255) -> zlen e = 32 -> bytes e ->
     Q tt (with_buf e (with_ent i (splice 31 [j] (buf s)) s))) ->
  wp (link_direntry i j) Q s.
Proof.
  intros Hwf Hi Hj HQ. unfold link_direntry. wp_simpl.
  pose proof (zlen_buf s Hwf). pose proof (bytes_buf s Hwf).
  set (e1 := splice 31 [j] (buf s)). assert (zlen e1 = 32) by (unfold e1; arr).
  assert (bytes e1) by (apply bytes_splice; [by apply Forall_singleton|done]).
  wp_eq ltac:(apply scratch_put_eq; [done|unfold_consts; lia|unfold_consts; arr]).
  change (splice OFS_NEXT [j] (buf s)) with e1.
  wp_eq ltac:(by apply write_entry_buf). wp_simpl.
  set (s2 := with_ent i e1 (with_buf e1 s)).
  assert (wf_base s2) by (apply wf_with_ent; [by apply wf_with_buf|done..]).
  set (e2 := fill ENTRY_SIZE 255). assert (zlen e2 = 32) by by apply zlen_fill.
  assert (bytes e2) by by apply bytes_fill.
  wp_eq ltac:(by apply scratch_put_fill). wp_simpl.
  wp_eq ltac:(apply scratch_put_buf; [done..|unfold_consts; lia|unfold_consts; arr]).
  set (e3 := splice OFS_FLAGS [EEFS_FLAG_LISTENTRY] e2).
  assert (with_buf e3 s2 = with_buf e3 (with_ent i e1 s)) as ->.
  { unfold s2. change (with_ent i e1 (with_buf e1 s)) with (with_buf e1 (with_ent i e1 s)).
    rewrite with_buf_with_buf; [done| |done|]. 1: by apply wf_with_ent. unfold e3. unfold_consts. arr. }
  apply HQ; [done|unfold e3; unfold_consts; arr|].
  apply bytes_splice; [by apply Forall_singleton|done].
Qed.

Lemma write_alloc_spec s files name f0 i ss fh data :
  fs_inv s files -> files !! name = Some (f0 ++ [(i, ss)]) ->
  w_handle s f0 i ss fh data -> cur_soffset fh = 0 ->
  wp (write_alloc fh) (fun r s' =>
    alloc_done s files name (f0 ++ [(i, ss)]) data r s' \/ alloc_failed s (f0 ++ [(i, ss)]) data r s') s.
Proof.
  intros Hinv Hf Hw Hso. pose proof Hinv as [Hwf Hd Hm]. pose proof Hw as (Hwfile & [Hcur Hsi _ _ Hsec] & _).
  pose proof (dk_file _ _ Hd name _ Hf) as [Hc _ _ _].
  pose proof (co_ent _ _ Hc _ _ _ (lookup_snoc_last f0 i ss)) as Hent.
  pose proof (eo_range _ _ _ _ Hent) as Hi. pose proof (eo_cap _ _ _ _ Hent) as Hcap.
  pose proof (cap_le (length f0)). pose proof (zlen_nonneg ss). pose proof (zlen_ent s i Hwf Hi) as Hle.
  unfold write_alloc. wp_simpl.
  destruct (next_free_sector_spec (cur_sector fh) s Hwf Hsec) as (x & Heq & Hx); wp_eq ltac:(exact Heq).
  pose proof geom_count. destruct Hx as [(Hx & k & _ & _ & Hfree & _)|(-> & Hall)].
  2: { change (SECTOR_FREE =? SECTOR_FREE) with true. wp_simpl. right.
       split; [by apply rebuf_refl|]. split; [done|]. by left. }
  unfold SECTOR_FREE. destruct (Z.eqb_spec x 255); [lia|]. rewrite Hcur, Hsi.
  destruct (read_entry_rebuf s s i Hwf (rebuf_refl s Hwf) Hi) as (Hread & Hr1 & Hbuf).
  wp_simpl. wp_eq ltac:(exact Hread). wp_simpl. set (s1 := with_buf (ent s i) s) in *.
  pose proof (rebuf_wf _ _ Hwf Hr1) as Hwf1.
  wp_eq ltac:(by apply curentry_max_sectors_eq). rewrite Hbuf, (e_cap_cap _ _ _ _ Hent).
  assert (u8 (u8 (zlen ss - 1) + 1) = zlen ss) as -> by (unfold u8; rewrite Zplus_mod_idemp_l, Z.mod_small; lia).
  destruct (Z.leb_spec (cap (length f0)) (zlen ss)); wp_simpl.
  - destruct (next_free_entry_spec i s1 Hwf1 Hi) as [(j & Hj & (q & _ & _ & Hjfree & _) & Hne)|[Hall Hne]];
      wp_eq ltac:(exact Hne).
    2: { change (255 =? 255) with true. cbv iota. wp_simpl. rewrite decide_False by done. wp_simpl.
         right. split; [done|]. split; [|by right]. destruct Hwfile. by split. }
    pose proof geom_entries. destruct (Z.eqb_spec j 255); [lia|]. wp_simpl.
    assert (wf_base (set_used_entries (bm_set (used_entries s1) j true) s1)) as Hwf2
      by by apply wf_set_used_entries.
    set (s2 := set_used_entries _ s1) in *. assert (buf s2 = ent s i) as Hbuf2 by done.
    apply link_direntry_wp; [done|done|unfold is_byte; lia|].
    rewrite Hbuf2. intros e He Hle' Hbe. wp_simpl. rewrite decide_True by done.
    assert (is_byte j) by (unfold is_byte; lia).
    assert (zlen (splice 31 [j] (ent s i)) = 32) by arr.
    assert (bytes (splice 31 [j] (ent s i))) by (apply bytes_splice; [by apply Forall_singleton|by apply bytes_ent]).
    assert (wf_base (with_ent i (splice 31 [j] (ent s i)) s2)) as Hwf3 by by apply wf_with_ent.
    apply record_sector_wp; try done; [by apply wf_with_buf|apply Hm|].
    intros s' Hwf' Hfok' Hee Hue Hus. wp_simpl. left.
    rewrite buf_with_buf, He in Hee by done.
    by apply (alloc_entry s s' files name f0 i ss fh data x j); try done; lia.
  - rewrite decide_True by done. simpl. rewrite ?Hcur.
    apply record_sector_wp; try done; [apply Hm|lia|].
    intros s' Hwf' Hfok' Hee Hue Hus. wp_simpl. left. rewrite Hbuf in Hee.
    by apply (alloc_slot s s').
Qed.
End alloc.

(** ** Writing a block *)
Section block.
Context `{EepromGeomOk} `{Assertions}.
Implicit Types s : eefs.

Lemma nthZ_inj l a b :
  NoDup l -> 0 <= a < zlen l -> 0 <= b < zlen l -> nthZ l a = nthZ l b -> a = b.
Proof.
  intros Hnd Ha Hb He. pose proof (nthZ_lookup l a Ha) as Hla. rewrite He in Hla.
  pose proof (NoDup_lookup _ _ _ _ Hnd Hla (nthZ_lookup l b Hb)). lia.
Qed.

(** The sector bytes after a transfer of [bs] to sector [y], offset [o0]. *)
Definition put_bytes (s : eefs) (y o0 : Z) (bs : list Z) : eefs :=
  set_eeprom (splice (sector_addr y o0) bs (eeprom s)) s.

Lemma put_bytes_byte s y o0 bs x o :
  wf_base s -> 0 <= y < SECTOR_COUNT -> 0 <= o0 -> o0 + zlen bs <= EEPROMFS_SECTORSIZE ->
  0 <= x < SECTOR_COUNT -> 0 <= o < EEPROMFS_SECTORSIZE ->
  nthZ (eeprom (put_bytes s y o0 bs)) (sector_addr x o) =
    if (x =? y) && (o0 <=? o) && (o <? o0 + zlen bs) then nthZ bs (o - o0)
    else nthZ (eeprom s) (sector_addr x o).
Proof.
  intros Hwf Hy Ho0 Hle Hx Ho. pose proof data_offset_nonneg. pose proof geom_sectorsize.
  destruct (sector_addr_range s x o Hwf Hx Ho). destruct (sector_addr_range s y 0 Hwf Hy); [lia|].
  pose proof (zlen_nonneg bs).
  assert (forall z p, sector_addr z p = sector_addr z 0 + p) as Hsa by (intros; unfold sector_addr; lia).
  unfold put_bytes. simpl. rewrite nthZ_splice by (rewrite ?(Hsa y o0); lia).
  rewrite (Hsa x o), (Hsa y o0) in *. destruct (Z.eqb_spec x y) as [->|Hne]; simpl.
  - case_bools; lia || done || (f_equal; lia).
  - assert (sector_addr x 0 + EEPROMFS_SECTORSIZE <= sector_addr y 0 \/
            sector_addr y 0 + EEPROMFS_SECTORSIZE <= sector_addr x 0).
    { unfold sector_addr in *. destruct (Z.lt_trichotomy x y) as [?|[?|?]]; nia. }
    case_bools; lia || done.
Qed.

(** Byte [p] of a file whose sectors are [secs], after a block was written
    behind its first [len] bytes. *)
Lemma put_bytes_pos s secs len bs p :
  wf_base s -> secs_in secs -> NoDup secs -> 0 <= len ->
  len < EEPROMFS_SECTORSIZE * zlen secs <= len + EEPROMFS_SECTORSIZE ->
  len `mod` EEPROMFS_SECTORSIZE + zlen bs <= EEPROMFS_SECTORSIZE ->
  0 <= p < EEPROMFS_SECTORSIZE * zlen secs ->
  let s' := put_bytes s (nthZ secs (zlen secs - 1)) (len `mod` EEPROMFS_SECTORSIZE) bs in
  let addr := sector_addr (nthZ secs (p / EEPROMFS_SECTORSIZE)) (p `mod` EEPROMFS_SECTORSIZE) in
  nthZ (eeprom s') addr =
    if (len <=? p) && (p <? len + zlen bs) then nthZ bs (p - len) else nthZ (eeprom s) addr.
Proof.
  intros Hwf Hin Hnd Hlen Hr Hle Hp. cbv zeta. pose proof geom_sectorsize.
  destruct (pos_div p (zlen secs) Hp) as [Hk Ho]. destruct (pos_div len (zlen secs)) as [Hk' Ho']; [lia|].
  rewrite put_bytes_byte by (done || lia || apply secs_in_nth; done || lia).
  pose proof (Z.div_mod p EEPROMFS_SECTORSIZE). pose proof (Z.div_mod len EEPROMFS_SECTORSIZE).
  set (a := p / EEPROMFS_SECTORSIZE) in *. set (b := len / EEPROMFS_SECTORSIZE) in *.
  assert (b = zlen secs - 1) as Hb by nia.
  destruct (Z.eqb_spec (nthZ secs a) (nthZ secs (zlen secs - 1))) as [He|Hne]; simpl.
  - apply nthZ_inj in He; [|done|lia|lia]. assert (a = b) as Hab by lia. rewrite Hab in *.
    case_bools; nia || done || (f_equal; nia).
  - assert (a < b) by (destruct (Z.eq_dec a (zlen secs - 1)) as [->|]; [done|lia]).
    assert (p < len) by nia. case_bools; lia || done.
Qed.

Lemma fs_inv_put_bytes s files y o0 bs :
  fs_inv s files -> 0 <= y < SECTOR_COUNT -> 0 <= o0 -> o0 + zlen bs <= EEPROMFS_SECTORSIZE -> bytes bs ->
  fs_inv (put_bytes s y o0 bs) files.
Proof.
  intros [Hwf Hd [Hs He Hfr]] Hy Ho Hle Hb. split; [by apply wf_write| |by split].
  apply (disk_ok_ext (ent s)); [|done]. intros j Hj. by apply ent_write.
Qed.

(** Writing behind the stored size of one file changes no file. *)
Lemma view_put_bytes s files name f len bs :
  fs_inv s files -> files !! name = Some f -> e_size (ent s (f_first f)) <= len ->
  len < EEPROMFS_SECTORSIZE * zlen (f_sectors f) <= len + EEPROMFS_SECTORSIZE ->
  len `mod` EEPROMFS_SECTORSIZE + zlen bs <= EEPROMFS_SECTORSIZE -> bytes bs -> 
  view (put_bytes s (last_sector f) (len `mod` EEPROMFS_SECTORSIZE) bs) files = view s files.
Proof.
  intros Hinv Hf Hsz Hr Hle Hb. pose proof Hinv as [Hwf Hd Hm]. pose proof geom_sectorsize.
  pose proof (dk_file _ _ Hd name f Hf) as [Hc _ _ _]. pose proof (chain_secs_in _ _ Hc) as Hin.
  pose proof (f_first_in f (co_nonempty _ _ Hc)) as Hfi.
  pose proof (e_size_range s (f_first f) Hwf (chain_entry_range _ _ _ Hc Hfi)).
  pose proof (zlen_nonneg (f_sectors f)).
  assert (0 <= last_sector f < SECTOR_COUNT) as Hlast by (apply secs_in_nth; [done|nia]).
  destruct (Z.mod_pos_bound len EEPROMFS_SECTORSIZE); [lia|]. 
  set (s' := put_bytes _ _ _ _). assert (wf_base s') as Hwf' by by apply wf_write.
  assert (forall i, 0 <= i < EEPROMFS_ENTRIES -> ent s' i = ent s i) as Hent by (intros; by apply ent_write).
  apply map_eq. intros m. unfold view. rewrite !lookup_fmap. destruct (files !! m) as [g|] eqn:Hg; [|done].
  simpl. f_equal. pose proof (dk_file _ _ Hd m g Hg) as [Hcg _ _ Hszg].
  pose proof (f_first_in g (co_nonempty _ _ Hcg)) as Hgi. pose proof (chain_secs_in _ _ Hcg) as Hing.
  unfold f_data. rewrite Hent by (by eapply chain_entry_range, Hgi).
  destruct (decide (m = name)) as [->|Hmn].
  - assert (g = f) as -> by congruence. apply nthZ_ext; [by rewrite !zlen_slice by (rewrite ?zlen_content by done; lia)|].
    intros p Hp. rewrite zlen_slice in Hp by (rewrite ?zlen_content by done; lia).
    rewrite !nthZ_slice, !nthZ_content by (done || rewrite ?zlen_content by done; lia). unfold s', last_sector.
    rewrite put_bytes_pos by (done || lia || apply Hc). case_bools; lia || done.
  - f_equal. apply content_ext. intros x Hx. apply same_sector_write; try done.
    + by eapply chain_sector_range, Hx.
    + intros ->. apply Hmn, (dk_sectors _ _ Hd m g name f (last_sector f)); try done.
      eapply list_elem_of_lookup_2, nthZ_lookup. nia.
Qed.

Lemma data_at_put_bytes s f data bs :
  wf_base s -> secs_in (f_sectors f) -> NoDup (f_sectors f) -> data_at s (f_sectors f) data ->
  zlen data < EEPROMFS_SECTORSIZE * zlen (f_sectors f) <= zlen data + EEPROMFS_SECTORSIZE ->
  zlen data `mod` EEPROMFS_SECTORSIZE + zlen bs <= EEPROMFS_SECTORSIZE ->
  zlen data + zlen bs <= EEPROMFS_SECTORSIZE * zlen (f_sectors f) ->
  data_at (put_bytes s (last_sector f) (zlen data `mod` EEPROMFS_SECTORSIZE) bs) (f_sectors f) (data ++ bs).
Proof.
  intros Hwf Hin Hnd Hd Hr Hle Hroom p Hp. rewrite zlen_app in Hp. pose proof (zlen_nonneg data).
  unfold last_sector. rewrite put_bytes_pos by (done || lia). rewrite nthZ_app by lia.
  case_bools; lia || done || (apply Hd; lia).
Qed.

Lemma w_ready_room f0 i ss s fh data :
  w_ready s f0 i ss fh data ->
  zlen data `mod` EEPROMFS_SECTORSIZE + (EEPROMFS_SECTORSIZE - zlen data `mod` EEPROMFS_SECTORSIZE)
    + EEPROMFS_SECTORSIZE * (zlen data / EEPROMFS_SECTORSIZE)
  = EEPROMFS_SECTORSIZE * zlen (f_sectors (f0 ++ [(i, ss)])).
Proof.
  intros (_ & _ & Hr & _). pose proof geom_sectorsize. pose proof (zlen_nonneg data).
  pose proof (Z.div_mod (zlen data) EEPROMFS_SECTORSIZE).
  destruct (Z.mod_pos_bound (zlen data) EEPROMFS_SECTORSIZE); [lia|].
  set (n := zlen (f_sectors _)) in *. set (a := zlen data / EEPROMFS_SECTORSIZE) in *.
  assert (n = a + 1) as -> by nia. lia.
Qed.

(** The transfer of one block to a sector with room for it. *)
Lemma write_block s files name f0 i ss fh data bs :
  let f := f0 ++ [(i, ss)] in
  fs_inv s files -> files !! name = Some f -> w_ready s f0 i ss fh data -> bytes bs ->
  0 < zlen bs <= EEPROMFS_SECTORSIZE - cur_soffset fh ->
  let s' := put_bytes s (cur_sector fh) (cur_soffset fh) bs in
  eeprom_write_block bs (sector_addr (cur_sector fh) (cur_soffset fh)) s = Done tt s' /\
  fs_inv s' files /\ view s' files = view s files /\
  w_handle s' f0 i ss (fh_wrote fh (zlen bs)) (data ++ bs).
Proof.
  intros f Hinv Hf Hw Hb Hn. pose proof (w_ready_room _ _ _ _ _ _ Hw) as Hroom. fold f in Hroom.
  pose proof Hw as (Hwf & [Hcur Hsi Ho Hso Hsec] & Hr & Hls). destruct Hwf as [He Hm Hs Hrm Hst Hd].
  fold f in He, Hrm, Hst, Hd, Hr, Hls. rewrite Hso, Hls in *. pose proof Hinv as [Hwb Hdk _].
  pose proof geom_sectorsize. pose proof (zlen_nonneg data). pose proof data_offset_nonneg.
  destruct (Z.mod_pos_bound (zlen data) EEPROMFS_SECTORSIZE); [lia|].
  pose proof (dk_file _ _ Hdk name f Hf) as [Hc _ _ _]. pose proof (chain_secs_in _ _ Hc) as Hin.
  pose proof (chain_sectors_le _ _ Hc). pose proof geom_capacity.
  destruct (sector_addr_range s (last_sector f) 0 Hwb Hsec); [lia|].
  assert (sector_addr (last_sector f) (zlen data `mod` EEPROMFS_SECTORSIZE) = sector_addr (last_sector f) 0 +
    zlen data `mod` EEPROMFS_SECTORSIZE) by (unfold sector_addr; lia).
  pose proof (Z.div_mod (zlen data) EEPROMFS_SECTORSIZE).
  assert (zlen data + zlen bs <= EEPROMFS_SECTORSIZE * zlen (f_sectors f)) by lia.
  assert (zlen data + zlen bs < 65536) by nia.
  split_and!.
  - by rewrite eeprom_write_eq by lia.
  - apply fs_inv_put_bytes; done || lia.
  - apply (view_put_bytes s files name); done || lia.
  - set (d := zlen data) in *. assert (u16 (d + zlen bs) = d + zlen bs) as Hu by (apply u16_id; lia).
    unfold w_handle. fold f. rewrite zlen_app. fold d. split_and!; [split|split| |]; simpl; rewrite ?Hs, ?Ho, ?zlen_app; fold d; try done.
    + unfold put_bytes. rewrite ent_write; try done; try lia.
      exact (chain_entry_range _ _ _ Hc (f_first_in f (co_nonempty _ _ Hc))).
    + apply data_at_put_bytes; fold d; try done; try lia. apply (co_sectors _ _ Hc).
    + rewrite Hso, Z.add_mod_idemp_l by lia. apply u8_id.
      destruct (Z.mod_pos_bound (d + zlen bs) EEPROMFS_SECTORSIZE); lia.
    + by rewrite Hls.
    + lia.
Qed.
End block.

(** ** The write loop *)
Section write.
Context `{EepromGeomOk} `{Assertions}.
Implicit Types s : eefs.
Abbreviation files_t := (gmap (list Z) file).

(** [f] is open for writing at the end of the chain, holding [data]; no
    file of [files] has changed. *)
Definition writing (s0 : eefs) (files : files_t) (name : list Z) (f : file) (s : eefs) : Prop :=
  fs_inv s (<[name := f]> files) /\ view s (<[name := f]> files) = view s0 files.

Lemma w_handle_ready s f0 i ss fh data :
  w_handle s f0 i ss fh data -> cur_soffset fh <> 0 -> w_ready s f0 i ss fh data.
Proof.
  intros (Hf & Hp & Hr & Hl) Hso. pose proof (wf_room _ _ _ _ Hf) as Hroom. pose proof (wp_soffset _ _ _ _ Hp) as Hm.
  pose proof geom_sectorsize. cbv zeta in *. split; [done|]. split; [done|]. split; [|by apply Hl].
  split; [|lia]. destruct (decide (zlen data = EEPROMFS_SECTORSIZE * zlen (f_sectors (f0 ++ [(i, ss)])))) as [He|];
    [|lia]. rewrite He, Z.mul_comm, Z.mod_mul in Hm by lia. lia.
Qed.

(** The block length of one pass. *)
Lemma block_length len so :
  0 < len < 65536 -> 0 <= so < EEPROMFS_SECTORSIZE ->
  u8 (min len (u16 (EEPROMFS_SECTORSIZE - so))) = Z.min len (EEPROMFS_SECTORSIZE - so).
Proof.
  intros Hl Hso. pose proof geom_sectorsize. rewrite u16_id by lia. unfold min.
  rewrite u8_id by (destruct (Z.ltb_spec len (EEPROMFS_SECTORSIZE - so)); lia).
  destruct (Z.ltb_spec len (EEPROMFS_SECTORSIZE - so)); lia.
Qed.

Lemma w_pos_soffset i ss fh data : w_pos i ss fh data -> 0 <= cur_soffset fh < EEPROMFS_SECTORSIZE.
Proof. intros [_ _ _ -> _]. pose proof geom_sectorsize. apply Z.mod_pos_bound. lia. Qed.

Definition write_inv (s0 : eefs) (files : files_t) (name data bdata : list Z) (length : Z)
    (st : eefs_fh_t * list Z * Z * Z) (s : eefs) : Prop :=
  let '(fh, bd, len, w) := st in
  0 <= len <= length /\ w = length - len /\ bd = drop (Z.to_nat w) bdata /\
  exists f0 i ss, writing s0 files name (f0 ++ [(i, ss)]) s /\
    w_handle s f0 i ss fh (data ++ slice 0 w bdata).

(** The result of [eepromfs_write]: [written] bytes were appended. *)
Definition write_post (s0 : eefs) (files : files_t) (name data bdata : list Z) (length : Z)
    (r : eefs_error_t * eefs_fh_t * Z) (s : eefs) : Prop :=
  let '(err, fh, w) := r in
  let data' := data ++ slice 0 w bdata in
  0 <= w <= length /\
  exists f, writing s0 files name f s /\ w_file s f fh data' /\
    match err with
    | EEFS_ERROR_OK => w = length /\ exists f0 i ss, f = f0 ++ [(i, ss)] /\ w_handle s f0 i ss fh data'
    | EEFS_ERROR_DISKFULL => w < length /\ all_used (used_sectors s) SECTOR_COUNT
    | EEFS_ERROR_DIRFULL => w < length /\ all_used (used_entries s) EEPROMFS_ENTRIES
    | _ => False
    end.

(** One block, once the handle has room in its last sector. *)
Lemma write_pass s0 s files name data bdata length f0 i ss fh len w :
  0 < len <= length -> length < 65536 -> w = length - len -> zlen bdata = length -> bytes bdata ->
  writing s0 files name (f0 ++ [(i, ss)]) s -> w_ready s f0 i ss fh (data ++ slice 0 w bdata) ->
  let n := u8 (min len (u16 (EEPROMFS_SECTORSIZE - cur_soffset fh))) in
  let bs := slice 0 n (drop (Z.to_nat w) bdata) in
  load_block (drop (Z.to_nat w) bdata) 0 n = Some bs /\
  exists s', eeprom_write_block bs (sector_addr (cur_sector fh) (cur_soffset fh)) s = Done tt s' /\
    write_inv s0 files name data bdata length
      (fh_wrote fh n, drop (Z.to_nat n) (drop (Z.to_nat w) bdata), u16 (len - n), u16 (w + n)) s' /\
    u16 (len - n) < len.
Proof.
  intros Hlen Hmax Hw Hbl Hb [Hinv Hview] Hr n bs. pose proof (w_pos_soffset _ _ _ _ (proj1 (proj2 Hr))) as Hso.
  pose proof geom_sectorsize. assert (n = Z.min len (EEPROMFS_SECTORSIZE - cur_soffset fh)) as Hn
    by (apply block_length; lia). clearbody n.
  assert (zlen (drop (Z.to_nat w) bdata) = len) as Hdl by (unfold zlen in *; rewrite length_drop; lia).
  assert (zlen bs = n) as Hbs by (unfold bs; rewrite zlen_slice; lia).
  assert (bytes bs) by (unfold bs; apply bytes_slice; by apply Forall_drop).
  split; [apply load_block_some; lia|].
  destruct (write_block s (<[name := f0 ++ [(i, ss)]]> files) name f0 i ss fh (data ++ slice 0 w bdata) bs)
    as (He & Hinv' & Hview' & Hh'); [done|by rewrite lookup_insert_eq|done|done|lia|].
  eexists. split; [exact He|]. rewrite !u16_id by lia. split; [|lia]. split; [lia|]. split; [lia|].
  split; [rewrite drop_drop; f_equal; lia|]. exists f0, i, ss. split; [split; [done|by rewrite Hview']|].
  replace (slice 0 (w + n) bdata) with (slice 0 w bdata ++ bs).
  - rewrite app_assoc. by rewrite Hbs in Hh'.
  - unfold bs, slice. rewrite !drop_0. rewrite Z2Nat.inj_add by lia. apply take_take_drop.
Qed.

Lemma write_step_spec s0 s files name data bdata length fh bd len w :
  length < 65536 -> zlen bdata = length -> bytes bdata ->
  write_inv s0 files name data bdata length (fh, bd, len, w) s ->
  wp (write_step (fh, bd, len, w)) (fun r s' =>
    match r with
    | inl st' => write_inv s0 files name data bdata length st' s' /\ st'.1.2 < len
    | inr x => write_post s0 files name data bdata length x s'
    end) s.
Proof.
  intros Hmax Hbl Hb (Hlen & Hw & -> & f0 & i & ss & Hwr & Hh).
  pose proof Hh as (Hfile & Hpos & _). unfold write_step.
  destruct (Z.eqb_spec len 0) as [->|Hne]; wp_simpl.
  { assert (w = length) as -> by lia. split; [lia|]. exists (f0 ++ [(i, ss)]). split_and!; try done. eauto. }
  assert (forall s1 f1 i1 ss1 fh1,
    writing s0 files name (f1 ++ [(i1, ss1)]) s1 -> w_ready s1 f1 i1 ss1 fh1 (data ++ slice 0 w bdata) ->
    wp (let n := u8 (min len (u16 (EEPROMFS_SECTORSIZE - cur_soffset fh1))) in
        bs ← of_option (load_block (drop (Z.to_nat w) bdata) 0 n);
        eeprom_write_block bs (sector_addr (cur_sector fh1) (cur_soffset fh1));;
        mret (inl (fh_wrote fh1 n, drop (Z.to_nat n) (drop (Z.to_nat w) bdata), u16 (len - n), u16 (w + n))))
      (fun r s' => match r with
        | inl st' => write_inv s0 files name data bdata length st' s' /\ st'.1.2 < len
        | inr x => write_post s0 files name data bdata length x s' end) s1) as Hpass.
  { intros s1 f1 i1 ss1 fh1 Hwr1 Hr1.
    destruct (write_pass s0 s1 files name data bdata length f1 i1 ss1 fh1 len w) as (Hl & s' & He & Hi & Hd);
      [lia|lia|done..|].
    cbv zeta. rewrite Hl. wp_simpl. wp_eq ltac:(exact He). by wp_simpl. }
  destruct (Z.eqb_spec (cur_soffset fh) 0) as [Hso|Hso]; wp_simpl.
  2: { rewrite decide_True by done. eapply Hpass; [done|]. by apply w_handle_ready. }
  destruct Hwr as [Hinv Hview].
  eapply wp_mono; [by apply (write_alloc_spec s (<[name := f0 ++ [(i, ss)]]> files) name f0 i ss);
    [|rewrite lookup_insert_eq|..]|].
  intros [err fh'] s' [(Hok & f1 & i1 & ss1 & x & Hinv' & Hview' & _ & Hr)|(Hr & Hf & Hcase)]; simpl in *.
  - subst err. rewrite decide_True by done. rewrite insert_insert_eq in *. eapply Hpass; [|done].
    split; [done|]. by rewrite Hview'.
  - rewrite decide_False by (by destruct Hcase as [[-> _]|[-> _]]). wp_simpl. split; [lia|].
    exists (f0 ++ [(i, ss)]). split; [split; [by apply (fs_inv_rebuf s)|by rewrite (view_rebuf s)]|].
    assert (w < length) by lia. pose proof Hr as (b & ? & ? & ->).
    split; [|by destruct Hcase as [[-> ?]|[-> ?]]]. destruct Hf. by split.
Qed.

Lemma write_spec s files name f0 i ss fh data bdata length :
  fs_inv s files -> files !! name = Some (f0 ++ [(i, ss)]) -> w_handle s f0 i ss fh data ->
  0 <= length < 65536 -> zlen bdata = length -> bytes bdata ->
  wp (eepromfs_write fh bdata length) (fun r s' =>
    exists w, r.2 = Some w /\ write_post s files name data bdata length (r.1, w) s') s.
Proof.
  intros Hinv Hf Hh Hlen Hbl Hb. unfold eepromfs_write.
  pose proof Hh as (Hfile & _). rewrite (wf_mode _ _ _ _ Hfile).
  change (negb (EEFS_MODE_WRITE =? EEFS_MODE_WRITE)) with false. cbv iota. wp_simpl.
  eapply (wp_mono _ (write_post s files name data bdata length)).
  2: { intros [[err fh'] w] s' Hp. wp_simpl. by exists w. }
  apply (wp_loop (write_inv s files name data bdata length) (fun st _ => Z.to_nat st.1.2)).
  - intros [[[fh1 bd] len] w] s1 Hi. pose proof Hi as [Hrng _].
    eapply wp_mono; [apply (write_step_spec s s1 files name data bdata length); [lia|done..]|].
    intros [[[[fh2 bd2] len2] w2]|x] s2; [|done]. simpl. intros [Hi2 Hlt]. split; [done|].
    destruct Hi2 as [? _]. lia.
  - split; [lia|]. split; [lia|]. split; [done|]. exists f0, i, ss.
    change (slice 0 0 bdata) with (@nil Z). rewrite app_nil_r.
    split; [|done]. split; rewrite insert_id by done; done.
  - simpl. lia.
Qed.
End write.
