(* ===== verification/EepromFsDir.v ===== *)
(** * eeprom-fs.c: directory operations

    [eepromfs_close], [eepromfs_rename], [eepromfs_delete],
    [eepromfs_readdir], [eepromfs_init] and [eepromfs_format] against the
    invariant of [EepromFsInv]. *)

From stdpp Require Import gmap.
From S2P Require Import Prelude EepromFs EepromFsFacts EepromFsInv EepromFsFile EepromFsWrite.

Ltac Zify.zify_pre_hook ::= unfold_consts.

(** ** Updating the name and the size of a file *)
Section head.
Context `{EepromGeomOk} `{Assertions}.
Implicit Types s : eefs.
Implicit Types d : Z -> list Z.

(** [e] has the sectors, flags and link of [e0]. *)
Definition head_like (e e0 : list Z) : Prop :=
  zlen e = 32 /\ bytes e /\ forall p, 0 <= p < 12 \/ 30 <= p < 32 -> nthZ e p = nthZ e0 p.

Lemma chain_head d f e :
  chain_ok d f -> head_like e (d (f_first f)) -> chain_ok (upd d (f_first f) e) f.
Proof.
  intros Hc (He & Hb & Hp). destruct f as [|[h sh] f]; [by destruct (co_nonempty _ _ Hc)|].
  change (f_first ((h, sh) :: f)) with h in *.
  assert (e_flags e = e_flags (d h)) as Hfl by (apply Hp; unfold_consts; lia).
  assert (e_next e = e_next (d h)) as Hnx by (apply Hp; unfold_consts; lia).
  assert (forall k j sj, ((h, sh) :: f) !! k = Some (j, sj) -> j = h -> k = 0%nat) as Hk0.
  { intros k j sj Hk ->. pose proof (co_entries _ _ Hc) as Hnd.
    apply (NoDup_lookup _ _ _ h Hnd); [|done]. unfold f_entries. by rewrite list_lookup_fmap, Hk. }
  split; try apply Hc; intros k j sj Hk.
  - destruct (co_ent _ _ Hc k j sj Hk) as [? Hl Hi ? ? Hs].
    destruct (decide (j = h)) as [->|]; [|split; rewrite ?upd_ne by done; done].
    assert (k = 0%nat) as -> by by eapply Hk0.
    split; rewrite ?upd_eq, ?(e_deleted_flags _ _ Hfl), ?(e_islist_flags _ _ Hfl); try done.
    intros p Hpp. change (cap 0) with 12 in *. rewrite Hp by lia. by apply Hs.
  - destruct (decide (j = h)) as [->|]; [|rewrite upd_ne by done; by apply (co_next _ _ Hc) in Hk].
    rewrite upd_eq, Hnx. by apply (co_next _ _ Hc) in Hk.
Qed.

Abbreviation files_t := (gmap (list Z) file).

Lemma lookup_move (files : files_t) n n' f m g :
  files !! n = Some f -> n' = n \/ files !! n' = None ->
  (<[n' := f]> (delete n files)) !! m = Some g ->
  exists m0, files !! m0 = Some g /\ (m = n' /\ m0 = n \/ m <> n' /\ m <> n /\ m0 = m).
Proof.
  intros Hf Hn'. rewrite lookup_insert_Some, lookup_delete_Some.
  intros [[<- <-]|(Hm & Hmn & Hg)]; [exists n; by split; [|left]|exists m; split; [done|right]].
  destruct Hn'; naive_solver.
Qed.

(** The file [n] renamed to [n'], with a new size. *)
Lemma head_file s s' files n n' f e :
  fs_inv s files -> files !! n = Some f -> n' = n \/ files !! n' = None ->
  dir_upd s s' (upd (ent s) (f_first f) e) -> head_like e (ent s (f_first f)) ->
  used_sectors s' = used_sectors s -> used_entries s' = used_entries s -> free_sectors s' = free_sectors s ->
  zlen n' = EEFS_NAME_LENGTH -> e_name e = n' -> e_size e <= EEPROMFS_SECTORSIZE * zlen (f_sectors f) ->
  let files' := <[n' := f]> (delete n files) in
  fs_inv s' files' /\
  view s' files' = <[n' := slice 0 (e_size e) (content s (f_sectors f))]> (delete n (view s files)).
Proof.
  intros [Hwf Hd Hm] Hf Hn' Hu Hlike Hus Hue Hfs Hlen Hname Hsz files'.
  pose proof (dk_file _ _ Hd n f Hf) as [Hc _ _ _]. set (h := f_first f) in *.
  pose proof (f_first_in f (co_nonempty _ _ Hc)) as Hfi. fold h in Hfi.
  pose proof (chain_entry_range _ _ _ Hc Hfi) as Hh.
  assert (forall m g, files' !! m = Some g -> exists m0, files !! m0 = Some g /\
    (m = n' /\ m0 = n \/ m <> n' /\ m <> n /\ m0 = m)) as Hlk by (intros; by eapply lookup_move).
  assert (forall m0 g, files !! m0 = Some g -> exists m, files' !! m = Some g) as Hlk'.
  { intros m0 g Hg. destruct (decide (m0 = n)) as [->|].
    - exists n'. unfold files'. rewrite lookup_insert_eq. congruence.
    - exists m0. unfold files'. rewrite lookup_insert_ne by (destruct Hn'; congruence).
      by rewrite lookup_delete_ne. }
  assert (forall m g i, m <> n -> files !! m = Some g -> i ∈ f_entries g -> i <> h) as Hne.
  { intros m g i Hmn Hg Hi ->. by apply Hmn, (dk_entries _ _ Hd m g n f h). }
  assert (disk_ok (upd (ent s) h e) files') as Hd'.
  { split.
    - intros m g Hg. destruct (Hlk m g Hg) as (m0 & Hg0 & [[-> ->]|(? & Hmn & ->)]).
      + assert (g = f) as -> by congruence. split; [by apply chain_head|done|..]; fold h; by rewrite upd_eq.
      + apply (file_ok_ext (ent s)); [|by apply (dk_file _ _ Hd)].
        intros i Hi. apply upd_ne. by eapply Hne.
    - intros n1 f1 n2 f2 i Hf1 Hf2 Hi1 Hi2. destruct (Hlk _ _ Hf1) as (m1 & Hg1 & Hc1), (Hlk _ _ Hf2) as (m2 & Hg2 & Hc2).
      pose proof (dk_entries _ _ Hd m1 f1 m2 f2 i Hg1 Hg2 Hi1 Hi2). naive_solver.
    - intros n1 f1 n2 f2 x Hf1 Hf2 Hx1 Hx2. destruct (Hlk _ _ Hf1) as (m1 & Hg1 & Hc1), (Hlk _ _ Hf2) as (m2 & Hg2 & Hc2).
      pose proof (dk_sectors _ _ Hd m1 f1 m2 f2 x Hg1 Hg2 Hx1 Hx2). naive_solver.
    - intros i Hi Hdel. destruct (dk_live _ _ Hd i Hi) as (m0 & g & Hg & Hig).
      + destruct (decide (i = h)) as [->|]; [|by rewrite upd_ne in Hdel].
        destruct (head_entry _ _ _ _ Hd Hf) as (_ & ? & _). done.
      + destruct (Hlk' m0 g Hg) as (m & ?). eauto. }
  assert (forall P : Z -> file -> Prop, (forall x, (exists m g, files' !! m = Some g /\ P x g) <->
    exists m g, files !! m = Some g /\ P x g)) as Hex.
  { intros P x. split; intros (m & g & Hg & HP).
    - destruct (Hlk m g Hg) as (m0 & ? & _). eauto.
    - destruct (Hlk' m g Hg) as (m0 & ?). eauto. }
  split; [split|].
  - apply Hu.
  - apply (disk_ok_ext (upd (ent s) h e)); [apply Hu|done].
  - destruct Hm as [Hms Hme Hmf]. split.
    + intros x Hx. rewrite Hus, Hms by done. symmetry. apply (Hex (fun x g => x ∈ f_sectors g)).
    + intros i Hi Hiu. rewrite Hue. apply Hme; [done|]. by apply (Hex (fun x g => x ∈ f_entries g)).
    + unfold free_ok in *. by rewrite Hus, Hfs.
  - apply map_eq. intros m. unfold view, files'. rewrite fmap_insert, fmap_delete.
    destruct (decide (m = n')) as [->|Hmn'].
    + rewrite !lookup_insert_eq. unfold f_data. fold h. rewrite (du_ent _ _ _ Hu), upd_eq by done.
      do 2 f_equal. apply content_ext. intros x Hx. apply (du_same _ _ _ Hu). by eapply chain_sector_range, Hx.
    + rewrite !lookup_insert_ne by done. destruct (decide (m = n)) as [->|Hmn];
        [by rewrite !lookup_delete_eq|rewrite !lookup_delete_ne, !lookup_fmap by done].
      destruct (files !! m) as [g|] eqn:Hg; [|done]. simpl. f_equal.
      pose proof (dk_file _ _ Hd m g Hg) as [Hcg _ _ _].
      pose proof (f_first_in g (co_nonempty _ _ Hcg)) as Hgi. unfold f_data.
      rewrite (du_ent _ _ _ Hu) by (by eapply chain_entry_range, Hgi).
      rewrite upd_ne by (by eapply Hne). f_equal. apply content_ext. intros x Hx.
      apply (du_same _ _ _ Hu). by eapply chain_sector_range, Hx.
Qed.

(** The entry in the buffer, changed and written back. *)
Lemma rewrite_head_wp s s1 h i bs (Q : unit -> eefs -> Prop) :
  wf_base s -> rebuf s s1 -> buf s1 = ent s h -> 0 <= h < EEPROMFS_ENTRIES ->
  12 <= i -> i + zlen bs <= 30 -> bytes bs ->
  (let e := splice i bs (ent s h) in
   forall s', head_like e (ent s h) -> dir_upd s s' (upd (ent s) h e) ->
     used_sectors s' = used_sectors s -> used_entries s' = used_entries s ->
     free_sectors s' = free_sectors s -> wf_base s' -> Q tt s') ->
  wp (scratch_put i bs;; write_entry h) Q s1.
Proof.
  intros Hwf Hr Hbuf Hh Hi Hle Hb HQ. pose proof (rebuf_wf _ _ Hwf Hr) as Hwf1. wp_simpl.
  wp_eq ltac:(apply scratch_put_eq; [done|lia|lia]). rewrite Hbuf.
  pose proof (zlen_ent s h Hwf Hh). pose proof (bytes_ent s h Hwf). pose proof (zlen_nonneg bs).
  set (e := splice i bs (ent s h)) in *. assert (zlen e = 32) by (unfold e; rewrite zlen_splice; lia).
  assert (bytes e) by by apply bytes_splice.
  wp_eq ltac:(by apply write_entry_buf). pose proof Hr as (b & ? & ? & ->).
  assert (dir_upd s (with_ent h e (with_buf e (with_buf b s))) (upd (ent s) h e)) as Hu.
  { apply dir_upd_write; [|done..]. apply dir_upd_buf; [|done..]. apply dir_upd_buf; [|done..]. by apply dir_upd_same. }
  apply HQ; try done; [|apply Hu]. split; [done|]. split; [done|]. intros p Hp. unfold e.
  rewrite nthZ_splice by lia. case_bools; lia || done.
Qed.

Lemma wp_bind_seq {A} (m1 m2 : comp eefs unit) (m : comp eefs A) Q s :
  wp (m1;; m2) (fun _ s' => wp m Q s') s -> wp (m1;; m2;; m) Q s.
Proof.
  rewrite !wp_bind. intros Hw. eapply wp_mono; [exact Hw|]. intros a s'. cbv beta.
  by rewrite wp_bind.
Qed.
End head.

(** ** Closing and renaming *)
Section close.
Context `{EepromGeomOk} `{Assertions}.
Implicit Types s : eefs.
Abbreviation files_t := (gmap (list Z) file).

Definition set_mode (fh : eefs_fh_t) (m : Z) : eefs_fh_t :=
  {| fh_size := fh_size fh; cur_offset := cur_offset fh; fh_entry := fh_entry fh;
     cur_sector := cur_sector fh; cur_soffset := cur_soffset fh; cur_entry := cur_entry fh;
     cur_sindex := cur_sindex fh; filemode := m |}.

Lemma size_bytes x :
  0 <= x < 65536 -> bytes [Z.land x 255; Z.shiftr x 8] /\ Z.land x 255 + 256 * Z.shiftr x 8 = x.
Proof.
  intros Hx. rewrite Z.shiftr_div_pow2 by lia. change 255 with (Z.ones 8). rewrite Z.land_ones by lia.
  change (2 ^ 8) with 256. pose proof (Z.div_mod x 256).
  destruct (Z.mod_pos_bound x 256); [lia|]. split; [|lia].
  repeat (apply Forall_cons; split); [unfold is_byte; lia|unfold is_byte; lia|apply Forall_nil_2].
Qed.

(** The bytes of an open file are the first bytes of its sectors. *)
Lemma data_at_content s f fh data :
  wf_base s -> secs_in (f_sectors f) -> w_file s f fh data ->
  slice 0 (zlen data) (content s (f_sectors f)) = data.
Proof.
  intros Hwf Hin [_ _ _ Hroom _ Hd]. pose proof (zlen_nonneg data).
  assert (zlen data <= zlen (content s (f_sectors f))) by by rewrite zlen_content.
  apply nthZ_ext; [rewrite zlen_slice; lia|]. rewrite zlen_slice by lia. intros p Hp.
  rewrite nthZ_slice by lia. rewrite nthZ_content by (done || lia). symmetry. by apply Hd.
Qed.

Lemma close_spec s files name f fh data :
  fs_inv s files -> files !! name = Some f -> w_file s f fh data ->
  wp (eepromfs_close fh) (fun fh' s' =>
    fh' = set_mode fh 0 /\ fs_inv s' files /\ view s' files = <[name := data]> (view s files)) s.
Proof.
  intros Hinv Hf Hw. pose proof Hinv as [Hwf Hd Hm]. pose proof (dk_file _ _ Hd name f Hf) as [Hc Hln Hnm _].
  pose proof (f_first_in f (co_nonempty _ _ Hc)) as Hfi. pose proof (chain_entry_range _ _ _ Hc Hfi) as Hh.
  pose proof (wf_mode _ _ _ _ Hw) as Hmode. pose proof (wf_entry _ _ _ _ Hw) as He.
  pose proof (chain_sectors_le _ _ Hc). pose proof (wf_room _ _ _ _ Hw) as Hroom.
  pose proof geom_capacity. pose proof geom_sectorsize. pose proof (zlen_nonneg data).
  destruct (size_bytes (zlen data)) as [Hby Hsz]; [nia|].
  unfold eepromfs_close. rewrite Hmode, He, (wf_size _ _ _ _ Hw).
  change (negb (EEFS_MODE_WRITE =? EEFS_MODE_READ)) with true. unfold when.
  destruct (read_entry_rebuf s s (f_first f) Hwf (rebuf_refl s Hwf) Hh) as (Hread & Hr & Hbuf).
  wp_eq ltac:(exact Hread). unfold scratch_put16.
  eapply rewrite_head_wp; [exact Hwf|done|done|done|unfold_consts; lia|unfold_consts; arr|done|].
  set (e := splice OFS_SIZE _ _). intros e0 s' Hlike Hu Hus Hue Hfs Hwf'. unfold e0 in *. clear e0.
  pose proof (zlen_ent s (f_first f) Hwf Hh) as Hle. wp_simpl.
  split; [unfold set_mode; by rewrite He, (wf_size _ _ _ _ Hw)|].
  assert (e_size e = zlen data) as Hes.
  { unfold e_size, e. unfold_consts. rewrite !nthZ_splice by arr. simpl. exact Hsz. }
  assert (e_name e = name) as Hen.
  { rewrite <- Hnm. unfold e_name, e. unfold_consts. apply slice_splice_ne; arr. }
  destruct (head_file s s' files name name f e) as [Hinv' Hview]; try done; [by left|lia|].
  rewrite insert_delete_eq, insert_id in Hinv', Hview by done.
  split; [done|]. rewrite Hview, Hes, insert_delete_eq. f_equal.
  apply (data_at_content s f fh); [done|by eapply chain_secs_in|done].
Qed.

Lemma rename_spec s files old new :
  fs_inv s files -> zlen old = EEFS_NAME_LENGTH -> zlen new = EEFS_NAME_LENGTH -> bytes new ->
  wp (eepromfs_rename old new) (fun r s' =>
    match files !! new, files !! old with
    | Some _, _ => r = EEFS_ERROR_FILEEXISTS /\ rebuf s s'
    | None, None => r = EEFS_ERROR_FILENOTFOUND /\ rebuf s s'
    | None, Some f => r = EEFS_ERROR_OK /\
        fs_inv s' (<[new := f]> (delete old files)) /\
        view s' (<[new := f]> (delete old files)) = <[new := f_data s f]> (delete old (view s files))
    end) s.
Proof.
  intros Hinv Hlo Hln Hb. pose proof Hinv as [Hwf Hd Hm]. unfold eepromfs_rename. wp_simpl. pose proof geom_entries.
  eapply wp_mono; [by apply find_entry_spec|]. intros idx s1 [Hr Hres]. cbv beta.
  destruct (files !! new) as [g|] eqn:Hnew.
  { destruct Hres as [-> _]. destruct (head_entry _ _ _ _ Hd Hnew) as [? _].
    destruct (Z.eqb_spec (f_first g) 255); [lia|]. by wp_simpl. }
  subst idx. change (negb (255 =? 255)) with false. cbv iota. wp_simpl.
  assert (fs_inv s1 files) as Hinv1 by by apply (fs_inv_rebuf s).
  eapply wp_mono; [by apply find_entry_spec|]. intros idx s2 [Hr2 Hres]. cbv beta.
  assert (rebuf s s2) as Hrr.
  { destruct Hr as (b & ? & ? & ->), Hr2 as (b2 & ? & ? & ->). rewrite with_buf_with_buf by done. by exists b2. }
  destruct (files !! old) as [f|] eqn:Hf.
  2: { subst idx. change (255 =? 255) with true. by wp_simpl. }
  destruct Hres as [-> Hbuf]. destruct (head_entry _ _ _ _ Hd Hf) as (Hh & _ & _ & Hon).
  destruct (Z.eqb_spec (f_first f) 255); [lia|]. rewrite (rebuf_ent _ _ _ Hr) in Hbuf.
  rewrite wp_bind, load_block_some, wp_of_option_Some by lia.
  assert (slice 0 EEFS_NAME_LENGTH new = new) as -> by (rewrite <- Hln; apply slice_all).
  pose proof (dk_file _ _ Hd old f Hf) as [Hc _ _ Hsz].
  apply wp_bind_seq.
  eapply rewrite_head_wp; [exact Hwf|done|done|done|unfold_consts; lia|unfold_consts; lia|done|].
  set (e := splice OFS_NAME _ _). intros e0 s' Hlike Hu Hus Hue Hfs Hwf'. unfold e0 in *. clear e0.
  pose proof (zlen_ent s (f_first f) Hwf Hh) as Hle. wp_simpl. split; [done|].
  assert (e_size e = e_size (ent s (f_first f))) as Hes.
  { unfold e_size, e. unfold_consts. rewrite !nthZ_splice by lia. case_bools; lia || done. }
  assert (e_name e = new) as Hen.
  { unfold e_name, e. unfold_consts. rewrite <- Hln. apply slice_splice_same; lia. }
  destruct (head_file s s' files old new f e) as [Hinv' Hview]; try done; [by right|lia|].
  split; [done|]. by rewrite Hview, Hes.
Qed.
End close.

(** ** Deleting *)
Section delete.
Context `{EepromGeomOk} `{Assertions}.
Implicit Types s : eefs.
Implicit Types d : Z -> list Z.
Abbreviation files_t := (gmap (list Z) file).

(** [s'] is [s] with the sectors [l] marked as used ([v]) or free. *)
Record marked (v : bool) (l : list Z) (s s' : eefs) : Prop := {
  fr_base : wf_base s';
  fr_free : free_ok s';
  fr_eeprom : eeprom s' = eeprom s;
  fr_scratch : scratch s' = scratch s;
  fr_entries : used_entries s' = used_entries s;
  fr_sectors : forall x, 0 <= x < SECTOR_COUNT ->
    bm_test (used_sectors s') x = if bool_decide (x ∈ l) then v else bm_test (used_sectors s) x
}.

Lemma marked_nil v s : wf_base s -> free_ok s -> marked v [] s s.
Proof. intros. by split. Qed.

Lemma marked_snoc v l s s' x :
  marked v l s s' -> 0 <= x < SECTOR_COUNT -> bm_test (used_sectors s) x = negb v -> x ∉ l ->
  exists s'', mark_sector x v s' = Done tt s'' /\ marked v (l ++ [x]) s s''.
Proof.
  intros [Hwf Hfr He Hsc Hue Hus] Hx Hused Hnin.
  assert (bm_test (used_sectors s') x = negb v) as Ht
    by (rewrite Hus, Hused, bool_decide_eq_false_2 by done; done).
  pose proof (mark_sector_eq x v s' Hwf Hx Ht) as Heq. eexists. split; [exact Heq|].
  destruct (mark_sector_wf x v s' _ Hwf Hfr Hx Ht Heq) as (Hwf2 & Hfr2 & He2 & Hsc2 & Hue2 & Hus2).
  split; [done|done|by rewrite He2|by rewrite Hsc2|by rewrite Hue2|].
  intros y Hy. rewrite Hus2. destruct (bit_index_in (used_sectors s') x SECTOR_COUNT) as [? Hlt];
    [done|apply (wb_sectors _ Hwf)|].
  rewrite bm_test_set by (lia || apply (wb_sectors_bytes _ Hwf)).
  destruct (Z.eqb_spec y x) as [->|Hne].
  - by rewrite bool_decide_eq_true_2 by (apply elem_of_app; right; apply list_elem_of_here).
  - rewrite Hus by done. rewrite (bool_decide_ext (y ∈ l ++ [x]) (y ∈ l)); [done|].
    rewrite elem_of_app, list_elem_of_singleton. naive_solver.
Qed.

Lemma free_entry_sectors_spec d k i ss s :
  wf_base s -> free_ok s -> buf s = d i -> ent_ok d k i ss -> NoDup ss ->
  (forall x, x ∈ ss -> bm_test (used_sectors s) x = true) ->
  wp free_entry_sectors (fun _ s' => marked false ss s s') s.
Proof.
  intros Hwf Hfr Hbuf Hent Hnd Hused. unfold free_entry_sectors. wp_simpl.
  wp_eq ltac:(by apply curentry_max_sectors_eq). rewrite Hbuf, (e_cap_cap _ _ _ _ Hent).
  pose proof (eo_cap _ _ _ _ Hent) as Hcap. pose proof (cap_le k). pose proof (zlen_nonneg ss).
  apply (wp_loop (fun p s' => 0 <= p <= zlen ss /\ marked false (take (Z.to_nat p) ss) s s')
           (fun p _ => Z.to_nat (30 - p))).
  - intros p s' [Hp Hf]. assert (buf s' = d i) as Hb' by (unfold buf; by rewrite (fr_scratch _ _ _ _ Hf)).
    destruct (Z.ltb_spec p (cap k)); wp_simpl.
    2: { assert (p = zlen ss) as -> by lia. unfold zlen in Hf. by rewrite Nat2Z.id, firstn_all in Hf. }
    wp_eq ltac:(apply scratch_get_eq; [apply Hf|lia]). rewrite Hb', (eo_bytes _ _ _ _ Hent) by lia.
    destruct (Z.ltb_spec p (zlen ss)).
    + pose proof (eo_secs _ _ _ _ Hent) as Hin. pose proof (secs_in_nth ss p Hin) as Hx. pose proof geom_count.
      unfold SECTOR_FREE. destruct (Z.eqb_spec (nthZ ss p) 255); [lia|].
      pose proof (nthZ_lookup ss p) as Hlk.
      destruct (marked_snoc _ _ _ _ (nthZ ss p) Hf) as (s'' & Heq & Hf'); [lia|..].
      * apply Hused. eapply list_elem_of_lookup_2, Hlk. lia.
      * intros (q & Hq)%list_elem_of_lookup. apply lookup_take_Some in Hq as [Hq Hlt].
        pose proof (NoDup_lookup _ _ _ _ Hnd Hq (Hlk ltac:(lia))). lia.
      * wp_simpl. wp_eq ltac:(exact Heq). wp_simpl. split; [|lia]. split; [lia|].
        replace (Z.to_nat (p + 1)) with (S (Z.to_nat p)) by lia.
        by erewrite take_S_r by (apply Hlk; lia).
    + change (255 =? SECTOR_FREE) with true. cbv iota. wp_simpl. assert (p = zlen ss) as -> by lia.
      unfold zlen in Hf. by rewrite Nat2Z.id, firstn_all in Hf.
  - split; [lia|]. by apply marked_nil.
  - lia.
Qed.

Definition erased (l : list Z) d : Z -> list Z :=
  fun j => if bool_decide (j ∈ l) then fill ENTRY_SIZE 255 else d j.

(** After [k] entries of the chain [f] were erased. *)
Record del_inv s (f : file) (k : nat) s' : Prop := {
  di_upd : dir_upd s s' (erased (f_entries (take k f)) (ent s));
  di_free : free_ok s';
  di_entries : used_entries s' = used_entries s;
  di_sectors : forall x, 0 <= x < SECTOR_COUNT ->
    bm_test (used_sectors s') x = if bool_decide (x ∈ f_sectors (take k f)) then false else bm_test (used_sectors s) x
}.

Definition index_of (f : file) (k : nat) : Z := match f !! k with Some (j, _) => j | None => 255 end.

Lemma erased_snoc l d i j : erased (l ++ [i]) d j = upd (erased l d) i (fill ENTRY_SIZE 255) j.
Proof.
  unfold erased, upd. destruct (Z.eqb_spec j i) as [->|Hne].
  - by rewrite bool_decide_eq_true_2 by (apply elem_of_app; right; apply list_elem_of_here).
  - erewrite bool_decide_ext; [reflexivity|]. rewrite elem_of_app, list_elem_of_singleton. naive_solver.
Qed.

Lemma take_split (f : file) k i ss : f !! k = Some (i, ss) ->
  f_entries (take (S k) f) = f_entries (take k f) ++ [i] /\
  f_sectors (take (S k) f) = f_sectors (take k f) ++ ss.
Proof.
  intros Hk. erewrite take_S_r by done. by rewrite f_entries_snoc, f_sectors_app, f_sectors_one.
Qed.

(** The entry [k] of a chain is not among the first [k]. *)
Lemma chain_fresh d f k i ss :
  chain_ok d f -> f !! k = Some (i, ss) ->
  i ∉ f_entries (take k f) /\ NoDup ss /\ (forall x, x ∈ ss -> x ∉ f_sectors (take k f)).
Proof.
  intros Hc Hk. destruct (take_split f k i ss Hk) as [He Hs].
  assert (f_entries (take (S k) f) ++ f_entries (drop (S k) f) = f_entries f) as Hee
    by by rewrite <- f_entries_app, take_drop.
  assert (f_sectors (take (S k) f) ++ f_sectors (drop (S k) f) = f_sectors f) as Hss
    by by rewrite <- f_sectors_app, take_drop.
  pose proof (co_entries _ _ Hc) as Hne. pose proof (co_sectors _ _ Hc) as Hns.
  rewrite <- Hee, He, <- app_assoc, NoDup_app in Hne. rewrite <- Hss, Hs, <- app_assoc, !NoDup_app in Hns.
  destruct Hne as (_ & Hdi & _), Hns as (_ & Hds & (Hnd & _)).
  split; [|split; [done|]].
  - intros Hin. apply (Hdi i Hin). apply elem_of_app. left. apply list_elem_of_here.
  - intros x Hx Hin. apply (Hds x Hin). apply elem_of_app. by left.
Qed.

(** Erasing the entry in the buffer. *)
Lemma erase_wp s i (Q : unit -> eefs -> Prop) :
  wf_base s -> 0 <= i < EEPROMFS_ENTRIES ->
  Q tt (with_ent i (fill ENTRY_SIZE 255) (with_buf (fill ENTRY_SIZE 255) s)) ->
  wp (scratch_put 0 (fill ENTRY_SIZE 255);; write_entry i) Q s.
Proof.
  intros Hwf Hi HQ. wp_simpl. set (e := fill ENTRY_SIZE 255) in *.
  assert (zlen e = 32) by by apply zlen_fill. assert (bytes e) by by apply bytes_fill.
  wp_eq ltac:(by apply scratch_put_fill). by wp_eq ltac:(by apply write_entry_buf).
Qed.

Lemma del_inv_erase s f k i ss s1 s2 :
  wf_base s -> chain_ok (ent s) f -> f !! k = Some (i, ss) -> del_inv s f k s1 -> marked false ss s1 s2 ->
  del_inv s f (S k) (with_ent i (fill ENTRY_SIZE 255) (with_buf (fill ENTRY_SIZE 255) s2)).
Proof.
  intros Hwf Hc Hk [Hu Hfr Hue Hus] Hf. destruct (take_split f k i ss Hk) as [He Hs].
  pose proof (eo_range _ _ _ _ (co_ent _ _ Hc k i ss Hk)) as Hi.
  assert (zlen (fill ENTRY_SIZE 255) = 32) by by apply zlen_fill.
  assert (bytes (fill ENTRY_SIZE 255)) by by apply bytes_fill.
  split.
  - assert (dir_upd s s2 (erased (f_entries (take k f)) (ent s))) as Hu2
      by (eapply dir_upd_eeprom; [exact Hu|apply Hf|apply Hf]).
    pose proof (dir_upd_write s _ _ i (fill ENTRY_SIZE 255)
      (dir_upd_buf _ _ _ (fill ENTRY_SIZE 255) Hu2 ltac:(done) ltac:(done)) Hi) as [Hb Hent Hsame]; [done..|].
    split; [done| |done]. intros j Hj. rewrite Hent by done. by rewrite He, erased_snoc.
  - exact (fr_free _ _ _ _ Hf).
  - change (used_entries s2 = used_entries s). by rewrite (fr_entries _ _ _ _ Hf).
  - intros x Hx. rewrite Hs. change (used_sectors (with_ent _ _ _)) with (used_sectors s2).
    rewrite (fr_sectors _ _ _ _ Hf), Hus by done.
    rewrite (bool_decide_ext (x ∈ _ ++ ss) (x ∈ f_sectors (take k f) \/ x ∈ ss)) by apply elem_of_app.
    rewrite bool_decide_or. by destruct (bool_decide (x ∈ ss)), (bool_decide (x ∈ f_sectors (take k f))).
Qed.

(** One pass of the loop of [eepromfs_delete]. *)
Lemma delete_pass {R} (g : Z -> R) s files n f k i ss s1 (Q : R -> eefs -> Prop) :
  fs_inv s files -> files !! n = Some f -> f !! k = Some (i, ss) ->
  del_inv s f k s1 -> buf s1 = ent s i ->
  (forall s2, del_inv s f (S k) s2 -> ((S k < length f)%nat -> buf s2 = ent s (index_of f (S k))) ->
     Q (g (index_of f (S k))) s2) ->
  wp (free_entry_sectors;;
      next ← scratch_get OFS_NEXT;
      scratch_put 0 (fill ENTRY_SIZE 255);;
      write_entry i;;
      when (negb (next =? 255)) (read_entry next);;
      mret (g next)) Q s1.
Proof.
  intros Hinv Hf Hk Hdi Hbuf HQ. pose proof Hinv as [Hwf Hd Hm].
  pose proof (dk_file _ _ Hd n f Hf) as [Hc _ _ _]. pose proof (co_ent _ _ Hc k i ss Hk) as Hent.
  pose proof (eo_range _ _ _ _ Hent) as Hi. destruct (chain_fresh _ _ _ _ _ Hc Hk) as (Hfe & Hnd & Hfs).
  rewrite wp_bind. eapply wp_mono.
  { apply (free_entry_sectors_spec (ent s) k i ss); try done; [apply Hdi|apply Hdi|].
    intros x Hx. assert (x ∈ f_sectors f) as Hxf by (apply f_sectors_elem; eauto).
    pose proof (chain_sector_range _ _ _ Hc Hxf) as Hxr. rewrite (di_sectors _ _ _ _ Hdi) by done.
    rewrite bool_decide_eq_false_2 by by apply Hfs. apply (mo_sectors _ _ Hm); [done|].
    by exists n, f. }
  intros [] s2 Hfr. cbv beta. rewrite wp_bind. assert (buf s2 = ent s i) as Hbuf2 
    by (unfold buf in *; by rewrite (fr_scratch _ _ _ _ Hfr)).
  eapply wp_intro; [apply scratch_get_eq; [apply Hfr|unfold_consts; lia]|].
  cbv beta. rewrite Hbuf2. fold (e_next (ent s i)). rewrite (co_next _ _ Hc k i ss Hk).
  change (next_of f k) with (index_of f (S k)). apply wp_bind_seq, erase_wp; [apply Hfr|done|].
  pose proof (del_inv_erase s f k i ss s1 s2 Hwf Hc Hk Hdi Hfr) as Hdi'. set (s3 := with_ent _ _ _) in *.
  pose proof (du_base _ _ _ (di_upd _ _ _ _ Hdi')) as Hwf3. unfold index_of in *.
  destruct (f !! S k) as [[j sj]|] eqn:Hsk; cbv zeta in *.
  - pose proof (co_ent _ _ Hc _ _ _ Hsk) as Hentj. pose proof (eo_range _ _ _ _ Hentj) as Hj.
    pose proof geom_entries. destruct (Z.eqb_spec j 255); [lia|]. unfold when. simpl negb. cbv iota.
    destruct (read_entry_rebuf s3 s3 j Hwf3 (rebuf_refl s3 Hwf3) Hj) as (Hread & Hr & Hbj).
    wp_eq ltac:(exact Hread). wp_simpl. 
    assert (ent s3 j = ent s j) as Hsame.
    { rewrite (du_ent _ _ _ (di_upd _ _ _ _ Hdi')) by done. unfold erased.
      rewrite bool_decide_eq_false_2; [done|]. by destruct (chain_fresh _ _ _ _ _ Hc Hsk) as [? _]. }
    apply HQ; [|intros _; by rewrite Hbj].
    destruct Hdi' as [Hu3 Hfr3 Hue3 Hus3]. split; try done. apply dir_upd_buf; [done|by apply zlen_ent|by apply bytes_ent].
  - change (255 =? 255) with true. unfold when. simpl negb. cbv iota. wp_simpl. apply HQ; [done|].
    intros Hlt. apply lookup_ge_None in Hsk. lia.
Qed.

Lemma del_inv_done s files n f s' :
  fs_inv s files -> files !! n = Some f -> del_inv s f (length f) s' ->
  fs_inv s' (delete n files) /\ view s' (delete n files) = delete n (view s files).
Proof.
  intros [Hwf Hd Hm] Hf [Hu Hfr Hue Hus]. rewrite firstn_all in Hu, Hus. 
  assert (forall m g i, m <> n -> files !! m = Some g -> i ∈ f_entries g ->
    erased (f_entries f) (ent s) i = ent s i) as Hother.
  { intros m g i Hmn Hg Hi. unfold erased. rewrite bool_decide_eq_false_2; [done|]. intros Hif.
    by apply Hmn, (dk_entries _ _ Hd m g n f i). }
  assert (forall m g, delete n files !! m = Some g -> m <> n /\ files !! m = Some g) as Hlk.
  { intros m g. rewrite lookup_delete_Some. naive_solver. }
  assert (forall m g x, files !! m = Some g -> m <> n -> x ∈ f_sectors g -> x ∉ f_sectors f) as Hsec.
  { intros m g x Hg Hmn Hx Hxf. by apply Hmn, (dk_sectors _ _ Hd m g n f x). }
  split; [split|].
  - apply Hu.
  - apply (disk_ok_ext (erased (f_entries f) (ent s))); [apply Hu|]. split.
    + intros m g [Hmn Hg]%Hlk. apply (file_ok_ext (ent s)); [|by apply (dk_file _ _ Hd)].
      intros i Hi. by eapply Hother.
    + intros n1 f1 n2 f2 i [_ H1']%Hlk [_ H2']%Hlk. by apply (dk_entries _ _ Hd).
    + intros n1 f1 n2 f2 i [_ H1']%Hlk [_ H2']%Hlk. by apply (dk_sectors _ _ Hd).
    + intros i Hi Hdel. unfold erased in Hdel. destruct (bool_decide (i ∈ f_entries f)) eqn:Hb; [done|].
      apply bool_decide_eq_false in Hb. destruct (dk_live _ _ Hd i Hi Hdel) as (m & g & Hg & Hig).
      exists m, g. rewrite lookup_delete_ne; [done|]. intros ->. apply Hb. congruence.
  - split; [| |done].
    + intros x Hx. rewrite Hus by done. transitivity (sector_used files x /\ x ∉ f_sectors f);
        [rewrite <- (mo_sectors _ _ Hm) by done; case_bool_decide; naive_solver|].
      unfold sector_used. split.
      * intros [(m & g & Hg & Hxg) Hnin]. exists m, g. rewrite lookup_delete_ne; [done|]. congruence.
      * intros (m & g & [Hmn Hg]%Hlk & Hxg). split; [by exists m, g|by eapply Hsec].
    + intros i Hi (m & g & [Hmn Hg]%Hlk & Hig). rewrite Hue. apply (mo_entries _ _ Hm); [done|]. by exists m, g.
  - apply map_eq. intros m. unfold view. rewrite fmap_delete. destruct (decide (m = n)) as [->|Hmn];
      [by rewrite !lookup_delete_eq|rewrite !lookup_delete_ne, !lookup_fmap by done].
    destruct (files !! m) as [g|] eqn:Hg; [|done]. simpl. f_equal.
    pose proof (dk_file _ _ Hd m g Hg) as [Hcg _ _ _].
    pose proof (f_first_in g (co_nonempty _ _ Hcg)) as Hgi. unfold f_data.
    rewrite (du_ent _ _ _ Hu) by (by eapply chain_entry_range, Hgi).
    rewrite (Hother m g) by done. f_equal. apply content_ext. intros x Hx.
    apply (du_same _ _ _ Hu). by eapply chain_sector_range, Hx.
Qed.

Lemma chain_length_le d f : chain_ok d f -> Z.of_nat (length f) <= EEPROMFS_ENTRIES.
Proof.
  intros Hf. pose proof geom_entries.
  assert (f_entries f ⊆+ seqZ 0 EEPROMFS_ENTRIES) as Hle%submseteq_length.
  { apply NoDup_submseteq; [apply (co_entries _ _ Hf)|]. intros x Hx.
    apply elem_of_seqZ. apply (chain_entry_range _ _ _ Hf) in Hx. lia. }
  unfold f_entries in Hle. rewrite length_seqZ, length_fmap in Hle. lia.
Qed.

Lemma index_of_range d f k : chain_ok d f -> (k < length f)%nat -> index_of f k <> 255.
Proof.
  intros Hc Hk. unfold index_of. destruct (f !! k) as [[i ss]|] eqn:Hlk.
  - pose proof (eo_range _ _ _ _ (co_ent _ _ Hc k i ss Hlk)). pose proof geom_entries. lia.
  - apply lookup_ge_None in Hlk. lia.
Qed.

Lemma delete_spec s files name :
  fs_inv s files -> zlen name = EEFS_NAME_LENGTH ->
  wp (eepromfs_delete name) (fun r s' =>
    match files !! name with
    | None => r = EEFS_ERROR_FILENOTFOUND /\ rebuf s s'
    | Some _ => r = EEFS_ERROR_OK /\ used_entries s' = used_entries s /\
        fs_inv s' (delete name files) /\ view s' (delete name files) = delete name (view s files)
    end) s.
Proof.
  intros Hinv Hln. pose proof Hinv as [Hwf Hd Hm]. unfold eepromfs_delete. wp_simpl.
  eapply wp_mono; [by apply find_entry_spec|]. intros idx s1 [Hr Hres]. cbv beta. 
  destruct (files !! name) as [f|] eqn:Hf.
  2: { subst idx. change (255 =? 255) with true. by wp_simpl. }
  destruct Hres as [-> Hbuf]. pose proof (dk_file _ _ Hd name f Hf) as [Hc _ _ _]. pose proof geom_entries.
  destruct (head_entry _ _ _ _ Hd Hf) as (Hh & _ & _ & _). destruct (Z.eqb_spec (f_first f) 255); [lia|].
  assert (index_of f 0 = f_first f) as Hi0 by (destruct f as [|[i0 ss0] f]; [by destruct (co_nonempty _ _ Hc)|done]).
  eapply (wp_loop_ghost (fun k idx s' => (k <= length f)%nat /\ idx = index_of f k /\ del_inv s f k s' /\
           ((k < length f)%nat -> buf s' = ent s (index_of f k))) (fun k => length f - k)%nat) with (g := 0%nat).
  - intros k idx s2 (Hk & -> & Hdi & Hb). destruct (decide (k < length f)%nat) as [Hlt|].
    + pose proof (index_of_range _ _ _ Hc Hlt). destruct (Z.eqb_spec (index_of f k) 255); [done|].
      simpl negb. cbv iota. destruct (lookup_lt_is_Some_2 f k Hlt) as [[i ss] Hlk].
      assert (index_of f k = i) as Hi by (unfold index_of; by rewrite Hlk). rewrite Hi in *.
      apply (delete_pass inl s files name f k i ss); try done; [by apply Hb|].
      intros s3 Hdi' Hb'. exists (S k). split; [|lia]. split; [lia|]. by split_and!.
    + assert (k = length f) as -> by lia. 
      assert (index_of f (length f) = 255) as -> by (unfold index_of; by rewrite lookup_ge_None_2).
      change (negb (255 =? 255)) with false. cbv iota. wp_simpl. split; [done|]. split; [apply Hdi|].
      by apply (del_inv_done s files name f).
  - split; [lia|]. split; [done|]. rewrite Hi0. pose proof (rebuf_wf _ _ Hwf Hr). destruct Hr as (b & ? & ? & ->).
    split; [|by intros _]. split; try done. apply (mo_free _ _ Hm).
  - pose proof (chain_length_le _ _ Hc). lia.
Qed.
End delete.

(** ** Listing the directory *)
Section readdir.
Context `{EepromGeomOk} `{Assertions}.
Implicit Types s : eefs.
Abbreviation files_t := (gmap (list Z) file).

(** No file starts at an entry from [a] to [b - 1]. *)
Definition no_head (files : files_t) (a b : Z) : Prop :=
  forall n f, files !! n = Some f -> ~ (a <= f_first f < b).

Lemma readdir_spec s files entry :
  fs_inv s files -> 0 <= entry <= EEPROMFS_ENTRIES ->
  wp (eepromfs_readdir entry) (fun r s' => rebuf s s' /\
    match r.2 with
    | Some de => exists f, files !! de_name de = Some f /\ entry <= f_first f /\ r.1 = f_first f + 1 /\
        de_size de = e_size (ent s (f_first f)) /\ de_flags de = e_flags (ent s (f_first f)) /\
        no_head files entry (f_first f)
    | None => r.1 = EEPROMFS_ENTRIES /\ no_head files entry EEPROMFS_ENTRIES
    end) s.
Proof.
  intros [Hwf Hd Hm] He. unfold eepromfs_readdir.
  eapply (wp_loop (fun idx s' => rebuf s s' /\ entry <= idx <= EEPROMFS_ENTRIES /\ no_head files entry idx)
            (fun idx _ => Z.to_nat (EEPROMFS_ENTRIES - idx))).
  - intros idx s' (Hr & Hidx & Hno). destruct (Z.ltb_spec idx EEPROMFS_ENTRIES); wp_simpl.
    2: { split; [done|]. simpl. assert (idx = EEPROMFS_ENTRIES) as -> by lia. done. }
    destruct (read_entry_rebuf s s' idx Hwf Hr) as (Hread & Hr' & Hbuf); [lia|].
    pose proof (rebuf_wf _ _ Hwf Hr') as Hwf'. wp_eq ltac:(exact Hread). wp_simpl.
    wp_eq ltac:(apply scratch_get_eq; [done|unfold_consts; lia]). rewrite Hbuf.
    fold (e_flags (ent s idx)). fold (e_deleted (ent s idx)).
    assert (e_deleted (ent s idx) = true \/ e_islist (ent s idx) = true -> no_head files entry (idx + 1)) as Hskip.
    { intros Hor n f Hf Hrng. destruct (head_entry _ _ _ _ Hd Hf) as (_ & Hd' & Hl' & _).
      destruct (decide (f_first f = idx)) as [<-|]; [|by apply (Hno n f Hf); lia].
      rewrite Hd', Hl' in Hor. by destruct Hor. }
    destruct (e_deleted (ent s idx)) eqn:Hdel; wp_simpl; [split; [|lia]; split; [done|]; split; [lia|by apply Hskip; left]|].
    unfold curentry_is_listentry. wp_simpl.
    wp_eq ltac:(apply scratch_get_eq; [done|unfold_consts; lia]). wp_simpl. rewrite Hbuf.
    fold (e_flags (ent s idx)). fold (e_islist (ent s idx)).
    destruct (e_islist (ent s idx)) eqn:Hl; wp_simpl; [split; [|lia]; split; [done|]; split; [lia|by apply Hskip; right]|].
    wp_eq ltac:(apply scratch_read_eq; [done|unfold_consts; lia..]). wp_simpl.
    wp_eq ltac:(apply scratch_get16_eq; [done|unfold_consts; lia..]). wp_simpl. rewrite Hbuf. simpl.
    destruct (live_is_head _ _ idx Hd) as (f & Hf & <-); [lia|done|done|]. split; [done|]. exists f.
    split_and!; try done. lia.
  - split; [by apply rebuf_refl|]. split; [lia|]. intros n f Hf. lia.
  - lia.
Qed.
End readdir.

(** ** Mounting *)
Section init.
Context `{EepromGeomOk} `{Assertions}.
Implicit Types s : eefs.
Implicit Types d : Z -> list Z.
Abbreviation files_t := (gmap (list Z) file).

(** The EEPROM and the scratch buffer: all that is there before a mount. *)
Record wf_mem s : Prop := {
  wm_eeprom : EEPROMFS_OFFSET + EEPROMFS_SIZE <= zlen (eeprom s);
  wm_eeprom_bytes : bytes (eeprom s);
  wm_scratch : zlen (scratch s) = 33;
  wm_scratch_bytes : bytes (scratch s)
}.

Lemma mark_entry_sectors_spec d k i ss s :
  wf_base s -> free_ok s -> buf s = d i -> ent_ok d k i ss -> NoDup ss ->
  (forall x, x ∈ ss -> bm_test (used_sectors s) x = false) ->
  wp mark_entry_sectors (fun _ s' => marked true ss s s') s.
Proof.
  intros Hwf Hfr Hbuf Hent Hnd Hfree. unfold mark_entry_sectors. wp_simpl.
  wp_eq ltac:(by apply curentry_max_sectors_eq). rewrite Hbuf, (e_cap_cap _ _ _ _ Hent).
  pose proof (eo_cap _ _ _ _ Hent) as Hcap. pose proof (cap_le k). pose proof (zlen_nonneg ss).
  apply (wp_for_range (fun p _ s' => marked true (take (Z.to_nat p) ss) s s')).
  - intros p [] s' Hp Hf. assert (buf s' = d i) as Hb' by (unfold buf; by rewrite (fr_scratch _ _ _ _ Hf)).
    wp_simpl. wp_eq ltac:(apply scratch_get_eq; [apply (fr_base _ _ _ _ Hf)|lia]).
    rewrite Hb', (eo_bytes _ _ _ _ Hent) by lia. destruct (Z.ltb_spec p (zlen ss)).
    + pose proof (secs_in_nth ss p (eo_secs _ _ _ _ Hent)) as Hx. pose proof geom_count.
      unfold SECTOR_FREE. destruct (Z.eqb_spec (nthZ ss p) 255); [lia|]. unfold when. simpl negb. cbv iota.
      pose proof (nthZ_lookup ss p) as Hlk.
      destruct (marked_snoc _ _ _ _ (nthZ ss p) Hf) as (s'' & Heq & Hf'); [lia|..].
      * apply Hfree. eapply list_elem_of_lookup_2, Hlk. lia.
      * intros (q & Hq)%list_elem_of_lookup. apply lookup_take_Some in Hq as [Hq Hlt].
        pose proof (NoDup_lookup _ _ _ _ Hnd Hq (Hlk ltac:(lia))). lia.
      * wp_eq ltac:(exact Heq). replace (Z.to_nat (p + 1)) with (S (Z.to_nat p)) by lia.
        by erewrite take_S_r by (apply Hlk; lia).
    + change (255 =? SECTOR_FREE) with true. unfold when. simpl negb. cbv iota. wp_simpl.
      rewrite take_ge in Hf by (unfold zlen in *; lia). by rewrite take_ge by (unfold zlen in *; lia).
  - intros [] s' Hf. by rewrite take_ge in Hf by (unfold zlen in *; lia).
  - by apply marked_nil.
Qed.

(** A sector of a chain belongs to one of its entries only. *)
Lemma chain_sector_entry d f k i ss k' i' ss' x :
  chain_ok d f -> f !! k = Some (i, ss) -> f !! k' = Some (i', ss') -> x ∈ ss -> x ∈ ss' -> k = k'.
Proof.
  intros Hc. assert (forall k i ss k' i' ss', f !! k = Some (i, ss) -> f !! k' = Some (i', ss') ->
    x ∈ ss -> x ∈ ss' -> ~ (k < k')%nat) as Hw.
  { clear k i ss k' i' ss'. intros k i ss k' i' ss' Hk Hk' Hx Hx' Hlt.
    destruct (chain_fresh _ _ _ _ _ Hc Hk') as (_ & _ & Hf). apply (Hf x Hx').
    apply f_sectors_elem. exists k, i, ss. by rewrite lookup_take_lt. }
  intros Hk Hk' Hx Hx'. pose proof (Hw _ _ _ _ _ _ Hk Hk' Hx Hx'). pose proof (Hw _ _ _ _ _ _ Hk' Hk Hx' Hx). lia.
Qed.

(** The sectors listed by the entries below [b]. *)
Definition listed (files : files_t) (b x : Z) : Prop :=
  exists n f k j ss, files !! n = Some f /\ f !! k = Some (j, ss) /\ j < b /\ x ∈ ss.

Record init_inv s (files : files_t) (b : Z) s' : Prop := {
  ii_base : wf_base s';
  ii_free : free_ok s';
  ii_eeprom : eeprom s' = eeprom s;
  ii_sectors : forall x, 0 <= x < SECTOR_COUNT -> bm_test (used_sectors s') x = true <-> listed files b x;
  ii_entries : forall j, 0 <= j < EEPROMFS_ENTRIES ->
    bm_test (used_entries s') j = (j <? b) && negb (e_deleted (ent s j))
}.

Lemma init_inv_start s files s' :
  wf_mem s -> disk_ok (ent s) files -> eeprom s' = eeprom s -> scratch s' = scratch s ->
  used_sectors s' = fill ((SECTOR_COUNT + 7) / 8) 0 -> used_entries s' = fill ((EEPROMFS_ENTRIES + 7) / 8) 0 ->
  free_sectors s' = SECTOR_COUNT -> init_inv s files 0 s'.
Proof.
  intros [] Hd He Hsc Hus Hue Hfs. pose proof geom_count. pose proof geom_entries.
  assert (0 <= (SECTOR_COUNT + 7) / 8 /\ 0 <= (EEPROMFS_ENTRIES + 7) / 8) as [? ?] by (split; apply Z.div_pos; lia).
  assert (forall n i, 0 <= i < n -> 0 <= i / 8 < (n + 7) / 8) as Hdiv
    by (intros n i ?; Z.to_euclidean_division_equations; lia).
  split.
  - split; rewrite ?He, ?Hsc, ?Hus, ?Hue; try done; rewrite ?zlen_fill by lia; try done; by apply bytes_fill.
  - unfold free_ok. by rewrite Hus, Hfs, free_count_fill by lia.
  - done.
  - intros x Hx. rewrite Hus, bm_test_fill by by apply Hdiv. split; [done|].
    intros (n & f & k & j & ss & Hf & Hk & Hj & _).
    pose proof (eo_range _ _ _ _ (co_ent _ _ (fo_chain _ _ _ (dk_file _ _ Hd n f Hf)) k j ss Hk)). lia.
  - intros j Hj. rewrite Hue, bm_test_fill by by apply Hdiv. by destruct (Z.ltb_spec j 0); [lia|].
Qed.

Lemma ent_same s s' j : eeprom s' = eeprom s -> ent s' j = ent s j.
Proof. unfold ent. by intros ->. Qed.

Lemma listed_step files d b x :
  disk_ok d files -> 
  listed files (b + 1) x <->
    listed files b x \/ exists n f k ss, files !! n = Some f /\ f !! k = Some (b, ss) /\ x ∈ ss.
Proof.
  intros Hd. split.
  - intros (n & f & k & j & ss & Hf & Hk & Hj & Hx). destruct (decide (j = b)) as [->|].
    + right. by exists n, f, k, ss.
    + left. exists n, f, k, j, ss. split_and!; try done. lia.
  - intros [(n & f & k & j & ss & Hf & Hk & Hj & Hx)|(n & f & k & ss & Hf & Hk & Hx)].
    + exists n, f, k, j, ss. split_and!; try done. lia.
    + exists n, f, k, b, ss. split_and!; try done. lia.
Qed.

Lemma init_step_spec s files b s1 :
  disk_ok (ent s) files -> 0 <= b < EEPROMFS_ENTRIES -> init_inv s files b s1 ->
  wp (read_entry b;;
      flags ← scratch_get OFS_FLAGS;
      when (Z.land flags EEFS_FLAG_DELETED =? 0)
        (bm ← gets used_entries;
         bm' ← of_option (set_bit bm b true);
         modify (set_used_entries bm');;
         mark_entry_sectors)) (fun _ s2 => init_inv s files (b + 1) s2) s1.
Proof.
  intros Hd Hb [Hwf Hfr He Hs Hu]. 
  destruct (read_entry_rebuf s1 s1 b Hwf (rebuf_refl s1 Hwf) Hb) as (Hread & Hr & Hbuf).
  wp_eq ltac:(exact Hread). pose proof (rebuf_wf _ _ Hwf Hr) as Hwf2. set (s2 := with_buf _ s1) in *.
  wp_simpl. wp_eq ltac:(apply scratch_get_eq; [done|unfold_consts; lia]).
  rewrite Hbuf, (ent_same s s1 b He). fold (e_flags (ent s b)).
  assert (Z.land (e_flags (ent s b)) EEFS_FLAG_DELETED =? 0 = negb (e_deleted (ent s b))) as ->
    by (unfold e_deleted; by rewrite negb_involutive).
  assert (forall j, (j <? b + 1) = (j <? b) || (j =? b)) as Hlt by (intros j; lia).
  unfold when. destruct (e_deleted (ent s b)) eqn:Hdel; simpl negb; cbv iota; wp_simpl.
  - split; try done.
    + intros x Hx. rewrite (listed_step _ _ _ _ Hd). rewrite <- Hs by done. split; [by left|].
      intros [?|(n & f & k & ss & Hf & Hk & _)]; [done|].
      pose proof (eo_live _ _ _ _ (co_ent _ _ (fo_chain _ _ _ (dk_file _ _ Hd n f Hf)) k b ss Hk)). congruence.
    + intros j Hj. change (bm_test (used_entries s1) j = (j <? b + 1) && negb (e_deleted (ent s j))).
      rewrite Hu, Hlt by done. destruct (Z.eqb_spec j b) as [->|]; [by rewrite Hdel, !andb_false_r|by rewrite orb_false_r].
  - destruct (dk_live _ _ Hd b Hb Hdel) as (n & f & Hf & (k & ss & Hk)%f_entries_lookup).
    pose proof (fo_chain _ _ _ (dk_file _ _ Hd n f Hf)) as Hc. pose proof (co_ent _ _ Hc k b ss Hk) as Hent.
    destruct (bit_index_in (used_entries s2) b EEPROMFS_ENTRIES) as [? Hbl]; [done|apply (wb_entries _ Hwf2)|].
    rewrite set_bit_eq by lia. wp_simpl. destruct (chain_fresh _ _ _ _ _ Hc Hk) as (_ & Hnd & _).
    assert (wf_base (set_used_entries (bm_set (used_entries s2) b true) s2)) as Hwf3 by by apply wf_set_used_entries.
    eapply wp_mono; [apply (mark_entry_sectors_spec (ent s) k b ss); try done|].
    + change (buf s2 = ent s b). by rewrite Hbuf, (ent_same s s1 b He).
    + intros x Hx. change (bm_test (used_sectors s1) x = false).
      assert (x ∈ f_sectors f) as Hxf by (apply f_sectors_elem; eauto).
      apply not_true_is_false. rewrite Hs by by eapply chain_sector_range.
      intros (n' & f' & k' & j & ss' & Hf' & Hk' & Hj & Hx').
      assert (x ∈ f_sectors f') as Hxf' by (apply f_sectors_elem; eauto).
      pose proof (dk_sectors _ _ Hd _ _ _ _ _ Hf Hf' Hxf Hxf') as <-. assert (f' = f) as -> by congruence.
      pose proof (chain_sector_entry _ _ _ _ _ _ _ _ _ Hc Hk Hk' Hx Hx') as <-. assert (j = b) by congruence. lia.
    + intros [] s4 [Hwf4 Hfr4 He4 Hsc4 Hue4 Hus4]. split; try done.
      * by rewrite He4.
      * intros x Hx. rewrite (listed_step _ _ _ _ Hd), Hus4 by done. change (used_sectors (set_used_entries _ _)) with (used_sectors s1).
        case_bool_decide as Hin; [split; [|done]; intros _; right; by exists n, f, k, ss|].
        rewrite Hs by done. split; [by left|]. intros [?|(n' & f' & k' & ss' & Hf' & Hk' & Hx')]; [done|].
        assert (n' = n) as -> by (eapply (dk_entries _ _ Hd n' f' n f b); try done; apply f_entries_lookup; eauto).
        assert (f' = f) as -> by congruence. 
        assert (k' = k) as ->.
        { apply (NoDup_lookup (f_entries f) k' k b); [apply (co_entries _ _ Hc)|..]; unfold f_entries;
            rewrite list_lookup_fmap; by rewrite ?Hk, ?Hk'. }
        congruence.
      * intros j Hj. rewrite Hue4. change (used_entries (set_used_entries ?e _)) with e.
        rewrite bm_test_set by (lia || apply (wb_entries_bytes _ Hwf2)).
        rewrite Hlt. destruct (Z.eqb_spec j b) as [->|]; [by rewrite Hdel, orb_true_r|].
        rewrite orb_false_r. by apply Hu.
Qed.

Lemma init_spec s files :
  wf_mem s -> disk_ok (ent s) files ->
  wp eepromfs_init (fun _ s' =>
    fs_inv s' files /\ view s' files = view s files /\ eeprom s' = eeprom s /\
    forall j, 0 <= j < EEPROMFS_ENTRIES -> bm_test (used_entries s') j = negb (e_deleted (ent s j))) s.
Proof.
  intros Hwf Hd. unfold eepromfs_init. wp_simpl. pose proof geom_entries.
  apply (wp_for_range (fun b _ s' => init_inv s files b s')).
  - intros b [] s1 Hb Hi. apply init_step_spec; [done|lia|done].
  - intros [] s' [Hwf' Hfr He Hs Hu]. rewrite Z2Nat.id in Hs, Hu by lia. rewrite Z.add_0_l in Hs, Hu.
    assert (forall j, 0 <= j < EEPROMFS_ENTRIES -> bm_test (used_entries s') j = negb (e_deleted (ent s j))) as Hu'.
    { intros j Hj. rewrite Hu by done. destruct (Z.ltb_spec j EEPROMFS_ENTRIES); [done|lia]. }
    split_and!; try done.
    + split; [done|by apply (disk_ok_ext (ent s)); [intros; by apply ent_same|]|]. split; [| |done].
      * intros x Hx. rewrite Hs by done. unfold listed, sector_used. setoid_rewrite f_sectors_elem.
        split; [intros (n & f & k & j & ss & ? & ? & ? & ?); eauto 10|].
        intros (n & f & Hf & k & j & ss & Hk & Hxs). exists n, f, k, j, ss. split_and!; try done.
        apply (eo_range _ _ _ _ (co_ent _ _ (fo_chain _ _ _ (dk_file _ _ Hd n f Hf)) k j ss Hk)).
      * intros j Hj (n & f & Hf & (k & ss & Hk)%f_entries_lookup). rewrite Hu' by done.
        by rewrite (eo_live _ _ _ _ (co_ent _ _ (fo_chain _ _ _ (dk_file _ _ Hd n f Hf)) k j ss Hk)).
    + unfold view. apply map_fmap_ext. intros n f Hf. unfold f_data. rewrite (ent_same s s') by done.
      f_equal. apply content_ext. intros x _. unfold same_sector. by rewrite He.
  - by apply init_inv_start.
Qed.

(** The EEPROM after the first [k] groups of four bytes were erased. *)
Record format_inv s (k : Z) s' : Prop := {
  fm_mem : wf_mem s';
  fm_zlen : zlen (eeprom s') = zlen (eeprom s);
  fm_bytes : forall p, 0 <= p -> nthZ (eeprom s') p =
    if (EEPROMFS_OFFSET <=? p) && (p <? EEPROMFS_OFFSET + 4 * k) then 255 else nthZ (eeprom s) p
}.

Lemma format_step_spec s k s1 :
  0 <= k -> 4 * (k + 1) <= EEPROMFS_SIZE -> format_inv s k s1 ->
  wp (val ← eeprom_read_block (EEPROMFS_OFFSET + 4 * k) 4;
      when (negb (bool_decide (val = fill 4 255)))
        (eeprom_write_block (fill 4 255) (EEPROMFS_OFFSET + 4 * k))) (fun _ s2 => format_inv s (k + 1) s2) s1.
Proof.
  intros Hk Hle [[Hm Hmb Hsc Hscb] Hlen Hb]. pose proof geom_offset. unfold eeprom_read_block. wp_simpl.
  rewrite load_block_some by lia. wp_simpl. case_bool_decide as Hv; unfold when; simpl negb; cbv iota; wp_simpl.
  - split; [done|done|]. intros p Hp. rewrite Hb by done. case_bools; try lia; try done.
    apply (f_equal (fun l => nthZ l (p - (EEPROMFS_OFFSET + 4 * k)))) in Hv.
    rewrite nthZ_slice, nthZ_fill in Hv by lia. rewrite <- Hv, Z.add_comm, Z.sub_add, Hb by lia.
    case_bools; lia || done.
  - pose proof (zlen_fill 4 255). unfold eeprom_write_block. wp_simpl. rewrite store_block_some by lia. wp_simpl.
    split; [split; simpl; try done|simpl; by rewrite zlen_splice by lia|].
    + by rewrite zlen_splice by lia.
    + apply bytes_splice; [by apply bytes_fill|done].
    + intros p Hp. simpl. rewrite nthZ_splice, Hb by lia. rewrite zlen_fill by lia.
      case_bools; try lia; try done; by rewrite nthZ_fill by lia.
Qed.

Lemma format_spec s :
  wf_mem s ->
  wp eepromfs_format (fun _ s' =>
    fs_inv s' (∅ : files_t) /\ free_sectors s' = SECTOR_COUNT /\
    forall p, 0 <= p -> nthZ (eeprom s') p =
      if (EEPROMFS_OFFSET <=? p) && (p <? EEPROMFS_OFFSET + EEPROMFS_SIZE) then 255 else nthZ (eeprom s) p) s.
Proof.
  intros Hwf. unfold eepromfs_format. wp_simpl. pose proof geom_entries. pose proof geom_size.
  assert (4 * ((EEPROMFS_SIZE + 3) / 4) = EEPROMFS_SIZE /\ 0 <= (EEPROMFS_SIZE + 3) / 4) as [H4 H4p].
  { pose proof geom_align. unfold_consts. Z.to_euclidean_division_equations. lia. }
  apply (wp_for_range (fun k _ s' => format_inv s k s')).
  - intros k [] s1 Hk Hi. apply format_step_spec; [lia|lia|done].
  - intros [] s1 [Hm Hlen Hb]. rewrite Z2Nat.id in Hb by lia. rewrite Z.add_0_l, H4 in Hb.
    assert (forall j p, 0 <= j < EEPROMFS_ENTRIES -> 0 <= p < 32 -> nthZ (ent s1 j) p = 255) as Hent.
    { intros j p Hj Hp. pose proof geom_offset. unfold ent. rewrite nthZ_slice by lia. rewrite Hb by lia.
      unfold_consts. case_bools; lia || done. }
    eapply wp_mono; [apply (init_spec s1 ∅); [done|]|].
    + split; try done. intros j Hj Hdel. unfold e_deleted, e_flags in Hdel.
      rewrite Hent in Hdel by (unfold_consts; lia). done.
    + intros [] s' (Hinv & _ & He & _). split; [done|]. split; [|intros p Hp; rewrite He; by apply Hb].
      destruct Hinv as [Hwf' _ [Hs _ Hfr]]. unfold free_ok in Hfr. rewrite Hfr. unfold free_count.
      pose proof geom_count. rewrite filter_all; [unfold zlen; rewrite length_seqZ; lia|].
      apply Forall_seqZ. intros x Hx. apply not_true_is_false. rewrite Hs by lia. by intros (n & f & Hf & _).
  - split; [done|done|]. intros p Hp. case_bools; lia || done.
Qed.
End init.
