(* ===== verification/EepromFsRead.v ===== *)
(** * eeprom-fs.c: reading a file

    [eepromfs_open] for reading, the sector walk of [eepromfs_read] and the
    read loop against the invariant of [EepromFsInv]. *)

From stdpp Require Import gmap.
From S2P Require Import Prelude EepromFs EepromFsFacts EepromFsInv EepromFsFile EepromFsWrite EepromFsDir.

Ltac Zify.zify_pre_hook ::= unfold_consts.

Section read.
Context `{EepromGeomOk} `{Assertions}.
Implicit Types s : eefs.
Implicit Types d : Z -> list Z.
Abbreviation files_t := (gmap (list Z) file).

(** Sector number [m] of the chain [f] is listed in slot [q] of entry [i]. *)
Definition sector_pos (f : file) (m i q : Z) : Prop :=
  exists f1 ss f2, f = f1 ++ (i, ss) :: f2 /\ m = zlen (f_sectors f1) + q /\ 0 <= q < zlen ss.

(** A handle open for reading at offset [pos]. *)
Record r_handle (s : eefs) (f : file) (fh : eefs_fh_t) (pos : Z) : Prop := {
  rh_mode : filemode fh = EEFS_MODE_READ;
  rh_size : fh_size fh = e_size (ent s (f_first f));
  rh_offset : cur_offset fh = pos;
  rh_range : 0 <= pos <= fh_size fh;
  rh_soffset : cur_soffset fh = pos `mod` EEPROMFS_SECTORSIZE;
  rh_pos : pos < fh_size fh ->
    let m := pos / EEPROMFS_SECTORSIZE in
    sector_pos f m (cur_entry fh) (cur_sindex fh) /\ cur_sector fh = nthZ (f_sectors f) m
}.

Lemma sector_pos_nth f m i q :
  sector_pos f m i q -> exists k ss, f !! k = Some (i, ss) /\ 0 <= q < zlen ss /\
    nthZ (f_sectors f) m = nthZ ss q /\ 0 <= m < zlen (f_sectors f).
Proof.
  intros (f1 & ss & f2 & -> & -> & Hq). exists (length f1), ss. pose proof (zlen_nonneg (f_sectors f1)).
  rewrite list_lookup_middle by done. split; [done|]. split; [done|].
  rewrite f_sectors_app. change (f_sectors ((i, ss) :: f2)) with (ss ++ f_sectors f2).
  rewrite !zlen_app. pose proof (zlen_nonneg (f_sectors f2)). split; [|lia].
  rewrite nthZ_app by lia. destruct (Z.ltb_spec (zlen (f_sectors f1) + q) (zlen (f_sectors f1))); [lia|].
  rewrite nthZ_app by lia. replace (zlen (f_sectors f1) + q - zlen (f_sectors f1)) with q by lia.
  destruct (Z.ltb_spec q (zlen ss)); [done|lia].
Qed.

(** The entries of a chain that has more sectors are not empty. *)
Lemma chain_entry_nonempty d f1 i ss f2 :
  chain_ok d (f1 ++ (i, ss) :: f2) -> zlen (f_sectors f1) < zlen (f_sectors (f1 ++ (i, ss) :: f2)) -> 0 < zlen ss.
Proof.
  intros Hc Hlt. assert ((f1 ++ (i, ss) :: f2) !! length f1 = Some (i, ss)) as Hlk by by apply list_lookup_middle.
  destruct f2 as [|e f2].
  - rewrite f_sectors_app, f_sectors_one, zlen_app in Hlt. lia.
  - rewrite (co_full _ _ Hc _ _ _ Hlk) by (rewrite length_app; simpl; lia). pose proof (cap_le (length f1)). lia.
Qed.

Lemma sector_pos_first d f :
  chain_ok d f -> 0 < zlen (f_sectors f) -> sector_pos f 0 (f_first f) 0.
Proof.
  intros Hc Hlt. destruct f as [|[i ss] f]; [by destruct (co_nonempty _ _ Hc)|].
  exists [], ss, f. split; [done|]. split; [done|].
  pose proof (chain_entry_nonempty d [] i ss f Hc). change (f_sectors []) with (@nil Z) in *. simpl app in *.
  change (zlen (@nil Z)) with 0 in *. lia.
Qed.

Lemma open_read_spec s files name flags :
  fs_inv s files -> zlen name = EEFS_NAME_LENGTH ->
  flags <> EEFS_MODE_WRITE -> flags <> EEFS_MODE_APPEND ->
  wp (eepromfs_open name flags) (fun r s' => rebuf s s' /\
    match files !! name with
    | Some f => r.1 = EEFS_ERROR_OK /\ r_handle s f r.2 0
    | None => r.1 = EEFS_ERROR_FILENOTFOUND
    end) s.
Proof.
  intros Hinv Hln Hw Ha. pose proof Hinv as [Hwf Hd Hm]. unfold eepromfs_open. wp_simpl.
  eapply wp_mono; [by apply find_entry_spec|]. intros idx s1 [Hr Hres]. cbv beta.
  destruct (Z.eqb_spec flags EEFS_MODE_WRITE); [done|]. pose proof geom_entries.
  destruct (files !! name) as [f|] eqn:Hf.
  2: { subst idx. change (255 =? 255) with true. by wp_simpl. }
  destruct Hres as [-> Hbuf]. destruct (head_entry _ _ _ _ Hd Hf) as (Hh & _).
  destruct (Z.eqb_spec (f_first f) 255); [lia|]. pose proof (rebuf_wf _ _ Hwf Hr) as Hwf1.
  wp_simpl. wp_eq ltac:(apply scratch_get16_eq; [done|unfold_consts; lia]).
  destruct (Z.eqb_spec flags EEFS_MODE_APPEND); [done|]. wp_simpl.
  wp_eq ltac:(apply scratch_get_eq; [done|lia]). wp_simpl. rewrite Hbuf.
  fold (e_size (ent s (f_first f))). split; [done|]. split; [done|].
  pose proof (dk_file _ _ Hd name f Hf) as [Hc _ _ Hsz]. pose proof (e_size_range s _ Hwf Hh).
  pose proof geom_sectorsize. split; simpl; try done; [lia|]. intros Hpos.
  assert (sector_pos f 0 (f_first f) 0) as Hsp by (apply (sector_pos_first (ent s)); [done|nia]).
  split; [done|]. destruct (sector_pos_nth _ _ _ _ Hsp) as (k & ss & Hk & Hq & Hn & _).
  change (0 / EEPROMFS_SECTORSIZE) with 0. rewrite Hn.
  rewrite (eo_bytes _ _ _ _ (co_ent _ _ Hc k _ ss Hk)).
  - destruct (Z.ltb_spec 0 (zlen ss)); [done|lia].
  - pose proof (cap_le k). lia.
Qed.

(** Where the sector after slot [q] of the entry [i] is listed. *)
Lemma sector_pos_next d f m i q :
  chain_ok d f -> sector_pos f m i q -> m + 1 < zlen (f_sectors f) ->
  exists k ss, f !! k = Some (i, ss) /\ 0 <= q < zlen ss /\
    ((q + 1 < zlen ss /\ sector_pos f (m + 1) i (q + 1)) \/
     (q + 1 = cap k /\ sector_pos f (m + 1) (next_of f k) 0)).
Proof.
  intros Hc (f1 & ss & f2 & -> & -> & Hq) Hlt. exists (length f1), ss.
  assert ((f1 ++ (i, ss) :: f2) !! length f1 = Some (i, ss)) as Hlk by by apply list_lookup_middle.
  split; [done|]. split; [done|]. rewrite f_sectors_app, zlen_app in Hlt.
  change (f_sectors ((i, ss) :: f2)) with (ss ++ f_sectors f2) in Hlt. rewrite zlen_app in Hlt.
  destruct (decide (q + 1 < zlen ss)) as [|Hge].
  - left. split; [done|]. exists f1, ss, f2. split; [done|]. lia.
  - right. destruct f2 as [|[j sj] f2]; [change (zlen (f_sectors [])) with 0 in Hlt; lia|].
    pose proof (co_full _ _ Hc _ _ _ Hlk) as Hfull. rewrite length_app in Hfull. simpl in Hfull.
    split; [rewrite <- Hfull by lia; lia|]. unfold next_of.
    assert (f1 ++ (i, ss) :: (j, sj) :: f2 = (f1 ++ [(i, ss)]) ++ (j, sj) :: f2) as Heq by by rewrite <- app_assoc.
    rewrite lookup_app_r, Nat.sub_succ_l, Nat.sub_diag by lia. simpl. rewrite Heq in Hc |- *.
    exists (f1 ++ [(i, ss)]), sj, f2. split; [done|]. rewrite f_sectors_app, f_sectors_one, zlen_app.
    split; [lia|]. pose proof (chain_entry_nonempty _ _ _ _ _ Hc) as Hne.
    rewrite !f_sectors_app, f_sectors_one, !zlen_app in Hne.
    change (f_sectors ((j, sj) :: f2)) with (sj ++ f_sectors f2) in *. rewrite !zlen_app in *. lia.
Qed.

Lemma read_advance_spec s s1 files name f fh m :
  fs_inv s files -> files !! name = Some f -> rebuf s s1 ->
  sector_pos f m (cur_entry fh) (cur_sindex fh) -> m + 1 < zlen (f_sectors f) ->
  wp (read_advance fh) (fun fh' s2 => rebuf s s2 /\ exists i q,
    fh' = fh_at fh (nthZ (f_sectors f) (m + 1)) i q /\ sector_pos f (m + 1) i q) s1.
Proof.
  intros [Hwf Hd Hm] Hf Hr Hpos Hlt. pose proof (dk_file _ _ Hd name f Hf) as [Hc _ _ _].
  destruct (sector_pos_next _ _ _ _ _ Hc Hpos Hlt) as (k & ss & Hk & Hq & Hcase).
  pose proof (co_ent _ _ Hc k _ ss Hk) as Hent. pose proof (eo_range _ _ _ _ Hent) as Hi.
  pose proof (eo_cap _ _ _ _ Hent) as Hcap. pose proof (cap_le k).
  destruct (read_entry_rebuf s s1 (cur_entry fh) Hwf Hr Hi) as (Hread & Hr2 & Hbuf).
  pose proof (rebuf_wf _ _ Hwf Hr2) as Hwf2. unfold read_advance. wp_simpl. wp_eq ltac:(exact Hread).
  set (s2 := with_buf _ s1) in *. wp_simpl. wp_eq ltac:(by apply curentry_max_sectors_eq).
  rewrite Hbuf, (e_cap_cap _ _ _ _ Hent), u8_id by lia.
  assert (forall i q s3, sector_pos f (m + 1) i q -> rebuf s s3 -> buf s3 = ent s i ->
    wp (sec ← scratch_get q; c_assert (negb (sec =? SECTOR_FREE));; mret (fh_at fh sec i q))
      (fun fh' s2 => rebuf s s2 /\ exists i q,
        fh' = fh_at fh (nthZ (f_sectors f) (m + 1)) i q /\ sector_pos f (m + 1) i q) s3) as Hend.
  { intros i q s3 Hsp Hr3 Hb3. destruct (sector_pos_nth _ _ _ _ Hsp) as (k' & ss' & Hk' & Hq' & Hn & _).
    pose proof (co_ent _ _ Hc k' _ ss' Hk') as Hent'. pose proof (cap_le k'). pose proof (eo_cap _ _ _ _ Hent').
    pose proof (secs_in_nth ss' q (eo_secs _ _ _ _ Hent') Hq') as Hx. pose proof geom_count.
    pose proof (rebuf_wf _ _ Hwf Hr3) as Hwf3. wp_simpl. wp_eq ltac:(apply scratch_get_eq; [done|lia]).
    rewrite Hb3, (eo_bytes _ _ _ _ Hent') by lia. destruct (Z.ltb_spec q (zlen ss')); [|lia].
    wp_simpl. apply wp_assert; [unfold SECTOR_FREE; lia|]. wp_simpl. split; [done|]. exists i, q. by rewrite Hn. }
  destruct (Z.leb_spec (cap k) (cur_sindex fh + 1)).
  - destruct Hcase as [[? _]|[_ Hsp]]; [lia|]. wp_simpl.
    wp_eq ltac:(apply scratch_get_eq; [done|unfold_consts; lia]). rewrite Hbuf.
    fold (e_next (ent s (cur_entry fh))). rewrite (co_next _ _ Hc _ _ _ Hk).
    destruct (sector_pos_nth _ _ _ _ Hsp) as (k' & ss' & Hk' & _).
    pose proof (eo_range _ _ _ _ (co_ent _ _ Hc k' _ ss' Hk')) as Hj. pose proof geom_entries.
    wp_simpl. apply wp_assert; [lia|]. destruct (read_entry_rebuf s s2 (next_of f k) Hwf Hr2 Hj) as (Hread3 & Hr3 & Hbuf3).
    wp_simpl. wp_eq ltac:(exact Hread3). rewrite wp_ret. by apply Hend.
  - destruct Hcase as [[? Hsp]|[? _]]; [|lia]. by apply Hend.
Qed.

Lemma r_handle_pos s f fh pos :
  r_handle s f fh pos -> pos < fh_size fh -> e_size (ent s (f_first f)) <= EEPROMFS_SECTORSIZE * zlen (f_sectors f) ->
  0 <= pos / EEPROMFS_SECTORSIZE < zlen (f_sectors f) /\ 0 <= pos `mod` EEPROMFS_SECTORSIZE < EEPROMFS_SECTORSIZE.
Proof. intros [_ Hs _ Hr _ _] Hlt Hsz. apply pos_div. lia. Qed.

(** The block read by one pass is the next piece of the file. *)
Lemma read_block s s1 files name f pos n :
  fs_inv s files -> files !! name = Some f -> rebuf s s1 ->
  0 <= pos -> 0 <= n -> pos + n <= e_size (ent s (f_first f)) ->
  pos < e_size (ent s (f_first f)) -> pos `mod` EEPROMFS_SECTORSIZE + n <= EEPROMFS_SECTORSIZE ->
  eeprom_read_block (sector_addr (nthZ (f_sectors f) (pos / EEPROMFS_SECTORSIZE)) (pos `mod` EEPROMFS_SECTORSIZE)) n s1
    = Done (slice pos n (f_data s f)) s1.
Proof.
  intros [Hwf Hd Hm] Hf Hr Hpos Hn Hle Hlt Hso. pose proof (dk_file _ _ Hd name f Hf) as [Hc _ _ Hsz].
  pose proof (chain_secs_in _ _ Hc) as Hin. pose proof data_offset_nonneg. pose proof geom_sectorsize.
  set (sz := e_size (ent s (f_first f))) in *. destruct (pos_div pos (zlen (f_sectors f))) as [Hk Ho]; [lia|].
  set (k := pos / EEPROMFS_SECTORSIZE) in *. set (o := pos `mod` EEPROMFS_SECTORSIZE) in *.
  assert (pos = EEPROMFS_SECTORSIZE * k + o) as Heq by (apply Z.div_mod; lia).
  pose proof (secs_in_nth _ k Hin Hk) as Hx. destruct (sector_addr_range s _ 0 Hwf Hx); [lia|].
  set (x := nthZ (f_sectors f) k) in *. assert (sector_addr x o = sector_addr x 0 + o) by (unfold sector_addr; lia).
  unfold eeprom_read_block, mbind, comp_bind, gets. rewrite (rebuf_eeprom _ _ Hr), load_block_some by lia.
  simpl. unfold mret, comp_ret. f_equal. unfold f_data. fold sz.
  pose proof (zlen_content s (f_sectors f) Hwf Hin).
  apply nthZ_ext; [by rewrite !zlen_slice by (rewrite ?zlen_slice by lia; lia)|].
  intros p Hp. rewrite zlen_slice in Hp by lia. rewrite !nthZ_slice by (rewrite ?zlen_slice by lia; lia).
  rewrite nthZ_content by (done || lia). unfold x. symmetry.
  assert (k = (0 + (pos + p)) / EEPROMFS_SECTORSIZE) as Hkp by (apply Z.div_unique with (o + p); lia).
  assert (o + p = (0 + (pos + p)) `mod` EEPROMFS_SECTORSIZE) as Hop.
  { symmetry. rewrite Heq. replace (0 + (EEPROMFS_SECTORSIZE * k + o + p)) with (o + p + k * EEPROMFS_SECTORSIZE) by lia.
    rewrite Z.mod_add by lia. apply Z.mod_small. lia. }
  rewrite <- Hop, <- Hkp. fold x. f_equal. unfold sector_addr. lia.
Qed.

(** The handle after [n] bytes were read, before the sector is advanced. *)
Lemma r_handle_moved s f fh pos n :
  r_handle s f fh pos -> pos < fh_size fh -> fh_size fh < 65536 ->
  0 < n <= EEPROMFS_SECTORSIZE - cur_soffset fh -> pos + n <= fh_size fh ->
  let fh' := fh_moved fh n in
  cur_offset fh' = pos + n /\ cur_soffset fh' = (pos + n) `mod` EEPROMFS_SECTORSIZE /\
  ((cur_soffset fh' = 0 /\ (pos + n) / EEPROMFS_SECTORSIZE = pos / EEPROMFS_SECTORSIZE + 1) \/
   (cur_soffset fh' <> 0 /\ (pos + n) / EEPROMFS_SECTORSIZE = pos / EEPROMFS_SECTORSIZE)).
Proof.
  intros [Hm Hs Ho Hr Hso Hp] Hlt Hmax Hn Hle. pose proof geom_sectorsize. simpl. rewrite Ho, Hso in *.
  pose proof (Z.mod_pos_bound pos EEPROMFS_SECTORSIZE). pose proof (Z.div_mod pos EEPROMFS_SECTORSIZE).
  set (k := pos / EEPROMFS_SECTORSIZE) in *. set (o := pos `mod` EEPROMFS_SECTORSIZE) in *.
  split; [apply u16_id; lia|].
  assert ((pos + n) `mod` EEPROMFS_SECTORSIZE = (o + n) `mod` EEPROMFS_SECTORSIZE) as ->.
  { unfold o. by rewrite Z.add_mod_idemp_l by lia. }
  rewrite u8_id by (pose proof (Z.mod_pos_bound (o + n) EEPROMFS_SECTORSIZE); lia). split; [done|].
  destruct (Z.eq_dec (o + n) EEPROMFS_SECTORSIZE) as [He|Hne].
  - left. rewrite He, Z.mod_same by lia. split; [done|]. symmetry. apply Z.div_unique with 0; lia.
  - right. rewrite Z.mod_small by lia. split; [lia|]. symmetry. apply Z.div_unique with (o + n); lia.
Qed.

(** Moving to the next sector, if there is more to read. *)
Lemma read_move_spec s s1 files name f fh pos n :
  fs_inv s files -> files !! name = Some f -> rebuf s s1 ->
  r_handle s f fh pos -> pos < fh_size fh ->
  0 < n <= EEPROMFS_SECTORSIZE - cur_soffset fh -> pos + n <= fh_size fh ->
  let fh1 := fh_moved fh n in
  wp (if negb (cur_offset fh1 =? fh_size fh1) && (cur_soffset fh1 =? 0) then read_advance fh1 else mret fh1)
    (fun fh' s2 => rebuf s s2 /\ r_handle s f fh' (pos + n)) s1.
Proof.
  intros Hinv Hf Hr Hh Hlt Hn Hle fh1. pose proof Hinv as [Hwf Hd Hm].
  pose proof (dk_file _ _ Hd name f Hf) as [Hc _ _ Hsz].
  pose proof (e_size_range s _ Hwf (chain_entry_range _ _ _ Hc (f_first_in f (co_nonempty _ _ Hc)))) as Hmax.
  destruct (r_handle_moved s f fh pos n) as (Ho & Hso & Hcase); try done; [pose proof (rh_size _ _ _ _ Hh); lia|].
  fold fh1 in Ho, Hso, Hcase. pose proof Hh as [Hmode Hs Hoff Hrng Hsoff Hp].
  destruct (Hp Hlt) as [Hpos Hsec]. rewrite Ho. change (fh_size fh1) with (fh_size fh).
  assert (forall fh2, filemode fh2 = EEFS_MODE_READ -> fh_size fh2 = fh_size fh -> cur_offset fh2 = pos + n ->
    cur_soffset fh2 = (pos + n) `mod` EEPROMFS_SECTORSIZE ->
    (pos + n < fh_size fh -> let m := (pos + n) / EEPROMFS_SECTORSIZE in
     sector_pos f m (cur_entry fh2) (cur_sindex fh2) /\ cur_sector fh2 = nthZ (f_sectors f) m) ->
    r_handle s f fh2 (pos + n)) as Hmk.
  { intros fh2 H1m H1s H1o H1so H1p. split; [done|by rewrite H1s|done|lia|done|by rewrite H1s]. }
  destruct (Z.eqb_spec (pos + n) (fh_size fh)) as [Heof|Hne]; simpl.
  - rewrite wp_ret. split; [done|]. apply Hmk; try done. intros. lia.
  - destruct Hcase as [[Hz Hdiv]|[Hnz Hdiv]].
    + assert ((cur_soffset fh1 =? 0) = true) as Hz1 by lia. simpl in Hz1. rewrite Hz1. eapply wp_mono.
      * apply (read_advance_spec s s1 files name f fh1 (pos / EEPROMFS_SECTORSIZE)); try done.
        rewrite <- Hdiv. apply pos_div. lia.
      * intros fh' s2 (Hr2 & i & q & -> & Hsp). split; [done|]. apply Hmk; try done.
        intros _. cbv zeta. rewrite Hdiv. done.
    + assert ((cur_soffset fh1 =? 0) = false) as Hz1 by lia. simpl in Hz1. rewrite Hz1. rewrite wp_ret. split; [done|].
      apply Hmk; try done. intros _. cbv zeta. rewrite Hdiv. done.
Qed.

Definition read_inv (s : eefs) (f : file) (pos0 total : Z) (st : eefs_fh_t * list Z * Z * Z) (s1 : eefs) : Prop :=
  let '(fh, out, len, nread) := st in
  rebuf s s1 /\ 0 <= len <= total /\ nread = total - len /\
  out = slice pos0 nread (f_data s f) /\ r_handle s f fh (pos0 + nread).

Lemma read_step_spec s s1 files name f pos0 total fh out len nread :
  fs_inv s files -> files !! name = Some f -> 0 <= pos0 -> total < 65536 ->
  pos0 + total <= e_size (ent s (f_first f)) ->
  read_inv s f pos0 total (fh, out, len, nread) s1 ->
  wp (read_step (fh, out, len, nread)) (fun r s2 =>
    match r with
    | inl st => read_inv s f pos0 total st s2 /\ st.1.2 < len
    | inr (fh', out', nread') => rebuf s s2 /\ out' = slice pos0 total (f_data s f) /\ nread' = total /\
        r_handle s f fh' (pos0 + total)
    end) s1.
Proof.
  intros Hinv Hf Hpos0 Hmax Htot (Hr & Hlen & Hnr & Hout & Hh). unfold read_step.
  destruct (Z.eqb_spec len 0) as [->|Hne].
  { assert (nread = total) as -> by lia. by rewrite wp_ret. }
  pose proof (rh_size _ _ _ _ Hh) as Hs. pose proof (rh_soffset _ _ _ _ Hh) as Hso.
  pose proof geom_sectorsize. pose proof (Z.mod_pos_bound (pos0 + nread) EEPROMFS_SECTORSIZE) as Hmod.
  destruct (rh_pos _ _ _ _ Hh) as [_ Hsec]; [lia|].
  cbv zeta. rewrite block_length by lia.
  set (n := Z.min len (EEPROMFS_SECTORSIZE - cur_soffset fh)).
  rewrite wp_bind. eapply wp_intro.
  { rewrite Hsec, Hso. apply (read_block s s1 files name f (pos0 + nread) n); try done; lia. }
  cbv beta. rewrite wp_bind. eapply wp_mono.
  { apply (read_move_spec s s1 files name f fh (pos0 + nread) n); try done; lia. }
  intros fh' s2 [Hr2 Hh2]. rewrite wp_ret. rewrite !u16_id by lia. split; [|simpl; lia].
  split; [done|]. split; [lia|]. split; [lia|]. split; [|by rewrite Z.add_assoc].
  rewrite Hout. unfold slice. rewrite !Z2Nat.inj_add by lia. rewrite <- drop_drop. apply take_take_drop.
Qed.

(** Reading returns the next [length] bytes of the file, or what is left. *)
Lemma read_spec s s1 files name f fh pos length :
  fs_inv s files -> files !! name = Some f -> rebuf s s1 -> r_handle s f fh pos -> 0 <= length < 65536 ->
  let n := Z.min length (e_size (ent s (f_first f)) - pos) in
  wp (eepromfs_read fh length) (fun r s2 =>
    let '(err, fh', out, nread) := r in
    err = EEFS_ERROR_OK /\ rebuf s s2 /\ out = slice pos n (f_data s f) /\ nread = Some n /\
    r_handle s f fh' (pos + n)) s1.
Proof.
  intros Hinv Hf Hr Hh Hlen n. pose proof Hinv as [Hwf Hd _].
  pose proof (dk_file _ _ Hd name f Hf) as [Hc _ _ _].
  pose proof (e_size_range s _ Hwf (chain_entry_range _ _ _ Hc (f_first_in f (co_nonempty _ _ Hc)))) as Hmax.
  pose proof Hh as [Hmode Hs Ho Hrng _ _]. unfold eepromfs_read. rewrite Hmode.
  change (negb (EEFS_MODE_READ =? EEFS_MODE_READ)) with false. cbv iota. rewrite Ho, Hs in *.
  assert ((if e_size (ent s (f_first f)) - pos <? length then u16 (e_size (ent s (f_first f)) - pos) else length) = n) as ->.
  { unfold n. destruct (Z.ltb_spec (e_size (ent s (f_first f)) - pos) length); [rewrite u16_id by lia|]; lia. }
  rewrite wp_bind. eapply (wp_mono _ (fun r s2 => let '(fh', out, nread) := r in
    rebuf s s2 /\ out = slice pos n (f_data s f) /\ nread = n /\ r_handle s f fh' (pos + n))).
  2: { intros [[fh' out] nread] s2 (? & ? & -> & ?). by rewrite wp_ret. }
  apply (wp_loop (read_inv s f pos n) (fun st _ => Z.to_nat st.1.2)).
  - intros [[[fh1 out1] len1] nread1] s2 Hi. pose proof Hi as (_ & Hl & _).
    eapply wp_mono; [apply (read_step_spec s s2 files name f pos n); try done; lia|].
    intros [[[[fh2 out2] len2] nread2]|[[fh2 out2] nread2]] s3; [|done]. simpl.
    intros [Hi2 Hlt]. split; [done|]. destruct Hi2 as (_ & ? & _). lia.
  - split; [done|]. split; [lia|]. split; [lia|]. split; [done|]. by rewrite Z.add_0_r.
  - simpl. lia.
Qed.
End read.
