(* ===== verification/EepromFsTheorems.v ===== *)
(** * eeprom-fs.c: the file system as a map from names to contents

    Whole operations as a client of eeprom-fs.c performs them, the abstract
    file system they implement, and the theorems about the component. *)

From stdpp Require Import gmap.
From S2P Require Import Prelude EepromFs EepromFsFacts EepromFsInv EepromFsFile EepromFsWrite.
From S2P Require Import EepromFsDir EepromFsRead.

Ltac Zify.zify_pre_hook ::= unfold_consts.

Section client.
Context `{EepromGeom} `{Assertions}.

(** Write a new file in one go; the result carries the bytes written. *)
Definition save_file (name data : list Z) : comp eefs (eefs_error_t * Z) :=
  r ← eepromfs_open name EEFS_MODE_WRITE;
  if decide (r.1 = EEFS_ERROR_OK) then
    w ← eepromfs_write r.2 data (zlen data);
    eepromfs_close w.1.2;;
    mret (w.1.1, default 0 w.2)
  else mret (r.1, 0).

(** Read up to [length] bytes of a file. *)
Definition load_file (name : list Z) (length : Z) : comp eefs (eefs_error_t * list Z) :=
  r ← eepromfs_open name EEFS_MODE_READ;
  if decide (r.1 = EEFS_ERROR_OK) then
    x ← eepromfs_read r.2 length;
    eepromfs_close x.1.1.2;;
    mret (x.1.1.1, x.1.2)
  else mret (r.1, []).

Inductive fs_op :=
| OpSave (name data : list Z)
| OpLoad (name : list Z) (length : Z)
| OpDelete (name : list Z)
| OpRename (oldname newname : list Z)
| OpMount
| OpFormat.

(** The error code and the bytes an operation returns. *)
Definition run_op (op : fs_op) : comp eefs (eefs_error_t * list Z) :=
  match op with
  | OpSave name data => r ← save_file name data; mret (r.1, slice 0 r.2 data)
  | OpLoad name length => load_file name length
  | OpDelete name => e ← eepromfs_delete name; mret (e, [])
  | OpRename oldname newname => e ← eepromfs_rename oldname newname; mret (e, [])
  | OpMount => eepromfs_init;; mret (EEFS_ERROR_OK, [])
  | OpFormat => eepromfs_format;; mret (EEFS_ERROR_OK, [])
  end.

Fixpoint run_ops (ops : list fs_op) : comp eefs (list (eefs_error_t * list Z)) :=
  match ops with
  | [] => mret []
  | op :: ops => r ← run_op op; rs ← run_ops ops; mret (r :: rs)
  end.
End client.

(** Arguments the callers pass: names of 16 bytes, data that [length] counts. *)
Definition name_ok (name : list Z) : Prop := zlen name = EEFS_NAME_LENGTH /\ bytes name.
Definition op_ok (op : fs_op) : Prop :=
  match op with
  | OpSave name data => name_ok name /\ bytes data /\ zlen data < 65536
  | OpLoad name length => name_ok name /\ 0 <= length < 65536
  | OpDelete name => name_ok name
  | OpRename oldname newname => name_ok oldname /\ name_ok newname
  | OpMount | OpFormat => True
  end.

(** ** The abstract file system *)
Abbreviation fsmap := (gmap (list Z) (list Z)).

Inductive abs_step : fsmap -> fs_op -> eefs_error_t * list Z -> fsmap -> Prop :=
| abs_save_ok m name data :
    m !! name = None -> abs_step m (OpSave name data) (EEFS_ERROR_OK, data) (<[name := data]> m)
| abs_save_exists m name data :
    is_Some (m !! name) -> abs_step m (OpSave name data) (EEFS_ERROR_FILEEXISTS, []) m
| abs_save_nodir m name data :
    m !! name = None -> abs_step m (OpSave name data) (EEFS_ERROR_DIRFULL, []) m
| abs_save_full m name data done rest err :
    m !! name = None -> data = done ++ rest -> rest <> [] ->
    err = EEFS_ERROR_DISKFULL \/ err = EEFS_ERROR_DIRFULL ->
    abs_step m (OpSave name data) (err, done) (<[name := done]> m)
| abs_load_ok m name length data :
    m !! name = Some data ->
    abs_step m (OpLoad name length) (EEFS_ERROR_OK, slice 0 (Z.min length (zlen data)) data) m
| abs_load_missing m name length :
    m !! name = None -> abs_step m (OpLoad name length) (EEFS_ERROR_FILENOTFOUND, []) m
| abs_delete_ok m name :
    is_Some (m !! name) -> abs_step m (OpDelete name) (EEFS_ERROR_OK, []) (delete name m)
| abs_delete_missing m name :
    m !! name = None -> abs_step m (OpDelete name) (EEFS_ERROR_FILENOTFOUND, []) m
| abs_rename_ok m oldname newname data :
    m !! newname = None -> m !! oldname = Some data ->
    abs_step m (OpRename oldname newname) (EEFS_ERROR_OK, []) (<[newname := data]> (delete oldname m))
| abs_rename_exists m oldname newname :
    is_Some (m !! newname) -> abs_step m (OpRename oldname newname) (EEFS_ERROR_FILEEXISTS, []) m
| abs_rename_missing m oldname newname :
    m !! newname = None -> m !! oldname = None ->
    abs_step m (OpRename oldname newname) (EEFS_ERROR_FILENOTFOUND, []) m
| abs_mount m : abs_step m OpMount (EEFS_ERROR_OK, []) m
| abs_format m : abs_step m OpFormat (EEFS_ERROR_OK, []) ∅.

Inductive abs_steps : fsmap -> list fs_op -> list (eefs_error_t * list Z) -> fsmap -> Prop :=
| abs_nil m : abs_steps m [] [] m
| abs_cons m1 m2 m3 op ops r rs :
    abs_step m1 op r m2 -> abs_steps m2 ops rs m3 -> abs_steps m1 (op :: ops) (r :: rs) m3.

Lemma abs_save_ok_inv m name data out m' :
  abs_step m (OpSave name data) (EEFS_ERROR_OK, out) m' -> m' = <[name := data]> m.
Proof. inversion 1; subst; [done|]. by match goal with H : _ \/ _ |- _ => destruct H end. Qed.

Lemma abs_load_inv m name length data r m' :
  abs_step m (OpLoad name length) r m' -> m !! name = Some data ->
  r = (EEFS_ERROR_OK, slice 0 (Z.min length (zlen data)) data).
Proof. inversion 1; subst; intros; congruence. Qed.

Section refinement.
Context `{EepromGeomOk} `{Assertions}.
Implicit Types s : eefs.
Abbreviation files_t := (gmap (list Z) file).

Definition refines (s : eefs) (files : files_t) (op : fs_op) (r : eefs_error_t * list Z) (s' : eefs) : Prop :=
  exists files', fs_inv s' files' /\ abs_step (view s files) op r (view s' files').

Lemma view_lookup s files name : view s files !! name = f_data s <$> files !! name.
Proof. apply lookup_fmap. Qed.

Lemma save_file_refines s files name data :
  fs_inv s files -> name_ok name -> bytes data -> zlen data < 65536 ->
  wp (run_op (OpSave name data)) (refines s files (OpSave name data)) s.
Proof.
  intros Hinv [Hn Hnb] Hb Hlen. unfold run_op, save_file. wp_simpl.
  eapply wp_mono; [by apply open_write_spec|]. intros [e fh] s1. unfold open_write_post. simpl.
  pose proof (zlen_nonneg data). pose proof (view_lookup s files name) as Hv.
  destruct (files !! name) as [f|] eqn:Hf; simpl in Hv.
  { intros [-> Hr]. rewrite decide_False by done. wp_simpl. exists files.
    split; [by apply (fs_inv_rebuf s)|]. rewrite (view_rebuf s s1 files Hr). simpl. apply abs_save_exists. by rewrite Hv. }
  intros [(-> & i & Hinv1 & Hh & Hview1)|(-> & _ & Hr)].
  2: { rewrite decide_False by done. wp_simpl. exists files.
       split; [by apply (fs_inv_rebuf s)|]. rewrite (view_rebuf s s1 files Hr). by apply abs_save_nodir. }
  rewrite decide_True by done. wp_simpl. eapply wp_mono.
  { apply (write_spec s1 (<[name := [(i, [])]]> files) name [] i [] fh [] data (zlen data)); try done. by rewrite lookup_insert_eq. }
  intros [[e fh2] w] s2 (n & Hw & Hn2 & f & [Hinv2 Hview2] & Hfile & Hcase). simpl in *. subst w.
  rewrite insert_insert_eq in Hinv2, Hview2. wp_simpl. eapply wp_mono.
  { eapply (close_spec s2 (<[name := f]> files) name f fh2); [exact Hinv2|by rewrite lookup_insert_eq|exact Hfile]. }
  intros fh3 s3 (_ & Hinv3 & Hview3). wp_simpl. exists (<[name := f]> files). split; [done|].
  rewrite Hview3, Hview2, Hview1, insert_insert_eq. simpl.
  assert (n < zlen data -> forall e', e' = EEFS_ERROR_DISKFULL \/ e' = EEFS_ERROR_DIRFULL ->
    abs_step (view s files) (OpSave name data) (e', slice 0 n data) (<[name := slice 0 n data]> (view s files))) as Hfull.
  { intros Hlt e' He. apply (abs_save_full _ _ _ _ (slice n (zlen data - n) data)); [done| | |done].
    - unfold slice. rewrite drop_0. rewrite (take_ge (drop _ _)) by (rewrite length_drop; unfold zlen; lia).
      by rewrite take_drop.
    - intros Hnil%(f_equal zlen). rewrite zlen_slice in Hnil by lia. change (zlen []) with 0 in Hnil. lia. }
  destruct e; try done; [|apply Hfull; [lia|by right]|apply Hfull; [lia|by left]].
  destruct Hcase as [-> _]. rewrite slice_all. by apply abs_save_ok.
Qed.

Lemma zlen_f_data s files name f :
  fs_inv s files -> files !! name = Some f -> zlen (f_data s f) = e_size (ent s (f_first f)).
Proof.
  intros [Hwf Hd _] Hf. pose proof (dk_file _ _ Hd name f Hf) as [Hc _ _ Hsz].
  pose proof (e_size_range s _ Hwf (chain_entry_range _ _ _ Hc (f_first_in f (co_nonempty _ _ Hc)))).
  unfold f_data. rewrite zlen_slice; [done|lia|lia|].
  rewrite zlen_content by (done || by eapply chain_secs_in). lia.
Qed.

Lemma load_file_refines s files name length :
  fs_inv s files -> name_ok name -> 0 <= length < 65536 ->
  wp (run_op (OpLoad name length)) (refines s files (OpLoad name length)) s.
Proof.
  intros Hinv [Hn _] Hlen. unfold run_op, load_file. wp_simpl.
  eapply wp_mono; [by apply (open_read_spec s files)|]. intros [e fh] s1 [Hr Hcase]. simpl in *.
  pose proof (view_lookup s files name) as Hv. destruct (files !! name) as [f|] eqn:Hf; simpl in Hv.
  2: { subst e. rewrite decide_False by done. wp_simpl. exists files.
       split; [by apply (fs_inv_rebuf s)|]. rewrite (view_rebuf s s1 files Hr). by apply abs_load_missing. }
  destruct Hcase as [-> Hh]. rewrite decide_True by done. wp_simpl.
  eapply wp_mono; [by apply (read_spec s s1 files name f fh 0 length)|].
  intros [[[e fh2] out] nread] s2 (-> & Hr2 & -> & -> & Hh2). simpl. unfold eepromfs_close.
  rewrite (rh_mode _ _ _ _ Hh2). change (negb (EEFS_MODE_READ =? EEFS_MODE_READ)) with false.
  unfold when. wp_simpl. exists files. split; [by apply (fs_inv_rebuf s)|].
  rewrite (view_rebuf s s2 files Hr2), Z.sub_0_r, <- (zlen_f_data s files name f) by done. by apply abs_load_ok.
Qed.

Lemma run_op_refines s files op :
  fs_inv s files -> op_ok op -> wp (run_op op) (refines s files op) s.
Proof.
  intros Hinv Hop. destruct op as [name data|name length|name|old new| |]; simpl in Hop.
  - destruct Hop as (? & ? & ?). by apply save_file_refines.
  - destruct Hop. by apply load_file_refines.
  - simpl. wp_simpl. eapply wp_mono; [apply delete_spec; [done|apply Hop]|]. intros e s1. cbv beta.
    pose proof (view_lookup s files name) as Hv. destruct (files !! name) as [f|]; simpl in Hv; wp_simpl.
    + intros (-> & _ & Hinv1 & Hview). exists (delete name files). split; [done|]. rewrite Hview.
      apply abs_delete_ok. by rewrite Hv.
    + intros [-> Hr]. exists files. split; [by apply (fs_inv_rebuf s)|]. rewrite (view_rebuf s s1 files Hr).
      by apply abs_delete_missing.
  - simpl. wp_simpl. destruct Hop as [[? ?] [? ?]]. eapply wp_mono; [by apply rename_spec|]. intros e s1. cbv beta.
    pose proof (view_lookup s files new) as Hvn. pose proof (view_lookup s files old) as Hvo.
    destruct (files !! new) as [g|]; simpl in Hvn.
    { intros [-> Hr]. wp_simpl. exists files. split; [by apply (fs_inv_rebuf s)|]. rewrite (view_rebuf s s1 files Hr).
      apply abs_rename_exists. by rewrite Hvn. }
    destruct (files !! old) as [f|]; simpl in Hvo; wp_simpl.
    + intros (-> & Hinv1 & Hview). eexists. split; [exact Hinv1|]. rewrite Hview. by apply abs_rename_ok.
    + intros [-> Hr]. exists files. split; [by apply (fs_inv_rebuf s)|]. rewrite (view_rebuf s s1 files Hr).
      by apply abs_rename_missing.
  - simpl. wp_simpl. pose proof Hinv as [[] Hd _]. eapply wp_mono; [by apply (init_spec s files)|].
    intros [] s1 (Hinv1 & Hview & _). wp_simpl. exists files. split; [done|]. rewrite Hview. apply abs_mount.
  - simpl. wp_simpl. pose proof Hinv as [[] Hd _]. eapply wp_mono; [by apply (format_spec s)|].
    intros [] s1 (Hinv1 & _). wp_simpl. exists ∅. split; [done|]. apply abs_format.
Qed.

Lemma run_ops_refine s files ops :
  fs_inv s files -> Forall op_ok ops ->
  wp (run_ops ops) (fun rs s' => exists files', fs_inv s' files' /\
    abs_steps (view s files) ops rs (view s' files')) s.
Proof.
  intros Hinv Hops. revert s files Hinv. induction Hops as [|op ops Hop _ IH]; intros s files Hinv; simpl; wp_simpl.
  - exists files. split; [done|]. apply abs_nil.
  - eapply wp_mono; [by apply run_op_refines|]. intros r s1 (files1 & Hinv1 & Hstep). cbv beta. wp_simpl.
    eapply wp_mono; [by apply (IH s1 files1)|]. intros rs s2 (files2 & Hinv2 & Hsteps). cbv beta. wp_simpl.
    exists files2. split; [done|]. by eapply abs_cons.
Qed.
End refinement.

(** A save that succeeds leaves a state holding the file. *)
Definition saved_ok (o : outcome eefs (eefs_error_t * list Z)) (data : list Z) : bool :=
  match o with Done (EEFS_ERROR_OK, d) _ => bool_decide (d = data) | _ => false end.

Lemma saved_view `{EepromGeomOk} `{Assertions} (s0 : eefs) (files0 : gmap (list Z) file) name data :
  fs_inv s0 files0 -> name_ok name -> bytes data -> zlen data < 65536 ->
  saved_ok (run_op (OpSave name data) s0) data = true ->
  exists (s : eefs) (files : gmap (list Z) file), fs_inv s files /\ view s files = <[name := data]> (view s0 files0).
Proof.
  intros Hinv0 Hn Hb Hl Hok. pose proof (save_file_refines s0 files0 _ _ Hinv0 Hn Hb Hl) as Hw.
  rewrite wp_done in Hw. destruct Hw as ([e d] & s & Heq & files & Hinv & Hstep).
  rewrite Heq in Hok. destruct e; try done. apply abs_save_ok_inv in Hstep. by exists s, files.
Qed.

Lemma saved_file `{EepromGeomOk} `{Assertions} (s0 : eefs) (files0 : gmap (list Z) file) name data :
  fs_inv s0 files0 -> name_ok name -> bytes data -> zlen data < 65536 ->
  saved_ok (run_op (OpSave name data) s0) data = true ->
  exists (s : eefs) (files : gmap (list Z) file) f,
    fs_inv s files /\ files !! name = Some f /\ f_data s f = data.
Proof.
  intros Hinv0 Hn Hb Hl Hok. destruct (saved_view s0 files0 name data Hinv0 Hn Hb Hl Hok) as (s & files & Hinv & Hv).
  assert (view s files !! name = Some data) as Hl' by (rewrite Hv; apply lookup_insert_eq).
  rewrite view_lookup in Hl'. apply fmap_Some in Hl' as (f & Hf & Hd). by exists s, files, f.
Qed.

(** ** A concrete file system for the examples *)
Definition sample_asserts : Assertions := {| CONFIG_ASSERTIONS := true |}.

(** An erased AVR EEPROM right after mounting. *)
Definition blank : eefs :=
  {| eeprom := fill 4096 255; scratch := fill 33 0; used_sectors := fill 7 0;
     used_entries := fill 1 0; free_sectors := 52 |}.

Definition sample_name : list Z := [72; 69; 76; 76; 79] ++ fill 11 0.
Definition sample_name2 : list Z := [87; 79; 82; 76; 68] ++ fill 11 0.
Definition sample_data : list Z := seqZ 0 200.

Lemma bytes_seqZ n : 0 <= n <= 256 -> bytes (seqZ 0 n).
Proof. intros. apply Forall_seqZ. unfold is_byte. lia. Qed.

Lemma sample_name_ok : name_ok sample_name.
Proof. split; [done|]. repeat (apply Forall_cons; split; [done|]). apply Forall_nil_2. Qed.
Lemma sample_name2_ok : name_ok sample_name2.
Proof. split; [done|]. repeat (apply Forall_cons; split; [done|]). apply Forall_nil_2. Qed.

Section sample.
#[local] Existing Instance avr_geom.
#[local] Existing Instance sample_asserts.

Lemma blank_mem : wf_mem blank.
Proof. split; try done; by apply bytes_fill. Qed.

Lemma blank_init : eepromfs_init blank = Done tt (set_scratch (fill 32 255 ++ [0]) blank).
Proof. by vm_compute. Qed.

Lemma blank_dir : disk_ok (ent blank) ∅.
Proof.
  split; try done. intros j Hj. assert (j ∈ seqZ 0 8) as Hin by (apply elem_of_seqZ; exact Hj).
  assert (forallb (fun j => e_deleted (ent blank j)) (seqZ 0 8) = true) as Ha by by vm_compute.
  rewrite forallb_forall in Ha. rewrite Ha; [done|]. apply list_elem_of_In, elem_of_seqZ. exact Hj.
Qed.

Lemma blank_inv : fs_inv (set_scratch (fill 32 255 ++ [0]) blank) ∅.
Proof.
  pose proof (init_spec blank ∅ blank_mem blank_dir) as Hw.
  by destruct (wp_run _ _ _ _ _ Hw blank_init).
Qed.
End sample.

(** ** The theorems about the component *)
Section theorems.
Context `{EepromGeomOk} `{Assertions}.
Implicit Types s : eefs.
Abbreviation files_t := (gmap (list Z) file).

(** C1: any sequence of saves, loads, deletes, renames, mounts and formats
    on a file system that satisfies the invariant returns (no access is out
    of bounds, no assertion fails, every loop ends) and refines the
    abstract map from names to contents, whose invariant it keeps. *)
Theorem eepromfs_refines_map s (files : files_t) ops
    (Hinv : fs_inv s files) (Hops : Forall op_ok ops) :
  wp (run_ops ops) (fun rs s' => exists files', fs_inv s' files' /\
    abs_steps (view s files) ops rs (view s' files')) s.
Proof. by apply run_ops_refine. Qed.

(** C17: what [eepromfs_open] for writing, [eepromfs_write] and
    [eepromfs_close] stored without an error, [eepromfs_open] for reading
    and [eepromfs_read] return, byte for byte. *)
Theorem eepromfs_save_load s (files : files_t) name data
    (Hinv : fs_inv s files) (Hn : name_ok name) (Hb : bytes data) (Hlen : zlen data < 65536) :
  wp (save_file name data) (fun r s' => r.1 = EEFS_ERROR_OK ->
    wp (load_file name 65535) (fun x _ => x = (EEFS_ERROR_OK, data)) s') s.
Proof.
  pose proof (save_file_refines s files name data Hinv Hn Hb Hlen) as Hw. simpl in Hw.
  rewrite wp_bind in Hw. eapply wp_mono; [exact Hw|]. intros [e w] s'. cbv beta. rewrite wp_ret. simpl.
  intros (files' & Hinv' & Hstep) ->. eapply wp_mono; [by apply (load_file_refines s' files' name 65535)|].
  intros x s'' (files'' & _ & Hload). pose proof (zlen_nonneg data).
  apply abs_save_ok_inv in Hstep. apply (abs_load_inv _ _ _ data) in Hload;
    [|rewrite Hstep; apply lookup_insert_eq].
  rewrite Hload, Z.min_r by lia. by rewrite slice_all.
Qed.

(** the write-minimising [write_entry], which transfers only runs of
    changed bytes, leaves the EEPROM as a write of all 32 bytes would. *)
Theorem write_entry_is_full_write s i (Hwf : wf_base s) (Hi : 0 <= i < EEPROMFS_ENTRIES) :
  write_entry i s = Done tt (with_ent i (buf s) s).
Proof. by apply write_entry_eq. Qed.

(** C38: [eepromfs_write] appends to the open file the first [written] bytes
    of its data and changes no closed file; it writes all of them unless
    every sector (disk full) or every directory entry (directory full) is
    in use. *)
Theorem eepromfs_write_appends s (files : files_t) name f0 i ss fh data bdata length
    (Hinv : fs_inv s files) (Hf : files !! name = Some (f0 ++ [(i, ss)]))
    (Hh : w_handle s f0 i ss fh data) (Hlen : 0 <= length < 65536)
    (Hbl : zlen bdata = length) (Hb : bytes bdata) :
  wp (eepromfs_write fh bdata length) (fun r s' =>
    exists w, r.2 = Some w /\ write_post s files name data bdata length (r.1, w) s') s.
Proof. by apply (write_spec s files name f0 i ss). Qed.

(** mounting recomputes the sector bitmap, the entry bitmap and the free
    counter from the directory, so that they agree with it again, and
    changes no byte of the EEPROM. *)
Theorem eepromfs_init_mounts s (files : files_t) (Hwf : wf_mem s) (Hd : disk_ok (ent s) files) :
  wp eepromfs_init (fun _ s' =>
    fs_inv s' files /\ view s' files = view s files /\ eeprom s' = eeprom s /\
    forall j, 0 <= j < EEPROMFS_ENTRIES -> bm_test (used_entries s') j = negb (e_deleted (ent s j))) s.
Proof. by apply init_spec. Qed.

(** [eepromfs_delete] removes exactly the named file, frees its sectors
    and entries on the EEPROM, and leaves the bitmap of used directory
    entries as it was: a deleted entry is reused only after the next mount. *)
Theorem eepromfs_delete_removes s (files : files_t) name
    (Hinv : fs_inv s files) (Hn : zlen name = EEFS_NAME_LENGTH) :
  wp (eepromfs_delete name) (fun r s' =>
    match files !! name with
    | None => r = EEFS_ERROR_FILENOTFOUND /\ rebuf s s'
    | Some _ => r = EEFS_ERROR_OK /\ used_entries s' = used_entries s /\
        fs_inv s' (delete name files) /\ view s' (delete name files) = delete name (view s files)
    end) s.
Proof. by apply delete_spec. Qed.

(** [eepromfs_read] returns the next [length] bytes of the file, or
    what is left of it, advances the handle by that much and writes
    nothing. *)
Theorem eepromfs_read_returns s (files : files_t) name f fh pos length
    (Hinv : fs_inv s files) (Hf : files !! name = Some f) (Hh : r_handle s f fh pos)
    (Hlen : 0 <= length < 65536) :
  let n := Z.min length (e_size (ent s (f_first f)) - pos) in
  wp (eepromfs_read fh length) (fun r s2 =>
    let '(err, fh', out, nread) := r in
    err = EEFS_ERROR_OK /\ rebuf s s2 /\ out = slice pos n (f_data s f) /\ nread = Some n /\
    r_handle s f fh' (pos + n)) s.
Proof. apply (read_spec s s files name); try done. apply rebuf_refl, Hinv. Qed.

(** from any start the cyclic search for a free sector ends within one
    round with the first free sector at or behind it, and reports a full
    disk only if every sector is in use. *)
Theorem next_free_sector_first_fit s start (Hwf : wf_base s) (Hs : 0 <= start < SECTOR_COUNT) :
  exists r, next_free_sector start s = Done r s /\
    ((0 <= r < SECTOR_COUNT /\ next_fit (used_sectors s) SECTOR_COUNT start r) \/
     (r = SECTOR_FREE /\ all_used (used_sectors s) SECTOR_COUNT)).
Proof. by apply next_free_sector_spec. Qed.

(** [eepromfs_format] erases exactly the area of the file system and
    leaves an empty one, with every sector free. *)
Theorem eepromfs_format_empties s (Hwf : wf_mem s) :
  wp eepromfs_format (fun _ s' =>
    fs_inv s' (∅ : files_t) /\ free_sectors s' = SECTOR_COUNT /\
    forall p, 0 <= p -> nthZ (eeprom s') p =
      if (EEPROMFS_OFFSET <=? p) && (p <? EEPROMFS_OFFSET + EEPROMFS_SIZE) then 255 else nthZ (eeprom s) p) s.
Proof. by apply format_spec. Qed.
End theorems.

(** ** Witnesses *)
Section witnesses.
#[local] Existing Instance avr_geom.
#[local] Existing Instance sample_asserts.

Definition sample0 : eefs := set_scratch (fill 32 255 ++ [0]) blank.

Lemma sample_save_ok : saved_ok (run_op (OpSave sample_name sample_data) sample0) sample_data = true.
Proof. by vm_compute. Qed.

Lemma sample_data_ok : bytes sample_data /\ zlen sample_data < 65536.
Proof. split; [by apply bytes_seqZ|done]. Qed.

(** A file system that holds one file. *)
Lemma sample_saved : exists (s : eefs) (files : gmap (list Z) file) f,
  fs_inv s files /\ files !! sample_name = Some f /\ f_data s f = sample_data.
Proof.
  destruct sample_data_ok as [Hb Hl].
  exact (saved_file sample0 ∅ _ _ blank_inv sample_name_ok Hb Hl sample_save_ok).
Qed.

Definition sample_ops : list fs_op :=
  [OpSave sample_name sample_data; OpLoad sample_name 100; OpRename sample_name sample_name2;
   OpMount; OpDelete sample_name2; OpFormat].

Lemma eepromfs_refines_map_witness :
  wp (run_ops sample_ops) (fun rs s' => exists files', fs_inv s' files' /\
    abs_steps (view sample0 ∅) sample_ops rs (view s' files')) sample0.
Proof.
  apply (eepromfs_refines_map sample0 ∅ sample_ops blank_inv).
  pose proof sample_name_ok. pose proof sample_name2_ok. destruct sample_data_ok.
  repeat (apply Forall_cons; split; [by split_and?|]). apply Forall_nil_2.
Defined.

Lemma eepromfs_save_load_witness :
  wp (save_file sample_name sample_data) (fun r s' => r.1 = EEFS_ERROR_OK ->
    wp (load_file sample_name 65535) (fun x _ => x = (EEFS_ERROR_OK, sample_data)) s') sample0.
Proof.
  apply (eepromfs_save_load sample0 ∅ _ _ blank_inv sample_name_ok); apply sample_data_ok.
Defined.

Lemma write_entry_is_full_write_witness : write_entry 3 sample0 = Done tt (with_ent 3 (buf sample0) sample0).
Proof. apply (write_entry_is_full_write sample0 3 (fi_base _ _ blank_inv)). split; reflexivity || done. Defined.

Lemma eepromfs_write_appends_witness : exists s (files : gmap (list Z) file) i fh,
  files !! sample_name = Some [(i, [])] /\
  wp (eepromfs_write fh sample_data 200) (fun r s' =>
    exists w, r.2 = Some w /\ write_post s files sample_name [] sample_data 200 (r.1, w) s') s.
Proof.
  pose proof (open_write_spec sample0 ∅ sample_name blank_inv) as Hw.
  specialize (Hw (proj1 sample_name_ok) (proj2 sample_name_ok)). rewrite wp_done in Hw.
  destruct Hw as ([e fh] & s & _ & [(_ & i & Hinv & Hh & _)|(_ & Hall & _)]).
  - exists s, (<[sample_name := [(i, [])]]> ∅), i, fh. split; [apply lookup_insert_eq|].
    apply (eepromfs_write_appends s _ sample_name [] i [] fh [] sample_data 200 Hinv);
      [apply lookup_insert_eq|exact Hh|lia|reflexivity|apply sample_data_ok].
  - exfalso. assert (bm_test (used_entries sample0) 0 = true) by (apply Hall; done). done.
Defined.

Lemma eepromfs_init_mounts_witness :
  wp eepromfs_init (fun _ s' =>
    fs_inv s' (∅ : gmap (list Z) file) /\ view s' ∅ = view blank ∅ /\ eeprom s' = eeprom blank /\
    forall j, 0 <= j < 8 -> bm_test (used_entries s') j = negb (e_deleted (ent blank j))) blank.
Proof. exact (eepromfs_init_mounts blank ∅ blank_mem blank_dir). Defined.

Lemma eepromfs_delete_removes_witness : exists s (files : gmap (list Z) file),
  is_Some (files !! sample_name) /\
  wp (eepromfs_delete sample_name) (fun r s' =>
    match files !! sample_name with
    | None => r = EEFS_ERROR_FILENOTFOUND /\ rebuf s s'
    | Some _ => r = EEFS_ERROR_OK /\ used_entries s' = used_entries s /\
        fs_inv s' (delete sample_name files) /\
        view s' (delete sample_name files) = delete sample_name (view s files)
    end) s.
Proof.
  destruct sample_saved as (s & files & f & Hinv & Hf & _). exists s, files. split; [by rewrite Hf|].
  apply (eepromfs_delete_removes s files sample_name Hinv). reflexivity.
Defined.

Lemma eepromfs_read_returns_witness : exists s (files : gmap (list Z) file) f fh,
  files !! sample_name = Some f /\ r_handle s f fh 0 /\
  let n := Z.min 100 (e_size (ent s (f_first f)) - 0) in
  wp (eepromfs_read fh 100) (fun r s2 =>
    let '(err, fh', out, nread) := r in
    err = EEFS_ERROR_OK /\ rebuf s s2 /\ out = slice 0 n (f_data s f) /\ nread = Some n /\
    r_handle s f fh' (0 + n)) s.
Proof.
  destruct sample_saved as (s & files & f & Hinv & Hf & _).
  pose proof (open_read_spec s files sample_name EEFS_MODE_READ Hinv) as Hw.
  specialize (Hw eq_refl ltac:(done) ltac:(done)). rewrite wp_done in Hw.
  destruct Hw as ([e fh] & s1 & _ & _ & Hcase). rewrite Hf in Hcase. destruct Hcase as [_ Hh].
  exists s, files, f, fh. split; [done|]. split; [done|].
  apply (eepromfs_read_returns s files sample_name f fh 0 100 Hinv Hf Hh). lia.
Defined.

Lemma next_free_sector_first_fit_witness :
  exists r, next_free_sector 51 sample0 = Done r sample0 /\
    ((0 <= r < SECTOR_COUNT /\ next_fit (used_sectors sample0) SECTOR_COUNT 51 r) \/
     (r = SECTOR_FREE /\ all_used (used_sectors sample0) SECTOR_COUNT)).
Proof. apply (next_free_sector_first_fit sample0 51 (fi_base _ _ blank_inv)). split; reflexivity || done. Defined.

Lemma eepromfs_format_empties_witness :
  wp eepromfs_format (fun _ s' =>
    fs_inv s' (∅ : gmap (list Z) file) /\ free_sectors s' = 52 /\
    forall p, 0 <= p -> nthZ (eeprom s') p =
      if (512 <=? p) && (p <? 512 + 3584) then 255 else nthZ (eeprom blank) p) blank.
Proof. exact (eepromfs_format_empties blank blank_mem). Defined.
End witnesses.

(** ** Appending *)
Section append.
#[local] Existing Instance avr_geom.
#[local] Existing Instance sample_asserts.

(** Append to an existing file, as fileops does for a mode-A channel. *)
Definition append_file (name data : list Z) : comp eefs eefs_error_t :=
  r ← eepromfs_open name EEFS_MODE_APPEND;
  if decide (r.1 = EEFS_ERROR_OK) then
    w ← eepromfs_write r.2 data (zlen data);
    eepromfs_close w.1.2;;
    mret w.1.1
  else mret r.1.

Definition append_then_load (data more : list Z) : comp eefs (eefs_error_t * (eefs_error_t * list Z)) :=
  save_file sample_name data;;
  e ← append_file sample_name more;
  x ← load_file sample_name 65535;
  mret (e, x).

(** appending to a file whose data end inside its only sector works,
    but behind two full sectors [eepromfs_open] hands out a handle with
    sector index 0, so the new sector replaces the second one in the
    directory entry: the file then lists one sector too few and reading it
    runs into a free slot (the assertion of [eepromfs_read] fails). *)
Theorem eepromfs_append_overwrites_sector :
  (exists s, append_then_load (seqZ 0 50) [1; 2; 3] sample0 = Done (EEFS_ERROR_OK, (EEFS_ERROR_OK, seqZ 0 50 ++ [1; 2; 3])) s) /\
  (exists s, (save_file sample_name (seqZ 0 128);; append_file sample_name [1; 2; 3]) sample0 = Done EEFS_ERROR_OK s) /\
  append_then_load (seqZ 0 128) [1; 2; 3] sample0 = Stuck.
Proof. split_and!; [eexists; vm_compute; reflexivity..|by vm_compute]. Qed.
End append.
