(* ===== verification/Utils.v ===== *)
(** * utils.c and the string helpers of parser.c

    Number formatting and parsing, BCD, tokenising, character conversion and
    file name matching.  A C string is a block of bytes ended by 0 in an
    array [mem]; a pointer is an index into it. *)

From S2P Require Import Prelude.

(** ** Strings in memory *)
Section strings.

(** A C string [s] (without its end) at [p]. *)
Definition cstr (mem : list Z) (p : Z) (s : list Z) : Prop :=
  0 <= p /\ p + zlen s < zlen mem /\ Forall (fun c => c <> 0) s /\
  slice p (zlen s + 1) mem = s ++ [0].

(** [*p] *)
Definition peek (p : Z) : comp (list Z) Z := m ← gets id; of_option (load m p).
(** [*p = x] *)
Definition poke (p x : Z) : comp (list Z) unit :=
  m ← gets id; m' ← of_option (store m p x); modify (fun _ => m').

Definition isdigit (c : Z) : bool := (48 <=? c) && (c <=? 57).

(** [strlen(p)] *)
Definition ustrlen (p : Z) : comp (list Z) Z :=
  m ← gets id;
  loop (S (length m)) (fun n => c ← peek (p + n); if c =? 0 then mret (inr n) else mret (inl (n + 1))) 0.
End strings.

(** ** utils.c *)
Section utils.

(** The digits appended to a message. *)
Definition appendnumber (msg : list Z) (value : Z) : list Z :=
  let '(msg, value) := if 100 <=? value then (msg ++ [48 + value / 100], value `mod` 100) else (msg, value) in
  msg ++ [48 + value / 10; 48 + value `mod` 10].

Definition bcd2int (value : Z) : Z := u8 (Z.land value 15 + 10 * Z.shiftr value 4).
Definition int2bcd (value : Z) : Z := u8 (value `mod` 10 + 16 * (value / 10)).

(** Skip to the first position whose character does not satisfy [f]. *)
Definition skip_while (f : Z -> bool) (p : Z) : comp (list Z) Z :=
  m ← gets id;
  loop (S (length m)) (fun p => c ← peek p; if f c then mret (inl (p + 1)) else mret (inr p)) p.

(** The result is the token ([None] for NULL) and the new [*saveptr]. *)
Definition ustr1tok (str : option Z) (delim : Z) (saveptr : Z) : comp (list Z) (option Z * Z) :=
  str ← skip_while (fun c => c =? delim) (default saveptr str);
  c ← peek str;
  if negb (c =? 0) then
    tmp ← skip_while (fun c => negb (c =? 0) && negb (c =? delim)) str;
    c ← peek tmp;
    if negb (c =? 0) then
      poke tmp 0;;
      mret (Some str, tmp + 1)
    else mret (Some str, tmp)
  else mret (None, saveptr).

Definition asc2pet_char (ch : Z) : Z :=
  if (64 <? ch) && (ch <? 91) then u8 (ch + 128)
  else if (96 <? ch) && (ch <? 123) then u8 (ch - 32)
  else if (192 <? ch) && (ch <? 219) then u8 (ch - 128)
  else if ch =? 126 then 255
  else ch.

Definition asc2pet (buf : Z) : comp (list Z) unit :=
  m ← gets id;
  loop (S (length m)) (fun p =>
    c ← peek p;
    if negb (c =? 0) then poke p (asc2pet_char c);; mret (inl (p + 1)) else mret (inr tt)) buf.
End utils.

(** ** The string functions of parser.c *)
Section parser.

Definition check_invalid_name (name : Z) : comp (list Z) Z :=
  m ← gets id;
  loop (S (length m)) (fun p =>
    c ← peek p;
    if negb (c =? 0) then
      if (c =? 61) || (c =? 34) || (c =? 42) || (c =? 63) || (c =? 44) then mret (inr 1)
      else mret (inl (p + 1))
    else mret (inr 0)) name.

Definition tolower_pet (c : Z) : Z :=
  if (97 <=? c) && (c <=? 122) then u8 (c - 32)
  else if (193 <=? c) && (c <=? 218) then u8 (c - 128)
  else c.

(** The result is the 0-based partition and the advanced pointer;
    [eefs_partition] is 255 when no EEPROM file system is present. *)
Definition parse_partition (eefs_partition current_part buf : Z) : comp (list Z) (Z * Z) :=
  m ← gets id;
  c0 ← peek buf;
  c1 ← (if negb (eefs_partition =? 255) && (c0 =? 33) then peek (buf + 1) else mret 0);
  if negb (eefs_partition =? 255) && (c0 =? 33) && (c1 =? 58) then mret (eefs_partition, buf + 2)
  else
    r ← loop (S (length m)) (fun '(part, buf) =>
      c ← peek buf;
      if isdigit c || (c =? 32) || (c =? 64) then
        mret (inl (if isdigit c then u8 (part * 10 + (c - 48)) else part, buf + 1))
      else mret (inr (part, buf))) (0, buf);
    mret (if r.1 =? 0 then current_part else r.1 - 1, r.2).

(** Parse a decimal number; the result carries the advanced pointer. *)
Definition parse_number (str : Z) : comp (list Z) (Z * Z) :=
  m ← gets id;
  str ← skip_while (fun c => c =? 32) str;
  loop (S (length m)) (fun '(res, str) =>
    c ← peek str;
    if isdigit c then mret (inl (u16 (u16 (res * 10) + (c - 48)), str + 1))
    else mret (inr (res, str))) (0, str).

(** dirent.h: the date of a directory entry. *)
Record date_t := Date { year : Z; month : Z; day : Z; hour : Z; minute : Z; second : Z }.

(** [*p++] *)
Definition next (p : Z) : comp (list Z) (Z * Z) := c ← peek p; mret (c, p + 1).

(** The AM/PM suffix at the end of [parse_date]. *)
Definition parse_ampm (date : date_t) (str : Z) : comp (list Z) (Z * date_t * Z) :=
  r ← next str;
  let '(c, str) := r in
  if (c =? 65) || (c =? 80) then
    let date := if c =? 80 then Date (year date) (month date) (day date) (u8 (hour date + 12)) (minute date) (second date)
                else date in
    if 23 <? hour date then mret (1, date, str)
    else
      r ← next str;
      mret (if negb (r.1 =? 77) then 1 else 0, date, r.2)
  else mret (1, date, str).

(** The time part, after the space behind the date. *)
Definition parse_time (date : date_t) (str : Z) : comp (list Z) (Z * date_t * Z) :=
  r ← parse_number str;
  let date := Date (year date) (month date) (day date) (u8 r.1) (minute date) (second date) in
  r ← next r.2;
  let '(ch, str) := r in
  if (23 <? hour date) || (negb (ch =? 58) && negb (ch =? 46)) then mret (1, date, str)
  else
    r ← parse_number str;
    let date := Date (year date) (month date) (day date) (hour date) (u8 r.1) (second date) in
    r ← next r.2;
    let '(ch, str) := r in
    if 59 <? minute date then mret (1, date, str)
    else if (ch =? 58) || (ch =? 46) then
      r ← parse_number str;
      let date := Date (year date) (month date) (day date) (hour date) (minute date) (u8 r.1) in
      if 59 <? second date then mret (1, date, r.2)
      else
        r ← next r.2;
        if negb (r.1 =? 32) then mret (1, date, r.2) else parse_ampm date r.2
    else
      let date0 := Date (year date) (month date) (day date) (hour date) (minute date) 0 in
      if ch =? 32 then parse_ampm date0 str
      else if (ch =? 44) || (ch =? 0) then mret (0, date0, str - 1)
      else mret (1, date, str).

(** The result is the return value, the date as far as it was stored, and the
    advanced pointer. *)
Definition parse_date (date : date_t) (str : Z) : comp (list Z) (Z * date_t * Z) :=
  r ← parse_number str;
  let date := Date (year date) (u8 r.1) (day date) (hour date) (minute date) (second date) in
  if 12 <? month date then mret (1, date, r.2)
  else
    r ← next r.2;
    if negb (r.1 =? 47) then mret (1, date, r.2)
    else
      r ← parse_number r.2;
      let date := Date (year date) (month date) (u8 r.1) (hour date) (minute date) (second date) in
      if 31 <? day date then mret (1, date, r.2)
      else
        r ← next r.2;
        if negb (r.1 =? 47) then mret (1, date, r.2)
        else
          r ← parse_number r.2;
          let y := u8 r.1 in
          let date := Date (if y <? 80 then u8 (y + 100) else y) (month date) (day date) (hour date) (minute date) (second date) in
          ch ← peek r.2;
          if (ch =? 0) || (ch =? 44) then
            mret (0, Date (year date) (month date) (day date) 0 0 0, r.2)
          else
            r ← next r.2;
            if negb (r.1 =? 32) then mret (1, date, r.2) else parse_time date r.2.

(** A character of the entry's name, which is an array of its own. *)
Definition name_at (name : list Z) (i : Z) : comp (list Z) Z := of_option (load name i).

Definition fold_case (ignorecase : bool) (c : Z) : Z := if ignorecase then tolower_pet c else c.

(** The comparison from the end that the POSTMATCH flag asks for: [matchstr]
    runs back to the star at [starpos]. *)
Definition match_tail (ignorecase : bool) (name : list Z) (starpos : Z) (matchstr filename : Z) : comp (list Z) Z :=
  m ← gets id;
  loop (S (length m)) (fun '(matchstr, filename) =>
    if negb (matchstr =? starpos) then
      m ← peek matchstr;
      f ← name_at name filename;
      let m := fold_case ignorecase m in
      let f := fold_case ignorecase f in
      if negb (m =? f) && negb (m =? 63) then mret (inr 0)
      else mret (inl (matchstr - 1, filename - 1))
    else mret (inr 1)) (matchstr, filename).

(** [strlen] of a string inside the name. *)
Definition name_len (name : list Z) (i : Z) : comp (list Z) Z :=
  loop (S (length name)) (fun n => c ← name_at name (i + n); if c =? 0 then mret (inr n) else mret (inl (n + 1))) 0.

(** One pass of the loop of [match_name]; [inr (inr r)] returns [r], and
    [inr (inl _)] leaves the loop. *)
Definition match_step (postmatch : bool) (name : list Z) (ignorecase : bool) (st : Z * Z * Z)
    : comp (list Z) (Z * Z * Z + (Z * Z + Z)) :=
  let '(matchstr, filename, chars_remain) := st in
  fc ← (if chars_remain =? 0 then mret 0 else name_at name filename);
  if negb (chars_remain =? 0) && negb (fc =? 0) then
    mc ← peek matchstr;
    let m := fold_case ignorecase mc in
    let f := fold_case ignorecase fc in
    if m =? 63 then mret (inl (matchstr + 1, filename + 1, chars_remain - 1))
    else if m =? 42 then
      if postmatch then
        ml ← ustrlen matchstr;
        fl ← name_len name filename;
        r ← match_tail ignorecase name matchstr (matchstr + ml - 1) (filename + fl - 1);
        mret (inr (inr r))
      else mret (inr (inr 1))
    else if negb (m =? f) then mret (inr (inr 0))
    else mret (inl (matchstr + 1, filename + 1, chars_remain - 1))
  else mret (inr (inl (matchstr, chars_remain))).

(** The check behind the loop: the rest of the pattern must be empty or
    start with a star. *)
Definition match_end (r : Z * Z + Z) : comp (list Z) Z :=
  match r with
  | inr res => mret res
  | inl (matchstr, chars_remain) =>
      c ← peek matchstr;
      mret (if negb (c =? 0) && negb (c =? 42) && negb (chars_remain =? 0) then 0 else 1)
  end.

Definition match_name (postmatch : bool) (matchstr : Z) (name : list Z) (ignorecase : bool) : comp (list Z) Z :=
  r ← loop 17 (match_step postmatch name ignorecase) (matchstr, 0, 16);
  match_end r.
End parser.
