(* ===== verification/UtilsTheorems.v ===== *)
(** * utils.c and parser.c: theorems on the string helpers

    Positions in memory are decompositions [mem = pre ++ s]; the loops are
    run by induction on [s]. *)

From S2P Require Import Prelude Utils.

(** ** Reading at a position *)
Section reading.

Lemma load_at pre c post : load (pre ++ c :: post) (zlen pre) = Some c.
Proof.
  pose proof (zlen_nonneg pre). pose proof (zlen_nonneg post).
  rewrite load_some by (rewrite zlen_app, zlen_cons; lia).
  f_equal. unfold nthZ, zlen. rewrite Nat2Z.id. rewrite app_nth2, Nat.sub_diag by lia. done.
Qed.

Lemma peek_at pre c post : peek (zlen pre) (pre ++ c :: post) = Done c (pre ++ c :: post).
Proof. unfold peek, mbind, comp_bind, gets, id. by rewrite load_at. Qed.

Lemma zlen_snoc {A} (l : list A) x : zlen (l ++ [x]) = zlen l + 1.
Proof. rewrite zlen_app. reflexivity. Qed.

Lemma snoc_cons {A} (l : list A) x k : (l ++ [x]) ++ k = l ++ x :: k.
Proof. by rewrite <- app_assoc. Qed.

Lemma zlen_map {A B} (f : A -> B) l : zlen (f <$> l) = zlen l.
Proof. unfold zlen. by rewrite length_fmap. Qed.

(** A loop that walks over [s] reading one character at a time. *)
Lemma loop_walk {R} (f : Z -> bool) (body : Z -> comp (list Z) (Z + R)) s pre c post fuel mem r :
  mem = pre ++ s ++ c :: post -> Forall (fun x => f x = true) s ->
  (forall q x k, mem = q ++ x :: k -> f x = true -> body (zlen q) mem = Done (inl (zlen q + 1)) mem) ->
  body (zlen pre + zlen s) mem = Done (inr r) mem ->
  (length s < fuel)%nat -> loop fuel body (zlen pre) mem = Done r mem.
Proof.
  intros -> Hs Hstep Hend. revert pre fuel Hstep Hend.
  induction Hs as [|x s Hx Hs IH]; intros pre fuel Hstep Hend Hfuel; destruct fuel as [|fuel]; simpl in *; try lia.
  - unfold mbind, comp_bind. rewrite Z.add_0_r in Hend. by rewrite Hend.
  - unfold mbind, comp_bind. rewrite (Hstep pre x (s ++ c :: post)) by done.
    rewrite <- (snoc_cons pre x (s ++ c :: post)) in *. rewrite <- (zlen_snoc pre x). apply IH.
    + intros q y k Heq. by apply (Hstep q y k).
    + rewrite zlen_cons, Z.add_assoc in Hend. by rewrite zlen_snoc.
    + lia.
Qed.

Lemma skip_while_eq f pre s c post :
  Forall (fun x => f x = true) s -> f c = false ->
  skip_while f (zlen pre) (pre ++ s ++ c :: post) = Done (zlen pre + zlen s) (pre ++ s ++ c :: post).
Proof.
  intros Hs Hc. unfold skip_while, mbind, comp_bind, gets, id.
  apply (loop_walk f _ s pre c post); [done|done|..].
  - intros q x k Heq Hx. rewrite Heq, peek_at. by rewrite Hx.
  - rewrite <- zlen_app, app_assoc, peek_at. by rewrite Hc.
  - rewrite !length_app. simpl. lia.
Qed.
End reading.

(** ** Numbers *)
Section numbers.

(** Value of a string of digits. *)
Definition dec (ds : list Z) : Z := fold_left (fun a d => a * 10 + (d - 48)) ds 0.
Definition digits (ds : list Z) : Prop := Forall (fun c => isdigit c = true) ds.

Lemma dec_mod ds a : (fold_left (fun a d => u16 (u16 (a * 10) + (d - 48))) ds (u16 a))
  = u16 (fold_left (fun a d => a * 10 + (d - 48)) ds a).
Proof.
  revert a. induction ds as [|d ds IH]; intros a; simpl; [done|]. rewrite <- IH. f_equal.
  unfold u16. rewrite Z.mul_mod_idemp_l, Z.add_mod_idemp_l by lia. done.
Qed.

(** The digit loop of [parse_number], with any amount of fuel above the
    number of digits. *)
Lemma digits_loop ds pre c post fuel res :
  digits ds -> isdigit c = false -> (length ds < fuel)%nat ->
  loop fuel (fun '(res, str) =>
    x ← peek str;
    if isdigit x then mret (inl (u16 (u16 (res * 10) + (x - 48)), str + 1))
    else mret (inr (res, str))) (res, zlen pre) (pre ++ ds ++ c :: post)
  = Done (fold_left (fun a d => u16 (u16 (a * 10) + (d - 48))) ds res, zlen pre + zlen ds) (pre ++ ds ++ c :: post).
Proof.
  intros Hds Hc. revert pre fuel res. induction Hds as [|d ds Hd Hds IH]; intros pre fuel res Hfuel;
    destruct fuel as [|fuel]; simpl in *; try lia; unfold mbind, comp_bind; rewrite peek_at.
  - rewrite Hc. by rewrite Z.add_0_r.
  - rewrite Hd. unfold mret at 1, comp_ret at 1. rewrite <- (snoc_cons pre d (ds ++ c :: post)), <- (zlen_snoc pre d).
    unfold mbind, comp_bind in IH. rewrite IH by lia. rewrite zlen_snoc, zlen_cons. do 2 f_equal. lia.
Qed.

Lemma parse_number_eq pre sp ds c post :
  Forall (fun x => x = 32) sp -> digits ds -> isdigit c = false -> (ds = [] -> c <> 32) ->
  let mem := pre ++ sp ++ ds ++ c :: post in
  parse_number (zlen pre) mem = Done (u16 (dec ds), zlen pre + zlen sp + zlen ds) mem.
Proof.
  intros Hsp Hds Hc Hne mem. unfold mem, parse_number. unfold mbind at 1 2, comp_bind at 1 2, gets, id.
  assert (exists x k, ds ++ c :: post = x :: k /\ (x =? 32) = false) as (x & k & Hx & Hx32).
  { destruct ds as [|d ds]; [exists c, post; split; [done|]; specialize (Hne eq_refl); lia|].
    exists d, (ds ++ c :: post). split; [done|]. apply Forall_cons in Hds as [Hd _]. unfold isdigit in Hd. lia. }
  rewrite Hx, skip_while_eq; [|eapply Forall_impl; [exact Hsp|]; intros y Hy; simpl in Hy; lia|done].
  rewrite <- Hx, <- zlen_app, app_assoc, digits_loop; [|done|done|rewrite !length_app; simpl; lia].
  do 2 f_equal. exact (dec_mod ds 0).
Qed.

Lemma appendnumber_app msg v : appendnumber msg v = msg ++ appendnumber [] v.
Proof. unfold appendnumber. destruct (100 <=? v); simpl; by rewrite <- ?app_assoc. Qed.

Definition byte_range : list Z := seqZ 0 256.
Lemma byte_range_in v : 0 <= v < 256 -> In v byte_range.
Proof. intros. apply list_elem_of_In, elem_of_seqZ. lia. Qed.

(** A property of all bytes, by computation. *)
Lemma byte_check (f : Z -> bool) v : forallb f byte_range = true -> 0 <= v < 256 -> f v = true.
Proof. intros Hf Hv. rewrite forallb_forall in Hf. by apply Hf, byte_range_in. Qed.

Lemma appendnumber_digits v : 0 <= v < 256 ->
  digits (appendnumber [] v) /\ dec (appendnumber [] v) = v /\ 2 <= zlen (appendnumber [] v) <= 3 /\
  bytes (appendnumber [] v).
Proof.
  intros Hv.
  assert ((forallb isdigit (appendnumber [] v) && (dec (appendnumber [] v) =? v)
    && ((2 <=? zlen (appendnumber [] v)) && (zlen (appendnumber [] v) <=? 3))) = true) as Hc.
  { by apply (byte_check (fun v => forallb isdigit (appendnumber [] v) && (dec (appendnumber [] v) =? v)
      && ((2 <=? zlen (appendnumber [] v)) && (zlen (appendnumber [] v) <=? 3)))); [vm_compute|]. }
  apply andb_true_iff in Hc as [[Hd He]%andb_true_iff Hl]. rewrite forallb_forall in Hd.
  assert (digits (appendnumber [] v)) as Hdd.
  { apply Forall_forall. intros x Hx. by apply Hd, list_elem_of_In. }
  split; [done|]. split; [lia|]. split; [lia|]. eapply Forall_impl; [exact Hdd|].
  intros x Hx. unfold isdigit, is_byte in *. simpl in Hx. lia.
Qed.
End numbers.

(** ** Strings in place *)
Section inplace.

Lemma store_at pre c x post : store (pre ++ c :: post) (zlen pre) x = Some (pre ++ x :: post).
Proof.
  pose proof (zlen_nonneg pre). pose proof (zlen_nonneg post). unfold store.
  rewrite store_block_some by (rewrite ?zlen_app, ?zlen_cons, ?zlen_nil; unfold zlen in *; simpl; lia).
  f_equal. unfold splice, zlen. rewrite Nat2Z.id, take_app_length. simpl.
  by rewrite drop_app, drop_ge, Nat.add_comm, Nat.add_sub by lia.
Qed.

Lemma poke_at pre c x post : poke (zlen pre) x (pre ++ c :: post) = Done tt (pre ++ x :: post).
Proof. unfold poke, mbind, comp_bind, gets, id. by rewrite store_at. Qed.

(** A loop that rewrites a string one character at a time. *)
Lemma loop_map {R} (f : Z -> Z) (body : Z -> comp (list Z) (Z + R)) s r : forall pre post fuel,
  Forall (fun c => c <> 0) s ->
  (forall q x k, x <> 0 -> body (zlen q) (q ++ x :: k) = Done (inl (zlen q + 1)) (q ++ f x :: k)) ->
  body (zlen pre + zlen s) ((pre ++ (f <$> s)) ++ 0 :: post) = Done (inr r) ((pre ++ (f <$> s)) ++ 0 :: post) ->
  (length s < fuel)%nat ->
  loop fuel body (zlen pre) (pre ++ s ++ 0 :: post) = Done r (pre ++ (f <$> s) ++ 0 :: post).
Proof.
  induction s as [|c s IH]; intros pre post fuel Hs Hstep Hend Hfuel; destruct fuel as [|fuel]; simpl in *; try lia;
    unfold mbind, comp_bind.
  - rewrite Z.add_0_r, app_nil_r in Hend. by rewrite Hend.
  - apply Forall_cons in Hs as [Hc Hs]. rewrite (Hstep pre c) by done.
    specialize (IH (pre ++ [f c]) post fuel Hs Hstep). rewrite !zlen_snoc, !snoc_cons, <- Z.add_assoc, <- (zlen_cons c s) in IH.
    apply IH; [exact Hend|lia].
Qed.

Lemma asc2pet_eq pre s post :
  Forall (fun c => c <> 0) s ->
  asc2pet (zlen pre) (pre ++ s ++ 0 :: post) = Done tt (pre ++ (asc2pet_char <$> s) ++ 0 :: post).
Proof.
  intros Hs. unfold asc2pet. unfold mbind at 1, comp_bind at 1, gets, id.
  apply (loop_map asc2pet_char); [done|..].
  - intros q x k Hx. unfold mbind, comp_bind. rewrite peek_at.
    destruct (Z.eqb_spec x 0); [done|]. cbv beta iota delta [negb]. by rewrite poke_at.
  - unfold mbind, comp_bind. by rewrite <- (zlen_map asc2pet_char s), <- zlen_app, peek_at.
  - rewrite !length_app. simpl. lia.
Qed.

Lemma ustr1tok_eq pre sp tok c post delim sv :
  delim <> 0 -> Forall (fun x => x = delim) sp -> tok <> [] -> Forall (fun x => x <> 0 /\ x <> delim) tok ->
  c = 0 \/ c = delim ->
  ustr1tok (Some (zlen pre)) delim sv (pre ++ sp ++ tok ++ c :: post) =
    Done (Some (zlen pre + zlen sp), zlen pre + zlen sp + zlen tok + if c =? 0 then 0 else 1)
         (pre ++ sp ++ tok ++ 0 :: post).
Proof.
  intros Hd Hsp Hne Htok Hc. unfold ustr1tok. unfold mbind at 1, comp_bind at 1. simpl default.
  destruct tok as [|t tok]; [done|]. pose proof Htok as [[Ht0 Htd] _]%Forall_cons. simpl app.
  rewrite skip_while_eq; [|eapply Forall_impl; [exact Hsp|]; intros y Hy; cbv beta in *; lia|cbv beta; lia].
  unfold mbind at 1, comp_bind at 1. rewrite <- zlen_app, (app_assoc pre), peek_at.
  destruct (Z.eqb_spec t 0); [done|]. cbv beta iota delta [negb]. unfold mbind at 1, comp_bind at 1.
  change (t :: tok ++ c :: post) with ((t :: tok) ++ c :: post).
  rewrite skip_while_eq; [|eapply Forall_impl; [exact Htok|]; intros y [? ?]; destruct (Z.eqb_spec y 0), (Z.eqb_spec y delim); done|destruct Hc as [->| ->]; by rewrite Z.eqb_refl, ?andb_false_r].
  unfold mbind at 1, comp_bind at 1. rewrite <- (zlen_app (pre ++ sp)), (app_assoc (pre ++ sp)), peek_at.
  destruct (Z.eqb_spec c 0) as [->|]; cbv beta iota delta [negb].
  - by rewrite Z.add_0_r, <- !app_assoc.
  - unfold mbind, comp_bind. rewrite poke_at. by rewrite <- !app_assoc.
Qed.

Lemma ustr1tok_none pre sp post delim sv :
  delim <> 0 -> Forall (fun x => x = delim) sp ->
  ustr1tok (Some (zlen pre)) delim sv (pre ++ sp ++ 0 :: post) = Done (None, sv) (pre ++ sp ++ 0 :: post).
Proof.
  intros Hd Hsp. unfold ustr1tok. unfold mbind at 1, comp_bind at 1. simpl default.
  rewrite skip_while_eq; [|eapply Forall_impl; [exact Hsp|]; intros y Hy; cbv beta in *; lia|cbv beta; lia].
  unfold mbind at 1, comp_bind at 1. by rewrite <- zlen_app, (app_assoc pre), peek_at.
Qed.
End inplace.

(** ** Matching *)
Section matching.

(** The end of a name matches the part of a pattern behind its star. *)
Definition ends_with (fold : Z -> Z) (tail fn : list Z) : Prop :=
  exists a b, fn = a ++ b /\ Forall2 (fun m c => m = 63 \/ fold m = fold c) tail b.

(** What a pattern matches.  [k] counts the characters that are compared, 16
    at the start of a name; the pattern and the name are what is left of
    them, [fn] is the whole name.  A star matches the rest of the name; with
    [pm] the part behind the star must also be found at the end of the name,
    unless the name is used up before the star. *)
Inductive gmatch (fold : Z -> Z) (pm : bool) (fn : list Z) : nat -> list Z -> list Z -> Prop :=
| g_full p : gmatch fold pm fn 0 p []
| g_end k : gmatch fold pm fn k [] []
| g_star_end k p : gmatch fold pm fn (S k) (42 :: p) []
| g_star k p c n : (pm = true -> ends_with fold p fn) -> gmatch fold pm fn (S k) (42 :: p) (c :: n)
| g_any k p c n : gmatch fold pm fn k p n -> gmatch fold pm fn (S k) (63 :: p) (c :: n)
| g_char k m p c n : m <> 42 -> m <> 63 -> fold m = fold c -> gmatch fold pm fn k p n -> gmatch fold pm fn (S k) (m :: p) (c :: n).

(** The pattern [pat] matches the name [fn]. *)
Definition glob (fold : Z -> Z) (pm : bool) (pat fn : list Z) : Prop := gmatch fold pm fn 16 pat fn.

(** The part of the pattern behind its first star is not longer than the name. *)
Definition tail_fits (pat fn : list Z) : Prop := forall p1 p2, pat = p1 ++ 42 :: p2 -> 42 ∉ p1 -> zlen p2 <= zlen fn.

Lemma tail_fits_first p1 p2 fn : 42 ∉ p1 -> zlen p2 <= zlen fn -> tail_fits (p1 ++ 42 :: p2) fn.
Proof.
  intros H1 Hlen q1 q2 Heq Hq. enough (p2 = q2) by congruence. revert q1 Heq Hq.
  induction p1 as [|c p1 IH]; intros [|d q1] Heq Hq; simpl in Heq; simplify_eq; try done.
  - by apply not_elem_of_cons in Hq as [].
  - by apply not_elem_of_cons in H1 as [].
  - apply not_elem_of_cons in H1 as [_ H1]. apply not_elem_of_cons in Hq as [_ Hq]. by apply (IH H1 q1).
Qed.

Definition name_ok (name fn : list Z) : Prop :=
  exists rest, name = fn ++ 0 :: rest /\ zlen fn <= 16 /\ Forall (fun c => 0 < c < 256) fn.

Lemma fold_case_special ic m : 0 <= m < 256 ->
  (fold_case ic m = 63 <-> m = 63) /\ (fold_case ic m = 42 <-> m = 42) /\ (fold_case ic m = 0 <-> m = 0).
Proof.
  intros Hm. unfold fold_case, tolower_pet. destruct ic; [|tauto].
  destruct ((97 <=? m) && (m <=? 122)) eqn:H1; [rewrite u8_id by lia; lia|].
  destruct ((193 <=? m) && (m <=? 218)) eqn:H2; [rewrite u8_id by lia; lia|]. lia.
Qed.

Lemma ends_with_snoc fold p m n c :
  ends_with fold (p ++ [m]) (n ++ [c]) <-> (m = 63 \/ fold m = fold c) /\ ends_with fold p n.
Proof.
  split.
  - intros (a & b & Heq & Hf). destruct b as [|d b _] using rev_ind; [by apply Forall2_nil_inv_r, app_nil in Hf as []|].
    apply Forall2_app_inv_l in Hf as (b1 & b2 & Hb1 & Hb2 & Hb). apply Forall2_cons_inv_l in Hb2 as (d' & b3 & Hd & ->%Forall2_nil_inv_l & ->).
    apply app_inj_tail in Hb as [-> ->]. rewrite app_assoc in Heq. apply app_inj_tail in Heq as [-> ->]. split; [done|by exists a, b1].
  - intros [Hm (a & b & -> & Hf)]. exists a, (b ++ [c]). split; [by rewrite app_assoc|]. apply Forall2_app; [done|by constructor].
Qed.

Lemma ends_with_nil fold n : ends_with fold [] n.
Proof. exists n, []. by rewrite app_nil_r. Qed.

(** The comparison from the end decides [ends_with]. *)
Lemma match_tail_loop ic pre name p : forall n ns q fuel,
  let mem := pre ++ 42 :: p ++ q in
  name = n ++ ns -> zlen p <= zlen n -> Forall (fun c => 0 < c < 256) p -> (length p < fuel)%nat ->
  exists v, loop fuel (fun '(matchstr, filename) =>
    if negb (matchstr =? zlen pre) then
      m ← peek matchstr;
      f ← name_at name filename;
      let m := fold_case ic m in
      let f := fold_case ic f in
      if negb (m =? f) && negb (m =? 63) then mret (inr 0)
      else mret (inl (matchstr - 1, filename - 1))
    else mret (inr 1)) (zlen pre + zlen p, zlen n - 1) mem = Done v mem /\
    (v = 1 /\ ends_with (fold_case ic) p n \/ v = 0 /\ ~ ends_with (fold_case ic) p n).
Proof.
  induction p as [|m p IH] using rev_ind; intros n ns q fuel mem Hname Hlen Hp Hfuel; (destruct fuel as [|fuel]; [simpl in *; lia|]).
  - exists 1. simpl loop. change (zlen (@nil Z)) with 0. rewrite Z.add_0_r, Z.eqb_refl. split; [done|]. left. split; [done|apply ends_with_nil].
  - apply Forall_app in Hp as [Hp [Hm _]%Forall_cons]. rewrite zlen_snoc in *. pose proof (zlen_nonneg p). rewrite length_app in Hfuel. simpl in Hfuel.
    destruct n as [|c n _] using rev_ind; [change (zlen (@nil Z)) with 0 in Hlen; lia|]. rewrite zlen_snoc in *.
    simpl loop. destruct (Z.eqb_spec (zlen pre + (zlen p + 1)) (zlen pre)); [lia|]. simpl negb. cbv iota.
    assert (mem = (pre ++ 42 :: p) ++ m :: q) as Hmem by (unfold mem; by rewrite <- !app_assoc, <- app_comm_cons).
    assert (zlen pre + (zlen p + 1) = zlen (pre ++ 42 :: p)) as Hpos by (rewrite zlen_app, zlen_cons; lia).
    unfold mbind, comp_bind. rewrite Hmem, Hpos, peek_at. unfold name_at at 1. rewrite Hname, snoc_cons.
    replace (zlen n + 1 - 1) with (zlen n) by lia. rewrite load_at. simpl of_option. unfold mret at 1, comp_ret at 1. cbv beta iota zeta.
    destruct (fold_case_special ic m) as (H63 & _ & _); [lia|].
    destruct (negb (fold_case ic m =? fold_case ic c) && negb (fold_case ic m =? 63)) eqn:Hb.
    + exists 0. split; [done|]. right. split; [done|]. rewrite ends_with_snoc. intros [[->|Heq] _]; lia.
    + replace (zlen (pre ++ 42 :: p) - 1) with (zlen pre + zlen p) by lia.
      destruct (IH n (c :: ns) (m :: q) fuel) as (v & Hv & Hcase); [by rewrite Hname, snoc_cons|lia|done|lia|].
      exists v. rewrite <- app_assoc, <- app_comm_cons. rewrite Hname, snoc_cons in Hv. split; [exact Hv|].
      rewrite !ends_with_snoc. assert (m = 63 \/ fold_case ic m = fold_case ic c) by lia. tauto.
Qed.

Lemma ustrlen_eq pre s post : Forall (fun c => 0 < c < 256) s ->
  ustrlen (zlen pre) (pre ++ s ++ 0 :: post) = Done (zlen s) (pre ++ s ++ 0 :: post).
Proof.
  intros Hs. unfold ustrlen, mbind at 1, comp_bind at 1, gets, id.
  assert (forall done todo fuel, s = done ++ todo -> (length todo < fuel)%nat ->
    loop fuel (fun n => c ← peek (zlen pre + n); if c =? 0 then mret (inr n) else mret (inl (n + 1))) (zlen done) (pre ++ s ++ 0 :: post)
    = Done (zlen s) (pre ++ s ++ 0 :: post)) as Hloop.
  { intros d todo. revert d. induction todo as [|c todo IH]; intros d fuel Heq Hf; (destruct fuel as [|fuel]; [simpl in *; lia|]);
      (eassert (pre ++ s ++ 0 :: post = (pre ++ d) ++ _) as Hm by (rewrite Heq, <- !app_assoc; reflexivity));
      simpl loop; unfold mbind, comp_bind; rewrite <- zlen_app, Hm; simpl app; rewrite peek_at.
    - by rewrite Heq, app_nil_r.
    - rewrite Heq in Hs. apply Forall_app in Hs as [_ [Hc _]%Forall_cons]. destruct (Z.eqb_spec c 0); [lia|]. unfold mret, comp_ret. cbv beta iota.
      simpl app in Hm. rewrite <- Hm, <- (zlen_snoc d c). apply IH; [by rewrite <- app_assoc|simpl in Hf; lia]. }
  apply (Hloop [] s); [done|]. rewrite !length_app. lia.
Qed.

Lemma name_len_eq pre s post mem : Forall (fun c => 0 < c < 256) s ->
  name_len (pre ++ s ++ 0 :: post) (zlen pre) mem = Done (zlen s) mem.
Proof.
  intros Hs. unfold name_len.
  assert (forall done todo fuel, s = done ++ todo -> (length todo < fuel)%nat ->
    loop fuel (fun n => c ← name_at (pre ++ s ++ 0 :: post) (zlen pre + n); if c =? 0 then mret (inr n) else mret (inl (n + 1))) (zlen done) mem
    = Done (zlen s) mem) as Hloop.
  { intros d todo. revert d. induction todo as [|c todo IH]; intros d fuel Heq Hf; (destruct fuel as [|fuel]; [simpl in *; lia|]);
      (eassert (pre ++ s ++ 0 :: post = (pre ++ d) ++ _) as Hm by (rewrite Heq, <- !app_assoc; reflexivity));
      simpl loop; unfold mbind, comp_bind, name_at at 1; rewrite <- zlen_app, Hm; simpl app; rewrite load_at.
    - simpl of_option. unfold mret, comp_ret. by rewrite Heq, app_nil_r.
    - rewrite Heq in Hs. apply Forall_app in Hs as [_ [Hc _]%Forall_cons]. simpl of_option. unfold mret, comp_ret. cbv beta iota. destruct (Z.eqb_spec c 0); [lia|]. cbv beta iota.
      rewrite <- Hm, <- (zlen_snoc d c). apply IH; [by rewrite <- app_assoc|simpl in Hf; lia]. }
  apply (Hloop [] s); [done|]. rewrite !length_app. lia.
Qed.

(** One way to run [match_name] on what is left of pattern and name. *)
Lemma match_loop ic pm todo : forall dn pat pre rest post fuel,
  let mem := pre ++ pat ++ 0 :: post in
  let fn := dn ++ todo in
  Forall (fun c => 0 < c < 256) pat -> Forall (fun c => 0 < c < 256) todo ->
  zlen dn + zlen todo <= 16 -> (length todo < fuel)%nat -> (pm = true -> tail_fits pat fn) ->
  exists v, (r ← loop fuel (match_step pm (dn ++ todo ++ 0 :: rest) ic) (zlen pre, zlen dn, 16 - zlen dn);
             match_end r) mem = Done v mem /\
    (v = 1 /\ gmatch (fold_case ic) pm fn (Z.to_nat (16 - zlen dn)) pat todo \/
     v = 0 /\ ~ gmatch (fold_case ic) pm fn (Z.to_nat (16 - zlen dn)) pat todo).
Proof.
  induction todo as [|f todo IH]; intros dn pat pre rest post fuel mem fn Hp Ht Hlen Hfuel Htail;
    (destruct fuel as [|fuel]; [simpl in *; lia|]); pose proof (zlen_nonneg dn).
  - assert (exists v, (if 16 - zlen dn =? 0 then mret 0 else name_at (dn ++ 0 :: rest) (zlen dn)) mem
      = Done v mem /\ v = 0) as (v & Hv & ->).
    { destruct (16 - zlen dn =? 0); [by exists 0|]. exists 0. split; [|done].
      unfold name_at. simpl app. by rewrite load_at. }
    simpl loop. unfold match_step at 1. unfold mbind, comp_bind. rewrite Hv. rewrite andb_false_r.
    unfold mret at 1, comp_ret at 1. unfold match_end, mbind, comp_bind. unfold mret at 1, comp_ret at 1. cbv beta iota.
    destruct pat as [|c pat]; unfold mem; simpl app; rewrite peek_at.
    + exists 1. split; [done|]. left. split; [done|]. constructor.
    + apply Forall_cons in Hp as [Hc _]. destruct (Z.eqb_spec c 0); [lia|]. simpl negb.
      destruct (Z.eqb_spec (16 - zlen dn) 0) as [H16|H16]; [rewrite H16|].
      { exists 1. rewrite andb_false_r. split; [done|]. left. split; [done|]. constructor. }
      destruct (Z.to_nat (16 - zlen dn)) as [|k] eqn:Hk; [change (zlen (@nil Z)) with 0 in Hlen; lia|].
      destruct (Z.eqb_spec c 42) as [->|Hne]; simpl.
      * exists 1. split; [done|]. left. split; [done|]. constructor.
      * exists 0. split; [done|]. right. split; [done|]. intros Hg. inversion Hg; congruence.
  - assert (Forall (fun c => 0 < c < 256) (f :: todo)) as Hall by done.
    apply Forall_cons in Ht as [Hf Ht]. rewrite zlen_cons in Hlen. pose proof (zlen_nonneg todo).
    simpl loop. unfold match_step at 1. destruct (Z.eqb_spec (16 - zlen dn) 0); [lia|].
    unfold mbind, comp_bind. unfold name_at at 1. simpl app. rewrite load_at. simpl of_option.
    unfold mret at 1, comp_ret at 1. destruct (Z.eqb_spec f 0); [lia|]. cbv beta iota delta [negb andb].
    destruct (Z.to_nat (16 - zlen dn)) as [|k] eqn:Hk; [lia|].
    destruct pat as [|m pat]; unfold mem; simpl app; rewrite peek_at.
    + destruct (fold_case_special ic 0) as (H63 & H42 & Hz0); [lia|]. destruct (fold_case_special ic f) as (_ & _ & Hf0); [lia|].
      destruct (Z.eqb_spec (fold_case ic 0) 63); [lia|]. destruct (Z.eqb_spec (fold_case ic 0) 42); [lia|].
      destruct (Z.eqb_spec (fold_case ic 0) (fold_case ic f)) as [He|]; [rewrite (proj2 Hz0 eq_refl) in He; lia|].
      exists 0. split; [done|]. right. split; [done|]. intros Hg. inversion Hg.
    + apply Forall_cons in Hp as [Hm Hp]. destruct (fold_case_special ic m) as (H63 & H42 & Hz0); [lia|].
      destruct (Z.eqb_spec (fold_case ic m) 42) as [E42|E42].
      { assert (m = 42) as -> by lia. clear IH. replace (fold_case ic 42) with 42. change (42 =? 63) with false. cbv beta iota. destruct pm.
        - rewrite app_comm_cons. change (42 :: pat ++ 0 :: post) with ((42 :: pat) ++ 0 :: post). rewrite ustrlen_eq by (by constructor).
          rewrite (app_comm_cons todo), name_len_eq by done. cbv beta iota.
          assert (zlen pat <= zlen fn) as Hfit by (apply (Htail eq_refl [] pat); [done|apply not_elem_of_nil]).
          unfold match_tail, mbind at 1, comp_bind at 1, gets, id. rewrite zlen_cons, (zlen_cons f).
          replace (zlen pre + (1 + zlen pat) - 1) with (zlen pre + zlen pat) by lia.
          replace (zlen dn + (1 + zlen todo) - 1) with (zlen fn - 1) by (unfold fn; rewrite zlen_app, zlen_cons; lia).
          destruct (match_tail_loop ic pre (fn ++ 0 :: rest) pat fn (0 :: rest) (0 :: post) (S (length (pre ++ (42 :: pat) ++ 0 :: post)))) as (v & Hv & Hcase);
            [done|lia|done|rewrite !length_app; simpl; rewrite ?length_app; lia|].
          unfold fn in Hv at 1. rewrite <- app_assoc in Hv. simpl app in Hv |- *.
          exists v. rewrite Hv. split; [done|]. destruct Hcase as [[-> He]|[-> He]]; [left; split; [done|by constructor]|].
          right. split; [done|]. intros Hg. inversion Hg; subst; tauto.
        - exists 1. split; [done|]. left. split; [done|]. by constructor. }
      assert (m <> 42) as Hm42 by lia.
      specialize (IH (dn ++ [f]) pat (pre ++ [m]) rest post fuel).
      rewrite !zlen_snoc, <- !app_assoc in IH. simpl app in IH.
      destruct IH as (v & Hv & Hcase); [done|done|lia|simpl in Hfuel; lia|..].
      { intros Hpm p1 p2 Hpat H42'. apply (Htail Hpm (m :: p1) p2); [by rewrite Hpat|]. rewrite not_elem_of_cons. split; congruence. }
      fold fn in Hcase. replace (Z.to_nat (16 - (zlen dn + 1))) with k in Hcase by lia.
      replace (16 - zlen dn - 1) with (16 - (zlen dn + 1)) by lia. unfold mbind, comp_bind in Hv.
      destruct (Z.eqb_spec (fold_case ic m) 63) as [E63|E63].
      * exists v. split; [exact Hv|]. assert (m = 63) as -> by lia.
        destruct Hcase as [[-> Hg]|[-> Hg]]; [left; split; [done|by constructor]|].
        right. split; [done|]. intros Hg'. inversion Hg'; subst; done.
      * destruct (Z.eqb_spec (fold_case ic m) (fold_case ic f)) as [Eq|Ne].
        -- exists v. split; [exact Hv|].
           destruct Hcase as [[-> Hg]|[-> Hg]]; [left; split; [done|constructor; lia || done]|].
           right. split; [done|]. intros Hg'. inversion Hg'; subst; lia || tauto.
        -- exists 0. split; [done|]. right. split; [done|]. intros Hg. inversion Hg; subst; lia || tauto.
Qed.

Lemma match_name_glob pm ic pre pat post name fn :
  Forall (fun c => 0 < c < 256) pat -> name_ok name fn -> (pm = true -> tail_fits pat fn) ->
  let mem := pre ++ pat ++ 0 :: post in
  (match_name pm (zlen pre) name ic mem = Done 1 mem /\ glob (fold_case ic) pm pat fn) \/
  (match_name pm (zlen pre) name ic mem = Done 0 mem /\ ~ glob (fold_case ic) pm pat fn).
Proof.
  intros Hp (rest & -> & Hlen & Hf) Htail mem.
  destruct (match_loop ic pm fn [] pat pre rest post 17) as (v & Hv & Hcase); [done|done|..|done|].
  - change (zlen (@nil Z)) with 0. lia.
  - unfold zlen in Hlen. lia.
  - unfold match_name, glob. destruct Hcase as [[-> Hg]|[-> Hg]]; [left|right]; split; done.
Qed.
End matching.

(** ** Dates *)
Section dates.

(** Whatever a computation returns satisfies [P]. *)
Definition returns {S A} (m : comp S A) (P : A -> Prop) : Prop := forall s a s', m s = Done a s' -> P a.

Lemma returns_ret {S A} (a : A) (P : A -> Prop) : P a -> returns (mret a : comp S A) P.
Proof. intros HP s a' s' [= <- <-]. done. Qed.

Lemma returns_bind {S A B} (m : comp S A) (f : A -> comp S B) P :
  (forall a, returns (f a) P) -> returns (m ≫= f) P.
Proof.
  intros Hf s b s' Heq. unfold mbind, comp_bind in Heq. destruct (m s) as [a s1| |]; try done. by eapply Hf.
Qed.

(** Fields of a date that [parse_date] accepts. *)
Definition date_ok (d : date_t) : Prop :=
  0 <= year d < 256 /\ 0 <= month d <= 12 /\ 0 <= day d <= 31 /\ 0 <= hour d <= 23 /\
  0 <= minute d <= 59 /\ 0 <= second d <= 59.
Definition accepted (r : Z * date_t * Z) : Prop := r.1.1 = 0 -> date_ok r.1.2.

Ltac run_returns :=
  repeat first [ progress cbv beta zeta | apply returns_bind; intros
               | match goal with
                 | |- returns (let '(_, _) := ?r in _) _ => destruct r
                 | |- returns (if ?b then _ else _) _ => destruct b eqn:?
                 | |- returns (mret _) _ => apply returns_ret
                 end ].

#[local] Opaque next parse_number.

Lemma parse_ampm_returns date str :
  0 <= year date < 256 -> 0 <= month date <= 12 -> 0 <= day date <= 31 -> 0 <= hour date ->
  0 <= minute date <= 59 -> 0 <= second date <= 59 ->
  returns (parse_ampm date str) accepted.
Proof.
  intros. unfold parse_ampm. run_returns; unfold accepted, date_ok; simpl in *; try done;
    pose proof (u8_range (hour date + 12)); intros _;
    match goal with H : (?a =? 65) || (?a =? 80) = true |- _ => destruct (a =? 80) end; simpl in *; lia.
Qed.

#[local] Opaque parse_ampm.

Lemma parse_time_returns date str :
  0 <= year date < 256 -> 0 <= month date <= 12 -> 0 <= day date <= 31 ->
  returns (parse_time date str) accepted.
Proof.
  intros. unfold parse_time. run_returns; simpl in *;
    repeat match goal with H : context [u8 ?x] |- _ => lazymatch goal with
      | _ : 0 <= u8 x < 256 |- _ => fail | _ => pose proof (u8_range x) end end;
    first [apply parse_ampm_returns; simpl; lia | unfold accepted, date_ok; simpl; lia].
Qed.

#[local] Opaque parse_time.

Lemma parse_date_returns date str : returns (parse_date date str) accepted.
Proof.
  unfold parse_date. run_returns; simpl in *;
    repeat match goal with
    | |- context [u8 ?x] => lazymatch goal with _ : 0 <= u8 x < 256 |- _ => fail | _ => pose proof (u8_range x) end
    | _ : context [u8 ?x] |- _ => lazymatch goal with _ : 0 <= u8 x < 256 |- _ => fail | _ => pose proof (u8_range x) end
    end;
    first [apply parse_time_returns; simpl; repeat case_match; lia
      | unfold accepted, date_ok; simpl; repeat case_match; lia].
Qed.
End dates.

(** ** The theorems about the component *)
Section theorems.

(** [parse_number] reads back what [appendnumber] printed: for every byte
    [v], its digits at any position, behind any number of spaces and before
    any character that is not a digit, parse to [v], and the pointer ends
    behind them. *)
Theorem parse_number_reads_appendnumber v pre sp c post
    (Hv : 0 <= v < 256) (Hsp : Forall (fun x => x = 32) sp) (Hc : isdigit c = false) :
  let ds := appendnumber [] v in
  let mem := pre ++ sp ++ ds ++ c :: post in
  parse_number (zlen pre) mem = Done (v, zlen pre + zlen sp + zlen ds) mem.
Proof.
  destruct (appendnumber_digits v Hv) as (Hds & Hdec & Hlen & _). intros ds mem. unfold mem, ds.
  rewrite parse_number_eq; [|done|done|done|].
  - by rewrite Hdec, u16_id by lia.
  - intros Hnil. rewrite Hnil in Hlen. change (zlen []) with 0 in Hlen. lia.
Qed.

(** C29: [match_name] decides whether the pattern matches the name ([glob]),
    with letters folded when case is ignored and with the POSTMATCH flag on or
    off.  At most 16 characters are compared; a star matches any rest, and
    with the flag what is behind the star must also be found at the end of the
    name (where it may overlap the part in front of the star), except that it
    is not looked at when the name is used up at the star.  With the flag on,
    the part behind the first star must not be longer than the name
    ([tail_fits]), else the comparison reads in front of the name
    ([match_name_postmatch_underrun]); under this condition the function never
    reads outside the two strings. *)
Theorem match_name_decides_glob pm ic pre pat post name fn
    (Hp : Forall (fun c => 0 < c < 256) pat) (Hn : name_ok name fn) (Ht : pm = true -> tail_fits pat fn) :
  let mem := pre ++ pat ++ 0 :: post in
  (match_name pm (zlen pre) name ic mem = Done 1 mem /\ glob (fold_case ic) pm pat fn) \/
  (match_name pm (zlen pre) name ic mem = Done 0 mem /\ ~ glob (fold_case ic) pm pat fn).
Proof. by apply match_name_glob. Qed.

(** README.md says that with the flag the characters after a star are matched
    against the end of the file name; but the name "AB" matches "AB*C", and
    "ABC" matches "AB*BC", whose two parts overlap. *)
Theorem match_name_star_at_end :
  let run pat name := match_name true 0 (name ++ fill (17 - zlen name) 0) false (pat ++ [0]) in
  run [65; 66; 42; 67] [65; 66] = Done 1 [65; 66; 42; 67; 0] /\ run [65; 66; 42; 66; 67] [65; 66; 67] = Done 1 [65; 66; 42; 66; 67; 0].
Proof. vm_compute. auto. Qed.

(** with the POSTMATCH flag the comparison from the end runs past the
    start of a name that is shorter than the part of the pattern behind the
    star: ["*AB"] against ["B"] reads the character before the name, while
    ["*AB"] against ["XAB"] matches and against ["AC"] fails. *)
Theorem match_name_postmatch_underrun :
  let run name := match_name true 0 (name ++ fill (17 - zlen name) 0) false [42; 65; 66; 0] in
  run [88; 65; 66] = Done 1 [42; 65; 66; 0] /\ run [65; 67] = Done 0 [42; 65; 66; 0] /\ run [66] = Stuck.
Proof. vm_compute. auto. Qed.

(** every date that [parse_date] accepts has its fields in the range of a
    calendar date and a time of day (a month or day of 0 included); but it
    refuses 12 o'clock PM, which becomes hour 24, and takes 12 AM as hour 12. *)
Theorem parse_date_accepts_ranges date str :
  returns (parse_date date str) accepted /\
  let parse time := parse_date (Date 0 0 0 0 0 0) 0 ([49; 47; 50; 47; 57; 48; 32] ++ time ++ [0]) in
  (exists p m, parse [49; 50; 58; 51; 48; 32; 80; 77] = Done (1, Date 90 1 2 24 30 0, p) m) /\
  (exists p m, parse [49; 50; 58; 51; 48; 32; 65; 77] = Done (0, Date 90 1 2 12 30 0, p) m).
Proof.
  split; [apply parse_date_returns|]. split; do 2 eexists; vm_compute; reflexivity.
Qed.

Lemma parse_number_reads_appendnumber_witness :
  let mem := [1; 2] ++ [32] ++ appendnumber [] 207 ++ 44 :: [0] in
  parse_number (zlen [1; 2]) mem = Done (207, zlen [1; 2] + zlen [32] + zlen (appendnumber [] 207)) mem.
Proof.
  apply (parse_number_reads_appendnumber 207 [1; 2] [32] 44 [0]); [lia|by repeat constructor|reflexivity].
Defined.

Lemma match_name_decides_glob_witness :
  let mem := [7] ++ [65; 42; 67] ++ 0 :: [] in
  let name := [97; 66; 67] ++ fill 14 0 in
  (match_name true (zlen [7]) name true mem = Done 1 mem /\ glob (fold_case true) true [65; 42; 67] [97; 66; 67]) \/
  (match_name true (zlen [7]) name true mem = Done 0 mem /\ ~ glob (fold_case true) true [65; 42; 67] [97; 66; 67]).
Proof.
  apply (match_name_decides_glob true true [7] [65; 42; 67] [] ([97; 66; 67] ++ fill 14 0) [97; 66; 67]).
  - repeat (apply Forall_cons; split; [lia|]). apply Forall_nil_2.
  - exists (fill 13 0). split; [reflexivity|]. split; [unfold zlen; simpl; lia|].
    repeat (apply Forall_cons; split; [lia|]). apply Forall_nil_2.
  - intros _. apply (tail_fits_first [65] [67]); [by apply not_elem_of_cons; split; [|apply not_elem_of_nil]|].
    unfold zlen. simpl. lia.
Defined.
End theorems.
