(* ===== verification/ErrorMsg.v ===== *)
(** * errormsg.c: the error channel

    The string tables, their decompression and the construction of the
    message that channel 15 returns.  Writes through [msg] are modelled by
    the list of bytes written so far; [put_message] stores them into the
    error buffer, and is stuck when they do not fit. *)

From S2P Require Import Prelude Utils.

(** Build-time strings and sizes (the build generates the two strings). *)
Class ErrorConfig := {
  versionstr : list Z;
  longverstr : list Z;
  CONFIG_ERROR_BUFFER_SIZE : Z;
  NEED_DISKMUX : bool
}.

Definition VC20MODE : Z := 1.
Definition EXTENSION_HIDING : Z := 8.
Definition POSTMATCH : Z := 16.

Definition ERROR_OK : Z := 0.
Definition ERROR_SCRATCHED : Z := 1.
Definition ERROR_PARTITION_SELECTED : Z := 2.
Definition ERROR_STATUS : Z := 3.
Definition ERROR_LONGVERSION : Z := 9.
Definition ERROR_READ_NOHEADER : Z := 20.
Definition ERROR_WRITE_VERIFY : Z := 25.
Definition ERROR_WRITE_PROTECT : Z := 26.
Definition ERROR_SYNTAX_UNKNOWN : Z := 30.
Definition ERROR_SYNTAX_UNABLE : Z := 31.
Definition ERROR_SYNTAX_TOOLONG : Z := 32.
Definition ERROR_SYNTAX_JOKER : Z := 33.
Definition ERROR_SYNTAX_NONAME : Z := 34.
Definition ERROR_FILE_NOT_FOUND_39 : Z := 39.
Definition ERROR_RECORD_MISSING : Z := 50.
Definition ERROR_RECORD_OVERFLOW : Z := 51.
Definition ERROR_FILE_NOT_OPEN : Z := 61.
Definition ERROR_FILE_NOT_FOUND : Z := 62.
Definition ERROR_FILE_EXISTS : Z := 63.
Definition ERROR_FILE_TYPE_MISMATCH : Z := 64.
Definition ERROR_NO_BLOCK : Z := 65.
Definition ERROR_ILLEGAL_TS_COMMAND : Z := 66.
Definition ERROR_ILLEGAL_TS_LINK : Z := 67.
Definition ERROR_NO_CHANNEL : Z := 70.
Definition ERROR_DIR_ERROR : Z := 71.
Definition ERROR_DISK_FULL : Z := 72.
Definition ERROR_DOSVERSION : Z := 73.
Definition ERROR_DRIVE_NOT_READY : Z := 74.
Definition ERROR_PARTITION_ILLEGAL : Z := 77.
Definition ERROR_BUFFER_TOO_SMALL : Z := 78.
Definition ERROR_IMAGE_INVALID : Z := 79.
Definition ERROR_UNKNOWN_DRIVECODE : Z := 98.

(** The error channel: [buffers[ERRORBUFFER_IDX]] and [error_buffer], the
    error LED, and the settings the status message shows. *)
Record errs := {
  current_error : Z;
  error_buffer : list Z;
  err_lastused : Z;
  err_position : Z;
  led_error : bool;
  globalflags : Z;
  file_extension_mode : Z;
  image_as_dir : Z;
  rom_filename : list Z;
  drive_config : Z
}.

Definition set_channel (errornum : Z) (buf : list Z) (lastused : Z) (led : bool) (s : errs) : errs :=
  {| current_error := errornum; error_buffer := buf; err_lastused := lastused; err_position := 0;
     led_error := led; globalflags := globalflags s; file_extension_mode := file_extension_mode s;
     image_as_dir := image_as_dir s; rom_filename := rom_filename s; drive_config := drive_config s |}.

(** [EC(x)]: an error number in a table. *)
Definition EC (x : Z) : Z := x + 128.

Definition abbrevs : list Z :=
  [EC 0; 70; 73; 76; 69;
   EC 1; 82; 69; 65; 68;
   EC 2; 87; 82; 73; 84; 69;
   EC 3; 32; 69; 82; 82; 79; 82;
   EC 4; 32; 78; 79; 84; 32;
   EC 5; 68; 73; 83; 75; 32;
   EC 6; 79; 80; 69; 78;
   EC 7; 82; 69; 67; 79; 82; 68;
   EC 8; 80; 65; 82; 84; 73; 84; 73; 79; 78; 32;
   EC 9; 83; 69; 76; 69; 67; 84; 69; 68;
   EC 10; 73; 76; 76; 69; 71; 65; 76;
   EC 11; 32; 84; 79; 79; 32;
   EC 12; 78; 79; 32;
   EC 127].

Definition messages : list Z :=
  [EC 0; 32; 79; 75;
   EC 1; 0; 83; 32; 83; 67; 82; 65; 84; 67; 72; 69; 68;
   EC 2; 8; 9;
   EC 20; EC 21; EC 22; EC 23; EC 24; EC 27; 1; 3;
   EC 25; EC 28; 2; 3;
   EC 26; 2; 32; 80; 82; 79; 84; 69; 67; 84; 32; 79; 78;
   EC 29; 5; 73; 68; 32; 77; 73; 83; 77; 65; 84; 67; 72;
   EC 30; EC 31; EC 32; EC 33; EC 34; 83; 89; 78; 84; 65; 88; 3;
   EC 39; EC 62; 0; 4; 70; 79; 85; 78; 68;
   EC 50; 7; 4; 80; 82; 69; 83; 69; 78; 84;
   EC 51; 79; 86; 69; 82; 70; 76; 79; 87; 32; 73; 78; 32; 7;
   EC 52; 0; 11; 76; 65; 82; 71; 69;
   EC 60; 2; 32; 0; 32; 6;
   EC 61; 0; 4; 6;
   EC 63; 0; 32; 69; 88; 73; 83; 84; 83;
   EC 64; 0; 32; 84; 89; 80; 69; 32; 77; 73; 83; 77; 65; 84; 67; 72;
   EC 65; 12; 66; 76; 79; 67; 75;
   EC 66; EC 67; 10; 32; 84; 82; 65; 67; 75; 32; 79; 82; 32; 83; 69; 67; 84; 79; 82;
   EC 70; 12; 67; 72; 65; 78; 78; 69; 76;
   EC 71; 68; 73; 82; 3;
   EC 72; 5; 70; 85; 76; 76;
   EC 74; 68; 82; 73; 86; 69; 4; 1; 89;
   EC 77; 9; 32; 8; 10;
   EC 78; 66; 85; 70; 70; 69; 82; 11; 83; 77; 65; 76; 76;
   EC 79; 73; 77; 65; 71; 69; 32; 0; 32; 73; 78; 86; 65; 76; 73; 68;
   EC 98; 85; 78; 75; 78; 79; 87; 78; 32; 68; 82; 73; 86; 69; 67; 79; 68; 69;
   EC 99; 67; 76; 79; 67; 75; 32; 85; 78; 83; 84; 65; 66; 76; 69;
   EC 127].

(** The rest of the table behind the first byte that is [EC(entry)] or the
    end mark, with that byte; [None] when the table has neither. *)
Fixpoint table_find (table : list Z) (entry : Z) : option (Z * list Z) :=
  match table with
  | [] => None
  | tmp :: table' => if (tmp =? EC entry) || (tmp =? EC 127) then Some (tmp, table') else table_find table' entry
  end.

Fixpoint skip_numbers (table : list Z) : list Z :=
  match table with
  | x :: table' => if EC 0 <=? x then skip_numbers table' else table
  | [] => []
  end.

(** Copy up to the next error number, with [abbrev] for the bytes below 32. *)
Fixpoint copy_string (abbrev : Z -> option (list Z)) (table : list Z) : option (list Z) :=
  match table with
  | [] => None
  | tmp :: table' =>
      if tmp <? 32 then s ← abbrev tmp; r ← copy_string abbrev table'; Some (s ++ r)
      else if tmp <? EC 0 then r ← copy_string abbrev table'; Some (tmp :: r)
      else Some []
  end.

(** The recursion into [abbrevs] is bounded by [depth]. *)
Fixpoint table_text (depth : nat) (table : list Z) (entry : Z) : option (list Z) :=
  match depth with
  | O => None
  | S depth =>
      r ← table_find table entry;
      if r.1 =? EC 127 then Some [63]
      else copy_string (table_text depth abbrevs) (skip_numbers r.2)
  end.

Section errormsg.
Context `{ErrorConfig}.

Definition appendmsg (msg table : list Z) (entry : Z) : option (list Z) :=
  r ← table_text 3 table entry; Some (msg ++ r).

Definition appendbool (msg : list Z) (ch : Z) (value : bool) : list Z :=
  msg ++ (if ch =? 0 then [] else [ch]) ++ [if value then 43 else 45; 58].

Definition map_drive (s : errs) (drv : Z) : Z :=
  if NEED_DISKMUX then Z.land (Z.shiftr (drive_config s) (4 * drv)) 15 else drv.

(** The characters of a C string in an array. *)
Fixpoint c_string (l : list Z) : list Z :=
  match l with
  | c :: l' => if c =? 0 then [] else c :: c_string l'
  | [] => []
  end.

Definition toupper (c : Z) : Z := if (97 <=? c) && (c <=? 122) then c - 32 else c.

Definition status_text (s : errs) (msg : list Z) : list Z :=
  let msg := appendnumber (msg ++ [69]) (file_extension_mode s) in
  let msg := appendbool msg 0 (negb (Z.land (globalflags s) EXTENSION_HIDING =? 0)) in
  let msg := appendbool msg 42 (negb (Z.land (globalflags s) POSTMATCH =? 0)) in
  let msg := appendnumber (msg ++ [73]) (image_as_dir s) in
  msg ++ [58; 82] ++ c_string (rom_filename s).

Definition drives_text (s : errs) (msg : list Z) : list Z :=
  fold_left (fun msg i =>
    if negb (map_drive s i =? 15) then appendnumber (appendnumber (msg ++ [58]) i ++ [61]) (map_drive s i) else msg)
    (seqZ 0 8) (msg ++ [68]).

Definition version_text (errornum : Z) (msg : list Z) : list Z :=
  msg ++ c_string versionstr ++ (if errornum =? ERROR_LONGVERSION then toupper <$> c_string longverstr else []).

(** The message without the final carriage return. *)
Definition error_text (s : errs) (errornum track sector : Z) : option (list Z) :=
  let msg := appendnumber [] errornum ++ [44] in
  msg ← (if errornum =? ERROR_STATUS then
           Some (if sector =? 1 then drives_text s msg else status_text s msg)
         else if (errornum =? ERROR_LONGVERSION) || (errornum =? ERROR_DOSVERSION) then
           Some (version_text errornum msg)
         else appendmsg msg messages errornum);
  let msg := appendnumber (msg ++ [44]) track in
  Some (appendnumber (msg ++ [44]) sector).

Definition set_error_ts (errornum track sector : Z) : comp errs unit :=
  s ← gets id;
  msg ← of_option (error_text s errornum track sector);
  buf ← of_option (store_block (fill CONFIG_ERROR_BUFFER_SIZE 0) 0 (msg ++ [13]));
  modify (set_channel errornum buf (u8 (zlen msg)) ((20 <=? errornum) && negb (errornum =? ERROR_DOSVERSION))).

Definition set_error (errornum : Z) : comp errs unit := set_error_ts errornum 0 0.

Definition set_ok_message : comp errs Z := set_error 0;; mret 0.
End errormsg.
