(* ===== verification/ErrorMsgTheorems.v ===== *)
(** * errormsg.c: theorems on the error channel *)

From S2P Require Import Prelude Utils UtilsTheorems ErrorMsg.

Section facts.
Context `{ErrorConfig}.

Lemma appendnumber_zlen msg v : 0 <= v < 256 -> zlen msg + 2 <= zlen (appendnumber msg v) <= zlen msg + 3.
Proof.
  intros Hv. rewrite appendnumber_app, zlen_app. destruct (appendnumber_digits v Hv) as (_ & _ & ? & _). lia.
Qed.

Lemma appendnumber_prefix msg v : exists r, appendnumber msg v = msg ++ r.
Proof. exists (appendnumber [] v). apply appendnumber_app. Qed.

(** The error strings decompress to at most 27 characters for every number. *)
Lemma table_text_ok e : 0 <= e < 256 ->
  exists l, table_text 3 messages e = Some l /\ 1 <= zlen l <= 27 /\ bytes l.
Proof.
  intros He. assert (match table_text 3 messages e with
    | Some l => (1 <=? zlen l) && (zlen l <=? 27) && forallb (fun x => (0 <=? x) && (x <? 256)) l
    | None => false end = true) as Hc.
  { apply (byte_check (fun e => match table_text 3 messages e with
      | Some l => (1 <=? zlen l) && (zlen l <=? 27) && forallb (fun x => (0 <=? x) && (x <? 256)) l
      | None => false end)); [by vm_compute|done]. }
  destruct (table_text 3 messages e) as [l|]; [|done]. exists l. split; [done|].
  apply andb_true_iff in Hc as [Hl Hb]. split; [lia|]. rewrite forallb_forall in Hb.
  apply Forall_forall. intros x Hx. specialize (Hb x (proj1 (list_elem_of_In _ _) Hx)). unfold is_byte. lia.
Qed.

(** What the message needs of the settings and of the build. *)
Record settings_ok (s : errs) : Prop := {
  so_ext : 0 <= file_extension_mode s < 256;
  so_dir : 0 <= image_as_dir s < 256;
  so_rom : zlen (c_string (rom_filename s)) <= 16;
  so_drives : forall i, 0 <= i < 8 -> 0 <= map_drive s i < 256;
  so_version : zlen (c_string versionstr) + zlen (c_string longverstr) <= 60;
  so_size : CONFIG_ERROR_BUFFER_SIZE = 100
}.

Lemma drives_text_zlen s msg :
  (forall i, 0 <= i < 8 -> 0 <= map_drive s i < 256) -> zlen (drives_text s msg) <= zlen msg + 65.
Proof.
  intros Hm. unfold drives_text.
  assert (forall l m, Forall (fun i => 0 <= i < 8) l ->
    zlen (fold_left (fun msg i => if negb (map_drive s i =? 15)
      then appendnumber (appendnumber (msg ++ [58]) i ++ [61]) (map_drive s i) else msg) l m)
    <= zlen m + 8 * zlen l) as Hf.
  { induction l as [|i l IH]; intros m Hl; simpl; [change (zlen []) with 0; lia|].
    apply Forall_cons in Hl as [Hi Hl]. rewrite zlen_cons.
    destruct (negb (map_drive s i =? 15)); [|specialize (IH m Hl); lia].
    eapply Z.le_trans; [by apply IH|].
    pose proof (appendnumber_zlen (appendnumber (m ++ [58]) i ++ [61]) (map_drive s i) (Hm i Hi)).
    pose proof (appendnumber_zlen (m ++ [58]) i). rewrite !zlen_snoc in *. lia. }
  eapply Z.le_trans; [apply Hf|]; [|rewrite zlen_snoc; unfold zlen; rewrite length_seqZ; lia].
  apply Forall_seqZ. intros i Hi. lia.
Qed.

Lemma status_text_zlen s msg :
  0 <= file_extension_mode s < 256 -> 0 <= image_as_dir s < 256 -> zlen (c_string (rom_filename s)) <= 16 ->
  zlen (status_text s msg) <= zlen msg + 31.
Proof.
  intros He Hd Hr. unfold status_text. rewrite !zlen_app. 
  set (a := appendnumber (msg ++ [69]) _). set (b := appendbool a _ _). set (c := appendbool b _ _).
  pose proof (appendnumber_zlen (c ++ [73]) (image_as_dir s) Hd).
  pose proof (appendnumber_zlen (msg ++ [69]) (file_extension_mode s) He). fold a in H1.
  assert (zlen b = zlen a + 2) by (unfold b, appendbool; rewrite !zlen_app; reflexivity).
  assert (zlen c = zlen b + 3) by (unfold c, appendbool; rewrite !zlen_app; reflexivity).
  rewrite !zlen_snoc in *. change (zlen [58; 82]) with 2. lia.
Qed.

(** The middle of a message. *)
Definition error_body (s : errs) (errornum sector : Z) (msg : list Z) : option (list Z) :=
  if errornum =? ERROR_STATUS then Some (if sector =? 1 then drives_text s msg else status_text s msg)
  else if (errornum =? ERROR_LONGVERSION) || (errornum =? ERROR_DOSVERSION) then Some (version_text errornum msg)
  else appendmsg msg messages errornum.

Lemma appendbool_prefix msg ch b : exists r, appendbool msg ch b = msg ++ r.
Proof. eexists. unfold appendbool. reflexivity. Qed.

Lemma drives_text_prefix s msg : exists r, drives_text s msg = msg ++ r.
Proof.
  unfold drives_text. assert (forall l m, exists r, fold_left (fun msg i => if negb (map_drive s i =? 15)
      then appendnumber (appendnumber (msg ++ [58]) i ++ [61]) (map_drive s i) else msg) l m = m ++ r) as Hf.
  { induction l as [|i l IH]; intros m; simpl; [exists []; by rewrite app_nil_r|].
    destruct (negb (map_drive s i =? 15)); [|apply IH].
    edestruct IH as [r ->]. rewrite appendnumber_app, (appendnumber_app (m ++ [58])), <- !app_assoc. by eexists. }
  edestruct Hf as [r ->]. rewrite <- app_assoc. by eexists.
Qed.

Lemma status_text_prefix s msg : exists r, status_text s msg = msg ++ r.
Proof.
  unfold status_text, appendbool. rewrite !(appendnumber_app (_ ++ _)), <- !app_assoc. by eexists.
Qed.

Lemma error_body_ok s e sector msg :
  settings_ok s -> 0 <= e < 256 ->
  exists r, error_body s e sector msg = Some (msg ++ r) /\ zlen r <= 65.
Proof.
  intros [] He. unfold error_body. destruct (e =? ERROR_STATUS).
  { destruct (sector =? 1).
    - pose proof (drives_text_zlen s msg so_drives0) as Hl. destruct (drives_text_prefix s msg) as [r Hr].
      rewrite Hr in *. exists r. split; [done|]. rewrite zlen_app in Hl. lia.
    - pose proof (status_text_zlen s msg so_ext0 so_dir0 so_rom0) as Hl. destruct (status_text_prefix s msg) as [r Hr].
      rewrite Hr in *. exists r. split; [done|]. rewrite zlen_app in Hl. lia. }
  destruct (_ || _).
  { unfold version_text. eexists. split; [done|]. rewrite zlen_app.
    pose proof (zlen_nonneg (c_string longverstr)).
    destruct (e =? ERROR_LONGVERSION); [|change (zlen []) with 0; lia].
    unfold zlen in *. rewrite length_fmap. lia. }
  destruct (table_text_ok e He) as (l & Hl & ? & _). unfold appendmsg. rewrite Hl. exists l. split; [done|lia].
Qed.

Lemma error_text_ok s e t sec :
  settings_ok s -> 0 <= e < 256 -> 0 <= t < 256 -> 0 <= sec < 256 ->
  exists body, error_text s e t sec = Some (appendnumber [] e ++ [44] ++ body ++ [44] ++ appendnumber [] t
    ++ [44] ++ appendnumber [] sec) /\ zlen body <= 65.
Proof.
  intros Hs He Ht Hsec. destruct (error_body_ok s e sec (appendnumber [] e ++ [44]) Hs He) as (r & Hr & Hl).
  exists r. split; [|done]. unfold error_text. fold (error_body s e sec (appendnumber [] e ++ [44])).
  rewrite Hr. simpl. f_equal. rewrite (appendnumber_app (_ ++ [44])), (appendnumber_app (((_ ++ _) ++ _) ++ _)).
  by rewrite <- !app_assoc.
Qed.

(** The numbers that have a message of their own. *)
Definition known_numbers (table : list Z) : list Z := (fun x => x - 128) <$> filter (fun x => EC 0 <= x < EC 127) table.

(** the recursive decompression of the error strings ends for every error
    number, inside both tables: the text is 1 to 27 printable characters, and
    it is a single question mark exactly for the numbers that the table does
    not hold. *)
Theorem error_strings_decompress e (He : 0 <= e < 127) :
  exists l, table_text 3 messages e = Some l /\ zlen l <= 27 /\ Forall (fun x => 32 <= x < 127) l /\
    l <> [] /\ (l = [63] <-> e ∉ known_numbers messages).
Proof.
  set (f := fun e => match table_text 3 messages e with
    | Some l => (zlen l <=? 27) && forallb (fun x => (32 <=? x) && (x <? 127)) l && negb (bool_decide (l = []))
      && Bool.eqb (bool_decide (l = [63])) (negb (bool_decide (e ∈ known_numbers messages)))
    | None => false end).
  assert (f e = true) as Hc.
  { pose proof (byte_check (fun e => (127 <=? e) || f e) e ltac:(by vm_compute) ltac:(lia)) as Hb.
    apply orb_true_iff in Hb as [Hb|Hb]; [lia|done]. }
  unfold f in Hc. destruct (table_text 3 messages e) as [l|]; [|done]. exists l. split; [done|].
  apply andb_true_iff in Hc as [Hc He']. apply andb_true_iff in Hc as [Hc Hn]. apply andb_true_iff in Hc as [Hl Hb].
  split; [lia|]. split.
  - apply Forall_forall. intros x Hx. rewrite forallb_forall in Hb.
    specialize (Hb x (proj1 (list_elem_of_In _ _) Hx)). lia.
  - apply Bool.eqb_prop in He'. repeat case_bool_decide; naive_solver.
Qed.

(** The message as a function of the number, the middle text, track and sector. *)
Definition message (errornum : Z) (body : list Z) (track sector : Z) : list Z :=
  appendnumber [] errornum ++ [44] ++ body ++ [44] ++ appendnumber [] track ++ [44] ++ appendnumber [] sector.

(** What [set_error_ts] does to the channel. *)
Lemma set_error_ts_run s errornum track sector :
  settings_ok s -> 0 <= errornum < 256 -> 0 <= track < 256 -> 0 <= sector < 256 ->
  exists body, let msg := message errornum body track sector in
    zlen msg <= 77 /\
    set_error_ts errornum track sector s =
      Done tt (set_channel errornum (msg ++ 13 :: fill (99 - zlen msg) 0) (zlen msg)
                 ((20 <=? errornum) && negb (errornum =? ERROR_DOSVERSION)) s).
Proof.
  intros Hs He Ht Hsec.
  destruct (error_text_ok s errornum track sector Hs He Ht Hsec) as (body & Hb & Hl).
  fold (message errornum body track sector) in Hb. exists body. intros msg. fold msg in Hb.
  assert (zlen msg <= 77) as Hm.
  { unfold msg, message. destruct (appendnumber_digits errornum He) as (_ & _ & ? & _).
    destruct (appendnumber_digits track Ht) as (_ & _ & ? & _). destruct (appendnumber_digits sector Hsec) as (_ & _ & ? & _).
    rewrite !zlen_app. change (zlen [44]) with 1. lia. }
  split; [done|]. pose proof (zlen_nonneg msg). pose proof (so_size s Hs) as Hsize.
  unfold set_error_ts. unfold mbind at 1, comp_bind at 1, gets. unfold id. rewrite Hb.
  unfold mbind at 1, comp_bind at 1, of_option at 1, mret, comp_ret.
  rewrite store_block_some; [|lia|rewrite zlen_snoc, Hsize, zlen_fill by lia; lia].
  assert (splice 0 (msg ++ [13]) (fill CONFIG_ERROR_BUFFER_SIZE 0) = msg ++ 13 :: fill (99 - zlen msg) 0) as ->.
  { unfold splice. rewrite Hsize. change (Z.to_nat 0) with 0%nat. rewrite take_0, app_nil_l, <- app_assoc.
    simpl app. do 2 f_equal. unfold fill. rewrite drop_replicate. f_equal. rewrite length_app. unfold zlen. simpl. lia. }
  by rewrite u8_id by lia.
Qed.

Lemma settings_ok_channel errornum buf lastused led s :
  settings_ok s -> settings_ok (set_channel errornum buf lastused led s).
Proof. by intros []. Qed.

(** C39: [set_error_ts] always fits the error buffer: it returns with the
    message [number,text,track,sector] followed by a carriage return and
    zeros, the length without the carriage return in [lastused], the LED on
    exactly for the numbers from 20 except the DOS version; and the number at
    the front reads back. *)
Theorem set_error_ts_fits s errornum track sector (Hs : settings_ok s)
  (He : 0 <= errornum < 256) (Ht : 0 <= track < 256) (Hsec : 0 <= sector < 256) :
  exists body s',
    let msg := appendnumber [] errornum ++ [44] ++ body ++ [44] ++ appendnumber [] track
               ++ [44] ++ appendnumber [] sector in
    set_error_ts errornum track sector s = Done tt s' /\
    error_buffer s' = msg ++ 13 :: fill (99 - zlen msg) 0 /\
    err_lastused s' = zlen msg /\ zlen msg <= 77 /\
    current_error s' = errornum /\ err_position s' = 0 /\
    (led_error s' = true <-> 20 <= errornum /\ errornum <> ERROR_DOSVERSION) /\
    (parse_number 0 (error_buffer s')) = Done (errornum, zlen (appendnumber [] errornum)) (error_buffer s').
Proof.
  destruct (set_error_ts_run s errornum track sector Hs He Ht Hsec) as (body & Hm & Hrun).
  destruct (appendnumber_digits errornum He) as (Hd1 & Hdec1 & Hn1 & _).
  eexists body, _. cbv zeta. fold (message errornum body track sector).
  split; [exact Hrun|]. simpl. split_and!; [done|done|done|done|done| |].
  { rewrite andb_true_iff, negb_true_iff, Z.leb_le, Z.eqb_neq. done. }
  set (k := fill _ _). unfold message. rewrite <- !app_assoc.
  pose proof (parse_number_eq [] [] (appendnumber [] errornum) 44
    (body ++ [44] ++ appendnumber [] track ++ [44] ++ appendnumber [] sector ++ 13 :: k)
    ltac:(constructor) Hd1 eq_refl ltac:(lia)) as Hp.
  cbv zeta in Hp. rewrite Hdec1, u16_id in Hp by lia. exact Hp.
Qed.
End facts.

(** A build and settings for the witnesses. *)
#[local] Instance demo_config : ErrorConfig := {
  versionstr := [78; 79; 68; 73; 83; 75; 69; 77; 85; 32; 48; 46; 49; 0];
  longverstr := [97; 118; 114; 0];
  CONFIG_ERROR_BUFFER_SIZE := 100;
  NEED_DISKMUX := true
}.

Definition demo_errs : errs :=
  {| current_error := 0; error_buffer := fill 100 0; err_lastused := 0; err_position := 0; led_error := false;
     globalflags := 24; file_extension_mode := 1; image_as_dir := 0; rom_filename := [65; 46; 66; 73; 78; 0];
     drive_config := 305419896 |}.

Lemma demo_settings : settings_ok demo_errs.
Proof.
  split; try (vm_compute; by auto with zarith); try done.
  intros i Hi. unfold map_drive, NEED_DISKMUX, demo_config. change 15 with (Z.ones 4).
  rewrite Z.land_ones by lia. pose proof (Z.mod_pos_bound (Z.shiftr (drive_config demo_errs) (4 * i)) (2^4)). lia.
Qed.

Lemma error_strings_decompress_witness : exists l, table_text 3 messages 26 = Some l /\ 26 ∈ known_numbers messages.
Proof.
  destruct (error_strings_decompress 26 ltac:(lia)) as (l & Hl & _). exists l. split; [exact Hl|].
  apply (bool_decide_unpack _). vm_compute. exact I.
Defined.

Lemma set_error_ts_fits_witness : exists s', set_error_ts 74 0 8 demo_errs = Done tt s' /\ led_error s' = true.
Proof.
  destruct (set_error_ts_fits demo_errs 74 0 8 demo_settings ltac:(lia) ltac:(lia) ltac:(lia))
    as (body & s' & Hr & _ & _ & _ & _ & _ & Hled & _).
  exists s'. split; [exact Hr|]. apply Hled. split; [lia|discriminate].
Defined.
