(* ===== verification/Buffers.v ===== *)
(** * buffers.c and led.c: the buffer pool

    The pool of [CONFIG_BUFFER_COUNT] data buffers and the extra buffer of
    channel 15, with the counter of active and dirty buffers and the two
    activity LEDs.  A pointer to a buffer is its index in [buffers]; the data
    pointer of buffer [i] is the offset [256*i] into [bufferdata], except for
    the error buffer, whose data is [error_buffer] of the error channel. *)

From S2P Require Import Prelude EepromFs ErrorMsg.

(** Build-time configuration: the number of buffers, and whether one LED shows
    the three states. *)
Class BufferConfig := {
  CONFIG_BUFFER_COUNT : Z;
  SINGLE_LED : bool
}.

Definition BUFFER_SEC_SYSTEM : Z := 100.
Definition BUFFER_SYS_BAM : Z := 101.
Definition BUFFER_SEC_CHAIN : Z := 99.

Definition FMB_CLEAN : Z := 1.
Definition FMB_FREE_SYSTEM : Z := 2.
Definition FMB_FREE_STICKY : Z := 4.
Definition FMB_ALL : Z := 6.
Definition FMB_ALL_CLEAN : Z := 7.
Definition FMB_USER : Z := 4.
Definition FMB_USER_CLEAN : Z := 5.
Definition FMB_UNSTICKY : Z := 2.
Definition FMB_UNSTICKY_CLEAN : Z := 3.

(** The functions that the seek, refill and cleanup pointers are set to. *)
Inductive callback :=
| cb_callback_dummy
| cb_set_ok_message
| cb_d64_seek | cb_d64_read | cb_d64_write | cb_d64_write_cleanup | cb_bam_buffer_flush
| cb_eefs_refill_read | cb_eefs_refill_write | cb_eefs_cleanup_write
| cb_fat_file_read | cb_fat_file_write | cb_fat_file_seek | cb_fat_file_sync | cb_fat_file_close
| cb_dir_refill | cb_pdir_refill | cb_rawdir_refill
| cb_directbuffer_refill | cb_largebuffer_cleanup.

(** dirent.h: directory and file handles of a Dxx image. *)
Record d64dh := D64dh { dh_track : Z; dh_sector : Z; dh_entry : Z }.

Record d64fh := {
  fh_dh : d64dh;
  fh_part : Z;
  fh_track : Z;
  fh_sector : Z;
  fh_blocks : Z
}.

(** The formats of a directory line. *)
Definition DIR_FMT_CBM : Z := 0.
Definition DIR_FMT_CMD_SHORT : Z := 1.
Definition DIR_FMT_CMD_LONG : Z := 2.

(** [pvt.dir] without the directory handle.  The pattern is an index into the
    command buffer; the two date pointers are NULL or those of the parser. *)
Record pvt_dir := {
  pd_filetype : Z;
  pd_format : Z;
  pd_matchstr : option Z;
  pd_match_start : bool;
  pd_match_end : bool;
  pd_counter : Z
}.

(** The union [pvt]: the member that was last written, or all zeros.  The
    file handle of [fat] and the directory handle of [dir] are maps in the
    state of the program, which knows their types. *)
Inductive pvt_t :=
| PvtZero
| PvtD64 (fh : d64fh)
| PvtEefh (fh : eefs_fh_t)
| PvtBam (part track sector : Z)
| PvtFat (headersize : Z)
| PvtDir (d : pvt_dir)
| PvtPdir (part : Z) (matchstr : option Z)
| PvtBuffer (part size : Z) (first next : option Z)
| PvtOther.

Record buffer_t := {
  lastused : Z;
  position : Z;
  secondary : Z;
  recordlen : Z;
  fptr : Z;
  allocated : bool;
  mustflush : bool;
  buf_read : bool;
  buf_write : bool;
  dirty : bool;
  sendeoi : bool;
  sticky : bool;
  seek : option callback;
  refill : option callback;
  cleanup : option callback;
  pvt : pvt_t
}.

Definition set_lastused (x : Z) (b : buffer_t) : buffer_t :=
  {| lastused := x; position := position b; secondary := secondary b; recordlen := recordlen b; fptr := fptr b;
     allocated := allocated b; mustflush := mustflush b; buf_read := buf_read b; buf_write := buf_write b;
     dirty := dirty b; sendeoi := sendeoi b; sticky := sticky b; seek := seek b; refill := refill b;
     cleanup := cleanup b; pvt := pvt b |}.
Definition set_position (x : Z) (b : buffer_t) : buffer_t :=
  {| lastused := lastused b; position := x; secondary := secondary b; recordlen := recordlen b; fptr := fptr b;
     allocated := allocated b; mustflush := mustflush b; buf_read := buf_read b; buf_write := buf_write b;
     dirty := dirty b; sendeoi := sendeoi b; sticky := sticky b; seek := seek b; refill := refill b;
     cleanup := cleanup b; pvt := pvt b |}.
Definition set_secondary (x : Z) (b : buffer_t) : buffer_t :=
  {| lastused := lastused b; position := position b; secondary := x; recordlen := recordlen b; fptr := fptr b;
     allocated := allocated b; mustflush := mustflush b; buf_read := buf_read b; buf_write := buf_write b;
     dirty := dirty b; sendeoi := sendeoi b; sticky := sticky b; seek := seek b; refill := refill b;
     cleanup := cleanup b; pvt := pvt b |}.
Definition set_recordlen (x : Z) (b : buffer_t) : buffer_t :=
  {| lastused := lastused b; position := position b; secondary := secondary b; recordlen := x; fptr := fptr b;
     allocated := allocated b; mustflush := mustflush b; buf_read := buf_read b; buf_write := buf_write b;
     dirty := dirty b; sendeoi := sendeoi b; sticky := sticky b; seek := seek b; refill := refill b;
     cleanup := cleanup b; pvt := pvt b |}.
Definition set_fptr (x : Z) (b : buffer_t) : buffer_t :=
  {| lastused := lastused b; position := position b; secondary := secondary b; recordlen := recordlen b; fptr := x;
     allocated := allocated b; mustflush := mustflush b; buf_read := buf_read b; buf_write := buf_write b;
     dirty := dirty b; sendeoi := sendeoi b; sticky := sticky b; seek := seek b; refill := refill b;
     cleanup := cleanup b; pvt := pvt b |}.
Definition set_allocated (x : bool) (b : buffer_t) : buffer_t :=
  {| lastused := lastused b; position := position b; secondary := secondary b; recordlen := recordlen b;
     fptr := fptr b; allocated := x; mustflush := mustflush b; buf_read := buf_read b; buf_write := buf_write b;
     dirty := dirty b; sendeoi := sendeoi b; sticky := sticky b; seek := seek b; refill := refill b;
     cleanup := cleanup b; pvt := pvt b |}.
Definition set_mustflush (x : bool) (b : buffer_t) : buffer_t :=
  {| lastused := lastused b; position := position b; secondary := secondary b; recordlen := recordlen b;
     fptr := fptr b; allocated := allocated b; mustflush := x; buf_read := buf_read b; buf_write := buf_write b;
     dirty := dirty b; sendeoi := sendeoi b; sticky := sticky b; seek := seek b; refill := refill b;
     cleanup := cleanup b; pvt := pvt b |}.
Definition set_buf_read (x : bool) (b : buffer_t) : buffer_t :=
  {| lastused := lastused b; position := position b; secondary := secondary b; recordlen := recordlen b;
     fptr := fptr b; allocated := allocated b; mustflush := mustflush b; buf_read := x; buf_write := buf_write b;
     dirty := dirty b; sendeoi := sendeoi b; sticky := sticky b; seek := seek b; refill := refill b;
     cleanup := cleanup b; pvt := pvt b |}.
Definition set_buf_write (x : bool) (b : buffer_t) : buffer_t :=
  {| lastused := lastused b; position := position b; secondary := secondary b; recordlen := recordlen b;
     fptr := fptr b; allocated := allocated b; mustflush := mustflush b; buf_read := buf_read b; buf_write := x;
     dirty := dirty b; sendeoi := sendeoi b; sticky := sticky b; seek := seek b; refill := refill b;
     cleanup := cleanup b; pvt := pvt b |}.
Definition set_dirty (x : bool) (b : buffer_t) : buffer_t :=
  {| lastused := lastused b; position := position b; secondary := secondary b; recordlen := recordlen b;
     fptr := fptr b; allocated := allocated b; mustflush := mustflush b; buf_read := buf_read b;
     buf_write := buf_write b; dirty := x; sendeoi := sendeoi b; sticky := sticky b; seek := seek b;
     refill := refill b; cleanup := cleanup b; pvt := pvt b |}.
Definition set_sendeoi (x : bool) (b : buffer_t) : buffer_t :=
  {| lastused := lastused b; position := position b; secondary := secondary b; recordlen := recordlen b;
     fptr := fptr b; allocated := allocated b; mustflush := mustflush b; buf_read := buf_read b;
     buf_write := buf_write b; dirty := dirty b; sendeoi := x; sticky := sticky b; seek := seek b;
     refill := refill b; cleanup := cleanup b; pvt := pvt b |}.
Definition set_sticky (x : bool) (b : buffer_t) : buffer_t :=
  {| lastused := lastused b; position := position b; secondary := secondary b; recordlen := recordlen b;
     fptr := fptr b; allocated := allocated b; mustflush := mustflush b; buf_read := buf_read b;
     buf_write := buf_write b; dirty := dirty b; sendeoi := sendeoi b; sticky := x; seek := seek b;
     refill := refill b; cleanup := cleanup b; pvt := pvt b |}.
Definition set_seek (x : option callback) (b : buffer_t) : buffer_t :=
  {| lastused := lastused b; position := position b; secondary := secondary b; recordlen := recordlen b;
     fptr := fptr b; allocated := allocated b; mustflush := mustflush b; buf_read := buf_read b;
     buf_write := buf_write b; dirty := dirty b; sendeoi := sendeoi b; sticky := sticky b; seek := x;
     refill := refill b; cleanup := cleanup b; pvt := pvt b |}.
Definition set_refill (x : option callback) (b : buffer_t) : buffer_t :=
  {| lastused := lastused b; position := position b; secondary := secondary b; recordlen := recordlen b;
     fptr := fptr b; allocated := allocated b; mustflush := mustflush b; buf_read := buf_read b;
     buf_write := buf_write b; dirty := dirty b; sendeoi := sendeoi b; sticky := sticky b; seek := seek b;
     refill := x; cleanup := cleanup b; pvt := pvt b |}.
Definition set_cleanup (x : option callback) (b : buffer_t) : buffer_t :=
  {| lastused := lastused b; position := position b; secondary := secondary b; recordlen := recordlen b;
     fptr := fptr b; allocated := allocated b; mustflush := mustflush b; buf_read := buf_read b;
     buf_write := buf_write b; dirty := dirty b; sendeoi := sendeoi b; sticky := sticky b; seek := seek b;
     refill := refill b; cleanup := x; pvt := pvt b |}.
Definition set_pvt (x : pvt_t) (b : buffer_t) : buffer_t :=
  {| lastused := lastused b; position := position b; secondary := secondary b; recordlen := recordlen b;
     fptr := fptr b; allocated := allocated b; mustflush := mustflush b; buf_read := buf_read b;
     buf_write := buf_write b; dirty := dirty b; sendeoi := sendeoi b; sticky := sticky b; seek := seek b;
     refill := refill b; cleanup := cleanup b; pvt := x |}.

(** A buffer structure of zeros. *)
Definition zero_buffer : buffer_t :=
  {| lastused := 0; position := 0; secondary := 0; recordlen := 0; fptr := 0; allocated := false; mustflush := false;
     buf_read := false; buf_write := false; dirty := false; sendeoi := false; sticky := false; seek := None;
     refill := None; cleanup := None; pvt := PvtZero |}.

(** The variables of buffers.c, the LEDs, and the error channel. *)
Record bufs := {
  buffers : list buffer_t;
  bufferdata : list Z;
  active_buffers : Z;
  busy_led : bool;
  dirty_led : bool;
  channel : errs
}.

Definition set_buffers (x : list buffer_t) (s : bufs) : bufs :=
  {| buffers := x; bufferdata := bufferdata s; active_buffers := active_buffers s; busy_led := busy_led s;
     dirty_led := dirty_led s; channel := channel s |}.
Definition set_bufferdata (x : list Z) (s : bufs) : bufs :=
  {| buffers := buffers s; bufferdata := x; active_buffers := active_buffers s; busy_led := busy_led s;
     dirty_led := dirty_led s; channel := channel s |}.
Definition set_active_buffers (x : Z) (s : bufs) : bufs :=
  {| buffers := buffers s; bufferdata := bufferdata s; active_buffers := x; busy_led := busy_led s;
     dirty_led := dirty_led s; channel := channel s |}.
Definition set_busy_led (x : bool) (s : bufs) : bufs :=
  {| buffers := buffers s; bufferdata := bufferdata s; active_buffers := active_buffers s; busy_led := x;
     dirty_led := dirty_led s; channel := channel s |}.
Definition set_dirty_led (x : bool) (s : bufs) : bufs :=
  {| buffers := buffers s; bufferdata := bufferdata s; active_buffers := active_buffers s; busy_led := busy_led s;
     dirty_led := x; channel := channel s |}.
Definition put_channel (x : errs) (s : bufs) : bufs :=
  {| buffers := buffers s; bufferdata := bufferdata s; active_buffers := active_buffers s; busy_led := busy_led s;
     dirty_led := dirty_led s; channel := x |}.

Definition get_dirty_buffer_count (active : Z) : Z := Z.shiftr active 4.

Section buffers.
Context `{ErrorConfig} `{BufferConfig}.

Definition ERRORBUFFER_IDX : Z := CONFIG_BUFFER_COUNT.

(** [buffers[i]], inside the array only. *)
Definition buf_get (i : Z) : comp bufs buffer_t :=
  s ← gets id; of_option (if 0 <=? i then buffers s !! Z.to_nat i else None).

Definition buf_upd (i : Z) (f : buffer_t -> buffer_t) : comp bufs unit :=
  b ← buf_get i; modify (fun s => set_buffers (<[Z.to_nat i := f b]> (buffers s)) s).

(** [buf->data[off]] and blocks of it, for a data buffer. *)
Definition data_get (i off : Z) : comp bufs Z := s ← gets id; of_option (load (bufferdata s) (256 * i + off)).
Definition data_read (i off n : Z) : comp bufs (list Z) :=
  s ← gets id; of_option (load_block (bufferdata s) (256 * i + off) n).
Definition data_put (i off : Z) (bs : list Z) : comp bufs unit :=
  s ← gets id; d ← of_option (store_block (bufferdata s) (256 * i + off) bs); modify (set_bufferdata d).

Definition update_leds : comp bufs unit :=
  modify (fun s => set_dirty_led (negb (get_dirty_buffer_count (active_buffers s) =? 0))
                     (set_busy_led (negb (active_buffers s =? 0)) s)).

(** [set_error_ts] with the buffer structure of the error channel; without a
    shared LED [set_error_led(0)] also restores the two other LEDs. *)
Definition bset_error_ts (errornum track sector : Z) : comp bufs unit :=
  zoom channel put_channel (set_error_ts errornum track sector);;
  s ← gets id;
  buf_upd ERRORBUFFER_IDX (fun b => set_lastused (err_lastused (channel s)) (set_position (err_position (channel s)) b));;
  when (negb (led_error (channel s)) && negb SINGLE_LED) update_leds.

Definition bset_error (errornum : Z) : comp bufs unit := bset_error_ts errornum 0 0.

Definition run_callback_dummy : comp bufs Z := mret 0.

Definition buffers_init : comp bufs unit :=
  modify (fun s => set_buffers (replicate (Z.to_nat (CONFIG_BUFFER_COUNT + 1)) zero_buffer) s);;
  buf_upd ERRORBUFFER_IDX (fun b =>
    set_cleanup (Some cb_callback_dummy) (set_refill (Some cb_set_ok_message) (set_sendeoi true
      (set_buf_write true (set_buf_read true (set_allocated true (set_secondary 15 b))))))).

Definition alloc_specific_buffer (bufnum : Z) : comp bufs unit :=
  b ← buf_get bufnum;
  when (negb (allocated b)) (
    buf_upd bufnum (fun _ =>
      set_cleanup (Some cb_callback_dummy) (set_refill (Some cb_callback_dummy)
        (set_secondary BUFFER_SEC_SYSTEM (set_allocated true zero_buffer))))).

Definition alloc_system_buffer : comp bufs (option Z) :=
  r ← loop (S (Z.to_nat CONFIG_BUFFER_COUNT)) (fun i =>
    if i <? CONFIG_BUFFER_COUNT then
      b ← buf_get i;
      if negb (allocated b) then alloc_specific_buffer i;; mret (inr (Some i)) else mret (inl (i + 1))
    else mret (inr None)) 0;
  match r with
  | Some i => mret (Some i)
  | None => bset_error ERROR_NO_CHANNEL;; mret None
  end.

Definition alloc_buffer : comp bufs (option Z) :=
  buf ← alloc_system_buffer;
  match buf with
  | Some i =>
      buf_upd i (set_secondary 0);;
      modify (fun s => set_busy_led true (set_active_buffers (u8 (active_buffers s + 1)) s));;
      mret buf
  | None => mret None
  end.

(** The search for [count] free buffers in a row: [(freebufs, start)]. *)
Definition find_free_run (count : Z) : comp bufs (Z * Z) :=
  loop (S (Z.to_nat CONFIG_BUFFER_COUNT)) (fun '(i, freebufs, start) =>
    if i <? CONFIG_BUFFER_COUNT then
      b ← buf_get i;
      if allocated b then mret (inl (i + 1, 0, start))
      else
        let start := if freebufs =? 0 then i else start in
        let freebufs := freebufs + 1 in
        if freebufs =? count then mret (inr (freebufs, start)) else mret (inl (i + 1, freebufs, start))
    else mret (inr (freebufs, start))) (0, 0, 0).

Definition alloc_linked_buffers (count : Z) : comp bufs (option Z) :=
  r ← find_free_run count;
  let '(freebufs, start) := r in
  if freebufs <? count then bset_error ERROR_NO_CHANNEL;; mret None
  else
    for_range 0 (Z.to_nat count) (fun i (_ : unit) =>
      alloc_specific_buffer (start + i);;
      modify (fun s => set_active_buffers (u8 (active_buffers s + 1)) s);;
      buf_upd (start + i) (fun b =>
        set_pvt (PvtBuffer 0 count (Some start) (Some (start + i + 1))) (set_secondary 0 b))) tt;;
    modify (set_busy_led true);;
    buf_upd (start + count - 1) (fun b =>
      match pvt b with
      | PvtBuffer part size first _ => set_pvt (PvtBuffer part size first None) b
      | _ => set_pvt PvtOther b
      end);;
    mret (Some start).

Definition free_buffer (buffer : option Z) : comp bufs unit :=
  match buffer with
  | None => mret tt
  | Some i =>
      b ← buf_get i;
      if secondary b =? 15 then mret tt
      else if negb (allocated b) then mret tt
      else
        buf_upd i (set_allocated false);;
        when (dirty b) (modify (fun s => set_active_buffers (u8 (active_buffers s - 16)) s));;
        when (secondary b <? BUFFER_SEC_SYSTEM) (modify (fun s => set_active_buffers (u8 (active_buffers s - 1)) s));;
        update_leds
  end.

Definition find_buffer (sec : Z) : comp bufs (option Z) :=
  loop (S (S (Z.to_nat CONFIG_BUFFER_COUNT))) (fun i =>
    if i <? CONFIG_BUFFER_COUNT + 1 then
      b ← buf_get i;
      if allocated b && (secondary b =? sec) then mret (inr (Some i)) else mret (inl (i + 1))
    else mret (inr None)) 0.

Definition mark_buffer_dirty (buf : Z) : comp bufs unit :=
  b ← buf_get buf;
  when (negb (dirty b)) (
    buf_upd buf (set_dirty true);;
    modify (fun s => set_dirty_led true (set_active_buffers (u8 (active_buffers s + 16)) s))).

Definition mark_buffer_clean (buf : Z) : comp bufs unit :=
  b ← buf_get buf;
  when (dirty b) (
    buf_upd buf (set_dirty false);;
    modify (fun s => set_active_buffers (u8 (active_buffers s - 16)) s);;
    s ← gets id;
    when (get_dirty_buffer_count (active_buffers s) =? 0) (modify (set_dirty_led false))).

Definition stick_buffer (buf : Z) : comp bufs unit := buf_upd buf (set_sticky true).
Definition unstick_buffer (buf : Z) : comp bufs unit := buf_upd buf (set_sticky false).
Definition mark_write_buffer (buf : Z) : comp bufs unit := buf_upd buf (set_buf_write true);; stick_buffer buf.
Definition check_free_buffers (s : bufs) : bool := Z.land (active_buffers s) 15 <? CONFIG_BUFFER_COUNT.

(** The buffers live in the state [W] of the whole program, which the cleanup
    functions may change; [run_cleanup] calls the cleanup pointer of a buffer. *)
Section callbacks.
Context {W : Type} (get : W -> bufs) (put : bufs -> W -> W) (run_cleanup : Z -> comp W Z).

Definition cleanup_and_free_buffer (buffer : Z) : comp W unit :=
  run_cleanup buffer;; zoom get put (free_buffer (Some buffer)).

(** Which buffers [free_multiple_buffers] frees. *)
Definition fmb_selected (flags : Z) (b : buffer_t) : bool :=
  allocated b
  && (negb (Z.land flags FMB_FREE_SYSTEM =? 0) || (secondary b <? BUFFER_SEC_SYSTEM))
  && (negb (Z.land flags FMB_FREE_STICKY =? 0) || negb (sticky b)).

Definition free_multiple_buffers (flags : Z) : comp W Z :=
  for_range 0 (Z.to_nat CONFIG_BUFFER_COUNT) (fun i res =>
    b ← zoom get put (buf_get i);
    if fmb_selected flags b then
      res ← (if negb (Z.land flags FMB_CLEAN =? 0) then
               if negb (res =? 0) then mret 1
               else r ← run_cleanup i; mret (if negb (r =? 0) then 1 else 0)
             else mret res);
      zoom get put (free_buffer (Some i));;
      mret res
    else mret res) 0.
End callbacks.
End buffers.
