(* ===== verification/BuffersTheorems.v ===== *)
(** * buffers.c: theorems on the buffer pool

    The invariant that [active_buffers] counts the user buffers and the dirty
    buffers and that the LEDs show them, for every sequence of operations;
    and what the allocation functions return. *)

From S2P Require Import Prelude EepromFs ErrorMsg ErrorMsgTheorems Buffers.

(** The number of list elements with a property. *)
Definition tally {A} (f : A -> bool) (l : list A) : Z := zlen (filter f l).

Lemma tally_nonneg {A} (f : A -> bool) l : 0 <= tally f l.
Proof. apply zlen_nonneg. Qed.

Lemma tally_cons {A} (f : A -> bool) x l : tally f (x :: l) = Z.b2z (f x) + tally f l.
Proof. unfold tally. rewrite filter_cons. destruct (f x); simpl; [rewrite zlen_cons; lia|done]. Qed.

Lemma tally_le {A} (f : A -> bool) l : tally f l <= zlen l.
Proof. induction l as [|x l IH]; [done|]. rewrite tally_cons, zlen_cons. destruct (f x); simpl; lia. Qed.

Lemma tally_insert {A} (f : A -> bool) l i x y :
  l !! i = Some x -> tally f (<[i := y]> l) = tally f l - Z.b2z (f x) + Z.b2z (f y).
Proof.
  revert i. induction l as [|z l IH]; intros [|i] Hi; try discriminate.
  - injection Hi as ->. simpl. rewrite !tally_cons. lia.
  - simpl in *. rewrite !tally_cons, (IH i Hi). lia.
Qed.

Lemma tally_pos {A} (f : A -> bool) l i x : l !! i = Some x -> f x = true -> 0 < tally f l.
Proof.
  revert i. induction l as [|z l IH]; intros [|i] Hi Hf; try discriminate; rewrite tally_cons.
  - injection Hi as ->. rewrite Hf. pose proof (tally_nonneg f l). simpl. lia.
  - specialize (IH i Hi Hf). destruct (f z); simpl; lia.
Qed.

Lemma tally_lt {A} (f : A -> bool) l i x : l !! i = Some x -> f x = false -> tally f l <= zlen l - 1.
Proof.
  revert i. induction l as [|z l IH]; intros [|i] Hi Hf; try discriminate; rewrite tally_cons, zlen_cons.
  - injection Hi as ->. rewrite Hf. pose proof (tally_le f l). simpl. lia.
  - specialize (IH i Hi Hf). destruct (f z); simpl; lia.
Qed.

(** A buffer that counts as active: not of the system, not of channel 15. *)
Definition user_buffer (b : buffer_t) : bool :=
  allocated b && (secondary b <? BUFFER_SEC_SYSTEM) && negb (secondary b =? 15).
Definition dirty_buffer (b : buffer_t) : bool := allocated b && dirty b.

Section theorems.
Context `{ErrorConfig} `{BufferConfig}.
Notation N := CONFIG_BUFFER_COUNT.

(** The invariant of the buffer pool, with at most 15 buffers: both counts must
    fit into four bits.  The busy LED is also lit by other parts (a command on
    the bus lights it), so here it is only on while there is a user buffer;
    [busy_exact] below says when it is off. *)
Record bufs_ok (s : bufs) : Prop := {
  bo_count : 0 < N <= 15;
  bo_len : zlen (buffers s) = N + 1;
  bo_data : zlen (bufferdata s) = 256 * N;
  bo_bytes : bytes (bufferdata s);
  bo_err : exists b, buffers s !! Z.to_nat N = Some b /\ allocated b = true /\ secondary b = 15 /\ dirty b = false;
  bo_active : active_buffers s = tally user_buffer (buffers s) + 16 * tally dirty_buffer (buffers s);
  bo_dirty : dirty_led s = negb (tally dirty_buffer (buffers s) =? 0);
  bo_busy : tally user_buffer (buffers s) <> 0 -> busy_led s = true;
  bo_settings : settings_ok (channel s)
}.

Lemma buf_get_run i b s : 0 <= i -> buffers s !! Z.to_nat i = Some b -> buf_get i s = Done b s.
Proof.
  intros Hi Hb. unfold buf_get, mbind, comp_bind, gets, id. replace (0 <=? i) with true by lia. by rewrite Hb.
Qed.

Lemma buf_upd_run i f b s : 0 <= i -> buffers s !! Z.to_nat i = Some b ->
  buf_upd i f s = Done tt (set_buffers (<[Z.to_nat i := f b]> (buffers s)) s).
Proof. intros Hi Hb. unfold buf_upd, mbind at 1, comp_bind at 1. by rewrite (buf_get_run i b s). Qed.

Lemma buf_in s i : bufs_ok s -> 0 <= i <= N -> exists b, buffers s !! Z.to_nat i = Some b.
Proof.
  intros Hs Hi. apply lookup_lt_is_Some. pose proof (bo_len s Hs). pose proof (bo_count s Hs). unfold zlen in *. lia.
Qed.

(** The counts never exceed four bits. *)
Lemma counts_small s : bufs_ok s ->
  0 <= tally user_buffer (buffers s) <= N /\ 0 <= tally dirty_buffer (buffers s) <= N.
Proof.
  intros Hs. destruct (bo_err s Hs) as (b & Hb & Ha & Hsec & Hd). pose proof (bo_len s Hs).
  assert (forall f, f b = false -> tally f (buffers s) <= N) as Hf.
  { intros f Hf. pose proof (tally_lt f _ _ _ Hb Hf). lia. }
  pose proof (tally_nonneg user_buffer (buffers s)). pose proof (tally_nonneg dirty_buffer (buffers s)).
  split; (split; [lia|apply Hf]); unfold user_buffer, dirty_buffer; rewrite Ha, ?Hsec, ?Hd; done.
Qed.

Lemma dirty_count_eq s : bufs_ok s -> get_dirty_buffer_count (active_buffers s) = tally dirty_buffer (buffers s).
Proof.
  intros Hs. pose proof (counts_small s Hs). pose proof (bo_count s Hs). unfold get_dirty_buffer_count.
  rewrite (bo_active s Hs), Z.shiftr_div_pow2 by lia. change (2 ^ 4) with 16.
  symmetry. apply (Z.div_unique_pos _ _ _ (tally user_buffer (buffers s))); lia.
Qed.

(** Replacing a buffer, with the counters and LEDs of the new list. *)
Lemma bufs_ok_upd s i b b' act busy dled :
  bufs_ok s -> 0 <= i <= N -> buffers s !! Z.to_nat i = Some b ->
  (i = N -> allocated b' = true /\ secondary b' = 15 /\ dirty b' = false) ->
  act = active_buffers s + Z.b2z (user_buffer b') - Z.b2z (user_buffer b)
        + 16 * (Z.b2z (dirty_buffer b') - Z.b2z (dirty_buffer b)) ->
  dled = negb (tally dirty_buffer (<[Z.to_nat i := b']> (buffers s)) =? 0) ->
  (tally user_buffer (<[Z.to_nat i := b']> (buffers s)) <> 0 -> busy = true) ->
  bufs_ok (set_dirty_led dled (set_busy_led busy (set_active_buffers act
    (set_buffers (<[Z.to_nat i := b']> (buffers s)) s)))).
Proof.
  intros Hs Hi Hb Herr Hact Hd Hbusy. pose proof (bo_count s Hs). destruct Hs. split; simpl; try done.
  - unfold zlen. by rewrite length_insert.
  - destruct (decide (i = N)) as [->|].
    + exists b'. rewrite list_lookup_insert_eq; [naive_solver|]. apply lookup_lt_is_Some. by eexists.
    + rewrite list_lookup_insert_ne by lia. done.
  - rewrite !(tally_insert _ _ _ _ _ Hb). lia.
Qed.

(** The data buffers, the memory and the counters, which reporting an error
    leaves alone; it may set the busy LED by the counters. *)
Record same_pool (s s' : bufs) : Prop := {
  sp_bufs : forall i, 0 <= i < N -> buffers s' !! Z.to_nat i = buffers s !! Z.to_nat i;
  sp_data : bufferdata s' = bufferdata s;
  sp_active : active_buffers s' = active_buffers s;
  sp_busy : busy_led s' = busy_led s \/ busy_led s' = negb (active_buffers s =? 0)
}.

Lemma user_error_buffer b l p : user_buffer (set_lastused l (set_position p b)) = user_buffer b.
Proof. reflexivity. Qed.

(** The LEDs after [update_leds] are those of the invariant. *)
Lemma update_leds_ok s :
  bufs_ok s -> exists s', update_leds s = Done tt s' /\ bufs_ok s' /\
    buffers s' = buffers s /\ bufferdata s' = bufferdata s /\ active_buffers s' = active_buffers s /\
    channel s' = channel s /\ busy_led s' = negb (active_buffers s =? 0).
Proof.
  intros Hs. eexists. split; [reflexivity|]. simpl. split; [|done].
  pose proof (dirty_count_eq s Hs) as Hd. pose proof (counts_small s Hs).
  rewrite Hd. pose proof (bo_active s Hs). destruct Hs. split; simpl; try done.
  intros Hu. apply negb_true_iff. lia.
Qed.

Lemma set_error_ok s errornum track sector :
  bufs_ok s -> 0 <= errornum < 256 -> 0 <= track < 256 -> 0 <= sector < 256 ->
  wp (bset_error_ts errornum track sector)
     (fun _ s' => bufs_ok s' /\ same_pool s s' /\ current_error (channel s') = errornum) s.
Proof.
  intros Hs He Ht Hsec. unfold bset_error_ts.
  destruct (set_error_ts_run _ errornum track sector (bo_settings s Hs) He Ht Hsec) as (body & _ & Hrun).
  rewrite wp_bind, wp_zoom. eapply wp_intro; [exact Hrun|]. cbv beta.
  set (c := ErrorMsg.set_channel _ _ _ _ _). rewrite wp_bind, wp_gets. cbv beta. unfold id.
  assert (bufs_ok (put_channel c s)) as Hc.
  { pose proof (settings_ok_channel errornum (message errornum body track sector ++ 13 ::
      fill (99 - zlen (message errornum body track sector)) 0) (zlen (message errornum body track sector))
      ((20 <=? errornum) && negb (errornum =? ERROR_DOSVERSION)) _ (bo_settings s Hs)).
    destruct Hs. by split. }
  pose proof (bo_count s Hs). destruct (bo_err s Hs) as (b & Hb & Ha & Hsec15 & Hd).
  rewrite wp_bind. eapply wp_intro.
  { apply buf_upd_run; [unfold ERRORBUFFER_IDX; lia|exact Hb]. }
  cbv beta. set (b' := set_lastused _ _). set (s1 := set_buffers _ _).
  assert (bufs_ok s1) as Hs1.
  { pose proof (bufs_ok_upd _ N b b' (active_buffers s) (busy_led s) (dirty_led s) Hc) as Hu.
    specialize (Hu ltac:(lia) Hb).
    unfold ERRORBUFFER_IDX in s1. change (bufs_ok s1) with (bufs_ok (set_dirty_led (dirty_led s) (set_busy_led (busy_led s)
      (set_active_buffers (active_buffers s) s1)))). apply Hu; [done| | |].
    - change (active_buffers (put_channel c s)) with (active_buffers s).
      change (user_buffer b') with (user_buffer b). change (dirty_buffer b') with (dirty_buffer b). lia.
    - change (buffers (put_channel c s)) with (buffers s). rewrite (tally_insert _ _ _ _ _ Hb).
      change (dirty_buffer b') with (dirty_buffer b). rewrite (bo_dirty s Hs).
      by replace (tally dirty_buffer (buffers s) - _ + _) with (tally dirty_buffer (buffers s)) by lia.
    - change (buffers (put_channel c s)) with (buffers s). rewrite (tally_insert _ _ _ _ _ Hb).
      change (user_buffer b') with (user_buffer b). intros Hne. apply (bo_busy s Hs). lia. }
  assert (forall i, 0 <= i < N -> buffers s1 !! Z.to_nat i = buffers s !! Z.to_nat i) as Hsame.
  { intros i Hi. unfold s1, ERRORBUFFER_IDX. simpl. apply list_lookup_insert_ne. lia. }
  unfold when. destruct (negb (led_error _) && _).
  - destruct (update_leds_ok s1 Hs1) as (s2 & Hr & Hs2 & Hb2 & Hd2 & Ha2 & Hc2 & Hl2).
    eapply wp_intro; [exact Hr|]. split_and!; [done| |by rewrite Hc2].
    split; [intros i Hi; rewrite Hb2; by apply Hsame|by rewrite Hd2|by rewrite Ha2|by right].
  - rewrite wp_ret. split; [exact Hs1|]. split; [|reflexivity]. split; [done..|by left].
Qed.

(** A freshly allocated buffer. *)
Definition fresh_buffer : buffer_t :=
  set_cleanup (Some cb_callback_dummy) (set_refill (Some cb_callback_dummy)
    (set_secondary BUFFER_SEC_SYSTEM (set_allocated true zero_buffer))).

Lemma alloc_specific_run i b s : 0 <= i -> buffers s !! Z.to_nat i = Some b -> allocated b = false ->
  alloc_specific_buffer i s = Done tt (set_buffers (<[Z.to_nat i := fresh_buffer]> (buffers s)) s).
Proof.
  intros Hi Hb Ha. unfold alloc_specific_buffer, mbind at 1, comp_bind at 1. rewrite (buf_get_run i b s Hi Hb), Ha.
  simpl when. by rewrite (buf_upd_run i _ b s Hi Hb).
Qed.

(** A buffer is in use. *)
Definition in_use (s : bufs) (i : Z) : Prop :=
  exists b, buffers s !! Z.to_nat i = Some b /\ allocated b = true.
Definition is_unused (s : bufs) (i : Z) : Prop :=
  exists b, buffers s !! Z.to_nat i = Some b /\ allocated b = false.

Lemma in_use_cases s i : bufs_ok s -> 0 <= i <= N -> in_use s i \/ is_unused s i.
Proof.
  intros Hs Hi. destruct (buf_in s i Hs Hi) as [b Hb].
  destruct (allocated b) eqn:Ha; [left|right]; exists b; done.
Qed.

Lemma alloc_system_ok s :
  bufs_ok s ->
  wp alloc_system_buffer (fun r s' => bufs_ok s' /\
    match r with
    | Some i => 0 <= i < N /\ is_unused s i /\ (forall j, 0 <= j < i -> in_use s j) /\
                s' = set_buffers (<[Z.to_nat i := fresh_buffer]> (buffers s)) s
    | None => (forall j, 0 <= j < N -> in_use s j) /\ same_pool s s' /\
              current_error (channel s') = ERROR_NO_CHANNEL
    end) s.
Proof.
  intros Hs. unfold alloc_system_buffer. rewrite wp_bind.
  set (Q := fun (r : option Z) (s' : bufs) => match r with
    | Some i => 0 <= i < N /\ is_unused s i /\ (forall j, 0 <= j < i -> in_use s j) /\
                s' = set_buffers (<[Z.to_nat i := fresh_buffer]> (buffers s)) s
    | None => (forall j, 0 <= j < N -> in_use s j) /\ s' = s end).
  pose proof (bo_count s Hs) as HN. apply wp_mono with (P := Q).
  - eapply (wp_loop (fun i s' => 0 <= i <= N /\ (forall j, 0 <= j < i -> in_use s j) /\ s' = s)
      (fun i _ => Z.to_nat (N - i))); [|split_and!; [lia|lia|intros; lia|done]|lia].
    intros i s' (Hi & Hj & ->). destruct (Z.ltb_spec i N) as [Hlt|Hge].
    + destruct (buf_in s i Hs ltac:(lia)) as [b Hb]. rewrite wp_bind.
      eapply wp_intro; [apply buf_get_run; [lia|exact Hb]|]. cbv beta. destruct (allocated b) eqn:Ha; cbv iota beta delta [negb].
      * rewrite wp_ret. split_and!; [lia|lia| |done|lia].
        intros j Hj'. destruct (decide (j = i)) as [->|]; [by exists b|apply Hj; lia].
      * rewrite wp_bind. eapply wp_intro; [apply (alloc_specific_run i b); [lia|done|done]|]. cbv beta.
        rewrite wp_ret. split_and!; [lia|lia|by exists b|done|done].
    + rewrite wp_ret. split; [|done]. intros j Hj'. apply Hj. lia.
  - intros [i|] s'; unfold Q.
    + intros (Hi & (b & Hb & Ha) & Hj & ->). rewrite wp_ret. split; [|split_and!; try lia; [by exists b|done|done]].
      apply (bufs_ok_upd s i b fresh_buffer (active_buffers s) (busy_led s) (dirty_led s)); [done|lia|done|lia| | |].
      * unfold user_buffer, dirty_buffer. rewrite Ha. simpl. lia.
      * rewrite (tally_insert _ _ _ _ _ Hb). unfold dirty_buffer at 2 3. rewrite Ha. simpl.
        rewrite Z.sub_0_r, Z.add_0_r. apply (bo_dirty s Hs).
      * rewrite (tally_insert _ _ _ _ _ Hb). unfold user_buffer at 2 3. rewrite Ha. simpl.
        rewrite Z.sub_0_r, Z.add_0_r. apply (bo_busy s Hs).
    + intros [Hj ->]. rewrite wp_bind. eapply wp_mono; [apply set_error_ok; [done|unfold ERROR_NO_CHANNEL; lia..]|].
      intros _ s' (? & ? & ?). rewrite wp_ret. done.
Qed.

(** The count of active buffers leaves room while a buffer is unused. *)
Lemma room_for_one s i : bufs_ok s -> 0 <= i < N -> is_unused s i -> tally user_buffer (buffers s) + 1 <= N.
Proof.
  intros Hs Hi (b & Hb & Ha). destruct (bo_err _ Hs) as (e & He & Hea & Hsec & _).
  set (b' := set_allocated true (set_secondary 0 b)).
  assert ((<[Z.to_nat i := b']> (buffers s)) !! Z.to_nat N = Some e) as He'.
  { rewrite list_lookup_insert_ne by lia. exact He. }
  pose proof (tally_lt user_buffer _ _ _ He' ltac:(unfold user_buffer; rewrite Hsec; apply andb_false_r)) as Hlt.
  rewrite (tally_insert user_buffer _ _ _ b' Hb) in Hlt. unfold user_buffer at 2 3 in Hlt. rewrite Ha in Hlt.
  pose proof (bo_len s Hs). unfold zlen in *. rewrite length_insert in Hlt. simpl in Hlt. lia.
Qed.

(** An unused buffer becomes a user buffer. *)
Lemma bufs_ok_new s i b b' :
  bufs_ok s -> 0 <= i < N -> buffers s !! Z.to_nat i = Some b -> allocated b = false ->
  user_buffer b' = true -> dirty_buffer b' = false ->
  bufs_ok (set_busy_led true (set_active_buffers (u8 (active_buffers s + 1))
    (set_buffers (<[Z.to_nat i := b']> (buffers s)) s))).
Proof.
  intros Hs Hi Hb Ha Hu Hd. pose proof (counts_small s Hs). pose proof (bo_count s Hs). pose proof (bo_active s Hs).
  pose proof (room_for_one s i Hs Hi ltac:(by exists b)). rewrite u8_id by lia.
  assert (user_buffer b = false /\ dirty_buffer b = false) as [Hu0 Hd0]
    by (unfold user_buffer, dirty_buffer; by rewrite Ha).
  apply (bufs_ok_upd s i b b' (active_buffers s + 1) true (dirty_led s) Hs); [lia|done|lia| | |done].
  - rewrite Hu, Hd, Hu0, Hd0. simpl. lia.
  - rewrite (tally_insert _ _ _ _ _ Hb), Hd, Hd0. simpl. rewrite Z.sub_0_r, Z.add_0_r. apply (bo_dirty s Hs).
Qed.

Lemma alloc_buffer_ok s :
  bufs_ok s ->
  wp alloc_buffer (fun r s' => bufs_ok s' /\
    match r with
    | Some i => 0 <= i < N /\ is_unused s i /\ (forall j, 0 <= j < i -> in_use s j) /\
                buffers s' = <[Z.to_nat i := set_secondary 0 fresh_buffer]> (buffers s) /\
                bufferdata s' = bufferdata s /\ busy_led s' = true /\ channel s' = channel s
    | None => (forall j, 0 <= j < N -> in_use s j) /\ same_pool s s' /\
              current_error (channel s') = ERROR_NO_CHANNEL
    end) s.
Proof.
  intros Hs. unfold alloc_buffer. rewrite wp_bind. eapply wp_mono; [by apply alloc_system_ok|].
  intros [i|] s1 [Hs1 Hr]; [|by rewrite wp_ret]. destruct Hr as (Hi & (b & Hb & Ha) & Hj & ->).
  assert (buffers (set_buffers (<[Z.to_nat i:=fresh_buffer]> (buffers s)) s) !! Z.to_nat i = Some fresh_buffer) as Hb1.
  { apply list_lookup_insert_eq. apply lookup_lt_is_Some. by eexists. }
  rewrite wp_bind. eapply wp_intro; [apply (buf_upd_run i _ fresh_buffer); [lia|exact Hb1]|]. cbv beta.
  rewrite wp_bind, wp_modify, wp_ret.
  split; [|split_and!; try lia; [by exists b|done|simpl; by rewrite list_insert_insert_eq|done..]].
  simpl. unfold set_buffers; simpl. rewrite list_insert_insert_eq.
  exact (bufs_ok_new s i b (set_secondary 0 fresh_buffer) Hs Hi Hb Ha eq_refl eq_refl).
Qed.

(** A run of [count] unused buffers from [a] on. *)
Definition unused_run (s : bufs) (a count : Z) : Prop :=
  0 <= a /\ a + count <= N /\ forall j, a <= j < a + count -> is_unused s j.

Lemma in_use_not_unused s i : in_use s i -> is_unused s i -> False.
Proof. intros (b & Hb & Ha) (b' & Hb' & Ha'). congruence. Qed.

Lemma find_free_run_ok s count :
  bufs_ok s -> 1 <= count ->
  exists freebufs start, find_free_run count s = Done (freebufs, start) s /\
    (if freebufs <? count then forall a, ~ unused_run s a count else freebufs = count /\ unused_run s start count).
Proof.
  intros Hs Hc. pose proof (bo_count s Hs).
  set (Q := fun (r : Z * Z) (s' : bufs) => s' = s /\ if r.1 <? count then forall a, ~ unused_run s a count
    else r.1 = count /\ unused_run s r.2 count).
  enough (wp (find_free_run count) Q s) as (r & s' & Hr & -> & Hq)%wp_done.
  { destruct r as [f st]. exists f, st. done. }
  unfold find_free_run.
  eapply (wp_loop (fun '(i, f, st) s' => s' = s /\ 0 <= i <= N /\ 0 <= f < count /\ f <= i /\ (0 < f -> st = i - f) /\
      (forall j, i - f <= j < i -> is_unused s j) /\ (0 < i - f -> in_use s (i - f - 1)) /\
      (forall a, 0 <= a -> a + count <= i -> exists j, a <= j < a + count /\ in_use s j))
    (fun '(i, _, _) _ => Z.to_nat (N - i))); [|split_and!; try done; try lia; intros; lia|lia].
  intros [[i f] st] s' (-> & Hi & Hf & Hfi & Hst & Hun & Hprev & Hno). destruct (Z.ltb_spec i N) as [Hlt|Hge].
  - destruct (buf_in s i Hs ltac:(lia)) as [b Hb]. rewrite wp_bind.
    eapply wp_intro; [apply buf_get_run; [lia|exact Hb]|]. cbv beta. destruct (allocated b) eqn:Ha.
    + assert (in_use s i) as Huse by (by exists b). rewrite wp_ret. split_and!; try lia; try done.
      * intros _. by replace (i + 1 - 0 - 1) with i by lia.
      * intros a Ha0 Hac. destruct (decide (a + count <= i)) as [|Hn]; [by apply Hno|].
        exists i. split; [lia|done].
    + assert (is_unused s i) as Hui by (by exists b).
      assert ((if f =? 0 then i else st) = i - f) as -> by (destruct (Z.eqb_spec f 0); lia).
      destruct (Z.eqb_spec (f + 1) count) as [Heq|Hne]; rewrite wp_ret.
      * unfold Q. simpl. split; [done|]. replace (f + 1 <? count) with false by lia. split; [done|].
        split_and!; [lia|lia|]. intros j Hj. destruct (decide (j = i)) as [->|]; [done|]. apply Hun. lia.
      * split_and!; try lia; try done.
        { intros j Hj. destruct (decide (j = i)) as [->|]; [done|]. apply Hun. lia. }
        { intros Hp. replace (i + 1 - (f + 1) - 1) with (i - f - 1) by lia. apply Hprev. lia. }
        intros a Ha0 Hac. destruct (decide (a + count <= i)) as [|Hn]; [by apply Hno|].
        exists (i - f - 1). split; [lia|]. apply Hprev. lia.
  - rewrite wp_ret. split; [done|]. simpl. replace (f <? count) with true by lia.
    intros a (Ha0 & Hac & Hall). destruct (Hno a Ha0 ltac:(lia)) as (j & Hj & Hu).
    exact (in_use_not_unused s j Hu (Hall j Hj)).
Qed.

(** The buffer at place [j] of a chain. *)
Definition chain_buffer (start count j : Z) (next : option Z) : buffer_t :=
  set_pvt (PvtBuffer 0 count (Some start) next) (set_secondary 0 fresh_buffer).

Definition linked_buffer (start count j : Z) : buffer_t :=
  chain_buffer start count j (if j =? count - 1 then None else Some (start + j + 1)).

(** The state while the chain is built: the first [i] buffers are done. *)
Definition chaining (s : bufs) (start count i : Z) (s' : bufs) : Prop :=
  bufs_ok (set_busy_led true s') /\ bufferdata s' = bufferdata s /\ channel s' = channel s /\
  (forall j, 0 <= j < i -> buffers s' !! Z.to_nat (start + j) = Some (chain_buffer start count j (Some (start + j + 1)))) /\
  (forall j, 0 <= j <= N -> ~ start <= j < start + i -> buffers s' !! Z.to_nat j = buffers s !! Z.to_nat j).

Lemma chain_step s start count i s' :
  bufs_ok s -> unused_run s start count -> 0 <= i < count -> chaining s start count i s' ->
  wp (alloc_specific_buffer (start + i);;
      modify (fun s => set_active_buffers (u8 (active_buffers s + 1)) s);;
      buf_upd (start + i) (fun b =>
        set_pvt (PvtBuffer 0 count (Some start) (Some (start + i + 1))) (set_secondary 0 b)))
    (fun _ s'' => chaining s start count (i + 1) s'') s'.
Proof.
  intros Hs (Hst & Hend & Hrun) Hi (Hok & Hd & Hch & Hdone & Hrest).
  destruct (Hrun (start + i) ltac:(lia)) as (b & Hb & Ha).
  rewrite <- (Hrest (start + i)) in Hb by lia.
  assert ((Z.to_nat (start + i) < length (buffers s'))%nat) as Hlt by (apply lookup_lt_is_Some; by eexists).
  rewrite wp_bind. eapply wp_intro; [apply (alloc_specific_run _ b); [lia|done|done]|]. cbv beta.
  rewrite wp_bind, wp_modify. cbv beta. eapply wp_intro.
  { apply (buf_upd_run _ _ fresh_buffer); [lia|]. simpl. by apply list_lookup_insert_eq. }
  cbv beta. unfold chaining. simpl. rewrite list_insert_insert_eq. split_and!; [|done|done| |].
  - pose proof (bufs_ok_new _ (start + i) b (chain_buffer start count i (Some (start + i + 1))) Hok ltac:(lia) Hb Ha
      eq_refl eq_refl) as Hn. exact Hn.
  - intros j Hj. destruct (decide (j = i)) as [->|].
    + rewrite list_lookup_insert_eq by done. done.
    + rewrite list_lookup_insert_ne by lia. apply Hdone. lia.
  - intros j Hj Hnot. rewrite list_lookup_insert_ne by lia. apply Hrest; lia.
Qed.

Lemma alloc_linked_ok s count :
  bufs_ok s -> 1 <= count ->
  wp (alloc_linked_buffers count) (fun r s' => bufs_ok s' /\
    match r with
    | Some start => unused_run s start count /\ bufferdata s' = bufferdata s /\ busy_led s' = true /\
        (forall j, 0 <= j < count -> buffers s' !! Z.to_nat (start + j) = Some (linked_buffer start count j)) /\
        (forall j, 0 <= j <= N -> ~ start <= j < start + count -> buffers s' !! Z.to_nat j = buffers s !! Z.to_nat j)
    | None => (forall a, ~ unused_run s a count) /\ same_pool s s' /\
              current_error (channel s') = ERROR_NO_CHANNEL
    end) s.
Proof.
  intros Hs Hc. unfold alloc_linked_buffers. rewrite wp_bind.
  destruct (find_free_run_ok s count Hs Hc) as (f & start & Hrun & Hf).
  eapply wp_intro; [exact Hrun|]. cbv beta iota. destruct (Z.ltb_spec f count) as [Hlt|Hge].
  { rewrite wp_bind. eapply wp_mono; [apply set_error_ok; [done|unfold ERROR_NO_CHANNEL; lia..]|].
    intros _ s' (? & ? & ?). rewrite wp_ret. done. }
  destruct Hf as [_ Hr]. rewrite wp_bind. eapply wp_mono with (P := fun _ s' => chaining s start count count s').
  { apply (wp_for_range (fun i _ s' => chaining s start count i s')); cbv beta.
    - intros i _ s' Hi Hch. by apply chain_step; [..|lia|].
    - intros _ s'. by replace (0 + Z.of_nat (Z.to_nat count)) with count by lia.
    - split_and!; [|done|done|intros; lia|done]. pose proof Hs as Hs'. destruct Hs'. by split. }
  intros _ s' (Hok & Hd & Hch & Hdone & Hrest). rewrite wp_bind, wp_modify. cbv beta.
  pose proof (Hdone (count - 1) ltac:(lia)) as Hlast. rewrite wp_bind. eapply wp_intro.
  { apply (buf_upd_run _ _ (chain_buffer start count (count - 1) (Some (start + count)))); [destruct Hr; lia|].
    simpl. replace (start + count - 1) with (start + (count - 1)) by lia. rewrite Hlast. do 2 f_equal. f_equal. lia. }
  cbv beta. rewrite wp_ret. replace (start + count - 1) with (start + (count - 1)) by lia.
  assert ((Z.to_nat (start + (count - 1)) < length (buffers s'))%nat) as Hlen by (apply lookup_lt_is_Some; by eexists).
  split; [|split_and!; [done|done|done| |]].
  - apply (bufs_ok_upd _ (start + (count - 1)) (chain_buffer start count (count - 1) (Some (start + (count - 1) + 1))) (chain_buffer start count (count - 1) None) (active_buffers s') true
      (dirty_led s') Hok); [destruct Hr; lia|exact Hlast|destruct Hr; lia| | |done].
    + change (user_buffer (chain_buffer _ _ _ _)) with true. change (dirty_buffer (chain_buffer _ _ _ _)) with false.
      simpl. lia.
    + simpl. rewrite (tally_insert _ _ _ _ _ Hlast). change (dirty_buffer (chain_buffer _ _ _ _)) with false. simpl.
      rewrite Z.sub_0_r, Z.add_0_r. apply (bo_dirty _ Hok).
  - intros j Hj. simpl. unfold linked_buffer. destruct (Z.eqb_spec j (count - 1)) as [->|].
    + by rewrite list_lookup_insert_eq by done.
    + destruct Hr. rewrite list_lookup_insert_ne by lia. apply Hdone. lia.
  - intros j Hj Hnot. simpl. destruct Hr. rewrite list_lookup_insert_ne by lia. by apply Hrest.
Qed.

(** Counters and LEDs after buffer [i] changes from [b] to [b'] and
    [update_leds] runs. *)
Lemma bufs_ok_leds s i b b' act :
  bufs_ok s -> 0 <= i < N -> buffers s !! Z.to_nat i = Some b ->
  act = active_buffers s + Z.b2z (user_buffer b') - Z.b2z (user_buffer b)
        + 16 * (Z.b2z (dirty_buffer b') - Z.b2z (dirty_buffer b)) ->
  Z.b2z (user_buffer b') <= Z.b2z (user_buffer b) ->
  bufs_ok (set_dirty_led (negb (get_dirty_buffer_count act =? 0)) (set_busy_led (negb (act =? 0))
    (set_active_buffers act (set_buffers (<[Z.to_nat i := b']> (buffers s)) s)))).
Proof.
  intros Hs Hi Hb Hact Hle. pose proof (bo_active s Hs). pose proof (bo_count s Hs). pose proof (counts_small s Hs).
  pose proof (tally_insert user_buffer _ _ _ b' Hb) as Hu. pose proof (tally_insert dirty_buffer _ _ _ b' Hb) as Hd.
  pose proof (tally_nonneg user_buffer (<[Z.to_nat i:=b']> (buffers s))).
  pose proof (tally_nonneg dirty_buffer (<[Z.to_nat i:=b']> (buffers s))).
  apply (bufs_ok_upd s i b b'); [done|lia|done|lia|done| |].
  - do 2 f_equal. unfold get_dirty_buffer_count. rewrite Z.shiftr_div_pow2 by lia. change (2 ^ 4) with 16.
    symmetry. apply (Z.div_unique_pos _ _ _ (tally user_buffer (<[Z.to_nat i:=b']> (buffers s)))); lia.
  - intros Hne. apply negb_true_iff. lia.
Qed.

Lemma free_buffer_ok s i :
  bufs_ok s -> 0 <= i <= N ->
  wp (free_buffer (Some i)) (fun _ s' => bufs_ok s' /\ bufferdata s' = bufferdata s /\ channel s' = channel s /\
    exists b, buffers s !! Z.to_nat i = Some b /\
    buffers s' = if (secondary b =? 15) || negb (allocated b) then buffers s
                 else <[Z.to_nat i := set_allocated false b]> (buffers s)) s.
Proof.
  intros Hs Hi. destruct (buf_in s i Hs Hi) as [b Hb]. unfold free_buffer. rewrite wp_bind.
  eapply wp_intro; [apply buf_get_run; [lia|exact Hb]|]. cbv beta.
  destruct (Z.eqb_spec (secondary b) 15) as [Hsec|Hsec].
  { rewrite wp_ret. split_and!; [done..|]. exists b. split; [done|]. by rewrite Hsec. }
  destruct (allocated b) eqn:Ha; cbv beta iota delta [negb].
  2: { rewrite wp_ret. split_and!; [done..|]. exists b. split; [done|]. by rewrite Ha, orb_true_r. }
  assert (0 <= i < N) as Hi'.
  { destruct (decide (i = N)) as [->|]; [|lia]. destruct (bo_err s Hs) as (e & He & _ & ? & _). congruence. }
  rewrite wp_bind. eapply wp_intro; [apply (buf_upd_run _ _ b); [lia|done]|]. cbv beta.
  set (s1 := set_buffers _ _).
  set (act := active_buffers s - 16 * Z.b2z (dirty b) - Z.b2z (secondary b <? BUFFER_SEC_SYSTEM)).
  pose proof (bo_active s Hs). pose proof (counts_small s Hs). pose proof (bo_count s Hs).
  assert (16 * Z.b2z (dirty b) <= 16 * tally dirty_buffer (buffers s) /\
          Z.b2z (secondary b <? BUFFER_SEC_SYSTEM) <= tally user_buffer (buffers s)) as [Hd Hu].
  { split.
    - destruct (dirty b) eqn:Hd; [|simpl; lia].
      pose proof (tally_pos dirty_buffer _ _ _ Hb ltac:(unfold dirty_buffer; by rewrite Ha, Hd)). simpl. lia.
    - destruct (secondary b <? BUFFER_SEC_SYSTEM) eqn:Hu; [|simpl; lia].
      pose proof (tally_pos user_buffer _ _ _ Hb ltac:(unfold user_buffer; rewrite Ha, Hu; simpl; apply negb_true_iff; lia)).
      simpl. lia. }
  assert (wp (when (dirty b) (modify (fun s => set_active_buffers (u8 (active_buffers s - 16)) s));;
    when (secondary b <? BUFFER_SEC_SYSTEM) (modify (fun s => set_active_buffers (u8 (active_buffers s - 1)) s)))
    (fun _ s' => s' = set_active_buffers act s1) s1) as Hact.
  { rewrite wp_bind. apply wp_mono with (P := fun _ s' => s' = set_active_buffers (active_buffers s - 16 * Z.b2z (dirty b)) s1).
    - unfold when. destruct (dirty b); [rewrite wp_modify|rewrite wp_ret].
      + simpl in *. rewrite u8_id by lia. done.
      + simpl. by rewrite Z.sub_0_r.
    - intros _ s' ->. unfold act, when. destruct (_ <? _); [rewrite wp_modify|rewrite wp_ret]; simpl in *.
      + rewrite u8_id; [done|destruct (dirty b); simpl in *; lia].
      + by rewrite Z.sub_0_r. }
  rewrite wp_bind in Hact |- *. eapply wp_mono; [exact Hact|]. cbv beta. intros _ s2 Hs2.
  rewrite wp_bind. eapply wp_mono; [exact Hs2|]. cbv beta. intros _ s3 ->.
  unfold update_leds. rewrite wp_modify. split_and!; [|done|done|].
  2: { exists b. split; [done|]. rewrite Ha. by replace (secondary b =? 15) with false by lia. }
  apply (bufs_ok_leds s i b (set_allocated false b) act Hs Hi' Hb).
  - unfold act, user_buffer, dirty_buffer. simpl. rewrite Ha. replace (secondary b =? 15) with false by lia.
    simpl. rewrite andb_true_r. lia.
  - unfold user_buffer at 1. simpl. destruct (user_buffer b); simpl; lia.
Qed.

(** A change of a buffer that the counters do not see. *)
Lemma buf_upd_ok s i f b :
  bufs_ok s -> 0 <= i < N -> buffers s !! Z.to_nat i = Some b ->
  user_buffer (f b) = user_buffer b -> dirty_buffer (f b) = dirty_buffer b ->
  bufs_ok (set_buffers (<[Z.to_nat i := f b]> (buffers s)) s).
Proof.
  intros Hs Hi Hb Hu Hd.
  apply (bufs_ok_upd s i b (f b) (active_buffers s) (busy_led s) (dirty_led s) Hs ltac:(lia) Hb ltac:(lia)).
  - rewrite Hu, Hd. lia.
  - rewrite (tally_insert _ _ _ _ _ Hb), Hd. rewrite (bo_dirty s Hs). do 2 f_equal. lia.
  - rewrite (tally_insert _ _ _ _ _ Hb), Hu. intros Hne. apply (bo_busy s Hs). lia.
Qed.

Lemma mark_buffer_dirty_ok s i b :
  bufs_ok s -> 0 <= i < N -> buffers s !! Z.to_nat i = Some b -> allocated b = true ->
  wp (mark_buffer_dirty i) (fun _ s' => bufs_ok s' /\ buffers s' = <[Z.to_nat i := set_dirty true b]> (buffers s) /\
    bufferdata s' = bufferdata s /\ dirty_led s' = true /\ channel s' = channel s) s.
Proof.
  intros Hs Hi Hb Ha. unfold mark_buffer_dirty. rewrite wp_bind.
  eapply wp_intro; [apply buf_get_run; [lia|exact Hb]|]. cbv beta. unfold when.
  destruct (dirty b) eqn:Hd; cbv beta iota delta [negb].
  - rewrite wp_ret. pose proof (tally_pos dirty_buffer _ _ _ Hb ltac:(unfold dirty_buffer; by rewrite Ha, Hd)).
    split_and!; [done| |done| |done].
    + rewrite list_insert_id; [done|]. rewrite Hb. f_equal. destruct b. simpl in *. by subst.
    + rewrite (bo_dirty s Hs). apply negb_true_iff. lia.
  - rewrite wp_bind. eapply wp_intro; [apply (buf_upd_run _ _ b); [lia|done]|]. cbv beta.
    rewrite wp_modify. split_and!; try done.
    pose proof (bo_active s Hs). pose proof (counts_small s Hs). pose proof (bo_count s Hs).
    destruct (bo_err s Hs) as (e & He & Hea & Hes & Hed).
    pose proof (tally_insert dirty_buffer _ _ _ (set_dirty true b) Hb) as Ht.
    unfold dirty_buffer at 3 4 in Ht. simpl in Ht. rewrite Ha, Hd in Ht. simpl in Ht.
    assert (tally dirty_buffer (buffers s) + 1 <= N).
    { assert ((<[Z.to_nat i := set_dirty true b]> (buffers s)) !! Z.to_nat N = Some e) as He'
        by (rewrite list_lookup_insert_ne by lia; exact He).
      pose proof (tally_lt dirty_buffer _ _ _ He' ltac:(unfold dirty_buffer; rewrite Hed; apply andb_false_r)).
      pose proof (bo_len s Hs). unfold zlen in *. rewrite length_insert in *. lia. }
    simpl. rewrite u8_id by lia.
    apply (bufs_ok_upd s i b (set_dirty true b) (active_buffers s + 16) (busy_led s) true Hs ltac:(lia) Hb ltac:(lia)).
    + unfold user_buffer, dirty_buffer. simpl. rewrite Ha, Hd. simpl. lia.
    + symmetry. apply negb_true_iff. lia.
    + rewrite (tally_insert _ _ _ _ _ Hb). change (user_buffer (set_dirty true b)) with (user_buffer b).
      intros Hne. apply (bo_busy s Hs). lia.
Qed.

Lemma mark_buffer_clean_ok s i b :
  bufs_ok s -> 0 <= i < N -> buffers s !! Z.to_nat i = Some b -> allocated b = true ->
  wp (mark_buffer_clean i) (fun _ s' => bufs_ok s' /\ buffers s' = <[Z.to_nat i := set_dirty false b]> (buffers s) /\
    bufferdata s' = bufferdata s /\ channel s' = channel s) s.
Proof.
  intros Hs Hi Hb Ha. unfold mark_buffer_clean. rewrite wp_bind.
  eapply wp_intro; [apply buf_get_run; [lia|exact Hb]|]. cbv beta. unfold when at 1.
  destruct (dirty b) eqn:Hd; cbv beta iota.
  - rewrite wp_bind. eapply wp_intro; [apply (buf_upd_run _ _ b); [lia|done]|]. cbv beta.
    rewrite wp_bind, wp_modify. cbv beta. rewrite wp_bind, wp_gets. cbv beta. unfold id.
    pose proof (bo_active s Hs). pose proof (counts_small s Hs). pose proof (bo_count s Hs).
    pose proof (tally_pos dirty_buffer _ _ _ Hb ltac:(unfold dirty_buffer; by rewrite Ha, Hd)).
    pose proof (tally_insert dirty_buffer _ _ _ (set_dirty false b) Hb) as Ht.
    unfold dirty_buffer at 3 4 in Ht. simpl in Ht. rewrite Ha, Hd in Ht. simpl in Ht.
    simpl. rewrite u8_id by lia.
    assert (get_dirty_buffer_count (active_buffers s - 16) = tally dirty_buffer (<[Z.to_nat i:=set_dirty false b]> (buffers s))) as Hc.
    { unfold get_dirty_buffer_count. rewrite Z.shiftr_div_pow2 by lia. change (2 ^ 4) with 16. rewrite Ht.
      symmetry. apply (Z.div_unique_pos _ _ _ (tally user_buffer (buffers s))); lia. }
    assert (forall dled, dled = negb (get_dirty_buffer_count (active_buffers s - 16) =? 0) ->
      bufs_ok (set_dirty_led dled (set_busy_led (busy_led s) (set_active_buffers (active_buffers s - 16)
        (set_buffers (<[Z.to_nat i:=set_dirty false b]> (buffers s)) s))))) as Hok.
    { intros dled ->. apply (bufs_ok_upd s i b (set_dirty false b) _ (busy_led s) _ Hs ltac:(lia) Hb ltac:(lia)).
      - unfold user_buffer, dirty_buffer. simpl. rewrite Ha, Hd. simpl. lia.
      - by rewrite Hc.
      - rewrite (tally_insert _ _ _ _ _ Hb). change (user_buffer (set_dirty false b)) with (user_buffer b).
        intros Hne. apply (bo_busy s Hs). lia. }
    unfold when. destruct (Z.eqb_spec (get_dirty_buffer_count (active_buffers s - 16)) 0) as [He|He].
    + rewrite wp_modify. split; [|done]. by apply Hok.
    + rewrite wp_ret. split; [|done]. apply (Hok (dirty_led s)). rewrite (bo_dirty s Hs).
      transitivity true; [apply negb_true_iff; lia|done].
  - rewrite wp_ret. split_and!; [done| |done|done].
    rewrite list_insert_id; [done|]. rewrite Hb. f_equal. destruct b. simpl in *. by subst.
Qed.

(** The operations of the pool as commands.  The guards are those of the
    callers: only an allocated buffer is marked or renamed, and a buffer stays
    on its side of [BUFFER_SEC_SYSTEM] when its address is set.  A user buffer
    ([BDirty]) and a system buffer ([BDirtySystem]) are marked dirty by the
    same function. *)
Inductive bop :=
| BAllocSystem | BAlloc | BLinked (count : Z) | BFree (i : Z) | BDirty (i : Z) | BDirtySystem (i : Z) | BClean (i : Z)
| BStick (i : Z) | BUnstick (i : Z) | BWrite (i : Z) | BSecondary (i sec : Z) | BFind (sec : Z)
| BError (errornum track sector : Z).

Definition bop_range (op : bop) : Prop :=
  match op with
  | BLinked count => 1 <= count < 256
  | BFree i => 0 <= i <= N
  | BDirty i | BDirtySystem i | BClean i | BStick i | BUnstick i | BWrite i | BSecondary i _ => 0 <= i < N
  | BError e t s => 0 <= e < 256 /\ 0 <= t < 256 /\ 0 <= s < 256
  | _ => True
  end.

Definition if_allocated (i : Z) (m : comp bufs unit) : comp bufs unit := b ← buf_get i; when (allocated b) m.

Definition run_bop (op : bop) : comp bufs unit :=
  match op with
  | BAllocSystem => alloc_system_buffer;; mret tt
  | BAlloc => alloc_buffer;; mret tt
  | BLinked count => alloc_linked_buffers count;; mret tt
  | BFree i => free_buffer (Some i)
  | BDirty i => b ← buf_get i; when (user_buffer b) (mark_buffer_dirty i)
  | BDirtySystem i => b ← buf_get i; when (allocated b && negb (user_buffer b)) (mark_buffer_dirty i)
  | BClean i => if_allocated i (mark_buffer_clean i)
  | BStick i => stick_buffer i
  | BUnstick i => unstick_buffer i
  | BWrite i => mark_write_buffer i
  | BSecondary i sec =>
      b ← buf_get i;
      when (Bool.eqb (user_buffer b) (user_buffer (set_secondary sec b))) (buf_upd i (set_secondary sec))
  | BFind sec => find_buffer sec;; mret tt
  | BError e t s => bset_error_ts e t s
  end.

Fixpoint run_bops (ops : list bop) : comp bufs unit :=
  match ops with
  | [] => mret tt
  | op :: ops => run_bop op;; run_bops ops
  end.

Lemma buf_upd_wp s i f :
  bufs_ok s -> 0 <= i < N ->
  (forall b, user_buffer (f b) = user_buffer b) -> (forall b, dirty_buffer (f b) = dirty_buffer b) ->
  wp (buf_upd i f) (fun _ s' => bufs_ok s') s.
Proof.
  intros Hs Hi Hu Hd. destruct (buf_in s i Hs ltac:(lia)) as [b Hb].
  eapply wp_intro; [apply (buf_upd_run i f b); [lia|done]|]. by apply (buf_upd_ok s i f b).
Qed.

Lemma find_buffer_ok s sec :
  bufs_ok s ->
  wp (find_buffer sec) (fun r s' => s' = s /\
    let matches j := exists b, buffers s !! Z.to_nat j = Some b /\ allocated b = true /\ secondary b = sec in
    match r with
    | Some i => 0 <= i <= N /\ matches i /\ forall j, 0 <= j < i -> ~ matches j
    | None => forall j, 0 <= j <= N -> ~ matches j
    end) s.
Proof.
  intros Hs. unfold find_buffer. cbv zeta. pose proof (bo_count s Hs).
  eapply (wp_loop (fun i s' => s' = s /\ 0 <= i <= N + 1 /\ forall j, 0 <= j < i -> ~ exists b,
    buffers s !! Z.to_nat j = Some b /\ allocated b = true /\ secondary b = sec) (fun i _ => Z.to_nat (N + 1 - i)));
    [|split_and!; try done; try lia; intros; lia|lia].
  intros i s' (-> & Hi & Hno). destruct (Z.ltb_spec i (N + 1)) as [Hlt|Hge].
  - destruct (buf_in s i Hs ltac:(lia)) as [b Hb]. rewrite wp_bind.
    eapply wp_intro; [apply buf_get_run; [lia|exact Hb]|]. cbv beta.
    destruct (allocated b && (secondary b =? sec)) eqn:E; rewrite wp_ret.
    + apply andb_true_iff in E as [Ha Hsec]. apply Z.eqb_eq in Hsec. split_and!; [done|lia|lia|by exists b|done].
    + split_and!; [done|lia|lia| |lia]. intros j Hj. destruct (decide (j = i)) as [->|]; [|apply Hno; lia].
      intros (b' & Hb' & Ha & Hsec). replace b' with b in * by congruence. rewrite Ha in E. simpl in E. lia.
  - rewrite wp_ret. split; [done|]. intros j Hj. apply Hno. lia.
Qed.

Lemma user_allocated b : user_buffer b = true -> allocated b = true.
Proof. unfold user_buffer. by intros [[? _]%andb_true_iff _]%andb_true_iff. Qed.

Lemma run_bop_ok op s : bufs_ok s -> bop_range op -> wp (run_bop op) (fun _ s' => bufs_ok s') s.
Proof.
  intros Hs Hop. destruct op as [| |count|i|i|i|i|i|i|i|i sec|sec|e t sec]; simpl in *; unfold if_allocated.
  1-3: rewrite wp_bind; (eapply wp_mono; [first [by apply alloc_system_ok|by apply alloc_buffer_ok|apply alloc_linked_ok; [done|lia]]|]);
    intros r s' [Hs' _]; by rewrite wp_ret.
  - eapply wp_mono; [by apply free_buffer_ok|]. by intros _ s' [Hs' _].
  - destruct (buf_in s i Hs ltac:(lia)) as [b Hb]. rewrite wp_bind.
    eapply wp_intro; [apply buf_get_run; [lia|exact Hb]|]. cbv beta. unfold when.
    destruct (user_buffer b) eqn:Hu; [|by rewrite wp_ret].
    eapply wp_mono; [by apply (mark_buffer_dirty_ok s i b); [..|apply user_allocated]|]. by intros _ s' [Hs' _].
  - destruct (buf_in s i Hs ltac:(lia)) as [b Hb]. rewrite wp_bind.
    eapply wp_intro; [apply buf_get_run; [lia|exact Hb]|]. cbv beta. unfold when.
    destruct (allocated b && negb (user_buffer b)) eqn:Hu; [|by rewrite wp_ret]. apply andb_true_iff in Hu as [Ha _].
    eapply wp_mono; [by apply (mark_buffer_dirty_ok s i b)|]. by intros _ s' [Hs' _].
  - destruct (buf_in s i Hs ltac:(lia)) as [b Hb]. rewrite wp_bind.
    eapply wp_intro; [apply buf_get_run; [lia|exact Hb]|]. cbv beta. unfold when.
    destruct (allocated b) eqn:Ha; [|by rewrite wp_ret].
    eapply wp_mono; [by apply (mark_buffer_clean_ok s i b)|]. by intros _ s' [Hs' _].
  - by apply buf_upd_wp.
  - by apply buf_upd_wp.
  - unfold mark_write_buffer. rewrite wp_bind. eapply wp_mono; [by apply buf_upd_wp|]. cbv beta.
    intros _ s' Hs'. by apply buf_upd_wp.
  - destruct (buf_in s i Hs ltac:(lia)) as [b Hb]. rewrite wp_bind.
    eapply wp_intro; [apply buf_get_run; [lia|exact Hb]|]. cbv beta. unfold when.
    destruct (Bool.eqb _ _) eqn:E; [|by rewrite wp_ret]. apply Bool.eqb_prop in E.
    eapply wp_intro; [apply (buf_upd_run _ _ b); [lia|done]|]. by apply (buf_upd_ok s i _ b).
  - rewrite wp_bind. eapply wp_mono; [by apply find_buffer_ok|]. intros r s' [-> _]. by rewrite wp_ret.
  - eapply wp_mono; [apply set_error_ok; naive_solver|]. by intros _ s' [Hs' _].
Qed.

Lemma run_bops_ok ops s : Forall bop_range ops -> bufs_ok s -> wp (run_bops ops) (fun _ s' => bufs_ok s') s.
Proof.
  intros Hops. revert s. induction Hops as [|op ops Hop _ IH]; intros s Hs; simpl; [by rewrite wp_ret|].
  rewrite wp_bind. eapply wp_mono; [by apply run_bop_ok|]. cbv beta. intros _ s' Hs'. by apply IH.
Qed.

Lemma tally_zero f l : Forall (fun b : buffer_t => f b = false) l -> tally f l = 0.
Proof. induction 1 as [|b l Hb _ IH]; [done|]. rewrite tally_cons, Hb, IH. done. Qed.

(** ** The busy LED

    Allocating a user buffer switches it on; freeing one sets it by the
    counters of user and dirty buffers.  While only user buffers are dirty it
    is on exactly when there is one. *)
Record busy_exact (s : bufs) : Prop := {
  be_led : busy_led s = true -> tally user_buffer (buffers s) <> 0;
  be_dirty : forall i b, buffers s !! i = Some b -> dirty_buffer b = true -> user_buffer b = true
}.

Lemma wp_both {A} (m : comp bufs A) P Q s : wp m P s -> wp m Q s -> wp m (fun a s' => P a s' /\ Q a s') s.
Proof. intros (a & s' & Hr & HP)%wp_done (a' & s'' & Hr' & HQ)%wp_done. eapply wp_intro; [exact Hr|]. rewrite Hr in Hr'. by injection Hr' as <- <-. Qed.

Lemma busy_led_exact s : bufs_ok s -> busy_exact s -> busy_led s = negb (tally user_buffer (buffers s) =? 0).
Proof.
  intros Hs [Hl _]. pose proof (bo_busy s Hs) as Hbusy. destruct (busy_led s); symmetry; [apply negb_true_iff|apply negb_false_iff].
  - specialize (Hl eq_refl). lia.
  - destruct (Z.eqb_spec (tally user_buffer (buffers s)) 0); [done|]. by discriminate Hbusy.
Qed.

Lemma no_user_no_dirty s : bufs_ok s -> (forall i b, buffers s !! i = Some b -> dirty_buffer b = true -> user_buffer b = true) ->
  active_buffers s <> 0 -> tally user_buffer (buffers s) <> 0.
Proof.
  intros Hs Hd Hne Hu. rewrite (bo_active s Hs), Hu in Hne. apply Hne. rewrite tally_zero; [done|]. apply Forall_forall. intros b Hb.
  apply list_elem_of_lookup_1 in Hb as [i Hi]. destruct (dirty_buffer b) eqn:E; [|done].
  pose proof (tally_pos user_buffer _ _ _ Hi (Hd i b Hi E)). lia.
Qed.

(** A change that keeps user buffers and makes no others dirty. *)
Lemma busy_exact_upd s s' i b b' :
  busy_exact s -> buffers s !! Z.to_nat i = Some b -> buffers s' = <[Z.to_nat i := b']> (buffers s) -> busy_led s' = busy_led s ->
  user_buffer b' = user_buffer b -> (dirty_buffer b' = true -> user_buffer b' = true) -> busy_exact s'.
Proof.
  intros [Hl Hd] Hb Hbs Hled Hu Hd'. split; rewrite Hbs.
  - rewrite Hled, (tally_insert _ _ _ _ _ Hb), Hu. intros Hb1. specialize (Hl Hb1). lia.
  - intros j c. destruct (decide (Z.to_nat i = j)) as [<-|Hne]; [|rewrite list_lookup_insert_ne by done; apply Hd].
    rewrite list_lookup_insert_eq by (apply lookup_lt_is_Some; by eexists). by intros [= <-].
Qed.

(** An error message. *)
Lemma busy_exact_error s s' : bufs_ok s -> busy_exact s -> bufs_ok s' -> same_pool s s' -> busy_exact s'.
Proof.
  intros Hs [Hl Hd] Hs' [Hb _ Ha Hbusy]. pose proof (bo_active s Hs) as Hact. pose proof (bo_active s' Hs') as Hact'.
  pose proof (counts_small s Hs). pose proof (counts_small s' Hs'). pose proof (bo_count s Hs).
  assert (tally user_buffer (buffers s') = tally user_buffer (buffers s)) as Ht by lia. split.
  - rewrite Ht. destruct Hbusy as [-> | ->]; [exact Hl|]. intros Hne%negb_true_iff. apply no_user_no_dirty; [done|done|lia].
  - intros i b Hi Hdb. destruct (decide (i = Z.to_nat N)) as [->|Hne].
    + destruct (bo_err s' Hs') as (e & He & _ & _ & Hed). replace b with e in Hdb by congruence. unfold dirty_buffer in Hdb.
      by rewrite Hed, andb_false_r in Hdb.
    + pose proof (lookup_lt_Some _ _ _ Hi). pose proof (bo_len s' Hs') as Hlen. unfold zlen in Hlen.
      rewrite <- (Nat2Z.id i), Hb in Hi by lia. by apply (Hd _ _ Hi).
Qed.

(** The LED is set by the counters. *)
Lemma free_buffer_led s i : bufs_ok s -> 0 <= i <= N ->
  wp (free_buffer (Some i)) (fun _ s' => s' = s \/ busy_led s' = negb (active_buffers s' =? 0)) s.
Proof.
  intros Hs Hi. destruct (buf_in s i Hs Hi) as [b Hb]. unfold free_buffer. rewrite wp_bind.
  eapply wp_intro; [apply buf_get_run; [lia|exact Hb]|]. cbv beta.
  destruct (secondary b =? 15); [rewrite wp_ret; by left|]. destruct (negb (allocated b)); [rewrite wp_ret; by left|].
  rewrite wp_bind. eapply wp_intro; [apply (buf_upd_run _ _ b); [lia|done]|]. cbv beta.
  rewrite wp_bind. apply wp_mono with (P := fun _ _ => True).
  { unfold when. destruct (dirty b); [by rewrite wp_modify|by rewrite wp_ret]. }
  intros _ s1 _. rewrite wp_bind. apply wp_mono with (P := fun _ _ => True).
  { unfold when. destruct (_ <? _); [by rewrite wp_modify|by rewrite wp_ret]. }
  intros _ s2 _. unfold update_leds. rewrite wp_modify. by right.
Qed.

Lemma mark_dirty_led s i b : 0 <= i -> buffers s !! Z.to_nat i = Some b ->
  wp (mark_buffer_dirty i) (fun _ s' => busy_led s' = busy_led s) s.
Proof.
  intros Hi Hb. unfold mark_buffer_dirty. rewrite wp_bind. eapply wp_intro; [by apply buf_get_run|]. cbv beta.
  unfold when. destruct (negb (dirty b)); [|by rewrite wp_ret]. rewrite wp_bind.
  eapply wp_intro; [by apply (buf_upd_run _ _ b)|]. by rewrite wp_modify.
Qed.

Lemma mark_clean_led s i b : 0 <= i -> buffers s !! Z.to_nat i = Some b ->
  wp (mark_buffer_clean i) (fun _ s' => busy_led s' = busy_led s) s.
Proof.
  intros Hi Hb. unfold mark_buffer_clean. rewrite wp_bind. eapply wp_intro; [by apply buf_get_run|]. cbv beta.
  unfold when at 1. destruct (dirty b); [|by rewrite wp_ret]. rewrite wp_bind.
  eapply wp_intro; [by apply (buf_upd_run _ _ b)|]. cbv beta. rewrite wp_bind, wp_modify, wp_bind, wp_gets. cbv beta.
  unfold when. destruct (_ =? _); [by rewrite wp_modify|by rewrite wp_ret].
Qed.

(** A system buffer was allocated, or the error reported. *)
Lemma busy_exact_fresh s i b : busy_exact s -> buffers s !! Z.to_nat i = Some b -> allocated b = false ->
  busy_exact (set_buffers (<[Z.to_nat i := fresh_buffer]> (buffers s)) s).
Proof. intros Hb Hi Ha. eapply (busy_exact_upd s _ i b fresh_buffer Hb Hi); try done. unfold user_buffer. by rewrite Ha. Qed.

(** User buffers were allocated: the LED is on and nothing more is dirty. *)
Lemma busy_exact_alloc s s' i b : busy_exact s -> buffers s' !! i = Some b -> user_buffer b = true ->
  (forall j c, buffers s' !! j = Some c -> dirty_buffer c = true -> buffers s !! j = Some c) -> busy_exact s'.
Proof.
  intros [_ Hd] Hi Hu Hold. split.
  - intros _. pose proof (tally_pos user_buffer _ _ _ Hi Hu). lia.
  - intros j c Hj Hc. by apply (Hd j c (Hold j c Hj Hc)).
Qed.

Definition marks_system (op : bop) : bool := match op with BDirtySystem _ => true | _ => false end.

Lemma buf_upd_busy s i f : bufs_ok s -> busy_exact s -> 0 <= i < N ->
  (forall b, user_buffer (f b) = user_buffer b) -> (forall b, dirty_buffer (f b) = dirty_buffer b) ->
  wp (buf_upd i f) (fun _ s' => busy_exact s') s.
Proof.
  intros Hs Hbe Hi Hu Hd. destruct (buf_in s i Hs ltac:(lia)) as [b Hb].
  eapply wp_intro; [apply (buf_upd_run i f b); [lia|done]|]. apply (busy_exact_upd s _ i b (f b)); try done.
  rewrite Hu, Hd. by apply (be_dirty s Hbe _ _ Hb).
Qed.

Lemma alloc_linked_busy s count : bufs_ok s -> busy_exact s -> 1 <= count ->
  wp (alloc_linked_buffers count) (fun _ s' => busy_exact s') s.
Proof.
  intros Hs Hbe Hc. eapply wp_mono; [by apply alloc_linked_ok|]. intros [start|] s' [Hs' Hr].
  - destruct Hr as ((Hst & Hend & _) & _ & _ & Hdone & Hrest).
    apply (busy_exact_alloc s s' (Z.to_nat (start + 0)) (linked_buffer start count 0) Hbe); [by apply Hdone; lia|done|].
    intros j c Hj Hd. pose proof (lookup_lt_Some _ _ _ Hj). pose proof (bo_len s' Hs') as Hlen. unfold zlen in Hlen.
    destruct (decide (start <= Z.of_nat j < start + count)) as [Hin|Hout].
    + specialize (Hdone (Z.of_nat j - start) ltac:(lia)). replace (Z.to_nat _) with j in Hdone by lia.
      rewrite Hdone in Hj. by injection Hj as <-.
    + specialize (Hrest (Z.of_nat j) ltac:(lia) Hout). rewrite Nat2Z.id in Hrest. by rewrite <- Hrest.
  - destruct Hr as (_ & Hsame & _). by apply (busy_exact_error s).
Qed.

Lemma free_buffer_busy s i : bufs_ok s -> busy_exact s -> 0 <= i <= N ->
  wp (free_buffer (Some i)) (fun _ s' => busy_exact s') s.
Proof.
  intros Hs Hbe Hi. eapply wp_mono; [apply (wp_both _ _ _ _ (free_buffer_ok s i Hs Hi) (free_buffer_led s i Hs Hi))|]. cbv beta.
  intros _ s' [(Hs' & _ & _ & b & Hb & Hbs) Hled]. destruct Hled as [->|Hled]; [done|].
  assert (forall j c, buffers s' !! j = Some c -> dirty_buffer c = true -> user_buffer c = true) as Hd.
  { intros j c. rewrite Hbs. destruct (_ || _); [apply Hbe|].
    destruct (decide (Z.to_nat i = j)) as [<-|Hne]; [|rewrite list_lookup_insert_ne by done; apply Hbe].
    rewrite list_lookup_insert_eq by (apply lookup_lt_is_Some; by eexists). by intros [= <-]. }
  split; [|exact Hd]. rewrite Hled. intros Hne%negb_true_iff. apply no_user_no_dirty; [done|done|lia].
Qed.

Lemma run_bop_busy op s : bufs_ok s -> busy_exact s -> bop_range op -> marks_system op = false ->
  wp (run_bop op) (fun _ s' => busy_exact s') s.
Proof.
  intros Hs Hbe Hop Hm. destruct op as [| |count|i|i|i|i|i|i|i|i sec|sec|e t sec]; simpl in *; unfold if_allocated.
  - rewrite wp_bind. eapply wp_mono; [by apply alloc_system_ok|]. intros [i|] s' [Hs' Hr]; rewrite wp_ret.
    + destruct Hr as (_ & (b & Hb & Ha) & _ & ->). by eapply busy_exact_fresh.
    + destruct Hr as (_ & Hsame & _). by apply (busy_exact_error s).
  - rewrite wp_bind. eapply wp_mono; [by apply alloc_buffer_ok|]. intros [i|] s' [Hs' Hr]; rewrite wp_ret.
    + destruct Hr as (_ & (b & Hb & Ha) & _ & Hbs & _).
      assert (Z.to_nat i < length (buffers s))%nat as Hlt by (apply lookup_lt_is_Some; by eexists).
      apply (busy_exact_alloc s s' (Z.to_nat i) (set_secondary 0 fresh_buffer) Hbe); [by rewrite Hbs, list_lookup_insert_eq|done|].
      intros j c. rewrite Hbs. destruct (decide (Z.to_nat i = j)) as [<-|Hne]; [|by rewrite list_lookup_insert_ne].
      rewrite list_lookup_insert_eq by done. by intros [= <-].
    + destruct Hr as (_ & Hsame & _). by apply (busy_exact_error s).
  - rewrite wp_bind. eapply wp_mono; [by apply alloc_linked_busy; [..|lia]|]. intros r s' Hs'. by rewrite wp_ret.
  - by apply free_buffer_busy.
  - destruct (buf_in s i Hs ltac:(lia)) as [b Hb]. rewrite wp_bind.
    eapply wp_intro; [apply buf_get_run; [lia|exact Hb]|]. cbv beta. unfold when.
    destruct (user_buffer b) eqn:Hu; [|by rewrite wp_ret]. pose proof (user_allocated b Hu) as Ha.
    eapply wp_mono; [apply (wp_both _ _ _ _ (mark_buffer_dirty_ok s i b Hs Hop Hb Ha) (mark_dirty_led s i b ltac:(lia) Hb))|].
    cbv beta. intros _ s' [(_ & Hbs & _) Hl]. by apply (busy_exact_upd s s' i b (set_dirty true b)).
  - done.
  - destruct (buf_in s i Hs ltac:(lia)) as [b Hb]. rewrite wp_bind.
    eapply wp_intro; [apply buf_get_run; [lia|exact Hb]|]. cbv beta. unfold when.
    destruct (allocated b) eqn:Ha; [|by rewrite wp_ret].
    eapply wp_mono; [apply (wp_both _ _ _ _ (mark_buffer_clean_ok s i b Hs Hop Hb Ha) (mark_clean_led s i b ltac:(lia) Hb))|].
    cbv beta. intros _ s' [(_ & Hbs & _) Hl]. apply (busy_exact_upd s s' i b (set_dirty false b)); try done.
    unfold dirty_buffer. simpl. by rewrite andb_false_r.
  - by apply buf_upd_busy.
  - by apply buf_upd_busy.
  - unfold mark_write_buffer. rewrite wp_bind.
    eapply wp_mono; [apply (wp_both _ (fun _ s' => bufs_ok s') (fun _ s' => busy_exact s')); [by apply buf_upd_wp|by apply buf_upd_busy]|].
    cbv beta. intros _ s' [Hs' Hbe']. by apply buf_upd_busy.
  - destruct (buf_in s i Hs ltac:(lia)) as [b Hb]. rewrite wp_bind.
    eapply wp_intro; [apply buf_get_run; [lia|exact Hb]|]. cbv beta. unfold when.
    destruct (Bool.eqb _ _) eqn:E; [|by rewrite wp_ret]. apply Bool.eqb_prop in E.
    eapply wp_intro; [apply (buf_upd_run _ _ b); [lia|done]|]. apply (busy_exact_upd s _ i b (set_secondary sec b)); try done.
    rewrite <- E. by apply (be_dirty s Hbe _ _ Hb).
  - rewrite wp_bind. eapply wp_mono; [by apply find_buffer_ok|]. intros r s' [-> _]. by rewrite wp_ret.
  - eapply wp_mono; [apply set_error_ok; naive_solver|]. intros _ s' (Hs' & Hsame & _). by apply (busy_exact_error s).
Qed.

Lemma run_bops_busy ops s : Forall bop_range ops -> Forall (fun op => marks_system op = false) ops -> bufs_ok s -> busy_exact s ->
  wp (run_bops ops) (fun _ s' => busy_exact s') s.
Proof.
  intros Hops. revert s. induction Hops as [|op ops Hop _ IH]; intros s Hm Hs Hbe; simpl; [by rewrite wp_ret|].
  apply Forall_cons in Hm as [Hm1 Hm]. rewrite wp_bind.
  eapply wp_mono; [apply (wp_both _ _ _ _ (run_bop_ok op s Hs Hop) (run_bop_busy op s Hs Hbe Hop Hm1))|]. cbv beta.
  intros _ s' [Hs' Hbe']. by apply IH.
Qed.

(** The state before [buffers_init]: no counters, no LEDs. *)
Record power_on (s : bufs) : Prop := {
  po_count : 0 < N <= 15;
  po_data : zlen (bufferdata s) = 256 * N;
  po_bytes : bytes (bufferdata s);
  po_active : active_buffers s = 0;
  po_busy : busy_led s = false;
  po_dirty : dirty_led s = false;
  po_settings : settings_ok (channel s)
}.

Lemma buffers_init_ok s : power_on s -> wp buffers_init (fun _ s' => bufs_ok s') s.
Proof.
  intros []. unfold buffers_init. rewrite wp_bind, wp_modify. cbv beta. eapply wp_intro.
  { apply (buf_upd_run _ _ zero_buffer); [unfold ERRORBUFFER_IDX; lia|]. simpl. apply lookup_replicate_2.
    unfold ERRORBUFFER_IDX. lia. }
  cbv beta. unfold ERRORBUFFER_IDX. simpl. set (e := set_cleanup _ _).
  assert (forall f, f zero_buffer = false -> f e = false ->
    tally f (<[Z.to_nat N := e]> (replicate (Z.to_nat (N + 1)) zero_buffer)) = 0) as Ht.
  { intros f Hz He. apply tally_zero, Forall_insert; [by apply Forall_replicate|done]. }
  split; simpl; rewrite ?(Ht user_buffer), ?(Ht dirty_buffer) by done; try done; try lia.
  - unfold zlen. rewrite length_insert, length_replicate. lia.
  - exists e. split; [|done]. apply list_lookup_insert_eq. rewrite length_replicate. lia.
Qed.

Lemma buffers_init_busy s : power_on s -> wp buffers_init (fun _ s' => busy_exact s') s.
Proof.
  intros []. unfold buffers_init. rewrite wp_bind, wp_modify. cbv beta. eapply wp_intro.
  { apply (buf_upd_run _ _ zero_buffer); [unfold ERRORBUFFER_IDX; lia|]. simpl. apply lookup_replicate_2.
    unfold ERRORBUFFER_IDX. lia. }
  cbv beta. unfold ERRORBUFFER_IDX. simpl. split; simpl; [congruence|]. intros i b Hi Hd.
  apply list_lookup_insert_Some in Hi as [(_ & <- & _)|(_ & Hi)]; [done|]. by apply lookup_replicate in Hi as [-> _].
Qed.

(** C24: With at most 15 buffers, from power-on through [buffers_init] and any
    sequence of operations of the pool, every operation returns (no access
    outside the arrays), and in every state [active_buffers] is the number of
    user buffers plus sixteen times the number of dirty buffers, and the dirty
    LED is on exactly when a buffer is dirty. The busy LED is on while a user
    buffer is allocated, and, as long as no system buffer was marked dirty,
    off otherwise (a dirty system buffer switches it on with the next
    [update_leds]). The configurations with 32 buffers are excluded: there the
    four-bit counter overflows ([dirty_count_overflows]). *)
Theorem buffers_keep_invariant ops s (Hs : power_on s) (Hops : Forall bop_range ops) :
  wp (buffers_init;; run_bops ops) (fun _ s' => bufs_ok s' /\
    active_buffers s' = tally user_buffer (buffers s') + 16 * tally dirty_buffer (buffers s') /\
    dirty_led s' = negb (tally dirty_buffer (buffers s') =? 0) /\
    (tally user_buffer (buffers s') <> 0 -> busy_led s' = true) /\
    (Forall (fun op => marks_system op = false) ops -> busy_led s' = negb (tally user_buffer (buffers s') =? 0))) s.
Proof.
  rewrite wp_bind. eapply wp_mono; [apply (wp_both _ _ _ _ (buffers_init_ok s Hs) (buffers_init_busy s Hs))|]. cbv beta.
  intros _ s1 [Hs1 Hb1]. destruct (decide (Forall (fun op => marks_system op = false) ops)) as [Hm|Hm].
  - eapply wp_mono; [apply (wp_both _ _ _ _ (run_bops_ok ops s1 Hops Hs1) (run_bops_busy ops s1 Hops Hm Hs1 Hb1))|]. cbv beta.
    intros _ s' [Hs' Hb']. pose proof Hs' as []. split_and!; try done. intros _. by apply busy_led_exact.
  - eapply wp_mono; [by apply run_bops_ok|]. cbv beta. intros _ s' Hs'. pose proof Hs' as []. by split_and!.
Qed.

(** [alloc_linked_buffers] returns a chain of [count] previously unused
    neighbouring buffers, linked in order, with the other buffers unchanged;
    it fails, with error 70, only when no such run exists. *)
Theorem alloc_linked_buffers_contiguous s count (Hs : bufs_ok s) (Hc : 1 <= count < 256) :
  exists r s', alloc_linked_buffers count s = Done r s' /\ bufs_ok s' /\
    match r with
    | Some start => unused_run s start count /\ bufferdata s' = bufferdata s /\ busy_led s' = true /\
        (forall j, 0 <= j < count -> buffers s' !! Z.to_nat (start + j) = Some (linked_buffer start count j)) /\
        (forall j, 0 <= j <= N -> ~ start <= j < start + count -> buffers s' !! Z.to_nat j = buffers s !! Z.to_nat j)
    | None => (forall a, ~ unused_run s a count) /\ same_pool s s' /\
              current_error (channel s') = ERROR_NO_CHANNEL
    end.
Proof. apply wp_done, alloc_linked_ok; [done|lia]. Qed.

(** What [free_multiple_buffers] looks at in a buffer. *)
Definition shape (s : bufs) (j : Z) : option (bool * Z * bool) :=
  b ← buffers s !! Z.to_nat j; Some (allocated b, secondary b, sticky b).

Lemma shape_selected s s' j b flags :
  shape s' j = shape s j -> buffers s !! Z.to_nat j = Some b ->
  exists b', buffers s' !! Z.to_nat j = Some b' /\ allocated b' = allocated b /\ secondary b' = secondary b /\
             fmb_selected flags b' = fmb_selected flags b.
Proof.
  unfold shape, fmb_selected. intros Hsh Hb. rewrite Hb in Hsh. destruct (buffers s' !! Z.to_nat j) as [b'|]; [|done].
  simpl in Hsh. injection Hsh as Ha Hsec Hst. exists b'. by rewrite Ha, Hsec, Hst.
Qed.

Lemma is_unused_shape s j : is_unused s j <-> exists sec st, shape s j = Some (false, sec, st).
Proof.
  unfold is_unused, shape. split.
  - intros (b & Hb & Ha). rewrite Hb. simpl. rewrite Ha. by eexists _, _.
  - intros (sec & st & Hsh). destruct (buffers s !! Z.to_nat j) as [b|] eqn:Hb; [|done].
    injection Hsh as Ha _ _. by exists b.
Qed.

Section free_multiple.
Context {W : Type} (get : W -> bufs) (put : bufs -> W -> W) (run_cleanup : Z -> comp W Z).
Hypothesis get_put : forall s w, get (put s w) = s.
(** A cleanup function keeps the pool well formed and the other buffers; its
    own buffer it keeps or frees. *)
Hypothesis cleanup_ok : forall i w, bufs_ok (get w) -> 0 <= i < N ->
  wp (run_cleanup i) (fun _ w' => bufs_ok (get w') /\
    (forall j, 0 <= j <= N -> j <> i -> shape (get w') j = shape (get w) j) /\
    (shape (get w') i = shape (get w) i \/ is_unused (get w') i)) w.

(** Up to buffer [i] the selected buffers are free, and all others are as
    before. *)
Definition freed_upto (w : W) (flags i : Z) (w' : W) : Prop :=
  bufs_ok (get w') /\
  forall j b, 0 <= j < N -> buffers (get w) !! Z.to_nat j = Some b ->
    if (j <? i) && fmb_selected flags b then is_unused (get w') j
    else shape (get w') j = shape (get w) j.

Lemma free_one w flags i w1 w2 b :
  0 <= i < N -> buffers (get w) !! Z.to_nat i = Some b -> fmb_selected flags b = true -> secondary b <> 15 ->
  freed_upto w flags i w1 -> bufs_ok (get w2) ->
  (forall j, 0 <= j <= N -> j <> i -> shape (get w2) j = shape (get w1) j) ->
  (shape (get w2) i = shape (get w1) i \/ is_unused (get w2) i) ->
  wp (zoom get put (free_buffer (Some i))) (fun _ w' => freed_upto w flags (i + 1) w') w2.
Proof.
  intros Hi Hb Hsel Hsec [Hok Hj] Hok2 Hsame Hown. rewrite wp_zoom.
  eapply wp_mono; [apply (free_buffer_ok (get w2) i Hok2); lia|]. cbv beta.
  intros _ s' (Hok' & _ & _ & b2 & Hb2 & Hbs). split; rewrite get_put; [done|].
  assert (is_unused s' i /\ forall k, 0 <= k < N -> k <> i -> shape s' k = shape (get w2) k) as [Hun Hoth].
  { assert ((Z.to_nat i < length (buffers (get w2)))%nat) as Hlt by (apply lookup_lt_is_Some; by eexists).
    destruct Hown as [Hsh|(b3 & Hb3 & Ha3)].
    - pose proof (Hj i b Hi Hb) as Hii. rewrite Z.ltb_irrefl in Hii. simpl in Hii. rewrite Hii in Hsh.
      destruct (shape_selected _ _ _ b flags Hsh Hb) as (b2' & Hb2' & Ha2 & Hs2 & _).
      replace b2' with b2 in * by congruence.
      assert (allocated b = true) as Ha by (unfold fmb_selected in Hsel; by destruct (allocated b)).
      rewrite Ha2, Ha, Hs2 in Hbs. replace (secondary b =? 15) with false in Hbs by lia. simpl in Hbs. split.
      + exists (set_allocated false b2). rewrite Hbs. split; [by apply list_lookup_insert_eq|done].
      + intros k Hk Hne. unfold shape. rewrite Hbs, list_lookup_insert_ne by lia. done.
    - replace b3 with b2 in * by congruence. rewrite Ha3, orb_true_r in Hbs. unfold is_unused, shape. rewrite Hbs.
      split; [by exists b2|done]. }
  intros j c Hjr Hc. destruct (decide (j = i)) as [->|Hne].
  - replace c with b by congruence. rewrite Hsel, andb_true_r. by replace (i <? i + 1) with true by lia.
  - replace (j <? i + 1) with (j <? i) by (destruct (Z.ltb_spec j i), (Z.ltb_spec j (i + 1)); lia).
    specialize (Hj j c Hjr Hc). specialize (Hsame j ltac:(lia) Hne). specialize (Hoth j Hjr Hne).
    destruct (_ && _); [|congruence]. apply is_unused_shape. apply is_unused_shape in Hj as (sec & st & Hsh).
    exists sec, st. congruence.
Qed.

(** [free_multiple_buffers] frees exactly the buffers that the flags
    select and leaves the allocation of all others alone, whatever the cleanup
    functions return; the pool stays well formed and the result is 0 or 1. *)
Theorem free_multiple_buffers_frees flags w (Hok : bufs_ok (get w))
  (Hsec : forall j b, 0 <= j < N -> buffers (get w) !! Z.to_nat j = Some b -> secondary b <> 15) :
  exists r w', free_multiple_buffers get put run_cleanup flags w = Done r w' /\ bufs_ok (get w') /\
    (r = 0 \/ Z.land flags FMB_CLEAN <> 0 /\ r = 1) /\
    forall j b, 0 <= j < N -> buffers (get w) !! Z.to_nat j = Some b ->
      if fmb_selected flags b then is_unused (get w') j else shape (get w') j = shape (get w) j.
Proof.
  apply wp_done. unfold free_multiple_buffers. pose proof (bo_count _ Hok) as HN.
  apply (wp_for_range (fun i r w' => freed_upto w flags i w' /\ (r = 0 \/ Z.land flags FMB_CLEAN <> 0 /\ r = 1)));
    cbv beta.
  - intros i r w1 Hi [Hf Hr]. destruct (buf_in (get w) i Hok ltac:(lia)) as [b Hb].
    pose proof Hf as [Hok1 Hj]. pose proof (Hj i b ltac:(lia) Hb) as Hii. rewrite Z.ltb_irrefl in Hii. simpl in Hii.
    destruct (shape_selected _ _ _ b flags Hii Hb) as (b1 & Hb1 & _ & _ & Hsel1).
    rewrite wp_bind, wp_zoom. eapply wp_intro; [apply buf_get_run; [lia|exact Hb1]|]. cbv beta.
    rewrite Hsel1. destruct (fmb_selected flags b) eqn:Hsel.
    + destruct (Z.eqb_spec (Z.land flags FMB_CLEAN) 0) as [Hcl|Hcl]; cbv beta iota delta [negb].
      * rewrite wp_bind, wp_ret, wp_bind. eapply wp_mono.
        { apply (free_one w flags i w1 _ b); [lia|done|done|by eapply Hsec; [|exact Hb]; lia|done|..].
          - by rewrite get_put.
          - intros j _ _. by rewrite get_put.
          - left. by rewrite get_put. }
        cbv beta. intros _ w' Hf'. by rewrite wp_ret.
      * set (w1' := put (get w1) w1). rewrite wp_bind.
        apply wp_mono with (P := fun x w2 => (x = 0 \/ x = 1) /\ bufs_ok (get w2) /\
          (forall j, 0 <= j <= N -> j <> i -> shape (get w2) j = shape (get w1) j) /\
          (shape (get w2) i = shape (get w1) i \/ is_unused (get w2) i)).
        { assert (get w1' = get w1) as Hw1 by apply get_put.
          destruct (Z.eqb_spec r 0); cbv beta iota delta [negb].
          - rewrite wp_bind. eapply wp_mono; [apply cleanup_ok; [by rewrite Hw1|lia]|]. cbv beta.
            intros x w2 Hx. rewrite wp_ret, <- Hw1. split; [|exact Hx].
            destruct (x =? 0); [by left|by right].
          - rewrite wp_ret, Hw1. split_and!; [by right|done|done|by left]. }
        intros x w2 (Hx & Hok2 & Hsame & Hown). rewrite wp_bind. eapply wp_mono.
        { apply (free_one w flags i w1 w2 b); [lia|done|done|by eapply Hsec; [|exact Hb]; lia|done..]. }
        cbv beta. intros _ w' Hf'. rewrite wp_ret. split; [done|]. destruct Hx as [->| ->]; [by left|by right].
    + rewrite wp_ret. split; [|done]. split; [by rewrite get_put|].
      intros j c Hjr Hc. specialize (Hj j c Hjr Hc). rewrite get_put.
      destruct (decide (j = i)) as [->|Hne].
      * replace c with b in * by congruence. rewrite Hsel, !andb_false_r in *. done.
      * by replace (j <? i + 1) with (j <? i) by (destruct (Z.ltb_spec j i), (Z.ltb_spec j (i + 1)); lia).
  - intros r w' [[Hok' Hj] Hr]. split_and!; [done|done|]. intros j b Hjr Hb. specialize (Hj j b Hjr Hb).
    replace (j <? 0 + Z.of_nat (Z.to_nat N)) with true in Hj by (symmetry; apply Z.ltb_lt; lia). exact Hj.
  - split; [|by left]. split; [done|]. intros j b Hjr Hb. by replace (j <? 0) with false by lia.
Qed.
End free_multiple.
End theorems.

(** * Concrete pools *)

#[local] Existing Instance demo_config.
#[local] Instance six_buffers : BufferConfig := { CONFIG_BUFFER_COUNT := 6; SINGLE_LED := false }.

(** The configuration of the petSD+ and the cbmSDmini. *)
Definition thirty_two_buffers : BufferConfig := {| CONFIG_BUFFER_COUNT := 32; SINGLE_LED := false |}.

Definition power_on_bufs (count : Z) : bufs :=
  {| buffers := []; bufferdata := fill (256 * count) 0; active_buffers := 0; busy_led := false; dirty_led := false;
     channel := demo_errs |}.

Lemma demo_power_on : @power_on demo_config six_buffers (power_on_bufs 6).
Proof.
  split; [by split|by vm_compute|apply bytes_fill; unfold is_byte; lia|done|done|done|exact demo_settings].
Qed.

Definition demo_bufs (ops : list bop) : bufs :=
  match (buffers_init;; @run_bops demo_config six_buffers ops) (power_on_bufs 6) with
  | Done _ s => s
  | _ => power_on_bufs 6
  end.

Lemma demo_bufs_ok ops : Forall bop_range ops -> @bufs_ok demo_config six_buffers (demo_bufs ops).
Proof.
  intros Hops. unfold demo_bufs.
  assert (wp (buffers_init;; run_bops ops) (fun _ s' => @bufs_ok demo_config six_buffers s') (power_on_bufs 6))
    as (u & s' & Hr & Hs)%wp_done; [|by rewrite Hr].
  rewrite wp_bind. eapply wp_mono; [apply buffers_init_ok, demo_power_on|]. cbv beta. intros _ s1 Hs1. by apply run_bops_ok.
Qed.

(** with more than 15 buffers the four-bit count of dirty buffers is wrong:
    with [CONFIG_BUFFER_COUNT] = 32, after 16 user buffers are opened and none
    is dirty, the count of dirty buffers is 1 and [update_leds] lights the
    dirty LED. *)
Theorem dirty_count_overflows :
  exists s', (@buffers_init thirty_two_buffers;; @run_bops demo_config thirty_two_buffers (replicate 16 BAlloc);;
              update_leds) (power_on_bufs 32) = Done tt s' /\
    tally dirty_buffer (buffers s') = 0 /\ get_dirty_buffer_count (active_buffers s') = 1 /\ dirty_led s' = true.
Proof. eexists. split; [vm_compute; reflexivity|]. vm_compute. done. Qed.

(** A cleanup function that fails and marks its buffer as sticky. *)
Definition failing_cleanup (i : Z) : comp bufs Z :=
  buf_upd i (set_sticky true);; mret 1.

(** once a cleanup function has failed, [free_multiple_buffers] frees the
    remaining buffers without calling theirs: of two user buffers only the
    first is cleaned up, although the comment promises a call for every buffer
    that is freed. *)
Theorem free_multiple_buffers_skips_cleanup :
  exists r s', (buffers_init;; run_bops [BAlloc; BAlloc];;
      free_multiple_buffers id (fun s _ => s) failing_cleanup FMB_USER_CLEAN) (power_on_bufs 6) = Done r s' /\
    r = 1 /\ (allocated <$> buffers s' !! 0%nat) = Some false /\ (allocated <$> buffers s' !! 1%nat) = Some false /\
    (sticky <$> buffers s' !! 0%nat) = Some true /\ (sticky <$> buffers s' !! 1%nat) = Some false.
Proof. eexists _, _. split; [vm_compute; reflexivity|]. vm_compute. done. Qed.

Lemma buffers_keep_invariant_witness :
  wp (buffers_init;; run_bops [BAlloc; BDirty 0; BLinked 3; BClean 0; BFree 2; BFind 0])
    (fun _ s' => @bufs_ok demo_config six_buffers s' /\ busy_led s' = negb (tally user_buffer (buffers s') =? 0)) (power_on_bufs 6).
Proof.
  eapply wp_mono; [apply (buffers_keep_invariant [BAlloc; BDirty 0; BLinked 3; BClean 0; BFree 2; BFind 0] (power_on_bufs 6) demo_power_on)|].
  - repeat constructor; simpl; lia.
  - intros _ s' (Hs' & _ & _ & _ & Hb). split; [exact Hs'|]. apply Hb. repeat constructor.
Defined.

Lemma alloc_linked_buffers_contiguous_witness :
  exists r s', alloc_linked_buffers 3 (demo_bufs [BAlloc; BAlloc; BAlloc; BFree 1]) = Done r s' /\ bufs_ok s'.
Proof.
  assert (bufs_ok (demo_bufs [BAlloc; BAlloc; BAlloc; BFree 1])) as Hs
    by (apply demo_bufs_ok; repeat constructor; simpl; lia).
  destruct (alloc_linked_buffers_contiguous (demo_bufs [BAlloc; BAlloc; BAlloc; BFree 1]) 3 Hs ltac:(lia))
    as (r & s' & Hr & Hok & _).
  exists r, s'. split; [exact Hr|exact Hok].
Defined.

Lemma failing_cleanup_ok i w : bufs_ok w -> 0 <= i < CONFIG_BUFFER_COUNT ->
  wp (mret 1 : comp bufs Z) (fun _ w' => bufs_ok w' /\
    (forall j, 0 <= j <= CONFIG_BUFFER_COUNT -> j <> i -> shape w' j = shape w j) /\
    (shape w' i = shape w i \/ is_unused w' i)) w.
Proof. intros Hw _. rewrite wp_ret. split; [done|]. split; [done|by left]. Qed.

Lemma no_command_buffer (s : bufs) :
  forallb (fun b => negb (secondary b =? 15)) (take 6 (buffers s)) = true ->
  forall j b, 0 <= j < 6 -> buffers s !! Z.to_nat j = Some b -> secondary b <> 15.
Proof.
  intros Hall j b Hj Hb. rewrite forallb_forall in Hall. specialize (Hall b).
  assert (In b (take 6 (buffers s))) as Hin.
  { apply list_elem_of_In, (list_elem_of_lookup_2 _ (Z.to_nat j)). rewrite lookup_take_lt; [exact Hb|lia]. }
  specialize (Hall Hin). apply negb_true_iff in Hall. lia.
Qed.

Lemma free_multiple_buffers_frees_witness :
  exists r w', free_multiple_buffers id (fun s _ => s) (fun _ => mret 1) FMB_USER_CLEAN
    (demo_bufs [BAlloc; BAllocSystem; BAlloc]) = Done r w' /\ r = 1.
Proof.
  assert (bufs_ok (demo_bufs [BAlloc; BAllocSystem; BAlloc])) as Hs
    by (apply demo_bufs_ok; repeat constructor; simpl; lia).
  destruct (free_multiple_buffers_frees (W := bufs) id (fun s _ => s) (fun _ => mret 1) ltac:(done) failing_cleanup_ok
    FMB_USER_CLEAN (demo_bufs [BAlloc; BAllocSystem; BAlloc]) Hs) as (r & w' & Hr & _).
  { apply no_command_buffer. vm_compute. reflexivity. }
  exists r, w'. split; [exact Hr|].
  assert ((match free_multiple_buffers id (fun s _ => s) (fun _ => mret 1) FMB_USER_CLEAN
    (demo_bufs [BAlloc; BAllocSystem; BAlloc]) with Done r _ => r | _ => 0 end) = 1) as H1 by (vm_compute; reflexivity).
  rewrite Hr in H1. exact H1.
Defined.
