(* ===== verification/FatFs.v ===== *)
(** * The interface of the FAT driver

    The functions of ff.c that the rest of the program calls, with the fields
    of [FIL], [FATFS] and [FILINFO] that it uses.  [DRV] is the state behind
    them: the media, the sector buffer of ff.c and the [FATFS] structures of
    the partitions; a function with a [FATFS] argument takes the partition and
    the [curr_dir] of its structure, which [f_mount] also returns.  A name that
    is passed in is the list of its characters. *)

From S2P Require Import Prelude.

(** ff.h: the result codes that the code distinguishes. *)
Definition FR_OK : Z := 0.
Definition FR_NOT_READY : Z := 1.
Definition FR_NO_FILE : Z := 2.
Definition FR_NO_PATH : Z := 3.
Definition FR_INVALID_NAME : Z := 4.
Definition FR_INVALID_DRIVE : Z := 5.
Definition FR_DENIED : Z := 6.
Definition FR_EXIST : Z := 7.
Definition FR_RW_ERROR : Z := 8.
Definition FR_WRITE_PROTECTED : Z := 9.
Definition FR_NOT_ENABLED : Z := 10.
Definition FR_NO_FILESYSTEM : Z := 11.
Definition FR_INVALID_OBJECT : Z := 12.
Definition FR_IS_DIRECTORY : Z := 14.
Definition FR_IS_READONLY : Z := 15.
Definition FR_DIR_NOT_EMPTY : Z := 16.
Definition FR_NOT_DIRECTORY : Z := 17.

Definition FA_READ : Z := 1.
Definition FA_OPEN_EXISTING : Z := 0.
Definition FA_WRITE : Z := 2.
Definition FA_CREATE_NEW : Z := 4.
Definition FA_OPEN_ALWAYS : Z := 16.

Definition FS_FAT12 : Z := 1.
Definition FS_FAT16 : Z := 2.
Definition FS_FAT32 : Z := 3.

Definition AM_RDO : Z := 1.
Definition AM_HID : Z := 2.
Definition AM_SYS : Z := 4.
Definition AM_VOL : Z := 8.
Definition AM_DIR : Z := 16.

(** A directory item; the names are C strings with their terminator. *)
Record FILINFO := {
  fi_fsize : Z;
  fi_fdate : Z;
  fi_ftime : Z;
  fi_fattrib : Z;
  fi_clust : Z;
  fi_fname : list Z;
  fi_lfn : list Z
}.

(** What the rest of the program uses of the FAT driver. *)
Class FatFs := {
  DRV : Type;
  FIL : Type;
  DIR : Type;
  fsize : FIL -> Z;
  flag : FIL -> Z;
  f_tell : FIL -> Z;
  fs_type : Z -> DRV -> Z;
  fatbase : Z -> DRV -> Z;
  max_clust : Z -> DRV -> Z;
  csize : Z -> DRV -> Z;
  f_mount : Z -> Z -> Z -> DRV -> Z * Z * DRV;
  f_open : Z -> Z -> list Z -> Z -> DRV -> Z * FIL * DRV;
  f_lseek : FIL -> Z -> DRV -> Z * FIL * DRV;
  f_read : FIL -> Z -> DRV -> Z * list Z * FIL * DRV;
  f_write : FIL -> list Z -> DRV -> Z * Z * FIL * DRV;
  f_sync : FIL -> DRV -> Z * FIL * DRV;
  f_close : FIL -> DRV -> Z * FIL * DRV;
  l_opendir : Z -> Z -> DRV -> Z * DIR * DRV;
  l_opencluster : Z -> Z -> DRV -> Z * FIL * DRV;
  f_readdir : DIR -> DRV -> Z * FILINFO * DIR * DRV;
  f_stat : Z -> Z -> list Z -> DRV -> Z * FILINFO * DRV;
  f_unlink : Z -> Z -> list Z -> DRV -> Z * DRV;
  f_mkdir : Z -> Z -> list Z -> DRV -> Z * DRV;
  f_rename : Z -> Z -> list Z -> list Z -> DRV -> Z * DRV;
  l_getfree : Z -> Z -> DRV -> Z * Z * DRV
}.

(** The behaviour of an undamaged medium: inside the file a seek moves the
    pointer, a read returns the bytes there and a write replaces them.  The
    clients of the laws read or write after each seek.  [lseek_law] also
    promises a second seek in a row, which the f_lseek of ff.c does not keep
    at the border of a cluster (FfTheorems.v,
    [seek_twice_reads_other_cluster]). *)
Class FatFsLaws `{FatFs} := {
  contents : FIL -> list Z;
  usable : FIL -> Prop;
  usable_size : forall f, usable f -> zlen (contents f) = fsize f /\ bytes (contents f) /\ fsize f < 4294967295;
  lseek_law : forall f ofs d, usable f -> 0 <= ofs <= fsize f -> exists f' d',
    f_lseek f ofs d = (FR_OK, f', d') /\ usable f' /\ contents f' = contents f /\ flag f' = flag f /\ f_tell f' = ofs;
  read_law : forall f n d, usable f -> 0 <= f_tell f -> 0 <= n -> f_tell f + n <= fsize f -> exists f' d',
    f_read f n d = (FR_OK, slice (f_tell f) n (contents f), f', d') /\ usable f' /\ contents f' = contents f /\
    flag f' = flag f;
  write_law : forall f bs d, usable f -> Z.land (flag f) FA_WRITE <> 0 -> bytes bs ->
    0 <= f_tell f -> f_tell f + zlen bs <= fsize f -> exists f' d',
    f_write f bs d = (FR_OK, zlen bs, f', d') /\ usable f' /\ contents f' = splice (f_tell f) bs (contents f) /\
    flag f' = flag f;
  sync_law : forall f d, usable f -> exists r f' d',
    f_sync f d = (r, f', d') /\ usable f' /\ contents f' = contents f /\ flag f' = flag f
}.

(** A file in memory satisfies the laws; there are no directories. *)
Module Ram.
Record file := { data : list Z; pos : Z; flags : Z }.

Definition no_file : file := {| data := []; pos := 0; flags := 0 |}.
Definition no_info : FILINFO :=
  {| fi_fsize := 0; fi_fdate := 0; fi_ftime := 0; fi_fattrib := 0; fi_clust := 0; fi_fname := [0]; fi_lfn := [0] |}.

Definition lseek (f : file) (ofs : Z) : Z * file :=
  (FR_OK, {| data := data f; pos := Z.max 0 (Z.min ofs (zlen (data f))); flags := flags f |}).
Definition read (f : file) (n : Z) : Z * list Z * file :=
  let bs := slice (pos f) n (data f) in
  (FR_OK, bs, {| data := data f; pos := pos f + zlen bs; flags := flags f |}).
Definition write (f : file) (bs : list Z) : Z * Z * file :=
  if Z.land (flags f) FA_WRITE =? 0 then (FR_DENIED, 0, f)
  else
    let k := Z.min (zlen bs) (zlen (data f) - pos f) in
    (FR_OK, k, {| data := splice (pos f) (take (Z.to_nat k) bs) (data f); pos := pos f + k; flags := flags f |}).
End Ram.

#[export] Instance ram_fatfs : FatFs := {
  DRV := unit;
  FIL := Ram.file;
  DIR := unit;
  fsize f := zlen (Ram.data f);
  flag f := Ram.flags f;
  f_tell f := Ram.pos f;
  fs_type _ _ := FS_FAT12;
  fatbase _ _ := 0;
  max_clust _ _ := 2;
  csize _ _ := 1;
  f_mount _ _ c d := (FR_NOT_READY, c, d);
  f_open _ _ _ _ d := (FR_NO_FILE, Ram.no_file, d);
  f_lseek f ofs d := (Ram.lseek f ofs, d);
  f_read f n d := (Ram.read f n, d);
  f_write f bs d := (Ram.write f bs, d);
  f_sync f d := (FR_OK, f, d);
  f_close f d := (FR_OK, f, d);
  l_opendir _ _ d := (FR_OK, tt, d);
  l_opencluster _ _ d := (FR_NO_FILE, Ram.no_file, d);
  f_readdir _ d := (FR_OK, Ram.no_info, tt, d);
  f_stat _ _ _ d := (FR_NO_FILE, Ram.no_info, d);
  f_unlink _ _ _ d := (FR_NO_FILE, d);
  f_mkdir _ _ _ d := (FR_DENIED, d);
  f_rename _ _ _ _ d := (FR_NO_FILE, d);
  l_getfree _ _ d := (FR_OK, 0, d)
}.

#[export, program] Instance ram_laws : FatFsLaws := {
  contents f := Ram.data f;
  usable f := bytes (Ram.data f) /\ zlen (Ram.data f) < 4294967295
}.
Next Obligation. simpl. naive_solver. Qed.
Next Obligation.
  simpl. intros f ofs d [Hb Hl] Ho. eexists _, _. split; [reflexivity|]. simpl. split_and!; try done. lia.
Qed.
Next Obligation. simpl. intros f n d [Hb Hl] Hp Hn Hle. eexists _, _. split; [reflexivity|]. done. Qed.
Next Obligation.
  simpl. intros f bs d [Hb Hl] Hw Hbs Hp Hle. pose proof (zlen_nonneg bs). unfold Ram.write.
  rewrite (proj2 (Z.eqb_neq _ _) Hw), (Z.min_l (zlen bs)) by lia.
  replace (take (Z.to_nat (zlen bs)) bs) with bs by (unfold zlen; by rewrite Nat2Z.id, firstn_all).
  eexists _, _. split; [reflexivity|]. simpl. split_and!; [by apply bytes_splice| |done|done].
  rewrite zlen_splice; [done|lia|done].
Qed.
Next Obligation. simpl. intros f d Hf. by eexists _, _, _. Qed.
