(* ===== verification/FfBase.v ===== *)
(** * ff.c: the sector buffer

    The FAT driver in the configuration of ff.h: one static sector buffer for
    all file systems ([_USE_1_BUF]), long names, a current directory, several
    partitions and FSInfo sectors.  A [FATFS *] is the number of a structure
    in [fat_structs]; a [BYTE *] into the sector buffer is an offset, so that a
    pointer that is kept while the window moves points into the new sector, as
    in the code.  The disks are the interface [Disks]. *)

From S2P Require Import Prelude FatFs.

Definition SS : Z := 512.
Definition PARTITION_MASK : Z := 4.
Definition MAX_LFN_LENGTH : Z := 20.
Definition LFN_pos : list Z := [1; 3; 5; 7; 9; 14; 16; 18; 20; 22; 24; 28; 30].

Definition STA_NOINIT : Z := 1.
Definition STA_PROTECT : Z := 4.

Definition FA_CREATE_ALWAYS : Z := 8.
Definition FA__WRITTEN : Z := 32.
Definition FA__ERROR : Z := 128.
Definition AM_LFN : Z := 15.
Definition AM_ARC : Z := 32.

Definition BPB_BytsPerSec : Z := 11.
Definition BPB_SecPerClus : Z := 13.
Definition BPB_RsvdSecCnt : Z := 14.
Definition BPB_NumFATs : Z := 16.
Definition BPB_RootEntCnt : Z := 17.
Definition BPB_TotSec16 : Z := 19.
Definition BPB_FATSz16 : Z := 22.
Definition BPB_TotSec32 : Z := 32.
Definition BS_55AA : Z := 510.
Definition BS_FilSysType : Z := 54.
Definition BPB_FATSz32 : Z := 36.
Definition BPB_ExtFlags : Z := 40.
Definition BPB_RootClus : Z := 44.
Definition BPB_FSInfo : Z := 48.
Definition BS_FilSysType32 : Z := 82.
Definition FSI_LeadSig : Z := 0.
Definition FSI_StrucSig : Z := 484.
Definition FSI_Free_Count : Z := 488.
Definition FSI_Nxt_Free : Z := 492.
Definition MBR_Table : Z := 446.

Definition DIR_Name : Z := 0.
Definition DIR_Attr : Z := 11.
Definition DIR_NTres : Z := 12.
Definition DIR_Chksum : Z := 13.
Definition DIR_CrtTime : Z := 14.
Definition DIR_FstClusHI : Z := 20.
Definition DIR_WrtTime : Z := 22.
Definition DIR_WrtDate : Z := 24.
Definition DIR_FstClusLO : Z := 26.
Definition DIR_FileSize : Z := 28.

(** ** Structures *)

Record BUF := {
  sect : Z;
  buf_dirty : bool;
  buf_fs : option Z;
  buf_data : list Z
}.

Record FATFS := {
  n_rootdir : Z;
  sects_fat : Z;
  fs_max_clust : Z;
  fs_fatbase : Z;
  dirbase : Z;
  database : Z;
  curr_dir : Z;
  last_clust : Z;
  free_clust : Z;
  fsi_sector : Z;
  fsi_flag : bool;
  fat_type : Z;
  fs_csize : Z;
  n_fats : Z;
  drive : Z
}.

(** [memset(fs, 0, sizeof(FATFS))] *)
Definition zero_fatfs : FATFS := {|
  n_rootdir := 0; sects_fat := 0; fs_max_clust := 0; fs_fatbase := 0; dirbase := 0; database := 0; curr_dir := 0; last_clust := 0;
  free_clust := 0; fsi_sector := 0; fsi_flag := false; fat_type := 0; fs_csize := 0; n_fats := 0; drive := 0
|}.

(** A directory object. *)
Record dir_object := {
  dj_index : Z;
  dj_fs : Z;
  dj_sclust : Z;
  dj_clust : Z;
  dj_sect : Z
}.
Definition zero_dj (fs : Z) : dir_object := {| dj_index := 0; dj_fs := fs; dj_sclust := 0; dj_clust := 0; dj_sect := 0 |}.

(** A file object; [fp_dir_ptr] is an offset into the sector buffer. *)
Record file_object := {
  fp_flag : Z;
  fp_csect : Z;
  fp_fs : option Z;
  fp_fptr : Z;
  fp_fsize : Z;
  fp_org_clust : Z;
  fp_curr_clust : Z;
  fp_curr_sect : Z;
  fp_dir_sect : Z;
  fp_dir_ptr : option Z
}.

(** The functions of diskio.c: the status of a drive, sectors read (the
    contents of the array after the call) and written. *)
Class Disks := {
  DISKS : Type;
  disk_initialize : Z -> DISKS -> Z * DISKS;
  disk_status : Z -> DISKS -> Z;
  disk_read : Z -> Z -> Z -> DISKS -> Z * list Z * DISKS;
  disk_write : Z -> list Z -> Z -> Z -> DISKS -> Z * DISKS
}.

(** Field assignments. *)
Definition set_sect (x : Z) (b : BUF) : BUF :=
  {| sect := x; buf_dirty := buf_dirty b; buf_fs := buf_fs b; buf_data := buf_data b |}.
Definition set_buf_dirty (x : bool) (b : BUF) : BUF :=
  {| sect := sect b; buf_dirty := x; buf_fs := buf_fs b; buf_data := buf_data b |}.
Definition set_buf_fs (x : option Z) (b : BUF) : BUF :=
  {| sect := sect b; buf_dirty := buf_dirty b; buf_fs := x; buf_data := buf_data b |}.
Definition set_buf_data (x : list Z) (b : BUF) : BUF :=
  {| sect := sect b; buf_dirty := buf_dirty b; buf_fs := buf_fs b; buf_data := x |}.

Definition set_n_rootdir (x : Z) (f : FATFS) : FATFS :=
  {| n_rootdir := x; sects_fat := sects_fat f; fs_max_clust := fs_max_clust f; fs_fatbase := fs_fatbase f;
     dirbase := dirbase f; database := database f; curr_dir := curr_dir f; last_clust := last_clust f;
     free_clust := free_clust f; fsi_sector := fsi_sector f; fsi_flag := fsi_flag f; fat_type := fat_type f;
     fs_csize := fs_csize f; n_fats := n_fats f; drive := drive f |}.
Definition set_sects_fat (x : Z) (f : FATFS) : FATFS :=
  {| n_rootdir := n_rootdir f; sects_fat := x; fs_max_clust := fs_max_clust f; fs_fatbase := fs_fatbase f;
     dirbase := dirbase f; database := database f; curr_dir := curr_dir f; last_clust := last_clust f;
     free_clust := free_clust f; fsi_sector := fsi_sector f; fsi_flag := fsi_flag f; fat_type := fat_type f;
     fs_csize := fs_csize f; n_fats := n_fats f; drive := drive f |}.
Definition set_fs_max_clust (x : Z) (f : FATFS) : FATFS :=
  {| n_rootdir := n_rootdir f; sects_fat := sects_fat f; fs_max_clust := x; fs_fatbase := fs_fatbase f; dirbase
     := dirbase f; database := database f; curr_dir := curr_dir f; last_clust := last_clust f; free_clust :=
     free_clust f; fsi_sector := fsi_sector f; fsi_flag := fsi_flag f; fat_type := fat_type f; fs_csize :=
     fs_csize f; n_fats := n_fats f; drive := drive f |}.
Definition set_fs_fatbase (x : Z) (f : FATFS) : FATFS :=
  {| n_rootdir := n_rootdir f; sects_fat := sects_fat f; fs_max_clust := fs_max_clust f; fs_fatbase := x;
     dirbase := dirbase f; database := database f; curr_dir := curr_dir f; last_clust := last_clust f;
     free_clust := free_clust f; fsi_sector := fsi_sector f; fsi_flag := fsi_flag f; fat_type := fat_type f;
     fs_csize := fs_csize f; n_fats := n_fats f; drive := drive f |}.
Definition set_dirbase (x : Z) (f : FATFS) : FATFS :=
  {| n_rootdir := n_rootdir f; sects_fat := sects_fat f; fs_max_clust := fs_max_clust f; fs_fatbase :=
     fs_fatbase f; dirbase := x; database := database f; curr_dir := curr_dir f; last_clust := last_clust f;
     free_clust := free_clust f; fsi_sector := fsi_sector f; fsi_flag := fsi_flag f; fat_type := fat_type f;
     fs_csize := fs_csize f; n_fats := n_fats f; drive := drive f |}.
Definition set_database (x : Z) (f : FATFS) : FATFS :=
  {| n_rootdir := n_rootdir f; sects_fat := sects_fat f; fs_max_clust := fs_max_clust f; fs_fatbase :=
     fs_fatbase f; dirbase := dirbase f; database := x; curr_dir := curr_dir f; last_clust := last_clust f;
     free_clust := free_clust f; fsi_sector := fsi_sector f; fsi_flag := fsi_flag f; fat_type := fat_type f;
     fs_csize := fs_csize f; n_fats := n_fats f; drive := drive f |}.
Definition set_curr_dir (x : Z) (f : FATFS) : FATFS :=
  {| n_rootdir := n_rootdir f; sects_fat := sects_fat f; fs_max_clust := fs_max_clust f; fs_fatbase :=
     fs_fatbase f; dirbase := dirbase f; database := database f; curr_dir := x; last_clust := last_clust f;
     free_clust := free_clust f; fsi_sector := fsi_sector f; fsi_flag := fsi_flag f; fat_type := fat_type f;
     fs_csize := fs_csize f; n_fats := n_fats f; drive := drive f |}.
Definition set_last_clust (x : Z) (f : FATFS) : FATFS :=
  {| n_rootdir := n_rootdir f; sects_fat := sects_fat f; fs_max_clust := fs_max_clust f; fs_fatbase :=
     fs_fatbase f; dirbase := dirbase f; database := database f; curr_dir := curr_dir f; last_clust := x;
     free_clust := free_clust f; fsi_sector := fsi_sector f; fsi_flag := fsi_flag f; fat_type := fat_type f;
     fs_csize := fs_csize f; n_fats := n_fats f; drive := drive f |}.
Definition set_free_clust (x : Z) (f : FATFS) : FATFS :=
  {| n_rootdir := n_rootdir f; sects_fat := sects_fat f; fs_max_clust := fs_max_clust f; fs_fatbase :=
     fs_fatbase f; dirbase := dirbase f; database := database f; curr_dir := curr_dir f; last_clust :=
     last_clust f; free_clust := x; fsi_sector := fsi_sector f; fsi_flag := fsi_flag f; fat_type := fat_type f;
     fs_csize := fs_csize f; n_fats := n_fats f; drive := drive f |}.
Definition set_fsi_sector (x : Z) (f : FATFS) : FATFS :=
  {| n_rootdir := n_rootdir f; sects_fat := sects_fat f; fs_max_clust := fs_max_clust f; fs_fatbase :=
     fs_fatbase f; dirbase := dirbase f; database := database f; curr_dir := curr_dir f; last_clust :=
     last_clust f; free_clust := free_clust f; fsi_sector := x; fsi_flag := fsi_flag f; fat_type := fat_type f;
     fs_csize := fs_csize f; n_fats := n_fats f; drive := drive f |}.
Definition set_fsi_flag (x : bool) (f : FATFS) : FATFS :=
  {| n_rootdir := n_rootdir f; sects_fat := sects_fat f; fs_max_clust := fs_max_clust f; fs_fatbase :=
     fs_fatbase f; dirbase := dirbase f; database := database f; curr_dir := curr_dir f; last_clust :=
     last_clust f; free_clust := free_clust f; fsi_sector := fsi_sector f; fsi_flag := x; fat_type := fat_type
     f; fs_csize := fs_csize f; n_fats := n_fats f; drive := drive f |}.
Definition set_fat_type (x : Z) (f : FATFS) : FATFS :=
  {| n_rootdir := n_rootdir f; sects_fat := sects_fat f; fs_max_clust := fs_max_clust f; fs_fatbase :=
     fs_fatbase f; dirbase := dirbase f; database := database f; curr_dir := curr_dir f; last_clust :=
     last_clust f; free_clust := free_clust f; fsi_sector := fsi_sector f; fsi_flag := fsi_flag f; fat_type :=
     x; fs_csize := fs_csize f; n_fats := n_fats f; drive := drive f |}.
Definition set_fs_csize (x : Z) (f : FATFS) : FATFS :=
  {| n_rootdir := n_rootdir f; sects_fat := sects_fat f; fs_max_clust := fs_max_clust f; fs_fatbase :=
     fs_fatbase f; dirbase := dirbase f; database := database f; curr_dir := curr_dir f; last_clust :=
     last_clust f; free_clust := free_clust f; fsi_sector := fsi_sector f; fsi_flag := fsi_flag f; fat_type :=
     fat_type f; fs_csize := x; n_fats := n_fats f; drive := drive f |}.
Definition set_n_fats (x : Z) (f : FATFS) : FATFS :=
  {| n_rootdir := n_rootdir f; sects_fat := sects_fat f; fs_max_clust := fs_max_clust f; fs_fatbase :=
     fs_fatbase f; dirbase := dirbase f; database := database f; curr_dir := curr_dir f; last_clust :=
     last_clust f; free_clust := free_clust f; fsi_sector := fsi_sector f; fsi_flag := fsi_flag f; fat_type :=
     fat_type f; fs_csize := fs_csize f; n_fats := x; drive := drive f |}.
Definition set_drive (x : Z) (f : FATFS) : FATFS :=
  {| n_rootdir := n_rootdir f; sects_fat := sects_fat f; fs_max_clust := fs_max_clust f; fs_fatbase :=
     fs_fatbase f; dirbase := dirbase f; database := database f; curr_dir := curr_dir f; last_clust :=
     last_clust f; free_clust := free_clust f; fsi_sector := fsi_sector f; fsi_flag := fsi_flag f; fat_type :=
     fat_type f; fs_csize := fs_csize f; n_fats := n_fats f; drive := x |}.

Definition set_dj_index (x : Z) (d : dir_object) : dir_object :=
  {| dj_index := x; dj_fs := dj_fs d; dj_sclust := dj_sclust d; dj_clust := dj_clust d; dj_sect := dj_sect d |}.
Definition set_dj_fs (x : Z) (d : dir_object) : dir_object :=
  {| dj_index := dj_index d; dj_fs := x; dj_sclust := dj_sclust d; dj_clust := dj_clust d; dj_sect := dj_sect d
     |}.
Definition set_dj_sclust (x : Z) (d : dir_object) : dir_object :=
  {| dj_index := dj_index d; dj_fs := dj_fs d; dj_sclust := x; dj_clust := dj_clust d; dj_sect := dj_sect d |}.
Definition set_dj_clust (x : Z) (d : dir_object) : dir_object :=
  {| dj_index := dj_index d; dj_fs := dj_fs d; dj_sclust := dj_sclust d; dj_clust := x; dj_sect := dj_sect d |}.
Definition set_dj_sect (x : Z) (d : dir_object) : dir_object :=
  {| dj_index := dj_index d; dj_fs := dj_fs d; dj_sclust := dj_sclust d; dj_clust := dj_clust d; dj_sect := x
     |}.

Definition set_fp_flag (x : Z) (f : file_object) : file_object :=
  {| fp_flag := x; fp_csect := fp_csect f; fp_fs := fp_fs f; fp_fptr := fp_fptr f; fp_fsize := fp_fsize f;
     fp_org_clust := fp_org_clust f; fp_curr_clust := fp_curr_clust f; fp_curr_sect := fp_curr_sect f;
     fp_dir_sect := fp_dir_sect f; fp_dir_ptr := fp_dir_ptr f |}.
Definition set_fp_csect (x : Z) (f : file_object) : file_object :=
  {| fp_flag := fp_flag f; fp_csect := x; fp_fs := fp_fs f; fp_fptr := fp_fptr f; fp_fsize := fp_fsize f;
     fp_org_clust := fp_org_clust f; fp_curr_clust := fp_curr_clust f; fp_curr_sect := fp_curr_sect f;
     fp_dir_sect := fp_dir_sect f; fp_dir_ptr := fp_dir_ptr f |}.
Definition set_fp_fs (x : option Z) (f : file_object) : file_object :=
  {| fp_flag := fp_flag f; fp_csect := fp_csect f; fp_fs := x; fp_fptr := fp_fptr f; fp_fsize := fp_fsize f;
     fp_org_clust := fp_org_clust f; fp_curr_clust := fp_curr_clust f; fp_curr_sect := fp_curr_sect f;
     fp_dir_sect := fp_dir_sect f; fp_dir_ptr := fp_dir_ptr f |}.
Definition set_fp_fptr (x : Z) (f : file_object) : file_object :=
  {| fp_flag := fp_flag f; fp_csect := fp_csect f; fp_fs := fp_fs f; fp_fptr := x; fp_fsize := fp_fsize f;
     fp_org_clust := fp_org_clust f; fp_curr_clust := fp_curr_clust f; fp_curr_sect := fp_curr_sect f;
     fp_dir_sect := fp_dir_sect f; fp_dir_ptr := fp_dir_ptr f |}.
Definition set_fp_fsize (x : Z) (f : file_object) : file_object :=
  {| fp_flag := fp_flag f; fp_csect := fp_csect f; fp_fs := fp_fs f; fp_fptr := fp_fptr f; fp_fsize := x;
     fp_org_clust := fp_org_clust f; fp_curr_clust := fp_curr_clust f; fp_curr_sect := fp_curr_sect f;
     fp_dir_sect := fp_dir_sect f; fp_dir_ptr := fp_dir_ptr f |}.
Definition set_fp_org_clust (x : Z) (f : file_object) : file_object :=
  {| fp_flag := fp_flag f; fp_csect := fp_csect f; fp_fs := fp_fs f; fp_fptr := fp_fptr f; fp_fsize := fp_fsize
     f; fp_org_clust := x; fp_curr_clust := fp_curr_clust f; fp_curr_sect := fp_curr_sect f; fp_dir_sect :=
     fp_dir_sect f; fp_dir_ptr := fp_dir_ptr f |}.
Definition set_fp_curr_clust (x : Z) (f : file_object) : file_object :=
  {| fp_flag := fp_flag f; fp_csect := fp_csect f; fp_fs := fp_fs f; fp_fptr := fp_fptr f; fp_fsize := fp_fsize
     f; fp_org_clust := fp_org_clust f; fp_curr_clust := x; fp_curr_sect := fp_curr_sect f; fp_dir_sect :=
     fp_dir_sect f; fp_dir_ptr := fp_dir_ptr f |}.
Definition set_fp_curr_sect (x : Z) (f : file_object) : file_object :=
  {| fp_flag := fp_flag f; fp_csect := fp_csect f; fp_fs := fp_fs f; fp_fptr := fp_fptr f; fp_fsize := fp_fsize
     f; fp_org_clust := fp_org_clust f; fp_curr_clust := fp_curr_clust f; fp_curr_sect := x; fp_dir_sect :=
     fp_dir_sect f; fp_dir_ptr := fp_dir_ptr f |}.
Definition set_fp_dir_sect (x : Z) (f : file_object) : file_object :=
  {| fp_flag := fp_flag f; fp_csect := fp_csect f; fp_fs := fp_fs f; fp_fptr := fp_fptr f; fp_fsize := fp_fsize
     f; fp_org_clust := fp_org_clust f; fp_curr_clust := fp_curr_clust f; fp_curr_sect := fp_curr_sect f;
     fp_dir_sect := x; fp_dir_ptr := fp_dir_ptr f |}.
Definition set_fp_dir_ptr (x : option Z) (f : file_object) : file_object :=
  {| fp_flag := fp_flag f; fp_csect := fp_csect f; fp_fs := fp_fs f; fp_fptr := fp_fptr f; fp_fsize := fp_fsize
     f; fp_org_clust := fp_org_clust f; fp_curr_clust := fp_curr_clust f; fp_curr_sect := fp_curr_sect f;
     fp_dir_sect := fp_dir_sect f; fp_dir_ptr := x |}.

Section ffbase.
Context `{Disks}.

(** The static data of the driver, the partitions' structures, the disks, and
    what [get_fattime] answers. *)
Record fat_state := {
  static_buf : BUF;
  fat_structs : list FATFS;
  disks : DISKS;
  fattime : Z
}.
Definition set_static_buf (x : BUF) (s : fat_state) : fat_state :=
  {| static_buf := x; fat_structs := fat_structs s; disks := disks s; fattime := fattime s |}.
Definition set_fat_structs (x : list FATFS) (s : fat_state) : fat_state :=
  {| static_buf := static_buf s; fat_structs := x; disks := disks s; fattime := fattime s |}.
Definition set_disks (x : DISKS) (s : fat_state) : fat_state :=
  {| static_buf := static_buf s; fat_structs := fat_structs s; disks := x; fattime := fattime s |}.

Notation fat := (comp fat_state).

Definition get_fs (fs : Z) : fat FATFS :=
  s ← gets id; of_option (if 0 <=? fs then fat_structs s !! Z.to_nat fs else None).
Definition put_fs (fs : Z) (f : FATFS -> FATFS) : fat unit :=
  x ← get_fs fs; modify (fun s => set_fat_structs (<[Z.to_nat fs := f x]> (fat_structs s)) s).
Definition get_buf : fat BUF := gets static_buf.
Definition put_buf (f : BUF -> BUF) : fat unit := modify (fun s => set_static_buf (f (static_buf s)) s).

(** [FSBUF.data] at an offset *)
Definition fb_get (p : Z) : fat Z := b ← get_buf; of_option (load (buf_data b) p).
Definition fb_read (p n : Z) : fat (list Z) := b ← get_buf; of_option (load_block (buf_data b) p n).
Definition fb_put (p : Z) (bs : list Z) : fat unit :=
  b ← get_buf; d ← of_option (store_block (buf_data b) p bs); put_buf (set_buf_data d).
Definition fb_dirty : fat unit := put_buf (set_buf_dirty true).

(** The word access of ff.h: little endian. *)
Definition LD_WORD (p : Z) : fat Z := l ← fb_read p 2; mret (nthZ l 0 + 256 * nthZ l 1).
Definition LD_DWORD (p : Z) : fat Z :=
  l ← fb_read p 4; mret (nthZ l 0 + 256 * nthZ l 1 + 65536 * nthZ l 2 + 16777216 * nthZ l 3).
Definition le_word (x : Z) : list Z := [u8 x; u8 (Z.shiftr x 8)].
Definition le_dword (x : Z) : list Z := [u8 x; u8 (Z.shiftr x 8); u8 (Z.shiftr x 16); u8 (Z.shiftr x 24)].
Definition ST_WORD (p x : Z) : fat unit := fb_put p (le_word x).
Definition ST_DWORD (p x : Z) : fat unit := fb_put p (le_dword x).

(** Calls of the disk functions. *)
Definition status_of (drv : Z) : fat Z := s ← gets id; mret (disk_status drv (disks s)).
Definition read_sectors (drv sector count : Z) : fat (Z * list Z) :=
  s ← gets id;
  let '(res, data, d) := disk_read drv sector count (disks s) in
  modify (set_disks d);; mret (res, data).
Definition write_sectors (drv : Z) (data : list Z) (sector count : Z) : fat Z :=
  s ← gets id;
  let '(res, d) := disk_write drv data sector count (disks s) in
  modify (set_disks d);; mret res.
Definition RES_OK : Z := 0.

(** [disk_read(drv, FSBUF.data, sector, 1)]: [true] when it succeeded. *)
Definition read_window (drv sector : Z) : fat bool :=
  r ← read_sectors drv sector 1;
  put_buf (set_buf_data r.2);;
  mret (r.1 =? RES_OK).

(** ** The window *)

(** Writing back a dirty window, also to the copies of the FAT. *)
Definition flush_window (wsect : Z) : fat bool :=
  b ← get_buf;
  if buf_dirty b then
    ofs ← of_option (buf_fs b);
    o ← get_fs ofs;
    res ← write_sectors (drive o) (buf_data b) wsect 1;
    if negb (res =? RES_OK) then mret false
    else
      put_buf (set_buf_dirty false);;
      when (wsect <? u32 (fs_fatbase o + sects_fat o)) (
        for_range 0 (Z.to_nat (n_fats o - 1)) (fun _ wsect =>
          let wsect := u32 (wsect + sects_fat o) in
          write_sectors (drive o) (buf_data b) wsect 1;; mret wsect) wsect;; mret tt);;
      mret true
  else mret true.

Definition move_window (fs sector : Z) : fat bool :=
  b ← get_buf;
  let wsect := sect b in
  if negb (wsect =? sector) || negb (bool_decide (buf_fs b = Some fs)) then
    ok ← flush_window wsect;
    if negb ok then mret false
    else if negb (sector =? 0) then
      f ← get_fs fs;
      ok ← read_window (drive f) sector;
      if negb ok then mret false else put_buf (fun b => set_buf_fs (Some fs) (set_sect sector b));; mret true
    else mret true
  else mret true.

Definition move_fs_window (fs sector : Z) : fat bool := move_window fs sector.
Definition move_fp_window (fp : file_object) (sector : Z) : fat bool := fs ← of_option (fp_fs fp); move_window fs sector.

(** The dirty window and, on FAT32, the FSInfo sector; [disk_ioctl] does
    nothing. *)
Definition sync (fs : Z) : fat Z :=
  fb_dirty;;
  ok ← move_fs_window fs 0;
  if negb ok then mret FR_RW_ERROR
  else
    f ← get_fs fs;
    when ((fat_type f =? FS_FAT32) && fsi_flag f) (
      put_buf (fun b => set_sect 0 (set_buf_data (fill 512 0) b));;
      ST_WORD BS_55AA 43605;;
      ST_DWORD FSI_LeadSig 1096897106;;
      ST_DWORD FSI_StrucSig 1631679090;;
      ST_DWORD FSI_Free_Count (free_clust f);;
      ST_DWORD FSI_Nxt_Free (last_clust f);;
      b ← get_buf;
      write_sectors (drive f) (buf_data b) (fsi_sector f) 1;;
      put_fs fs (set_fsi_flag false));;
    mret FR_OK.
End ffbase.

Notation fat := (comp fat_state).
