(* ===== verification/FfChain.v ===== *)
(** * ff.c: the file allocation table *)

From S2P Require Import Prelude FatFs FfBase.

(** [FR_ERROR_CLUST] is the answer 1 of [get_cluster]; the end of a chain. *)
Definition END_OF_CHAIN : Z := 268435455.

Section ffchain.
Context `{Disks}.

(** The two bytes of a FAT12 entry start at this offset. *)
Definition fat12_offset (clust : Z) : Z := u16 (u16 (clust * 3) / 2).

Definition get_cluster (fs clust : Z) : fat Z :=
  f ← get_fs fs;
  if (2 <=? clust) && (clust <? fs_max_clust f) then
    let fatsect := fs_fatbase f in
    if fat_type f =? FS_FAT12 then
      let bc := fat12_offset clust in
      ok ← move_fs_window fs (u32 (fatsect + bc / SS));
      if negb ok then mret 1
      else
        lo ← fb_get (Z.land bc (SS - 1));
        let bc := u16 (bc + 1) in
        ok ← move_fs_window fs (u32 (fatsect + bc / SS));
        if negb ok then mret 1
        else
          hi ← fb_get (Z.land bc (SS - 1));
          let wc := Z.lor lo (u16 (Z.shiftl hi 8)) in
          mret (if Z.odd clust then Z.shiftr wc 4 else Z.land wc 4095)
    else if fat_type f =? FS_FAT16 then
      ok ← move_fs_window fs (u32 (fatsect + clust / (SS / 2)));
      if negb ok then mret 1 else LD_WORD (Z.land (u16 (clust * 2)) (SS - 1))
    else if fat_type f =? FS_FAT32 then
      ok ← move_fs_window fs (u32 (fatsect + clust / (SS / 4)));
      if negb ok then mret 1 else x ← LD_DWORD (Z.land (u16 (clust * 4)) (SS - 1)); mret (Z.land x END_OF_CHAIN)
    else mret 1
  else mret 1.

Definition put_cluster (fs clust val : Z) : fat bool :=
  f ← get_fs fs;
  let fatsect := fs_fatbase f in
  if fat_type f =? FS_FAT12 then
    let bc := fat12_offset clust in
    ok ← move_fs_window fs (u32 (fatsect + bc / SS));
    if negb ok then mret false
    else
      let p := Z.land bc (SS - 1) in
      x ← fb_get p;
      fb_put p [if Z.odd clust then u8 (Z.lor (Z.land x 15) (Z.shiftl (u8 val) 4)) else u8 val];;
      let bc := u16 (bc + 1) in
      fb_dirty;;
      ok ← move_fs_window fs (u32 (fatsect + bc / SS));
      if negb ok then mret false
      else
        let p := Z.land bc (SS - 1) in
        x ← fb_get p;
        fb_put p [if Z.odd clust then u8 (Z.shiftr val 4) else Z.lor (Z.land x 240) (Z.land (u8 (Z.shiftr val 8)) 15)];;
        fb_dirty;; mret true
  else if fat_type f =? FS_FAT16 then
    ok ← move_fs_window fs (u32 (fatsect + clust / (SS / 2)));
    if negb ok then mret false else ST_WORD (Z.land (u16 (clust * 2)) (SS - 1)) (u16 val);; fb_dirty;; mret true
  else if fat_type f =? FS_FAT32 then
    ok ← move_fs_window fs (u32 (fatsect + clust / (SS / 4)));
    if negb ok then mret false else ST_DWORD (Z.land (u16 (clust * 4)) (SS - 1)) (u32 val);; fb_dirty;; mret true
  else mret false.

(** The number of free clusters, unless it is unknown. *)
Definition count_free (fs delta : Z) : fat unit :=
  f ← get_fs fs;
  when (negb (free_clust f =? 4294967295)) (
    put_fs fs (fun f => set_fsi_flag true (set_free_clust (u32 (free_clust f + delta)) f))).

(** A chain has at most [max_clust] clusters: one that has been freed ends
    it. *)
Definition fat_chain_fuel (f : FATFS) : nat := S (Z.to_nat (fs_max_clust f)).

Definition remove_chain (fs clust : Z) : fat bool :=
  f ← get_fs fs;
  loop (fat_chain_fuel f) (fun clust =>
    f ← get_fs fs;
    if (2 <=? clust) && (clust <? fs_max_clust f) then
      nxt ← get_cluster fs clust;
      if nxt =? 1 then mret (inr false)
      else
        ok ← put_cluster fs clust 0;
        if negb ok then mret (inr false)
        else count_free fs 1;; mret (inl nxt)
    else mret (inr true)) clust.

(** The search for a free cluster after [scl]: [inl] the cluster, [inr] the
    result of [create_chain]. *)
Definition find_free (fs scl : Z) : fat (Z + Z) :=
  f ← get_fs fs;
  let mcl := fs_max_clust f in
  loop (S (fat_chain_fuel f)) (fun ncl =>
    let ncl := u32 (ncl + 1) in
    let wrap := mcl <=? ncl in
    let ncl := if wrap then 2 else ncl in
    if wrap && (scl <? ncl) then mret (inr (inr 0))
    else
      cstat ← get_cluster fs ncl;
      if cstat =? 0 then mret (inr (inl ncl))
      else if cstat =? 1 then mret (inr (inr 1))
      else if ncl =? scl then mret (inr (inr 0))
      else mret (inl ncl)) scl.

Definition create_chain (fs clust : Z) : fat Z :=
  f ← get_fs fs;
  let mcl := fs_max_clust f in
  start ← (if clust =? 0 then
             let scl := last_clust f in mret (inl (if (scl =? 0) || (mcl <=? scl) then 1 else scl))
           else
             cstat ← get_cluster fs clust;
             mret (if cstat <? 2 then inr 1 else if cstat <? mcl then inr cstat else inl clust));
  match start with
  | inr res => mret res
  | inl scl =>
      r ← find_free fs scl;
      match r with
      | inr res => mret res
      | inl ncl =>
          ok ← put_cluster fs ncl END_OF_CHAIN;
          if negb ok then mret 1
          else
            ok ← (if clust =? 0 then mret true else put_cluster fs clust ncl);
            if negb ok then mret 1
            else
              put_fs fs (set_last_clust ncl);;
              count_free fs (-1);;
              mret ncl
      end
  end.

Definition clust2sect (fs clust : Z) : fat Z :=
  f ← get_fs fs;
  let clust := u32 (clust - 2) in
  mret (if u32 (fs_max_clust f - 2) <=? clust then 0 else u32 (clust * fs_csize f + database f)).

(** The index of the entry in its sector, times its size. *)
Definition entry_offset (index : Z) : Z := Z.land index 15 * 32.

(** [None] at the end of the table. *)
Definition next_dir_entry (dj : dir_object) : fat (bool * dir_object) :=
  f ← get_fs (dj_fs dj);
  let idx := u16 (dj_index dj + 1) in
  r ← (if Z.land idx 15 =? 0 then
         let dj := set_dj_sect (u32 (dj_sect dj + 1)) dj in
         if dj_clust dj =? 0 then mret (negb (n_rootdir f <=? idx), dj)
         else if Z.land (idx / 16) (fs_csize f - 1) =? 0 then
           clust ← get_cluster (dj_fs dj) (dj_clust dj);
           if (clust <? 2) || (fs_max_clust f <=? clust) then mret (false, dj)
           else
             s ← clust2sect (dj_fs dj) clust;
             mret (true, set_dj_sect s (set_dj_clust clust dj))
         else mret (true, dj)
       else mret (true, dj));
  mret (if r.1 : bool then (true, set_dj_index idx r.2) else r).
End ffchain.
