(* ===== verification/FfTrace.v ===== *)
(** * ff.c: names and paths

    The 8.3 names of directory entries and their making from long names, the
    walk along a path and the making of directory entries.  A path is the array
    that the pointer points into, from the pointer on. *)

From S2P Require Import Prelude FatFs FfBase FfChain.

Notation chars := (list Z) (only parsing).

(** ** [make_dirfile] *)

(** What to do with a character of the path: take it, go on in the extension,
    treat the whole as a long name, or fail. *)
Inductive md_step := MdTake (c : Z) | MdExtension | MdLong | MdError.

Definition md_char (dirname : list Z) (n c : Z) : md_step :=
  if (c <? 32) || (c =? 127) then MdError
  else if c =? 32 then MdLong
  else if c =? 46 then
    if (n =? 0) || ((n =? 1) && (nthZ dirname 0 =? 46)) then MdTake c
    else if (1 <=? n) && (n <=? 8) then MdExtension
    else MdLong
  else if c =? 34 then MdError
  else if c <=? 41 then MdTake c
  else if c <=? 44 then MdLong
  else if c <=? 57 then MdTake c
  else if c <=? 63 then MdLong
  else if c =? 124 then MdLong
  else if (91 <=? c) && (c <=? 93) then MdLong
  else MdTake (if (97 <=? c) && (c <=? 122) then c - 32 else c).

(** A character that long names may not contain. *)
Definition md_illegal (c : Z) : bool := bool_decide (c ∈ [92; 58; 42; 63; 34; 60; 62; 124]).

Section ffname.
Context `{Disks}.

(** The rest of a long name from [p] on, where [c] has been read: the
    separator and the pointer behind it. *)
Definition md_long (path : list Z) (p c : Z) : fat (Z * Z) :=
  loop (S (length path)) (fun '(p, c) =>
    if md_illegal c then mret (inr (1, p))
    else
      c ← of_option (load path p);
      let p := p + 1 in
      mret (if (c =? 0) || (c =? 47) then inr (c, p) else inl (p, c))) (p, c).

(** [make_dirfile(&path, dirname, &lfn)]: the result, the pointer, the name
    and the flag. *)
Definition make_dirfile (path : list Z) (p : Z) (dirname : list Z) : fat (Z * Z * list Z * bool) :=
  let dirname := splice 0 (fill 11 32) dirname in
  r ← loop (S (length path)) (fun '(p, dirname, n, t) =>
    c ← of_option (load path p);
    let p := p + 1 in
    if (c =? 0) || (c =? 47) then
      if n =? 0 then mret (inr (1, p, dirname, false))
      else d ← of_option (store dirname 11 0); mret (inr (c, p, d, false))
    else
      let long c := r ← md_long path p c; mret (inr (r.1, r.2, dirname, negb (r.1 =? 1))) in
      match md_char dirname n c with
      | MdError => mret (inr (1, p, dirname, false))
      | MdLong => long c
      | MdExtension => mret (inl (p, dirname, 8, 11))
      | MdTake c => if t <=? n then long c else d ← of_option (store dirname n c); mret (inl (p, d, n + 1, t))
      end) (p, dirname, 0, 8);
  mret r.

(** ** Short names for long ones *)

Definition compute_checksum (buf : list Z) : Z :=
  foldl (fun rc c => u8 ((if Z.odd rc then Z.lor (Z.shiftr rc 1) 128 else Z.shiftr rc 1) + c)) (nthZ buf 0) (slice 1 10 buf).

Definition dos_char (x : Z) : Z :=
  if (97 <=? x) && (x <=? 122) then x - 97 + 65
  else if (32 <=? x) && (x <? 43) then x
  else if (65 <=? x) && (x <=? 90) then x
  else if (48 <=? x) && (x <=? 57) then x
  else if negb (Z.land x 128 =? 0) then x
  else if bool_decide (x ∈ [44; 45; 94; 126; 61; 95; 96; 123; 125]) then x
  else 95.

(** The extension: the characters behind the last dot. *)
Definition short_extension (name : list Z) (spath len k : Z) (buf : list Z) : fat (list Z) :=
  r ← loop 600 (fun '(k, i, buf) =>
    if (k <? len) && (i <? 11) then
      c ← of_option (load name (spath + k));
      if c =? 32 then mret (inl (u8 (k + 1), i, buf))
      else b ← of_option (store buf i (dos_char c)); mret (inl (u8 (k + 1), i + 1, b))
    else mret (inr buf)) (k, 8, buf);
  mret r.

(** The last dot of the name, 0 when there is none. *)
Definition last_dot (name : list Z) (spath j : Z) : fat Z :=
  loop 256 (fun j =>
    let j := u8 (j - 1) in
    if j =? 0 then mret (inr 0)
    else c ← of_option (load name (spath + j)); mret (if c =? 46 then inr j else inl j)) j.

Definition short_body (name : list Z) (spath j : Z) (buf : list Z) : fat (Z * list Z) :=
  loop 257 (fun '(i, l, buf) =>
    if (i <? 6) && (l <? j) then
      c ← of_option (load name (spath + l));
      if (c =? 32) || (c =? 46) then mret (inl (i, l + 1, buf))
      else b ← of_option (store buf i (dos_char c)); mret (inl (i + 1, l + 1, b))
    else mret (inr (i, buf))) (0, 0, buf).

Definition create_short_name (name : list Z) (spath len : Z) : fat (list Z) :=
  let buf := fill 11 32 ++ [0] in
  c ← of_option (load name spath);
  r ← (if c =? 46 then mret (u8 len, buf)
       else
         j ← last_dot name spath (u8 len);
         if 1 <? u8 (j + 1) then buf ← short_extension name spath len (u8 (j + 1)) buf; mret (j, buf)
         else mret (6, buf));
  r ← short_body name spath r.1 r.2;
  let '(i, buf) := r in
  let '(i, buf) := if i <? 3 then (i + 4, splice i [65; 66; 67; 68] buf) else (i, buf) in
  let buf := splice i [126; 49] buf in
  mret (if nthZ buf 0 =? 229 then splice 0 [5] buf else buf).

(** The next number behind the tilde; [None] when there is none. *)
Definition fix_short_name (buf : list Z) : fat (option (list Z)) :=
  i ← loop 9 (fun i => let i := u8 (i - 1) in c ← of_option (load buf i); mret (if c =? 32 then inl i else inr i)) 8;
  r ← loop 9 (fun '(i, c, buf) =>
    x ← of_option (load buf i);
    if x =? 57 then
      b ← of_option (store buf i 48);
      if i - 1 =? 0 then mret (inr (0, true, b)) else mret (inl (i - 1, true, b))
    else if c && (x =? 126) then b ← of_option (store buf i 49); mret (inr (i, true, b))
    else b ← of_option (store buf i (u8 (x + 1))); mret (inr (i, false, b))) (i, false, buf);
  let '(i, c, buf) := r in
  if c : bool then if i =? 0 then mret None else b ← of_option (store buf (i - 1) 126); mret (Some b)
  else mret (Some buf).

(** ** [get_fileinfo] *)

(** The characters of a name field up to its first blank. *)
Fixpoint until_blank (l : list Z) : list Z :=
  match l with
  | [] => []
  | c :: r => if c =? 32 then [] else c :: until_blank r
  end.

(** The entry at [dir]; the long name is in an array of its own. *)
Definition get_fileinfo (dir : Z) (lfn : list Z) : fat FILINFO :=
  e ← fb_read dir 32;
  let body := (fun c => if c =? 5 then 229 else c) <$> until_blank (slice 0 8 e) in
  let ext := if nthZ e 8 =? 32 then [] else 46 :: until_blank (slice 8 3 e) in
  size ← LD_DWORD (dir + DIR_FileSize);
  date ← LD_WORD (dir + DIR_WrtDate);
  time ← LD_WORD (dir + DIR_WrtTime);
  hi ← LD_WORD (dir + DIR_FstClusHI);
  lo ← LD_WORD (dir + DIR_FstClusLO);
  mret {| fi_fsize := size; fi_fdate := date; fi_ftime := time; fi_fattrib := nthZ e DIR_Attr; fi_clust := Z.lor (u32 (Z.shiftl hi 16)) lo;
          fi_fname := body ++ ext ++ [0]; fi_lfn := lfn |}.
End ffname.

(** ** ff.c: following a path and making directory entries

    [scan_fuel] bounds the entries of one directory; a directory whose cluster
    chain is a ring has no end.  [name_fuel] bounds the short names that are
    tried. *)

Section fftrace.
Context `{Disks}.
Context (scan_fuel name_fuel : nat).

(** ** [trace_path] *)

(** The local variables of the search. *)
Record trace := {
  t_dj : dir_object;
  t_fileobj : dir_object;
  t_store : bool;
  t_match : bool;
  t_l : Z;
  t_len : Z
}.
Definition with_dj (dj : dir_object) (t : trace) : trace :=
  {| t_dj := dj; t_fileobj := t_fileobj t; t_store := t_store t; t_match := t_match t; t_l := t_l t; t_len := t_len t |}.
Definition with_store (b : bool) (t : trace) : trace :=
  {| t_dj := t_dj t; t_fileobj := t_fileobj t; t_store := b; t_match := t_match t; t_l := t_l t; t_len := t_len t |}.
Definition with_match (m : bool) (l : Z) (t : trace) : trace :=
  {| t_dj := t_dj t; t_fileobj := t_fileobj t; t_store := t_store t; t_match := m; t_l := l; t_len := t_len t |}.
Definition with_len (len : Z) (t : trace) : trace :=
  {| t_dj := t_dj t; t_fileobj := t_fileobj t; t_store := t_store t; t_match := t_match t; t_l := t_l t; t_len := len |}.

Definition upcase (c : Z) : Z := if (97 <=? c) && (c <=? 122) then c - 32 else c.

(** The entry that the directory object points to, in the window. *)
Definition window_entry (dj : dir_object) : Z := entry_offset (dj_index dj).

(** A part of a long name against the name at [spath]: the number of its
    characters and the match. *)
Definition match_lfn (path : list Z) (spath dptr : Z) (mtch : bool) : fat (Z * bool) :=
  e ← fb_read dptr 32;
  let i := u8 ((Z.land (nthZ e 0) 31 - 1) * 13) in
  loop 14 (fun '(i, j, mtch) =>
    if (j <? 13) && mtch then
      let pos := nthZ LFN_pos j in
      let a := nthZ e pos in
      if (a =? 0) && (nthZ e (pos + 1) =? 0) then mret (inr (j, mtch))
      else
        b ← of_option (load path (spath + i));
        mret (inl (u8 (i + 1), j + 1, mtch && (upcase a =? upcase b)))
    else mret (inr (j, mtch))) (i, 0, mtch).

(** An entry of the directory: [inr] when it is the one of the name, with the
    name in [fn]. *)
Definition trace_entry (path : list Z) (spath : Z) (lfn : bool) (fn : list Z) (dptr : Z) (t : trace) : fat (trace + trace * list Z) :=
  e ← fb_read dptr 32;
  let attr := nthZ e DIR_Attr in
  if nthZ e DIR_Name =? 229 then mret (inl (with_store true t))
  else if Z.land attr AM_LFN =? AM_LFN then
    if lfn then r ← match_lfn path spath dptr (t_match t); mret (inl (with_match r.2 (u16 (t_l t + r.1)) t))
    else mret (inl (with_len (u16 (t_len t + 13)) t))
  else if lfn then
    if t_match t && (t_l t =? t_len t) then mret (inr (t, slice 0 11 e ++ [nthZ e DIR_NTres]))
    else mret (inl (with_store true (with_match true 0 t)))
  else if (Z.land attr AM_VOL =? 0) && bool_decide (slice 0 11 e = slice 0 11 fn) then mret (inr (t, fn))
  else mret (inl (with_store true t)).

(** The search in one directory: the error, or the trace, the name and the
    entry. *)
Definition trace_dir (fs : Z) (path : list Z) (spath : Z) (lfn : bool) (ds : Z) (fn : list Z) (t : trace) :
    fat (Z * trace * list Z * option Z) :=
  let missing := if ds =? 0 then FR_NO_FILE else FR_NO_PATH in
  loop scan_fuel (fun t =>
    let dj := t_dj t in
    ok ← move_fs_window fs (dj_sect dj);
    if negb ok then mret (inr (FR_RW_ERROR, t, fn, None))
    else
      let t := if t_store t then
                 {| t_dj := dj; t_store := false; t_match := t_match t; t_l := t_l t; t_len := if lfn then t_len t else 0;
                    t_fileobj := set_dj_clust (dj_clust dj) (set_dj_sect (dj_sect dj) (set_dj_index (dj_index dj) (t_fileobj t))) |}
               else t in
      let dptr := window_entry dj in
      name ← fb_get dptr;
      if name =? 0 then mret (inr (missing, t, fn, None))
      else
        r ← trace_entry path spath lfn fn dptr t;
        match r with
        | inr (t, fn) => mret (inr (FR_OK, t, fn, Some dptr))
        | inl t =>
            r ← next_dir_entry (t_dj t);
            let t := with_dj r.2 t in
            if r.1 : bool then mret (inl t)
            else mret (inr (missing, if lfn then t else with_len 0 t, fn, None))
        end) t.

(** The results of [trace_path]. *)
Record traced := {
  tr_res : Z;
  tr_dj : dir_object;
  tr_fn : list Z;
  tr_dir : option Z;
  tr_fileobj : dir_object;
  tr_spath : Z;
  tr_len : Z
}.

(** The directory object at the start cluster [clust] of a directory. *)
Definition at_cluster (fs clust : Z) (dj : dir_object) : fat dir_object :=
  s ← clust2sect fs clust;
  mret (set_dj_sect s (set_dj_clust clust (set_dj_sclust clust dj))).

Definition trace_start (fs : Z) (path : list Z) (p : Z) (dj : dir_object) : fat dir_object :=
  f ← get_fs fs;
  c ← of_option (load path p);
  dj ← (if (curr_dir f =? 0) || (c =? 47) then
          if fat_type f =? FS_FAT32 then at_cluster fs (dirbase f) dj
          else mret (set_dj_sect (dirbase f) (set_dj_clust 0 (set_dj_sclust 0 dj)))
        else at_cluster fs (curr_dir f) dj);
  mret (set_dj_index 0 dj).

(** The cluster in a directory entry. *)
Definition entry_cluster (dptr : Z) : fat Z :=
  hi ← LD_WORD (dptr + DIR_FstClusHI);
  lo ← LD_WORD (dptr + DIR_FstClusLO);
  mret (Z.lor (u32 (Z.shiftl hi 16)) lo).

Definition trace_path (fs : Z) (path : list Z) (p : Z) : fat traced :=
  dj ← trace_start fs path p (zero_dj fs);
  let fn := fill 12 0 in
  c ← of_option (load path p);
  if c =? 0 then
    mret {| tr_res := FR_OK; tr_dj := dj; tr_fn := fn; tr_dir := None; tr_fileobj := zero_dj fs; tr_spath := p; tr_len := 0 |}
  else
    let t := {| t_dj := dj; t_fileobj := zero_dj fs; t_store := true; t_match := true; t_l := 0; t_len := 0 |} in
    loop (S (length path)) (fun '(p, fn, t) =>
      let spath := p in
      let result res t fn dir := {| tr_res := res; tr_dj := t_dj t; tr_fn := fn; tr_dir := dir; tr_fileobj := t_fileobj t;
                                    tr_spath := spath; tr_len := t_len t |} in
      r ← make_dirfile path p fn;
      let '(ds, p, fn, lfn) := r in
      let t := with_len (if lfn : bool then u16 (p - spath - 1) else 0) (with_match true 0 t) in
      if ds =? 1 then mret (inr (result FR_INVALID_NAME t fn None))
      else
        r ← trace_dir fs path spath lfn ds fn t;
        let '(res, t, fn, dir) := r in
        match dir with
        | None => mret (inr (result res t fn None))
        | Some dptr =>
            if ds =? 0 then mret (inr (result FR_OK t fn (Some dptr)))
            else
              attr ← fb_get (dptr + DIR_Attr);
              if Z.land attr AM_DIR =? 0 then mret (inr (result FR_NO_PATH t fn None))
              else
                clust ← entry_cluster dptr;
                dj ← at_cluster fs clust (t_dj t);
                mret (inl (p, fn, with_dj (set_dj_index 2 dj) t))
        end) (p, fn, t).

(** ** Room for an entry *)

(** The start of the directory of [dj]. *)
Definition rewind_dj (fs : Z) (dj : dir_object) : fat dir_object :=
  f ← get_fs fs;
  dj ← (if dj_sclust dj =? 0 then mret (set_dj_sect (dirbase f) dj)
        else s ← clust2sect fs (dj_sclust dj); mret (set_dj_sect s (set_dj_clust (dj_sclust dj) dj)));
  mret (set_dj_index 0 dj).

(** The new cluster of the directory, filled with zeros. *)
Definition clear_cluster (fs clust : Z) : fat bool :=
  sector ← clust2sect fs clust;
  put_buf (fun b => set_sect sector (set_buf_data (fill 512 0) b));;
  f ← get_fs fs;
  r ← loop (S (Z.to_nat (fs_csize f))) (fun '(n, sector) =>
    if n =? 0 then mret (inr true)
    else
      b ← get_buf;
      res ← write_sectors (drive f) (buf_data b) sector 1;
      mret (if negb (res =? RES_OK) then inr false else inl (n - 1, u32 (sector + 1)))) (fs_csize f, sector);
  mret r.

(** [reserve_direntry(&dj, &dir, len)]: the result, the directory object, the
    pointer to the first free entry. *)
Definition reserve_direntry (dj : dir_object) (len : Z) : fat (Z * dir_object * option Z) :=
  let fs := dj_fs dj in
  let len := u16 (len + 25) / 13 in
  let sclust := dj_sclust dj in
  dj ← rewind_dj fs dj;
  r ← loop scan_fuel (fun '(dj, entries, saved, dir) =>
    ok ← move_fs_window fs (dj_sect dj);
    if negb ok then mret (inr (inl (FR_RW_ERROR, dj, dir)))
    else
      let dptr := window_entry dj in
      c ← fb_get dptr;
      let free := (c =? 0) || (c =? 229) in
      let '(saved, dir) := if free && (entries =? 0) then (dj, Some dptr) else (saved, dir) in
      let entries := if free then u8 (entries + 1) else if negb (entries =? len) then 0 else entries in
      if free && (entries =? len) then
        mret (inr (inl (FR_OK, set_dj_index (dj_index saved) (set_dj_sect (dj_sect saved) (set_dj_clust (dj_clust saved) dj)), dir)))
      else
        r ← next_dir_entry dj;
        mret (if r.1 : bool then inl (r.2, entries, saved, dir) else inr (inr (r.2, entries, saved, dir)))) (dj, 0, zero_dj fs, None);
  match r with
  | inl result => mret result
  | inr (dj, entries, saved, dir) =>
      clust ← (if sclust =? 0 then mret 0 else create_chain fs (dj_clust dj));
      if clust =? 0 then mret (FR_DENIED, dj, dir)
      else
        ok ← (if clust =? 1 then mret false else move_fs_window fs 0);
        if negb ok then mret (FR_RW_ERROR, dj, dir)
        else
          ok ← clear_cluster fs clust;
          if negb ok then mret (FR_RW_ERROR, dj, dir)
          else
            fb_dirty;;
            if negb (entries =? 0) then
              ok ← move_fs_window fs (dj_sect saved);
              if negb ok then mret (FR_RW_ERROR, dj, dir)
              else mret (FR_OK, set_dj_index (dj_index saved) (set_dj_sect (dj_sect saved) (set_dj_clust (dj_clust saved) dj)), dir)
            else
              b ← get_buf;
              mret (FR_OK, set_dj_index 0 (set_dj_sect (sect b) (set_dj_clust clust dj)), Some 0)
  end.

(** Does the directory have the short name already? *)
Definition chk_filename (dj : dir_object) (fn : list Z) : fat (Z * dir_object) :=
  let fs := dj_fs dj in
  dj ← rewind_dj fs dj;
  loop scan_fuel (fun dj =>
    ok ← move_fs_window fs (dj_sect dj);
    if negb ok then mret (inr (FR_RW_ERROR, dj))
    else
      e ← fb_read (window_entry dj) 32;
      let attr := nthZ e DIR_Attr in
      if nthZ e DIR_Name =? 0 then mret (inr (FR_OK, dj))
      else if negb (nthZ e 0 =? 229) && negb (Z.land attr AM_LFN =? AM_LFN) && (Z.land attr AM_VOL =? 0)
              && bool_decide (slice 0 11 e = slice 0 11 fn) then mret (inr (FR_EXIST, dj))
      else
        r ← next_dir_entry dj;
        mret (if r.1 : bool then inl r.2 else inr (FR_OK, r.2))) dj.

(** The first short name that is free. *)
Definition free_short_name (dj : dir_object) (fn : list Z) : fat (option (list Z) * dir_object) :=
  loop name_fuel (fun '(dj, fn) =>
    r ← chk_filename dj fn;
    if r.1 =? FR_OK then mret (inr (Some fn, r.2))
    else
      fn' ← fix_short_name fn;
      mret (match fn' with Some fn => inl (r.2, fn) | None => inr (None, r.2) end)) (dj, fn).

(** A part of a long name at [dir]: the [i]th of [entries]. *)
Definition put_lfn (dir : Z) (path : list Z) (spath len entries i chk : Z) : fat unit :=
  fb_put dir (fill 32 0);;
  fb_put (dir + DIR_Name) [Z.lor (if i =? entries then 64 else 0) i];;
  r ← loop 14 (fun '(j, k) =>
    if (j <? 13) && (k <? len) then
      c ← of_option (load path (spath + k));
      fb_put (dir + nthZ LFN_pos j) [c];;
      mret (inl (j + 1, u8 (k + 1)))
    else mret (inr j)) (0, u8 ((i - 1) * 13));
  for_range (r + 1) (Z.to_nat (13 - (r + 1))) (fun j _ => fb_put (dir + nthZ LFN_pos j) [255; 255]) tt;;
  fb_put (dir + DIR_Attr) [AM_LFN];;
  fb_put (dir + DIR_Chksum) [chk].

(** [add_direntry(&dj, &dir, spath, len, fn)]: the result, the entry for the
    short name, the short name. *)
Definition add_direntry (dj : dir_object) (path : list Z) (spath len : Z) : fat (Z * dir_object * option Z * list Z) :=
  let fs := dj_fs dj in
  let entries := u8 ((len + 12) / 13) in
  fn ← create_short_name path spath len;
  r ← free_short_name dj fn;
  match r.1 with
  | None => mret (FR_EXIST, r.2, None, fn)
  | Some fn =>
      let chk := compute_checksum fn in
      let dj := set_dj_clust (dj_clust dj) (set_dj_index (dj_index dj) (set_dj_sect (dj_sect dj) r.2)) in
      loop 257 (fun '(dj, i, dir) =>
        ok ← move_fs_window fs (dj_sect dj);
        if negb ok then mret (inr (FR_RW_ERROR, dj, dir, fn))
        else
          let dptr := window_entry dj in
          if i =? 0 then mret (inr (FR_OK, dj, Some dptr, fn))
          else
            fb_dirty;;
            put_lfn dptr path spath len entries i chk;;
            r ← next_dir_entry dj;
            mret (if r.1 : bool then inl (r.2, i - 1, Some dptr) else inr (FR_RW_ERROR, r.2, Some dptr, fn))) (dj, entries, None)
  end.
End fftrace.
