(* ===== verification/FfMount.v ===== *)
(** * ff.c: mounting *)

From S2P Require Import Prelude FatFs FfBase FfChain.

Section ffmount.
Context `{Disks}.

Definition fat32string : list Z := [70; 65; 84; 51; 50].

(** 0: a FAT boot record, 1: a valid boot record but not a FAT, 2: no boot
    record or an error. *)
Definition check_fs (fs sector : Z) : fat Z :=
  ok ← move_fs_window fs sector;
  if negb ok then mret 2
  else
    ok ← (if sector =? 0 then
            f ← get_fs fs;
            ok ← read_window (drive f) 0;
            when ok (put_buf (set_sect 0));; mret ok
          else mret true);
    if negb ok then mret 2
    else
      sig ← LD_WORD BS_55AA;
      if negb (sig =? 43605) then mret 2
      else
        t ← fb_read BS_FilSysType 3;
        if bool_decide (t = slice 0 3 fat32string) then mret 0
        else
          t ← fb_read BS_FilSysType32 5;
          flags ← fb_get BPB_ExtFlags;
          mret (if bool_decide (t = fat32string) && (Z.land flags 128 =? 0) then 0 else 1).

(** ** The partition tables *)

(** [LD2PD], [LD2PT] *)
Definition LD2PD (drv : Z) : Z := Z.shiftr drv (8 - PARTITION_MASK).
Definition LD2PT (drv : Z) : Z := Z.land drv (Z.shiftl 1 PARTITION_MASK - 1).

Definition extended (t : Z) : bool := (t =? 5) || (t =? 15).

(** The first of the four entries whose type satisfies [p]. *)
Definition find_table_entry (p : Z -> bool) : fat (option Z) :=
  loop 5 (fun i =>
    if i =? 4 then mret (inr None)
    else
      let tbl := MBR_Table + i * 16 in
      t ← fb_get (tbl + 4);
      mret (if p t then inr (Some tbl) else inl (i + 1))) 0.

(** The boot sector of a logical drive: a result code of [check_fs] or 255
    at the end of the chain. *)
Definition logical_drive (fs curr : Z) : fat (Z + Z) :=
  f ← get_fs fs;
  r ← loop 256 (fun '(curr, bootsect, first) =>
    tbl ← find_table_entry extended;
    match tbl with
    | None => mret (inr (inl 255))
    | Some tbl =>
        ofs ← LD_DWORD (tbl + 8);
        let bootsect := u32 (first + ofs) in
        let first := if first =? 0 then bootsect else first in
        ok ← read_window (drive f) bootsect;
        if negb ok then mret (inr (inl 1))
        else
          let curr := u8 (curr - 1) in
          mret (if curr =? 0 then inr (inr bootsect) else inl (curr, bootsect, first))
    end) (curr, 0, 0);
  match r with
  | inl fmt => mret (inl fmt)
  | inr bootsect =>
      tbl ← find_table_entry (fun t => negb (t =? 0) && negb (extended t));
      match tbl with
      | None => mret (inl 255)
      | Some tbl => ofs ← LD_DWORD (tbl + 8); mret (inr (u32 (bootsect + ofs)))
      end
  end.

(** The boot sector of the partition and what [check_fs] says about it. *)
Definition find_partition (fs part : Z) : fat (Z * Z) :=
  if part =? 0 then fmt ← check_fs fs 0; mret (fmt, 0)
  else
    f ← get_fs fs;
    ok ← read_window (drive f) 0;
    if negb ok then mret (1, 0)
    else if part <? 5 then
      let tbl := MBR_Table + (part - 1) * 16 in
      t ← fb_get (tbl + 4);
      if t =? 0 then mret (1, 0)
      else bootsect ← LD_DWORD (tbl + 8); fmt ← check_fs fs bootsect; mret (fmt, bootsect)
    else
      r ← logical_drive fs (part - 4);
      match r with
      | inl fmt => mret (fmt, 0)
      | inr bootsect => fmt ← check_fs fs bootsect; mret (fmt, bootsect)
      end.

(** ** The file system object *)

(** The fields from the boot record in the window. *)
Definition read_bpb (fs bootsect : Z) : fat unit :=
  fatsz16 ← LD_WORD BPB_FATSz16;
  fatsize ← (if fatsz16 =? 0 then LD_DWORD BPB_FATSz32 else mret fatsz16);
  nfats ← fb_get BPB_NumFATs;
  let fats := u32 (fatsize * nfats) in
  rsvd ← LD_WORD BPB_RsvdSecCnt;
  csize ← fb_get BPB_SecPerClus;
  rootent ← LD_WORD BPB_RootEntCnt;
  tot16 ← LD_WORD BPB_TotSec16;
  totalsect ← (if tot16 =? 0 then LD_DWORD BPB_TotSec32 else mret tot16);
  if csize =? 0 then stuck
  else
    let base := u32 (bootsect + rsvd) in
    let maxclust := u32 (u32 (totalsect - rsvd - fats - rootent / 16) / csize + 2) in
    let fmt := if 65527 <=? maxclust then FS_FAT32 else if 4087 <=? maxclust then FS_FAT16 else FS_FAT12 in
    dbase ← (if fmt =? FS_FAT32 then LD_DWORD BPB_RootClus else mret (u32 (base + fats)));
    put_fs fs (fun f => {|
      n_rootdir := rootent; sects_fat := fatsize; fs_max_clust := maxclust; fs_fatbase := base; dirbase := dbase;
      database := u32 (base + fats + rootent / 16); curr_dir := curr_dir f; last_clust := last_clust f;
      free_clust := 4294967295; fsi_sector := fsi_sector f; fsi_flag := fsi_flag f; fat_type := fmt; fs_csize := csize;
      n_fats := nfats; drive := drive f |}).

(** The FSInfo sector, when there is a good one. *)
Definition read_fsinfo (fs bootsect : Z) : fat unit :=
  info ← LD_WORD BPB_FSInfo;
  put_fs fs (set_fsi_sector (u32 (bootsect + info)));;
  ok ← move_fs_window fs (u32 (bootsect + info));
  when ok (
    sig ← LD_WORD BS_55AA;
    lead ← LD_DWORD FSI_LeadSig;
    struc ← LD_DWORD FSI_StrucSig;
    when ((sig =? 43605) && (lead =? 1096897106) && (struc =? 1631679090)) (
      nxt ← LD_DWORD FSI_Nxt_Free;
      free ← LD_DWORD FSI_Free_Count;
      put_fs fs (fun f => set_free_clust free (set_last_clust nxt f)))).

Definition mount_drv (drv fs : Z) (chk_wp : bool) : fat Z :=
  put_fs fs (fun _ => set_drive (LD2PD drv) zero_fatfs);;
  s ← gets id;
  let '(stat, d) := disk_initialize (LD2PD drv) (disks s) in
  modify (set_disks d);;
  if negb (Z.land stat STA_NOINIT =? 0) then mret FR_NOT_READY
  else if chk_wp && negb (Z.land stat STA_PROTECT =? 0) then mret FR_WRITE_PROTECTED
  else
    r ← find_partition fs (LD2PT drv);
    let '(fmt, bootsect) := r in
    bps ← LD_WORD BPB_BytsPerSec;
    if negb (fmt =? 0) || negb (bps =? SS) then mret (if fmt =? 255 then FR_INVALID_OBJECT else FR_NO_FILESYSTEM)
    else
      read_bpb fs bootsect;;
      f ← get_fs fs;
      when (fat_type f =? FS_FAT32) (read_fsinfo fs bootsect);;
      mret FR_OK.

Definition f_mount (drv : Z) (fs : Z) : fat Z := put_fs fs (set_fat_type 0);; mount_drv drv fs false.

(** ** Checks of the objects *)

(** [auto_mount]: a leading slash is stripped from the path. *)
Definition auto_mount (path : list Z) (p fs : Z) (chk_wp : bool) : fat (Z * Z) :=
  c ← of_option (load path p);
  let p := if c =? 47 then p + 1 else p in
  f ← get_fs fs;
  stat ← status_of (drive f);
  mret (if negb (fat_type f =? 0) && (Z.land stat STA_NOINIT =? 0) then
          if chk_wp && negb (Z.land stat STA_PROTECT =? 0) then FR_WRITE_PROTECTED else FR_OK
        else FR_NOT_READY, p).

Definition validate (fs : option Z) : fat Z :=
  match fs with
  | None => mret FR_INVALID_OBJECT
  | Some fs =>
      f ← get_fs fs;
      if fat_type f =? 0 then mret FR_INVALID_OBJECT
      else stat ← status_of (drive f); mret (if negb (Z.land stat STA_NOINIT =? 0) then FR_NOT_READY else FR_OK)
  end.
End ffmount.
