(* ===== verification/FfFile.v ===== *)
(** * ff.c: files *)

From S2P Require Import Prelude FatFs FfBase FfChain FfTrace FfMount.

Section fffile.
Context `{Disks}.
Context (scan_fuel name_fuel : nat).

Definition has (flags mask : Z) : bool := negb (Z.land flags mask =? 0).

Definition blank_file : file_object := {|
  fp_flag := 0; fp_csect := 0; fp_fs := None; fp_fptr := 0; fp_fsize := 0; fp_org_clust := 0; fp_curr_clust := 0; fp_curr_sect := 0;
  fp_dir_sect := 0; fp_dir_ptr := None
|}.

(** ** [f_open] *)

Definition FA_CREATE : Z := FA_CREATE_ALWAYS + FA_OPEN_ALWAYS + FA_CREATE_NEW.

(** A new entry: the result code and the entry. *)
Definition create_entry (path : list Z) (t : traced) : fat (Z * option Z) :=
  r ← reserve_direntry scan_fuel (tr_dj t) (tr_len t);
  let '(res, dj, dir) := r in
  if negb (res =? FR_OK) then mret (res, dir)
  else
    r ← (if tr_len t =? 0 then mret (FR_OK, dir, tr_fn t)
         else r ← add_direntry scan_fuel name_fuel dj path (tr_spath t) (tr_len t); mret (r.1.1.1, r.1.2, r.2));
    let '(res, dir, fn) := r in
    if negb (res =? FR_OK) then mret (FR_RW_ERROR, dir)
    else
      d ← of_option dir;
      fb_put d (fill 32 0);;
      fb_put (d + DIR_Name) (slice 0 11 fn);;
      fb_put (d + DIR_NTres) [nthZ fn 11];;
      mret (FR_OK, dir).

(** The existing entry is emptied. *)
Definition truncate_entry (fs dir : Z) : fat bool :=
  rs ← entry_cluster dir;
  ST_WORD (dir + DIR_FstClusHI) 0;;
  ST_WORD (dir + DIR_FstClusLO) 0;;
  ST_DWORD (dir + DIR_FileSize) 0;;
  fb_dirty;;
  b ← get_buf;
  ok ← remove_chain fs rs;
  if negb ok then mret false
  else
    ok ← move_fs_window fs (sect b);
    if negb ok then mret false else put_fs fs (set_last_clust (u32 (rs - 1)));; mret true.

(** Opening for creation: the result code, the mode and the entry. *)
Definition open_create (fs : Z) (path : list Z) (mode : Z) (t : traced) : fat (Z * Z * option Z) :=
  r ← (if negb (tr_res t =? FR_OK) then
         if negb (tr_res t =? FR_NO_FILE) then mret (tr_res t, mode, None)
         else r ← create_entry path t; mret (r.1, Z.lor mode FA_CREATE_ALWAYS, r.2)
       else if has mode FA_CREATE_NEW then mret (FR_EXIST, mode, None)
       else
         match tr_dir t with
         | None => mret (FR_DENIED, mode, None)
         | Some dir =>
             attr ← fb_get (dir + DIR_Attr);
             if has attr AM_DIR then mret (FR_IS_DIRECTORY, mode, None)
             else if has attr AM_RDO then mret (FR_IS_READONLY, mode, None)
             else if has mode FA_CREATE_ALWAYS then
               ok ← truncate_entry fs dir; mret (if ok : bool then FR_OK else FR_RW_ERROR, mode, Some dir)
             else mret (FR_OK, mode, Some dir)
         end);
  let '(res, mode, dir) := r in
  if (res =? FR_OK) && has mode FA_CREATE_ALWAYS then
    d ← of_option dir;
    fb_put (d + DIR_Attr) [0];;
    s ← gets id;
    ST_DWORD (d + DIR_CrtTime) (fattime s);;
    mret (FR_OK, Z.lor mode FA__WRITTEN, dir)
  else mret (res, mode, dir).

Definition f_open (fs : Z) (path : list Z) (p : Z) (mode : Z) : fat (Z * file_object) :=
  let mode := Z.land mode (FA_READ + FA_WRITE + FA_CREATE) in
  r ← auto_mount path p fs (has mode (FA_WRITE + FA_CREATE));
  let '(res, p) := r in
  if negb (res =? FR_OK) then mret (res, blank_file)
  else
    t ← trace_path scan_fuel fs path p;
    r ← (if has mode FA_CREATE then open_create fs path mode t
         else if negb (tr_res t =? FR_OK) then mret (tr_res t, mode, None)
         else
           match tr_dir t with
           | None => mret (FR_NO_FILE, mode, None)
           | Some dir =>
               attr ← fb_get (dir + DIR_Attr);
               mret (if has attr AM_DIR then FR_NO_FILE
                     else if has mode FA_WRITE && has attr AM_RDO then FR_DENIED else FR_OK, mode, Some dir)
           end);
    let '(res, mode, dir) := r in
    if negb (res =? FR_OK) then mret (res, blank_file)
    else
      d ← of_option dir;
      b ← get_buf;
      clust ← entry_cluster d;
      size ← LD_DWORD (d + DIR_FileSize);
      let fp := {| fp_flag := mode; fp_csect := 1; fp_fs := Some fs; fp_fptr := 0; fp_fsize := size; fp_org_clust := clust;
                   fp_curr_clust := 0; fp_curr_sect := 0; fp_dir_sect := sect b; fp_dir_ptr := Some d |} in
      (if has mode FA_CREATE then sync fs;; mret tt else mret tt);;
      mret (FR_OK, fp).

Definition l_opencluster (fs clust : Z) : fat (Z * file_object) :=
  f ← get_fs fs;
  mret (FR_OK, {| fp_flag := FA_READ; fp_csect := 1; fp_fs := Some fs; fp_fptr := 0; fp_fsize := u32 (fs_csize f * SS); fp_org_clust := clust;
                  fp_curr_clust := 0; fp_curr_sect := 0; fp_dir_sect := 0; fp_dir_ptr := None |}).

(** ** Reading and writing *)

(** The next sector of a file that is read, at a sector boundary: [None] when
    the chain does not go on. *)
Definition next_sector (fs : Z) (fp : file_object) : fat (option Z * file_object) :=
  let csect := u8 (fp_csect fp - 1) in
  let fp := set_fp_csect csect fp in
  if negb (csect =? 0) then mret (Some (u32 (fp_curr_sect fp + 1)), fp)
  else
    clust ← (if fp_fptr fp =? 0 then mret (fp_org_clust fp) else get_cluster fs (fp_curr_clust fp));
    f ← get_fs fs;
    if (clust <? 2) || (fs_max_clust f <=? clust) then mret (None, fp)
    else
      let fp := set_fp_curr_clust clust fp in
      sector ← clust2sect fs clust;
      mret (Some sector, set_fp_csect (fs_csize f) fp).

(** [FA__ERROR] *)
Definition failed (fp : file_object) : file_object := set_fp_flag (Z.lor (fp_flag fp) FA__ERROR) fp.

(** The transfer of whole sectors from [sector] on: the number of sectors. *)
Definition whole_sectors (btr : Z) (fp : file_object) : Z :=
  let cc := btr / SS in if fp_csect fp <? cc then fp_csect fp else cc.
Definition skip_sectors (cc : Z) (fp : file_object) : file_object :=
  set_fp_curr_sect (u32 (fp_curr_sect fp + (cc - 1))) (set_fp_csect (u8 (fp_csect fp - (cc - 1))) fp).

(** One pass of the loop of [f_read]: the bytes, or [None] after an error. *)
Definition read_part (fs : Z) (fp : file_object) (btr : Z) : fat (option (list Z) * file_object) :=
  r ← (if Z.land (fp_fptr fp) (SS - 1) =? 0 then
         r ← next_sector fs fp;
         match r with
         | (Some sector, fp) =>
             ok ← move_fp_window fp 0;
             if negb ok then mret (inr None, fp)
             else
               let fp := set_fp_curr_sect sector fp in
               let cc := whole_sectors btr fp in
               if 0 <? btr / SS then
                 f ← get_fs fs;
                 r ← read_sectors (drive f) sector cc;
                 if negb (r.1 =? RES_OK) then mret (inr None, fp) else mret (inr (Some (take (Z.to_nat (cc * SS)) r.2)), skip_sectors cc fp)
               else mret (inl tt, fp)
         | (None, fp) => mret (inr None, fp)
         end
       else mret (inl tt, fp));
  match r with
  | (inr bytes, fp) => mret (bytes, fp)
  | (inl _, fp) =>
      let ofs := Z.land (fp_fptr fp) (SS - 1) in
      let rcnt := SS - ofs in
      let rcnt := if btr <? rcnt then btr else rcnt in
      ok ← move_fp_window fp (fp_curr_sect fp);
      if negb ok then mret (None, fp) else bs ← fb_read ofs rcnt; mret (Some bs, fp)
  end.

(** [f_read(fp, buff, btr, &br)]: the result code, the bytes, the file object. *)
Definition f_read (fp : file_object) (btr : Z) : fat (Z * list Z * file_object) :=
  res ← validate (fp_fs fp);
  if negb (res =? FR_OK) then mret (res, [], fp)
  else if has (fp_flag fp) FA__ERROR then mret (FR_RW_ERROR, [], fp)
  else if negb (has (fp_flag fp) FA_READ) then mret (FR_DENIED, [], fp)
  else
    fs ← of_option (fp_fs fp);
    let remain := u32 (fp_fsize fp - fp_fptr fp) in
    let btr := if remain <? btr then u16 remain else btr in
    loop (S (Z.to_nat btr)) (fun '(fp, btr, got) =>
      if btr =? 0 then mret (inr (FR_OK, got, fp))
      else
        r ← read_part fs fp btr;
        match r with
        | (None, fp) => mret (inr (FR_RW_ERROR, got, failed fp))
        | (Some bs, fp) => mret (inl (set_fp_fptr (u32 (fp_fptr fp + zlen bs)) fp, btr - zlen bs, got ++ bs))
        end) (fp, btr, []).

(** The next cluster of a file that is written: the chain is stretched. *)
Definition next_write_cluster (fs : Z) (fp : file_object) : fat (Z * file_object) :=
  if fp_fptr fp =? 0 then
    if fp_org_clust fp =? 0 then clust ← create_chain fs 0; mret (clust, set_fp_org_clust clust fp)
    else mret (fp_org_clust fp, fp)
  else clust ← create_chain fs (fp_curr_clust fp); mret (clust, fp).

(** One pass of the loop of [f_write]: the number of bytes, [None] when the
    disk is full, [Some None] after an error. *)
Definition write_part (fs : Z) (fp : file_object) (wbuff : list Z) : fat (option (option Z) * file_object) :=
  let btw := zlen wbuff in
  r ← (if Z.land (fp_fptr fp) (SS - 1) =? 0 then
         r ← (let csect := u8 (fp_csect fp - 1) in
              if negb (csect =? 0) then mret (Some (Some (u32 (fp_curr_sect fp + 1))), set_fp_csect csect fp)
              else
                r ← next_write_cluster fs fp;
                let '(clust, fp) := r in
                f ← get_fs fs;
                let fp := set_fp_csect csect fp in
                if clust =? 0 then mret (None, fp)
                else if (clust =? 1) || (fs_max_clust f <=? clust) then mret (Some None, fp)
                else
                  sector ← clust2sect fs clust;
                  mret (Some (Some sector), set_fp_csect (fs_csize f) (set_fp_curr_clust clust fp)));
         match r with
         | (None, fp) => mret (inr None, fp)
         | (Some None, fp) => mret (inr (Some None), fp)
         | (Some (Some sector), fp) =>
             ok ← move_fp_window fp 0;
             if negb ok then mret (inr (Some None), fp)
             else
               let fp := set_fp_curr_sect sector fp in
               if 0 <? btw / SS then
                 let cc := whole_sectors btw fp in
                 f ← get_fs fs;
                 res ← write_sectors (drive f) (take (Z.to_nat (cc * SS)) wbuff) sector cc;
                 if negb (res =? RES_OK) then mret (inr (Some None), fp) else mret (inr (Some (Some (cc * SS))), skip_sectors cc fp)
               else mret (inl tt, fp)
         end
       else mret (inl tt, fp));
  match r with
  | (inr n, fp) => mret (n, fp)
  | (inl _, fp) =>
      let ofs := Z.land (fp_fptr fp) (SS - 1) in
      let wcnt := SS - ofs in
      let wcnt := if btw <? wcnt then btw else wcnt in
      ok ← move_fp_window fp (fp_curr_sect fp);
      if negb ok then mret (Some None, fp)
      else fb_put ofs (take (Z.to_nat wcnt) wbuff);; fb_dirty;; mret (Some (Some wcnt), fp)
  end.

(** [f_write(fp, buff, btw, &bw)]: the result code, the number of bytes, the
    file object. *)
Definition f_write (fp : file_object) (buff : list Z) : fat (Z * Z * file_object) :=
  let btw := zlen buff in
  res ← validate (fp_fs fp);
  if negb (res =? FR_OK) then mret (res, 0, fp)
  else if has (fp_flag fp) FA__ERROR then mret (FR_RW_ERROR, 0, fp)
  else if negb (has (fp_flag fp) FA_WRITE) then mret (FR_DENIED, 0, fp)
  else if u32 (fp_fsize fp + btw) <? fp_fsize fp then mret (FR_OK, 0, fp)
  else
    fs ← of_option (fp_fs fp);
    let finish bw fp :=
      let fp := if fp_fsize fp <? fp_fptr fp then set_fp_fsize (fp_fptr fp) fp else fp in
      (FR_OK, bw, set_fp_flag (Z.lor (fp_flag fp) FA__WRITTEN) fp) in
    loop (S (length buff)) (fun '(fp, wbuff, bw) =>
      if zlen wbuff =? 0 then mret (inr (finish bw fp))
      else
        r ← write_part fs fp wbuff;
        match r with
        | (None, fp) => mret (inr (finish bw fp))
        | (Some None, fp) => mret (inr (FR_RW_ERROR, bw, failed fp))
        | (Some (Some n), fp) => mret (inl (set_fp_fptr (u32 (fp_fptr fp + n)) fp, drop (Z.to_nat n) wbuff, bw + n))
        end) (fp, buff, 0).

Definition f_sync (fp : file_object) : fat (Z * file_object) :=
  res ← validate (fp_fs fp);
  if negb (res =? FR_OK) || negb (has (fp_flag fp) FA__WRITTEN) then mret (res, fp)
  else
    fs ← of_option (fp_fs fp);
    ok ← move_fp_window fp 0;
    if negb ok then mret (FR_RW_ERROR, fp)
    else
      ok ← move_fs_window fs (fp_dir_sect fp);
      if negb ok then mret (FR_RW_ERROR, fp)
      else
        dir ← of_option (fp_dir_ptr fp);
        attr ← fb_get (dir + DIR_Attr);
        fb_put (dir + DIR_Attr) [Z.lor attr AM_ARC];;
        ST_DWORD (dir + DIR_FileSize) (fp_fsize fp);;
        ST_WORD (dir + DIR_FstClusLO) (u16 (fp_org_clust fp));;
        ST_WORD (dir + DIR_FstClusHI) (u16 (Z.shiftr (fp_org_clust fp) 16));;
        s ← gets id;
        ST_DWORD (dir + DIR_WrtTime) (fattime s);;
        res ← sync fs;
        mret (res, set_fp_flag (Z.land (fp_flag fp) 223) fp).

Definition f_close (fp : file_object) : fat (Z * file_object) :=
  r ← f_sync fp;
  mret (if r.1 =? FR_OK then (r.1, set_fp_fs None r.2) else r).

(** ** [f_lseek] *)

Definition s8_of (x : Z) : Z := s8 x.

(** The loop that skips the leading clusters: [None] after an error, else the
    file object and the offset that remains. *)
Definition skip_clusters (fs csize clust : Z) (fp : file_object) (ofs : Z) : fat (option Z * file_object) :=
  loop (S (Z.to_nat (ofs / csize))) (fun '(clust, fp, ofs) =>
    let fp := set_fp_curr_clust clust fp in
    if ofs <=? csize then mret (inr (Some ofs, fp))
    else
      clust ← (if has (fp_flag fp) FA_WRITE then create_chain fs clust else get_cluster fs clust);
      f ← get_fs fs;
      if clust =? 0 then mret (inr (Some csize, fp))
      else if (clust <? 2) || (fs_max_clust f <=? clust) then mret (inr (None, fp))
      else mret (inl (clust, set_fp_fptr (u32 (fp_fptr fp + csize)) fp, ofs - csize))) (clust, fp, ofs).

(** The move of the pointer to [ofs], which is not 0: [None] after an error,
    else the offset in the last cluster. *)
Definition seek_to (fs : Z) (fp : file_object) (ofs : Z) : fat (option Z * file_object) :=
  f ← get_fs fs;
  let csize := u32 (fs_csize f * SS) in
  if csize =? 0 then stuck
  else if ofs / csize =? u32 (fp_fptr fp - 1) / csize then
    mret (Some (ofs - ofs / csize * csize), set_fp_fptr ofs fp)
  else
    let fp := set_fp_csect 1 fp in
    let '(fp, ofs, clust) :=
      if negb (fp_fptr fp =? 0) && (fp_fptr fp <? ofs) then
        let start := u32 (fp_fptr fp - 1) / csize * csize in (set_fp_fptr start fp, ofs - start, fp_curr_clust fp)
      else (set_fp_fptr 0 fp, ofs, fp_org_clust fp) in
    r ← (if clust =? 0 then
           clust ← create_chain fs 0;
           mret (if clust =? 1 then None else Some clust, if clust =? 1 then fp else set_fp_org_clust clust fp)
         else mret (Some clust, fp));
    match r with
    | (None, fp) => mret (None, fp)
    | (Some clust, fp) =>
        if clust =? 0 then mret (Some ofs, fp)
        else
          r ← skip_clusters fs csize clust fp ofs;
          match r with
          | (None, fp) => mret (None, fp)
          | (Some ofs, fp) => mret (Some ofs, set_fp_fptr (u32 (fp_fptr fp + ofs)) fp)
          end
    end.

Definition f_lseek (fp : file_object) (ofs : Z) : fat (Z * file_object) :=
  res ← validate (fp_fs fp);
  if negb (res =? FR_OK) then mret (res, fp)
  else if has (fp_flag fp) FA__ERROR then mret (FR_RW_ERROR, fp)
  else if fp_fptr fp =? ofs then mret (FR_OK, fp)
  else
    fs ← of_option (fp_fs fp);
    ok ← move_fp_window fp 0;
    if negb ok then mret (FR_RW_ERROR, failed fp)
    else
      let ofs := if (fp_fsize fp <? ofs) && negb (has (fp_flag fp) FA_WRITE) then fp_fsize fp else ofs in
      r ← (if ofs =? 0 then mret (Some tt, set_fp_csect 1 (set_fp_fptr 0 fp))
           else
             r ← seek_to fs fp ofs;
             match r with
             | (None, fp) => mret (None, fp)
             | (Some ofs, fp) =>
                 let csect := s8_of (u32 (ofs - 1) / SS) in
                 f ← get_fs fs;
                 sector ← clust2sect fs (fp_curr_clust fp);
                 mret (Some tt, set_fp_csect (u8 (fs_csize f - csect)) (set_fp_curr_sect (u32 (sector + csect)) fp))
             end);
      match r with
      | (None, fp) => mret (FR_RW_ERROR, failed fp)
      | (Some _, fp) =>
          mret (FR_OK, if fp_fsize fp <? fp_fptr fp
                       then set_fp_flag (Z.lor (fp_flag fp) FA__WRITTEN) (set_fp_fsize (fp_fptr fp) fp) else fp)
      end.
End fffile.
