(* ===== verification/FfDir.v ===== *)
(** * ff.c: directories *)

From S2P Require Import Prelude FatFs FfBase FfChain FfTrace FfMount FfFile.

Section ffdir.
Context `{Disks}.
Context (scan_fuel name_fuel : nat).

(** ** Reading a directory *)

Definition l_opendir (fs cluster : Z) : fat (Z * dir_object) :=
  f ← get_fs fs;
  let dj := zero_dj fs in
  dj ← (if cluster =? 0 then
          if fat_type f =? FS_FAT32 then at_cluster fs (dirbase f) dj
          else mret (set_dj_sect (dirbase f) (set_dj_clust 0 (set_dj_sclust 0 dj)))
        else at_cluster fs cluster dj);
  mret (FR_OK, set_dj_index 0 dj).

(** A part of a long name in the entry at [dptr], copied into the array
    [lfn]: the array, the length, and the flag that the name is too long. *)
Definition read_lfn (dptr : Z) (lfn : list Z) (len : Z) (skiplfn : bool) : fat (list Z * Z * bool) :=
  e ← fb_read dptr 32;
  let pos := u8 ((Z.land (nthZ e 0) 31 - 1) * 13) in
  if skiplfn || (MAX_LFN_LENGTH <=? pos) then mret (lfn, len, true)
  else
    r ← loop 14 (fun '(i, pos, lfn) =>
      if 13 <=? i then mret (inr (i, lfn, len, false))
      else
        let c := nthZ e (nthZ LFN_pos i) in
        if (c =? 0) && (nthZ e (nthZ LFN_pos i + 1) =? 0) then mret (inr (i, lfn, len, false))
        else if MAX_LFN_LENGTH <=? pos then mret (inr (0, lfn, 0, true))
        else a ← of_option (store lfn pos c); mret (inl (i + 1, u8 (pos + 1), a))) (0, pos, lfn);
    let '(i, lfn, len, skip) := r in
    mret (lfn, u16 (len + i), skip).

(** [f_readdir(dj, finfo)], where [finfo] points to an array for the long
    name or not. *)
Definition f_readdir (dj : dir_object) (finfo : FILINFO) (lfn : option (list Z)) : fat (Z * FILINFO * option (list Z) * dir_object) :=
  lfn ← (match lfn with Some a => a ← of_option (store a 0 0); mret (Some a) | None => mret None end);
  res ← validate (Some (dj_fs dj));
  if negb (res =? FR_OK) then mret (res, finfo, lfn, dj)
  else
    let blank := {| fi_fsize := fi_fsize finfo; fi_fdate := fi_fdate finfo; fi_ftime := fi_ftime finfo; fi_fattrib := fi_fattrib finfo;
                    fi_clust := fi_clust finfo; fi_fname := [0]; fi_lfn := fi_lfn finfo |} in
    loop scan_fuel (fun '(dj, finfo, lfn, len, skiplfn) =>
      if dj_sect dj =? 0 then mret (inr (FR_OK, finfo, lfn, dj))
      else
        ok ← move_fs_window (dj_fs dj) (dj_sect dj);
        if negb ok then mret (inr (FR_RW_ERROR, finfo, lfn, dj))
        else
          let dptr := window_entry dj in
          e ← fb_read dptr 32;
          let c := nthZ e DIR_Name in
          if c =? 0 then mret (inr (FR_OK, finfo, lfn, dj))
          else
            r ← (if c =? 229 then mret (finfo, lfn, len, skiplfn)
                 else
                   match lfn with
                   | Some a =>
                       if Z.land (nthZ e DIR_Attr) AM_LFN =? AM_LFN then
                         r ← read_lfn dptr a len skiplfn; mret (finfo, Some r.1.1, r.1.2, r.2)
                       else
                         a ← of_option (store a len 0);
                         info ← get_fileinfo dptr a;
                         mret (info, Some a, len, false)
                   | None => info ← get_fileinfo dptr []; mret (info, lfn, len, false)
                   end);
            let '(finfo, lfn, len, skiplfn) := r in
            r ← next_dir_entry dj;
            let dj := if r.1 : bool then r.2 else set_dj_sect 0 r.2 in
            mret (if negb (nthZ (fi_fname finfo) 0 =? 0) then inr (FR_OK, finfo, lfn, dj) else inl (dj, finfo, lfn, len, skiplfn)))
      (dj, blank, lfn, 0, false).

Definition f_stat (fs : Z) (path : list Z) (p : Z) (finfo : FILINFO) : fat (Z * FILINFO) :=
  r ← auto_mount path p fs false;
  let '(res, p) := r in
  if negb (res =? FR_OK) then mret (res, finfo)
  else
    t ← trace_path scan_fuel fs path p;
    if negb (tr_res t =? FR_OK) then mret (tr_res t, finfo)
    else
      match tr_dir t with
      | Some dir => info ← get_fileinfo dir (fi_lfn finfo); mret (FR_OK, info)
      | None => mret (FR_INVALID_NAME, finfo)
      end.

(** ** The number of free clusters *)

(** The scan of a FAT with entries of [size] bytes, which stops at
    [maxclust] free ones. *)
Definition scan_fat (fs size maxclust : Z) : fat (option Z) :=
  f ← get_fs fs;
  loop (S (Z.to_nat (fs_max_clust f))) (fun '(clust, sector, p, n) =>
    if negb (maxclust =? 0) && (maxclust <=? n) then mret (inr (Some maxclust))
    else
      ok ← (if p =? 0 then move_fs_window fs sector else mret true);
      if negb ok then mret (inr None)
      else
        let sector := if p =? 0 then u32 (sector + 1) else sector in
        x ← (if size =? 2 then LD_WORD p else LD_DWORD p);
        let n := if x =? 0 then n + 1 else n in
        let clust := u32 (clust - 1) in
        mret (if clust =? 0 then inr (Some n) else inl (clust, sector, Z.land (p + size) (SS - 1), n)))
    (fs_max_clust f, fs_fatbase f, 0, 0).

Definition scan_fat12 (fs : Z) : fat Z :=
  f ← get_fs fs;
  loop (S (Z.to_nat (fs_max_clust f))) (fun '(clust, n) =>
    x ← get_cluster fs clust;
    let n := if u16 x =? 0 then n + 1 else n in
    let clust := clust + 1 in
    mret (if clust <? fs_max_clust f then inl (clust, n) else inr n)) (2, 0).

Definition l_getfree (fs : Z) (drv : list Z) (maxclust : Z) : fat (Z * Z) :=
  r ← auto_mount drv 0 fs false;
  if negb (r.1 =? FR_OK) then mret (r.1, 0)
  else
    f ← get_fs fs;
    if free_clust f <=? u32 (fs_max_clust f - 2) then mret (FR_OK, free_clust f)
    else
      r ← (if fat_type f =? FS_FAT12 then n ← scan_fat12 fs; mret (Some n)
           else scan_fat fs (if fat_type f =? FS_FAT16 then 2 else 4) maxclust);
      match r with
      | None => mret (FR_RW_ERROR, 0)
      | Some n =>
          when (n <? maxclust) (
            put_fs fs (fun f => (if fat_type f =? FS_FAT32 then set_fsi_flag true else id) (set_free_clust n f)));;
          mret (FR_OK, n)
      end.

Definition f_getfree (fs : Z) (drv : list Z) : fat (Z * Z) :=
  r ← auto_mount drv 0 fs false;
  if negb (r.1 =? FR_OK) then mret (r.1, 0) else l_getfree fs (drop (Z.to_nat r.2) drv) 0.

(** ** Deleting *)

(** Has the directory at [clust] no entries but the first two? *)
Definition subdir_is_empty (fs clust : Z) (dj : dir_object) : fat Z :=
  s ← clust2sect fs clust;
  loop scan_fuel (fun dj =>
    ok ← move_fs_window fs (dj_sect dj);
    if negb ok then mret (inr FR_RW_ERROR)
    else
      e ← fb_read (window_entry dj) 32;
      if nthZ e DIR_Name =? 0 then mret (inr FR_OK)
      else if negb (nthZ e DIR_Name =? 229) && (Z.land (nthZ e DIR_Attr) AM_VOL =? 0) then mret (inr FR_DIR_NOT_EMPTY)
      else r ← next_dir_entry dj; mret (if r.1 : bool then inl r.2 else inr FR_OK))
    (set_dj_index 2 (set_dj_sect s (set_dj_clust clust dj))).

(** The entries from [fileobj] on are marked as deleted: [n] of them; after
    the last one only [f_rename] moves on. *)
Definition delete_entries (fs : Z) (fileobj : dir_object) (n : Z) (move_last : bool) : fat bool :=
  loop (S (Z.to_nat n)) (fun '(fileobj, n) =>
    if n =? 0 then mret (inr true)
    else
      let n := n - 1 in
      ok ← move_fs_window fs (dj_sect fileobj);
      if negb ok then mret (inr false)
      else
        fb_put (window_entry fileobj + DIR_Name) [229];;
        fb_dirty;;
        if move_last || negb (n =? 0) then
          r ← next_dir_entry fileobj; mret (if r.1 : bool then inl (r.2, n) else inr false)
        else mret (inl (fileobj, n))) (fileobj, n).

Definition f_unlink (fs : Z) (path : list Z) (p : Z) : fat Z :=
  r ← auto_mount path p fs true;
  let '(res, p) := r in
  if negb (res =? FR_OK) then mret res
  else
    t ← trace_path scan_fuel fs path p;
    if negb (tr_res t =? FR_OK) then mret (tr_res t)
    else
      match tr_dir t with
      | None => mret FR_INVALID_NAME
      | Some dir =>
          attr ← fb_get (dir + DIR_Attr);
          if has attr AM_RDO then mret FR_DENIED
          else
            dclust ← entry_cluster dir;
            f ← get_fs fs;
            res ← (if has attr AM_DIR then
                     if dclust =? curr_dir f then mret FR_DIR_NOT_EMPTY else subdir_is_empty fs dclust (tr_dj t)
                   else mret FR_OK);
            if negb (res =? FR_OK) then mret res
            else
              ok ← delete_entries fs (tr_fileobj t) (u16 (tr_len t + 25) / 13) false;
              if negb ok then mret FR_RW_ERROR
              else ok ← remove_chain fs dclust; if negb ok then mret FR_RW_ERROR else sync fs
      end.

(** ** Making a directory *)

(** The first sector of the new directory: the entries [.] and [..]. *)
Definition dot_entries (time dclust pclust : Z) : fat unit :=
  let entry name clust :=
    name ++ fill (11 - zlen name) 32 ++ [AM_DIR] ++ fill 8 0 ++ le_word (u16 (Z.shiftr clust 16)) ++ le_dword time
    ++ le_word (u16 clust) ++ fill 4 0 in
  fb_put 0 (entry [46] dclust ++ entry [46; 46] pclust).

(** The other sectors of the cluster, cleared. *)
Definition clear_sectors (fs dsect : Z) : fat bool :=
  f ← get_fs fs;
  loop (S (Z.to_nat (fs_csize f))) (fun '(n, dsect) =>
    if n <? fs_csize f then
      let dsect := u32 (dsect + 1) in
      b ← get_buf;
      res ← write_sectors (drive f) (buf_data b) dsect 1;
      mret (if negb (res =? RES_OK) then inr false else inl (n + 1, dsect))
    else mret (inr true)) (1, dsect).

Definition f_mkdir (fs : Z) (path : list Z) (p : Z) : fat Z :=
  r ← auto_mount path p fs true;
  let '(res, p) := r in
  if negb (res =? FR_OK) then mret res
  else
    t ← trace_path scan_fuel fs path p;
    if tr_res t =? FR_OK then mret FR_EXIST
    else if negb (tr_res t =? FR_NO_FILE) then mret (tr_res t)
    else
      r ← reserve_direntry scan_fuel (tr_dj t) (tr_len t);
      let '(res, dj, dir) := r in
      if negb (res =? FR_OK) then mret res
      else
        b ← get_buf;
        let sector := sect b in
        dclust ← create_chain fs 0;
        if dclust =? 1 then mret FR_RW_ERROR
        else
          dsect ← clust2sect fs dclust;
          if dsect =? 0 then mret FR_DENIED
          else
            ok ← move_fs_window fs dsect;
            if negb ok then mret FR_RW_ERROR
            else
              fb_put 0 (fill 512 0);;
              ok ← clear_sectors fs dsect;
              if negb ok then mret FR_RW_ERROR
              else
                f ← get_fs fs;
                s ← gets id;
                let tim := fattime s in
                let pclust := dj_sclust dj in
                let pclust := if (fat_type f =? FS_FAT32) && (pclust =? dirbase f) then 0 else pclust in
                dot_entries tim dclust pclust;;
                fb_dirty;;
                ok ← move_fs_window fs sector;
                if negb ok then mret FR_RW_ERROR
                else
                  r ← (if tr_len t =? 0 then mret (FR_OK, dir, tr_fn t)
                       else r ← add_direntry scan_fuel name_fuel dj path (tr_spath t) (tr_len t); mret (r.1.1.1, r.1.2, r.2));
                  let '(res, dir, fn) := r in
                  if negb (res =? FR_OK) then mret FR_RW_ERROR
                  else
                    d ← of_option dir;
                    fb_put d (fill 32 0);;
                    fb_put (d + DIR_Name) (slice 0 11 fn);;
                    fb_put (d + DIR_NTres) [nthZ fn 11];;
                    fb_dirty;;
                    fb_put (d + DIR_Attr) [AM_DIR];;
                    ST_DWORD (d + DIR_WrtTime) tim;;
                    ST_WORD (d + DIR_FstClusLO) (u16 dclust);;
                    ST_WORD (d + DIR_FstClusHI) (u16 (Z.shiftr dclust 16));;
                    sync fs.

(** ** Attributes and renaming *)

Definition f_chmod (fs : Z) (path : list Z) (p value mask : Z) : fat Z :=
  r ← auto_mount path p fs true;
  let '(res, p) := r in
  if negb (res =? FR_OK) then mret res
  else
    t ← trace_path scan_fuel fs path p;
    if negb (tr_res t =? FR_OK) then mret (tr_res t)
    else
      match tr_dir t with
      | None => mret FR_INVALID_NAME
      | Some dir =>
          if nthZ (tr_fn t) 0 =? 46 then mret FR_INVALID_NAME
          else
            let mask := Z.land mask (AM_RDO + AM_HID + AM_SYS + AM_ARC) in
            attr ← fb_get (dir + DIR_Attr);
            fb_put (dir + DIR_Attr) [Z.lor (Z.land value mask) (Z.land attr (255 - mask))];;
            sync fs
      end.

Definition f_rename (fs : Z) (path_old : list Z) (p : Z) (path_new : list Z) (p_new : Z) : fat Z :=
  r ← auto_mount path_old p fs true;
  let '(res, p) := r in
  if negb (res =? FR_OK) then mret res
  else
    t ← trace_path scan_fuel fs path_old p;
    if negb (tr_res t =? FR_OK) then mret (tr_res t)
    else
      match tr_dir t with
      | None => mret FR_NO_FILE
      | Some dir_old =>
          direntry ← fb_read (dir_old + DIR_Attr) 21;
          t ← trace_path scan_fuel fs path_new p_new;
          if tr_res t =? FR_OK then mret FR_EXIST
          else if negb (tr_res t =? FR_NO_FILE) then mret (tr_res t)
          else
            r ← reserve_direntry scan_fuel (tr_dj t) (tr_len t);
            let '(res, dj, dir) := r in
            if negb (res =? FR_OK) then mret res
            else
              r ← (if tr_len t =? 0 then mret (FR_OK, dir, tr_fn t)
                   else r ← add_direntry scan_fuel name_fuel dj path_new (tr_spath t) (tr_len t); mret (r.1.1.1, r.1.2, r.2));
              let '(res, dir, fn) := r in
              if negb (res =? FR_OK) then mret FR_RW_ERROR
              else
                d ← of_option dir;
                fb_put (d + DIR_Attr) direntry;;
                fb_put (d + DIR_Name) (slice 0 11 fn);;
                fb_put (d + DIR_NTres) [nthZ fn 11];;
                fb_dirty;;
                t ← trace_path scan_fuel fs path_old p;
                ok ← delete_entries fs (tr_fileobj t) (u16 (tr_len t + 25) / 13) true;
                if negb ok then mret FR_RW_ERROR else sync fs
      end.
End ffdir.
