(* ===== verification/FfVolume.v ===== *)
(** * ff.c on disks without defects

    [ReliableDisks]: every sector below the capacity of a drive can be read
    and written; [RamDisk] is one in memory.  [sees fs f vw s]: in the state
    [s] the volume [fs] is mounted with the structure [f] and the driver sees
    the sector [sec] as [vw sec], the sectors of the disk with the dirty sector
    of the buffer laid over them (the copies of the FAT, which are never read,
    are left out).  The operations on the buffer keep the view or change one
    sector of it. *)

From stdpp Require Import gmap functions.
From S2P Require Import Prelude FatFs FfBase.

Class ReliableDisks `{Disks} := {
  capacity : Z -> Z;
  content : DISKS -> Z -> Z -> list Z;
  intact : DISKS -> Prop;
  capacity_small : forall drv, capacity drv < 4294967296;
  ready_law : forall drv d, intact d -> Z.land (disk_status drv d) STA_NOINIT = 0;
  sector_law : forall d drv s, intact d -> 0 <= s < capacity drv -> zlen (content d drv s) = 512 /\ bytes (content d drv s);
  read_law : forall d drv s n, intact d -> 0 <= s -> 0 <= n -> s + n <= capacity drv -> exists data d',
    disk_read drv s n d = (RES_OK, data, d') /\ intact d' /\ zlen data = 512 * n /\
    (forall i, 0 <= i < 512 * n -> nthZ data i = nthZ (content d drv (s + i / 512)) (i mod 512)) /\
    (forall drv' s', content d' drv' s' = content d drv' s');
  write_law : forall d drv s n data, intact d -> 0 <= s -> 0 <= n -> s + n <= capacity drv -> zlen data = 512 * n -> bytes data ->
    exists d', disk_write drv data s n d = (RES_OK, d') /\ intact d' /\
    forall drv' s', content d' drv' s' =
      if bool_decide (drv' = drv) && (s <=? s') && (s' <? s + n) then slice (512 * (s' - s)) 512 data else content d drv' s'
}.

(** ** A disk in memory *)

(** Drive 0; a sector that is not in the map holds zeros. *)
Module RamDisk.
Definition disk : Type := gmap Z (list Z).
Definition sector (d : disk) (s : Z) : list Z := default (fill 512 0) (d !! s).
Fixpoint read (s : Z) (n : nat) (d : disk) : list Z :=
  match n with
  | O => []
  | S n => sector d s ++ read (s + 1) n d
  end.
Fixpoint write (data : list Z) (s : Z) (n : nat) (d : disk) : disk :=
  match n with
  | O => d
  | S n => write (drop 512 data) (s + 1) n (<[s := take 512 data]> d)
  end.
Definition whole (d : disk) : Prop := map_Forall (fun _ l => zlen l = 512 /\ bytes l) d.

Lemma whole_sector d s : whole d -> zlen (sector d s) = 512 /\ bytes (sector d s).
Proof.
  intros Hd. unfold sector. destruct (d !! s) eqn:E; simpl; [by apply Hd in E|].
  split; [done|apply bytes_fill; done].
Qed.

Lemma zlen_read s n d : whole d -> zlen (read s n d) = 512 * Z.of_nat n.
Proof.
  intros Hd. revert s. induction n as [|n IH]; intros s; [done|].
  simpl read. rewrite zlen_app, IH. destruct (whole_sector d s Hd) as [-> _]. lia.
Qed.

Lemma nthZ_read s n d i : whole d -> 0 <= i < 512 * Z.of_nat n -> nthZ (read s n d) i = nthZ (sector d (s + i / 512)) (i mod 512).
Proof.
  intros Hd. revert s i. induction n as [|n IH]; intros s i Hi; [lia|].
  destruct (whole_sector d s Hd) as [Hl _]. simpl read. rewrite nthZ_app, Hl by lia. case_bools.
  - rewrite Z.div_small, Z.mod_small by lia. f_equal. f_equal. lia.
  - rewrite IH by lia. replace i with (i - 512 + 1 * 512) at 3 4 by lia. rewrite Z.div_add, Z.mod_add by lia.
    f_equal. f_equal. lia.
Qed.

Lemma write_whole data s n d : whole d -> zlen data = 512 * Z.of_nat n -> bytes data -> whole (write data s n d).
Proof.
  revert data s d. induction n as [|n IH]; intros data s d Hd Hl Hb; [done|]. simpl. apply IH.
  - apply map_Forall_insert_2; [|done]. unfold zlen in *. rewrite length_take. split; [lia|by apply Forall_take].
  - unfold zlen in *. rewrite length_drop. lia.
  - by apply Forall_drop.
Qed.

Lemma sector_write data s n d s' : zlen data = 512 * Z.of_nat n ->
  sector (write data s n d) s' = if (s <=? s') && (s' <? s + Z.of_nat n) then slice (512 * (s' - s)) 512 data else sector d s'.
Proof.
  revert data s d. induction n as [|n IH]; intros data s d Hl; simpl write; [case_bools; lia || done|].
  rewrite IH by (unfold zlen in *; rewrite length_drop; lia). unfold sector.
  destruct (decide (s' = s)) as [->|Hne].
  - unfold disk. rewrite lookup_insert_eq. case_bools; try lia. by replace (512 * (s - s)) with 0 by lia.
  - unfold disk. rewrite lookup_insert_ne by done. case_bools; try lia; try done.
    unfold slice. rewrite drop_drop. f_equal. f_equal. lia.
Qed.
End RamDisk.

#[export] Instance ram_disk : Disks := {
  DISKS := RamDisk.disk;
  disk_initialize _ d := (0, d);
  disk_status _ _ := 0;
  disk_read _ s n d := (RES_OK, RamDisk.read s (Z.to_nat n) d, d);
  disk_write _ data s n d := (RES_OK, RamDisk.write data s (Z.to_nat n) d)
}.

#[export, program] Instance ram_disk_reliable : ReliableDisks := {
  capacity drv := if drv =? 0 then 4294967295 else 0;
  content d drv s := if drv =? 0 then RamDisk.sector d s else [];
  intact := RamDisk.whole
}.
Next Obligation. intros drv. simpl. by case_match. Qed.
Next Obligation. done. Qed.
Next Obligation. intros d drv s Hd Hs. simpl in *. destruct (drv =? 0); [by apply RamDisk.whole_sector|lia]. Qed.
Next Obligation.
  intros d drv s n Hd Hs Hn Hle. simpl in *. eexists _, _. split; [reflexivity|]. split; [done|].
  destruct (drv =? 0); [|assert (n = 0) as -> by lia; split_and!; [done|intros; lia|done]].
  split; [rewrite RamDisk.zlen_read; [lia|done]|]. split; [|done].
  intros i Hi. apply RamDisk.nthZ_read; [done|lia].
Qed.
Next Obligation.
  intros d drv s n data Hd Hs Hn Hle Hl Hb. simpl in *. eexists. split; [reflexivity|].
  split; [apply RamDisk.write_whole; [done|lia|done]|]. intros drv' s'.
  destruct (Z.eqb_spec drv 0) as [->|].
  - destruct (Z.eqb_spec drv' 0) as [->|]; [|by rewrite bool_decide_false by done].
    rewrite bool_decide_true by done. rewrite RamDisk.sector_write by lia. by rewrite Z2Nat.id by lia.
  - replace n with 0 by lia. simpl.
    by rewrite (proj2 (andb_false_iff _ _)) by (destruct (Z.leb_spec s s'); [right; apply Z.ltb_ge; lia|left; apply andb_false_r]).
Qed.

(** ** ff.c: a mounted volume and the sector buffer

    [sees fs f vw s]: in the state [s] the volume [fs] is mounted with the
    structure [f] and the driver sees the sector [sec] as [vw sec].  The
    operations on the buffer keep the view or change one sector of it. *)

Section volume.
Context `{ReliableDisks}.

(** What [mount_drv] computes for a volume that lies on its disk. *)
Record geometry (f : FATFS) : Prop := {
  g_fatbase : 1 <= fs_fatbase f;
  g_sects_fat : 1 <= sects_fat f;
  g_n_fats : 1 <= n_fats f <= 255;
  g_database : fs_fatbase f + n_fats f * sects_fat f <= database f;
  g_csize : 1 <= fs_csize f <= 128;
  g_max_clust : 2 <= fs_max_clust f;
  g_capacity : database f + (fs_max_clust f - 2) * fs_csize f <= capacity (drive f);
  g_fat :
    (fat_type f = FS_FAT12 /\ fs_max_clust f <= 4087 /\ 3 * fs_max_clust f <= 1024 * sects_fat f) \/
    (fat_type f = FS_FAT16 /\ fs_max_clust f <= 65527 /\ fs_max_clust f <= 256 * sects_fat f) \/
    (fat_type f = FS_FAT32 /\ fs_max_clust f <= 268435440 /\ fs_max_clust f <= 128 * sects_fat f)
}.

(** The sectors after the FATs; with the first FAT, the sectors that are read. *)
Definition data_sector (f : FATFS) (sec : Z) : Prop := fs_fatbase f + n_fats f * sects_fat f <= sec < capacity (drive f).
Definition fat_sector (f : FATFS) (sec : Z) : Prop := fs_fatbase f <= sec < fs_fatbase f + sects_fat f.
Definition live (f : FATFS) (sec : Z) : Prop := fat_sector f sec \/ data_sector f sec.

Record mounted (fs : Z) (f : FATFS) (s : fat_state) : Prop := {
  m_fs : 0 <= fs;
  m_struct : fat_structs s !! Z.to_nat fs = Some f;
  m_geometry : geometry f;
  m_last_clust : 0 <= last_clust f;
  m_intact : intact (disks s);
  m_len : zlen (buf_data (static_buf s)) = 512;
  m_bytes : bytes (buf_data (static_buf s));
  m_dirty : buf_dirty (static_buf s) = true -> buf_fs (static_buf s) = Some fs /\ live f (sect (static_buf s));
  m_clean : buf_dirty (static_buf s) = false -> buf_fs (static_buf s) = Some fs -> sect (static_buf s) <> 0 ->
    buf_data (static_buf s) = content (disks s) (drive f) (sect (static_buf s))
}.

Definition view (f : FATFS) (s : fat_state) (sec : Z) : list Z :=
  let b := static_buf s in
  if buf_dirty b && (sect b =? sec) then buf_data b else content (disks s) (drive f) sec.

Definition sees (fs : Z) (f : FATFS) (vw : Z -> list Z) (s : fat_state) : Prop :=
  mounted fs f s /\ forall sec, live f sec -> view f s sec = vw sec.

(** The buffer shows the sector. *)
Definition shows (fs sec : Z) (s : fat_state) : Prop := buf_fs (static_buf s) = Some fs /\ sect (static_buf s) = sec.

Lemma database_capacity f : geometry f -> database f <= capacity (drive f).
Proof. intros []. nia. Qed.

(** The copies of a FAT sector lie between the FAT and the data. *)
Lemma copy_range f wsect i : geometry f -> fat_sector f wsect -> 0 <= i -> i + 1 < n_fats f ->
  fs_fatbase f + sects_fat f <= wsect + i * sects_fat f + sects_fat f < fs_fatbase f + n_fats f * sects_fat f.
Proof.
  intros [] [? ?] ? ?. assert (0 <= i * sects_fat f) by nia.
  assert ((i + 2) * sects_fat f <= n_fats f * sects_fat f) by nia. lia.
Qed.

Lemma fat_end f : geometry f -> fs_fatbase f + sects_fat f <= fs_fatbase f + n_fats f * sects_fat f.
Proof. intros []. nia. Qed.

Lemma live_range f sec : geometry f -> live f sec -> 0 < sec < capacity (drive f).
Proof.
  intros Hg. pose proof (database_capacity f Hg). pose proof (fat_end f Hg). destruct Hg.
  intros [[? ?]|[? ?]]; [lia|]. nia.
Qed.

Lemma shows_view fs f vw sec s : sees fs f vw s -> shows fs sec s -> live f sec -> buf_data (static_buf s) = vw sec.
Proof.
  intros [Hm Hv] [Hfs <-] Hl. rewrite <- Hv by done. unfold view. rewrite Z.eqb_refl, andb_true_r.
  destruct (buf_dirty (static_buf s)) eqn:E; [done|]. apply (m_clean _ _ _ Hm); [done|done|].
  pose proof (live_range _ _ (m_geometry _ _ _ Hm) Hl). lia.
Qed.

Lemma view_sector fs f vw s sec : sees fs f vw s -> live f sec -> zlen (vw sec) = 512 /\ bytes (vw sec).
Proof.
  intros [Hm Hv] Hl. rewrite <- (Hv _ Hl). unfold view. destruct (buf_dirty (static_buf s) && (sect (static_buf s) =? sec)).
  - split; [apply (m_len _ _ _ Hm)|apply (m_bytes _ _ _ Hm)].
  - apply sector_law; [apply (m_intact _ _ _ Hm)|]. pose proof (live_range _ _ (m_geometry _ _ _ Hm) Hl). lia.
Qed.

Lemma wp_get_fs fs f s Q : mounted fs f s -> Q f s -> wp (get_fs fs) Q s.
Proof.
  intros Hm HQ. unfold get_fs. wp_simpl. unfold id. rewrite (proj2 (Z.leb_le _ _) (m_fs _ _ _ Hm)), (m_struct _ _ _ Hm).
  by wp_simpl.
Qed.

Lemma wp_write_sectors drv data sector n s Q :
  intact (disks s) -> 0 <= sector -> 0 <= n -> sector + n <= capacity drv -> zlen data = 512 * n -> bytes data ->
  (forall d', intact d' ->
     (forall drv' s', content d' drv' s' =
        if bool_decide (drv' = drv) && (sector <=? s') && (s' <? sector + n) then slice (512 * (s' - sector)) 512 data
        else content (disks s) drv' s') ->
     Q RES_OK (set_disks d' s)) ->
  wp (write_sectors drv data sector n) Q s.
Proof.
  intros Hi Hs Hn Hle Hl Hb HQ. unfold write_sectors. wp_simpl. unfold id.
  destruct (write_law (disks s) drv sector n data) as (d' & -> & Hd' & Hc); try done. wp_simpl. by apply HQ.
Qed.

Lemma wp_read_sectors drv sector n s Q :
  intact (disks s) -> 0 <= sector -> 0 <= n -> sector + n <= capacity drv ->
  (forall data d', intact d' -> zlen data = 512 * n ->
     (forall i, 0 <= i < 512 * n -> nthZ data i = nthZ (content (disks s) drv (sector + i / 512)) (i mod 512)) ->
     (forall drv' s', content d' drv' s' = content (disks s) drv' s') ->
     Q (RES_OK, data) (set_disks d' s)) ->
  wp (read_sectors drv sector n) Q s.
Proof.
  intros Hi Hs Hn Hle HQ. unfold read_sectors. wp_simpl. unfold id.
  destruct (read_law (disks s) drv sector n) as (data & d' & -> & Hd' & Hl & Hn' & Hc); try done. wp_simpl. by apply HQ.
Qed.

(** ** Flushing the buffer *)

Definition cleaned (s : fat_state) : fat_state := set_static_buf (set_buf_dirty false (static_buf s)) s.

(** Writing the dirty sector to the disk and, from the FAT, to its copies. *)
Lemma wp_mirror fs f vw data (k : nat) wsect s Q :
  sees fs f vw s -> buf_dirty (static_buf s) = false -> zlen data = 512 -> bytes data ->
  shows fs wsect s ->
  fs_fatbase f <= wsect < fs_fatbase f + sects_fat f -> Z.of_nat k = n_fats f - 1 ->
  (forall s', sees fs f vw s' -> static_buf s' = static_buf s -> wp (mret tt) Q s') ->
  wp (for_range 0 k (fun _ wsect =>
          let wsect := u32 (wsect + sects_fat f) in
          write_sectors (drive f) data wsect 1;; mret wsect) wsect;; mret tt) Q s.
Proof.
  intros Hs Hd Hlen Hb Hsh Hw Hk HQ. rewrite wp_bind.
  eapply (wp_for_range (fun i w s' => sees fs f vw s' /\ static_buf s' = static_buf s /\ w = wsect + i * sects_fat f)).
  - intros i w s1 Hi (Hs1 & Hb1 & ->). pose proof (m_geometry _ _ _ (proj1 Hs1)) as Hg.
    pose proof (capacity_small (drive f)). pose proof (copy_range f wsect i Hg Hw ltac:(lia) ltac:(lia)) as Hr.
    pose proof (database_capacity f Hg). pose proof (g_database _ Hg). pose proof (g_fatbase _ Hg). pose proof (g_sects_fat _ Hg).
    rewrite u32_id by lia. wp_simpl. apply wp_write_sectors; [by destruct Hs1 as [[] _]|lia|lia|lia|lia|done|].
    intros d' Hd' Hc. wp_simpl. split; [|split; [done|lia]]. destruct Hs1 as [[] Hv1].
    assert (forall sec, live f sec -> content d' (drive f) sec = content (disks s1) (drive f) sec) as Hsame.
    { intros sec Hl. rewrite Hc. rewrite bool_decide_true by done. simpl. unfold live, fat_sector, data_sector in Hl. case_bools; lia || done. }
    split; [split; simpl; try done; intros ? ? ?|].
    + rewrite m_clean0 by done. symmetry. apply Hsame. rewrite Hb1. destruct Hsh as [_ ->]. left. done.
    + intros sec Hl. rewrite <- (Hv1 sec Hl). unfold view. simpl. by rewrite Hsame.
  - intros w s1 (Hs1 & Hb1 & ->). by apply HQ.
  - split_and!; [done|done|lia].
Qed.

Lemma wp_flush_window fs f vw s Q :
  sees fs f vw s ->
  (forall s', sees fs f vw s' -> static_buf s' = set_buf_dirty false (static_buf s) -> Q true s') ->
  wp (flush_window (sect (static_buf s))) Q s.
Proof.
  intros Hs HQ. unfold flush_window, get_buf. wp_simpl. destruct (buf_dirty (static_buf s)) eqn:E.
  2:{ apply HQ; [done|]. destruct (static_buf s); simpl in *. by subst. }
  pose proof (proj1 Hs) as Hm. destruct (m_dirty _ _ _ Hm E) as [Hfs Hl]. rewrite Hfs. wp_simpl.
  eapply wp_get_fs; [done|]. wp_simpl.
  pose proof (live_range _ _ (m_geometry _ _ _ Hm) Hl) as Hr.
  apply wp_write_sectors; [by destruct Hm|lia|lia|lia|by rewrite (m_len _ _ _ Hm)|by destruct Hm|].
  intros d' Hd' Hc. simpl. unfold put_buf. wp_simpl.
  set (s1 := set_static_buf _ _).
  assert (sees fs f vw s1) as Hs1.
  { destruct Hs as [[] Hv]. split; [split; try done|].
    - intros ? ? ?. simpl. rewrite Hc, bool_decide_true by done. replace (sect (static_buf s) - sect (static_buf s)) with 0 by lia.
      case_bools; try lia. change (512 * 0) with 0. by rewrite <- m_len0, slice_all.
    - intros sec Hsec. rewrite <- (Hv sec Hsec). unfold view. rewrite E. simpl. rewrite Hc, bool_decide_true by done.
      destruct (Z.eqb_spec (sect (static_buf s)) sec) as [<-|]; case_bools; try lia; try done.
      replace (sect (static_buf s) - sect (static_buf s)) with 0 by lia. change (512 * 0) with 0. by rewrite <- m_len0, slice_all. }
  assert (static_buf s1 = set_buf_dirty false (static_buf s)) as Hb1 by done. clearbody s1.
  unfold when. pose proof (m_geometry _ _ _ Hm) as Hg. pose proof (capacity_small (drive f)).
  pose proof (database_capacity f Hg). pose proof (fat_end f Hg). pose proof (g_database f Hg). pose proof (g_fatbase f Hg).
  pose proof (g_sects_fat f Hg). pose proof (g_n_fats f Hg). rewrite u32_id by lia.
  destruct (Z.ltb_spec (sect (static_buf s)) (fs_fatbase f + sects_fat f)).
  - eapply (wp_mirror fs f vw); try done.
    + rewrite Hb1. done.
    + by destruct Hm.
    + by destruct Hm.
    + by split; rewrite Hb1.
    + destruct Hl as [Hl|[? ?]]; [apply Hl|lia].
    + lia.
    + intros s2 Hs2 Hb2. wp_simpl. apply HQ; [done|]. by rewrite Hb2.
  - wp_simpl. by apply HQ.
Qed.

(** ** Moving the window *)

Lemma wp_move_window fs f vw s sec Q :
  sees fs f vw s -> 0 < sec < capacity (drive f) ->
  (forall s', sees fs f vw s' -> shows fs sec s' -> Q true s') ->
  wp (move_fs_window fs sec) Q s.
Proof.
  intros Hs Hsec HQ. unfold move_fs_window, move_window, get_buf. wp_simpl.
  destruct (negb (sect (static_buf s) =? sec) || negb (bool_decide (buf_fs (static_buf s) = Some fs))) eqn:E.
  2:{ apply orb_false_iff in E as [E1 E2]. apply negb_false_iff in E1, E2. apply Z.eqb_eq in E1. apply bool_decide_eq_true in E2.
      wp_simpl. by apply HQ. }
  wp_simpl. eapply wp_flush_window; [done|]. intros s1 Hs1 Hb1. cbn [negb]. rewrite (proj2 (Z.eqb_neq sec 0)) by lia. cbn [negb].
  wp_simpl. pose proof (proj1 Hs1) as Hm. eapply wp_get_fs; [done|]. wp_simpl. unfold read_window. wp_simpl.
  apply wp_read_sectors; [by destruct Hm|lia|lia|lia|]. intros data d' Hd' Hl Hdata Hc. unfold put_buf. wp_simpl.
  change (RES_OK =? RES_OK) with true. cbn [negb]. wp_simpl.
  assert (data = content (disks s1) (drive f) sec) as ->.
  { destruct (sector_law (disks s1) (drive f) sec) as [Hl' _]; [by destruct Hm|lia|]. apply nthZ_ext; [lia|].
    intros i Hi. rewrite Hdata by lia. rewrite Z.div_small, Z.mod_small by lia. f_equal. f_equal. lia. }
  apply HQ; [|split; done]. destruct Hs1 as [Hm1 Hv]. pose proof (m_intact _ _ _ Hm1) as Hi.
  destruct (sector_law (disks s1) (drive f) sec Hi) as [Hl' Hb']; [lia|]. split.
  - destruct Hm1. split; simpl; try done; first [by rewrite Hb1|intros; by rewrite Hc].
  - intros sec' Hl2. rewrite <- (Hv sec' Hl2). unfold view. simpl. rewrite Hb1. simpl. by rewrite Hc.
Qed.

Lemma wp_flush fs f vw s Q :
  sees fs f vw s ->
  (forall s', sees fs f vw s' -> static_buf s' = set_buf_dirty false (static_buf s) -> Q true s') ->
  wp (move_fs_window fs 0) Q s.
Proof.
  intros Hs HQ. unfold move_fs_window, move_window, get_buf. wp_simpl.
  destruct (negb (sect (static_buf s) =? 0) || negb (bool_decide (buf_fs (static_buf s) = Some fs))) eqn:E; wp_simpl.
  - eapply wp_flush_window; [done|]. intros s1 Hs1 Hb1. cbn. by apply HQ.
  - apply orb_false_iff in E as [E1 E2]. apply negb_false_iff, Z.eqb_eq in E1. apply HQ; [done|].
    pose proof (proj1 Hs) as Hm. destruct (static_buf s) as [z [] ? ?] eqn:Eb; [|done]. destruct Hm. rewrite Eb in *. simpl in *.
    destruct m_dirty0 as [_ Hl]; [done|]. pose proof (live_range _ _ m_geometry0 Hl). lia.
Qed.

(** ** The bytes in the window *)

Lemma wp_fb_get fs f vw s sec p Q :
  sees fs f vw s -> shows fs sec s -> live f sec -> 0 <= p < 512 -> Q (nthZ (vw sec) p) s -> wp (fb_get p) Q s.
Proof.
  intros Hs Hsh Hl Hp HQ. unfold fb_get, get_buf. wp_simpl. rewrite (shows_view _ _ _ _ _ Hs Hsh Hl).
  destruct (view_sector _ _ _ _ _ Hs Hl) as [Hlen _]. rewrite load_some by lia. by wp_simpl.
Qed.

Lemma wp_fb_read fs f vw s sec p n Q :
  sees fs f vw s -> shows fs sec s -> live f sec -> 0 <= p -> 0 <= n -> p + n <= 512 -> Q (slice p n (vw sec)) s -> wp (fb_read p n) Q s.
Proof.
  intros Hs Hsh Hl Hp Hn Hle HQ. unfold fb_read, get_buf. wp_simpl. rewrite (shows_view _ _ _ _ _ Hs Hsh Hl).
  destruct (view_sector _ _ _ _ _ Hs Hl) as [Hlen _]. rewrite load_block_some by lia. by wp_simpl.
Qed.

(** Bytes stored in the window, which becomes dirty. *)
Lemma wp_store fs f vw s sec p bs {A} (k : fat A) Q :
  sees fs f vw s -> shows fs sec s -> live f sec -> 0 <= p -> p + zlen bs <= 512 -> bytes bs ->
  (forall s', sees fs f (<[sec := splice p bs (vw sec)]> vw) s' -> shows fs sec s' -> wp k Q s') ->
  wp (fb_put p bs) (fun _ s' => wp (fb_dirty;; k) Q s') s.
Proof.
  intros Hs Hsh Hl Hp Hle Hb HQ. unfold fb_put, fb_dirty, get_buf, put_buf. wp_simpl.
  rewrite (shows_view _ _ _ _ _ Hs Hsh Hl). destruct (view_sector _ _ _ _ _ Hs Hl) as [Hlen Hbs].
  rewrite store_block_some by lia. wp_simpl. apply HQ; [|by destruct Hsh].
  destruct Hs as [Hm Hv], Hsh as [Hfs Hsec]. split.
  - destruct Hm. split; simpl; try done.
    + rewrite zlen_splice; lia.
    + by apply bytes_splice.
    + intros _. by rewrite Hsec.
  - intros sec' Hl'. unfold view. simpl. rewrite Hsec. destruct (Z.eqb_spec sec sec') as [<-|Hne].
    + by rewrite fn_lookup_insert.
    + rewrite fn_lookup_insert_ne by done. rewrite <- (Hv sec' Hl'). unfold view. rewrite Hsec.
      by rewrite (proj2 (Z.eqb_neq sec sec')), andb_false_r by done.
Qed.

(** ** Transfers that bypass the window *)

Lemma wp_read_direct fs f vw s sec n Q :
  sees fs f vw s -> buf_dirty (static_buf s) = false -> 0 <= n -> data_sector f sec -> sec + n <= capacity (drive f) ->
  (forall data s', sees fs f vw s' -> static_buf s' = static_buf s -> zlen data = 512 * n ->
     (forall i, 0 <= i < 512 * n -> nthZ data i = nthZ (vw (sec + i / 512)) (i mod 512)) -> Q (RES_OK, data) s') ->
  wp (read_sectors (drive f) sec n) Q s.
Proof.
  intros Hs Hd Hn Hsec Hle HQ. pose proof (proj1 Hs) as Hm. pose proof (live_range _ _ (m_geometry _ _ _ Hm) (or_intror Hsec)).
  apply wp_read_sectors; [by destruct Hm|lia|lia|lia|]. intros data d' Hd' Hl Hdata Hc.
  apply HQ; [|done|done|].
  - destruct Hs as [[] Hv]. split; [split; simpl; try done; intros; by rewrite Hc, m_clean0|].
    intros sec' Hl'. rewrite <- (Hv _ Hl'). unfold view. simpl. by rewrite Hc.
  - intros i Hi. rewrite Hdata by lia. f_equal. rewrite <- (proj2 Hs).
    + unfold view. by rewrite Hd.
    + right. unfold data_sector in *. pose proof (Z.div_pos i 512 ltac:(lia) ltac:(lia)).
      pose proof (Z.div_lt_upper_bound i 512 n ltac:(lia) ltac:(lia)). lia.
Qed.

(** The window keeps what it shows: it must not show one of the sectors. *)
Lemma wp_write_direct fs f vw s sec n data Q :
  sees fs f vw s -> buf_dirty (static_buf s) = false -> 0 <= n -> data_sector f sec -> sec + n <= capacity (drive f) ->
  zlen data = 512 * n -> bytes data ->
  (buf_fs (static_buf s) = Some fs -> ~ sec <= sect (static_buf s) < sec + n) ->
  (forall s', sees fs f (fun x => if (sec <=? x) && (x <? sec + n) then slice (512 * (x - sec)) 512 data else vw x) s' ->
     static_buf s' = static_buf s -> Q RES_OK s') ->
  wp (write_sectors (drive f) data sec n) Q s.
Proof.
  intros Hs Hd Hn Hsec Hle Hl Hb Hw HQ. pose proof (proj1 Hs) as Hm. pose proof (live_range _ _ (m_geometry _ _ _ Hm) (or_intror Hsec)).
  apply wp_write_sectors; [by destruct Hm|lia|lia|lia|done|done|]. intros d' Hd' Hc. apply HQ; [|done].
  destruct Hs as [[] Hv]. split.
  - split; simpl; try done. intros. rewrite Hc, m_clean0 by done. rewrite bool_decide_true by done. simpl.
    destruct ((sec <=? sect (static_buf s)) && (sect (static_buf s) <? sec + n)) eqn:E; [|done].
    exfalso. apply Hw; [done|]. apply andb_true_iff in E as [E1 E2]. apply Z.leb_le in E1. apply Z.ltb_lt in E2. lia.
  - intros sec' Hl'. unfold view. simpl. rewrite Hd. simpl. rewrite Hc, bool_decide_true by done. simpl.
    rewrite <- (Hv sec' Hl'). unfold view. by rewrite Hd.
Qed.
End volume.
