(* ===== verification/FfTable.v ===== *)
(** * ff.c: the file allocation table as a function

    [vol fs f E D s]: the volume [fs] is mounted with the structure [f], the
    entry of the cluster [c] is [E c] and the sector [sec] after the FATs
    holds [D sec].  [get_cluster] and [put_cluster] read and write [E], for
    every type of FAT. *)

From stdpp Require Import functions.
From S2P Require Import Prelude FatFs FfBase FfChain FfVolume.

(** ** Bits *)

Lemma land_511 x : Z.land x 511 = x mod 512.
Proof. apply (Z.land_ones x 9). lia. Qed.

Lemma lor_low a b k : 0 <= k -> 0 <= a < 2 ^ k -> Z.lor a (b * 2 ^ k) = a + b * 2 ^ k.
Proof.
  intros Hk Ha. rewrite <- Z.shiftl_mul_pow2 by lia. symmetry. rewrite Z.add_nocarry_lxor; [rewrite Z.lxor_lor; [done|]|];
    (apply Z.bits_inj'; intros n Hn; rewrite Z.land_spec, Z.shiftl_spec, Z.bits_0 by lia;
     destruct (Z.ltb_spec n k); [rewrite (Z.testbit_neg_r b) by lia; apply andb_false_r|]);
    (destruct (decide (a = 0)) as [->|]; [by rewrite Z.bits_0|]); rewrite Z.bits_above_log2; try done; try lia;
    (assert (Z.log2 a < k) by (apply Z.log2_lt_pow2; lia); lia).
Qed.

Lemma land_high x : is_byte x -> Z.land x 240 = x / 16 * 16.
Proof. intros Hx. apply Z.eqb_eq, (every_byte (fun x => Z.land x 240 =? x / 16 * 16)); [by vm_compute|done]. Qed.

Lemma word_of_bytes lo hi : is_byte lo -> is_byte hi -> Z.lor lo (u16 (Z.shiftl hi 8)) = lo + 256 * hi.
Proof.
  unfold is_byte. intros Hl Hh. rewrite Z.shiftl_mul_pow2 by lia. change (2 ^ 8) with 256. rewrite u16_id by lia.
  change 256 with (2 ^ 8) at 1. rewrite lor_low; [lia|lia|done].
Qed.

Lemma nibble_low x v : is_byte x -> Z.lor (Z.land x 240) (Z.land (u8 (Z.shiftr v 8)) 15) = x / 16 * 16 + v / 256 mod 16.
Proof.
  intros Hx. rewrite land_high by done. rewrite Z.lor_comm. change 15 with (Z.ones 4). rewrite Z.land_ones by lia.
  rewrite Z.shiftr_div_pow2 by lia. change (2 ^ 8) with 256. change 16 with (2 ^ 4) at 3. change (x / 16 * 16) with (x / 16 * 2 ^ 4) at 1.
  rewrite lor_low; [|lia|apply Z.mod_pos_bound; lia]. unfold u8. change (2 ^ 4) with 16. Z.div_mod_to_equations. lia.
Qed.

Lemma nibble_high x v : u8 (Z.lor (Z.land x 15) (Z.shiftl (u8 v) 4)) = x mod 16 + 16 * (v mod 16).
Proof.
  change 15 with (Z.ones 4). rewrite Z.land_ones by lia. rewrite Z.shiftl_mul_pow2 by lia.
  rewrite lor_low; [|lia|apply Z.mod_pos_bound; lia]. change (2 ^ 4) with 16. unfold u8. Z.div_mod_to_equations. lia.
Qed.

Lemma le_word_value x : 0 <= x < 65536 -> nthZ (le_word x) 0 + 256 * nthZ (le_word x) 1 = x.
Proof.
  intros Hx. unfold le_word, nthZ. simpl. rewrite Z.shiftr_div_pow2 by lia. unfold u8. change (2 ^ 8) with 256.
  Z.div_mod_to_equations. lia.
Qed.

Lemma le_dword_value x : 0 <= x < 4294967296 ->
  nthZ (le_dword x) 0 + 256 * nthZ (le_dword x) 1 + 65536 * nthZ (le_dword x) 2 + 16777216 * nthZ (le_dword x) 3 = x.
Proof.
  intros Hx. unfold le_dword, nthZ. simpl. rewrite !Z.shiftr_div_pow2 by lia. unfold u8.
  change (2 ^ 8) with 256. change (2 ^ 16) with 65536. change (2 ^ 24) with 16777216. Z.div_mod_to_equations. lia.
Qed.

Lemma zlen_le_word x : zlen (le_word x) = 2.
Proof. done. Qed.

Lemma zlen_le_dword x : zlen (le_dword x) = 4.
Proof. done. Qed.

Lemma bytes_le_word x : bytes (le_word x).
Proof. repeat constructor; apply u8_range. Qed.

Lemma bytes_le_dword x : bytes (le_dword x).
Proof. repeat constructor; apply u8_range. Qed.

(** ** The entries *)

Section table.
Context `{ReliableDisks}.

Definition cluster (f : FATFS) (c : Z) : Prop := 2 <= c < fs_max_clust f.

Definition fat_byte (f : FATFS) (vw : Z -> list Z) (i : Z) : Z := nthZ (vw (fs_fatbase f + i / 512)) (i mod 512).

Definition entry (f : FATFS) (vw : Z -> list Z) (c : Z) : Z :=
  if fat_type f =? FS_FAT12 then
    let wc := fat_byte f vw (c * 3 / 2) + 256 * fat_byte f vw (c * 3 / 2 + 1) in
    if Z.odd c then wc / 16 else wc mod 4096
  else if fat_type f =? FS_FAT16 then fat_byte f vw (2 * c) + 256 * fat_byte f vw (2 * c + 1)
  else (fat_byte f vw (4 * c) + 256 * fat_byte f vw (4 * c + 1) + 65536 * fat_byte f vw (4 * c + 2) +
        16777216 * fat_byte f vw (4 * c + 3)) mod 268435456.

(** What an entry keeps of a number. *)
Definition masked (f : FATFS) (v : Z) : Z :=
  if fat_type f =? FS_FAT12 then v mod 4096 else if fat_type f =? FS_FAT16 then v mod 65536 else v mod 268435456.

Definition vol (fs : Z) (f : FATFS) (E : Z -> Z) (D : Z -> list Z) (s : fat_state) : Prop :=
  exists vw, sees fs f vw s /\ (forall c, cluster f c -> entry f vw c = E c) /\ (forall sec, data_sector f sec -> vw sec = D sec).

(** The buffer shows a sector of the FAT. *)
Definition in_fat (fs : Z) (f : FATFS) (s : fat_state) : Prop := exists sec, shows fs sec s /\ fat_sector f sec.

Lemma fat_byte_sector f i : 0 <= i < 512 * sects_fat f -> fat_sector f (fs_fatbase f + i / 512).
Proof. intros Hi. unfold fat_sector. Z.div_mod_to_equations. lia. Qed.

Lemma fat_byte_byte fs f vw s i : sees fs f vw s -> 0 <= i < 512 * sects_fat f -> is_byte (fat_byte f vw i).
Proof.
  intros Hs Hi. apply bytes_nthZ. by apply (view_sector fs f vw s); [done|left; apply fat_byte_sector].
Qed.

Lemma fat_byte_insert fs f vw s j bs i :
  sees fs f vw s -> 0 <= j < 512 * sects_fat f -> j mod 512 + zlen bs <= 512 -> 0 <= i ->
  fat_byte f (<[fs_fatbase f + j / 512 := splice (j mod 512) bs (vw (fs_fatbase f + j / 512))]> vw) i =
  if (j <=? i) && (i <? j + zlen bs) then nthZ bs (i - j) else fat_byte f vw i.
Proof.
  intros Hs Hj Hle Hi. unfold fat_byte. pose proof (zlen_nonneg bs). pose proof (Z.mod_pos_bound j 512 ltac:(lia)).
  destruct (view_sector _ _ _ _ (fs_fatbase f + j / 512) Hs) as [Hlen _]; [by left; apply fat_byte_sector|].
  destruct (decide (i / 512 = j / 512)) as [Heq|Hne].
  - rewrite Heq, fn_lookup_insert, nthZ_splice by (rewrite ?Hlen; pose proof (Z.mod_pos_bound i 512); lia).
    case_bools; try (exfalso; Z.div_mod_to_equations; lia); try (f_equal; Z.div_mod_to_equations; lia).
  - rewrite fn_lookup_insert_ne by lia. case_bools; try done. exfalso. Z.div_mod_to_equations. lia.
Qed.

(** Where the entries lie. *)
Lemma fat_sector_u32 f i : geometry f -> 0 <= i < 512 * sects_fat f -> u32 (fs_fatbase f + i / SS) = fs_fatbase f + i / 512.
Proof.
  intros Hg Hi. pose proof (fat_byte_sector f i Hi) as [? ?]. pose proof (fat_end f Hg). pose proof (database_capacity f Hg).
  pose proof (g_database f Hg). pose proof (g_fatbase f Hg). pose proof (capacity_small (drive f)). unfold SS. apply u32_id. lia.
Qed.

Lemma fat12_range f c : geometry f -> fat_type f = FS_FAT12 -> cluster f c ->
  fat12_offset c = c * 3 / 2 /\ 0 <= c * 3 / 2 /\ c * 3 / 2 + 1 < 512 * sects_fat f /\ u16 (c * 3 / 2 + 1) = c * 3 / 2 + 1.
Proof.
  intros Hg Ht Hc. destruct (g_fat f Hg) as [(_ & Hmax & Hs)|[(E & _)|(E & _)]]; [|by rewrite Ht in E|by rewrite Ht in E].
  unfold cluster in Hc. unfold fat12_offset. rewrite (u16_id (c * 3)) by lia.
  assert (0 <= c * 3 / 2 < 65535) by (Z.div_mod_to_equations; lia). rewrite !u16_id by lia.
  split_and!; try lia. Z.div_mod_to_equations. lia.
Qed.

Lemma fat16_range f c : geometry f -> fat_type f = FS_FAT16 -> cluster f c ->
  0 <= 2 * c /\ 2 * c + 1 < 512 * sects_fat f /\ c / (SS / 2) = 2 * c / SS /\ Z.land (u16 (c * 2)) (SS - 1) = (2 * c) mod 512.
Proof.
  intros Hg Ht Hc. destruct (g_fat f Hg) as [(E & _)|[(_ & Hmax & Hs)|(E & _)]]; [by rewrite Ht in E| |by rewrite Ht in E].
  unfold cluster in Hc. unfold SS. change (512 - 1) with 511. change (512 / 2) with 256. rewrite land_511. unfold u16.
  split_and!; Z.div_mod_to_equations; lia.
Qed.

Lemma fat32_range f c : geometry f -> fat_type f = FS_FAT32 -> cluster f c ->
  0 <= 4 * c /\ 4 * c + 3 < 512 * sects_fat f /\ c / (SS / 4) = 4 * c / SS /\ Z.land (u16 (c * 4)) (SS - 1) = (4 * c) mod 512.
Proof.
  intros Hg Ht Hc. destruct (g_fat f Hg) as [(E & _)|[(E & _)|(_ & Hmax & Hs)]]; [by rewrite Ht in E|by rewrite Ht in E|].
  unfold cluster in Hc. unfold SS. change (512 - 1) with 511. change (512 / 4) with 128. rewrite land_511. unfold u16.
  split_and!; Z.div_mod_to_equations; lia.
Qed.

(** A byte of the FAT: moving the window to it and loading it. *)
Lemma wp_fat_window fs f vw s i {A} (fail : fat A) (k : fat A) Q :
  sees fs f vw s -> 0 <= i < 512 * sects_fat f ->
  (forall s', sees fs f vw s' -> shows fs (fs_fatbase f + i / 512) s' -> wp k Q s') ->
  wp (ok ← move_fs_window fs (u32 (fs_fatbase f + i / SS)); if negb ok then fail else k) Q s.
Proof.
  intros Hs Hi HQ. pose proof (m_geometry _ _ _ (proj1 Hs)) as Hg. rewrite fat_sector_u32 by done.
  pose proof (live_range f _ Hg (or_introl (fat_byte_sector f i Hi))). wp_simpl.
  eapply wp_move_window; [done|done|]. intros s' Hs' Hsh. by apply HQ.
Qed.

Lemma wp_fat_byte fs f vw s i p Q :
  sees fs f vw s -> shows fs (fs_fatbase f + i / 512) s -> 0 <= i < 512 * sects_fat f -> p = i mod 512 ->
  Q (fat_byte f vw i) s -> wp (fb_get p) Q s.
Proof.
  intros Hs Hsh Hi -> HQ. eapply wp_fb_get; [done|done|left; by apply fat_byte_sector|apply Z.mod_pos_bound; lia|]. done.
Qed.

Lemma slice_fat_bytes fs f vw s i k n : sees fs f vw s -> 0 <= i < 512 * sects_fat f -> 0 <= k < n -> i mod 512 + n <= 512 ->
  nthZ (slice (i mod 512) n (vw (fs_fatbase f + i / 512))) k = fat_byte f vw (i + k).
Proof.
  intros Hs Hi Hk Hn. destruct (view_sector _ _ _ _ (fs_fatbase f + i / 512) Hs) as [Hlen _]; [by left; apply fat_byte_sector|].
  rewrite nthZ_slice by (rewrite ?Hlen; pose proof (Z.mod_pos_bound i 512); lia). unfold fat_byte.
  assert ((i + k) / 512 = i / 512) as -> by (Z.div_mod_to_equations; lia). f_equal. Z.div_mod_to_equations. lia.
Qed.

(** What the callers of [get_cluster] and [put_cluster] rely on. *)
Lemma wp_get_cluster fs f E D s c Q :
  vol fs f E D s -> cluster f c ->
  (forall s', vol fs f E D s' -> in_fat fs f s' -> Q (E c) s') ->
  wp (get_cluster fs c) Q s.
Proof.
  intros (vw & Hs & HE & HD) Hc HQ. pose proof (m_geometry _ _ _ (proj1 Hs)) as Hg.
  assert (forall s' i, sees fs f vw s' -> shows fs (fs_fatbase f + i / 512) s' -> 0 <= i < 512 * sects_fat f -> Q (entry f vw c) s') as HQ'.
  { intros s' i Hs' Hsh Hi. rewrite HE by done. apply HQ; [by exists vw|]. eexists; split; [done|by apply fat_byte_sector]. }
  unfold get_cluster. wp_simpl. eapply wp_get_fs; [by destruct Hs|].
  unfold cluster in Hc. rewrite (proj2 (Z.leb_le 2 c)), (proj2 (Z.ltb_lt c _)) by lia. cbn [andb]. unfold entry in HQ'.
  destruct (g_fat f Hg) as [(Ht & _)|[(Ht & _)|(Ht & _)]]; rewrite Ht in *; cbn [Z.eqb Pos.eqb FS_FAT12 FS_FAT16 FS_FAT32] in *.
  - destruct (fat12_range f c Hg Ht Hc) as (-> & H1 & H2 & H3). apply (wp_fat_window _ _ _ _ _ _ _ _ Hs); [lia|]. intros s1 Hs1 Hsh1.
    wp_simpl. eapply wp_fat_byte; [done|done|lia|apply land_511|]. rewrite H3.
    apply (wp_fat_window _ _ _ _ _ _ _ _ Hs1); [lia|]. intros s2 Hs2 Hsh2. wp_simpl. eapply wp_fat_byte; [done|done|lia|apply land_511|].
    rewrite word_of_bytes by (eapply fat_byte_byte; [done|lia]). wp_simpl.
    specialize (HQ' s2 _ Hs2 Hsh2 ltac:(lia)). destruct (Z.odd c).
    + by rewrite Z.shiftr_div_pow2 by lia.
    + change 4095 with (Z.ones 12). by rewrite Z.land_ones by lia.
  - destruct (fat16_range f c Hg Ht Hc) as (H1 & H2 & -> & ->). apply (wp_fat_window _ _ _ _ _ _ _ _ Hs); [lia|]. intros s1 Hs1 Hsh1.
    unfold LD_WORD. wp_simpl. eapply wp_fb_read; [done|done|left; apply fat_byte_sector; lia|Z.div_mod_to_equations; lia|lia|Z.div_mod_to_equations; lia|].
    wp_simpl. rewrite !(slice_fat_bytes _ _ _ _ _ _ _ Hs1) by (lia || (Z.div_mod_to_equations; lia)). rewrite Z.add_0_r.
    apply (HQ' s1 (2 * c)); [done|done|lia].
  - destruct (fat32_range f c Hg Ht Hc) as (H1 & H2 & -> & ->). apply (wp_fat_window _ _ _ _ _ _ _ _ Hs); [lia|]. intros s1 Hs1 Hsh1.
    unfold LD_DWORD. wp_simpl. eapply wp_fb_read; [done|done|left; apply fat_byte_sector; lia|Z.div_mod_to_equations; lia|lia|Z.div_mod_to_equations; lia|].
    wp_simpl. rewrite !(slice_fat_bytes _ _ _ _ _ _ _ Hs1) by (lia || (Z.div_mod_to_equations; lia)). rewrite Z.add_0_r.
    change END_OF_CHAIN with (Z.ones 28). rewrite Z.land_ones by lia. apply (HQ' s1 (4 * c)); [done|done|lia].
Qed.

Lemma wp_get_cluster_invalid fs f E D s c Q :
  vol fs f E D s -> ~ cluster f c -> Q 1 s -> wp (get_cluster fs c) Q s.
Proof.
  intros (vw & Hs & _) Hc HQ. unfold get_cluster. wp_simpl. eapply wp_get_fs; [by destruct Hs|].
  destruct (Z.leb_spec 2 c), (Z.ltb_spec c (fs_max_clust f)); cbn [andb]; try (by wp_simpl). exfalso. by apply Hc.
Qed.

(** ** Writing an entry *)

(** A FAT12 entry over the bytes of the FAT; two neighbours share a byte. *)
Definition fat12_value (b : Z -> Z) (c : Z) : Z :=
  let wc := b (c * 3 / 2) + 256 * b (c * 3 / 2 + 1) in if Z.odd c then wc / 16 else wc mod 4096.

Lemma fat12_put (b b' : Z -> Z) c v :
  (forall i, 0 <= i -> b' i = if i =? c * 3 / 2 then (if Z.odd c then b i mod 16 + 16 * (v mod 16) else v mod 256)
                              else if i =? c * 3 / 2 + 1 then (if Z.odd c then v / 16 mod 256 else b i / 16 * 16 + v / 256 mod 16)
                              else b i) ->
  0 <= c -> forall c', 0 <= c' -> (forall i, c' * 3 / 2 <= i <= c' * 3 / 2 + 1 -> is_byte (b i)) ->
  fat12_value b' c' = if decide (c' = c) then v mod 4096 else fat12_value b c'.
Proof.
  intros Hb Hc c' Hc' Hbytes. unfold fat12_value.
  assert (0 <= c' * 3 / 2) by (Z.div_mod_to_equations; lia). rewrite !Hb by lia.
  pose proof (Hbytes (c' * 3 / 2) ltac:(lia)) as B1. pose proof (Hbytes (c' * 3 / 2 + 1) ltac:(lia)) as B2. unfold is_byte in *. clear Hb Hbytes.
  rewrite !Zodd_mod. destruct (decide (c' = c)) as [->|Hne].
  - rewrite !Z.eqb_refl. replace (c * 3 / 2 + 1 =? c * 3 / 2) with false by (symmetry; apply Z.eqb_neq; lia).
    destruct (Z.eqb_spec (c mod 2) 1); Z.div_mod_to_equations; lia.
  - destruct (Z.eqb_spec (c mod 2) 1), (Z.eqb_spec (c' mod 2) 1); case_bools; Z.div_mod_to_equations; lia.
Qed.

Lemma data_insert f sec sec' l vw : geometry f -> fat_sector f sec -> data_sector f sec' -> (<[sec := l]> vw) sec' = (vw sec' : list Z).
Proof. intros Hg [? ?] [? ?]. pose proof (fat_end f Hg). rewrite fn_lookup_insert_ne; [done|lia]. Qed.

(** A byte string stored in the FAT. *)
Lemma wp_fat_store fs f vw s i p bs {A} (k : fat A) Q :
  sees fs f vw s -> shows fs (fs_fatbase f + i / 512) s -> 0 <= i < 512 * sects_fat f -> p = i mod 512 -> i mod 512 + zlen bs <= 512 -> bytes bs ->
  (forall vw' s', sees fs f vw' s' -> shows fs (fs_fatbase f + i / 512) s' -> (forall sec, data_sector f sec -> vw' sec = vw sec) ->
     (forall j, 0 <= j -> fat_byte f vw' j = if (i <=? j) && (j <? i + zlen bs) then nthZ bs (j - i) else fat_byte f vw j) -> wp k Q s') ->
  wp (fb_put p bs) (fun _ s' => wp (fb_dirty;; k) Q s') s.
Proof.
  intros Hs Hsh Hi -> Hle Hb HQ. pose proof (m_geometry _ _ _ (proj1 Hs)) as Hg. pose proof (fat_byte_sector f i Hi) as Hf.
  eapply wp_store; [done|done|by left|apply Z.mod_pos_bound; lia|done|done|]. intros s' Hs' Hsh'. eapply HQ; [done|done| |].
  - intros sec Hsec. by apply (data_insert f).
  - intros j Hj. by eapply fat_byte_insert.
Qed.

Lemma wp_put_cluster fs f E D s c v Q :
  vol fs f E D s -> cluster f c -> 0 <= v ->
  (forall s', vol fs f (<[c := masked f v]> E) D s' -> in_fat fs f s' -> Q true s') ->
  wp (put_cluster fs c v) Q s.
Proof.
  intros (vw & Hs & HE & HD) Hc Hv HQ. pose proof (m_geometry _ _ _ (proj1 Hs)) as Hg.
  assert (forall s' vw' i, sees fs f vw' s' -> shows fs (fs_fatbase f + i / 512) s' -> 0 <= i < 512 * sects_fat f ->
     (forall sec, data_sector f sec -> vw' sec = vw sec) ->
     (forall c', cluster f c' -> entry f vw' c' = if decide (c' = c) then masked f v else entry f vw c') -> Q true s') as HQ'.
  { intros s' vw' i Hs' Hsh Hi Hdata Hent. apply HQ; [|eexists; split; [done|by apply fat_byte_sector]]. exists vw'. split_and!; [done| |].
    - intros c' Hc'. rewrite Hent by done. destruct (decide (c' = c)) as [->|]; [by rewrite fn_lookup_insert|].
      rewrite fn_lookup_insert_ne by done. by apply HE.
    - intros sec Hsec. rewrite Hdata by done. by apply HD. }
  unfold put_cluster. wp_simpl. eapply wp_get_fs; [by destruct Hs|]. unfold entry, masked in HQ'.
  destruct (g_fat f Hg) as [(Ht & _)|[(Ht & _)|(Ht & _)]]; rewrite Ht in *; cbn [Z.eqb Pos.eqb FS_FAT12 FS_FAT16 FS_FAT32] in *.
  - destruct (fat12_range f c Hg Ht Hc) as (-> & H1 & H2 & H3). apply (wp_fat_window _ _ _ _ _ _ _ _ Hs); [lia|]. intros s1 Hs1 Hsh1.
    wp_simpl. eapply wp_fat_byte; [done|done|lia|apply land_511|].
    assert (is_byte (fat_byte f vw (c * 3 / 2))) as B1 by (eapply fat_byte_byte; [done|lia]).
    assert (is_byte (fat_byte f vw (c * 3 / 2 + 1))) as B2 by (eapply fat_byte_byte; [done|lia]).
    wp_simpl. eapply wp_fat_store; [done|done|lia|apply land_511|rewrite zlen_cons, zlen_nil; pose proof (Z.mod_pos_bound (c * 3 / 2) 512); lia| |].
    { apply Forall_singleton. destruct (Z.odd c); apply u8_is_byte. }
    intros vw1 s2 Hs2 Hsh2 Hdata1 Hb1. rewrite H3. apply (wp_fat_window _ _ _ _ _ _ _ _ Hs2); [lia|]. intros s3 Hs3 Hsh3.
    wp_simpl. eapply wp_fat_byte; [done|done|lia|apply land_511|].
    rewrite Hb1 by lia. rewrite (proj2 (Z.ltb_ge (c * 3 / 2 + 1) _)), andb_false_r by (rewrite zlen_cons, zlen_nil; lia).
    wp_simpl. eapply wp_fat_store; [done|done|lia|apply land_511|rewrite zlen_cons, zlen_nil; pose proof (Z.mod_pos_bound (c * 3 / 2 + 1) 512); lia| |].
    { apply Forall_singleton. destruct (Z.odd c); [apply u8_is_byte|]. rewrite nibble_low by done. unfold is_byte in *. Z.div_mod_to_equations. lia. }
    intros vw2 s4 Hs4 Hsh4 Hdata2 Hb2. wp_simpl. eapply HQ'; [done|done|lia| |].
    + intros sec Hsec. by rewrite Hdata2, Hdata1.
    + intros c' Hc'. destruct (fat12_range f c' Hg Ht Hc') as (_ & H4 & H5 & _). unfold cluster in *.
      apply fat12_put; [|lia|lia|intros i Hi; eapply fat_byte_byte; [done|lia]].
      intros i Hi. rewrite Hb2, Hb1 by lia. rewrite !zlen_cons, !zlen_nil. case_bools; try lia; subst;
        rewrite ?Z.sub_diag; unfold nthZ; simpl; rewrite ?nibble_high; try done;
        try (replace (c * 3 / 2 + 1 - (c * 3 / 2 + 1)) with 0 by lia); destruct (Z.odd c); rewrite ?nibble_low by done; try done.
      * rewrite Z.shiftr_div_pow2 by lia. done.
  - destruct (fat16_range f c Hg Ht Hc) as (H1 & H2 & -> & ->). apply (wp_fat_window _ _ _ _ _ _ _ _ Hs); [lia|]. intros s1 Hs1 Hsh1.
    unfold ST_WORD. wp_simpl. eapply wp_fat_store; [done|done|lia|done|rewrite zlen_le_word; Z.div_mod_to_equations; lia|apply bytes_le_word|].
    intros vw2 s2 Hs2 Hsh2 Hdata Hb. wp_simpl. eapply HQ'; [done|done|lia|done|].
    intros c' Hc'. unfold cluster in *. rewrite zlen_le_word in Hb. rewrite !Hb by lia. unfold masked. destruct (decide (c' = c)) as [->|Hne].
    + case_bools; try lia. rewrite Z.sub_diag, Z.add_simpl_l. apply le_word_value, u16_range.
    + case_bools; try lia; done.
  - destruct (fat32_range f c Hg Ht Hc) as (H1 & H2 & -> & ->). apply (wp_fat_window _ _ _ _ _ _ _ _ Hs); [lia|]. intros s1 Hs1 Hsh1.
    unfold ST_DWORD. wp_simpl. eapply wp_fat_store; [done|done|lia|done|rewrite zlen_le_dword; Z.div_mod_to_equations; lia|apply bytes_le_dword|].
    intros vw2 s2 Hs2 Hsh2 Hdata Hb. wp_simpl. eapply HQ'; [done|done|lia|done|].
    intros c' Hc'. unfold cluster in *. rewrite zlen_le_dword in Hb. rewrite !Hb by lia. destruct (decide (c' = c)) as [->|Hne].
    + case_bools; try lia. rewrite Z.sub_diag, !Z.add_simpl_l, le_dword_value by apply Z.mod_pos_bound, eq_refl.
      unfold u32. Z.div_mod_to_equations. lia.
    + case_bools; try lia; done.
Qed.

(** The values of the entries. *)
Lemma entry_range fs f E D s c : vol fs f E D s -> cluster f c -> 0 <= E c < 268435456.
Proof.
  intros (vw & Hs & HE & _) Hc. rewrite <- HE by done. pose proof (m_geometry _ _ _ (proj1 Hs)) as Hg. unfold entry.
  destruct (g_fat f Hg) as [(Ht & _)|[(Ht & _)|(Ht & _)]]; rewrite Ht; cbn [Z.eqb Pos.eqb FS_FAT12 FS_FAT16 FS_FAT32].
  - destruct (fat12_range f c Hg Ht Hc) as (_ & H1 & H2 & H3).
    assert (is_byte (fat_byte f vw (c * 3 / 2))) by (eapply fat_byte_byte; [done|lia]).
    assert (is_byte (fat_byte f vw (c * 3 / 2 + 1))) by (eapply fat_byte_byte; [done|lia]).
    unfold is_byte in *. destruct (Z.odd c); Z.div_mod_to_equations; lia.
  - destruct (fat16_range f c Hg Ht Hc) as (H1 & H2 & _).
    assert (is_byte (fat_byte f vw (2 * c))) by (eapply fat_byte_byte; [done|lia]).
    assert (is_byte (fat_byte f vw (2 * c + 1))) by (eapply fat_byte_byte; [done|lia]).
    unfold is_byte in *. lia.
  - apply Z.mod_pos_bound. lia.
Qed.

Lemma masked_small f v : geometry f -> 0 <= v < fs_max_clust f -> masked f v = v.
Proof.
  intros Hg Hv. unfold masked. destruct (g_fat f Hg) as [(Ht & ? & _)|[(Ht & ? & _)|(Ht & ? & _)]]; rewrite Ht; cbn; apply Z.mod_small; lia.
Qed.

(** The mark of the last cluster of a chain is beyond the clusters. *)
Lemma masked_end f : geometry f -> fs_max_clust f <= masked f END_OF_CHAIN.
Proof.
  intros Hg. unfold masked. destruct (g_fat f Hg) as [(Ht & ? & _)|[(Ht & ? & _)|(Ht & ? & _)]]; rewrite Ht;
    [change (if _ : bool then _ else _) with 4095|change (if _ : bool then _ else _) with 65535|change (if _ : bool then _ else _) with 268435455]; lia.
Qed.

(** ** The structure of the volume *)

(** The fields that only [mount_drv] sets. *)
Definition same_volume (f f' : FATFS) : Prop :=
  n_rootdir f' = n_rootdir f /\ sects_fat f' = sects_fat f /\ fs_max_clust f' = fs_max_clust f /\ fs_fatbase f' = fs_fatbase f /\
  dirbase f' = dirbase f /\ database f' = database f /\ fat_type f' = fat_type f /\ fs_csize f' = fs_csize f /\
  n_fats f' = n_fats f /\ drive f' = drive f.

Lemma wp_put_fs fs f E D s g Q :
  vol fs f E D s -> same_volume f (g f) -> (0 <= last_clust f -> 0 <= last_clust (g f)) ->
  (forall s', vol fs (g f) E D s' -> static_buf s' = static_buf s -> Q tt s') ->
  wp (put_fs fs g) Q s.
Proof.
  intros (vw & Hs & HE & HD) Hg Hlast HQ. unfold put_fs. wp_simpl. eapply wp_get_fs; [by destruct Hs|]. wp_simpl. apply HQ; [|done].
  destruct Hg as (G1 & G2 & G3 & G4 & G5 & G6 & G7 & G8 & G9 & G10), Hs as [Hm Hv].
  assert (forall sec, live (g f) sec <-> live f sec) as Hlive by (intros; unfold live, fat_sector, data_sector; by rewrite G2, G4, G9, G10).
  exists vw. split_and!.
  - split.
    + destruct Hm as [? ? Hgeo ? ? ? ? Hdirty ?]. split; simpl; try done.
      * apply list_lookup_insert_eq. by eapply lookup_lt_Some.
      * destruct Hgeo. split; rewrite ?G2, ?G3, ?G4, ?G6, ?G7, ?G8, ?G9, ?G10; done.
      * by apply Hlast.
      * intros Hd. rewrite Hlive. by apply Hdirty.
      * by rewrite G10.
    + intros sec. rewrite Hlive. intros Hl. rewrite <- (Hv sec Hl). unfold view. simpl. by rewrite G10.
  - unfold cluster, entry, fat_byte. rewrite G3, G4, G7. done.
  - unfold data_sector. rewrite G2, G4, G9, G10. done.
Qed.
End table.
