(* ===== verification/FfChainFacts.v ===== *)
(** * ff.c: cluster chains

    The search for a free cluster, [create_chain] and [remove_chain] on an
    undamaged disk, over the FAT as a function. *)

From stdpp Require Import functions relations.
From S2P Require Import Prelude FatFs FfBase FfChain FfVolume FfTable.

Section chains.
Context `{ReliableDisks}.

Lemma vol_geometry fs f E D s : vol fs f E D s -> geometry f.
Proof. intros (vw & Hs & _). apply (m_geometry _ _ _ (proj1 Hs)). Qed.

Lemma wp_vol_get_fs fs f E D s Q : vol fs f E D s -> Q f s -> wp (get_fs fs) Q s.
Proof. intros (vw & Hs & _). apply wp_get_fs. apply Hs. Qed.

Lemma max_clust_small f : geometry f -> 2 <= fs_max_clust f <= 268435440.
Proof. intros Hg. pose proof (g_max_clust f Hg). destruct (g_fat f Hg) as [(_ & ? & _)|[(_ & ? & _)|(_ & ? & _)]]; lia. Qed.

Lemma vol_ext fs f E E' D D' s : vol fs f E D s -> (forall c, cluster f c -> E' c = E c) -> (forall sec, data_sector f sec -> D' sec = D sec) ->
  vol fs f E' D' s.
Proof.
  intros (vw & Hs & HE & HD) HE' HD'. exists vw. split_and!; [done| |].
  - intros c Hc. by rewrite HE, HE'.
  - intros sec Hsec. by rewrite HD, HD'.
Qed.

Lemma same_volume_refl f : same_volume f f.
Proof. done. Qed.

Lemma same_volume_trans f f' f'' : same_volume f f' -> same_volume f' f'' -> same_volume f f''.
Proof. unfold same_volume. intros. destruct_and!. split_and!; congruence. Qed.

Lemma same_volume_cluster f f' c : same_volume f f' -> cluster f' c <-> cluster f c.
Proof. intros (_ & _ & Hm & _). unfold cluster. by rewrite Hm. Qed.

Lemma wp_count_free fs f E D s delta Q :
  vol fs f E D s ->
  (forall f' s', vol fs f' E D s' -> same_volume f f' -> last_clust f' = last_clust f -> static_buf s' = static_buf s ->
     free_clust f' = (if free_clust f =? 4294967295 then 4294967295 else u32 (free_clust f + delta)) -> Q tt s') ->
  wp (count_free fs delta) Q s.
Proof.
  intros Hv HQ. unfold count_free. wp_simpl. eapply wp_vol_get_fs; [done|]. unfold when.
  destruct (Z.eqb_spec (free_clust f) 4294967295) as [Heq|]; simpl.
  - wp_simpl. by apply (HQ f).
  - eapply wp_put_fs; [done|done|done|]. intros s' Hs' Hb. by eapply HQ.
Qed.

(** ** Removing a chain *)

Definition next (f : FATFS) (E : Z -> Z) (c d : Z) : Prop := cluster f c /\ E c = d.
Definition reaches (f : FATFS) (E : Z -> Z) (c x : Z) : Prop := rtc (next f E) c x /\ cluster f x.

Lemma next_end f E c x : ~ cluster f c -> rtc (next f E) c x -> x = c.
Proof. intros Hc Hr. inversion Hr as [|? ? ? [Hn _]]; done. Qed.

Lemma zero_not_cluster f : ~ cluster f 0.
Proof. unfold cluster. lia. Qed.

Lemma reaches_freed f E c d x : reaches f (<[c := 0]> E) d x -> reaches f E d x.
Proof.
  intros [Hr Hx]. split; [|done]. induction Hr as [|d y z [Hd Hy] Hr IH]; [done|].
  destruct (decide (d = c)) as [->|Hne].
  - rewrite fn_lookup_insert in Hy. subst y. apply next_end in Hr; [|apply zero_not_cluster]. subst. by apply zero_not_cluster in Hx.
  - rewrite fn_lookup_insert_ne in Hy by done. eapply rtc_l; [by split|auto].
Qed.

Lemma reaches_split f E c x : reaches f E c x -> x = c \/ reaches f (<[c := 0]> E) (E c) x.
Proof.
  intros [Hr Hx]. revert x Hr Hx. refine (rtc_ind_r _ _ _ _); [by left|].
  intros y z Hr [Hy Hz] IH Hx. right. split; [|done]. destruct (decide (y = c)) as [->|Hne]; [by subst z|].
  destruct (IH Hy) as [|[Hr' _]]; [done|]. eapply rtc_r; [done|]. split; [done|]. by rewrite fn_lookup_insert_ne.
Qed.

(** The number of entries that are not free. *)
Definition used (f : FATFS) (E : Z -> Z) : nat := length (filter (fun c => E c <> 0) (seqZ 2 (fs_max_clust f - 2))).

Lemma used_bound f E : geometry f -> (used f E + 2 <= Z.to_nat (fs_max_clust f))%nat.
Proof.
  intros Hg. pose proof (max_clust_small f Hg). unfold used.
  pose proof (length_filter (fun c => E c <> 0) (seqZ 2 (fs_max_clust f - 2))) as Hle. rewrite length_seqZ in Hle. lia.
Qed.

Lemma used_freed f E c : cluster f c -> E c <> 0 -> (used f (<[c := 0%Z]> E) < used f E)%nat.
Proof.
  intros Hc HE. unfold used.
  replace (filter (fun x => <[c := 0]> E x <> 0) (seqZ 2 (fs_max_clust f - 2)))
    with (filter (fun x => x <> c) (filter (fun x => E x <> 0) (seqZ 2 (fs_max_clust f - 2)))).
  - apply length_filter_lt with c; [|by intros []]. apply list_elem_of_filter. split; [done|]. apply elem_of_seqZ. unfold cluster in Hc. lia.
  - rewrite list_filter_filter. apply list_filter_iff. intros x. destruct (decide (x = c)) as [->|].
    + rewrite fn_lookup_insert. naive_solver.
    + rewrite fn_lookup_insert_ne by done. naive_solver.
Qed.

(** What remains to be freed when the walk has come to [c]. *)
Record walk (fs : Z) (f0 : FATFS) (E0 : Z -> Z) (D : Z -> list Z) (c0 : Z) (f : FATFS) (E : Z -> Z) (c : Z) (s : fat_state) : Prop := {
  wk_vol : vol fs f E D s;
  wk_same : same_volume f0 f;
  wk_ahead : forall x, reaches f E c x -> reaches f0 E0 c0 x;
  wk_done : forall x, reaches f0 E0 c0 x -> E x = 0 \/ reaches f E c x;
  wk_others : forall x, E x = E0 x \/ reaches f0 E0 c0 x /\ E x = 0
}.

Lemma reaches_same f f' E c x : same_volume f f' -> reaches f E c x <-> reaches f' E c x.
Proof. intros (_ & _ & Hm & _). unfold reaches, next, cluster. by rewrite Hm. Qed.

Lemma wp_remove_chain fs f E D s c Q :
  vol fs f E D s -> (forall x, reaches f E c x -> E x <> 1) ->
  (forall f' E' s', vol fs f' E' D s' -> same_volume f f' -> (forall x, reaches f E c x -> E' x = 0) ->
     (forall x, ~ reaches f E c x -> E' x = E x) -> Q true s') ->
  wp (remove_chain fs c) Q s.
Proof.
  intros Hs Hok HQ. pose proof (vol_geometry _ _ _ _ _ Hs) as Hg. unfold remove_chain. wp_simpl. eapply wp_vol_get_fs; [done|].
  eapply (wp_loop_ghost (fun '(g, E', b) c' s' => walk fs f E D c g E' c' s' /\ b = bool_decide (cluster g c'))
            (fun '(g, E', b) => if (b : bool) then S (used g E') else O)).
  2:{ instantiate (1 := (f, E, bool_decide (cluster f c))). split; [|done]. split; try done; naive_solver. }
  2:{ pose proof (used_bound f E Hg). unfold fat_chain_fuel. case_bool_decide; lia. }
  clear s Hs. intros [[g E'] b] c' s [[Hs Hsame Hahead Hdone Hothers] ->]. wp_simpl. eapply wp_vol_get_fs; [done|].
  case_bool_decide as Hc; pose proof Hc as Hc'; unfold cluster in Hc'.
  2:{ replace ((2 <=? c') && (c' <? fs_max_clust g)) with false by (symmetry; case_bools; lia).
      wp_simpl. eapply HQ; [done|done| |].
      - intros x Hx. destruct (Hdone x Hx) as [|[Hr Hx']]; [done|]. apply next_end in Hr; [by subst|done].
      - intros x Hx. destruct (Hothers x) as [|[? _]]; done. }
  rewrite (proj2 (Z.leb_le 2 c')), (proj2 (Z.ltb_lt c' _)) by lia. cbn [andb]. wp_simpl. eapply wp_get_cluster; [done|done|].
  clear s Hs. intros s Hs _. assert (reaches f E c c') as Hrc by (apply Hahead; split; [constructor|done]).
  rewrite (proj2 (Z.eqb_neq (E' c') 1)) by (destruct (Hothers c') as [->|[_ ->]]; [by apply Hok|done]).
  wp_simpl. eapply wp_put_cluster; [done|done|done|]. clear s Hs. intros s Hs _. cbn [negb]. rewrite masked_small in Hs by (eapply vol_geometry || lia; done).
  wp_simpl. eapply wp_count_free; [done|]. intros g' s' Hs' Hsame' _ _ _. wp_simpl.
  assert (forall x d, reaches g' (<[c' := 0]> E') d x <-> reaches g (<[c' := 0]> E') d x) as Hre.
  { intros x d. symmetry. by apply reaches_same. }
  exists (g', <[c' := 0]> E', bool_decide (cluster g' (E' c'))). split; [split; [|done]; split|].
  - done.
  - by eapply same_volume_trans.
  - intros x Hx. apply Hahead. rewrite Hre in Hx. apply reaches_freed in Hx. destruct Hx as [Hr Hx]. split; [by eapply rtc_l|done].
  - intros x Hx. destruct (decide (x = c')) as [->|Hne]; [left; apply fn_lookup_insert|]. rewrite fn_lookup_insert_ne by done.
    destruct (Hdone x Hx) as [|Hx']; [by left|]. right. rewrite Hre. destruct (reaches_split _ _ _ _ Hx'); done.
  - intros x. destruct (decide (x = c')) as [->|Hne]; [right; by rewrite fn_lookup_insert|]. by rewrite fn_lookup_insert_ne.
  - assert (used g' (<[c' := 0]> E') = used g (<[c' := 0]> E')) as Hu by (unfold used; by destruct Hsame' as (_ & _ & -> & _)).
    case_bool_decide as Hc2; [|lia]. rewrite Hu. apply -> Nat.succ_lt_mono. apply used_freed; [done|].
    intros Hz. rewrite Hz in Hc2. by apply zero_not_cluster in Hc2.
Qed.

(** ** Finding a free cluster *)

(** The clusters that were looked at since the start at [scl]. *)
Definition looked_at (scl ncl : Z) (wrapped : bool) (x : Z) : Prop :=
  if wrapped then scl < x \/ x <= ncl else scl < x <= ncl.

Lemma wp_find_free fs f E D s scl Q :
  vol fs f E D s -> (forall x, cluster f x -> E x <> 1) -> 1 <= scl < fs_max_clust f ->
  (forall s', vol fs f E D s' -> (forall x, cluster f x -> E x <> 0) -> Q (inr 0) s') ->
  (forall c s', vol fs f E D s' -> cluster f c -> E c = 0 -> Q (inl c) s') ->
  wp (find_free fs scl) Q s.
Proof.
  intros Hs Hok Hscl Hnone Hfound. pose proof (vol_geometry _ _ _ _ _ Hs) as Hg. pose proof (max_clust_small f Hg) as Hmax.
  unfold find_free. wp_simpl. eapply wp_vol_get_fs; [done|].
  eapply (wp_loop_ghost (fun '(w, n) ncl s' => vol fs f E D s' /\ n = ncl /\
             (if w : bool then 2 <= ncl < scl else scl <= ncl < fs_max_clust f) /\
             (forall x, cluster f x -> looked_at scl ncl w x -> E x <> 0))
            (fun '(w, n) => Z.to_nat (if w : bool then scl - n else fs_max_clust f - n + scl))).
  2:{ instantiate (1 := (false, scl)). split_and!; [done|done|lia|lia|]. intros x _. unfold looked_at. lia. }
  2:{ unfold fat_chain_fuel. lia. }
  clear s Hs. intros [w n] ncl s (Hs & -> & Hr & Hseen). rewrite u32_id by (destruct w; lia). wp_simpl.
  set (wrap := fs_max_clust f <=? ncl + 1). set (ncl' := if wrap then 2 else ncl + 1).
  assert (wrap = true -> w = false /\ ncl = fs_max_clust f - 1) as Hwrap by (intros Hw%Z.leb_le; destruct w; lia).
  assert (wrap = false -> ncl + 1 < fs_max_clust f) as Hnowrap by (intros Hw%Z.leb_gt; lia).
  assert (forall x, cluster f x -> x <> ncl' -> looked_at scl ncl' (w || wrap) x -> E x <> 0) as Hseen'.
  { intros x Hx Hne Hl. apply Hseen; [done|]. unfold looked_at, ncl', cluster in *. destruct wrap; [destruct (Hwrap eq_refl); subst; simpl in *; lia|].
    destruct w; simpl in *; lia. }
  destruct (wrap && (scl <? ncl')) eqn:Eend.
  { apply andb_true_iff in Eend as [Ew Elt%Z.ltb_lt]. wp_simpl. apply Hnone; [done|]. intros x Hx. destruct (Hwrap Ew) as [-> ->].
    apply Hseen; [done|]. unfold looked_at, ncl', cluster in *. rewrite Ew in *. lia. }
  assert (cluster f ncl') as Hc.
  { unfold cluster, ncl'. destruct wrap; [|specialize (Hnowrap eq_refl); destruct w; lia]. unfold ncl' in *. simpl in Eend. apply Z.ltb_ge in Eend. lia. }
  wp_simpl. eapply wp_get_cluster; [done|done|]. clear s Hs. intros s Hs _.
  destruct (Z.eqb_spec (E ncl') 0) as [Hz|Hz]; [wp_simpl; by apply Hfound|].
  rewrite (proj2 (Z.eqb_neq (E ncl') 1)) by (by apply Hok).
  assert (forall x, cluster f x -> looked_at scl ncl' (w || wrap) x -> E x <> 0) as Hall.
  { intros x Hx Hl. destruct (decide (x = ncl')) as [->|]; [done|by apply Hseen']. }
  destruct (Z.eqb_spec ncl' scl) as [Heq|Hne].
  - wp_simpl. apply Hnone; [done|]. intros x Hx. apply Hall; [done|]. unfold looked_at, ncl', cluster in *.
    destruct wrap; [destruct w; simpl; lia|]. specialize (Hnowrap eq_refl). destruct w; simpl; lia.
  - wp_simpl. exists (w || wrap, ncl'). split; [split_and!; [done|done| |done]|].
    + unfold ncl' in *. destruct wrap; [destruct (Hwrap eq_refl); subst; simpl in *; apply Z.ltb_ge in Eend; lia|].
      specialize (Hnowrap eq_refl). destruct w; simpl; lia.
    + unfold ncl' in *. destruct wrap; [destruct (Hwrap eq_refl); subst; simpl in *; apply Z.ltb_ge in Eend; lia|].
      specialize (Hnowrap eq_refl). destruct w; simpl; lia.
Qed.

(** ** Stretching a chain *)

(** The free cluster is marked, linked and taken off the count. *)
Definition stretched (f : FATFS) (E : Z -> Z) (clust r : Z) : Z -> Z :=
  let E := <[r := masked f END_OF_CHAIN]> E in if clust =? 0 then E else <[clust := r]> E.

Lemma wp_create_chain_from fs f E D s clust scl Q :
  vol fs f E D s -> (forall x, cluster f x -> E x <> 1) -> 1 <= scl < fs_max_clust f -> (clust = 0 \/ cluster f clust /\ E clust <> 0) ->
  (forall s', vol fs f E D s' -> (forall x, cluster f x -> E x <> 0) -> Q 0 s') ->
  (forall r f' s', cluster f r -> E r = 0 -> vol fs f' (stretched f E clust r) D s' -> same_volume f f' -> in_fat fs f s' ->
     last_clust f' = r -> free_clust f' = (if free_clust f =? 4294967295 then 4294967295 else u32 (free_clust f - 1)) -> Q r s') ->
  wp (r ← find_free fs scl;
      match r with
      | inr res => mret res
      | inl ncl =>
          ok ← put_cluster fs ncl END_OF_CHAIN;
          if negb ok then mret 1
          else
            ok ← (if clust =? 0 then mret true else put_cluster fs clust ncl);
            if negb ok then mret 1
            else
              put_fs fs (set_last_clust ncl);;
              count_free fs (-1);;
              mret ncl
      end) Q s.
Proof.
  intros Hs Hok Hscl Hclust Hfull HQ. pose proof (vol_geometry _ _ _ _ _ Hs) as Hg. wp_simpl. eapply wp_find_free; [done|done|done| |].
  { intros s1 Hs1 Hall. wp_simpl. by apply Hfull. }
  clear s Hs. intros r s Hs Hr Hz. wp_simpl. eapply wp_put_cluster; [done|done|by vm_compute|]. clear s Hs. intros s Hs Hf. cbn [negb]. wp_simpl.
  assert (forall s', vol fs f (stretched f E clust r) D s' -> in_fat fs f s' ->
    wp (put_fs fs (set_last_clust r)) (fun _ s' => wp (count_free fs (-1);; mret r) Q s') s') as Hend.
  { intros s' Hs' Hf'. eapply wp_put_fs; [done|done|unfold cluster in Hr; simpl; lia|]. intros s2 Hs2 Hb2. wp_simpl.
    eapply wp_count_free; [done|].
    intros f3 s3 Hs3 Hsame Hlast Hb3 Hfree. wp_simpl. apply (HQ r f3); try done. destruct Hf' as (sec & Hsh & Hsec). exists sec.
    split; [|done]. unfold shows. by rewrite Hb3, Hb2. }
  unfold stretched in Hend. destruct (Z.eqb_spec clust 0) as [->|Hne].
  - wp_simpl. cbn [negb]. wp_simpl. by apply Hend.
  - destruct Hclust as [|[Hc Hc']]; [done|]. pose proof (masked_small f r Hg ltac:(unfold cluster in Hr; lia)) as Hmask.
    wp_simpl. eapply wp_put_cluster; [done|done|unfold cluster in Hr; lia|]. clear s Hs Hf. intros s Hs Hf. rewrite Hmask in Hs.
    cbn [negb]. wp_simpl. by apply Hend.
Qed.

Lemma wp_create_chain_new fs f E D s Q :
  vol fs f E D s -> (forall x, cluster f x -> E x <> 1) ->
  (forall s', vol fs f E D s' -> (forall x, cluster f x -> E x <> 0) -> Q 0 s') ->
  (forall r f' s', cluster f r -> E r = 0 -> vol fs f' (stretched f E 0 r) D s' -> same_volume f f' -> in_fat fs f s' ->
     last_clust f' = r -> free_clust f' = (if free_clust f =? 4294967295 then 4294967295 else u32 (free_clust f - 1)) -> Q r s') ->
  wp (create_chain fs 0) Q s.
Proof.
  intros Hs Hok Hfull HQ. pose proof (max_clust_small f (vol_geometry _ _ _ _ _ Hs)). unfold create_chain.
  rewrite wp_bind. eapply wp_vol_get_fs; [done|]. rewrite wp_bind. eapply wp_intro; [reflexivity|]. cbv beta iota.
  eapply wp_create_chain_from; try done; [|by left].
  assert (0 <= last_clust f) by (destruct Hs as (vw & [[] _] & _); done).
  destruct (Z.eqb_spec (last_clust f) 0), (Z.leb_spec (fs_max_clust f) (last_clust f)); simpl; lia.
Qed.

Lemma wp_create_chain_extend fs f E D s c Q :
  vol fs f E D s -> (forall x, cluster f x -> E x <> 1) -> cluster f c -> fs_max_clust f <= E c ->
  (forall s', vol fs f E D s' -> (forall x, cluster f x -> E x <> 0) -> Q 0 s') ->
  (forall r f' s', cluster f r -> E r = 0 -> vol fs f' (stretched f E c r) D s' -> same_volume f f' -> in_fat fs f s' ->
     last_clust f' = r -> free_clust f' = (if free_clust f =? 4294967295 then 4294967295 else u32 (free_clust f - 1)) -> Q r s') ->
  wp (create_chain fs c) Q s.
Proof.
  intros Hs Hok Hc HEc Hfull HQ. pose proof (max_clust_small f (vol_geometry _ _ _ _ _ Hs)). unfold create_chain.
  rewrite wp_bind. eapply wp_vol_get_fs; [done|]. pose proof Hc as Hc'. unfold cluster in Hc'.
  assert ((c =? 0) = false) as Hc0 by (apply Z.eqb_neq; lia). rewrite wp_bind. rewrite Hc0 at 1.
  rewrite wp_bind. eapply wp_get_cluster; [done|done|]. clear s Hs. intros s Hs _. rewrite wp_ret.
  rewrite (proj2 (Z.ltb_ge (E c) 2)), (proj2 (Z.ltb_ge (E c) (fs_max_clust f))) by lia. cbv beta iota.
  eapply wp_create_chain_from; try done; [unfold cluster in Hc; lia|]. right. split; [done|lia].
Qed.

Lemma wp_create_chain_follow fs f E D s c Q :
  vol fs f E D s -> cluster f c -> cluster f (E c) ->
  (forall s', vol fs f E D s' -> in_fat fs f s' -> Q (E c) s') ->
  wp (create_chain fs c) Q s.
Proof.
  intros Hs Hc HEc HQ. unfold create_chain.
  rewrite wp_bind. eapply wp_vol_get_fs; [done|]. unfold cluster in HEc. pose proof Hc as Hc'. unfold cluster in Hc'.
  rewrite (proj2 (Z.eqb_neq c 0)) by lia.
  rewrite !wp_bind. eapply wp_get_cluster; [done|done|]. clear s Hs. intros s Hs Hf. rewrite wp_ret.
  rewrite (proj2 (Z.ltb_ge (E c) 2)), (proj2 (Z.ltb_lt (E c) (fs_max_clust f))) by lia. wp_simpl. by apply HQ.
Qed.
End chains.
