(* ===== verification/FfFileFacts.v ===== *)
(** * ff.c: the bytes of a file, [f_read] and [f_lseek]

    A file is the list [cl] of its clusters.  [file_byte] is the byte at a
    position of the file in the data sectors [D]; [at_position] relates the
    file pointer to the current cluster, sector and sector counter. *)

From stdpp Require Import functions.
From S2P Require Import Prelude FatFs FfBase FfChain FfMount FfFile FfVolume FfTable FfChainFacts.

(** ** Sectors and clusters of a position *)

Lemma div_mod_unique a n q r : 0 <= r < n -> a = n * q + r -> a / n = q /\ a mod n = r.
Proof. intros Hr Ha. pose proof (Z.div_unique a n q r (or_introl Hr) Ha). pose proof (Z.mod_unique a n q r (or_introl Hr) Ha). lia. Qed.

Lemma div_step n j : 0 < n -> 1 <= j ->
  (n - 1 - (j - 1) mod n = 0 /\ j / n = (j - 1) / n + 1 /\ j mod n = 0) \/
  (0 < n - 1 - (j - 1) mod n /\ j / n = (j - 1) / n /\ j mod n = (j - 1) mod n + 1).
Proof.
  intros Hn Hj. pose proof (Z.mod_pos_bound (j - 1) n Hn). pose proof (Z.div_mod (j - 1) n ltac:(lia)).
  destruct (decide ((j - 1) mod n = n - 1)).
  - left. destruct (div_mod_unique j n ((j - 1) / n + 1) 0); lia.
  - right. destruct (div_mod_unique j n ((j - 1) / n) ((j - 1) mod n + 1)); lia.
Qed.

Lemma div_within n j i : 0 < n -> 0 <= j -> 0 <= i < n - j mod n -> (j + i) / n = j / n /\ (j + i) mod n = j mod n + i.
Proof.
  intros Hn Hj Hi. pose proof (Z.mod_pos_bound j n Hn). pose proof (Z.div_mod j n ltac:(lia)).
  apply div_mod_unique; lia.
Qed.

Section files.
Context `{ReliableDisks}.

Definition clust_sector (f : FATFS) (c : Z) : Z := (c - 2) * fs_csize f + database f.
Definition file_sector (f : FATFS) (cl : list Z) (j : Z) : Z := clust_sector f (nthZ cl (j / fs_csize f)) + j mod fs_csize f.
Definition file_byte (f : FATFS) (D : Z -> list Z) (cl : list Z) (i : Z) : Z := nthZ (D (file_sector f cl (i / 512))) (i mod 512).
Definition file_bytes (f : FATFS) (D : Z -> list Z) (cl : list Z) (i n : Z) : list Z :=
  map (fun k => file_byte f D cl (i + k)) (seqZ 0 n).

(** The bytes that the clusters can hold. *)
Definition room (f : FATFS) (cl : list Z) : Z := zlen cl * (fs_csize f * 512).

Record chain (f : FATFS) (E : Z -> Z) (cl : list Z) : Prop := {
  ch_range : forall i, 0 <= i < zlen cl -> cluster f (nthZ cl i);
  ch_link : forall i, 0 <= i -> i + 1 < zlen cl -> E (nthZ cl i) = nthZ cl (i + 1);
  ch_end : 0 < zlen cl -> fs_max_clust f <= E (nthZ cl (zlen cl - 1));
  ch_inj : forall i j, 0 <= i < zlen cl -> 0 <= j < zlen cl -> nthZ cl i = nthZ cl j -> i = j
}.

Record opened (fs : Z) (f : FATFS) (cl : list Z) (fp : file_object) : Prop := {
  op_fs : fp_fs fp = Some fs;
  op_error : has (fp_flag fp) FA__ERROR = false;
  op_ptr : 0 <= fp_fptr fp <= fp_fsize fp;
  op_size : fp_fsize fp < 4294967296;
  op_room : fp_fsize fp <= room f cl;
  op_clust : fp_org_clust fp = nthZ cl 0
}.

Definition in_sector (f : FATFS) (cl : list Z) (j : Z) (fp : file_object) : Prop :=
  fp_curr_clust fp = nthZ cl (j / fs_csize f) /\ fp_curr_sect fp = file_sector f cl j /\
  fp_csect fp = fs_csize f - j mod fs_csize f.

Definition positioned (f : FATFS) (cl : list Z) (fp : file_object) : Prop :=
  if fp_fptr fp =? 0 then fp_csect fp = 1 else in_sector f cl ((fp_fptr fp - 1) / 512) fp.

(** What a seek inside the cluster leaves at the first byte of the cluster. *)
Definition rewound (f : FATFS) (cl : list Z) (fp : file_object) : Prop :=
  0 < fp_fptr fp < room f cl /\ fp_fptr fp mod 512 = 0 /\ (fp_fptr fp / 512) mod fs_csize f = 0 /\
  fp_curr_clust fp = nthZ cl (fp_fptr fp / 512 / fs_csize f) /\
  fp_curr_sect fp = clust_sector f (fp_curr_clust fp) - 1 /\ fp_csect fp = fs_csize f + 1.

Definition at_position (f : FATFS) (cl : list Z) (fp : file_object) : Prop := positioned f cl fp \/ rewound f cl fp.

(** Only the position differs. *)
Definition same_file (fp fp' : file_object) : Prop :=
  fp_flag fp' = fp_flag fp /\ fp_fs fp' = fp_fs fp /\ fp_fsize fp' = fp_fsize fp /\ fp_org_clust fp' = fp_org_clust fp /\
  fp_dir_sect fp' = fp_dir_sect fp /\ fp_dir_ptr fp' = fp_dir_ptr fp.

Lemma zlen_file_bytes f D cl i n : 0 <= n -> zlen (file_bytes f D cl i n) = n.
Proof. intros. unfold file_bytes, zlen. rewrite length_map, length_seqZ. lia. Qed.

Lemma nthZ_file_bytes f D cl i n k : 0 <= k < n -> nthZ (file_bytes f D cl i n) k = file_byte f D cl (i + k).
Proof.
  intros Hk. rewrite <- (Z2Nat.id k) at 1 by lia. apply nthZ_of_lookup. unfold file_bytes.
  rewrite list_lookup_fmap, (lookup_seqZ_lt 0 n) by lia. simpl. f_equal. f_equal. lia.
Qed.

Lemma file_bytes_eq f D cl i l : (forall k, 0 <= k < zlen l -> nthZ l k = file_byte f D cl (i + k)) -> l = file_bytes f D cl i (zlen l).
Proof.
  intros Hl. pose proof (zlen_nonneg l). apply nthZ_ext; [by rewrite zlen_file_bytes|]. intros k Hk. rewrite nthZ_file_bytes by done. by apply Hl.
Qed.

Lemma file_bytes_app f D cl i m n : 0 <= m -> 0 <= n -> file_bytes f D cl i (m + n) = file_bytes f D cl i m ++ file_bytes f D cl (i + m) n.
Proof.
  intros Hm Hn. apply nthZ_ext; [rewrite zlen_app, !zlen_file_bytes; lia|]. intros k Hk. rewrite zlen_file_bytes in Hk by lia.
  rewrite nthZ_file_bytes by lia. rewrite nthZ_app, zlen_file_bytes by lia. case_bools; rewrite nthZ_file_bytes by lia; f_equal; lia.
Qed.

(** ** Where the sectors of a file lie *)

Lemma clust_sector_range f c : geometry f -> cluster f c ->
  fs_fatbase f + n_fats f * sects_fat f <= clust_sector f c /\ clust_sector f c + fs_csize f <= capacity (drive f).
Proof. intros [] [? ?]. unfold clust_sector. nia. Qed.

Lemma position_cluster f cl p : geometry f -> 0 <= p < room f cl -> 0 <= p / 512 / fs_csize f < zlen cl.
Proof.
  intros [] Hp. unfold room in Hp. rewrite Z.div_div by lia. split; [apply Z.div_pos; lia|].
  apply Z.div_lt_upper_bound; [lia|]. lia.
Qed.

Lemma file_sectors f E cl p n : geometry f -> chain f E cl -> 0 <= p < room f cl -> 1 <= n <= fs_csize f - (p / 512) mod fs_csize f ->
  data_sector f (file_sector f cl (p / 512)) /\ file_sector f cl (p / 512) + n <= capacity (drive f) /\
  forall i, 0 <= i < n -> file_sector f cl (p / 512 + i) = file_sector f cl (p / 512) + i.
Proof.
  intros Hg Hc Hp Hn. pose proof (g_csize f Hg). pose proof (position_cluster f cl p Hg Hp) as Hr.
  pose proof (clust_sector_range f _ Hg (ch_range _ _ _ Hc _ Hr)). pose proof (Z.mod_pos_bound (p / 512) (fs_csize f) ltac:(lia)).
  unfold data_sector, file_sector. split_and!; try lia. intros i Hi.
  destruct (div_within (fs_csize f) (p / 512) i) as [-> ->]; [lia|apply Z.div_pos; lia|lia|lia].
Qed.

Lemma wp_clust2sect fs f E D s c Q : vol fs f E D s -> cluster f c -> Q (clust_sector f c) s -> wp (clust2sect fs c) Q s.
Proof.
  intros Hs Hc HQ. pose proof (vol_geometry _ _ _ _ _ Hs) as Hg. pose proof (max_clust_small f Hg).
  pose proof (clust_sector_range f c Hg Hc). pose proof (capacity_small (drive f)). pose proof (g_csize f Hg).
  pose proof (g_fatbase f Hg). pose proof (fat_end f Hg). pose proof (g_sects_fat f Hg).
  unfold clust2sect. wp_simpl. eapply wp_vol_get_fs; [done|]. wp_simpl. unfold cluster in Hc.
  rewrite (u32_id (c - 2)), (u32_id (fs_max_clust f - 2)) by lia. rewrite (proj2 (Z.leb_gt _ _)) by lia.
  fold (clust_sector f c). rewrite u32_id by lia. done.
Qed.

(** ** The buffer, on the level of files *)

Lemma wp_move_fp_window fs fp sec Q s : fp_fs fp = Some fs -> wp (move_fs_window fs sec) Q s -> wp (move_fp_window fp sec) Q s.
Proof. intros Hfs HQ. unfold move_fp_window. rewrite Hfs. wp_simpl. apply HQ. Qed.

Lemma wp_vol_flush fs f E D s Q : vol fs f E D s ->
  (forall s', vol fs f E D s' -> static_buf s' = set_buf_dirty false (static_buf s) -> Q true s') ->
  wp (move_fs_window fs 0) Q s.
Proof. intros (vw & Hs & HE & HD) HQ. eapply wp_flush; [done|]. intros s' Hs' Hb. apply HQ; [by exists vw|done]. Qed.

Lemma wp_vol_window fs f E D s sec Q : vol fs f E D s -> data_sector f sec ->
  (forall s', vol fs f E D s' -> shows fs sec s' -> Q true s') -> wp (move_fs_window fs sec) Q s.
Proof.
  intros Hv Hsec HQ. pose proof (live_range f sec (vol_geometry _ _ _ _ _ Hv) (or_intror Hsec)). destruct Hv as (vw & Hs & HE & HD).
  eapply wp_move_window; [done|done|]. intros s' Hs' Hsh. apply HQ; [by exists vw|done].
Qed.

Lemma wp_vol_fb_read fs f E D s sec p n Q : vol fs f E D s -> shows fs sec s -> data_sector f sec -> 0 <= p -> 0 <= n -> p + n <= 512 ->
  Q (slice p n (D sec)) s -> wp (fb_read p n) Q s.
Proof.
  intros (vw & Hs & HE & HD) Hsh Hsec Hp Hn Hle HQ. rewrite <- HD in HQ by done. eapply wp_fb_read; [done|done|by right|done..].
Qed.

Lemma vol_sector fs f E D s sec : vol fs f E D s -> data_sector f sec -> zlen (D sec) = 512 /\ bytes (D sec).
Proof. intros (vw & Hs & HE & HD) Hsec. rewrite <- HD by done. eapply view_sector; [done|by right]. Qed.

Lemma wp_vol_read_direct fs f E D s sec n Q : vol fs f E D s -> buf_dirty (static_buf s) = false -> 0 <= n -> data_sector f sec ->
  sec + n <= capacity (drive f) ->
  (forall data s', vol fs f E D s' -> static_buf s' = static_buf s -> zlen data = 512 * n ->
     (forall i, 0 <= i < 512 * n -> nthZ data i = nthZ (D (sec + i / 512)) (i mod 512)) -> Q (RES_OK, data) s') ->
  wp (read_sectors (drive f) sec n) Q s.
Proof.
  intros (vw & Hs & HE & HD) Hd Hn Hsec Hle HQ. eapply wp_read_direct; [done..|]. intros data s' Hs' Hb Hl Hdata.
  apply HQ; [by exists vw|done|done|]. intros i Hi. rewrite Hdata, HD; [done| |done]. unfold data_sector in *.
  pose proof (Z.div_pos i 512 ltac:(lia) ltac:(lia)). pose proof (Z.div_lt_upper_bound i 512 n ltac:(lia) ltac:(lia)). lia.
Qed.

(** ** The next sector *)

(** The file object in the sector of its file pointer, at its first byte. *)
Definition entered (f : FATFS) (cl : list Z) (fp fp' : file_object) (sector : Z) : Prop :=
  same_file fp fp' /\ fp_fptr fp' = fp_fptr fp /\ sector = file_sector f cl (fp_fptr fp / 512) /\
  in_sector f cl (fp_fptr fp / 512) (set_fp_curr_sect sector fp').

(** When the sector counter has not run out, the sector follows the last one. *)
Lemma enter_next f E cl fp : geometry f -> chain f E cl -> at_position f cl fp -> 0 <= fp_fptr fp < room f cl -> fp_fptr fp mod 512 = 0 ->
  u8 (fp_csect fp - 1) <> 0 -> entered f cl fp (set_fp_csect (u8 (fp_csect fp - 1)) fp) (u32 (fp_curr_sect fp + 1)).
Proof.
  intros Hg Hc Hat Hp Ha Hn. pose proof (g_csize f Hg). pose proof (position_cluster f cl _ Hg Hp) as Hr.
  pose proof (clust_sector_range f _ Hg (ch_range _ _ _ Hc _ Hr)). pose proof (capacity_small (drive f)).
  pose proof (g_fatbase f Hg). pose proof (fat_end f Hg). pose proof (g_sects_fat f Hg).
  pose proof (Z.mod_pos_bound (fp_fptr fp / 512) (fs_csize f) ltac:(lia)).
  assert (u32 (fp_curr_sect fp + 1) = file_sector f cl (fp_fptr fp / 512) /\ u8 (fp_csect fp - 1) = fs_csize f - (fp_fptr fp / 512) mod fs_csize f /\
          fp_curr_clust fp = nthZ cl (fp_fptr fp / 512 / fs_csize f)) as (Hsec & Hcs & Hcc).
  2:{ split; [done|]. split; [done|]. split; [done|]. by split. }
  destruct Hat as [Hpos|(_ & _ & Hm & Hcc & Hcs & Hct)].
  - unfold positioned in Hpos. destruct (Z.eqb_spec (fp_fptr fp) 0) as [Hz|Hz]; [by rewrite Hpos in Hn|].
    assert ((fp_fptr fp - 1) / 512 = fp_fptr fp / 512 - 1) as Hq by (Z.div_mod_to_equations; lia).
    rewrite Hq in Hpos. destruct Hpos as (Hcc & Hcs & Hct). set (j := fp_fptr fp / 512) in *.
    assert (1 <= j) by (unfold j; Z.div_mod_to_equations; lia).
    destruct (div_step (fs_csize f) j) as [(Ho & _)|(Ho & Hd & Hm)]; [lia|lia| |].
    + rewrite Hct in Hn. rewrite u8_id in Hn by lia. lia.
    + rewrite Hct, u8_id by lia. rewrite Hcs, Hcc. unfold file_sector in *. rewrite <- Hd. rewrite u32_id by lia. split_and!; lia.
  - rewrite Hct, Hcs, Hcc, Hm. unfold file_sector. rewrite Hm. rewrite u32_id, u8_id by lia. split_and!; lia.
Qed.

(** Otherwise the position is at the first byte of a cluster. *)
Lemma at_cluster_start f cl fp : geometry f -> at_position f cl fp -> 0 <= fp_fptr fp -> fp_fptr fp mod 512 = 0 -> u8 (fp_csect fp - 1) = 0 ->
  (fp_fptr fp / 512) mod fs_csize f = 0 /\
  (0 < fp_fptr fp -> 1 <= fp_fptr fp / 512 / fs_csize f /\ fp_curr_clust fp = nthZ cl (fp_fptr fp / 512 / fs_csize f - 1)).
Proof.
  intros Hg Hat Hp Ha Hn. pose proof (g_csize f Hg).
  destruct Hat as [Hpos|(_ & _ & _ & _ & _ & Hct)]; [|rewrite Hct in Hn; rewrite u8_id in Hn by lia; lia].
  unfold positioned in Hpos. destruct (Z.eqb_spec (fp_fptr fp) 0) as [Hz|Hz]; [rewrite Hz; split; [done|lia]|].
  assert ((fp_fptr fp - 1) / 512 = fp_fptr fp / 512 - 1) as Hq by (Z.div_mod_to_equations; lia).
  rewrite Hq in Hpos. destruct Hpos as (Hcc & Hcs & Hct). set (j := fp_fptr fp / 512) in *.
  assert (1 <= j) by (unfold j; Z.div_mod_to_equations; lia). pose proof (Z.mod_pos_bound (j - 1) (fs_csize f) ltac:(lia)).
  pose proof (Z.div_pos (j - 1) (fs_csize f) ltac:(lia) ltac:(lia)).
  rewrite Hct, u8_id in Hn by lia. destruct (div_step (fs_csize f) j) as [(_ & Hd & Hm)|(Ho & _)]; [lia|lia| |lia].
  rewrite Hd, Z.add_simpl_r. split; [done|]. intros _. split; [lia|done].
Qed.

(** The sector at the first byte of the cluster that was found. *)
Lemma enter_cluster f cl fp : geometry f -> (fp_fptr fp / 512) mod fs_csize f = 0 ->
  let c := nthZ cl (fp_fptr fp / 512 / fs_csize f) in
  entered f cl fp (set_fp_csect (fs_csize f) (set_fp_curr_clust c fp)) (clust_sector f c).
Proof.
  intros Hg Hm c. split; [done|]. split; [done|]. unfold in_sector, file_sector. rewrite Hm. simpl. split_and!; unfold c; try done; lia.
Qed.

Lemma wp_read_next_sector fs f E D cl s fp Q :
  vol fs f E D s -> chain f E cl -> opened fs f cl fp -> at_position f cl fp -> fp_fptr fp mod 512 = 0 -> fp_fptr fp < room f cl ->
  (forall fp' sector s', vol fs f E D s' -> entered f cl fp fp' sector -> Q (Some sector, fp') s') ->
  wp (next_sector fs fp) Q s.
Proof.
  intros Hs Hc Ho Hat Ha Hp HQ. pose proof (vol_geometry _ _ _ _ _ Hs) as Hg. pose proof (op_ptr _ _ _ _ Ho) as Hptr.
  unfold next_sector. destruct (Z.eqb_spec (u8 (fp_csect fp - 1)) 0) as [Hz|Hz]; cbn [negb].
  2:{ wp_simpl. apply HQ; [done|]. change (fp_curr_sect (set_fp_csect _ fp)) with (fp_curr_sect fp). eapply enter_next; [done..|lia|done|done]. }
  destruct (at_cluster_start f cl fp Hg Hat ltac:(lia) Ha Hz) as [Hm Hprev].
  pose proof (position_cluster f cl (fp_fptr fp) Hg ltac:(lia)) as Hr. pose proof (enter_cluster f cl fp Hg Hm) as Hent. simpl in Hent.
  pose proof (ch_range _ _ _ Hc _ Hr) as Hcl. set (c := nthZ cl (fp_fptr fp / 512 / fs_csize f)) in *.
  assert (forall s', vol fs f E D s' ->
     wp (f ← get_fs fs;
         if (c <? 2) || (fs_max_clust f <=? c) then mret (None, set_fp_csect (u8 (fp_csect fp - 1)) fp)
         else sector ← clust2sect fs c; mret (Some sector, set_fp_csect (fs_csize f) (set_fp_curr_clust c fp))) Q s') as Hend.
  { intros s' Hs'. wp_simpl. eapply wp_vol_get_fs; [done|]. unfold cluster in Hcl.
    rewrite (proj2 (Z.ltb_ge c 2)), (proj2 (Z.leb_gt _ _)) by lia. cbn [orb]. wp_simpl.
    eapply wp_clust2sect; [done|done|]. wp_simpl. by apply HQ. }
  cbn [fp_fptr fp_org_clust fp_curr_clust set_fp_csect]. rewrite wp_bind. destruct (Z.eqb_spec (fp_fptr fp) 0) as [Hz0|Hz0].
  - rewrite wp_ret. rewrite (op_clust _ _ _ _ Ho). unfold c in Hend. rewrite Hz0 in Hend. by apply Hend.
  - destruct Hprev as [H1 Hcc]; [lia|]. rewrite Hcc. eapply wp_get_cluster; [done|apply (ch_range _ _ _ Hc); lia|].
    intros s' Hs' _. rewrite (ch_link _ _ _ Hc) by lia. rewrite Z.sub_add. by apply Hend.
Qed.

(** ** Reading *)

Lemma same_file_opened fs f cl fp fp' p : opened fs f cl fp -> same_file fp fp' -> fp_fptr fp' = p -> 0 <= p <= fp_fsize fp -> opened fs f cl fp'.
Proof. intros [] (E1 & E2 & E3 & E4 & _ & _) <- Hp. split; rewrite ?E1, ?E2, ?E3, ?E4; done. Qed.

(** After [n] bytes of the sector or of the sectors from [j] on. *)
Lemma positioned_after f cl fp j : 0 < fp_fptr fp -> (fp_fptr fp - 1) / 512 = j -> in_sector f cl j fp -> positioned f cl fp.
Proof. intros Hp Hj Hin. unfold positioned. rewrite (proj2 (Z.eqb_neq _ 0)) by lia. by rewrite Hj. Qed.

Lemma land_ptr x : Z.land x (SS - 1) = x mod 512.
Proof. apply land_511. Qed.

(** The bytes of whole sectors and of a part of a sector. *)
Lemma whole_bytes f E D cl p n data : geometry f -> chain f E cl -> 0 <= p < room f cl -> p mod 512 = 0 ->
  1 <= n <= fs_csize f - (p / 512) mod fs_csize f -> zlen data = 512 * n ->
  (forall i, 0 <= i < 512 * n -> nthZ data i = nthZ (D (file_sector f cl (p / 512) + i / 512)) (i mod 512)) ->
  data = file_bytes f D cl p (512 * n).
Proof.
  intros Hg Hc Hp Ha Hn Hl Hd. destruct (file_sectors f E cl p n Hg Hc Hp Hn) as (_ & _ & Hs). rewrite <- Hl.
  apply file_bytes_eq. rewrite Hl. intros k Hk. rewrite Hd by done. unfold file_byte.
  assert ((p + k) / 512 = p / 512 + k / 512) as -> by (Z.div_mod_to_equations; lia).
  rewrite Hs by (Z.div_mod_to_equations; lia). f_equal. Z.div_mod_to_equations. lia.
Qed.

Lemma part_bytes f D cl p n : zlen (D (file_sector f cl (p / 512))) = 512 -> 0 <= n -> p mod 512 + n <= 512 ->
  slice (p mod 512) n (D (file_sector f cl (p / 512))) = file_bytes f D cl p n.
Proof.
  intros Hl Hn Hle. pose proof (Z.mod_pos_bound p 512 ltac:(lia)).
  rewrite <- (zlen_slice (p mod 512) n (D (file_sector f cl (p / 512)))) at 2 by lia. apply file_bytes_eq.
  rewrite zlen_slice by lia. intros k Hk. rewrite nthZ_slice by lia. unfold file_byte.
  assert ((p + k) / 512 = p / 512) as -> by (Z.div_mod_to_equations; lia). f_equal. Z.div_mod_to_equations. lia.
Qed.

(** What one pass leaves: [n] bytes further. *)
Definition moved (f : FATFS) (cl : list Z) (fp fp' : file_object) (n : Z) : Prop :=
  same_file fp fp' /\ fp_fptr fp' = fp_fptr fp /\ positioned f cl (set_fp_fptr (fp_fptr fp + n) fp').

Lemma moved_in_sector f cl fp fp' n j : same_file fp fp' -> fp_fptr fp' = fp_fptr fp -> 0 <= fp_fptr fp -> 0 < n ->
  (fp_fptr fp + n - 1) / 512 = j -> in_sector f cl j fp' -> moved f cl fp fp' n.
Proof.
  intros Hs Hp Hp0 Hn Hj Hin. split; [done|]. split; [done|]. eapply positioned_after; [simpl; lia|simpl; done|done].
Qed.

(** Whole sectors from the current one on. *)
Lemma in_sector_skip f E cl fp sector fp' cc : geometry f -> chain f E cl -> 0 <= fp_fptr fp < room f cl -> fp_fptr fp mod 512 = 0 ->
  entered f cl fp fp' sector -> 1 <= cc <= fp_csect fp' ->
  fp_csect fp' = fs_csize f - (fp_fptr fp / 512) mod fs_csize f /\
  moved f cl fp (skip_sectors cc (set_fp_curr_sect sector fp')) (512 * cc).
Proof.
  intros Hg Hc Hp Ha (Hsame & Hptr & -> & Hcl & Hcs & Hct) Hcc. simpl in *.
  pose proof (Z.mod_pos_bound (fp_fptr fp / 512) (fs_csize f) ltac:(pose proof (g_csize f Hg); lia)) as Hm. pose proof (g_csize f Hg).
  destruct (file_sectors f E cl (fp_fptr fp) cc Hg Hc Hp ltac:(lia)) as (Hd & Hcap & Hsec). split; [done|].
  apply moved_in_sector with (j := fp_fptr fp / 512 + (cc - 1)); [done|done|lia|lia|Z.div_mod_to_equations; lia|].
  pose proof (Z.div_pos (fp_fptr fp) 512 ltac:(lia) ltac:(lia)). destruct (div_within (fs_csize f) (fp_fptr fp / 512) (cc - 1)) as [Hd1 Hm1]; [lia|lia|lia|].
  pose proof (capacity_small (drive f)). pose proof (live_range f _ Hg (or_intror Hd)).
  unfold in_sector. simpl. rewrite Hsec by lia. rewrite Hd1, Hm1, Hcl, Hct, u32_id, u8_id by lia. split_and!; [done|lia|lia].
Qed.

Lemma wp_read_part fs f E D cl s fp btr Q :
  vol fs f E D s -> chain f E cl -> opened fs f cl fp -> at_position f cl fp -> 0 < btr -> fp_fptr fp + btr <= room f cl ->
  (forall n fp' s', vol fs f E D s' -> 0 < n <= btr -> moved f cl fp fp' n -> Q (Some (file_bytes f D cl (fp_fptr fp) n), fp') s') ->
  wp (read_part fs fp btr) Q s.
Proof.
  intros Hs Hc Ho Hat Hb Hroom HQ. pose proof (vol_geometry _ _ _ _ _ Hs) as Hg. pose proof (op_ptr _ _ _ _ Ho) as Hptr. pose proof (g_csize f Hg).
  assert (forall fp1 s1, vol fs f E D s1 -> same_file fp fp1 -> fp_fptr fp1 = fp_fptr fp -> in_sector f cl (fp_fptr fp / 512) fp1 ->
     (fp_fptr fp mod 512 = 0 -> btr < 512) ->
     wp (let ofs := Z.land (fp_fptr fp1) (SS - 1) in
         let rcnt := SS - ofs in
         let rcnt := if btr <? rcnt then btr else rcnt in
         ok ← move_fp_window fp1 (fp_curr_sect fp1);
         if negb ok then mret (None, fp1) else bs ← fb_read ofs rcnt; mret (Some bs, fp1)) Q s1) as Hpart.
  { clear s Hs. intros fp1 s Hs Hsame Hp1 Hin Hsmall. cbv zeta. rewrite land_ptr, Hp1. pose proof (Z.mod_pos_bound (fp_fptr fp) 512 ltac:(lia)).
    set (n := if btr <? SS - fp_fptr fp mod 512 then btr else SS - fp_fptr fp mod 512).
    assert (0 < n <= btr /\ fp_fptr fp mod 512 + n <= 512) as [Hn Hn'] by (unfold n, SS; case_bools; lia).
    pose proof (Z.mod_pos_bound (fp_fptr fp / 512) (fs_csize f) ltac:(lia)).
    destruct (file_sectors f E cl (fp_fptr fp) 1 Hg Hc ltac:(lia) ltac:(lia)) as (Hd & _). destruct Hin as (Hcc & Hcs & Hct).
    rewrite wp_bind. apply (wp_move_fp_window fs); [by rewrite (proj1 (proj2 Hsame)), (op_fs _ _ _ _ Ho)|]. rewrite Hcs.
    eapply wp_vol_window; [done|done|]. clear s Hs. intros s Hs Hsh. cbn [negb]. wp_simpl.
    eapply wp_vol_fb_read; [done|done|done|lia|lia|lia|]. wp_simpl. rewrite part_bytes; [|by eapply vol_sector|lia|lia].
    apply HQ; [done|done|]. eapply moved_in_sector; [done|done|lia|lia| |split; [exact Hcc|split; [exact Hcs|exact Hct]]].
    Z.div_mod_to_equations. lia. }
  unfold read_part. rewrite wp_bind, land_ptr. destruct (Z.eqb_spec (fp_fptr fp mod 512) 0) as [Ha|Ha].
  2:{ rewrite wp_ret. apply Hpart; [done|done|done| |done]. destruct Hat as [Hpos|(_ & Hr & _)]; [|done].
      unfold positioned in Hpos. rewrite (proj2 (Z.eqb_neq _ 0)) in Hpos by (intros Hz; by rewrite Hz in Ha).
      replace ((fp_fptr fp - 1) / 512) with (fp_fptr fp / 512) in Hpos by (Z.div_mod_to_equations; lia). done. }
  rewrite wp_bind. eapply wp_read_next_sector; [done|done|done|done|done|lia|]. clear s Hs. intros fp1 sector s Hs Hent.
  cbv iota beta. rewrite wp_bind. apply (wp_move_fp_window fs); [by rewrite (proj1 (proj2 (proj1 Hent))), (op_fs _ _ _ _ Ho)|].
  eapply wp_vol_flush; [done|]. intros s2 Hs2 Hclean. clear Hs. cbn [negb]. cbv zeta.
  destruct (Z.ltb_spec 0 (btr / SS)) as [Hw|Hw]; unfold SS in Hw.
  - set (cc := whole_sectors btr (set_fp_curr_sect sector fp1)).
    pose proof Hent as (_ & _ & Hsec & _ & _ & Hct). simpl in Hct. pose proof (Z.mod_pos_bound (fp_fptr fp / 512) (fs_csize f) ltac:(lia)).
    assert (1 <= cc <= fp_csect fp1 /\ 512 * cc <= btr) as [Hcc Hle].
    { unfold cc, whole_sectors, SS. simpl. case_bools; Z.div_mod_to_equations; lia. }
    destruct (in_sector_skip f E cl fp sector fp1 cc Hg Hc ltac:(lia) Ha Hent Hcc) as [_ Hmoved].
    destruct (file_sectors f E cl (fp_fptr fp) cc Hg Hc ltac:(lia) ltac:(lia)) as (Hd & Hcap & _). rewrite <- Hsec in Hd, Hcap.
    wp_simpl. eapply wp_vol_get_fs; [done|]. wp_simpl. eapply wp_vol_read_direct; [done|by rewrite Hclean|lia|done|lia|].
    intros data s3 Hs3 _ Hl Hdata. cbn [fst snd]. change (RES_OK =? RES_OK) with true. cbn [negb]. wp_simpl.
    replace (take (Z.to_nat (cc * SS)) data) with (file_bytes f D cl (fp_fptr fp) (512 * cc)).
    + apply HQ; [done|lia|done].
    + rewrite take_ge by (unfold zlen, SS in *; lia). symmetry. eapply whole_bytes; [done|done|lia|done|lia|done|]. by rewrite <- Hsec.
  - rewrite wp_ret. destruct Hent as (Hsame & Hp & _ & Hin). apply Hpart; [done|done|done|done|]. intros _. Z.div_mod_to_equations. lia.
Qed.

Lemma wp_validate fs f E D s Q : vol fs f E D s -> Q FR_OK s -> wp (validate (Some fs)) Q s.
Proof.
  intros Hs HQ. unfold validate. wp_simpl. eapply wp_vol_get_fs; [done|].
  assert (fat_type f <> 0) by (destruct (g_fat f (vol_geometry _ _ _ _ _ Hs)) as [(-> & _)|[(-> & _)|(-> & _)]]; done).
  rewrite (proj2 (Z.eqb_neq (fat_type f) 0)) by done. unfold status_of. wp_simpl. unfold id.
  rewrite ready_law by (destruct Hs as (vw & [[] _] & _); done). done.
Qed.

Lemma same_file_trans fp fp1 fp2 : same_file fp fp1 -> same_file fp1 fp2 -> same_file fp fp2.
Proof. unfold same_file. intros. destruct_and!. split_and!; congruence. Qed.

(** The state of a transfer after [n] bytes from the position [p]. *)
Definition transferred (fs : Z) (f : FATFS) (cl : list Z) (fp0 : file_object) (n : Z) (fp : file_object) : Prop :=
  opened fs f cl fp /\ same_file fp0 fp /\ fp_fptr fp = fp_fptr fp0 + n /\ (if n =? 0 then fp = fp0 else positioned f cl fp).

Lemma wp_f_read fs f E D cl s fp btr Q :
  vol fs f E D s -> chain f E cl -> opened fs f cl fp -> at_position f cl fp -> has (fp_flag fp) FA_READ = true -> 0 <= btr < 65536 ->
  (forall fp' s', let n := Z.min btr (fp_fsize fp - fp_fptr fp) in
     vol fs f E D s' -> transferred fs f cl fp n fp' -> Q (FR_OK, file_bytes f D cl (fp_fptr fp) n, fp') s') ->
  wp (f_read fp btr) Q s.
Proof.
  intros Hs Hc Ho Hat Hflag Hb HQ. destruct Ho as [Hfs Herr Hptr Hsize Hroom Hclust] eqn:E0. clear E0. unfold f_read.
  rewrite wp_bind, Hfs. eapply wp_validate; [done|]. change (FR_OK =? FR_OK) with true. cbn [negb]. rewrite Herr, Hflag. cbn [negb].
  rewrite wp_bind, wp_of_option_Some. cbv zeta. rewrite (u32_id (fp_fsize fp - fp_fptr fp)) by lia.
  set (m := Z.min btr (fp_fsize fp - fp_fptr fp)) in *.
  replace (if fp_fsize fp - fp_fptr fp <? btr then u16 (fp_fsize fp - fp_fptr fp) else btr) with m
    by (unfold m; case_bools; [rewrite u16_id by lia|]; lia).
  eapply (wp_loop_ghost (fun n '(fp', btr', got) s' => vol fs f E D s' /\ transferred fs f cl fp n fp' /\ 0 <= n /\ btr' = m - n /\ 0 <= btr' /\
             got = file_bytes f D cl (fp_fptr fp) n) (fun n => Z.to_nat (m - n))).
  2:{ instantiate (1 := 0). split_and!; [done|split_and!; [done|done|lia|done]|lia|lia|lia|done]. }
  2:{ lia. }
  clear s Hs. intros n [[fp1 btr1] got] s (Hs & (Ho1 & Hsame & Hp1 & Hpos) & Hn & -> & Hm & ->).
  destruct (Z.eqb_spec (m - n) 0) as [Hz|Hz].
  - rewrite wp_ret. replace n with m by lia. apply HQ; [done|]. replace m with n by lia. done.
  - assert (at_position f cl fp1) as Hat1 by (destruct (Z.eqb_spec n 0); [by subst|by left]).
    rewrite wp_bind. pose proof Hsame as (_ & _ & Hfsize & _).
    eapply wp_read_part; [done|done|done|done|lia|rewrite Hp1; lia|]. clear s Hs. intros k fp2 s Hs Hk (Hsame2 & Hp2 & Hpos2). rewrite wp_ret.
    rewrite zlen_file_bytes by lia. rewrite Hp2, Hp1 in *. rewrite u32_id by lia.
    exists (n + k). split; [|lia]. split_and!; [done| |lia|lia|lia|by rewrite file_bytes_app by lia].
    split_and!; [|by eapply same_file_trans|simpl; lia|rewrite (proj2 (Z.eqb_neq _ 0)) by lia; done].
    eapply same_file_opened; [done|by eapply same_file_trans|done|simpl; lia].
Qed.
End files.

(** ** ff.c: [f_lseek] inside a file *)

Section seek.
Context `{ReliableDisks}.

(** The file object that [f_lseek] leaves [rel] bytes into the cluster [k]. *)
Definition sought (f : FATFS) (sector csect : Z) (fp : file_object) : file_object :=
  set_fp_csect (u8 (fs_csize f - csect)) (set_fp_curr_sect (u32 (sector + csect)) fp).

Lemma cluster_bytes f : geometry f -> u32 (fs_csize f * SS) = fs_csize f * 512 /\ 512 <= fs_csize f * 512 <= 65536.
Proof. intros Hg. pose proof (g_csize f Hg). unfold SS. rewrite u32_id by lia. lia. Qed.

(** The cluster and the sector of the byte before the position. *)
Lemma position_split n k rel : 0 < n -> 0 <= k -> 0 < rel <= n * 512 ->
  (k * (n * 512) + rel - 1) / 512 / n = k /\ ((k * (n * 512) + rel - 1) / 512) mod n = (rel - 1) / 512.
Proof.
  intros Hn Hk Hrel. assert ((k * (n * 512) + rel - 1) / 512 = n * k + (rel - 1) / 512) as ->.
  { replace (k * (n * 512) + rel - 1) with (rel - 1 + n * k * 512) by lia. rewrite Z.div_add by lia. lia. }
  apply div_mod_unique; [|done]. split; [apply Z.div_pos; lia|apply Z.div_lt_upper_bound; lia].
Qed.

Lemma sought_positioned f E cl fp k rel : geometry f -> chain f E cl -> 0 <= k -> 0 < rel <= fs_csize f * 512 ->
  k * (fs_csize f * 512) + rel <= room f cl -> fp_fptr fp = k * (fs_csize f * 512) + rel -> fp_curr_clust fp = nthZ cl k ->
  positioned f cl (sought f (clust_sector f (nthZ cl k)) (s8_of (u32 (rel - 1) / SS)) fp).
Proof.
  intros Hg Hc Hk Hrel Hroom Hp Hcc. pose proof (g_csize f Hg). destruct (position_split (fs_csize f) k rel) as [Hd Hm]; [lia..|].
  assert (k < zlen cl) by (unfold room in Hroom; nia).
  pose proof (clust_sector_range f _ Hg (ch_range _ _ _ Hc k ltac:(lia))). pose proof (capacity_small (drive f)).
  pose proof (g_fatbase f Hg). pose proof (fat_end f Hg). pose proof (g_sects_fat f Hg).
  assert (0 <= (rel - 1) / 512 < fs_csize f) by (split; [apply Z.div_pos; lia|apply Z.div_lt_upper_bound; lia]).
  assert (s8_of (u32 (rel - 1) / SS) = (rel - 1) / 512) as -> by (unfold SS, s8_of; rewrite u32_id by lia; apply s8_id; lia).
  eapply positioned_after; [simpl; lia|simpl; by rewrite Hp|]. unfold in_sector, file_sector. simpl.
  rewrite Hd, Hm, Hcc, u32_id, u8_id by lia. split_and!; [done|lia|lia].
Qed.

Lemma sought_rewound f E cl fp k : geometry f -> chain f E cl -> 0 < k -> k < zlen cl ->
  fp_fptr fp = k * (fs_csize f * 512) -> fp_curr_clust fp = nthZ cl k ->
  rewound f cl (sought f (clust_sector f (nthZ cl k)) (s8_of (u32 (0 - 1) / SS)) fp).
Proof.
  intros Hg Hc Hk Hkl Hp Hcc. pose proof (g_csize f Hg). change (s8_of (u32 (0 - 1) / SS)) with (-1).
  pose proof (clust_sector_range f _ Hg (ch_range _ _ _ Hc k ltac:(lia))). pose proof (capacity_small (drive f)).
  pose proof (g_fatbase f Hg). pose proof (fat_end f Hg). pose proof (g_sects_fat f Hg).
  assert (fp_fptr fp / 512 = fs_csize f * k /\ fp_fptr fp mod 512 = 0) as [Hd Hm] by (apply div_mod_unique; lia).
  destruct (div_mod_unique (fs_csize f * k) (fs_csize f) k 0) as [Hd2 Hm2]; [lia|lia|].
  unfold rewound. simpl. rewrite Hm, Hd, Hd2, Hm2, Hcc, u32_id, u8_id by lia. rewrite Hp. unfold room. split_and!; try done; nia.
Qed.

(** Following the chain to the cluster of the target. *)
Lemma wp_skip_clusters fs f E D cl s fp target k Q :
  vol fs f E D s -> chain f E cl -> 0 <= k -> k * (fs_csize f * 512) < target <= room f cl -> target < 4294967296 ->
  fp_fptr fp = k * (fs_csize f * 512) ->
  (forall k' fp' s', vol fs f E D s' -> same_file fp fp' -> 0 <= k' -> fp_fptr fp' = k' * (fs_csize f * 512) ->
     0 < target - fp_fptr fp' <= fs_csize f * 512 -> fp_curr_clust fp' = nthZ cl k' -> Q (Some (target - fp_fptr fp'), fp') s') ->
  wp (skip_clusters fs (fs_csize f * 512) (nthZ cl k) fp (target - k * (fs_csize f * 512))) Q s.
Proof.
  intros Hs Hc Hk Ht Htmax Hp HQ. pose proof (vol_geometry _ _ _ _ _ Hs) as Hg. pose proof (g_csize f Hg). set (b := fs_csize f * 512) in *.
  assert (0 < b) by lia. unfold skip_clusters.
  eapply (wp_loop_ghost (fun j '(c, fp', ofs) s' => vol fs f E D s' /\ same_file fp fp' /\ 0 <= j /\ c = nthZ cl j /\ fp_fptr fp' = j * b /\
             ofs = target - j * b /\ 0 < ofs) (fun j => Z.to_nat ((target - j * b) / b))).
  2:{ instantiate (1 := k). split_and!; try done; lia. }
  2:{ lia. }
  clear s Hs. intros j [[c fp1] ofs] s (Hs & Hsame & Hj & -> & Hp1 & -> & Hofs). cbv zeta.
  destruct (Z.leb_spec (target - j * b) b) as [Hle|Hgt].
  { wp_simpl. specialize (HQ j (set_fp_curr_clust (nthZ cl j) fp1) s). simpl in HQ. rewrite Hp1 in HQ. by apply HQ. }
  assert (j + 1 < zlen cl) as Hj1 by (unfold room in Ht; fold b in Ht; nia).
  pose proof (ch_range _ _ _ Hc j ltac:(lia)) as Hcj. pose proof (ch_range _ _ _ Hc (j + 1) ltac:(lia)) as Hcj1.
  pose proof (ch_link _ _ _ Hc j ltac:(lia) Hj1) as Hlink.
  rewrite wp_bind.
  assert (forall s', vol fs f E D s' ->
    wp (f0 ← get_fs fs;
        if nthZ cl (j + 1) =? 0 then mret (inr (Some b, set_fp_curr_clust (nthZ cl j) fp1))
        else if (nthZ cl (j + 1) <? 2) || (fs_max_clust f0 <=? nthZ cl (j + 1)) then mret (inr (None, set_fp_curr_clust (nthZ cl j) fp1))
        else mret (inl (nthZ cl (j + 1), set_fp_fptr (u32 (fp_fptr (set_fp_curr_clust (nthZ cl j) fp1) + b)) (set_fp_curr_clust (nthZ cl j) fp1),
                        target - j * b - b)))
      (fun r s'0 => match r with
                    | inl (c, fp', ofs) => exists g', (vol fs f E D s'0 /\ same_file fp fp' /\ 0 <= g' /\ c = nthZ cl g' /\ fp_fptr fp' = g' * b /\
                        ofs = target - g' * b /\ 0 < ofs) /\ (Z.to_nat ((target - g' * b) / b) < Z.to_nat ((target - j * b) / b))%nat
                    | inr x => Q x s'0
                    end) s') as Hend.
  { intros s' Hs'. wp_simpl. eapply wp_vol_get_fs; [done|]. unfold cluster in Hcj1.
    rewrite (proj2 (Z.eqb_neq _ 0)), (proj2 (Z.ltb_ge _ 2)), (proj2 (Z.leb_gt _ _)) by lia. cbn [orb]. wp_simpl. simpl.
    exists (j + 1). rewrite Hp1, u32_id by nia. split; [split_and!; try done; lia|].
    replace (target - (j + 1) * b) with (target - j * b + (-1) * b) by lia. rewrite Z.div_add by lia.
    assert (1 <= (target - j * b) / b) by (apply Z.div_le_lower_bound; lia). lia. }
  destruct (has (fp_flag (set_fp_curr_clust (nthZ cl j) fp1)) FA_WRITE).
  - eapply wp_create_chain_follow; [done|done|by rewrite Hlink|]. intros s' Hs' _. rewrite Hlink. eapply wp_mono; [by apply Hend|].
    intros [[[? ?] ?]|?] ? ?; done.
  - eapply wp_get_cluster; [done|done|]. intros s' Hs' _. rewrite Hlink. eapply wp_mono; [by apply Hend|].
    intros [[[? ?] ?]|?] ? ?; done.
Qed.

(** Where [seek_to] leaves the file object: [rel] bytes into the cluster [k];
    0 bytes only inside the current cluster. *)
Lemma wp_seek_to fs f E D cl s fp target Q :
  vol fs f E D s -> chain f E cl -> opened fs f cl fp -> positioned f cl fp -> 0 < target <= fp_fsize fp -> target < 4294901760 ->
  (forall k rel fp' s', vol fs f E D s' -> same_file fp fp' -> 0 <= k -> fp_fptr fp' = target -> target = k * (fs_csize f * 512) + rel ->
     0 <= rel <= fs_csize f * 512 -> (rel = 0 -> k * (fs_csize f * 512) < fp_fptr fp) -> fp_curr_clust fp' = nthZ cl k -> Q (Some rel, fp') s') ->
  wp (seek_to fs fp target) Q s.
Proof.
  intros Hs Hc Ho Hpos Ht Htmax HQ. pose proof (vol_geometry _ _ _ _ _ Hs) as Hg. pose proof (g_csize f Hg).
  destruct (cluster_bytes f Hg) as [Hb Hb']. pose proof (op_ptr _ _ _ _ Ho). pose proof (op_size _ _ _ _ Ho). pose proof (op_room _ _ _ _ Ho) as Hroom.
  unfold seek_to. wp_simpl. eapply wp_vol_get_fs; [done|]. rewrite Hb. rewrite (proj2 (Z.eqb_neq (fs_csize f * 512) 0)) by lia.
  set (b := fs_csize f * 512) in *.
  assert (0 < fp_fptr fp -> fp_curr_clust fp = nthZ cl ((fp_fptr fp - 1) / b)) as Hcurr.
  { intros Hp0. unfold positioned in Hpos. rewrite (proj2 (Z.eqb_neq _ 0)) in Hpos by lia. destruct Hpos as (-> & _).
    rewrite Z.div_div by lia. f_equal. f_equal. unfold b. lia. }
  assert (u32 (fp_fptr fp - 1) / b = if fp_fptr fp =? 0 then 4294967295 / b else (fp_fptr fp - 1) / b) as Hprev.
  { destruct (Z.eqb_spec (fp_fptr fp) 0) as [->|]; [done|]. by rewrite u32_id by lia. }
  destruct (Z.eqb_spec (target / b) (u32 (fp_fptr fp - 1) / b)) as [Heq|Hne].
  - wp_simpl. rewrite Hprev in Heq. destruct (Z.eqb_spec (fp_fptr fp) 0) as [Hz|Hz].
    { pose proof (Z.mul_div_le target b ltac:(lia)). pose proof (Z.mul_succ_div_gt 4294967295 b ltac:(lia)). rewrite Heq in *. nia. }
    pose proof (Z.div_mod target b ltac:(lia)). pose proof (Z.mod_pos_bound target b ltac:(lia)).
    apply (HQ (target / b) (target - target / b * b)); try done; try lia.
    + apply Z.div_pos; lia.
    + intros _. rewrite Heq. pose proof (Z.mul_div_le (fp_fptr fp - 1) b ltac:(lia)). lia.
    + simpl. rewrite Heq. apply Hcurr. lia.
  - cbv zeta.
    assert (forall k fp1 s1, vol fs f E D s1 -> same_file fp fp1 -> 0 <= k -> k * b < target -> fp_fptr fp1 = k * b ->
      wp (r ← (if nthZ cl k =? 0 then
           clust ← create_chain fs 0;
           mret (if clust =? 1 then None else Some clust, if clust =? 1 then fp1 else set_fp_org_clust clust fp1)
         else mret (Some (nthZ cl k), fp1));
        match r with
        | (None, fp) => mret (None, fp)
        | (Some clust, fp) =>
            if clust =? 0 then mret (Some (target - k * b), fp)
            else
              r ← skip_clusters fs b clust fp (target - k * b);
              match r with
              | (None, fp) => mret (None, fp)
              | (Some ofs, fp) => mret (Some ofs, set_fp_fptr (u32 (fp_fptr fp + ofs)) fp)
              end
        end) Q s1) as Hend.
    { clear s Hs. intros k fp1 s Hs Hsame Hk Hkt Hp1. assert (k < zlen cl) by (unfold room in Hroom; fold b in Hroom; nia).
      pose proof (ch_range _ _ _ Hc k ltac:(lia)) as Hck. unfold cluster in Hck. rewrite (proj2 (Z.eqb_neq _ 0)) by lia. wp_simpl.
      rewrite (proj2 (Z.eqb_neq _ 0)) by lia. wp_simpl. eapply wp_skip_clusters; [done|done|done|fold b; lia|lia|done|]. fold b.
      clear s Hs. intros k' fp2 s Hs Hsame2 Hk' Hp2 Hrel Hcc. wp_simpl. rewrite Zplus_minus, u32_id by lia.
      apply (HQ k'); try done; try lia. by eapply same_file_trans. }
    destruct (negb (fp_fptr (set_fp_csect 1 fp) =? 0) && (fp_fptr (set_fp_csect 1 fp) <? target)) eqn:Efwd; simpl in Efwd.
    + apply andb_true_iff in Efwd as [E1 E2]. apply negb_true_iff, Z.eqb_neq in E1. apply Z.ltb_lt in E2.
      pose proof (Z.mul_div_le (fp_fptr fp - 1) b ltac:(lia)). pose proof (Z.div_pos (fp_fptr fp - 1) b ltac:(lia) ltac:(lia)).
      simpl. rewrite u32_id by lia. rewrite Hcurr by lia. eapply Hend; [done|done|lia|lia|done].
    + simpl. rewrite (op_clust _ _ _ _ Ho). replace target with (target - 0 * b) by lia. eapply Hend; [done|done|lia|lia|done].
Qed.

Lemma wp_f_lseek fs f E D cl s fp ofs Q :
  vol fs f E D s -> chain f E cl -> opened fs f cl fp -> positioned f cl fp -> 0 <= ofs <= fp_fsize fp -> ofs < 4294901760 ->
  (forall fp' s', vol fs f E D s' -> opened fs f cl fp' -> same_file fp fp' -> fp_fptr fp' = ofs -> at_position f cl fp' -> Q (FR_OK, fp') s') ->
  wp (f_lseek fp ofs) Q s.
Proof.
  intros Hs Hc Ho Hpos Hofs Hmax HQ. pose proof (vol_geometry _ _ _ _ _ Hs) as Hg. pose proof (op_room _ _ _ _ Ho) as Hroom.
  unfold f_lseek. rewrite wp_bind, (op_fs _ _ _ _ Ho). eapply wp_validate; [done|]. change (FR_OK =? FR_OK) with true. cbn [negb].
  rewrite (op_error _ _ _ _ Ho). destruct (Z.eqb_spec (fp_fptr fp) ofs) as [Heq|Hne]; [rewrite wp_ret; apply HQ; try done; by left|].
  wp_simpl. apply (wp_move_fp_window fs); [apply (op_fs _ _ _ _ Ho)|]. eapply wp_vol_flush; [done|]. intros s1 Hs1 _. clear s Hs. cbn [negb].
  rewrite (proj2 (Z.ltb_ge (fp_fsize fp) ofs)) by lia. cbn [andb]. rewrite wp_bind.
  assert (forall fp' s', vol fs f E D s' -> same_file fp fp' -> fp_fptr fp' = ofs -> at_position f cl fp' ->
     Q (FR_OK, if fp_fsize fp' <? fp_fptr fp' then set_fp_flag (Z.lor (fp_flag fp') FA__WRITTEN) (set_fp_fsize (fp_fptr fp') fp') else fp') s') as Hend.
  { intros fp' s' Hs' Hsame Hp' Hat. rewrite (proj2 (Z.ltb_ge _ _)) by (rewrite (proj1 (proj2 (proj2 Hsame))); lia).
    apply HQ; try done. by eapply same_file_opened; [done|done|done|lia]. }
  destruct (Z.eqb_spec ofs 0) as [Hz|Hz].
  - wp_simpl. apply Hend; [done|done|done|]. left. done.
  - wp_simpl. eapply wp_seek_to; [done|done|done|done|lia|done|]. clear s1 Hs1. intros k rel fp1 s1 Hs1 Hsame Hk Hp1 Ht Hrel Hback Hcc.
    wp_simpl. eapply wp_vol_get_fs; [done|]. wp_simpl. rewrite Hcc.
    pose proof (op_ptr _ _ _ _ Ho). pose proof (g_csize f Hg).
    assert (k < zlen cl) as Hkl by (unfold room in Hroom; destruct (decide (rel = 0)); nia).
    eapply wp_clust2sect; [done|by apply (ch_range _ _ _ Hc)|]. wp_simpl.
    apply (Hend (sought f (clust_sector f (nthZ cl k)) (s8_of (u32 (rel - 1) / SS)) fp1)); [done|done|done|].
    destruct (decide (rel = 0)) as [->|].
    + right. eapply sought_rewound; try done; nia.
    + left. eapply sought_positioned; try done; lia.
Qed.
End seek.
