(* ===== verification/FfWriteFacts.v ===== *)
(** * ff.c: [f_write]

    A file that is written over and stretched.  [grown]: the chain has got
    free clusters at its end and every other entry of the FAT is as before.
    [wrote]: the bytes at a position are new, the other bytes of the file and
    all sectors outside the file are as before. *)

From stdpp Require Import functions.
From S2P Require Import Prelude FatFs FfBase FfChain FfMount FfFile FfVolume FfTable FfChainFacts FfFileFacts.

Section growth.
Context `{ReliableDisks}.

(** ** The chain *)

Record grown (f : FATFS) (E : Z -> Z) (cl : list Z) (E' : Z -> Z) (cl' : list Z) : Prop := {
  gr_prefix : exists new, cl' = cl ++ new /\ forall c, c ∈ new -> E c = 0;
  gr_chain : chain f E' cl';
  gr_others : forall c, cluster f c -> c ∉ cl' -> E' c = E c;
  gr_ok : forall c, cluster f c -> E' c <> 1
}.

Lemma elem_nthZ (cl : list Z) c : c ∈ cl <-> exists i, 0 <= i < zlen cl /\ nthZ cl i = c.
Proof.
  split.
  - intros [k Hk]%list_elem_of_lookup. exists (Z.of_nat k). split; [|by apply nthZ_of_lookup].
    apply lookup_lt_Some in Hk. unfold zlen. lia.
  - intros (i & Hi & <-). apply list_elem_of_lookup. exists (Z.to_nat i). by apply nthZ_lookup.
Qed.

Lemma chain_used f E cl c : chain f E cl -> geometry f -> c ∈ cl -> cluster f c /\ 2 <= E c.
Proof.
  intros Hc Hg (i & Hi & <-)%elem_nthZ. pose proof (max_clust_small f Hg). split; [by apply (ch_range _ _ _ Hc)|].
  destruct (decide (i + 1 < zlen cl)).
  - rewrite (ch_link _ _ _ Hc) by lia. apply (ch_range _ _ _ Hc). lia.
  - replace i with (zlen cl - 1) by lia. pose proof (ch_end _ _ _ Hc ltac:(lia)). lia.
Qed.

Lemma chain_ext f E E' cl : chain f E cl -> (forall c, c ∈ cl -> E' c = E c) -> chain f E' cl.
Proof.
  intros [Hr Hlink Hend Hinj] HE. split; try done.
  - intros i Hi Hl. rewrite HE by (apply elem_nthZ; exists i; split; [lia|done]). by apply Hlink.
  - intros Hl. rewrite HE by (apply elem_nthZ; exists (zlen cl - 1); split; [lia|done]). by apply Hend.
Qed.

Lemma nthZ_snoc cl r i : 0 <= i -> nthZ (cl ++ [r]) i = if i =? zlen cl then r else nthZ cl i.
Proof.
  intros Hi. pose proof (zlen_nonneg cl). rewrite nthZ_app by lia. case_bools; try lia; try done.
  - replace (i - zlen cl) with 0 by lia. done.
  - unfold nthZ at 1. rewrite nth_overflow by (simpl; lia). symmetry. unfold nthZ. apply nth_overflow. unfold zlen in *. lia.
Qed.

Lemma chain_stretch f E cl r : geometry f -> chain f E cl -> cluster f r -> E r = 0 ->
  chain f (stretched f E (if zlen cl =? 0 then 0 else nthZ cl (zlen cl - 1)) r) (cl ++ [r]).
Proof.
  intros Hg Hc Hr Hz. pose proof (zlen_nonneg cl) as Hl. pose proof (masked_end f Hg) as Hend.
  assert (forall i, 0 <= i < zlen cl -> nthZ cl i <> r) as Hne.
  { intros i Hi Heq. destruct (chain_used f E cl r Hc Hg) as [_ ?]; [|lia]. apply elem_nthZ. by exists i. }
  assert (forall i, 0 <= i < zlen cl -> nthZ cl i <> 0) as Hn0 by (intros i Hi; pose proof (ch_range _ _ _ Hc i Hi) as [? ?]; lia).
  assert (zlen (cl ++ [r]) = zlen cl + 1) as Hlen by (rewrite zlen_app; done). split; rewrite ?Hlen.
  - intros i Hi. rewrite nthZ_snoc by lia. case_bools; [done|]. apply (ch_range _ _ _ Hc). lia.
  - intros i Hi Hl1. rewrite !nthZ_snoc by lia. rewrite (proj2 (Z.eqb_neq i (zlen cl))) by lia. rewrite (proj2 (Z.eqb_neq (zlen cl) 0)) by lia.
    unfold stretched. rewrite (proj2 (Z.eqb_neq _ 0)) by (apply Hn0; lia). case_bools.
    + replace (zlen cl - 1) with i by lia. by rewrite fn_lookup_insert.
    + rewrite fn_lookup_insert_ne; [rewrite fn_lookup_insert_ne by (intros Heq; by apply (Hne i ltac:(lia))); by apply (ch_link _ _ _ Hc); lia|].
      intros Heq. apply (ch_inj _ _ _ Hc) in Heq; lia.
  - intros _. rewrite Z.add_simpl_r, nthZ_snoc, Z.eqb_refl by lia. unfold stretched.
    destruct (Z.eqb_spec (zlen cl) 0) as [|Hl0]; cbn [Z.eqb]; [by rewrite fn_lookup_insert|].
    rewrite (proj2 (Z.eqb_neq _ 0)) by (apply Hn0; lia). rewrite fn_lookup_insert_ne by (apply Hne; lia). by rewrite fn_lookup_insert.
  - intros i j Hi Hj. rewrite !nthZ_snoc by lia. case_bools; intros Heq; try lia.
    + exfalso. apply (Hne j); [lia|done].
    + exfalso. apply (Hne i); [lia|done].
    + apply (ch_inj _ _ _ Hc); [lia|lia|done].
Qed.

Lemma grown_refl f E cl : chain f E cl -> (forall c, cluster f c -> E c <> 1) -> grown f E cl E cl.
Proof. intros Hc Hok. split; try done. exists []. split; [by rewrite app_nil_r|]. intros c Hin. by apply not_elem_of_nil in Hin. Qed.

Lemma grown_stretch f E cl r : geometry f -> chain f E cl -> (forall c, cluster f c -> E c <> 1) -> cluster f r -> E r = 0 ->
  grown f E cl (stretched f E (if zlen cl =? 0 then 0 else nthZ cl (zlen cl - 1)) r) (cl ++ [r]).
Proof.
  intros Hg Hc Hok Hr Hz. pose proof (zlen_nonneg cl).
  assert (forall c, stretched f E (if zlen cl =? 0 then 0 else nthZ cl (zlen cl - 1)) r c = E c \/ c ∈ cl ++ [r]) as Hst.
  { intros c. unfold stretched. destruct (decide (c = r)) as [->|Hne]; [right; apply elem_of_app; right; by left|].
    destruct (Z.eqb_spec (zlen cl) 0) as [|Hl0]; cbn [Z.eqb]; [left; by rewrite fn_lookup_insert_ne|].
    destruct (Z.eqb_spec (nthZ cl (zlen cl - 1)) 0); [left; by rewrite fn_lookup_insert_ne|].
    destruct (decide (c = nthZ cl (zlen cl - 1))) as [->|].
    - right. apply elem_of_app. left. apply elem_nthZ. exists (zlen cl - 1). split; [lia|done].
    - left. by rewrite !fn_lookup_insert_ne. }
  pose proof (chain_stretch f E cl r Hg Hc Hr Hz) as Hc'. split.
  - exists [r]. split; [done|]. intros c Hin%list_elem_of_singleton. by subst.
  - done.
  - intros c Hcl Hin. by destruct (Hst c).
  - intros c Hcl. destruct (Hst c) as [->|Hin]; [by apply Hok|]. pose proof (chain_used _ _ _ c Hc' Hg Hin). lia.
Qed.

Lemma grown_trans f E cl E1 cl1 E2 cl2 : grown f E cl E1 cl1 -> grown f E1 cl1 E2 cl2 -> grown f E cl E2 cl2.
Proof.
  intros [(n1 & -> & Hn1) Hc1 Ho1 Hk1] [(n2 & -> & Hn2) Hc2 Ho2 Hk2].
  assert (forall c, c ∈ n2 -> c ∉ cl ++ n1 /\ cluster f c) as Hnew.
  { intros c (j & Hj & <-)%elem_nthZ. pose proof (zlen_nonneg (cl ++ n1)). pose proof (zlen_app (cl ++ n1) n2).
    assert (nthZ ((cl ++ n1) ++ n2) (zlen (cl ++ n1) + j) = nthZ n2 j) as Hn.
    { rewrite nthZ_app by lia. rewrite (proj2 (Z.ltb_ge _ _)) by lia. f_equal. lia. }
    split; [|rewrite <- Hn; apply (ch_range _ _ _ Hc2); lia].
    intros (i & Hi & Heq)%elem_nthZ. assert (i = zlen (cl ++ n1) + j); [|lia]. apply (ch_inj _ _ _ Hc2); [lia|lia|].
    rewrite Hn, <- Heq, nthZ_app by lia. by rewrite (proj2 (Z.ltb_lt _ _)) by lia. }
  split.
  - exists (n1 ++ n2). split; [by rewrite app_assoc|]. intros c [?|Hin]%elem_of_app; [by apply Hn1|].
    destruct (Hnew c Hin). rewrite <- Ho1 by done. by apply Hn2.
  - done.
  - intros c Hcl Hin. rewrite Ho2 by done. apply Ho1; [done|]. intros Hin'. apply Hin, elem_of_app. by left.
  - done.
Qed.
End growth.

(** ** The volume after an allocation *)

Section same.
Context `{ReliableDisks}.
Context (f f' : FATFS) (Hsame : same_volume f f').

Lemma same_data_sector sec : data_sector f' sec <-> data_sector f sec.
Proof. destruct Hsame as (? & E1 & ? & E2 & ? & ? & ? & ? & E3 & E4). unfold data_sector. by rewrite E1, E2, E3, E4. Qed.

Lemma same_file_sector cl j : file_sector f' cl j = file_sector f cl j.
Proof. destruct Hsame as (? & ? & ? & ? & ? & E1 & ? & E2 & _). unfold file_sector, clust_sector. by rewrite E1, E2. Qed.

Lemma same_room cl : room f' cl = room f cl.
Proof. destruct Hsame as (? & ? & ? & ? & ? & ? & ? & E2 & _). unfold room. by rewrite E2. Qed.

Lemma same_chain E cl : chain f' E cl <-> chain f E cl.
Proof.
  destruct Hsame as (? & ? & E1 & _). split; intros []; split; try done; unfold cluster in *; rewrite ?E1 in *; done.
Qed.

Lemma same_positioned cl fp : positioned f' cl fp <-> positioned f cl fp.
Proof.
  unfold positioned, in_sector. rewrite same_file_sector. destruct Hsame as (? & ? & ? & ? & ? & ? & ? & E2 & _). by rewrite E2.
Qed.

Lemma same_file_byte D cl i : file_byte f' D cl i = file_byte f D cl i.
Proof. unfold file_byte. by rewrite same_file_sector. Qed.
End same.

Lemma same_volume_sym `{ReliableDisks} f f' : same_volume f f' -> same_volume f' f.
Proof. unfold same_volume. intros. destruct_and!. split_and!; done. Qed.

Lemma same_grown `{ReliableDisks} f f' E cl E' cl' : same_volume f f' -> grown f' E cl E' cl' -> grown f E cl E' cl'.
Proof.
  intros Hs [Hp Hc Ho Hk]. split; [done|by apply (same_chain f f' Hs)| |]; intros c Hcl; [apply Ho|apply Hk]; by apply (same_volume_cluster f f' c Hs).
Qed.

(** ** The bytes *)

Section bytes.
Context `{ReliableDisks}.

Definition wrote (f : FATFS) (D D' : Z -> list Z) (cl : list Z) (p : Z) (bs : list Z) : Prop :=
  (forall i, 0 <= i < room f cl ->
     file_byte f D' cl i = if (p <=? i) && (i <? p + zlen bs) then nthZ bs (i - p) else file_byte f D cl i) /\
  (forall sec, data_sector f sec -> (forall j, 0 <= 512 * j < room f cl -> file_sector f cl j <> sec) -> D' sec = D sec).

(** The buffer shows no sector of the file from the position on. *)
Definition fresh (fs : Z) (f : FATFS) (cl : list Z) (p : Z) (s : fat_state) : Prop :=
  forall j, p <= 512 * j < room f cl -> ~ shows fs (file_sector f cl j) s.

Lemma room_nonneg f cl : geometry f -> 0 <= room f cl.
Proof. intros Hg. pose proof (g_csize f Hg). pose proof (zlen_nonneg cl). unfold room. nia. Qed.

Lemma position_mod f j : geometry f -> 0 <= j -> 0 <= j mod fs_csize f < fs_csize f.
Proof. intros Hg Hj. pose proof (g_csize f Hg). apply Z.mod_pos_bound. lia. Qed.

(** The sectors of a file do not overlap. *)
Lemma file_sector_inj f E cl i j : geometry f -> chain f E cl -> 0 <= 512 * i < room f cl -> 0 <= 512 * j < room f cl ->
  file_sector f cl i = file_sector f cl j -> i = j.
Proof.
  intros Hg Hc Hi Hj. pose proof (g_csize f Hg).
  pose proof (position_cluster f cl (512 * i) Hg Hi) as Ri. pose proof (position_cluster f cl (512 * j) Hg Hj) as Rj.
  rewrite (Z.mul_comm 512), Z.div_mul in Ri, Rj by lia. pose proof (position_mod f i Hg ltac:(lia)). pose proof (position_mod f j Hg ltac:(lia)).
  pose proof (Z.div_mod i (fs_csize f) ltac:(lia)). pose proof (Z.div_mod j (fs_csize f) ltac:(lia)).
  unfold file_sector, clust_sector. intros Heq.
  set (n := fs_csize f) in *. set (a := nthZ cl (i / n) - 2) in *. set (b := nthZ cl (j / n) - 2) in *.
  destruct (div_mod_unique (a * n + i mod n) n a (i mod n)) as [Ha Hm]; [done|lia|].
  destruct (div_mod_unique (a * n + i mod n) n b (j mod n)) as [Hb Hm']; [done|lia|].
  assert (nthZ cl (i / n) = nthZ cl (j / n)) as Hn by lia.
  apply (ch_inj _ _ _ Hc) in Hn; [|done|done]. rewrite Hn in *. lia.
Qed.

Lemma file_sector_data f E cl j : geometry f -> chain f E cl -> 0 <= 512 * j < room f cl -> data_sector f (file_sector f cl j).
Proof.
  intros Hg Hc Hj. destruct (file_sectors f E cl (512 * j) 1 Hg Hc Hj) as (Hd & _).
  - rewrite (Z.mul_comm 512), Z.div_mul by lia. pose proof (position_mod f j Hg ltac:(lia)). lia.
  - by rewrite (Z.mul_comm 512), Z.div_mul in Hd by lia.
Qed.

Lemma byte_position f cl i : geometry f -> 0 <= i < room f cl -> 0 <= 512 * (i / 512) < room f cl.
Proof. intros Hg Hi. Z.div_mod_to_equations. lia. Qed.

(** Bytes stored in the sector of the position. *)
Lemma wrote_part f E D cl p bs : geometry f -> chain f E cl -> 0 <= p < room f cl -> p mod 512 + zlen bs <= 512 ->
  zlen (D (file_sector f cl (p / 512))) = 512 ->
  wrote f D (<[file_sector f cl (p / 512) := splice (p mod 512) bs (D (file_sector f cl (p / 512)))]> D) cl p bs.
Proof.
  intros Hg Hc Hp Hle Hl. pose proof (zlen_nonneg bs). pose proof (Z.mod_pos_bound p 512 ltac:(lia)). split.
  - intros i Hi. unfold file_byte. destruct (decide (i / 512 = p / 512)) as [Heq|Hne].
    + rewrite Heq, fn_lookup_insert, nthZ_splice by (rewrite ?Hl; pose proof (Z.mod_pos_bound i 512); lia).
      case_bools; try (exfalso; Z.div_mod_to_equations; lia); try (f_equal; Z.div_mod_to_equations; lia).
    + rewrite fn_lookup_insert_ne.
      * case_bools; try done. exfalso. Z.div_mod_to_equations. lia.
      * intros Heq. apply Hne. symmetry. eapply file_sector_inj; [done|done| | |done]; by apply byte_position.
  - intros sec Hsec Hj. rewrite fn_lookup_insert_ne; [done|]. apply Hj. by apply byte_position.
Qed.

(** Whole sectors written to the disk. *)
Lemma wrote_whole f E D cl p n bs : geometry f -> chain f E cl -> 0 <= p < room f cl -> p mod 512 = 0 ->
  1 <= n <= fs_csize f - (p / 512) mod fs_csize f -> zlen bs = 512 * n -> p + 512 * n <= room f cl ->
  let sec := file_sector f cl (p / 512) in
  wrote f D (fun x => if (sec <=? x) && (x <? sec + n) then slice (512 * (x - sec)) 512 bs else D x) cl p bs.
Proof.
  intros Hg Hc Hp Ha Hn Hl Hroom sec. destruct (file_sectors f E cl p n Hg Hc Hp Hn) as (_ & _ & Hs). fold sec in Hs.
  assert (forall j, 0 <= 512 * j < room f cl -> sec <= file_sector f cl j < sec + n -> p / 512 <= j < p / 512 + n /\ file_sector f cl j = sec + (j - p / 512)) as Hin.
  { intros j Hj Hr. assert (j = p / 512 + (file_sector f cl j - sec)) as Heq; [|lia].
    eapply file_sector_inj; [done|done|done|Z.div_mod_to_equations; lia|]. rewrite Hs by lia. lia. }
  split.
  - intros i Hi. unfold file_byte. destruct (decide (p / 512 <= i / 512 < p / 512 + n)) as [Hr|Hr].
    + pose proof (Hs (i / 512 - p / 512) ltac:(lia)) as Hsi. replace (p / 512 + (i / 512 - p / 512)) with (i / 512) in Hsi by lia. rewrite Hsi.
      rewrite (proj2 (Z.leb_le _ _)), (proj2 (Z.ltb_lt _ _)) by lia. cbn [andb]. rewrite nthZ_slice by (Z.div_mod_to_equations; lia).
      rewrite (proj2 (Z.leb_le p i)), (proj2 (Z.ltb_lt i _)) by (Z.div_mod_to_equations; lia). cbn [andb]. f_equal. Z.div_mod_to_equations. lia.
    + replace ((p <=? i) && (i <? p + zlen bs)) with false by (symmetry; case_bools; Z.div_mod_to_equations; lia).
      destruct ((sec <=? file_sector f cl (i / 512)) && (file_sector f cl (i / 512) <? sec + n)) eqn:E0; [|done].
      apply andb_true_iff in E0 as [E1%Z.leb_le E2%Z.ltb_lt]. destruct (Hin (i / 512)); [by apply byte_position|lia|lia].
  - intros x Hx Hj. destruct ((sec <=? x) && (x <? sec + n)) eqn:E0; [|done]. apply andb_true_iff in E0 as [E1%Z.leb_le E2%Z.ltb_lt].
    exfalso. apply (Hj (p / 512 + (x - sec))); [Z.div_mod_to_equations; lia|]. rewrite Hs by lia. lia.
Qed.
End bytes.

(** ** One pass of the loop *)

Section passes.
Context `{ReliableDisks}.

(** The handle, whatever the file pointer and the size are. *)
Record handle (fs : Z) (f : FATFS) (cl : list Z) (fp : file_object) : Prop := {
  hd_fs : fp_fs fp = Some fs;
  hd_clust : fp_org_clust fp = nthZ cl 0;
  hd_ptr : 0 <= fp_fptr fp <= room f cl
}.

Definition same_handle (fp fp' : file_object) : Prop :=
  fp_flag fp' = fp_flag fp /\ fp_fs fp' = fp_fs fp /\ fp_fsize fp' = fp_fsize fp /\ fp_dir_sect fp' = fp_dir_sect fp /\
  fp_dir_ptr fp' = fp_dir_ptr fp.

(** The file object at the first byte of a sector that may be new. *)
Record reached (fs : Z) (f : FATFS) (cl : list Z) (fp fp' : file_object) (sector : Z) : Prop := {
  rc_handle : same_handle fp fp';
  rc_clust : fp_org_clust fp' = nthZ cl 0;
  rc_ptr : fp_fptr fp' = fp_fptr fp;
  rc_room : fp_fptr fp < room f cl;
  rc_sector : sector = file_sector f cl (fp_fptr fp / 512);
  rc_in : in_sector f cl (fp_fptr fp / 512) (set_fp_curr_sect sector fp')
}.

(** A sector counter that has not run out is inside the file. *)
Lemma counter_room f cl fp : geometry f -> at_position f cl fp -> 0 <= fp_fptr fp <= room f cl -> fp_fptr fp mod 512 = 0 ->
  u8 (fp_csect fp - 1) <> 0 -> fp_fptr fp < room f cl.
Proof.
  intros Hg [Hpos|((_ & ?) & _)] Hp Ha Hn; [|done]. pose proof (g_csize f Hg). unfold positioned in Hpos.
  destruct (Z.eqb_spec (fp_fptr fp) 0) as [Hz|Hz]; [by rewrite Hpos in Hn|].
  assert ((fp_fptr fp - 1) / 512 = fp_fptr fp / 512 - 1) as Hq by (Z.div_mod_to_equations; lia). rewrite Hq in Hpos. destruct Hpos as (_ & _ & Hct).
  destruct (decide (fp_fptr fp = room f cl)) as [Heq|]; [|lia]. exfalso. apply Hn. rewrite Hct. unfold room in Heq.
  assert (fp_fptr fp / 512 = zlen cl * fs_csize f) as Hj by (rewrite Heq, Z.mul_assoc; apply Z.div_mul; lia). rewrite Hj.
  destruct (div_mod_unique (zlen cl * fs_csize f - 1) (fs_csize f) (zlen cl - 1) (fs_csize f - 1)) as [_ ->]; [lia|lia|].
  by replace (fs_csize f - (fs_csize f - 1) - 1) with 0 by lia.
Qed.

(** The first sector of the next cluster, which may have to be allocated. *)
Lemma wp_next_write_cluster fs f E D cl s fp Q :
  vol fs f E D s -> chain f E cl -> handle fs f cl fp -> at_position f cl fp -> (forall c, cluster f c -> E c <> 1) ->
  fp_fptr fp mod 512 = 0 -> u8 (fp_csect fp - 1) = 0 ->
  (forall s', vol fs f E D s' -> (forall c, cluster f c -> E c <> 0) -> Q (0, fp) s') ->
  (forall f' E' cl' s', vol fs f' E' D s' -> same_volume f f' -> grown f E cl E' cl' -> fp_fptr fp < room f cl' ->
     (in_fat fs f s' \/ s' = s /\ cl' = cl) ->
     Q (nthZ cl' (fp_fptr fp / 512 / fs_csize f), set_fp_org_clust (nthZ cl' 0) fp) s') ->
  wp (next_write_cluster fs fp) Q s.
Proof.
  intros Hs Hc Hh Hat Hok Ha Hct Hfull HQ. pose proof (vol_geometry _ _ _ _ _ Hs) as Hg. destruct Hh as [_ Hclust Hptr].
  destruct (at_cluster_start f cl fp Hg Hat ltac:(lia) Ha Hct) as [Hm Hprev]. pose proof (zlen_nonneg cl) as Hl. pose proof (g_csize f Hg).
  assert (set_fp_org_clust (fp_org_clust fp) fp = fp) as Hid by (by destruct fp).
  pose proof (Z.div_mod (fp_fptr fp) 512 ltac:(lia)). pose proof (Z.div_mod (fp_fptr fp / 512) (fs_csize f) ltac:(lia)).
  set (q := fp_fptr fp / 512 / fs_csize f) in *.
  assert (fp_fptr fp = q * (fs_csize f * 512)) as Hq by lia.
  assert (forall c k, (k = 0 -> c = 0 /\ zlen cl = 0) -> (0 < k -> c = nthZ cl (zlen cl - 1) /\ zlen cl = k) -> k = 0 \/ 0 < k ->
     forall r f' s', cluster f r -> E r = 0 -> vol fs f' (stretched f E c r) D s' -> same_volume f f' -> in_fat fs f s' -> q = k ->
     Q (r, set_fp_org_clust (nthZ (cl ++ [r]) 0) fp) s') as Hnew.
  { intros c k Hk0 Hk1 Hk r f' s' Hr Hz Hs' Hsame Hf Hqk. rewrite <- Hqk in *. clear Hqk k.
    assert (c = if zlen cl =? 0 then 0 else nthZ cl (zlen cl - 1)) as -> by (destruct (Z.eqb_spec (zlen cl) 0); destruct Hk; naive_solver lia).
    assert (zlen cl = q) as Hlq by (destruct Hk; naive_solver lia).
    replace r with (nthZ (cl ++ [r]) q) at 1 by (rewrite nthZ_snoc, Hlq, Z.eqb_refl by lia; done).
    eapply HQ; [done|done|by apply grown_stretch| |by left]. unfold room. rewrite zlen_app. change (zlen [r]) with 1. nia. }
  unfold next_write_cluster. destruct (Z.eqb_spec (fp_fptr fp) 0) as [Hz0|Hz0].
  - assert (q = 0) as Hq0 by nia. destruct (Z.eqb_spec (fp_org_clust fp) 0) as [Hno|Hyes].
    + assert (zlen cl = 0) as Hl0.
      { destruct (decide (zlen cl = 0)); [done|]. pose proof (ch_range _ _ _ Hc 0 ltac:(lia)) as [? _]. lia. }
      rewrite wp_bind. eapply wp_create_chain_new; [done|done| |].
      * intros s' Hs' Hall. rewrite wp_ret. rewrite <- Hno at 2. rewrite Hid. by apply Hfull.
      * intros r f' s' Hr Hz Hs' Hsame Hf _ _. rewrite wp_ret.
        replace r with (nthZ (cl ++ [r]) 0) at 2 by (rewrite nthZ_snoc, Hl0 by lia; done).
        apply (Hnew 0 0) with f'; try done; lia.
    + rewrite wp_ret. assert (0 < zlen cl) by (destruct (decide (zlen cl = 0)); [exfalso; apply Hyes; rewrite Hclust; unfold nthZ, zlen in *; by destruct cl|lia]).
      rewrite <- Hid at 2. rewrite Hclust. rewrite <- Hq0 at 1. eapply HQ; [done|done|by apply grown_refl|unfold room; nia|by right].
  - destruct Hprev as [Hq1 Hcc]; [lia|]. rewrite wp_bind. unfold room in Hptr.
    assert (q <= zlen cl) as Hql by nia. rewrite Hcc.
    assert (cluster f (nthZ cl (q - 1))) as Hcl by (apply (ch_range _ _ _ Hc); lia).
    destruct (decide (q = zlen cl)) as [Heq|Hne].
    + eapply wp_create_chain_extend; [done|done|done| | |].
      * rewrite Heq. apply (ch_end _ _ _ Hc). lia.
      * intros s' Hs' Hall. rewrite wp_ret. by apply Hfull.
      * intros r f' s' Hr Hz Hs' Hsame Hf _ _. rewrite wp_ret.
        replace fp with (set_fp_org_clust (nthZ (cl ++ [r]) 0) fp).
        -- apply (Hnew (nthZ cl (q - 1)) q) with f'; try done; try lia. intros _. split; [by rewrite Heq|done].
        -- rewrite nthZ_snoc by lia. rewrite (proj2 (Z.eqb_neq 0 _)) by lia. by rewrite <- Hclust.
    + assert (E (nthZ cl (q - 1)) = nthZ cl q) as Hlink by (rewrite (ch_link _ _ _ Hc) by lia; f_equal; lia).
      eapply wp_create_chain_follow; [done|done|rewrite Hlink; apply (ch_range _ _ _ Hc); lia|].
      intros s' Hs' Hf. rewrite wp_ret, Hlink. rewrite <- Hid, Hclust. eapply HQ; [done|done|by apply grown_refl|unfold room; nia|by left].
Qed.

Lemma wp_write_sector fs f E D cl s fp Q :
  vol fs f E D s -> chain f E cl -> handle fs f cl fp -> at_position f cl fp -> (forall c, cluster f c -> E c <> 1) ->
  fp_fptr fp mod 512 = 0 ->
  (forall s', vol fs f E D s' -> (forall c, cluster f c -> E c <> 0) -> Q (None, set_fp_csect 0 fp) s') ->
  (forall f' E' cl' fp' sector s', vol fs f' E' D s' -> same_volume f f' -> grown f E cl E' cl' -> reached fs f cl' fp fp' sector ->
     (in_fat fs f s' \/ s' = s /\ cl' = cl) -> Q (Some (Some sector), fp') s') ->
  wp (let csect := u8 (fp_csect fp - 1) in
      if negb (csect =? 0) then mret (Some (Some (u32 (fp_curr_sect fp + 1))), set_fp_csect csect fp)
      else
        r ← next_write_cluster fs fp;
        let '(clust, fp) := r in
        f ← get_fs fs;
        let fp := set_fp_csect csect fp in
        if clust =? 0 then mret (None, fp)
        else if (clust =? 1) || (fs_max_clust f <=? clust) then mret (Some None, fp)
        else
          sector ← clust2sect fs clust;
          mret (Some (Some sector), set_fp_csect (fs_csize f) (set_fp_curr_clust clust fp))) Q s.
Proof.
  intros Hs Hc Hh Hat Hok Ha Hfull HQ. pose proof (vol_geometry _ _ _ _ _ Hs) as Hg. cbv zeta.
  destruct (Z.eqb_spec (u8 (fp_csect fp - 1)) 0) as [Hz|Hz]; cbn [negb].
  - rewrite wp_bind. rewrite Hz. eapply wp_next_write_cluster; [done..| |].
    + intros s' Hs' Hall. cbn [Z.eqb]. wp_simpl. eapply wp_vol_get_fs; [done|]. wp_simpl. by apply Hfull.
    + intros f' E' cl' s' Hs' Hsame Hgrown Hroom Hwin. pose proof (hd_ptr _ _ _ _ Hh).
      pose proof (ch_range _ _ _ (gr_chain _ _ _ _ _ Hgrown) _ (position_cluster f cl' (fp_fptr fp) Hg ltac:(lia))) as Hcl.
      wp_simpl. eapply wp_vol_get_fs; [done|]. pose proof Hsame as (_ & _ & Hmax & _ & _ & Hdb & _ & Hcs & _). rewrite Hmax, Hcs.
      pose proof Hcl as Hcl'. unfold cluster in Hcl'.
      rewrite (proj2 (Z.eqb_neq _ 0)), (proj2 (Z.eqb_neq _ 1)), (proj2 (Z.leb_gt _ _)) by lia. cbn [orb]. wp_simpl.
      eapply wp_clust2sect; [done|by apply (same_volume_cluster f f' _ Hsame)|]. wp_simpl.
      eapply HQ; [done|done|done| |done].
      destruct (at_cluster_start f cl fp Hg Hat ltac:(lia) Ha Hz) as [Hm _].
      destruct (enter_cluster f cl' fp Hg Hm) as (_ & _ & Hsec & Hin). simpl in Hsec, Hin.
      unfold clust_sector in *. rewrite Hcs, Hdb. by split.
  - rewrite wp_ret. pose proof (hd_ptr _ _ _ _ Hh). pose proof (counter_room f cl fp Hg Hat ltac:(lia) Ha Hz) as Hroom.
    destruct (enter_next f E cl fp Hg Hc Hat ltac:(lia) Ha Hz) as (Hsame & Hptr & Hsec & Hin).
    apply (HQ f E cl); [done|done|by apply grown_refl| |by right].
    split; try done. apply (hd_clust _ _ _ _ Hh).
Qed.

Lemma in_fat_fresh fs f E cl p s : geometry f -> chain f E cl -> 0 <= p -> in_fat fs f s -> fresh fs f cl p s.
Proof.
  intros Hg Hc Hp (sec & [Hfs Hsec] & [? ?]) j Hj [_ Hsh]. pose proof (file_sector_data f E cl j Hg Hc ltac:(lia)) as [? _].
  pose proof (fat_end f Hg). lia.
Qed.

Lemma entry_view_ext f vw vw' c : geometry f -> cluster f c -> (forall sec, fat_sector f sec -> vw' sec = vw sec) -> entry f vw' c = entry f vw c.
Proof.
  intros Hg Hc Hv. assert (forall i, 0 <= i < 512 * sects_fat f -> fat_byte f vw' i = fat_byte f vw i) as Hb.
  { intros i Hi. unfold fat_byte. by rewrite Hv by (by apply fat_byte_sector). }
  unfold entry. destruct (g_fat f Hg) as [(Ht & _)|[(Ht & _)|(Ht & _)]]; rewrite Ht; cbn [Z.eqb Pos.eqb FS_FAT12 FS_FAT16 FS_FAT32].
  - destruct (fat12_range f c Hg Ht Hc) as (_ & H1 & H2 & _). by rewrite !Hb by lia.
  - destruct (fat16_range f c Hg Ht Hc) as (H1 & H2 & _). by rewrite !Hb by lia.
  - destruct (fat32_range f c Hg Ht Hc) as (H1 & H2 & _). by rewrite !Hb by lia.
Qed.

Lemma wp_vol_store fs f E D s sec p bs {A} (k : fat A) Q :
  vol fs f E D s -> shows fs sec s -> data_sector f sec -> 0 <= p -> p + zlen bs <= 512 -> bytes bs ->
  (forall s', vol fs f E (<[sec := splice p bs (D sec)]> D) s' -> shows fs sec s' -> wp k Q s') ->
  wp (fb_put p bs) (fun _ s' => wp (fb_dirty;; k) Q s') s.
Proof.
  intros Hv Hsh Hsec Hp Hle Hb HQ. pose proof (vol_geometry _ _ _ _ _ Hv) as Hg. destruct Hv as (vw & Hs & HE & HD).
  eapply wp_store; [done|done|by right|done|done|done|]. intros s' Hs' Hsh'. apply HQ; [|done]. eexists. split; [done|]. split.
  - intros c Hc. rewrite (entry_view_ext f vw) by (try done; intros x [_ ?]; destruct Hsec as [? _]; pose proof (fat_end f Hg); by rewrite fn_lookup_insert_ne by lia).
    by apply HE.
  - intros x Hx. destruct (decide (x = sec)) as [->|]; [by rewrite !fn_lookup_insert, HD|]. rewrite !fn_lookup_insert_ne by done. by apply HD.
Qed.

Lemma wp_vol_write_direct fs f E D s sec n data Q :
  vol fs f E D s -> buf_dirty (static_buf s) = false -> 0 <= n -> data_sector f sec -> sec + n <= capacity (drive f) ->
  zlen data = 512 * n -> bytes data -> (forall i, 0 <= i < n -> ~ shows fs (sec + i) s) ->
  (forall s', vol fs f E (fun x => if (sec <=? x) && (x <? sec + n) then slice (512 * (x - sec)) 512 data else D x) s' ->
     static_buf s' = static_buf s -> Q RES_OK s') ->
  wp (write_sectors (drive f) data sec n) Q s.
Proof.
  intros Hv Hd Hn Hsec Hle Hl Hb Hw HQ. pose proof (vol_geometry _ _ _ _ _ Hv) as Hg. destruct Hv as (vw & Hs & HE & HD).
  eapply wp_write_direct; [done..| |].
  - intros Hfs Hr. apply (Hw (sect (static_buf s) - sec)); [lia|]. split; [done|lia].
  - intros s' Hs' Hb'. apply HQ; [|done]. eexists. split; [done|]. split.
    + intros c Hc. rewrite (entry_view_ext f vw); [by apply HE|done|done|]. intros x [_ ?]. destruct Hsec as [? _]. pose proof (fat_end f Hg).
      by rewrite (proj2 (Z.leb_gt sec x)) by lia.
    + intros x Hx. cbv beta. destruct ((sec <=? x) && (x <? sec + n)); [done|by apply HD].
Qed.

(** What a pass that stored [n] bytes leaves. *)
Record stored (fs : Z) (f : FATFS) (E : Z -> Z) (D : Z -> list Z) (cl : list Z) (fp : file_object) (bs : list Z)
    (f' : FATFS) (E' : Z -> Z) (D' : Z -> list Z) (cl' : list Z) (fp' : file_object) (s' : fat_state) : Prop := {
  st_vol : vol fs f' E' D' s';
  st_same : same_volume f f';
  st_grown : grown f E cl E' cl';
  st_wrote : wrote f D D' cl' (fp_fptr fp) bs;
  st_room : fp_fptr fp + zlen bs <= room f cl';
  st_handle : same_handle fp fp';
  st_clust : fp_org_clust fp' = nthZ cl' 0;
  st_ptr : fp_fptr fp' = fp_fptr fp;
  st_pos : positioned f cl' (set_fp_fptr (fp_fptr fp + zlen bs) fp');
  st_fresh : fresh fs f cl' (fp_fptr fp + zlen bs) s'
}.

Lemma wp_store_part fs f E D cl s fp wbuff f1 E1 cl1 fp1 Q :
  vol fs f1 E1 D s -> same_volume f f1 -> geometry f -> grown f E cl E1 cl1 -> fp_fs fp = Some fs -> 0 <= fp_fptr fp < room f cl1 ->
  same_handle fp fp1 -> fp_org_clust fp1 = nthZ cl1 0 -> fp_fptr fp1 = fp_fptr fp -> in_sector f cl1 (fp_fptr fp / 512) fp1 ->
  0 < zlen wbuff -> bytes wbuff ->
  (forall n f' E' D' cl' fp' s', stored fs f E D cl fp (take (Z.to_nat n) wbuff) f' E' D' cl' fp' s' -> 0 < n <= zlen wbuff ->
     Q (Some (Some n), fp') s') ->
  wp (let ofs := Z.land (fp_fptr fp1) (SS - 1) in
      let wcnt := SS - ofs in
      let wcnt := if zlen wbuff <? wcnt then zlen wbuff else wcnt in
      ok ← move_fp_window fp1 (fp_curr_sect fp1);
      if negb ok then mret (Some None, fp1)
      else fb_put ofs (take (Z.to_nat wcnt) wbuff);; fb_dirty;; mret (Some (Some wcnt), fp1)) Q s.
Proof.
  intros Hs Hsame Hg Hgrown Hfs Hp Hh Hclust Hptr Hin Hl Hb HQ. cbv zeta. rewrite land_ptr, Hptr.
  pose proof (Z.mod_pos_bound (fp_fptr fp) 512 ltac:(lia)). pose proof (gr_chain _ _ _ _ _ Hgrown) as Hc.
  set (n := if zlen wbuff <? SS - fp_fptr fp mod 512 then zlen wbuff else SS - fp_fptr fp mod 512).
  assert (0 < n <= zlen wbuff /\ fp_fptr fp mod 512 + n <= 512) as [Hn Hn'] by (unfold n, SS; case_bools; lia).
  pose proof (zlen_take n wbuff ltac:(lia)) as Hlt. pose proof Hin as (_ & Hcs & _). rewrite Hcs.
  pose proof (byte_position f cl1 _ Hg Hp) as Hj. pose proof (file_sector_data f E1 cl1 _ Hg Hc Hj) as Hd. rewrite wp_bind.
  apply (wp_move_fp_window fs); [by rewrite (proj1 (proj2 Hh))|]. eapply wp_vol_window; [done|by apply (same_data_sector f f1)|].
  clear s Hs. intros s Hs Hsh. cbn [negb]. rewrite wp_bind.
  destruct (vol_sector _ _ _ _ _ _ Hs (proj2 (same_data_sector f f1 Hsame _) Hd)) as [Hlen _].
  eapply wp_vol_store; [done|done|by apply (same_data_sector f f1)|lia|lia|by apply Forall_take|].
  clear s Hs Hsh. intros s Hs Hsh. rewrite wp_ret. eapply (HQ n f1 E1 _ cl1 fp1); [|done].
  pose proof (room_nonneg f cl1 Hg). assert (fp_fptr fp + n <= room f cl1).
  { assert (room f cl1 mod 512 = 0) by (unfold room; rewrite Z.mul_assoc; apply Z.mod_mul; lia). Z.div_mod_to_equations. lia. }
  split; try done; rewrite ?Hlt; try done.
  - eapply wrote_part; [done|done|done|lia|done].
  - eapply positioned_after; [simpl; lia| |exact Hin]. simpl. Z.div_mod_to_equations. lia.
  - intros j Hjr [_ Hsh']. destruct Hsh as [_ Hsh]. rewrite Hsh in Hsh'.
    apply (file_sector_inj f E1 cl1) in Hsh'; [|done|done|done|lia]. Z.div_mod_to_equations. lia.
Qed.

Lemma wp_write_part fs f E D cl s fp wbuff Q :
  vol fs f E D s -> chain f E cl -> handle fs f cl fp -> at_position f cl fp -> (forall c, cluster f c -> E c <> 1) ->
  0 < zlen wbuff -> bytes wbuff -> zlen wbuff < 512 \/ fresh fs f cl (fp_fptr fp) s ->
  (forall fp' s', vol fs f E D s' -> (forall c, cluster f c -> E c <> 0) -> same_handle fp fp' -> fp_org_clust fp' = fp_org_clust fp ->
     fp_fptr fp' = fp_fptr fp -> Q (None, fp') s') ->
  (forall n f' E' D' cl' fp' s', stored fs f E D cl fp (take (Z.to_nat n) wbuff) f' E' D' cl' fp' s' -> 0 < n <= zlen wbuff ->
     Q (Some (Some n), fp') s') ->
  wp (write_part fs fp wbuff) Q s.
Proof.
  intros Hs Hc Hh Hat Hok Hl Hb Hfresh Hfull HQ. pose proof (vol_geometry _ _ _ _ _ Hs) as Hg. pose proof (hd_ptr _ _ _ _ Hh) as Hp.
  pose proof (hd_fs _ _ _ _ Hh) as Hfs. pose proof (g_csize f Hg). unfold write_part. rewrite wp_bind, land_ptr.
  destruct (Z.eqb_spec (fp_fptr fp mod 512) 0) as [Ha|Ha].
  2:{ rewrite wp_ret. destruct Hat as [Hpos|(_ & Hr & _)]; [|done].
      assert (fp_fptr fp < room f cl).
      { assert (room f cl mod 512 = 0) by (unfold room; rewrite Z.mul_assoc; apply Z.mod_mul; lia). Z.div_mod_to_equations. lia. }
      eapply (wp_store_part fs f E D cl); try done; [by apply grown_refl|lia|apply (hd_clust _ _ _ _ Hh)|].
      unfold positioned in Hpos. rewrite (proj2 (Z.eqb_neq _ 0)) in Hpos by (intros Hz; by rewrite Hz in Ha).
      replace ((fp_fptr fp - 1) / 512) with (fp_fptr fp / 512) in Hpos by (Z.div_mod_to_equations; lia). done. }
  rewrite wp_bind. eapply wp_write_sector; [done..| |].
  { intros s' Hs' Hall. cbv iota beta. rewrite wp_ret. cbv iota beta. rewrite wp_ret. by apply Hfull. }
  intros f1 E1 cl1 fp1 sector s1 Hs1 Hsame Hgrown [Hrh Hrc Hrp Hrr Hrs Hri] Hwin. cbv iota beta.
  assert (zlen wbuff < 512 \/ fresh fs f cl1 (fp_fptr fp) s1) as Hfresh1.
  { destruct Hwin as [Hf|[-> ->]]; [right|done]. eapply in_fat_fresh; [done|by apply (gr_chain _ _ _ _ _ Hgrown)|lia|done]. }
  rewrite wp_bind. apply (wp_move_fp_window fs); [by rewrite (proj1 (proj2 Hrh))|].
  eapply wp_vol_flush; [done|]. intros s2 Hs2 Hclean. cbn [negb]. cbv zeta.
  destruct (Z.ltb_spec 0 (zlen wbuff / SS)) as [Hw|Hw]; unfold SS in Hw.
  2:{ rewrite wp_ret. eapply (wp_store_part fs f E D cl); try done; lia. }
  destruct Hfresh1 as [Hsmall|Hfresh1]; [exfalso; Z.div_mod_to_equations; lia|].
  set (cc := whole_sectors (zlen wbuff) (set_fp_curr_sect sector fp1)).
  pose proof Hri as (_ & _ & Hct). simpl in Hct. pose proof (position_mod f (fp_fptr fp / 512) Hg (Z.div_pos (fp_fptr fp) 512 ltac:(lia) ltac:(lia))) as Hm.
  assert (1 <= cc <= fs_csize f - (fp_fptr fp / 512) mod fs_csize f /\ 512 * cc <= zlen wbuff) as [Hcc Hle].
  { unfold cc, whole_sectors, SS. simpl. rewrite Hct. clear -Hm Hw Hl. set (r := _ mod _) in *. clearbody r.
    case_bools; Z.div_mod_to_equations; lia. }
  pose proof (gr_chain _ _ _ _ _ Hgrown) as Hc1.
  destruct (file_sectors f E1 cl1 (fp_fptr fp) cc Hg Hc1 ltac:(lia) Hcc) as (Hd & Hcap & Hsecs). rewrite <- Hrs in Hd, Hcap, Hsecs.
  assert (fp_fptr fp + 512 * cc <= room f cl1) as Hroom.
  { pose proof (position_cluster f cl1 (fp_fptr fp) Hg ltac:(lia)). pose proof (Z.div_mod (fp_fptr fp) 512 ltac:(lia)).
    pose proof (Z.div_mod (fp_fptr fp / 512) (fs_csize f) ltac:(lia)). unfold room. nia. }
  assert (cc * SS = 512 * cc) as Hss by (unfold SS; lia). fold cc. rewrite !Hss.
  assert (zlen (take (Z.to_nat (512 * cc)) wbuff) = 512 * cc) as Hlt by (rewrite zlen_take; lia).
  wp_simpl. eapply wp_vol_get_fs; [done|]. wp_simpl. pose proof Hsame as (_ & _ & _ & _ & _ & _ & _ & _ & _ & Hdrive).
  eapply wp_vol_write_direct; [done|by rewrite Hclean|lia|by apply (same_data_sector f f1)|by rewrite Hdrive|done|by apply Forall_take| |].
  { intros i Hi [Hf1 Hf2]. rewrite Hclean in Hf1, Hf2. simpl in Hf1, Hf2. rewrite <- Hsecs in Hf2 by done.
    eapply Hfresh1; [|by split]. Z.div_mod_to_equations. lia. }
  intros s3 Hs3 Hb3. change (RES_OK =? RES_OK) with true. cbn [negb]. wp_simpl.
  assert (fp_csect fp1 = fs_csize f - (fp_fptr fp / 512) mod fs_csize f) as Hct' by done.
  eapply (HQ (512 * cc) f1 E1 _ cl1 (skip_sectors cc (set_fp_curr_sect sector fp1))); [|lia]. split; try done; rewrite ?Hlt; try done.
  - assert (0 <= fp_fptr fp < room f cl1) as Hpr by lia.
    pose proof (wrote_whole f E1 D cl1 (fp_fptr fp) cc _ Hg Hc1 Hpr Ha Hcc Hlt Hroom) as Hwr. cbv zeta in Hwr. rewrite <- Hrs in Hwr. exact Hwr.
  - pose proof (capacity_small (drive f)). pose proof (live_range f _ Hg (or_intror Hd)).
    destruct (div_within (fs_csize f) (fp_fptr fp / 512) (cc - 1)) as [Hd1 Hm1]; [lia|Z.div_mod_to_equations; lia|lia|].
    apply positioned_after with (j := fp_fptr fp / 512 + (cc - 1)); [simpl; lia|simpl; Z.div_mod_to_equations; lia|].
    pose proof Hri as (Hcl & _ & _). unfold in_sector. simpl in *. rewrite Hsecs by lia. rewrite Hd1, Hm1, Hcl, Hct, u32_id, u8_id by lia.
    split_and!; [done|lia|lia].
  - intros j Hj Hsh. apply (Hfresh1 j); [lia|]. unfold shows in *. rewrite Hb3, Hclean in Hsh. done.
Qed.
End passes.

(** ** The loop *)

Section writing.
Context `{ReliableDisks}.

Lemma room_sectors f cl : geometry f -> room f cl mod 512 = 0.
Proof. intros Hg. unfold room. rewrite Z.mul_assoc. apply Z.mod_mul. lia. Qed.

Lemma room_app f cl new : geometry f -> room f cl <= room f (cl ++ new).
Proof. intros Hg. pose proof (g_csize f Hg). pose proof (zlen_nonneg new). unfold room. rewrite zlen_app. nia. Qed.

Lemma file_sector_app f cl new j : geometry f -> 0 <= 512 * j < room f cl -> file_sector f (cl ++ new) j = file_sector f cl j.
Proof.
  intros Hg Hj. pose proof (position_cluster f cl (512 * j) Hg Hj) as Hr. rewrite (Z.mul_comm 512), Z.div_mul in Hr by lia.
  unfold file_sector. rewrite nthZ_app by lia. by rewrite (proj2 (Z.ltb_lt _ _)) by lia.
Qed.

Lemma file_byte_app f D cl new i : geometry f -> 0 <= i < room f cl -> file_byte f D (cl ++ new) i = file_byte f D cl i.
Proof. intros Hg Hi. unfold file_byte. by rewrite file_sector_app by (try done; by apply byte_position). Qed.

Lemma wrote_nil f D cl p : wrote f D D cl p [].
Proof. split; [|done]. intros i Hi. rewrite zlen_nil. case_bools; try done; lia. Qed.

Lemma wrote_trans f E2 D D1 D2 cl1 new p b1 b2 : geometry f -> chain f E2 (cl1 ++ new) -> 0 <= p -> p + zlen b1 <= room f cl1 ->
  wrote f D D1 cl1 p b1 -> wrote f D1 D2 (cl1 ++ new) (p + zlen b1) b2 -> wrote f D D2 (cl1 ++ new) p (b1 ++ b2).
Proof.
  intros Hg Hc Hp Hroom [Hb1 Ho1] [Hb2 Ho2]. pose proof (room_app f cl1 new Hg). pose proof (zlen_nonneg b1). pose proof (zlen_nonneg b2).
  pose proof (room_sectors f cl1 Hg). split.
  - intros i Hi. rewrite Hb2 by done. rewrite zlen_app. destruct (Z.leb_spec (p + zlen b1) i) as [Hge|Hlt]; cbn [andb].
    + rewrite (proj2 (Z.leb_le p i)) by lia. cbn [andb]. rewrite Z.add_assoc. case_bools.
      { rewrite nthZ_app by lia. rewrite (proj2 (Z.ltb_ge _ _)) by lia. f_equal. lia. }
      destruct (decide (i < room f cl1)) as [Hin|Hout].
      * rewrite !file_byte_app by (done || lia). rewrite Hb1 by lia. rewrite (proj2 (Z.ltb_ge i _)) by lia. by rewrite andb_false_r.
      * unfold file_byte. f_equal. apply Ho1; [eapply file_sector_data; [done|done|by apply byte_position]|]. intros j Hj Heq.
        rewrite <- (file_sector_app f cl1 new j) in Heq by done.
        eapply file_sector_inj in Heq; [|done|done|lia|by apply byte_position]. Z.div_mod_to_equations. lia.
    + rewrite !file_byte_app by (done || lia). rewrite Hb1 by lia. case_bools; try lia; try done.
      rewrite nthZ_app by lia. by rewrite (proj2 (Z.ltb_lt _ _)) by lia.
  - intros sec Hsec Hj. rewrite Ho2 by done. apply Ho1; [done|]. intros j Hjr. rewrite <- (file_sector_app f cl1 new j) by done. apply Hj. lia.
Qed.

Lemma same_handle_trans fp fp1 fp2 : same_handle fp fp1 -> same_handle fp1 fp2 -> same_handle fp fp2.
Proof. unfold same_handle. intros. destruct_and!. split_and!; congruence. Qed.

Lemma same_fresh fs f f' cl p s : same_volume f f' -> fresh fs f cl p s -> fresh fs f' cl p s.
Proof. intros Hs Hf j Hj. rewrite (same_file_sector f f' Hs). apply Hf. by rewrite <- (same_room f f' Hs). Qed.

Lemma same_grown' f f' E cl E' cl' : same_volume f f' -> grown f E cl E' cl' -> grown f' E cl E' cl'.
Proof. intros Hs. apply same_grown. by apply same_volume_sym. Qed.

Lemma same_wrote f f' D D' cl p bs : same_volume f f' -> wrote f' D D' cl p bs -> wrote f D D' cl p bs.
Proof.
  intros Hs [Hb Ho]. split.
  - intros i Hi. rewrite <- !(same_file_byte f f' Hs). apply Hb. by rewrite (same_room f f' Hs).
  - intros sec Hsec Hj. apply Ho; [by apply (same_data_sector f f' Hs)|]. intros j. rewrite (same_room f f' Hs), (same_file_sector f f' Hs). apply Hj.
Qed.

(** The loop after [n] bytes. *)
Record writing (fs : Z) (f : FATFS) (E : Z -> Z) (D : Z -> list Z) (cl : list Z) (fp0 : file_object) (buff : list Z)
    (n : Z) (cl' : list Z) (E' : Z -> Z) (fp : file_object) (s : fat_state) : Prop := {
  wr_vol : exists f' D', vol fs f' E' D' s /\ same_volume f f' /\ wrote f D D' cl' (fp_fptr fp0) (take (Z.to_nat n) buff);
  wr_grown : grown f E cl E' cl';
  wr_room : fp_fptr fp0 + n <= room f cl';
  wr_handle : same_handle fp0 fp;
  wr_clust : fp_org_clust fp = nthZ cl' 0;
  wr_ptr : fp_fptr fp = fp_fptr fp0 + n;
  wr_n : 0 <= n <= zlen buff
}.

Lemma take_take_drop {A} (l : list A) (n k : Z) : 0 <= n -> 0 <= k -> take (Z.to_nat (n + k)) l = take (Z.to_nat n) l ++ take (Z.to_nat k) (drop (Z.to_nat n) l).
Proof. intros Hn Hk. rewrite Z2Nat.inj_add by done. symmetry. apply take_take_drop. Qed.

Lemma writing_step fs f E D cl fp0 buff n cl1 E1 fp1 s1 f1 D1 k f2 E2 D2 cl2 fp2 s2 : geometry f ->
  writing fs f E D cl fp0 buff n cl1 E1 fp1 s1 -> same_volume f f1 -> wrote f D D1 cl1 (fp_fptr fp0) (take (Z.to_nat n) buff) ->
  0 <= fp_fptr fp0 -> 0 < k <= zlen buff - n -> fp_fptr fp0 + n + k < 4294967296 ->
  stored fs f1 E1 D1 cl1 fp1 (take (Z.to_nat k) (drop (Z.to_nat n) buff)) f2 E2 D2 cl2 fp2 s2 ->
  writing fs f E D cl fp0 buff (n + k) cl2 E2 (set_fp_fptr (u32 (fp_fptr fp2 + k)) fp2) s2 /\
  positioned f cl2 (set_fp_fptr (u32 (fp_fptr fp2 + k)) fp2) /\ fresh fs f cl2 (fp_fptr fp0 + (n + k)) s2.
Proof.
  intros Hg [_ Hgr Hroom Hh Hcl Hptr Hn] Hs1 Hw1 Hp0 Hk Hmax [Hv2 Hs2 Hgr2 Hw2 Hroom2 Hh2 Hcl2 Hptr2 Hpos2 Hfresh2].
  assert (zlen (take (Z.to_nat k) (drop (Z.to_nat n) buff)) = k) as Hlk by (apply zlen_take; unfold zlen in *; rewrite length_drop; lia).
  rewrite Hlk in *. rewrite Hptr2, Hptr, u32_id by lia. rewrite Hptr in *.
  rewrite (same_room f f1 Hs1) in Hroom2. apply (same_positioned f f1 Hs1) in Hpos2. apply (same_grown f f1) in Hgr2; [|done].
  apply (same_fresh fs f1 f) in Hfresh2; [|by apply same_volume_sym]. apply (same_wrote f f1) in Hw2; [|done].
  destruct (gr_prefix _ _ _ _ _ Hgr2) as (new & -> & _).
  split; [split|split].
  - exists f2, D2. split; [done|]. split; [by eapply same_volume_trans|]. rewrite take_take_drop by lia.
    eapply (wrote_trans f E2 D D1 D2 cl1 new); [done|by apply (gr_chain _ _ _ _ _ Hgr2)|done| |done|]; rewrite zlen_take by lia; done.
  - by eapply grown_trans.
  - lia.
  - by eapply same_handle_trans.
  - done.
  - simpl. lia.
  - lia.
  - done.
  - by rewrite Z.add_assoc.
Qed.

Lemma same_at_position f f' cl fp : same_volume f f' -> at_position f cl fp -> at_position f' cl fp.
Proof.
  intros Hs [Hp|Hr]; [left; by apply (same_positioned f f' Hs)|right]. unfold rewound in *. rewrite (same_room f f' Hs).
  destruct Hs as (_ & _ & _ & _ & _ & E1 & _ & E2 & _). unfold clust_sector in *. by rewrite E1, E2.
Qed.

(** The outcome of [f_write] after [n] bytes. *)
Record write_result (fs : Z) (f : FATFS) (E : Z -> Z) (D : Z -> list Z) (cl : list Z) (fp : file_object) (buff : list Z)
    (n : Z) (cl' : list Z) (f' : FATFS) (E' : Z -> Z) (D' : Z -> list Z) (fp' : file_object) (s' : fat_state) : Prop := {
  wt_vol : vol fs f' E' D' s';
  wt_same : same_volume f f';
  wt_grown : grown f E cl E' cl';
  wt_wrote : wrote f D D' cl' (fp_fptr fp) (take (Z.to_nat n) buff);
  wt_opened : opened fs f' cl' fp';
  wt_flag : fp_flag fp' = Z.lor (fp_flag fp) FA__WRITTEN;
  wt_ptr : fp_fptr fp' = fp_fptr fp + n;
  wt_size : fp_fsize fp' = Z.max (fp_fsize fp) (fp_fptr fp + n);
  wt_dir : fp_dir_sect fp' = fp_dir_sect fp /\ fp_dir_ptr fp' = fp_dir_ptr fp;
  wt_n : 0 <= n <= zlen buff;
  wt_full : n < zlen buff -> forall c, cluster f c -> E' c <> 0;
  wt_pos : n = zlen buff -> at_position f' cl' fp' /\ (0 < n -> positioned f' cl' fp')
}.

Lemma has_written x : has (Z.lor x FA__WRITTEN) FA__ERROR = has x FA__ERROR.
Proof. unfold has. rewrite Z.land_lor_distr_l. change (Z.land FA__WRITTEN FA__ERROR) with 0. by rewrite Z.lor_0_r. Qed.

Lemma writing_result fs f E D cl fp buff n cl' E' fp1 s' : opened fs f cl fp -> fp_fptr fp + n < 4294967296 -> geometry f ->
  writing fs f E D cl fp buff n cl' E' fp1 s' -> (n < zlen buff -> forall c, cluster f c -> E' c <> 0) ->
  (n = zlen buff -> at_position f cl' fp1 /\ (0 < n -> positioned f cl' fp1)) ->
  let fp2 := if fp_fsize fp1 <? fp_fptr fp1 then set_fp_fsize (fp_fptr fp1) fp1 else fp1 in
  exists f' D', write_result fs f E D cl fp buff n cl' f' E' D' (set_fp_flag (Z.lor (fp_flag fp2) FA__WRITTEN) fp2) s'.
Proof.
  intros [Hfs Herr Hptr Hsize Hroom Hclust] Hmax Hg [(f' & D' & Hv & Hs & Hw) Hgr Hroom' (Hh1 & Hh2 & Hh3 & Hh4 & Hh5) Hcl Hp Hn] Hfull Hpos fp2.
  destruct (gr_prefix _ _ _ _ _ Hgr) as (new & Hnew & _). pose proof (room_app f cl new Hg) as Hra. rewrite <- Hnew in Hra.
  assert (fp_fsize fp2 = Z.max (fp_fsize fp) (fp_fptr fp + n) /\ fp_fptr fp2 = fp_fptr fp + n /\ same_handle fp (set_fp_fsize (fp_fsize fp) fp2) /\
          fp_org_clust fp2 = fp_org_clust fp1 /\ fp_csect fp2 = fp_csect fp1 /\ fp_curr_clust fp2 = fp_curr_clust fp1 /\
          fp_curr_sect fp2 = fp_curr_sect fp1) as (H1 & H2 & (G1 & G2 & _ & G4 & G5) & H4 & H5 & H6 & H7).
  { unfold fp2, same_handle. destruct (Z.ltb_spec (fp_fsize fp1) (fp_fptr fp1)); simpl; split_and!; try done; try congruence; lia. }
  simpl in G1, G2, G4, G5. exists f', D'. split; simpl; try done.
  - split; simpl; try congruence; rewrite ?has_written, ?(same_room f f' Hs); try lia; congruence.
  - by rewrite G1.
  - intros Heq. destruct (Hpos Heq) as [Hat Hposd].
    assert (positioned f cl' fp1 -> positioned f cl' (set_fp_flag (Z.lor (fp_flag fp2) FA__WRITTEN) fp2)) as Hmap.
    { unfold positioned, in_sector. simpl. by rewrite H2, H5, H6, H7, <- Hp. }
    split; [|intros Hn0; apply (same_positioned f f' Hs); by apply Hmap, Hposd].
    apply (same_at_position f f' _ _ Hs). destruct Hat as [Hp1|Hr]; [left; by apply Hmap|].
    right. unfold rewound in *. simpl. by rewrite H2, H5, H6, H7, <- Hp.
Qed.

Lemma wp_f_write fs f E D cl s fp buff Q :
  vol fs f E D s -> chain f E cl -> opened fs f cl fp -> at_position f cl fp -> (forall c, cluster f c -> E c <> 1) ->
  has (fp_flag fp) FA_WRITE = true -> bytes buff -> zlen buff < 512 \/ fresh fs f cl (fp_fptr fp) s ->
  fp_fsize fp + zlen buff < 4294967296 ->
  (forall n cl' f' E' D' fp' s', write_result fs f E D cl fp buff n cl' f' E' D' fp' s' -> Q (FR_OK, n, fp') s') ->
  wp (f_write fp buff) Q s.
Proof.
  intros Hs Hc Ho Hat Hok Hflag Hb Hfresh Hmax HQ. pose proof (vol_geometry _ _ _ _ _ Hs) as Hg. pose proof Ho as [Hfs Herr Hptr Hsize Hroom Hclust].
  pose proof (zlen_nonneg buff). unfold f_write. rewrite wp_bind, Hfs. eapply wp_validate; [done|].
  change (FR_OK =? FR_OK) with true. cbn [negb]. rewrite Herr, Hflag. cbn [negb]. rewrite (u32_id (fp_fsize fp + zlen buff)) by lia.
  rewrite (proj2 (Z.ltb_ge _ _)) by lia. rewrite wp_bind, wp_of_option_Some. cbv zeta.
  eapply (wp_loop_ghost (fun '(n, cl1, E1) '(fp1, wbuff, bw) s1 => writing fs f E D cl fp buff n cl1 E1 fp1 s1 /\
            wbuff = drop (Z.to_nat n) buff /\ bw = n /\ (at_position f cl1 fp1 /\ (0 < n -> positioned f cl1 fp1)) /\
            (zlen buff - n < 512 \/ fresh fs f cl1 (fp_fptr fp + n) s1)) (fun '(n, _, _) => Z.to_nat (zlen buff - n))).
  2:{ instantiate (1 := (0, cl, E)). split_and!; try done; [|rewrite Z.sub_0_r, Z.add_0_r; done]. split; try done; try lia.
      - exists f, D. split_and!; [done|done|]. simpl. apply wrote_nil.
      - by apply grown_refl. }
  2:{ unfold zlen. lia. }
  clear s Hs Hfresh. intros [[n cl1] E1] [[fp1 wbuff] bw] s (Hw & -> & -> & [Hat1 Hpos1] & Hfresh). pose proof (wr_n _ _ _ _ _ _ _ _ _ _ _ _ Hw) as Hn.
  assert (zlen (drop (Z.to_nat n) buff) = zlen buff - n) as Hrest by (unfold zlen in *; rewrite length_drop; lia). rewrite Hrest.
  assert (forall fp2 s2, writing fs f E D cl fp buff n cl1 E1 fp2 s2 -> (n < zlen buff -> forall c, cluster f c -> E1 c <> 0) ->
     (n = zlen buff -> at_position f cl1 fp2 /\ (0 < n -> positioned f cl1 fp2)) ->
     Q (let fp := if fp_fsize fp2 <? fp_fptr fp2 then set_fp_fsize (fp_fptr fp2) fp2 else fp2 in
        (FR_OK, n, set_fp_flag (Z.lor (fp_flag fp) FA__WRITTEN) fp)) s2) as Hend.
  { intros fp2 s2 Hw2 Hf2 Hp2. destruct (writing_result fs f E D cl fp buff n cl1 E1 fp2 s2 Ho ltac:(lia) Hg Hw2 Hf2 Hp2) as (f' & D' & Hres). by eapply HQ. }
  destruct (Z.eqb_spec (zlen buff - n) 0) as [Hz|Hz]; [rewrite wp_ret; apply Hend; [done|lia|done]|].
  pose proof Hw as [(f1 & D1 & Hv1 & Hs1 & Hw1) Hgr Hroom1 Hh1 Hcl1 Hp1 _]. pose proof (vol_geometry _ _ _ _ _ Hv1) as Hg1.
  pose proof (same_volume_sym f f1 Hs1) as Hs1'. rewrite wp_bind. eapply wp_write_part.
  - done.
  - apply (same_chain f f1 Hs1). by apply (gr_chain _ _ _ _ _ Hgr).
  - split; [by rewrite (proj1 (proj2 Hh1))|done|rewrite (same_room f f1 Hs1); lia].
  - by apply (same_at_position f f1).
  - intros c Hc1. apply (gr_ok _ _ _ _ _ Hgr). by apply (same_volume_cluster f f1 c Hs1).
  - lia.
  - by apply Forall_drop.
  - rewrite Hrest. destruct Hfresh as [|Hfresh]; [left; lia|right]. rewrite Hp1. by apply (same_fresh fs f f1).
  - intros fp2 s2 Hs2 Hall Hh2 Hcl2 Hp2. rewrite wp_ret. apply Hend; [|intros _ c Hc1; apply Hall; by apply (same_volume_cluster f f1 c Hs1)|lia].
    split; [by exists f1, D1|done|done|by eapply same_handle_trans|by rewrite Hcl2|by rewrite Hp2|done].
  - intros k f2 E2 D2 cl2 fp2 s2 Hst Hk. rewrite wp_ret. rewrite Hrest in Hk.
    destruct (writing_step _ _ _ _ _ _ _ _ _ _ _ _ _ _ k _ _ _ _ _ _ Hg Hw Hs1 Hw1 ltac:(lia) ltac:(lia) ltac:(lia) Hst) as (Hw' & Hpos & Hf').
    exists (n + k, cl2, E2). split; [|lia]. split_and!; [done| |done|by left|done|by right].
    rewrite drop_drop. f_equal. lia.
Qed.
End writing.
