(* ===== verification/FfTheorems.v ===== *)
(** * ff.c: theorems

    On a disk without defects the FAT behaves as a function of the cluster,
    chains are freed and stretched as a whole, and an open file behaves as a
    string of bytes with a position.  The witnesses use a small FAT12 disk
    that [f_mount] mounts and [f_open] opens a file of. *)

From stdpp Require Import functions gmap.
From S2P Require Import Prelude FatFs FfBase FfChain FfMount FfFile FfVolume FfTable FfChainFacts FfFileFacts FfWriteFacts.

Section contents.
Context `{ReliableDisks}.

(** The bytes of an open file. *)
Definition contents_of (f : FATFS) (D : Z -> list Z) (cl : list Z) (fp : file_object) : list Z := file_bytes f D cl 0 (fp_fsize fp).

Lemma slice_contents f D cl n p m : 0 <= p -> 0 <= m -> p + m <= n -> slice p m (file_bytes f D cl 0 n) = file_bytes f D cl p m.
Proof.
  intros Hp Hm Hle. apply nthZ_ext; [rewrite zlen_slice; rewrite ?zlen_file_bytes; lia|]. intros k Hk.
  rewrite zlen_slice in Hk by (rewrite ?zlen_file_bytes; lia). rewrite nthZ_slice by (rewrite ?zlen_file_bytes; lia).
  rewrite !nthZ_file_bytes by lia. f_equal.
Qed.

(** Bytes that replace those at a position, the string may become longer. *)
Definition overwrite (p : Z) (bs c : list Z) : list Z := take (Z.to_nat p) c ++ bs ++ drop (Z.to_nat (p + zlen bs)) c.

Lemma nthZ_overwrite p bs c k : 0 <= p <= zlen c -> 0 <= k < Z.max (zlen c) (p + zlen bs) ->
  nthZ (overwrite p bs c) k = if (p <=? k) && (k <? p + zlen bs) then nthZ bs (k - p) else nthZ c k.
Proof.
  intros Hp Hk. pose proof (zlen_nonneg bs). unfold overwrite. pose proof (zlen_take p c Hp) as Ht.
  rewrite nthZ_app, Ht by lia. destruct (Z.ltb_spec k p).
  - rewrite (proj2 (Z.leb_gt p k)) by lia. cbn [andb]. unfold nthZ. rewrite <- (firstn_skipn (Z.to_nat p) c) at 2.
    rewrite app_nth1; [done|]. unfold zlen in Ht. lia.
  - rewrite (proj2 (Z.leb_le p k)) by lia. cbn [andb]. rewrite nthZ_app by lia. case_bools; try lia; try done.
    unfold nthZ. rewrite nth_skipn. f_equal. lia.
Qed.

Lemma zlen_overwrite p bs c : 0 <= p <= zlen c -> zlen (overwrite p bs c) = Z.max (zlen c) (p + zlen bs).
Proof.
  intros Hp. pose proof (zlen_nonneg bs). unfold overwrite. rewrite !zlen_app, zlen_take by lia. unfold zlen in *. rewrite length_drop. lia.
Qed.

Lemma wrote_contents f f' E' D D' cl cl' fp fp' bs : geometry f -> same_volume f f' -> chain f E' cl' -> (exists new, cl' = cl ++ new) ->
  0 <= fp_fptr fp <= fp_fsize fp -> fp_fsize fp <= room f cl -> fp_fsize fp' = Z.max (fp_fsize fp) (fp_fptr fp + zlen bs) -> fp_fsize fp' <= room f cl' ->
  wrote f D D' cl' (fp_fptr fp) bs -> contents_of f' D' cl' fp' = overwrite (fp_fptr fp) bs (contents_of f D cl fp).
Proof.
  intros Hg Hs Hc [new ->] Hp Hroom Hsize Hroom' [Hb _]. pose proof (zlen_nonneg bs). unfold contents_of.
  apply nthZ_ext; [rewrite zlen_overwrite; rewrite !zlen_file_bytes; lia|]. intros k Hk. rewrite zlen_file_bytes in Hk by lia.
  rewrite nthZ_file_bytes by lia. rewrite (same_file_byte f f' Hs), Z.add_0_l, Hb by lia.
  rewrite nthZ_overwrite by (rewrite zlen_file_bytes; lia). case_bools; try done; try lia; rewrite nthZ_file_bytes, Z.add_0_l by lia; apply file_byte_app; done || lia.
Qed.

(** Files with different clusters have different sectors. *)
Lemma other_file_sector f E E' cl cl' i j : geometry f -> chain f E cl -> chain f E' cl' -> (forall c, c ∈ cl' -> c ∉ cl) ->
  0 <= 512 * i < room f cl -> 0 <= 512 * j < room f cl' -> file_sector f cl i <> file_sector f cl' j.
Proof.
  intros Hg Hc Hc' Hdis Hi Hj Heq. pose proof (g_csize f Hg).
  pose proof (position_cluster f cl (512 * i) Hg Hi) as Ri. pose proof (position_cluster f cl' (512 * j) Hg Hj) as Rj.
  rewrite (Z.mul_comm 512), Z.div_mul in Ri, Rj by lia. pose proof (position_mod f i Hg ltac:(lia)). pose proof (position_mod f j Hg ltac:(lia)).
  unfold file_sector, clust_sector in Heq. set (n := fs_csize f) in *. set (a := nthZ cl (i / n) - 2) in *. set (b := nthZ cl' (j / n) - 2) in *.
  destruct (div_mod_unique (a * n + i mod n) n a (i mod n)) as [Ha _]; [done|lia|].
  destruct (div_mod_unique (a * n + i mod n) n b (j mod n)) as [Hb _]; [done|lia|].
  apply (Hdis (nthZ cl' (j / n))); [apply elem_nthZ; by exists (j / n)|]. apply elem_nthZ. exists (i / n). split; [done|]. lia.
Qed.
End contents.

(** ** A small disk *)

Module Volume.
Definition put_bytes (blocks : list (Z * list Z)) : list Z := foldl (fun l b => splice b.1 b.2 l) (fill 512 0) blocks.

(** 20 sectors, FAT12, two FATs of a sector, clusters of two sectors. *)
Definition boot_sector : list Z :=
  put_bytes [(BPB_BytsPerSec, [0; 2]); (BPB_SecPerClus, [2]); (BPB_RsvdSecCnt, [1; 0]); (BPB_NumFATs, [2]); (BPB_RootEntCnt, [16; 0]);
             (BPB_TotSec16, [20; 0]); (BPB_FATSz16, [1; 0]); (BS_FilSysType, [70; 65; 84; 49; 50]); (BS_55AA, [85; 170])].
(** The chains 3, 5 and 4. *)
Definition fat_sector : list Z := put_bytes [(0, [248; 255; 255; 0; 80; 0; 255; 255; 255])].
(** A.TXT, 1500 bytes from cluster 3. *)
Definition root_sector : list Z :=
  put_bytes [(0, [65; 32; 32; 32; 32; 32; 32; 32; 84; 88; 84]); (DIR_FstClusLO, [3; 0]); (DIR_FileSize, [220; 5; 0; 0])].
Definition disk : RamDisk.disk :=
  <[0 := boot_sector]> (<[1 := fat_sector]> (<[2 := fat_sector]> (<[3 := root_sector]>
    (<[6 := fill 512 54]> (<[7 := fill 512 55]> (<[10 := fill 512 58]> ∅)))))).
Definition start : fat_state :=
  {| static_buf := {| sect := 0; buf_dirty := false; buf_fs := None; buf_data := fill 512 0 |}; fat_structs := [zero_fatfs];
     disks := disk; fattime := 0 |}.

(** [f_mount(0, fs)], [f_open(fs, &fp, "A.TXT", FA_READ | FA_WRITE)] *)
Definition mount_and_open : fat (Z * Z * file_object) :=
  r ← f_mount 0 0;
  o ← f_open 100 100 0 [65; 46; 84; 88; 84; 0] 0 (FA_READ + FA_WRITE);
  mret (r, o.1, o.2).
Definition result : Z * Z * file_object * fat_state :=
  match mount_and_open start with
  | Done r s => (r, s)
  | _ => (99, 99, blank_file, start)
  end.
Definition file : file_object := result.1.2.
Definition mounted_state : fat_state := result.2.
Definition structure : FATFS := default zero_fatfs (fat_structs mounted_state !! 0%nat).

(** The view of the state as the two functions. *)
Definition entries : Z -> Z := entry structure (view structure mounted_state).
Definition data : Z -> list Z := view structure mounted_state.

Lemma opened_without_error : result.1.1 = (FR_OK, FR_OK).
Proof. by vm_compute. Qed.

Lemma structure_value : structure = {|
    n_rootdir := 16; sects_fat := 1; fs_max_clust := 10; fs_fatbase := 1; dirbase := 3; database := 4; curr_dir := 0; last_clust := 0;
    free_clust := 4294967295; fsi_sector := 0; fsi_flag := false; fat_type := 1; fs_csize := 2; n_fats := 2; drive := 0
  |}.
Proof. by vm_compute. Qed.

Lemma structure_geometry : geometry structure.
Proof. rewrite structure_value. split; simpl; try lia. left. unfold FS_FAT12. lia. Qed.

Lemma whole_insert k l (d : RamDisk.disk) : bool_decide (zlen l = 512 /\ bytes l) = true -> RamDisk.whole d -> RamDisk.whole (<[k := l]> d).
Proof. intros Hl%bool_decide_eq_true Hd. by apply map_Forall_insert_2. Qed.

Lemma intact_disks : intact (disks mounted_state).
Proof.
  change (RamDisk.whole (disks mounted_state)). assert (disks mounted_state = disk) as -> by (by vm_compute).
  repeat (apply whole_insert; [by vm_compute|]). apply map_Forall_empty.
Qed.

Lemma volume_mounted : vol 0 structure entries data mounted_state.
Proof.
  exists (view structure mounted_state). split_and!; [|done|done]. split; [|done].
  assert (sect (static_buf mounted_state) = 3 /\ buf_dirty (static_buf mounted_state) = false /\ buf_fs (static_buf mounted_state) = Some 0 /\
    buf_data (static_buf mounted_state) = root_sector /\ fat_structs mounted_state = [structure] /\
    content (disks mounted_state) (drive structure) 3 = root_sector) as (H1 & H2 & H3 & H4 & H5 & H6) by (split_and!; by vm_compute).
  split.
  - lia.
  - by rewrite H5.
  - apply structure_geometry.
  - by rewrite structure_value.
  - apply intact_disks.
  - by rewrite H4.
  - rewrite H4. destruct (sector_law (disks mounted_state) (drive structure) 3 intact_disks) as [_ Hb]; [rewrite structure_value; simpl; lia|].
    by rewrite H6 in Hb.
  - by rewrite H2.
  - by rewrite H1, H4, H6.
Qed.

Definition clusters : list Z := [3; 5].

Lemma entries_value : entries 2 = 0 /\ entries 3 = 5 /\ entries 4 = 4095 /\ entries 5 = 4095 /\ entries 6 = 0 /\ entries 7 = 0 /\
  entries 8 = 0 /\ entries 9 = 0.
Proof. split_and!; by vm_compute. Qed.

Lemma cluster_cases c : cluster structure c -> c = 2 \/ c = 3 \/ c = 4 \/ c = 5 \/ c = 6 \/ c = 7 \/ c = 8 \/ c = 9.
Proof. rewrite structure_value. unfold cluster. simpl. lia. Qed.

Lemma no_entry_1 c : cluster structure c -> entries c <> 1.
Proof.
  destruct entries_value as (H2 & H3 & H4 & H5 & H6 & H7 & H8 & H9). intros Hc%cluster_cases.
  destruct_or!; subst; rewrite ?H2, ?H3, ?H4, ?H5, ?H6, ?H7, ?H8, ?H9; discriminate.
Qed.

Lemma file_chain : chain structure entries clusters.
Proof.
  destruct entries_value as (_ & H3 & _ & H5 & _). split.
  - intros i Hi. change (zlen clusters) with 2 in Hi. assert (i = 0 \/ i = 1) as [-> | ->] by lia; split; by vm_compute.
  - intros i Hi Hl. change (zlen clusters) with 2 in Hl. assert (i = 0) as -> by lia. apply H3.
  - intros _. rewrite structure_value. change (nthZ clusters (zlen clusters - 1)) with 5. rewrite H5. done.
  - intros i j Hi Hj. change (zlen clusters) with 2 in *. assert ((i = 0 \/ i = 1) /\ (j = 0 \/ j = 1)) as [[-> | ->] [-> | ->]] by lia; done.
Qed.

Lemma file_opened : opened 0 structure clusters file.
Proof. split; by vm_compute. Qed.

Lemma file_at_start : positioned structure clusters file.
Proof. by vm_compute. Qed.
End Volume.

(** ** The file allocation table *)

Section theorems.
Context `{ReliableDisks}.

(** C13: reading an entry after writing one, for FAT12, FAT16 and FAT32 and
    wherever the sector buffer was: the entry that was written has the new
    value, cut to the width of the type, every other one its old value, and no
    data sector changes. *)
Theorem put_get_cluster fs f E D s c d v :
  vol fs f E D s -> cluster f c -> cluster f d -> 0 <= v ->
  exists s1 s2, put_cluster fs c v s = Done true s1 /\
    get_cluster fs d s1 = Done (if decide (d = c) then masked f v else E d) s2 /\ vol fs f (<[c := masked f v]> E) D s2.
Proof.
  intros Hs Hc Hd Hv.
  assert (wp (put_cluster fs c v) (fun ok s1 => ok = true /\ vol fs f (<[c := masked f v]> E) D s1) s) as Hw by (by eapply wp_put_cluster).
  apply wp_done in Hw as (ok & s1 & Hput & -> & Hs1).
  assert (wp (get_cluster fs d) (fun x s2 => x = <[c := masked f v]> E d /\ vol fs f (<[c := masked f v]> E) D s2) s1) as Hw by (by eapply wp_get_cluster).
  apply wp_done in Hw as (x & s2 & Hget & -> & Hs2). exists s1, s2. split_and!; [done| |done]. rewrite Hget. f_equal.
  destruct (decide (d = c)) as [->|]; [apply fn_lookup_insert|by apply fn_lookup_insert_ne].
Qed.

(** C3: [remove_chain] ends on every FAT, also on one whose chain runs into a
    ring, and frees exactly the clusters that can be reached from the first
    one; all other entries and all data sectors stay as they are.  (An entry 1
    is no link but the sign of an error.) *)
Theorem remove_chain_frees fs f E D s c :
  vol fs f E D s -> (forall x, reaches f E c x -> E x <> 1) ->
  exists s' f' E', remove_chain fs c s = Done true s' /\ vol fs f' E' D s' /\ same_volume f f' /\
    (forall x, reaches f E c x -> E' x = 0) /\ (forall x, ~ reaches f E c x -> E' x = E x).
Proof.
  intros Hs Hok.
  assert (wp (remove_chain fs c) (fun ok s' => ok = true /\ exists f' E', vol fs f' E' D s' /\ same_volume f f' /\
    (forall x, reaches f E c x -> E' x = 0) /\ (forall x, ~ reaches f E c x -> E' x = E x)) s) as Hw.
  { eapply wp_remove_chain; [done|done|]. intros f' E' s' ? ? ? ?. split; [done|]. by exists f', E'. }
  apply wp_done in Hw as (ok & s' & Hrun & -> & f' & E' & ?). by exists s', f', E'.
Qed.

(** C9: [create_chain] finds a free cluster whenever there is one, marks it as
    the end of the chain, links it to the last cluster when a chain is
    stretched, and counts it; 0 is returned, with nothing changed, only when
    no cluster is free. *)
Theorem create_chain_allocates fs f E D s c :
  vol fs f E D s -> (forall x, cluster f x -> E x <> 1) -> c = 0 \/ cluster f c /\ fs_max_clust f <= E c ->
  exists r s', create_chain fs c s = Done r s' /\
    ((r = 0 /\ vol fs f E D s' /\ forall x, cluster f x -> E x <> 0) \/
     (cluster f r /\ E r = 0 /\ exists f', vol fs f' (stretched f E c r) D s' /\ same_volume f f' /\ last_clust f' = r /\
        free_clust f' = if free_clust f =? 4294967295 then 4294967295 else u32 (free_clust f - 1))).
Proof.
  intros Hs Hok Hc. apply wp_done. destruct Hc as [->|[Hc HEc]].
  - eapply wp_create_chain_new; [done|done| |]; [intros; by left|]. intros r f' s' ? ? ? ? _ ? ?. right. split; [done|]. split; [done|]. by exists f'.
  - eapply wp_create_chain_extend; [done|done|done|done| |]; [intros; by left|]. intros r f' s' ? ? ? ? _ ? ?. right. split; [done|]. split; [done|]. by exists f'.
Qed.

(** ** Open files *)

(** C14: [f_read] at any position of a file returns the bytes of the file from
    there on, as many as were asked for and as there are, whatever the
    alignment of the position and the layout of the chain; it moves the
    pointer behind them and changes nothing else. *)
Theorem f_read_contents fs f E D cl s fp btr :
  vol fs f E D s -> chain f E cl -> opened fs f cl fp -> at_position f cl fp -> has (fp_flag fp) FA_READ = true -> 0 <= btr < 65536 ->
  let n := Z.min btr (fp_fsize fp - fp_fptr fp) in
  exists fp' s', f_read fp btr s = Done (FR_OK, slice (fp_fptr fp) n (contents_of f D cl fp), fp') s' /\
    vol fs f E D s' /\ opened fs f cl fp' /\ at_position f cl fp' /\ same_file fp fp' /\ fp_fptr fp' = fp_fptr fp + n.
Proof.
  intros Hs Hc Ho Hat Hflag Hb n. pose proof (op_ptr _ _ _ _ Ho).
  assert (wp (f_read fp btr) (fun r s' => r.1 = (FR_OK, file_bytes f D cl (fp_fptr fp) n) /\ vol fs f E D s' /\ transferred fs f cl fp n r.2) s) as Hw
    by (by eapply wp_f_read).
  apply wp_done in Hw as ([r fp'] & s' & Hrun & Hr & Hs' & Ho' & Hsame & Hp & Hpos). simpl in *. subst r. exists fp', s'.
  unfold contents_of. rewrite slice_contents by (unfold n; lia). split_and!; try done.
  destruct (Z.eqb_spec n 0); [by subst|by left].
Qed.

(** C10: A seek inside the file followed by a read returns the bytes at the
    target, whichever way the driver finds the cluster (the same one, forward
    from the current one, or from the start of the chain). The position before
    the seek is one that opening, reading or writing leaves ([positioned]);
    after another seek, to the first byte of the current cluster, the driver
    takes the wrong cluster ([seek_twice_reads_other_cluster]). The target is
    below 4294901760 and the medium answers without errors. *)
Theorem f_lseek_f_read fs f E D cl s fp ofs btr :
  vol fs f E D s -> chain f E cl -> opened fs f cl fp -> positioned f cl fp -> has (fp_flag fp) FA_READ = true ->
  0 <= ofs <= fp_fsize fp -> ofs < 4294901760 -> 0 <= btr < 65536 ->
  let n := Z.min btr (fp_fsize fp - ofs) in
  exists fp' s', (r ← f_lseek fp ofs; f_read r.2 btr) s = Done (FR_OK, slice ofs n (contents_of f D cl fp), fp') s' /\
    vol fs f E D s' /\ opened fs f cl fp' /\ fp_fptr fp' = ofs + n /\ (0 < n -> positioned f cl fp').
Proof.
  intros Hs Hc Ho Hpos Hflag Hofs Hmax Hb n.
  assert (wp (r ← f_lseek fp ofs; f_read r.2 btr) (fun r s' => r.1 = (FR_OK, file_bytes f D cl ofs n) /\ vol fs f E D s' /\ opened fs f cl r.2 /\
     fp_fptr r.2 = ofs + n /\ (0 < n -> positioned f cl r.2)) s) as Hw.
  { wp_simpl. eapply wp_f_lseek; [done..|]. clear s Hs. intros fp1 s Hs Ho1 (Hf1 & _ & Hs1 & _) Hp1 Hat1. simpl.
    eapply wp_f_read; [done|done|done|done|by rewrite Hf1|done|]. rewrite Hs1, Hp1. intros fp2 s2 m Hs2 (Ho2 & _ & Hp2 & Hpos2).
    simpl. rewrite Hp2, Hp1. split_and!; try done. intros Hn. by rewrite (proj2 (Z.eqb_neq m 0)) in Hpos2 by (unfold m, n in *; lia). }
  apply wp_done in Hw as ([r fp'] & s' & Hrun & Hr & Hs' & Ho' & Hp & Hpos'). simpl in *. subst r. exists fp', s'.
  unfold contents_of. rewrite slice_contents by (unfold n; lia). done.
Qed.

Lemma other_file_kept fs f E D cl fp buff n cl' f' E' D' fp' s' other : geometry f -> chain f E other -> (forall c, c ∈ other -> c ∉ cl) ->
  write_result fs f E D cl fp buff n cl' f' E' D' fp' s' ->
  chain f' E' other /\ forall i, 0 <= i < room f other -> file_byte f' D' other i = file_byte f D other i.
Proof.
  intros Hg Hother Hdis [_ Hs Hgr [_ Ho] _ _ _ _ _ _ _ _]. destruct (gr_prefix _ _ _ _ _ Hgr) as (new & -> & Hnew).
  assert (forall c, c ∈ other -> c ∉ cl ++ new) as Hdis'.
  { intros c Hin [Hcl|Hn]%elem_of_app; [by apply (Hdis c)|]. pose proof (chain_used f E other c Hother Hg Hin) as [_ ?]. rewrite Hnew in *; [lia|done]. }
  split.
  - apply (same_chain f f' Hs). eapply chain_ext; [done|]. intros c Hin. apply (gr_others _ _ _ _ _ Hgr); [|by apply Hdis'].
    by apply (chain_used f E other c Hother Hg).
  - intros i Hi. rewrite (same_file_byte f f' Hs). unfold file_byte. f_equal. pose proof (byte_position f other i Hg Hi) as Hp.
    apply Ho; [by eapply file_sector_data|]. intros j Hj. eapply (other_file_sector f E' E (cl ++ new) other); try done.
    apply (gr_chain _ _ _ _ _ Hgr).
Qed.

(** C2: On a volume whose disk answers without errors and whose FAT has no
    entry 1 (the error mark), [f_write] replaces the bytes at the position of
    an open file and appends what goes beyond its end, stretching the chain
    with free clusters; it stores everything unless no cluster is left, and
    then says how much. The chains and bytes of files that share no cluster
    with this one are as before. Two situations are excluded, in which the
    code goes wrong: a string of 512 bytes or more while the sector buffer
    shows a sector of the file from the position on
    ([direct_write_leaves_stale_buffer]; files and images are written at most
    256 bytes at a time), and the position that a write on a full disk leaves
    ([full_disk_write_goes_on]), which is no [at_position]. The file stays
    below 4 GB. *)
Theorem f_write_contents fs f E D cl s fp buff :
  vol fs f E D s -> chain f E cl -> opened fs f cl fp -> at_position f cl fp -> (forall c, cluster f c -> E c <> 1) ->
  has (fp_flag fp) FA_WRITE = true -> bytes buff -> zlen buff < 512 \/ fresh fs f cl (fp_fptr fp) s ->
  fp_fsize fp + zlen buff < 4294967296 ->
  exists n fp' s' cl' f' E' D', f_write fp buff s = Done (FR_OK, n, fp') s' /\
    vol fs f' E' D' s' /\ chain f' E' cl' /\ opened fs f' cl' fp' /\ fp_fptr fp' = fp_fptr fp + n /\ 0 <= n <= zlen buff /\
    contents_of f' D' cl' fp' = overwrite (fp_fptr fp) (take (Z.to_nat n) buff) (contents_of f D cl fp) /\
    (n < zlen buff -> forall c, cluster f c -> E' c <> 0) /\
    (forall other, chain f E other -> (forall c, c ∈ other -> c ∉ cl) ->
       chain f' E' other /\ forall i, 0 <= i < room f other -> file_byte f' D' other i = file_byte f D other i).
Proof.
  intros Hs Hc Ho Hat Hok Hflag Hb Hfresh Hmax. pose proof (vol_geometry _ _ _ _ _ Hs) as Hg.
  assert (wp (f_write fp buff) (fun r s' => r.1.1 = FR_OK /\ exists cl' f' E' D', write_result fs f E D cl fp buff r.1.2 cl' f' E' D' r.2 s') s) as Hw.
  { eapply wp_f_write; try done. intros n cl' f' E' D' fp' s' Hr. split; [done|]. by exists cl', f', E', D'. }
  apply wp_done in Hw as ([[r n] fp'] & s' & Hrun & Hr & cl' & f' & E' & D' & Hres). simpl in *. subst r.
  exists n, fp', s', cl', f', E', D'. pose proof Hres as [Hv Hsame Hgr Hwr Hop _ Hptr Hsize _ Hn Hfull _].
  pose proof (same_volume_sym _ _ Hsame) as Hsame'. split_and!; try done; try lia.
  - apply (same_chain f f' Hsame). by apply (gr_chain _ _ _ _ _ Hgr).
  - destruct Ho. eapply wrote_contents; try done.
    + apply (gr_chain _ _ _ _ _ Hgr).
    + destruct (gr_prefix _ _ _ _ _ Hgr) as (new & -> & _). by exists new.
    + by rewrite zlen_take by lia.
    + rewrite <- (same_room f f' Hsame). by destruct Hop.
  - intros other Hother Hdis. by eapply other_file_kept.
Qed.

(** C8: What [f_write] has stored is read back: when it has stored all of a
    string of less than 64 KB at a regular position ([at_position]), seeking
    to where it began and reading that many bytes returns the string, however
    the chain was stretched in between. The string is shorter than a sector,
    or the sector buffer shows no sector of the file from the position on
    before the write (else the stale buffer is read,
    [direct_write_leaves_stale_buffer]); the FAT has no error entry 1, the
    medium answers without errors, and the file ends below 4294901760 bytes.
    *)
Theorem f_write_f_read fs f E D cl s fp buff fp1 s1 :
  vol fs f E D s -> chain f E cl -> opened fs f cl fp -> at_position f cl fp -> (forall c, cluster f c -> E c <> 1) ->
  has (fp_flag fp) FA_WRITE = true -> has (fp_flag fp) FA_READ = true -> bytes buff -> 0 < zlen buff < 65536 ->
  zlen buff < 512 \/ fresh fs f cl (fp_fptr fp) s -> fp_fsize fp + zlen buff < 4294901760 ->
  f_write fp buff s = Done (FR_OK, zlen buff, fp1) s1 ->
  exists fp2 s2, (r ← f_lseek fp1 (fp_fptr fp); f_read r.2 (zlen buff)) s1 = Done (FR_OK, buff, fp2) s2.
Proof.
  intros Hs Hc Ho Hat Hok Hflag Hread Hb Hl Hfresh Hmax Hrun. pose proof (vol_geometry _ _ _ _ _ Hs) as Hg.
  assert (wp (f_write fp buff) (fun r s' => exists cl' f' E' D', write_result fs f E D cl fp buff r.1.2 cl' f' E' D' r.2 s') s) as Hw.
  { eapply wp_f_write; try done; [lia|]. intros n cl' f' E' D' fp' s' Hr. by exists cl', f', E', D'. }
  destruct (wp_run _ _ _ _ _ Hw Hrun) as (cl' & f' & E' & D' & [Hv Hsame Hgr [Hbytes _] Hop Hfl Hptr Hsize _ _ _ Hpos]). simpl in *.
  destruct (Hpos eq_refl) as [_ Hpos']. specialize (Hpos' ltac:(lia)). pose proof (op_ptr _ _ _ _ Ho).
  assert (wp (r ← f_lseek fp1 (fp_fptr fp); f_read r.2 (zlen buff)) (fun r _ => r.1 = (FR_OK, buff)) s1) as Hw2.
  { wp_simpl. eapply wp_f_lseek; [done|apply (same_chain f f' Hsame); apply (gr_chain _ _ _ _ _ Hgr)|done|done|lia|lia|].
    intros fp2 s2 Hs2 Ho2 (Hf2 & _ & Hz2 & _) Hp2 Hat2. simpl.
    eapply wp_f_read; [done|apply (same_chain f f' Hsame); apply (gr_chain _ _ _ _ _ Hgr)|done|done| |lia|].
    - rewrite Hf2, Hfl. unfold has in *. rewrite Z.land_lor_distr_l. change (Z.land FA__WRITTEN FA_READ) with 0. by rewrite Z.lor_0_r.
    - rewrite Hz2, Hp2, Hsize. intros fp3 s3 m Hs3 _. simpl. f_equal. assert (m = zlen buff) as -> by (unfold m; lia).
      symmetry. apply file_bytes_eq. intros k Hk. rewrite (same_file_byte f f' Hsame). 
      pose proof (op_room _ _ _ _ Hop) as Hroom. rewrite (same_room f f' Hsame) in Hroom. unfold zlen in *. rewrite Nat2Z.id, firstn_all in Hbytes.
      rewrite Hbytes by lia. rewrite (proj2 (Z.leb_le _ _)), (proj2 (Z.ltb_lt _ _)) by lia. cbn [andb]. f_equal. lia. }
  apply wp_done in Hw2 as ([[r bs] fp2] & s2 & Hrun2 & Heq). simpl in Heq. simplify_eq. by exists fp2, s2.
Qed.
End theorems.

(** ** Witnesses *)

Module Witness.
Import Volume.

Lemma put_get_cluster_witness : exists s1 s2, put_cluster 0 6 7 mounted_state = Done true s1 /\
  get_cluster 0 3 s1 = Done (if decide (3 = 6) then masked structure 7 else entries 3) s2 /\ vol 0 structure (<[6 := masked structure 7]> entries) data s2.
Proof. apply put_get_cluster; [apply volume_mounted|split; by vm_compute|split; by vm_compute|lia]. Defined.

Lemma remove_chain_frees_witness : exists s' f' E', remove_chain 0 3 mounted_state = Done true s' /\ vol 0 f' E' data s' /\ same_volume structure f' /\
  (forall x, reaches structure entries 3 x -> E' x = 0) /\ (forall x, ~ reaches structure entries 3 x -> E' x = entries x).
Proof. apply remove_chain_frees; [apply volume_mounted|]. intros x [_ Hx]. by apply no_entry_1. Defined.

Lemma create_chain_allocates_witness : exists r s', create_chain 0 5 mounted_state = Done r s' /\
  ((r = 0 /\ vol 0 structure entries data s' /\ forall x, cluster structure x -> entries x <> 0) \/
   (cluster structure r /\ entries r = 0 /\ exists f', vol 0 f' (stretched structure entries 5 r) data s' /\ same_volume structure f' /\
      last_clust f' = r /\
      free_clust f' = if free_clust structure =? 4294967295 then 4294967295 else u32 (free_clust structure - 1))).
Proof. apply create_chain_allocates; [apply volume_mounted|apply no_entry_1|]. right. split; [split; by vm_compute|by vm_compute]. Defined.

Lemma f_read_contents_witness : exists fp' s', f_read file 1200 mounted_state = Done (FR_OK, slice 0 1200 (contents_of structure data clusters file), fp') s' /\
  vol 0 structure entries data s' /\ opened 0 structure clusters fp' /\ at_position structure clusters fp' /\ same_file file fp' /\ fp_fptr fp' = 1200.
Proof. apply f_read_contents; [apply volume_mounted|apply file_chain|apply file_opened|left; apply file_at_start|by vm_compute|lia]. Defined.

Lemma f_lseek_f_read_witness : exists fp' s', (r ← f_lseek file 1000; f_read r.2 100) mounted_state =
    Done (FR_OK, slice 1000 100 (contents_of structure data clusters file), fp') s' /\
  vol 0 structure entries data s' /\ opened 0 structure clusters fp' /\ fp_fptr fp' = 1100 /\ (0 < 100 -> positioned structure clusters fp').
Proof.
  apply (f_lseek_f_read 0 structure entries data clusters mounted_state file 1000 100);
    [apply volume_mounted|apply file_chain|apply file_opened|apply file_at_start|by vm_compute|split; by vm_compute|lia|lia].
Defined.

Lemma f_write_contents_witness : exists n fp' s' cl' f' E' D', f_write file [1; 2; 3] mounted_state = Done (FR_OK, n, fp') s' /\
  vol 0 f' E' D' s' /\ chain f' E' cl' /\ opened 0 f' cl' fp' /\ fp_fptr fp' = fp_fptr file + n /\ 0 <= n <= zlen [1; 2; 3] /\
  contents_of f' D' cl' fp' = overwrite (fp_fptr file) (take (Z.to_nat n) [1; 2; 3]) (contents_of structure data clusters file) /\
  (n < zlen [1; 2; 3] -> forall c, cluster structure c -> E' c <> 0) /\
  (forall other, chain structure entries other -> (forall c, c ∈ other -> c ∉ clusters) ->
     chain f' E' other /\ forall i, 0 <= i < room structure other -> file_byte f' D' other i = file_byte structure data other i).
Proof.
  apply f_write_contents; [apply volume_mounted|apply file_chain|apply file_opened|left; apply file_at_start|apply no_entry_1|by vm_compute| | |by vm_compute].
  - repeat constructor; lia.
  - left. by vm_compute.
Defined.

Definition written : file_object * fat_state :=
  match f_write file [1; 2; 3] mounted_state with
  | Done (_, fp) s => (fp, s)
  | _ => (file, mounted_state)
  end.

Lemma f_write_f_read_witness : exists fp2 s2, (r ← f_lseek written.1 (fp_fptr file); f_read r.2 (zlen [1; 2; 3])) written.2 = Done (FR_OK, [1; 2; 3], fp2) s2.
Proof.
  apply (f_write_f_read 0 structure entries data clusters mounted_state);
    [apply volume_mounted|apply file_chain|apply file_opened|left; apply file_at_start|apply no_entry_1|by vm_compute|by vm_compute| | | |by vm_compute|by vm_compute].
  - repeat constructor; lia.
  - by vm_compute.
  - left. by vm_compute.
Defined.

(** ** What goes wrong *)

Definition answer {A} (c : fat A) : option A :=
  match c mounted_state with
  | Done a _ => Some a
  | _ => None
  end.

(** A seek to the first byte of the current cluster leaves the position that
    the next seek takes for the end of the previous cluster: the bytes at 1000
    are then read from the cluster of 1024. *)
Example seek_twice_reads_other_cluster :
  answer (r ← f_lseek file 1000; r ← f_read r.2 4; mret r.1) = Some (FR_OK, [55; 55; 55; 55]) /\
  answer (r ← f_lseek file 1200; r ← f_lseek r.2 1024; r ← f_lseek r.2 1000; r ← f_read r.2 4; mret r.1) = Some (FR_OK, [0; 0; 0; 0]).
Proof. split; by vm_compute. Qed.

(** Whole sectors go to the disk and not to the buffer that shows one of them:
    what was written is not read back. *)
Example direct_write_leaves_stale_buffer :
  answer (r ← f_write file [1; 2; 3]; r ← f_lseek r.2 0; r ← f_write r.2 (fill 512 9); r ← f_lseek r.2 0; r ← f_read r.2 4; mret r.1) =
  Some (FR_OK, [1; 2; 3; 54]).
Proof. by vm_compute. Qed.

(** After a write that filled the disk the sector counter has run below 0: the
    next write succeeds in the sector behind the last cluster, here the first
    of the file. *)
Example full_disk_write_goes_on :
  answer (r ← f_lseek file 1500; r ← f_write r.2 (fill 6000 9); let n := r.1.2 in
          r ← f_write r.2 (fill 512 8); let m := r.1.2 in r ← f_lseek r.2 0; r ← f_read r.2 4; mret (n, m, r.1)) =
  Some (5668, 512, (FR_OK, [8; 8; 8; 8])).
Proof. by vm_compute. Qed.
End Witness.
