(* ===== verification/Dirent.v ===== *)
(** * dirent.h: directory entries, paths and handles

    The data that the file systems, the parser and the commands exchange. *)

From S2P Require Import Prelude EepromFs Utils Buffers FatFs.

Definition CBM_NAME_LENGTH : Z := 16.
Definition TYPE_LENGTH : Z := 3.
Definition TYPE_MASK : Z := 7.
Definition EXT_TYPE_MASK : Z := 15.
Definition TYPE_DEL : Z := 0.
Definition TYPE_SEQ : Z := 1.
Definition TYPE_PRG : Z := 2.
Definition TYPE_USR : Z := 3.
Definition TYPE_REL : Z := 4.
Definition TYPE_CBM : Z := 5.
Definition TYPE_DIR : Z := 6.
Definition TYPE_NAT : Z := 8.
Definition FLAG_HIDDEN : Z := 32.
Definition FLAG_RO : Z := 64.
Definition FLAG_SPLAT : Z := 128.

Inductive opstype_t := OPSTYPE_UNDEFINED | OPSTYPE_FAT | OPSTYPE_FAT_X00 | OPSTYPE_DXX | OPSTYPE_EEFS.

#[export] Instance opstype_eq_dec : EqDecision opstype_t.
Proof. solve_decision. Defined.

(** A reference to a directory; the members of [dir] side by side. *)
Record path_t := Path { path_part : Z; path_fat : Z; path_track : Z; path_sector : Z }.

(** The union [pvt] of a directory entry. *)
Inductive dent_pvt := DentZero | DentFat (cluster : Z) (realname : list Z) | DentDxx (dh : d64dh).

(** The name is an array of 17 bytes. *)
Record cbmdirent_t := {
  de_name : list Z;
  de_typeflags : Z;
  de_blocksize : Z;
  de_remainder : Z;
  de_date : date_t;
  de_opstype : opstype_t;
  de_pvt : dent_pvt
}.

Definition set_de_name (x : list Z) (d : cbmdirent_t) : cbmdirent_t :=
  {| de_name := x; de_typeflags := de_typeflags d; de_blocksize := de_blocksize d; de_remainder := de_remainder d;
     de_date := de_date d; de_opstype := de_opstype d; de_pvt := de_pvt d |}.
Definition set_de_typeflags (x : Z) (d : cbmdirent_t) : cbmdirent_t :=
  {| de_name := de_name d; de_typeflags := x; de_blocksize := de_blocksize d; de_remainder := de_remainder d;
     de_date := de_date d; de_opstype := de_opstype d; de_pvt := de_pvt d |}.
Definition set_de_blocksize (x : Z) (d : cbmdirent_t) : cbmdirent_t :=
  {| de_name := de_name d; de_typeflags := de_typeflags d; de_blocksize := x; de_remainder := de_remainder d;
     de_date := de_date d; de_opstype := de_opstype d; de_pvt := de_pvt d |}.
Definition set_de_pvt (x : dent_pvt) (d : cbmdirent_t) : cbmdirent_t :=
  {| de_name := de_name d; de_typeflags := de_typeflags d; de_blocksize := de_blocksize d; de_remainder := de_remainder d;
     de_date := de_date d; de_opstype := de_opstype d; de_pvt := x |}.

(** [memset(dent, 0, sizeof(cbmdirent_t))] *)
Definition zero_date : date_t := Date 0 0 0 0 0 0.
Definition zero_dent : cbmdirent_t :=
  {| de_name := fill (CBM_NAME_LENGTH + 1) 0; de_typeflags := 0; de_blocksize := 0; de_remainder := 0; de_date := zero_date;
     de_opstype := OPSTYPE_UNDEFINED; de_pvt := DentZero |}.

(** [dent->pvt.fat.realname] and [dent->pvt.fat.cluster] *)
Definition dent_realname (d : cbmdirent_t) : option (list Z) :=
  match de_pvt d with DentFat _ name => Some name | DentZero => Some (fill 13 0) | DentDxx _ => None end.
Definition dent_cluster (d : cbmdirent_t) : option Z :=
  match de_pvt d with DentFat cluster _ => Some cluster | DentZero => Some 0 | DentDxx _ => None end.

(** A directory handle. *)
Inductive dir_union `{FatFs} := DirFat (d : DIR) | DirD64 (d : d64dh) | DirEefs (entry : Z).
Record dh_t `{FatFs} := DirH { dh_part : Z; dh_dir : dir_union }.
Arguments DirFat {_} d.
Arguments DirD64 {_} d.
Arguments DirEefs {_} entry.
Arguments DirH {_} dh_part dh_dir.

(** time.h: what [read_rtc] fills in. *)
Record tm := { tm_sec : Z; tm_min : Z; tm_hour : Z; tm_mday : Z; tm_mon : Z; tm_year : Z; tm_wday : Z }.
