(* ===== verification/World.v ===== *)
(** * The state of the program and the image file interface

    [world] holds the variables that the file system layers share; the
    components run on parts of it by [zoom].  [image_read] and [image_write]
    of fatops.c and [parse_error] are here.  The FAT file handle and the
    directory handle in the private data of buffer [i] are [buf_fil] and
    [buf_dh] at [i]; [buf_dent] at [i] is the directory entry that the
    directory listing keeps in the last bytes of the buffer's data. *)

From stdpp Require Import gmap.
From S2P Require Import Prelude EepromFs ErrorMsg Utils Buffers FatFs Dirent.

(** dirent.h and wrapops.h: the format function and the operations table of
    a partition. *)
Inductive format_fn := format_d41_fn | format_d71_fn | format_d81_fn | format_dnp_fn | format_d80_fn | format_d82_fn.
Inductive fileops_t := fatops | d64ops | eefsops.

Record param_s := {
  p_dir_track : Z;
  p_dir_start_sector : Z;
  p_last_track : Z;
  p_label_offset : Z;
  p_id_offset : Z;
  p_file_interleave : Z;
  p_dir_interleave : Z;
  p_format_function : format_fn
}.

Inductive param_t := DIR_TRACK | DIR_START_SECTOR | LAST_TRACK | LABEL_OFFSET | ID_OFFSET | FILE_INTERLEAVE | DIR_INTERLEAVE.

(** The static variables of d64ops.c. *)
Record d64_state := {
  ec_part : Z;
  ec_track : Z;
  ec_errors : list Z;
  bam_buffer : option Z;
  bam_buffer2 : option Z;
  bam_refcount : Z
}.

Definition set_ec_part (x : Z) (s : d64_state) : d64_state :=
  {| ec_part := x; ec_track := ec_track s; ec_errors := ec_errors s; bam_buffer := bam_buffer s;
     bam_buffer2 := bam_buffer2 s; bam_refcount := bam_refcount s |}.
Definition set_ec_track (x : Z) (s : d64_state) : d64_state :=
  {| ec_part := ec_part s; ec_track := x; ec_errors := ec_errors s; bam_buffer := bam_buffer s;
     bam_buffer2 := bam_buffer2 s; bam_refcount := bam_refcount s |}.
Definition set_ec_errors (x : list Z) (s : d64_state) : d64_state :=
  {| ec_part := ec_part s; ec_track := ec_track s; ec_errors := x; bam_buffer := bam_buffer s;
     bam_buffer2 := bam_buffer2 s; bam_refcount := bam_refcount s |}.
Definition set_bam_buffer (x : option Z) (s : d64_state) : d64_state :=
  {| ec_part := ec_part s; ec_track := ec_track s; ec_errors := ec_errors s; bam_buffer := x;
     bam_buffer2 := bam_buffer2 s; bam_refcount := bam_refcount s |}.
Definition set_bam_buffer2 (x : option Z) (s : d64_state) : d64_state :=
  {| ec_part := ec_part s; ec_track := ec_track s; ec_errors := ec_errors s; bam_buffer := bam_buffer s;
     bam_buffer2 := x; bam_refcount := bam_refcount s |}.
Definition set_bam_refcount (x : Z) (s : d64_state) : d64_state :=
  {| ec_part := ec_part s; ec_track := ec_track s; ec_errors := ec_errors s; bam_buffer := bam_buffer s;
     bam_buffer2 := bam_buffer2 s; bam_refcount := x |}.

(** The build-time and hardware options that the file systems depend on. *)
Class SystemConfig := {
  HAVE_RTC : bool;
  CONFIG_HAVE_EEPROMFS : bool;
  CONFIG_HAVE_IEC : bool;
  HAVE_HOTPLUG : bool;
  CONFIG_MAX_PARTITIONS : Z;
  CONFIG_COMMAND_BUFFER_SIZE : Z;
  CONFIG_P00CACHE_ENTRIES : Z;
  MAX_DRIVES : Z
}.

Section world.
Context `{FatFs}.

Record partition_t := {
  imagehandle : FIL;
  imagetype : Z;
  d64data : param_s;
  curr_dir : Z;
  dir_fat : Z;
  dir_track : Z;
  dir_sector : Z;
  fop : fileops_t
}.

Definition set_imagehandle (x : FIL) (p : partition_t) : partition_t :=
  {| imagehandle := x; imagetype := imagetype p; d64data := d64data p; curr_dir := curr_dir p;
     dir_fat := dir_fat p; dir_track := dir_track p; dir_sector := dir_sector p; fop := fop p |}.
Definition set_imagetype (x : Z) (p : partition_t) : partition_t :=
  {| imagehandle := imagehandle p; imagetype := x; d64data := d64data p; curr_dir := curr_dir p;
     dir_fat := dir_fat p; dir_track := dir_track p; dir_sector := dir_sector p; fop := fop p |}.
Definition set_d64data (x : param_s) (p : partition_t) : partition_t :=
  {| imagehandle := imagehandle p; imagetype := imagetype p; d64data := x; curr_dir := curr_dir p;
     dir_fat := dir_fat p; dir_track := dir_track p; dir_sector := dir_sector p; fop := fop p |}.
Definition set_curr_dir (x : Z) (p : partition_t) : partition_t :=
  {| imagehandle := imagehandle p; imagetype := imagetype p; d64data := d64data p; curr_dir := x;
     dir_fat := dir_fat p; dir_track := dir_track p; dir_sector := dir_sector p; fop := fop p |}.
Definition set_dir_fat (x : Z) (p : partition_t) : partition_t :=
  {| imagehandle := imagehandle p; imagetype := imagetype p; d64data := d64data p; curr_dir := curr_dir p;
     dir_fat := x; dir_track := dir_track p; dir_sector := dir_sector p; fop := fop p |}.
Definition set_dir_track (x : Z) (p : partition_t) : partition_t :=
  {| imagehandle := imagehandle p; imagetype := imagetype p; d64data := d64data p; curr_dir := curr_dir p;
     dir_fat := dir_fat p; dir_track := x; dir_sector := dir_sector p; fop := fop p |}.
Definition set_dir_sector (x : Z) (p : partition_t) : partition_t :=
  {| imagehandle := imagehandle p; imagetype := imagetype p; d64data := d64data p; curr_dir := curr_dir p;
     dir_fat := dir_fat p; dir_track := dir_track p; dir_sector := x; fop := fop p |}.
Definition set_fop (x : fileops_t) (p : partition_t) : partition_t :=
  {| imagehandle := imagehandle p; imagetype := imagetype p; d64data := d64data p; curr_dir := curr_dir p;
     dir_fat := dir_fat p; dir_track := dir_track p; dir_sector := dir_sector p; fop := x |}.

(** The global variables of doscmd.c, parser.c, fileops.c and eefs-ops.c, and whether a display is connected. *)
Record dos := {
  command_buffer : list Z;
  command_length : Z;
  current_part : Z;
  dir_changed : Z;
  eefs_partition : Z;
  matchdh : option dh_t;
  previous_file_dirent : cbmdirent_t;
  previous_file_path : path_t;
  date_match_start : date_t;
  date_match_end : date_t;
  display_found : bool
}.

Definition set_command_buffer (x : list Z) (s : dos) : dos :=
  {| command_buffer := x; command_length := command_length s; current_part := current_part s;
     dir_changed := dir_changed s; eefs_partition := eefs_partition s; matchdh := matchdh s;
     previous_file_dirent := previous_file_dirent s; previous_file_path := previous_file_path s;
     date_match_start := date_match_start s; date_match_end := date_match_end s;
     display_found := display_found s |}.
Definition set_command_length (x : Z) (s : dos) : dos :=
  {| command_buffer := command_buffer s; command_length := x; current_part := current_part s;
     dir_changed := dir_changed s; eefs_partition := eefs_partition s; matchdh := matchdh s;
     previous_file_dirent := previous_file_dirent s; previous_file_path := previous_file_path s;
     date_match_start := date_match_start s; date_match_end := date_match_end s;
     display_found := display_found s |}.
Definition set_current_part (x : Z) (s : dos) : dos :=
  {| command_buffer := command_buffer s; command_length := command_length s; current_part := x;
     dir_changed := dir_changed s; eefs_partition := eefs_partition s; matchdh := matchdh s;
     previous_file_dirent := previous_file_dirent s; previous_file_path := previous_file_path s;
     date_match_start := date_match_start s; date_match_end := date_match_end s;
     display_found := display_found s |}.
Definition set_dir_changed (x : Z) (s : dos) : dos :=
  {| command_buffer := command_buffer s; command_length := command_length s; current_part := current_part s;
     dir_changed := x; eefs_partition := eefs_partition s; matchdh := matchdh s;
     previous_file_dirent := previous_file_dirent s; previous_file_path := previous_file_path s;
     date_match_start := date_match_start s; date_match_end := date_match_end s;
     display_found := display_found s |}.
Definition set_eefs_partition (x : Z) (s : dos) : dos :=
  {| command_buffer := command_buffer s; command_length := command_length s; current_part := current_part s;
     dir_changed := dir_changed s; eefs_partition := x; matchdh := matchdh s;
     previous_file_dirent := previous_file_dirent s; previous_file_path := previous_file_path s;
     date_match_start := date_match_start s; date_match_end := date_match_end s;
     display_found := display_found s |}.
Definition set_matchdh (x : option dh_t) (s : dos) : dos :=
  {| command_buffer := command_buffer s; command_length := command_length s; current_part := current_part s;
     dir_changed := dir_changed s; eefs_partition := eefs_partition s; matchdh := x;
     previous_file_dirent := previous_file_dirent s; previous_file_path := previous_file_path s;
     date_match_start := date_match_start s; date_match_end := date_match_end s;
     display_found := display_found s |}.
Definition set_previous_file_dirent (x : cbmdirent_t) (s : dos) : dos :=
  {| command_buffer := command_buffer s; command_length := command_length s; current_part := current_part s;
     dir_changed := dir_changed s; eefs_partition := eefs_partition s; matchdh := matchdh s;
     previous_file_dirent := x; previous_file_path := previous_file_path s; date_match_start := date_match_start s;
     date_match_end := date_match_end s; display_found := display_found s |}.
Definition set_previous_file_path (x : path_t) (s : dos) : dos :=
  {| command_buffer := command_buffer s; command_length := command_length s; current_part := current_part s;
     dir_changed := dir_changed s; eefs_partition := eefs_partition s; matchdh := matchdh s;
     previous_file_dirent := previous_file_dirent s; previous_file_path := x;
     date_match_start := date_match_start s; date_match_end := date_match_end s;
     display_found := display_found s |}.
Definition set_date_match_start (x : date_t) (s : dos) : dos :=
  {| command_buffer := command_buffer s; command_length := command_length s; current_part := current_part s;
     dir_changed := dir_changed s; eefs_partition := eefs_partition s; matchdh := matchdh s;
     previous_file_dirent := previous_file_dirent s; previous_file_path := previous_file_path s;
     date_match_start := x; date_match_end := date_match_end s; display_found := display_found s |}.
Definition set_date_match_end (x : date_t) (s : dos) : dos :=
  {| command_buffer := command_buffer s; command_length := command_length s; current_part := current_part s;
     dir_changed := dir_changed s; eefs_partition := eefs_partition s; matchdh := matchdh s;
     previous_file_dirent := previous_file_dirent s; previous_file_path := previous_file_path s;
     date_match_start := date_match_start s; date_match_end := x; display_found := display_found s |}.
Definition set_display_found (x : bool) (s : dos) : dos :=
  {| command_buffer := command_buffer s; command_length := command_length s; current_part := current_part s;
     dir_changed := dir_changed s; eefs_partition := eefs_partition s; matchdh := matchdh s;
     previous_file_dirent := previous_file_dirent s; previous_file_path := previous_file_path s;
     date_match_start := date_match_start s; date_match_end := date_match_end s; display_found := x |}.

(** The cache of P00 names; [entries] is its length. *)
Record p00_state := { p00cache : list (Z * list Z); cache_part : Z }.

Record world := {
  w_bufs : bufs;
  w_eefs : eefs;
  partition : list partition_t;
  max_part : Z;
  d64 : d64_state;
  clock : tm;
  drv : DRV;
  w_dos : dos;
  p00 : p00_state;
  buf_fil : gmap Z FIL;
  buf_dh : gmap Z dh_t;
  buf_dent : gmap Z cbmdirent_t
}.

Definition set_w_bufs (x : bufs) (w : world) : world :=
  {| w_bufs := x; w_eefs := w_eefs w; partition := partition w; max_part := max_part w; d64 := d64 w;
     clock := clock w; drv := drv w; w_dos := w_dos w; p00 := p00 w; buf_fil := buf_fil w; buf_dh := buf_dh w;
     buf_dent := buf_dent w |}.
Definition set_w_eefs (x : eefs) (w : world) : world :=
  {| w_bufs := w_bufs w; w_eefs := x; partition := partition w; max_part := max_part w; d64 := d64 w;
     clock := clock w; drv := drv w; w_dos := w_dos w; p00 := p00 w; buf_fil := buf_fil w; buf_dh := buf_dh w;
     buf_dent := buf_dent w |}.
Definition set_partition (x : list partition_t) (w : world) : world :=
  {| w_bufs := w_bufs w; w_eefs := w_eefs w; partition := x; max_part := max_part w; d64 := d64 w;
     clock := clock w; drv := drv w; w_dos := w_dos w; p00 := p00 w; buf_fil := buf_fil w; buf_dh := buf_dh w;
     buf_dent := buf_dent w |}.
Definition set_max_part (x : Z) (w : world) : world :=
  {| w_bufs := w_bufs w; w_eefs := w_eefs w; partition := partition w; max_part := x; d64 := d64 w;
     clock := clock w; drv := drv w; w_dos := w_dos w; p00 := p00 w; buf_fil := buf_fil w; buf_dh := buf_dh w;
     buf_dent := buf_dent w |}.
Definition set_d64 (x : d64_state) (w : world) : world :=
  {| w_bufs := w_bufs w; w_eefs := w_eefs w; partition := partition w; max_part := max_part w; d64 := x;
     clock := clock w; drv := drv w; w_dos := w_dos w; p00 := p00 w; buf_fil := buf_fil w; buf_dh := buf_dh w;
     buf_dent := buf_dent w |}.
Definition set_clock (x : tm) (w : world) : world :=
  {| w_bufs := w_bufs w; w_eefs := w_eefs w; partition := partition w; max_part := max_part w; d64 := d64 w;
     clock := x; drv := drv w; w_dos := w_dos w; p00 := p00 w; buf_fil := buf_fil w; buf_dh := buf_dh w;
     buf_dent := buf_dent w |}.
Definition set_drv (x : DRV) (w : world) : world :=
  {| w_bufs := w_bufs w; w_eefs := w_eefs w; partition := partition w; max_part := max_part w; d64 := d64 w;
     clock := clock w; drv := x; w_dos := w_dos w; p00 := p00 w; buf_fil := buf_fil w; buf_dh := buf_dh w;
     buf_dent := buf_dent w |}.
Definition set_w_dos (x : dos) (w : world) : world :=
  {| w_bufs := w_bufs w; w_eefs := w_eefs w; partition := partition w; max_part := max_part w; d64 := d64 w;
     clock := clock w; drv := drv w; w_dos := x; p00 := p00 w; buf_fil := buf_fil w; buf_dh := buf_dh w;
     buf_dent := buf_dent w |}.
Definition set_p00 (x : p00_state) (w : world) : world :=
  {| w_bufs := w_bufs w; w_eefs := w_eefs w; partition := partition w; max_part := max_part w; d64 := d64 w;
     clock := clock w; drv := drv w; w_dos := w_dos w; p00 := x; buf_fil := buf_fil w; buf_dh := buf_dh w;
     buf_dent := buf_dent w |}.
Definition set_buf_fil (x : gmap Z FIL) (w : world) : world :=
  {| w_bufs := w_bufs w; w_eefs := w_eefs w; partition := partition w; max_part := max_part w; d64 := d64 w;
     clock := clock w; drv := drv w; w_dos := w_dos w; p00 := p00 w; buf_fil := x; buf_dh := buf_dh w;
     buf_dent := buf_dent w |}.
Definition set_buf_dh (x : gmap Z dh_t) (w : world) : world :=
  {| w_bufs := w_bufs w; w_eefs := w_eefs w; partition := partition w; max_part := max_part w; d64 := d64 w;
     clock := clock w; drv := drv w; w_dos := w_dos w; p00 := p00 w; buf_fil := buf_fil w; buf_dh := x;
     buf_dent := buf_dent w |}.
Definition set_buf_dent (x : gmap Z cbmdirent_t) (w : world) : world :=
  {| w_bufs := w_bufs w; w_eefs := w_eefs w; partition := partition w; max_part := max_part w; d64 := d64 w;
     clock := clock w; drv := drv w; w_dos := w_dos w; p00 := p00 w; buf_fil := buf_fil w; buf_dh := buf_dh w;
     buf_dent := x |}.
Definition on_bufs {A} (m : comp bufs A) : comp world A := zoom w_bufs set_w_bufs m.
Definition on_eefs {A} (m : comp eefs A) : comp world A := zoom w_eefs set_w_eefs m.
Definition on_d64 {A} (m : comp d64_state A) : comp world A := zoom d64 set_d64 m.
Definition on_dos {A} (m : comp dos A) : comp world A := zoom w_dos set_w_dos m.
Definition on_p00 {A} (m : comp p00_state A) : comp world A := zoom p00 set_p00 m.

(** A call of the FAT driver. *)
Definition call {A} (f : DRV -> A * DRV) : comp world A := fun w => let '(a, d) := f (drv w) in Done a (set_drv d w).

Context `{ErrorConfig} `{BufferConfig}.

Definition wset_error_ts (errornum track sector : Z) : comp world unit := on_bufs (bset_error_ts errornum track sector).
Definition wset_error (errornum : Z) : comp world unit := wset_error_ts errornum 0 0.
Definition get_current_error : comp world Z := gets (fun w => current_error (channel (w_bufs w))).

(** The flags and settings, which the status message also shows. *)
Definition settings : comp world errs := gets (fun w => channel (w_bufs w)).

(** [partition[part]], inside the array only. *)
Definition part_get (part : Z) : comp world partition_t :=
  w ← gets id; of_option (if 0 <=? part then partition w !! Z.to_nat part else None).

Definition part_upd (part : Z) (f : partition_t -> partition_t) : comp world unit :=
  p ← part_get part; modify (fun w => set_partition (<[Z.to_nat part := f p]> (partition w)) w).

(** Blocks of [ops_scratch]. *)
Definition ops_get (i : Z) : comp world Z := on_eefs (scratch_get i).
Definition ops_read (i n : Z) : comp world (list Z) := on_eefs (scratch_read i n).
Definition ops_put (i : Z) (bs : list Z) : comp world unit := on_eefs (scratch_put i bs).

Definition parse_error (res : Z) (readflag : bool) : comp world unit :=
  if res =? FR_OK then wset_error ERROR_OK
  else if res =? FR_NO_FILE then wset_error_ts ERROR_FILE_NOT_FOUND res 0
  else if (res =? FR_NO_PATH) || (res =? FR_NOT_DIRECTORY) then wset_error_ts ERROR_FILE_NOT_FOUND_39 res 0
  else if res =? FR_INVALID_NAME then wset_error_ts ERROR_SYNTAX_JOKER res 0
  else if (res =? FR_NOT_READY) || (res =? FR_INVALID_DRIVE) || (res =? FR_NOT_ENABLED) || (res =? FR_NO_FILESYSTEM) then
    wset_error_ts ERROR_DRIVE_NOT_READY res 0
  else if res =? FR_RW_ERROR then
    wset_error_ts (if readflag then ERROR_READ_NOHEADER else ERROR_WRITE_VERIFY) res 0
  else if res =? FR_WRITE_PROTECTED then wset_error_ts ERROR_WRITE_PROTECT res 0
  else if (res =? FR_EXIST) || (res =? FR_DIR_NOT_EMPTY) then wset_error_ts ERROR_FILE_EXISTS res 0
  else if res =? FR_DENIED then wset_error_ts ERROR_DISK_FULL res 0
  else if (res =? FR_IS_READONLY) || (res =? FR_IS_DIRECTORY) then wset_error_ts ERROR_FILE_EXISTS res 0
  else if res =? FR_INVALID_OBJECT then wset_error_ts ERROR_DRIVE_NOT_READY res 0
  else wset_error_ts ERROR_SYNTAX_UNABLE res 99.

(** The seek that [image_read] and [image_write] start with; [false] when it
    failed. *)
Definition image_seek (part offset : Z) (readflag : bool) : comp world bool :=
  if negb (offset =? 4294967295) then
    p ← part_get part;
    r ← call (f_lseek (imagehandle p) offset);
    let '(res, f) := r in
    part_upd part (set_imagehandle f);;
    if negb (res =? FR_OK) then parse_error res readflag;; mret false else mret true
  else mret true.

(** The bytes that were read are returned; the callers store them. *)
Definition image_read (part offset bytes : Z) : comp world (Z * list Z) :=
  ok ← image_seek part offset true;
  if negb ok then mret (2, [])
  else
    p ← part_get part;
    r ← call (f_read (imagehandle p) bytes);
    let '(res, data, f) := r in
    part_upd part (set_imagehandle f);;
    if negb (res =? FR_OK) then parse_error res true;; mret (2, data)
    else mret (if negb (zlen data =? bytes) then 1 else 0, data).

Definition image_write (part offset : Z) (buffer : list Z) (flush : bool) : comp world Z :=
  ok ← image_seek part offset false;
  if negb ok then mret 2
  else
    p ← part_get part;
    r ← call (f_write (imagehandle p) buffer);
    let '(res, byteswritten, f) := r in
    part_upd part (set_imagehandle f);;
    if negb (res =? FR_OK) then parse_error res true;; mret 2
    else if negb (byteswritten =? zlen buffer) then mret 1
    else
      when flush (p ← part_get part; r ← call (f_sync (imagehandle p)); part_upd part (set_imagehandle r.2));;
      mret 0.
End world.
