(* ===== verification/ImageIO.v ===== *)
(** * Image access on an undamaged medium

    What [image_read] and [image_write] do to the world under the laws of the
    FAT driver, and the frame that they keep. *)

From S2P Require Import Prelude EepromFs ErrorMsg ErrorMsgTheorems Buffers BuffersTheorems FatFs Dirent World.

Section imageio.
Context `{FatFsLaws} `{ErrorConfig} `{BufferConfig}.

Lemma part_get_run part p w : 0 <= part -> partition w !! Z.to_nat part = Some p -> part_get part w = Done p w.
Proof.
  intros Hp Hl. unfold part_get, mbind, comp_bind, gets, id. replace (0 <=? part) with true by lia. by rewrite Hl.
Qed.

(** The world with another file object on a partition, after calls that left
    the driver in the state [d]. *)
Definition with_file (part : Z) (f : FIL) (d : DRV) (w : world) : world :=
  match partition w !! Z.to_nat part with
  | Some p => set_drv d (set_partition (<[Z.to_nat part := set_imagehandle f p]> (partition w)) w)
  | None => w
  end.

Lemma part_upd_file part p f d w : 0 <= part -> partition w !! Z.to_nat part = Some p ->
  part_upd part (set_imagehandle f) (set_drv d w) = Done tt (with_file part f d w).
Proof.
  intros Hp Hl. unfold part_upd, mbind at 1, comp_bind at 1. rewrite (part_get_run part p (set_drv d w) Hp Hl).
  unfold with_file. by rewrite Hl.
Qed.

Lemma call_run {A} (m : DRV -> A * DRV) a d w : m (drv w) = (a, d) -> call m w = Done a (set_drv d w).
Proof. intros Hm. unfold call. by rewrite Hm. Qed.

Lemma with_file_lookup part p f d w : partition w !! Z.to_nat part = Some p ->
  partition (with_file part f d w) !! Z.to_nat part = Some (set_imagehandle f p).
Proof.
  intros Hl. unfold with_file. rewrite Hl. simpl. apply list_lookup_insert_eq. apply lookup_lt_is_Some. by eexists.
Qed.

Lemma with_file_lookup_ne part f d w j : 0 <= part -> 0 <= j -> j <> part ->
  partition (with_file part f d w) !! Z.to_nat j = partition w !! Z.to_nat j.
Proof.
  intros Hp Hj Hne. unfold with_file. destruct (partition w !! Z.to_nat part); [|done].
  simpl. apply list_lookup_insert_ne. lia.
Qed.

Lemma with_file_with_file part f g d e w : with_file part g e (with_file part f d w) = with_file part g e w.
Proof.
  unfold with_file at 2. destruct (partition w !! Z.to_nat part) as [p|] eqn:Hl; [|done].
  unfold with_file. simpl. rewrite list_lookup_insert_eq by (apply lookup_lt_is_Some; by eexists).
  rewrite Hl. unfold set_partition, set_drv. simpl. rewrite list_insert_insert_eq. done.
Qed.

(** A file that can be used for reading and writing. *)
Definition writable (f : FIL) : Prop := usable f /\ Z.land (flag f) FA_WRITE <> 0.

Lemma image_seek_ok part ofs rf w p :
  0 <= part -> partition w !! Z.to_nat part = Some p -> usable (imagehandle p) -> 0 <= ofs <= fsize (imagehandle p) ->
  exists f d, image_seek part ofs rf w = Done true (with_file part f d w) /\
    usable f /\ contents f = contents (imagehandle p) /\ flag f = flag (imagehandle p) /\ f_tell f = ofs.
Proof.
  intros Hp Hl Hu Ho. destruct (usable_size _ Hu) as (Hsz & _ & Hmax).
  destruct (lseek_law _ ofs (drv w) Hu Ho) as (f & d & Hs & Hf). exists f, d. split; [|done].
  unfold image_seek. replace (negb (ofs =? 4294967295)) with true by (symmetry; apply negb_true_iff; lia).
  unfold mbind at 1, comp_bind at 1. rewrite (part_get_run part p w Hp Hl).
  unfold mbind at 1, comp_bind at 1. rewrite (call_run _ _ _ _ Hs). cbv beta iota.
  unfold mbind, comp_bind. by rewrite (part_upd_file part p f d w Hp Hl).
Qed.

Lemma usable_fsize f g : usable f -> usable g -> contents f = contents g -> fsize f = fsize g.
Proof. intros Hf Hg Hc. destruct (usable_size _ Hf) as [<- _], (usable_size _ Hg) as [<- _]. by rewrite Hc. Qed.

(** A read inside the file. *)
Lemma image_read_ok part ofs n w p :
  0 <= part -> partition w !! Z.to_nat part = Some p -> usable (imagehandle p) ->
  0 <= ofs -> 0 <= n -> ofs + n <= fsize (imagehandle p) ->
  exists f d, image_read part ofs n w = Done (0, slice ofs n (contents (imagehandle p))) (with_file part f d w) /\
    usable f /\ contents f = contents (imagehandle p) /\ flag f = flag (imagehandle p).
Proof.
  intros Hp Hl Hu Ho Hn Hle. destruct (usable_size _ Hu) as (Hsz & _ & _).
  destruct (image_seek_ok part ofs true w p Hp Hl Hu ltac:(lia)) as (f & d & Hs & Huf & Hc & Hfl & Hptr).
  pose proof (usable_fsize _ _ Huf Hu Hc) as Hfs.
  destruct (read_law f n (drv (with_file part f d w)) Huf ltac:(lia) Hn ltac:(lia)) as (g & e & Hr & Hug & Hcg & Hflg).
  exists g, e. split_and!; [|done|congruence|congruence].
  unfold image_read. unfold mbind at 1, comp_bind at 1. rewrite Hs. cbv beta iota delta [negb].
  unfold mbind at 1, comp_bind at 1. rewrite (part_get_run part _ _ Hp (with_file_lookup part p f d w Hl)).
  change (imagehandle (set_imagehandle f p)) with f.
  unfold mbind at 1, comp_bind at 1. rewrite (call_run _ _ _ _ Hr). cbv beta iota. unfold mbind at 1, comp_bind at 1.
  rewrite (part_upd_file part _ g e _ Hp (with_file_lookup part p f d w Hl)), with_file_with_file.
  rewrite Hc, Hptr, Z.eqb_refl. cbv beta iota delta [negb]. rewrite zlen_slice by lia. by rewrite Z.eqb_refl.
Qed.

(** A write inside the file. *)
Lemma image_write_ok part ofs bs flush w p :
  0 <= part -> partition w !! Z.to_nat part = Some p -> writable (imagehandle p) -> bytes bs ->
  0 <= ofs -> ofs + zlen bs <= fsize (imagehandle p) ->
  exists f d, image_write part ofs bs flush w = Done 0 (with_file part f d w) /\
    usable f /\ contents f = splice ofs bs (contents (imagehandle p)) /\ flag f = flag (imagehandle p).
Proof.
  intros Hp Hl [Hu Hw] Hbs Ho Hle. destruct (usable_size _ Hu) as (Hsz & _ & _). pose proof (zlen_nonneg bs).
  destruct (image_seek_ok part ofs false w p Hp Hl Hu ltac:(lia)) as (f & d & Hs & Huf & Hc & Hfl & Hptr).
  pose proof (usable_fsize _ _ Huf Hu Hc) as Hfs.
  destruct (write_law f bs (drv (with_file part f d w)) Huf ltac:(congruence) Hbs ltac:(lia) ltac:(lia)) as (g & e & Hr & Hug & Hcg & Hflg).
  destruct (sync_law g (drv (with_file part g e w)) Hug) as (r & h & e' & Hsy & Huh & Hch & Hflh).
  exists (if flush then h else g), (if flush then e' else e).
  split_and!; [|by destruct flush|destruct flush; congruence|destruct flush; congruence].
  unfold image_write. unfold mbind at 1, comp_bind at 1. rewrite Hs. cbv beta iota delta [negb].
  unfold mbind at 1, comp_bind at 1. rewrite (part_get_run part _ _ Hp (with_file_lookup part p f d w Hl)).
  change (imagehandle (set_imagehandle f p)) with f.
  unfold mbind at 1, comp_bind at 1. rewrite (call_run _ _ _ _ Hr). cbv beta iota. unfold mbind at 1, comp_bind at 1.
  rewrite (part_upd_file part _ g e _ Hp (with_file_lookup part p f d w Hl)), with_file_with_file.
  rewrite !Z.eqb_refl. cbv beta iota delta [negb]. unfold when. destruct flush; [|done].
  unfold mbind at 1, comp_bind at 1. unfold mbind at 1, comp_bind at 1.
  rewrite (part_get_run part _ _ Hp (with_file_lookup part p g e w Hl)).
  change (imagehandle (set_imagehandle g p)) with g.
  unfold mbind at 1, comp_bind at 1. rewrite (call_run _ _ _ _ Hsy). simpl snd.
  by rewrite (part_upd_file part _ h e' _ Hp (with_file_lookup part p g e w Hl)), with_file_with_file.
Qed.
End imageio.
