(* ===== verification/D64Geom.v ===== *)
(** * d64ops.c: image formats and the layout of sectors

    The constants and tables of d64ops.c and d64ops.h, and the functions that
    map a track and sector to an offset in the image file.  They depend on the
    partition only through its image type. *)

From S2P Require Import Prelude Buffers FatFs Dirent World.

(** d64ops.h *)
Definition DIR_OFS_FILE_TYPE : Z := 2.
Definition DIR_OFS_TRACK : Z := 3.
Definition DIR_OFS_SECTOR : Z := 4.
Definition DIR_OFS_FILE_NAME : Z := 5.
Definition DIR_OFS_YEAR : Z := 25.
Definition DIR_OFS_MONTH : Z := 26.
Definition DIR_OFS_DAY : Z := 27.
Definition DIR_OFS_HOUR : Z := 28.
Definition DIR_OFS_MINUTE : Z := 29.
Definition DIR_OFS_SIZE_LOW : Z := 30.
Definition DIR_OFS_SIZE_HI : Z := 31.

Definition D64_TYPE_MASK : Z := 127.
Definition D64_TYPE_DNP : Z := 1.
Definition D64_TYPE_D41 : Z := 2.
Definition D64_TYPE_D71 : Z := 3.
Definition D64_TYPE_D81 : Z := 4.
Definition D64_TYPE_D80 : Z := 8.
Definition D64_TYPE_D82 : Z := 16.
Definition D64_HAS_ERRORINFO : Z := 128.

Definition D41_ERROR_OFFSET : Z := 174848.
Definition D71_ERROR_OFFSET : Z := 349696.
Definition D81_ERROR_OFFSET : Z := 819200.
Definition D80_ERROR_OFFSET : Z := 533248.
Definition D82_ERROR_OFFSET : Z := 1066496.

Definition D41_BAM_TRACK : Z := 18.
Definition D41_BAM_SECTOR : Z := 0.
Definition D41_BAM_BYTES_PER_TRACK : Z := 4.
Definition D81_BAM_TRACK : Z := 40.
Definition D81_BAM_SECTOR1 : Z := 1.
Definition D81_BAM_SECTOR2 : Z := 2.
Definition D81_BAM_OFFSET : Z := 10.
Definition D81_BAM_BYTES_PER_TRACK : Z := 6.
Definition D71_BAM2_TRACK : Z := 53.
Definition D71_BAM2_SECTOR : Z := 0.
Definition D71_BAM2_BYTES_PER_TRACK : Z := 3.
Definition D71_BAM_COUNTER2OFFSET : Z := 221.
Definition DNP_BAM_TRACK : Z := 1.
Definition DNP_BAM_SECTOR : Z := 2.
Definition DNP_BAM_LAST_TRACK_OFS : Z := 8.
Definition DNP_ROOTDIR_SECTOR : Z := 34.
Definition DNP_BAM_BYTES_PER_TRACK : Z := 32.
Definition DNP_DIRHEADER_ROOTHDR_TRACK : Z := 32.
Definition DNP_DIRHEADER_ROOTHDR_SECTOR : Z := 33.
Definition DNP_DIRHEADER_PARENTHDR_TRACK : Z := 34.
Definition DNP_DIRHEADER_PARENTENTRY_TRACK : Z := 36.
Definition DNP_LABEL_OFFSET : Z := 4.
Definition DNP_LABEL_AREA_SIZE : Z := 25.
Definition DNP_ID_OFFSET : Z := 22.
Definition D80_BAM_TRACK : Z := 38.
Definition D80_DIR_TRACK : Z := 39.
Definition D80_BAM_SECTOR : Z := 0.
Definition D80_BAM_INTERLEAVE : Z := 3.
Definition D80_BAM_BYTES_PER_TRACK : Z := 5.
Definition MAX_SECTORS_PER_TRACK : Z := 40.

Inductive bamdata_t := BAM_BITFIELD | BAM_FREECOUNT.

Definition mk_param (a b c d e f g : Z) (fn : format_fn) : param_s :=
  {| p_dir_track := a; p_dir_start_sector := b; p_last_track := c; p_label_offset := d; p_id_offset := e;
     p_file_interleave := f; p_dir_interleave := g; p_format_function := fn |}.

Definition d41param : param_s := mk_param 18 1 35 144 162 10 3 format_d41_fn.
Definition d71param : param_s := mk_param 18 1 70 144 162 6 3 format_d71_fn.
Definition d81param : param_s := mk_param 40 3 80 4 22 1 1 format_d81_fn.
Definition dnpparam : param_s := mk_param 1 1 0 DNP_LABEL_OFFSET DNP_ID_OFFSET 1 1 format_dnp_fn.
Definition d80param : param_s := mk_param 39 1 77 6 24 5 3 format_d80_fn.
Definition d82param : param_s := mk_param 39 1 154 6 24 5 3 format_d82_fn.

Definition get_param (d : param_s) (param : param_t) : Z :=
  match param with
  | DIR_TRACK => p_dir_track d
  | DIR_START_SECTOR => p_dir_start_sector d
  | LAST_TRACK => p_last_track d
  | LABEL_OFFSET => p_label_offset d
  | ID_OFFSET => p_id_offset d
  | FILE_INTERLEAVE => p_file_interleave d
  | DIR_INTERLEAVE => p_dir_interleave d
  end.

(** The image type without the error info flag. *)
Definition base_type (imagetype : Z) : Z := Z.land imagetype D64_TYPE_MASK.

Definition sector_lba (imagetype track sector : Z) : Z :=
  let track := u8 (track - 1) in
  let ty := base_type imagetype in
  u16 (
    if ty =? D64_TYPE_D81 then track * 40 + sector
    else if ty =? D64_TYPE_DNP then track * 256 + sector
    else if (ty =? D64_TYPE_D80) || (ty =? D64_TYPE_D82) then
      let '(offset, track) := if 78 <=? track then (2083, track - 77) else (0, track) in
      if track <? 39 then track * 29 + sector + offset
      else if track <? 53 then 39 * 29 + (track - 39) * 27 + sector + offset
      else if track <? 64 then 39 * 29 + 14 * 27 + (track - 53) * 25 + sector + offset
      else 39 * 29 + 14 * 27 + 11 * 25 + (track - 64) + sector + offset
    else
      let '(offset, track) := if 35 <=? track then (683, track - 35) else (0, track) in
      if track <? 17 then track * 21 + sector + offset
      else if track <? 24 then 17 * 21 + (track - 17) * 19 + sector + offset
      else if track <? 30 then 17 * 21 + 7 * 19 + (track - 24) * 18 + sector + offset
      else 17 * 21 + 7 * 19 + 6 * 18 + (track - 30) * 17 + sector + offset).

Definition sector_offset (imagetype track sector : Z) : Z := 256 * sector_lba imagetype track sector.

Definition sectors_per_track (imagetype track : Z) : Z :=
  let ty := base_type imagetype in
  if ty =? D64_TYPE_D81 then 40
  else if ty =? D64_TYPE_DNP then 256
  else if (ty =? D64_TYPE_D80) || (ty =? D64_TYPE_D82) then
    let track := if 77 <? track then track - 77 else track in
    if track <? 40 then 29 else if track <? 54 then 27 else if track <? 65 then 25 else 23
  else
    let track := if 35 <? track then track - 35 else track in
    if track <? 18 then 21 else if track <? 25 then 19 else if track <? 31 then 18 else 17.

(** [while (track > 50) { s += 3; track -= 50; }]; a track below 256 takes at
    most five rounds. *)
Fixpoint d80_bam_walk (fuel : nat) (s track : Z) : Z * Z :=
  match fuel with
  | O => (s, track)
  | S fuel => if 50 <? track then d80_bam_walk fuel (u8 (s + D80_BAM_INTERLEAVE)) (track - 50) else (s, track)
  end.

(** The sector of the BAM, and the place in it, that describes a track:
    [(t, s, pos)] of [move_bam_window]. *)
Definition bam_position (imagetype track : Z) (type : bamdata_t) : Z * Z * Z :=
  let ty := base_type imagetype in
  let bit := match type with BAM_BITFIELD => 1 | BAM_FREECOUNT => 0 end in
  if ty =? D64_TYPE_D71 then
    if (35 <? track) && (bit =? 1) then
      (D71_BAM2_TRACK, D71_BAM2_SECTOR, u8 ((track - 36) * D71_BAM2_BYTES_PER_TRACK))
    else
      (D41_BAM_TRACK, D41_BAM_SECTOR,
       if 35 <? track then u8 (track - 36 + D71_BAM_COUNTER2OFFSET) else u8 (D41_BAM_BYTES_PER_TRACK * track + bit))
  else if ty =? D64_TYPE_D81 then
    let s := if track <? 41 then D81_BAM_SECTOR1 else D81_BAM_SECTOR2 in
    let track := if 40 <? track then track - 40 else track in
    (D81_BAM_TRACK, s, u8 (D81_BAM_OFFSET + track * D81_BAM_BYTES_PER_TRACK + bit))
  else if ty =? D64_TYPE_DNP then
    (DNP_BAM_TRACK, u8 (DNP_BAM_SECTOR + Z.shiftr track 3), u8 (Z.land track 7 * 32))
  else if (ty =? D64_TYPE_D80) || (ty =? D64_TYPE_D82) then
    let '(s, track) := d80_bam_walk 6 D80_BAM_SECTOR track in
    (D80_BAM_TRACK, s, u8 (1 + D80_BAM_BYTES_PER_TRACK * track + bit))
  else (D41_BAM_TRACK, D41_BAM_SECTOR, u8 (D41_BAM_BYTES_PER_TRACK * track + bit)).
