(* ===== verification/D64.v ===== *)
(** * d64ops.c: disk images

    The operations on Dxx images: sector access with error information, the
    BAM and its two buffers, sector allocation, directories and files.  Every
    function runs on the [world]; a buffer is an index into the pool, and a
    pointer into the BAM is a buffer and a position. *)

From S2P Require Import Prelude EepromFs ErrorMsg Utils Buffers FatFs Dirent World D64Geom.

(** [dent->pvt.dxx.dh] *)
Definition dent_dh (dent : cbmdirent_t) : option d64dh :=
  match de_pvt dent with
  | DentDxx dh => Some dh
  | DentZero => Some (D64dh 0 0 0)
  | DentFat _ _ => None
  end.

(** A directory handle on an image: a [dh_t] whose union holds [d64]. *)
Record d64_handle := Dh { hd_part : Z; hd_dh : d64dh }.

(** The characters in front of the terminator of a C string. *)
Fixpoint strz (l : list Z) : option (list Z) :=
  match l with
  | [] => None
  | c :: l' => if c =? 0 then Some [] else r ← strz l'; Some (c :: r)
  end.

(** The members of the union [pvt]. *)
Definition pvt_bam (p : pvt_t) : option (Z * Z * Z) :=
  match p with
  | PvtBam part track sector => Some (part, track, sector)
  | PvtZero => Some (0, 0, 0)
  | _ => None
  end.

Definition pvt_d64 (p : pvt_t) : option d64fh :=
  match p with
  | PvtD64 fh => Some fh
  | PvtZero => Some {| fh_dh := D64dh 0 0 0; fh_part := 0; fh_track := 0; fh_sector := 0; fh_blocks := 0 |}
  | _ => None
  end.

(** [strnsubst] on the first [len] characters, [len] from 1. *)
Definition strnsubst (len oldchar newchar : Z) (buffer : list Z) : list Z :=
  ((fun c => if c =? oldchar then newchar else c) <$> take (Z.to_nat len) buffer) ++ drop (Z.to_nat len) buffer.

(** A counting loop that stops at the first [false]. *)
Definition for_ok {W} (a : Z) (n : nat) (body : Z -> comp W bool) : comp W bool :=
  for_range a n (fun i (ok : bool) => if ok then body i else mret false) true.

Section d64.
Context `{FatFs} `{Assertions} `{ErrorConfig} `{BufferConfig} `{SystemConfig}.

Definition get_offset (part track sector : Z) : comp world Z :=
  p ← part_get part; mret (sector_offset (imagetype p) track sector).
Definition get_spt (part track : Z) : comp world Z := p ← part_get part; mret (sectors_per_track (imagetype p) track).
Definition part_param (part : Z) (param : param_t) : comp world Z := p ← part_get part; mret (get_param (d64data p) param).

(** The place of the error information in the image file. *)
Definition error_offset (ty : Z) : option Z :=
  if ty =? D64_TYPE_D41 then Some D41_ERROR_OFFSET
  else if ty =? D64_TYPE_D71 then Some D71_ERROR_OFFSET
  else if ty =? D64_TYPE_D81 then Some D81_ERROR_OFFSET
  else if ty =? D64_TYPE_D80 then Some D80_ERROR_OFFSET
  else if ty =? D64_TYPE_D82 then Some D82_ERROR_OFFSET
  else None.

(** The error cache is filled for the track: [false] if that failed. *)
Definition fill_errorcache (part track : Z) : comp world bool :=
  w ← gets id;
  if negb (ec_part (d64 w) =? part) || negb (ec_track (d64 w) =? track) then
    on_d64 (modify (set_ec_errors (fill MAX_SECTORS_PER_TRACK 1)));;
    p ← part_get part;
    match error_offset (base_type (imagetype p)) with
    | None => mret false
    | Some ofs =>
        r ← image_read part (ofs + sector_lba (imagetype p) track 0) (sectors_per_track (imagetype p) track);
        errors ← of_option (store_block (fill MAX_SECTORS_PER_TRACK 1) 0 r.2);
        on_d64 (modify (set_ec_errors errors));;
        if 2 <=? r.1 then mret false
        else on_d64 (modify (fun s => set_ec_track track (set_ec_part part s)));; mret true
    end
  else mret true.

(** The range check of a track and sector. *)
Definition legal_ts (p : partition_t) (track sector : Z) : bool :=
  negb ((track <? 1) || (get_param (d64data p) LAST_TRACK <? track)
        || (sectors_per_track (imagetype p) track <=? sector)).

(** The check against the error information: [false] if the sector is bad. *)
Definition check_errorinfo (part track sector : Z) : comp world bool :=
  p ← part_get part;
  if Z.land (imagetype p) D64_HAS_ERRORINFO =? 0 then mret true
  else
    ok ← fill_errorcache part track;
    if negb ok then mret false
    else
      w ← gets id;
      code ← of_option (load (ec_errors (d64 w)) sector);
      if (2 <=? code) && (code <=? 11) then wset_error_ts (code - 2 + 20) track sector;; mret false
      else if code =? 15 then wset_error 74;; mret false
      else mret true.

(** The result comes with the bytes that were read. *)
Definition checked_read (part track sector len error : Z) : comp world (Z * list Z) :=
  p ← part_get part;
  if negb (legal_ts p track sector) then wset_error_ts error track sector;; mret (2, [])
  else
    ok ← check_errorinfo part track sector;
    if negb ok then mret (2, [])
    else image_read part (sector_offset (imagetype p) track sector) len.

(** The timestamp in the directory entry in [ops_scratch]. *)
Definition update_timestamp : comp world unit :=
  w ← gets id;
  if HAVE_RTC then
    let t := clock w in
    ops_put DIR_OFS_YEAR [tm_year t `mod` 100];;
    ops_put DIR_OFS_MONTH [u8 (tm_mon t + 1)];;
    ops_put DIR_OFS_DAY [tm_mday t];;
    ops_put DIR_OFS_HOUR [tm_hour t];;
    ops_put DIR_OFS_MINUTE [tm_min t]
  else
    ops_put DIR_OFS_YEAR [82];; ops_put DIR_OFS_MONTH [8];; ops_put DIR_OFS_DAY [31];;
    ops_put DIR_OFS_HOUR [0];; ops_put DIR_OFS_MINUTE [0].

(** [write_entry] and [read_entry] always work on [ops_scratch]. *)
Definition d64_write_entry (part : Z) (dh : d64dh) (flush : bool) : comp world Z :=
  ofs ← get_offset part (dh_track dh) (dh_sector dh);
  bs ← ops_read 0 32;
  image_write part (ofs + dh_entry dh * 32) bs flush.

Definition d64_read_entry (part : Z) (dh : d64dh) : comp world Z :=
  ofs ← get_offset part (dh_track dh) (dh_sector dh);
  r ← image_read part (ofs + dh_entry dh * 32) 32;
  ops_put 0 r.2;;
  mret r.1.

(** The work area is a pool buffer. *)
Definition clear_dir_sector (part t s data : Z) : comp world Z :=
  on_bufs (data_put data 0 (fill 256 0));;
  on_bufs (data_put data 1 [255]);;
  ofs ← get_offset part t s;
  bs ← on_bufs (data_read data 0 256);
  image_write part ofs bs false.

(** ** BAM buffers *)

Definition buf_pvt_bam (buf : Z) : comp world (Z * Z * Z) :=
  b ← on_bufs (buf_get buf); of_option (pvt_bam (pvt b)).

Definition bam_buffer_flush (buf : Z) : comp world Z :=
  b ← on_bufs (buf_get buf);
  bam ← of_option (pvt_bam (pvt b));
  let '(part, track, sector) := bam in
  w ← gets id;
  if mustflush b && (part <? max_part w) then
    ofs ← get_offset part track sector;
    bs ← on_bufs (data_read buf 0 256);
    res ← image_write part ofs bs true;
    on_bufs (buf_upd buf (set_mustflush false));;
    mret res
  else mret 0.

(** [bam_buffer->cleanup(bam_buffer)] *)
Definition bam_cleanup (buf : Z) : comp world Z :=
  b ← on_bufs (buf_get buf);
  match cleanup b with
  | Some cb_bam_buffer_flush => bam_buffer_flush buf
  | Some cb_callback_dummy => mret 0
  | _ => stuck
  end.

Definition d64_bam_commit : comp world Z :=
  w ← gets id;
  (match bam_buffer (d64 w) with Some b => bam_cleanup b;; mret tt | None => mret tt end);;
  (match bam_buffer2 (d64 w) with Some b => bam_cleanup b;; mret tt | None => mret tt end);;
  mret 0.

(** The buffer pointer is the result when the allocation succeeds. *)
Definition bam_buffer_alloc : comp world (option Z) :=
  r ← on_bufs alloc_system_buffer;
  match r with
  | None => mret None
  | Some buf =>
      on_bufs (buf_upd buf (fun b =>
        set_cleanup (Some cb_bam_buffer_flush) (set_pvt (PvtBam 255 0 0) (set_secondary BUFFER_SYS_BAM b))));;
      on_bufs (stick_buffer buf);;
      mret (Some buf)
  end.

Definition bam_buffer_swap : comp world unit :=
  on_d64 (modify (fun s => set_bam_buffer2 (bam_buffer s) (set_bam_buffer (bam_buffer2 s) s))).

Definition bam_buffer_match (buf part track sector : Z) : comp world bool :=
  bam ← buf_pvt_bam buf;
  let '(bpart, btrack, bsector) := bam in
  mret ((bpart =? part) && (btrack =? track) && (bsector =? sector)).

(** [bam_buffer], which must not be NULL when it is used. *)
Definition the_bam_buffer : comp world Z := w ← gets id; of_option (bam_buffer (d64 w)).

(** Select the buffer for a BAM sector that is not in [bam_buffer]; [true] if
    the other buffer holds it. *)
Definition bam_select (part t s : Z) : comp world bool :=
  w ← gets id;
  match bam_buffer2 (d64 w) with
  | Some _ =>
      bam_buffer_swap;;
      b ← the_bam_buffer;
      bam_buffer_match b part t s
  | None =>
      b ← the_bam_buffer;
      bam ← buf_pvt_bam b;
      when (negb (bam.1.1 =? 255)) (
        r ← bam_buffer_alloc;
        on_d64 (modify (set_bam_buffer2 r));;
        match r with
        | None => wset_error ERROR_OK
        | Some _ => bam_buffer_swap
        end);;
      mret false
  end.

(** Read a BAM sector into [bam_buffer], flushing what it held. *)
Definition bam_load (part t s : Z) : comp world Z :=
  b ← the_bam_buffer;
  res ← bam_cleanup b;
  if negb (res =? 0) then mret 1
  else
    ofs ← get_offset part t s;
    r ← image_read part ofs 256;
    on_bufs (data_put b 0 r.2);;
    if negb (r.1 =? 0) then mret r.1
    else on_bufs (buf_upd b (set_pvt (PvtBam part t s)));; mret 0.

(** The result comes with the position in the data of [bam_buffer]. *)
Definition move_bam_window (part track : Z) (type : bamdata_t) : comp world (Z * Z) :=
  p ← part_get part;
  let '(t, s, pos) := bam_position (imagetype p) track type in
  b ← the_bam_buffer;
  hit ← bam_buffer_match b part t s;
  if (hit : bool) then mret (0, pos)
  else
    found ← bam_select part t s;
    if (found : bool) then mret (0, pos)
    else res ← bam_load part t s; mret (res, pos).

(** [ptr[i]] of the pointer that [move_bam_window] returned, read and written. *)
Definition bam_get (ptr i : Z) : comp world Z := b ← the_bam_buffer; on_bufs (data_get b (ptr + i)).
Definition bam_put (ptr i x : Z) : comp world unit := b ← the_bam_buffer; on_bufs (data_put b (ptr + i) [x]).
Definition bam_mustflush : comp world unit := b ← the_bam_buffer; on_bufs (buf_upd b (set_mustflush true)).

(** The bit of a sector in its byte; DNP images have it reversed. *)
Definition sector_bit (dnp : bool) (sector : Z) : Z :=
  if dnp then Z.shiftr 128 (Z.land sector 7) else Z.shiftl 1 (Z.land sector 7).

Definition is_dnp (p : partition_t) : bool := imagetype p =? D64_TYPE_DNP.

Definition is_free (part track sector : Z) : comp world Z :=
  r ← move_bam_window part track BAM_BITFIELD;
  if negb (r.1 =? 0) then mret (-1)
  else
    p ← part_get part;
    x ← bam_get r.2 (Z.shiftr sector 3);
    mret (if negb (Z.land x (sector_bit (is_dnp p) sector) =? 0) then 1 else 0).

(** Count the bits of a byte. *)
Definition count_bits (x : Z) : Z :=
  let b := u8 (Z.land x 85 + Z.land (Z.shiftr x 1) 85) in
  let b := u8 (Z.land b 51 + Z.land (Z.shiftr b 2) 51) in
  u8 (Z.land b 15 + Z.land (Z.shiftr b 4) 15).

Definition sectors_free (part track : Z) : comp world Z :=
  p ← part_get part;
  if (track <? 1) || (get_param (d64data p) LAST_TRACK <? track) then mret 0
  else
    r ← move_bam_window part track BAM_FREECOUNT;
    if negb (r.1 =? 0) then mret 0
    else if base_type (imagetype p) =? D64_TYPE_DNP then
      for_range 0 (Z.to_nat DNP_BAM_BYTES_PER_TRACK) (fun i blocks =>
        x ← bam_get r.2 i; mret (u16 (blocks + count_bits x))) 0
    else bam_get r.2 0.

Definition allocate_sector (part track sector : Z) : comp world Z :=
  res ← is_free part track sector;
  if res <? 0 then mret 1
  else if negb (res =? 0) then
    r ← move_bam_window part track BAM_BITFIELD;
    if negb (r.1 =? 0) then mret 1
    else
      bam_mustflush;;
      p ← part_get part;
      x ← bam_get r.2 (Z.shiftr sector 3);
      bam_put r.2 (Z.shiftr sector 3) (Z.land x (u8 (Z.lnot (sector_bit (is_dnp p) sector))));;
      if is_dnp p then mret 0
      else
        r ← move_bam_window part track BAM_FREECOUNT;
        if negb (r.1 =? 0) then mret 1
        else
          n ← bam_get r.2 0;
          when (0 <? n) (bam_put r.2 0 (n - 1);; bam_mustflush);;
          mret 0
  else mret 0.

Definition free_sector (part track sector : Z) : comp world Z :=
  res ← is_free part track sector;
  if res <? 0 then mret 1
  else if res =? 0 then
    r ← move_bam_window part track BAM_BITFIELD;
    if negb (r.1 =? 0) then mret 1
    else
      bam_mustflush;;
      p ← part_get part;
      x ← bam_get r.2 (Z.shiftr sector 3);
      bam_put r.2 (Z.shiftr sector 3) (Z.lor x (sector_bit (is_dnp p) sector));;
      if is_dnp p then mret 0
      else
        r ← move_bam_window part track BAM_FREECOUNT;
        if negb (r.1 =? 0) then mret 1
        else
          n ← bam_get r.2 0;
          when (n <? sectors_per_track (imagetype p) track) (bam_put r.2 0 (u8 (n + 1));; bam_mustflush);;
          mret 0
  else mret 0.

(** ** Sector allocation *)

(** [if (current_error == ERROR_OK) set_error(ERROR_DISK_FULL);] *)
Definition disk_full_error : comp world unit :=
  e ← get_current_error; when (e =? ERROR_OK) (wset_error ERROR_DISK_FULL).

(** The search for a track of a DNP image, from [track] on: [None] when it
    returns to track [stop]. *)
Definition dnp_find_track (fuel : nat) (part track stop : Z) : comp world (option Z) :=
  loop fuel (fun track =>
    n ← sectors_free part track;
    if negb (n =? 0) then mret (inr (Some track))
    else
      last ← part_param part LAST_TRACK;
      let track := u8 (track + 1) in
      let track := if (track =? last) || (track =? 0) then 1 else track in
      if track =? stop then mret (inr None) else mret (inl track)) track.

(** The search for a track near the directory; the result is [distance], an
    8-bit signed integer. *)
Definition find_distance (fuel : nat) (part : Z) : comp world Z :=
  last ← part_param part LAST_TRACK;
  dir ← part_param part DIR_TRACK;
  loop fuel (fun distance =>
    if distance <? last then
      n ← sectors_free part (u8 (dir - distance));
      if negb (n =? 0) then mret (inr distance)
      else
        let distance := s8 (- distance) in
        mret (inl (if 0 <? distance then s8 (distance + 1) else distance))
    else mret (inr distance)) 1.

(** The first free sector of a track. *)
Definition first_sector (part track : Z) : comp world (option Z) :=
  spt ← get_spt part track;
  loop 257 (fun sector =>
    if sector <? spt then
      f ← is_free part track sector;
      if 0 <? f then mret (inr (Some sector)) else mret (inl (u8 (sector + 1)))
    else mret (inr None)) 0.

(** The result comes with the track and sector, which the callers use only
    when it is 0. *)
Definition get_first_sector (part : Z) : comp world (Z * Z * Z) :=
  p ← part_get part;
  r ← (if is_dnp p then
         dnp_find_track 520 part 2 2
       else
         distance ← find_distance 520 part;
         if distance =? get_param (d64data p) LAST_TRACK then disk_full_error;; mret None
         else mret (Some (u8 (get_param (d64data p) DIR_TRACK - distance))));
  match r with
  | None => mret (1, 0, 0)
  | Some track =>
      s ← first_sector part track;
      match s with
      | Some sector => mret (0, track, sector)
      | None => disk_full_error;; mret (1, track, 0)
      end
  end.

(** The step of the search from a track without free sectors. *)
Definition step_track (it last dir tries track sector : Z) : Z * Z * Z :=
  let track :=
    if track <? dir then u8 (track - 1)
    else
      let track := u8 (track + 1) in
      if (base_type it =? D64_TYPE_D71) && (track =? D71_BAM2_TRACK) then u8 (track + 1) else track in
  let '(tries, track, sector) := if track <? 1 then (tries + 1, u8 (dir + 1), 0) else (tries, track, sector) in
  if last <? track then (tries + 1, u8 (dir - 1), 0) else (tries, track, sector).

(** The next track with free sectors: [(tries, track, sector)]. *)
Definition next_track (fuel : nat) (part track sector : Z) : comp world (Z * Z * Z) :=
  p ← part_get part;
  loop fuel (fun '(tries, track, sector) =>
    if tries <? 3 then
      n ← sectors_free part track;
      if negb (n =? 0) then mret (inr (tries, track, sector))
      else mret (inl (step_track (imagetype p) (get_param (d64data p) LAST_TRACK) (get_param (d64data p) DIR_TRACK)
                        tries track sector))
    else mret (inr (tries, track, sector))) (0, track, sector).

(** [while (is_free(...) <= 0 && tries--)]: the sector and the value of the
    8-bit counter [tries] behind the loop. *)
Definition scan_sector (part track sector : Z) : comp world (Z * Z) :=
  spt ← get_spt part track;
  loop 101 (fun '(tries, sector) =>
    f ← is_free part track sector;
    if 0 <? f then mret (inr (tries, sector))
    else if tries =? 0 then mret (inr (255, sector))
    else
      let sector := u8 (sector + 1) in
      mret (inl (tries - 1, if spt <=? sector then 0 else sector))) (99, sector).

(** The DNP branch of [get_next_sector]. *)
Definition dnp_next_sector (part track sector : Z) : comp world (Z * Z * Z) :=
  r ← dnp_find_track 520 part track track;
  match r with
  | None => mret (1, track, sector)
  | Some newtrack =>
      newsector ← loop 257 (fun newsector =>
        f ← is_free part newtrack newsector;
        if f =? 0 then mret (inl (u8 (newsector + 1))) else mret (inr newsector))
        (if newtrack =? track then sector else 0);
      mret (0, newtrack, newsector)
  end.

(** The result comes with the new values of track and sector. *)
Definition get_next_sector (part track sector : Z) : comp world (Z * Z * Z) :=
  p ← part_get part;
  if is_dnp p then dnp_next_sector part track sector
  else
    let dir := get_param (d64data p) DIR_TRACK in
    n ← (if track =? dir then sectors_free part dir else mret 1);
    if n =? 0 then disk_full_error;; mret (1, track, sector)
    else
      let interleave := get_param (d64data p) (if track =? dir then DIR_INTERLEAVE else FILE_INTERLEAVE) in
      r ← next_track 800 part track sector;
      let '(tries, track, sector) := r in
      if tries =? 3 then disk_full_error;; mret (1, track, sector)
      else
        spt ← get_spt part track;
        let sector := u8 (sector + interleave) in
        let sector := if spt <=? sector then
                        let sector := u8 (sector - spt) in
                        if negb (sector =? 0) then u8 (sector - 1) else sector
                      else sector in
        r ← scan_sector part track sector;
        let '(tries, sector) := r in
        if negb (tries =? 0) then mret (0, track, sector)
        else disk_full_error;; mret (1, track, sector).
End d64.
