(* ===== verification/D64GeomTheorems.v ===== *)
(** * d64ops.c: theorems on the layout of disk images

    Tracks follow each other without gaps, so different sectors are different
    blocks of the image file, inside the file; and the BAM has a bit of its
    own for every sector, apart from the counters. *)

From S2P Require Import Prelude Utils UtilsTheorems Buffers FatFs Dirent World D64Geom D64.

(** The image formats whose layout is linear, with the number of tracks and
    the size of the sectors in the file: every format except D80 and D82. *)
Inductive linear_format : Z -> Z -> Z -> Prop :=
| LinearD41 e : e = 0 \/ e = D64_HAS_ERRORINFO -> linear_format (Z.lor D64_TYPE_D41 e) 35 174848
| LinearD71 e : e = 0 \/ e = D64_HAS_ERRORINFO -> linear_format (Z.lor D64_TYPE_D71 e) 70 349696
| LinearD81 e : e = 0 \/ e = D64_HAS_ERRORINFO -> linear_format (Z.lor D64_TYPE_D81 e) 80 819200
| LinearDNP n : 1 <= n <= 255 -> linear_format D64_TYPE_DNP n (n * 65536).

(** A sector of an image. *)
Definition valid_ts (imagetype last t s : Z) : Prop := 1 <= t <= last /\ 0 <= s < sectors_per_track imagetype t.

(** The number of sectors on the first [n] tracks. *)
Fixpoint sectors_before (imagetype : Z) (n : nat) : Z :=
  match n with
  | O => 0
  | S n => sectors_before imagetype n + sectors_per_track imagetype (Z.of_nat (S n))
  end.

Lemma sectors_before_succ it n : 0 <= n ->
  sectors_before it (Z.to_nat (n + 1)) = sectors_before it (Z.to_nat n) + sectors_per_track it (n + 1).
Proof.
  intros Hn. replace (Z.to_nat (n + 1)) with (S (Z.to_nat n)) by lia. cbn [sectors_before].
  do 2 f_equal. lia.
Qed.

Lemma spt_range it t : 1 <= sectors_per_track it t <= 256.
Proof. unfold sectors_per_track. repeat case_match; lia. Qed.

(** A check of all tracks and sectors by computation. *)
Definition all_ts (it last : Z) (f : Z -> Z -> bool) : bool :=
  forallb (fun t => forallb (f t) (seqZ 0 (sectors_per_track it t))) (seqZ 1 last).

Lemma all_ts_true it last f t s : all_ts it last f = true -> valid_ts it last t s -> f t s = true.
Proof.
  unfold all_ts. intros Hf [Ht Hs]. rewrite forallb_forall in Hf.
  assert (forallb (f t) (seqZ 0 (sectors_per_track it t)) = true) as Hf'.
  { apply Hf, list_elem_of_In, elem_of_seqZ. lia. }
  rewrite forallb_forall in Hf'. apply Hf', list_elem_of_In, elem_of_seqZ. lia.
Qed.

Definition linear_at (it t s : Z) : bool := sector_lba it t s =? sectors_before it (Z.to_nat (t - 1)) + s.

Lemma linear_at_true it last size t s :
  linear_format it last size -> valid_ts it last t s -> linear_at it t s = true.
Proof.
  intros Hf Hv. destruct Hf as [e He|e He|e He|n Hn].
  1-3: destruct He as [->| ->]; (eapply all_ts_true; [|exact Hv]; by vm_compute).
  destruct Hv as [Ht Hs]. unfold linear_at. 
  assert (sectors_before D64_TYPE_DNP (Z.to_nat (t - 1)) = (t - 1) * 256) as ->.
  { assert (forall k, sectors_before D64_TYPE_DNP k = Z.of_nat k * 256) as Hk; [|rewrite Hk; lia].
    induction k as [|k IH]; [done|]. cbn [sectors_before]. rewrite IH.
    change (sectors_per_track D64_TYPE_DNP (Z.of_nat (S k))) with 256. lia. }
  change (sectors_per_track D64_TYPE_DNP t) with 256 in Hs. unfold sector_lba. simpl.
  rewrite u8_id, u16_id by lia. apply Z.eqb_refl.
Qed.

(** The sectors of the tracks up to the last fill the data area. *)
Lemma format_size it last size :
  linear_format it last size -> 1 <= last <= 255 /\ size = 256 * sectors_before it (Z.to_nat last).
Proof.
  intros Hf. destruct Hf as [e He|e He|e He|n Hn].
  1-3: destruct He as [->| ->]; (split; [lia|by vm_compute]).
  split; [lia|]. assert (forall k, sectors_before D64_TYPE_DNP k = Z.of_nat k * 256) as Hk; [|rewrite Hk; lia].
  induction k as [|k IH]; [done|]. cbn [sectors_before]. rewrite IH.
  change (sectors_per_track D64_TYPE_DNP (Z.of_nat (S k))) with 256. lia.
Qed.

Lemma sectors_before_mono it m n : 0 <= m <= n -> sectors_before it (Z.to_nat m) <= sectors_before it (Z.to_nat n).
Proof.
  intros Hmn. replace n with (m + (n - m)) by lia. assert (0 <= n - m) as Hd by lia. revert Hd.
  generalize (n - m) as k. intros k Hk. revert k Hk. apply natlike_ind; [by rewrite Z.add_0_r|].
  intros k Hk IH. pose proof (sectors_before_succ it (m + k) ltac:(lia)) as Hs.
  pose proof (spt_range it (m + k + 1)). replace (m + Z.succ k) with (m + k + 1) by lia. lia.
Qed.

Lemma lba_linear it last size t s :
  linear_format it last size -> valid_ts it last t s ->
  sector_lba it t s = sectors_before it (Z.to_nat (t - 1)) + s.
Proof. intros Hf Hv. pose proof (linear_at_true _ _ _ _ _ Hf Hv) as Hl. by apply Z.eqb_eq in Hl. Qed.

Lemma lba_bounds it last size t s :
  linear_format it last size -> valid_ts it last t s -> 0 <= sector_lba it t s /\ 256 * sector_lba it t s + 256 <= size.
Proof.
  intros Hf Hv. rewrite (lba_linear it last size t s Hf Hv). destruct (format_size _ _ _ Hf) as [_ ->].
  destruct Hv as [Ht Hs]. pose proof (sectors_before_succ it (t - 1) ltac:(lia)) as Hsb.
  replace (t - 1 + 1) with t in Hsb by lia. pose proof (sectors_before_mono it t last ltac:(lia)).
  pose proof (sectors_before_mono it 0 (t - 1) ltac:(lia)). change (sectors_before it (Z.to_nat 0)) with 0 in *. lia.
Qed.

(** In track order. *)
Lemma lba_increasing it last size t s t' s' :
  linear_format it last size -> valid_ts it last t s -> valid_ts it last t' s' ->
  t < t' \/ (t = t' /\ s < s') -> sector_lba it t s < sector_lba it t' s'.
Proof.
  intros Hf Hv Hv' Hlt. rewrite (lba_linear _ _ _ _ _ Hf Hv), (lba_linear _ _ _ _ _ Hf Hv').
  destruct Hv as [Ht Hs], Hv' as [Ht' Hs']. destruct Hlt as [Hlt|[-> Hlt]]; [|lia].
  pose proof (sectors_before_succ it (t - 1) ltac:(lia)) as Hsb. replace (t - 1 + 1) with t in Hsb by lia.
  pose proof (sectors_before_mono it t (t' - 1) ltac:(lia)). lia.
Qed.

Lemma lba_injective it last size t s t' s' :
  linear_format it last size -> valid_ts it last t s -> valid_ts it last t' s' ->
  sector_lba it t s = sector_lba it t' s' -> t = t' /\ s = s'.
Proof.
  intros Hf Hv Hv' Heq.
  destruct (Z.lt_trichotomy t t') as [Hlt|[Ht|Hlt]].
  - pose proof (lba_increasing _ _ _ _ _ _ _ Hf Hv Hv' ltac:(by left)). lia.
  - destruct (Z.lt_trichotomy s s') as [Hlt|[Hs|Hlt]]; [|done|].
    + pose proof (lba_increasing _ _ _ _ _ _ _ Hf Hv Hv' ltac:(by right)). lia.
    + pose proof (lba_increasing _ _ _ _ _ _ _ Hf Hv' Hv ltac:(by right)). lia.
  - pose proof (lba_increasing _ _ _ _ _ _ _ Hf Hv' Hv ltac:(by left)). lia.
Qed.

(** Different sectors are blocks that do not overlap. *)
Lemma blocks_apart it last size t s t' s' :
  linear_format it last size -> valid_ts it last t s -> valid_ts it last t' s' -> (t, s) <> (t', s') ->
  sector_offset it t s + 256 <= sector_offset it t' s' \/ sector_offset it t' s' + 256 <= sector_offset it t s.
Proof.
  intros Hf Hv Hv' Hne. unfold sector_offset.
  destruct (Z.lt_trichotomy (sector_lba it t s) (sector_lba it t' s')) as [?|[Heq|?]]; [lia| |lia].
  destruct (lba_injective _ _ _ _ _ _ _ Hf Hv Hv' Heq). congruence.
Qed.

(** ** The block availability map *)

(** The place in the image file of what the BAM says about a track. *)
Definition bam_offset (it t : Z) (type : bamdata_t) : Z :=
  let '(bt, bs, pos) := bam_position it t type in sector_offset it bt bs + pos.

(** The bytes of the bitmap of a track. *)
Definition bitmap_bytes (it t : Z) : Z := (sectors_per_track it t + 7) / 8.

(** The sector of the BAM for a track is on the disk and holds the bitmap. *)
Definition bam_inside (it last t : Z) (type : bamdata_t) : bool :=
  let '(bt, bs, pos) := bam_position it t type in
  (1 <=? bt) && (bt <=? last) && (0 <=? bs) && (bs <? sectors_per_track it bt) && (0 <=? pos)
  && (pos + (if type is BAM_BITFIELD then bitmap_bytes it t else 1) <=? 256).

Definition apart (a n b m : Z) : bool := (a + n <=? b) || (b + m <=? a).

(** The bitmaps of two tracks, and for the formats that have them their
    counters, do not overlap. *)
Definition bam_apart (it t t' : Z) : bool :=
  let b := bam_offset it t BAM_BITFIELD in
  let b' := bam_offset it t' BAM_BITFIELD in
  ((t =? t') || apart b (bitmap_bytes it t) b' (bitmap_bytes it t'))
  && ((it =? D64_TYPE_DNP)
      || (apart b (bitmap_bytes it t) (bam_offset it t' BAM_FREECOUNT) 1
          && ((t =? t') || negb (bam_offset it t BAM_FREECOUNT =? bam_offset it t' BAM_FREECOUNT)))).

Definition all_tracks (last : Z) (f : Z -> bool) : bool := forallb f (seqZ 1 last).

Lemma all_tracks_true last f t : all_tracks last f = true -> 1 <= t <= last -> f t = true.
Proof.
  unfold all_tracks. rewrite forallb_forall. intros Hf Ht. apply Hf, list_elem_of_In, elem_of_seqZ. lia.
Qed.

Lemma bam_inside_true it last size t type :
  linear_format it last size -> 1 <= t <= last -> bam_inside it last t type = true.
Proof.
  intros Hf Ht. destruct Hf as [e He|e He|e He|n Hn].
  1-3: destruct He as [->| ->]; destruct type;
    (eapply (all_tracks_true _ (fun t => bam_inside _ _ t _)); [|exact Ht]; by vm_compute).
  assert (bam_inside D64_TYPE_DNP 255 t type = true) as Hb.
  { destruct type; (eapply (all_tracks_true 255 (fun t => bam_inside _ _ t _)); [by vm_compute|lia]). }
  assert ((bam_position D64_TYPE_DNP t type).1.1 = 1) as H1 by reflexivity.
  unfold bam_inside in *. destruct (bam_position D64_TYPE_DNP t type) as [[bt bs] pos]. simpl in H1. subst bt.
  rewrite !andb_true_iff in *. split_and!; try tauto. apply Z.leb_le. lia.
Qed.

Lemma bam_apart_true it last size t t' :
  linear_format it last size -> 1 <= t <= last -> 1 <= t' <= last -> bam_apart it t t' = true.
Proof.
  intros Hf Ht Ht'. destruct Hf as [e He|e He|e He|n Hn].
  1-3: destruct He as [->| ->];
    (eapply (all_tracks_true _ (fun t' => bam_apart _ t t')); [|exact Ht'];
     eapply (all_tracks_true _ (fun t => all_tracks _ (fun t' => bam_apart _ t t'))); [|exact Ht]; by vm_compute).
  eapply (all_tracks_true 255 (fun t' => bam_apart _ t t')); [|lia].
  eapply (all_tracks_true 255 (fun t => all_tracks _ (fun t' => bam_apart _ t t'))); [|lia]. by vm_compute.
Qed.

Lemma bam_inside_spec it last size t type :
  linear_format it last size -> 1 <= t <= last ->
  let '(bt, bs, pos) := bam_position it t type in
  valid_ts it last bt bs /\ 0 <= pos /\
  pos + (if type is BAM_BITFIELD then bitmap_bytes it t else 1) <= 256.
Proof.
  intros Hf Ht. pose proof (bam_inside_true it last size t type Hf Ht) as Hb. unfold bam_inside in Hb.
  destruct (bam_position it t type) as [[bt bs] pos]. rewrite !andb_true_iff in Hb.
  unfold valid_ts. destruct type; lia.
Qed.

(** C35: on D41, D71, D81 and DNP images, with or without error information,
    every legal sector is a 256-byte block inside the image file, and
    different sectors are blocks that do not overlap. *)
Theorem sectors_are_disjoint_blocks it last size t s t' s' (Hf : linear_format it last size)
  (Hv : valid_ts it last t s) (Hv' : valid_ts it last t' s') :
  0 <= sector_offset it t s /\ sector_offset it t s + 256 <= size /\
  ((t, s) <> (t', s') -> sector_offset it t s + 256 <= sector_offset it t' s' \/
                         sector_offset it t' s' + 256 <= sector_offset it t s).
Proof.
  pose proof (lba_bounds _ _ _ _ _ Hf Hv). split_and!; [unfold sector_offset; lia..|].
  by apply (blocks_apart it last size).
Qed.

(** on D80 and D82 images different sectors share a block: the last zone
    lacks the 23 sectors per track, so sector 1 of track 65 and sector 0 of
    track 66 are the same block, and track 78, the first of the second side
    of a D82, falls into the first side. *)
Theorem d80_sectors_overlap :
  valid_ts D64_TYPE_D80 77 65 1 /\ valid_ts D64_TYPE_D80 77 66 0 /\
  sector_offset D64_TYPE_D80 65 1 = sector_offset D64_TYPE_D80 66 0 /\
  valid_ts D64_TYPE_D82 154 78 0 /\ valid_ts D64_TYPE_D82 154 77 1 /\
  sector_offset D64_TYPE_D82 78 0 = sector_offset D64_TYPE_D82 77 1.
Proof. unfold valid_ts. vm_compute. split_and!; congruence. Qed.

Lemma bitmap_byte it t s : 0 <= s < sectors_per_track it t -> 0 <= Z.shiftr s 3 < bitmap_bytes it t.
Proof.
  intros Hs. rewrite Z.shiftr_div_pow2 by lia. change (2 ^ 3) with 8. unfold bitmap_bytes. Z.div_mod_to_equations. lia.
Qed.

Lemma bitmap_byte_inside it last size t s : linear_format it last size -> valid_ts it last t s ->
  let '(bt, bs, pos) := bam_position it t BAM_BITFIELD in valid_ts it last bt bs /\ 0 <= pos + Z.shiftr s 3 < 256.
Proof.
  intros Hf [Ht Hs]. pose proof (bitmap_byte it t s Hs). pose proof (bam_inside_spec it last size t BAM_BITFIELD Hf Ht) as Hi.
  destruct (bam_position it t BAM_BITFIELD) as [[bt bs] pos]. destruct Hi as (? & ? & ?). split; [done|lia].
Qed.

Lemma bits_apart it last size t s t' s' : linear_format it last size -> valid_ts it last t s -> valid_ts it last t' s' ->
  bam_offset it t BAM_BITFIELD + Z.shiftr s 3 = bam_offset it t' BAM_BITFIELD + Z.shiftr s' 3 ->
  Z.land s 7 = Z.land s' 7 -> t = t' /\ s = s'.
Proof.
  intros Hf [Ht Hs] [Ht' Hs'] Heq Hbit. pose proof (bitmap_byte it t s Hs) as Hb. pose proof (bitmap_byte it t' s' Hs') as Hb'.
  pose proof (bam_apart_true it last size t t' Hf Ht Ht') as Ha. unfold bam_apart, apart in Ha.
  assert (t = t') as -> by (destruct (Z.eqb_spec t t'); [done|]; lia).
  split; [done|]. rewrite !Z.shiftr_div_pow2 in Heq by lia. change 7 with (Z.ones 3) in Hbit.
  rewrite !Z.land_ones in Hbit by lia. change (2 ^ 3) with 8 in *. Z.div_mod_to_equations. lia.
Qed.

Lemma counter_apart it last size t s t' : linear_format it last size -> valid_ts it last t s -> 1 <= t' <= last ->
  it <> D64_TYPE_DNP -> bam_offset it t BAM_BITFIELD + Z.shiftr s 3 <> bam_offset it t' BAM_FREECOUNT.
Proof.
  intros Hf [Ht Hs] Ht' Hne. pose proof (bitmap_byte it t s Hs) as Hb.
  pose proof (bam_apart_true it last size t t' Hf Ht Ht') as Ha. unfold bam_apart, apart in Ha.
  replace (it =? D64_TYPE_DNP) with false in Ha by lia. lia.
Qed.

Lemma counters_apart it last size t t' : linear_format it last size -> 1 <= t <= last -> 1 <= t' <= last ->
  it <> D64_TYPE_DNP -> bam_offset it t BAM_FREECOUNT = bam_offset it t' BAM_FREECOUNT -> t = t'.
Proof.
  intros Hf Ht Ht' Hne Heq. pose proof (bam_apart_true it last size t t' Hf Ht Ht') as Ha. unfold bam_apart, apart in Ha.
  replace (it =? D64_TYPE_DNP) with false in Ha by lia. destruct (Z.eqb_spec t t'); [done|]. lia.
Qed.

(** the BAM describes every legal sector by a bit of its own: the byte is
    inside a legal sector of the image, and two sectors share a bit only if
    they are the same; no counter lies in a bitmap and each track has its own
    counter (DNP images have none). *)
Theorem bam_bits_distinct it last size t s t' s' (Hf : linear_format it last size)
  (Hv : valid_ts it last t s) (Hv' : valid_ts it last t' s') :
  (let '(bt, bs, pos) := bam_position it t BAM_BITFIELD in valid_ts it last bt bs /\ 0 <= pos + Z.shiftr s 3 < 256) /\
  (bam_offset it t BAM_BITFIELD + Z.shiftr s 3 = bam_offset it t' BAM_BITFIELD + Z.shiftr s' 3 ->
   Z.land s 7 = Z.land s' 7 -> t = t' /\ s = s') /\
  (it <> D64_TYPE_DNP ->
   bam_offset it t BAM_BITFIELD + Z.shiftr s 3 <> bam_offset it t' BAM_FREECOUNT /\
   (bam_offset it t BAM_FREECOUNT = bam_offset it t' BAM_FREECOUNT -> t = t')).
Proof.
  split; [by apply (bitmap_byte_inside it last size)|]. split; [by apply (bits_apart it last size)|].
  pose proof Hv as [Ht _]. pose proof Hv' as [Ht' _]. intros Hne.
  split; [by apply (counter_apart it last size)|by apply (counters_apart it last size)].
Qed.

(** The number of bits that are set in a byte. *)
Definition popcount (x : Z) : Z := foldr (fun i n => Z.b2z (Z.testbit x i) + n) 0 (seqZ 0 8).

(** the bit trick of [sectors_free] counts the bits of a byte. *)
Theorem count_bits_is_popcount x (Hx : 0 <= x < 256) : count_bits x = popcount x.
Proof. apply Z.eqb_eq. by apply (byte_check (fun x => count_bits x =? popcount x)); [vm_compute|]. Qed.

Lemma sectors_are_disjoint_blocks_witness :
  linear_format D64_TYPE_D71 70 349696 /\ sector_offset D64_TYPE_D71 36 0 + 256 <= 349696.
Proof.
  assert (linear_format D64_TYPE_D71 70 349696) as Hf by (apply (LinearD71 0); by left).
  split; [exact Hf|].
  destruct (sectors_are_disjoint_blocks D64_TYPE_D71 70 349696 36 0 18 0 Hf) as (_ & Hl & _);
    [split; vm_compute; split; congruence..|exact Hl].
Defined.

Lemma bam_bits_distinct_witness :
  bam_offset D64_TYPE_D71 36 BAM_BITFIELD + 0 <> bam_offset D64_TYPE_D71 1 BAM_FREECOUNT.
Proof.
  assert (linear_format D64_TYPE_D71 70 349696) as Hf by (apply (LinearD71 0); by left).
  destruct (bam_bits_distinct D64_TYPE_D71 70 349696 36 0 1 0 Hf) as (_ & _ & Hc);
    [split; vm_compute; split; congruence..|].
  destruct (Hc ltac:(discriminate)) as [Hne _]. exact Hne.
Defined.

Lemma count_bits_is_popcount_witness : count_bits 181 = 5.
Proof. rewrite (count_bits_is_popcount 181) by lia. reflexivity. Defined.
