(* ===== verification/D64Bam.v ===== *)
(** * The two BAM buffers as a write-back cache

    The invariant of the BAM buffers, the contents of the BAM that they and
    the image file represent together, and the frame that the operations on
    the BAM keep. *)

From S2P Require Import Prelude EepromFs ErrorMsg ErrorMsgTheorems Buffers BuffersTheorems FatFs Dirent World ImageIO D64Geom D64 D64GeomTheorems.

Section bam.
Context `{FatFsLaws} `{Assertions} `{ErrorConfig} `{BufferConfig} `{SystemConfig}.
Notation N := CONFIG_BUFFER_COUNT.

(** A partition with a mounted image that can be written and has a linear
    format: D41, D71, D81 (with or without error information) or DNP.  D80 and
    D82 images are left out of all theorems that assume this: their sectors
    overlap (D64GeomTheorems.v, [d80_sectors_overlap]), so an image is not an
    array of sectors there. *)
Record mounted (w : world) (part : Z) (p : partition_t) (last size : Z) : Prop := {
  mo_part : 0 <= part < max_part w;
  mo_lookup : partition w !! Z.to_nat part = Some p;
  mo_file : writable (imagehandle p);
  mo_format : linear_format (imagetype p) last size;
  mo_last : get_param (d64data p) LAST_TRACK = last;
  mo_size : size <= fsize (imagehandle p)
}.

(** The data of a pool buffer and of a sector of an image. *)
Definition bdata (s : bufs) (b : Z) : list Z := slice (256 * b) 256 (bufferdata s).
Definition image_sector (p : partition_t) (t s : Z) : list Z :=
  slice (sector_offset (imagetype p) t s) 256 (contents (imagehandle p)).

Definition is_bam (w : world) (b : Z) : Prop := bam_buffer (d64 w) = Some b \/ bam_buffer2 (d64 w) = Some b.

(** The sector that a BAM buffer holds: partition, track, sector. *)
Definition cell (w : world) (b : Z) : option (Z * Z * Z) :=
  x ← buffers (w_bufs w) !! Z.to_nat b; pvt_bam (pvt x).

(** A BAM buffer: its structure, and when it holds a sector, one of a mounted
    image, with the data of the image unless it must be flushed. *)
Record bam_buf (w : world) (b : Z) (x : buffer_t) (k : Z * Z * Z) : Prop := {
  bb_range : 0 <= b < N;
  bb_lookup : buffers (w_bufs w) !! Z.to_nat b = Some x;
  bb_alloc : allocated x = true;
  bb_sec : secondary x = BUFFER_SYS_BAM;
  bb_cleanup : cleanup x = Some cb_bam_buffer_flush;
  bb_pvt : pvt x = PvtBam k.1.1 k.1.2 k.2;
  bb_holds : k.1.1 = 255 \/ exists p last size, mounted w k.1.1 p last size /\ valid_ts (imagetype p) last k.1.2 k.2 /\
    (mustflush x = false -> bdata (w_bufs w) b = image_sector p k.1.2 k.2)
}.

Record bam_ok (w : world) : Prop := {
  bk_bufs : bufs_ok (w_bufs w);
  bk_parts : 0 <= max_part w <= 255;
  bk_first : exists b, bam_buffer (d64 w) = Some b;
  bk_each : forall b, is_bam w b -> exists x k, bam_buf w b x k;
  bk_two : forall b, bam_buffer (d64 w) = Some b -> bam_buffer2 (d64 w) <> Some b;
  bk_once : forall b b' k, is_bam w b -> is_bam w b' -> cell w b = Some k -> cell w b' = Some k -> k.1.1 <> 255 -> b = b'
}.

(** The buffer that caches a sector. *)
Definition cached (w : world) (k : Z * Z * Z) : option Z :=
  let try o := match o with Some b => if decide (cell w b = Some k) then Some b else None | None => None end in
  match try (bam_buffer (d64 w)) with Some b => Some b | None => try (bam_buffer2 (d64 w)) end.

(** The contents of a sector as the code sees it through the BAM buffers. *)
Definition bam_view (w : world) (part t s : Z) : list Z :=
  match cached w (part, t, s) with
  | Some b => bdata (w_bufs w) b
  | None => match partition w !! Z.to_nat part with Some p => image_sector p t s | None => [] end
  end.

Lemma cached_some w k b : cached w k = Some b -> is_bam w b /\ cell w b = Some k.
Proof.
  unfold cached, is_bam. destruct (bam_buffer (d64 w)) as [b1|]; [destruct (decide _)|];
    [naive_solver| |]; (destruct (bam_buffer2 (d64 w)) as [b2|]; [destruct (decide _)|]; naive_solver).
Qed.

Lemma cached_none w k b : cached w k = None -> is_bam w b -> cell w b <> Some k.
Proof.
  unfold cached, is_bam. intros Hc [Hb|Hb]; rewrite Hb in Hc.
  - by destruct (decide (cell w b = Some k)).
  - destruct (bam_buffer (d64 w)) as [b1|]; [destruct (decide _); [done|]|]; by destruct (decide (cell w b = Some k)).
Qed.

Lemma cached_eq w k b : bam_ok w -> is_bam w b -> cell w b = Some k -> k.1.1 <> 255 -> cached w k = Some b.
Proof.
  intros Hok Hb Hc Hne. destruct (cached w k) as [b'|] eqn:Hk.
  - apply cached_some in Hk as [Hb' Hc']. f_equal. by apply (bk_once w Hok b' b k).
  - by destruct (cached_none w k b Hk Hb).
Qed.

Lemma view_cached w b part t s : bam_ok w -> is_bam w b -> cell w b = Some (part, t, s) -> part <> 255 ->
  bam_view w part t s = bdata (w_bufs w) b.
Proof. intros Hok Hb Hc Hne. unfold bam_view. by rewrite (cached_eq w _ b Hok Hb Hc Hne). Qed.

Lemma view_uncached w part p t s : partition w !! Z.to_nat part = Some p ->
  (forall b, is_bam w b -> cell w b <> Some (part, t, s)) -> bam_view w part t s = image_sector p t s.
Proof.
  intros Hl Hno. unfold bam_view. destruct (cached w (part, t, s)) as [b|] eqn:Hc; [|by rewrite Hl].
  apply cached_some in Hc as [Hb Hc]. by destruct (Hno b Hb).
Qed.

(** What the operations on the BAM keep: the other file system, the open
    buffers of files, the images up to the contents of sectors; the error
    number, unless it is reset to 0. *)
Record frame (w w' : world) : Prop := {
  fr_eefs : w_eefs w' = w_eefs w;
  fr_clock : clock w' = clock w;
  fr_max : max_part w' = max_part w;
  fr_part : forall j p, 0 <= j -> partition w !! Z.to_nat j = Some p -> exists f,
    partition w' !! Z.to_nat j = Some (set_imagehandle f p) /\
    (writable (imagehandle p) -> writable f /\ fsize f = fsize (imagehandle p));
  fr_bufs : forall j x, 0 <= j < N -> buffers (w_bufs w) !! Z.to_nat j = Some x -> allocated x = true -> ~ is_bam w j ->
    ~ is_bam w' j /\ buffers (w_bufs w') !! Z.to_nat j = Some x /\ bdata (w_bufs w') j = bdata (w_bufs w) j;
  fr_error : current_error (channel (w_bufs w')) = current_error (channel (w_bufs w)) \/
             current_error (channel (w_bufs w')) = ERROR_OK
}.

(** The represented contents of every sector of every mounted image. *)
Definition same_view (w w' : world) : Prop := forall part p last size t s,
  mounted w part p last size -> valid_ts (imagetype p) last t s -> bam_view w' part t s = bam_view w part t s.

Lemma frame_refl w : frame w w.
Proof.
  split; [done|done|done| |by intros|by left].
  intros j p _ Hl. exists (imagehandle p). split; [|by intros].
  rewrite Hl. f_equal. by destruct p.
Qed.

Lemma frame_trans w1 w2 w3 : frame w1 w2 -> frame w2 w3 -> frame w1 w3.
Proof.
  intros [He1 Hc1 Hm1 Hp1 Hb1 Hr1] [He2 Hc2 Hm2 Hp2 Hb2 Hr2]. split; try congruence.
  - intros j p Hj Hl. destruct (Hp1 j p Hj Hl) as (f & Hf & Hwf). destruct (Hp2 j _ Hj Hf) as (g & Hg & Hwg).
    exists g. split; [exact Hg|]. intros Hw. destruct (Hwf Hw) as [Hw' Hs]. destruct (Hwg Hw') as [Hw'' Hs'].
    split; [done|]. simpl in Hs'. congruence.
  - intros j x Hj Hl Ha Hn. destruct (Hb1 j x Hj Hl Ha Hn) as (Hn1 & Hl1 & Hd1).
    destruct (Hb2 j x Hj Hl1 Ha Hn1) as (? & ? & ?). split_and!; [done|done|congruence].
  - destruct Hr1 as [Hr1|Hr1], Hr2 as [Hr2|Hr2]; [left|right|right|right]; congruence.
Qed.

Lemma mounted_frame w w' part p last size : frame w w' -> mounted w part p last size ->
  exists f, mounted w' part (set_imagehandle f p) last size.
Proof.
  intros Hf [Hp Hl Hw Hfm Hla Hs]. destruct (fr_part _ _ Hf part p ltac:(lia) Hl) as (f & Hl' & Hwf).
  destruct (Hwf Hw) as [Hw' Hsz]. exists f. split; try done; [rewrite (fr_max _ _ Hf); lia|simpl; lia].
Qed.

Lemma same_view_refl w : same_view w w.
Proof. by intros part p last size t s. Qed.

Lemma same_view_trans w1 w2 w3 : frame w1 w2 -> same_view w1 w2 -> same_view w2 w3 -> same_view w1 w3.
Proof.
  intros Hf H12 H23 part p last size t s Hm Hv. destruct (mounted_frame _ _ _ _ _ _ Hf Hm) as [f Hm'].
  rewrite <- (H12 part p last size t s Hm Hv). by apply (H23 part (set_imagehandle f p) last size).
Qed.

Lemma cached_ext w w' k : bam_buffer (d64 w') = bam_buffer (d64 w) -> bam_buffer2 (d64 w') = bam_buffer2 (d64 w) ->
  (forall b, is_bam w b -> cell w' b = cell w b) -> cached w' k = cached w k.
Proof.
  intros He1 He2 Hc. unfold cached, is_bam in *. rewrite He1, He2.
  destruct (bam_buffer (d64 w)) as [b1|], (bam_buffer2 (d64 w)) as [b2|];
    rewrite ?(Hc _ (or_introl eq_refl)), ?(Hc _ (or_intror eq_refl)); done.
Qed.

Lemma cell_bam_buf w b x k : bam_buf w b x k -> cell w b = Some k.
Proof. intros Hb. unfold cell. rewrite (bb_lookup _ _ _ _ Hb). simpl. rewrite (bb_pvt _ _ _ _ Hb). by destruct k as [[? ?] ?]. Qed.

(** The sector of an image after a block of it was written. *)
Lemma image_sector_write p f last size t s t' s' bs :
  linear_format (imagetype p) last size -> size <= fsize (imagehandle p) -> usable (imagehandle p) ->
  valid_ts (imagetype p) last t s -> valid_ts (imagetype p) last t' s' -> zlen bs = 256 ->
  contents f = splice (sector_offset (imagetype p) t s) bs (contents (imagehandle p)) ->
  image_sector (set_imagehandle f p) t' s' = if decide ((t', s') = (t, s)) then bs else image_sector p t' s'.
Proof.
  intros Hf Hs Hu Hv Hv' Hl Hc. unfold image_sector. simpl. rewrite Hc.
  destruct (usable_size _ Hu) as (Hsz & _ & _).
  pose proof (lba_bounds _ _ _ _ _ Hf Hv). pose proof (lba_bounds _ _ _ _ _ Hf Hv').
  destruct (decide _) as [[= -> ->]|Hne].
  - rewrite <- Hl at 1. apply slice_splice_same; unfold sector_offset; lia.
  - pose proof (blocks_apart _ _ _ _ _ _ _ Hf Hv Hv' ltac:(congruence)).
    apply slice_splice_ne; unfold sector_offset in *; lia.
Qed.

(** The structure of a BAM buffer stays valid when its image only moves. *)
Lemma mounted_lookup w part p last size p' : mounted w part p last size -> partition w !! Z.to_nat part = Some p' -> p' = p.
Proof. intros Hm Hl. rewrite (mo_lookup _ _ _ _ _ Hm) in Hl. congruence. Qed.

(** The world after a BAM buffer was written to its image. *)
Definition flushed (w : world) (b : Z) (x : buffer_t) (part : Z) (f : FIL) (d : DRV) : world :=
  let w := with_file part f d w in
  set_w_bufs (set_buffers (<[Z.to_nat b := set_mustflush false x]> (buffers (w_bufs w))) (w_bufs w)) w.

Lemma with_file_bufs part f d w : w_bufs (with_file part f d w) = w_bufs w.
Proof. unfold with_file. by destruct (partition w !! Z.to_nat part). Qed.
Lemma with_file_d64 part f d w : d64 (with_file part f d w) = d64 w.
Proof. unfold with_file. by destruct (partition w !! Z.to_nat part). Qed.
Lemma with_file_max part f d w : max_part (with_file part f d w) = max_part w.
Proof. unfold with_file. by destruct (partition w !! Z.to_nat part). Qed.
Lemma with_file_eefs part f d w : w_eefs (with_file part f d w) = w_eefs w.
Proof. unfold with_file. by destruct (partition w !! Z.to_nat part). Qed.
Lemma with_file_clock part f d w : clock (with_file part f d w) = clock w.
Proof. unfold with_file. by destruct (partition w !! Z.to_nat part). Qed.

Lemma mounted_with_file w part p f d last size j pj lastj sizej :
  mounted w part p last size -> writable f -> fsize f = fsize (imagehandle p) ->
  mounted w j pj lastj sizej ->
  mounted (with_file part f d w) j (if decide (j = part) then set_imagehandle f pj else pj) lastj sizej.
Proof.
  intros Hm Hw Hs [Hp Hl Hf Hfm Hla Hsz]. pose proof (mo_part _ _ _ _ _ Hm). destruct (decide (j = part)) as [->|Hne].
  - rewrite (mo_lookup _ _ _ _ _ Hm) in Hl. injection Hl as ->. split; try done.
    + by rewrite with_file_max.
    + apply with_file_lookup, Hm.
    + simpl. lia.
  - split; try done; [by rewrite with_file_max|]. by rewrite with_file_lookup_ne by lia.
Qed.

Lemma mounted_ext w w' part p last size : max_part w' = max_part w -> partition w' = partition w ->
  mounted w part p last size -> mounted w' part p last size.
Proof. intros Hmx Hpt []. split; congruence. Qed.

Section flush.
Context (w : world) (b : Z) (x : buffer_t) (part t s : Z) (p : partition_t) (last size : Z) (f : FIL) (d : DRV).
Hypothesis Hok : bam_ok w.
Hypothesis Hb : is_bam w b.
Hypothesis Hx : bam_buf w b x (part, t, s).
Hypothesis Hm : mounted w part p last size.
Hypothesis Hv : valid_ts (imagetype p) last t s.
Hypothesis Hf : writable f.
Hypothesis Hfs : fsize f = fsize (imagehandle p).
Hypothesis Hc : contents f = splice (sector_offset (imagetype p) t s) (bdata (w_bufs w) b) (contents (imagehandle p)).

Lemma flushed_bufs j : buffers (w_bufs (flushed w b x part f d)) !! Z.to_nat j =
  if decide (Z.to_nat j = Z.to_nat b) then Some (set_mustflush false x) else buffers (w_bufs w) !! Z.to_nat j.
Proof.
  unfold flushed. simpl. rewrite with_file_bufs. destruct (decide _) as [->|Hne].
  - apply list_lookup_insert_eq. apply lookup_lt_is_Some. eexists. apply (bb_lookup _ _ _ _ Hx).
  - by apply list_lookup_insert_ne.
Qed.

Lemma flushed_cell j : cell (flushed w b x part f d) j = cell w j.
Proof.
  unfold cell. rewrite flushed_bufs. destruct (decide _) as [Hj|]; [|done].
  rewrite Hj, (bb_lookup _ _ _ _ Hx). done.
Qed.

Lemma flushed_data j : bdata (w_bufs (flushed w b x part f d)) j = bdata (w_bufs w) j.
Proof. unfold flushed, bdata. simpl. by rewrite with_file_bufs. Qed.

Lemma flushed_bam j : is_bam (flushed w b x part f d) j <-> is_bam w j.
Proof. unfold is_bam, flushed. simpl. by rewrite with_file_d64. Qed.

Lemma bdata_length : zlen (bdata (w_bufs w) b) = 256.
Proof.
  unfold bdata. pose proof (bb_range _ _ _ _ Hx). apply zlen_slice; [lia|lia|].
  rewrite (bo_data _ (bk_bufs w Hok)). lia.
Qed.

Lemma flushed_sector pj lastj sizej j tj sj :
  mounted w j pj lastj sizej -> valid_ts (imagetype pj) lastj tj sj ->
  image_sector (if decide (j = part) then set_imagehandle f pj else pj) tj sj =
  if decide ((j, tj, sj) = (part, t, s)) then bdata (w_bufs w) b else image_sector pj tj sj.
Proof.
  intros Hmj Hvj. destruct (decide (j = part)) as [->|Hne]; [|by rewrite decide_False by congruence].
  pose proof (mounted_lookup _ _ _ _ _ _ Hm (mo_lookup _ _ _ _ _ Hmj)) as ->.
  assert (lastj = last) as -> by (rewrite <- (mo_last _ _ _ _ _ Hm), <- (mo_last _ _ _ _ _ Hmj); done).
  rewrite (image_sector_write p f last size t s tj sj (bdata (w_bufs w) b)); try done; try apply Hm; [|apply bdata_length].
  destruct (decide ((tj, sj) = (t, s))), (decide ((part, tj, sj) = (part, t, s))); congruence.
Qed.

Lemma flushed_mounted j pj lastj sizej : mounted w j pj lastj sizej ->
  mounted (flushed w b x part f d) j (if decide (j = part) then set_imagehandle f pj else pj) lastj sizej.
Proof.
  intros Hmj. eapply mounted_ext; [| |exact (mounted_with_file _ _ _ _ d _ _ _ _ _ _ Hm Hf Hfs Hmj)]; done.
Qed.

Lemma flushed_ok : bam_ok (flushed w b x part f d).
Proof.
  pose proof (bb_range _ _ _ _ Hx). split.
  - unfold flushed. simpl. rewrite with_file_bufs. apply (buf_upd_ok (w_bufs w) b (set_mustflush false) x); try done.
    + apply Hok.
    + apply Hx.
  - unfold flushed. simpl. rewrite with_file_max. apply Hok.
  - unfold flushed. simpl. rewrite with_file_d64. apply Hok.
  - intros b' Hb'. apply flushed_bam in Hb'. destruct (bk_each w Hok b' Hb') as (x' & k' & Hx').
    exists (if decide (b' = b) then set_mustflush false x' else x'), k'. 
    pose proof (bb_range _ _ _ _ Hx').
    assert (k'.1.1 = 255 \/ exists p' l' s', mounted (flushed w b x part f d) k'.1.1 p' l' s' /\
      valid_ts (imagetype p') l' k'.1.2 k'.2 /\
      (mustflush (if decide (b' = b) then set_mustflush false x' else x') = false ->
       bdata (w_bufs (flushed w b x part f d)) b' = image_sector p' k'.1.2 k'.2)) as Hholds.
    { destruct (bb_holds _ _ _ _ Hx') as [?|(p' & l' & s' & Hm' & Hv' & Hcl)]; [by left|right].
      exists (if decide (k'.1.1 = part) then set_imagehandle f p' else p'), l', s'. split_and!.
      - by apply flushed_mounted.
      - by destruct (decide (k'.1.1 = part)).
      - rewrite flushed_data, (flushed_sector p' l' s') by done. intros Hfl.
        destruct (decide (b' = b)) as [->|Hne].
        + pose proof (cell_bam_buf _ _ _ _ Hx) as E1. rewrite (cell_bam_buf _ _ _ _ Hx') in E1. injection E1 as ->.
          by rewrite decide_True by done.
        + rewrite decide_False; [by apply Hcl|]. intros E. destruct k' as [[a1 a2] a3]. simpl in E. injection E as -> -> ->.
          apply Hne. apply (bk_once w Hok b' b (part, t, s)); try done; [by eapply cell_bam_buf|by eapply cell_bam_buf|].
          pose proof (mo_part _ _ _ _ _ Hm). pose proof (bk_parts w Hok). simpl. lia. }
    destruct Hx' as [Hr Hlk Hal Hse Hcu Hpv _]. split; try done; try (destruct (decide (b' = b)); done).
    rewrite flushed_bufs. destruct (decide (b' = b)) as [->|]; [|by rewrite decide_False by lia].
    rewrite decide_True by done. rewrite (bb_lookup _ _ _ _ Hx) in Hlk. by injection Hlk as ->.
  - intros b'. unfold flushed. simpl. rewrite with_file_d64. apply Hok.
  - intros b1 b2 k Hb1 Hb2. apply flushed_bam in Hb1, Hb2. rewrite !flushed_cell. by apply (bk_once w Hok).
Qed.

Lemma flushed_frame : frame w (flushed w b x part f d).
Proof.
  unfold flushed. split; simpl; rewrite ?with_file_eefs, ?with_file_clock, ?with_file_max, ?with_file_bufs; try done.
  - intros j pj Hj Hl. pose proof (mo_part _ _ _ _ _ Hm). destruct (decide (j = part)) as [->|Hne].
    + pose proof (mounted_lookup _ _ _ _ _ _ Hm Hl) as ->. exists f. split; [apply with_file_lookup, Hm|done].
    + exists (imagehandle pj). rewrite with_file_lookup_ne by lia. split; [|done]. rewrite Hl. f_equal. by destruct pj.
  - intros j y Hj Hl Ha Hn. split; [intros Hj'; apply Hn; exact (proj1 (flushed_bam j) Hj')|]. split; [|done].
    rewrite list_lookup_insert_ne; [done|]. intros E. pose proof (bb_range _ _ _ _ Hx).
    assert (j = b) as -> by lia. done.
  - by left.
Qed.

Lemma flushed_view : same_view w (flushed w b x part f d).
Proof.
  intros j pj lj sj tj' sj' Hmj Hvj. unfold bam_view.
  rewrite (cached_ext w (flushed w b x part f d)); [|unfold flushed; simpl; by rewrite with_file_d64..|intros; apply flushed_cell].
  destruct (cached w (j, tj', sj')) as [b'|] eqn:Hca; [apply flushed_data|].
  rewrite (mo_lookup _ _ _ _ _ Hmj).
  rewrite (mo_lookup _ _ _ _ _ (flushed_mounted _ _ _ _ Hmj)).
  rewrite (flushed_sector pj lj sj) by done. rewrite decide_False; [done|].
  intros E. apply (cached_none w _ b Hca Hb). rewrite E. by eapply cell_bam_buf.
Qed.
End flush.

(** Reading and writing the data of pool buffers. *)
Lemma data_read_run s b : bufs_ok s -> 0 <= b < N -> data_read b 0 256 s = Done (bdata s b) s.
Proof.
  intros Hs Hb. unfold data_read, mbind, comp_bind, gets, id, load_block, bdata. pose proof (bo_data s Hs).
  replace (in_bounds _ _ _) with true by (symmetry; apply in_bounds_spec; lia). by rewrite Z.add_0_r.
Qed.

Lemma data_put_run s b off bs : bufs_ok s -> 0 <= b < N -> 0 <= off -> off + zlen bs <= 256 ->
  data_put b off bs s = Done tt (set_bufferdata (splice (256 * b + off) bs (bufferdata s)) s).
Proof.
  intros Hs Hb Ho Hl. unfold data_put, mbind, comp_bind, gets, id. pose proof (bo_data s Hs).
  rewrite store_block_some; [done|lia|lia].
Qed.

Lemma bufs_ok_data s d : bufs_ok s -> zlen d = 256 * N -> bytes d -> bufs_ok (set_bufferdata d s).
Proof. intros [] ? ?. by split. Qed.

Lemma bdata_put_same s b bs : bufs_ok s -> 0 <= b < N -> zlen bs = 256 ->
  bdata (set_bufferdata (splice (256 * b) bs (bufferdata s)) s) b = bs.
Proof.
  intros Hs Hb Hl. unfold bdata. pose proof (bo_data s Hs).
  change (bufferdata (set_bufferdata ?d _)) with d. rewrite <- Hl. rewrite Hl at 1 3.
  apply slice_splice_same; lia.
Qed.

Lemma bdata_put_ne s b j off bs : bufs_ok s -> 0 <= b < N -> 0 <= j < N -> j <> b -> 0 <= off -> off + zlen bs <= 256 ->
  bdata (set_bufferdata (splice (256 * b + off) bs (bufferdata s)) s) j = bdata s j.
Proof.
  intros Hs Hb Hj Hne Ho Hl. unfold bdata. simpl. pose proof (bo_data s Hs).
  apply slice_splice_ne; lia.
Qed.

(** A BAM buffer holds what the image holds. *)
Definition clean (w : world) (b : Z) : Prop := forall x k, bam_buf w b x k -> k.1.1 = 255 \/
  exists p last size, mounted w k.1.1 p last size /\ valid_ts (imagetype p) last k.1.2 k.2 /\
    bdata (w_bufs w) b = image_sector p k.1.2 k.2.

Lemma bam_buf_fun w b x k x' k' : bam_buf w b x k -> bam_buf w b x' k' -> x = x' /\ k = k'.
Proof.
  intros Hx Hx'. pose proof (bb_lookup _ _ _ _ Hx) as E. rewrite (bb_lookup _ _ _ _ Hx') in E. injection E as ->.
  split; [done|]. pose proof (bb_pvt _ _ _ _ Hx) as E. rewrite (bb_pvt _ _ _ _ Hx') in E. injection E as E1 E2 E3.
  destruct k as [[? ?] ?], k' as [[? ?] ?]. simpl in *. congruence.
Qed.

Lemma wp_bufs {A} (m : comp bufs A) Q w : wp (on_bufs m) Q w = wp m (fun a s => Q a (set_w_bufs s w)) (w_bufs w).
Proof. apply wp_zoom. Qed.

Lemma set_w_bufs_same w : set_w_bufs (w_bufs w) w = w.
Proof. by destruct w. Qed.

Lemma bam_cleanup_ok w b : bam_ok w -> is_bam w b ->
  wp (bam_cleanup b) (fun r w' => r = 0 /\ bam_ok w' /\ frame w w' /\ same_view w w' /\ d64 w' = d64 w /\
    (forall j, cell w' j = cell w j) /\ clean w' b) w.
Proof.
  intros Hok Hb. destruct (bk_each w Hok b Hb) as (x & k & Hx). pose proof (bb_range _ _ _ _ Hx).
  assert (on_bufs (buf_get b) w = Done x w) as Hget.
  { unfold on_bufs, zoom. rewrite (buf_get_run b x) by (apply Hx || lia). by rewrite set_w_bufs_same. }
  unfold bam_cleanup. rewrite wp_bind. eapply wp_intro; [exact Hget|]. cbv beta.
  rewrite (bb_cleanup _ _ _ _ Hx). unfold bam_buffer_flush. rewrite wp_bind. eapply wp_intro; [exact Hget|]. cbv beta.
  rewrite (bb_pvt _ _ _ _ Hx). unfold pvt_bam. rewrite wp_bind, wp_of_option_Some. cbv beta iota.
  rewrite wp_bind, wp_gets. cbv beta. unfold id. pose proof (bk_parts w Hok).
  destruct (mustflush x && (k.1.1 <? max_part w)) eqn:Hfl.
  - apply andb_true_iff in Hfl as [Hmf Hlt]. apply Z.ltb_lt in Hlt.
    destruct (bb_holds _ _ _ _ Hx) as [?|(p & last & size & Hm & Hv & _)]; [lia|].
    destruct k as [[part t] s]. simpl in *.
    rewrite wp_bind. unfold get_offset. rewrite wp_bind.
    eapply wp_intro; [apply part_get_run; [apply Hm|apply Hm]|]. cbv beta. rewrite wp_ret, wp_bind, wp_bufs.
    eapply wp_intro; [apply data_read_run; [apply Hok|lia]|]. cbv beta. rewrite set_w_bufs_same, wp_bind.
    destruct (image_write_ok part (sector_offset (imagetype p) t s) (bdata (w_bufs w) b) true w p) as (f & d & Hw & Hu & Hc & Hflag).
    + apply Hm.
    + apply Hm.
    + apply Hm.
    + unfold bdata. apply bytes_slice, (bo_bytes _ (bk_bufs w Hok)).
    + pose proof (lba_bounds _ _ _ _ _ (mo_format _ _ _ _ _ Hm) Hv). unfold sector_offset. lia.
    + pose proof (lba_bounds _ _ _ _ _ (mo_format _ _ _ _ _ Hm) Hv). pose proof (mo_size _ _ _ _ _ Hm).
      rewrite (bdata_length w b x part t s Hok Hx). unfold sector_offset. lia.
    + assert (writable f) as Hwf by (split; [done|rewrite Hflag; apply Hm]).
      assert (fsize f = fsize (imagehandle p)) as Hfs.
      { destruct (usable_size f Hu) as [<- _]. destruct (usable_size _ (proj1 (mo_file _ _ _ _ _ Hm))) as [Hs _].
        rewrite Hc, zlen_splice; [done| |].
        - pose proof (lba_bounds _ _ _ _ _ (mo_format _ _ _ _ _ Hm) Hv). unfold sector_offset. lia.
        - pose proof (lba_bounds _ _ _ _ _ (mo_format _ _ _ _ _ Hm) Hv). pose proof (mo_size _ _ _ _ _ Hm).
          rewrite (bdata_length w b x part t s Hok Hx). unfold sector_offset. lia. }
      eapply wp_intro; [exact Hw|]. cbv beta. rewrite wp_bind, wp_bufs.
      eapply wp_intro; [apply (buf_upd_run b _ x); [lia|rewrite with_file_bufs; apply Hx]|]. cbv beta. rewrite wp_ret.
      change (set_w_bufs _ (with_file part f d w)) with (flushed w b x part f d).
      split_and!; [done| | | | | |].
      * eapply flushed_ok; eauto.
      * eapply flushed_frame; eauto.
      * eapply flushed_view; eauto.
      * unfold flushed. simpl. by rewrite with_file_d64.
      * intros j. eapply flushed_cell; eauto.
      * intros x' k' Hx'. right. assert (k' = (part, t, s)) as ->.
        { pose proof (cell_bam_buf _ _ _ _ Hx') as E. rewrite (flushed_cell w b x part t s f d Hx) in E.
          rewrite (cell_bam_buf _ _ _ _ Hx) in E. congruence. }
        exists (set_imagehandle f p), last, size. cbn [fst snd]. split_and!.
        -- pose proof (flushed_mounted w b x part p last size f d Hm Hwf Hfs part p last size Hm) as Hmm.
           by rewrite decide_True in Hmm by done.
        -- exact Hv.
        -- rewrite flushed_data.
           pose proof (flushed_sector w b x part t s p last size f Hok Hx Hm Hv Hc p last size part t s Hm Hv) as E.
           rewrite !decide_True in E by done. by rewrite E.
  - rewrite wp_ret. split_and!; [done|done|apply frame_refl|apply same_view_refl|done|done|].
    intros x' k' Hx'. destruct (bam_buf_fun _ _ _ _ _ _ Hx Hx') as [<- <-].
    destruct (bb_holds _ _ _ _ Hx) as [?|(p & last & size & Hm & Hv & Hcl)]; [by left|right].
    exists p, last, size. split_and!; [done|done|]. apply Hcl.
    pose proof (mo_part _ _ _ _ _ Hm). apply andb_false_iff in Hfl as [?|Hfl]; [done|lia].
Qed.

(** The world after a BAM buffer was filled with a sector. *)
Definition loaded (w : world) (b : Z) (x : buffer_t) (k : Z * Z * Z) (f : FIL) (d : DRV) (sec : list Z) : world :=
  let s := set_bufferdata (splice (256 * b) sec (bufferdata (w_bufs w))) (w_bufs w) in
  set_w_bufs (set_buffers (<[Z.to_nat b := set_pvt (PvtBam k.1.1 k.1.2 k.2) x]> (buffers s)) s)
    (with_file k.1.1 f d w).

Section load.
Context (w : world) (b : Z) (x : buffer_t) (k0 : Z * Z * Z) (part t s : Z) (p : partition_t) (last size : Z) (f : FIL) (d : DRV).
Hypothesis Hok : bam_ok w.
Hypothesis Hb : is_bam w b.
Hypothesis Hx : bam_buf w b x k0.
Hypothesis Hclean : clean w b.
Hypothesis Hm : mounted w part p last size.
Hypothesis Hv : valid_ts (imagetype p) last t s.
Hypothesis Hno : forall j, is_bam w j -> cell w j <> Some (part, t, s).
Hypothesis Hf : writable f.
Hypothesis Hc : contents f = contents (imagehandle p).

Notation w' := (loaded w b x (part, t, s) f d (image_sector p t s)).

Lemma load_fsize : fsize f = fsize (imagehandle p).
Proof. apply usable_fsize; [apply Hf|apply (mo_file _ _ _ _ _ Hm)|exact Hc]. Qed.

Lemma loaded_bufs j : buffers (w_bufs w') !! Z.to_nat j =
  if decide (Z.to_nat j = Z.to_nat b) then Some (set_pvt (PvtBam part t s) x) else buffers (w_bufs w) !! Z.to_nat j.
Proof.
  unfold loaded. simpl. destruct (decide _) as [->|Hne].
  - apply list_lookup_insert_eq. apply lookup_lt_is_Some. eexists. apply (bb_lookup _ _ _ _ Hx).
  - by apply list_lookup_insert_ne.
Qed.

Lemma loaded_cell_same : cell w' b = Some (part, t, s).
Proof. unfold cell. rewrite loaded_bufs. by rewrite decide_True by done. Qed.

Lemma loaded_cell j : 0 <= j -> j <> b -> cell w' j = cell w j.
Proof. intros Hj Hne. unfold cell. rewrite loaded_bufs. pose proof (bb_range _ _ _ _ Hx). by rewrite decide_False by lia. Qed.

Lemma loaded_bam j : is_bam w' j <-> is_bam w j.
Proof. unfold is_bam, loaded. simpl. by rewrite with_file_d64. Qed.

Lemma image_sector_zlen q lastq sizeq tq sq pq : mounted w pq q lastq sizeq -> valid_ts (imagetype q) lastq tq sq ->
  zlen (image_sector q tq sq) = 256.
Proof.
  intros Hmq Hvq. unfold image_sector. pose proof (lba_bounds _ _ _ _ _ (mo_format _ _ _ _ _ Hmq) Hvq).
  pose proof (mo_size _ _ _ _ _ Hmq). destruct (usable_size _ (proj1 (mo_file _ _ _ _ _ Hmq))) as [Hs _].
  apply zlen_slice; unfold sector_offset; lia.
Qed.

Lemma loaded_data_same : bdata (w_bufs w') b = image_sector p t s.
Proof.
  unfold loaded. simpl. apply (bdata_put_same (w_bufs w)); [apply Hok|apply Hx|].
  by apply (image_sector_zlen p last size t s part).
Qed.

Lemma loaded_data j : 0 <= j < N -> j <> b -> bdata (w_bufs w') j = bdata (w_bufs w) j.
Proof.
  intros Hj Hne. unfold loaded. cbn [w_bufs set_w_bufs]. rewrite <- (Z.add_0_r (256 * b)).
  apply (bdata_put_ne (w_bufs w) b j 0); [apply Hok|apply Hx|done|done|lia|].
  rewrite (image_sector_zlen p last size t s part) by done. lia.
Qed.

Lemma loaded_mounted j pj lastj sizej : mounted w j pj lastj sizej ->
  mounted w' j (if decide (j = part) then set_imagehandle f pj else pj) lastj sizej.
Proof.
  intros Hmj. eapply mounted_ext; [| |exact (mounted_with_file _ _ _ _ d _ _ _ _ _ _ Hm Hf load_fsize Hmj)]; done.
Qed.

Lemma loaded_sector pj lastj sizej j tj sj : mounted w j pj lastj sizej ->
  image_sector (if decide (j = part) then set_imagehandle f pj else pj) tj sj = image_sector pj tj sj.
Proof.
  intros Hmj. destruct (decide (j = part)) as [->|]; [|done].
  pose proof (mounted_lookup _ _ _ _ _ _ Hm (mo_lookup _ _ _ _ _ Hmj)) as ->.
  unfold image_sector. simpl. by rewrite Hc.
Qed.

(** A buffer other than [b] after the load. *)
Lemma loaded_other j y k : j <> b -> bam_buf w j y k -> bam_buf w' j y k.
Proof.
  intros Hne Hy. pose proof (bb_range _ _ _ _ Hx). pose proof (bb_range _ _ _ _ Hy). destruct Hy as [Hr Hl Ha Hs Hcu Hp Hh].
  split; try done; [rewrite loaded_bufs; by rewrite decide_False by lia|].
  destruct Hh as [?|(q & l & z & Hmq & Hvq & Hcl)]; [by left|right].
  exists (if decide (k.1.1 = part) then set_imagehandle f q else q), l, z. split_and!.
  - by apply loaded_mounted.
  - by destruct (decide (k.1.1 = part)).
  - intros Hfl. rewrite loaded_data by lia. rewrite (loaded_sector q l z) by done. by apply Hcl.
Qed.

Lemma loaded_own : bam_buf w' b (set_pvt (PvtBam part t s) x) (part, t, s).
Proof.
  pose proof (bb_range _ _ _ _ Hx). pose proof Hx as [Hr Hl Ha Hs Hcu Hp Hh].
  split; try done; [rewrite loaded_bufs; by rewrite decide_True by done|]. right.
  exists (if decide (part = part) then set_imagehandle f p else p), last, size. split_and!.
  - by apply loaded_mounted.
  - by destruct (decide (part = part)).
  - intros _. rewrite loaded_data_same. by rewrite (loaded_sector p last size).
Qed.

Lemma loaded_ok : bam_ok w'.
Proof.
  pose proof (bb_range _ _ _ _ Hx). pose proof (mo_part _ _ _ _ _ Hm). split.
  - assert (bufs_ok (set_bufferdata (splice (256 * b) (image_sector p t s) (bufferdata (w_bufs w))) (w_bufs w))) as Hd.
    { apply bufs_ok_data; [apply Hok| |].
      - rewrite zlen_splice; [apply Hok|lia|]. rewrite (image_sector_zlen p last size t s part), (bo_data _ (bk_bufs w Hok)) by done. lia.
      - apply bytes_splice; [|apply Hok]. apply bytes_slice. apply (usable_size _ (proj1 (mo_file _ _ _ _ _ Hm))). }
    apply (buf_upd_ok _ b (set_pvt (PvtBam part t s)) x Hd); try done. apply Hx.
  - unfold loaded. simpl. rewrite with_file_max. apply Hok.
  - unfold loaded. simpl. rewrite with_file_d64. apply Hok.
  - intros j Hj. apply loaded_bam in Hj. destruct (decide (j = b)) as [->|Hne].
    + eexists _, _. apply loaded_own.
    + destruct (bk_each w Hok j Hj) as (y & k & Hy). exists y, k. by apply loaded_other.
  - intros j. unfold loaded. simpl. rewrite with_file_d64. apply Hok.
  - intros b1 b2 k Hb1 Hb2. apply loaded_bam in Hb1, Hb2.
    assert (forall j, is_bam w j -> 0 <= j) as Hpos.
    { intros j Hj. destruct (bk_each w Hok j Hj) as (y & k' & Hy). pose proof (bb_range _ _ _ _ Hy). lia. }
    pose proof (Hpos b1 Hb1). pose proof (Hpos b2 Hb2).
    destruct (decide (b1 = b)) as [->|], (decide (b2 = b)) as [->|]; [done| | |].
    + rewrite loaded_cell_same, (loaded_cell b2) by done. intros [= <-] Hc2. by destruct (Hno b2 Hb2).
    + rewrite loaded_cell_same, (loaded_cell b1) by done. intros Hc1 [= <-]. by destruct (Hno b1 Hb1).
    + rewrite !loaded_cell by done. by apply (bk_once w Hok).
Qed.

Lemma loaded_frame : frame w w'.
Proof.
  unfold loaded. split; simpl; rewrite ?with_file_eefs, ?with_file_clock, ?with_file_max; try done.
  - intros j pj Hj Hl. pose proof (mo_part _ _ _ _ _ Hm). destruct (decide (j = part)) as [->|Hne].
    + pose proof (mounted_lookup _ _ _ _ _ _ Hm Hl) as ->. exists f. split; [apply with_file_lookup, Hm|].
      intros _. split; [done|apply load_fsize].
    + exists (imagehandle pj). rewrite with_file_lookup_ne by lia. split; [|done]. rewrite Hl. f_equal. by destruct pj.
  - intros j y Hj Hl Ha Hn. pose proof (bb_range _ _ _ _ Hx). assert (j <> b) as Hne by congruence.
    split; [intros Hj'; apply Hn; exact (proj1 (loaded_bam j) Hj')|]. split; [|by apply loaded_data].
    rewrite list_lookup_insert_ne by lia. done.
  - by left.
Qed.

Lemma loaded_view : same_view w w'.
Proof.
  intros j pj lj zj tj sj Hmj Hvj.
  pose proof (loaded_mounted _ _ _ _ Hmj) as Hmj'. pose proof loaded_ok as Hok'.
  assert (j <> 255) as Hj by (pose proof (mo_part _ _ _ _ _ Hmj); pose proof (bk_parts w Hok); lia).
  destruct (decide ((j, tj, sj) = (part, t, s))) as [E|Hne].
  - injection E as -> -> ->. rewrite (view_cached w' b) by (done || by apply loaded_bam || apply loaded_cell_same).
    pose proof (mounted_lookup _ _ _ _ _ _ Hm (mo_lookup _ _ _ _ _ Hmj)) as ->.
    rewrite loaded_data_same. symmetry. apply view_uncached; [apply Hm|done].
  - destruct (cached w (j, tj, sj)) as [b'|] eqn:Hca.
    + apply cached_some in Hca as [Hb' Hc']. rewrite (view_cached w b') by done.
      destruct (bk_each w Hok b' Hb') as (y & k & Hy). pose proof (bb_range _ _ _ _ Hy).
      destruct (decide (b' = b)) as [->|Hne'].
      * rewrite (cell_bam_buf _ _ _ _ Hy) in Hc'. injection Hc' as ->.
        destruct (Hclean y (j, tj, sj) Hy) as [E|(q & l & z & Hmq & Hvq & Hcl)]; [simpl in E; lia|]. cbn [fst snd] in *.
        rewrite Hcl. rewrite (view_uncached w' j _ tj sj (mo_lookup _ _ _ _ _ Hmj')).
        -- pose proof (mounted_lookup _ _ _ _ _ _ Hmj (mo_lookup _ _ _ _ _ Hmq)) as ->.
           by rewrite (loaded_sector pj lj zj) by done.
        -- intros b2 Hb2. apply loaded_bam in Hb2. destruct (decide (b2 = b)) as [->|Hn2].
           ++ rewrite loaded_cell_same. congruence.
           ++ destruct (bk_each w Hok b2 Hb2) as (y2 & k2 & Hy2). pose proof (bb_range _ _ _ _ Hy2).
              rewrite loaded_cell by lia. intros E. apply Hn2.
              apply (bk_once w Hok b2 b (j, tj, sj)); try done. by eapply cell_bam_buf.
      * rewrite (view_cached w' b') by (done || by apply loaded_bam || (rewrite loaded_cell by lia; done)).
        apply loaded_data; lia.
    + rewrite (view_uncached w j pj) by (apply Hmj || intros; by eapply cached_none).
      rewrite (view_uncached w' j _ tj sj (mo_lookup _ _ _ _ _ Hmj')).
      * by rewrite (loaded_sector pj lj zj) by done.
      * intros b2 Hb2. apply loaded_bam in Hb2. destruct (decide (b2 = b)) as [->|Hn2].
        -- rewrite loaded_cell_same. congruence.
        -- destruct (bk_each w Hok b2 Hb2) as (y2 & k2 & Hy2). pose proof (bb_range _ _ _ _ Hy2).
           rewrite loaded_cell by lia. by eapply cached_none.
Qed.
End load.
End bam.
