(* ===== verification/D64BamOps.v ===== *)
(** * The operations on the BAM

    [move_bam_window] brings a sector of the BAM into a buffer without
    changing the contents that buffers and image represent; the bits and
    counters of the BAM are read and changed through it. *)

From S2P Require Import Prelude EepromFs ErrorMsg ErrorMsgTheorems Utils UtilsTheorems Buffers BuffersTheorems.
From S2P Require Import FatFs Dirent World ImageIO D64Geom D64 D64GeomTheorems D64Bam.

Section bamops.
Context `{FatFsLaws} `{Assertions} `{ErrorConfig} `{BufferConfig} `{SystemConfig}.
Notation N := CONFIG_BUFFER_COUNT.

Lemma the_bam_buffer_run w b : bam_buffer (d64 w) = Some b -> the_bam_buffer w = Done b w.
Proof. intros Hb. unfold the_bam_buffer, mbind, comp_bind, gets, id. by rewrite Hb. Qed.

Lemma buf_pvt_bam_run w b x k : bam_buf w b x k -> buf_pvt_bam b w = Done k w.
Proof.
  intros Hx. unfold buf_pvt_bam, mbind, comp_bind, on_bufs, zoom.
  rewrite (buf_get_run b x) by (pose proof (bb_range _ _ _ _ Hx); apply Hx || lia).
  rewrite (bb_pvt _ _ _ _ Hx), set_w_bufs_same. by destruct k as [[? ?] ?].
Qed.

Lemma bam_buffer_match_run w b x k part t s : bam_buf w b x k ->
  bam_buffer_match b part t s w = Done (bool_decide (k = (part, t, s))) w.
Proof.
  intros Hx. unfold bam_buffer_match, mbind at 1, comp_bind at 1. rewrite (buf_pvt_bam_run w b x k Hx).
  destruct k as [[bp bt] bs]. unfold mret, comp_ret. f_equal.
  rewrite (bool_decide_ext _ (bp = part /\ bt = t /\ bs = s)) by naive_solver.
  symmetry. repeat case_bool_decide; lia.
Qed.

(** Whether the buffer [bam_buffer] holds a sector. *)
Definition holds (w : world) (b part t s : Z) : Prop :=
  bam_buffer (d64 w) = Some b /\ cell w b = Some (part, t, s).

Lemma bam_load_ok w b part p last size t s :
  bam_ok w -> bam_buffer (d64 w) = Some b -> mounted w part p last size -> valid_ts (imagetype p) last t s ->
  (forall j, is_bam w j -> cell w j <> Some (part, t, s)) ->
  wp (bam_load part t s) (fun r w' => r = 0 /\ bam_ok w' /\ frame w w' /\ same_view w w' /\ holds w' b part t s) w.
Proof.
  intros Hok Hb Hm Hv Hno. unfold bam_load. rewrite wp_bind. eapply wp_intro; [by apply the_bam_buffer_run|]. cbv beta.
  assert (is_bam w b) as Hisb by (by left).
  rewrite wp_bind. eapply wp_mono; [by apply bam_cleanup_ok|]. cbv beta.
  intros r w1 (-> & Hok1 & Hfr1 & Hsv1 & Hd1 & Hcell1 & Hclean). rewrite Z.eqb_refl. cbv beta iota delta [negb].
  assert (forall j, is_bam w1 j <-> is_bam w j) as Hbam1 by (intros j; unfold is_bam; by rewrite Hd1).
  destruct (mounted_frame _ _ _ _ _ _ Hfr1 Hm) as [f0 Hm1]. set (p1 := set_imagehandle f0 p) in *.
  rewrite wp_bind. unfold get_offset. rewrite wp_bind.
  eapply wp_intro; [apply part_get_run; apply Hm1|]. cbv beta. rewrite wp_ret.
  pose proof (lba_bounds _ _ _ _ _ (mo_format _ _ _ _ _ Hm1) Hv). pose proof (mo_size _ _ _ _ _ Hm1).
  destruct (image_read_ok part (sector_offset (imagetype p1) t s) 256 w1 p1) as (f & d & Hr & Hu & Hc & Hfl).
  1-6: try apply Hm1; unfold sector_offset; lia.
  rewrite wp_bind. eapply wp_intro; [exact Hr|]. cbv beta. cbn [fst snd]. fold (image_sector p1 t s).
  destruct (bk_each w1 Hok1 b) as (x & k & Hx); [by apply Hbam1|]. pose proof (bb_range _ _ _ _ Hx).
  assert (zlen (image_sector p1 t s) = 256) as Hl by (by apply (image_sector_zlen w1 p1 last size t s part)).
  rewrite wp_bind, wp_bufs. rewrite with_file_bufs. eapply wp_intro; [apply data_put_run; [apply Hok1|lia|lia|lia]|].
  cbv beta. rewrite Z.add_0_r, Z.eqb_refl. cbv beta iota delta [negb].
  rewrite wp_bind, wp_bufs. eapply wp_intro; [apply (buf_upd_run b _ x); [lia|]; simpl; apply Hx|]. cbv beta.
  rewrite wp_ret.
  change (set_w_bufs _ _) with (loaded w1 b x (part, t, s) f d (image_sector p1 t s)).
  assert (writable f) as Hwf by (split; [done|rewrite Hfl; apply Hm1]).
  assert (forall j, is_bam w1 j -> cell w1 j <> Some (part, t, s)) as Hno1
    by (intros j Hj; rewrite Hcell1; by apply Hno, Hbam1).
  assert (is_bam w1 b) as Hisb1 by (by apply Hbam1).
  split_and!; [done| | | |split].
  - eapply loaded_ok; eauto.
  - eapply frame_trans; [exact Hfr1|]. eapply loaded_frame; eauto.
  - eapply same_view_trans; [exact Hfr1|exact Hsv1|]. eapply loaded_view; eauto.
  - unfold loaded. simpl. by rewrite with_file_d64, Hd1.
  - eapply loaded_cell_same; eauto.
Qed.

(** ** Selecting a buffer *)

(** The BAM buffers with the same set of buffers, cells and data. *)
Lemma same_bams_ok w w' :
  bam_ok w -> bufs_ok (w_bufs w') -> max_part w' = max_part w -> partition w' = partition w ->
  (forall j, is_bam w' j <-> is_bam w j) -> (exists b, bam_buffer (d64 w') = Some b) ->
  (forall b, bam_buffer (d64 w') = Some b -> bam_buffer2 (d64 w') <> Some b) ->
  (forall j, 0 <= j < N -> buffers (w_bufs w') !! Z.to_nat j = buffers (w_bufs w) !! Z.to_nat j) ->
  (forall j, 0 <= j < N -> bdata (w_bufs w') j = bdata (w_bufs w) j) ->
  bam_ok w' /\ same_view w w'.
Proof.
  intros Hok Hbufs Hmax Hpart Hbam Hfirst Htwo Hbs Hbd.
  assert (forall b, is_bam w b -> 0 <= b < N) as Hrange.
  { intros b Hb. destruct (bk_each w Hok b Hb) as (x & k & Hx). apply Hx. }
  assert (forall b, is_bam w b -> cell w' b = cell w b) as Hcell.
  { intros b Hb. unfold cell. by rewrite Hbs by (by apply Hrange). }
  assert (bam_ok w') as Hok'.
  { split; [done|rewrite Hmax; apply Hok|done| |done|].
    - intros b Hb. apply Hbam in Hb. destruct (bk_each w Hok b Hb) as (x & k & Hx). exists x, k.
      pose proof (Hrange b Hb). destruct Hx as [Hr Hl Ha Hs Hcu Hp Hh]. split; try done; [by rewrite Hbs|].
      destruct Hh as [?|(q & l & z & Hmq & Hvq & Hcl)]; [by left|right]. exists q, l, z.
      split_and!; [by eapply mounted_ext; [| |exact Hmq]|done|]. intros Hfl. rewrite Hbd by done. by apply Hcl.
    - intros b b' k Hb Hb'. apply Hbam in Hb, Hb'. rewrite !Hcell by done. by apply (bk_once w Hok). }
  split; [done|]. intros part p last size t s Hm Hv.
  assert (part <> 255) as Hne by (pose proof (mo_part _ _ _ _ _ Hm); pose proof (bk_parts w Hok); lia).
  destruct (cached w (part, t, s)) as [b|] eqn:Hc.
  - apply cached_some in Hc as [Hb Hc]. rewrite (view_cached w b), (view_cached w' b) by
      (done || by apply Hbam || by rewrite Hcell).
    by rewrite Hbd by (by apply Hrange).
  - rewrite (view_uncached w part p) by (apply Hm || intros; by eapply cached_none).
    rewrite (view_uncached w' part p); [done|rewrite Hpart; apply Hm|].
    intros b Hb. apply Hbam in Hb. rewrite Hcell by done. by eapply cached_none.
Qed.

(** The world with the two BAM buffers swapped. *)
Definition swapped (w : world) : world :=
  set_d64 (set_bam_buffer2 (bam_buffer (d64 w)) (set_bam_buffer (bam_buffer2 (d64 w)) (d64 w))) w.

Lemma bam_buffer_swap_run w : bam_buffer_swap w = Done tt (swapped w).
Proof. reflexivity. Qed.

Lemma swapped_ok w b2 : bam_ok w -> bam_buffer2 (d64 w) = Some b2 ->
  bam_ok (swapped w) /\ frame w (swapped w) /\ same_view w (swapped w).
Proof.
  intros Hok Hb2.
  assert (forall j, is_bam (swapped w) j <-> is_bam w j) as Hbam by (intros j; unfold is_bam, swapped; simpl; tauto).
  destruct (same_bams_ok w (swapped w) Hok) as [Hok' Hsv]; try done.
  - apply Hok.
  - by exists b2.
  - intros b Hb E. apply (bk_two w Hok b); done.
  - split; [done|]. split; [|done]. pose proof (frame_refl w) as Hr. split; [done|done|done|apply Hr| |by left].
    intros j x Hj Hl Ha Hn. split; [by rewrite Hbam|done].
Qed.

(** The world when only the error channel has changed. *)
Lemma same_pool_ok w s' : bam_ok w -> bufs_ok s' -> same_pool (w_bufs w) s' ->
  (current_error (channel s') = current_error (channel (w_bufs w)) \/ current_error (channel s') = ERROR_OK) ->
  bam_ok (set_w_bufs s' w) /\ frame w (set_w_bufs s' w) /\ same_view w (set_w_bufs s' w).
Proof.
  intros Hok Hs' [Hb Hd Ha] Herr.
  assert (forall j, bdata s' j = bdata (w_bufs w) j) as Hbd by (intros j; unfold bdata; by rewrite Hd).
  destruct (same_bams_ok w (set_w_bufs s' w) Hok) as [Hok' Hsv]; try done.
  - apply Hok.
  - apply Hok.
  - split; [done|]. split; [|done]. pose proof (frame_refl w) as Hr. split; [done|done|done|apply Hr| |done].
    intros j x Hj Hl Hal Hn. split; [done|]. simpl. by rewrite Hb, Hbd.
Qed.

(** A new BAM buffer, which holds nothing yet. *)
Definition new_bam : buffer_t :=
  set_sticky true (set_cleanup (Some cb_bam_buffer_flush) (set_pvt (PvtBam 255 0 0)
    (set_secondary BUFFER_SYS_BAM fresh_buffer))).

(** The world after a second buffer was allocated and selected. *)
Definition with_second (w : world) (b i : Z) : world :=
  set_d64 (set_bam_buffer2 (Some b) (set_bam_buffer (Some i) (d64 w)))
    (set_w_bufs (set_buffers (<[Z.to_nat i := new_bam]> (buffers (w_bufs w))) (w_bufs w)) w).

Section second.
Context (w : world) (b i : Z).
Hypothesis Hok : bam_ok w.
Hypothesis Hb : bam_buffer (d64 w) = Some b.
Hypothesis Hb2 : bam_buffer2 (d64 w) = None.
Hypothesis Hi : 0 <= i < N.
Hypothesis Hun : is_unused (w_bufs w) i.
Notation w' := (with_second w b i).

Lemma second_bams j : is_bam w' j <-> j = i \/ j = b.
Proof. unfold is_bam, with_second. simpl. split; intros [E|E]; [left|right|left|right]; congruence. Qed.

Lemma first_is_bam j : is_bam w j <-> j = b.
Proof. unfold is_bam. rewrite Hb, Hb2. split; [intros [E|E]; congruence|intros ->; by left]. Qed.

Lemma first_used : in_use (w_bufs w) b.
Proof. destruct (bk_each w Hok b (or_introl Hb)) as (x & k & Hx). exists x. split; apply Hx. Qed.

Lemma second_ne : i <> b.
Proof. intros E. rewrite E in Hun. exact (in_use_not_unused _ _ first_used Hun). Qed.

Lemma second_bufs j : 0 <= j -> buffers (w_bufs w') !! Z.to_nat j =
  if decide (j = i) then Some new_bam else buffers (w_bufs w) !! Z.to_nat j.
Proof.
  intros Hj. unfold with_second. simpl. destruct Hun as (u & Hu & _). destruct (decide (j = i)) as [->|].
  - apply list_lookup_insert_eq. apply lookup_lt_is_Some. by eexists.
  - apply list_lookup_insert_ne. lia.
Qed.

Lemma second_cell j : 0 <= j -> cell w' j = if decide (j = i) then Some (255, 0, 0) else cell w j.
Proof. intros Hj. unfold cell. rewrite second_bufs by done. by destruct (decide (j = i)). Qed.

Lemma second_bufs_ok : bufs_ok (w_bufs w').
Proof.
  destruct Hun as (u & Hu & Ha). unfold with_second. simpl.
  assert (user_buffer u = false /\ dirty_buffer u = false) as [E1 E2] by (unfold user_buffer, dirty_buffer; by rewrite Ha).
  pose proof (bk_bufs w Hok) as Hs.
  apply (bufs_ok_upd (w_bufs w) i u new_bam (active_buffers (w_bufs w)) (busy_led (w_bufs w)) (dirty_led (w_bufs w)) Hs);
    [lia|done|lia| | |].
  - rewrite E1, E2. change (user_buffer new_bam) with false. change (dirty_buffer new_bam) with false. simpl. lia.
  - rewrite (tally_insert _ _ _ _ _ Hu), E2. change (dirty_buffer new_bam) with false. simpl.
    rewrite Z.sub_0_r, Z.add_0_r. apply (bo_dirty _ Hs).
  - rewrite (tally_insert _ _ _ _ _ Hu), E1. change (user_buffer new_bam) with false. simpl.
    rewrite Z.sub_0_r, Z.add_0_r. apply (bo_busy _ Hs).
Qed.

Lemma second_ok : bam_ok w'.
Proof.
  destruct (bk_each w Hok b (or_introl Hb)) as (x & k & Hx). pose proof (bb_range _ _ _ _ Hx) as Hbr. pose proof second_ne.
  split; [exact second_bufs_ok|apply Hok|by exists i| | |].
  - intros j Hj. apply second_bams in Hj as [->| ->].
    + exists new_bam, (255, 0, 0). split; try done; [|by left].
      rewrite second_bufs by lia. by rewrite decide_True by done.
    + exists x, k. destruct Hx as [Hr Hl Ha Hs Hcu Hp Hh].
      split; try done; [rewrite second_bufs by lia; by rewrite decide_False by congruence|].
      destruct Hh as [?|(q & l & z & Hmq & Hvq & Hcl)]; [by left|right]. exists q, l, z.
      split_and!; [by eapply mounted_ext; [| |exact Hmq]|done|exact Hcl].
  - intros j. unfold with_second. simpl. congruence.
  - intros j j' kk Hj Hj'. apply second_bams in Hj, Hj'. destruct Hj as [->| ->], Hj' as [->| ->]; try done;
      rewrite !second_cell by lia; rewrite ?(decide_True (P := i = i)) by done; intros E1 E2 Hne; exfalso; apply Hne;
      [by injection E1 as <-|by injection E2 as <-].
Qed.

Lemma second_frame : frame w w'.
Proof.
  pose proof (frame_refl w) as Hr. split; [done|done|done|apply Hr| |by left].
  intros j x Hj Hl Ha Hn. assert (j <> i) as Hne.
  { intros ->. apply (in_use_not_unused (w_bufs w) i); [by exists x|done]. }
  split; [|split; [|done]].
  - intros Hj'. apply second_bams in Hj' as [->| ->]; [done|]. apply Hn. by left.
  - rewrite second_bufs by lia. by rewrite decide_False.
Qed.

Lemma second_view : same_view w w'.
Proof.
  intros part p last size t s Hm Hv. pose proof second_ok as Hok'. pose proof second_ne.
  destruct (bk_each w Hok b (or_introl Hb)) as (x & k & Hx). pose proof (bb_range _ _ _ _ Hx) as Hbr.
  assert (part <> 255) as Hne by (pose proof (mo_part _ _ _ _ _ Hm); pose proof (bk_parts w Hok); lia).
  destruct (cached w (part, t, s)) as [c|] eqn:Hc.
  - apply cached_some in Hc as [Hcb Hc]. pose proof Hcb as ->%first_is_bam.
    rewrite (view_cached w b) by done. rewrite (view_cached w' b); [done|done|apply second_bams; by right| |done].
    rewrite second_cell by lia. by rewrite decide_False by congruence.
  - rewrite (view_uncached w part p) by (apply Hm || intros; by eapply cached_none).
    rewrite (view_uncached w' part p); [done|apply Hm|]. intros j Hj. apply second_bams in Hj as [->| ->].
    + rewrite second_cell, decide_True by (done || lia). congruence.
    + rewrite second_cell, decide_False by (congruence || lia). apply (cached_none w _ b Hc). by left.
Qed.
End second.

(** What selecting a buffer for a sector establishes. *)
Definition selected (w : world) (part t s : Z) (found : bool) (w' : world) : Prop :=
  bam_ok w' /\ frame w w' /\ same_view w w' /\ exists b, bam_buffer (d64 w') = Some b /\
    if found then cell w' b = Some (part, t, s) else forall j, is_bam w' j -> cell w' j <> Some (part, t, s).

Lemma select_other_ok w b b2 part t s :
  bam_ok w -> bam_buffer (d64 w) = Some b -> bam_buffer2 (d64 w) = Some b2 -> cell w b <> Some (part, t, s) ->
  wp (bam_buffer_swap;; b ← the_bam_buffer; bam_buffer_match b part t s) (fun found w' => selected w part t s found w') w.
Proof.
  intros Hok Hb Hb2 Hne. rewrite wp_bind. eapply wp_intro; [apply bam_buffer_swap_run|]. cbv beta.
  destruct (swapped_ok w b2 Hok Hb2) as (Hok' & Hfr & Hsv).
  assert (bam_buffer (d64 (swapped w)) = Some b2) as Hb' by done.
  assert (bam_buffer2 (d64 (swapped w)) = Some b) as Hb2' by done.
  rewrite wp_bind. eapply wp_intro; [by apply the_bam_buffer_run|]. cbv beta.
  destruct (bk_each _ Hok' b2 (or_introl Hb')) as (x & k & Hx).
  eapply wp_intro; [by apply (bam_buffer_match_run _ b2 x k)|]. cbv beta.
  split_and!; [done|done|done|]. exists b2. split; [done|]. pose proof (cell_bam_buf _ _ _ _ Hx) as Hc.
  case_bool_decide as Hk; [congruence|]. intros j [Hj|Hj].
  - assert (j = b2) as -> by congruence. rewrite Hc. congruence.
  - assert (j = b) as -> by congruence. exact Hne.
Qed.

Lemma wset_error_ok_run w : bufs_ok (w_bufs w) ->
  wp (wset_error ERROR_OK) (fun _ w' => exists s', w' = set_w_bufs s' w /\ bufs_ok s' /\ same_pool (w_bufs w) s' /\
    current_error (channel s') = ERROR_OK) w.
Proof.
  intros Hok. unfold wset_error, wset_error_ts. rewrite wp_bufs.
  eapply wp_mono; [apply set_error_ok; [exact Hok|unfold ERROR_OK; lia..]|]. cbv beta.
  intros _ s' (? & ? & ?). by exists s'.
Qed.

Lemma same_pool_trans s1 s2 s3 : same_pool s1 s2 -> same_pool s2 s3 -> same_pool s1 s3.
Proof.
  intros [Hb1 Hd1 Ha1 Hl1] [Hb2 Hd2 Ha2 Hl2]. split; [|congruence..|].
  - intros i Hi. rewrite Hb2, Hb1 by done. done.
  - rewrite Ha1 in Hl2. destruct Hl2 as [-> | ->]; [exact Hl1|by right].
Qed.

Lemma select_alloc_ok w b part t s :
  bam_ok w -> bam_buffer (d64 w) = Some b -> bam_buffer2 (d64 w) = None -> cell w b <> Some (part, t, s) -> part <> 255 ->
  wp (r ← bam_buffer_alloc;
      on_d64 (modify (set_bam_buffer2 r));;
      match r with
      | None => wset_error ERROR_OK
      | Some _ => bam_buffer_swap
      end) (fun _ w' => selected w part t s false w') w.
Proof.
  intros Hok Hb Hb2 Hne Hp. unfold bam_buffer_alloc. rewrite wp_bind, wp_bind, wp_bufs.
  eapply wp_mono; [apply alloc_system_ok, Hok|]. cbv beta. intros [i|] s1 [Hs1 Hr].
  - destruct Hr as (Hi & Hun & _ & ->). 
    assert (buffers (set_buffers (<[Z.to_nat i:=fresh_buffer]> (buffers (w_bufs w))) (w_bufs w)) !! Z.to_nat i
      = Some fresh_buffer) as Hl1.
    { simpl. destruct Hun as (u & Hu & _). apply list_lookup_insert_eq. apply lookup_lt_is_Some. by eexists. }
    rewrite wp_bind, wp_bufs. eapply wp_intro; [apply (buf_upd_run i _ fresh_buffer); [lia|exact Hl1]|]. cbv beta.
    rewrite wp_bind, wp_bufs. unfold stick_buffer. eapply wp_intro.
    { apply (buf_upd_run i _ (set_cleanup (Some cb_bam_buffer_flush) (set_pvt (PvtBam 255 0 0)
        (set_secondary BUFFER_SYS_BAM fresh_buffer)))); [lia|]. simpl. apply list_lookup_insert_eq.
      destruct Hun as (u & Hu & _). rewrite length_insert. apply lookup_lt_is_Some. by eexists. }
    cbv beta. rewrite wp_ret. rewrite wp_bind. unfold on_d64. rewrite wp_zoom, wp_modify. cbv beta.
    eapply wp_intro; [apply bam_buffer_swap_run|]. cbv beta.
    match goal with |- selected _ _ _ _ _ ?w' => replace w' with (with_second w b i) end.
    + split_and!; [by eapply second_ok|by eapply second_frame|by eapply second_view|]. exists i. split; [done|].
      intros j Hj. assert (j = i \/ j = b) as Hj' by (eapply second_bams; eauto).
      assert (i <> b) as Hib by (eapply second_ne; eauto).
      destruct (bk_each w Hok b (or_introl Hb)) as (x & k & Hx). pose proof (bb_range _ _ _ _ Hx).
      erewrite second_cell by (eauto || lia). destruct Hj' as [->| ->].
      * rewrite decide_True by done. congruence.
      * by rewrite decide_False by congruence.
    + unfold with_second, swapped. simpl. rewrite !list_insert_insert_eq, Hb. reflexivity.
  - destruct Hr as (_ & Hsame & _). rewrite wp_ret. rewrite wp_bind. unfold on_d64. rewrite wp_zoom, wp_modify. cbv beta.
    replace (set_d64 _ _) with (set_w_bufs s1 w) by (destruct w as [? ? ? ? [] ?]; simpl in *; by subst).
    eapply wp_mono; [apply wset_error_ok_run; exact Hs1|]. cbv beta. intros _ w' (s' & -> & Hs' & Hsame' & Herr).
    destruct (same_pool_ok w s' Hok Hs') as (? & ? & ?);
      [by eapply same_pool_trans|right; exact Herr|].
    split_and!; [done|done|done|]. exists b. split; [done|]. intros j Hj.
    assert (j = b) as -> by (destruct Hj as [E|E]; simpl in E; congruence).
    intros E. apply Hne. rewrite <- E. unfold cell. simpl.
    destruct (bk_each w Hok b (or_introl Hb)) as (x & k & Hx). 
    by rewrite (sp_bufs _ _ (same_pool_trans _ _ _ Hsame Hsame') b) by apply Hx.
Qed.

Lemma bam_select_ok w b part t s :
  bam_ok w -> bam_buffer (d64 w) = Some b -> cell w b <> Some (part, t, s) -> part <> 255 ->
  wp (bam_select part t s) (fun found w' => selected w part t s found w') w.
Proof.
  intros Hok Hb Hne Hp. unfold bam_select. rewrite wp_bind, wp_gets. cbv beta. unfold id.
  destruct (bam_buffer2 (d64 w)) as [b2|] eqn:Hb2; [by apply (select_other_ok w b b2)|].
  rewrite wp_bind. eapply wp_intro; [by apply the_bam_buffer_run|]. cbv beta.
  destruct (bk_each w Hok b (or_introl Hb)) as (x & k & Hx).
  rewrite wp_bind. eapply wp_intro; [by apply (buf_pvt_bam_run w b x k)|]. cbv beta.
  rewrite wp_bind. unfold when. destruct (negb (k.1.1 =? 255)).
  - eapply wp_mono; [by apply (select_alloc_ok w b)|]. cbv beta. intros _ w' Hsel. by rewrite wp_ret.
  - rewrite !wp_ret. split_and!; [done|apply frame_refl|apply same_view_refl|]. exists b. split; [done|].
    intros j [Hj|Hj]; [|congruence]. by assert (j = b) as -> by congruence.
Qed.

Lemma move_bam_window_ok w part p last size track type :
  bam_ok w -> mounted w part p last size -> 1 <= track <= last ->
  wp (move_bam_window part track type) (fun r w' =>
    let '(t, s, pos) := bam_position (imagetype p) track type in
    r = (0, pos) /\ bam_ok w' /\ frame w w' /\ same_view w w' /\ exists b, holds w' b part t s) w.
Proof.
  intros Hok Hm Ht. unfold move_bam_window. rewrite wp_bind.
  eapply wp_intro; [apply part_get_run; apply Hm|]. cbv beta.
  pose proof (bam_inside_spec _ _ _ track type (mo_format _ _ _ _ _ Hm) Ht) as Hin.
  destruct (bam_position (imagetype p) track type) as [[t s] pos]. destruct Hin as (Hv & _ & _).
  destruct (bk_first w Hok) as [b Hb]. destruct (bk_each w Hok b (or_introl Hb)) as (x & k & Hx).
  rewrite wp_bind. eapply wp_intro; [by apply the_bam_buffer_run|]. cbv beta.
  rewrite wp_bind. eapply wp_intro; [by apply (bam_buffer_match_run _ b x k)|]. cbv beta.
  pose proof (cell_bam_buf _ _ _ _ Hx) as Hc.
  case_bool_decide as Hk; [subst k; rewrite wp_ret; split_and!; [done|done|apply frame_refl|apply same_view_refl|by exists b]|].
  rewrite wp_bind. eapply wp_mono.
  { apply (bam_select_ok w b); [done|done|congruence|]. pose proof (mo_part _ _ _ _ _ Hm). pose proof (bk_parts w Hok). lia. }
  cbv beta. intros found w1 (Hok1 & Hfr1 & Hsv1 & b1 & Hb1 & Hsel). destruct found.
  - rewrite wp_ret. split_and!; [done|done|done|done|by exists b1].
  - destruct (mounted_frame _ _ _ _ _ _ Hfr1 Hm) as [f Hm1].
    rewrite wp_bind. eapply wp_mono; [by apply (bam_load_ok w1 b1 part (set_imagehandle f p) last size)|]. cbv beta.
    intros r w2 (-> & Hok2 & Hfr2 & Hsv2 & Hh). rewrite wp_ret.
    split_and!; [done|done|by eapply frame_trans|by eapply same_view_trans|by exists b1].
Qed.

(** ** Bits and counters *)

(** The byte of the BAM at a position of a sector of it. *)
Definition bam_byte (w : world) (part t s i : Z) : Z := nthZ (bam_view w part t s) i.

Lemma bam_get_ok w part t s b ptr i :
  bam_ok w -> holds w b part t s -> part <> 255 -> 0 <= ptr + i < 256 ->
  bam_get ptr i w = Done (bam_byte w part t s (ptr + i)) w.
Proof.
  intros Hok [Hb Hc] Hp Hi. destruct (bk_each w Hok b (or_introl Hb)) as (x & k & Hx).
  pose proof (bb_range _ _ _ _ Hx). pose proof (bo_data _ (bk_bufs w Hok)).
  unfold bam_get, mbind, comp_bind. rewrite (the_bam_buffer_run w b Hb). unfold on_bufs, zoom.
  unfold data_get, mbind, comp_bind, gets, id. rewrite load_some by lia. unfold of_option, mret, comp_ret.
  rewrite set_w_bufs_same. f_equal. unfold bam_byte.
  rewrite (view_cached w b part t s Hok (or_introl Hb) Hc Hp). unfold bdata. rewrite nthZ_slice by lia. f_equal.
Qed.

(** A change of one byte of the BAM through its buffer. *)
Definition poked (w : world) (b : Z) (x : buffer_t) (i v : Z) : world :=
  let s := set_bufferdata (splice (256 * b + i) [v] (bufferdata (w_bufs w))) (w_bufs w) in
  set_w_bufs (set_buffers (<[Z.to_nat b := set_mustflush true x]> (buffers s)) s) w.

(** [w'] represents the BAM of [w] with one byte changed. *)
Definition bam_changed (w w' : world) (part t s i v : Z) : Prop :=
  forall part' p last size t' s', mounted w part' p last size -> valid_ts (imagetype p) last t' s' ->
  bam_view w' part' t' s' =
    if decide ((part', t', s') = (part, t, s)) then splice i [v] (bam_view w part t s) else bam_view w part' t' s'.

Lemma bam_put_run w b ptr i v : bufs_ok (w_bufs w) -> bam_buffer (d64 w) = Some b -> 0 <= b < N -> 0 <= ptr + i < 256 ->
  bam_put ptr i v w = Done tt (set_w_bufs (set_bufferdata (splice (256 * b + (ptr + i)) [v] (bufferdata (w_bufs w)))
    (w_bufs w)) w).
Proof.
  intros Hs Hb Hr Hi. unfold bam_put, mbind, comp_bind. rewrite (the_bam_buffer_run w b Hb). unfold on_bufs, zoom.
  rewrite data_put_run; [done|done|done|lia|]. change (zlen [v]) with 1. lia.
Qed.

Lemma bam_mustflush_run w b x : bam_buffer (d64 w) = Some b -> 0 <= b -> buffers (w_bufs w) !! Z.to_nat b = Some x ->
  bam_mustflush w = Done tt (set_w_bufs (set_buffers (<[Z.to_nat b := set_mustflush true x]> (buffers (w_bufs w)))
    (w_bufs w)) w).
Proof.
  intros Hb Hr Hx. unfold bam_mustflush, mbind, comp_bind. rewrite (the_bam_buffer_run w b Hb). unfold on_bufs, zoom.
  by rewrite (buf_upd_run b _ x).
Qed.

Section poke.
Context (w : world) (b : Z) (x : buffer_t) (part t s i v : Z).
Hypothesis Hok : bam_ok w.
Hypothesis Hb : bam_buffer (d64 w) = Some b.
Hypothesis Hx : bam_buf w b x (part, t, s).
Hypothesis Hi : 0 <= i < 256.
Hypothesis Hv : 0 <= v < 256.
Notation w' := (poked w b x i v).

Lemma poked_bufs j : buffers (w_bufs w') !! Z.to_nat j =
  if decide (Z.to_nat j = Z.to_nat b) then Some (set_mustflush true x) else buffers (w_bufs w) !! Z.to_nat j.
Proof.
  unfold poked. simpl. destruct (decide _) as [->|Hne].
  - apply list_lookup_insert_eq. apply lookup_lt_is_Some. eexists. apply (bb_lookup _ _ _ _ Hx).
  - by apply list_lookup_insert_ne.
Qed.

Lemma poked_cell j : cell w' j = cell w j.
Proof.
  unfold cell. rewrite poked_bufs. destruct (decide _) as [->|]; [|done]. rewrite (bb_lookup _ _ _ _ Hx). done.
Qed.

Lemma poked_data_same : bdata (w_bufs w') b = splice i [v] (bdata (w_bufs w) b).
Proof.
  pose proof (bb_range _ _ _ _ Hx). pose proof (bo_data _ (bk_bufs w Hok)). unfold bdata, poked. simpl.
  apply slice_splice_inside; change (zlen [v]) with 1; lia.
Qed.

Lemma poked_data j : 0 <= j < N -> j <> b -> bdata (w_bufs w') j = bdata (w_bufs w) j.
Proof.
  intros Hj Hne. unfold poked. cbn [w_bufs set_w_bufs].
  apply (bdata_put_ne (w_bufs w) b j i [v]); [apply Hok|apply Hx|done|done|lia|]. change (zlen [v]) with 1. lia.
Qed.

Lemma poked_mounted j pj lj zj : mounted w j pj lj zj -> mounted w' j pj lj zj.
Proof. intros Hm. by eapply mounted_ext; [| |exact Hm]. Qed.

Lemma poked_ok : bam_ok w'.
Proof.
  pose proof (bb_range _ _ _ _ Hx). split; [| apply Hok|apply Hok| |apply Hok|].
  - assert (bufs_ok (set_bufferdata (splice (256 * b + i) [v] (bufferdata (w_bufs w))) (w_bufs w))) as Hd.
    { pose proof (bo_data _ (bk_bufs w Hok)). apply bufs_ok_data; [apply Hok| |].
      - rewrite zlen_splice; [done|lia|]. change (zlen [v]) with 1. lia.
      - apply bytes_splice; [by apply Forall_singleton|apply Hok]. }
    apply (buf_upd_ok _ b (set_mustflush true) x Hd); try done. apply Hx.
  - intros j Hj. destruct (bk_each w Hok j Hj) as (y & k & Hy). pose proof (bb_range _ _ _ _ Hy).
    destruct (decide (j = b)) as [->|Hne].
    + exists (set_mustflush true x), (part, t, s). destruct Hx as [Hr Hl Ha Hs Hcu Hp Hh].
      split; try done; [rewrite poked_bufs; by rewrite decide_True by done|].
      destruct Hh as [?|(q & l & z & Hmq & Hvq & Hcl)]; [by left|right]. exists q, l, z.
      split_and!; [by apply poked_mounted|done|by intros].
    + exists y, k. destruct Hy as [Hr Hl Ha Hs Hcu Hp Hh].
      split; try done; [rewrite poked_bufs; by rewrite decide_False by lia|].
      destruct Hh as [?|(q & l & z & Hmq & Hvq & Hcl)]; [by left|right]. exists q, l, z.
      split_and!; [by apply poked_mounted|done|]. intros Hfl. rewrite poked_data by lia. by apply Hcl.
  - intros b1 b2 k Hb1 Hb2. rewrite !poked_cell. by apply (bk_once w Hok).
Qed.

Lemma poked_frame : frame w w'.
Proof.
  pose proof (frame_refl w) as Hr. split; [done|done|done|apply Hr| |by left].
  intros j y Hj Hl Ha Hn. pose proof (bb_range _ _ _ _ Hx).
  assert (j <> b) as Hne by (intros ->; apply Hn; by left). split; [done|]. split; [|by apply poked_data].
  rewrite poked_bufs. by rewrite decide_False by lia.
Qed.

Lemma poked_changed : bam_changed w w' part t s i v.
Proof.
  intros j pj lj zj tj sj Hm Hvj. pose proof poked_ok as Hok'. pose proof (cell_bam_buf _ _ _ _ Hx) as Hc.
  assert (j <> 255) as Hj by (pose proof (mo_part _ _ _ _ _ Hm); pose proof (bk_parts w Hok); lia).
  destruct (decide _) as [E|Hne].
  - injection E as -> -> ->. rewrite (view_cached w' b) by (done || by left || by rewrite poked_cell).
    rewrite (view_cached w b) by (done || by left). apply poked_data_same.
  - unfold bam_view. rewrite (cached_ext w w') by (done || intros; apply poked_cell).
    destruct (cached w (j, tj, sj)) as [b'|] eqn:Hca; [|done]. apply cached_some in Hca as [Hb' Hc'].
    destruct (bk_each w Hok b' Hb') as (y & k & Hy). pose proof (bb_range _ _ _ _ Hy). apply poked_data; [lia|].
    intros ->. congruence.
Qed.

End poke.

(** The two orders in which the code changes a byte and marks the buffer. *)
Lemma put_flush_ok w b x part t s ptr i v Q :
  bam_ok w -> bam_buffer (d64 w) = Some b -> bam_buf w b x (part, t, s) -> 0 <= ptr + i < 256 ->
  Q tt (poked w b x (ptr + i) v) -> wp (bam_put ptr i v;; bam_mustflush) Q w.
Proof.
  intros Hok Hb Hx Hi HQ. pose proof (bb_range _ _ _ _ Hx). rewrite wp_bind.
  eapply wp_intro; [by apply (bam_put_run w b); [apply Hok|..]|]. cbv beta.
  eapply wp_intro; [apply (bam_mustflush_run _ b x); [done|lia|apply Hx]|]. exact HQ.
Qed.

Lemma mustflush_ok w b x part t s :
  bam_ok w -> bam_buffer (d64 w) = Some b -> bam_buf w b x (part, t, s) -> part <> 255 ->
  exists w', bam_mustflush w = Done tt w' /\ w' = poked w b x 0 (bam_byte w part t s 0).
Proof.
  intros Hok Hb Hx Hp. pose proof (bb_range _ _ _ _ Hx). pose proof (bo_data _ (bk_bufs w Hok)). eexists.
  split; [by apply (bam_mustflush_run w b x); [|lia|apply Hx]|].
  unfold poked, bam_byte. rewrite (view_cached w b part t s Hok (or_introl Hb) (cell_bam_buf _ _ _ _ Hx) Hp).
  unfold bdata. rewrite nthZ_slice by lia.
  replace (splice (256 * b + 0) _ _) with (bufferdata (w_bufs w)); [by destruct w as [[] ? ? ? ? ?]|].
  replace [nthZ (bufferdata (w_bufs w)) (256 * b + 0)] with (slice (256 * b + 0) 1 (bufferdata (w_bufs w))).
  - symmetry. apply splice_slice; lia.
  - apply nthZ_ext; [by rewrite zlen_slice by lia|]. intros k. rewrite zlen_slice by lia. intros Hk.
    rewrite nthZ_slice by lia. replace k with 0 by lia. by rewrite nthZ_0, Z.add_0_r.
Qed.
End bamops.
