(* ===== verification/D64BamSpec.v ===== *)
(** * What the operations on the BAM do, bit by bit

    The BAM that buffers and images represent is a set of free sectors and a
    counter for every track; the operations of d64ops.c on it are specified
    by these. *)

From S2P Require Import Prelude EepromFs ErrorMsg Utils UtilsTheorems Buffers BuffersTheorems.
From S2P Require Import FatFs Dirent World ImageIO D64Geom D64 D64GeomTheorems D64Bam D64BamOps.

Section bamspec.
Context `{FatFsLaws} `{Assertions} `{ErrorConfig} `{BufferConfig} `{SystemConfig}.
Notation N := CONFIG_BUFFER_COUNT.

(** The bytes of the BAM keep their range. *)
Lemma bam_view_bytes w part p last size t s : bam_ok w -> mounted w part p last size -> bytes (bam_view w part t s).
Proof.
  intros Hok Hm. unfold bam_view. destruct (cached w (part, t, s)).
  - apply bytes_slice, Hok.
  - rewrite (mo_lookup _ _ _ _ _ Hm). apply bytes_slice. by destruct (usable_size _ (proj1 (mo_file _ _ _ _ _ Hm))) as (_ & ? & _).
Qed.

Lemma bam_byte_range w part p last size t s i : bam_ok w -> mounted w part p last size -> is_byte (bam_byte w part t s i).
Proof. intros Hok Hm. by eapply bytes_nthZ, bam_view_bytes. Qed.

Lemma bam_view_zlen w part p last size t s : bam_ok w -> mounted w part p last size -> valid_ts (imagetype p) last t s ->
  zlen (bam_view w part t s) = 256.
Proof.
  intros Hok Hm Hv. unfold bam_view. destruct (cached w (part, t, s)) as [b|] eqn:Hc.
  - apply cached_some in Hc as [Hb _]. destruct (bk_each w Hok b Hb) as (x & k & Hx). pose proof (bb_range _ _ _ _ Hx).
    pose proof (bo_data _ (bk_bufs w Hok)). unfold bdata. apply zlen_slice; lia.
  - rewrite (mo_lookup _ _ _ _ _ Hm). by eapply image_sector_zlen.
Qed.

Definition mounted_part (w : world) (part : Z) : Prop := exists p last size, mounted w part p last size.

Lemma mounted_not_255 w part p last size : bam_ok w -> mounted w part p last size -> part <> 255.
Proof. intros Hok Hm. pose proof (mo_part _ _ _ _ _ Hm). pose proof (bk_parts w Hok). lia. Qed.

(** ** Steps on the BAM *)

(** A step that leaves the represented contents of all images alone. *)
Record quiet (w w' : world) : Prop := { q_ok : bam_ok w'; q_frame : frame w w'; q_view : same_view w w' }.

(** A step that changes one byte of them. *)
Definition byte_changed (w w' : world) (part t s i v : Z) : Prop :=
  forall part' p last size t' s' i', mounted w part' p last size -> valid_ts (imagetype p) last t' s' -> 0 <= i' < 256 ->
  bam_byte w' part' t' s' i' = if decide ((part', t', s', i') = (part, t, s, i)) then v else bam_byte w part' t' s' i'.

Lemma quiet_refl w : bam_ok w -> quiet w w.
Proof. intros. split; [done|apply frame_refl|apply same_view_refl]. Qed.

Lemma quiet_trans w1 w2 w3 : quiet w1 w2 -> quiet w2 w3 -> quiet w1 w3.
Proof. intros [? ? ?] [? ? ?]. split; [done|by eapply frame_trans|by eapply same_view_trans]. Qed.

Lemma quiet_byte w w' part p last size t s i : quiet w w' -> mounted w part p last size -> valid_ts (imagetype p) last t s ->
  bam_byte w' part t s i = bam_byte w part t s i.
Proof. intros [_ _ Hv] Hm Hts. unfold bam_byte. by rewrite (Hv part p last size t s). Qed.

Lemma changed_of_view w w' part p last size t s i v :
  bam_ok w -> mounted w part p last size -> valid_ts (imagetype p) last t s -> 0 <= i < 256 ->
  bam_changed w w' part t s i v -> byte_changed w w' part t s i v.
Proof.
  intros Hok Hm Hv Hi Hc part' p' last' size' t' s' i' Hm' Hv' Hi'. unfold bam_byte.
  rewrite (Hc part' p' last' size' t' s' Hm' Hv'). 
  destruct (decide ((part', t', s') = (part, t, s))) as [E|Hne]; [|by destruct (decide ((part', t', s', i') = _)) as [[= -> -> -> ->]|]].
  injection E as -> -> ->. pose proof (bam_view_zlen w part p last size t s Hok Hm Hv) as Hl.
  rewrite nthZ_splice by (rewrite ?Hl; change (zlen [v]) with 1; lia). change (zlen [v]) with 1.
  destruct (decide _) as [E|Hne].
  - injection E as ->. replace (i <=? i) with true by lia. replace (i <? i + 1) with true by lia. simpl.
    by rewrite Z.sub_diag, nthZ_0.
  - assert (i' <> i) by congruence. destruct ((i <=? i') && (i' <? i + 1)) eqn:E; [lia|done].
Qed.

(** The sector that a step works on. *)
Definition at_byte (w : world) (b part t s : Z) : Prop := holds w b part t s /\ exists x, bam_buf w b x (part, t, s).

Lemma holds_buf w b part t s : bam_ok w -> holds w b part t s -> exists x, bam_buf w b x (part, t, s).
Proof.
  intros Hok [Hb Hc]. destruct (bk_each w Hok b (or_introl Hb)) as (x & k & Hx). exists x.
  rewrite (cell_bam_buf _ _ _ _ Hx) in Hc. by injection Hc as <-.
Qed.

Lemma marked_put_run w b x part t s ptr i v : bam_ok w -> bam_buffer (d64 w) = Some b -> bam_buf w b x (part, t, s) ->
  0 <= ptr + i < 256 -> mustflush x = true -> bam_put ptr i v w = Done tt (poked w b x (ptr + i) v).
Proof.
  intros Hok Hb Hx Hi Hfl. pose proof (bb_range _ _ _ _ Hx).
  assert (set_mustflush true x = x) as Hsx by (clear - Hfl; destruct x; simpl in Hfl; by subst).
  rewrite (bam_put_run w b ptr i v) by (apply Hok || done). f_equal. unfold poked. f_equal. simpl. rewrite Hsx.
  rewrite list_insert_id by apply (bb_lookup _ _ _ _ Hx). by destruct (w_bufs w).
Qed.

Section steps.
Context (part : Z) (p : partition_t) (last size t s : Z).
Hypothesis Hv : valid_ts (imagetype p) last t s.

(** Marking the buffer. *)
Lemma mark_ok w b : bam_ok w -> mounted w part p last size -> holds w b part t s ->
  wp bam_mustflush (fun _ w' => quiet w w' /\ exists x, bam_buffer (d64 w') = Some b /\ bam_buf w' b x (part, t, s) /\ mustflush x = true) w.
Proof.
  intros Hok Hm Hh. destruct (holds_buf w b part t s Hok Hh) as [x Hx]. pose proof (mounted_not_255 _ _ _ _ _ Hok Hm) as Hp.
  destruct Hh as [Hb Hc]. destruct (mustflush_ok w b x part t s Hok Hb Hx Hp) as (w' & Hrun & Hw').
  eapply wp_intro; [exact Hrun|]. cbv beta. rewrite Hw'.
  pose proof (bam_byte_range w part p last size t s 0 Hok Hm) as Hr.
  assert (bam_ok (poked w b x 0 (bam_byte w part t s 0))) as Hok' by (apply (poked_ok w b x part t s); done || lia).
  split; [split; [done| |]|].
  - apply (poked_frame w b x part t s); done || lia.
  - intros part' p' last' size' t' s' Hm' Hv'.
    rewrite (poked_changed w b x part t s 0 _ Hok Hb Hx ltac:(lia) Hr part' p' last' size' t' s' Hm' Hv').
    destruct (decide _) as [E|]; [|done]. injection E as -> -> ->.
    pose proof (bam_view_zlen w part p last size t s Hok Hm Hv) as Hl. unfold bam_byte.
    replace [nthZ (bam_view w part t s) 0] with (slice 0 1 (bam_view w part t s)); [apply splice_slice; lia|].
    apply nthZ_ext; [by rewrite zlen_slice by lia|]. intros k. rewrite zlen_slice by lia. intros Hk.
    rewrite nthZ_slice by lia. replace k with 0 by lia. by rewrite nthZ_0.
  - destruct (bk_each _ Hok' b (or_introl Hb)) as (y & k & Hy). exists y. split; [exact Hb|].
    pose proof (cell_bam_buf _ _ _ _ Hy) as Hcy. rewrite (poked_cell w b x part t s) in Hcy by done.
    assert (k = (part, t, s)) as -> by congruence. split; [done|]. pose proof (bb_lookup _ _ _ _ Hy) as Hly.
    rewrite (poked_bufs w b x part t s) in Hly by done. rewrite decide_True in Hly by done. by injection Hly as <-.
Qed.

(** A step that changes one byte. *)
Definition changes (w w' : world) (i v : Z) : Prop := bam_ok w' /\ frame w w' /\ byte_changed w w' part t s i v.

Lemma marked_put_ok w b x ptr i v : bam_ok w -> mounted w part p last size -> bam_buffer (d64 w) = Some b ->
  bam_buf w b x (part, t, s) -> mustflush x = true -> 0 <= ptr + i < 256 -> is_byte v ->
  wp (bam_put ptr i v) (fun _ w' => changes w w' (ptr + i) v) w.
Proof.
  intros Hok Hm Hb Hx Hfl Hi Hbv. eapply wp_intro; [by apply (marked_put_run w b x part t s)|]. cbv beta. split_and!.
  - by apply (poked_ok w b x part t s).
  - by apply (poked_frame w b x part t s).
  - apply (changed_of_view w _ part p last size); try done. by apply poked_changed.
Qed.

Lemma put_mark_ok w b ptr i v : bam_ok w -> mounted w part p last size -> holds w b part t s ->
  0 <= ptr + i < 256 -> is_byte v ->
  wp (bam_put ptr i v;; bam_mustflush) (fun _ w' => changes w w' (ptr + i) v) w.
Proof.
  intros Hok Hm Hh Hi Hbv. destruct (holds_buf w b part t s Hok Hh) as [x Hx]. destruct Hh as [Hb _].
  apply (put_flush_ok w b x part t s); try done. split_and!.
  - by apply (poked_ok w b x part t s).
  - by apply (poked_frame w b x part t s).
  - apply (changed_of_view w _ part p last size); try done. by apply poked_changed.
Qed.
End steps.

(** ** Bits and counters *)

Definition bit_index (dnp : bool) (s : Z) : Z := if dnp then 7 - Z.land s 7 else Z.land s 7.

(** Whether the BAM marks a sector as free, and its counter for a track. *)
Definition bam_free (w : world) (part it t s : Z) : bool :=
  let '(bt, bs, pos) := bam_position it t BAM_BITFIELD in
  Z.testbit (bam_byte w part bt bs (pos + Z.shiftr s 3)) (bit_index (it =? D64_TYPE_DNP) s).

Definition bam_count (w : world) (part it t : Z) : Z :=
  let '(bt, bs, pos) := bam_position it t BAM_FREECOUNT in bam_byte w part bt bs pos.

Lemma bit_index_range dnp s : 0 <= bit_index dnp s < 8.
Proof.
  unfold bit_index. change 7 with (Z.ones 3). rewrite Z.land_ones by lia.
  pose proof (Z.mod_pos_bound s (2 ^ 3) ltac:(lia)). change (2 ^ 3) with 8 in *. change (Z.ones 3) with 7. destruct dnp; lia.
Qed.

Lemma sector_bit_shift dnp s : sector_bit dnp s = Z.shiftl 1 (bit_index dnp s).
Proof.
  unfold sector_bit. pose proof (bit_index_range dnp s) as Hr. unfold bit_index in *. destruct dnp; [|done].
  assert (0 <= Z.land s 7 < 8) as Hk by lia. remember (Z.land s 7) as k eqn:E. clear - Hk.
  apply Z.eqb_eq. pattern k.
  assert (forallb (fun k => Z.shiftr 128 k =? Z.shiftl 1 (7 - k)) (seqZ 0 8) = true) as Hall by done.
  rewrite forallb_forall in Hall. apply Hall, list_elem_of_In, elem_of_seqZ. lia.
Qed.

Lemma sector_bit_test dnp s x : negb (Z.land x (sector_bit dnp s) =? 0) = Z.testbit x (bit_index dnp s).
Proof. rewrite sector_bit_shift. apply bit_test_testbit, bit_index_range. Qed.

Lemma quiet_mounted w w' part p last size : quiet w w' -> mounted w part p last size ->
  exists f, mounted w' part (set_imagehandle f p) last size.
Proof. intros [_ Hf _]. by apply mounted_frame. Qed.

Lemma move_quiet w part p last size track type : bam_ok w -> mounted w part p last size -> 1 <= track <= last ->
  wp (move_bam_window part track type) (fun r w' => let '(t, s, pos) := bam_position (imagetype p) track type in
    r = (0, pos) /\ quiet w w' /\ exists b, holds w' b part t s) w.
Proof.
  intros Hok Hm Ht. eapply wp_mono; [by eapply move_bam_window_ok|]. cbv beta. intros r w'.
  destruct (bam_position (imagetype p) track type) as [[t s] pos]. intros (? & ? & ? & ? & ?). split_and!; done.
Qed.

Lemma is_free_ok w part p last size t s : bam_ok w -> mounted w part p last size -> valid_ts (imagetype p) last t s ->
  wp (is_free part t s) (fun r w' => r = Z.b2z (bam_free w part (imagetype p) t s) /\ quiet w w') w.
Proof.
  intros Hok Hm Hv. unfold is_free. rewrite wp_bind.
  eapply wp_mono; [apply (move_quiet w part p last size t BAM_BITFIELD Hok Hm); apply Hv|]. cbv beta. intros r w1.
  pose proof (bitmap_byte_inside _ _ _ t s (mo_format _ _ _ _ _ Hm) Hv) as Hin. unfold bam_free.
  destruct (bam_position (imagetype p) t BAM_BITFIELD) as [[bt bs] pos]. destruct Hin as [Hbv Hi].
  intros (-> & Hq & b & Hh). destruct (quiet_mounted _ _ _ _ _ _ Hq Hm) as [f Hm1]. cbn [fst snd].
  rewrite Z.eqb_refl. cbn [negb]. rewrite wp_bind. eapply wp_intro; [apply part_get_run; apply Hm1|]. cbv beta.
  rewrite wp_bind. eapply wp_intro.
  { apply (bam_get_ok w1 part bt bs b); [apply Hq|done| |done]. eapply mounted_not_255; [apply Hq|done]. }
  cbv beta. rewrite wp_ret. split; [|done]. unfold is_dnp. cbn [imagetype set_imagehandle].
  rewrite sector_bit_test. by rewrite (quiet_byte w w1 part p last size bt bs _ Hq Hm Hbv); destruct (Z.testbit _ _).
Qed.

(** ** Changing a bit and a counter *)

Lemma counter_update_ok w part p last size t (c : Z -> bool) (h : Z -> Z) :
  bam_ok w -> mounted w part p last size -> 1 <= t <= last -> (forall n, is_byte n -> c n = true -> is_byte (h n)) ->
  wp (r ← move_bam_window part t BAM_FREECOUNT;
      if negb (r.1 =? 0) then mret 1
      else n ← bam_get r.2 0; when (c n) (bam_put r.2 0 (h n);; bam_mustflush);; mret 0)
    (fun r w' => r = 0 /\ bam_ok w' /\ frame w w' /\
      let '(ct, cs, cpos) := bam_position (imagetype p) t BAM_FREECOUNT in
      let n := bam_byte w part ct cs cpos in
      if c n then byte_changed w w' part ct cs cpos (h n) else same_view w w') w.
Proof.
  intros Hok Hm Ht Hh. rewrite wp_bind. eapply wp_mono; [by apply (move_quiet w part p last size)|]. cbv beta.
  intros r w1. pose proof (bam_inside_spec _ _ _ t BAM_FREECOUNT (mo_format _ _ _ _ _ Hm) Ht) as Hin.
  destruct (bam_position (imagetype p) t BAM_FREECOUNT) as [[ct cs] cpos]. destruct Hin as (Hcv & Hi & Hi').
  intros (-> & Hq & b & Hb). pose proof (quiet_mounted _ _ _ _ _ _ Hq Hm) as [f Hm1]. cbn [fst snd].
  rewrite Z.eqb_refl. cbn [negb]. rewrite wp_bind. eapply wp_intro.
  { apply (bam_get_ok w1 part ct cs b); [apply Hq|done| |lia]. eapply mounted_not_255; [apply Hq|done]. }
  cbv beta. rewrite Z.add_0_r, (quiet_byte w w1 part p last size ct cs _ Hq Hm Hcv).
  pose proof (bam_byte_range w part p last size ct cs cpos Hok Hm) as Hn. rewrite wp_bind. unfold when.
  destruct (c (bam_byte w part ct cs cpos)) eqn:Hcn; [|rewrite !wp_ret; split_and!; apply Hq || done].
  eapply wp_mono; [eapply (put_mark_ok part (set_imagehandle f p) last size ct cs Hcv w1 b); [apply Hq|done|done|lia|by apply Hh]|].
  cbv beta. intros _ w2 (Hok2 & Hfr2 & Hch). rewrite wp_ret. split_and!; [done|done|eapply frame_trans; [apply Hq|done]|].
  rewrite Z.add_0_r in Hch. intros part' p' last' size' t' s' i' Hm' Hv' Hi2.
  pose proof (quiet_mounted _ _ _ _ _ _ Hq Hm') as [f' Hm1'].
  rewrite (Hch part' _ last' size' t' s' i' Hm1' Hv' Hi2).
  by rewrite (quiet_byte w w1 part' p' last' size' t' s' _ Hq Hm' Hv').
Qed.

(** What a change of the bit of a sector does to the bytes of the BAM: [g]
    changes the byte with the bit, [h] the counter where [c] says so. *)
Definition sector_update (w w' : world) (part it t s : Z) (g : Z -> Z) (c : Z -> bool) (h : Z -> Z) : Prop :=
  let '(bt, bs, pos) := bam_position it t BAM_BITFIELD in
  let '(ct, cs, cpos) := bam_position it t BAM_FREECOUNT in
  let n := bam_byte w part ct cs cpos in
  forall part' p' last' size' t' s' i', mounted w part' p' last' size' -> valid_ts (imagetype p') last' t' s' -> 0 <= i' < 256 ->
  bam_byte w' part' t' s' i' =
    if decide ((part', t', s', i') = (part, bt, bs, pos + Z.shiftr s 3)) then g (bam_byte w part' t' s' i')
    else if negb (it =? D64_TYPE_DNP) && c n && bool_decide ((part', t', s', i') = (part, ct, cs, cpos)) then h n
    else bam_byte w part' t' s' i'.

Lemma counter_place it last size t s : linear_format it last size -> valid_ts it last t s -> it <> D64_TYPE_DNP ->
  let '(bt, bs, pos) := bam_position it t BAM_BITFIELD in
  let '(ct, cs, cpos) := bam_position it t BAM_FREECOUNT in
  valid_ts it last ct cs /\ 0 <= cpos < 256 /\ (bt, bs, pos + Z.shiftr s 3) <> (ct, cs, cpos).
Proof.
  intros Hf Hv Hne. pose proof (counter_apart _ _ _ _ _ t Hf Hv (proj1 Hv) Hne) as Ha. unfold bam_offset in Ha.
  pose proof (bam_inside_spec _ _ _ t BAM_FREECOUNT Hf (proj1 Hv)) as Hc.
  destruct (bam_position it t BAM_BITFIELD) as [[bt bs] pos], (bam_position it t BAM_FREECOUNT) as [[ct cs] cpos].
  destruct Hc as (? & ? & ?). split_and!; [done|lia|lia|]. intros [= -> -> <-]. lia.
Qed.

(** The common part of [allocate_sector] and [free_sector]. *)
Lemma sector_update_ok w part p last size t s (g : bool -> Z -> Z) (c : Z -> Z -> bool) (h : Z -> Z) :
  bam_ok w -> mounted w part p last size -> valid_ts (imagetype p) last t s ->
  (forall d x, is_byte x -> is_byte (g d x)) -> (forall n, is_byte n -> c (imagetype p) n = true -> is_byte (h n)) ->
  wp (r ← move_bam_window part t BAM_BITFIELD;
      if negb (r.1 =? 0) then mret 1
      else
        bam_mustflush;;
        p ← part_get part;
        x ← bam_get r.2 (Z.shiftr s 3);
        bam_put r.2 (Z.shiftr s 3) (g (is_dnp p) x);;
        if is_dnp p then mret 0
        else
          r ← move_bam_window part t BAM_FREECOUNT;
          if negb (r.1 =? 0) then mret 1
          else n ← bam_get r.2 0; when (c (imagetype p) n) (bam_put r.2 0 (h n);; bam_mustflush);; mret 0)
    (fun r w' => r = 0 /\ bam_ok w' /\ frame w w' /\
      sector_update w w' part (imagetype p) t s (g (is_dnp p)) (c (imagetype p)) h) w.
Proof.
  intros Hok Hm Hv Hg Hh. rewrite wp_bind. eapply wp_mono; [apply (move_quiet w part p last size); apply Hv || done|].
  cbv beta. intros r w1. pose proof (bitmap_byte_inside _ _ _ t s (mo_format _ _ _ _ _ Hm) Hv) as Hin.
  pose proof (counter_place _ _ _ t s (mo_format _ _ _ _ _ Hm) Hv) as Hcp. unfold sector_update.
  destruct (bam_position (imagetype p) t BAM_BITFIELD) as [[bt bs] pos]. destruct Hin as [Hbv Hi].
  intros (-> & Hq & b & Hb). pose proof (quiet_mounted _ _ _ _ _ _ Hq Hm) as [f Hm1]. cbn [fst snd].
  rewrite Z.eqb_refl. cbn [negb]. rewrite wp_bind.
  eapply wp_mono; [apply (mark_ok part (set_imagehandle f p) last size bt bs Hbv w1 b); [apply Hq|done|done]|].
  cbv beta. intros _ w2 (Hq2 & x & Hb2 & Hx2 & Hfl). pose proof (quiet_trans _ _ _ Hq Hq2) as Hq12.
  pose proof (quiet_mounted _ _ _ _ _ _ Hq12 Hm) as [f2 Hm2].
  rewrite wp_bind. eapply wp_intro; [apply part_get_run; apply Hm2|]. cbv beta. rewrite wp_bind. eapply wp_intro.
  { apply (bam_get_ok w2 part bt bs b); [apply Hq2|split; [done|by eapply cell_bam_buf]| |done].
    eapply mounted_not_255; [apply Hq2|done]. }
  cbv beta. rewrite (quiet_byte w w2 part p last size bt bs _ Hq12 Hm Hbv). 
  change (is_dnp (set_imagehandle f2 p)) with (is_dnp p).
  pose proof (bam_byte_range w part p last size bt bs (pos + Z.shiftr s 3) Hok Hm) as Hbr. rewrite wp_bind.
  eapply wp_mono; [apply (marked_put_ok part (set_imagehandle f2 p) last size bt bs Hbv w2 b x); try done;
    [apply Hq2|by apply Hg]|].
  cbv beta. intros _ w3 (Hok3 & Hfr3 & Hch). pose proof (frame_trans _ _ _ (q_frame _ _ Hq12) Hfr3) as Hfr.
  assert (forall part' p' last' size' t' s' i', mounted w part' p' last' size' -> valid_ts (imagetype p') last' t' s' ->
    0 <= i' < 256 -> bam_byte w3 part' t' s' i' = if decide ((part', t', s', i') = (part, bt, bs, pos + Z.shiftr s 3))
      then g (is_dnp p) (bam_byte w part' t' s' i') else bam_byte w part' t' s' i') as Hch3.
  { intros part' p' last' size' t' s' i' Hm' Hv' Hi'. destruct (quiet_mounted _ _ _ _ _ _ Hq12 Hm') as [f' Hm2'].
    rewrite (Hch part' _ last' size' t' s' i' Hm2' Hv' Hi'), (quiet_byte w w2 part' p' last' size' t' s' _ Hq12 Hm' Hv').
    destruct (decide _) as [E|]; [|done]. by injection E as -> -> -> ->. }
  unfold is_dnp in *. destruct (Z.eqb_spec (imagetype p) D64_TYPE_DNP) as [Hd|Hd].
  { rewrite wp_ret. destruct (bam_position _ _ _) as [[ct cs] cpos]. by split_and!. }
  destruct (mounted_frame _ _ _ _ _ _ Hfr Hm) as [f3 Hm3]. eapply wp_mono.
  { apply (counter_update_ok w3 part (set_imagehandle f3 p) last size t (c (imagetype p)) h Hok3 Hm3 (proj1 Hv) Hh). }
  cbv beta. cbn [imagetype set_imagehandle]. intros r w4 (-> & Hok4 & Hfr4 & Hc4). specialize (Hcp Hd).
  destruct (bam_position (imagetype p) t BAM_FREECOUNT) as [[ct cs] cpos]. destruct Hcp as (Hcv & Hci & Hne).
  split_and!; [done|done|by eapply frame_trans|]. intros part' p' last' size' t' s' i' Hm' Hv' Hi'.
  rewrite (Hch3 part p last size ct cs cpos Hm Hcv Hci) in Hc4. rewrite decide_False in Hc4 by (intros [= E1 E2 E3]; apply Hne; congruence).
  destruct (mounted_frame _ _ _ _ _ _ Hfr Hm') as [f3' Hm3']. cbn [negb andb].
  destruct (c (imagetype p) (bam_byte w part ct cs cpos)).
  - rewrite (Hc4 part' _ last' size' t' s' i' Hm3' Hv' Hi'), (Hch3 part' p' last' size' t' s' i' Hm' Hv' Hi').
    destruct (decide ((part', t', s', i') = (part, ct, cs, cpos))) as [E|E].
    + injection E as -> -> -> ->. by rewrite bool_decide_eq_true_2, decide_False by (congruence || done).
    + by rewrite bool_decide_eq_false_2.
  - unfold bam_byte at 1. rewrite (Hc4 part' _ last' size' t' s' Hm3' Hv'). by apply (Hch3 part' p' last' size').
Qed.

(** ** The specification: a set of free sectors and counters *)

(** The bit of a sector and the counter of its track, by the sector and the
    byte that hold them. *)
Definition bit_place (it t s : Z) : Z * Z * Z * Z :=
  let '(bt, bs, pos) := bam_position it t BAM_BITFIELD in (bt, bs, pos + Z.shiftr s 3, bit_index (it =? D64_TYPE_DNP) s).
Definition counter_place_of (it t : Z) : Z * Z * Z := bam_position it t BAM_FREECOUNT.

(** The set of free sectors and the counters of all mounted images, with one
    sector set to [v] and the counter of its track to [n]; every other bit of
    every sector of these images, inside and outside the BAM, is as before. *)
Record bam_set (w w' : world) (part t s : Z) (v : bool) (n : Z) : Prop := {
  bs_free : forall part' p' last' size' t' s', mounted w part' p' last' size' -> valid_ts (imagetype p') last' t' s' ->
    bam_free w' part' (imagetype p') t' s' =
      if decide ((part', t', s') = (part, t, s)) then v else bam_free w part' (imagetype p') t' s';
  bs_count : forall part' p' last' size' t', mounted w part' p' last' size' -> 1 <= t' <= last' ->
    imagetype p' <> D64_TYPE_DNP -> bam_count w' part' (imagetype p') t' =
      if decide ((part', t') = (part, t)) then n else bam_count w part' (imagetype p') t';
  bs_rest : forall part' p' last' size' t' s' i k, mounted w part' p' last' size' -> valid_ts (imagetype p') last' t' s' ->
    0 <= i < 256 -> 0 <= k < 8 ->
    Z.testbit (bam_byte w' part' t' s' i) k = Z.testbit (bam_byte w part' t' s' i) k \/
    part' = part /\ ((t', s', i, k) = bit_place (imagetype p') t s \/
                     imagetype p' <> D64_TYPE_DNP /\ (t', s', i) = counter_place_of (imagetype p') t)
}.

Lemma mounted_same w part p last size p' last' size' : mounted w part p last size -> mounted w part p' last' size' ->
  p' = p /\ last' = last.
Proof.
  intros Hm Hm'. assert (p' = p) as -> by (symmetry; by eapply mounted_lookup; [|apply Hm]). split; [done|].
  rewrite <- (mo_last _ _ _ _ _ Hm). by rewrite (mo_last _ _ _ _ _ Hm').
Qed.

Lemma bit_index_inj it s s' : bit_index it s = bit_index it s' -> Z.land s 7 = Z.land s' 7.
Proof. unfold bit_index. destruct it; lia. Qed.

Lemma spt_40 it last size t : linear_format it last size -> it <> D64_TYPE_DNP -> sectors_per_track it t <= 40.
Proof.
  intros Hf Hne. destruct Hf as [e He|e He|e He|n Hn]; [..|done];
    (destruct He as [->| ->]; unfold sectors_per_track; simpl; repeat case_match; lia).
Qed.

Section to_set.
Context (w w' : world) (part : Z) (p : partition_t) (last size t s : Z).
Context (g : Z -> Z) (c : Z -> bool) (h : Z -> Z) (v : bool).
Notation it := (imagetype p).
Hypothesis Hok : bam_ok w.
Hypothesis Hm : mounted w part p last size.
Hypothesis Hv : valid_ts it last t s.
Hypothesis Hg : forall x j, is_byte x -> 0 <= j < 8 ->
  Z.testbit (g x) j = if j =? bit_index (it =? D64_TYPE_DNP) s then v else Z.testbit x j.
Hypothesis Hupd : sector_update w w' part it t s g c h.

Lemma update_free part' p' last' size' t' s' : mounted w part' p' last' size' -> valid_ts (imagetype p') last' t' s' ->
  bam_free w' part' (imagetype p') t' s' =
    if decide ((part', t', s') = (part, t, s)) then v else bam_free w part' (imagetype p') t' s'.
Proof.
  intros Hm' Hv'. unfold sector_update in Hupd. unfold bam_free.
  pose proof (bitmap_byte_inside _ _ _ t' s' (mo_format _ _ _ _ _ Hm') Hv') as Hin.
  pose proof (bits_apart _ _ _ t s t' s' (mo_format _ _ _ _ _ Hm) Hv) as Hbits.
  pose proof (counter_apart _ _ _ t' s' t (mo_format _ _ _ _ _ Hm')) as Hcnt. unfold bam_offset in Hbits, Hcnt.
  destruct (decide ((part', t', s') = (part, t, s))) as [E|Hne].
  - injection E as -> -> ->. destruct (mounted_same _ _ _ _ _ _ _ _ Hm Hm') as [-> ->].
    destruct (bam_position it t BAM_BITFIELD) as [[bt bs] pos]. destruct Hin as [Hbv Hi].
    destruct (bam_position it t BAM_FREECOUNT) as [[ct cs] cpos].
    rewrite (Hupd part p last size' bt bs _ Hm' Hbv Hi), decide_True by done.
    rewrite Hg; [by rewrite Z.eqb_refl|by eapply bam_byte_range|apply bit_index_range].
  - destruct (bam_position it t BAM_BITFIELD) as [[bt bs] pos] eqn:Eb, (bam_position it t BAM_FREECOUNT) as [[ct cs] cpos] eqn:Ec.
    destruct (decide (part' = part)) as [->|Hp].
    + destruct (mounted_same _ _ _ _ _ _ _ _ Hm Hm') as [-> ->]. rewrite Ec in Hcnt.
      destruct (bam_position it t' BAM_BITFIELD) as [[bt' bs'] pos'] eqn:Eb'. destruct Hin as [Hbv Hi].
      rewrite (Hupd part p last size' bt' bs' _ Hm' Hbv Hi). destruct (decide _) as [E|_].
      * injection E as -> -> E. rewrite Hg by (by eapply bam_byte_range || apply bit_index_range).
        destruct (Z.eqb_spec (bit_index (it =? D64_TYPE_DNP) s') (bit_index (it =? D64_TYPE_DNP) s)) as [Ei|]; [|done].
        apply bit_index_inj in Ei. destruct Hbits as [-> ->]; [done|lia|done|done].
      * destruct (Z.eqb_spec it D64_TYPE_DNP) as [|Hd]; [done|]. rewrite bool_decide_eq_false_2; [by rewrite andb_false_r|].
        intros [= -> -> E]. apply (Hcnt Hv' (proj1 Hv) Hd). lia.
    + destruct (bam_position (imagetype p') t' BAM_BITFIELD) as [[bt' bs'] pos']. destruct Hin as [Hbv Hi].
      rewrite (Hupd part' p' last' size' bt' bs' _ Hm' Hbv Hi), decide_False by congruence.
      by rewrite bool_decide_eq_false_2, andb_false_r by congruence.
Qed.

Lemma update_count part' p' last' size' t' : mounted w part' p' last' size' -> 1 <= t' <= last' ->
  imagetype p' <> D64_TYPE_DNP ->
  bam_count w' part' (imagetype p') t' =
    if decide ((part', t') = (part, t)) then (if c (bam_count w part it t) then h (bam_count w part it t) else bam_count w part it t)
    else bam_count w part' (imagetype p') t'.
Proof.
  intros Hm' Ht' Hd. unfold sector_update in Hupd. unfold bam_count.
  pose proof (bam_inside_spec _ _ _ t' BAM_FREECOUNT (mo_format _ _ _ _ _ Hm') Ht') as Hin.
  pose proof (counter_apart _ _ _ t s t' (mo_format _ _ _ _ _ Hm) Hv) as Hbits.
  pose proof (counters_apart _ _ _ t' t (mo_format _ _ _ _ _ Hm') Ht') as Hcnt. unfold bam_offset in Hbits, Hcnt.
  destruct (bam_position it t BAM_BITFIELD) as [[bt bs] pos] eqn:Eb, (bam_position it t BAM_FREECOUNT) as [[ct cs] cpos] eqn:Ec.
  destruct (decide (part' = part)) as [->|Hp].
  - destruct (mounted_same _ _ _ _ _ _ _ _ Hm Hm') as [-> ->]. rewrite Ec in Hcnt. specialize (Hbits Ht' Hd).
    destruct (bam_position it t' BAM_FREECOUNT) as [[ct' cs'] cpos'] eqn:Ec'. destruct Hin as (Hcv & Hi & Hi'). cbn iota in Hi'.
    rewrite (Hupd part p last size' ct' cs' cpos' Hm' Hcv ltac:(lia)). rewrite decide_False.
    2: { intros [= -> -> ->]. apply Hbits. lia. }
    replace (it =? D64_TYPE_DNP) with false by lia. cbn [negb andb].
    destruct (decide ((part, t') = (part, t))) as [[= ->]|Hne].
    + rewrite Ec in Ec'. injection Ec' as <- <- <-. rewrite bool_decide_eq_true_2, andb_true_r by done. done.
    + rewrite bool_decide_eq_false_2; [by rewrite andb_false_r|]. intros [= -> -> ->]. apply Hne.
      rewrite Hcnt; [done|apply Hv|done|lia].
  - destruct (bam_position (imagetype p') t' BAM_FREECOUNT) as [[ct' cs'] cpos']. destruct Hin as (Hcv & Hi & Hi'). cbn iota in Hi'.
    rewrite (Hupd part' p' last' size' ct' cs' cpos' Hm' Hcv ltac:(lia)), decide_False by congruence.
    rewrite bool_decide_eq_false_2, andb_false_r by congruence. by rewrite decide_False by congruence.
Qed.

Lemma update_rest part' p' last' size' t' s' i k : mounted w part' p' last' size' -> valid_ts (imagetype p') last' t' s' ->
  0 <= i < 256 -> 0 <= k < 8 ->
  Z.testbit (bam_byte w' part' t' s' i) k = Z.testbit (bam_byte w part' t' s' i) k \/
  part' = part /\ ((t', s', i, k) = bit_place (imagetype p') t s \/
                   imagetype p' <> D64_TYPE_DNP /\ (t', s', i) = counter_place_of (imagetype p') t).
Proof.
  intros Hm' Hv' Hi Hk. unfold sector_update in Hupd. unfold bit_place, counter_place_of.
  destruct (bam_position it t BAM_BITFIELD) as [[bt bs] pos] eqn:Eb, (bam_position it t BAM_FREECOUNT) as [[ct cs] cpos] eqn:Ec.
  rewrite (Hupd part' p' last' size' t' s' i Hm' Hv' Hi). destruct (decide _) as [E|_].
  - injection E as -> -> -> ->. destruct (mounted_same _ _ _ _ _ _ _ _ Hm Hm') as [-> _].
    rewrite Hg by (by eapply bam_byte_range || done). destruct (Z.eqb_spec k (bit_index (it =? D64_TYPE_DNP) s)) as [->|]; [|by left].
    right. split; [done|]. left. by rewrite Eb.
  - destruct (_ && _ && bool_decide _) eqn:E; [|by left]. apply andb_true_iff in E as [E Epos%bool_decide_eq_true_1]. injection Epos as -> -> -> ->.
    destruct (mounted_same _ _ _ _ _ _ _ _ Hm Hm') as [-> _]. right. split; [done|]. right. rewrite Ec. split; [lia|done].
Qed.
End to_set.

Lemma update_set w w' part p last size t s g c h v n :
  bam_ok w -> mounted w part p last size -> valid_ts (imagetype p) last t s ->
  (forall x j, is_byte x -> 0 <= j < 8 ->
    Z.testbit (g x) j = if j =? bit_index (imagetype p =? D64_TYPE_DNP) s then v else Z.testbit x j) ->
  sector_update w w' part (imagetype p) t s g c h ->
  (imagetype p <> D64_TYPE_DNP ->
   n = if c (bam_count w part (imagetype p) t) then h (bam_count w part (imagetype p) t) else bam_count w part (imagetype p) t) ->
  bam_set w w' part t s v n.
Proof.
  intros Hok Hm Hv Hg Hupd Hn. split.
  - intros part' p' last' size' t' s' Hm' Hv'. eapply (update_free w w' part p last size t s g c h v); eauto.
  - intros part' p' last' size' t' Hm' Ht' Hd.
    rewrite (update_count w w' part p last size t s g c h Hm Hv Hupd part' p' last' size' t' Hm' Ht' Hd).
    destruct (decide _) as [E|]; [|done]. injection E as -> ->.
    destruct (mounted_same _ _ _ _ _ _ _ _ Hm Hm') as [-> _]. by rewrite Hn.
  - intros part' p' last' size' t' s' i k. eapply (update_rest w w' part p last size t s g c h v); eauto.
Qed.

(** The value of a bit of a byte after a mask was applied. *)
Lemma clear_bit_spec dnp s x j : is_byte x -> 0 <= j < 8 ->
  Z.testbit (Z.land x (u8 (Z.lnot (sector_bit dnp s)))) j = if j =? bit_index dnp s then false else Z.testbit x j.
Proof.
  intros Hx Hj. pose proof (bit_index_range dnp s). rewrite sector_bit_shift, Z.land_spec, testbit_u8, Z.lnot_spec by lia.
  rewrite Z.shiftl_1_l, Z.pow2_bits_eqb by lia. replace (j <? 8) with true by lia.
  destruct (Z.eqb_spec (bit_index dnp s) j) as [->|]; [rewrite Z.eqb_refl; apply andb_false_r|].
  replace (j =? bit_index dnp s) with false by lia. apply andb_true_r.
Qed.

Lemma set_bit_spec dnp s x j : is_byte x -> 0 <= j < 8 ->
  Z.testbit (Z.lor x (sector_bit dnp s)) j = if j =? bit_index dnp s then true else Z.testbit x j.
Proof.
  intros Hx Hj. pose proof (bit_index_range dnp s). rewrite sector_bit_shift, Z.lor_spec, Z.shiftl_1_l, Z.pow2_bits_eqb by lia.
  destruct (Z.eqb_spec (bit_index dnp s) j) as [->|]; [rewrite Z.eqb_refl; apply orb_true_r|].
  replace (j =? bit_index dnp s) with false by lia. apply orb_false_r.
Qed.

Lemma byte_of_bits x : (forall k, 8 <= k -> Z.testbit x k = false) -> is_byte x.
Proof.
  intros Hx. unfold is_byte. replace x with (x mod 2 ^ 8); [apply Z.mod_pos_bound; lia|].
  apply Z.bits_inj'. intros k Hk. destruct (Z.lt_ge_cases k 8).
  - by rewrite Z.mod_pow2_bits_low by lia.
  - by rewrite Z.mod_pow2_bits_high, Hx by lia.
Qed.

Lemma clear_bit_byte x y : is_byte x -> is_byte (Z.land x y).
Proof. intros Hx. apply byte_of_bits. intros k Hk. by rewrite Z.land_spec, (testbit_byte_high x k Hx Hk). Qed.

Lemma set_bit_byte dnp s x : is_byte x -> is_byte (Z.lor x (sector_bit dnp s)).
Proof.
  intros Hx. apply byte_of_bits. intros k Hk. pose proof (bit_index_range dnp s).
  rewrite sector_bit_shift, Z.lor_spec, (testbit_byte_high x k Hx Hk), Z.shiftl_1_l, Z.pow2_bits_false by lia. done.
Qed.

Lemma quiet_free w w' part p last size t s : quiet w w' -> mounted w part p last size -> valid_ts (imagetype p) last t s ->
  bam_free w' part (imagetype p) t s = bam_free w part (imagetype p) t s.
Proof.
  intros Hq Hm Hv. unfold bam_free. pose proof (bitmap_byte_inside _ _ _ t s (mo_format _ _ _ _ _ Hm) Hv) as Hin.
  destruct (bam_position (imagetype p) t BAM_BITFIELD) as [[bt bs] pos]. destruct Hin as [Hbv _].
  by rewrite (quiet_byte w w' part p last size bt bs _ Hq Hm Hbv).
Qed.

Lemma quiet_count w w' part p last size t : quiet w w' -> mounted w part p last size -> 1 <= t <= last ->
  bam_count w' part (imagetype p) t = bam_count w part (imagetype p) t.
Proof.
  intros Hq Hm Ht. unfold bam_count. pose proof (bam_inside_spec _ _ _ t BAM_FREECOUNT (mo_format _ _ _ _ _ Hm) Ht) as Hin.
  destruct (bam_position (imagetype p) t BAM_FREECOUNT) as [[bt bs] pos]. destruct Hin as [Hbv _].
  by rewrite (quiet_byte w w' part p last size bt bs _ Hq Hm Hbv).
Qed.

Lemma bam_count_range w part p last size t : bam_ok w -> mounted w part p last size -> is_byte (bam_count w part (imagetype p) t).
Proof. intros Hok Hm. unfold bam_count. destruct (bam_position _ _ _) as [[bt bs] pos]. by eapply bam_byte_range. Qed.

(** A quiet step first, or nothing but quiet steps. *)
Lemma set_after_quiet w w1 w' part t s v n : quiet w w1 -> bam_set w1 w' part t s v n -> bam_set w w' part t s v n.
Proof.
  intros Hq [Hf Hc Hr]. split.
  - intros part' p' last' size' t' s' Hm Hv. destruct (quiet_mounted _ _ _ _ _ _ Hq Hm) as [f Hm1].
    pose proof (Hf part' (set_imagehandle f p') last' size' t' s' Hm1 Hv) as E. cbn [imagetype set_imagehandle] in E.
    by rewrite E, (quiet_free w w1 part' p' last' size' t' s' Hq Hm Hv).
  - intros part' p' last' size' t' Hm Ht Hd. destruct (quiet_mounted _ _ _ _ _ _ Hq Hm) as [f Hm1].
    pose proof (Hc part' (set_imagehandle f p') last' size' t' Hm1 Ht Hd) as E. cbn [imagetype set_imagehandle] in E.
    by rewrite E, (quiet_count w w1 part' p' last' size' t' Hq Hm Ht).
  - intros part' p' last' size' t' s' i k Hm Hv Hi Hk. destruct (quiet_mounted _ _ _ _ _ _ Hq Hm) as [f Hm1].
    rewrite <- (quiet_byte w w1 part' p' last' size' t' s' i Hq Hm Hv). apply (Hr part' (set_imagehandle f p') last' size' t' s' i k Hm1 Hv Hi Hk).
Qed.

Lemma set_of_quiet w w' part p last size t s v n : quiet w w' -> mounted w part p last size ->
  bam_free w part (imagetype p) t s = v -> bam_count w part (imagetype p) t = n -> bam_set w w' part t s v n.
Proof.
  intros Hq Hm <- <-. split.
  - intros part' p' last' size' t' s' Hm' Hv. rewrite (quiet_free w w' part' p' last' size' t' s' Hq Hm' Hv).
    destruct (decide _) as [E|]; [|done]. injection E as -> -> ->. by destruct (mounted_same _ _ _ _ _ _ _ _ Hm Hm') as [-> _].
  - intros part' p' last' size' t' Hm' Ht Hd. rewrite (quiet_count w w' part' p' last' size' t' Hq Hm' Ht).
    destruct (decide _) as [E|]; [|done]. injection E as -> ->. by destruct (mounted_same _ _ _ _ _ _ _ _ Hm Hm') as [-> _].
  - intros part' p' last' size' t' s' i k Hm' Hv Hi Hk. left. by rewrite (quiet_byte w w' part' p' last' size' t' s' i Hq Hm' Hv).
Qed.

(** [allocate_sector]: the sector is no longer free; if it was, the counter
    of its track is one less, but not below 0. *)
Lemma allocate_sector_ok w part p last size t s :
  bam_ok w -> mounted w part p last size -> valid_ts (imagetype p) last t s ->
  wp (allocate_sector part t s) (fun r w' => r = 0 /\ bam_ok w' /\ frame w w' /\
    let n := bam_count w part (imagetype p) t in
    bam_set w w' part t s false (if bam_free w part (imagetype p) t s then Z.max 0 (n - 1) else n)) w.
Proof.
  intros Hok Hm Hv. unfold allocate_sector. rewrite wp_bind.
  eapply wp_mono; [by apply (is_free_ok w part p last size)|]. cbv beta. intros r w1 [-> Hq].
  destruct (quiet_mounted _ _ _ _ _ _ Hq Hm) as [f Hm1].
  pose proof (bam_count_range w part p last size t Hok Hm) as Hn. unfold is_byte in Hn.
  destruct (bam_free w part (imagetype p) t s) eqn:Hfree; cbn [Z.b2z Z.ltb Z.eqb Z.compare negb].
  - eapply wp_mono.
    { apply (sector_update_ok w1 part (set_imagehandle f p) last size t s
        (fun d x => Z.land x (u8 (Z.lnot (sector_bit d s)))) (fun _ n => 0 <? n) (fun n => n - 1)); try done; try apply Hq.
      - intros d x Hx. by apply clear_bit_byte.
      - intros n Hb Hpos. unfold is_byte in *. lia. }
    cbv beta. intros r w2 (-> & Hok2 & Hfr & Hupd). split_and!; [done|done|eapply frame_trans; [apply Hq|done]|].
    eapply set_after_quiet; [exact Hq|]. eapply (update_set w1 w2 part (set_imagehandle f p) last size); try done; [apply Hq| |].
    + intros x j Hx Hj. by apply clear_bit_spec.
    + intros Hd. cbn [imagetype set_imagehandle]. rewrite (quiet_count w w1 part p last size t Hq Hm (proj1 Hv)).
      destruct (Z.ltb_spec 0 (bam_count w part (imagetype p) t)); lia.
  - rewrite wp_ret. split_and!; [done|apply Hq..|]. by eapply set_of_quiet.
Qed.

(** [free_sector]: the sector is free; if it was not, the counter is one
    more, but not above the number of sectors of the track. *)
Lemma free_sector_ok w part p last size t s :
  bam_ok w -> mounted w part p last size -> valid_ts (imagetype p) last t s ->
  wp (free_sector part t s) (fun r w' => r = 0 /\ bam_ok w' /\ frame w w' /\
    let n := bam_count w part (imagetype p) t in
    bam_set w w' part t s true
      (if negb (bam_free w part (imagetype p) t s) && (n <? sectors_per_track (imagetype p) t) then n + 1 else n)) w.
Proof.
  intros Hok Hm Hv. unfold free_sector. rewrite wp_bind.
  eapply wp_mono; [by apply (is_free_ok w part p last size)|]. cbv beta. intros r w1 [-> Hq].
  destruct (quiet_mounted _ _ _ _ _ _ Hq Hm) as [f Hm1].
  pose proof (bam_count_range w part p last size t Hok Hm) as Hn. unfold is_byte in Hn.
  destruct (bam_free w part (imagetype p) t s) eqn:Hfree; cbn [Z.b2z Z.ltb Z.eqb Z.compare negb andb].
  - rewrite wp_ret. split_and!; [done|apply Hq..|]. by eapply set_of_quiet.
  - eapply wp_mono.
    { apply (sector_update_ok w1 part (set_imagehandle f p) last size t s
        (fun d x => Z.lor x (sector_bit d s)) (fun it n => n <? sectors_per_track it t) (fun n => u8 (n + 1))); try done; try apply Hq.
      - intros d x Hx. by apply set_bit_byte.
      - intros n _ _. apply u8_is_byte. }
    cbv beta. intros r w2 (-> & Hok2 & Hfr & Hupd). split_and!; [done|done|eapply frame_trans; [apply Hq|done]|].
    eapply set_after_quiet; [exact Hq|]. eapply (update_set w1 w2 part (set_imagehandle f p) last size); try done; [apply Hq| |].
    + intros x j Hx Hj. by apply set_bit_spec.
    + intros Hd. cbn [imagetype set_imagehandle]. rewrite (quiet_count w w1 part p last size t Hq Hm (proj1 Hv)).
      pose proof (spt_40 _ _ _ t (mo_format _ _ _ _ _ Hm) Hd).
      destruct (Z.ltb_spec (bam_count w part (imagetype p) t) (sectors_per_track (imagetype p) t)); [by rewrite u8_id by lia|done].
Qed.
End bamspec.
