(* ===== verification/D64Alloc.v ===== *)
(** * Counting and finding free sectors

    [sectors_free] and the searches for a free sector, specified by the set
    of free sectors: for the first sector of a file and for the next one. *)

From S2P Require Import Prelude EepromFs Utils UtilsTheorems ErrorMsg Buffers BuffersTheorems FatFs Dirent World ImageIO.
From S2P Require Import D64Geom D64 D64GeomTheorems D64Bam D64BamOps D64BamSpec.

(** The number of values in a range that satisfy a predicate. *)
Definition count_true (f : Z -> bool) (a n : Z) : Z := foldr (fun s k => Z.b2z (f s) + k) 0 (seqZ a n).

Section count.
Implicit Type f : Z -> bool.

Lemma count_true_nil f a : count_true f a 0 = 0.
Proof. done. Qed.

Lemma count_true_cons f a n : 0 <= n -> count_true f a (n + 1) = Z.b2z (f a) + count_true f (a + 1) n.
Proof.
  intros Hn. unfold count_true. rewrite (seqZ_cons a) by lia. 
  by replace (Z.succ a) with (a + 1) by lia; replace (Z.pred (n + 1)) with n by lia.
Qed.

Lemma count_true_one f a : count_true f a 1 = Z.b2z (f a).
Proof. pose proof (count_true_cons f a 0 ltac:(lia)) as Hc. rewrite count_true_nil, Z.add_0_r in Hc. exact Hc. Qed.

Lemma count_true_add f a n m : 0 <= n -> 0 <= m -> count_true f a (n + m) = count_true f a n + count_true f (a + n) m.
Proof.
  intros Hn Hm. unfold count_true. rewrite seqZ_app, foldr_app by lia. generalize (foldr (fun s k => Z.b2z (f s) + k) 0 (seqZ (a + n) m)).
  intros k. induction (seqZ a n) as [|s l IH]; simpl; [done|]. rewrite IH. lia.
Qed.

Lemma count_true_ind f a (P : Z -> Z -> Prop) :
  P 0 0 -> (forall n k, 0 <= n -> P n k -> P (n + 1) (k + Z.b2z (f (a + n)))) -> forall n, 0 <= n -> P n (count_true f a n).
Proof.
  intros H0 Hs. apply natlike_ind; [done|]. intros n Hn IH. unfold Z.succ. rewrite count_true_add, count_true_one by lia. by apply Hs.
Qed.

Lemma count_true_range f a n : 0 <= n -> 0 <= count_true f a n <= n.
Proof.
  revert n. apply (count_true_ind f a (fun n k => 0 <= k <= n)); [lia|]. intros n k Hn Hk. destruct (f (a + n)); simpl; lia.
Qed.

Lemma count_true_ext f g a n : 0 <= n -> (forall s, a <= s < a + n -> f s = g s) -> count_true f a n = count_true g a n.
Proof.
  intros Hn Hfg. unfold count_true. assert (Forall (fun s => f s = g s) (seqZ a n)) as Hall by by apply Forall_seqZ.
  induction Hall as [|s l Hs Hall IH]; simpl; congruence.
Qed.

(** One value changes. *)
Lemma count_true_update f g a n s : a <= s < a + n -> (forall s', a <= s' < a + n -> s' <> s -> f s' = g s') ->
  count_true g a n = count_true f a n - Z.b2z (f s) + Z.b2z (g s).
Proof.
  intros Hs Hfg. replace n with ((s - a) + (1 + (n - (s - a) - 1))) by lia. rewrite !count_true_add by lia.
  replace (a + (s - a)) with s by lia. rewrite !count_true_one.
  rewrite (count_true_ext f g a), (count_true_ext f g (s + 1)) by (lia || intros; apply Hfg; lia). lia.
Qed.

Lemma count_true_shift f a n : count_true f a n = count_true (fun k => f (a + k)) 0 n.
Proof.
  unfold count_true. rewrite <- (Z.add_0_r a) at 1. rewrite <- fmap_add_seqZ.
  induction (seqZ 0 n) as [|s l IH]; [done|]. rewrite fmap_cons. simpl. by rewrite IH.
Qed.

Lemma count_true_zero f a n : 0 <= n -> count_true f a n = 0 -> forall s, a <= s < a + n -> f s = false.
Proof.
  intros Hn Hz s Hs. destruct (f s) eqn:E; [|done]. set (g := fun x => if x =? s then false else f x).
  assert (count_true g a n = count_true f a n - Z.b2z (f s) + Z.b2z (g s)) as Hu.
  { apply count_true_update; [done|]. intros x _ Hx. unfold g. by rewrite (proj2 (Z.eqb_neq _ _) Hx). }
  pose proof (count_true_range g a n Hn). rewrite Hz, E in Hu. unfold g at 2 in Hu. rewrite Z.eqb_refl in Hu. simpl in Hu. lia.
Qed.

Lemma count_true_pos f a n : 0 <= n -> count_true f a n <> 0 -> exists s, a <= s < a + n /\ f s = true.
Proof.
  intros Hn. revert n Hn. apply (count_true_ind f a (fun n k => k <> 0 -> exists s, a <= s < a + n /\ f s = true)); [done|].
  intros n k Hn IH. destruct (f (a + n)) eqn:E; simpl; intros Hk.
  - exists (a + n). split; [lia|done].
  - destruct IH as (s & ? & ?); [lia|]. exists s. split; [lia|done].
Qed.
End count.

Section alloc.
Context `{FatFsLaws} `{Assertions} `{ErrorConfig} `{BufferConfig} `{SystemConfig}.
Notation N := CONFIG_BUFFER_COUNT.

(** The number of sectors of a track that the BAM marks as free. *)
Definition free_on_track (w : world) (part it t : Z) : Z :=
  count_true (bam_free w part it t) 0 (sectors_per_track it t).

(** ** sectors_free *)

Lemma sectors_free_outside w part p last size t :
  mounted w part p last size -> t < 1 \/ last < t -> wp (sectors_free part t) (fun r w' => r = 0 /\ w' = w) w.
Proof.
  intros Hm Ht. unfold sectors_free. rewrite wp_bind. eapply wp_intro; [apply part_get_run; apply Hm|]. cbv beta.
  rewrite (mo_last _ _ _ _ _ Hm). replace ((t <? 1) || (last <? t)) with true by lia. by rewrite wp_ret.
Qed.

Lemma linear_base it last size : linear_format it last size -> (base_type it =? D64_TYPE_DNP) = (it =? D64_TYPE_DNP).
Proof. intros Hf. destruct Hf as [e He|e He|e He|n Hn]; [..|done]; destruct He as [->| ->]; done. Qed.

(** The bits of a byte of the bitmap of a DNP image. *)
Lemma dnp_byte_count x : is_byte x -> count_true (fun s => Z.testbit x (bit_index true s)) 0 8 = count_bits x.
Proof.
  intros Hx. apply Z.eqb_eq.
  by apply (byte_check (fun x => count_true (fun s => Z.testbit x (bit_index true s)) 0 8 =? count_bits x)); [vm_compute|].
Qed.

Lemma dnp_bytes_count w part t i : is_byte (bam_byte w part 1 (u8 (2 + Z.shiftr t 3)) (u8 (Z.land t 7 * 32) + i)) ->
  0 <= i -> count_true (bam_free w part D64_TYPE_DNP t) (8 * i) 8 =
    count_bits (bam_byte w part 1 (u8 (2 + Z.shiftr t 3)) (u8 (Z.land t 7 * 32) + i)).
Proof.
  intros Hx Hi. rewrite <- dnp_byte_count by done. 
  rewrite count_true_shift. apply count_true_ext; [lia|]. intros k Hk. unfold bam_free. simpl.
  replace (Z.shiftr (8 * i + k) 3) with i.
  2: { rewrite Z.shiftr_div_pow2 by lia. change (2 ^ 3) with 8. Z.div_mod_to_equations. lia. }
  f_equal. unfold bit_index. change 7 with (Z.ones 3). rewrite !Z.land_ones by lia. change (2 ^ 3) with 8.
  f_equal. Z.div_mod_to_equations. lia.
Qed.

Lemma sectors_free_ok w part p last size t : bam_ok w -> mounted w part p last size -> 1 <= t <= last ->
  wp (sectors_free part t) (fun r w' => quiet w w' /\
    r = if is_dnp p then free_on_track w part (imagetype p) t else bam_count w part (imagetype p) t) w.
Proof.
  intros Hok Hm Ht. unfold sectors_free. rewrite wp_bind. eapply wp_intro; [apply part_get_run; apply Hm|]. cbv beta.
  rewrite (mo_last _ _ _ _ _ Hm). replace ((t <? 1) || (last <? t)) with false by lia.
  rewrite wp_bind. eapply wp_mono; [by apply (move_quiet w part p last size)|]. cbv beta. intros r w1.
  rewrite (linear_base _ _ _ (mo_format _ _ _ _ _ Hm)). unfold is_dnp.
  pose proof (bam_inside_spec _ _ _ t BAM_FREECOUNT (mo_format _ _ _ _ _ Hm) Ht) as Hin.
  pose proof (bam_inside_spec _ _ _ t BAM_BITFIELD (mo_format _ _ _ _ _ Hm) Ht) as Hin'.
  destruct (Z.eqb_spec (imagetype p) D64_TYPE_DNP) as [Hd|Hd].
  - rewrite Hd in *. cbn in Hin'.
    change (bam_position D64_TYPE_DNP t BAM_FREECOUNT) with (1, u8 (2 + Z.shiftr t 3), u8 (Z.land t 7 * 32)).
    cbv iota. intros (-> & Hq & b & Hb). cbn [fst snd]. rewrite Z.eqb_refl. cbn [negb].
    destruct Hin' as (Hbv & Hp0 & Hp1).
    apply (wp_for_range (fun i k s => s = w1 /\ k = count_true (bam_free w part D64_TYPE_DNP t) 0 (8 * i))).
    + intros i k s Hi [-> ->]. change (Z.of_nat _) with 32 in Hi. rewrite wp_bind. eapply wp_intro.
      { apply (bam_get_ok w1 part 1 (u8 (2 + Z.shiftr t 3)) b); [apply Hq|done| |change (bitmap_bytes D64_TYPE_DNP t) with 32 in Hp1; lia].
        eapply mounted_not_255; [exact Hok|exact Hm]. }
      cbv beta. rewrite wp_ret. split; [done|]. rewrite (quiet_byte w w1 part p last size _ _ _ Hq Hm) by (by rewrite Hd).
      rewrite <- dnp_bytes_count by (lia || by eapply bam_byte_range).
      replace (8 * (i + 1)) with (8 * i + 8) by lia. rewrite count_true_add by lia. rewrite Z.add_0_l, u16_id; [done|].
      pose proof (count_true_range (bam_free w part D64_TYPE_DNP t) 0 (8 * i) ltac:(lia)).
      pose proof (count_true_range (bam_free w part D64_TYPE_DNP t) (8 * i) 8 ltac:(lia)). lia.
    + intros k s [-> ->]. split; [done|]. done.
    + done.
  - unfold bam_count. destruct (bam_position (imagetype p) t BAM_FREECOUNT) as [[ct cs] cpos]. destruct Hin as (Hcv & Hi & Hi').
    cbn iota in Hi'. intros (-> & Hq & b & Hb). cbn [fst snd]. rewrite Z.eqb_refl. cbn [negb].
    eapply wp_intro.
    { apply (bam_get_ok w1 part ct cs b); [apply Hq|done| |lia]. eapply mounted_not_255; [exact Hok|exact Hm]. }
    cbv beta. rewrite Z.add_0_r. split; [done|]. by apply (quiet_byte w w1 part p last size).
Qed.

(** ** The invariant of the counters *)

(** The counters of an image agree with its bitmaps. *)
Definition counters_agree (w : world) (part it last : Z) : Prop :=
  it <> D64_TYPE_DNP -> forall t, 1 <= t <= last -> bam_count w part it t = free_on_track w part it t.

Lemma free_on_track_range w part it t : 0 <= free_on_track w part it t <= sectors_per_track it t.
Proof. apply count_true_range. pose proof (spt_range it t). lia. Qed.

Lemma free_on_track_quiet w w' part p last size t : quiet w w' -> mounted w part p last size -> 1 <= t <= last ->
  free_on_track w' part (imagetype p) t = free_on_track w part (imagetype p) t.
Proof.
  intros Hq Hm Ht. pose proof (spt_range (imagetype p) t). apply count_true_ext; [lia|]. intros s Hs.
  apply (quiet_free w w' part p last size t s Hq Hm). split; [done|lia].
Qed.

Lemma counters_agree_quiet w w' part p last size : quiet w w' -> mounted w part p last size ->
  counters_agree w part (imagetype p) last -> counters_agree w' part (imagetype p) last.
Proof.
  intros Hq Hm Ha Hd t Ht. rewrite (quiet_count w w' part p last size t Hq Hm Ht), (Ha Hd t Ht).
  symmetry. by apply (free_on_track_quiet w w' part p last size).
Qed.

(** Changing a bit and its counter together keeps the agreement. *)
Lemma counters_agree_set w w' part p last size t s v n :
  mounted w part p last size -> valid_ts (imagetype p) last t s -> bam_set w w' part t s v n ->
  (imagetype p <> D64_TYPE_DNP ->
   n = bam_count w part (imagetype p) t - Z.b2z (bam_free w part (imagetype p) t s) + Z.b2z v) ->
  forall part' p' last' size', mounted w part' p' last' size' ->
  counters_agree w part' (imagetype p') last' -> counters_agree w' part' (imagetype p') last'.
Proof.
  intros Hm Hv [Hf Hc] Hn part' p' last' size' Hm' Ha Hd t' Ht'. rewrite (Hc part' p' last' size' t' Hm' Ht' Hd).
  pose proof (spt_range (imagetype p') t').
  destruct (decide ((part', t') = (part, t))) as [E|Hne].
  - injection E as -> ->. destruct (mounted_same _ _ _ _ _ _ _ _ Hm Hm') as [-> ->]. rewrite (Hn Hd), (Ha Hd t Ht').
    unfold free_on_track. rewrite (count_true_update (bam_free w part (imagetype p) t) (bam_free w' part (imagetype p) t) 0 _ s).
    + rewrite (Hf part p last size' t s Hm' Hv), decide_True by done. lia.
    + destruct Hv. lia.
    + intros s' Hs' Hne. rewrite (Hf part p last size' t s' Hm') by (split; [done|lia]). by rewrite decide_False by congruence.
  - rewrite (Ha Hd t' Ht'). apply count_true_ext; [lia|]. intros s' Hs'.
    rewrite (Hf part' p' last' size' t' s' Hm') by (split; [done|lia]). by rewrite decide_False by congruence.
Qed.

(** With agreeing counters [sectors_free] counts the free sectors. *)
Lemma sectors_free_agree w part p last size t : bam_ok w -> mounted w part p last size ->
  counters_agree w part (imagetype p) last ->
  wp (sectors_free part t) (fun r w' => quiet w w' /\
    r = if bool_decide (1 <= t <= last) then free_on_track w part (imagetype p) t else 0) w.
Proof.
  intros Hok Hm Ha. case_bool_decide as Ht.
  - eapply wp_mono; [by apply (sectors_free_ok w part p last size)|]. cbv beta. intros r w' [Hq ->]. split; [done|].
    unfold is_dnp. destruct (Z.eqb_spec (imagetype p) D64_TYPE_DNP); [done|]. by apply Ha.
  - eapply wp_mono; [apply (sectors_free_outside w part p last size t Hm); lia|]. cbv beta. intros r w' [-> ->].
    split; [by apply quiet_refl|done].
Qed.

(** ** The first sector of a file *)

Lemma first_sector_ok w part p last size t : bam_ok w -> mounted w part p last size -> 1 <= t <= last ->
  sectors_per_track (imagetype p) t < 256 \/ free_on_track w part (imagetype p) t <> 0 ->
  wp (first_sector part t) (fun r w' => quiet w w' /\
    match r with
    | Some s => valid_ts (imagetype p) last t s /\ bam_free w part (imagetype p) t s = true /\
                forall s', 0 <= s' < s -> bam_free w part (imagetype p) t s' = false
    | None => free_on_track w part (imagetype p) t = 0
    end) w.
Proof.
  intros Hok Hm Ht Hterm. unfold first_sector, get_spt. rewrite wp_bind, wp_bind.
  eapply wp_intro; [apply part_get_run; apply Hm|]. cbv beta. rewrite wp_ret. pose proof (spt_range (imagetype p) t) as Hspt.
  set (spt := sectors_per_track (imagetype p) t) in *.
  apply (wp_loop (fun s w' => quiet w w' /\ 0 <= s <= spt /\
      forall s', 0 <= s' < s -> bam_free w part (imagetype p) t s' = false)
    (fun s _ => Z.to_nat (spt - s))); [|split_and!; [by apply quiet_refl|lia|lia|intros; lia]|lia].
  intros s w1 (Hq & Hs & Hno). destruct (Z.ltb_spec s spt) as [Hlt|Hge].
  - assert (valid_ts (imagetype p) last t s) as Hv by (split; [done|fold spt; lia]).
    destruct (quiet_mounted _ _ _ _ _ _ Hq Hm) as [f Hm1]. rewrite wp_bind. eapply wp_mono.
    { apply (is_free_ok w1 part (set_imagehandle f p) last size t s); [apply Hq|done|done]. }
    cbv beta. cbn [imagetype set_imagehandle]. intros r w2 [-> Hq2]. pose proof (quiet_trans _ _ _ Hq Hq2) as Hq'.
    rewrite (quiet_free w w1 part p last size t s Hq Hm Hv). destruct (bam_free w part (imagetype p) t s) eqn:Hf; cbn [Z.b2z Z.ltb Z.compare].
    + rewrite wp_ret. split; [done|]. by split_and!.
    + rewrite wp_ret. 
      assert (forall s', 0 <= s' < s + 1 -> bam_free w part (imagetype p) t s' = false) as Hno'.
      { intros s' Hs'. destruct (decide (s' = s)) as [->|]; [done|]. apply Hno. lia. }
      assert (s + 1 < 256) as Hs1.
      { destruct Hterm as [|Hne]; [lia|]. destruct (Z.lt_ge_cases (s + 1) 256); [done|]. destruct Hne.
        unfold free_on_track. fold spt. destruct (Z.eq_dec (count_true (bam_free w part (imagetype p) t) 0 spt) 0) as [|Hc]; [done|].
        apply count_true_pos in Hc as (s' & Hs' & Hf'); [|lia]. rewrite Hno' in Hf' by lia. done. }
      rewrite u8_id by lia. split_and!; [done|lia|lia|done|lia].
  - rewrite wp_ret. split; [done|]. unfold free_on_track. fold spt.
    destruct (Z.eq_dec (count_true (bam_free w part (imagetype p) t) 0 spt) 0) as [|Hc]; [done|].
    apply count_true_pos in Hc as (s' & Hs' & Hf'); [|lia]. rewrite Hno in Hf' by lia. done.
Qed.

(** The order in which [get_first_sector] tries the distances from the
    directory: 1, -1, 2, -2 and so on. *)
Definition tried_before (d' d : Z) : Prop := d' <> 0 /\ (Z.abs d' < Z.abs d \/ d' = - d /\ d < 0).

Lemma find_distance_ok w part p last size : bam_ok w -> mounted w part p last size -> imagetype p <> D64_TYPE_DNP ->
  counters_agree w part (imagetype p) last -> 1 <= get_param (d64data p) DIR_TRACK <= last ->
  wp (find_distance 520 part) (fun d w' => quiet w w' /\
    let dir := get_param (d64data p) DIR_TRACK in
    (forall d', tried_before d' d -> 1 <= dir - d' <= last -> free_on_track w part (imagetype p) (dir - d') = 0) /\
    (d = last \/ (d <> 0 /\ d < last /\ 1 <= dir - d <= last /\ free_on_track w part (imagetype p) (dir - d) <> 0))) w.
Proof.
  intros Hok Hm Hd Ha Hdir. unfold find_distance, part_param. rewrite !wp_bind.
  eapply wp_intro; [apply part_get_run; apply Hm|]. cbv beta. rewrite wp_ret, !wp_bind.
  eapply wp_intro; [apply part_get_run; apply Hm|]. cbv beta. rewrite wp_ret, (mo_last _ _ _ _ _ Hm).
  set (dir := get_param (d64data p) DIR_TRACK) in *.
  assert (1 <= last <= 80) as Hlast.
  { destruct (mo_format _ _ _ _ _ Hm) as [e He|e He|e He|n Hn]; [lia..|done]. }
  apply (wp_loop (fun d w' => quiet w w' /\ d <> 0 /\ - last < d <= last /\
      forall d', tried_before d' d -> 1 <= dir - d' <= last -> free_on_track w part (imagetype p) (dir - d') = 0)
    (fun d _ => Z.to_nat (if 0 <? d then 2 * (last - d) + 1 else 2 * (last + d)))).
  - intros d w1 (Hq & Hd0 & Hdr & Hno). destruct (quiet_mounted _ _ _ _ _ _ Hq Hm) as [f Hm1].
    destruct (Z.ltb_spec d last) as [Hlt|Hge].
    2: { rewrite wp_ret. split; [done|]. split; [done|]. left. lia. }
    rewrite wp_bind. eapply wp_mono.
    { apply (sectors_free_agree w1 part (set_imagehandle f p) last size (u8 (dir - d))); [apply Hq|done|].
      by apply (counters_agree_quiet w w1 part p last size). }
    cbv beta. cbn [imagetype set_imagehandle]. intros r w2 [Hq2 ->]. pose proof (quiet_trans _ _ _ Hq Hq2) as Hq'.
    assert (1 <= dir - d <= last \/ ~ (1 <= u8 (dir - d) <= last)) as Hin.
    { unfold u8. destruct (decide (0 <= dir - d < 256)); [rewrite Z.mod_small by lia; lia|].
      right. rewrite <- (Z.mod_unique_pos (dir - d) 256 (-1) (dir - d + 256)) by lia. lia. }
    destruct (decide (1 <= dir - d <= last /\ free_on_track w part (imagetype p) (dir - d) <> 0)) as [[Hi Hne]|Hz].
    + rewrite u8_id by lia. rewrite bool_decide_eq_true_2 by done.
      rewrite (free_on_track_quiet w w1 part p last size _ Hq Hm Hi).
      rewrite (proj2 (Z.eqb_neq _ _) Hne). cbn [negb]. rewrite wp_ret. split; [done|]. split; [done|]. right. done.
    + assert ((if bool_decide (1 <= u8 (dir - d) <= last) then free_on_track w1 part (imagetype p) (u8 (dir - d)) else 0) = 0) as ->.
      { case_bool_decide as Hi; [|done]. destruct Hin as [Hi'|]; [|done]. rewrite u8_id by lia.
        rewrite (free_on_track_quiet w w1 part p last size _ Hq Hm Hi').
        destruct (Z.eq_dec (free_on_track w part (imagetype p) (dir - d)) 0); [done|]. by destruct Hz. }
      cbn [Z.eqb negb]. rewrite wp_ret. cbv zeta. rewrite (s8_id (- d)) by lia.
      destruct (Z.ltb_spec 0 (- d)) as [Hneg|Hpos].
      * rewrite s8_id by lia. split_and!; [done|lia|lia|lia| |].
        -- intros d' [Hn Hb] Hi. destruct (decide (d' = d)) as [->|]; [|apply Hno; [split; [done|lia]|done]].
           destruct (Z.eq_dec (free_on_track w part (imagetype p) (dir - d)) 0); [done|]. by destruct Hz.
        -- destruct (Z.ltb_spec 0 (- d + 1)); [|lia]. destruct (Z.ltb_spec 0 d); lia.
      * split_and!; [done|lia|lia|lia| |].
        -- intros d' [Hn Hb] Hi. destruct (decide (d' = d)) as [->|]; [|apply Hno; [split; [done|lia]|done]].
           destruct (Z.eq_dec (free_on_track w part (imagetype p) (dir - d)) 0); [done|]. by destruct Hz.
        -- destruct (Z.ltb_spec 0 (- d)); [lia|]. destruct (Z.ltb_spec 0 d); lia.
  - split_and!; [by apply quiet_refl|lia|lia|lia|]. unfold tried_before. intros d' [? ?]. lia.
  - destruct (Z.ltb_spec 0 1); lia.
Qed.

(** [disk_full_error] reports an error and leaves the images alone. *)
Lemma disk_full_error_ok w : bam_ok w ->
  wp disk_full_error (fun _ w' => bam_ok w' /\ same_view w w' /\ current_error (channel (w_bufs w')) <> ERROR_OK) w.
Proof.
  intros Hok. unfold disk_full_error, get_current_error. rewrite wp_bind, wp_gets. cbv beta. unfold when.
  destruct (Z.eqb_spec (current_error (channel (w_bufs w))) ERROR_OK) as [He|He].
  - unfold wset_error, wset_error_ts. rewrite wp_bufs.
    eapply wp_mono; [apply set_error_ok; [apply Hok|unfold ERROR_DISK_FULL; lia..]|]. cbv beta.
    intros _ s' (Hs' & [Hb Hd Hal] & Herr).
    assert (forall j, bdata s' j = bdata (w_bufs w) j) as Hbd by (intros j; unfold bdata; by rewrite Hd).
    destruct (same_bams_ok w (set_w_bufs s' w) Hok) as [Hok' Hsv]; try done; [apply Hok..|].
    split_and!; [done|done|]. simpl. by rewrite Herr.
  - rewrite wp_ret. split_and!; [done|apply same_view_refl|done].
Qed.

(** The result of a search for a sector: a free sector of the image, or an
    error on the channel. *)
Definition found_sector (w w' : world) (part it last : Z) (r : Z * Z * Z) (none : Prop) : Prop :=
  bam_ok w' /\ same_view w w' /\
  let '(e, t, s) := r in
  (e = 0 /\ frame w w' /\ valid_ts it last t s /\ bam_free w part it t s = true) \/
  (e = 1 /\ current_error (channel (w_bufs w')) <> ERROR_OK /\ none).

Lemma get_first_sector_ok w part p last size : bam_ok w -> mounted w part p last size -> imagetype p <> D64_TYPE_DNP ->
  counters_agree w part (imagetype p) last -> 1 <= get_param (d64data p) DIR_TRACK <= last ->
  let dir := get_param (d64data p) DIR_TRACK in
  let free_at d := 1 <= dir - d <= last /\ free_on_track w part (imagetype p) (dir - d) <> 0 in
  wp (get_first_sector part) (fun r w' => found_sector w w' part (imagetype p) last r
      (forall t, 1 <= t <= last -> t <> dir -> free_on_track w part (imagetype p) t = 0) /\
    (r.1.1 = 0 -> (forall d', tried_before d' (dir - r.1.2) -> ~ free_at d') /\ r.1.2 <> dir /\
      forall s', 0 <= s' < r.2 -> bam_free w part (imagetype p) r.1.2 s' = false)) w.
Proof.
  intros Hok Hm Hd Ha Hdir dir free_at. unfold get_first_sector. rewrite wp_bind.
  eapply wp_intro; [apply part_get_run; apply Hm|]. cbv beta. unfold is_dnp.
  rewrite (proj2 (Z.eqb_neq _ _) Hd), (mo_last _ _ _ _ _ Hm). fold dir.
  rewrite !wp_bind. eapply wp_mono; [by apply (find_distance_ok w part p last size)|]. cbv beta zeta. fold dir.
  intros d w1 (Hq & Hno & Hres). destruct (quiet_mounted _ _ _ _ _ _ Hq Hm) as [f Hm1].
  assert (forall d', tried_before d' d -> ~ free_at d') as Hno' by (intros d' Hd' [Hi Hne]; by apply Hne, Hno).
  destruct (Z.eqb_spec d last) as [->|Hdl].
  - rewrite wp_bind. eapply wp_mono; [apply disk_full_error_ok, Hq|]. cbv beta. intros _ w2 (Hok2 & Hsv2 & He).
    rewrite !wp_ret. split; [|done]. split_and!; [done|apply (same_view_trans w w1); [apply Hq|apply Hq|done]|]. right. split_and!; [done|done|].
    intros t Ht Hne. replace t with (dir - (dir - t)) by lia. apply Hno; [split; [lia|left; lia]|lia].
  - destruct Hres as [|(Hd0 & Hlt & Hi & Hne)]; [done|]. rewrite wp_ret.
    assert (1 <= last <= 80) as Hlast.
    { destruct (mo_format _ _ _ _ _ Hm) as [e He|e He|e He|n Hn]; [lia..|done]. }
    rewrite u8_id by lia. rewrite wp_bind. eapply wp_mono.
    { apply (first_sector_ok w1 part (set_imagehandle f p) last size (dir - d)); [apply Hq|done|done|]. right.
      cbn [imagetype set_imagehandle]. by rewrite (free_on_track_quiet w w1 part p last size _ Hq Hm Hi). }
    cbv beta. cbn [imagetype set_imagehandle]. intros [s|] w2 [Hq2 Hr].
    + destruct Hr as (Hv & Hf & Hfirst). pose proof (quiet_trans _ _ _ Hq Hq2) as Hq'. rewrite wp_ret. split.
      * split_and!; [apply Hq'|apply Hq'|]. left. split_and!; [done|apply Hq'|exact Hv|].
        by rewrite <- (quiet_free w w1 part p last size _ _ Hq Hm Hv).
      * intros _. cbn [fst snd]. replace (dir - (dir - d)) with d by lia. split_and!; [done|lia|]. intros s' Hs'.
        rewrite <- (quiet_free w w1 part p last size _ s' Hq Hm); [by apply Hfirst|]. destruct Hv. split; [done|lia].
    + by rewrite (free_on_track_quiet w w1 part p last size _ Hq Hm Hi) in Hr.
Qed.
End alloc.

(** ** The next sector of a file

    [get_next_sector] of d64ops.c outside DNP images: the search for a track
    and for a sector on it end, and find a free sector whenever the counters
    of the BAM agree with its bitmaps. *)

(** The parameters that mounting an image sets. *)
Definition format_param (it : Z) : param_s :=
  if base_type it =? D64_TYPE_D71 then d71param else if base_type it =? D64_TYPE_D81 then d81param else d41param.

(** The sector that [get_next_sector] starts with on a track. *)
Definition interleaved (spt sector interleave : Z) : Z :=
  let sector := u8 (sector + interleave) in
  if spt <=? sector then
    let sector := u8 (sector - spt) in if negb (sector =? 0) then u8 (sector - 1) else sector
  else sector.

Section next.
Context `{FatFsLaws} `{Assertions} `{ErrorConfig} `{BufferConfig} `{SystemConfig}.
Notation N := CONFIG_BUFFER_COUNT.

(** ** The search on a track *)

Lemma no_free_sector w part it t s : free_on_track w part it t = 0 -> 0 <= s < sectors_per_track it t ->
  bam_free w part it t s = false.
Proof. intros Hz Hs. pose proof (spt_range it t). by apply (count_true_zero _ 0 (sectors_per_track it t) ltac:(lia) Hz). Qed.

Lemma scan_sector_ok w part p last size t s0 : bam_ok w -> mounted w part p last size -> 1 <= t <= last ->
  0 <= s0 < sectors_per_track (imagetype p) t -> sectors_per_track (imagetype p) t <= 98 ->
  wp (scan_sector part t s0) (fun r w' => quiet w w' /\ valid_ts (imagetype p) last t r.2 /\
    if bool_decide (free_on_track w part (imagetype p) t = 0) then r.1 = 255
    else 0 < r.1 < 255 /\ bam_free w part (imagetype p) t r.2 = true) w.
Proof.
  intros Hok Hm Ht Hs0 Hspt. unfold scan_sector, get_spt. rewrite wp_bind, wp_bind.
  eapply wp_intro; [apply part_get_run; apply Hm|]. cbv beta. rewrite wp_ret.
  set (spt := sectors_per_track (imagetype p) t) in *.
  assert (forall k, 0 <= k mod spt < spt) as Hmod by (intros k; apply Z.mod_pos_bound; lia).
  assert (forall k, spt <= k -> (forall j, 0 <= j < k -> bam_free w part (imagetype p) t ((s0 + j) mod spt) = false) ->
    free_on_track w part (imagetype p) t = 0) as Hall.
  { intros k Hk Hno. unfold free_on_track. fold spt.
    destruct (Z.eq_dec (count_true (bam_free w part (imagetype p) t) 0 spt) 0) as [|Hc]; [done|].
    apply count_true_pos in Hc as (s & Hs & Hf); [|lia]. destruct (Z.le_gt_cases s0 s).
    - pose proof (Hno (s - s0) ltac:(lia)) as E. replace (s0 + (s - s0)) with s in E by lia.
      rewrite Z.mod_small in E by lia. congruence.
    - pose proof (Hno (s - s0 + spt) ltac:(lia)) as E. replace (s0 + (s - s0 + spt)) with (s + 1 * spt) in E by lia.
      rewrite Z_mod_plus_full, Z.mod_small in E by lia. congruence. }
  apply (wp_loop (fun l w' => quiet w w' /\ 0 <= l.1 <= 99 /\ l.2 = (s0 + (99 - l.1)) mod spt /\
      forall j, 0 <= j < 99 - l.1 -> bam_free w part (imagetype p) t ((s0 + j) mod spt) = false)
    (fun l _ => Z.to_nat l.1)); [|cbn [fst snd]|cbn; lia].
  2: { split_and!; [by apply quiet_refl|lia|lia|by rewrite Z.sub_diag, Z.add_0_r, Z.mod_small by lia|intros; lia]. }
  intros [tries s] w1. cbn [fst snd]. intros (Hq & Htr & Hs & Hno). pose proof (Hmod (s0 + (99 - tries))) as Hsr. rewrite <- Hs in Hsr.
  assert (valid_ts (imagetype p) last t s) as Hv by (split; [done|fold spt; lia]).
  destruct (quiet_mounted _ _ _ _ _ _ Hq Hm) as [f Hm1]. rewrite wp_bind. eapply wp_mono.
  { apply (is_free_ok w1 part (set_imagehandle f p) last size t s); [apply Hq|done|done]. }
  cbv beta. cbn [imagetype set_imagehandle]. intros r w2 [-> Hq2]. pose proof (quiet_trans _ _ _ Hq Hq2) as Hq'.
  rewrite (quiet_free w w1 part p last size t s Hq Hm Hv).
  destruct (bam_free w part (imagetype p) t s) eqn:Hf; cbn [Z.b2z Z.ltb Z.compare].
  - rewrite wp_ret. split_and!; [done|done|]. cbn [fst snd]. assert (99 - tries < spt) as Hlt.
    { destruct (Z.lt_ge_cases (99 - tries) spt); [done|]. pose proof (Hall _ ltac:(eassumption) Hno) as Hz.
      rewrite (no_free_sector w part _ t s Hz) in Hf by done. done. }
    rewrite bool_decide_eq_false_2; [split; [lia|done]|]. intros Hz.
    rewrite (no_free_sector w part _ t s Hz) in Hf by done. done.
  - assert (forall j, 0 <= j < 99 - (tries - 1) -> bam_free w part (imagetype p) t ((s0 + j) mod spt) = false) as Hno'.
    { intros j Hj. destruct (decide (j = 99 - tries)) as [->|]; [by rewrite <- Hs|]. apply Hno. lia. }
    destruct (Z.eqb_spec tries 0) as [->|].
    + rewrite wp_ret. split_and!; [done|done|]. by rewrite bool_decide_eq_true_2 by (eapply Hall; [|exact Hno']; lia).
    + rewrite wp_ret. cbn [fst snd]. rewrite u8_id by lia. split_and!; [done|lia|lia| |done|lia].
      replace (s0 + (99 - (tries - 1))) with (s0 + (99 - tries) + 1) by lia.
      rewrite <- Zplus_mod_idemp_l, <- Hs. destruct (Z.leb_spec spt (s + 1)).
      * replace (s + 1) with spt by lia. by rewrite Z_mod_same_full.
      * by rewrite Z.mod_small by lia.
Qed.

(** ** The search for a track *)

(** The tracks that the search must have left behind; track 53 of a D71 is
    skipped. *)
Definition given_up (w : world) (part it t : Z) : Prop :=
  free_on_track w part it t = 0 \/ base_type it = D64_TYPE_D71 /\ t = D71_BAM2_TRACK.

(** The tracks known to be full after [tries] wraps, when the search is at
    [track]. *)
Definition searched (w : world) (part it last dir tries track : Z) : Prop :=
  (1 <= tries -> forall t, 1 <= t <= last -> (if decide (track < dir) then track < t < dir else dir < t < track) ->
   given_up w part it t) /\
  (2 <= tries -> forall t, 1 <= t <= last -> (if decide (track < dir) then dir < t else t < dir) -> given_up w part it t) /\
  (3 <= tries -> forall t, 1 <= t <= last -> t <> dir -> given_up w part it t).

(** Where the sector for the search comes from. *)
Definition kept_sector (dir t0 s0 t s : Z) : Prop :=
  s = s0 /\ (t <= t0 /\ t0 < dir \/ t0 <= t /\ dir <= t0) \/ s = 0.

Lemma step_track_ok w part it last dir t0 s0 tries track s :
  1 < dir < last -> last <= 80 -> (base_type it = D64_TYPE_D71 -> last = 70) -> 1 <= track <= last -> 0 <= tries < 3 ->
  free_on_track w part it track = 0 -> searched w part it last dir tries track -> kept_sector dir t0 s0 track s ->
  let '(tries', track', s') := step_track it last dir tries track s in
  tries <= tries' <= 3 /\ 1 <= track' <= last /\ searched w part it last dir tries' track' /\
  kept_sector dir t0 s0 track' s' /\
  (tries' = tries + 1 \/ tries' = tries /\ (if decide (track < dir) then track' < track else dir <= track < track')).
Proof.
  intros Hdir Hlast Hd71 Ht Htr Hz (Hs1 & Hs2 & Hs3) Hk. unfold step_track.
  assert (given_up w part it track) as Hg by (by left).
  assert (forall t, t = track -> given_up w part it t) as Hg' by (by intros t ->).
  assert (forall t, base_type it = D64_TYPE_D71 -> t = D71_BAM2_TRACK -> given_up w part it t) as H53 by (by right).
  unfold searched, kept_sector in *. destruct (decide (track < dir)) as [Hb|Hb].
  - assert (forall t, t = track \/ 1 <= t <= last /\ (1 <= tries /\ track < t < dir \/ 2 <= tries /\ dir < t \/ False) ->
      given_up w part it t) as Hall.
    { intros t [?|(? & [[? ?]|[[? ?]|[]]])]; [by apply Hg'|by apply Hs1|by apply Hs2]. }
    replace (track <? dir) with true by lia. rewrite u8_id by lia. destruct (Z.ltb_spec (track - 1) 1).
    + rewrite u8_id by lia. replace (last <? dir + 1) with false by lia. cbv iota.
      destruct (decide (dir + 1 < dir)); [lia|]. split_and!; [lia..| | | |by right|by left]; intros; apply Hall; lia.
    + replace (last <? track - 1) with false by lia. cbv iota.
      destruct (decide (track - 1 < dir)); [|lia]. split_and!; [lia..| | | |lia|lia]; intros; apply Hall; lia.
  - replace (track <? dir) with false by lia. rewrite (u8_id (track + 1)) by lia.
    set (track' := if _ : bool then u8 (track + 1 + 1) else track + 1).
    assert (dir < track' /\ track < track' /\ (track' <= last \/ track' = last + 1) /\
      forall t, track < t < track' -> given_up w part it t) as (Hd' & Hu & Hle & Hskip).
    { unfold track'. destruct ((base_type it =? D64_TYPE_D71) && (track + 1 =? D71_BAM2_TRACK)) eqn:E.
      - assert (last = 70) by (apply Hd71; lia). assert (track + 1 = 53) by (unfold D71_BAM2_TRACK in E; lia).
        rewrite u8_id by lia. split_and!; [lia..|]. intros t Hr. apply H53; [lia|unfold D71_BAM2_TRACK; lia].
      - split_and!; [lia..|]. intros; lia. }
    assert (forall t, t = track \/ 1 <= t <= last /\ (1 <= tries /\ dir < t < track \/ 2 <= tries /\ t < dir \/ track < t < track') ->
      given_up w part it t) as Hall.
    { intros t [?|(? & [[? ?]|[[? ?]|?]])]; [by apply Hg'|by apply Hs1|by apply Hs2|by apply Hskip]. }
    replace (track' <? 1) with false by lia. destruct (Z.ltb_spec last track').
    + rewrite u8_id by lia. destruct (decide (dir - 1 < dir)); [|lia].
      split_and!; [lia..| | | |by right|by left]; intros; apply Hall; lia.
    + destruct (decide (track' < dir)); [lia|]. split_and!; [lia..| | | |lia|lia]; intros; apply Hall; lia.
Qed.


Lemma next_track_ok w part p last size t0 s0 : bam_ok w -> mounted w part p last size -> imagetype p <> D64_TYPE_DNP ->
  counters_agree w part (imagetype p) last -> 1 < get_param (d64data p) DIR_TRACK < last -> 1 <= t0 <= last ->
  wp (next_track 800 part t0 s0) (fun r w' => quiet w w' /\
    let '(tries, t, s) := r in
    0 <= tries <= 3 /\ kept_sector (get_param (d64data p) DIR_TRACK) t0 s0 t s /\
    (tries <> 3 -> 1 <= t <= last /\ free_on_track w part (imagetype p) t <> 0) /\
    (tries = 3 -> forall t, 1 <= t <= last -> t <> get_param (d64data p) DIR_TRACK -> given_up w part (imagetype p) t)) w.
Proof.
  intros Hok Hm Hd Ha Hdir Ht0. unfold next_track. rewrite wp_bind.
  eapply wp_intro; [apply part_get_run; apply Hm|]. cbv beta zeta. set (dir := get_param (d64data p) DIR_TRACK) in *.
  rewrite (mo_last _ _ _ _ _ Hm).
  assert (1 <= last <= 80 /\ (base_type (imagetype p) = D64_TYPE_D71 -> last = 70)) as [Hlast Hd71].
  { destruct (mo_format _ _ _ _ _ Hm) as [e [-> | ->]|e [-> | ->]|e [-> | ->]|n Hn]; by (split; [lia|done]). }
  apply (wp_loop (fun l w' => let '(tries, t, s) := l in quiet w w' /\ 0 <= tries <= 3 /\ 1 <= t <= last /\
      searched w part (imagetype p) last dir tries t /\ kept_sector dir t0 s0 t s)
    (fun l _ => let '(tries, t, _) := l in
      Z.to_nat ((3 - tries) * 200 + if decide (t < dir) then t else last + 1 - t))).
  2: { split_and!; [by apply quiet_refl|lia..| |left; lia]. unfold searched. split_and!; intros; lia. }
  2: { destruct (decide _); lia. }
  intros [[tries t] s] w1 (Hq & Htr & Ht & Hs & Hk). destruct (Z.ltb_spec tries 3) as [Hlt|Hge].
  2: { rewrite wp_ret. split_and!; [done|lia|lia|done|lia|]. intros _. apply Hs. lia. }
  destruct (quiet_mounted _ _ _ _ _ _ Hq Hm) as [f Hm1]. rewrite wp_bind. eapply wp_mono.
  { apply (sectors_free_agree w1 part (set_imagehandle f p) last size t); [apply Hq|done|].
    by apply (counters_agree_quiet w w1 part p last size). }
  cbv beta. cbn [imagetype set_imagehandle]. intros r w2 [Hq2 ->]. pose proof (quiet_trans _ _ _ Hq Hq2) as Hq'.
  rewrite bool_decide_eq_true_2, (free_on_track_quiet w w1 part p last size t Hq Hm Ht) by done.
  destruct (Z.eqb_spec (free_on_track w part (imagetype p) t) 0) as [Hz|Hz]; cbn [negb]; rewrite wp_ret.
  - pose proof (step_track_ok w part (imagetype p) last dir t0 s0 tries t s ltac:(lia) ltac:(lia) Hd71 Ht ltac:(lia) Hz Hs Hk) as Hst.
    destruct (step_track (imagetype p) last dir tries t s) as [[tries' t'] s']. destruct Hst as (? & ? & ? & ? & Hdec).
    split_and!; [done|lia|lia|lia|lia|done|done|]. destruct (decide (t' < dir)), (decide (t < dir)); lia.
  - split_and!; [done|lia|lia|done|done|]. lia.
Qed.

(** ** The sector on the track *)

Lemma interleaved_range spt s il : 0 <= s -> 0 <= il -> 0 < spt <= s + il -> s + il < 2 * spt \/ s + il = 2 * spt -> s + il < 256 ->
  0 <= interleaved spt s il < spt.
Proof.
  intros Hs Hil Hspt Hlt Hb. unfold interleaved. rewrite u8_id by lia. replace (spt <=? s + il) with true by lia.
  rewrite (u8_id (s + il - spt)) by lia. destruct (Z.eqb_spec (s + il - spt) 0); cbn [negb]; [lia|]. rewrite u8_id by lia. lia.
Qed.

Lemma format_interleave it last size t t0 dir t' s s0 : linear_format it last size -> it <> D64_TYPE_DNP ->
  valid_ts it last t0 s0 -> kept_sector dir t0 s0 t' s ->
  0 <= interleaved (sectors_per_track it t) s (get_param (format_param it) (if t0 =? dir then DIR_INTERLEAVE else FILE_INTERLEAVE))
    < sectors_per_track it t.
Proof.
  intros Hf Hd [_ Hv] Hk. set (il := get_param _ _).
  assert (0 <= s /\ (s <= s0 \/ s = 0)) as [Hs0 Hs] by (unfold kept_sector in Hk; lia).
  assert (exists lo hi, lo <= sectors_per_track it t <= hi /\ sectors_per_track it t0 <= hi /\ 0 < il /\ hi - 1 + il <= 2 * lo /\ 2 * lo < 256)
    as (lo & hi & Hlo & Hhi & Hil & Hle & Hb).
  { destruct Hf as [e [-> | ->]|e [-> | ->]|e [-> | ->]|n Hn]; [..|done];
      [exists 17, 21|exists 17, 21|exists 17, 21|exists 17, 21|exists 40, 40|exists 40, 40];
      (split; [unfold sectors_per_track; simpl; repeat case_match; lia|]);
      (split; [unfold sectors_per_track; simpl; repeat case_match; lia|]);
      unfold il; destruct (t0 =? dir); vm_compute; split_and!; congruence. }
  destruct (Z.le_gt_cases (sectors_per_track it t) (s + il)).
  - apply interleaved_range; lia.
  - unfold interleaved. rewrite u8_id by lia. destruct (Z.leb_spec (sectors_per_track it t) (s + il)); lia.
Qed.

Lemma get_next_sector_ok w part p last size t0 s0 : bam_ok w -> mounted w part p last size -> imagetype p <> D64_TYPE_DNP ->
  d64data p = format_param (imagetype p) -> counters_agree w part (imagetype p) last -> valid_ts (imagetype p) last t0 s0 ->
  wp (get_next_sector part t0 s0) (fun r w' => found_sector w w' part (imagetype p) last r
    (let dir := get_param (d64data p) DIR_TRACK in
     t0 = dir /\ free_on_track w part (imagetype p) dir = 0 \/
     forall t, 1 <= t <= last -> t <> dir -> given_up w part (imagetype p) t)) w.
Proof.
  intros Hok Hm Hd Hpar Ha Hv. pose proof Hv as [Ht0 Hs0]. unfold get_next_sector. rewrite wp_bind.
  eapply wp_intro; [apply part_get_run; apply Hm|]. cbv beta zeta. unfold is_dnp. rewrite (proj2 (Z.eqb_neq _ _) Hd).
  set (dir := get_param (d64data p) DIR_TRACK).
  assert (1 < dir < last) as Hdir.
  { unfold dir. rewrite Hpar. destruct (mo_format _ _ _ _ _ Hm) as [e [-> | ->]|e [-> | ->]|e [-> | ->]|n Hn]; [vm_compute; split; congruence..|done]. }
  rewrite wp_bind. eapply (wp_mono _ (fun n w1 => quiet w w1 /\ (n = 0 -> t0 = dir /\ free_on_track w part (imagetype p) dir = 0))).
  { destruct (Z.eqb_spec t0 dir) as [->|]; [|rewrite wp_ret; split; [by apply quiet_refl|done]].
    eapply wp_mono; [by apply (sectors_free_agree w part p last size)|]. cbv beta. intros r w1 [Hq ->].
    rewrite bool_decide_eq_true_2 by lia. by split. }
  cbv beta. intros n w1 [Hq Hn]. destruct (Z.eqb_spec n 0) as [->|_].
  { rewrite wp_bind. eapply wp_mono; [apply disk_full_error_ok, Hq|]. cbv beta. intros _ w2 (Hok2 & Hsv2 & He).
    rewrite wp_ret. split_and!; [done|apply (same_view_trans w w1); [apply Hq|apply Hq|done]|]. right. split_and!; [done|done|].
    left. by apply Hn. }
  destruct (quiet_mounted _ _ _ _ _ _ Hq Hm) as [f Hm1]. rewrite wp_bind. eapply wp_mono.
  { apply (next_track_ok w1 part (set_imagehandle f p) last size t0 s0); try done; [apply Hq|].
    by apply (counters_agree_quiet w w1 part p last size). }
  cbv beta. cbn [imagetype d64data set_imagehandle]. fold dir. intros [[tries t] s] w2 (Hq2 & Htr & Hk & Hfound & Hnone).
  pose proof (quiet_trans _ _ _ Hq Hq2) as Hq12. destruct (Z.eqb_spec tries 3) as [->|Hne].
  { rewrite wp_bind. eapply wp_mono; [apply disk_full_error_ok, Hq2|]. cbv beta. intros _ w3 (Hok3 & Hsv3 & He).
    rewrite wp_ret. split_and!; [done|apply (same_view_trans w w2); [apply Hq12|apply Hq12|done]|]. right. split_and!; [done|done|].
    right. intros t' Ht' Hne. destruct (Hnone eq_refl t' Ht' Hne) as [Hz|]; [left|by right].
    by rewrite <- (free_on_track_quiet w w1 part p last size t' Hq Hm Ht'). }
  destruct (Hfound Hne) as [Ht Hfree]. rewrite (free_on_track_quiet w w1 part p last size t Hq Hm Ht) in Hfree.
  destruct (quiet_mounted _ _ _ _ _ _ Hq12 Hm) as [f2 Hm2]. unfold get_spt at 1. rewrite wp_bind, wp_bind.
  eapply wp_intro; [apply part_get_run; apply Hm2|]. cbv beta. rewrite wp_ret. cbn [imagetype set_imagehandle].
  pose proof (format_interleave (imagetype p) last size t t0 dir t s s0 (mo_format _ _ _ _ _ Hm) Hd Hv Hk) as Hil.
  rewrite <- Hpar in Hil. set (il := get_param (d64data p) _) in *.
  change (if sectors_per_track (imagetype p) t <=? u8 (s + il) then _ else _) with (interleaved (sectors_per_track (imagetype p) t) s il).
  set (s1 := interleaved _ _ _) in *. pose proof (spt_40 _ _ _ t (mo_format _ _ _ _ _ Hm) Hd).
  rewrite wp_bind. eapply wp_mono.
  { apply (scan_sector_ok w2 part (set_imagehandle f2 p) last size t s1); [apply Hq12|done|done|done|cbn [imagetype set_imagehandle]; lia]. }
  cbv beta. cbn [imagetype set_imagehandle]. rewrite (free_on_track_quiet w w2 part p last size t Hq12 Hm Ht).
  rewrite bool_decide_eq_false_2 by done. intros [tr s2] w3 (Hq3 & Hv2 & Htr2 & Hf2). cbn [fst snd] in *.
  pose proof (quiet_trans _ _ _ Hq12 Hq3) as Hq13.
  replace (tr =? 0) with false by lia. cbn [negb]. rewrite wp_ret. split_and!; [apply Hq13|apply Hq13|]. left.
  split_and!; [done|apply Hq13|exact Hv2|]. by rewrite <- (quiet_free w w2 part p last size t s2 Hq12 Hm Hv2).
Qed.

(** With a counter above zero on a track without free sectors the search
    succeeds all the same. *)
Lemma get_next_sector_full w part p last size t0 s0 : bam_ok w -> mounted w part p last size -> imagetype p <> D64_TYPE_DNP ->
  d64data p = format_param (imagetype p) -> valid_ts (imagetype p) last t0 s0 -> t0 <> get_param (d64data p) DIR_TRACK ->
  bam_count w part (imagetype p) t0 <> 0 -> free_on_track w part (imagetype p) t0 = 0 ->
  wp (get_next_sector part t0 s0) (fun r w' => quiet w w' /\ exists s, r = (0, t0, s) /\ valid_ts (imagetype p) last t0 s) w.
Proof.
  intros Hok Hm Hd Hpar Hv Hne Hc Hz. pose proof Hv as [Ht0 Hs0]. unfold get_next_sector. rewrite wp_bind.
  eapply wp_intro; [apply part_get_run; apply Hm|]. cbv beta zeta. unfold is_dnp. rewrite (proj2 (Z.eqb_neq _ _) Hd).
  set (dir := get_param (d64data p) DIR_TRACK) in *. rewrite (proj2 (Z.eqb_neq _ _) Hne). rewrite wp_bind, wp_ret. cbn [Z.eqb].
  unfold next_track. rewrite !wp_bind. eapply wp_intro; [apply part_get_run; apply Hm|]. cbv beta.
  eapply wp_mono with (P := fun r w' => quiet w w' /\ r = (0, t0, s0)).
  { apply (wp_loop (fun l w' => w' = w /\ l = (0, t0, s0)) (fun _ _ => 0%nat)); [|done|lia].
    intros l w1 [-> ->]. cbn [Z.ltb Z.compare]. rewrite wp_bind. eapply wp_mono; [by apply (sectors_free_ok w part p last size)|].
    cbv beta. unfold is_dnp. rewrite (proj2 (Z.eqb_neq _ _) Hd). intros r w1 [Hq ->]. rewrite (proj2 (Z.eqb_neq _ _) Hc).
    cbn [negb]. by rewrite wp_ret. }
  cbv beta. intros r w1 [Hq ->]. cbn [Z.eqb]. destruct (quiet_mounted _ _ _ _ _ _ Hq Hm) as [f Hm1].
  unfold get_spt at 1. rewrite wp_bind, wp_bind. eapply wp_intro; [apply part_get_run; apply Hm1|]. cbv beta. rewrite wp_ret.
  cbn [imagetype set_imagehandle].
  pose proof (format_interleave (imagetype p) last size t0 t0 dir t0 s0 s0 (mo_format _ _ _ _ _ Hm) Hd Hv ltac:(left; lia)) as Hil.
  rewrite <- Hpar, (proj2 (Z.eqb_neq _ _) Hne) in Hil. set (il := get_param (d64data p) _) in *.
  change (if sectors_per_track (imagetype p) t0 <=? u8 (s0 + il) then _ else _) with (interleaved (sectors_per_track (imagetype p) t0) s0 il).
  set (s1 := interleaved _ _ _) in *. pose proof (spt_40 _ _ _ t0 (mo_format _ _ _ _ _ Hm) Hd).
  rewrite wp_bind. eapply wp_mono.
  { apply (scan_sector_ok w1 part (set_imagehandle f p) last size t0 s1); [apply Hq|done|done|done|cbn [imagetype set_imagehandle]; lia]. }
  cbv beta. cbn [imagetype set_imagehandle]. rewrite (free_on_track_quiet w w1 part p last size t0 Hq Hm Ht0).
  rewrite bool_decide_eq_true_2 by done. intros [tr s2] w2 (Hq2 & Hv2 & Htr). cbn [fst snd] in *. subst tr. cbn [Z.eqb negb].
  rewrite wp_ret. split; [by eapply quiet_trans|]. by exists s2.
Qed.
End next.
