(* ===== verification/D64Demo.v ===== *)
(** * A mounted disk image

    A world with a D41 image in memory that has all but three sectors free,
    and no sector of the BAM in a buffer yet; the theorems on the BAM are
    applied to it. *)

From stdpp Require Import gmap.
From S2P Require Import Prelude EepromFs ErrorMsg ErrorMsgTheorems Utils UtilsTheorems Buffers BuffersTheorems.
From S2P Require Import FatFs Dirent World ImageIO D64Geom D64 D64GeomTheorems D64Bam D64BamOps D64BamSpec D64Alloc.

#[export] Instance demo_system : SystemConfig := {|
  HAVE_RTC := false;
  CONFIG_HAVE_EEPROMFS := true;
  CONFIG_HAVE_IEC := false;
  HAVE_HOTPLUG := false;
  CONFIG_MAX_PARTITIONS := 2;
  CONFIG_COMMAND_BUFFER_SIZE := 254;
  CONFIG_P00CACHE_ENTRIES := 4;
  MAX_DRIVES := 1
|}.
#[export] Instance demo_assertions : Assertions := {| CONFIG_ASSERTIONS := false |}.
#[local] Existing Instance demo_config.
#[local] Existing Instance six_buffers.

(** Counter and bitmap of each track; sector 0 of track 17 and the first two
    sectors of the directory track are in use. *)
Definition demo_bam_sector : list Z :=
  [18; 1; 65; 0] ++ mjoin (replicate 16 [21; 255; 255; 31]) ++ [20; 254; 255; 31; 17; 252; 255; 7]
  ++ mjoin (replicate 6 [19; 255; 255; 7]) ++ mjoin (replicate 6 [18; 255; 255; 3])
  ++ mjoin (replicate 5 [17; 255; 255; 1]) ++ fill 112 0.

(** A BAM whose first track has a counter of 21 but no free sector. *)
Definition broken_bam_sector : list Z := splice 4 [21; 0; 0; 0] demo_bam_sector.

Definition bam_sector_ok (bam : list Z) : Prop := zlen bam = 256 /\ bytes bam.

Lemma demo_bam_ok : bam_sector_ok demo_bam_sector.
Proof. split; [reflexivity|]. unfold bytes. apply (bool_decide_unpack _). vm_compute. exact I. Qed.

Lemma broken_bam_ok : bam_sector_ok broken_bam_sector.
Proof. split; [reflexivity|]. unfold bytes. apply (bool_decide_unpack _). vm_compute. exact I. Qed.

Section demo.
Context (bam : list Z).

Definition demo_image : list Z := fill 91392 0 ++ bam ++ fill 83200 0.

Definition demo_part : partition_t := {|
  imagehandle := {| Ram.data := demo_image; Ram.pos := 0; Ram.flags := FA_WRITE |};
  imagetype := D64_TYPE_D41;
  d64data := d41param;
  curr_dir := 0;
  dir_fat := 0;
  dir_track := 18;
  dir_sector := 1;
  fop := d64ops
|}.

Definition demo_pool : bufs :=
  set_buffers (<[0%nat := new_bam]> (buffers (demo_bufs [BAllocSystem]))) (demo_bufs [BAllocSystem]).

Definition demo_dos : dos := {|
  command_buffer := fill 256 0;
  command_length := 0;
  current_part := 0;
  dir_changed := 0;
  eefs_partition := 1;
  matchdh := None;
  previous_file_dirent := zero_dent;
  previous_file_path := Path 0 0 0 0;
  date_match_start := zero_date;
  date_match_end := zero_date;
  display_found := false
|}.

Definition demo_world : world := {|
  w_bufs := demo_pool;
  w_eefs := {| eeprom := []; scratch := fill 33 0; used_sectors := []; used_entries := []; free_sectors := 0 |};
  partition := [demo_part];
  max_part := 1;
  d64 := {| ec_part := 255; ec_track := 255; ec_errors := fill 40 0; bam_buffer := Some 0; bam_buffer2 := None;
            bam_refcount := 1 |};
  clock := {| tm_sec := 0; tm_min := 0; tm_hour := 0; tm_mday := 31; tm_mon := 7; tm_year := 82; tm_wday := 2 |};
  drv := tt;
  w_dos := demo_dos;
  p00 := {| p00cache := []; cache_part := 255 |};
  buf_fil := ∅;
  buf_dh := ∅;
  buf_dent := ∅
|}.

Hypothesis Hbam : bam_sector_ok bam.

Lemma demo_image_length : zlen demo_image = 174848.
Proof. unfold demo_image. rewrite !zlen_app, !zlen_fill by lia. by rewrite (proj1 Hbam). Qed.

Lemma demo_image_bytes : bytes demo_image.
Proof.
  unfold demo_image. apply bytes_app; [apply bytes_fill; unfold is_byte; lia|].
  apply bytes_app; [apply Hbam|apply bytes_fill; unfold is_byte; lia].
Qed.

Lemma demo_mounted : mounted demo_world 0 demo_part 35 174848.
Proof.
  assert (zlen demo_image = 174848) as Hl by apply demo_image_length. split.
  - simpl. lia.
  - reflexivity.
  - split; [|done]. split; [apply demo_image_bytes|]. change (zlen demo_image < 4294967295). lia.
  - apply (LinearD41 0). by left.
  - reflexivity.
  - change (174848 <= zlen demo_image). lia.
Qed.

Lemma demo_pool_ok : bufs_ok demo_pool.
Proof.
  assert (bufs_ok (demo_bufs [BAllocSystem])) as Hs by (apply demo_bufs_ok; repeat constructor).
  unfold demo_pool.
  apply (buf_upd_ok (demo_bufs [BAllocSystem]) 0 (fun _ => new_bam) fresh_buffer Hs); [|vm_compute; reflexivity..].
  unfold CONFIG_BUFFER_COUNT, six_buffers. lia.
Qed.

Lemma demo_ok : bam_ok demo_world.
Proof.
  split; [exact demo_pool_ok|simpl; lia|by exists 0| | |].
  - intros b [Hb|Hb]; [|done]. injection Hb as <-. exists new_bam, (255, 0, 0). split; try done. by left.
  - done.
  - intros b b' k [Hb|Hb] [Hb'|Hb']; try done. injection Hb as <-. injection Hb' as <-. done.
Qed.

Lemma slice_in_middle (a b c : list Z) i n : zlen a = i -> zlen b = n -> slice i n (a ++ b ++ c) = b.
Proof. intros <- <-. unfold slice, zlen. rewrite !Nat2Z.id, drop_app_length. apply take_app_length. Qed.

(** The BAM of the image, which no buffer holds. *)
Lemma demo_view : bam_view demo_world 0 18 0 = bam.
Proof.
  rewrite (view_uncached demo_world 0 demo_part); [|done|].
  - unfold image_sector. change (sector_offset _ 18 0) with 91392. change (contents _) with demo_image.
    unfold demo_image. apply slice_in_middle; [by apply zlen_fill|apply Hbam].
  - intros b [Hb|Hb]; [|done]. injection Hb as <-. done.
Qed.

(** The check of the counters on the sector itself. *)
Definition demo_bit (t s : Z) : bool := Z.testbit (nthZ bam (u8 (4 * t + 1) + Z.shiftr s 3)) (Z.land s 7).

Lemma demo_free t s : bam_free demo_world 0 D64_TYPE_D41 t s = demo_bit t s.
Proof.
  unfold bam_free, bam_byte.
  change (bam_position D64_TYPE_D41 t BAM_BITFIELD) with (18, 0, u8 (4 * t + 1)). cbv iota. by rewrite demo_view.
Qed.

Lemma demo_count t : bam_count demo_world 0 D64_TYPE_D41 t = nthZ bam (u8 (4 * t + 0)).
Proof.
  unfold bam_count, bam_byte.
  change (bam_position D64_TYPE_D41 t BAM_FREECOUNT) with (18, 0, u8 (4 * t + 0)). cbv iota. by rewrite demo_view.
Qed.

End demo.

Lemma demo_agrees : counters_agree (demo_world demo_bam_sector) 0 D64_TYPE_D41 35.
Proof.
  intros _ t Ht. unfold free_on_track. pose proof (spt_range D64_TYPE_D41 t).
  rewrite (demo_count _ demo_bam_ok), (count_true_ext _ (demo_bit demo_bam_sector t)) by (lia || intros; by apply demo_free, demo_bam_ok).
  apply Z.eqb_eq. revert Ht.
  apply (all_tracks_true 35 (fun t => nthZ demo_bam_sector (u8 (4 * t + 0)) =?
    count_true (demo_bit demo_bam_sector t) 0 (sectors_per_track D64_TYPE_D41 t))).
  by vm_compute.
Qed.

Lemma broken_full : free_on_track (demo_world broken_bam_sector) 0 D64_TYPE_D41 1 = 0.
Proof.
  unfold free_on_track. change (sectors_per_track D64_TYPE_D41 1) with 21.
  rewrite (count_true_ext _ (demo_bit broken_bam_sector 1)) by (lia || intros; by apply demo_free, broken_bam_ok). reflexivity.
Qed.
