(* ===== verification/D64BamTheorems.v ===== *)
(** * d64ops.c: theorems on the BAM and the allocation of sectors

    The two BAM buffers are a write-back cache that the rest of the code
    cannot see; allocating and freeing change one bit and one counter; the
    counters stay in agreement with the bitmaps; and with agreeing counters
    the searches return free sectors. *)

From S2P Require Import Prelude EepromFs ErrorMsg ErrorMsgTheorems Utils UtilsTheorems Buffers BuffersTheorems.
From S2P Require Import FatFs Dirent World ImageIO D64Geom D64 D64GeomTheorems D64Bam D64BamOps D64BamSpec D64Alloc D64Demo.

(** ** The error information of an image *)
Section errorinfo.
Context `{FatFsLaws} `{Assertions} `{ErrorConfig} `{BufferConfig} `{SystemConfig}.

Definition has_errorinfo (p : partition_t) : Prop := Z.land (imagetype p) D64_HAS_ERRORINFO <> 0.

(** The byte for a sector behind the sectors of the image; 1 means no error. *)
Definition error_code (p : partition_t) (size t s : Z) : Z := nthZ (contents (imagehandle p)) (size + sector_lba (imagetype p) t s).

(** The error of a drive for such a byte. *)
Definition drive_error (code : Z) : option Z :=
  if decide (2 <= code <= 11) then Some (18 + code) else if decide (code = 15) then Some 74 else None.

(** The image has its error bytes, and those in the cache are the ones of the
    track that the cache names. *)
Record errors_known (w : world) (part : Z) (p : partition_t) (last size : Z) : Prop := {
  ek_size : size + size / 256 <= fsize (imagehandle p);
  ek_length : zlen (ec_errors (d64 w)) = MAX_SECTORS_PER_TRACK;
  ek_cache : ec_part (d64 w) = part -> forall s, valid_ts (imagetype p) last (ec_track (d64 w)) s ->
    nthZ (ec_errors (d64 w)) s = error_code p size (ec_track (d64 w)) s
}.

Lemma errorinfo_place it last size t : linear_format it last size -> Z.land it D64_HAS_ERRORINFO <> 0 ->
  error_offset (base_type it) = Some size /\ sectors_per_track it t <= MAX_SECTORS_PER_TRACK.
Proof.
  intros Hf Hi. split; [|eapply spt_40; [done|by intros ->]].
  destruct Hf as [e He|e He|e He|n Hn]; [destruct He as [->| ->]..|]; done.
Qed.

(** The error bytes of a track are those of its sectors. *)
Lemma error_bytes p last size t : linear_format (imagetype p) last size -> 1 <= t <= last ->
  0 <= sector_lba (imagetype p) t 0 /\ sector_lba (imagetype p) t 0 + sectors_per_track (imagetype p) t <= size / 256 /\
  forall s, 0 <= s < sectors_per_track (imagetype p) t ->
    nthZ (slice (size + sector_lba (imagetype p) t 0) (sectors_per_track (imagetype p) t) (contents (imagehandle p))) s =
    error_code p size t s.
Proof.
  intros Hf Ht. pose proof (spt_range (imagetype p) t) as Hspt.
  assert (valid_ts (imagetype p) last t 0 /\ valid_ts (imagetype p) last t (sectors_per_track (imagetype p) t - 1)) as [Hv0 Hv1] by (unfold valid_ts; lia).
  pose proof (lba_bounds _ _ _ _ _ Hf Hv0). pose proof (lba_bounds _ _ _ _ _ Hf Hv1).
  pose proof (lba_linear _ _ _ _ _ Hf Hv0) as E0. pose proof (lba_linear _ _ _ _ _ Hf Hv1) as E1.
  destruct (format_size _ _ _ Hf) as [_ Hs]. split; [lia|]. split; [rewrite Hs, Z.mul_comm, Z.div_mul by lia; lia|].
  intros s Hsr. rewrite nthZ_slice by lia. unfold error_code. f_equal.
  rewrite (lba_linear _ _ _ t s Hf) by (unfold valid_ts; lia). lia.
Qed.

(** What the reading of an image leaves of it. *)
Definition same_image (p p' : partition_t) : Prop :=
  imagetype p' = imagetype p /\ contents (imagehandle p') = contents (imagehandle p).

Lemma fill_errorcache_ok w part p last size t :
  mounted w part p last size -> has_errorinfo p -> errors_known w part p last size -> 1 <= t <= last ->
  wp (fill_errorcache part t) (fun ok w' => ok = true /\ w_bufs w' = w_bufs w /\ ec_part (d64 w') = part /\ ec_track (d64 w') = t /\
    exists p', mounted w' part p' last size /\ same_image p p' /\ errors_known w' part p' last size) w.
Proof.
  intros Hm Hi Hk Ht. unfold fill_errorcache, on_d64. rewrite wp_bind, wp_gets. cbv beta. unfold id.
  destruct (negb (ec_part (d64 w) =? part) || negb (ec_track (d64 w) =? t)) eqn:E.
  2: { apply orb_false_iff in E as [Ep Et]. rewrite wp_ret. split_and!; [done|done|lia|lia|]. by exists p. }
  destruct (errorinfo_place _ _ _ t (mo_format _ _ _ _ _ Hm) Hi) as [Hofs Hspt].
  destruct (error_bytes p last size t (mo_format _ _ _ _ _ Hm) Ht) as (Hl & Hle & Hbytes).
  destruct Hk as [Hsz _ _]. pose proof (spt_range (imagetype p) t). pose proof (mo_size _ _ _ _ _ Hm).
  assert (0 <= size) by (destruct (format_size _ _ _ (mo_format _ _ _ _ _ Hm)) as [? ->];
    pose proof (sectors_before_mono (imagetype p) 0 last ltac:(lia)); change (sectors_before _ (Z.to_nat 0)) with 0 in *; lia).
  rewrite wp_bind, wp_zoom, wp_modify. set (w1 := set_d64 _ w).
  assert (mounted w1 part p last size) as Hm1 by (by destruct Hm).
  rewrite wp_bind. eapply wp_intro; [apply part_get_run; apply Hm1|cbv beta]. rewrite Hofs, wp_bind.
  destruct (image_read_ok part (size + sector_lba (imagetype p) t 0) (sectors_per_track (imagetype p) t) w1 p)
    as (f & d & Hrun & Hu & Hc & Hfl); [apply Hm1|apply Hm1|apply Hm1|lia|lia|lia|].
  eapply wp_intro; [exact Hrun|cbv beta]. simpl fst. simpl snd.
  set (es := slice _ _ _). assert (zlen es = sectors_per_track (imagetype p) t) as Hes.
  { destruct (usable_size _ (proj1 (mo_file _ _ _ _ _ Hm))) as [Hcs _]. apply zlen_slice; lia. }
  assert (zlen (fill MAX_SECTORS_PER_TRACK 1) = MAX_SECTORS_PER_TRACK) as Hfill by done.
  rewrite wp_bind, store_block_some, wp_of_option_Some by lia.
  rewrite wp_bind, wp_zoom, wp_modify. change (2 <=? 0) with false. cbv iota.
  rewrite wp_bind, wp_zoom, wp_modify, wp_ret. split_and!; [done|by cbn; rewrite with_file_bufs|done|done|].
  exists (set_imagehandle f p). assert (fsize f = fsize (imagehandle p)) as Hfs by (by apply usable_fsize; [|apply Hm|]).
  split.
  { pose proof (mounted_with_file w1 part p f d last size part p last size Hm1) as Hm'. rewrite decide_True in Hm' by done.
    assert (mounted (with_file part f d w1) part (set_imagehandle f p) last size) as [? ? ? ? ? ?]
      by (apply Hm'; [split; [done|rewrite Hfl; apply (mo_file _ _ _ _ _ Hm)]|done|done]).
    by split. }
  split; [done|]. split; [cbn; lia|cbn; rewrite zlen_splice; lia|].
  intros _ s Hv. change (valid_ts (imagetype p) last t s) in Hv.
  change (nthZ (splice 0 es (fill MAX_SECTORS_PER_TRACK 1)) s = error_code (set_imagehandle f p) size t s). rewrite nthZ_splice by (unfold valid_ts in Hv; lia). unfold valid_ts in Hv.
  replace ((0 <=? s) && (s <? 0 + zlen es)) with true by lia. rewrite Z.sub_0_r. unfold es. rewrite Hbytes by lia.
  unfold error_code. cbn. by rewrite Hc.
Qed.

Lemma check_errorinfo_ok w part p last size t s :
  bufs_ok (w_bufs w) -> mounted w part p last size -> (has_errorinfo p -> errors_known w part p last size) ->
  valid_ts (imagetype p) last t s -> 0 <= t < 256 -> 0 <= s < 256 ->
  let err := if decide (has_errorinfo p) then drive_error (error_code p size t s) else None in
  wp (check_errorinfo part t s) (fun ok w' => bufs_ok (w_bufs w') /\
    match err with
    | None => ok = true /\ w_bufs w' = w_bufs w
    | Some e => ok = false /\ current_error (channel (w_bufs w')) = e
    end /\
    exists p', mounted w' part p' last size /\ same_image p p' /\ (has_errorinfo p -> errors_known w' part p' last size)) w.
Proof.
  intros Hok Hm Hk Hv Ht Hs err. unfold check_errorinfo. rewrite wp_bind. eapply wp_intro; [apply part_get_run; apply Hm|cbv beta].
  unfold err. destruct (Z.eqb_spec (Z.land (imagetype p) D64_HAS_ERRORINFO) 0) as [Hi|Hi].
  { rewrite wp_ret, decide_False by (unfold has_errorinfo; lia). split; [done|]. split; [done|]. by exists p. }
  rewrite decide_True by done. specialize (Hk Hi). rewrite wp_bind.
  eapply wp_mono; [apply (fill_errorcache_ok w part p last size t Hm Hi Hk); apply Hv|]. cbv beta.
  intros ok w1 (-> & Hb1 & Hep & Het & p1 & Hm1 & [Hit Hct] & Hk1). cbv beta iota delta [negb].
  rewrite wp_bind, wp_gets. cbv beta. unfold id. pose proof (errorinfo_place _ _ _ t (mo_format _ _ _ _ _ Hm) Hi) as [_ Hspt].
  pose proof (ek_length _ _ _ _ _ Hk1) as Hlen. unfold valid_ts in Hv. rewrite load_some by lia. rewrite wp_bind, wp_of_option_Some.
  assert (nthZ (ec_errors (d64 w1)) s = error_code p size t s) as ->.
  { rewrite (ek_cache _ _ _ _ _ Hk1 Hep s) by (rewrite Het, Hit; exact Hv). unfold error_code. by rewrite Hit, Hct, Het. }
  assert (forall e tt ss, 0 <= e < 256 -> 0 <= tt < 256 -> 0 <= ss < 256 ->
    wp (on_bufs (bset_error_ts e tt ss);; mret false) (fun (ok : bool) w' => bufs_ok (w_bufs w') /\
      (ok = false /\ current_error (channel (w_bufs w')) = e) /\
      exists p', mounted w' part p' last size /\ same_image p p' /\ (has_errorinfo p -> errors_known w' part p' last size)) w1) as Herr.
  { intros e tt ss He Htt Hss. rewrite wp_bind, wp_bufs. eapply wp_mono; [by apply set_error_ok; [rewrite Hb1|..]|]. cbv beta.
    intros _ b (Hb & _ & Hce). rewrite wp_ret. split_and!; [done|done|done|]. exists p1. split; [by destruct Hm1|]. split; [done|].
    intros _. by destruct Hk1. }
  unfold drive_error. destruct ((2 <=? error_code p size t s) && (error_code p size t s <=? 11)) eqn:E1.
  { rewrite decide_True by lia. replace (18 + error_code p size t s) with (error_code p size t s - 2 + 20) by lia. apply Herr; lia. }
  rewrite decide_False by lia. destruct (Z.eqb_spec (error_code p size t s) 15) as [E2|E2].
  { rewrite decide_True by done. apply Herr; lia. }
  rewrite decide_False by done. rewrite wp_ret. split_and!; [by rewrite Hb1|done|done|]. by exists p1.
Qed.
End errorinfo.

Section theorems.
Context `{FatFsLaws} `{Assertions} `{ErrorConfig} `{BufferConfig} `{SystemConfig}.


(** C34: On every mounted D41, D71, D81 or DNP image [allocate_sector]
    succeeds: of all sectors of all these images only this one changes its
    bit, to allocated, and of all counters only that of its track changes: if
    the sector was free it is one less, but never below zero. Every other bit
    of every sector of these images, in the BAM (its name and id included) and
    in the data, is as before, as seen through the BAM buffers. *)
Theorem allocate_sector_takes w part p last size t s (Hok : bam_ok w) (Hm : mounted w part p last size)
  (Hv : valid_ts (imagetype p) last t s) :
  exists w', allocate_sector part t s w = Done 0 w' /\ bam_ok w' /\ frame w w' /\
    let n := bam_count w part (imagetype p) t in
    bam_set w w' part t s false (if bam_free w part (imagetype p) t s then Z.max 0 (n - 1) else n).
Proof.
  pose proof (allocate_sector_ok w part p last size t s Hok Hm Hv) as (r & w' & Hrun & -> & Hr)%wp_done. by exists w'.
Qed.

(** [free_sector] sets the bit of the sector and no other; if the sector
    was allocated, the counter of its track is one more, but never above the
    number of sectors of the track, and no other counter changes. *)
Theorem free_sector_gives_back w part p last size t s (Hok : bam_ok w) (Hm : mounted w part p last size)
  (Hv : valid_ts (imagetype p) last t s) :
  exists w', free_sector part t s w = Done 0 w' /\ bam_ok w' /\ frame w w' /\
    let n := bam_count w part (imagetype p) t in
    bam_set w w' part t s true
      (if negb (bam_free w part (imagetype p) t s) && (n <? sectors_per_track (imagetype p) t) then n + 1 else n).
Proof.
  pose proof (free_sector_ok w part p last size t s Hok Hm Hv) as (r & w' & Hrun & -> & Hr)%wp_done. by exists w'.
Qed.

Lemma agreed_count_pos w part it last t s : it <> D64_TYPE_DNP -> counters_agree w part it last -> valid_ts it last t s ->
  bam_free w part it t s = true -> 0 < bam_count w part it t.
Proof.
  intros Hd Ha [Ht Hs] Hf. rewrite (Ha Hd t Ht). pose proof (free_on_track_range w part it t).
  destruct (Z.eq_dec (free_on_track w part it t) 0) as [Hz|]; [|lia].
  rewrite (no_free_sector w part it t s Hz Hs) in Hf. done.
Qed.

Lemma agreed_count_room w part it last t s : it <> D64_TYPE_DNP -> counters_agree w part it last -> valid_ts it last t s ->
  bam_free w part it t s = false -> bam_count w part it t < sectors_per_track it t.
Proof.
  intros Hd Ha [Ht Hs] Hf. rewrite (Ha Hd t Ht). unfold free_on_track. set (spt := sectors_per_track it t) in *.
  set (g := fun x => if x =? s then true else bam_free w part it t x).
  assert (count_true g 0 spt = count_true (bam_free w part it t) 0 spt - Z.b2z (bam_free w part it t s) + Z.b2z (g s)) as Hu.
  { apply count_true_update; [done|]. intros x _ Hx. unfold g. by rewrite (proj2 (Z.eqb_neq _ _) Hx). }
  pose proof (count_true_range g 0 spt ltac:(lia)). rewrite Hf in Hu. unfold g at 2 in Hu. rewrite Z.eqb_refl in Hu. simpl in Hu. lia.
Qed.

(** C22: allocating or freeing any sector keeps the counters of the BAM in
    agreement with its bitmaps, for every mounted image. *)
Theorem counters_stay_in_agreement w part p last size t s part' p' last' size' (Hok : bam_ok w)
  (Hm : mounted w part p last size) (Hv : valid_ts (imagetype p) last t s)
  (Ha : counters_agree w part (imagetype p) last)
  (Hm' : mounted w part' p' last' size') (Ha' : counters_agree w part' (imagetype p') last') :
  (exists w', allocate_sector part t s w = Done 0 w' /\ counters_agree w' part' (imagetype p') last') /\
  (exists w', free_sector part t s w = Done 0 w' /\ counters_agree w' part' (imagetype p') last').
Proof.
  split.
  - pose proof (allocate_sector_ok w part p last size t s Hok Hm Hv) as (r & w' & Hrun & -> & _ & _ & Hset)%wp_done.
    exists w'. split; [done|]. eapply (counters_agree_set w w' part p last size t s); eauto. intros Hd.
    destruct (bam_free w part (imagetype p) t s) eqn:Hf; simpl; [|lia].
    pose proof (agreed_count_pos _ _ _ _ _ _ Hd Ha Hv Hf). lia.
  - pose proof (free_sector_ok w part p last size t s Hok Hm Hv) as (r & w' & Hrun & -> & _ & _ & Hset)%wp_done.
    exists w'. split; [done|]. eapply (counters_agree_set w w' part p last size t s); eauto. intros Hd.
    destruct (bam_free w part (imagetype p) t s) eqn:Hf; simpl; [lia|].
    pose proof (agreed_count_room _ _ _ _ _ _ Hd Ha Hv Hf). replace (_ <? _) with true by lia. lia.
Qed.

(** freeing a sector that was just allocated restores the BAM: every bit
    and every counter of every mounted image is as before. *)
Theorem allocate_free_roundtrip w part p last size t s (Hok : bam_ok w) (Hm : mounted w part p last size)
  (Hv : valid_ts (imagetype p) last t s) (Ha : counters_agree w part (imagetype p) last)
  (Hfree : bam_free w part (imagetype p) t s = true) :
  exists w1 w', allocate_sector part t s w = Done 0 w1 /\ free_sector part t s w1 = Done 0 w' /\ bam_ok w' /\
    bam_free w1 part (imagetype p) t s = false /\
    forall part' p' last' size' t', mounted w part' p' last' size' -> 1 <= t' <= last' ->
    (forall s', valid_ts (imagetype p') last' t' s' ->
       bam_free w' part' (imagetype p') t' s' = bam_free w part' (imagetype p') t' s') /\
    (imagetype p' <> D64_TYPE_DNP -> bam_count w' part' (imagetype p') t' = bam_count w part' (imagetype p') t').
Proof.
  pose proof (allocate_sector_ok w part p last size t s Hok Hm Hv) as (r & w1 & Hrun & -> & Hok1 & Hfr & Hset)%wp_done.
  destruct (mounted_frame _ _ _ _ _ _ Hfr Hm) as [f Hm1].
  pose proof (free_sector_ok w1 part (set_imagehandle f p) last size t s Hok1 Hm1 Hv) as (r & w' & Hrun' & -> & Hok' & _ & Hset')%wp_done.
  cbn [imagetype set_imagehandle] in *. rewrite Hfree in Hset.
  assert (bam_free w1 part (imagetype p) t s = false) as Hf1.
  { rewrite (bs_free _ _ _ _ _ _ _ Hset part p last size t s Hm Hv). by rewrite decide_True. }
  exists w1, w'. split_and!; [done|done|done|done|]. intros part' p' last' size' t' Hm' Ht'.
  destruct (mounted_frame _ _ _ _ _ _ Hfr Hm') as [f' Hm1']. split.
  - intros s' Hv'. pose proof (bs_free _ _ _ _ _ _ _ Hset' part' _ last' size' t' s' Hm1' Hv') as E.
    cbn [imagetype set_imagehandle] in E. rewrite E, (bs_free _ _ _ _ _ _ _ Hset part' p' last' size' t' s' Hm' Hv').
    destruct (decide _) as [E'|]; [|done]. injection E' as -> -> ->. by destruct (mounted_same _ _ _ _ _ _ _ _ Hm Hm') as [-> _].
  - intros Hd. pose proof (bs_count _ _ _ _ _ _ _ Hset' part' _ last' size' t' Hm1' Ht' Hd) as E.
    cbn [imagetype set_imagehandle] in E. rewrite E, (bs_count _ _ _ _ _ _ _ Hset part' p' last' size' t' Hm' Ht' Hd).
    destruct (decide ((part', t') = (part, t))) as [E'|]; [|done]. injection E' as -> ->.
    destruct (mounted_same _ _ _ _ _ _ _ _ Hm Hm') as [-> ->]. pose proof (agreed_count_pos _ _ _ _ _ _ Hd Ha Hv Hfree).
    rewrite Hf1, (bs_count _ _ _ _ _ _ _ Hset part p last size t Hm Ht' Hd), decide_True by done. cbn [negb andb].
    pose proof (Ha Hd t Ht'). pose proof (free_on_track_range w part (imagetype p) t).
    replace (_ <? _) with true by lia. lia.
Qed.

(** when the counters agree with the bitmaps, [sectors_free] returns the
    number of free sectors of a track, and 0 for a track that is not on the
    disk. *)
Theorem sectors_free_counts w part p last size t (Hok : bam_ok w) (Hm : mounted w part p last size)
  (Ha : counters_agree w part (imagetype p) last) :
  exists w', sectors_free part t w = Done (if bool_decide (1 <= t <= last) then free_on_track w part (imagetype p) t else 0) w' /\
    bam_ok w' /\ frame w w' /\ same_view w w'.
Proof.
  pose proof (sectors_free_agree w part p last size t Hok Hm Ha) as (r & w' & Hrun & [? ? ?] & ->)%wp_done. by exists w'.
Qed.

(** C32: On a mounted D41, D71 or D81 image whose counters agree with the
    bitmaps [get_first_sector] ends and finds the first free sector of a track
    as close to the directory as any track with free sectors, trying the lower
    track first; it fails, with an error on the channel, only when every track
    but the directory's is full. (On a full D82 the search does not end: the
    distance has eight bits, d64ops.c:850.) The pool has at most 15 buffers
    ([bufs_ok]). *)
Theorem first_sector_is_closest w part p last size (Hok : bam_ok w) (Hm : mounted w part p last size)
  (Hd : imagetype p <> D64_TYPE_DNP) (Ha : counters_agree w part (imagetype p) last)
  (Hdir : 1 <= get_param (d64data p) DIR_TRACK <= last) :
  let dir := get_param (d64data p) DIR_TRACK in
  let full t := free_on_track w part (imagetype p) t = 0 in
  exists e t s w', get_first_sector part w = Done (e, t, s) w' /\ bam_ok w' /\ same_view w w' /\
    ((e = 0 /\ valid_ts (imagetype p) last t s /\ t <> dir /\ bam_free w part (imagetype p) t s = true /\
      (forall s', 0 <= s' < s -> bam_free w part (imagetype p) t s' = false) /\
      (forall t', 1 <= t' <= last -> t' <> dir ->
         Z.abs (dir - t') < Z.abs (dir - t) \/ t' < dir /\ dir - t' = t - dir -> full t')) \/
     (e = 1 /\ current_error (channel (w_bufs w')) <> ERROR_OK /\
      forall t', 1 <= t' <= last -> t' <> dir -> full t')).
Proof.
  intros dir full. pose proof (get_first_sector_ok w part p last size Hok Hm Hd Ha Hdir) as (r & w' & Hrun & Hr)%wp_done.
  destruct r as [[e t] s]. destruct Hr as ((Hok' & Hsv & Hres) & Hclose). cbn [fst snd] in Hclose. fold dir in Hclose. exists e, t, s, w'.
  split_and!; [done|done|done|]. destruct Hres as [(-> & _ & Hv & Hf)|(-> & He & Hno)]; [left|by right].
  destruct (Hclose eq_refl) as (Hbefore & Hne & Hlow). split_and!; try done.
  intros t' Ht' Hne' Hcl. destruct (Z.eq_dec (free_on_track w part (imagetype p) t') 0) as [|Hz]; [done|].
  exfalso. apply (Hbefore (dir - t')); fold dir; [|by replace (dir - (dir - t')) with t' by lia].
  unfold tried_before. split; [lia|]. destruct Hcl as [Hcl|[Hcl Heq]]; [left; lia|right; lia].
Qed.

(** C28: On a mounted D41, D71 or D81 image whose counters agree with the
    bitmaps [get_next_sector] ends for every legal sector and finds a free
    sector; it fails, with an error on the channel, only when the directory
    track is full and searched for, or every other track is full (track 53 of
    a D71 is not used). (Without the agreement it can return a sector that is
    not free, [next_sector_of_full_track].) The pool has at most 15 buffers
    ([bufs_ok]). *)
Theorem next_sector_is_free w part p last size t0 s0 (Hok : bam_ok w) (Hm : mounted w part p last size)
  (Hd : imagetype p <> D64_TYPE_DNP) (Hpar : d64data p = format_param (imagetype p))
  (Ha : counters_agree w part (imagetype p) last) (Hv : valid_ts (imagetype p) last t0 s0) :
  let dir := get_param (d64data p) DIR_TRACK in
  let full t := free_on_track w part (imagetype p) t = 0 in
  exists e t s w', get_next_sector part t0 s0 w = Done (e, t, s) w' /\ bam_ok w' /\ same_view w w' /\
    ((e = 0 /\ valid_ts (imagetype p) last t s /\ bam_free w part (imagetype p) t s = true) \/
     (e = 1 /\ current_error (channel (w_bufs w')) <> ERROR_OK /\
      (t0 = dir /\ full dir \/ forall t', 1 <= t' <= last -> t' <> dir ->
         full t' \/ base_type (imagetype p) = D64_TYPE_D71 /\ t' = D71_BAM2_TRACK))).
Proof.
  intros dir full. pose proof (get_next_sector_ok w part p last size t0 s0 Hok Hm Hd Hpar Ha Hv) as (r & w' & Hrun & Hr)%wp_done.
  destruct r as [[e t] s]. destruct Hr as (Hok' & Hsv & Hres). exists e, t, s, w'.
  split_and!; [done|done|done|]. destruct Hres as [(-> & _ & Hvr & Hf)|(-> & He & Hno)]; [left|right]; by split_and!.
Qed.

(** when the counter of a track is above zero but its bitmap has no free
    sector, [get_next_sector] reports success and returns a sector of the
    track that is not free: the counter [tries] wraps to 255 behind the loop,
    which the test for 0 does not notice. *)
Theorem next_sector_of_full_track w part p last size t0 s0 (Hok : bam_ok w) (Hm : mounted w part p last size)
  (Hd : imagetype p <> D64_TYPE_DNP) (Hpar : d64data p = format_param (imagetype p))
  (Hv : valid_ts (imagetype p) last t0 s0) (Ht : t0 <> get_param (d64data p) DIR_TRACK)
  (Hc : bam_count w part (imagetype p) t0 <> 0) (Hf : free_on_track w part (imagetype p) t0 = 0) :
  exists s w', get_next_sector part t0 s0 w = Done (0, t0, s) w' /\ bam_ok w' /\ frame w w' /\ same_view w w' /\
    valid_ts (imagetype p) last t0 s /\ bam_free w part (imagetype p) t0 s = false.
Proof.
  pose proof (get_next_sector_full w part p last size t0 s0 Hok Hm Hd Hpar Hv Ht Hc Hf) as (r & w' & Hrun & [? ? ?] & s & -> & Hvs)%wp_done.
  exists s, w'. split_and!; try done. apply (no_free_sector w part (imagetype p) t0 s Hf), Hvs.
Qed.

(** C40: On a mounted D41, D71, D81 or DNP image, with or without error
    information: reading a sector that is not on the disk reads nothing and
    reports the error that the caller asks for. For a sector of the disk the
    byte of its error information decides ([error_code], [drive_error]): 2 to
    11 read nothing and report the errors 20 to 29, 15 the error 74, and for
    every other byte, or without error information, the read returns the
    contents of the image. The image stays as it is, and the error cache keeps
    agreeing with the image. The pool has at most 15 buffers ([bufs_ok]). *)
Theorem checked_read_is_checked w part p last size t s n e (Hok : bufs_ok (w_bufs w)) (Hm : mounted w part p last size)
  (Hk : has_errorinfo p -> errors_known w part p last size) (He : 0 <= e < 256) (Ht : 0 <= t < 256) (Hs : 0 <= s < 256)
  (Hn : 0 <= n <= 256) :
  exists r w', checked_read part t s n e w = Done r w' /\ bufs_ok (w_bufs w') /\
    (exists p', mounted w' part p' last size /\ same_image p p' /\ (has_errorinfo p -> errors_known w' part p' last size)) /\
    if decide (valid_ts (imagetype p) last t s) then
      match (if decide (has_errorinfo p) then drive_error (error_code p size t s) else None) with
      | None => r = (0, take (Z.to_nat n) (image_sector p t s)) /\ w_bufs w' = w_bufs w
      | Some err => r = (2, []) /\ current_error (channel (w_bufs w')) = err
      end
    else r = (2, []) /\ current_error (channel (w_bufs w')) = e.
Proof.
  apply wp_done. unfold checked_read. rewrite wp_bind. eapply wp_intro; [apply part_get_run; apply Hm|]. cbv beta.
  assert (legal_ts p t s = bool_decide (valid_ts (imagetype p) last t s)) as ->.
  { unfold legal_ts, valid_ts. rewrite (mo_last _ _ _ _ _ Hm). case_bool_decide; lia. }
  destruct (decide (valid_ts (imagetype p) last t s)) as [Hv|Hv].
  2: { rewrite bool_decide_eq_false_2 by done. cbn [negb]. rewrite wp_bind. unfold wset_error_ts. rewrite wp_bufs.
    eapply wp_mono; [by apply set_error_ok|]. cbv beta. intros _ b (Hb & _ & Herr). rewrite wp_ret. split_and!; [done| |done|done].
    exists p. split; [by destruct Hm|]. split; [done|]. intros Hi. by destruct (Hk Hi). }
  rewrite bool_decide_eq_true_2 by done. cbn [negb]. rewrite wp_bind.
  eapply wp_mono; [by apply (check_errorinfo_ok w part p last size t s)|]. cbv beta.
  intros ok w1 (Hb1 & Hcase & p1 & Hm1 & [Hit Hct] & Hk1). destruct (if decide (has_errorinfo p) then _ else _) as [err|].
  { destruct Hcase as [-> Herr]. cbn [negb]. rewrite wp_ret. split_and!; [done| |done|done]. by exists p1. }
  destruct Hcase as [-> Hb]. cbn [negb]. rewrite <- Hit in Hv.
  pose proof (lba_bounds _ _ _ _ _ (mo_format _ _ _ _ _ Hm1) Hv). pose proof (mo_size _ _ _ _ _ Hm1).
  rewrite <- Hit. destruct (image_read_ok part (sector_offset (imagetype p1) t s) n w1 p1) as (f & d & Hr & Hu & Hc & Hfl).
  1-6: try apply Hm1; unfold sector_offset; lia.
  eapply wp_intro; [exact Hr|]. cbv beta. rewrite with_file_bufs. split_and!; [done| | |done].
  - exists (set_imagehandle f p1). assert (fsize f = fsize (imagehandle p1)) as Hfs by (by apply usable_fsize; [|apply Hm1|]).
    split.
    { pose proof (mounted_with_file w1 part p1 f d last size part p1 last size Hm1) as Hm'. rewrite decide_True in Hm' by done.
      apply Hm'; [split; [done|rewrite Hfl; apply (mo_file _ _ _ _ _ Hm1)]|done|done]. }
    split; [by split; [|cbn; rewrite Hc]|]. intros Hi. destruct (Hk1 Hi) as [Hsz Hl Hcache].
    split; rewrite ?with_file_d64; [cbn; lia|done|]. intros Hp s' Hv'. cbn in Hv'. rewrite (Hcache Hp s' Hv'). unfold error_code. cbn. by rewrite Hc.
  - f_equal. unfold image_sector, slice. rewrite Hct, Hit, take_take, Nat.min_l by lia. done.
Qed.
End theorems.

(** ** The theorems on the demo image *)

#[local] Existing Instance demo_config.
#[local] Existing Instance six_buffers.

Notation demo := (demo_world demo_bam_sector).
Notation demo_d41 := (demo_part demo_bam_sector).
Notation broken := (demo_world broken_bam_sector).

Lemma demo_valid t s : 1 <= t <= 17 -> 0 <= s <= 20 -> valid_ts (imagetype demo_d41) 35 t s.
Proof.
  intros Ht Hs. split; [lia|]. unfold sectors_per_track. simpl. replace (35 <? t) with false by lia.
  replace (t <? 18) with true by lia. lia.
Qed.


Lemma allocate_sector_takes_witness :
  exists w', allocate_sector 0 17 5 demo = Done 0 w' /\ bam_free w' 0 D64_TYPE_D41 17 5 = false.
Proof.
  destruct (allocate_sector_takes demo 0 demo_d41 35 174848 17 5 (demo_ok _) (demo_mounted _ demo_bam_ok) ltac:(apply demo_valid; lia))
    as (w' & Hrun & _ & _ & Hset).
  exists w'. split; [exact Hrun|].
  pose proof (bs_free _ _ _ _ _ _ _ Hset 0 demo_d41 35 174848 17 5 (demo_mounted _ demo_bam_ok) ltac:(apply demo_valid; lia)) as E.
  rewrite decide_True in E by done. exact E.
Defined.

Lemma free_sector_gives_back_witness :
  exists w', free_sector 0 17 0 demo = Done 0 w' /\ bam_count w' 0 D64_TYPE_D41 17 = 21.
Proof.
  destruct (free_sector_gives_back demo 0 demo_d41 35 174848 17 0 (demo_ok _) (demo_mounted _ demo_bam_ok) ltac:(apply demo_valid; lia))
    as (w' & Hrun & _ & _ & Hset).
  exists w'. split; [exact Hrun|].
  cbv zeta in Hset. change (imagetype demo_d41) with D64_TYPE_D41 in Hset.
  rewrite (demo_free _ demo_bam_ok), (demo_count _ demo_bam_ok) in Hset.
  pose proof (bs_count _ _ _ _ _ _ _ Hset 0 demo_d41 35 174848 17 (demo_mounted _ demo_bam_ok) ltac:(lia) ltac:(done)) as E.
  rewrite decide_True in E by done. exact E.
Defined.

Lemma counters_stay_in_agreement_witness :
  exists w', allocate_sector 0 17 5 demo = Done 0 w' /\ counters_agree w' 0 D64_TYPE_D41 35.
Proof.
  exact (proj1 (counters_stay_in_agreement demo 0 demo_d41 35 174848 17 5 0 demo_d41 35 174848 (demo_ok _) (demo_mounted _ demo_bam_ok) ltac:(apply demo_valid; lia) demo_agrees (demo_mounted _ demo_bam_ok) demo_agrees)).
Defined.

Lemma allocate_free_roundtrip_witness :
  exists w1 w', allocate_sector 0 17 5 demo = Done 0 w1 /\ free_sector 0 17 5 w1 = Done 0 w' /\
    bam_count w' 0 D64_TYPE_D41 17 = 20.
Proof.
  destruct (allocate_free_roundtrip demo 0 demo_d41 35 174848 17 5 (demo_ok _) (demo_mounted _ demo_bam_ok)
    ltac:(apply demo_valid; lia) demo_agrees) as (w1 & w' & H1 & H2 & _ & _ & Hall).
  { change (imagetype demo_d41) with D64_TYPE_D41. rewrite (demo_free _ demo_bam_ok). vm_compute. reflexivity. }
  exists w1, w'. split_and!; [exact H1|exact H2|].
  destruct (Hall 0 demo_d41 35 174848 17 (demo_mounted _ demo_bam_ok) ltac:(lia)) as [_ Hc]. specialize (Hc ltac:(done)).
  change (imagetype demo_d41) with D64_TYPE_D41 in Hc. rewrite Hc, (demo_count _ demo_bam_ok). vm_compute. reflexivity.
Defined.

Lemma sectors_free_counts_witness : exists w', sectors_free 0 36 demo = Done 0 w'.
Proof.
  destruct (sectors_free_counts demo 0 demo_d41 35 174848 36 (demo_ok _) (demo_mounted _ demo_bam_ok) demo_agrees) as (w' & Hrun & _).
  exists w'. rewrite bool_decide_eq_false_2 in Hrun by lia. exact Hrun.
Defined.

Lemma first_sector_is_closest_witness :
  exists e t s w', get_first_sector 0 demo = Done (e, t, s) w' /\ bam_ok w'.
Proof.
  destruct (first_sector_is_closest demo 0 demo_d41 35 174848 (demo_ok _) (demo_mounted _ demo_bam_ok) ltac:(done) demo_agrees
    ltac:(simpl; lia)) as (e & t & s & w' & Hrun & Hok & _).
  exists e, t, s, w'. split; [exact Hrun|exact Hok].
Defined.

Lemma next_sector_is_free_witness :
  exists e t s w', get_next_sector 0 17 0 demo = Done (e, t, s) w' /\ bam_ok w'.
Proof.
  destruct (next_sector_is_free demo 0 demo_d41 35 174848 17 0 (demo_ok _) (demo_mounted _ demo_bam_ok) ltac:(done) ltac:(reflexivity)
    demo_agrees ltac:(apply demo_valid; lia)) as (e & t & s & w' & Hrun & Hok & _).
  exists e, t, s, w'. split; [exact Hrun|exact Hok].
Defined.

Lemma checked_read_is_checked_witness :
  exists w', checked_read 0 36 0 256 66 demo = Done (2, []) w' /\ current_error (channel (w_bufs w')) = 66.
Proof.
  destruct (checked_read_is_checked demo 0 demo_d41 35 174848 36 0 256 66 demo_pool_ok (demo_mounted _ demo_bam_ok)
    ltac:(intros Hi; by destruct Hi) ltac:(lia) ltac:(lia) ltac:(lia) ltac:(lia)) as (r & w' & Hrun & _ & _ & Hres).
  rewrite decide_False in Hres by (unfold valid_ts; lia). destruct Hres as (-> & He).
  exists w'. split; [exact Hrun|exact He].
Defined.

Lemma next_sector_of_full_track_witness :
  exists s w', get_next_sector 0 1 0 broken = Done (0, 1, s) w' /\ bam_free broken 0 D64_TYPE_D41 1 s = false.
Proof.
  destruct (next_sector_of_full_track broken 0 (demo_part broken_bam_sector) 35 174848 1 0 (demo_ok _)
    (demo_mounted _ broken_bam_ok) ltac:(done) ltac:(reflexivity) ltac:(apply demo_valid; lia) ltac:(done))
    as (s & w' & Hrun & _ & _ & _ & _ & Hf).
  - change (imagetype _) with D64_TYPE_D41. rewrite (demo_count _ broken_bam_ok). vm_compute. discriminate.
  - exact broken_full.
  - exists s, w'. split; [exact Hrun|exact Hf].
Defined.
