(* ===== verification/D64Files.v ===== *)
(** * d64ops.c: directories, files, mounting and formatting

    The file operations on Dxx images, on top of the sector and BAM functions
    of D64.v.  A chain of sectors in an image has at most as many links as the
    image has sectors, a directory at most as many entries as the image has
    places for one: that is the fuel of the loops that follow a chain, which
    only a cyclic chain exceeds. *)

From S2P Require Import Prelude EepromFs ErrorMsg Utils Buffers FatFs Dirent World D64Geom D64.

Section files.
Context `{FatFs} `{Assertions} `{ErrorConfig} `{BufferConfig} `{SystemConfig}.

(** [buf->pvt.d64], read and changed. *)
Definition buf_d64 (buf : Z) : comp world d64fh := b ← on_bufs (buf_get buf); of_option (pvt_d64 (pvt b)).
Definition buf_set_d64 (buf : Z) (fh : d64fh) : comp world unit := on_bufs (buf_upd buf (set_pvt (PvtD64 fh))).

Definition fh_at (track sector : Z) (fh : d64fh) : d64fh :=
  {| fh_dh := fh_dh fh; fh_part := fh_part fh; fh_track := track; fh_sector := sector; fh_blocks := fh_blocks fh |}.
Definition fh_on (part : Z) (fh : d64fh) : d64fh :=
  {| fh_dh := fh_dh fh; fh_part := part; fh_track := fh_track fh; fh_sector := fh_sector fh; fh_blocks := fh_blocks fh |}.
Definition fh_counted (blocks : Z) (fh : d64fh) : d64fh :=
  {| fh_dh := fh_dh fh; fh_part := fh_part fh; fh_track := fh_track fh; fh_sector := fh_sector fh; fh_blocks := blocks |}.
Definition fh_of_entry (dh : d64dh) (fh : d64fh) : d64fh :=
  {| fh_dh := dh; fh_part := fh_part fh; fh_track := fh_track fh; fh_sector := fh_sector fh; fh_blocks := fh_blocks fh |}.

(** The number of sectors, and of directory entries, that the image file has
    room for. *)
Definition chain_fuel (part : Z) : comp world nat :=
  p ← part_get part; mret (S (S (Z.to_nat (fsize (imagehandle p) / 256)))).
Definition entry_fuel (part : Z) : comp world nat :=
  p ← part_get part; mret (S (S (Z.to_nat (fsize (imagehandle p) / 32)))).

(** ** Directory traversal *)

(** The range check behind the link in [nextdirentry], and the entry. *)
Definition nextdirentry_read (dh : d64_handle) : comp world (Z * d64_handle) :=
  p ← part_get (hd_part dh);
  let d := hd_dh dh in
  if negb (legal_ts p (dh_track d) (dh_sector d)) then
    wset_error_ts ERROR_ILLEGAL_TS_LINK (dh_track d) (dh_sector d);; mret (1, dh)
  else
    r ← d64_read_entry (hd_part dh) d;
    if negb (r =? 0) then mret (1, dh)
    else mret (0, Dh (hd_part dh) (D64dh (dh_track d) (dh_sector d) (u8 (dh_entry d + 1)))).

Definition nextdirentry (dh : d64_handle) : comp world (Z * d64_handle) :=
  let d := hd_dh dh in
  if dh_entry d =? 8 then
    r ← checked_read (hd_part dh) (dh_track d) (dh_sector d) 2 ERROR_ILLEGAL_TS_LINK;
    ops_put 0 r.2;;
    if negb (r.1 =? 0) then mret (1, dh)
    else
      t ← ops_get 0;
      if t =? 0 then mret (-1, dh)
      else s ← ops_get 1; nextdirentry_read (Dh (hd_part dh) (D64dh t s 0))
  else nextdirentry_read dh.

Definition d64_opendir (path : path_t) : comp world (Z * d64_handle) :=
  let dh := Dh (path_part path) (D64dh (path_track path) (path_sector path) 0) in
  p ← part_get (path_part path);
  if is_dnp p then
    ofs ← get_offset (path_part path) (path_track path) (path_sector path);
    r ← image_read (path_part path) ofs 2;
    if negb (r.1 =? 0) then mret (1, dh)
    else t ← of_option (load r.2 0); s ← of_option (load r.2 1); mret (0, Dh (path_part path) (D64dh t s 0))
  else mret (0, dh).

(** The loop of [find_empty_entry]: the last result of [nextdirentry]. *)
Definition scan_entries (dh : d64_handle) : comp world (Z * d64_handle) :=
  fuel ← entry_fuel (hd_part dh);
  loop fuel (fun dh =>
    r ← nextdirentry dh;
    let '(res, dh) := r in
    if res =? 0 then
      ty ← ops_get DIR_OFS_FILE_TYPE;
      if negb (ty =? 0) then mret (inl dh) else mret (inr (res, dh))
    else mret (inr (res, dh))) dh.

(** DNP images: the block count of the directory in its parent directory. *)
Definition count_dir_block (path : path_t) : comp world Z :=
  ofs ← get_offset (path_part path) (path_track path) (path_sector path);
  r ← image_read (path_part path) (DNP_DIRHEADER_PARENTENTRY_TRACK + ofs) 3;
  ops_put 0 r.2;;
  if negb (r.1 =? 0) then mret 1
  else
    t ← ops_get 0; s ← ops_get 1; e ← ops_get 2;
    if t =? 0 then mret 0
    else
      ofs ← get_offset (path_part path) t s;
      r ← image_read (path_part path) (ofs + e + DIR_OFS_SIZE_LOW - 2) 2;
      ops_put 3 r.2;;
      if negb (r.1 =? 0) then mret 1
      else
        lo ← ops_get 3; hi ← ops_get 4;
        let blocks := u16 (lo + 256 * hi + 1) in
        ops_put 3 [blocks `mod` 256; blocks / 256];;
        bs ← ops_read 3 2;
        r ← image_write (path_part path) (ofs + e + DIR_OFS_SIZE_LOW - 2) bs true;
        mret (if negb (r =? 0) then 1 else 0).

(** A new empty directory sector, entry by entry. *)
Definition clear_entries (part t s : Z) : comp world bool :=
  ops_put 0 (fill 32 0);;
  ops_put 1 [255];;
  for_ok 0 8 (fun i =>
    r ← d64_write_entry part (D64dh t s i) false;
    if negb (r =? 0) then mret false else ops_put 1 [0];; mret true).

(** The part of [find_empty_entry] that appends a sector to the directory. *)
Definition extend_directory (path : path_t) (dh : d64_handle) : comp world (Z * d64_handle) :=
  let part := path_part path in
  let t := dh_track (hd_dh dh) in
  let s := dh_sector (hd_dh dh) in
  r ← get_next_sector part t s;
  let '(res, t', s') := r in
  let dh := Dh (hd_part dh) (D64dh t' s' (dh_entry (hd_dh dh))) in
  if negb (res =? 0) then mret (1, dh)
  else
    ops_put 0 [t'; s'];;
    ofs ← get_offset part t s;
    bs ← ops_read 0 2;
    r ← image_write part ofs bs false;
    if negb (r =? 0) then mret (1, dh)
    else
      r ← allocate_sector part t' s';
      if negb (r =? 0) then mret (1, dh)
      else
        p ← part_get part;
        r ← (if is_dnp p then count_dir_block path else mret 0);
        if negb (r =? 0) then mret (1, dh)
        else
          ok ← clear_entries part t' s';
          if negb ok then mret (1, dh)
          else ops_put 1 [255];; mret (0, Dh (hd_part dh) (D64dh t' s' 0)).

(** The result of [d64_opendir] is ignored here. *)
Definition find_empty_entry (path : path_t) : comp world (Z * d64_handle) :=
  r ← d64_opendir path;
  r ← scan_entries r.2;
  let '(res, dh) := r in
  if 0 <? res then mret (1, dh)
  else if res <? 0 then extend_directory path dh
  else
    let d := hd_dh dh in
    mret (0, Dh (hd_part dh) (D64dh (dh_track d) (dh_sector d) (u8 (dh_entry d - 1)))).

(** ** Buffer callbacks *)

Definition d64_read (buf : Z) : comp world Z :=
  t ← on_bufs (data_get buf 0);
  s ← on_bufs (data_get buf 1);
  fh ← buf_d64 buf;
  buf_set_d64 buf (fh_at t s fh);;
  r ← checked_read (fh_part fh) t s 256 ERROR_ILLEGAL_TS_LINK;
  on_bufs (data_put buf 0 r.2);;
  if negb (r.1 =? 0) then on_bufs (free_buffer (Some buf));; mret 1
  else
    link ← on_bufs (data_get buf 0);
    last ← on_bufs (data_get buf 1);
    on_bufs (buf_upd buf (fun b =>
      let b := set_position 2 b in
      if link =? 0 then set_sendeoi true (set_lastused last b)
      else set_sendeoi false (set_lastused 255 b)));;
    mret 0.

Definition d64_seek (buf position index : Z) : comp world Z := wset_error ERROR_SYNTAX_UNABLE;; mret 1.

(** [storedata:] in [d64_write]: store the sector, and go on at [t]/[s]. *)
Definition d64_store (buf t s savederror : Z) : comp world Z :=
  fh ← buf_d64 buf;
  ofs ← get_offset (fh_part fh) (fh_track fh) (fh_sector fh);
  bs ← on_bufs (data_read buf 0 256);
  r ← image_write (fh_part fh) ofs bs true;
  if negb (r =? 0) then on_bufs (free_buffer (Some buf));; mret 1
  else
    buf_set_d64 buf (fh_at t s fh);;
    on_bufs (buf_upd buf (fun b => set_mustflush false (set_lastused 1 (set_position 2 b))));;
    on_bufs (mark_buffer_clean buf);;
    if negb (savederror =? 0) then
      wset_error savederror;; on_bufs (free_buffer (Some buf));; mret 1
    else mret 0.

Definition d64_write (buf : Z) : comp world Z :=
  fh ← buf_d64 buf;
  buf_set_d64 buf (fh_counted (u16 (fh_blocks fh + 1)) fh);;
  b ← on_bufs (buf_get buf);
  on_bufs (data_put buf 0 [0; lastused b]);;
  r ← get_next_sector (fh_part fh) (fh_track fh) (fh_sector fh);
  let '(res, t, s) := r in
  if negb (res =? 0) then
    e ← get_current_error;
    d64_store buf 0 s e
  else
    on_bufs (data_put buf 0 [t; s]);;
    r ← allocate_sector (fh_part fh) t s;
    if negb (r =? 0) then on_bufs (free_buffer (Some buf));; mret 1
    else d64_store buf t s 0.

(** Update the directory entry of a file that was written. *)
Definition d64_close_entry (fh : d64fh) : comp world Z :=
  r ← d64_read_entry (fh_part fh) (fh_dh fh);
  if negb (r =? 0) then mret 1
  else
    ty ← ops_get DIR_OFS_FILE_TYPE;
    ops_put DIR_OFS_FILE_TYPE [Z.lor ty FLAG_SPLAT];;
    ops_put DIR_OFS_SIZE_LOW [Z.land (fh_blocks fh) 255];;
    ops_put DIR_OFS_SIZE_HI [Z.shiftr (fh_blocks fh) 8];;
    update_timestamp;;
    r ← d64_write_entry (fh_part fh) (fh_dh fh) true;
    mret (if negb (r =? 0) then 1 else 0).

Definition d64_write_cleanup (buf : Z) : comp world Z :=
  b ← on_bufs (buf_get buf);
  on_bufs (data_put buf 0 [0; lastused b]);;
  fh ← buf_d64 buf;
  let fh := fh_counted (u16 (fh_blocks fh + 1)) fh in
  buf_set_d64 buf fh;;
  if fh_track fh =? 0 then mret 1
  else
    ofs ← get_offset (fh_part fh) (fh_track fh) (fh_sector fh);
    bs ← on_bufs (data_read buf 0 256);
    r ← image_write (fh_part fh) ofs bs true;
    if negb (r =? 0) then mret 1
    else
      r ← d64_close_entry fh;
      if negb (r =? 0) then mret 1
      else
        on_bufs (buf_upd buf (set_cleanup (Some cb_callback_dummy)));;
        on_bufs (free_buffer (Some buf));;
        mret 0.

(** ** Mounting *)

(** [ustrrchr]: the index of the last [c] of a string. *)
Definition strrchr (c : Z) (name : list Z) : option Z :=
  fold_left (fun r i => if nthZ name i =? c then Some i else r) (seqZ 0 (zlen name)) None.

(** The image type and the parameters for a file size; [None] for an invalid
    image. *)
Definition image_format (size : Z) (name : list Z) : comp world (option (Z * param_s)) :=
  if size =? 174848 then mret (Some (D64_TYPE_D41, d41param))
  else if size =? 175531 then mret (Some (Z.lor D64_TYPE_D41 D64_HAS_ERRORINFO, d41param))
  else if size =? 349696 then mret (Some (D64_TYPE_D71, d71param))
  else if size =? 351062 then mret (Some (Z.lor D64_TYPE_D71 D64_HAS_ERRORINFO, d71param))
  else if size =? 819200 then mret (Some (D64_TYPE_D81, d81param))
  else if size =? 822400 then mret (Some (Z.lor D64_TYPE_D81 D64_HAS_ERRORINFO, d81param))
  else if size =? 533248 then mret (Some (D64_TYPE_D80, d80param))
  else if size =? 535331 then mret (Some (Z.lor D64_TYPE_D80 D64_HAS_ERRORINFO, d80param))
  else if size =? 1066496 then mret (Some (D64_TYPE_D82, d82param))
  else if size =? 1070662 then mret (Some (Z.lor D64_TYPE_D82 D64_HAS_ERRORINFO, d82param))
  else if negb (size `mod` 65536 =? 0) then mret None
  else
    bad ← (if size =? 196608 then
             str ← of_option (strz name);
             ptr ← of_option (strrchr 46 str);
             c ← of_option (load name (ptr + 2));
             if c =? 54 then d ← of_option (load name (ptr + 3)); mret (d =? 52) else mret false
           else mret false);
    mret (if (bad : bool) then None
          else Some (D64_TYPE_DNP, mk_param 1 1 (u8 (size / 65536)) DNP_LABEL_OFFSET DNP_ID_OFFSET 1 1 format_dnp_fn)).

(** The result comes with the path of the directory in the image. *)
Definition d64_mount (path : path_t) (name : list Z) : comp world (Z * path_t) :=
  let part := path_part path in
  p ← part_get part;
  fmt ← image_format (fsize (imagehandle p)) name;
  match fmt with
  | None => wset_error ERROR_IMAGE_INVALID;; mret (1, path)
  | Some (type, param) =>
      part_upd part (set_d64data param);;
      w ← gets id;
      ok ← (match bam_buffer (d64 w) with
            | Some _ => mret true
            | None =>
                r ← bam_buffer_alloc;
                on_d64 (modify (set_bam_buffer r));;
                mret (match r with Some _ => true | None => false end)
            end);
      if negb ok then mret (1, path)
      else
        part_upd part (set_imagetype type);;
        on_d64 (modify (fun s => set_bam_refcount (u8 (bam_refcount s + 1)) s));;
        when (negb (Z.land type D64_HAS_ERRORINFO =? 0)) (on_d64 (modify (set_ec_part 255)));;
        mret (0, Path part (path_fat path) (get_param param DIR_TRACK) (get_param param DIR_START_SECTOR))
  end.

(** Drop what a BAM buffer holds of a partition. *)
Definition bam_forget (buf part : Z) : comp world unit :=
  bam_cleanup buf;;
  bam ← buf_pvt_bam buf;
  when (bam.1.1 =? part) (on_bufs (buf_upd buf (set_pvt (PvtBam 255 bam.1.2 bam.2)))).

Definition d64_unmount (part : Z) : comp world unit :=
  w ← gets id;
  (match bam_buffer (d64 w) with Some b => bam_forget b part | None => mret tt end);;
  (match bam_buffer2 (d64 w) with Some b => bam_forget b part | None => mret tt end);;
  on_d64 (modify (fun s => set_bam_refcount (u8 (bam_refcount s - 1)) s));;
  w ← gets id;
  when (negb (bam_refcount (d64 w) =? 0)) (
    on_bufs (free_buffer (bam_buffer (d64 w)));;
    on_bufs (free_buffer (bam_buffer2 (d64 w)));;
    on_d64 (modify (fun s => set_bam_buffer2 None (set_bam_buffer None s)))).

Definition d64_invalidate : comp world unit :=
  w ← gets id;
  on_bufs (free_buffer (bam_buffer (d64 w)));;
  on_bufs (free_buffer (bam_buffer2 (d64 w)));;
  on_d64 (modify (fun s => set_bam_refcount 0 (set_bam_buffer2 None (set_bam_buffer None s)))).

(** ** Directory listing *)

(** The entry in [ops_scratch] as a directory entry. *)
Definition parse_dirent (e : list Z) (dh : d64dh) : cbmdirent_t :=
  let typeflags := Z.lxor (nthZ e DIR_OFS_FILE_TYPE) FLAG_SPLAT in
  let year := nthZ e DIR_OFS_YEAR `mod` 100 in
  {| de_name := strnsubst 16 160 0 (slice DIR_OFS_FILE_NAME CBM_NAME_LENGTH e) ++ [0];
     de_typeflags := if TYPE_DIR <? Z.land typeflags TYPE_MASK then Z.land typeflags (u8 (Z.lnot TYPE_MASK)) else typeflags;
     de_blocksize := nthZ e DIR_OFS_SIZE_LOW + 256 * nthZ e DIR_OFS_SIZE_HI;
     de_remainder := 255;
     de_date := Date (if year <? 80 then year + 100 else year)
                  (u8 (Z.rem (nthZ e DIR_OFS_MONTH - 1) 12 + 1)) (u8 (Z.rem (nthZ e DIR_OFS_DAY - 1) 31 + 1))
                  (nthZ e DIR_OFS_HOUR `mod` 24) (nthZ e DIR_OFS_MINUTE `mod` 60) 0;
     de_opstype := OPSTYPE_DXX;
     de_pvt := DentDxx (D64dh (dh_track dh) (dh_sector dh) (u8 (dh_entry dh - 1))) |}.

Definition d64_readdir (dh : d64_handle) : comp world (Z * d64_handle * option cbmdirent_t) :=
  fuel ← entry_fuel (hd_part dh);
  loop fuel (fun dh =>
    r ← nextdirentry dh;
    let '(res, dh) := r in
    if negb (res =? 0) then mret (inr (res, dh, None))
    else
      ty ← ops_get DIR_OFS_FILE_TYPE;
      if ty =? 0 then mret (inl dh)
      else e ← ops_read 0 32; mret (inr (0, dh, Some (parse_dirent e (hd_dh dh))))) dh.

Definition read_string_from_dirheader (path : path_t) (what : param_t) (size : Z) : comp world (Z * list Z) :=
  p ← part_get (path_part path);
  let sector := if is_dnp p then path_sector path else 0 in
  r ← image_read (path_part path)
        (sector_offset (imagetype p) (path_track path) sector + get_param (d64data p) what) size;
  if negb (r.1 =? 0) then mret (1, r.2) else mret (0, strnsubst size 160 32 r.2).

Definition d64_getdirlabel (path : path_t) : comp world (Z * list Z) := read_string_from_dirheader path LABEL_OFFSET 16.

(** [while (ptr != label && *ptr == ' ') *ptr-- = 0] from index [i] down. *)
Fixpoint trim_spaces (i : nat) (label : list Z) : list Z :=
  match i with
  | O => label
  | S i' => if nthZ label (Z.of_nat i) =? 32 then trim_spaces i' (splice (Z.of_nat i) [0] label) else label
  end.

Definition trim_label (label : list Z) : list Z := trim_spaces 15 (label ++ [0]).

Definition d64_getdisklabel (part : Z) : comp world (Z * list Z) :=
  p ← part_get part;
  r ← (if is_dnp p then image_read part (256 + DNP_LABEL_OFFSET) 16
       else d64_getdirlabel (Path part (dir_fat p) (dir_track p) (dir_sector p)));
  if negb (r.1 =? 0) then mret (1, r.2) else mret (0, trim_label r.2).

Definition d64_getid (path : path_t) : comp world (Z * list Z) := read_string_from_dirheader path ID_OFFSET 5.

(** The tracks that [d64_freeblocks] skips. *)
Definition skipped_track (imagetype i : Z) : bool :=
  let ty := base_type imagetype in
  if ty =? D64_TYPE_D81 then i =? D81_BAM_TRACK
  else if ty =? D64_TYPE_DNP then false
  else if (ty =? D64_TYPE_D80) || (ty =? D64_TYPE_D82) then i =? D80_DIR_TRACK
  else (i =? D41_BAM_TRACK) || (i =? D71_BAM2_TRACK).

Definition d64_freeblocks (part : Z) : comp world Z :=
  p ← part_get part;
  for_range 1 (Z.to_nat (get_param (d64data p) LAST_TRACK)) (fun i blocks =>
    if skipped_track (imagetype p) i then mret blocks
    else if (base_type (imagetype p) =? D64_TYPE_DNP) && (i =? 1) then
      for_range 64 192 (fun j blocks =>
        f ← is_free part 1 j; mret (if 0 <? f then u16 (blocks + 1) else blocks)) blocks
    else n ← sectors_free part i; mret (u16 (blocks + n))) 0.
End files.
