(* ===== verification/D64Ops.v ===== *)
(** * d64ops.c: the file operations and formatting

    Opening, deleting, renaming, subdirectories of DNP images, and the format
    functions, on top of D64Files.v.  Names are C strings in arrays: the
    characters up to the terminator are copied, and a copy that leaves its
    target array is stuck. *)

From S2P Require Import Prelude EepromFs ErrorMsg Utils Buffers FatFs Dirent World D64Geom D64 D64Files.

Section ops.
Context `{FatFs} `{Assertions} `{ErrorConfig} `{BufferConfig} `{SystemConfig}.

(** Open a chain that starts at [data[0]]/[data[1]] for reading. *)
Definition d64_open_chain (part buf t s : Z) : comp world unit :=
  on_bufs (data_put buf 0 [t; s]);;
  fh ← buf_d64 buf;
  buf_set_d64 buf (fh_on part fh);;
  on_bufs (buf_upd buf (fun b => set_seek (Some cb_d64_seek) (set_refill (Some cb_d64_read) (set_buf_read true b))));;
  on_bufs (stick_buffer buf);;
  d64_read buf;;
  mret tt.

Definition d64_open_read (path : path_t) (dent : cbmdirent_t) (buf : Z) : comp world unit :=
  dh ← of_option (dent_dh dent);
  r ← d64_read_entry (path_part path) dh;
  if negb (r =? 0) then mret tt
  else
    t ← ops_get DIR_OFS_TRACK;
    s ← ops_get DIR_OFS_SECTOR;
    d64_open_chain (path_part path) buf t s.

(** Read on to the last sector of the file. *)
Definition d64_read_to_end (part buf : Z) : comp world unit :=
  fuel ← chain_fuel part;
  loop fuel (fun _ : unit =>
    e ← get_current_error;
    link ← on_bufs (data_get buf 0);
    if (e =? 0) && negb (link =? 0) then d64_read buf;; mret (inl tt) else mret (inr tt)) tt.

(** The callbacks of a buffer that is open for writing. *)
Definition write_callbacks (b : buffer_t) : buffer_t :=
  set_seek (Some cb_d64_seek) (set_cleanup (Some cb_d64_write_cleanup) (set_refill (Some cb_d64_write) b)).

Definition d64_open_append (path : path_t) (dent : cbmdirent_t) (buf : Z) : comp world unit :=
  d64_open_read path dent buf;;
  d64_read_to_end (path_part path) buf;;
  e ← get_current_error;
  if negb (e =? 0) then mret tt
  else
    dh ← of_option (dent_dh dent);
    lo ← ops_get DIR_OFS_SIZE_LOW;
    hi ← ops_get DIR_OFS_SIZE_HI;
    fh ← buf_d64 buf;
    buf_set_d64 buf (fh_counted (u16 (lo + 256 * hi - 1)) (fh_of_entry dh fh));;
    on_bufs (buf_upd buf (fun b =>
      let b := set_position (u8 (lastused b + 1)) (set_buf_read false b) in
      write_callbacks (set_mustflush (position b =? 0) b)));;
    on_bufs (mark_write_buffer buf);;
    update_timestamp;;
    fh ← buf_d64 buf;
    d64_write_entry (fh_part fh) (fh_dh fh) true;;
    mret tt.

(** A directory entry with a name, behind the link bytes of [ops_scratch]. *)
Definition build_entry (name : list Z) (type : Z) : comp world unit :=
  ops_put 2 (fill 31 0);;
  ops_put DIR_OFS_FILE_NAME (fill CBM_NAME_LENGTH 160);;
  str ← of_option (strz name);
  ops_put DIR_OFS_FILE_NAME str;;
  ops_put DIR_OFS_FILE_TYPE [type].

Definition d64_open_write (path : path_t) (dent : cbmdirent_t) (type buf : Z) (append : bool) : comp world unit :=
  let part := path_part path in
  p ← part_get part;
  if Z.land (flag (imagehandle p)) FA_WRITE =? 0 then wset_error ERROR_WRITE_PROTECT
  else if append then d64_open_append path dent buf
  else
    r ← find_empty_entry path;
    let '(res, dh) := r in
    if negb (res =? 0) then mret tt
    else
      build_entry (de_name dent) type;;
      r ← get_first_sector part;
      let '(res, t, s) := r in
      if negb (res =? 0) then mret tt
      else
        ops_put DIR_OFS_TRACK [t];;
        ops_put DIR_OFS_SECTOR [s];;
        r ← allocate_sector part t s;
        if negb (r =? 0) then mret tt
        else
          update_timestamp;;
          r ← d64_write_entry part (hd_dh dh) true;
          if negb (r =? 0) then mret tt
          else
            on_bufs (mark_write_buffer buf);;
            on_bufs (buf_upd buf (fun b => write_callbacks (set_lastused 2 (set_position 2 b))));;
            on_bufs (data_put buf 2 [13]);;
            fh ← buf_d64 buf;
            buf_set_d64 buf (fh_at t s (fh_on part (fh_of_entry (hd_dh dh) fh))).

Definition d64_open_rel : comp world unit := wset_error ERROR_SYNTAX_UNABLE.

(** Free a chain of sectors; [false] when a link cannot be read. *)
Definition free_chain (part t s : Z) : comp world bool :=
  fuel ← chain_fuel part;
  loop fuel (fun '(t, s) =>
    free_sector part t s;;
    r ← checked_read part t s 2 ERROR_ILLEGAL_TS_LINK;
    if negb (r.1 =? 0) then mret (inr false)
    else
      t ← of_option (load r.2 0);
      s ← of_option (load r.2 1);
      if t =? 0 then mret (inr true) else mret (inl (t, s))) (t, s).

Definition d64_delete (path : path_t) (dent : cbmdirent_t) : comp world Z :=
  let part := path_part path in
  dh ← of_option (dent_dh dent);
  r ← d64_read_entry part dh;
  if negb (r =? 0) then mret 255
  else
    t ← ops_get DIR_OFS_TRACK;
    s ← ops_get DIR_OFS_SECTOR;
    ok ← free_chain part t s;
    if negb ok then mret 255
    else
      ops_put DIR_OFS_FILE_TYPE [0];;
      r ← d64_write_entry part dh true;
      mret (if negb (r =? 0) then 255 else 1).

Definition d64_read_sector (buf part track sector : Z) : comp world unit :=
  r ← checked_read part track sector 256 ERROR_ILLEGAL_TS_COMMAND;
  on_bufs (data_put buf 0 r.2).

Definition d64_write_sector (buf part track sector : Z) : comp world unit :=
  p ← part_get part;
  if negb (legal_ts p track sector) then wset_error_ts ERROR_ILLEGAL_TS_COMMAND track sector
  else
    bs ← on_bufs (data_read buf 0 256);
    image_write part (sector_offset (imagetype p) track sector) bs true;;
    mret tt.

Definition d64_rename (path : path_t) (dent : cbmdirent_t) (newname : list Z) : comp world unit :=
  dh ← of_option (dent_dh dent);
  r ← d64_read_entry (path_part path) dh;
  if negb (r =? 0) then mret tt
  else
    ops_put DIR_OFS_FILE_NAME (fill CBM_NAME_LENGTH 160);;
    str ← of_option (strz newname);
    ops_put DIR_OFS_FILE_NAME str;;
    d64_write_entry (path_part path) dh true;;
    mret tt.

Definition d64_raw_directory (path : path_t) (buf : Z) : comp world unit :=
  p ← part_get (path_part path);
  d64_open_chain (path_part path) buf (path_track path) (if is_dnp p then path_sector path else 0).

(** ** Subdirectories of DNP images *)

(** The header of a new directory at [h_track]/[h_sector] in the work area. *)
Definition build_dirheader (path : path_t) (dh : d64_handle) (buf h_track h_sector d_track d_sector : Z) (dirname : list Z) : comp world unit :=
  let d := hd_dh dh in
  on_bufs (data_put buf 0 (fill 256 0));;
  on_bufs (data_put buf DNP_LABEL_OFFSET (fill DNP_LABEL_AREA_SIZE 160));;
  on_bufs (data_put buf 0 [d_track; d_sector; 72]);;
  on_bufs (data_put buf DNP_DIRHEADER_ROOTHDR_TRACK
    [h_track; h_sector; path_track path; path_sector path; dh_track d; dh_sector d; u8 (dh_entry d * 32 + 2)]);;
  str ← of_option (strz dirname);
  on_bufs (data_put buf DNP_LABEL_OFFSET str);;
  c0 ← of_option (load dirname 0);
  c1 ← of_option (load dirname 1);
  on_bufs (data_put buf DNP_ID_OFFSET [c0; c1]);;
  on_bufs (data_put buf (DNP_ID_OFFSET + 3) [49; 72]).

(** The two sectors of a new directory: [(h_track, h_sector, d_track, d_sector)]. *)
Definition mkdir_sectors (path : path_t) : comp world (option (Z * Z * Z * Z)) :=
  let part := path_part path in
  r ← get_next_sector part (path_track path) (path_sector path);
  let '(res, h_track, h_sector) := r in
  if negb (res =? 0) then wset_error ERROR_DISK_FULL;; mret None
  else
    r ← allocate_sector part h_track h_sector;
    if negb (r =? 0) then mret None
    else
      r ← get_next_sector part h_track h_sector;
      let '(res, d_track, d_sector) := r in
      if negb (res =? 0) then wset_error ERROR_DISK_FULL;; free_sector part h_track h_sector;; mret None
      else
        r ← allocate_sector part d_track d_sector;
        if negb (r =? 0) then mret None else mret (Some (h_track, h_sector, d_track, d_sector)).

(** Write the two sectors and the directory entry. *)
Definition mkdir_write (path : path_t) (dh : d64_handle) (buf h_track h_sector d_track d_sector : Z) (dirname : list Z) : comp world unit :=
  let part := path_part path in
  build_dirheader path dh buf h_track h_sector d_track d_sector dirname;;
  ofs ← get_offset part h_track h_sector;
  bs ← on_bufs (data_read buf 0 256);
  r ← image_write part ofs bs false;
  if negb (r =? 0) then mret tt
  else
    r ← clear_dir_sector part d_track d_sector buf;
    if negb (r =? 0) then mret tt
    else
      build_entry dirname (Z.lor TYPE_DIR FLAG_SPLAT);;
      ops_put DIR_OFS_TRACK [h_track];;
      ops_put DIR_OFS_SECTOR [h_sector];;
      ops_put DIR_OFS_SIZE_LOW [2];;
      update_timestamp;;
      ofs ← get_offset part (dh_track (hd_dh dh)) (dh_sector (hd_dh dh));
      bs ← ops_read 2 30;
      image_write part (ofs + dh_entry (hd_dh dh) * 32 + 2) bs true;;
      mret tt.

Definition d64_mkdir (path : path_t) (dirname : list Z) : comp world unit :=
  p ← part_get (path_part path);
  if negb (is_dnp p) then wset_error ERROR_SYNTAX_UNABLE
  else
    buf ← on_bufs alloc_buffer;
    match buf with
    | None => mret tt
    | Some buf =>
        r ← find_empty_entry path;
        let '(res, dh) := r in
        if negb (res =? 0) then mret tt
        else
          secs ← mkdir_sectors path;
          match secs with
          | None => mret tt
          | Some (h_track, h_sector, d_track, d_sector) =>
              mkdir_write path dh buf h_track h_sector d_track d_sector dirname
          end
    end.

(** ** Formatting *)

(** Bytes of [bam_buffer->data]. *)
Definition bam_data_put (off : Z) (bs : list Z) : comp world unit := b ← the_bam_buffer; on_bufs (data_put b off bs).

Definition format_add_bam_signature (doschar : Z) (idbuf : list Z) : comp world unit :=
  bam_data_put 2 [doschar; Z.lxor doschar 255; nthZ idbuf 0; nthZ idbuf 1; 192].

Definition format_copy_label (part data : Z) (name idbuf : list Z) : comp world unit :=
  p ← part_get part;
  let ofs := get_param (d64data p) LABEL_OFFSET in
  on_bufs (data_put data ofs (fill 25 160));;
  str ← of_option (strz name);
  on_bufs (data_put data ofs (take 16 str));;
  on_bufs (data_put data (get_param (d64data p) ID_OFFSET) idbuf).

(** [idbuf] with new characters 3 and 4. *)
Definition dos_id (idbuf : list Z) (a b : Z) : list Z := splice 3 [a; b] idbuf.

(** [for (s=0; s<n; s++) allocate_sector(part, track, s);] *)
Definition allocate_sectors (part track : Z) (n : nat) : comp world unit :=
  for_range 0 n (fun s (_ : unit) => allocate_sector part track s;; mret tt) tt.

Definition format_d41_image (part buf : Z) (name idbuf : list Z) : comp world unit :=
  allocate_sectors part D41_BAM_TRACK 2;;
  bam_data_put 0 [18; 1; 65];;
  b ← the_bam_buffer;
  format_copy_label part b name (dos_id idbuf 50 65);;
  bam_data_put 169 [160];;
  bam_data_put 170 [160];;
  clear_dir_sector part D41_BAM_TRACK 1 buf;;
  mret tt.

Definition format_d71_image (part buf : Z) (name idbuf : list Z) : comp world unit :=
  format_d41_image part buf name idbuf;;
  bam_data_put 3 [128];;
  allocate_sectors part D71_BAM2_TRACK 19.

Definition format_d81_image (part buf : Z) (name idbuf : list Z) : comp world unit :=
  allocate_sectors part D81_BAM_TRACK 4;;
  bam_data_put 0 [40; 2];;
  format_add_bam_signature 68 idbuf;;
  sectors_free part 41;;
  bam_data_put 0 [0; 255];;
  format_add_bam_signature 68 idbuf;;
  bam_mustflush;;
  on_bufs (data_put buf 0 [40; 3; 68]);;
  format_copy_label part buf name (dos_id idbuf 51 68);;
  bs ← on_bufs (data_read buf 0 256);
  r ← image_write part ((40 - 1) * 40 * 256) bs false;
  if negb (r =? 0) then mret tt else clear_dir_sector part D81_BAM_TRACK 3 buf;; mret tt.

Definition format_dnp_image (part buf : Z) (name idbuf : list Z) : comp world unit :=
  allocate_sectors part DNP_BAM_TRACK 35;;
  format_add_bam_signature 72 idbuf;;
  p ← part_get part;
  bam_data_put DNP_BAM_LAST_TRACK_OFS [get_param (d64data p) LAST_TRACK];;
  on_bufs (data_put buf 0 (fill 256 0));;
  on_bufs (data_put buf 0 [1; 34; 72]);;
  format_copy_label part buf name (dos_id idbuf 49 72);;
  on_bufs (data_put buf DNP_DIRHEADER_ROOTHDR_TRACK [1]);;
  on_bufs (data_put buf DNP_DIRHEADER_ROOTHDR_SECTOR [1]);;
  bs ← on_bufs (data_read buf 0 256);
  r ← image_write part 256 bs false;
  if negb (r =? 0) then mret tt else clear_dir_sector part 1 DNP_ROOTDIR_SECTOR buf;; mret tt.

Definition format_d80_image (part buf : Z) (name idbuf : list Z) : comp world unit := mret tt.
Definition format_d82_image (part buf : Z) (name idbuf : list Z) : comp world unit := mret tt.

(** [format_function] of the parameters. *)
Definition format_image (fn : format_fn) : Z -> Z -> list Z -> list Z -> comp world unit :=
  match fn with
  | format_d41_fn => format_d41_image
  | format_d71_fn => format_d71_image
  | format_d81_fn => format_d81_image
  | format_dnp_fn => format_dnp_image
  | format_d80_fn => format_d80_image
  | format_d82_fn => format_d82_image
  end.

(** Clear a track with the zeros in the work area; [false] on an error. *)
Definition clear_track (part buf t : Z) : comp world bool :=
  spt ← get_spt part t;
  for_ok 0 (Z.to_nat spt) (fun s =>
    ofs ← get_offset part t s;
    bs ← on_bufs (data_read buf 0 256);
    r ← image_write part ofs bs false;
    mret (r =? 0)).

(** Clear the image, or with no new ID the directory track: the ID to use, or
    [None] after an error. *)
Definition format_clear (part buf : Z) (id : option (list Z)) : comp world (option (list Z)) :=
  p ← part_get part;
  match id with
  | Some id =>
      ok ← for_ok 1 (Z.to_nat (get_param (d64data p) LAST_TRACK)) (fun t => clear_track part buf t);
      if negb ok then mret None
      else
        c0 ← of_option (load id 0);
        c1 ← of_option (load id 1);
        mret (Some [c0; c1; 160; 0; 0])
  | None =>
      r ← d64_getid (Path part 0 (get_param (d64data p) DIR_TRACK) 1);
      if negb (r.1 =? 0) then mret None
      else
        ok ← clear_track part buf (get_param (d64data p) DIR_TRACK);
        mret (if negb ok then None else Some (splice 2 [160] r.2))
  end.

(** Mark all sectors as free. *)
Definition free_all_sectors (part : Z) : comp world unit :=
  p ← part_get part;
  for_range 1 (Z.to_nat (get_param (d64data p) LAST_TRACK)) (fun t (_ : unit) =>
    for_range 0 (Z.to_nat (sectors_per_track (imagetype p) t)) (fun s (_ : unit) =>
      free_sector part t s;; mret tt) tt) tt.

(** Forget what a BAM buffer holds. *)
Definition bam_drop (buf : Z) : comp world unit :=
  bam ← buf_pvt_bam buf; on_bufs (buf_upd buf (set_pvt (PvtBam 255 bam.1.2 bam.2))).

Definition d64_format (part : Z) (name : list Z) (id : option (list Z)) : comp world unit :=
  p ← part_get part;
  if is_dnp p && (negb (dir_track p =? 1) || negb (dir_sector p =? 1)) then mret tt
  else
    buf ← on_bufs alloc_buffer;
    match buf with
    | None => mret tt
    | Some buf =>
        on_bufs (mark_write_buffer buf);;
        on_bufs (unstick_buffer buf);;
        on_bufs (mark_buffer_dirty buf);;
        on_bufs (data_put buf 0 (fill 256 0));;
        d64_bam_commit;;
        b ← the_bam_buffer;
        bam_drop b;;
        w ← gets (fun w => w);
        (match bam_buffer2 (d64 w) with Some b2 => bam_drop b2 | None => mret tt end);;
        idbuf ← format_clear part buf id;
        match idbuf with
        | None => mret tt
        | Some idbuf =>
            free_all_sectors part;;
            p ← part_get part;
            format_image (p_format_function (d64data p)) part buf name idbuf
        end
    end.
End ops.
