(* ===== verification/D64Mount.v ===== *)
(** * Unmounting a disk image

    What happens to the BAM buffers that all mounted images share. *)

From S2P Require Import Prelude EepromFs ErrorMsg ErrorMsgTheorems Utils UtilsTheorems Buffers BuffersTheorems.
From S2P Require Import FatFs Dirent World ImageIO D64Geom D64 D64GeomTheorems D64Bam D64BamOps D64BamSpec D64Files D64Demo.

Section mount.
Context `{FatFsLaws} `{Assertions} `{ErrorConfig} `{BufferConfig} `{SystemConfig}.
Notation N := CONFIG_BUFFER_COUNT.

(** A BAM buffer that no longer stands for a sector. *)
Definition forgotten (w : world) (b t s : Z) (x : buffer_t) : world :=
  set_w_bufs (set_buffers (<[Z.to_nat b := set_pvt (PvtBam 255 t s) x]> (buffers (w_bufs w))) (w_bufs w)) w.

Section forget.
Context (w : world) (b : Z) (x : buffer_t) (k : Z * Z * Z).
Hypothesis Hok : bam_ok w.
Hypothesis Hb : is_bam w b.
Hypothesis Hx : bam_buf w b x k.
Notation w' := (forgotten w b k.1.2 k.2 x).

Lemma forgotten_bufs j : buffers (w_bufs w') !! Z.to_nat j =
  if decide (Z.to_nat j = Z.to_nat b) then Some (set_pvt (PvtBam 255 k.1.2 k.2) x) else buffers (w_bufs w) !! Z.to_nat j.
Proof.
  unfold forgotten. simpl. destruct (decide _) as [->|Hne].
  - apply list_lookup_insert_eq. apply lookup_lt_is_Some. eexists. apply (bb_lookup _ _ _ _ Hx).
  - by apply list_lookup_insert_ne.
Qed.

Lemma forgotten_cell j : 0 <= j -> j <> b -> cell w' j = cell w j.
Proof. intros Hj Hne. pose proof (bb_range _ _ _ _ Hx). unfold cell. rewrite forgotten_bufs. by rewrite decide_False by lia. Qed.

Lemma forgotten_self : bam_buf w' b (set_pvt (PvtBam 255 k.1.2 k.2) x) (255, k.1.2, k.2).
Proof.
  destruct Hx as [Hr Hl Ha Hs Hcu Hp Hh]. split; try done; [|by left]. rewrite forgotten_bufs. by rewrite decide_True.
Qed.

Lemma forgotten_ok : bam_ok w'.
Proof.
  pose proof (bb_range _ _ _ _ Hx). split; [|apply Hok|apply Hok| |apply Hok|].
  - apply (buf_upd_ok (w_bufs w) b (set_pvt (PvtBam 255 k.1.2 k.2)) x); try done; [apply Hok|apply Hx].
  - intros j Hj. destruct (decide (j = b)) as [->|Hne]; [eexists _, _; apply forgotten_self|].
    destruct (bk_each w Hok j Hj) as (y & k' & Hy). exists y, k'. pose proof (bb_range _ _ _ _ Hy).
    destruct Hy as [Hr Hl Ha Hs Hcu Hp Hh]. split; try done; [rewrite forgotten_bufs; by rewrite decide_False by lia|].
    destruct Hh as [?|(q & l & z & Hmq & Hvq & Hcl)]; [by left|right]. exists q, l, z.
    split_and!; [by eapply mounted_ext; [| |exact Hmq]|done|exact Hcl].
  - intros j j' kk Hj Hj' E1 E2 Hne. pose proof (cell_bam_buf _ _ _ _ forgotten_self) as Eb.
    destruct (bk_each w Hok j Hj) as (y & ky & Hy), (bk_each w Hok j' Hj') as (y' & ky' & Hy').
    pose proof (bb_range _ _ _ _ Hy). pose proof (bb_range _ _ _ _ Hy').
    destruct (decide (j = b)) as [->|]; [rewrite E1 in Eb; injection Eb as ->; done|].
    destruct (decide (j' = b)) as [->|]; [rewrite E2 in Eb; injection Eb as ->; done|].
    rewrite forgotten_cell in E1, E2 by (done || lia). by apply (bk_once w Hok j j' kk).
Qed.
End forget.

Lemma bam_forget_ok w b part : bam_ok w -> is_bam w b ->
  wp (bam_forget b part) (fun _ w' => bam_ok w' /\ d64 w' = d64 w) w.
Proof.
  intros Hok Hb. unfold bam_forget. rewrite wp_bind. eapply wp_mono; [by apply bam_cleanup_ok|]. cbv beta.
  intros r w1 (-> & Hok1 & _ & _ & Hd & _). assert (is_bam w1 b) as Hb1 by (unfold is_bam; by rewrite Hd).
  destruct (bk_each w1 Hok1 b Hb1) as (x & k & Hx). rewrite wp_bind.
  eapply wp_intro; [by apply (buf_pvt_bam_run w1 b x k)|]. cbv beta. unfold when. destruct (k.1.1 =? part).
  - rewrite wp_bufs. pose proof (bb_range _ _ _ _ Hx).
    eapply wp_intro; [apply (buf_upd_run b _ x); [lia|apply Hx]|]. cbv beta.
    split; [by apply (forgotten_ok w1 b x k)|done].
  - rewrite wp_ret. done.
Qed.

Lemma free_some_buffer_ok w o : bufs_ok (w_bufs w) -> (forall b, o = Some b -> 0 <= b < N) ->
  wp (on_bufs (free_buffer o)) (fun _ w' => bufs_ok (w_bufs w') /\ d64 w' = d64 w) w.
Proof.
  intros Hs Ho. rewrite wp_bufs. destruct o as [b|].
  - pose proof (Ho b eq_refl). eapply wp_mono; [apply free_buffer_ok; [done|lia]|]. cbv beta. by intros _ s' [? _].
  - unfold free_buffer. rewrite wp_ret. by destruct w.
Qed.

Lemma forget_some_ok w o part : bam_ok w -> (forall b, o = Some b -> is_bam w b) ->
  wp (match o with Some b => bam_forget b part | None => mret tt end) (fun _ w' => bam_ok w' /\ d64 w' = d64 w) w.
Proof. intros Hok Ho. destruct o as [b|]; [by apply bam_forget_ok, Ho|by rewrite wp_ret]. Qed.

(** [d64_unmount] keeps the BAM buffers when the last image is unmounted
    and frees them while other images are still mounted, whose next access to
    the BAM then follows a null pointer. *)
Theorem unmount_frees_shared_buffers w part (Hok : bam_ok w) (Hr : 1 <= bam_refcount (d64 w) <= 255) :
  exists w', d64_unmount part w = Done tt w' /\ bufs_ok (w_bufs w') /\ bam_refcount (d64 w') = bam_refcount (d64 w) - 1 /\
    if bam_refcount (d64 w) =? 1 then bam_buffer (d64 w') = bam_buffer (d64 w)
    else bam_buffer (d64 w') = None /\
      forall part' track type p, part_get part' w' = Done p w' -> move_bam_window part' track type w' = Stuck.
Proof.
  assert (wp (d64_unmount part) (fun _ w' => bufs_ok (w_bufs w') /\ bam_refcount (d64 w') = bam_refcount (d64 w) - 1 /\
    bam_buffer (d64 w') = if bam_refcount (d64 w) =? 1 then bam_buffer (d64 w) else None) w) as ([] & w' & Hrun & Hs & Hc & Hb)%wp_done.
  { unfold d64_unmount. rewrite wp_bind, wp_gets. cbv beta. unfold id.
    rewrite wp_bind. eapply wp_mono; [apply forget_some_ok; [done|]; intros b ?; by left|]. cbv beta. intros _ w1 [Hok1 Hd1].
    rewrite wp_bind. eapply wp_mono; [apply forget_some_ok; [done|]; intros b ?; right; by rewrite Hd1|].
    cbv beta. intros _ w2 [Hok2 Hd2]. rewrite wp_bind. unfold on_d64 at 1. rewrite wp_zoom, wp_modify. cbv beta.
    rewrite wp_bind, wp_gets. cbv beta. unfold id, when. simpl. rewrite Hd2, Hd1, u8_id by lia.
    assert (forall b, is_bam w b -> 0 <= b < N) as Hrange.
    { intros b Hb. destruct (bk_each w Hok b Hb) as (x & k & Hx). apply (bb_range _ _ _ _ Hx). }
    destruct (Z.eqb_spec (bam_refcount (d64 w)) 1) as [E|E].
    - replace (bam_refcount (d64 w) - 1 =? 0) with true by lia. simpl. rewrite wp_ret. simpl. split_and!; [apply Hok2|lia|done].
    - replace (bam_refcount (d64 w) - 1 =? 0) with false by lia. simpl.
      rewrite wp_bind. eapply wp_mono; [apply free_some_buffer_ok; [apply Hok2|intros b ?; apply Hrange; by left]|].
      cbv beta. intros _ w3 [Hs3 Hd3]. rewrite wp_bind.
      eapply wp_mono; [apply free_some_buffer_ok; [done|intros b ?; apply Hrange; by right]|].
      cbv beta. intros _ w4 [Hs4 Hd4]. unfold on_d64. rewrite wp_zoom, wp_modify. cbv beta. simpl. split_and!; [done| |done].
      by rewrite Hd4, Hd3. }
  exists w'. split_and!; [done|done|done|]. destruct (bam_refcount (d64 w) =? 1); [done|]. split; [done|].
  intros part' track type p Hp. unfold move_bam_window, mbind at 1, comp_bind at 1. rewrite Hp.
  destruct (bam_position _ _ _) as [[t s] pos]. unfold the_bam_buffer, mbind, comp_bind, gets, id. by rewrite Hb.
Qed.
End mount.

#[local] Existing Instance demo_config.
#[local] Existing Instance six_buffers.

(** The demo image with a second one mounted. *)
Definition two_images : world :=
  set_d64 (set_bam_refcount 2 (d64 (demo_world demo_bam_sector))) (demo_world demo_bam_sector).

Lemma two_images_ok : bam_ok two_images.
Proof.
  apply (same_bams_ok (demo_world demo_bam_sector)); try done; [apply demo_ok|exact demo_pool_ok|by exists 0].
Qed.

Lemma unmount_frees_shared_buffers_witness :
  exists w', d64_unmount 1 two_images = Done tt w' /\ bam_buffer (d64 w') = None.
Proof.
  destruct (unmount_frees_shared_buffers two_images 1 two_images_ok ltac:(simpl; lia)) as (w' & Hrun & _ & _ & Hb).
  change (bam_refcount (d64 two_images) =? 1) with false in Hb. destruct Hb as [Hb _]. exists w'. split; [exact Hrun|exact Hb].
Defined.
