(* ===== verification/P00Cache.v ===== *)
(** * p00cache.c: the cache of internal file names

    The names inside [PSUR]00 files of one partition, by their start cluster.
    [entries] is the length of the list. *)

From stdpp Require Import gmap.
From S2P Require Import Prelude Utils Buffers FatFs Dirent World.

Section p00cache.
Context `{SystemConfig}.

Definition p00cache_invalidate : comp p00_state unit := modify (fun _ => {| p00cache := []; cache_part := 255 |}).

(** The linear search. *)
Fixpoint p00cache_find (cluster : Z) (l : list (Z * list Z)) : option (list Z) :=
  match l with
  | [] => None
  | (c, name) :: l' => if c =? cluster then Some name else p00cache_find cluster l'
  end.

Definition p00cache_lookup (part cluster : Z) : comp p00_state (option (list Z)) :=
  s ← gets id; mret (if negb (part =? cache_part s) then None else p00cache_find cluster (p00cache s)).

Definition p00cache_add (part cluster : Z) (name : list Z) : comp p00_state unit :=
  s ← gets id;
  if zlen (p00cache s) =? CONFIG_P00CACHE_ENTRIES then mret tt
  else
    when (negb (part =? cache_part s)) (
      p00cache_invalidate;; modify (fun s => {| p00cache := p00cache s; cache_part := part |}));;
    n ← of_option (load_block name 0 CBM_NAME_LENGTH);
    modify (fun s => {| p00cache := p00cache s ++ [(cluster, n)]; cache_part := cache_part s |}).
End p00cache.

(** ** The cache as a map *)

Inductive cache_op := CacheInvalidate | CacheAdd (part cluster : Z) (name : list Z).

Section cache.
Context `{SystemConfig}.

Definition cache_run (op : cache_op) : comp p00_state unit :=
  match op with
  | CacheInvalidate => p00cache_invalidate
  | CacheAdd part cluster name => p00cache_add part cluster name
  end.

Fixpoint cache_runs (ops : list cache_op) : comp p00_state unit :=
  match ops with [] => mret tt | op :: ops => cache_run op;; cache_runs ops end.

(** The cache holds names of the medium [disk] only, and fits its array. *)
Definition cache_sound (disk : Z -> Z -> list Z) (s : p00_state) : Prop :=
  zlen (p00cache s) <= CONFIG_P00CACHE_ENTRIES /\
  (forall cluster name, p00cache_find cluster (p00cache s) = Some name -> name = disk (cache_part s) cluster).

(** The callers add the names that they read from the medium, in arrays of at
    least 16 bytes. *)
Definition op_from (disk : Z -> Z -> list Z) (op : cache_op) : Prop :=
  match op with
  | CacheInvalidate => True
  | CacheAdd part cluster name => CBM_NAME_LENGTH <= zlen name /\ take 16 name = disk part cluster
  end.

Lemma cache_find_app cluster l k :
  p00cache_find cluster (l ++ k) =
  match p00cache_find cluster l with Some name => Some name | None => p00cache_find cluster k end.
Proof. induction l as [|[c n] l IH]; [done|]. simpl. by destruct (c =? cluster). Qed.

Hypothesis Hsize : 0 < CONFIG_P00CACHE_ENTRIES.

Lemma cache_empty_sound disk part : cache_sound disk {| p00cache := []; cache_part := part |}.
Proof. split; [change (0 <= CONFIG_P00CACHE_ENTRIES); lia|done]. Qed.

Lemma cache_add_sound disk s part cluster name : cache_sound disk s -> op_from disk (CacheAdd part cluster name) ->
  wp (p00cache_add part cluster name) (fun _ s' => cache_sound disk s' /\
    (zlen (p00cache s) < CONFIG_P00CACHE_ENTRIES -> cache_part s' = part /\
      p00cache_find cluster (p00cache s') = Some (disk part cluster))) s.
Proof.
  intros [Hlen Hs] [Hn Hd]. unfold p00cache_add. rewrite wp_bind, wp_gets. cbv beta. unfold id.
  destruct (Z.eqb_spec (zlen (p00cache s)) CONFIG_P00CACHE_ENTRIES) as [He|He].
  { rewrite wp_ret. split; [by split|lia]. }
  assert (load_block name 0 CBM_NAME_LENGTH = Some (disk part cluster)) as Hload.
  { unfold CBM_NAME_LENGTH in *. rewrite load_block_some by lia. f_equal. rewrite <- Hd. unfold slice. by rewrite drop_0. }
  assert (forall s1, cache_sound disk s1 -> zlen (p00cache s1) < CONFIG_P00CACHE_ENTRIES -> cache_part s1 = part ->
    wp (n ← of_option (load_block name 0 CBM_NAME_LENGTH);
        modify (fun s => {| p00cache := p00cache s ++ [(cluster, n)]; cache_part := cache_part s |}))
      (fun _ s' => cache_sound disk s' /\ (zlen (p00cache s) < CONFIG_P00CACHE_ENTRIES ->
        cache_part s' = part /\ p00cache_find cluster (p00cache s') = Some (disk part cluster))) s1) as Hadd.
  { intros s1 [Hl1 Hs1] Hlt <-. rewrite Hload, wp_bind, wp_of_option_Some, wp_modify. split.
    - split; [simpl; rewrite zlen_app; change (zlen [_]) with 1; lia|]. intros c n. simpl. rewrite cache_find_app.
      destruct (p00cache_find c (p00cache s1)) as [n'|] eqn:E.
      + intros [= <-]. by apply Hs1.
      + simpl. destruct (Z.eqb_spec cluster c) as [->|]; [by intros [= <-]|done].
    - intros _. split; [done|]. simpl. rewrite cache_find_app. destruct (p00cache_find cluster (p00cache s1)) as [n'|] eqn:E.
      + f_equal. by apply Hs1.
      + simpl. by rewrite Z.eqb_refl. }
  rewrite wp_bind. unfold when. destruct (Z.eqb_spec part (cache_part s)) as [->|Hne]; simpl.
  - apply Hadd; [by split|lia|done].
  - unfold p00cache_invalidate. rewrite wp_bind, !wp_modify. apply Hadd; [apply cache_empty_sound|simpl; change (0 < CONFIG_P00CACHE_ENTRIES); lia|done].
Qed.

Lemma cache_runs_sound disk ops : forall s, cache_sound disk s -> Forall (op_from disk) ops ->
  wp (cache_runs ops) (fun _ s' => cache_sound disk s') s.
Proof.
  induction ops as [|op ops IH]; intros s Hs Hops; [done|]. apply Forall_cons_1 in Hops as [Hop Hops].
  simpl. rewrite wp_bind. eapply (wp_mono _ (fun _ s' => cache_sound disk s')); [|intros _ s' Hs'; by apply IH].
  destruct op as [|part cluster name]; [apply cache_empty_sound|].
  simpl. eapply wp_mono; [by apply (cache_add_sound disk)|]. by intros _ s' [? _].
Qed.
End cache.

(** C33: The cache of internal names never lies and never overflows: after any
    sequence of invalidations and additions of names that are on the medium, a
    lookup gives the name on the medium or nothing, the table holds at most
    CONFIG_P00CACHE_ENTRIES names, and unless it was full the name that was
    added last is found. *)
Theorem p00cache_never_lies `{SystemConfig} (disk : Z -> Z -> list Z) (ops : list cache_op) (part cluster : Z) (name : list Z) (s0 : p00_state) :
  0 < CONFIG_P00CACHE_ENTRIES ->
  Forall (op_from disk) ops -> op_from disk (CacheAdd part cluster name) ->
  wp (p00cache_invalidate;; cache_runs ops) (fun _ s =>
    zlen (p00cache s) <= CONFIG_P00CACHE_ENTRIES /\
    (forall p c, wp (p00cache_lookup p c) (fun r s' => s' = s /\ (r = None \/ r = Some (disk p c))) s) /\
    (zlen (p00cache s) < CONFIG_P00CACHE_ENTRIES ->
      wp (p00cache_add part cluster name;; p00cache_lookup part cluster) (fun r _ => r = Some (disk part cluster)) s)) s0.
Proof.
  intros Hsize Hops Hop. rewrite wp_bind. unfold p00cache_invalidate. rewrite wp_modify.
  eapply wp_mono; [apply (cache_runs_sound Hsize disk); [by apply cache_empty_sound|done]|].
  intros u s Hs. cbv beta in Hs. clear u. split_and!.
  - apply Hs.
  - intros p c. unfold p00cache_lookup. rewrite wp_bind, wp_gets. cbv beta. unfold id. rewrite wp_ret. split; [done|].
    destruct (Z.eqb_spec p (cache_part s)) as [->|]; [|by left]. simpl.
    destruct (p00cache_find c (p00cache s)) as [n|] eqn:E; [right|by left]. f_equal. by apply (proj2 Hs).
  - intros Hlt. rewrite wp_bind. eapply wp_mono; [by apply (cache_add_sound Hsize disk)|].
    intros _ s' [_ Hfound]. destruct (Hfound Hlt) as [Hp Hf]. unfold p00cache_lookup. rewrite wp_bind, wp_gets.
    cbv beta. unfold id. rewrite wp_ret, Hp, Z.eqb_refl. exact Hf.
Qed.

Lemma p00cache_never_lies_witness :
  let sys := {| HAVE_RTC := false; CONFIG_HAVE_EEPROMFS := true; CONFIG_HAVE_IEC := false; HAVE_HOTPLUG := false;
    CONFIG_MAX_PARTITIONS := 2; CONFIG_COMMAND_BUFFER_SIZE := 254; CONFIG_P00CACHE_ENTRIES := 2; MAX_DRIVES := 1 |} in
  wp (p00cache_invalidate;; cache_runs [CacheAdd 1 7 (fill 17 65); CacheAdd 0 7 (fill 17 65)]) (fun _ s =>
    zlen (p00cache s) <= 2 /\
    (forall p c, wp (p00cache_lookup p c) (fun r s' => s' = s /\ (r = None \/ r = Some (fill 16 65))) s) /\
    (zlen (p00cache s) < 2 ->
      wp (p00cache_add 0 9 (fill 17 65);; p00cache_lookup 0 9) (fun r _ => r = Some (fill 16 65)) s))
    {| p00cache := []; cache_part := 0 |}.
Proof.
  intros sys.
  refine (p00cache_never_lies (fun _ _ => fill 16 65) [CacheAdd 1 7 (fill 17 65); CacheAdd 0 7 (fill 17 65)] 0 9
    (fill 17 65) {| p00cache := []; cache_part := 0 |} _ _ _); [reflexivity|repeat constructor; done|done].
Defined.
