(* ===== verification/EefsOps.v ===== *)
(** * eefs-ops.c: the operations table of the EEPROM file system

    The functions that connect eeprom-fs.c to buffers, directory entries and
    the error channel.  A function that changes the name it is given returns
    the changed entry or name; names are byte arrays that hold a C string. *)

From S2P Require Import Prelude EepromFs ErrorMsg Utils Buffers FatFs Dirent World D64Geom D64.

(** The numbers of the error codes. *)
Definition eefs_error_code (res : eefs_error_t) : Z :=
  match res with
  | EEFS_ERROR_OK => 0
  | EEFS_ERROR_FILENOTFOUND => 1
  | EEFS_ERROR_FILEEXISTS => 2
  | EEFS_ERROR_DIRFULL => 3
  | EEFS_ERROR_DISKFULL => 4
  | EEFS_ERROR_INVALID => 5
  | EEFS_ERROR_UNIMPLEMENTED => 6
  end.

Definition disk_label_eefs : list Z := [69; 69; 80; 82; 79; 77; 70; 83; 32; 32; 32; 32; 32; 32; 32; 32; 0].
Definition disk_id_eefs : list Z := [69; 69; 32; 50; 65].

(** [pvt.eefh] *)
Definition pvt_eefh (p : pvt_t) : option eefs_fh_t :=
  match p with PvtEefh fh => Some fh | PvtZero => Some fh_zero | _ => None end.

(** The pad length is negative behind 16 characters; [memset] takes it as a
    huge size then. *)
Definition repad_filename (name : list Z) : option (list Z) :=
  str ← strz name;
  let len := u8 (zlen str) in
  if CBM_NAME_LENGTH <? len then None else store_block name len (fill (CBM_NAME_LENGTH - len) 160).

Definition terminate_filename (name : list Z) : list Z :=
  ((fun c => if c =? 160 then 0 else c) <$> take (Z.to_nat CBM_NAME_LENGTH) name) ++ drop (Z.to_nat CBM_NAME_LENGTH) name.

Section eefsops.
Context `{FatFs} `{EepromGeom} `{Assertions} `{ErrorConfig} `{BufferConfig} `{SystemConfig}.

Definition buf_eefh (buf : Z) : comp world eefs_fh_t := b ← on_bufs (buf_get buf); of_option (pvt_eefh (pvt b)).
Definition buf_set_eefh (buf : Z) (fh : eefs_fh_t) : comp world unit := on_bufs (buf_upd buf (set_pvt (PvtEefh fh))).

Definition translate_error (res : eefs_error_t) : comp world unit :=
  match res with
  | EEFS_ERROR_OK => wset_error ERROR_OK
  | EEFS_ERROR_FILENOTFOUND => wset_error ERROR_FILE_NOT_FOUND
  | EEFS_ERROR_FILEEXISTS => wset_error ERROR_FILE_EXISTS
  | EEFS_ERROR_DIRFULL | EEFS_ERROR_DISKFULL => wset_error_ts ERROR_DISK_FULL (eefs_error_code res) 0
  | EEFS_ERROR_INVALID => wset_error ERROR_SYNTAX_UNABLE
  | EEFS_ERROR_UNIMPLEMENTED => wset_error ERROR_SYNTAX_UNKNOWN
  end.

(** ** Callbacks *)

Definition eefs_refill_read (buf : Z) : comp world Z :=
  fh ← buf_eefh buf;
  r ← on_eefs (eepromfs_read fh 254);
  let '(res, fh, data, bytes_read) := r in
  buf_set_eefh buf fh;;
  on_bufs (data_put buf 2 data);;
  if decide (res = EEFS_ERROR_OK) then
    bytes_read ← of_option bytes_read;
    on_bufs (buf_upd buf (fun b =>
      set_sendeoi ((bytes_read <? 254) || (cur_offset fh =? fh_size fh))
        (set_lastused (u8 (bytes_read + 1)) (set_position 2 b))));;
    mret 0
  else
    translate_error res;; on_bufs (free_buffer (Some buf));; mret 1.

Definition eefs_refill_write (buf : Z) : comp world Z :=
  on_bufs (buf_upd buf (fun b => if mustflush b then b else set_lastused (u8 (position b - 1)) b));;
  b ← on_bufs (buf_get buf);
  let length := u16 (lastused b - 1) in
  data ← on_bufs (data_read buf 2 length);
  fh ← buf_eefh buf;
  r ← on_eefs (eepromfs_write fh data length);
  let '(res, fh, _) := r in
  buf_set_eefh buf fh;;
  if decide (res = EEFS_ERROR_OK) then
    on_bufs (mark_buffer_clean buf);;
    on_bufs (buf_upd buf (fun b => set_lastused 2 (set_position 2 (set_mustflush false b))));;
    mret 0
  else
    translate_error res;;
    fh ← on_eefs (eepromfs_close fh);
    buf_set_eefh buf fh;;
    on_bufs (free_buffer (Some buf));;
    mret 1.

(** With this cleanup function the refill pointer is [eefs_refill_write]. *)
Definition eefs_cleanup_write (buf : Z) : comp world Z :=
  b ← on_bufs (buf_get buf);
  if negb (allocated b) then mret 0
  else
    r ← (match refill b with Some cb_eefs_refill_write => eefs_refill_write buf | _ => stuck end);
    if negb (r =? 0) then mret 1
    else
      fh ← buf_eefh buf;
      fh ← on_eefs (eepromfs_close fh);
      buf_set_eefh buf fh;;
      on_bufs (buf_upd buf (set_cleanup (Some cb_callback_dummy)));;
      mret 0.

(** ** The operations *)

Definition eefsops_init : comp world unit :=
  on_dos (modify (set_eefs_partition 255));;
  n ← gets max_part;
  if CONFIG_MAX_PARTITIONS <=? n then mret tt
  else
    on_dos (modify (set_eefs_partition n));;
    part_upd n (set_fop eefsops);;
    modify (set_max_part (u8 (n + 1)));;
    on_eefs eepromfs_init.

Definition eefs_open_read (path : path_t) (dent : cbmdirent_t) (buf : Z) : comp world cbmdirent_t :=
  name ← of_option (repad_filename (de_name dent));
  r ← on_eefs (eepromfs_open name EEFS_MODE_READ);
  let '(res, fh) := r in
  buf_set_eefh buf fh;;
  translate_error res;;
  when (bool_decide (res = EEFS_ERROR_OK)) (
    on_bufs (buf_upd buf (fun b => set_refill (Some cb_eefs_refill_read) (set_buf_read true b)));;
    on_bufs (stick_buffer buf);;
    eefs_refill_read buf;;
    mret tt);;
  mret (set_de_name name dent).

Definition eefs_open_write (path : path_t) (dent : cbmdirent_t) (type buf : Z) (append : bool) : comp world cbmdirent_t :=
  name ← of_option (repad_filename (de_name dent));
  r ← on_eefs (eepromfs_open name (if append then EEFS_MODE_APPEND else EEFS_MODE_WRITE));
  let '(res, fh) := r in
  buf_set_eefh buf fh;;
  translate_error res;;
  when (bool_decide (res = EEFS_ERROR_OK)) (
    on_bufs (mark_write_buffer buf);;
    on_bufs (buf_upd buf (fun b => set_lastused 2 (set_position 2 b)));;
    on_bufs (data_put buf 2 [13]);;
    on_bufs (buf_upd buf (fun b => set_cleanup (Some cb_eefs_cleanup_write) (set_refill (Some cb_eefs_refill_write) b))));;
  mret (set_de_name name dent).

Definition eefs_open_rel (path : path_t) (dent : cbmdirent_t) (buf recordlen mode : Z) : comp world unit :=
  wset_error ERROR_SYNTAX_UNABLE.

Definition eefs_delete (path : path_t) (dent : cbmdirent_t) : comp world (Z * cbmdirent_t) :=
  on_bufs (modify (set_dirty_led true));;
  name ← of_option (repad_filename (de_name dent));
  res ← on_eefs (eepromfs_delete name);
  translate_error res;;
  on_bufs update_leds;;
  mret (if decide (res = EEFS_ERROR_OK) then 1 else 0, set_de_name name dent).

(** The results come with the bytes that are stored at [label] and [id]. *)
Definition eefs_disk_label (part : Z) : comp world (Z * list Z) := mret (0, disk_label_eefs).
Definition eefs_dir_label (path : path_t) : comp world (Z * list Z) := mret (0, take 16 disk_label_eefs).
Definition eefs_disk_id (path : path_t) : comp world (Z * list Z) := mret (0, disk_id_eefs).

Definition eefs_disk_free (part : Z) : comp world Z :=
  n ← on_eefs eepromfs_free_sectors; mret (n / (256 / EEPROMFS_SECTORSIZE)).

Definition eefs_read_sector (buf part track sector : Z) : comp world unit := wset_error_ts ERROR_READ_NOHEADER track sector.
Definition eefs_write_sector (buf part track sector : Z) : comp world unit := wset_error_ts ERROR_READ_NOHEADER track sector.

Definition eefs_format (drv : Z) (name : list Z) (id : option (list Z)) : comp world unit := on_eefs eepromfs_format.

(** The handle is the partition and the entry index. *)
Definition eefs_opendir (path : path_t) : comp world (Z * dh_t) :=
  mret (0, DirH (path_part path) (DirEefs eepromfs_opendir)).

(** The directory entry of an entry of the EEPROM file system. *)
Definition eefs_dent (e : eefs_dirent_t) : cbmdirent_t :=
  {| Dirent.de_name := take (Z.to_nat CBM_NAME_LENGTH) (terminate_filename (EepromFs.de_name e)) ++ [0];
     de_typeflags := TYPE_PRG;
     de_blocksize := (EepromFs.de_size e + 255) / 256;
     de_remainder := 0;
     de_date := zero_date;
     de_opstype := OPSTYPE_EEFS;
     de_pvt := DentZero |}.

(** The entry is [None] when [dent] is left alone. *)
Definition eefs_readdir (dh : dh_t) : comp world (Z * dh_t * option cbmdirent_t) :=
  match dh_dir dh with
  | DirEefs entry =>
      r ← on_eefs (eepromfs_readdir entry);
      let '(entry, e) := r in
      mret (match e with Some _ => 0 | None => -1 end, DirH (dh_part dh) (DirEefs entry), eefs_dent <$> e)
  | _ => stuck
  end.

Definition eefs_chdir (path : path_t) (dent : cbmdirent_t) : comp world Z := mret 0.

Definition eefs_rename (path : path_t) (oldname : cbmdirent_t) (newname : list Z) : comp world (cbmdirent_t * list Z) :=
  old ← of_option (repad_filename (Dirent.de_name oldname));
  new ← of_option (repad_filename newname);
  res ← on_eefs (eepromfs_rename old new);
  translate_error res;;
  mret (set_de_name old oldname, new).
End eefsops.
