(* ===== verification/FatNames.v ===== *)
(** * fatops.c: names and extensions

    Conversion between PETSCII and the names of a FAT medium, the known
    extensions, and the choice of a name for a new file.  A C string is a
    block of bytes ended by 0 in an array, as in Utils.v. *)

From S2P Require Import Prelude EepromFs ErrorMsg Utils Buffers FatFs Dirent D64Geom D64 D64Files.

(** fileops.c: the three letters of every file type. *)
Definition filetypes : list Z :=
  [68; 69; 76; 83; 69; 81; 80; 82; 71; 85; 83; 82; 82; 69; 76; 67; 66; 77; 68; 73; 82; 63; 63; 63; 78; 65; 84;
   52; 49; 32; 55; 49; 32; 56; 49; 32].

Definition P00_HEADER_SIZE : Z := 26.
Definition P00_CBMNAME_OFFSET : Z := 8.
Definition P00_RECORDLEN_OFFSET : Z := 25.
Definition P00MARKER_LENGTH : Z := 7.

(** "bootsect.128" and "C64File" *)
Definition BOOTSECTOR_FILE : list Z := [98; 111; 111; 116; 115; 101; 99; 116; 46; 49; 50; 56].
Definition p00marker : list Z := [67; 54; 52; 70; 105; 108; 101].

Inductive exttype_t := EXT_UNKNOWN | EXT_IS_X00 | EXT_IS_TYPE.
Inductive imgtype_t := IMG_UNKNOWN | IMG_IS_DISK.

#[export] Instance imgtype_eq_dec : EqDecision imgtype_t.
Proof. solve_decision. Defined.

(** The result is the type and the index of the extension ([None] for NULL);
    the three characters are read wherever the name ends. *)
Definition check_extension (name : list Z) : option (exttype_t * option Z) :=
  str ← strz name;
  match strrchr 46 str with
  | None => Some (EXT_UNKNOWN, None)
  | Some dot =>
      f ← load name (dot + 1);
      s ← load name (dot + 2);
      t ← load name (dot + 3);
      Some (if ((f =? 80) || (f =? 83) || (f =? 85) || (f =? 82)) && isdigit s && isdigit t then EXT_IS_X00
            else if ((f =? 80) && (s =? 82) && (t =? 71)) || ((f =? 83) && (s =? 69) && (t =? 81))
                 || ((f =? 82) && (s =? 69) && (t =? 76)) || ((f =? 85) && (s =? 83) && (t =? 82)) then EXT_IS_TYPE
            else EXT_UNKNOWN, Some (dot + 1))
  end.

Definition check_imageext (name : list Z) : option imgtype_t :=
  str ← strz name;
  match strrchr 46 str with
  | None => Some IMG_UNKNOWN
  | Some dot =>
      f ← load name (dot + 1);
      s ← load name (dot + 2);
      t ← load name (dot + 3);
      let f := toupper f in
      let s := toupper s in
      let t := toupper t in
      Some (if (f =? 68) &&
               (((s =? 54) && (t =? 52)) || ((s =? 78) && (t =? 80))
                || (((s =? 52) || (s =? 55) || (s =? 56)) && (t =? 49))
                || ((s =? 56) && ((t =? 48) || (t =? 50))))
            then IMG_IS_DISK else IMG_UNKNOWN)
  end.

Definition pet2asc_char (ch : Z) : Z :=
  if (128 + 64 <? ch) && (ch <? 128 + 91) then u8 (ch - 128)
  else if (96 - 32 <? ch) && (ch <? 123 - 32) then u8 (ch + 32)
  else if (192 - 128 <? ch) && (ch <? 219 - 128) then u8 (ch + 128)
  else if ch =? 255 then 126
  else ch.

Definition pet2asc (buf : Z) : comp (list Z) unit :=
  m ← gets id;
  loop (S (length m)) (fun p =>
    c ← peek p;
    if negb (c =? 0) then poke p (pet2asc_char c);; mret (inl (p + 1)) else mret (inr tt)) buf.

(** The characters of the string in [is_valid_fat_char]. *)
Definition invalid_fat_chars : list Z := [34; 42; 44; 47; 92; 58; 61; 63; 64].

Definition is_valid_fat_char (c : Z) : bool :=
  if (c <? 32) || (126 <? c) then false else negb (existsb (Z.eqb c) invalid_fat_chars).

(** The check behind the loop looks at the first character again. *)
Definition is_valid_fat_name (name : Z) : comp (list Z) bool :=
  m ← gets id;
  c ← peek name;
  if (c =? 32) || (c =? 46) then mret false
  else
    ok ← loop (S (length m)) (fun ptr =>
      c ← peek ptr;
      if negb (c =? 0) then if is_valid_fat_char c then mret (inl (ptr + 1)) else mret (inr false)
      else mret (inr true)) name;
    if negb ok then mret false
    else c ← peek name; mret (negb ((c =? 32) || (c =? 46))).

(** [pgm_read_byte(filetypes+i)] *)
Definition filetype_char (i : Z) : comp (list Z) Z := of_option (load filetypes i).

(** The name of an X00 file; the result points at the last digit. *)
Definition build_x00_name (name type : Z) : comp (list Z) Z :=
  m ← gets id;
  p ← loop (S (length m)) (fun p =>
    c ← peek p;
    if negb (c =? 0) then
      when (negb (is_valid_fat_char c)) (poke p 95);; mret (inl (p + 1))
    else mret (inr p)) name;
  poke p 46;;
  t ← filetype_char (3 * type);
  poke (p + 1) t;;
  poke (p + 2) 48;;
  poke (p + 3) 48;;
  poke (p + 4) 0;;
  mret (p + 3).

(** The name with the letters of its type. *)
Definition build_type_name (name type : Z) : comp (list Z) unit :=
  p ← skip_while (fun c => negb (c =? 0)) name;
  poke p 46;;
  let ofs := TYPE_LENGTH * Z.land type EXT_TYPE_MASK in
  for_range 0 (Z.to_nat TYPE_LENGTH) (fun i (_ : unit) => t ← filetype_char (ofs + i); poke (p + 1 + i) t) tt;;
  poke (p + 4) 0.

(** [None] for NULL. *)
Definition build_name (file_extension_mode name type : Z) : comp (list Z) (option Z) :=
  pet2asc name;;
  m ← gets id;
  image ← (if type =? TYPE_PRG then
             t ← of_option (check_imageext (drop (Z.to_nat name) m)); mret (bool_decide (t = IMG_IS_DISK))
           else mret false);
  if (image : bool) then mret None
  else
    valid ← (if ((file_extension_mode =? 1) && negb (type =? TYPE_PRG)) || (file_extension_mode =? 2) then mret false
             else is_valid_fat_name name);
    if negb valid then p ← build_x00_name name type; mret (Some p)
    else if ((file_extension_mode =? 3) && negb (type =? TYPE_PRG)) || (file_extension_mode =? 4) then
      build_type_name name type;; mret None
    else mret None.
