(* ===== verification/FatFile.v ===== *)
(** * fatops.c: files on a FAT medium

    The callbacks of a buffer with a FAT file, and opening files.  The FAT
    driver is the interface of FatFs.v; the file handle of buffer [i] is
    [buf_fil] at [i].  The debug output of uart_putc is left out. *)

From stdpp Require Import gmap.
From S2P Require Import Prelude EepromFs ErrorMsg Utils Buffers FatFs Dirent World D64Geom D64 FatNames.

(** [pvt.fat.headersize] *)
Definition pvt_headersize (p : pvt_t) : option Z :=
  match p with PvtFat h => Some h | PvtZero => Some 0 | _ => None end.

Section fatfile.
Context `{FatFs} `{Assertions} `{ErrorConfig} `{BufferConfig} `{SystemConfig}.

(** The members of [pvt.fat]. *)
Definition buf_headersize (buf : Z) : comp world Z := b ← on_bufs (buf_get buf); of_option (pvt_headersize (pvt b)).
Definition buf_set_headersize (buf h : Z) : comp world unit := on_bufs (buf_upd buf (set_pvt (PvtFat h))).
Definition buf_fh (buf : Z) : comp world FIL := w ← gets id; of_option (buf_fil w !! buf).
Definition buf_set_fh (buf : Z) (f : FIL) : comp world unit := modify (fun w => set_buf_fil (<[buf := f]> (buf_fil w)) w).

(** Calls of the driver with the handle of a buffer. *)
Definition fh_lseek (buf ofs : Z) : comp world Z :=
  f ← buf_fh buf; r ← call (f_lseek f ofs); let '(res, f) := r in buf_set_fh buf f;; mret res.
Definition fh_read (buf n : Z) : comp world (Z * list Z) :=
  f ← buf_fh buf; r ← call (f_read f n); let '(res, data, f) := r in buf_set_fh buf f;; mret (res, data).
Definition fh_write (buf : Z) (data : list Z) : comp world (Z * Z) :=
  f ← buf_fh buf; r ← call (f_write f data); let '(res, n, f) := r in buf_set_fh buf f;; mret (res, n).
Definition fh_close (buf : Z) : comp world Z :=
  f ← buf_fh buf; r ← call (f_close f); let '(res, f) := r in buf_set_fh buf f;; mret res.

(** [f_open] in the current directory of a partition. *)
Definition fh_open (buf part : Z) (name : list Z) (mode : Z) : comp world Z :=
  p ← part_get part;
  r ← call (f_open part (curr_dir p) name mode);
  let '(res, f) := r in buf_set_fh buf f;; mret res.

(** An error ends the access to the file. *)
Definition fail_close (buf : Z) (error : comp world unit) : comp world Z :=
  error;; fh_close buf;; on_bufs (free_buffer (Some buf));; mret 1.

(** ** Callbacks *)

(** The loop that strips zeros from the end of a record: [lastused]. *)
Definition strip_record (buf lastused : Z) : comp world Z :=
  loop 257 (fun lu =>
    c ← on_bufs (data_get buf lu);
    if c =? 0 then
      let lu := u8 (lu - 1) in
      mret (if 1 <? lu then inl lu else inr lu)
    else mret (inr lu)) lastused.

Definition fat_file_read (buf : Z) : comp world Z :=
  fh ← buf_fh buf;
  h ← buf_headersize buf;
  on_bufs (buf_upd buf (set_fptr (u32 (f_tell fh - h))));;
  b ← on_bufs (buf_get buf);
  r ← fh_read buf (if recordlen b =? 0 then 254 else recordlen b);
  let '(res, data) := r in
  on_bufs (data_put buf 2 data);;
  if negb (res =? FR_OK) then parse_error res true;; on_bufs (free_buffer (Some buf));; mret 1
  else
    when (zlen data =? 0) (on_bufs (data_put buf 2 [if recordlen b =? 0 then 13 else 255]));;
    let bytesread := if zlen data =? 0 then 1 else zlen data in
    on_bufs (buf_upd buf (fun b => set_lastused (u8 (bytesread + 1)) (set_position 2 b)));;
    when (negb (recordlen b =? 0)) (
      lu ← strip_record buf (u8 (bytesread + 1));
      on_bufs (buf_upd buf (set_lastused lu)));;
    fh ← buf_fh buf;
    on_bufs (buf_upd buf (set_sendeoi ((bytesread <? 254) || (fsize fh - f_tell fh =? 0) || negb (recordlen b =? 0))));;
    mret 0.

Definition write_data (buf : Z) : comp world Z :=
  on_bufs (buf_upd buf (fun b => if mustflush b then b else set_lastused (u8 (position b - 1)) b));;
  b ← on_bufs (buf_get buf);
  when (lastused b - 1 <? recordlen b) (
    on_bufs (data_put buf (lastused b + 1) (fill (recordlen b - (lastused b - 1)) 0)));;
  on_bufs (buf_upd buf (fun b => if recordlen b =? 0 then b else set_lastused (u8 (recordlen b + 1)) b));;
  b ← on_bufs (buf_get buf);
  let length := u32 (lastused b - 1) in
  data ← on_bufs (data_read buf 2 length);
  r ← fh_write buf data;
  let '(res, byteswritten) := r in
  if negb (res =? FR_OK) then fail_close buf (parse_error res true)
  else if negb (byteswritten =? length) then fail_close buf (wset_error ERROR_DISK_FULL)
  else
    on_bufs (mark_buffer_clean buf);;
    fh ← buf_fh buf;
    h ← buf_headersize buf;
    on_bufs (buf_upd buf (fun b =>
      set_fptr (u32 (f_tell fh - h)) (set_lastused 2 (set_position 2 (set_mustflush false b)))));;
    mret 0.

(** Fill the gap of [i] bytes between the old end of the file and the data
    that was written behind it; the result is that of the loop: [None] when a
    write failed. *)
Definition fill_gap (buf res i : Z) : comp world (option Z) :=
  loop (S (Z.to_nat i)) (fun i =>
    if (res =? FR_OK) && negb (i =? 0) then
      b ← on_bufs (buf_get buf);
      let n := if recordlen b =? 0 then (if 254 <? i then 254 else u8 i) else recordlen b in
      on_bufs (buf_upd buf (fun b => set_position (u8 (n + 2)) (set_lastused n b)));;
      r ← write_data buf;
      if negb (r =? 0) then mret (inr None) else mret (inl (u32 (i - n)))
    else mret (inr (Some i))) i.

Definition fat_file_write (buf : Z) : comp world Z :=
  fh ← buf_fh buf;
  h ← buf_headersize buf;
  let fend := u32 (fsize fh - h) in
  b ← on_bufs (buf_get buf);
  let start := fptr b in
  res ← (if negb (start =? fend) then fh_lseek buf (u32 (h + start)) else mret FR_OK);
  if negb (res =? FR_OK) then fail_close buf (parse_error res true)
  else
    let i := if fend <? start then u32 (start - fend) else 0 in
    r ← write_data buf;
    if negb (r =? 0) then mret 1
    else if i =? 0 then mret 0
    else
      res ← fh_lseek buf (u32 (h + fend));
      on_bufs (buf_upd buf (fun b => set_fptr fend (set_mustflush false b)));;
      on_bufs (data_put buf 2 [if recordlen b =? 0 then 0 else 255]);;
      on_bufs (data_put buf 3 (fill 253 0));;
      r ← fill_gap buf res i;
      match r with
      | None => mret 1
      | Some _ =>
          fh ← buf_fh buf;
          res ← fh_lseek buf (fsize fh);
          if negb (res =? FR_OK) then fail_close buf (parse_error res true)
          else
            fh ← buf_fh buf;
            on_bufs (buf_upd buf (set_fptr (u32 (f_tell fh - h))));;
            mret 0
      end.

(** The new position inside the record. *)
Definition seek_index (index : Z) (b : buffer_t) : buffer_t :=
  set_position (if lastused b <? index + 2 then lastused b else u8 (index + 2)) b.

Definition fat_file_seek (buf position index : Z) : comp world Z :=
  h ← buf_headersize buf;
  let pos := u32 (position + h) in
  b ← on_bufs (buf_get buf);
  r ← (if dirty b then fat_file_write buf else mret 0);
  if negb (r =? 0) then mret 1
  else
    fh ← buf_fh buf;
    r ← (if pos <=? fsize fh then
           res ← fh_lseek buf pos;
           if negb (res =? FR_OK) then fail_close buf (parse_error res false) else fat_file_read buf
         else
           b ← on_bufs (buf_get buf);
           on_bufs (data_put buf 2 [if recordlen b =? 0 then 13 else 255]);;
           on_bufs (buf_upd buf (fun b => set_fptr position (set_lastused 2 b)));;
           wset_error ERROR_RECORD_MISSING;;
           mret 0);
    if negb (r =? 0) then mret 1
    else on_bufs (buf_upd buf (seek_index index));; mret 0.

Definition fat_file_sync (buf : Z) : comp world Z :=
  b ← on_bufs (buf_get buf); fat_file_seek buf (u32 (fptr b + recordlen b)) 0.

(** With this cleanup function the refill pointer of a buffer for writing is
    [fat_file_write] or [fat_file_sync]. *)
Definition fat_file_close (buf : Z) : comp world Z :=
  b ← on_bufs (buf_get buf);
  if negb (allocated b) then mret 0
  else
    r ← (if buf_write b then
           match refill b with
           | Some cb_fat_file_write => fat_file_write buf
           | Some cb_fat_file_sync => fat_file_sync buf
           | _ => stuck
           end
         else mret 0);
    if negb (r =? 0) then mret 1
    else
      res ← fh_close buf;
      parse_error res true;;
      on_bufs (buf_upd buf (set_cleanup (Some cb_callback_dummy)));;
      mret (if negb (res =? FR_OK) then 1 else 0).

(** ** Opening files *)

(** Run a string function on an array that is not part of the state. *)
Definition on_array {A} (m : comp (list Z) A) (l : list Z) : comp world (A * list Z) := fun w =>
  match m l with Done a l' => Done (a, l') w | Stuck => Stuck | OutOfFuel => OutOfFuel end.
Definition on_scratch {A} (m : comp (list Z) A) : comp world A := on_eefs (zoom scratch set_scratch m).

(** A C string in [ops_scratch], or in an array. *)
Definition scratch_str (i : Z) : comp world (list Z) :=
  w ← gets id; of_option (strz (drop (Z.to_nat i) (scratch (w_eefs w)))).
Definition ustrcpy_scratch (str : list Z) : comp world unit := s ← of_option (strz str); ops_put 0 (s ++ [0]).

Definition set_fat_dir (path : path_t) : comp world unit := part_upd (path_part path) (set_curr_dir (path_fat path)).

(** The name that is changed to ASCII, in the entry that is returned. *)
Definition pet2asc_dent (dent : cbmdirent_t) : comp world cbmdirent_t :=
  r ← on_array (pet2asc 0) (de_name dent); mret (set_de_name r.2 dent).

(** [realname] if there is one. *)
Definition real_or_name (dent : cbmdirent_t) : comp world (list Z) :=
  real ← of_option (dent_realname dent);
  c ← of_option (load real 0);
  of_option (strz (if negb (c =? 0) then real else de_name dent)).

Definition fat_callbacks (refill_fn : callback) (b : buffer_t) : buffer_t :=
  set_seek (Some cb_fat_file_seek) (set_refill (Some refill_fn) (set_cleanup (Some cb_fat_file_close) b)).

Definition fat_open_read (path : path_t) (dent : cbmdirent_t) (buf : Z) : comp world cbmdirent_t :=
  dent ← pet2asc_dent dent;
  name ← real_or_name dent;
  set_fat_dir path;;
  res ← fh_open buf (path_part path) name (Z.lor FA_READ FA_OPEN_EXISTING);
  if negb (res =? FR_OK) then parse_error res true;; mret dent
  else
    when (bool_decide (de_opstype dent = OPSTYPE_FAT_X00)) (
      fh_lseek buf P00_HEADER_SIZE;; buf_set_headersize buf P00_HEADER_SIZE);;
    on_bufs (buf_upd buf (fun b => fat_callbacks cb_fat_file_read (set_buf_read true b)));;
    on_bufs (stick_buffer buf);;
    fat_file_read buf;;
    mret dent.

(** The loop over the names of a new file; [x00ext] points at the last digit
    of the extension. *)
Definition create_open (fuel : nat) (buf part mode : Z) (x00ext : option Z) : comp world Z :=
  loop fuel (fun _ : unit =>
    name ← scratch_str 0;
    res ← fh_open buf part name mode;
    if negb (res =? FR_EXIST) then mret (inr res)
    else
      match x00ext with
      | None => mret (inl tt)
      | Some x =>
          d ← ops_get x;
          if negb (d + 1 =? 58) then ops_put x [u8 (d + 1)];; mret (inl tt)
          else
            ops_put x [48];;
            e ← ops_get (x - 1);
            ops_put (x - 1) [u8 (e + 1)];;
            mret (if e + 1 =? 58 then inr res else inl tt)
      end) tt.

(** The header of a new file in [ops_scratch]: its size. *)
Definition build_header (dent : cbmdirent_t) (x00 : bool) (recordlen : Z) : comp world Z :=
  if x00 then
    ops_put 0 (fill P00_HEADER_SIZE 0);;
    ops_put 0 (p00marker ++ [0]);;
    name ← of_option (load_block (de_name dent) 0 CBM_NAME_LENGTH);
    ops_put P00_CBMNAME_OFFSET name;;
    when (negb (recordlen =? 0)) (ops_put P00_RECORDLEN_OFFSET [recordlen]);;
    mret P00_HEADER_SIZE
  else ops_put 0 [recordlen];; mret 1.

(** One hundred names are tried at most. *)
Definition create_file (path : path_t) (dent : cbmdirent_t) (type buf recordlen : Z) : comp world Z :=
  ustrcpy_scratch (de_name dent);;
  s ← settings;
  x00ext ← on_scratch (build_name (file_extension_mode s) 0 type);
  set_fat_dir path;;
  let mode := Z.lor (Z.lor FA_WRITE FA_CREATE_NEW) (if recordlen =? 0 then 0 else FA_READ) in
  res ← create_open 101 buf (path_part path) mode x00ext;
  if negb (res =? FR_OK) then mret res
  else if bool_decide (x00ext <> None) || negb (recordlen =? 0) then
    h ← build_header dent (bool_decide (x00ext <> None)) recordlen;
    buf_set_headersize buf h;;
    data ← ops_read 0 h;
    r ← fh_write buf data;
    mret (if negb (r.1 =? FR_OK) || negb (r.2 =? h) then r.1 else FR_OK)
  else mret FR_OK.

(** The part of [fat_open_write] for appending. *)
Definition fat_open_append (path : path_t) (dent : cbmdirent_t) (buf : Z) : comp world Z :=
  set_fat_dir path;;
  real ← of_option (dent_realname dent);
  name ← of_option (strz real);
  res ← fh_open buf (path_part path) name (Z.lor FA_WRITE FA_OPEN_EXISTING);
  when (bool_decide (de_opstype dent = OPSTYPE_FAT_X00)) (buf_set_headersize buf P00_HEADER_SIZE);;
  fh ← buf_fh buf;
  res ← (if res =? FR_OK then fh_lseek buf (fsize fh) else mret res);
  fh ← buf_fh buf;
  h ← buf_headersize buf;
  on_bufs (buf_upd buf (set_fptr (u32 (fsize fh - h))));;
  mret res.

Definition fat_open_write (path : path_t) (dent : cbmdirent_t) (type buf : Z) (append : bool) : comp world unit :=
  res ← (if append then fat_open_append path dent buf else create_file path dent type buf 0);
  if negb (res =? FR_OK) then parse_error res false
  else
    on_bufs (mark_write_buffer buf);;
    on_bufs (buf_upd buf (fun b => fat_callbacks cb_fat_file_write (set_lastused 2 (set_position 2 b))));;
    on_bufs (data_put buf 2 [13]).

(** Opening an existing relative file: the result of the driver, the number of
    bytes that were read, and the record length. *)
Definition fat_open_old_rel (path : path_t) (dent : cbmdirent_t) (buf length : Z) : comp world (Z * Z * Z) :=
  set_fat_dir path;;
  real ← of_option (dent_realname dent);
  name ← of_option (strz real);
  res ← fh_open buf (path_part path) name (Z.lor (Z.lor FA_WRITE FA_READ) FA_OPEN_EXISTING);
  if negb (res =? FR_OK) then mret (res, 0, length)
  else
    res ← (if decide (de_opstype dent = OPSTYPE_FAT_X00) then fh_lseek buf P00_RECORDLEN_OFFSET else mret res);
    r ← (if res =? FR_OK then fh_read buf 1 else mret (res, []));
    ops_put 0 r.2;;
    l ← (if length =? 0 then ops_get 0 else mret length);
    mret (r.1, zlen r.2, l).

Definition fat_open_rel (path : path_t) (dent : cbmdirent_t) (buf length : Z) (mode : bool) : comp world unit :=
  r ← (if negb mode then
         res ← create_file path dent TYPE_REL buf length; ops_put 0 [length];; mret (res, 1, length)
       else fat_open_old_rel path dent buf length);
  let '(res, bytesread, length) := r in
  if negb (res =? FR_OK) || negb (bytesread =? 1) then parse_error res false
  else
    fh ← buf_fh buf;
    buf_set_headersize buf (u8 (f_tell fh));;
    on_bufs (buf_upd buf (set_recordlen length));;
    on_bufs (mark_write_buffer buf);;
    on_bufs (buf_upd buf (fun b => fat_callbacks cb_fat_file_sync (set_buf_read true b)));;
    r ← fat_file_read buf;
    l ← ops_get 0;
    when ((r =? 0) && negb (length =? l)) (wset_error ERROR_RECORD_MISSING).
End fatfile.
