(* ===== verification/Callbacks.v ===== *)
(** * The cleanup pointer of a buffer

    The cleanup functions of all modules, as [cleanup_and_free_buffer] and
    [free_multiple_buffers] call them. *)

From S2P Require Import Prelude EepromFs ErrorMsg Utils Buffers FatFs Dirent World D64Geom D64 D64Files EefsOps FatNames FatFile.

Section callbacks.
Context `{FatFs} `{EepromGeom} `{Assertions} `{ErrorConfig} `{BufferConfig} `{SystemConfig}.

(** [pvt.buffer.first] and [pvt.buffer.next] *)
Definition pvt_first (p : pvt_t) : option (option Z) :=
  match p with PvtBuffer _ _ first _ => Some first | PvtZero => Some None | _ => None end.
Definition pvt_next (p : pvt_t) : option (option Z) :=
  match p with PvtBuffer _ _ _ next => Some next | PvtZero => Some None | _ => None end.

(** fileops.c: free a chain of buffers. *)
Definition largebuffer_cleanup (buf : Z) : comp world Z :=
  b ← on_bufs (buf_get buf);
  first ← of_option (pvt_first (pvt b));
  loop (S (S (Z.to_nat CONFIG_BUFFER_COUNT))) (fun buf =>
    match buf with
    | Some i =>
        on_bufs (free_buffer (Some i));;
        b ← on_bufs (buf_get i);
        next ← of_option (pvt_next (pvt b));
        mret (inl next)
    | None => mret (inr 0)
    end) first.

(** [buf->cleanup(buf)] *)
Definition run_cleanup (buf : Z) : comp world Z :=
  b ← on_bufs (buf_get buf);
  match cleanup b with
  | Some cb_callback_dummy => on_bufs run_callback_dummy
  | Some cb_d64_write_cleanup => d64_write_cleanup buf
  | Some cb_bam_buffer_flush => bam_buffer_flush buf
  | Some cb_eefs_cleanup_write => eefs_cleanup_write buf
  | Some cb_fat_file_close => fat_file_close buf
  | Some cb_largebuffer_cleanup => largebuffer_cleanup buf
  | _ => stuck
  end.

Definition free_buffers (flags : Z) : comp world Z := free_multiple_buffers w_bufs set_w_bufs run_cleanup flags.
Definition close_buffer (buf : Z) : comp world unit := cleanup_and_free_buffer w_bufs set_w_bufs run_cleanup buf.
End callbacks.
