(* ===== verification/FatOps.v ===== *)
(** * fatops.c: directories and the other operations on a FAT medium

    Listing, deleting, changing directories and mounting images, labels,
    renaming, and the initialisation of the partitions.  A directory of a FAT
    medium has at most 65536 items, which is the fuel of the loops over one.
    Functions that change the name or entry they are given return it. *)

From stdpp Require Import gmap.
From S2P Require Import Prelude EepromFs ErrorMsg Utils Buffers FatFs Dirent World D64Geom D64 D64Files.
From S2P Require Import P00Cache EefsOps FatNames FatFile Callbacks.

Definition dir_fuel : nat := Z.to_nat 65537.

(** [dent->name] is the left arrow. *)
Definition is_left_arrow (dent : cbmdirent_t) : bool := (nthZ (de_name dent) 0 =? 95) && (nthZ (de_name dent) 1 =? 0).

(** The items that [fat_readdir] skips: volume labels, "." and "..". *)
Definition skipped_item (fi : FILINFO) : bool :=
  let n := nthZ (fi_fname fi) in
  (negb (n 0 =? 0) && negb (Z.land (fi_fattrib fi) AM_VOL =? 0))
  || ((n 0 =? 46) && (n 1 =? 0))
  || ((n 0 =? 46) && (n 1 =? 46) && (n 2 =? 0)).

Definition type_of_char (c : Z) : Z :=
  if c =? 80 then TYPE_PRG else if c =? 83 then TYPE_SEQ else if c =? 85 then TYPE_USR
  else if c =? 82 then TYPE_REL else 0.

(** The fields of the entry behind its name. *)
Definition fat_dent (fi : FILINFO) (realname name : list Z) (typeflags size : Z) (opstype : opstype_t) : cbmdirent_t :=
  let attr := fi_fattrib fi in
  let flags := Z.lor typeflags (if Z.land attr AM_RDO =? 0 then 0 else FLAG_RO) in
  {| de_name := name;
     de_typeflags := Z.lor flags (if Z.land attr (Z.lor AM_HID AM_SYS) =? 0 then 0 else FLAG_HIDDEN);
     de_blocksize := if 16255746 <? size then 63999 else u16 (u32 (size + 253) / 254);
     de_remainder := size `mod` 254;
     de_date := Date (u8 (Z.shiftr (fi_fdate fi) 9 + 80)) (Z.land (Z.shiftr (fi_fdate fi) 5) 15) (Z.land (fi_fdate fi) 31)
                  (u8 (Z.shiftr (fi_ftime fi) 11)) (Z.land (Z.shiftr (fi_ftime fi) 5) 63)
                  (u8 (Z.shiftl (Z.land (fi_ftime fi) 31) 1));
     de_opstype := opstype;
     de_pvt := DentFat (fi_clust fi) realname |}.

Section fatops.
Context `{FatFs} `{EepromGeom} `{Assertions} `{ErrorConfig} `{BufferConfig} `{SystemConfig}.

(** Calls of the driver with [imagehandle] of a partition. *)
Definition img_set (part : Z) (f : FIL) : comp world unit := part_upd part (set_imagehandle f).
Definition img_open (part : Z) (name : list Z) (mode : Z) : comp world Z :=
  p ← part_get part;
  r ← call (f_open part (curr_dir p) name mode);
  let '(res, f) := r in img_set part f;; mret res.
Definition img_lseek (part ofs : Z) : comp world Z :=
  p ← part_get part; r ← call (f_lseek (imagehandle p) ofs); let '(res, f) := r in img_set part f;; mret res.
Definition img_read (part n : Z) : comp world (Z * list Z) :=
  p ← part_get part; r ← call (f_read (imagehandle p) n);
  let '(res, data, f) := r in img_set part f;; mret (res, data).
Definition img_write (part : Z) (data : list Z) : comp world (Z * Z) :=
  p ← part_get part; r ← call (f_write (imagehandle p) data);
  let '(res, n, f) := r in img_set part f;; mret (res, n).
Definition img_close (part : Z) : comp world Z :=
  p ← part_get part; r ← call (f_close (imagehandle p)); let '(res, f) := r in img_set part f;; mret res.

(** [ustrcpy] into an array. *)
Definition copy_str (dst src : list Z) : comp world (list Z) :=
  s ← of_option (strz src); of_option (store_block dst 0 (s ++ [0])).

(** ** Directories *)

Definition fat_opendir (path : path_t) : comp world (Z * dh_t) :=
  r ← call (l_opendir (path_part path) (path_fat path));
  let '(res, d) := r in
  let dh := DirH (path_part path) (DirFat d) in
  if negb (res =? FR_OK) then parse_error res true;; mret (1, dh) else mret (0, dh).

(** The next item that is not skipped; the long name goes to [ops_scratch]. *)
Definition fat_next_item (d : DIR) : comp world (Z * FILINFO * DIR) :=
  loop dir_fuel (fun d =>
    r ← call (f_readdir d);
    let '(res, fi, d) := r in
    ops_put 0 (fi_lfn fi);;
    if negb (res =? FR_OK) then mret (inr (res, fi, d))
    else mret (if skipped_item fi then inl d else inr (res, fi, d))) d.

(** The name inside a [PSUR]00 file, from the cache or the file; [None] when
    the file has no header. *)
Definition x00_name (part clust : Z) : comp world (option (list Z)) :=
  cached ← on_p00 (p00cache_lookup part clust);
  match cached with
  | Some name => mret (Some (name ++ [0]))
  | None =>
      r ← call (l_opencluster part clust);
      let '(res, f) := r in
      img_set part f;;
      if negb (res =? FR_OK) then mret None
      else
        r ← img_read part P00_HEADER_SIZE;
        ops_put 0 r.2;;
        if negb (r.1 =? FR_OK) then mret None
        else
          marker ← ops_read 0 P00MARKER_LENGTH;
          if bool_decide (marker <> p00marker) then mret None
          else
            str ← scratch_str P00_CBMNAME_OFFSET;
            name ← of_option (store_block (fill (CBM_NAME_LENGTH + 1) 0) 0 (str ++ [0]));
            let name := terminate_filename name in
            on_p00 (p00cache_add part clust name);;
            mret (Some name)
  end.

(** The short name, with its end cut off if the extension is hidden, and the
    character of the type; a long name is cut in [ops_scratch]. *)
Definition hide_extension (fi : FILINFO) (use_lfn : bool) (ext : option Z) : comp world (list Z * Z) :=
  e ← of_option ext;
  c ← of_option (load (fi_fname fi) e);
  str ← (if use_lfn then scratch_str 0 else of_option (strz (fi_fname fi)));
  let i := u8 (zlen str - 4) in
  if use_lfn then ops_put i [0];; mret (fi_fname fi, c)
  else fname ← of_option (store (fi_fname fi) i 0); mret (fname, c).

(** The name, type flags, size and kind of a file. *)
Definition fat_file_type (part : Z) (fi : FILINFO) (use_lfn : bool) : comp world (list Z * option (list Z) * Z * Z * opstype_t) :=
  x ← of_option (check_extension (fi_fname fi));
  s ← settings;
  match x with
  | (EXT_IS_X00, ext) =>
      e ← of_option ext;
      c ← of_option (load (fi_fname fi) e);
      name ← x00_name part (fi_clust fi);
      mret (match name with
            | Some n => (fi_fname fi, Some n, type_of_char c, u32 (fi_fsize fi - P00_HEADER_SIZE), OPSTYPE_FAT_X00)
            | None => (fi_fname fi, None, type_of_char c, fi_fsize fi, OPSTYPE_FAT)
            end)
  | (EXT_IS_TYPE, ext) =>
      if negb (Z.land (globalflags s) EXTENSION_HIDING =? 0) then
        r ← hide_extension fi use_lfn ext; mret (r.1, None, type_of_char r.2, fi_fsize fi, OPSTYPE_FAT)
      else mret (fi_fname fi, None, TYPE_PRG, fi_fsize fi, OPSTYPE_FAT)
  | (EXT_UNKNOWN, _) => mret (fi_fname fi, None, TYPE_PRG, fi_fsize fi, OPSTYPE_FAT)
  end.

(** The name of the entry, if it does not come from inside the file. *)
Definition fat_dent_name (fname : list Z) (use_lfn : bool) : comp world (list Z) :=
  str ← (if use_lfn then scratch_str 0 else of_option (strz fname));
  str ← (if CBM_NAME_LENGTH <? zlen str then of_option (strz fname) else mret str);
  of_option (store_block (fill (CBM_NAME_LENGTH + 1) 0) 0 (((fun c => if c =? 126 then 255 else c) <$> str) ++ [0])).

Definition fat_readdir_item (part : Z) (fi : FILINFO) : comp world cbmdirent_t :=
  real ← copy_str (fill 13 0) (fi_fname fi);
  lfn ← scratch_str 0;
  let use_lfn := negb (nthZ lfn 0 =? 0) && (zlen lfn <=? CBM_NAME_LENGTH + 4) in
  when use_lfn (on_scratch (asc2pet 0));;
  r ← (if negb (Z.land (fi_fattrib fi) AM_DIR =? 0) then
         c ← (if use_lfn then ops_get 0 else of_option (load (fi_fname fi) 0));
         mret (fi_fname fi, None, if c =? 46 then Z.lor TYPE_DIR FLAG_HIDDEN else TYPE_DIR, fi_fsize fi, OPSTYPE_FAT)
       else fat_file_type part fi use_lfn);
  let '(fname, inner, typeflags, size, opstype) := r in
  name ← (match inner with Some name => mret name | None => fat_dent_name fname use_lfn end);
  mret (fat_dent fi real name typeflags size opstype).

(** The entry is [None] when [dent] is left alone. *)
Definition fat_readdir (dh : dh_t) : comp world (Z * dh_t * option cbmdirent_t) :=
  match dh_dir dh with
  | DirFat d =>
      r ← fat_next_item d;
      let '(res, fi, d) := r in
      let dh := DirH (dh_part dh) (DirFat d) in
      if negb (res =? FR_OK) then
        (if res =? FR_INVALID_OBJECT then wset_error ERROR_DIR_ERROR else parse_error res true);;
        mret (1, dh, None)
      else if nthZ (fi_fname fi) 0 =? 0 then mret (-1, dh, Some zero_dent)
      else dent ← fat_readdir_item (dh_part dh) fi; mret (0, dh, Some dent)
  | _ => stuck
  end.

Definition fat_delete (path : path_t) (dent : cbmdirent_t) : comp world (Z * cbmdirent_t) :=
  on_bufs (modify (set_dirty_led true));;
  real ← of_option (dent_realname dent);
  dent ← (if negb (nthZ real 0 =? 0) then on_p00 p00cache_invalidate;; mret dent else pet2asc_dent dent);
  name ← real_or_name dent;
  set_fat_dir path;;
  p ← part_get (path_part path);
  res ← call (f_unlink (path_part path) (curr_dir p) name);
  on_bufs update_leds;;
  parse_error res false;;
  mret (if res =? FR_OK then 1 else if res =? FR_NO_FILE then 0 else 255, dent).

(** Mount the image file of an entry. *)
Definition fat_mount_image (path : path_t) (dent : cbmdirent_t) : comp world (Z * path_t) :=
  let part := path_part path in
  real ← of_option (dent_realname dent);
  t ← of_option (check_imageext real);
  if decide (t = IMG_UNKNOWN) then mret (0, path)
  else
    free_buffers FMB_USER_CLEAN;;
    name ← of_option (strz real);
    res ← img_open part name (Z.lor (Z.lor FA_OPEN_EXISTING FA_READ) FA_WRITE);
    res ← (if (res =? FR_DENIED) || (res =? FR_WRITE_PROTECTED) then img_open part name (Z.lor FA_OPEN_EXISTING FA_READ)
           else mret res);
    if negb (res =? FR_OK) then parse_error res true;; mret (1, path)
    else
      r ← d64_mount path real;
      if negb (r.1 =? 0) then mret (1, r.2)
      else part_upd part (set_fop d64ops);; mret (0, r.2).

(** The last part of [fat_chdir]: enter a directory or an image. *)
Definition fat_chdir_into (path : path_t) (dent : cbmdirent_t) : comp world (Z * path_t * cbmdirent_t) :=
  if Z.land (de_typeflags dent) TYPE_MASK =? TYPE_DIR then
    c ← of_option (dent_cluster dent);
    mret (0, Path (path_part path) c (path_track path) (path_sector path), dent)
  else r ← fat_mount_image path dent; mret (r.1, r.2, dent).

Definition fat_chdir (path : path_t) (dent : cbmdirent_t) : comp world (Z * path_t * cbmdirent_t) :=
  set_fat_dir path;;
  p ← part_get (path_part path);
  if is_left_arrow dent then
    ops_put 0 [46; 46; 0];;
    r ← call (f_stat (path_part path) (curr_dir p) [46; 46]);
    let '(res, fi) := r in
    if negb (res =? FR_OK) then parse_error res true;; mret (1, path, dent)
    else
      real ← of_option (dent_realname dent);
      fat_chdir_into path (set_de_typeflags TYPE_DIR (set_de_pvt (DentFat (fi_clust fi) real) dent))
  else if nthZ (de_name dent) 0 =? 0 then
    mret (0, Path (path_part path) 0 (path_track path) (path_sector path), dent)
  else fat_chdir_into path dent.

(** [dirname] is the array from the pointer on; it is returned. *)
Definition fat_mkdir (path : path_t) (dirname : list Z) : comp world (list Z) :=
  set_fat_dir path;;
  r ← on_array (pet2asc 0) dirname;
  name ← of_option (strz r.2);
  p ← part_get (path_part path);
  res ← call (f_mkdir (path_part path) (curr_dir p) name);
  parse_error res false;;
  mret r.2.

(** ** Labels *)

(** The name of a volume label without its dots. *)
Definition volume_label (fname : list Z) : option (list Z) :=
  str ← strz fname; store_block (fill (CBM_NAME_LENGTH + 1) 0) 0 (filter (fun c => c <> 46) str).

(** The results of the label functions come with the bytes that are stored. *)
Definition fat_getvolumename (part : Z) : comp world (Z * list Z) :=
  let none := fill (CBM_NAME_LENGTH + 1) 0 in
  r ← call (l_opendir part 0);
  let '(res, d) := r in
  if negb (res =? FR_OK) then parse_error res false;; mret (1, none)
  else
    loop dir_fuel (fun d =>
      r ← call (f_readdir d);
      let '(res, fi, d) := r in
      if negb (res =? FR_OK) then mret (inr (0, none))
      else if nthZ (fi_fname fi) 0 =? 0 then mret (inr (0, none))
      else if Z.land (fi_fattrib fi) (Z.lor (Z.lor AM_VOL AM_SYS) AM_HID) =? AM_VOL then
        label ← of_option (volume_label (fi_fname fi)); mret (inr (0, label))
      else mret (inl d)) d.

(** The search for the entry of a directory in its parent directory: the last
    result of the driver and the name, [None] when it is in [ops_scratch]. *)
Definition find_own_name (d : DIR) (cluster : Z) : comp world (Z * option (list Z)) :=
  loop dir_fuel (fun d =>
    r ← call (f_readdir d);
    let '(res, fi, d) := r in
    ops_put 0 (fi_lfn fi);;
    if negb (res =? FR_OK) then mret (inr (res, None))
    else if nthZ (fi_fname fi) 0 =? 0 then mret (inr (res, None))
    else if fi_clust fi =? cluster then
      c ← ops_get 0;
      if c =? 0 then mret (inr (res, Some (fi_fname fi))) else on_scratch (asc2pet 0);; mret (inr (res, None))
    else mret (inl d)) d.

(** The loop of [fat_getdirlabel], with the same result. *)
Definition find_dir_label (part cluster : Z) (d : DIR) : comp world (Z * option (list Z)) :=
  loop dir_fuel (fun d =>
    r ← call (f_readdir d);
    let '(res, fi, d) := r in
    ops_put 0 (fi_lfn fi);;
    let n := nthZ (fi_fname fi) in
    if negb (res =? FR_OK) then mret (inr (res, None))
    else if (n 0 =? 0) || negb (n 0 =? 46) then
      r ← fat_getvolumename part; ops_put 0 r.2;; mret (inr (r.1, None))
    else if (n 0 =? 46) && (n 1 =? 46) && (n 2 =? 0) then
      r ← call (l_opendir part (fi_clust fi));
      let '(res, d) := r in
      if negb (res =? FR_OK) then mret (inr (res, None))
      else r ← find_own_name d cluster; mret (inr r)
    else mret (inl d)) d.

(** Sixteen bytes of padding with the name in front, which is stored even
    where it is longer. *)
Definition padded_label (name : list Z) : list Z := name ++ drop (length name) (fill CBM_NAME_LENGTH 32).

Definition fat_getdirlabel (path : path_t) : comp world (Z * list Z) :=
  let part := path_part path in
  r ← call (l_opendir part (path_fat path));
  let '(res, d) := r in
  if negb (res =? FR_OK) then parse_error res false;; mret (1, padded_label [])
  else
    r ← find_dir_label part (path_fat path) d;
    let '(res, fname) := r in
    name ← (match fname with Some n => of_option (strz n) | None => scratch_str 0 end);
    if res =? FR_OK then mret (0, padded_label name)
    else parse_error res false;; mret (1, padded_label name).

Definition fat_getid (path : path_t) : comp world (Z * list Z) :=
  w ← gets id;
  let t := fs_type (path_part path) (drv w) in
  let digits := if t =? FS_FAT12 then [49; 50] else if t =? FS_FAT16 then [49; 54] else if t =? FS_FAT32 then [51; 50] else [] in
  mret (0, digits ++ [32; 50; 65]).

Definition fat_freeblocks (part : Z) : comp world Z :=
  r ← call (l_getfree part 65535);
  let '(res, clusters) := r in
  mret (if res =? FR_OK then if 65535 <? clusters then 65535 else clusters else 0).

(** ** Sectors *)

Definition fat_readwrite_sector (buf part track sector : Z) (rwflag : bool) : comp world unit :=
  if negb (track =? 1) || negb (sector =? 0) then wset_error_ts ERROR_READ_NOHEADER track sector
  else
    let mode := if rwflag then Z.lor FA_OPEN_EXISTING FA_READ else Z.lor FA_OPEN_ALWAYS FA_WRITE in
    res ← img_open part BOOTSECTOR_FILE mode;
    if negb (res =? FR_OK) then parse_error res rwflag
    else
      r ← (if rwflag then
             r ← img_read part 256; on_bufs (data_put buf 0 r.2);; mret (r.1, zlen r.2)
           else
             data ← on_bufs (data_read buf 0 256);
             img_write part data);
      when (negb (r.1 =? FR_OK) || negb (r.2 =? 256)) (parse_error r.1 rwflag);;
      res ← img_close part;
      when (negb (res =? FR_OK)) (parse_error res rwflag).

Definition fat_read_sector (buf part track sector : Z) : comp world unit := fat_readwrite_sector buf part track sector true.
Definition fat_write_sector (buf part track sector : Z) : comp world unit := fat_readwrite_sector buf part track sector false.

(** ** Renaming *)

(** A [PSUR]00 file keeps its FAT name; the name inside is replaced. *)
Definition rename_x00 (path : path_t) (dent : cbmdirent_t) (newname : list Z) : comp world cbmdirent_t :=
  let part := path_part path in
  on_p00 p00cache_invalidate;;
  real ← of_option (dent_realname dent);
  name ← of_option (strz real);
  res ← img_open part name (Z.lor FA_WRITE FA_OPEN_EXISTING);
  if negb (res =? FR_OK) then parse_error res false;; mret dent
  else
    res ← img_lseek part P00_CBMNAME_OFFSET;
    if negb (res =? FR_OK) then parse_error res false;; mret dent
    else
      zeroed ← of_option (store_block (de_name dent) 0 (fill CBM_NAME_LENGTH 0));
      n ← copy_str zeroed newname;
      data ← of_option (load_block n 0 CBM_NAME_LENGTH);
      r ← img_write part data;
      if negb (r.1 =? FR_OK) || negb (r.2 =? CBM_NAME_LENGTH) then parse_error r.1 false;; mret (set_de_name n dent)
      else
        res ← img_close part;
        when (negb (res =? FR_OK)) (parse_error res false);;
        mret (set_de_name n dent).

Definition fat_rename (path : path_t) (dent : cbmdirent_t) (newname : list Z) : comp world (cbmdirent_t * list Z) :=
  let part := path_part path in
  set_fat_dir path;;
  if decide (de_opstype dent = OPSTYPE_FAT_X00) then d ← rename_x00 path dent newname; mret (d, newname)
  else
    real ← of_option (dent_realname dent);
    x ← of_option (check_extension real);
    p ← part_get part;
    r ← (match x.1 with
         | EXT_IS_TYPE =>
             ustrcpy_scratch newname;;
             s ← settings;
             on_scratch (build_name (file_extension_mode s) 0 (Z.land (de_typeflags dent) TYPE_MASK));;
             new ← scratch_str 0;
             old ← of_option (strz real);
             mret (dent, newname, old, new)
         | _ =>
             d ← pet2asc_dent dent;
             n ← on_array (pet2asc 0) newname;
             old ← of_option (strz (de_name d));
             new ← of_option (strz n.2);
             mret (d, n.2, old, new)
         end);
    let '(d, n, old, new) := r in
    res ← call (f_rename part (curr_dir p) old new);
    when (negb (res =? FR_OK)) (parse_error res false);;
    mret (d, n).

(** ** Partitions *)

(** One pass of the loop of [fatops_init] over the drive and the partition on
    it. *)
Definition mount_step (preserve_path : bool) (st : Z * Z) : comp world (Z * Z + unit) :=
  let '(drive, part) := st in
  n ← gets max_part;
  if (n <? CONFIG_MAX_PARTITIONS) && (drive <? MAX_DRIVES) then
    part_upd n (set_fop fatops);;
    s ← settings;
    p ← part_get n;
    r ← call (f_mount (u8 (map_drive s drive * 16 + part)) n (curr_dir p));
    let '(res, dir) := r in
    part_upd n (fun p => (if preserve_path then id else set_dir_fat 0) (set_curr_dir dir p));;
    when (res =? FR_OK) (modify (set_max_part (n + 1)));;
    mret (inl (if negb (res =? FR_NOT_READY) && negb (res =? FR_INVALID_OBJECT) && (part <? 15)
                  && negb ((res =? FR_OK) && (part =? 0))
               then (drive, part + 1) else (drive + 1, 0)))
  else mret (inr tt).

Definition fatops_init (preserve_path : bool) : comp world unit :=
  modify (set_max_part 0);;
  loop (S (Z.to_nat (16 * MAX_DRIVES))) (mount_step preserve_path) (0, 0);;
  when (negb preserve_path) (
    on_dos (modify (set_current_part 0));;
    s ← gets w_dos;
    name ← of_option (store (de_name (previous_file_dirent s)) 0 0);
    on_dos (modify (set_previous_file_dirent (set_de_name name (previous_file_dirent s)))));;
  d64_invalidate;;
  on_p00 p00cache_invalidate;;
  n ← gets max_part;
  when (negb HAVE_HOTPLUG && (n =? 0)) (wset_error_ts ERROR_DRIVE_NOT_READY 0 0).

(** ** Image files in general *)

(** [fat_getdirlabel(&path, ops_scratch)] for the display: the label is built
    where the long names are read to. *)
Definition show_fat_dir (part : Z) : comp world unit :=
  ops_put 0 (fill CBM_NAME_LENGTH 32);;
  p ← part_get part;
  r ← call (l_opendir part (dir_fat p));
  let '(res, d) := r in
  if negb (res =? FR_OK) then parse_error res false
  else
    r ← find_dir_label part (dir_fat p) d;
    let '(res, fname) := r in
    (match fname with Some n => str ← of_option (strz n); ops_put 0 str | None => mret tt end);;
    when (negb (res =? FR_OK)) (parse_error res false).

Definition image_unmount (part : Z) : comp world Z :=
  free_buffers FMB_USER_CLEAN;;
  p ← part_get part;
  (match fop p with d64ops => d64_unmount part | _ => mret tt end);;
  s ← gets w_dos;
  when (display_found s) (show_fat_dir part);;
  part_upd part (set_fop fatops);;
  res ← img_close part;
  if negb (res =? FR_OK) then parse_error res false;; mret 1 else mret 0.

Definition image_chdir (path : path_t) (dent : cbmdirent_t) : comp world Z :=
  if is_left_arrow dent then image_unmount (path_part path) else mret 1.

Definition image_mkdir (path : path_t) (dirname : list Z) : comp world unit := wset_error ERROR_SYNTAX_UNABLE.
Definition format_dummy (drive : Z) (name : list Z) (id : option (list Z)) : comp world unit := wset_error ERROR_SYNTAX_UNKNOWN.

(** d64ops.c *)
Definition d64_chdir (path : path_t) (dent : cbmdirent_t) : comp world (Z * path_t) :=
  let part := path_part path in
  p ← part_get part;
  if negb (is_dnp p) then r ← image_chdir path dent; mret (r, path)
  else if nthZ (de_name dent) 0 =? 0 then mret (0, Path part (path_fat path) 1 1)
  else if is_left_arrow dent then
    ofs ← get_offset part (path_track path) (path_sector path);
    r ← image_read part (ofs + DNP_DIRHEADER_PARENTHDR_TRACK) 2;
    if negb (r.1 =? 0) then mret (1, path)
    else
      t ← of_option (load r.2 0);
      s ← of_option (load r.2 1);
      if t =? 0 then r ← image_unmount part; mret (r, path) else mret (0, Path part (path_fat path) t s)
  else
    dh ← of_option (dent_dh dent);
    r ← d64_read_entry part dh;
    if negb (r =? 0) then mret (1, path)
    else
      t ← ops_get DIR_OFS_TRACK;
      s ← ops_get DIR_OFS_SECTOR;
      mret (0, Path part (path_fat path) t s).
End fatops.
