(* ===== verification/WrapOps.v ===== *)
(** * wrapops.h: the operations of a file system

    The table of function pointers that every file system provides, the three
    tables of the program, and the calls through the table of a partition.
    An operation that changes a name or an entry in place returns it; a label
    or an ID comes as the bytes that are stored at the pointer; a directory
    handle is passed in and out. *)

From S2P Require Import Prelude EepromFs ErrorMsg Utils Buffers FatFs Dirent World D64Geom D64 D64Files D64Ops.
From S2P Require Import EefsOps FatNames FatFile Callbacks FatOps.

Section wrapops.
Context `{FatFs} `{EepromGeom} `{Assertions} `{ErrorConfig} `{BufferConfig} `{SystemConfig}.

Record fileops_s := {
  op_open_read : path_t -> cbmdirent_t -> Z -> comp world cbmdirent_t;
  op_open_write : path_t -> cbmdirent_t -> Z -> Z -> bool -> comp world cbmdirent_t;
  op_open_rel : path_t -> cbmdirent_t -> Z -> Z -> bool -> comp world unit;
  op_file_delete : path_t -> cbmdirent_t -> comp world (Z * cbmdirent_t);
  op_disk_label : Z -> comp world (Z * list Z);
  op_dir_label : path_t -> comp world (Z * list Z);
  op_disk_id : path_t -> comp world (Z * list Z);
  op_disk_free : Z -> comp world Z;
  op_read_sector : Z -> Z -> Z -> Z -> comp world unit;
  op_write_sector : Z -> Z -> Z -> Z -> comp world unit;
  op_format : Z -> list Z -> option (list Z) -> comp world unit;
  op_opendir : path_t -> comp world (Z * dh_t);
  op_readdir : dh_t -> comp world (Z * dh_t * option cbmdirent_t);
  op_mkdir : path_t -> list Z -> comp world (list Z);
  op_chdir : path_t -> cbmdirent_t -> comp world (Z * path_t * cbmdirent_t);
  op_rename : path_t -> cbmdirent_t -> list Z -> comp world (cbmdirent_t * list Z)
}.

Definition fat_ops : fileops_s := {|
  op_open_read := fat_open_read;
  op_open_write path dent type buf append := fat_open_write path dent type buf append;; mret dent;
  op_open_rel := fat_open_rel;
  op_file_delete := fat_delete;
  op_disk_label := fat_getvolumename;
  op_dir_label := fat_getdirlabel;
  op_disk_id := fat_getid;
  op_disk_free := fat_freeblocks;
  op_read_sector := fat_read_sector;
  op_write_sector := fat_write_sector;
  op_format := format_dummy;
  op_opendir := fat_opendir;
  op_readdir := fat_readdir;
  op_mkdir := fat_mkdir;
  op_chdir := fat_chdir;
  op_rename := fat_rename
|}.

(** The handles of directories in an image. *)
Definition d64_opendir_h (path : path_t) : comp world (Z * dh_t) :=
  r ← d64_opendir path; mret (r.1, DirH (hd_part r.2) (DirD64 (hd_dh r.2))).
Definition d64_readdir_h (dh : dh_t) : comp world (Z * dh_t * option cbmdirent_t) :=
  match dh_dir dh with
  | DirD64 d =>
      r ← d64_readdir (Dh (dh_part dh) d);
      let '(res, d, dent) := r in mret (res, DirH (hd_part d) (DirD64 (hd_dh d)), dent)
  | _ => stuck
  end.

Definition d64_ops : fileops_s := {|
  op_open_read path dent buf := d64_open_read path dent buf;; mret dent;
  op_open_write path dent type buf append := d64_open_write path dent type buf append;; mret dent;
  op_open_rel _ _ _ _ _ := d64_open_rel;
  op_file_delete path dent := r ← d64_delete path dent; mret (r, dent);
  op_disk_label := d64_getdisklabel;
  op_dir_label := d64_getdirlabel;
  op_disk_id := d64_getid;
  op_disk_free := d64_freeblocks;
  op_read_sector := d64_read_sector;
  op_write_sector := d64_write_sector;
  op_format := d64_format;
  op_opendir := d64_opendir_h;
  op_readdir := d64_readdir_h;
  op_mkdir path dirname := d64_mkdir path dirname;; mret dirname;
  op_chdir path dent := r ← d64_chdir path dent; mret (r, dent);
  op_rename path dent newname := d64_rename path dent newname;; mret (dent, newname)
|}.

Definition eefs_ops : fileops_s := {|
  op_open_read := eefs_open_read;
  op_open_write := eefs_open_write;
  op_open_rel path dent buf recordlen mode := eefs_open_rel path dent buf recordlen (if mode then 1 else 0);
  op_file_delete := eefs_delete;
  op_disk_label := eefs_disk_label;
  op_dir_label := eefs_dir_label;
  op_disk_id := eefs_disk_id;
  op_disk_free := eefs_disk_free;
  op_read_sector := eefs_read_sector;
  op_write_sector := eefs_write_sector;
  op_format := eefs_format;
  op_opendir := eefs_opendir;
  op_readdir := eefs_readdir;
  op_mkdir path dirname := image_mkdir path dirname;; mret dirname;
  op_chdir path dent := r ← eefs_chdir path dent; mret (r, path, dent);
  op_rename := eefs_rename
|}.

(** The table that [fop] of a partition points to. *)
Definition ops_table (f : fileops_t) : fileops_s :=
  match f with fatops => fat_ops | d64ops => d64_ops | eefsops => eefs_ops end.
Definition part_ops (part : Z) : comp world fileops_s := p ← part_get part; mret (ops_table (fop p)).

(** ** The wrappers *)
Definition open_read (path : path_t) (dent : cbmdirent_t) (buf : Z) : comp world cbmdirent_t :=
  o ← part_ops (path_part path); op_open_read o path dent buf.
Definition open_write (path : path_t) (dent : cbmdirent_t) (type buf : Z) (append : bool) : comp world cbmdirent_t :=
  o ← part_ops (path_part path); op_open_write o path dent type buf append.
Definition open_rel (path : path_t) (dent : cbmdirent_t) (buf len : Z) (mode : bool) : comp world unit :=
  o ← part_ops (path_part path); op_open_rel o path dent buf len mode.
Definition file_delete (path : path_t) (dent : cbmdirent_t) : comp world (Z * cbmdirent_t) :=
  o ← part_ops (path_part path); op_file_delete o path dent.
Definition disk_label (part : Z) : comp world (Z * list Z) := o ← part_ops part; op_disk_label o part.
Definition dir_label (path : path_t) : comp world (Z * list Z) := o ← part_ops (path_part path); op_dir_label o path.
Definition disk_id (path : path_t) : comp world (Z * list Z) := o ← part_ops (path_part path); op_disk_id o path.
Definition disk_free (part : Z) : comp world Z := o ← part_ops part; op_disk_free o part.
Definition read_sector (buf part track sector : Z) : comp world unit :=
  o ← part_ops part; op_read_sector o buf part track sector.
Definition write_sector (buf part track sector : Z) : comp world unit :=
  o ← part_ops part; op_write_sector o buf part track sector.
Definition format (part : Z) (name : list Z) (id : option (list Z)) : comp world unit :=
  o ← part_ops part; op_format o part name id.
Definition opendir (path : path_t) : comp world (Z * dh_t) := o ← part_ops (path_part path); op_opendir o path.
Definition readdir (dh : dh_t) : comp world (Z * dh_t * option cbmdirent_t) :=
  o ← part_ops (dh_part dh); op_readdir o dh.
Definition mkdir (path : path_t) (dirname : list Z) : comp world (list Z) :=
  o ← part_ops (path_part path); op_mkdir o path dirname.
Definition chdir (path : path_t) (dent : cbmdirent_t) : comp world (Z * path_t * cbmdirent_t) :=
  o ← part_ops (path_part path); op_chdir o path dent.
Definition rename (path : path_t) (old : cbmdirent_t) (new : list Z) : comp world (cbmdirent_t * list Z) :=
  o ← part_ops (path_part path); op_rename o path old new.
End wrapops.
