(* ===== verification/Parser.v ===== *)
(** * parser.c: matching entries and parsing paths

    The functions of parser.c that work on the directories of a partition;
    the string functions are in Utils.v.  A string argument is an index into
    the command buffer.  The biggest directory is one of a DNP image with
    65280 sectors of 8 entries, which is the fuel of a search. *)

From stdpp Require Import gmap.
From S2P Require Import Prelude EepromFs ErrorMsg Utils Buffers FatFs Dirent World D64Geom D64 EefsOps FatNames FatFile FatOps WrapOps.

Definition match_fuel : nat := Z.to_nat 524289.

(** [ustrchr]: [None] for NULL. *)
Definition strchr (p ch : Z) : comp (list Z) (option Z) :=
  m ← gets id;
  loop (S (length m)) (fun p =>
    c ← peek p;
    if c =? ch then mret (inr (Some p)) else if c =? 0 then mret (inr None) else mret (inl (p + 1))) p.

(** [memcmp] of the fields of two dates in their order. *)
Definition date_fields (d : date_t) : list Z := [year d; month d; day d; hour d; minute d; second d].
Fixpoint fields_before (l k : list Z) : bool :=
  match l, k with
  | x :: l, y :: k => if x <? y then true else if y <? x then false else fields_before l k
  | _, _ => false
  end.
Definition date_before (a b : date_t) : bool := fields_before (date_fields a) (date_fields b).

Section parser.
Context `{FatFs} `{EepromGeom} `{Assertions} `{ErrorConfig} `{BufferConfig} `{SystemConfig}.

Definition on_cmd {A} (m : comp (list Z) A) : comp world A := on_dos (zoom command_buffer set_command_buffer m).

Definition dir_of (part : Z) : comp world path_t :=
  p ← part_get part; mret (Path part (dir_fat p) (dir_track p) (dir_sector p)).

(** The name that goes to the display: the label in an array of 17 bytes
    without the spaces at its end. *)
Definition trim_dirname (label : list Z) : comp world unit :=
  l ← of_option (store_block (fill (CBM_NAME_LENGTH + 1) 0) 0 label);
  l ← of_option (store l CBM_NAME_LENGTH 0);
  on_array (loop 17 (fun ptr =>
    c ← peek ptr; if c =? 32 then poke ptr 0;; mret (inl (ptr - 1)) else mret (inr tt)) (CBM_NAME_LENGTH - 1)) l;;
  mret tt.

Definition update_current_dir (path : path_t) : comp world unit :=
  part_upd (path_part path) (fun p =>
    set_dir_fat (path_fat path) (set_dir_track (path_track path) (set_dir_sector (path_sector path) p)));;
  on_dos (modify (set_dir_changed 1));;
  s ← gets w_dos;
  when (display_found s && (path_part path =? current_part s)) (
    r ← dir_label path;
    trim_dirname r.2).

(** Does [next_match] skip the entry? *)
Definition skip_type (type : Z) (dent : cbmdirent_t) : bool :=
  (negb (Z.land type TYPE_MASK =? 0) && negb (Z.land (de_typeflags dent) TYPE_MASK =? Z.land type TYPE_MASK))
  || (negb (Z.land (de_typeflags dent) FLAG_HIDDEN =? 0) && (Z.land type FLAG_HIDDEN =? 0)).

Definition skip_name (matchstr : option Z) (dent : cbmdirent_t) : comp world bool :=
  match matchstr with
  | None => mret false
  | Some m =>
      s ← settings;
      r ← on_cmd (match_name (negb (Z.land (globalflags s) POSTMATCH =? 0)) m (de_name dent)
                    (bool_decide (de_opstype dent = OPSTYPE_FAT)));
      mret (r =? 0)
  end.

Definition skip_date (start stop : option date_t) (dent : cbmdirent_t) : bool :=
  match start with Some d => date_before (de_date dent) d | None => false end
  || match stop with Some d => date_before d (de_date dent) | None => false end.

Definition skip_entry (matchstr : option Z) (start stop : option date_t) (type : Z) (dent : cbmdirent_t) : comp world bool :=
  if skip_type type dent then mret true
  else n ← skip_name matchstr dent; mret (n || skip_date start stop dent).

(** The entry starts with the contents of [dent], which an error leaves. *)
Definition next_match (dh : dh_t) (matchstr : option Z) (start stop : option date_t) (type : Z) (dent : cbmdirent_t)
    : comp world (Z * dh_t * cbmdirent_t) :=
  loop match_fuel (fun '(dh, dent) =>
    r ← readdir dh;
    let '(res, dh, e) := r in
    let dent := default dent e in
    if res =? 0 then
      skip ← skip_entry matchstr start stop type dent;
      mret (if (skip : bool) then inl (dh, dent) else inr (res, dh, dent))
    else mret (inr (res, dh, dent))) (dh, dent).

Definition first_match (path : path_t) (matchstr : option Z) (type : Z) (dent : cbmdirent_t) : comp world (Z * cbmdirent_t) :=
  r ← opendir path;
  on_dos (modify (set_matchdh (Some r.2)));;
  if negb (r.1 =? 0) then mret (1, dent)
  else
    r ← next_match r.2 matchstr None None type dent;
    let '(res, dh, dent) := r in
    on_dos (modify (set_matchdh (Some dh)));;
    when (res <? 0) (wset_error ERROR_FILE_NOT_FOUND);;
    mret (res, dent).

(** The directory component at [p] of a path: follow it to its end, finish
    at the image file that it names ([Some]), or fail ([None]); the path has
    then been followed up to the component. *)
Definition parse_component (p : Z) (path : path_t) (dent : cbmdirent_t) (for_cd : bool)
    : comp world (Z * path_t * cbmdirent_t + path_t * option Z) :=
  stop ← on_cmd (skip_while (fun c => negb (c =? 0) && negb (c =? 47) && negb (c =? 58)) p);
  saved ← on_cmd (peek stop);
  on_cmd (poke stop 0);;
  r ← first_match path (Some p) FLAG_HIDDEN dent;
  let '(res, dent) := r in
  if negb (res =? 0) then
    e ← get_current_error;
    when (e =? ERROR_FILE_NOT_FOUND) (wset_error ERROR_FILE_NOT_FOUND_39);;
    mret (inr (path, None))
  else if negb (Z.land (de_typeflags dent) TYPE_MASK =? TYPE_DIR) then
    image ← (if for_cd && (saved =? 0) then
               s ← gets w_dos;
               t ← of_option (check_imageext (drop (Z.to_nat p) (command_buffer s)));
               mret (bool_decide (t <> IMG_UNKNOWN))
             else mret false);
    if (image : bool) then mret (inr (path, Some p))
    else wset_error ERROR_FILE_NOT_FOUND_39;; mret (inr (path, None))
  else
    r ← chdir path dent;
    on_cmd (poke stop saved);;
    mret (inl (stop, r.1.2, r.2)).

(** The loop of [parse_path] from the first slash on. *)
Definition parse_components (p : Z) (path : path_t) (for_cd : bool) : comp world (path_t * option Z) :=
  s ← gets w_dos;
  loop (S (length (command_buffer s))) (fun '(p, path, dent) =>
    c ← on_cmd (peek p);
    if c =? 0 then mret (inr (path, Some p))
    else if c =? 47 then
      d ← on_cmd (peek (p + 1));
      if d =? 47 then
        name ← of_option (store (de_name dent) 0 0);
        r ← chdir path (set_de_name name dent);
        mret (inl (p + 1, r.1.2, r.2))
      else if d =? 0 then mret (inr (path, Some (p + 1)))
      else if d =? 58 then mret (inr (path, Some (p + 2)))
      else parse_component (p + 1) path dent for_cd
    else if c =? 58 then mret (inr (path, Some (p + 1)))
    else mret (inl (p + 1, path, dent))) (p, path, zero_dent).

(** What has been stored at [path] and at [name]; without a name the function
    has failed. *)
Definition parse_path_vars (p : Z) (for_cd : bool) : comp world (option path_t * option Z) :=
  colon ← on_cmd (strchr p 58);
  s ← gets w_dos;
  if for_cd || bool_decide (colon <> None) then
    r ← on_cmd (parse_partition (if CONFIG_HAVE_EEPROMFS then eefs_partition s else 255) (current_part s) p);
    let '(part, p) := r in
    n ← gets max_part;
    if n <=? part then wset_error ERROR_DRIVE_NOT_READY;; mret (None, None)
    else
      path ← dir_of part;
      c ← on_cmd (peek p);
      if negb (c =? 47) then
        colon ← on_cmd (strchr p 58);
        mret (Some path, Some (match colon with Some q => q + 1 | None => p end))
      else r ← parse_components p path for_cd; mret (Some r.1, r.2)
  else
    path ← dir_of (current_part s);
    mret (Some path, Some p).

(** The path and the index of the name; [None] after an error. *)
Definition parse_path (p : Z) (for_cd : bool) : comp world (option (path_t * Z)) :=
  r ← parse_path_vars p for_cd;
  mret (match r with (Some path, Some name) => Some (path, name) | _ => None end).
End parser.
