(* ===== verification/DirLines.v ===== *)
(** * fileops.c: the lines of a directory listing

    The constants of directory listings, the line of an entry, and the private
    data of a buffer that lists a directory. *)

From S2P Require Import Prelude EepromFs ErrorMsg Utils Buffers FatFs Dirent D64Geom FatNames.

Definition HEADER_OFFSET_DRIVE : Z := 4.
Definition HEADER_OFFSET_NAME : Z := 8.
Definition HEADER_OFFSET_ID : Z := 26.
Definition BAM_OFFSET_NAME : Z := 144.
Definition BAM_OFFSET_ID : Z := 162.
Definition BAM_A0_AREA_SIZE : Z := 27.

Definition dirheader : list Z :=
  [1; 4; 1; 1; 0; 0; 18; 34; 78; 79; 68; 73; 83; 75; 69; 77; 85; 32; 32; 32; 32; 32; 32; 32; 34; 32; 68; 83; 32; 50; 65; 0].
Definition syspart_line : list Z :=
  [1; 1; 0; 0; 32; 32; 32; 34; 83; 89; 83; 84; 69; 77; 34; 32; 32; 32; 32; 32; 32; 32; 32; 32; 32; 83; 89; 83; 32; 32; 0].
Definition dirfooter : list Z :=
  [1; 1; 0; 0; 66; 76; 79; 67; 75; 83; 32; 70; 82; 69; 69; 46; 32; 32; 32; 32; 32; 32; 32; 32; 32; 32; 32; 32; 32; 0; 0; 0].

Definition IMAGE_DIR_NORMAL : Z := 0.
Definition IMAGE_DIR_DIR : Z := 1.
Definition IMAGE_DIR_BOTH : Z := 2.

(** ** A directory line *)

(** [memcpy] into the array. *)
Definition put_block (p : Z) (bs : list Z) : comp (list Z) unit :=
  m ← gets id; m' ← of_option (store_block m p bs); modify (fun _ => m').

(** [data = appendnumber(data, value)] *)
Definition put_number (p value : Z) : comp (list Z) Z :=
  let digits := appendnumber [] value in put_block p digits;; mret (p + zlen digits).

(** [while ( *data) *data++ = 1] *)
Definition fill_ones (p : Z) : comp (list Z) unit :=
  m ← gets id;
  loop (S (length m)) (fun p =>
    c ← peek p; if negb (c =? 0) then poke p 1;; mret (inl (p + 1)) else mret (inr tt)) p.

Definition line_end (format : Z) : Z :=
  if format =? DIR_FMT_CMD_LONG then 63 else if format =? DIR_FMT_CMD_SHORT then 41 else 31.

(** The first quote or end of the name, at most 16. *)
Fixpoint name_end (i : nat) (name : list Z) : Z :=
  match i, name with
  | S i', c :: name' => if (c =? 34) || (c =? 0) then 0 else 1 + name_end i' name'
  | _, _ => 0
  end.

(** The name at [data] with its closing quote. *)
Definition put_name (data : Z) (name : list Z) : comp (list Z) unit :=
  bs ← of_option (load_block name 0 CBM_NAME_LENGTH);
  put_block data bs;;
  let k := name_end 16 name in
  poke (data + k) 34;;
  for_range k (Z.to_nat (CBM_NAME_LENGTH + 1 - k)) (fun i (_ : unit) =>
    c ← peek (data + i); poke (data + i) (if c =? 0 then 32 else Z.land c 127)) tt.

Definition hour12 (d : date_t) : Z := if 12 <? hour d then hour d - 12 else hour d.
Definition am_pm (d : date_t) : Z := if 11 <? hour d then 80 else 65.

(** The date and time of the long and the short format. *)
Definition put_long_date (p : Z) (d : date_t) : comp (list Z) unit :=
  p ← put_number p (month d);
  poke p 47;;
  p ← put_number (p + 1) (day d);
  poke p 47;;
  p ← put_number (p + 1) (year d `mod` 100);
  p ← put_number (p + 3) (hour12 d);
  poke p 46;;
  p ← put_number (p + 1) (minute d);
  poke (p + 1) (am_pm d);;
  poke (p + 2) 77;;
  fill_ones (p + 3).

Definition put_short_date (iec : bool) (p : Z) (d : date_t) : comp (list Z) unit :=
  p ← put_number p (month d);
  poke p 47;;
  p ← put_number (p + 1) (day d);
  p ← put_number (p + 1) (hour12 d);
  poke p 46;;
  p ← put_number (p + 1) (minute d);
  let p := if iec then p + 1 else p in
  poke p (am_pm d);;
  fill_ones (p + 1).

(** The line of an entry in the data of a buffer. *)
Definition entry_line (iec : bool) (dent : cbmdirent_t) (format : Z) : comp (list Z) unit :=
  let i := line_end format in
  let size := de_blocksize dent in
  put_block 0 (fill i 32);;
  poke i 0;;
  poke 0 (if negb (de_remainder dent =? 255) then u8 (de_remainder dent + 2) else 1);;
  poke 1 1;;
  poke 2 (Z.land size 255);;
  poke 3 (Z.shiftr size 8);;
  let data := 4 + (if size <? 1000 then 1 else 0) + (if size <? 100 then 1 else 0) + (if size <? 10 then 1 else 0) in
  poke data 34;;
  put_name (data + 1) (de_name dent);;
  let data := data + 1 + CBM_NAME_LENGTH + 1 in
  when (negb (Z.land (de_typeflags dent) FLAG_SPLAT =? 0)) (poke data 42);;
  letters ← of_option (load_block filetypes (TYPE_LENGTH * Z.land (de_typeflags dent) EXT_TYPE_MASK)
              (if negb (Z.land format DIR_FMT_CMD_SHORT =? 0) then 1 else TYPE_LENGTH));
  put_block (data + 1) letters;;
  when (negb (Z.land (de_typeflags dent) FLAG_RO =? 0)) (poke (data + 4) 60);;
  if negb (Z.land format DIR_FMT_CMD_LONG =? 0) then put_long_date (data + 7) (de_date dent)
  else if format =? DIR_FMT_CMD_SHORT then put_short_date iec (data + 3) (de_date dent)
  else when (negb (Z.land (de_typeflags dent) FLAG_HIDDEN =? 0)) (poke (data + 5) 72).

(** [pvt.dir] and [pvt.pdir] *)
Definition pvt_dir_zero : pvt_dir :=
  {| pd_filetype := 0; pd_format := 0; pd_matchstr := None; pd_match_start := false; pd_match_end := false; pd_counter := 0 |}.
Definition pvt_dir_of (p : pvt_t) : option pvt_dir :=
  match p with PvtDir d => Some d | PvtZero => Some pvt_dir_zero | _ => None end.
Definition pvt_pdir_of (p : pvt_t) : option (Z * option Z) :=
  match p with PvtPdir part m => Some (part, m) | PvtZero => Some (0, None) | _ => None end.

Definition pd_counted (n : Z) (d : pvt_dir) : pvt_dir :=
  {| pd_filetype := pd_filetype d; pd_format := pd_format d; pd_matchstr := pd_matchstr d;
     pd_match_start := pd_match_start d; pd_match_end := pd_match_end d; pd_counter := n |}.
Definition pd_formatted (x : Z) (d : pvt_dir) : pvt_dir :=
  {| pd_filetype := pd_filetype d; pd_format := x; pd_matchstr := pd_matchstr d;
     pd_match_start := pd_match_start d; pd_match_end := pd_match_end d; pd_counter := pd_counter d |}.
Definition pd_matching (m : option Z) (d : pvt_dir) : pvt_dir :=
  {| pd_filetype := pd_filetype d; pd_format := pd_format d; pd_matchstr := m;
     pd_match_start := pd_match_start d; pd_match_end := pd_match_end d; pd_counter := pd_counter d |}.
Definition pd_typed (t : Z) (d : pvt_dir) : pvt_dir :=
  {| pd_filetype := t; pd_format := pd_format d; pd_matchstr := pd_matchstr d;
     pd_match_start := pd_match_start d; pd_match_end := pd_match_end d; pd_counter := pd_counter d |}.
Definition pd_from (d : pvt_dir) : pvt_dir :=
  {| pd_filetype := pd_filetype d; pd_format := pd_format d; pd_matchstr := pd_matchstr d;
     pd_match_start := true; pd_match_end := pd_match_end d; pd_counter := pd_counter d |}.
Definition pd_until (d : pvt_dir) : pvt_dir :=
  {| pd_filetype := pd_filetype d; pd_format := pd_format d; pd_matchstr := pd_matchstr d;
     pd_match_start := pd_match_start d; pd_match_end := true; pd_counter := pd_counter d |}.

(** The filter of the listing for a letter behind the equals sign. *)
Definition filter_of_char (c : Z) : Z :=
  if c =? 83 then TYPE_SEQ else if c =? 80 then TYPE_PRG else if c =? 85 then TYPE_USR else if c =? 82 then TYPE_REL
  else if c =? 67 then TYPE_CBM else if (c =? 66) || (c =? 68) then TYPE_DIR else if c =? 72 then FLAG_HIDDEN else 0.
