(* ===== verification/FileOps.v ===== *)
(** * fileops.c: opening files and listing directories

    The refill functions of directory and direct-access buffers, and opening
    files, directories and buffers from the command buffer.  The calls of the
    display and of the debug output are left out.  [stack_dent] is what the
    stack holds where a function declares a directory entry that it does not
    initialise. *)

From stdpp Require Import gmap.
From S2P Require Import Prelude EepromFs ErrorMsg Utils Buffers FatFs Dirent World D64Geom D64 D64Files D64Ops.
From S2P Require Import EefsOps FatNames FatFile Callbacks FatOps WrapOps Parser DirLines.

Inductive open_modes := OPEN_READ | OPEN_WRITE | OPEN_APPEND | OPEN_MODIFY.

#[export] Instance open_modes_eq_dec : EqDecision open_modes.
Proof. solve_decision. Defined.

Section fileops.
Context `{FatFs} `{EepromGeom} `{Assertions} `{ErrorConfig} `{BufferConfig} `{SystemConfig}.
Context (stack_dent : cbmdirent_t).

(** ** The private data of directory buffers *)
Definition buf_dir (buf : Z) : comp world pvt_dir := b ← on_bufs (buf_get buf); of_option (pvt_dir_of (pvt b)).
Definition buf_dir_upd (buf : Z) (f : pvt_dir -> pvt_dir) : comp world unit :=
  d ← buf_dir buf; on_bufs (buf_upd buf (set_pvt (PvtDir (f d)))).
Definition buf_dh_get (buf : Z) : comp world dh_t := w ← gets id; of_option (buf_dh w !! buf).
Definition buf_dh_set (buf : Z) (dh : dh_t) : comp world unit := modify (fun w => set_buf_dh (<[buf := dh]> (buf_dh w)) w).
Definition buf_dent_get (buf : Z) : comp world cbmdirent_t := w ← gets id; of_option (buf_dent w !! buf).
Definition buf_dent_set (buf : Z) (dent : cbmdirent_t) : comp world unit :=
  modify (fun w => set_buf_dent (<[buf := dent]> (buf_dent w)) w).

Definition createentry (dent : cbmdirent_t) (buf format : Z) : comp world unit :=
  on_bufs (buf_upd buf (set_lastused (line_end format)));;
  data ← on_bufs (data_read buf 0 256);
  r ← on_array (entry_line CONFIG_HAVE_IEC dent format) data;
  on_bufs (data_put buf 0 r.2).

(** ** Callbacks *)

Definition dir_footer (buf : Z) : comp world Z :=
  on_bufs (data_put buf 0 dirfooter);;
  dh ← buf_dh_get buf;
  blocks ← disk_free (dh_part dh);
  on_bufs (data_put buf 2 [Z.land blocks 255; Z.shiftr blocks 8]);;
  on_bufs (buf_upd buf (fun b => set_sendeoi true (set_lastused 31 (set_position 0 b))));;
  mret 0.

(** The entry for a partition with the label [name]. *)
Definition partition_dent (p : partition_t) (part : Z) (name : list Z) : cbmdirent_t :=
  set_de_typeflags (match fop p with d64ops => u8 (Z.land (imagetype p) D64_TYPE_MASK + TYPE_NAT - 1) | _ => TYPE_NAT end)
    (set_de_blocksize (part + 1) (set_de_name name stack_dent)).

Definition pdir_refill (buf : Z) : comp world Z :=
  on_bufs (buf_upd buf (set_position 0));;
  loop 257 (fun _ : unit =>
    b ← on_bufs (buf_get buf);
    m ← of_option (pvt_pdir_of (pvt b));
    let '(part, matchstr) := m in
    n ← gets max_part;
    if part <? n then
      r ← disk_label part;
      if negb (r.1 =? 0) then on_bufs (free_buffer (Some buf));; mret (inr 1)
      else
        name ← of_option (store_block (de_name stack_dent) 0 r.2);
        p ← part_get part;
        let dent := partition_dent p part name in
        on_bufs (buf_upd buf (set_pvt (PvtPdir (u8 (part + 1)) matchstr)));;
        skip ← (match matchstr with
                | Some m =>
                    s ← settings;
                    r ← on_cmd (match_name (negb (Z.land (globalflags s) POSTMATCH =? 0)) m (de_name dent) false);
                    mret (r =? 0)
                | None => mret false
                end);
        if (skip : bool) then mret (inl tt) else createentry dent buf DIR_FMT_CBM;; mret (inr 0)
    else
      on_bufs (buf_upd buf (fun b => set_sendeoi true (set_lastused 1 b)));;
      on_bufs (data_put buf 0 [0; 0]);;
      mret (inr 0)) tt.

(** Is the entry an image file that is to be shown as a directory? *)
Definition shown_as_dir (mode : Z) (dent : cbmdirent_t) : comp world bool :=
  if negb (mode =? IMAGE_DIR_NORMAL) && bool_decide (de_opstype dent = OPSTYPE_FAT) then
    real ← of_option (dent_realname dent);
    t ← of_option (check_imageext real);
    mret (bool_decide (t <> IMG_UNKNOWN))
  else mret false.

Definition as_dir (dent : cbmdirent_t) : cbmdirent_t :=
  set_de_typeflags (Z.lor (Z.land (de_typeflags dent) 240) TYPE_DIR) dent.

(** The date limits that the buffer points to. *)
Definition dir_limits (d : pvt_dir) (s : dos) : option date_t * option date_t :=
  (if pd_match_start d then Some (date_match_start s) else None, if pd_match_end d then Some (date_match_end s) else None).

Definition dir_refill (buf : Z) : comp world Z :=
  on_bufs (buf_upd buf (set_position 0));;
  d ← buf_dir buf;
  if negb (pd_counter d =? 0) then
    buf_dir_upd buf (pd_counted 0);;
    dent ← buf_dent_get buf;
    createentry (set_de_typeflags TYPE_DIR dent) buf (pd_format d);;
    mret 0
  else
    dh ← buf_dh_get buf;
    s ← gets w_dos;
    let lim := dir_limits d s in
    r ← next_match dh (pd_matchstr d) lim.1 lim.2 (pd_filetype d) stack_dent;
    let '(res, dh, dent) := r in
    buf_dh_set buf dh;;
    if res =? 0 then
      e ← settings;
      image ← shown_as_dir (image_as_dir e) dent;
      dent ← (if (image : bool) then
                if image_as_dir e =? IMAGE_DIR_DIR then mret (as_dir dent)
                else buf_dir_upd buf (pd_counted 1);; buf_dent_set buf dent;; mret dent
              else mret dent);
      createentry dent buf (pd_format d);;
      mret 0
    else if res =? -1 then dir_footer buf
    else on_bufs (free_buffer (Some buf));; mret 1.

Definition rawdir_dummy_refill (buf : Z) : comp world Z :=
  d ← buf_dir buf;
  let n := u8 (pd_counter d + 1) in
  buf_dir_upd buf (pd_counted n);;
  on_bufs (buf_upd buf (set_position (if negb (pd_counter d =? 0) then 0 else 2)));;
  when (n =? 8) (on_bufs (buf_upd buf (set_sendeoi true)));;
  mret 0.

(** The 32 bytes of a raw directory entry. *)
Definition put_raw_entry (buf : Z) (dent : cbmdirent_t) : comp world unit :=
  on_bufs (data_put buf DIR_OFS_TRACK [1]);;
  on_bufs (data_put buf DIR_OFS_SIZE_LOW [Z.land (de_blocksize dent) 255]);;
  on_bufs (data_put buf DIR_OFS_SIZE_HI [Z.shiftr (de_blocksize dent) 8]);;
  on_bufs (data_put buf DIR_OFS_FILE_TYPE [Z.lxor (de_typeflags dent) FLAG_SPLAT]);;
  on_bufs (data_put buf DIR_OFS_FILE_NAME (fill CBM_NAME_LENGTH 160));;
  str ← of_option (strz (de_name dent));
  on_bufs (data_put buf DIR_OFS_FILE_NAME str).

(** The end of [rawdir_refill]: every eighth entry skips its link bytes. *)
Definition put_raw_dent (buf : Z) (dent : cbmdirent_t) : comp world Z :=
  put_raw_entry buf dent;;
  d ← buf_dir buf;
  let n := u8 (pd_counter d + 1) in
  on_bufs (buf_upd buf (fun b => set_lastused 31
    (set_position (if negb (Z.land (pd_counter d) 127 =? 0) then 0 else 2) b)));;
  buf_dir_upd buf (pd_counted (if Z.land n 127 =? 8 then Z.land n 128 else n));;
  mret 0.

Definition rawdir_refill (buf : Z) : comp world Z :=
  on_bufs (data_put buf 0 (fill 32 0));;
  d ← buf_dir buf;
  if Z.land (pd_counter d) 128 =? 0 then
    dh ← buf_dh_get buf;
    r ← readdir dh;
    let '(res, dh, e) := r in
    buf_dh_set buf dh;;
    let dent := default stack_dent e in
    if res =? -1 then rawdir_dummy_refill buf
    else if negb (res =? 0) then on_bufs (free_buffer (Some buf));; mret 1
    else
      e ← settings;
      image ← shown_as_dir (image_as_dir e) dent;
      dent ← (if (image : bool) then
                if image_as_dir e =? IMAGE_DIR_DIR then mret (as_dir dent)
                else
                  buf_dir_upd buf (pd_counted (Z.lor (pd_counter d) 128));; buf_dent_set buf dent;; mret dent
              else mret dent);
      put_raw_dent buf dent
  else
    buf_dir_upd buf (pd_counted (Z.land (pd_counter d) 127));;
    dent ← buf_dent_get buf;
    put_raw_dent buf (set_de_typeflags TYPE_DIR dent).

Definition directbuffer_refill (buf : Z) : comp world Z :=
  b ← on_bufs (buf_get buf);
  let sec := secondary b in
  on_bufs (buf_upd buf (set_secondary (u8 (BUFFER_SEC_CHAIN - sec))));;
  next ← of_option (pvt_next (pvt b));
  first ← of_option (pvt_first (pvt b));
  target ← of_option (match next with Some i => Some i | None => first end);
  on_bufs (buf_upd target (fun b => set_mustflush false (set_position 0 (set_secondary sec b))));;
  mret 0.

(** [buf->refill(buf)] *)
Definition run_refill (buf : Z) : comp world Z :=
  b ← on_bufs (buf_get buf);
  match refill b with
  | Some cb_callback_dummy => on_bufs run_callback_dummy
  | Some cb_set_ok_message => wset_error ERROR_OK;; mret 0
  | Some cb_d64_read => d64_read buf
  | Some cb_d64_write => d64_write buf
  | Some cb_eefs_refill_read => eefs_refill_read buf
  | Some cb_eefs_refill_write => eefs_refill_write buf
  | Some cb_fat_file_read => fat_file_read buf
  | Some cb_fat_file_write => fat_file_write buf
  | Some cb_fat_file_sync => fat_file_sync buf
  | Some cb_dir_refill => dir_refill buf
  | Some cb_pdir_refill => pdir_refill buf
  | Some cb_rawdir_refill => rawdir_refill buf
  | Some cb_directbuffer_refill => directbuffer_refill buf
  | _ => stuck
  end.

(** ** Opening a directory *)

(** The partition directory ("$=P"). *)
Definition load_partition_directory (buf : Z) : comp world unit :=
  on_bufs (data_put buf 0 dirheader);;
  on_bufs (data_put buf 32 syspart_line);;
  n ← gets max_part;
  on_bufs (data_put buf HEADER_OFFSET_DRIVE [n]);;
  on_bufs (buf_upd buf (fun b => set_refill (Some cb_pdir_refill) (set_lastused 63 b)));;
  s ← gets w_dos;
  if 3 <? command_length s then
    r ← parse_path 3 false;
    match r with
    | None => mret tt
    | Some (_, name) => on_bufs (buf_upd buf (set_pvt (PvtPdir 0 (Some name))));; on_bufs (stick_buffer buf)
    end
  else on_bufs (stick_buffer buf).

(** A date limit behind [p]: the new position, [None] to stop. *)
Definition parse_limit (buf p : Z) (from : bool) : comp world (option Z) :=
  s ← gets w_dos;
  r ← on_cmd (parse_date (if from then date_match_start s else date_match_end s) p);
  let '(res, date, p) := r in
  on_dos (modify (if from then set_date_match_start date else set_date_match_end date));;
  if negb (res =? 0) then mret None
  else
    when (negb (month date =? 0) && negb (day date =? 0)) (buf_dir_upd buf (if from then pd_from else pd_until));;
    mret (Some p).

(** The loop over the options behind the equals sign. *)
Definition parse_dir_options (buf p : Z) : comp world unit :=
  s ← gets w_dos;
  loop (S (length (command_buffer s))) (fun p =>
    c ← on_cmd (peek p);
    if c =? 0 then mret (inr tt)
    else
      r ← (if c =? 62 then parse_limit buf (p + 1) true
           else if c =? 60 then parse_limit buf (p + 1) false
           else if c =? 76 then
             d ← buf_dir buf;
             when (negb (pd_format d =? DIR_FMT_CBM)) (buf_dir_upd buf (pd_formatted DIR_FMT_CMD_LONG));;
             mret (Some (p + 1))
           else if c =? 78 then buf_dir_upd buf (pd_formatted DIR_FMT_CBM);; mret (Some (p + 1))
           else mret None);
      match r with
      | None => mret (inr tt)
      | Some p =>
          c ← on_cmd (peek p);
          mret (if c =? 0 then inl p else if negb (c =? 44) then inr tt else inl (p + 1))
      end) p.

(** The part of [load_directory] behind an equals sign at [p]. *)
Definition parse_dir_filter (buf p : Z) : comp world unit :=
  on_cmd (poke p 0);;
  c ← on_cmd (peek (p + 1));
  when (negb (filter_of_char c =? 0)) (buf_dir_upd buf (pd_typed (filter_of_char c)));;
  d ← buf_dir buf;
  if negb (pd_filetype d =? 0) then
    sep ← on_cmd (peek (p + 2));
    when (sep =? 44) (parse_dir_options buf (p + 3))
  else parse_dir_options buf (p + 1).

(** The partition that a two-character command names; [None] for a pattern. *)
Definition drive_of_char (s : dos) (c : Z) : option Z :=
  if c =? 48 then Some (current_part s)
  else if isdigit c then Some (u8 (c - 48 - 1))
  else if CONFIG_HAVE_EEPROMFS && (c =? 33) && negb (eefs_partition s =? 255) then Some (eefs_partition s)
  else None.

(** [opendir] into the buffer: the path, or [None] after an error. *)
Definition open_dir_path (buf : Z) (path : path_t) : comp world (option path_t) :=
  r ← opendir path;
  buf_dh_set buf r.2;;
  mret (if negb (r.1 =? 0) then None else Some path).

(** Find the directory of the listing and open it, with the pattern at [pos]. *)
Definition open_listing (buf pos : Z) : comp world (option path_t) :=
  s ← gets w_dos;
  c ← on_cmd (peek pos);
  if c =? 0 then path ← dir_of (current_part s); open_dir_path buf path
  else if 2 <? command_length s then
    r ← parse_path pos false;
    match r with
    | None => mret None
    | Some (path, name) =>
        r ← open_dir_path buf path;
        match r with
        | None => mret None
        | Some path =>
            buf_dir_upd buf (pd_matching (Some name));;
            eq ← on_cmd (strchr name 61);
            (match eq with Some p => parse_dir_filter buf p | None => mret tt end);;
            mret (Some path)
        end
    end
  else
    c ← on_cmd (peek 1);
    part ← (match drive_of_char s c with
            | Some part => mret part
            | None => buf_dir_upd buf (pd_matching (Some 1));; mret (current_part s)
            end);
    n ← gets max_part;
    if n <=? part then wset_error ERROR_DRIVE_NOT_READY;; mret None
    else path ← dir_of part; open_dir_path buf path.

(** [while ( *--name == ' ') *name = 0xa0] down from [off]. *)
Definition pad_label (buf off : Z) : comp world unit :=
  loop 257 (fun i =>
    c ← on_bufs (data_get buf (i - 1));
    if c =? 32 then on_bufs (data_put buf (i - 1) [160]);; mret (inl (i - 1)) else mret (inr tt)) off.

(** The fake BAM sector of a raw directory. *)
Definition load_raw_directory (buf : Z) (path : path_t) : comp world unit :=
  on_bufs (data_put buf 0 (fill 256 0));;
  on_bufs (data_put buf (BAM_OFFSET_NAME - 2) (fill BAM_A0_AREA_SIZE 160));;
  r ← dir_label path;
  on_bufs (data_put buf (BAM_OFFSET_NAME - 2) r.2);;
  if negb (r.1 =? 0) then mret tt
  else
    r ← disk_id path;
    on_bufs (data_put buf (BAM_OFFSET_ID - 2) r.2);;
    if negb (r.1 =? 0) then mret tt
    else
      pad_label buf (BAM_OFFSET_NAME - 2 + CBM_NAME_LENGTH);;
      c ← on_bufs (data_get buf (BAM_OFFSET_ID + 2 - 2));
      when (c =? 32) (on_bufs (data_put buf (BAM_OFFSET_ID + 2 - 2) [160]));;
      on_bufs (data_put buf 0 [65]);;
      on_bufs (buf_upd buf (fun b => set_lastused 253 (set_refill (Some cb_rawdir_refill) b)));;
      on_bufs (stick_buffer buf).

(** The header line of a listing. *)
Definition load_dir_header (buf : Z) (path : path_t) : comp world unit :=
  on_bufs (data_put buf 0 dirheader);;
  on_bufs (data_put buf HEADER_OFFSET_DRIVE [u8 (path_part path + 1)]);;
  r ← dir_label path;
  on_bufs (data_put buf HEADER_OFFSET_NAME r.2);;
  if negb (r.1 =? 0) then mret tt
  else
    r ← disk_id path;
    on_bufs (data_put buf HEADER_OFFSET_ID r.2);;
    if negb (r.1 =? 0) then mret tt
    else
      on_bufs (buf_upd buf (set_refill (Some cb_dir_refill)));;
      on_bufs (stick_buffer buf).

(** Behind the label [scandone].  The raw directory of an image overwrites the
    members of [pvt] that a chain of sectors uses. *)
Definition load_dir_start (buf secondary : Z) (path : path_t) : comp world unit :=
  if negb (secondary =? 0) then
    p ← part_get (path_part path);
    match fop p with
    | d64ops => on_bufs (buf_upd buf (set_pvt PvtZero));; d64_raw_directory path buf
    | _ => load_raw_directory buf path
    end
  else load_dir_header buf path.

Definition load_directory (secondary : Z) : comp world unit :=
  buf ← on_bufs alloc_buffer;
  match buf with
  | None => mret tt
  | Some buf =>
      on_bufs (buf_upd buf (fun b => set_lastused 31 (set_buf_read true (set_secondary secondary b))));;
      s ← gets w_dos;
      c1 ← on_cmd (peek 1);
      c2 ← on_cmd (peek 2);
      let special := (2 <? command_length s) && (secondary =? 0) && (c1 =? 61) in
      if special && (c2 =? 80) then load_partition_directory buf
      else
        when (special && (c2 =? 84)) (buf_dir_upd buf (pd_formatted DIR_FMT_CMD_SHORT));;
        r ← open_listing buf (if special && (c2 =? 84) then 3 else 1);
        match r with None => mret tt | Some path => load_dir_start buf secondary path end
  end.

(** ** Direct-access buffers *)

(** A buffer of a chain that was just allocated. *)
Definition chain_buffer (secondary part : Z) (b : buffer_t) : buffer_t :=
  let b := set_cleanup (Some cb_largebuffer_cleanup) (set_refill (Some cb_directbuffer_refill)
             (set_secondary (u8 (BUFFER_SEC_CHAIN - secondary)) b)) in
  set_pvt (match pvt b with PvtBuffer _ size first next => PvtBuffer part size first next | p => p end)
    (set_lastused 255 (set_buf_read true b)).

(** The loop over the chain: the last buffer. *)
Definition set_up_chain (secondary buf : Z) : comp world Z :=
  s ← gets w_dos;
  loop (S (Z.to_nat CONFIG_BUFFER_COUNT)) (fun buf =>
    on_bufs (buf_upd buf (chain_buffer secondary (current_part s)));;
    on_bufs (mark_write_buffer buf);;
    b ← on_bufs (buf_get buf);
    next ← of_option (pvt_next (pvt b));
    mret (match next with Some i => inl i | None => inr buf end)) buf.

Definition open_large_buffer (secondary count : Z) : comp world unit :=
  if count =? 0 then mret tt
  else
    buf ← on_bufs (alloc_linked_buffers count);
    match buf with
    | None => mret tt
    | Some buf =>
        prev ← set_up_chain secondary buf;
        on_bufs (buf_upd prev (set_sendeoi true));;
        b ← on_bufs (buf_get prev);
        first ← of_option (pvt_first (pvt b));
        first ← of_option first;
        on_bufs (buf_upd first (set_secondary secondary))
    end.

Definition open_buffer (secondary : Z) : comp world unit :=
  s ← gets w_dos;
  c ← on_cmd (peek 1);
  if (command_length s =? 3) && (c =? 35) then
    d ← on_cmd (peek 2);
    open_large_buffer secondary (u8 (d - 48))
  else
    buf ← on_bufs alloc_buffer;
    match buf with
    | None => mret tt
    | Some buf =>
        on_bufs (buf_upd buf (fun b =>
          set_pvt (PvtBuffer (current_part s) 1 (Some buf) None) (set_refill (Some cb_directbuffer_refill)
            (set_sendeoi true (set_lastused 255 (set_position 1 (set_buf_read true (set_secondary secondary b))))))));;
        on_bufs (mark_write_buffer buf)
    end.

(** ** Opening a file *)

Definition file_open_previous : comp world unit :=
  s ← gets w_dos;
  buf ← on_bufs alloc_buffer;
  match buf with
  | None => mret tt
  | Some buf =>
      on_bufs (buf_upd buf (set_secondary 0));;
      open_read (previous_file_path s) (previous_file_dirent s) buf;;
      mret tt
  end.

(** The type and mode suffixes: the mode, the file type and the record
    length. *)
Definition parse_suffixes (filetype : Z) : comp world (open_modes * Z * Z) :=
  let fix scan (i : nat) (ptr : Z) (mode : open_modes) (filetype : Z) : comp world (open_modes * Z * Z) :=
    match i with
    | O => mret (mode, filetype, 0)
    | S i =>
        c ← on_cmd (peek ptr);
        comma ← (if c =? 0 then mret None else on_cmd (strchr ptr 44));
        match comma with
        | None => mret (mode, filetype, 0)
        | Some p =>
            on_cmd (poke p 0);;
            c ← on_cmd (peek (p + 1));
            if c =? 76 then
              next ← on_cmd (strchr (p + 1) 44);
              match next with
              | Some q => len ← on_cmd (peek (q + 1)); mret (OPEN_WRITE, TYPE_REL, len)
              | None => mret (OPEN_WRITE, TYPE_REL, 0)
              end
            else
              scan i (p + 1)
                (if c =? 82 then OPEN_READ else if c =? 87 then OPEN_WRITE else if c =? 65 then OPEN_APPEND
                 else if c =? 77 then OPEN_MODIFY else mode)
                (if c =? 68 then TYPE_DEL else if c =? 83 then TYPE_SEQ else if c =? 80 then TYPE_PRG
                 else if c =? 85 then TYPE_USR else filetype)
        end
    end in
  scan 2%nat 0 OPEN_READ filetype.

(** The search for the file: the last result and entry; [None] after an
    error. *)
Definition find_file (name secondary : Z) (mode : open_modes) : comp world (option (Z * cbmdirent_t)) :=
  loop match_fuel (fun dent =>
    s ← gets w_dos;
    dh ← of_option (matchdh s);
    r ← next_match dh (Some name) None None FLAG_HIDDEN dent;
    let '(res, dh, dent) := r in
    on_dos (modify (set_matchdh (Some dh)));;
    let type := Z.land (de_typeflags dent) TYPE_MASK in
    mret (if 0 <? res then inr None
          else if negb (type =? TYPE_DEL) && negb (type =? TYPE_DIR) then inr (Some (res, dent))
          else if bool_decide (mode = OPEN_WRITE) || (secondary =? 1) then inr (Some (res, dent))
          else if res =? 0 then inl dent else inr (Some (res, dent)))) stack_dent.

(** The mode and type that the secondary address forces. *)
Definition force_mode (secondary : Z) (mode : open_modes) (filetype : Z) : open_modes * Z :=
  if secondary =? 0 then (OPEN_READ, if filetype =? TYPE_DEL then TYPE_PRG else filetype)
  else if secondary =? 1 then (OPEN_WRITE, if filetype =? TYPE_DEL then TYPE_PRG else filetype)
  else (mode, if filetype =? TYPE_DEL then TYPE_SEQ else filetype).

(** The entry to open: for writing, the old file is deleted or a new entry
    made up; [None] when the file cannot be opened. *)
Definition entry_to_open (path : path_t) (name : Z) (mode : open_modes) (res : Z) (dent : cbmdirent_t)
    : comp world (option cbmdirent_t) :=
  if bool_decide (mode = OPEN_WRITE) then
    if res =? 0 then
      c ← on_cmd (peek 0);
      if c =? 64 then
        free ← gets (fun w => check_free_buffers (w_bufs w));
        if negb free then wset_error ERROR_NO_CHANNEL;; mret None
        else
          r ← file_delete path dent;
          mret (if r.1 =? 255 then None else Some dent)
      else wset_error ERROR_FILE_EXISTS;; mret None
    else
      s ← gets w_dos;
      str ← of_option (strz (drop (Z.to_nat name) (command_buffer s)));
      let n := take (Z.to_nat CBM_NAME_LENGTH) str in
      wset_error ERROR_OK;;
      mret (Some (set_de_name (n ++ fill (CBM_NAME_LENGTH + 1 - zlen n) 0) zero_dent))
  else if negb (res =? 0) then wset_error ERROR_FILE_NOT_FOUND;; mret None
  else mret (Some dent).

(** Open the entry in a new buffer. *)
Definition open_entry (path : path_t) (dent : cbmdirent_t) (secondary : Z) (mode : open_modes) (filetype recordlen : Z)
    : comp world unit :=
  buf ← on_bufs alloc_buffer;
  match buf with
  | None => mret tt
  | Some buf =>
      on_bufs (buf_upd buf (set_secondary secondary));;
      if filetype =? TYPE_REL then open_rel path dent buf recordlen (bool_decide (mode = OPEN_MODIFY))
      else
        on_dos (modify (fun s => set_previous_file_dirent dent (set_previous_file_path path s)));;
        match mode with
        | OPEN_MODIFY | OPEN_READ => open_read path dent buf;; mret tt
        | OPEN_WRITE | OPEN_APPEND => open_write path dent filetype buf (bool_decide (mode = OPEN_APPEND));; mret tt
        end
  end.

(** From the path on. *)
Definition open_named_file (secondary : Z) (mode : open_modes) (filetype recordlen : Z) : comp world unit :=
  r ← parse_path 0 false;
  match r with
  | None => mret tt
  | Some (path, name) =>
      r ← opendir path;
      on_dos (modify (set_matchdh (Some r.2)));;
      if negb (r.1 =? 0) then mret tt
      else
        r ← find_file name secondary mode;
        match r with
        | None => mret tt
        | Some (res, dent) =>
            let found_rel := (res =? 0) && (Z.land (de_typeflags dent) TYPE_MASK =? TYPE_REL) in
            if negb (res =? 0) && (filetype =? TYPE_REL) && (recordlen =? 0) then wset_error ERROR_SYNTAX_UNABLE
            else if found_rel && negb (filetype =? TYPE_REL) && negb (filetype =? TYPE_DEL) then
              wset_error ERROR_FILE_TYPE_MISMATCH
            else
              let '(mode, filetype) := if found_rel then (OPEN_MODIFY, TYPE_REL) else (mode, filetype) in
              let '(mode, filetype) := force_mode secondary mode filetype in
              d ← entry_to_open path name mode res dent;
              match d with
              | None => mret tt
              | Some dent => open_entry path dent secondary mode filetype recordlen
              end
        end
  end.

(** The command without the line ends behind it. *)
Definition strip_command : comp world unit :=
  s ← gets w_dos;
  n ← (if 1 <? command_length s then
         a ← on_cmd (peek (command_length s - 1));
         if a =? 13 then mret (command_length s - 1)
         else
           b ← on_cmd (peek (command_length s - 2));
           mret (if b =? 13 then command_length s - 2 else command_length s)
       else mret (command_length s));
  on_dos (modify (set_command_length n));;
  on_cmd (put_block n (fill (CONFIG_COMMAND_BUFFER_SIZE + 2 - n) 0)).

Definition file_open (secondary : Z) : comp world unit :=
  old ← on_bufs (find_buffer secondary);
  (match old with Some buf => close_buffer buf | None => mret tt end);;
  wset_error ERROR_OK;;
  strip_command;;
  c ← on_cmd (peek 0);
  if c =? 35 then open_buffer secondary
  else
    s ← gets w_dos;
    let star := (secondary =? 0) && (command_length s =? 1) && (c =? 42) in
    if star && negb (nthZ (de_name (previous_file_dirent s)) 0 =? 0) then file_open_previous
    else
      r ← parse_suffixes (if star then TYPE_PRG else TYPE_DEL);
      let '(mode, filetype, recordlen) := r in
      c ← on_cmd (peek 0);
      if c =? 36 then load_directory secondary
      else open_named_file secondary mode filetype recordlen.
End fileops.
