(* ===== verification/DemoWorld.v ===== *)
(** * A world to apply the theorems to

    The state after start-up with one partition, over any FAT driver: buffer 0
    is a system buffer, buffer 1 is open. *)

From stdpp Require Import gmap.
From S2P Require Import Prelude EepromFs ErrorMsg Buffers BuffersTheorems FatFs Dirent World D64Geom D64 D64Demo.

Section demo_world.
Context `{FatFs}.

Definition start_part (f : FIL) (op : fileops_t) : partition_t := {|
  imagehandle := f;
  imagetype := 0;
  d64data := d41param;
  curr_dir := 0;
  dir_fat := 0;
  dir_track := 0;
  dir_sector := 0;
  fop := op
|}.

Definition start_dos : dos := {|
  command_buffer := fill 256 0;
  command_length := 0;
  current_part := 0;
  dir_changed := 0;
  eefs_partition := 255;
  matchdh := None;
  previous_file_dirent := zero_dent;
  previous_file_path := Path 0 0 0 0;
  date_match_start := zero_date;
  date_match_end := zero_date;
  display_found := false
|}.

Definition start_world (d : DRV) (f : FIL) (op : fileops_t) (e : eefs) : world := {|
  w_bufs := demo_bufs [BAllocSystem; BAlloc];
  w_eefs := e;
  partition := [start_part f op];
  max_part := 1;
  d64 := {| ec_part := 255; ec_track := 255; ec_errors := fill 40 0; bam_buffer := None; bam_buffer2 := None;
            bam_refcount := 0 |};
  clock := {| tm_sec := 0; tm_min := 0; tm_hour := 0; tm_mday := 31; tm_mon := 7; tm_year := 82; tm_wday := 2 |};
  drv := d;
  w_dos := start_dos;
  p00 := {| p00cache := []; cache_part := 255 |};
  buf_fil := ∅;
  buf_dh := ∅;
  buf_dent := ∅
|}.
End demo_world.

(** A driver that knows the names of the files in a directory. *)
Definition names_fatfs : FatFs := {|
  DRV := list (list Z);
  FIL := Ram.file;
  DIR := unit;
  fsize f := zlen (Ram.data f);
  flag f := Ram.flags f;
  f_tell f := Ram.pos f;
  fs_type _ _ := FS_FAT12;
  fatbase _ _ := 0;
  max_clust _ _ := 2;
  csize _ _ := 1;
  f_mount _ _ c d := (FR_NOT_READY, c, d);
  f_open _ _ name mode d :=
    if decide (name ∈ d) then (if Z.land mode FA_CREATE_NEW =? 0 then FR_OK else FR_EXIST, Ram.no_file, d)
    else if Z.land mode FA_CREATE_NEW =? 0 then (FR_NO_FILE, Ram.no_file, d) else (FR_OK, Ram.no_file, name :: d);
  f_lseek f ofs d := (Ram.lseek f ofs, d);
  f_read f n d := (Ram.read f n, d);
  f_write f bs d := (Ram.write f bs, d);
  f_sync f d := (FR_OK, f, d);
  f_close f d := (FR_OK, f, d);
  l_opendir _ _ d := (FR_OK, tt, d);
  l_opencluster _ _ d := (FR_NO_FILE, Ram.no_file, d);
  f_readdir _ d := (FR_OK, Ram.no_info, tt, d);
  f_stat _ _ _ d := (FR_NO_FILE, Ram.no_info, d);
  f_unlink _ _ _ d := (FR_NO_FILE, d);
  f_mkdir _ _ _ d := (FR_DENIED, d);
  f_rename _ _ _ _ d := (FR_NO_FILE, d);
  l_getfree _ _ d := (FR_OK, 0, d)
|}.
