(* ===== verification/FatNamesTheorems.v ===== *)
(** * fatops.c: theorems on names

    The conversions between PETSCII and ASCII, and the name that a new file
    gets on the medium.  Strings are decompositions of memory, as in
    UtilsTheorems.v. *)

From S2P Require Import Prelude ErrorMsg Utils UtilsTheorems FatFs Dirent D64 D64Files FatNames.

Lemma pet2asc_eq pre s post :
  Forall (fun c => c <> 0) s ->
  pet2asc (zlen pre) (pre ++ s ++ 0 :: post) = Done tt (pre ++ (pet2asc_char <$> s) ++ 0 :: post).
Proof.
  intros Hs. unfold pet2asc. unfold mbind at 1, comp_bind at 1, gets, id.
  apply (loop_map pet2asc_char); [done|..].
  - intros q x k Hx. unfold mbind, comp_bind. rewrite peek_at.
    destruct (Z.eqb_spec x 0); [done|]. cbv beta iota delta [negb]. by rewrite poke_at.
  - unfold mbind, comp_bind. by rewrite <- (zlen_map pet2asc_char s), <- zlen_app, peek_at.
  - rewrite !length_app. simpl. lia.
Qed.

(** ** Characters *)

(** The characters of ASCII that names are made of, and the PETSCII characters
    without the lower duplicate of the letters. *)
Definition asc_char (c : Z) : bool := (0 <? c) && (c <? 128).
Definition pet_char (c : Z) : bool := (0 <? c) && negb ((97 <=? c) && (c <=? 122)) && negb (c =? 126) && (c <? 256).

Lemma byte_implies (f g : Z -> bool) c :
  0 <= c < 256 -> forallb (fun c => implb (f c) (g c)) byte_range = true -> f c = true -> g c = true.
Proof. intros Hc Hall Hf. apply (byte_check _ c) in Hall; [|done]. cbv beta in Hall. by rewrite Hf in Hall. Qed.

Lemma asc_pet_asc c : asc_char c = true -> pet2asc_char (asc2pet_char c) = c.
Proof.
  intros Hc. apply Z.eqb_eq. apply (byte_implies asc_char (fun c => pet2asc_char (asc2pet_char c) =? c)); [|by vm_compute|done].
  unfold asc_char in Hc. lia.
Qed.

Lemma pet_asc_pet c : pet_char c = true -> asc2pet_char (pet2asc_char c) = c.
Proof.
  intros Hc. apply Z.eqb_eq. apply (byte_implies pet_char (fun c => asc2pet_char (pet2asc_char c) =? c)); [|by vm_compute|done].
  unfold pet_char in Hc. lia.
Qed.

Lemma converted_nonzero c : 0 < c < 256 -> 0 < pet2asc_char c < 256 /\ 0 < asc2pet_char c < 256.
Proof.
  intros Hc.
  assert ((0 <? pet2asc_char c) && (pet2asc_char c <? 256) && (0 <? asc2pet_char c) && (asc2pet_char c <? 256) = true); [|lia].
  apply (byte_implies (fun c => 0 <? c) (fun c => (0 <? pet2asc_char c) && (pet2asc_char c <? 256) && (0 <? asc2pet_char c) && (asc2pet_char c <? 256))); [lia|by vm_compute|lia].
Qed.

Lemma map_id_on (f : Z -> Z) l : Forall (fun c => f c = c) l -> f <$> l = l.
Proof. induction 1 as [|c l Hc _ IH]; [done|]. csimpl. by rewrite Hc, IH. Qed.

Lemma converted_string (f : Z -> Z) l : (forall c, 0 < c < 256 -> 0 < f c < 256) ->
  Forall (fun c => 0 < c < 256) l -> Forall (fun c => 0 < c < 256) (f <$> l).
Proof. intros Hf Hl. apply Forall_fmap. eapply Forall_impl; [exact Hl|]. intros c Hc. by apply Hf. Qed.

Lemma nonzero_string l : Forall (fun c => 0 < c < 256) l -> Forall (fun c => c <> 0) l.
Proof. intros Hl. eapply Forall_impl; [exact Hl|]. intros c Hc. cbv beta in *. lia. Qed.

(** ** The name of a new file *)
Section build.

Lemma strz_at s post : Forall (fun c => c <> 0) s -> strz (s ++ 0 :: post) = Some s.
Proof. induction 1 as [|c s Hc _ IH]; [done|]. simpl. destruct (Z.eqb_spec c 0); [done|]. by rewrite IH. Qed.

Lemma strrchr_range c s d : strrchr c s = Some d -> 0 <= d < zlen s.
Proof.
  unfold strrchr. assert (forall l, Forall (fun i => 0 <= i < zlen s) l ->
    forall r, (forall d, r = Some d -> 0 <= d < zlen s) ->
    fold_left (fun r i => if nthZ s i =? c then Some i else r) l r = Some d -> 0 <= d < zlen s) as Haux.
  { induction 1 as [|i l Hi _ IH]; intros r Hr; simpl; [apply Hr|]. apply IH.
    intros d'. destruct (_ =? c); [|apply Hr]. by intros [= <-]. }
  apply Haux; [|done]. apply Forall_forall. intros i Hi%elem_of_seqZ. lia.
Qed.

(** Is this the extension of a disk image? *)
Definition image_letters (f s t : Z) : bool :=
  let f := toupper f in
  let s := toupper s in
  let t := toupper t in
  (f =? 68) && (((s =? 54) && (t =? 52)) || ((s =? 78) && (t =? 80))
    || (((s =? 52) || (s =? 55) || (s =? 56)) && (t =? 49)) || ((s =? 56) && ((t =? 48) || (t =? 50)))).

(** Does the last dot of a name start the extension of a disk image? *)
Definition image_name (s : list Z) : bool :=
  match strrchr 46 s with
  | None => false
  | Some dot => image_letters (nthZ s (dot + 1)) (nthZ s (dot + 2)) (nthZ s (dot + 3))
  end.

Lemma image_letters_end f s t : f = 0 \/ s = 0 \/ t = 0 -> image_letters f s t = false.
Proof.
  unfold image_letters. intros [-> | [-> | ->]]; change (toupper 0) with 0; cbv beta iota zeta; rewrite ?andb_false_r; [done| |done].
  by destruct (toupper f =? 68).
Qed.

Lemma check_imageext_eq s post : Forall (fun c => c <> 0) s -> 2 <= zlen post ->
  check_imageext (s ++ 0 :: post) = Some (if image_name s then IMG_IS_DISK else IMG_UNKNOWN).
Proof.
  intros Hs Hpost. unfold check_imageext, image_name. rewrite strz_at by done. simpl.
  destruct (strrchr 46 s) as [dot|] eqn:E; [|done]. apply strrchr_range in E.
  rewrite !load_some by (zlen_simpl; lia). simpl.
  fold (image_letters (nthZ (s ++ 0 :: post) (dot + 1)) (nthZ (s ++ 0 :: post) (dot + 2)) (nthZ (s ++ 0 :: post) (dot + 3))).
  do 2 f_equal. destruct (decide (dot + 3 < zlen s)) as [|Hend].
  - rewrite !nthZ_app by lia. case_bools; lia || done.
  - assert (exists k, 1 <= k <= 3 /\ dot + k = zlen s) as (k & Hk & Hdot) by (exists (zlen s - dot); lia).
    assert (nthZ s (dot + k) = 0) as Hs0 by (unfold nthZ, zlen in *; apply nth_overflow; lia).
    assert (nthZ (s ++ 0 :: post) (dot + k) = 0) as Hm0.
    { rewrite nthZ_app by lia. rewrite Hdot, Z.ltb_irrefl, Z.sub_diag. done. }
    assert (k = 1 \/ k = 2 \/ k = 3) as Hk3 by lia.
    rewrite !image_letters_end; [done|..]; destruct Hk3 as [-> | [-> | ->]]; tauto.
Qed.

(** The characters that stay in a file name: printable ASCII without the
    quote and [*,/:=?@\ ]. *)
Definition kept_char (c : Z) : Prop := 32 <= c <= 126 /\ c ∉ [34; 42; 44; 47; 58; 61; 63; 64; 92].
#[global] Instance kept_char_dec c : Decision (kept_char c).
Proof. unfold kept_char. apply _. Defined.

(** A blank or a dot, which no end of a name on a FAT medium should have. *)
Definition bad_end (c : Z) : Prop := c = 32 \/ c = 46.

(** The names that are kept as they are: the last character does not matter. *)
Definition accepted (s : list Z) : Prop := Forall kept_char s /\ head s <> Some 32 /\ head s <> Some 46.
#[global] Instance accepted_dec s : Decision (accepted s).
Proof. unfold accepted. apply _. Defined.

Lemma is_valid_fat_char_spec c : is_valid_fat_char c = bool_decide (kept_char c).
Proof.
  unfold is_valid_fat_char, kept_char, invalid_fat_chars. destruct ((c <? 32) || (126 <? c)) eqn:E; symmetry.
  { apply bool_decide_eq_false_2. lia. }
  cbn [existsb]. destruct (negb _) eqn:Eb; [apply bool_decide_eq_true_2|apply bool_decide_eq_false_2];
    rewrite !not_elem_of_cons; pose proof (not_elem_of_nil c); [split; [lia|]; split_and!; lia || done|].
  intros (_ & ? & ? & ? & ? & ? & ? & ? & ? & ? & _). lia.
Qed.

Lemma valid_chars_spec s : forallb is_valid_fat_char s = bool_decide (Forall kept_char s).
Proof.
  induction s as [|c s IH]; [done|]. cbn [forallb]. rewrite IH, is_valid_fat_char_spec.
  destruct (decide (kept_char c)), (decide (Forall kept_char s)); repeat case_bool_decide; rewrite ?Forall_cons in *; tauto || done.
Qed.

Lemma accepted_spec c s : bool_decide (accepted (c :: s)) = negb ((c =? 32) || (c =? 46)) && forallb is_valid_fat_char (c :: s).
Proof.
  rewrite valid_chars_spec. unfold accepted. cbn [head].
  destruct (Z.eqb_spec c 32) as [->|]; [apply bool_decide_eq_false_2; tauto|].
  destruct (Z.eqb_spec c 46) as [->|]; [apply bool_decide_eq_false_2; tauto|]. apply bool_decide_ext.
  split; [tauto|]. intros ?. split_and!; [done|congruence..].
Qed.

Lemma valid_loop s : forall pre post fuel, Forall (fun c => c <> 0) s -> (length s < fuel)%nat ->
  loop fuel (fun ptr =>
    c ← peek ptr;
    if negb (c =? 0) then if is_valid_fat_char c then mret (inl (ptr + 1)) else mret (inr false)
    else mret (inr true)) (zlen pre) (pre ++ s ++ 0 :: post)
  = Done (forallb is_valid_fat_char s) (pre ++ s ++ 0 :: post).
Proof.
  induction s as [|c s IH]; intros pre post fuel Hs Hfuel; destruct fuel as [|fuel]; simpl in *; try lia;
    unfold mbind, comp_bind; rewrite peek_at; [done|].
  apply Forall_cons in Hs as [Hc Hs]. destruct (Z.eqb_spec c 0); [done|]. cbv beta iota delta [negb].
  destruct (is_valid_fat_char c); [|done]. cbv beta iota delta [mret comp_ret andb].
  specialize (IH (pre ++ [c]) post fuel Hs). rewrite zlen_snoc, !snoc_cons in IH. apply IH. lia.
Qed.

Lemma is_valid_fat_name_eq pre s post : Forall (fun c => c <> 0) s ->
  is_valid_fat_name (zlen pre) (pre ++ s ++ 0 :: post) = Done (bool_decide (accepted s)) (pre ++ s ++ 0 :: post).
Proof.
  intros Hs. unfold is_valid_fat_name.
  unfold mbind at 1, comp_bind at 1, gets, id.
  destruct s as [|c s].
  { unfold mbind at 1, comp_bind at 1. simpl app. rewrite peek_at. cbv beta iota delta [orb Z.eqb].
    unfold mbind at 1, comp_bind at 1. change (pre ++ 0 :: post) with (pre ++ [] ++ 0 :: post).
    rewrite valid_loop; [|done|simpl; lia]. unfold mbind, comp_bind. simpl app. cbn beta iota delta [forallb negb]. by rewrite peek_at. }
  unfold mbind at 1, comp_bind at 1. simpl app. rewrite peek_at, accepted_spec.
  destruct ((c =? 32) || (c =? 46)) eqn:Efirst; [done|]. change (c :: s ++ 0 :: post) with ((c :: s) ++ 0 :: post).
  unfold mbind at 1, comp_bind at 1. rewrite valid_loop; [|done|repeat (rewrite ?length_app; simpl); lia].
  destruct (forallb is_valid_fat_char (c :: s)); cbv beta iota delta [negb andb]; [|done].
  unfold mbind, comp_bind. simpl app. by rewrite peek_at, Efirst.
Qed.

Lemma wp_eq {S A} (m : comp S A) s a s' : wp m (fun a1 s1 => a1 = a /\ s1 = s') s -> m s = Done a s'.
Proof. rewrite wp_done. by intros (? & ? & ? & -> & ->). Qed.

Lemma poke_in q l c y post k : k = zlen l ->
  poke (zlen q + k) y (q ++ l ++ c :: post) = Done tt (q ++ l ++ y :: post).
Proof. intros ->. rewrite <- zlen_app, !app_assoc. apply poke_at. Qed.

Lemma wp_poke q l c post p x (Q : unit -> list Z -> Prop) :
  p = zlen q + zlen l -> Q tt (q ++ l ++ x :: post) -> wp (poke p x) Q (q ++ l ++ c :: post).
Proof. intros -> HQ. eapply wp_intro; [by apply poke_in|done]. Qed.

Definition x00_char (c : Z) : Z := if decide (kept_char c) then c else 95.

Lemma x00_char_eq c : x00_char c = if is_valid_fat_char c then c else 95.
Proof. rewrite is_valid_fat_char_spec. unfold x00_char. by destruct (decide (kept_char c)); case_bool_decide. Qed.

Lemma x00_loop s : forall pre post fuel, Forall (fun c => c <> 0) s -> (length s < fuel)%nat ->
  loop fuel (fun p =>
    c ← peek p;
    if negb (c =? 0) then when (negb (is_valid_fat_char c)) (poke p 95);; mret (inl (p + 1)) else mret (inr p))
    (zlen pre) (pre ++ s ++ 0 :: post)
  = Done (zlen pre + zlen s) (pre ++ (x00_char <$> s) ++ 0 :: post).
Proof.
  intros pre post fuel Hs Hfuel. apply (loop_map x00_char); [done|..|done].
  - intros q x k Hx. unfold mbind, comp_bind. rewrite peek_at. destruct (Z.eqb_spec x 0); [done|].
    cbv beta iota delta [negb]. rewrite x00_char_eq. destruct (is_valid_fat_char x); [done|]. simpl. by rewrite poke_at.
  - unfold mbind, comp_bind. by rewrite <- (zlen_map x00_char s), <- zlen_app, peek_at.
Qed.

(** The letters of a file type. *)
Definition type_letter (type i : Z) : Z := nthZ filetypes (3 * type + i).

Lemma filetype_char_eq i s : 0 <= i < 36 -> filetype_char i s = Done (nthZ filetypes i) s.
Proof. intros Hi. unfold filetype_char. by rewrite load_some by done. Qed.

Lemma build_x00_name_eq pre s a b c d post type :
  Forall (fun c => c <> 0) s -> 0 <= type < 12 ->
  build_x00_name (zlen pre) type (pre ++ s ++ 0 :: a :: b :: c :: d :: post) =
    Done (zlen pre + zlen s + 3) (pre ++ (x00_char <$> s) ++ 46 :: type_letter type 0 :: 48 :: 48 :: 0 :: post).
Proof.
  intros Hs Htype. apply wp_eq. unfold build_x00_name. rewrite wp_bind, wp_gets. unfold id.
  rewrite wp_bind. eapply wp_intro; [apply x00_loop; [done|repeat (rewrite ?length_app; simpl); lia]|cbv beta].
  rewrite <- (zlen_map x00_char s), <- zlen_app, !(app_assoc pre). set (q := pre ++ (x00_char <$> s)).
  set (t := type_letter type 0).
  assert (filetype_char (3 * type) = mret t) as Ht.
  { unfold filetype_char, t, type_letter. by rewrite load_some, Z.add_0_r by (change (zlen filetypes) with 36; lia). }
  rewrite wp_bind. apply (wp_poke q []); [zlen_simpl; lia|]. rewrite wp_bind, Ht, wp_ret.
  rewrite wp_bind. apply (wp_poke q [46]); [done|]. rewrite wp_bind. apply (wp_poke q [46; t]); [done|].
  rewrite wp_bind. apply (wp_poke q [46; t; 48]); [done|]. rewrite wp_bind. by apply (wp_poke q [46; t; 48; 48]).
Qed.

Lemma build_type_name_eq pre s a b c d post type :
  Forall (fun c => c <> 0) s -> 0 <= Z.land type EXT_TYPE_MASK < 12 ->
  let t := Z.land type EXT_TYPE_MASK in
  build_type_name (zlen pre) type (pre ++ s ++ 0 :: a :: b :: c :: d :: post) =
    Done tt (pre ++ s ++ 46 :: type_letter t 0 :: type_letter t 1 :: type_letter t 2 :: 0 :: post).
Proof.
  intros Hs Htype t. apply wp_eq. unfold build_type_name.
  assert (forall x y, y = TYPE_LENGTH * Z.land type EXT_TYPE_MASK + x -> 0 <= x < 3 ->
    forall s', filetype_char y s' = Done (type_letter t x) s') as Hf.
  { intros x y -> Hx s'. unfold type_letter. apply filetype_char_eq. unfold TYPE_LENGTH. lia. }
  rewrite wp_bind. eapply wp_intro; [apply skip_while_eq; [|done]|cbv beta].
  { eapply Forall_impl; [exact Hs|]. intros y Hy. by destruct (Z.eqb_spec y 0). }
  rewrite <- !zlen_app, !(app_assoc pre). set (q := pre ++ s).
  rewrite wp_bind. eapply wp_intro; [apply poke_at|cbv beta].
  change (Z.to_nat TYPE_LENGTH) with 3%nat. cbn [for_range]. rewrite !wp_bind.
  eapply wp_intro; [by apply (Hf 0)|cbv beta]. apply (wp_poke q [46]); [zlen_simpl; lia|]. rewrite !wp_bind.
  eapply wp_intro; [by apply (Hf 1)|cbv beta]. apply (wp_poke q [46; type_letter t 0]); [zlen_simpl; lia|]. rewrite !wp_bind.
  eapply wp_intro; [by apply (Hf 2)|cbv beta]. apply (wp_poke q [46; type_letter t 0; type_letter t 1]); [zlen_simpl; lia|].
  rewrite wp_ret. by apply (wp_poke q [46; type_letter t 0; type_letter t 1; type_letter t 2]).
Qed.

(** The name of a new file, and whether it is an X00 file. *)
Definition fat_name (mode type : Z) (name : list Z) : list Z * bool :=
  let asc := pet2asc_char <$> name in
  let t := Z.land type EXT_TYPE_MASK in
  if (type =? TYPE_PRG) && image_name asc then (asc, false)
  else if ((mode =? 1) && negb (type =? TYPE_PRG)) || (mode =? 2) || negb (bool_decide (accepted asc)) then
    ((x00_char <$> asc) ++ [46; type_letter type 0; 48; 48], true)
  else if ((mode =? 3) && negb (type =? TYPE_PRG)) || (mode =? 4) then
    (asc ++ [46; type_letter t 0; type_letter t 1; type_letter t 2], false)
  else (asc, false).

Lemma drop_pre (pre k : list Z) : drop (Z.to_nat (zlen pre)) (pre ++ k) = k.
Proof. unfold zlen. by rewrite Nat2Z.id, drop_app_length. Qed.

Lemma build_name_spec mode pre s a b c d post type :
  Forall (fun c => 0 < c < 256) s -> 0 <= type < 12 ->
  wp (build_name mode (zlen pre) type) (fun r s' =>
    let (name, x00) := fat_name mode type s in
    r = (if x00 then Some (zlen pre + zlen s + 3) else None) /\
    exists rest, s' = pre ++ name ++ 0 :: rest /\ zlen name + zlen rest = zlen s + 4 + zlen post)
    (pre ++ s ++ 0 :: a :: b :: c :: d :: post).
Proof.
  intros Hs Htype. set (asc := pet2asc_char <$> s). set (k := a :: b :: c :: d :: post).
  assert (Forall (fun c => c <> 0) asc) as Hasc.
  { apply nonzero_string, converted_string; [intros; by apply converted_nonzero|done]. }
  assert (Z.land type EXT_TYPE_MASK = type) as Hland.
  { unfold EXT_TYPE_MASK. change 15 with (Z.ones 4). rewrite Z.land_ones by lia. apply Z.mod_small. lia. }
  assert (zlen asc = zlen s) as Hlen by apply zlen_map.
  assert (zlen k = 4 + zlen post) as Hk by (unfold k; zlen_simpl; lia). pose proof (zlen_nonneg post).
  unfold build_name, fat_name. fold asc. rewrite wp_bind. eapply wp_intro; [by apply pet2asc_eq, nonzero_string|cbv beta]. fold asc.
  rewrite wp_bind, wp_gets. unfold id. rewrite drop_pre, wp_bind.
  assert (check_imageext (asc ++ 0 :: k) = Some (if image_name asc then IMG_IS_DISK else IMG_UNKNOWN)) as -> by (apply check_imageext_eq; [done|lia]).
  assert (forall b (Q : bool -> list Z -> Prop) m, (forall i, i = b && image_name asc -> Q i m) ->
    wp (if b then t ← of_option (Some (if image_name asc then IMG_IS_DISK else IMG_UNKNOWN)); mret (bool_decide (t = IMG_IS_DISK))
        else mret false) Q m) as Himg.
  { intros [] Q m HQ; [|by apply HQ]. rewrite wp_bind, wp_of_option_Some, wp_ret. apply HQ. by destruct (image_name asc). }
  apply Himg. intros i ->. clear Himg. destruct ((type =? TYPE_PRG) && image_name asc).
  { rewrite wp_ret. split; [done|]. exists k. split; [done|lia]. }
  rewrite wp_bind. set (x := ((mode =? 1) && negb (type =? TYPE_PRG)) || (mode =? 2)).
  assert (forall (Q : bool -> list Z -> Prop), Q (negb (x || negb (bool_decide (accepted asc)))) (pre ++ asc ++ 0 :: k) ->
    wp (if x then mret false else is_valid_fat_name (zlen pre)) Q (pre ++ asc ++ 0 :: k)) as Hvalid.
  { intros Q HQ. destruct x; [by rewrite wp_ret|]. eapply wp_intro; [by apply is_valid_fat_name_eq|].
    simpl in HQ. by rewrite negb_involutive in HQ. }
  apply Hvalid. clear Hvalid. rewrite negb_involutive. destruct (x || negb (bool_decide (accepted asc))).
  { rewrite wp_bind. eapply wp_intro; [by apply build_x00_name_eq|]. rewrite wp_ret, Hlen. split; [done|].
    exists post. rewrite <- app_assoc. split; [done|]. zlen_simpl. rewrite zlen_map. lia. }
  destruct (((mode =? 3) && negb (type =? TYPE_PRG)) || (mode =? 4)).
  - rewrite wp_bind. eapply wp_intro; [apply build_type_name_eq; [done|lia]|]. rewrite Hland, wp_ret. split; [done|].
    exists post. rewrite <- app_assoc. split; [done|]. zlen_simpl. lia.
  - rewrite wp_ret. split; [done|]. exists k. split; [done|lia].
Qed.

Lemma type_letter_kept t i : 0 <= t <= TYPE_REL -> 0 <= i < 3 -> kept_char (type_letter t i) /\ ~ bad_end (type_letter t i).
Proof.
  unfold TYPE_REL, type_letter. intros Ht Hi.
  assert (forallb (fun j => is_valid_fat_char (nthZ filetypes j) && (65 <=? nthZ filetypes j)) (seqZ 0 15) = true) as Hall by (by vm_compute).
  rewrite forallb_forall in Hall. destruct (proj1 (andb_true_iff _ _) (Hall (3 * t + i) ltac:(apply list_elem_of_In, elem_of_seqZ; lia))) as [Hv Hl].
  rewrite is_valid_fat_char_spec in Hv. apply bool_decide_eq_true_1 in Hv. split; [done|]. unfold bad_end. lia.
Qed.

Lemma x00_char_kept c : kept_char (x00_char c).
Proof. unfold x00_char. destruct (decide (kept_char c)); [done|]. by apply (bool_decide_eq_true_1 (kept_char 95)). Qed.

Lemma kept_suffix : kept_char 46 /\ kept_char 48.
Proof. split; [by apply (bool_decide_eq_true_1 (kept_char 46))|by apply (bool_decide_eq_true_1 (kept_char 48))]. Qed.

Lemma last_letter (s : list Z) x y z w c : last (s ++ [x; y; z; w]) = Some c -> c = w.
Proof. change [x; y; z; w] with ([x; y; z] ++ [w]). rewrite app_assoc, last_snoc. by intros [= ->]. Qed.

(** The characters and the ends of the names of new files. *)
Lemma fat_name_valid mode type s : 0 <= type <= TYPE_REL -> (type =? TYPE_PRG) && image_name (pet2asc_char <$> s) = false ->
  let (name, x00) := fat_name mode type s in
  Forall kept_char name /\ (s <> [] -> forall c, head name = Some c -> bad_end c -> x00 = true) /\
  (forall c, last name = Some c -> bad_end c -> name = pet2asc_char <$> s).
Proof.
  intros Htype Hi. unfold fat_name. set (asc := pet2asc_char <$> s) in *.
  assert (Z.land type EXT_TYPE_MASK = type) as Hland.
  { unfold EXT_TYPE_MASK, TYPE_REL in *. change 15 with (Z.ones 4). rewrite Z.land_ones by lia. apply Z.mod_small. lia. }
  cbv zeta. rewrite Hi, Hland. destruct (_ || negb (bool_decide (accepted asc))) eqn:E.
  - split_and!; [|done|intros c ->%last_letter; unfold bad_end; lia].
    apply Forall_app. split; [apply Forall_fmap, Forall_forall; intros; apply x00_char_kept|].
    destruct kept_suffix. pose proof (proj1 (type_letter_kept type 0 Htype ltac:(lia))). by repeat (apply Forall_cons; split).
  - apply orb_false_iff in E as [_ Hv]. apply negb_false_iff, bool_decide_eq_true_1 in Hv as (Hall & H32 & H46).
    assert (forall c, head asc = Some c -> ~ bad_end c) as Hhead by (intros c Hc [-> | ->]; congruence).
    destruct (_ || (mode =? 4)); [|split_and!; [done|by intros _ c Hc []%Hhead|done]].
    split_and!.
    + apply Forall_app. split; [done|]. destruct kept_suffix.
      repeat (apply Forall_cons; split); [done|apply type_letter_kept; lia..|apply Forall_nil_2].
    + intros Hne c. destruct s as [|d k]; [done|]. intros Hc Hb. by destruct (Hhead c Hc).
    + intros c ->%last_letter Hb. by destruct (type_letter_kept type 2 Htype ltac:(lia)).
Qed.
End build.

(** ** Properties *)

(** C37: Names of certain characters survive the conversion between the
    character sets: a string of the ASCII characters 1 to 127 is converted to
    PETSCII and back to itself, and so is a PETSCII string that uses neither
    the second codes of the letters (97 to 122) nor the code 126 of the tilde.
    Those codes come back as others (fatops.c:223). *)
Theorem names_survive_conversion pre s post :
  (Forall (fun c => asc_char c = true) s ->
    (asc2pet (zlen pre);; pet2asc (zlen pre)) (pre ++ s ++ 0 :: post) = Done tt (pre ++ s ++ 0 :: post)) /\
  (Forall (fun c => pet_char c = true) s ->
    (pet2asc (zlen pre);; asc2pet (zlen pre)) (pre ++ s ++ 0 :: post) = Done tt (pre ++ s ++ 0 :: post)).
Proof.
  split; intros Hs; unfold mbind, comp_bind.
  - assert (Forall (fun c => 0 < c < 256) s) as Hb by (eapply Forall_impl; [exact Hs|]; unfold asc_char; intros; lia).
    rewrite asc2pet_eq by (by apply nonzero_string). rewrite pet2asc_eq.
    + rewrite <- list_fmap_compose, map_id_on; [done|]. eapply Forall_impl; [exact Hs|]. intros c. apply asc_pet_asc.
    + apply nonzero_string, converted_string; [intros; by apply converted_nonzero|done].
  - assert (Forall (fun c => 0 < c < 256) s) as Hb by (eapply Forall_impl; [exact Hs|]; unfold pet_char; intros; lia).
    rewrite pet2asc_eq by (by apply nonzero_string). rewrite asc2pet_eq.
    + rewrite <- list_fmap_compose, map_id_on; [done|]. eapply Forall_impl; [exact Hs|]. intros c. apply pet_asc_pet.
    + apply nonzero_string, converted_string; [intros; by apply converted_nonzero|done].
Qed.

Lemma names_survive_conversion_witness :
  (asc2pet 1;; pet2asc 1) [7; 72; 101; 108; 108; 111; 126; 0; 9] = Done tt [7; 72; 101; 108; 108; 111; 126; 0; 9] /\
  (pet2asc 1;; asc2pet 1) [7; 200; 69; 255; 49; 0; 9] = Done tt [7; 200; 69; 255; 49; 0; 9].
Proof.
  split.
  - exact (proj1 (names_survive_conversion [7] [72; 101; 108; 108; 111; 126] [9]) ltac:(repeat constructor)).
  - exact (proj2 (names_survive_conversion [7] [200; 69; 255; 49] [9]) ltac:(repeat constructor)).
Defined.

(** C25: Build_name turns every PETSCII name into the FAT name that the
    extension mode asks for ([fat_name]), inside the array when four bytes are
    free behind the name, and the returned pointer points at the last digit of
    the X00 extension. Unless a PRG file is named like a disk image (such a
    name is only converted), every character of the result is one of
    [kept_char]; the result starts with a blank or a dot only in an X00 name
    or when the name is empty, and ends with one only when the whole name is
    kept as it is, which the check of the last character should prevent
    (fatops.c:267). The list of the code lets the characters <, > and | pass
    (fatops.c:241). *)
Theorem build_name_makes_fat_name mode pre s a b c d post type :
  Forall (fun c => 0 < c < 256) s -> 0 <= type <= TYPE_REL ->
  wp (build_name mode (zlen pre) type) (fun r s' => exists name rest,
    s' = pre ++ name ++ 0 :: rest /\ zlen s' = zlen pre + zlen s + 5 + zlen post /\
    (name, bool_decide (r <> None)) = fat_name mode type s /\
    ((type = TYPE_PRG /\ image_name (pet2asc_char <$> s) = true) \/
     Forall kept_char name /\ (s <> [] -> forall c, head name = Some c -> bad_end c -> r <> None) /\
     (forall c, last name = Some c -> bad_end c -> name = pet2asc_char <$> s)) /\
    match r with None => True | Some p => p = zlen pre + zlen name - 1 /\ nthZ s' p = 48 /\ nthZ s' (p - 1) = 48 end)
    (pre ++ s ++ 0 :: a :: b :: c :: d :: post).
Proof.
  intros Hs Htype. eapply wp_mono; [by apply build_name_spec; [|unfold TYPE_REL in *; lia]|].
  intros r s'. cbv beta. destruct (fat_name mode type s) as [name x00] eqn:E. intros (-> & rest & -> & Hlen).
  exists name, rest. split; [done|]. split; [zlen_simpl; lia|]. split; [f_equal; by destruct x00|]. split.
  - destruct ((type =? TYPE_PRG) && image_name (pet2asc_char <$> s)) eqn:Ei.
    + left. apply andb_true_iff in Ei as [?%Z.eqb_eq ?]. done.
    + right. pose proof (fat_name_valid mode type s Htype Ei) as Hv. rewrite E in Hv. destruct Hv as (Hk & Hh & Hl).
      split_and!; [done| |done]. intros Hne c0 Hc Hb. by rewrite (Hh Hne c0 Hc Hb).
  - destruct x00; [|done]. unfold fat_name in E. repeat case_match; simplify_eq.
    pose proof (zlen_nonneg pre). pose proof (zlen_nonneg s). zlen_simpl. rewrite !zlen_map. split; [lia|].
    assert (forall k (l : list Z), 0 <= k -> nthZ (pre ++ (x00_char <$> (pet2asc_char <$> s)) ++ l) (zlen pre + zlen s + k) = nthZ l k) as Hat.
    { intros k l Hk. rewrite !nthZ_app by lia. rewrite !zlen_map, !(proj2 (Z.ltb_ge _ _)) by lia. f_equal. lia. }
    rewrite <- app_assoc, Hat by lia. replace (_ + 3 - 1) with (zlen pre + zlen s + 2) by lia. by rewrite Hat.
Qed.

Lemma build_name_makes_fat_name_witness :
  wp (build_name 3 1 TYPE_SEQ) (fun r s' => exists name rest,
    s' = [7] ++ name ++ 0 :: rest /\ zlen s' = 1 + 3 + 5 + 1 /\
    (name, bool_decide (r <> None)) = ([97; 95; 98; 46; 83; 48; 48], true) /\
    Forall kept_char name /\
    match r with None => True | Some p => p = 1 + zlen name - 1 /\ nthZ s' p = 48 /\ nthZ s' (p - 1) = 48 end)
    [7; 65; 42; 66; 0; 1; 2; 3; 4; 5].
Proof.
  eapply wp_mono; [exact (build_name_makes_fat_name 3 [7] [65; 42; 66] 1 2 3 4 [5] TYPE_SEQ ltac:(repeat constructor) ltac:(done))|].
  intros r s' (name & rest & Hs & Hl & Hn & Hk & Hp). exists name, rest. split_and!; try done. by destruct Hk as [[? _]|[? _]].
Defined.
