(* ===== verification/FatFileTheorems.v ===== *)
(** * fatops.c: theorems on creating files

    The loop of create_file over the names of a new file: it finds the first
    free number of an X00 extension, and never ends for any other name that
    is taken. *)

From stdpp Require Import gmap.
From S2P Require Import Prelude EepromFs ErrorMsg ErrorMsgTheorems Utils UtilsTheorems Buffers BuffersTheorems FatFs Dirent World ImageIO D64Geom D64.
From S2P Require Import FatNames FatNamesTheorems FatFile D64Demo DemoWorld.

Section create.
Context `{FatFs} `{ErrorConfig} `{BufferConfig}.

(** [ops_scratch] *)
Definition scr (w : world) : list Z := scratch (w_eefs w).
Definition with_scr (l : list Z) (w : world) : world := set_w_eefs (set_scratch l (w_eefs w)) w.

Lemma wp_ops_get pre c post w (Q : Z -> world -> Prop) i :
  scr w = pre ++ c :: post -> i = zlen pre -> Q c w -> wp (ops_get i) Q w.
Proof.
  intros Hs -> HQ. unfold ops_get, on_eefs. rewrite wp_zoom. unfold scratch_get. rewrite wp_bind, wp_gets.
  unfold scr in Hs. rewrite Hs, load_at, wp_of_option_Some. by destruct w.
Qed.

Lemma wp_ops_put pre c post x w (Q : unit -> world -> Prop) i :
  scr w = pre ++ c :: post -> i = zlen pre -> Q tt (with_scr (pre ++ x :: post) w) -> wp (ops_put i [x]) Q w.
Proof.
  intros Hs -> HQ. unfold ops_put, on_eefs. rewrite wp_zoom. unfold scratch_put. rewrite wp_bind, wp_gets.
  unfold scr in Hs. rewrite Hs. pose proof (store_at pre c x post) as Hst. unfold store in Hst.
  by rewrite Hst, wp_bind, wp_of_option_Some, wp_modify.
Qed.

Lemma wp_scratch_str str post w (Q : list Z -> world -> Prop) :
  scr w = str ++ 0 :: post -> Forall (fun c => c <> 0) str -> Q str w -> wp (scratch_str 0) Q w.
Proof.
  intros Hs Hstr HQ. unfold scratch_str. rewrite wp_bind, wp_gets. unfold id, scr in *. change (Z.to_nat 0) with 0%nat. rewrite drop_0.
  by rewrite Hs, strz_at, wp_of_option_Some.
Qed.

(** A directory of the driver: which names are taken.  Opening a new file with
    a name that is taken changes nothing. *)
Context (part dir mode : Z) (used : list Z -> bool) (I : DRV -> Prop).
Hypothesis open_used : forall name d, I d -> used name = true ->
  exists f d', f_open part dir name mode d = (FR_EXIST, f, d') /\ I d'.
Hypothesis open_unused : forall name d, I d -> used name = false -> (f_open part dir name mode d).1.1 <> FR_EXIST.

(** The partition, and the driver in a state where the names are taken. *)
Definition in_dir (w : world) : Prop := 0 <= part /\ (exists p, partition w !! Z.to_nat part = Some p /\ curr_dir p = dir) /\ I (drv w).

Lemma fh_open_used buf name w (Q : Z -> world -> Prop) : in_dir w -> used name = true ->
  (forall w', in_dir w' -> scr w' = scr w -> Q FR_EXIST w') -> wp (fh_open buf part name mode) Q w.
Proof.
  intros (Hp & (p & Hl & Hc) & HI) Hu HQ. unfold fh_open. rewrite wp_bind. eapply wp_intro; [by apply part_get_run|cbv beta].
  destruct (open_used name (drv w) HI Hu) as (f & d & Ho & Hd). rewrite wp_bind, Hc. eapply wp_intro; [by apply call_run|].
  cbv beta iota. unfold buf_set_fh. rewrite wp_bind, wp_modify, wp_ret. apply HQ; [|done]. by split; [|split; [exists p|]].
Qed.

Lemma fh_open_unused buf name w (Q : Z -> world -> Prop) : in_dir w -> used name = false ->
  (forall res w', res <> FR_EXIST -> scr w' = scr w -> Q res w') -> wp (fh_open buf part name mode) Q w.
Proof.
  intros (Hp & (p & Hl & Hc) & HI) Hu HQ. unfold fh_open. rewrite wp_bind. eapply wp_intro; [by apply part_get_run|cbv beta].
  pose proof (open_unused name (drv w) HI Hu) as Hne. destruct (f_open part dir name mode (drv w)) as [[res f] d] eqn:Ho.
  rewrite wp_bind, Hc. eapply wp_intro; [by apply call_run|].
  cbv beta iota. unfold buf_set_fh. rewrite wp_bind, wp_modify, wp_ret. by apply HQ.
Qed.

(** The digits of an X00 extension. *)
Definition x00_digits (k : Z) : list Z := [48 + k / 10; 48 + k mod 10].

Lemma x00_digits_nonzero k : 0 <= k -> Forall (fun c => c <> 0) (x00_digits k).
Proof. intros Hk. pose proof (Z.div_pos k 10 Hk ltac:(lia)). pose proof (Z.mod_pos_bound k 10 ltac:(lia)). apply Forall_cons. split; [lia|]. apply Forall_cons. split; [lia|constructor]. Qed.

Lemma x00_digits_next k : 0 <= k < 100 ->
  x00_digits (k + 1) = if 48 + k mod 10 + 1 =? 58 then [48 + k / 10 + 1; 48] else [48 + k / 10; 48 + k mod 10 + 1].
Proof.
  intros Hk. unfold x00_digits. pose proof (Z.div_mod k 10 ltac:(lia)). pose proof (Z.mod_pos_bound k 10 ltac:(lia)).
  assert (forall q r, k + 1 = 10 * q + r -> 0 <= r < 10 -> (k + 1) / 10 = q /\ (k + 1) mod 10 = r) as Hqr.
  { intros q r Hq Hr. split; [symmetry; by apply (Z.div_unique _ _ _ r); [left|]|symmetry; by apply (Z.mod_unique _ _ q); [left|]]. }
  destruct (Z.eqb_spec (48 + k mod 10 + 1) 58).
  - destruct (Hqr (k / 10 + 1) 0) as [-> ->]; [lia|lia|]. by rewrite Z.add_assoc, Z.add_0_r.
  - destruct (Hqr (k / 10) (k mod 10 + 1)) as [-> ->]; [lia|lia|]. by rewrite Z.add_assoc.
Qed.

Lemma x00_digits_byte k : 0 <= k < 100 -> 0 <= k / 10 < 10 /\ 0 <= k mod 10 < 10 /\ k = 10 * (k / 10) + k mod 10.
Proof. intros Hk. Z.to_euclidean_division_equations. lia. Qed.

Lemma create_open_spec buf base rest w :
  Forall (fun c => c <> 0) base -> in_dir w -> scr w = base ++ x00_digits 0 ++ 0 :: rest ->
  wp (create_open 101 buf part mode (Some (zlen base + 1))) (fun res w' =>
    (exists k, 0 <= k < 100 /\ res <> FR_EXIST /\ scr w' = base ++ x00_digits k ++ 0 :: rest /\
      used (base ++ x00_digits k) = false /\ forall j, 0 <= j < k -> used (base ++ x00_digits j) = true) \/
    (res = FR_EXIST /\ forall j, 0 <= j < 100 -> used (base ++ x00_digits j) = true)) w.
Proof.
  intros Hbase Hdir Hscr. unfold create_open.
  apply (wp_loop_ghost (fun (k : Z) (_ : unit) w => 0 <= k < 100 /\ in_dir w /\ scr w = base ++ x00_digits k ++ 0 :: rest /\
      forall j, 0 <= j < k -> used (base ++ x00_digits j) = true) (fun k => Z.to_nat (100 - k))) with (g := 0);
    [|by split_and!; [lia|lia|..]; [done|done|intros; lia]|simpl; lia].
  intros k _ w1 (Hk & Hd1 & Hs1 & Hused). rewrite wp_bind. pose proof (x00_digits_byte k Hk) as (Hk1 & Hk0 & Hkk).
  assert (Forall (fun c => c <> 0) (base ++ x00_digits k)) as Hname.
  { apply Forall_app. split; [done|]. apply x00_digits_nonzero. lia. }
  apply (wp_scratch_str (base ++ x00_digits k) rest); [by rewrite <- app_assoc|done|]. rewrite wp_bind.
  destruct (used (base ++ x00_digits k)) eqn:Hu.
  - apply fh_open_used; [done|done|]. intros w2 Hd2 Hs2. rewrite Hs1 in Hs2. rewrite Z.eqb_refl. cbv beta iota delta [negb].
    assert (forall j, 0 <= j < k + 1 -> used (base ++ x00_digits j) = true) as Hused'.
    { intros j Hj. destruct (decide (j = k)) as [->|]; [done|]. apply Hused. lia. }
    rewrite wp_bind. apply (wp_ops_get (base ++ [48 + k / 10]) (48 + k mod 10) (0 :: rest)); [by rewrite <- app_assoc|by rewrite zlen_snoc|].
    pose proof (x00_digits_next k Hk) as Hnext. destruct (Z.eqb_spec (48 + k mod 10 + 1) 58) as [E|E]; cbv beta iota delta [negb].
    + rewrite wp_bind. apply (wp_ops_put (base ++ [48 + k / 10]) (48 + k mod 10) (0 :: rest)); [by rewrite <- app_assoc|by rewrite zlen_snoc|].
      rewrite wp_bind. apply (wp_ops_get base (48 + k / 10) (48 :: 0 :: rest)); [unfold scr; simpl; by rewrite <- app_assoc|lia|].
      rewrite wp_bind. apply (wp_ops_put base (48 + k / 10) (48 :: 0 :: rest)); [unfold scr; simpl; by rewrite <- app_assoc|lia|].
      rewrite wp_ret. destruct (Z.eqb_spec (48 + k / 10 + 1) 58) as [E'|E'].
      * right. split; [done|]. intros j Hj. apply Hused'. lia.
      * exists (k + 1). split; [|lia]. split_and!; [lia|lia|apply Hd2| |done].
        unfold scr. cbn -[x00_digits]. by rewrite Hnext, u8_id by lia.
    + rewrite wp_bind. apply (wp_ops_put (base ++ [48 + k / 10]) (48 + k mod 10) (0 :: rest)); [by rewrite <- app_assoc|by rewrite zlen_snoc|].
      rewrite wp_ret. exists (k + 1). split; [|lia]. split_and!; [lia|lia|apply Hd2| |done].
      unfold scr. cbn -[x00_digits]. by rewrite <- app_assoc, Hnext, u8_id by lia.
  - apply fh_open_unused; [done|done|]. intros res w2 Hres Hs2. destruct (Z.eqb_spec res FR_EXIST); [done|]. cbv beta iota delta [negb].
    rewrite wp_ret. left. exists k. split; [lia|]. split; [done|]. split; [congruence|]. done.
Qed.

(** Without an extension to count, a name that is taken is tried for ever. *)
Lemma create_open_diverges fuel buf name rest w :
  Forall (fun c => c <> 0) name -> used name = true -> in_dir w -> scr w = name ++ 0 :: rest ->
  create_open fuel buf part mode None w = OutOfFuel.
Proof.
  intros Hname Hu Hdir Hscr. unfold create_open.
  apply (loop_diverges (fun (_ : unit) w => in_dir w /\ scr w = name ++ 0 :: rest)); [|by split].
  intros _ w1 [Hd1 Hs1]. rewrite wp_bind. apply (wp_scratch_str name rest); [done|done|]. rewrite wp_bind.
  apply fh_open_used; [done|done|]. intros w2 Hd2 Hs2. rewrite Z.eqb_refl. cbv beta iota delta [negb].
  rewrite wp_ret. split; [done|congruence].
Qed.
End create.

(** ** Properties *)

(** What the code relies on: opening a new file with a name that is taken
    gives FR_EXIST and changes nothing, and only then. *)
Definition taken `{FatFs} (part dir mode : Z) (used : list Z -> bool) (I : DRV -> Prop) : Prop :=
  forall name d, I d ->
    (used name = true -> exists f d', f_open part dir name mode d = (FR_EXIST, f, d') /\ I d') /\
    (used name = false -> (f_open part dir name mode d).1.1 <> FR_EXIST).

(** C30: The loop over the names of a new X00 file ends and opens the file with
    the first free number from 00 to 99; it reports that the file exists only
    when all hundred names are taken. *)
Theorem create_open_first_free `{FatFs} `{ErrorConfig} `{BufferConfig} part dir mode used I buf base rest w :
  taken part dir mode used I -> in_dir part dir I w -> Forall (fun c => c <> 0) base ->
  scr w = base ++ x00_digits 0 ++ 0 :: rest ->
  wp (create_open 101 buf part mode (Some (zlen base + 1))) (fun res w' =>
    (exists k, 0 <= k < 100 /\ res <> FR_EXIST /\ scr w' = base ++ x00_digits k ++ 0 :: rest /\
      used (base ++ x00_digits k) = false /\ forall j, 0 <= j < k -> used (base ++ x00_digits j) = true) \/
    (res = FR_EXIST /\ forall j, 0 <= j < 100 -> used (base ++ x00_digits j) = true)) w.
Proof.
  intros Ht Hd Hb Hs. apply (create_open_spec part dir mode used I); try done; intros name d HI.
  - by apply (Ht name d HI).
  - by apply (Ht name d HI).
Qed.

(** C36: For a file without an X00 extension create_file tries the same name
    again and again while the driver says that it exists: the loop never
    ends. *)
Theorem create_open_hangs `{FatFs} `{ErrorConfig} `{BufferConfig} part dir mode used I buf name rest w :
  taken part dir mode used I -> in_dir part dir I w -> Forall (fun c => c <> 0) name ->
  scr w = name ++ 0 :: rest -> used name = true ->
  forall fuel, create_open fuel buf part mode None w = OutOfFuel.
Proof.
  intros Ht Hd Hb Hs Hu fuel. apply (create_open_diverges part dir mode used I) with (name := name) (rest := rest); try done.
  intros name' d HI. by apply (Ht name' d HI).
Qed.

(** A directory with two files: "AB.P00" and "X". *)
Definition two_names : list (list Z) := [[65; 66; 46; 80; 48; 48]; [88]].
Definition new_mode : Z := Z.lor FA_WRITE FA_CREATE_NEW.
Definition two_used (name : list Z) : bool := bool_decide (name ∈ two_names).

Lemma two_taken : @taken names_fatfs 0 0 new_mode two_used (fun d => d = two_names).
Proof.
  intros name d ->. unfold two_used. simpl. destruct (decide (name ∈ two_names)) as [Hin|Hin].
  - split; [intros _; by eexists _, _|]. rewrite bool_decide_eq_true_2 by done. done.
  - rewrite bool_decide_eq_false_2 by done. split; [done|]. intros _. done.
Qed.

Definition two_world (l : list Z) : @world names_fatfs :=
  @start_world names_fatfs two_names Ram.no_file fatops
    {| eeprom := []; scratch := l; used_sectors := []; used_entries := []; free_sectors := 0 |}.

Lemma two_in_dir l : @in_dir names_fatfs 0 0 (fun d => d = two_names) (two_world l).
Proof. split; [lia|]. split; [|done]. by eexists. Qed.

#[local] Existing Instance demo_config.
#[local] Existing Instance six_buffers.

Lemma create_open_first_free_witness :
  wp (@create_open names_fatfs 101 1 0 new_mode (Some 5)) (fun res w' =>
    (exists k, 0 <= k < 100 /\ res <> FR_EXIST /\ @scr names_fatfs w' = [65; 66; 46; 80] ++ x00_digits k ++ [0] /\
      two_used ([65; 66; 46; 80] ++ x00_digits k) = false /\ forall j, 0 <= j < k -> two_used ([65; 66; 46; 80] ++ x00_digits j) = true) \/
    (res = FR_EXIST /\ forall j, 0 <= j < 100 -> two_used ([65; 66; 46; 80] ++ x00_digits j) = true))
    (two_world [65; 66; 46; 80; 48; 48; 0]).
Proof.
  exact (@create_open_first_free names_fatfs _ _ 0 0 new_mode two_used _ 1 [65; 66; 46; 80] [] (two_world [65; 66; 46; 80; 48; 48; 0])
    two_taken (two_in_dir _) ltac:(repeat constructor; done) eq_refl).
Defined.

Lemma create_open_hangs_witness :
  @create_open names_fatfs 1000 1 0 new_mode None (two_world [88; 0; 0]) = OutOfFuel.
Proof.
  exact (@create_open_hangs names_fatfs _ _ 0 0 new_mode two_used _ 1 [88] [0] (two_world [88; 0; 0])
    two_taken (two_in_dir _) ltac:(repeat constructor; done) eq_refl eq_refl 1000%nat).
Defined.
