(* ===== verification/ParserTheorems.v ===== *)
(** * parser.c: theorems on searching a directory

    A directory is what [readdir] makes of it: [lists dh es] says that the
    handle [dh] delivers the entries [es] and then the end, in every state
    that satisfies an invariant [I].  The search functions are proved against
    this interface; EefsOpsTheorems.v shows that the directory of the EEPROM
    file system provides it. *)

From stdpp Require Import gmap.
From S2P Require Import Prelude EepromFs ErrorMsg Utils UtilsTheorems Buffers BuffersTheorems FatFs Dirent World D64Geom D64 EefsOps.
From S2P Require Import FatNames FatFile FatOps WrapOps Parser.

Section listing.
Context `{FatFs} `{EepromGeom} `{Assertions} `{ErrorConfig} `{BufferConfig} `{SystemConfig}.

Inductive lists (I : world -> Prop) : dh_t -> list cbmdirent_t -> Prop :=
| lists_end dh : (forall w, I w -> wp (readdir dh) (fun r w' => r.1.1 = -1 /\ I w') w) -> lists I dh []
| lists_entry dh dh' e es : (forall w, I w -> wp (readdir dh) (fun r w' => r = (0, dh', Some e) /\ I w') w) ->
    lists I dh' es -> lists I dh (e :: es).

Definition names_fit (es : list cbmdirent_t) : Prop := Forall (fun e => exists fn, name_ok (de_name e) fn) es.

(** What a file system promises of the directory at [path]: it can be opened
    and lists the entries [es]; the invariant does not depend on the handle of
    the last search. *)
Record directory (I : world -> Prop) (path : path_t) (es : list cbmdirent_t) : Prop := {
  dir_opens : exists dh, lists I dh es /\ forall w, I w -> wp (opendir path) (fun r w' => r = (0, dh) /\ I w') w;
  dir_names : names_fit es;
  dir_size : Z.of_nat (length es) < 524289;
  dir_matchdh : forall dh w, I w -> I (set_w_dos (set_matchdh (Some dh) (w_dos w)) w);
  dir_bufs : forall w, I w -> bufs_ok (w_bufs w)
}.

(** ** Which entries are wanted *)

(** The low three bits of the type byte are the file type, and a type of 0
    asks for every file; bit 5 hides an entry unless the caller asks for
    hidden ones. *)
Definition right_type (type : Z) (e : cbmdirent_t) : Prop := type mod 8 = 0 \/ de_typeflags e mod 8 = type mod 8.
Definition visible (type : Z) (e : cbmdirent_t) : Prop := Z.testbit (de_typeflags e) 5 = true -> Z.testbit type 5 = true.

(** The calendar order of two dates. *)
Definition earlier (a b : date_t) : Prop :=
  year a < year b \/ year a = year b /\ (month a < month b \/ month a = month b /\ (day a < day b \/ day a = day b /\
  (hour a < hour b \/ hour a = hour b /\ (minute a < minute b \/ minute a = minute b /\ second a < second b)))).
Definition in_period (start stop : option date_t) (e : cbmdirent_t) : Prop :=
  (forall d, start = Some d -> ~ earlier (de_date e) d) /\ (forall d, stop = Some d -> ~ earlier d (de_date e)).

(** The tests of the code decide them. *)
Lemma land_bit5 x : Z.land x FLAG_HIDDEN = 0 <-> Z.testbit x 5 = false.
Proof.
  split; intros Hx.
  - apply (f_equal (fun v => Z.testbit v 5)) in Hx. rewrite Z.land_spec in Hx. by rewrite andb_true_r in Hx.
  - apply Z.bits_inj'. intros n Hn. rewrite Z.land_spec, Z.bits_0. destruct (decide (n = 5)) as [->|]; [by rewrite Hx|].
    change FLAG_HIDDEN with (2 ^ 5). by rewrite Z.pow2_bits_false, andb_false_r.
Qed.

Lemma skip_type_spec type e : skip_type type e = false <-> right_type type e /\ visible type e.
Proof.
  unfold skip_type, right_type, visible. change TYPE_MASK with (Z.ones 3). rewrite !Z.land_ones by lia. change (2 ^ 3) with 8.
  pose proof (land_bit5 (de_typeflags e)) as He. pose proof (land_bit5 type) as Ht.
  destruct (Z.testbit (de_typeflags e) 5), (Z.testbit type 5); lia.
Qed.

Lemma date_before_spec a b : date_before a b = true <-> earlier a b.
Proof.
  unfold date_before, earlier, date_fields, fields_before.
  repeat match goal with |- context [?x <? ?y] => destruct (Z.ltb_spec x y) end; lia.
Qed.

Lemma skip_date_spec start stop e : skip_date start stop e = false <-> in_period start stop e.
Proof.
  unfold skip_date, in_period. rewrite orb_false_iff.
  assert (forall a b, date_before a b = false <-> ~ earlier a b) as Hd by (intros; by rewrite <- date_before_spec, not_true_iff_false).
  destruct start as [a|], stop as [b|]; rewrite ?Hd; (split; [intros [Ha Hb]; split; intros d Heq; simplify_eq; done|intros [Ha Hb]; split; auto]).
Qed.

Context (pre pat post : list Z) (pm : bool) (type : Z) (start stop : option date_t).

(** The pattern at its place in the command buffer, and the setting of the
    POSTMATCH flag. *)
Definition searching (w : world) : Prop :=
  command_buffer (w_dos w) = pre ++ pat ++ 0 :: post /\
  negb (Z.land (globalflags (channel (w_bufs w))) POSTMATCH =? 0) = pm.

(** What a user asks for: the type, the period, and a name that the pattern
    matches, without regard to case on a FAT medium. *)
Definition wanted (e : cbmdirent_t) : Prop := right_type type e /\ visible type e /\ in_period start stop e /\
  exists fn, name_ok (de_name e) fn /\ glob (fold_case (bool_decide (de_opstype e = OPSTYPE_FAT))) pm pat fn.

(** With POSTMATCH no name is too short for the pattern. *)
Definition tails_fit (es : list cbmdirent_t) : Prop :=
  pm = true -> Forall (fun e => forall fn, name_ok (de_name e) fn -> tail_fits pat fn) es.

Lemma name_ok_inj name fn fn' : name_ok name fn -> name_ok name fn' -> fn = fn'.
Proof.
  intros (rest & -> & _ & Hf) (rest' & Heq & _ & Hf'). revert fn' Heq Hf'.
  induction Hf as [|c fn Hc _ IH]; intros [|c' fn'] Heq Hf'; simpl in Heq; injection Heq as; try lia; [done|..].
  - apply Forall_cons in Hf' as [? _]. lia.
  - apply Forall_cons in Hf' as [_ ?]. f_equal; [done|]. by apply IH.
Qed.

Lemma on_cmd_same {A} (m : comp (list Z) A) a w :
  m (command_buffer (w_dos w)) = Done a (command_buffer (w_dos w)) -> on_cmd m w = Done a w.
Proof. intros Hm. unfold on_cmd, on_dos, zoom. rewrite Hm. by destruct w as [? ? ? ? ? ? ? [] ? ? ? ?]. Qed.

Lemma skip_name_spec e w fn : Forall (fun c => 0 < c < 256) pat -> searching w -> name_ok (de_name e) fn ->
  (pm = true -> tail_fits pat fn) ->
  exists b, skip_name (Some (zlen pre)) e w = Done b w /\
    (b = false <-> glob (fold_case (bool_decide (de_opstype e = OPSTYPE_FAT))) pm pat fn).
Proof.
  intros Hpat [Hcmd Hpost] Hfn Htail. unfold skip_name, settings. unfold mbind at 1, comp_bind at 1, gets. rewrite Hpost.
  destruct (match_name_glob pm (bool_decide (de_opstype e = OPSTYPE_FAT)) pre pat post (de_name e) fn Hpat Hfn Htail) as [[Hm Hg]|[Hm Hg]];
    unfold mbind, comp_bind; rewrite (on_cmd_same _ _ w) by (rewrite Hcmd; exact Hm).
  - by exists false.
  - by exists true.
Qed.

Lemma skip_entry_spec e w : Forall (fun c => 0 < c < 256) pat -> searching w -> (exists fn, name_ok (de_name e) fn) ->
  (pm = true -> forall fn, name_ok (de_name e) fn -> tail_fits pat fn) ->
  exists b, skip_entry (Some (zlen pre)) start stop type e w = Done b w /\ (b = false <-> wanted e).
Proof.
  intros Hpat Hs (fn & Hfn) Htail. unfold skip_entry, wanted. pose proof (skip_type_spec type e) as Ht. destruct (skip_type type e) eqn:Et.
  { exists true. split; [done|]. split; [done|]. intros (Hr & Hv & _). by apply Ht. }
  destruct (skip_name_spec e w fn Hpat Hs Hfn) as (b & Hb & Hiff); [auto|].
  exists (b || skip_date start stop e). unfold mbind, comp_bind. rewrite Hb. split; [done|]. rewrite orb_false_iff, Hiff, skip_date_spec.
  destruct (proj1 Ht eq_refl) as [Hr Hv]. split; [intros [Hg Hd]; split_and!; eauto|]. intros (_ & _ & Hd & fn' & Hfn' & Hg). by rewrite (name_ok_inj _ _ _ Hfn Hfn').
Qed.

(** ** The search *)
Context (I : world -> Prop).
Hypothesis I_searching : forall w, I w -> searching w.
Hypothesis pat_string : Forall (fun c => 0 < c < 256) pat.

Lemma next_match_spec dh es dent w :
  lists I dh es -> names_fit es -> tails_fit es -> Z.of_nat (length es) < 524289 -> I w ->
  wp (next_match dh (Some (zlen pre)) start stop type dent) (fun r w' => I w' /\
    ((exists dh' e es1 es2, r = (0, dh', e) /\ es = es1 ++ e :: es2 /\ lists I dh' es2 /\ wanted e /\ Forall (fun e => ~ wanted e) es1) \/
     (r.1.1 = -1 /\ Forall (fun e => ~ wanted e) es))) w.
Proof.
  intros Hl Hfit Htails Hlen HI. unfold next_match.
  apply (wp_loop_ghost (fun (g : list cbmdirent_t * list cbmdirent_t) (l : dh_t * cbmdirent_t) w =>
      es = g.1 ++ g.2 /\ lists I l.1 g.2 /\ Forall (fun e => ~ wanted e) g.1 /\ I w) (fun g => length g.2)) with (g := ([], es));
    [|by split_and!|simpl; unfold match_fuel; lia].
  intros [es1 es2] [dh1 dent1] w1 (Hes & Hl1 & Hno & HI1). simpl in Hes, Hl1, Hno. rewrite wp_bind.
  inversion Hl1 as [dh2 Hend|dh2 dh3 e es3 Hentry Hl3]; subst dh2; subst es2.
  - eapply wp_mono; [by apply Hend|]. intros [[res dh2] e] w2 [Hres HI2]. simpl in Hres. subst res.
    change (-1 =? 0) with false. cbv beta iota. rewrite wp_ret. split; [done|]. right. split; [done|]. by rewrite Hes, app_nil_r.
  - eapply wp_mono; [by apply Hentry|]. intros r w2 [-> HI2]. cbv beta iota zeta. simpl default. change (0 =? 0) with true. cbv iota.
    rewrite Hes in Hfit. apply Forall_app in Hfit as [_ [Hfe _]%Forall_cons].
    destruct (skip_entry_spec e w2 pat_string (I_searching _ HI2) Hfe) as (b & Hb & Hiff).
    { intros Hpm. specialize (Htails Hpm). rewrite Hes in Htails. by apply Forall_app in Htails as [_ [Ht _]%Forall_cons]. }
    rewrite wp_bind. eapply wp_intro; [exact Hb|cbv beta]. rewrite wp_ret. destruct b.
    + exists (es1 ++ [e], es3). simpl. split; [|lia]. split; [by rewrite <- app_assoc|]. split; [done|]. split; [|done].
      apply Forall_app. split; [done|]. apply Forall_singleton. intros Hw. by apply Hiff in Hw.
    + split; [done|]. left. exists dh3, e, es1, es3. split_and!; try done. by apply Hiff.
Qed.
End listing.

#[global] Opaque match_fuel.

Section first.
Context `{FatFs} `{EepromGeom} `{Assertions} `{ErrorConfig} `{BufferConfig} `{SystemConfig}.
Context (pre pat post : list Z) (pm : bool) (type : Z) (I : world -> Prop).
Hypothesis I_searching : forall w, I w -> searching pre pat post pm w.
Hypothesis pat_string : Forall (fun c => 0 < c < 256) pat.

(** An entry that [first_match] looks for. *)
Definition matches (e : cbmdirent_t) : Prop := wanted pat pm type None None e.

Lemma first_match_spec path es dent w :
  directory I path es -> tails_fit pat pm es -> I w ->
  wp (first_match path (Some (zlen pre)) type dent) (fun r w' =>
    (exists e es1 es2, r = (0, e) /\ es = es1 ++ e :: es2 /\ matches e /\ Forall (fun e => ~ matches e) es1 /\
       I w' /\ exists dh, matchdh (w_dos w') = Some dh /\ lists I dh es2) \/
    (r.1 = -1 /\ Forall (fun e => ~ matches e) es /\ current_error (channel (w_bufs w')) = ERROR_FILE_NOT_FOUND)) w.
Proof.
  intros [(dh & Hl & Hopen) Hfit Hsize Hmatch Hbufs] Htails HI. unfold first_match. rewrite wp_bind.
  eapply wp_mono; [by apply Hopen|]. intros r w1 [-> HI1]. cbv beta. unfold on_dos.
  rewrite wp_bind, wp_zoom, wp_modify. simpl fst. simpl snd. change (negb (0 =? 0)) with false. cbv iota.
  rewrite wp_bind. eapply wp_mono; [by apply (next_match_spec pre pat post pm type None None I I_searching pat_string dh es); [..|apply Hmatch]|].
  intros [[res dh'] e] w2 [HI2 Hcase]. cbv beta iota. rewrite wp_bind, wp_zoom, wp_modify, wp_bind.
  pose proof (Hmatch dh' w2 HI2) as HI3. set (w3 := set_w_dos _ _) in *.
  assert (matchdh (w_dos w3) = Some dh') as Hm by done. clearbody w3.
  destruct Hcase as [(dh2 & e2 & es1 & es2 & Heq & Hes & Hl2 & Hw & Hno)|[Hres Hno]].
  - injection Heq as -> -> ->. change (0 <? 0) with false. simpl when. rewrite wp_ret, wp_ret. left. exists e2, es1, es2.
    split_and!; try done. by exists dh2.
  - simpl in Hres. subst res. change (-1 <? 0) with true. simpl when. unfold wset_error, wset_error_ts, on_bufs. rewrite wp_zoom.
    eapply wp_mono; [apply set_error_ok; [by apply Hbufs|unfold ERROR_FILE_NOT_FOUND; lia..]|].
    intros _ s (_ & _ & He). rewrite wp_ret. right. done.
Qed.
End first.

(** ** Properties *)

(** C27: In every directory that lists its entries one by one, first_match
    ends and finds the first entry whose type, visibility and name fit the
    request and the pattern in the command buffer, with the POSTMATCH flag on
    or off, and leaves the handle behind it; when there is none it reports
    FILE NOT FOUND.  With POSTMATCH on, no name of the directory may be
    shorter than the part of the pattern behind its first star
    ([match_name_postmatch_underrun]). *)
Theorem first_match_finds_first `{FatFs} `{EepromGeom} `{Assertions} `{ErrorConfig} `{BufferConfig} `{SystemConfig}
    pre pat post pm type I path es dent w :
  (forall w, I w -> searching pre pat post pm w) -> Forall (fun c => 0 < c < 256) pat ->
  directory I path es -> tails_fit pat pm es -> I w ->
  wp (first_match path (Some (zlen pre)) type dent) (fun r w' =>
    (exists e es1 es2, r = (0, e) /\ es = es1 ++ e :: es2 /\ matches pat pm type e /\ Forall (fun e => ~ matches pat pm type e) es1 /\
       I w' /\ exists dh, matchdh (w_dos w') = Some dh /\ lists I dh es2) \/
    (r.1 = -1 /\ Forall (fun e => ~ matches pat pm type e) es /\ current_error (channel (w_bufs w')) = ERROR_FILE_NOT_FOUND)) w.
Proof. intros HI Hpat Hdir Htails Hw. by apply (first_match_spec pre pat post pm type I). Qed.
