(* ===== verification/EefsOpsTheorems.v ===== *)
(** * eefs-ops.c: theorems on the operations of the EEPROM file system

    The directory of the EEPROM provides the interface that the search
    functions of parser.c rely on, and a file that is opened for reading is
    delivered in full through the buffer.  The abstract file system of
    EepromFsTheorems.v ([fs_inv], [f_data]) is what both are stated about. *)

From stdpp Require Import gmap.
From S2P Require Import Prelude EepromFs EepromFsFacts EepromFsInv EepromFsFile EepromFsWrite EepromFsDir EepromFsRead EepromFsTheorems.
From S2P Require Import ErrorMsg Utils UtilsTheorems Buffers BuffersTheorems FatFs Dirent World ImageIO D64Geom D64 D64Bam EefsOps.
From S2P Require Import FatNames FatNamesTheorems FatFile FatOps WrapOps Parser ParserTheorems D64Demo DemoWorld ErrorMsgTheorems.

(** ** Names *)

(** The name of an entry without its padding. *)
Fixpoint cbm_name (n : list Z) : list Z :=
  match n with
  | [] => []
  | c :: n => if (c =? 0) || (c =? 160) then [] else c :: cbm_name n
  end.

Lemma cbm_name_fits n : bytes n -> zlen (cbm_name n) <= zlen n /\ Forall (fun c => 0 < c < 256 /\ c <> 160) (cbm_name n) /\
  exists rest, ((fun c => if c =? 160 then 0 else c) <$> n) ++ [0] = cbm_name n ++ 0 :: rest.
Proof.
  induction 1 as [|c n Hc _ (Hlen & Hf & rest & Heq)]; simpl; [split; [lia|]; split; [done|by exists []]|].
  unfold is_byte in Hc. csimpl. destruct (Z.eqb_spec c 160), (Z.eqb_spec c 0); simpl; rewrite ?zlen_cons in *.
  - lia.
  - split; [pose proof (zlen_nonneg n); change (zlen (@nil Z)) with 0; lia|]. split; [done|]. by eexists.
  - subst c. split; [pose proof (zlen_nonneg n); change (zlen (@nil Z)) with 0; lia|]. split; [done|]. by eexists.
  - split; [lia|]. split; [constructor; [lia|done]|]. exists rest. f_equal. exact Heq.
Qed.

(** The name in the directory entry. *)
Lemma dent_name_ok e : zlen (EepromFs.de_name e) = 16 -> bytes (EepromFs.de_name e) ->
  UtilsTheorems.name_ok (Dirent.de_name (eefs_dent e)) (cbm_name (EepromFs.de_name e)).
Proof.
  intros Hlen Hb. destruct (cbm_name_fits _ Hb) as (Hle & Hf & rest & Heq). exists rest. split; [|split; [lia|]].
  - unfold eefs_dent, terminate_filename. simpl. unfold zlen, CBM_NAME_LENGTH in *.
    rewrite take_app_le by (rewrite length_fmap, length_take; lia).
    rewrite (take_ge (_ <$> _)) by (rewrite length_fmap, length_take; lia). rewrite (take_ge (EepromFs.de_name e)) by lia. exact Heq.
  - eapply Forall_impl; [exact Hf|]. by intros c [? _].
Qed.

(** ** The directory *)
Section directory.
Context `{FatFs} `{EepromGeomOk} `{Assertions} `{ErrorConfig} `{BufferConfig} `{SystemConfig}.
Context (part : Z) (w0 : world) (files : gmap (list Z) file).

(** The EEPROM is mounted on the partition. *)
Definition on_eeprom : Prop := 0 <= part /\ fs_inv (w_eefs w0) files /\
  exists p, partition w0 !! Z.to_nat part = Some p /\ fop p = eefsops.
Hypothesis mounted : on_eeprom.

(** States during a search. *)
Definition searched (w : world) : Prop :=
  partition w = partition w0 /\ w_bufs w = w_bufs w0 /\ command_buffer (w_dos w) = command_buffer (w_dos w0) /\
  rebuf (w_eefs w0) (w_eefs w).

Definition is_head (j : Z) : Prop := exists n f, files !! n = Some f /\ f_first f = j.
Definition file_entry (j : Z) : eefs_dirent_t :=
  let e := ent (w_eefs w0) j in {| EepromFs.de_size := e_size e; EepromFs.de_name := e_name e; EepromFs.de_flags := e_flags e |}.
Definition head_dent (j : Z) : cbmdirent_t := eefs_dent (file_entry j).

Lemma rebuf_trans s1 s2 s3 : wf_base s1 -> rebuf s1 s2 -> rebuf s2 s3 -> rebuf s1 s3.
Proof. intros Hwf H12 (b & Hb & Hbb & ->). by apply rebuf_with_buf. Qed.

(** What [eepromfs_readdir] finds from an entry on. *)
Definition found (entry : Z) (r : Z * option eefs_dirent_t) : Prop :=
  match r.2 with
  | Some de => exists j, is_head j /\ entry <= j < EEPROMFS_ENTRIES /\ r = (j + 1, Some (file_entry j)) /\ no_head files entry j
  | None => r.1 = EEPROMFS_ENTRIES /\ no_head files entry EEPROMFS_ENTRIES
  end.

Lemma readdir_found w entry : searched w -> 0 <= entry <= EEPROMFS_ENTRIES ->
  wp (eepromfs_readdir entry) (fun r s' => rebuf (w_eefs w0) s' /\ found entry r) (w_eefs w).
Proof.
  intros (_ & _ & _ & Hr) He. destruct mounted as (_ & Hinv & _). pose proof (fi_base _ _ Hinv) as Hwf.
  eapply wp_mono; [apply (readdir_spec _ files); [by eapply fs_inv_rebuf|done]|]. intros [idx [de|]] s' [Hs' Hde]; simpl in *.
  - destruct Hde as (f & Hf & Hle & Hidx & Hsize & Hflags & Hno). split; [by eapply rebuf_trans|].
    destruct (head_entry _ _ _ _ (fi_disk _ _ Hinv) Hf) as (Hrng & _ & _ & Hname).
    exists (f_first f). split; [by eexists _, _|]. split; [lia|]. split; [|done]. subst idx. do 2 f_equal.
    rewrite (rebuf_ent _ _ _ Hr) in Hsize, Hflags. destruct de. simpl in *. unfold file_entry. by rewrite Hname, Hsize, Hflags.
  - split; [by eapply rebuf_trans|done].
Qed.

Lemma found_unique entry r r' : found entry r -> found entry r' -> r.2 = r'.2 /\ r.1 = r'.1.
Proof.
  unfold found. destruct r as [i [de|]], r' as [i' [de'|]]; simpl.
  - intros (j & (n & f & Hf & Hj) & Hr & Heq & Hno) (j' & (n' & f' & Hf' & Hj') & Hr' & Heq' & Hno').
    assert (j = j') as ->; [|by simplify_eq]. specialize (Hno n' f' Hf'). specialize (Hno' n f Hf). lia.
  - intros (j & (n & f & Hf & Hj) & Hr & Heq & Hno) [_ Hno']. specialize (Hno' n f Hf). lia.
  - intros [_ Hno] (j & (n & f & Hf & Hj) & Hr & _). specialize (Hno n f Hf). lia.
  - by intros [-> _] [-> _].
Qed.

Lemma searched_eefs w e' : searched w -> rebuf (w_eefs w0) e' -> searched (set_w_eefs e' w).
Proof. intros (? & ? & ? & _) He. by split_and!. Qed.

Lemma part_ops_eefs w : searched w -> part_ops part w = Done eefs_ops w.
Proof.
  intros (Hp & _). destruct mounted as (Hpos & _ & p & Hl & Hf). unfold part_ops, mbind, comp_bind.
  rewrite (part_get_run part p) by (congruence || done). by rewrite Hf.
Qed.

Lemma readdir_run w entry (Q : Z * dh_t * option cbmdirent_t -> world -> Prop) : searched w -> 0 <= entry <= EEPROMFS_ENTRIES ->
  (forall r w', searched w' -> found entry r ->
    Q (match r.2 with Some _ => 0 | None => -1 end, DirH part (DirEefs r.1), eefs_dent <$> r.2) w') ->
  wp (readdir (DirH part (DirEefs entry))) Q w.
Proof.
  intros Hs He HQ. unfold readdir. rewrite wp_bind. eapply wp_intro; [by apply part_ops_eefs|cbv beta].
  change (op_readdir eefs_ops (DirH part (DirEefs entry))) with (eefs_readdir (DirH part (DirEefs entry))). unfold eefs_readdir. cbn [dh_dir]. rewrite wp_bind. unfold on_eefs at 1. rewrite wp_zoom.
  eapply wp_mono; [by apply readdir_found|]. intros [idx de] e' [Hr Hfound]. cbv beta iota. rewrite wp_ret.
  apply (HQ (idx, de)); [by apply searched_eefs|done].
Qed.

(** The directory from an entry on lists the first entries of the files. *)
Lemma eefs_lists (k : nat) : forall entry, 0 <= entry <= EEPROMFS_ENTRIES -> EEPROMFS_ENTRIES - entry <= Z.of_nat k ->
  exists js, lists searched (DirH part (DirEefs entry)) (head_dent <$> js) /\ zlen js <= EEPROMFS_ENTRIES - entry /\
    (forall j, j ∈ js <-> entry <= j /\ is_head j).
Proof.
  induction k as [k IH] using lt_wf_ind. intros entry He Hk.
  assert (searched w0) as Hs0.
  { split_and!; try done. apply rebuf_refl, mounted. }
  destruct (proj1 (wp_done _ _ _) (readdir_found w0 entry Hs0 He)) as (r0 & s' & _ & _ & Hfound).
  destruct mounted as (_ & Hinv & _). destruct r0 as [idx [de|]]; pose proof Hfound as Hf; unfold found in Hf; simpl in Hf.
  - destruct Hf as (j & Hhead & Hj & Heq & Hno). simplify_eq.
    destruct (IH (Z.to_nat (EEPROMFS_ENTRIES - (j + 1)))) with (entry := j + 1) as (js & Hl & Hlen & Hjs); [lia|lia|lia|].
    exists (j :: js). split; [|split; [rewrite zlen_cons; lia|]].
    + csimpl. apply (lists_entry _ _ (DirH part (DirEefs (j + 1)))); [|done]. intros w Hw.
      apply readdir_run; [done|done|]. intros r w' Hw' Hr. split; [|done].
      destruct (found_unique _ _ _ Hfound Hr) as [Heq2 Heq1]. destruct r as [i [de'|]]; simpl in *; by simplify_eq.
    + intros i. rewrite elem_of_cons, Hjs. split; [intros [-> |[? ?]]; split; lia || done|].
      intros [Hle Hi]. destruct (decide (i = j)) as [->|]; [by left|right]. split; [|done].
      destruct Hi as (n1 & f1 & Hf1 & <-). specialize (Hno n1 f1 Hf1). lia.
  - destruct Hf as [_ Hno]. exists []. split; [|split; [change (zlen (@nil Z)) with 0; lia|]].
    + apply lists_end. intros w Hw. apply readdir_run; [done|done|]. intros r w' Hw' Hr. split; [|done].
      destruct (found_unique _ _ _ Hfound Hr) as [Heq2 Heq1]. by destruct r as [i [de'|]].
    + intros i. split; [by intros ?%not_elem_of_nil|]. intros [Hle (n & f & Hf & <-)]. exfalso.
      destruct (head_entry _ _ _ _ (fi_disk _ _ Hinv) Hf) as [Hrng _]. specialize (Hno n f Hf). lia.
Qed.

Lemma head_dent_name j n f : files !! n = Some f -> f_first f = j ->
  UtilsTheorems.name_ok (Dirent.de_name (head_dent j)) (cbm_name n).
Proof.
  intros Hf <-. destruct mounted as (_ & Hinv & _). destruct (head_entry _ _ _ _ (fi_disk _ _ Hinv) Hf) as (Hr & _ & _ & Hn).
  unfold head_dent. rewrite <- Hn. apply dent_name_ok.
  - simpl. rewrite Hn. apply (fo_zlen _ _ _ (dk_file _ _ (fi_disk _ _ Hinv) n f Hf)).
  - simpl. apply bytes_slice, bytes_ent, Hinv.
Qed.

Lemma head_dent_length j : zlen (e_name (ent (w_eefs w0) j)) = 16 -> zlen (Dirent.de_name (head_dent j)) = 17.
Proof.
  intros Hlen. simpl. unfold terminate_filename, zlen, CBM_NAME_LENGTH in *. rewrite length_app, length_take, length_app, length_fmap, length_take, length_drop.
  replace (length (e_name (ent (w_eefs w0) j))) with 16%nat by lia. reflexivity.
Qed.

Lemma eefs_directory path : path_part path = part -> bufs_ok (w_bufs w0) ->
  exists js, directory searched path (head_dent <$> js) /\ forall j, j ∈ js <-> is_head j.
Proof.
  intros Hpath Hbufs. pose proof geom_entries.
  destruct (eefs_lists (Z.to_nat EEPROMFS_ENTRIES) 0) as (js & Hl & Hlen & Hjs); [lia|lia|]. exists js. split.
  - split.
    + exists (DirH part (DirEefs 0)). split; [done|]. intros w Hw. unfold opendir. rewrite Hpath, wp_bind.
      eapply wp_intro; [by apply part_ops_eefs|cbv beta]. simpl op_opendir. unfold eefs_opendir. rewrite wp_ret. by rewrite Hpath.
    + unfold names_fit. apply Forall_fmap, Forall_forall. intros j Hj. apply Hjs in Hj as [_ (n & f & Hf & Hj)].
      exists (cbm_name n). by apply (head_dent_name j n f).
    + rewrite length_fmap. unfold zlen in Hlen. lia.
    + intros dh w (? & ? & ? & ?). by split_and!.
    + intros w (_ & -> & _). done.
  - intros j. rewrite Hjs. split; [tauto|]. intros Hj. split; [|done]. destruct Hj as (n & f & Hf & <-).
    destruct mounted as (_ & Hinv & _). by destruct (head_entry _ _ _ _ (fi_disk _ _ Hinv) Hf) as ((? & _) & _).
Qed.
End directory.

(** ** Reading a file *)
Section reading.
Context `{FatFs} `{EepromGeomOk} `{Assertions} `{ErrorConfig} `{BufferConfig} `{SystemConfig}.
Context (s0 : eefs) (files : gmap (list Z) file) (name : list Z) (f : file).
Hypothesis inv : fs_inv s0 files.
Hypothesis has_file : files !! name = Some f.
Context (buf : Z).
Hypothesis buf_range : 0 <= buf < CONFIG_BUFFER_COUNT.

Definition size : Z := e_size (ent s0 (f_first f)).

(** Buffer [buf] is reading the file and has delivered [pos] bytes. *)
Record reading (w : world) (b : buffer_t) (fh : eefs_fh_t) (pos : Z) : Prop := {
  rd_bufs : bufs_ok (w_bufs w);
  rd_eefs : rebuf s0 (w_eefs w);
  rd_buf : buffers (w_bufs w) !! Z.to_nat buf = Some b;
  rd_refill : refill b = Some cb_eefs_refill_read;
  rd_pvt : pvt_eefh (pvt b) = Some fh;
  rd_handle : r_handle s0 f fh pos
}.

(** The block of [n] bytes up to [pos] is in the buffer. *)
Record block_ready (w : world) (b : buffer_t) (pos n : Z) : Prop := {
  br_position : position b = 2;
  br_lastused : lastused b = n + 1;
  br_data : slice (256 * buf + 2) n (bufferdata (w_bufs w)) = slice (pos - n) n (f_data s0 f);
  br_eoi : sendeoi b = (n <? 254) || (pos =? size)
}.

Lemma buf_get_eefh w b fh : buffers (w_bufs w) !! Z.to_nat buf = Some b -> pvt_eefh (pvt b) = Some fh ->
  buf_eefh buf w = Done fh w.
Proof.
  intros Hb Hp. unfold buf_eefh, mbind, comp_bind, on_bufs, zoom. rewrite (buf_get_run buf b) by (done || lia).
  rewrite Hp. by destruct w.
Qed.

(** A change of the buffer that the counters do not see. *)
Lemma wp_buf_upd g b w (Q : unit -> world -> Prop) :
  bufs_ok (w_bufs w) -> buffers (w_bufs w) !! Z.to_nat buf = Some b ->
  user_buffer (g b) = user_buffer b -> dirty_buffer (g b) = dirty_buffer b ->
  (forall w', bufs_ok (w_bufs w') -> buffers (w_bufs w') !! Z.to_nat buf = Some (g b) -> bufferdata (w_bufs w') = bufferdata (w_bufs w) ->
     w_eefs w' = w_eefs w -> Q tt w') ->
  wp (on_bufs (buf_upd buf g)) Q w.
Proof.
  intros Hok Hb Hu Hd HQ. unfold on_bufs. rewrite wp_zoom. eapply wp_intro; [apply (buf_upd_run buf g b); [lia|done]|].
  apply HQ; try done; [by apply (buf_upd_ok _ buf g b)|]. simpl. apply list_lookup_insert_eq, lookup_lt_is_Some. by eexists.
Qed.

Lemma wp_data_put off bs w (Q : unit -> world -> Prop) :
  bufs_ok (w_bufs w) -> 0 <= off -> off + zlen bs <= 256 -> bytes bs ->
  (forall w', bufs_ok (w_bufs w') -> buffers (w_bufs w') = buffers (w_bufs w) -> w_eefs w' = w_eefs w ->
     slice (256 * buf + off) (zlen bs) (bufferdata (w_bufs w')) = bs -> Q tt w') ->
  wp (on_bufs (data_put buf off bs)) Q w.
Proof.
  intros Hok Hoff Hlen Hbs HQ. unfold on_bufs. rewrite wp_zoom. eapply wp_intro; [apply data_put_run; done|].
  pose proof (bo_data _ Hok). apply HQ; try done.
  - apply bufs_ok_data; [done|rewrite zlen_splice; lia|apply bytes_splice; [done|apply Hok]].
  - apply slice_splice_same; lia.
Qed.

Lemma bytes_f_data s g : wf_base s -> bytes (f_data s g).
Proof.
  intros Hwf. apply bytes_slice. unfold content. induction (f_sectors g) as [|x l IH]; [constructor|]. csimpl.
  apply bytes_app; [apply bytes_slice, Hwf|exact IH].
Qed.

Lemma size_range : 0 <= size < 65536.
Proof.
  destruct (head_entry _ _ _ _ (fi_disk _ _ inv) has_file) as (Hh & _). unfold size. apply e_size_range; [apply inv|done].
Qed.

Lemma eefs_refill_read_spec w b fh pos : reading w b fh pos ->
  let n := Z.min 254 (size - pos) in
  wp (eefs_refill_read buf) (fun r w' => r = 0 /\ exists b' fh', reading w' b' fh' (pos + n) /\ block_ready w' b' (pos + n) n) w.
Proof.
  intros [Hok Hr Hb Hrf Hp Hh] n. pose proof (rh_range _ _ _ _ Hh) as Hrng. rewrite (rh_size _ _ _ _ Hh) in Hrng. fold size in Hrng.
  pose proof size_range as Hsize. unfold eefs_refill_read. rewrite wp_bind. eapply wp_intro; [by apply (buf_get_eefh w b fh)|cbv beta].
  rewrite wp_bind. unfold on_eefs. rewrite wp_zoom.
  eapply wp_mono; [by apply (read_spec s0 (w_eefs w) files name f fh pos 254); [..|lia]|].
  intros [[[err fh'] out] nread] e2 (-> & Hr2 & Hout & -> & Hh'). cbv beta iota. fold size in Hout, Hh'. fold n in Hout, Hh'.
  rewrite wp_bind. unfold buf_set_eefh. apply (wp_buf_upd _ b); try done. intros w1 Hok1 Hb1 Hd1 He1. simpl in He1.
  assert (zlen out = n) as Hlen.
  { rewrite Hout. apply zlen_slice; [lia..|]. rewrite (zlen_f_data s0 files name f) by done. fold size. lia. }
  assert (bytes out) as Hbytes.
  { rewrite Hout. apply bytes_slice, bytes_f_data, inv. }
  rewrite wp_bind. apply wp_data_put; [done|lia|lia|done|]. intros w2 Hok2 Hb2 He2 Hdata. rewrite decide_True by done.
  rewrite wp_bind, wp_of_option_Some, wp_bind. rewrite <- Hb2 in Hb1. eapply wp_buf_upd; [done|exact Hb1|done|done|].
  intros w3 Hok3 Hb3 Hd3 He3. rewrite wp_ret. split; [done|]. eexists _, fh'. split.
  - split; [done|by rewrite He3, He2, He1|exact Hb3|exact Hrf|done|done].
  - split; [done| |rewrite Hd3, Z.add_simpl_r, <- Hout, <- Hlen; exact Hdata|].
    + simpl. apply u8_id. lia.
    + simpl. by rewrite (rh_offset _ _ _ _ Hh'), (rh_size _ _ _ _ Hh').
Qed.

(** What a client reads: the buffer up to its last byte, then the next block
    until the end marker is set. *)
Definition drain (fuel : nat) : comp world (list Z) :=
  loop fuel (fun out =>
    b ← on_bufs (buf_get buf);
    data ← on_bufs (data_read buf (position b) (lastused b - position b + 1));
    if sendeoi b then mret (inr (out ++ data))
    else
      match refill b with
      | Some cb_eefs_refill_read =>
          r ← eefs_refill_read buf; if r =? 0 then mret (inl (out ++ data)) else stuck
      | _ => stuck
      end) [].

Lemma slice_next pos n (l : list Z) : 0 <= n <= pos -> pos <= zlen l -> slice 0 (pos - n) l ++ slice (pos - n) n l = slice 0 pos l.
Proof.
  intros Hn Hp. unfold slice. simpl drop. rewrite drop_0, <- (take_drop (Z.to_nat (pos - n)) (take (Z.to_nat pos) l)).
  rewrite take_take, skipn_firstn_comm. f_equal; f_equal; lia.
Qed.

Lemma zlen_file : zlen (f_data s0 f) = size.
Proof. by apply (zlen_f_data s0 files name f). Qed.

Lemma drain_spec w b fh n : n = Z.min 254 size -> reading w b fh n -> block_ready w b n n ->
  wp (drain 260) (fun out w' => out = f_data s0 f /\ rebuf s0 (w_eefs w')) w.
Proof.
  intros Hn Hrd Hbr. pose proof size_range as Hsize. unfold drain.
  apply (wp_loop_ghost (fun (pos : Z) out w => exists b fh n, n = Z.min 254 (size - (pos - n)) /\ 0 <= n <= pos /\ pos <= size /\
     out = slice 0 (pos - n) (f_data s0 f) /\ reading w b fh pos /\ block_ready w b pos n)
     (fun pos => Z.to_nat ((size - pos + 253) / 254))) with (g := n).
  - intros pos out w1 (b1 & fh1 & n1 & Hn1 & Hpos & Hle & Hout & Hrd1 & [Hp Hl Hd He]).
    pose proof Hrd1 as [Hok Hr Hb Hrf _ Hh]. unfold on_bufs. rewrite wp_bind, wp_zoom.
    eapply wp_intro; [apply (buf_get_run buf b1 _ ltac:(lia) Hb)|cbv beta]. rewrite set_w_bufs_same, wp_bind, wp_zoom, Hp, Hl.
    replace (n1 + 1 - 2 + 1) with n1 by lia. pose proof (bo_data _ Hok).
    eapply wp_intro; [unfold data_read, mbind, comp_bind, gets, id; rewrite load_block_some by lia; reflexivity|cbv beta].
    rewrite set_w_bufs_same, Hd. assert (out ++ slice (pos - n1) n1 (f_data s0 f) = slice 0 pos (f_data s0 f)) as Hnext.
    { rewrite Hout. apply slice_next; [lia|by rewrite zlen_file]. }
    rewrite Hnext, He. destruct ((n1 <? 254) || (pos =? size)) eqn:Eeoi.
    + rewrite wp_ret. assert (pos = size) as -> by lia. split; [by rewrite <- zlen_file, slice_all|done].
    + rewrite Hrf, wp_bind. eapply wp_mono; [by apply (eefs_refill_read_spec w1 b1 fh1 pos)|]. intros r w3 (-> & b3 & fh3 & Hrd3 & Hbr3). simpl.
      rewrite wp_ret. set (n3 := Z.min 254 (size - pos)) in *. exists (pos + n3). split.
      * exists b3, fh3, n3. rewrite Z.add_simpl_r. split_and!; try done; lia.
      * Z.to_euclidean_division_equations. lia.
  - exists b, fh, n. rewrite Z.sub_diag, Z.sub_0_r. split_and!; try done; lia.
  - Z.to_euclidean_division_equations. lia.
Qed.

(** ** Opening *)

Definition padded (fn : list Z) : list Z := fn ++ fill (16 - zlen fn) 160.

Lemma repad_padded n fn : UtilsTheorems.name_ok n fn -> zlen n = 17 ->
  exists c, repad_filename n = Some (padded fn ++ [c]).
Proof.
  intros (rest & -> & Hlen & Hf) Hn. pose proof (zlen_nonneg fn). rewrite zlen_app, zlen_cons in Hn. unfold repad_filename.
  rewrite strz_at by (by apply nonzero_string). simpl. rewrite u8_id by lia. unfold CBM_NAME_LENGTH. destruct (Z.ltb_spec 16 (zlen fn)); [lia|].
  rewrite store_block_some by (zlen_simpl; lia). unfold splice, padded.
  assert (exists c, drop (Z.to_nat (16 - zlen fn)) (0 :: rest) = [c]) as (c & Hc).
  { destruct (drop (Z.to_nat (16 - zlen fn)) (0 :: rest)) as [|c [|]] eqn:E; [..|by exists c|];
      apply (f_equal length) in E; rewrite length_drop in E; unfold zlen in *; simpl in *; lia. }
  exists c. f_equal. rewrite <- Hc, <- app_assoc. unfold fill. rewrite length_replicate. unfold zlen at 1 3. rewrite !Nat2Z.id, take_app_length.
  by rewrite drop_app_add.
Qed.

Lemma wp_eq_run {S A} (m m' : comp S A) Q s : m s = m' s -> wp m' Q s -> wp m Q s.
Proof. unfold wp. by intros ->. Qed.

Lemma r_handle_rebuf s g fh pos : rebuf s0 s -> r_handle s g fh pos -> r_handle s0 g fh pos.
Proof. intros Hr [? Hs ? ? ? ?]. split; try done. by rewrite Hs, (rebuf_ent _ _ _ Hr). Qed.

Lemma open_prefix n c flags s : zlen n = 16 -> flags <> EEFS_MODE_WRITE -> eepromfs_open (n ++ [c]) flags s = eepromfs_open n flags s.
Proof.
  intros Hn Hw. unfold eepromfs_open. destruct (Z.eqb_spec flags EEFS_MODE_WRITE); [done|].
  assert (find_entry (n ++ [c]) = find_entry n) as ->; [|done]. unfold find_entry, EEFS_NAME_LENGTH.
  rewrite !load_block_some by (rewrite ?zlen_app; change (zlen [c]) with 1; lia).
  unfold slice. rewrite !drop_0, take_app_le by (unfold zlen in Hn; lia). done.
Qed.

Lemma eefs_open_read_spec path dent fn w b :
  bufs_ok (w_bufs w) -> buffers (w_bufs w) !! Z.to_nat buf = Some b -> rebuf s0 (w_eefs w) ->
  UtilsTheorems.name_ok (Dirent.de_name dent) fn -> zlen (Dirent.de_name dent) = 17 -> name = padded fn ->
  wp (eefs_open_read path dent buf) (fun _ w' => exists b' fh, let n := Z.min 254 size in
    reading w' b' fh n /\ block_ready w' b' n n) w.
Proof.
  intros Hok Hb Hr Hfn Hlen Hname. unfold eefs_open_read. destruct (repad_padded _ _ Hfn Hlen) as (c & ->). rewrite <- Hname.
  assert (zlen name = 16) as Hn16 by apply (fo_zlen _ _ _ (dk_file _ _ (fi_disk _ _ inv) name f has_file)).
  rewrite wp_bind, wp_of_option_Some, wp_bind. unfold on_eefs. rewrite wp_zoom.
  apply (wp_eq_run _ (eepromfs_open name EEFS_MODE_READ)); [by apply open_prefix|].
  eapply wp_mono; [apply (open_read_spec _ files name EEFS_MODE_READ); [by eapply fs_inv_rebuf|done|done|done]|].
  rewrite has_file. intros [err fh] e1 [He1 [Herr Hh]]. simpl in Herr, Hh. subst err. cbv beta iota.
  rewrite wp_bind. unfold buf_set_eefh. apply (wp_buf_upd _ b); try done. intros w1 Hok1 Hb1 _ Hew1.
  rewrite wp_bind. simpl translate_error. unfold wset_error, wset_error_ts. unfold on_bufs at 1. rewrite wp_zoom.
  eapply wp_mono; [apply set_error_ok; [done|unfold ERROR_OK; lia..]|]. intros _ bs (Hok2 & Hsame & _).
  rewrite bool_decide_eq_true_2 by done. simpl when. rewrite wp_bind, wp_bind.
  assert (buffers bs !! Z.to_nat buf = Some (set_pvt (PvtEefh fh) b)) as Hb2 by (by rewrite (sp_bufs _ _ Hsame) by lia).
  eapply wp_buf_upd; [exact Hok2|exact Hb2|done|done|]. intros w3 Hok3 Hb3 _ Hew3. rewrite wp_bind. unfold stick_buffer.
  eapply wp_buf_upd; [exact Hok3|exact Hb3|done|done|]. intros w4 Hok4 Hb4 _ Hew4. rewrite wp_bind.
  eapply wp_mono; [eapply (eefs_refill_read_spec w4 _ fh 0)|].
  - split; [done| |exact Hb4|done|done|by eapply r_handle_rebuf].
    rewrite Hew4, Hew3. simpl. rewrite Hew1. simpl. by eapply rebuf_trans; [apply inv|..].
  - intros r w5 (_ & b5 & fh5 & Hrd5 & Hbr5). rewrite !wp_ret. rewrite Z.sub_0_r, Z.add_0_l in *. by exists b5, fh5.
Qed.
End reading.

(** ** Loading a file by pattern *)
Section load.
Context `{FatFs} `{EepromGeomOk} `{Assertions} `{ErrorConfig} `{BufferConfig} `{SystemConfig}.

(** What a LOAD does: find the first file, open it for reading, and read the
    buffer until the end. *)
Definition load_by_pattern (path : path_t) (pattern type buf : Z) : comp world (option (list Z)) :=
  r ← first_match path (Some pattern) type zero_dent;
  if r.1 =? 0 then open_read path r.2 buf;; out ← drain buf 260; mret (Some out) else mret None.

(** Every name is padded with shifted spaces, as the open functions leave it. *)
Definition names_padded (files : gmap (list Z) file) : Prop := forall n f, files !! n = Some f -> n = padded (cbm_name n).

Lemma load_spec w files part path pre pat post pm type buf :
  on_eeprom part w files -> names_padded files -> path_part path = part ->
  bufs_ok (w_bufs w) -> 0 <= buf < CONFIG_BUFFER_COUNT ->
  searching pre pat post pm w -> Forall (fun c => 0 < c < 256) pat ->
  (pm = true -> forall n f, files !! n = Some f -> tail_fits pat (cbm_name n)) -> Z.land type TYPE_MASK = 0 \/ Z.land type TYPE_MASK = TYPE_PRG ->
  wp (load_by_pattern path (zlen pre) type buf) (fun r w' =>
    match r with
    | Some data => exists n, view (w_eefs w) files !! n = Some data /\ glob (fold_case false) pm pat (cbm_name n) /\
        fs_inv (w_eefs w') files /\ view (w_eefs w') files = view (w_eefs w) files
    | None => (forall n data, view (w_eefs w) files !! n = Some data -> ~ glob (fold_case false) pm pat (cbm_name n)) /\
        current_error (channel (w_bufs w')) = ERROR_FILE_NOT_FOUND
    end) w.
Proof.
  intros Hm Hpad Hpath Hok Hbuf Hsearch Hpat Htails Htype. pose proof Hm as (Hpos & Hinv & p & Hl & Hfop).
  destruct (eefs_directory part w files Hm path Hpath Hok) as (js & Hdir & Hjs). unfold load_by_pattern. rewrite wp_bind.
  assert (forall j, wanted pat pm type None None (head_dent w j) <-> exists fn, UtilsTheorems.name_ok (Dirent.de_name (head_dent w j)) fn /\
    glob (fold_case false) pm pat fn) as Hwanted.
  { intros j. unfold wanted. assert (skip_type type (head_dent w j) = false) as Hskip.
    { unfold skip_type, head_dent. simpl. destruct Htype as [-> | ->]; done. }
    apply skip_type_spec in Hskip as [Hr Hv]. unfold in_period.
    split; [intros (_ & _ & _ & Hg); exact Hg|]. intros Hg. split_and!; done. }
  eapply wp_mono; [apply (first_match_spec pre pat post pm type (searched w)); [|done|done|..]|].
  - intros w1 (_ & Hb & Hc & _). unfold searching in *. by rewrite Hb, Hc.
  - intros Hpm. apply Forall_fmap, Forall_forall. intros j Hj fn Hfn. apply Hjs in Hj as (n & f & Hf & Hj).
    rewrite (name_ok_inj _ _ _ Hfn (head_dent_name _ w files Hm j n f Hf Hj)). by apply (Htails Hpm n f).
  - split_and!; try done. apply rebuf_refl, Hinv.
  - intros [res e] w1 [(e' & es1 & es2 & Heq & Hes & Hw & _ & Hs1 & _)|(Hres & Hno & Herr)].
    + simplify_eq. cbv beta iota. simpl fst. simpl snd. change (0 =? 0) with true. cbv iota.
      assert (exists j, e' = head_dent w j /\ is_head files j) as (j & -> & n & f & Hf & Hj).
      { assert (e' ∈ head_dent w <$> js) as (j & -> & Hj)%list_elem_of_fmap by (rewrite Hes; set_solver). exists j. by rewrite <- Hjs. }
      apply Hwanted in Hw as (fn & Hfn & Hg). pose proof (head_dent_name _ w files Hm j n f Hf Hj) as Hfn'.
      assert (fn = cbm_name n) as -> by (by eapply name_ok_inj). pose proof Hs1 as (Hp1 & Hb1 & _ & Hr1).
      destruct (buf_in (w_bufs w1) buf ltac:(by rewrite Hb1) ltac:(lia)) as [b Hb].
      rewrite wp_bind. unfold open_read. rewrite wp_bind. eapply wp_intro; [by apply (part_ops_eefs _ w files Hm)|cbv beta].
      change (op_open_read eefs_ops path (head_dent w j) buf) with (eefs_open_read path (head_dent w j) buf).
      eapply wp_mono; [apply (eefs_open_read_spec (w_eefs w) files n f Hinv Hf buf Hbuf path _ (cbm_name n) w1 b)|];
        [by rewrite Hb1|done|done|done| |by apply (Hpad n f)|].
      { apply head_dent_length. destruct (dk_file _ _ (fi_disk _ _ Hinv) n f Hf) as [_ Hlen Hn _]. by rewrite <- Hj, Hn. }
      intros _ w2 (b2 & fh2 & Hrd & Hbr). cbv zeta in Hrd, Hbr. rewrite wp_bind.
      eapply wp_mono; [by apply (drain_spec (w_eefs w) files n f Hinv Hf buf Hbuf w2 b2 fh2 (Z.min 254 (size (w_eefs w) f)))|].
      intros out w3 [-> Hr3]. rewrite wp_ret. exists n. rewrite view_lookup, Hf. split; [done|]. split; [done|].
      split; [by eapply fs_inv_rebuf|by apply view_rebuf].
    + simpl in Hres. subst res. cbv beta. simpl fst. change (-1 =? 0) with false. cbv iota. rewrite wp_ret. split; [|done].
      intros n data Hv Hg. rewrite view_lookup in Hv. apply fmap_Some in Hv as (f & Hf & _).
      assert (f_first f ∈ js) as Hin by (apply Hjs; by exists n, f). rewrite Forall_fmap, Forall_forall in Hno.
      apply (Hno _ Hin). apply Hwanted. exists (cbm_name n). split; [by apply (head_dent_name _ w files Hm _ n f)|done].
Qed.
End load.

(** ** Properties *)

(** C4: Loading from the EEPROM works end to end: first_match over the directory
    of the file system, opening the entry and reading the buffer until its end
    marker deliver exactly the contents of a file whose name matches the
    pattern, with the POSTMATCH flag on or off; when no name matches, the
    result is FILE NOT FOUND.  Nothing is written.  The type asked for is PRG or any,
    which is the type of every file on the EEPROM; the names are padded with
    shifted spaces and have none (and no zero) in front of the padding, since
    the directory entry ends at the first one and is then not found again
    (eefs-ops.c:75); with POSTMATCH on no name is shorter than the part of
    the pattern behind its first star; and the pool has at most 15 buffers
    ([bufs_ok]). *)
Theorem eefs_load_by_pattern `{FatFs} `{EepromGeomOk} `{Assertions} `{ErrorConfig} `{BufferConfig} `{SystemConfig}
    (w : world) (files : gmap (list Z) file) part path pre pat post pm type buf :
  on_eeprom part w files -> names_padded files -> path_part path = part ->
  bufs_ok (w_bufs w) -> 0 <= buf < CONFIG_BUFFER_COUNT ->
  searching pre pat post pm w -> Forall (fun c => 0 < c < 256) pat ->
  (pm = true -> forall n f, files !! n = Some f -> tail_fits pat (cbm_name n)) -> Z.land type TYPE_MASK = 0 \/ Z.land type TYPE_MASK = TYPE_PRG ->
  wp (load_by_pattern path (zlen pre) type buf) (fun r w' =>
    match r with
    | Some data => exists n, view (w_eefs w) files !! n = Some data /\ glob (fold_case false) pm pat (cbm_name n) /\
        fs_inv (w_eefs w') files /\ view (w_eefs w') files = view (w_eefs w) files
    | None => (forall n data, view (w_eefs w) files !! n = Some data -> ~ glob (fold_case false) pm pat (cbm_name n)) /\
        current_error (channel (w_bufs w')) = ERROR_FILE_NOT_FOUND
    end) w.
Proof. intros. by apply (load_spec w files part path pre pat post pm type buf). Qed.

(** The file HELLO on an EEPROM, and a command buffer with the pattern HE*. *)
#[local] Existing Instance sample_asserts.
#[local] Existing Instance avr_geom.
#[local] Existing Instance demo_config.
#[local] Existing Instance six_buffers.

Definition hello : list Z := [72; 69; 76; 76; 79] ++ fill 11 160.
Definition he_pattern : list Z := [72; 69; 42].
Definition start_matching (s : bufs) : bufs :=
  let e := channel s in
  put_channel {| current_error := current_error e; error_buffer := error_buffer e; err_lastused := err_lastused e;
    err_position := err_position e; led_error := led_error e; globalflags := Z.lor EXTENSION_HIDING POSTMATCH;
    file_extension_mode := file_extension_mode e; image_as_dir := image_as_dir e; rom_filename := rom_filename e;
    drive_config := drive_config e |} s.
Definition hello_world (e : eefs) : world :=
  let w := start_world tt Ram.no_file eefsops e in
  set_w_bufs (start_matching (w_bufs w)) (set_w_dos (set_command_buffer (36 :: he_pattern ++ 0 :: fill 251 0) (w_dos w)) w).

Lemma start_matching_ok s : bufs_ok s -> bufs_ok (start_matching s).
Proof. intros [? ? ? ? ? ? ? ? [? ? ? ? ? ?]]. by split. Qed.

Lemma hello_save_ok : saved_ok (run_op (OpSave hello sample_data) sample0) sample_data = true.
Proof. by vm_compute. Qed.

Lemma hello_ok : EepromFsTheorems.name_ok hello.
Proof. split; [done|]. repeat (apply Forall_cons; split; [done|]). apply Forall_nil_2. Qed.

Lemma hello_on_eeprom : exists s (files : gmap (list Z) file),
  on_eeprom 0 (hello_world s) files /\ names_padded files /\ view s files = {[hello := sample_data]}.
Proof.
  destruct sample_data_ok as [Hb Hl].
  destruct (saved_view sample0 ∅ hello sample_data blank_inv hello_ok Hb Hl hello_save_ok) as (s & files & Hinv & Hv).
  exists s, files. split; [split; [lia|]; split; [done|by eexists]|]. unfold view in Hv at 2. rewrite fmap_empty in Hv. split; [|done].
  intros n f Hf. assert (view s files !! n = Some (f_data s f)) as Hvn by (by rewrite view_lookup, Hf).
  rewrite Hv in Hvn. apply lookup_singleton_Some in Hvn as [<- _]. reflexivity.
Qed.

Lemma hello_searched s : let w := hello_world s in searching [36] he_pattern (fill 251 0) true w /\ bufs_ok (w_bufs w).
Proof.
  split; [split; [reflexivity|by vm_compute]|]. apply start_matching_ok, demo_bufs_ok. repeat constructor.
Qed.

Lemma he_fits fn : tail_fits he_pattern fn.
Proof.
  apply (tail_fits_first [72; 69] []); [by apply not_elem_of_cons; split; [|apply not_elem_of_cons; split; [|apply not_elem_of_nil]]|].
  apply zlen_nonneg.
Qed.

Lemma eefs_load_by_pattern_witness : exists s (files : gmap (list Z) file), view s files = {[hello := sample_data]} /\
  wp (load_by_pattern (Path 0 0 0 0) 1 FLAG_HIDDEN 2) (fun r w' =>
    match r with
    | Some data => exists n, view s files !! n = Some data /\ glob (fold_case false) true he_pattern (cbm_name n) /\
        fs_inv (w_eefs w') files /\ view (w_eefs w') files = view s files
    | None => (forall n data, view s files !! n = Some data -> ~ glob (fold_case false) true he_pattern (cbm_name n)) /\
        current_error (channel (w_bufs w')) = ERROR_FILE_NOT_FOUND
    end) (hello_world s).
Proof.
  destruct hello_on_eeprom as (s & files & Hm & Hpad & Hv). exists s, files. split; [exact Hv|].
  refine (eefs_load_by_pattern (hello_world s) files 0 (Path 0 0 0 0) [36] he_pattern (fill 251 0) true FLAG_HIDDEN 2 Hm Hpad eq_refl _ _ _ _ _ (or_introl eq_refl)).
  - apply hello_searched.
  - split; [discriminate|reflexivity].
  - apply hello_searched.
  - repeat constructor.
  - intros _ n f _. apply he_fits.
Defined.

Lemma first_match_finds_first_witness : exists s es, es <> [] /\
  wp (first_match (Path 0 0 0 0) (Some 1) FLAG_HIDDEN zero_dent) (fun r w' =>
    (exists e es1 es2, r = (0, e) /\ es = es1 ++ e :: es2 /\ matches he_pattern true FLAG_HIDDEN e) \/
    (r.1 = -1 /\ Forall (fun e => ~ matches he_pattern true FLAG_HIDDEN e) es /\ current_error (channel (w_bufs w')) = ERROR_FILE_NOT_FOUND))
    (hello_world s).
Proof.
  destruct hello_on_eeprom as (s & files & Hm & _ & Hv). destruct (hello_searched s) as [Hs Hb].
  destruct (eefs_directory 0 (hello_world s) files Hm (Path 0 0 0 0) eq_refl Hb) as (js & Hdir & Hjs).
  exists s, (head_dent (hello_world s) <$> js). split.
  - assert (exists f, files !! hello = Some f) as [f Hf].
    { apply (f_equal (fun v => v !! hello)) in Hv. rewrite view_lookup, lookup_singleton_eq in Hv.
      destruct (files !! hello) as [f|]; [by exists f|done]. }
    assert (f_first f ∈ js) as Hin by (apply Hjs; by exists hello, f). destruct js; [by apply not_elem_of_nil in Hin|done].
  - eapply wp_mono; [refine (first_match_finds_first [36] he_pattern (fill 251 0) true FLAG_HIDDEN (searched (hello_world s))
      (Path 0 0 0 0) _ zero_dent (hello_world s) _ _ Hdir _ _)|].
    + intros w1 (_ & Hb1 & Hc & _). unfold searching in *. by rewrite Hb1, Hc.
    + repeat constructor.
    + intros _. apply Forall_forall. intros e _ fn _. apply he_fits.
    + split_and!; try done. apply rebuf_refl, Hm.
    + intros r w' [(e & es1 & es2 & ? & ? & ? & _)|Hno]; [left; by exists e, es1, es2|by right].
Defined.
