(* ===== verification/DirLinesTheorems.v ===== *)
(** * fileops.c: theorems on the lines of a directory listing

    A line is a line of a BASIC program: a link and a line number, which is
    the block count, then text up to a zero byte.  [basic_line] says that the
    text has no zero byte before its end and that the bytes below [lo] are
    those of [m0]. *)

From S2P Require Import Prelude EepromFs ErrorMsg Utils UtilsTheorems Buffers FatFs Dirent D64Geom FatNames FatNamesTheorems DirLines.

Section lines.
Context (e lo : Z) (m0 : list Z).
Hypothesis e_range : 4 <= lo <= e /\ e < 256.

(** Every byte of the text but those from [a] to [b - 1] is there. *)
Record text_but (a b : Z) (m : list Z) : Prop := {
  tb_length : zlen m = 256;
  tb_end : nthZ m e = 0;
  tb_text : forall i, 4 <= i < e -> i < a \/ b <= i -> nthZ m i <> 0;
  tb_frame : forall i, 0 <= i < lo -> nthZ m i = nthZ m0 i
}.
Definition basic_line (m : list Z) : Prop := text_but e e m.

Lemma wp_put_block p bs m (Q : unit -> list Z -> Prop) :
  0 <= p -> p + zlen bs <= zlen m -> Q tt (splice p bs m) -> wp (put_block p bs) Q m.
Proof.
  intros Hp Hl HQ. unfold put_block. rewrite wp_bind, wp_gets, wp_bind. unfold id.
  by rewrite store_block_some, wp_of_option_Some, wp_modify by lia.
Qed.

Lemma wp_poke_any p x m (Q : unit -> list Z -> Prop) :
  0 <= p < zlen m -> Q tt (splice p [x] m) -> wp (poke p x) Q m.
Proof.
  intros Hp HQ. unfold poke. rewrite wp_bind, wp_gets, wp_bind. unfold id.
  by rewrite store_some, wp_of_option_Some, wp_modify by lia.
Qed.

Lemma wp_peek p m (Q : Z -> list Z -> Prop) : 0 <= p < zlen m -> Q (nthZ m p) m -> wp (peek p) Q m.
Proof. intros Hp HQ. unfold peek. rewrite wp_bind, wp_gets. unfold id. by rewrite load_some, wp_of_option_Some. Qed.

(** Writing bytes of text. *)
Lemma text_splice a b p bs m : text_but a b m -> lo <= p -> p + zlen bs <= e -> Forall (fun c => c <> 0) bs ->
  text_but a b (splice p bs m).
Proof.
  intros [Hl He Ht Hf] Hp Hle Hbs. pose proof (zlen_nonneg bs).
  assert (forall i, 0 <= i < p \/ e <= i -> nthZ (splice p bs m) i = nthZ m i) as Hout.
  { intros i Hi. rewrite nthZ_splice by lia. case_bools; lia || done. }
  split; [by rewrite zlen_splice by lia|by rewrite Hout by lia| |intros i Hi; rewrite Hout by lia; apply Hf; lia].
  intros i Hi Hab. rewrite nthZ_splice by lia. case_bools; try by apply Ht.
  rewrite Forall_forall in Hbs. apply Hbs. apply (list_elem_of_lookup_2 _ (Z.to_nat (i - p))), nthZ_lookup. lia.
Qed.

Lemma wp_text_block a b p bs m (Q : unit -> list Z -> Prop) :
  text_but a b m -> lo <= p -> p + zlen bs <= e -> Forall (fun c => c <> 0) bs ->
  (forall m', text_but a b m' -> Q tt m') -> wp (put_block p bs) Q m.
Proof.
  intros Hm Hp Hle Hbs HQ. apply wp_put_block; [lia|rewrite (tb_length _ _ _ Hm); lia|]. by apply HQ, text_splice.
Qed.

Lemma wp_text_poke a b p x m (Q : unit -> list Z -> Prop) :
  text_but a b m -> lo <= p < e -> x <> 0 -> (forall m', text_but a b m' -> Q tt m') -> wp (poke p x) Q m.
Proof.
  intros Hm Hp Hx HQ. apply wp_poke_any; [rewrite (tb_length _ _ _ Hm); lia|].
  apply HQ, text_splice; [done|lia|zlen_simpl; lia|by constructor].
Qed.

(** A number below 100 has two digits. *)
Lemma wp_text_number a b p v m (Q : Z -> list Z -> Prop) :
  text_but a b m -> lo <= p -> p + 2 <= e -> 0 <= v < 100 -> (forall m', text_but a b m' -> Q (p + 2) m') -> wp (put_number p v) Q m.
Proof.
  intros Hm Hp Hle Hv HQ. destruct (appendnumber_digits v ltac:(lia)) as (Hd & _ & _ & _).
  assert (zlen (appendnumber [] v) = 2) as Hlen.
  { apply Z.eqb_eq, (byte_implies (fun v => v <? 100) (fun v => zlen (appendnumber [] v) =? 2)); [lia|by vm_compute|apply Z.ltb_lt; lia]. }
  unfold put_number. rewrite wp_bind. eapply wp_text_block; [exact Hm|lia|lia| |].
  - eapply Forall_impl; [exact Hd|]. intros c Hc. unfold isdigit in Hc. lia.
  - intros m' Hm'. rewrite wp_ret, Hlen. by apply HQ.
Qed.

(** The rest of the line is filled up to its end. *)
Lemma wp_fill_ones p m (Q : unit -> list Z -> Prop) :
  basic_line m -> lo <= p <= e -> (forall m', basic_line m' -> Q tt m') -> wp (fill_ones p) Q m.
Proof.
  intros Hm Hp HQ. unfold fill_ones. rewrite wp_bind, wp_gets. unfold id.
  apply (wp_loop (fun p m => basic_line m /\ lo <= p <= e) (fun p _ => Z.to_nat (e - p))).
  - intros p' m' [Hm' Hp']. rewrite wp_bind. apply wp_peek; [rewrite (tb_length _ _ _ Hm'); lia|].
    destruct (decide (p' = e)) as [->|].
    + rewrite (tb_end _ _ _ Hm'). change (negb (0 =? 0)) with false. cbv iota. rewrite wp_ret. by apply HQ.
    + pose proof (tb_text _ _ _ Hm' p' ltac:(lia) ltac:(lia)). destruct (Z.eqb_spec (nthZ m' p') 0); [done|].
      cbv beta iota delta [negb]. rewrite wp_bind. eapply wp_text_poke; [exact Hm'|lia|done|]. intros m2 Hm2. rewrite wp_ret.
      split; [split; [done|lia]|lia].
  - done.
  - pose proof (tb_length _ _ _ Hm). unfold zlen in *. lia.
Qed.

(** The name and its closing quote. *)
Lemma name_end_spec n name : 0 <= name_end n name <= Z.of_nat n /\ forall j, 0 <= j < name_end n name -> nthZ name j <> 0.
Proof.
  revert name. induction n as [|n IH]; intros name; [simpl; split; [lia|intros; lia]|].
  destruct name as [|c name]; simpl; [split; [lia|intros; lia]|]. destruct (Z.eqb_spec c 34); [split; [simpl; lia|simpl; intros; lia]|].
  destruct (Z.eqb_spec c 0); [split; [simpl; lia|simpl; intros; lia]|]. cbv beta iota delta [orb].
  destruct (IH name) as [Hr Hn]. split; [lia|]. intros j Hj. rewrite nthZ_cons by lia. destruct (Z.eqb_spec j 0) as [->|]; [done|].
  apply Hn. lia.
Qed.

Lemma printable c : 0 <= c < 256 -> c <> 128 -> (if c =? 0 then 32 else Z.land c 127) <> 0.
Proof.
  intros Hc Hne Hz. pose proof (byte_implies (fun c => negb (c =? 128)) (fun c => negb ((if c =? 0 then 32 else Z.land c 127) =? 0)) c Hc ltac:(by vm_compute)) as Hb.
  cbv beta in Hb. rewrite Hz in Hb. destruct (Z.eqb_spec c 128); [done|]. by specialize (Hb eq_refl).
Qed.

Lemma wp_put_name d name m (Q : unit -> list Z -> Prop) :
  let k := name_end 16 name in
  basic_line m -> lo <= d -> d + 17 <= e -> 16 <= zlen name -> bytes name -> (forall j, k < j < 16 -> nthZ name j <> 128) -> nthZ m (d + 16) = 32 ->
  (forall m', basic_line m' -> slice d k m' = slice 0 k name -> nthZ m' (d + k) = 34 -> Q tt m') -> wp (put_name d name) Q m.
Proof.
  intros k Hm Hd Hde Hlen Hbytes H128 Hspace HQ. destruct (name_end_spec 16 name) as [Hk Hnz]. fold k in Hk, Hnz.
  pose proof (tb_length _ _ _ Hm) as Hml. unfold put_name, CBM_NAME_LENGTH. rewrite load_block_some by lia.
  rewrite wp_bind, wp_of_option_Some. set (bs := slice 0 16 name). assert (zlen bs = 16) as Hbs by (apply zlen_slice; lia).
  rewrite wp_bind. apply wp_put_block; [lia|lia|]. cbv zeta. fold k. set (m1 := splice d bs m).
  assert (zlen m1 = 256) as Hm1 by (unfold m1; rewrite zlen_splice; lia).
  assert (forall i, 0 <= i -> nthZ m1 i = if (d <=? i) && (i <? d + 16) then nthZ name (i - d) else nthZ m i) as Hn1.
  { intros i Hi. unfold m1. rewrite nthZ_splice, Hbs by lia. destruct ((d <=? i) && (i <? d + 16)) eqn:E; [|done].
    unfold bs. rewrite nthZ_slice by lia. f_equal. }
  rewrite wp_bind. apply wp_poke_any; [lia|]. set (m2 := splice (d + k) [34] m1).
  assert (zlen m2 = 256) as Hm2 by (unfold m2; rewrite zlen_splice; zlen_simpl; lia).
  assert (forall i, 0 <= i -> nthZ m2 i = if i =? d + k then 34 else nthZ m1 i) as Hn2.
  { intros i Hi. unfold m2. rewrite nthZ_splice by (zlen_simpl; lia). change (zlen [34]) with 1.
    destruct (Z.eqb_spec i (d + k)) as [->|]; [by rewrite Z.sub_diag, Z.leb_refl, (proj2 (Z.ltb_lt _ _)) by lia|]. case_bools; lia || done. }
  assert (forall c, 0 <= c < 256 -> c <> 128 -> (if c =? 0 then 32 else Z.land c 127) <> 0) as Hbyte by (intros c Hc Hne; by apply printable).
  assert (forall i, k <= i <= 16 -> 0 <= nthZ m2 (d + i) < 256 /\ nthZ m2 (d + i) <> 128 /\ (i = k -> nthZ m2 (d + i) = 34)) as Hold.
  { intros i Hi. rewrite Hn2, Hn1 by lia. destruct (Z.eqb_spec (d + i) (d + k)); [lia|].
    destruct (decide (i = 16)) as [->|]; [replace ((d <=? d + 16) && (d + 16 <? d + 16)) with false by lia; rewrite Hspace; lia|].
    replace ((d <=? d + i) && (d + i <? d + 16)) with true by lia. replace (d + i - d) with i by lia.
    pose proof (bytes_nthZ name i Hbytes) as Hb. split; [exact Hb|]. split; [apply H128; lia|lia]. }
  apply (wp_for_range (fun i (_ : unit) m' => zlen m' = 256 /\
    (forall j, 0 <= j -> j < d + k \/ d + i <= j -> nthZ m' j = nthZ m2 j) /\
    (forall j, d + k <= j < d + i -> nthZ m' j <> 0) /\ (k < i -> nthZ m' (d + k) = 34)));
    [|intros [] m' (Hl' & Hsame & Htext & Hq)|split; [done|]; split; [done|split; intros; lia]].
  - intros i u m' Hi (Hl' & Hsame & Htext & Hq). rewrite wp_bind. apply wp_peek; [lia|].
    rewrite (Hsame (d + i)) by lia. destruct (Hold i ltac:(lia)) as (Hrng & Hne & H34). apply wp_poke_any; [lia|].
    assert (forall j, 0 <= j -> nthZ (splice (d + i) [if nthZ m2 (d + i) =? 0 then 32 else Z.land (nthZ m2 (d + i)) 127] m') j =
      if j =? d + i then (if nthZ m2 (d + i) =? 0 then 32 else Z.land (nthZ m2 (d + i)) 127) else nthZ m' j) as Hn.
    { intros j Hj. rewrite nthZ_splice by (zlen_simpl; lia). change (zlen [_]) with 1.
      destruct (Z.eqb_spec j (d + i)) as [->|]; [by rewrite Z.sub_diag, Z.leb_refl, (proj2 (Z.ltb_lt _ _)) by lia|]. case_bools; lia || done. }
    split; [rewrite zlen_splice; zlen_simpl; lia|]. split; [|split].
    + intros j Hj Hor. rewrite Hn by lia. destruct (Z.eqb_spec j (d + i)); [lia|]. apply Hsame; lia.
    + intros j Hj. rewrite Hn by lia. destruct (Z.eqb_spec j (d + i)); [by apply Hbyte|]. apply Htext. lia.
    + intros Hki. rewrite Hn by lia. destruct (Z.eqb_spec (d + k) (d + i)); [|apply Hq; lia]. rewrite H34 by lia. done.
  - replace (k + Z.of_nat (Z.to_nat (16 + 1 - k))) with 17 in * by lia. apply HQ; [|apply nthZ_ext; [rewrite !zlen_slice; lia|]|apply Hq; lia].
    + split; [done| | |].
      * rewrite Hsame, Hn2, Hn1 by lia. destruct (Z.eqb_spec e (d + k)); [lia|]. replace ((d <=? e) && (e <? d + 16)) with false by lia. apply Hm.
      * intros i Hi _. destruct (decide (d + k <= i < d + 17)); [by apply Htext|]. rewrite Hsame, Hn2, Hn1 by lia.
        destruct (Z.eqb_spec i (d + k)); [lia|]. destruct ((d <=? i) && (i <? d + 16)) eqn:E; [apply Hnz; lia|apply (tb_text _ _ _ Hm); lia].
      * intros i Hi. rewrite Hsame, Hn2, Hn1 by lia. destruct (Z.eqb_spec i (d + k)); [lia|].
        replace ((d <=? i) && (i <? d + 16)) with false by lia. by apply Hm.
    + rewrite zlen_slice by lia. intros i Hi. rewrite !nthZ_slice, Hsame, Hn2, Hn1 by lia. destruct (Z.eqb_spec (d + i) (d + k)); [lia|].
      replace ((d <=? d + i) && (d + i <? d + 16)) with true by lia. f_equal. lia.
Qed.
End lines.

(** ** The whole line *)
Section entry.
Context (dent : cbmdirent_t) (format : Z).
Hypothesis format_range : format = DIR_FMT_CBM \/ format = DIR_FMT_CMD_SHORT \/ format = DIR_FMT_CMD_LONG.

(** The entries that make a line: a size of 16 bits, a name of bytes in its
    array, a date of two-digit fields; bit 3 of the type must not be set with
    bit 2 (the table of types has 12 rows), and no byte 128 may follow the end
    of the name (the bytes there lose bit 7, and a zero ends the line).
    FileOpsTheorems.v says which entries of a disk image are of this kind
    ([d64_entry_ok]) and shows two that are not ([d64_entry_breaks_line]). *)
Record entry_ok : Prop := {
  en_size : 0 <= de_blocksize dent < 65536;
  en_name : 16 <= zlen (de_name dent) /\ bytes (de_name dent);
  en_quoted : forall j, name_end 16 (de_name dent) < j < 16 -> nthZ (de_name dent) j <> 128;
  en_type : Z.land (de_typeflags dent) EXT_TYPE_MASK < 12;
  en_date : let d := de_date dent in 0 <= month d < 100 /\ 0 <= day d < 100 /\ 0 <= hour d < 100 /\ 0 <= minute d < 100
}.
Hypothesis ok : entry_ok.

(** Where the name starts. *)
Definition name_start : Z :=
  let size := de_blocksize dent in 5 + (if size <? 1000 then 1 else 0) + (if size <? 100 then 1 else 0) + (if size <? 10 then 1 else 0).

Lemma name_start_range : 5 <= name_start <= 8.
Proof. unfold name_start. case_bools; lia. Qed.

Lemma line_end_cases : line_end format = 31 /\ format = DIR_FMT_CBM \/ line_end format = 41 /\ format = DIR_FMT_CMD_SHORT \/ line_end format = 63 /\ format = DIR_FMT_CMD_LONG.
Proof. destruct format_range as [-> | [-> | ->]]; auto. Qed.

(** The blanked line with the block count. *)
Record blank_line (m : list Z) : Prop := {
  bl_length : zlen m = 256;
  bl_end : nthZ m (line_end format) = 0;
  bl_text : forall i, 4 <= i < line_end format -> nthZ m i = if i =? name_start - 1 then 34 else 32;
  bl_link : nthZ m 1 = 1;
  bl_count : nthZ m 2 + 256 * nthZ m 3 = de_blocksize dent
}.

Lemma nthZ_put p x m i : 0 <= p < zlen m -> 0 <= i -> nthZ (splice p [x] m) i = if i =? p then x else nthZ m i.
Proof.
  intros Hp Hi. rewrite nthZ_splice by (zlen_simpl; lia). change (zlen [x]) with 1.
  destruct (Z.eqb_spec i p) as [->|]; [by rewrite Z.sub_diag, Z.leb_refl, (proj2 (Z.ltb_lt _ _)) by lia|]. case_bools; lia || done.
Qed.

Lemma zlen_put p x (m : list Z) : 0 <= p < zlen m -> zlen (splice p [x] m) = zlen m.
Proof. intros Hp. apply zlen_splice; [lia|]. change (zlen [x]) with 1. lia. Qed.

Lemma blank_line_put m r : zlen m = 256 ->
  let size := de_blocksize dent in let e := line_end format in
  blank_line (splice (name_start - 1) [34] (splice 3 [Z.shiftr size 8] (splice 2 [Z.land size 255] (splice 1 [1]
    (splice 0 [r] (splice e [0] (splice 0 (fill e 32) m))))))).
Proof.
  intros Hm size e. pose proof name_start_range as Hs. pose proof (en_size ok) as Hsize. fold size in Hsize.
  assert (31 <= e <= 63) as He by (unfold e; destruct line_end_cases as [[-> _]|[[-> _]|[-> _]]]; lia).
  set (m1 := splice 0 (fill e 32) m). assert (zlen m1 = 256) as Hl1 by (unfold m1; rewrite zlen_splice; zlen_simpl; lia).
  assert (forall i, 0 <= i -> nthZ m1 i = if i <? e then 32 else nthZ m i) as Hn1.
  { intros i Hi. unfold m1. rewrite nthZ_splice by (zlen_simpl; lia). zlen_simpl. case_bools; first [lia | rewrite nthZ_fill; lia | done]. }
  repeat match goal with |- context [splice ?p [?x] ?l] =>
    lazymatch l with context [splice _ [_] _] => fail | _ => idtac end;
    let l' := fresh "l" in let Hl := fresh "Hl" in let Hn := fresh "Hn" in
    assert (zlen (splice p [x] l) = 256) as Hl by (rewrite zlen_put; lia);
    pose proof (fun i => nthZ_put p x l i ltac:(lia)) as Hn;
    set (l' := splice p [x] l) in *; clearbody l' end.
  assert (Z.land size 255 + 256 * Z.shiftr size 8 = size) as Hcount.
  { change 255 with (Z.ones 8). rewrite Z.land_ones, Z.shiftr_div_pow2 by lia. pose proof (Z.div_mod size (2 ^ 8) ltac:(lia)). lia. }
  unfold e in *. split; [done| | | |]; [|intros i Hi| |]; rewrite ?Hn5, ?Hn4, ?Hn3, ?Hn2, ?Hn0, ?Hn, ?Hn1 by lia;
    repeat match goal with
    | |- context [?a =? ?b] => destruct (Z.eqb_spec a b)
    | |- context [?a <? ?b] => destruct (Z.ltb_spec a b)
    end; lia.
Qed.

(** What is put behind the name, at [p]. *)
Definition entry_tail (iec : bool) (p : Z) : comp (list Z) unit :=
  when (negb (Z.land (de_typeflags dent) FLAG_SPLAT =? 0)) (poke p 42);;
  letters ← of_option (load_block filetypes (TYPE_LENGTH * Z.land (de_typeflags dent) EXT_TYPE_MASK)
              (if negb (Z.land format DIR_FMT_CMD_SHORT =? 0) then 1 else TYPE_LENGTH));
  put_block (p + 1) letters;;
  when (negb (Z.land (de_typeflags dent) FLAG_RO =? 0)) (poke (p + 4) 60);;
  if negb (Z.land format DIR_FMT_CMD_LONG =? 0) then put_long_date (p + 7) (de_date dent)
  else if format =? DIR_FMT_CMD_SHORT then put_short_date iec (p + 3) (de_date dent)
  else when (negb (Z.land (de_typeflags dent) FLAG_HIDDEN =? 0)) (poke (p + 5) 72).

(** The next write of a constant or a number. *)
Ltac text_step :=
  first [ eapply wp_text_number; [|eassumption|..]; [lia|lia|lia|lia|]
        | eapply wp_text_poke; [|eassumption|..]; [lia|lia|done|] ];
  intros.

Section tail.
Context (p : Z) (m0 : list Z).
Hypothesis p_range : 22 <= p <= 25.
Notation line := (basic_line (line_end format) p m0).

Lemma wp_when (b : bool) (c : comp (list Z) unit) m (Q : unit -> list Z -> Prop) :
  (b = true -> wp c Q m) -> (b = false -> Q tt m) -> wp (when b c) Q m.
Proof. destruct b; simpl; [by intros Hc _; apply Hc|by intros _ Hm; apply Hm]. Qed.

Lemma wp_long_date m (Q : unit -> list Z -> Prop) : format = DIR_FMT_CMD_LONG -> line m -> (forall m', line m' -> Q tt m') ->
  wp (put_long_date (p + 7) (de_date dent)) Q m.
Proof.
  intros Hf Hm HQ. destruct (en_date ok) as (Hmo & Hda & Hho & Hmi). destruct line_end_cases as [[He Hx]|[[He Hx]|[He _]]]; [by rewrite Hf in Hx..|].
  assert (0 <= hour12 (de_date dent) < 100) as Hh by (unfold hour12; case_bools; lia). pose proof (Z.mod_pos_bound (year (de_date dent)) 100 ltac:(lia)).
  assert (am_pm (de_date dent) <> 0) as Hap by (unfold am_pm; case_bools; lia).
  unfold put_long_date. rewrite He in *. do 10 (rewrite wp_bind; text_step). apply wp_fill_ones with (e := 63) (lo := p) (m0 := m0); [lia|done|lia|done].
Qed.

Lemma wp_short_date iec m (Q : unit -> list Z -> Prop) : format = DIR_FMT_CMD_SHORT -> line m -> (forall m', line m' -> Q tt m') ->
  wp (put_short_date iec (p + 3) (de_date dent)) Q m.
Proof.
  intros Hf Hm HQ. destruct (en_date ok) as (Hmo & Hda & Hho & Hmi). destruct line_end_cases as [[He Hx]|[[He _]|[He Hx]]]; [by rewrite Hf in Hx| |by rewrite Hf in Hx].
  assert (0 <= hour12 (de_date dent) < 100) as Hh by (unfold hour12; case_bools; lia).
  assert (am_pm (de_date dent) <> 0) as Hap by (unfold am_pm; case_bools; lia).
  unfold put_short_date. rewrite He in *. do 6 (rewrite wp_bind; text_step). rewrite wp_bind. cbv zeta.
  set (q := if iec then _ else _). assert (p + 14 <= q <= p + 15) as Hq by (unfold q; destruct iec; lia). text_step.
  apply wp_fill_ones with (e := 41) (lo := p) (m0 := m0); [lia|done|lia|done].
Qed.

Lemma wp_flag (b : bool) q x m (Q : unit -> list Z -> Prop) : line m -> p <= q < line_end format -> x <> 0 ->
  (forall m', line m' -> Q tt m') -> wp (when b (poke q x)) Q m.
Proof.
  intros Hm Hq Hx HQ. apply wp_when; [|by intros _; apply HQ]. intros _.
  assert (31 <= line_end format <= 63) as He by (destruct line_end_cases as [[-> _]|[[-> _]|[-> _]]]; lia). by eapply (wp_text_poke (line_end format) p m0 ltac:(lia)).
Qed.

Lemma letters_ok n : n = 1 \/ n = 3 -> exists l, load_block filetypes (TYPE_LENGTH * Z.land (de_typeflags dent) EXT_TYPE_MASK) n = Some l /\
  zlen l = n /\ Forall (fun c => c <> 0) l.
Proof.
  intros Hn. pose proof (en_type ok) as Ht. assert (0 <= Z.land (de_typeflags dent) EXT_TYPE_MASK) as H0 by (apply Z.land_nonneg; right; done).
  unfold TYPE_LENGTH. eexists. split; [apply load_block_some; [lia|lia|change (zlen filetypes) with 36; lia]|].
  split; [apply zlen_slice; change (zlen filetypes) with 36; lia|]. unfold slice. apply Forall_take, Forall_drop. by repeat constructor.
Qed.

Lemma entry_tail_spec iec m (Q : unit -> list Z -> Prop) : line m -> (forall m', line m' -> Q tt m') -> wp (entry_tail iec p) Q m.
Proof.
  intros Hm HQ. assert (31 <= line_end format <= 63) as He by (destruct line_end_cases as [[-> _]|[[-> _]|[-> _]]]; lia).
  unfold entry_tail. rewrite wp_bind. apply wp_flag; [done|lia|done|]. clear m Hm. intros m Hm. rewrite wp_bind.
  destruct (letters_ok (if negb (Z.land format DIR_FMT_CMD_SHORT =? 0) then 1 else TYPE_LENGTH)) as (l & -> & Hl & Hnz).
  { unfold TYPE_LENGTH. destruct (negb _); auto. }
  rewrite wp_of_option_Some, wp_bind. assert (zlen l <= 3) as Hl3 by (rewrite Hl; unfold TYPE_LENGTH; destruct (negb _); lia).
  eapply (wp_text_block (line_end format) p m0 ltac:(lia)); [exact Hm|lia|lia|done|]. clear m Hm. intros m Hm. rewrite wp_bind.
  apply wp_flag; [done|lia|done|]. clear m Hm. intros m Hm.
  destruct (negb (Z.land format DIR_FMT_CMD_LONG =? 0)) eqn:El.
  { apply wp_long_date; [|done|done]. destruct format_range as [-> | [-> | ->]]; done. }
  destruct (Z.eqb_spec format DIR_FMT_CMD_SHORT); [by apply wp_short_date|]. apply wp_flag; [done|lia|done|done].
Qed.
End tail.

(** The line of an entry: the block count, the blanks, the name in quotes, and
    text without a gap up to the end of the line. *)
Definition listed (m : list Z) : Prop :=
  let e := line_end format in let k := name_end 16 (de_name dent) in
  zlen m = 256 /\ nthZ m e = 0 /\ (forall i, 4 <= i < e -> nthZ m i <> 0) /\ nthZ m 1 = 1 /\
  nthZ m 2 + 256 * nthZ m 3 = de_blocksize dent /\ (forall i, 4 <= i < name_start - 1 -> nthZ m i = 32) /\
  nthZ m (name_start - 1) = 34 /\ slice name_start k m = slice 0 k (de_name dent) /\ nthZ m (name_start + k) = 34.

Lemma listed_frame m0 m1 m : blank_line m0 -> basic_line (line_end format) name_start m0 m1 ->
  slice name_start (name_end 16 (de_name dent)) m1 = slice 0 (name_end 16 (de_name dent)) (de_name dent) ->
  nthZ m1 (name_start + name_end 16 (de_name dent)) = 34 ->
  basic_line (line_end format) (name_start + 17) m1 m -> listed m.
Proof.
  intros Hb [Hl1 _ _ Hf1] Hname Hq [Hl He Ht Hf]. pose proof name_start_range as Hs. destruct (name_end_spec 16 (de_name dent)) as [Hk _].
  pose proof (en_name ok) as [Hn _]. assert (31 <= line_end format <= 63) as Hend by (destruct line_end_cases as [[-> _]|[[-> _]|[-> _]]]; lia).
  assert (forall i, 0 <= i < name_start -> nthZ m i = nthZ m0 i) as Hlow by (intros i Hi; rewrite Hf by lia; apply Hf1; lia).
  split; [done|]. split; [done|]. split; [intros i Hi; apply Ht; lia|]. rewrite !Hlow by lia. split; [apply Hb|]. split; [apply Hb|].
  split; [intros i Hi; rewrite Hlow, (bl_text _ Hb) by lia; destruct (Z.eqb_spec i (name_start - 1)); lia|].
  split; [rewrite (bl_text _ Hb), Z.eqb_refl by lia; done|]. split; [|rewrite Hf by lia; done].
  rewrite <- Hname. apply nthZ_ext; [rewrite !zlen_slice; lia|].
  rewrite zlen_slice by lia. intros i Hi. rewrite !nthZ_slice by lia. apply Hf. lia.
Qed.

Lemma entry_line_spec iec m : zlen m = 256 -> wp (entry_line iec dent format) (fun _ => listed) m.
Proof.
  intros Hm. pose proof name_start_range as Hs. pose proof (en_name ok) as [Hn Hnb].
  assert (31 <= line_end format <= 63) as He by (destruct line_end_cases as [[-> _]|[[-> _]|[-> _]]]; lia).
  unfold entry_line. cbv zeta. fold (entry_tail iec (4 + (if de_blocksize dent <? 1000 then 1 else 0) +
    (if de_blocksize dent <? 100 then 1 else 0) + (if de_blocksize dent <? 10 then 1 else 0) + 1 + CBM_NAME_LENGTH + 1)).
  set (d := 4 + _ + _ + _). assert (d = name_start - 1) as -> by (unfold d, name_start; lia).
  rewrite wp_bind. apply wp_put_block; [lia|zlen_simpl; lia|].
  do 6 (rewrite wp_bind; apply wp_poke_any; [rewrite ?zlen_put, ?zlen_splice by (rewrite ?zlen_put, ?zlen_splice; zlen_simpl; lia); lia|]).
  match goal with |- wp _ _ ?x => pose proof (blank_line_put m _ Hm : blank_line x) as Hb; set (m1 := x) in * end. clearbody m1.
  rewrite Z.sub_add, wp_bind.
  apply (wp_put_name (line_end format) name_start m1 ltac:(lia)); [|lia|lia|done|done|apply ok|rewrite (bl_text _ Hb) by lia; case_bools; lia|].
  { split; [apply Hb|apply Hb|intros i Hi _; rewrite (bl_text _ Hb) by lia; destruct (_ =? _); lia|done]. }
  intros m2 Hm2 Hname Hq. replace (name_start + CBM_NAME_LENGTH + 1) with (name_start + 17) by (unfold CBM_NAME_LENGTH; lia).
  apply (entry_tail_spec (name_start + 17) m2 ltac:(lia)).
  - destruct Hm2 as [Hl He2 Ht _]. by split.
  - intros m3 Hm3. by apply (listed_frame m1 m2).
Qed.
End entry.
