(* ===== verification/FileOpsTheorems.v ===== *)
(** * fileops.c: theorems on directory listings *)

From stdpp Require Import gmap.
From S2P Require Import Prelude EepromFs EepromFsTheorems ErrorMsg ErrorMsgTheorems Utils UtilsTheorems Buffers BuffersTheorems FatFs Dirent World ImageIO.
From S2P Require Import D64Geom D64 D64Files D64Bam FatNames FatNamesTheorems FatFile DirLines DirLinesTheorems FileOps D64Demo DemoWorld.

(** ** The entries of a disk image *)

Lemma rem_fields a n : 0 <= a < 256 -> 0 < n < 100 -> 0 <= u8 (Z.rem (a - 1) n + 1) < 100.
Proof.
  intros Ha Hn. assert (0 <= Z.rem (a - 1) n + 1 <= n).
  { destruct (decide (a = 0)) as [->|].
    - destruct (decide (n = 1)) as [->|]; [by vm_compute|].
      change (0 - 1) with (- (1)). rewrite Z.rem_opp_l by lia. rewrite Z.rem_small; lia.
    - pose proof (Z.rem_bound_pos (a - 1) n ltac:(lia) ltac:(lia)). lia. }
  rewrite u8_id; lia.
Qed.

(** An entry whose type byte has bit 3 clear and whose name has no byte 128
    behind its end makes a line. *)
Lemma d64_entry_ok e dh : zlen e = 32 -> bytes e -> Z.testbit (nthZ e DIR_OFS_FILE_TYPE) 3 = false ->
  (forall j, name_end 16 (de_name (parse_dirent e dh)) < j < 16 -> nthZ (de_name (parse_dirent e dh)) j <> 128) ->
  entry_ok (parse_dirent e dh).
Proof.
  intros Hlen He Ht Hq. pose proof (fun i => bytes_nthZ e i He) as Hb. unfold is_byte in Hb.
  assert (zlen (slice DIR_OFS_FILE_NAME CBM_NAME_LENGTH e) = 16) as Hn by (apply zlen_slice; unfold DIR_OFS_FILE_NAME, CBM_NAME_LENGTH; lia).
  split; [|split|exact Hq| |]; cbn -[nthZ slice strnsubst Z.modulo Z.rem].
  - pose proof (Hb DIR_OFS_SIZE_LOW). pose proof (Hb DIR_OFS_SIZE_HI). lia.
  - unfold strnsubst, zlen in *. rewrite !length_app, length_fmap, length_take, length_drop. simpl length. lia.
  - apply bytes_app; [|by repeat constructor]. unfold strnsubst. apply bytes_app; [|apply Forall_drop, bytes_slice, He].
    apply Forall_fmap. eapply Forall_impl; [apply Forall_take, bytes_slice, He|]. intros c Hc. simpl. unfold is_byte in *. by case_match.
  - assert (forall x, Z.testbit x 3 = false -> Z.land x EXT_TYPE_MASK < 12) as Hx.
    { intros x Hx. change EXT_TYPE_MASK with (Z.ones 4). rewrite Z.land_ones by lia. change (2 ^ 4) with 16.
      assert (Z.testbit (x mod 16) 3 = false) as Hx' by (change 16 with (2 ^ 4); by rewrite Z.mod_pow2_bits_low by lia).
      rewrite Z.testbit_false in Hx' by lia. change (2 ^ 3) with 8 in Hx'. pose proof (Z.mod_pos_bound x 16 ltac:(lia)).
      pose proof (Z.div_mod (x mod 16) 8 ltac:(lia)). pose proof (Z.mod_pos_bound (x mod 16) 8 ltac:(lia)).
      assert (x mod 16 / 8 < 2) by (apply Z.div_lt_upper_bound; lia). assert (0 <= x mod 16 / 8) by (apply Z.div_pos; lia).
      assert (x mod 16 / 8 = 0 \/ x mod 16 / 8 = 1) as [E|E] by lia; rewrite E in *; [lia|done]. }
    case_match; apply Hx; rewrite ?Z.land_spec, Z.lxor_spec, Ht; done.
  - pose proof (Z.mod_pos_bound (nthZ e DIR_OFS_HOUR) 24 eq_refl). pose proof (Z.mod_pos_bound (nthZ e DIR_OFS_MINUTE) 60 eq_refl).
    pose proof (rem_fields (nthZ e DIR_OFS_MONTH) 12 (Hb _) ltac:(lia)). pose proof (rem_fields (nthZ e DIR_OFS_DAY) 31 (Hb _) ltac:(lia)). lia.
Qed.

(** The directory entry of an image with a type byte and a name. *)
Definition raw_entry (type : Z) (name : list Z) : list Z := [0; 0; type; 17; 0] ++ name ++ fill (27 - zlen name) 160.

(** Other entries do not: the type byte 140 reads behind the table of file
    types, and the name A, shifted space, 128 puts a zero into the line, which
    then ends before its type. *)
Theorem d64_entry_breaks_line :
  let line e := entry_line false (parse_dirent e (D64dh 18 1 0)) DIR_FMT_CBM (fill 256 0) in
  line (raw_entry 140 [65]) = Stuck /\
  match line (raw_entry 130 [65; 160; 128]) with Done _ m => nthZ m 7 = 0 | _ => False end.
Proof. by vm_compute. Qed.

(** C26: For every entry that satisfies [entry_ok], createentry makes a line
    of a BASIC program, in each of the three formats: a link, the block count
    as the line number, blanks that right-align it, the name up to a quote or
    its end in quotes, and text without a zero byte up to the end of the line,
    which is where the last byte of the buffer is set. Excluded are entries
    whose type byte has the bits 3 and 2 set and those with a byte 128 behind
    the end of the name, which disk images can contain ([d64_entry_ok],
    [d64_entry_breaks_line]). The pool has at most 15 buffers ([bufs_ok]). *)
Theorem createentry_makes_line `{FatFs} `{SystemConfig} `{ErrorConfig} `{BufferConfig} (w : world) (dent : cbmdirent_t) buf format :
  bufs_ok (w_bufs w) -> 0 <= buf < CONFIG_BUFFER_COUNT ->
  format = DIR_FMT_CBM \/ format = DIR_FMT_CMD_SHORT \/ format = DIR_FMT_CMD_LONG -> entry_ok dent ->
  wp (createentry dent buf format) (fun _ w' =>
    listed dent format (bdata (w_bufs w') buf) /\
    exists b, buffers (w_bufs w') !! Z.to_nat buf = Some b /\ lastused b = line_end format) w.
Proof.
  intros Hok Hbuf Hf Hd. destruct (buf_in (w_bufs w) buf Hok ltac:(lia)) as [b Hb]. unfold createentry, on_bufs.
  rewrite wp_bind, wp_zoom. eapply wp_intro; [apply (buf_upd_run buf _ b _ ltac:(lia) Hb)|cbv beta].
  set (s1 := set_buffers _ _). assert (bufs_ok s1) as Hok1 by (by apply (buf_upd_ok _ buf _ b)).
  assert (buffers s1 !! Z.to_nat buf = Some (set_lastused (line_end format) b)) as Hb1.
  { apply list_lookup_insert_eq, lookup_lt_is_Some. by eexists. } clearbody s1.
  rewrite wp_bind, wp_zoom. eapply wp_intro; [by apply data_read_run|cbv beta]. rewrite wp_bind.
  assert (zlen (bdata s1 buf) = 256) as Hlen.
  { unfold bdata. pose proof (bo_data s1 Hok1). apply zlen_slice; lia. }
  pose proof (entry_line_spec dent format Hf Hd CONFIG_HAVE_IEC (bdata s1 buf) Hlen) as (u & m & Hrun & Hl)%wp_done.
  eapply wp_intro; [unfold on_array; simpl w_bufs; by rewrite Hrun|cbv beta]. rewrite wp_zoom. simpl.
  pose proof (proj1 Hl) as Hm. eapply wp_intro; [by apply data_put_run; [..|rewrite Hm]|cbv beta]. pose proof (bo_data s1 Hok1).
  split; [|by exists (set_lastused (line_end format) b)].
  unfold bdata. simpl. rewrite Z.add_0_r, <- Hm, slice_splice_same by lia. exact Hl.
Qed.

#[local] Existing Instance demo_config.
#[local] Existing Instance six_buffers.

(** A PRG file of 16 blocks. *)
Definition hello_dent : cbmdirent_t := {|
  de_name := [72; 69; 76; 76; 79] ++ fill 12 0;
  de_typeflags := TYPE_PRG;
  de_blocksize := 16;
  de_remainder := 100;
  de_date := zero_date;
  de_opstype := OPSTYPE_EEFS;
  de_pvt := DentZero
|}.

Lemma hello_dent_ok : entry_ok hello_dent.
Proof.
  split; [simpl; lia| | |done|simpl; lia].
  - split; [done|]. by repeat (apply Forall_cons; split; [done|]).
  - intros j Hj. change (name_end 16 _) with 5 in Hj. unfold nthZ. intros H128.
    assert (Forall (fun c => c <> 128) ([72; 69; 76; 76; 79] ++ fill 12 0)) as Hf by (by repeat constructor).
    destruct (nth_in_or_default (Z.to_nat j) ([72; 69; 76; 76; 79] ++ fill 12 0) 0) as [Hin|Hd]; [|simpl in *; congruence].
    rewrite List.Forall_forall in Hf. by apply (Hf _ Hin).
Qed.

Lemma createentry_makes_line_witness :
  wp (createentry hello_dent 1 DIR_FMT_CBM) (fun _ w' =>
    listed hello_dent DIR_FMT_CBM (bdata (w_bufs w') 1) /\
    exists b, buffers (w_bufs w') !! 1%nat = Some b /\ lastused b = 31)
    (start_world tt Ram.no_file fatops sample0).
Proof.
  exact (createentry_makes_line (start_world tt Ram.no_file fatops sample0) hello_dent 1 DIR_FMT_CBM
    (demo_bufs_ok [BAllocSystem; BAlloc] ltac:(repeat constructor)) ltac:(done) (or_introl eq_refl) hello_dent_ok).
Defined.
