(* ===== verification/D64SectorTheorems.v ===== *)
(** * d64ops.c: direct access to sectors

    Through read_sector and write_sector an image without error information
    is an array of sectors: a read gives what was last written. *)

From S2P Require Import Prelude EepromFs ErrorMsg ErrorMsgTheorems Utils Buffers BuffersTheorems FatFs Dirent World ImageIO.
From S2P Require Import D64Geom D64 D64GeomTheorems D64Bam D64Files D64Ops D64Demo.

Section sectors.
Context `{FatFsLaws} `{ErrorConfig} `{BufferConfig}.

Lemma legal_ts_valid p last t s : get_param (d64data p) LAST_TRACK = last -> 0 <= s ->
  legal_ts p t s = bool_decide (valid_ts (imagetype p) last t s).
Proof. intros Hl Hs. unfold legal_ts, valid_ts. rewrite Hl. case_bool_decide; lia. Qed.

Lemma sector_inside w part p last size t s : mounted w part p last size -> valid_ts (imagetype p) last t s ->
  0 <= sector_offset (imagetype p) t s /\ sector_offset (imagetype p) t s + 256 <= fsize (imagehandle p).
Proof.
  intros Hm Hv. pose proof (lba_bounds _ _ _ _ _ (mo_format _ _ _ _ _ Hm) Hv). pose proof (mo_size _ _ _ _ _ Hm).
  unfold sector_offset. lia.
Qed.

Lemma write_sector_spec w part p last size buf t s :
  bufs_ok (w_bufs w) -> mounted w part p last size -> 0 <= buf < CONFIG_BUFFER_COUNT -> valid_ts (imagetype p) last t s ->
  wp (d64_write_sector buf part t s) (fun _ w' => w_bufs w' = w_bufs w /\ exists p', mounted w' part p' last size /\
    imagetype p' = imagetype p /\
    forall t' s', valid_ts (imagetype p) last t' s' ->
      image_sector p' t' s' = if decide ((t', s') = (t, s)) then bdata (w_bufs w) buf else image_sector p t' s') w.
Proof.
  intros Hok Hm Hbuf Hv. unfold d64_write_sector. rewrite wp_bind. eapply wp_intro; [apply part_get_run; apply Hm|cbv beta].
  rewrite (legal_ts_valid p last) by (apply Hm || apply Hv). rewrite bool_decide_eq_true_2 by done. cbv beta iota delta [negb].
  rewrite wp_bind, wp_bufs. eapply wp_intro; [by apply data_read_run|cbv beta]. rewrite set_w_bufs_same.
  destruct (sector_inside _ _ _ _ _ _ _ Hm Hv) as [Ho Hle].
  assert (zlen (bdata (w_bufs w) buf) = 256) as Hlen by (unfold bdata; pose proof (bo_data _ Hok); apply zlen_slice; lia).
  assert (bytes (bdata (w_bufs w) buf)) as Hbytes by (apply bytes_slice, Hok).
  destruct (image_write_ok part (sector_offset (imagetype p) t s) (bdata (w_bufs w) buf) true w p) as (f & d & Hw & Hu & Hc & Hfl);
    [apply Hm|apply Hm|apply Hm|done|done|lia|].
  rewrite wp_bind. eapply wp_intro; [exact Hw|cbv beta]. rewrite wp_ret. split; [apply with_file_bufs|].
  pose proof (mo_file _ _ _ _ _ Hm) as [Hup Hwr]. assert (fsize f = fsize (imagehandle p)) as Hfs.
  { destruct (usable_size _ Hu) as [<- _], (usable_size _ Hup) as [<- _]. rewrite Hc. apply zlen_splice; [done|].
    destruct (usable_size _ Hup) as [-> _]. lia. }
  pose proof (mounted_with_file w part p f d last size part p last size Hm) as Hm'. rewrite decide_True in Hm' by done.
  exists (set_imagehandle f p). split; [apply Hm'; [by split; [|rewrite Hfl]|done|done]|]. split; [done|].
  intros t' s' Hv'. by apply (image_sector_write p f last size); try apply Hm.
Qed.

Lemma read_sector_spec w part p last size buf t s :
  bufs_ok (w_bufs w) -> mounted w part p last size -> 0 <= buf < CONFIG_BUFFER_COUNT -> valid_ts (imagetype p) last t s ->
  Z.land (imagetype p) D64_HAS_ERRORINFO = 0 ->
  wp (d64_read_sector buf part t s) (fun _ w' => bdata (w_bufs w') buf = image_sector p t s) w.
Proof.
  intros Hok Hm Hbuf Hv Hi. unfold d64_read_sector, checked_read. rewrite wp_bind, wp_bind.
  eapply wp_intro; [apply part_get_run; apply Hm|cbv beta].
  rewrite (legal_ts_valid p last) by (apply Hm || apply Hv). rewrite bool_decide_eq_true_2 by done. cbv beta iota delta [negb].
  unfold check_errorinfo. rewrite !wp_bind. eapply wp_intro; [apply part_get_run; apply Hm|cbv beta]. rewrite Hi. simpl Z.eqb. cbv iota.
  rewrite wp_ret. destruct (sector_inside _ _ _ _ _ _ _ Hm Hv) as [Ho Hle].
  destruct (image_read_ok part (sector_offset (imagetype p) t s) 256 w p) as (f & d & Hr & Hu & Hc & Hfl); [apply Hm|apply Hm|apply Hm|done|lia|lia|].
  eapply wp_intro; [exact Hr|cbv beta]. fold (image_sector p t s). simpl snd. rewrite wp_bufs, with_file_bufs.
  assert (zlen (image_sector p t s) = 256) as Hlen.
  { unfold image_sector. destruct (usable_size _ (proj1 (mo_file _ _ _ _ _ Hm))) as [Hsz _]. apply zlen_slice; lia. }
  eapply wp_intro; [by apply data_put_run; [..|rewrite Hlen]|]. rewrite Z.add_0_r. by apply bdata_put_same.
Qed.
End sectors.

(** C12: A mounted D41, D71, D81 or DNP image without error information is an
    array of sectors: reading any sector after writing one gives the data that
    was written when it is the same sector, and the old contents of the image
    otherwise. (D80 and D82 images are not: there the sectors of the last zone
    share blocks, [d80_sectors_overlap].) The pool has at most 15 buffers
    ([bufs_ok]). *)
Theorem read_sector_after_write `{FatFsLaws} `{ErrorConfig} `{BufferConfig} w part p last size buf buf' t s t' s' :
  bufs_ok (w_bufs w) -> mounted w part p last size -> Z.land (imagetype p) D64_HAS_ERRORINFO = 0 ->
  0 <= buf < CONFIG_BUFFER_COUNT -> 0 <= buf' < CONFIG_BUFFER_COUNT ->
  valid_ts (imagetype p) last t s -> valid_ts (imagetype p) last t' s' ->
  wp (d64_write_sector buf part t s;; d64_read_sector buf' part t' s') (fun _ w' =>
    bdata (w_bufs w') buf' = if decide ((t', s') = (t, s)) then bdata (w_bufs w) buf else image_sector p t' s') w.
Proof.
  intros Hok Hm Hi Hbuf Hbuf' Hv Hv'. rewrite wp_bind. eapply wp_mono; [by apply (write_sector_spec w part p last size)|].
  intros _ w1 (Hb1 & p1 & Hm1 & Hit & Hsec). rewrite <- (Hsec t' s' Hv').
  apply (read_sector_spec w1 part p1 last size); [by rewrite Hb1|done|done|by rewrite Hit|by rewrite Hit].
Qed.

#[local] Existing Instance demo_config.
#[local] Existing Instance six_buffers.

(** Buffer 0 is written to sector 1 of track 5, and sector 0 of track 18, the
    BAM, is read into buffer 1. *)
Lemma read_sector_after_write_witness :
  wp (d64_write_sector 0 0 5 1;; d64_read_sector 1 0 18 0) (fun _ w' =>
    bdata (w_bufs w') 1 = image_sector (demo_part demo_bam_sector) 18 0) (demo_world demo_bam_sector).
Proof.
  refine (read_sector_after_write (demo_world demo_bam_sector) 0 (demo_part demo_bam_sector) 35 174848 0 1 5 1 18 0
    demo_pool_ok (demo_mounted _ demo_bam_ok) _ _ _ _ _); try (by vm_compute); split; try done; lia.
Defined.
