(* ===== verification/FatOpsTheorems.v ===== *)
(** * fatops.c: theorems on mounting

    fatops_init at power-on and after a change of the medium. *)

From stdpp Require Import gmap.
From S2P Require Import Prelude EepromFs EepromFsTheorems ErrorMsg ErrorMsgTheorems Utils Buffers BuffersTheorems FatFs Dirent World ImageIO.
From S2P Require Import D64Geom D64 D64Files P00Cache FatNames FatFile FatOps D64Demo DemoWorld.

Section mount.
Context `{FatFs} `{EepromGeom} `{Assertions} `{ErrorConfig} `{BufferConfig} `{SystemConfig}.

Hypothesis drives : 0 <= MAX_DRIVES.
Hypothesis partitions : 0 <= CONFIG_MAX_PARTITIONS.

(** The partitions below [max_part] are accessed through the FAT driver. *)
Definition mounts (w0 w : world) : Prop :=
  0 <= max_part w <= CONFIG_MAX_PARTITIONS /\ zlen (partition w) = CONFIG_MAX_PARTITIONS /\
  (forall i p, 0 <= i < max_part w -> partition w !! Z.to_nat i = Some p -> fop p = fatops) /\
  w_bufs w = w_bufs w0 /\ d64 w = d64 w0 /\ w_dos w = w_dos w0 /\ p00 w = p00 w0.

Lemma partition_in w n : zlen (partition w) = CONFIG_MAX_PARTITIONS -> 0 <= n < CONFIG_MAX_PARTITIONS ->
  exists p, partition w !! Z.to_nat n = Some p.
Proof. intros Hl Hn. apply lookup_lt_is_Some. unfold zlen in Hl. lia. Qed.

Lemma wp_call {A} (f : DRV -> A * DRV) w (Q : A -> world -> Prop) :
  (forall a d, f (drv w) = (a, d) -> Q a (set_drv d w)) -> wp (call f) Q w.
Proof. intros HQ. unfold wp, call. destruct (f (drv w)) as [a d] eqn:E. by apply HQ. Qed.

Lemma wp_part_upd n f w (Q : unit -> world -> Prop) p : 0 <= n -> partition w !! Z.to_nat n = Some p ->
  Q tt (set_partition (<[Z.to_nat n := f p]> (partition w)) w) -> wp (part_upd n f) Q w.
Proof. intros Hn Hp HQ. unfold part_upd. rewrite wp_bind. by eapply wp_intro; [by apply part_get_run|]. Qed.

Definition left_to_try (st : Z * Z) : nat := Z.to_nat (16 * (MAX_DRIVES - st.1) - st.2).

Lemma mount_step_spec pp w0 w st : mounts w0 w -> 0 <= st.1 <= MAX_DRIVES -> 0 <= st.2 <= 15 -> (st.1 = MAX_DRIVES -> st.2 = 0) ->
  wp (mount_step pp st) (fun r w' => mounts w0 w' /\
    match r with
    | inl st' => (0 <= st'.1 <= MAX_DRIVES /\ 0 <= st'.2 <= 15 /\ (st'.1 = MAX_DRIVES -> st'.2 = 0)) /\ (left_to_try st' < left_to_try st)%nat
    | inr _ => max_part w' = CONFIG_MAX_PARTITIONS \/ st.1 = MAX_DRIVES
    end) w.
Proof.
  destruct st as [drive part]. simpl. intros Hm Hd Hp Hend. pose proof Hm as (Hn & Hl & Hf & Hfr). unfold mount_step.
  rewrite wp_bind, wp_gets. destruct ((max_part w <? CONFIG_MAX_PARTITIONS) && (drive <? MAX_DRIVES)) eqn:E; [|rewrite wp_ret; split; [done|lia]].
  destruct (partition_in w (max_part w) Hl ltac:(lia)) as [p Hlp].
  assert ((Z.to_nat (max_part w) < length (partition w))%nat) as Hlt by (apply lookup_lt_is_Some; by eexists).
  rewrite wp_bind. eapply wp_part_upd; [lia|exact Hlp|]. unfold settings. rewrite wp_bind, wp_gets, wp_bind.
  eapply wp_intro; [apply part_get_run; [simpl; lia|simpl; by apply list_lookup_insert_eq]|cbv beta].
  rewrite wp_bind. apply wp_call. intros [res dir] d _. rewrite wp_bind.
  eapply wp_part_upd; [simpl; lia|simpl; by apply list_lookup_insert_eq|]. simpl. rewrite list_insert_insert_eq.
  set (p' := (if pp then id else set_dir_fat 0) _). assert (fop p' = fatops) as Hp' by (unfold p'; by destruct pp).
  assert (forall i q, 0 <= i < max_part w + 1 -> <[Z.to_nat (max_part w) := p']> (partition w) !! Z.to_nat i = Some q -> fop q = fatops) as Hall.
  { intros i q Hi Hq. destruct (decide (i = max_part w)) as [->|].
    - rewrite list_lookup_insert_eq in Hq by done. by simplify_eq.
    - rewrite list_lookup_insert_ne in Hq by lia. apply (Hf i); [lia|done]. }
  assert (zlen (<[Z.to_nat (max_part w) := p']> (partition w)) = CONFIG_MAX_PARTITIONS) as Hlen by (unfold zlen; by rewrite length_insert).
  rewrite wp_bind. unfold when. set (st2 := if negb (res =? FR_NOT_READY) && _ && _ && _ then _ else _).
  assert ((0 <= st2.1 <= MAX_DRIVES /\ 0 <= st2.2 <= 15 /\ (st2.1 = MAX_DRIVES -> st2.2 = 0)) /\ (left_to_try st2 < left_to_try (drive, part))%nat) as Hst2.
  { unfold st2, left_to_try. destruct (_ && _ && _ && _) eqn:Ec; cbn [fst snd]; lia. }
  clearbody st2.
  destruct (res =? FR_OK).
  - rewrite wp_modify, wp_ret. split; [|done]. split; [simpl; lia|done].
  - rewrite !wp_ret. split; [|done]. split; [simpl; lia|]. split; [done|]. split; [|done]. intros i q Hi. apply Hall. simpl in Hi. lia.
Qed.

Lemma mount_loop pp w0 w : mounts w0 w ->
  wp (loop (S (Z.to_nat (16 * MAX_DRIVES))) (mount_step pp) (0, 0)) (fun _ w' => mounts w0 w') w.
Proof.
  intros Hm. apply (wp_loop (fun st w => mounts w0 w /\ 0 <= st.1 <= MAX_DRIVES /\ 0 <= st.2 <= 15 /\ (st.1 = MAX_DRIVES -> st.2 = 0))
    (fun st _ => left_to_try st)); [|simpl; split; [done|lia]|unfold left_to_try; simpl; lia].
  intros st w' (Hm' & Hd & Hp & He). eapply wp_mono; [by apply (mount_step_spec pp w0)|]. intros [st'|u] w2 [Hm2 Hr]; [tauto|done].
Qed.

Lemma d64_invalidate_ok w : bufs_ok (w_bufs w) ->
  (forall i, bam_buffer (d64 w) = Some i \/ bam_buffer2 (d64 w) = Some i -> 0 <= i <= CONFIG_BUFFER_COUNT) ->
  wp d64_invalidate (fun _ w' => exists b, bufs_ok b /\
    w' = set_d64 (set_bam_refcount 0 (set_bam_buffer2 None (set_bam_buffer None (d64 w)))) (set_w_bufs b w)) w.
Proof.
  intros Hb Hbam.
  assert (forall o s, bufs_ok s -> (forall i, o = Some i -> 0 <= i <= CONFIG_BUFFER_COUNT) ->
    wp (free_buffer o) (fun _ s' => bufs_ok s') s) as Hfree.
  { intros [i|] s Hs Ho; [|by simpl; rewrite wp_ret].
    eapply wp_mono; [apply free_buffer_ok; [done|by apply Ho]|]. intros u s' Hs'. cbv beta in Hs'. tauto. }
  unfold d64_invalidate, on_bufs, on_d64. rewrite wp_bind, wp_gets, wp_bind, wp_zoom. cbv beta. unfold id.
  eapply wp_mono; [apply Hfree; [done|auto]|]. intros u b1 Hb1. cbv beta in Hb1. rewrite wp_bind, wp_zoom.
  eapply wp_mono; [apply Hfree; [exact Hb1|auto]|]. intros u' b2 Hb2. cbv beta in Hb2. rewrite wp_zoom, wp_modify.
  exists b2. by split.
Qed.

(** C31: Mounting ends on every medium: whatever the FAT driver answers for the
    drives and the partitions on them, [fatops_init] returns, has mounted at
    most CONFIG_MAX_PARTITIONS partitions, all of them through the FAT
    operations, has dropped the BAM buffers and the P00 cache, leaves the
    current partition at the first one unless it was asked to keep the paths,
    and reports DRIVE NOT READY when there is nothing to mount on a system
    without hot-plugging. *)
Theorem fatops_init_ends pp w (Hlen : zlen (partition w) = CONFIG_MAX_PARTITIONS) (Hb : bufs_ok (w_bufs w))
  (Hbam : forall i, bam_buffer (d64 w) = Some i \/ bam_buffer2 (d64 w) = Some i -> 0 <= i <= CONFIG_BUFFER_COUNT)
  (Hname : 0 < zlen (de_name (previous_file_dirent (w_dos w)))) :
  wp (fatops_init pp) (fun _ w' =>
    0 <= max_part w' <= CONFIG_MAX_PARTITIONS /\
    (forall i p, 0 <= i < max_part w' -> partition w' !! Z.to_nat i = Some p -> fop p = fatops) /\
    bufs_ok (w_bufs w') /\ bam_buffer (d64 w') = None /\ bam_buffer2 (d64 w') = None /\ bam_refcount (d64 w') = 0 /\
    p00cache (p00 w') = [] /\ (pp = false -> current_part (w_dos w') = 0) /\
    (HAVE_HOTPLUG = false -> max_part w' = 0 -> current_error (channel (w_bufs w')) = ERROR_DRIVE_NOT_READY)) w.
Proof.
  unfold fatops_init. rewrite wp_bind, wp_modify, wp_bind.
  eapply wp_mono; [apply (mount_loop pp (set_max_part 0 w)); split; [simpl; lia|]; split; [done|]; split; [|done]; simpl; lia|].
  intros u w1 (Hn & _ & Hf & Hbufs & Hd64 & Hdos & _). simpl in Hbufs, Hd64, Hdos. clear u. rewrite wp_bind.
  eapply (wp_mono _ (fun _ w2 => w_bufs w2 = w_bufs w /\ d64 w2 = d64 w /\ max_part w2 = max_part w1 /\ partition w2 = partition w1 /\
    (pp = false -> current_part (w_dos w2) = 0))).
  { destruct pp; simpl; [rewrite wp_ret; by split_and!|]. unfold on_dos.
    rewrite wp_bind, wp_zoom, wp_modify, wp_bind, wp_gets, wp_bind. cbv beta. unfold id.
    eapply wp_of_option; [apply store_some; simpl; rewrite Hdos; lia|]. rewrite wp_zoom, wp_modify. by split_and!. }
  intros u w2 (Hb2 & Hd2 & Hn2 & Hp2 & Hcp). cbv beta in *. clear u. rewrite wp_bind.
  eapply wp_mono; [apply d64_invalidate_ok; [by rewrite Hb2|by rewrite Hd2]|].
  intros u w3 (b & Hb3 & ->). clear u. unfold on_p00, p00cache_invalidate. rewrite wp_bind, wp_zoom, wp_modify, wp_bind, wp_gets.
  cbv beta. cbn [max_part set_p00 set_d64 set_w_bufs]. rewrite Hn2. unfold when.
  destruct (negb HAVE_HOTPLUG && (max_part w1 =? 0)) eqn:E.
  - unfold wset_error_ts, on_bufs. rewrite wp_zoom.
    eapply wp_mono; [apply set_error_ok; [exact Hb3|by unfold ERROR_DRIVE_NOT_READY|done|done]|].
    intros u b' (Hb' & _ & He). cbn. rewrite Hn2, Hp2. split_and!; try done; lia.
  - rewrite wp_ret. cbn. rewrite Hn2, Hp2. split_and!; try done; [lia|lia|]. intros Hh Hz. rewrite Hh, Hz in E. done.
Qed.
End mount.

(** Start-up with no drive that answers. *)
#[local] Existing Instance sample_asserts.
#[local] Existing Instance avr_geom.
#[local] Existing Instance demo_config.
#[local] Existing Instance six_buffers.

Definition two_parts (w : @world names_fatfs) : @world names_fatfs := set_partition (partition w ++ partition w) w.

Lemma fatops_init_ends_witness :
  wp (fatops_init false) (fun _ w' => max_part w' = 0 /\ current_error (channel (w_bufs w')) = ERROR_DRIVE_NOT_READY)
    (two_parts (@start_world names_fatfs [] Ram.no_file d64ops sample0)).
Proof.
  assert (@bufs_ok demo_config six_buffers (demo_bufs [BAllocSystem; BAlloc])) as Hb
    by (apply demo_bufs_ok; repeat constructor).
  set (w := two_parts _).
  assert (0 <= @MAX_DRIVES demo_system /\ 0 <= @CONFIG_MAX_PARTITIONS demo_system) as [Hdr Hpa] by (simpl; lia).
  pose proof (fatops_init_ends (H := names_fatfs) Hdr Hpa false w eq_refl Hb
    ltac:(intros i [?|?]; discriminate) ltac:(by vm_compute)) as Hw.
  destruct (proj1 (wp_done _ _ _) Hw) as (u & w' & Hrun & Hq). eapply wp_intro; [exact Hrun|].
  assert (match fatops_init false w with Done _ w' => max_part w' = 0 | _ => False end) as Hz by (by vm_compute).
  rewrite Hrun in Hz. split; [exact Hz|]. apply Hq; [done|exact Hz].
Defined.
