(* ===== verification/DosFiles.v ===== *)
(** * doscmd.c: commands on files and directories

    CD, MD, RD, copy, change partition, new, rename and scratch.  A string
    argument is an index into the command buffer; [stack_dent] is what the stack
    holds where a handler declares a directory entry, as in FileOps.v. *)

From stdpp Require Import gmap.
From S2P Require Import Prelude EepromFs ErrorMsg Utils Buffers FatFs Dirent World D64Geom D64 D64Files D64Ops.
From S2P Require Import EefsOps FatNames FatFile Callbacks FatOps WrapOps Parser DirLines FileOps.

Section dosfiles.
Context `{FatFs} `{EepromGeom} `{Assertions} `{ErrorConfig} `{BufferConfig} `{SystemConfig}.
Context (stack_dent : cbmdirent_t).

(** ** Parsing helpers *)

Definition clean_cmdbuffer : comp world unit :=
  s ← gets w_dos;
  let n := command_length s in on_cmd (put_block n (fill (CONFIG_COMMAND_BUFFER_SIZE + 2 - n) 0)).

(** [parse_partition(&str)] with the advanced pointer. *)
Definition cmd_partition (str : Z) : comp world (Z * Z) :=
  s ← gets w_dos;
  on_cmd (parse_partition (if CONFIG_HAVE_EEPROMFS then eefs_partition s else 255) (current_part s) str).

(** The array from a pointer on, which an operation may change in place. *)
Definition cmd_array (p : Z) : comp world (list Z) := s ← gets w_dos; mret (drop (Z.to_nat p) (command_buffer s)).
Definition cmd_store (p : Z) (l : list Z) : comp world unit := on_cmd (put_block p l).

(** ** CD, MD and RD *)

Definition parse_mkdir : comp world unit :=
  colon ← on_cmd (strchr 0 58);
  match colon with
  | None => wset_error ERROR_SYNTAX_NONAME
  | Some _ =>
      r ← parse_path 2 false;
      match r with
      | None => mret tt
      | Some (path, name) =>
          dirname ← cmd_array name;
          dirname ← mkdir path dirname;
          cmd_store name dirname
      end
  end.

(** The path after changing to the name behind the colon; [None] when that
    fails. *)
Definition chdir_to_name (path : path_t) (name : Z) : comp world (option path_t) :=
  c ← on_cmd (peek name);
  if c =? 95 then
    str ← cmd_array name;
    n ← copy_str (de_name stack_dent) str;
    r ← chdir path (set_de_name n stack_dent);
    mret (if r.1.1 =? 0 then Some r.1.2 else None)
  else
    m ← first_match path (Some name) FLAG_HIDDEN stack_dent;
    if negb (m.1 =? 0) then mret None
    else r ← chdir path m.2; mret (if r.1.1 =? 0 then Some r.1.2 else None).

Definition do_chdir (parsestr : Z) : comp world unit :=
  r ← parse_path parsestr true;
  match r with
  | None => mret tt
  | Some (path, name) =>
      s ← gets w_dos;
      n ← of_option (store (de_name (previous_file_dirent s)) 0 0);
      on_dos (modify (set_previous_file_dirent (set_de_name n (previous_file_dirent s))));;
      len ← on_cmd (ustrlen name);
      if negb (len =? 0) then
        target ← chdir_to_name path name;
        match target with Some path => update_current_dir path | None => mret tt end
      else
        slash ← on_cmd (strchr parsestr 47);
        match slash with None => wset_error ERROR_FILE_NOT_FOUND_39 | Some _ => update_current_dir path end
  end.

Definition parse_chdir : comp world unit := do_chdir 2.

(** Is the directory at [path] empty?  An error has been reported otherwise. *)
Definition dir_is_empty (path : path_t) : comp world bool :=
  r ← opendir path;
  if negb (r.1 =? 0) then mret false
  else
    e ← readdir r.2;
    if negb (e.1.1 =? -1) then
      err ← get_current_error;
      when (err =? 0) (wset_error ERROR_FILE_EXISTS);;
      mret false
    else mret true.

Definition parse_rmdir : comp world unit :=
  slash ← on_cmd (strchr 0 47);
  match slash with
  | Some _ => wset_error ERROR_SYNTAX_NONAME
  | None =>
      r ← cmd_partition 2;
      let '(part, str) := r in
      c ← on_cmd (peek str);
      if negb (c =? 58) then wset_error ERROR_SYNTAX_NONAME
      else
        path ← dir_of part;
        m ← first_match path (Some (str + 1)) TYPE_DIR stack_dent;
        if negb (m.1 =? 0) then mret tt
        else
          c ← chdir path m.2;
          let '(res, sub, dent) := c in
          if negb (res =? 0) then mret tt
          else
            empty ← dir_is_empty sub;
            if negb empty then mret tt
            else
              path ← dir_of part;
              d ← file_delete path dent;
              when (negb (d.1 =? 255)) (wset_error_ts ERROR_SCRATCHED d.1 0)
  end.

Definition parse_dircommand : comp world unit :=
  clean_cmdbuffer;;
  c ← on_cmd (peek 0);
  if c =? 77 then parse_mkdir
  else if c =? 67 then parse_chdir
  else if c =? 82 then parse_rmdir
  else wset_error ERROR_SYNTAX_UNKNOWN.

(** ** Copy *)

(** How many bytes one pass of the copy loop moves. *)
Definition copy_count (savedtype : Z) (src dst : buffer_t) : Z :=
  let tocopy := if savedtype =? TYPE_REL then recordlen src else u8 (256 - position dst) in
  let left := lastused src - position src + 1 in
  let tocopy := if left <? tocopy then u8 left else tocopy in
  if 256 - position dst <? tocopy then u8 (256 - position dst) else tocopy.

(** One pass of the loop over the blocks of a source file; [inr false] after
    an error.  [srcbuf->position++] is only evaluated without a record length. *)
Definition copy_step (savedtype srcbuf dstbuf : Z) (_ : unit) : comp world (unit + bool) :=
  src ← on_bufs (buf_get srcbuf);
  dst ← on_bufs (buf_get dstbuf);
  let tocopy := copy_count savedtype src dst in
  data ← on_bufs (data_read srcbuf (position src) tocopy);
  on_bufs (data_put dstbuf (position dst) data);;
  on_bufs (mark_buffer_dirty dstbuf);;
  on_bufs (buf_upd srcbuf (fun b => set_position (u8 (position b + tocopy - 1)) b));;
  on_bufs (buf_upd dstbuf (fun b => let p := u8 (position b + tocopy) in set_lastused (u8 (p - 1)) (set_position p b)));;
  src ← on_bufs (buf_get srcbuf);
  if sendeoi src && (position src =? lastused src) then mret (inr true)
  else
    res ← (if negb (recordlen src =? 0) then run_refill stack_dent srcbuf
           else
             on_bufs (buf_upd srcbuf (fun b => set_position (u8 (position b + 1)) b));;
             if position src =? lastused src then run_refill stack_dent srcbuf else mret 0);
    if negb (res =? 0) then mret (inr false)
    else
      dst ← on_bufs (buf_get dstbuf);
      res ← (if negb (recordlen dst =? 0) || (position dst =? 0) then run_refill stack_dent dstbuf else mret 0);
      mret (if negb (res =? 0) then inr false else inl tt).

(** The code has no bound on the number of blocks. *)
Context (copy_fuel : nat).

Definition copy_blocks (savedtype srcbuf dstbuf : Z) : comp world bool := loop copy_fuel (copy_step savedtype srcbuf dstbuf) tt.

(** Open the source: the entry, or [None] after an error. *)
Definition copy_open_source (srcname savedtype srcbuf : Z) : comp world (option cbmdirent_t) :=
  r ← parse_path srcname false;
  match r with
  | None => mret None
  | Some (srcpath, srcname) =>
      m ← first_match srcpath (Some srcname) FLAG_HIDDEN stack_dent;
      let '(res, dent) := m in
      if negb (res =? 0) then mret None
      else
        let rel := Z.land (de_typeflags dent) TYPE_MASK =? TYPE_REL in
        if negb (savedtype =? 0) && negb (Bool.eqb rel (savedtype =? TYPE_REL)) then
          wset_error ERROR_FILE_TYPE_MISMATCH;; mret None
        else
          dent ← (if rel then open_rel srcpath dent srcbuf 0 true;; mret dent else open_read srcpath dent srcbuf);
          e ← get_current_error;
          mret (if negb (e =? 0) then None else Some dent)
  end.

(** Open the destination for the first source. *)
Definition copy_open_dest (dstpath : path_t) (dstname savedtype srcbuf dstbuf : Z) : comp world unit :=
  arr ← cmd_array dstname;
  str ← of_option (strz arr);
  let n := take (Z.to_nat CBM_NAME_LENGTH) str in
  let dent := set_de_name (n ++ fill (CBM_NAME_LENGTH + 1 - zlen n) 0) zero_dent in
  if savedtype =? TYPE_REL then
    src ← on_bufs (buf_get srcbuf); open_rel dstpath dent dstbuf (recordlen src) true
  else open_write dstpath dent savedtype dstbuf false;; mret tt.

(** The loop over the source names, with the [saveptr] of the tokens; the
    source buffer at its end. *)
Definition copy_sources (dstpath : path_t) (dstname dstbuf : Z) (srcname : option Z) (tmp srcbuf : Z) : comp world Z :=
  s ← gets w_dos;
  loop (S (length (command_buffer s))) (fun '(srcname, tmp, savedtype, srcbuf) =>
    match srcname with
    | None => mret (inr srcbuf)
    | Some p =>
        d ← copy_open_source p savedtype srcbuf;
        match d with
        | None => mret (inr srcbuf)
        | Some dent =>
            savedtype ← (if savedtype =? 0 then
                           let t := Z.land (de_typeflags dent) TYPE_MASK in
                           copy_open_dest dstpath dstname t srcbuf dstbuf;; mret t
                         else mret savedtype);
            ok ← copy_blocks savedtype srcbuf dstbuf;
            if negb ok then mret (inr srcbuf)
            else
              close_buffer srcbuf;;
              new ← on_bufs alloc_buffer;
              srcbuf ← of_option new;
              t ← on_cmd (ustr1tok None 44 tmp);
              mret (inl (t.1, t.2, savedtype, srcbuf))
        end
    end) (srcname, tmp, 0, srcbuf).

(** From the check of the destination name on. *)
Definition copy_to (dstpath : path_t) (dstname srcname : Z) : comp world unit :=
  m ← first_match dstpath (Some dstname) FLAG_HIDDEN stack_dent;
  let '(res, _) := m in
  if res =? 0 then wset_error ERROR_FILE_EXISTS
  else if 0 <? res then mret tt
  else
    wset_error ERROR_OK;;
    srcbuf ← on_bufs alloc_buffer;
    dstbuf ← on_bufs alloc_buffer;
    match srcbuf, dstbuf with
    | Some srcbuf, Some dstbuf =>
        t ← on_cmd (ustr1tok (Some srcname) 44 0);
        srcbuf ← copy_sources dstpath dstname dstbuf t.1 t.2 srcbuf;
        run_cleanup srcbuf;;
        close_buffer dstbuf
    | _, _ => mret tt
    end.

Definition parse_copy : comp world unit :=
  clean_cmdbuffer;;
  eq ← on_cmd (strchr 0 61);
  match eq with
  | None => wset_error ERROR_SYNTAX_UNKNOWN
  | Some eq =>
      on_cmd (poke eq 0);;
      r ← parse_path 1 false;
      match r with
      | None => mret tt
      | Some (dstpath, dstname) =>
          n ← on_cmd (ustrlen dstname);
          if n =? 0 then wset_error ERROR_SYNTAX_NONAME
          else
            bad ← on_cmd (check_invalid_name dstname);
            if negb (bad =? 0) then wset_error ERROR_SYNTAX_UNKNOWN
            else copy_to dstpath dstname (eq + 1)
      end
  end.

(** ** Change partition *)

Definition parse_changepart : comp world unit :=
  c ← on_cmd (peek 1);
  part ← (if c =? 80 then clean_cmdbuffer;; r ← cmd_partition 2; mret r.1
          else b ← on_cmd (peek 2); mret (u8 (b - 1)));
  n ← gets max_part;
  if n <=? part then wset_error_ts ERROR_PARTITION_ILLEGAL (u8 (part + 1)) 0
  else
    on_dos (modify (set_current_part part));;
    wset_error_ts ERROR_PARTITION_SELECTED (u8 (part + 1)) 0.

(** ** New *)

Definition parse_new : comp world unit :=
  clean_cmdbuffer;;
  r ← cmd_partition 1;
  colon ← on_cmd (strchr 0 58);
  match colon with
  | None => wset_error ERROR_SYNTAX_NONAME
  | Some p =>
      comma ← on_cmd (strchr (p + 1) 44);
      match comma with
      | Some q =>
          on_cmd (poke q 0);;
          name ← cmd_array (p + 1);
          id ← cmd_array (q + 1);
          format r.1 name (Some id)
      | None => name ← cmd_array (p + 1); format r.1 name None
      end
  end.

(** ** Rename *)

Definition same_dir (a b : path_t) : bool :=
  (path_fat a =? path_fat b) && (path_track a =? path_track b) && (path_sector a =? path_sector b).

(** From the two parsed paths on. *)
Definition rename_to (oldpath newpath : path_t) (oldname newname : Z) : comp world unit :=
  if negb (same_dir oldpath newpath) then wset_error ERROR_FILE_NOT_FOUND
  else
    bad ← on_cmd (check_invalid_name newname);
    if negb (bad =? 0) then wset_error ERROR_SYNTAX_UNKNOWN
    else
      n ← on_cmd (ustrlen newname);
      if n =? 0 then wset_error ERROR_SYNTAX_NONAME
      else
        m ← first_match newpath (Some newname) FLAG_HIDDEN stack_dent;
        if m.1 =? 0 then wset_error ERROR_FILE_EXISTS
        else if 0 <? m.1 then mret tt
        else
          wset_error ERROR_OK;;
          m ← first_match oldpath (Some oldname) FLAG_HIDDEN m.2;
          if negb (m.1 =? 0) then mret tt
          else
            new ← cmd_array newname;
            r ← rename oldpath m.2 new;
            cmd_store newname r.2.

Definition parse_rename : comp world unit :=
  clean_cmdbuffer;;
  eq ← on_cmd (strchr 0 61);
  match eq with
  | None => wset_error ERROR_SYNTAX_UNKNOWN
  | Some eq =>
      on_cmd (poke eq 0);;
      new ← parse_path 1 false;
      match new with
      | None => mret tt
      | Some (newpath, newname) =>
          old ← parse_path (eq + 1) false;
          match old with
          | None => mret tt
          | Some (oldpath, oldname) => rename_to oldpath newpath oldname newname
          end
      end
  end.

(** ** Scratch *)

(** Delete the files that match one name: the count, or [None] when the
    command ends at once. *)
Definition scratch_matches (path : path_t) (name : Z) (count : Z) (dent : cbmdirent_t) : comp world (option (Z * cbmdirent_t)) :=
  loop match_fuel (fun '(count, dent) =>
    s ← gets w_dos;
    dh ← of_option (matchdh s);
    r ← next_match dh (Some name) None None FLAG_HIDDEN dent;
    let '(res, dh, dent) := r in
    on_dos (modify (set_matchdh (Some dh)));;
    if res <? 0 then mret (inr (Some (count, dent)))
    else if 0 <? res then mret (inr None)
    else if Z.land (de_typeflags dent) TYPE_MASK =? TYPE_DIR then mret (inl (count, dent))
    else
      d ← file_delete path dent;
      mret (if negb (d.1 =? 255) then inl (u8 (count + d.1), d.2) else inr None)) (count, dent).

(** The result of [parse_path] is not checked: when it fails, the path and the
    name keep what an earlier name has left in them ([None] at first). *)
Definition parse_scratch : comp world unit :=
  clean_cmdbuffer;;
  t ← on_cmd (ustr1tok (Some 1) 44 0);
  on_bufs (modify (set_dirty_led true));;
  s ← gets w_dos;
  r ← loop (S (length (command_buffer s))) (fun '(filename, tmp, count, dent, path, name) =>
    match filename with
    | None => mret (inr (Some count))
    | Some p =>
        pp ← parse_path_vars p false;
        let path := match pp.1 with Some x => Some x | None => path end in
        let name := match pp.2 with Some x => Some x | None => name end in
        path' ← of_option path;
        o ← opendir path';
        on_dos (modify (set_matchdh (Some o.2)));;
        if negb (o.1 =? 0) then mret (inr None)
        else
          name' ← of_option name;
          c ← scratch_matches path' name' count dent;
          match c with
          | None => mret (inr None)
          | Some (count, dent) => t ← on_cmd (ustr1tok None 44 tmp); mret (inl (t.1, t.2, count, dent, path, name))
          end
    end) (t.1, t.2, 0, stack_dent, None, None);
  match r with None => mret tt | Some count => wset_error_ts ERROR_SCRATCHED count 0 end.
End dosfiles.
