(* ===== verification/Machine.v ===== *)
(** * The state of the whole program

    [machine] adds to [world] the variables of doscmd.c, eeprom-conf.c and
    diskio.c and what they see of the hardware: the jumpers of the device
    address, the states of the clock and of the disks.  [set_system_reset] stands
    for [system_reset], which does not return: the caller ends there. *)

From stdpp Require Import gmap.
From S2P Require Import Prelude EepromFs ErrorMsg Utils Buffers FatFs Dirent World.

(** rtc.h, diskio.h *)
Inductive rtcstate_t := RTC_NOT_FOUND | RTC_INVALID | RTC_OK.
Inductive diskstates := DISK_CHANGED | DISK_REMOVED | DISK_OK | DISK_ERROR.

#[export] Instance rtcstate_eq_dec : EqDecision rtcstate_t.
Proof. solve_decision. Defined.
#[export] Instance diskstates_eq_dec : EqDecision diskstates.
Proof. solve_decision. Defined.

(** The options of the board. *)
Class BoardConfig := {
  HAVE_DUAL_INTERFACE : bool;
  CONFIG_HW_ADDR_OR_BUTTONS : bool;
  CONFIG_ONBOARD_DISPLAY : bool;
  HAVE_SD : bool;
  HAVE_ATA : bool;
  CONFIG_TWINSD : bool
}.

(** ** The settings in the error channel *)
Definition set_globalflags (x : Z) (s : errs) : errs :=
  {| current_error := current_error s; error_buffer := error_buffer s; err_lastused := err_lastused s;
     err_position := err_position s; led_error := led_error s; globalflags := x;
     file_extension_mode := file_extension_mode s; image_as_dir := image_as_dir s; rom_filename := rom_filename s;
     drive_config := drive_config s |}.
Definition set_file_extension_mode (x : Z) (s : errs) : errs :=
  {| current_error := current_error s; error_buffer := error_buffer s; err_lastused := err_lastused s;
     err_position := err_position s; led_error := led_error s; globalflags := globalflags s;
     file_extension_mode := x; image_as_dir := image_as_dir s; rom_filename := rom_filename s;
     drive_config := drive_config s |}.
Definition set_image_as_dir (x : Z) (s : errs) : errs :=
  {| current_error := current_error s; error_buffer := error_buffer s; err_lastused := err_lastused s;
     err_position := err_position s; led_error := led_error s; globalflags := globalflags s;
     file_extension_mode := file_extension_mode s; image_as_dir := x; rom_filename := rom_filename s;
     drive_config := drive_config s |}.
Definition set_rom_filename (x : list Z) (s : errs) : errs :=
  {| current_error := current_error s; error_buffer := error_buffer s; err_lastused := err_lastused s;
     err_position := err_position s; led_error := led_error s; globalflags := globalflags s;
     file_extension_mode := file_extension_mode s; image_as_dir := image_as_dir s; rom_filename := x;
     drive_config := drive_config s |}.
Definition set_drive_config (x : Z) (s : errs) : errs :=
  {| current_error := current_error s; error_buffer := error_buffer s; err_lastused := err_lastused s;
     err_position := err_position s; led_error := led_error s; globalflags := globalflags s;
     file_extension_mode := file_extension_mode s; image_as_dir := image_as_dir s; rom_filename := rom_filename s;
     drive_config := x |}.
Definition set_error_buffer (x : list Z) (s : errs) : errs :=
  {| current_error := current_error s; error_buffer := x; err_lastused := err_lastused s;
     err_position := err_position s; led_error := led_error s; globalflags := globalflags s;
     file_extension_mode := file_extension_mode s; image_as_dir := image_as_dir s; rom_filename := rom_filename s;
     drive_config := drive_config s |}.

(** The static variables of doscmd.c and the loader that fastloader.c detected;
    [fast_rxtx] is the row of [fl_rxtx_table] of the two function pointers. *)
Record cmd_state := {
  original_length : Z;
  datacrc : Z;
  detected_loader : Z;
  previous_loader : Z;
  fast_rxtx : Z;
  capture_address : Z;
  capture_remain : Z;
  capture_offset : Z;
  capture_buffer : option Z
}.

Definition set_original_length (x : Z) (s : cmd_state) : cmd_state :=
  {| original_length := x; datacrc := datacrc s; detected_loader := detected_loader s;
     previous_loader := previous_loader s; fast_rxtx := fast_rxtx s; capture_address := capture_address s;
     capture_remain := capture_remain s; capture_offset := capture_offset s; capture_buffer := capture_buffer s |}.
Definition set_datacrc (x : Z) (s : cmd_state) : cmd_state :=
  {| original_length := original_length s; datacrc := x; detected_loader := detected_loader s;
     previous_loader := previous_loader s; fast_rxtx := fast_rxtx s; capture_address := capture_address s;
     capture_remain := capture_remain s; capture_offset := capture_offset s; capture_buffer := capture_buffer s |}.
Definition set_detected_loader (x : Z) (s : cmd_state) : cmd_state :=
  {| original_length := original_length s; datacrc := datacrc s; detected_loader := x;
     previous_loader := previous_loader s; fast_rxtx := fast_rxtx s; capture_address := capture_address s;
     capture_remain := capture_remain s; capture_offset := capture_offset s; capture_buffer := capture_buffer s |}.
Definition set_previous_loader (x : Z) (s : cmd_state) : cmd_state :=
  {| original_length := original_length s; datacrc := datacrc s; detected_loader := detected_loader s;
     previous_loader := x; fast_rxtx := fast_rxtx s; capture_address := capture_address s;
     capture_remain := capture_remain s; capture_offset := capture_offset s; capture_buffer := capture_buffer s |}.
Definition set_fast_rxtx (x : Z) (s : cmd_state) : cmd_state :=
  {| original_length := original_length s; datacrc := datacrc s; detected_loader := detected_loader s;
     previous_loader := previous_loader s; fast_rxtx := x; capture_address := capture_address s;
     capture_remain := capture_remain s; capture_offset := capture_offset s; capture_buffer := capture_buffer s |}.
Definition set_capture_address (x : Z) (s : cmd_state) : cmd_state :=
  {| original_length := original_length s; datacrc := datacrc s; detected_loader := detected_loader s;
     previous_loader := previous_loader s; fast_rxtx := fast_rxtx s; capture_address := x;
     capture_remain := capture_remain s; capture_offset := capture_offset s; capture_buffer := capture_buffer s |}.
Definition set_capture_remain (x : Z) (s : cmd_state) : cmd_state :=
  {| original_length := original_length s; datacrc := datacrc s; detected_loader := detected_loader s;
     previous_loader := previous_loader s; fast_rxtx := fast_rxtx s; capture_address := capture_address s;
     capture_remain := x; capture_offset := capture_offset s; capture_buffer := capture_buffer s |}.
Definition set_capture_offset (x : Z) (s : cmd_state) : cmd_state :=
  {| original_length := original_length s; datacrc := datacrc s; detected_loader := detected_loader s;
     previous_loader := previous_loader s; fast_rxtx := fast_rxtx s; capture_address := capture_address s;
     capture_remain := capture_remain s; capture_offset := x; capture_buffer := capture_buffer s |}.
Definition set_capture_buffer (x : option Z) (s : cmd_state) : cmd_state :=
  {| original_length := original_length s; datacrc := datacrc s; detected_loader := detected_loader s;
     previous_loader := previous_loader s; fast_rxtx := fast_rxtx s; capture_address := capture_address s;
     capture_remain := capture_remain s; capture_offset := capture_offset s; capture_buffer := x |}.

Section machine.
Context `{FatFs} `{ErrorConfig} `{BufferConfig}.

Record machine := {
  m_world : world;
  m_cmd : cmd_state;
  romfile : FIL;
  device_address : Z;
  hw_address : bool -> Z;
  active_bus : Z;
  menu_system_enabled : bool;
  lcd_contrast : Z;
  lcd_brightness : Z;
  rtc_state : rtcstate_t;
  disk_state : diskstates;
  was_reset : bool
}.

Definition set_m_world (x : world) (m : machine) : machine :=
  {| m_world := x; m_cmd := m_cmd m; romfile := romfile m; device_address := device_address m;
     hw_address := hw_address m; active_bus := active_bus m; menu_system_enabled := menu_system_enabled m;
     lcd_contrast := lcd_contrast m; lcd_brightness := lcd_brightness m; rtc_state := rtc_state m;
     disk_state := disk_state m; was_reset := was_reset m |}.
Definition set_m_cmd (x : cmd_state) (m : machine) : machine :=
  {| m_world := m_world m; m_cmd := x; romfile := romfile m; device_address := device_address m;
     hw_address := hw_address m; active_bus := active_bus m; menu_system_enabled := menu_system_enabled m;
     lcd_contrast := lcd_contrast m; lcd_brightness := lcd_brightness m; rtc_state := rtc_state m;
     disk_state := disk_state m; was_reset := was_reset m |}.
Definition set_romfile (x : FIL) (m : machine) : machine :=
  {| m_world := m_world m; m_cmd := m_cmd m; romfile := x; device_address := device_address m;
     hw_address := hw_address m; active_bus := active_bus m; menu_system_enabled := menu_system_enabled m;
     lcd_contrast := lcd_contrast m; lcd_brightness := lcd_brightness m; rtc_state := rtc_state m;
     disk_state := disk_state m; was_reset := was_reset m |}.
Definition set_device_address (x : Z) (m : machine) : machine :=
  {| m_world := m_world m; m_cmd := m_cmd m; romfile := romfile m; device_address := x; hw_address := hw_address m;
     active_bus := active_bus m; menu_system_enabled := menu_system_enabled m; lcd_contrast := lcd_contrast m;
     lcd_brightness := lcd_brightness m; rtc_state := rtc_state m; disk_state := disk_state m;
     was_reset := was_reset m |}.
Definition set_active_bus (x : Z) (m : machine) : machine :=
  {| m_world := m_world m; m_cmd := m_cmd m; romfile := romfile m; device_address := device_address m;
     hw_address := hw_address m; active_bus := x; menu_system_enabled := menu_system_enabled m;
     lcd_contrast := lcd_contrast m; lcd_brightness := lcd_brightness m; rtc_state := rtc_state m;
     disk_state := disk_state m; was_reset := was_reset m |}.
Definition set_menu_system_enabled (x : bool) (m : machine) : machine :=
  {| m_world := m_world m; m_cmd := m_cmd m; romfile := romfile m; device_address := device_address m;
     hw_address := hw_address m; active_bus := active_bus m; menu_system_enabled := x;
     lcd_contrast := lcd_contrast m; lcd_brightness := lcd_brightness m; rtc_state := rtc_state m;
     disk_state := disk_state m; was_reset := was_reset m |}.
Definition set_lcd_contrast (x : Z) (m : machine) : machine :=
  {| m_world := m_world m; m_cmd := m_cmd m; romfile := romfile m; device_address := device_address m;
     hw_address := hw_address m; active_bus := active_bus m; menu_system_enabled := menu_system_enabled m;
     lcd_contrast := x; lcd_brightness := lcd_brightness m; rtc_state := rtc_state m; disk_state := disk_state m;
     was_reset := was_reset m |}.
Definition set_lcd_brightness (x : Z) (m : machine) : machine :=
  {| m_world := m_world m; m_cmd := m_cmd m; romfile := romfile m; device_address := device_address m;
     hw_address := hw_address m; active_bus := active_bus m; menu_system_enabled := menu_system_enabled m;
     lcd_contrast := lcd_contrast m; lcd_brightness := x; rtc_state := rtc_state m; disk_state := disk_state m;
     was_reset := was_reset m |}.
Definition set_rtc_state (x : rtcstate_t) (m : machine) : machine :=
  {| m_world := m_world m; m_cmd := m_cmd m; romfile := romfile m; device_address := device_address m;
     hw_address := hw_address m; active_bus := active_bus m; menu_system_enabled := menu_system_enabled m;
     lcd_contrast := lcd_contrast m; lcd_brightness := lcd_brightness m; rtc_state := x;
     disk_state := disk_state m; was_reset := was_reset m |}.
Definition set_disk_state (x : diskstates) (m : machine) : machine :=
  {| m_world := m_world m; m_cmd := m_cmd m; romfile := romfile m; device_address := device_address m;
     hw_address := hw_address m; active_bus := active_bus m; menu_system_enabled := menu_system_enabled m;
     lcd_contrast := lcd_contrast m; lcd_brightness := lcd_brightness m; rtc_state := rtc_state m; disk_state := x;
     was_reset := was_reset m |}.
Definition set_was_reset (x : bool) (m : machine) : machine :=
  {| m_world := m_world m; m_cmd := m_cmd m; romfile := romfile m; device_address := device_address m;
     hw_address := hw_address m; active_bus := active_bus m; menu_system_enabled := menu_system_enabled m;
     lcd_contrast := lcd_contrast m; lcd_brightness := lcd_brightness m; rtc_state := rtc_state m;
     disk_state := disk_state m; was_reset := x |}.

Definition on_world {A} (m : comp world A) : comp machine A := zoom m_world set_m_world m.
Definition on_cmds {A} (m : comp cmd_state A) : comp machine A := zoom m_cmd set_m_cmd m.

(** The settings are a part of the error channel. *)
Definition upd_settings (f : errs -> errs) : comp machine unit :=
  on_world (on_bufs (modify (fun s => put_channel (f (channel s)) s))).
Definition get_settings : comp machine errs := on_world settings.

Definition mset_error_ts (errornum track sector : Z) : comp machine unit := on_world (wset_error_ts errornum track sector).
Definition mset_error (errornum : Z) : comp machine unit := mset_error_ts errornum 0 0.
Definition set_system_reset : comp machine unit := modify (set_was_reset true).

(** [globalflags |= flag] and [globalflags &= ~flag] *)
Definition flag_on (flag : Z) : comp machine unit :=
  upd_settings (fun s => set_globalflags (Z.lor (globalflags s) flag) s).
Definition flag_off (flag : Z) : comp machine unit :=
  upd_settings (fun s => set_globalflags (Z.land (globalflags s) (255 - flag)) s).
End machine.
