(* ===== verification/Config.v ===== *)
(** * eeprom-conf.c, diskio.c, filesystem.h and rtc.c: configuration

    The stored configuration is the block of 34 bytes at the start of the
    EEPROM whose other part holds the file system.  The disk drivers behind
    diskio.c are the interface [DiskDrivers]. *)

From stdpp Require Import gmap.
From S2P Require Import Prelude EepromFs ErrorMsg Utils Buffers FatFs Dirent World D64Geom D64 D64Files.
From S2P Require Import EefsOps FatNames FatFile Callbacks FatOps WrapOps Machine.

Definition ROM_NAME_LENGTH : Z := 16.

(** The places of the fields of [storedconfig]. *)
Definition CONF_CHECKSUM : Z := 1.
Definition CONF_STRUCTSIZE : Z := 2.
Definition CONF_GLOBAL_FLAGS : Z := 5.
Definition CONF_ADDRESS : Z := 6.
Definition CONF_HARDADDRESS : Z := 7.
Definition CONF_FILEEXTS : Z := 8.
Definition CONF_DRVCONFIG0 : Z := 9.
Definition CONF_DRVCONFIG1 : Z := 11.
Definition CONF_IMAGEDIRS : Z := 13.
Definition CONF_ROMNAME : Z := 14.
Definition CONF_ACTIVE_BUS : Z := 30.
Definition CONF_MENU_SYSTEM_ENABLED : Z := 31.
Definition CONF_LCD_CONTRAST : Z := 32.
Definition CONF_LCD_BRIGHTNESS : Z := 33.
Definition CONF_SIZE : Z := 34.

(** ** diskio.c *)
Definition RES_OK : Z := 0.
Definition RES_ERROR : Z := 1.
Definition RES_WRPRT : Z := 2.
Definition DISK_TYPE_ATA : Z := 0.
Definition DISK_TYPE_ATA2 : Z := 1.
Definition DISK_TYPE_SD : Z := 2.
Definition DISK_TYPE_NONE : Z := 7.

Inductive disk_driver := AtaDriver | SdDriver.

(** ata.c and sdcard.c: the functions for a drive.  A read returns the bytes
    that it has stored at the pointer. *)
Class DiskDrivers `{FatFs} := {
  drv_read : disk_driver -> Z -> Z -> DRV -> Z * list Z * DRV;
  drv_write : disk_driver -> Z -> list Z -> Z -> DRV -> Z * DRV;
  drv_getinfo : disk_driver -> Z -> Z -> DRV -> Z * list Z * DRV
}.

Section diskio.
Context `{ErrorConfig} `{BoardConfig}.

Definition get_default_driveconfig : Z :=
  if NEED_DISKMUX then
    let result := 4294967295 in
    let result := if CONFIG_TWINSD then u32 (Z.shiftl result 4) + 2 * DISK_TYPE_SD + 1 else result in
    let result := if HAVE_SD then u32 (Z.shiftl result 4) + 2 * DISK_TYPE_SD else result in
    if HAVE_ATA then u32 (Z.shiftl result 4) + 2 * DISK_TYPE_ATA else result
  else 0.

(** The macros of diskio.h; without a multiplexer they do nothing. *)
Definition put_drive_config (config : Z) (s : errs) : errs := if NEED_DISKMUX then set_drive_config config s else s.
Definition set_map_drive (drv val : Z) (s : errs) : errs :=
  set_drive_config (Z.lor (Z.land (drive_config s) (4294967295 - Z.shiftl 15 (4 * drv))) (Z.shiftl val (4 * drv))) s.

(** The driver and its drive that [drv] stands for. *)
Definition mux (drv : Z) : option (disk_driver * Z) :=
  if NEED_DISKMUX then
    let type := Z.shiftr drv 1 in
    if HAVE_ATA && (type =? DISK_TYPE_ATA) then Some (AtaDriver, Z.land drv 1)
    else if HAVE_ATA && (type =? DISK_TYPE_ATA2) then Some (AtaDriver, Z.land drv 1 + 2)
    else if HAVE_SD && (type =? DISK_TYPE_SD) then Some (SdDriver, Z.land drv 1)
    else None
  else Some (if HAVE_SD then SdDriver else AtaDriver, drv).

Context `{FatFs} `{!DiskDrivers}.

Definition disk_read (drv sector : Z) (d : DRV) : Z * list Z * DRV :=
  match mux drv with Some (driver, n) => drv_read driver n sector d | None => (RES_ERROR, [], d) end.
Definition disk_write (drv : Z) (buffer : list Z) (sector : Z) (d : DRV) : Z * DRV :=
  match mux drv with Some (driver, n) => drv_write driver n buffer sector d | None => (RES_ERROR, d) end.
Definition disk_getinfo (drv page : Z) (d : DRV) : Z * list Z * DRV :=
  match mux drv with Some (driver, n) => drv_getinfo driver n page d | None => (RES_ERROR, [], d) end.
End diskio.

Section config.
Context `{FatFs} `{EepromGeom} `{Assertions} `{ErrorConfig} `{BufferConfig} `{SystemConfig} `{BoardConfig}.

(** ** filesystem.h *)
Definition filesystem_init (preserve_dir : bool) : comp world unit :=
  fatops_init preserve_dir;; when CONFIG_HAVE_EEPROMFS eefsops_init.

(** ** rtc.c: the time in the format of a FAT directory *)
Definition get_fattime (t : tm) : Z :=
  Z.lor (u32 (Z.shiftl (u32 (tm_year t - 80)) 25)) (Z.lor (Z.shiftl (tm_mon t + 1) 21) (Z.lor (Z.shiftl (tm_mday t) 16)
    (Z.lor (Z.shiftl (tm_hour t) 11) (Z.lor (Z.shiftl (tm_min t) 5) (Z.shiftr (tm_sec t) 1))))).

(** ** eeprom-conf.c *)
Definition conf_block (a n : Z) : comp machine (list Z) := on_world (on_eefs (eeprom_read_block a n)).
Definition conf_byte (a : Z) : comp machine Z := bs ← conf_block a 1; mret (nthZ bs 0).
Definition conf_word (a : Z) : comp machine Z := bs ← conf_block a 2; mret (nthZ bs 0 + 256 * nthZ bs 1).
Definition conf_put (a : Z) (bs : list Z) : comp machine unit := on_world (on_eefs (eeprom_write_block bs a)).
Definition conf_put_word (a x : Z) : comp machine unit := conf_put a [Z.land x 255; Z.land (Z.shiftr x 8) 255].

Definition conf_checksum (size : Z) : comp machine Z :=
  for_range 2 (Z.to_nat (size - 2)) (fun i checksum => b ← conf_byte i; mret (u8 (checksum + b))) 0.

Definition hw_addr : comp machine Z := gets (fun m => hw_address m (menu_system_enabled m)).

Definition write_configuration : comp machine unit :=
  conf_put_word CONF_STRUCTSIZE CONF_SIZE;;
  s ← get_settings;
  conf_put CONF_GLOBAL_FLAGS [Z.land (globalflags s) (Z.lor POSTMATCH EXTENSION_HIDING)];;
  m ← gets id;
  conf_put CONF_ADDRESS [device_address m];;
  a ← hw_addr;
  conf_put CONF_HARDADDRESS [a];;
  conf_put CONF_FILEEXTS [file_extension_mode s];;
  when NEED_DISKMUX (
    conf_put_word CONF_DRVCONFIG0 (drive_config s);;
    conf_put_word CONF_DRVCONFIG1 (Z.shiftr (drive_config s) 16));;
  conf_put CONF_IMAGEDIRS [image_as_dir s];;
  name ← of_option (strz (rom_filename s));
  let rom := name ++ fill (zlen (rom_filename s) - zlen name) 0 in
  upd_settings (set_rom_filename rom);;
  rom ← of_option (load_block rom 0 ROM_NAME_LENGTH);
  conf_put CONF_ROMNAME rom;;
  conf_put CONF_ACTIVE_BUS [active_bus m];;
  when CONFIG_HW_ADDR_OR_BUTTONS (conf_put CONF_MENU_SYSTEM_ENABLED [Z.b2z (menu_system_enabled m)]);;
  when CONFIG_ONBOARD_DISPLAY (
    conf_put CONF_LCD_CONTRAST [lcd_contrast m];; conf_put CONF_LCD_BRIGHTNESS [lcd_brightness m]);;
  checksum ← conf_checksum CONF_SIZE;
  conf_put CONF_CHECKSUM [checksum].

(** The device address from the EEPROM; the result says that the jumpers have
    been changed. *)
Definition load_address : comp machine bool :=
  current ← hw_addr;
  stored_hw ← conf_byte CONF_HARDADDRESS;
  stored_sw ← conf_byte CONF_ADDRESS;
  modify (set_device_address (if negb (current =? stored_hw) then current else stored_sw));;
  mret (negb (current =? stored_hw)).

Definition load_drives (size : Z) : comp machine unit :=
  when (9 <? size) (
    lo ← conf_word CONF_DRVCONFIG0;
    hi ← conf_word CONF_DRVCONFIG1;
    upd_settings (put_drive_config (Z.lor lo (Z.shiftl hi 16))));;
  s ← get_settings;
  when (drive_config s =? 4294967295) (upd_settings (put_drive_config get_default_driveconfig)).

(** The values behind a valid checksum; an old block is shorter. *)
Definition load_configuration (size : Z) : comp machine unit :=
  when (CONFIG_HW_ADDR_OR_BUTTONS && (31 <? size)) (
    b ← conf_byte CONF_MENU_SYSTEM_ENABLED; modify (set_menu_system_enabled (negb (b =? 0))));;
  tmp ← conf_byte CONF_GLOBAL_FLAGS;
  flag_off (Z.lor POSTMATCH EXTENSION_HIDING);;
  flag_on tmp;;
  rewrite_required ← load_address;
  x ← conf_byte CONF_FILEEXTS;
  upd_settings (set_file_extension_mode x);;
  when NEED_DISKMUX (load_drives size);;
  when (13 <? size) (x ← conf_byte CONF_IMAGEDIRS; upd_settings (set_image_as_dir x));;
  when (29 <? size) (
    name ← conf_block CONF_ROMNAME ROM_NAME_LENGTH;
    s ← get_settings;
    rom ← of_option (store_block (rom_filename s) 0 name);
    upd_settings (set_rom_filename rom));;
  when (HAVE_DUAL_INTERFACE && (30 <? size)) (x ← conf_byte CONF_ACTIVE_BUS; modify (set_active_bus x));;
  when (CONFIG_ONBOARD_DISPLAY && (32 <? size)) (
    c ← conf_byte CONF_LCD_CONTRAST;
    b ← conf_byte CONF_LCD_BRIGHTNESS;
    modify (fun m => set_lcd_brightness b (set_lcd_contrast c m)));;
  when rewrite_required write_configuration.

Definition read_configuration : comp machine unit :=
  flag_on POSTMATCH;;
  upd_settings (set_file_extension_mode 0);;
  upd_settings (put_drive_config get_default_driveconfig);;
  upd_settings (set_rom_filename (fill (ROM_NAME_LENGTH + 1) 0));;
  size ← conf_word CONF_STRUCTSIZE;
  if size =? 65535 then write_configuration
  else
    checksum ← conf_checksum size;
    stored ← conf_byte CONF_CHECKSUM;
    if negb (checksum =? stored) then write_configuration else load_configuration size.
End config.
