(* ===== verification/DosBlock.v ===== *)
(** * doscmd.c: commands on blocks, sectors and partitions

    Block commands on direct-access buffers, access to the sectors of a disk,
    and the description of a partition.  The error buffer is the data area
    of channel 15; accesses of a command to it as a data buffer are stuck,
    since it is shorter than 256 bytes. *)

From stdpp Require Import gmap.
From S2P Require Import Prelude EepromFs ErrorMsg Utils Buffers FatFs Dirent World D64Geom D64 D64Files D64Ops.
From S2P Require Import EefsOps FatNames FatFile Callbacks FatOps WrapOps Parser DirLines FileOps DosFiles Machine Config.

Definition CURSOR_RIGHT : Z := 29.

(** The parameters of a block command, at most four; [None] for the result
    below zero. *)
Definition parse_blockparam : comp (list Z) (option (list Z)) :=
  colon ← strchr 0 58;
  n ← (match colon with Some _ => mret 3 | None => ustrlen 0 end);
  if n <? 3 then mret None
  else
    values ← loop 5 (fun '(values, str) =>
      c ← peek str;
      if negb (c =? 0) && (zlen values <? 4) then
        str ← skip_while (fun c => (c =? 32) || (c =? CURSOR_RIGHT) || (c =? 44)) str;
        c ← peek str;
        if c =? 0 then mret (inr values)
        else r ← parse_number str; mret (inl (values ++ [u8 r.1], r.2))
      else mret (inr values)) ([], default 2 colon + 1);
    mret (Some values).

(** The answer of [G-P] for the system partition. *)
Definition system_partition_info : list Z :=
  [255; 226; 0; 83; 89; 83; 84; 69; 77; 160; 160; 160; 160; 160; 160; 160; 160; 160; 160] ++ fill 11 0 ++ [13].

Section dosblock.
Context `{FatFs} `{EepromGeom} `{Assertions} `{ErrorConfig} `{BufferConfig} `{SystemConfig} `{BoardConfig} `{!DiskDrivers}.

(** [pvt.buffer.part] and [pvt.buffer.size] *)
Definition pvt_part (p : pvt_t) : option Z := match p with PvtBuffer part _ _ _ => Some part | PvtZero => Some 0 | _ => None end.
Definition pvt_size (p : pvt_t) : option Z := match p with PvtBuffer _ size _ _ => Some size | PvtZero => Some 0 | _ => None end.

Definition block_read (buf track sector : Z) : comp world unit :=
  b ← on_bufs (buf_get buf);
  part ← of_option (pvt_part (pvt b));
  read_sector buf part track sector;;
  c ← on_cmd (peek 0);
  if c =? 66 then
    n ← on_bufs (data_get buf 0);
    on_bufs (buf_upd buf (fun b => set_lastused n (set_position 1 b)))
  else on_bufs (buf_upd buf (fun b => set_lastused 255 (set_position 0 b))).

Definition block_write (buf track sector : Z) : comp world unit :=
  c ← on_cmd (peek 0);
  b ← on_bufs (buf_get buf);
  when (c =? 66) (on_bufs (data_put buf 0 [u8 (position b - 1)]));;
  part ← of_option (pvt_part (pvt b));
  write_sector buf part track sector.

(** [count] steps along a chain of buffers, from its end to its first one. *)
Definition walk_chain (buf : Z) (count : Z) : comp world Z :=
  for_range 0 (Z.to_nat count) (fun _ buf =>
    b ← on_bufs (buf_get buf);
    next ← of_option (pvt_next (pvt b));
    match next with
    | Some i => mret i
    | None => first ← of_option (pvt_first (pvt b)); of_option first
    end) buf.

Definition block_position (buf sec pos count : Z) : comp world unit :=
  b ← on_bufs (buf_get buf);
  size ← of_option (pvt_size (pvt b));
  target ← (if negb (size =? 1) then
              on_bufs (buf_upd buf (set_secondary (u8 (BUFFER_SEC_CHAIN - sec))));;
              first ← of_option (pvt_first (pvt b));
              first ← of_option first;
              t ← walk_chain first count;
              on_bufs (buf_upd t (fun b => set_mustflush false (set_secondary sec b)));;
              mret t
            else mret buf);
  on_bufs (buf_upd target (set_position pos)).

Definition with_channel (sec : Z) (k : Z -> comp world unit) : comp world unit :=
  buf ← on_bufs (find_buffer sec);
  match buf with None => wset_error ERROR_NO_CHANNEL | Some buf => k buf end.

Definition parse_block : comp world unit :=
  clean_cmdbuffer;;
  dash ← on_cmd (strchr 0 45);
  match dash with
  | None => wset_error ERROR_SYNTAX_UNABLE
  | Some dash =>
      v ← on_cmd parse_blockparam;
      match v with
      | None => mret tt
      | Some values =>
          let param i := nthZ (values ++ fill (4 - zlen values) 0) i in
          c ← on_cmd (peek (dash + 1));
          if c =? 82 then with_channel (param 0) (fun buf => block_read buf (param 2) (param 3))
          else if c =? 87 then with_channel (param 0) (fun buf => block_write buf (param 2) (param 3))
          else if c =? 80 then with_channel (param 0) (fun buf => block_position buf (param 0) (param 1) (param 2))
          else wset_error ERROR_SYNTAX_UNABLE
      end
  end.

(** ** Direct access *)

(** The first buffer of a chain takes over the secondary address. *)
Definition direct_buffer (buf : Z) : comp world Z :=
  b ← on_bufs (buf_get buf);
  size ← of_option (pvt_size (pvt b));
  buf ← (if 1 <? size then
           on_bufs (buf_upd buf (set_secondary (u8 (BUFFER_SEC_CHAIN - secondary b))));;
           first ← of_option (pvt_first (pvt b));
           first ← of_option first;
           on_bufs (buf_upd first (set_secondary (secondary b)));;
           mret first
         else mret buf);
  on_bufs (buf_upd buf (fun b => set_lastused 255 (set_position 0 b)));;
  mret buf.

Definition direct_info (buf drive page : Z) : comp world unit :=
  on_bufs (data_put buf 0 (fill 256 0));;
  r ← call (disk_getinfo drive page);
  on_bufs (data_put buf 0 r.2);;
  when (negb (r.1 =? RES_OK)) (wset_error ERROR_DRIVE_NOT_READY).

Definition direct_read (buf drive sector : Z) : comp world unit :=
  b ← on_bufs (buf_get buf);
  size ← of_option (pvt_size (pvt b));
  if size <? 2 then wset_error ERROR_BUFFER_TOO_SMALL
  else
    r ← call (disk_read drive sector);
    let '(res, data) := r in
    on_bufs (data_put buf 0 data);;
    if res =? RES_OK then mret tt
    else if res =? RES_ERROR then wset_error ERROR_READ_NOHEADER
    else wset_error_ts ERROR_DRIVE_NOT_READY res 0.

Definition direct_write (buf drive sector : Z) : comp world unit :=
  b ← on_bufs (buf_get buf);
  size ← of_option (pvt_size (pvt b));
  if size <? 2 then wset_error ERROR_BUFFER_TOO_SMALL
  else
    data ← on_bufs (data_read buf 0 512);
    res ← call (disk_write drive data sector);
    if res =? RES_OK then mret tt
    else if res =? RES_WRPRT then wset_error ERROR_WRITE_PROTECT
    else if res =? RES_ERROR then wset_error ERROR_WRITE_VERIFY
    else wset_error_ts ERROR_DRIVE_NOT_READY res 0.

(** A little-endian number of four bytes. *)
Definition le32 (l : list Z) : Z := nthZ l 0 + 256 * nthZ l 1 + 65536 * nthZ l 2 + 16777216 * nthZ l 3.
Definition cmd_bytes (p n : Z) : comp world (list Z) := s ← gets w_dos; of_option (load_block (command_buffer s) p n).

Definition parse_direct : comp world unit :=
  sec ← on_cmd (peek 2);
  with_channel sec (fun buf =>
    buf ← direct_buffer buf;
    drive ← on_cmd (peek 3);
    bs ← cmd_bytes 4 4;
    c ← on_cmd (peek 1);
    if c =? 73 then direct_info buf drive (nthZ bs 0)
    else if c =? 82 then direct_read buf drive (le32 bs)
    else if c =? 87 then direct_write buf drive (le32 bs)
    else wset_error ERROR_SYNTAX_UNABLE).

(** ** G-P *)

Definition err_put (i : Z) (bs : list Z) : comp world unit :=
  s ← settings;
  e ← of_option (store_block (error_buffer s) i bs);
  on_bufs (modify (fun s => put_channel (set_error_buffer e (channel s)) s)).
Definition err_range (first last : Z) : comp world unit :=
  on_bufs (buf_upd ERRORBUFFER_IDX (fun b => set_lastused last (set_position first b))).

Definition be24 (x : Z) : list Z := [Z.land (Z.shiftr x 16) 255; Z.land (Z.shiftr x 8) 255; Z.land x 255].

(** The size of a partition in blocks of 512 bytes. *)
Definition partition_size (part : Z) (p : partition_t) (d : DRV) : Z :=
  match fop p with
  | d64ops => u32 (fsize (imagehandle p) + 511) / 512
  | _ => u32 (u32 (max_clust part d - 1) * csize part d)
  end.

(** The description of partition [part] (from 0). *)
Definition partition_info (part : Z) : comp world unit :=
  p ← part_get part;
  err_put 0 [match fop p with d64ops => Z.land (imagetype p) D64_TYPE_MASK | _ => 1 end; 226; part + 1];;
  err_put 3 (fill 16 160);;
  r ← disk_label part;
  ops_put 0 r.2;;
  if negb (r.1 =? 0) then mret tt
  else
    w ← gets id;
    label ← of_option (strz (scratch (w_eefs w)));
    err_put 3 label;;
    p ← part_get part;
    let base := fatbase part (drv w) in
    err_put 19 (be24 base);;
    err_put 27 (be24 (Z.min 16777215 (partition_size part p (drv w)))).

Definition parse_getpartition : comp world unit :=
  s ← gets w_dos;
  if command_length s <? 3 then mret tt
  else
    a ← on_cmd (peek 1);
    b ← on_cmd (peek 2);
    if negb (a =? 45) || negb (b =? 80) then wset_error ERROR_SYNTAX_UNKNOWN
    else
      c ← (if command_length s =? 3 then mret 255 else on_cmd (peek 3));
      let part := if c =? 255 then u8 (current_part s + 1) else c in
      err_range 0 30;;
      err_put 0 (fill 30 0);;
      err_put 30 [13];;
      n ← gets max_part;
      if n <? part then err_put 30 [13]
      else if part =? 0 then err_put 0 system_partition_info
      else partition_info (part - 1).
End dosblock.
