(* ===== verification/DosMemory.v ===== *)
(** * doscmd.c: memory commands and the detection of fastloaders

    M-R, M-W and M-E.  A fastloader is recognised by the checksum over the
    code that the host writes into the memory of the drive, and runs when the
    host executes it.  The loaders themselves (fl-*.c) are bus transfers: the
    interface [Fastloaders] has their entry points and the configuration. *)

From stdpp Require Import gmap.
From S2P Require Import Prelude EepromFs ErrorMsg Utils Buffers FatFs Dirent World D64Geom D64 D64Files D64Ops.
From S2P Require Import EefsOps FatNames FatFile Callbacks FatOps WrapOps Parser DirLines FileOps DosFiles Machine Config DosBlock.

(** fastloader.h *)
Definition FL_NONE : Z := 0.
Definition FL_DREAMLOAD : Z := 1.
Definition FL_DREAMLOAD_OLD : Z := 2.
Definition FL_TURBODISK : Z := 3.
Definition FL_FC3_LOAD : Z := 4.
Definition FL_FC3_SAVE : Z := 5.
Definition FL_FC3_FREEZED : Z := 6.
Definition FL_ULOAD3 : Z := 7.
Definition FL_GI_JOE : Z := 8.
Definition FL_EPYXCART : Z := 9.
Definition FL_GEOS_S1_64 : Z := 10.
Definition FL_GEOS_S1_128 : Z := 11.
Definition FL_GEOS_S23_1541 : Z := 12.
Definition FL_GEOS_S23_1571 : Z := 13.
Definition FL_GEOS_S23_1581 : Z := 14.
Definition FL_WHEELS_S1_64 : Z := 15.
Definition FL_WHEELS_S1_128 : Z := 16.
Definition FL_WHEELS_S2 : Z := 17.
Definition FL_WHEELS44_S2 : Z := 18.
Definition FL_WHEELS44_S2_1581 : Z := 19.
Definition FL_NIPPON : Z := 20.
Definition FL_AR6_1581_LOAD : Z := 21.
Definition FL_AR6_1581_SAVE : Z := 22.
Definition FL_ELOAD1 : Z := 23.
Definition FL_FC3_OLDFREEZED : Z := 24.
Definition FL_MMZAK : Z := 25.
Definition FL_N0SDOS_FILEREAD : Z := 26.
Definition FL_SAMSJOURNEY : Z := 27.

Definition RXTX_NONE : Z := 0.
Definition RXTX_GEOS_1MHZ : Z := 1.
Definition RXTX_GEOS_2MHZ : Z := 2.
Definition RXTX_GEOS_1581_21 : Z := 3.
Definition RXTX_WHEELS_1MHZ : Z := 4.
Definition RXTX_WHEELS_2MHZ : Z := 5.
Definition RXTX_WHEELS44_1541 : Z := 6.
Definition RXTX_WHEELS44_1581 : Z := 7.
Definition RXTX_FC3OF_PAL : Z := 8.
Definition RXTX_FC3OF_NTSC : Z := 9.

Definition BUFFER_SYS_CAPTURE1 : Z := 102.

(** The options CONFIG_LOADER_*, and the functions in the handler table. *)
Inductive loader_option :=
| LOADER_TURBODISK | LOADER_FC3 | LOADER_DREAMLOAD | LOADER_ULOAD3 | LOADER_ELOAD1 | LOADER_EPYXCART | LOADER_GEOS
| LOADER_WHEELS | LOADER_NIPPON | LOADER_AR6 | LOADER_MMZAK | LOADER_GIJOE | LOADER_N0SDOS | LOADER_SAMSJOURNEY.
Inductive fastloader_handler_t :=
| load_turbodisk
| load_fc3
| save_fc3
| load_fc3oldfreeze
| load_dreamload
| load_uload3
| load_eload1
| load_gijoe
| load_epyxcart
| load_geos_s1
| load_geos
| load_wheels_s1
| load_wheels_s2
| load_nippon
| load_ar6_1581
| save_ar6_1581
| load_mmzak
| load_n0sdos_fileread
| load_samsjourney.

Class Fastloaders `{FatFs} := {
  CONFIG_LOADER : loader_option -> bool;
  run_handler : fastloader_handler_t -> Z -> comp machine unit;
  CONFIG_PARALLEL_DOLPHIN : bool;
  load_dolphin : comp machine unit;
  save_dolphin : comp machine unit
}.

(** The rows of the tables with the options that they depend on. *)
Record fastloader_crc_s := { crc_value : Z; crc_loadertype : Z; crc_rxtx : Z }.
Record fastloader_handler_s := { h_address : Z; h_loadertype : Z; h_handler : fastloader_handler_t; h_parameter : Z }.
Record fastloader_capture_s := { cap_loadertype : Z; cap_startaddr : Z; cap_length : Z; cap_buffer_id : Z }.

Definition crc_row (crc loader rxtx : Z) : fastloader_crc_s := {| crc_value := crc; crc_loadertype := loader; crc_rxtx := rxtx |}.
Definition handler_row (address loader : Z) (handler : fastloader_handler_t) (parameter : Z) : fastloader_handler_s :=
  {| h_address := address; h_loadertype := loader; h_handler := handler; h_parameter := parameter |}.

Definition fl_crc_rows : list (list loader_option * fastloader_crc_s) :=
  [([LOADER_TURBODISK], crc_row 40095 FL_TURBODISK RXTX_NONE);
   ([LOADER_FC3], crc_row 55984 FL_FC3_LOAD RXTX_NONE);
   ([LOADER_FC3], crc_row 38715 FL_FC3_LOAD RXTX_NONE);
   ([LOADER_FC3], crc_row 32312 FL_FC3_LOAD RXTX_NONE);
   ([LOADER_FC3], crc_row 6960 FL_FC3_SAVE RXTX_NONE);
   ([LOADER_FC3], crc_row 35598 FL_FC3_SAVE RXTX_NONE);
   ([LOADER_FC3], crc_row 39216 FL_FC3_FREEZED RXTX_NONE);
   ([LOADER_FC3], crc_row 641 FL_FC3_OLDFREEZED RXTX_FC3OF_PAL);
   ([LOADER_FC3], crc_row 49558 FL_FC3_OLDFREEZED RXTX_FC3OF_NTSC);
   ([LOADER_DREAMLOAD], crc_row 11881 FL_DREAMLOAD RXTX_NONE);
   ([LOADER_ULOAD3], crc_row 56705 FL_ULOAD3 RXTX_NONE);
   ([LOADER_ELOAD1], crc_row 14654 FL_ELOAD1 RXTX_NONE);
   ([LOADER_EPYXCART], crc_row 23041 FL_EPYXCART RXTX_NONE);
   ([LOADER_GEOS], crc_row 47481 FL_GEOS_S1_64 RXTX_GEOS_1MHZ);
   ([LOADER_GEOS], crc_row 9321 FL_GEOS_S1_128 RXTX_GEOS_1MHZ);
   ([LOADER_GEOS], crc_row 19833 FL_GEOS_S23_1541 RXTX_GEOS_1MHZ);
   ([LOADER_GEOS], crc_row 45756 FL_GEOS_S23_1541 RXTX_GEOS_1MHZ);
   ([LOADER_GEOS], crc_row 45682 FL_GEOS_S23_1541 RXTX_GEOS_1MHZ);
   ([LOADER_GEOS], crc_row 56045 FL_GEOS_S23_1571 RXTX_GEOS_2MHZ);
   ([LOADER_GEOS], crc_row 16269 FL_GEOS_S23_1581 RXTX_GEOS_2MHZ);
   ([LOADER_GEOS], crc_row 51527 FL_GEOS_S23_1581 RXTX_GEOS_1581_21);
   ([LOADER_GEOS; LOADER_WHEELS], crc_row 61760 FL_WHEELS_S1_64 RXTX_WHEELS_1MHZ);
   ([LOADER_GEOS; LOADER_WHEELS], crc_row 29566 FL_WHEELS_S1_128 RXTX_WHEELS_1MHZ);
   ([LOADER_GEOS; LOADER_WHEELS], crc_row 30042 FL_WHEELS_S2 RXTX_WHEELS_1MHZ);
   ([LOADER_GEOS; LOADER_WHEELS], crc_row 10528 FL_WHEELS_S2 RXTX_WHEELS_1MHZ);
   ([LOADER_GEOS; LOADER_WHEELS], crc_row 6377 FL_WHEELS_S2 RXTX_WHEELS_2MHZ);
   ([LOADER_GEOS; LOADER_WHEELS], crc_row 38916 FL_WHEELS_S2 RXTX_WHEELS_2MHZ);
   ([LOADER_GEOS; LOADER_WHEELS], crc_row 18677 FL_WHEELS_S2 RXTX_WHEELS_2MHZ);
   ([LOADER_GEOS; LOADER_WHEELS], crc_row 4950 FL_WHEELS_S2 RXTX_WHEELS_2MHZ);
   ([LOADER_GEOS; LOADER_WHEELS], crc_row 59525 FL_WHEELS_S2 RXTX_WHEELS_2MHZ);
   ([LOADER_GEOS; LOADER_WHEELS], crc_row 20170 FL_WHEELS_S2 RXTX_WHEELS_2MHZ);
   ([LOADER_GEOS; LOADER_WHEELS], crc_row 56310 FL_WHEELS_S2 RXTX_WHEELS_2MHZ);
   ([LOADER_GEOS; LOADER_WHEELS], crc_row 58539 FL_WHEELS_S2 RXTX_WHEELS_2MHZ);
   ([LOADER_GEOS; LOADER_WHEELS], crc_row 28133 FL_WHEELS_S2 RXTX_WHEELS_2MHZ);
   ([LOADER_GEOS; LOADER_WHEELS], crc_row 12543 FL_WHEELS_S2 RXTX_WHEELS_2MHZ);
   ([LOADER_GEOS; LOADER_WHEELS], crc_row 18151 FL_WHEELS_S2 RXTX_WHEELS_2MHZ);
   ([LOADER_GEOS; LOADER_WHEELS], crc_row 8787 FL_WHEELS_S2 RXTX_WHEELS_2MHZ);
   ([LOADER_GEOS; LOADER_WHEELS], crc_row 49770 FL_WHEELS44_S2 RXTX_WHEELS44_1541);
   ([LOADER_GEOS; LOADER_WHEELS], crc_row 21772 FL_WHEELS44_S2 RXTX_WHEELS44_1541);
   ([LOADER_GEOS; LOADER_WHEELS], crc_row 33371 FL_WHEELS44_S2_1581 RXTX_WHEELS44_1581);
   ([LOADER_GEOS; LOADER_WHEELS], crc_row 9307 FL_WHEELS44_S2_1581 RXTX_WHEELS44_1581);
   ([LOADER_GEOS; LOADER_WHEELS], crc_row 28705 FL_WHEELS44_S2_1581 RXTX_WHEELS44_1581);
   ([LOADER_GEOS; LOADER_WHEELS], crc_row 54583 FL_WHEELS44_S2_1581 RXTX_WHEELS44_1581);
   ([LOADER_GEOS; LOADER_WHEELS], crc_row 63029 FL_WHEELS44_S2_1581 RXTX_WHEELS44_1581);
   ([LOADER_NIPPON], crc_row 17345 FL_NIPPON RXTX_NONE);
   ([LOADER_AR6], crc_row 18544 FL_AR6_1581_LOAD RXTX_NONE);
   ([LOADER_AR6], crc_row 10533 FL_AR6_1581_SAVE RXTX_NONE);
   ([LOADER_MMZAK], crc_row 4774 FL_MMZAK RXTX_NONE);
   ([LOADER_GIJOE], crc_row 3218 FL_GI_JOE RXTX_NONE);
   ([LOADER_N0SDOS], crc_row 12925 FL_N0SDOS_FILEREAD RXTX_NONE);
   ([LOADER_SAMSJOURNEY], crc_row 27380 FL_SAMSJOURNEY RXTX_NONE)].

Definition fl_handler_rows : list (list loader_option * fastloader_handler_s) :=
  [([LOADER_TURBODISK], handler_row 771 FL_TURBODISK load_turbodisk 0);
   ([LOADER_FC3], handler_row 1434 FL_FC3_LOAD load_fc3 0);
   ([LOADER_FC3], handler_row 1024 FL_FC3_LOAD load_fc3 0);
   ([LOADER_FC3], handler_row 1436 FL_FC3_SAVE save_fc3 0);
   ([LOADER_FC3], handler_row 1434 FL_FC3_SAVE save_fc3 0);
   ([LOADER_FC3], handler_row 1027 FL_FC3_FREEZED load_fc3 1);
   ([LOADER_FC3], handler_row 1407 FL_FC3_OLDFREEZED load_fc3oldfreeze 0);
   ([LOADER_DREAMLOAD], handler_row 1792 FL_DREAMLOAD load_dreamload 0);
   ([LOADER_ULOAD3], handler_row 822 FL_ULOAD3 load_uload3 0);
   ([LOADER_ELOAD1], handler_row 768 FL_ELOAD1 load_eload1 0);
   ([LOADER_GIJOE], handler_row 1280 FL_GI_JOE load_gijoe 0);
   ([LOADER_EPYXCART], handler_row 425 FL_EPYXCART load_epyxcart 0);
   ([LOADER_GEOS], handler_row 1111 FL_GEOS_S1_64 load_geos_s1 0);
   ([LOADER_GEOS], handler_row 1136 FL_GEOS_S1_128 load_geos_s1 1);
   ([LOADER_GEOS], handler_row 994 FL_GEOS_S23_1541 load_geos 0);
   ([LOADER_GEOS], handler_row 988 FL_GEOS_S23_1541 load_geos 0);
   ([LOADER_GEOS], handler_row 1023 FL_GEOS_S23_1571 load_geos 0);
   ([LOADER_GEOS], handler_row 1039 FL_GEOS_S23_1581 load_geos 0);
   ([LOADER_GEOS; LOADER_WHEELS], handler_row 1024 FL_WHEELS_S1_64 load_wheels_s1 0);
   ([LOADER_GEOS; LOADER_WHEELS], handler_row 1024 FL_WHEELS_S1_128 load_wheels_s1 1);
   ([LOADER_GEOS; LOADER_WHEELS], handler_row 768 FL_WHEELS_S2 load_wheels_s2 0);
   ([LOADER_GEOS; LOADER_WHEELS], handler_row 1024 FL_WHEELS44_S2 load_wheels_s2 0);
   ([LOADER_GEOS; LOADER_WHEELS], handler_row 768 FL_WHEELS44_S2_1581 load_wheels_s2 0);
   ([LOADER_GEOS; LOADER_WHEELS], handler_row 1280 FL_WHEELS44_S2_1581 load_wheels_s2 0);
   ([LOADER_NIPPON], handler_row 768 FL_NIPPON load_nippon 0);
   ([LOADER_AR6], handler_row 1280 FL_AR6_1581_LOAD load_ar6_1581 0);
   ([LOADER_AR6], handler_row 1524 FL_AR6_1581_SAVE save_ar6_1581 0);
   ([LOADER_MMZAK], handler_row 1280 FL_MMZAK load_mmzak 0);
   ([LOADER_N0SDOS], handler_row 1051 FL_N0SDOS_FILEREAD load_n0sdos_fileread 0);
   ([LOADER_SAMSJOURNEY], handler_row 1024 FL_SAMSJOURNEY load_samsjourney 0)].

Definition capture_row (loader start : Z) : fastloader_capture_s :=
  {| cap_loadertype := loader; cap_startaddr := start; cap_length := 255; cap_buffer_id := BUFFER_SYS_CAPTURE1 |}.

Definition fl_capture_rows : list (list loader_option * fastloader_capture_s) :=
  [([LOADER_GEOS], capture_row FL_GEOS_S1_64 1066);
   ([LOADER_GEOS], capture_row FL_GEOS_S1_128 1103)].

(** Address and values by which programs detect a 1541. *)
Definition c1541_magics : list (Z * list Z) := [(65184, [13; 237]); (58822, [52; 177]); (65534, [0; 0])].

(** The CRC of avr-libc, bit by bit. *)
Definition crc16_bit (crc : Z) : Z := if Z.testbit crc 0 then Z.lxor (Z.shiftr crc 1) 40961 else Z.shiftr crc 1.
Definition crc16_update (crc data : Z) : Z := Nat.iter 8 crc16_bit (Z.lxor crc data).

Section dosmemory.
Context `{FatFs} `{EepromGeom} `{Assertions} `{ErrorConfig} `{BufferConfig} `{SystemConfig} `{BoardConfig} `{!Fastloaders}.

(** The tables as they are compiled. *)
Definition configured {A} (rows : list (list loader_option * A)) : list A :=
  snd <$> filter (fun row => forallb CONFIG_LOADER row.1 = true) rows.

Definition mcmd {A} (m : comp (list Z) A) : comp machine A := on_world (on_cmd m).
Definition mbufs {A} (m : comp bufs A) : comp machine A := on_world (on_bufs m).

(** The two bytes of an address at [p]. *)
Definition cmd_word (p : Z) : comp machine Z :=
  lo ← mcmd (peek p); hi ← mcmd (peek (p + 1)); mret (u16 (lo + Z.shiftl hi 8)).

(** ** M-E *)

Definition find_handler (loader address : Z) : option fastloader_handler_s :=
  List.find (fun h => (h_loadertype h =? loader) && (h_address h =? address)) (configured fl_handler_rows).

Definition run_loader (address : Z) : comp machine unit :=
  c ← gets m_cmd;
  when (detected_loader c =? FL_NONE) (on_cmds (modify (set_detected_loader (previous_loader c))));;
  c ← gets m_cmd;
  (match find_handler (detected_loader c) address with
   | Some h => run_handler (h_handler h) (h_parameter h)
   | None => mset_error_ts ERROR_UNKNOWN_DRIVECODE (Z.shiftr (datacrc c) 8) (Z.land (datacrc c) 255)
   end);;
  on_cmds (modify (fun c => set_detected_loader FL_NONE (set_previous_loader (detected_loader c) (set_datacrc 65535 c)))).

Definition handle_memexec : comp machine unit :=
  s ← gets (fun m => w_dos (m_world m));
  if command_length s <? 5 then mret tt else a ← cmd_word 3; run_loader a.

(** ** M-R *)

(** Open the ROM file in directory [dir] of partition [part]. *)
Definition open_rom (part dir : Z) : comp machine Z :=
  s ← get_settings;
  name ← of_option (strz (rom_filename s));
  on_world (part_upd part (set_curr_dir dir));;
  r ← on_world (call (f_open part dir name (Z.lor FA_READ FA_OPEN_EXISTING)));
  modify (set_romfile r.2);;
  mret r.1.

(** The current directory, the root directory, and that of partition 0. *)
Definition find_rom : comp machine Z :=
  s ← gets (fun m => w_dos (m_world m));
  let cur := current_part s in
  p ← on_world (part_get cur);
  res ← open_rom cur (dir_fat p);
  if res =? FR_OK then mret res
  else
    res ← open_rom cur 0;
    if res =? FR_OK then mret res else open_rom 0 0.

(** The place of a ROM address in the file. *)
Definition rom_offset (address size : Z) : Z :=
  let a := u16 (address - 32768) in
  let a := if size <? 32768 then Z.land a 16383 else a in
  if negb (Z.land size 16383 =? 0) then u16 (a + Z.land size 16383) else a.

(** Read from the ROM file into the error buffer.  The result is the address
    to look up in the table instead: the place in the file once the file has
    been opened. *)
Definition read_rom (address : Z) : comp machine (option Z) :=
  res ← find_rom;
  if negb (res =? FR_OK) then mret (Some address)
  else
    m ← gets id;
    let ofs := rom_offset address (fsize (romfile m)) in
    r ← on_world (call (f_lseek (romfile m) ofs));
    modify (set_romfile r.2);;
    if negb (r.1 =? FR_OK) then mret (Some ofs)
    else
      count ← mcmd (peek 5);
      let bytes := if CONFIG_ERROR_BUFFER_SIZE <? count then CONFIG_ERROR_BUFFER_SIZE else count in
      r ← on_world (call (f_read r.2 bytes));
      let '(res, data, f) := r in
      modify (set_romfile f);;
      on_world (err_put 0 data);;
      mret (if (res =? FR_OK) && (zlen data =? bytes) then None else Some ofs).

Definition read_magic (address : Z) : comp machine unit :=
  match List.find (fun r => r.1 =? address) c1541_magics with
  | Some r => on_world (err_put 0 r.2)
  | None => mret tt
  end.

Definition handle_memread : comp machine unit :=
  s ← gets (fun m => w_dos (m_world m));
  if command_length s <? 6 then mret tt
  else
    address ← cmd_word 3;
    e ← get_settings;
    lookup ← (if (32768 <=? address) && negb (nthZ (rom_filename e) 0 =? 0) then read_rom address else mret (Some address));
    (match lookup with Some a => read_magic a | None => mret tt end);;
    count ← mcmd (peek 5);
    on_world (err_range 0 (u8 (count - 1))).

(** ** M-W *)

(** The minimum is taken of 16-bit unsigned numbers. *)
Definition capture_fl_data (address length : Z) : comp machine unit :=
  c ← gets m_cmd;
  let dataofs := u8 (capture_address c - address) in
  let bytes := u8 (Z.min (capture_remain c) (u16 (length - dataofs))) in
  data ← on_world (cmd_bytes (6 + dataofs) bytes);
  buf ← of_option (capture_buffer c);
  mbufs (data_put buf (capture_offset c) data);;
  on_cmds (modify (fun c =>
    set_capture_offset (u8 (capture_offset c + bytes)) (set_capture_address (u16 (capture_address c + bytes))
      (set_capture_remain (u16 (capture_remain c - bytes)) c))));;
  c ← gets m_cmd;
  when (capture_remain c =? 0) (on_cmds (modify (set_capture_buffer None))).

(** The checksum over the bytes that are written. *)
Definition update_datacrc (count : Z) : comp machine unit :=
  for_range 0 (Z.to_nat count) (fun i (_ : unit) =>
    b ← mcmd (peek (i + 6));
    on_cmds (modify (fun c =>
      let crc := crc16_update (datacrc c) b in
      let c := set_datacrc crc c in
      if CONFIG_LOADER LOADER_GIJOE && (crc =? 14498) && (b =? 96) then set_detected_loader FL_GI_JOE c else c))) tt.

(** The loader that the checksum belongs to. *)
Definition detect_loader : comp machine (option fastloader_crc_s) :=
  c ← gets m_cmd;
  let row := List.find (fun r => crc_value r =? datacrc c) (configured fl_crc_rows) in
  (match row with
   | Some r =>
       on_cmds (modify (fun c =>
         let c := set_detected_loader (crc_loadertype r) c in
         if crc_rxtx r =? RXTX_NONE then c else set_fast_rxtx (crc_rxtx r) c))
   | None => mret tt
   end);;
  mret row.

(** Start to capture when the loader asks for it. *)
Definition start_capture (loader address length : Z) : comp machine unit :=
  match List.find (fun r => cap_loadertype r =? loader) (configured fl_capture_rows) with
  | None => mret tt
  | Some r =>
      on_cmds (modify (fun c =>
        set_capture_address (cap_startaddr r) (set_capture_remain (cap_length r + 1) (set_capture_offset 0 c))));;
      buf ← mbufs alloc_system_buffer;
      on_cmds (modify (set_capture_buffer buf));;
      (match buf with
       | Some b => mbufs (stick_buffer b);; mbufs (buf_upd b (set_secondary (cap_buffer_id r)))
       | None => mret tt
       end);;
      capture_fl_data address length
  end.

Definition handle_memwrite : comp machine unit :=
  s ← gets (fun m => w_dos (m_world m));
  if negb CONFIG_HAVE_IEC || (command_length s <? 6) then mret tt
  else
    address ← cmd_word 3;
    length ← mcmd (peek 5);
    if address =? 119 then b ← mcmd (peek 6); modify (set_device_address (Z.land b 31))
    else if (address =? 7174) || (address =? 7175) || (address =? 6146) then mret tt
    else
      on_cmds (modify (set_previous_loader FL_NONE));;
      update_datacrc length;;
      row ← detect_loader;
      c ← gets m_cmd;
      when (bool_decide (capture_buffer c <> None)) (capture_fl_data address length);;
      c ← gets m_cmd;
      match row with
      | Some r => when (bool_decide (capture_buffer c = None)) (start_capture (crc_loadertype r) address length)
      | None => mret tt
      end.

Definition parse_memory : comp machine unit :=
  c ← mcmd (peek 2);
  if c =? 87 then handle_memwrite
  else if c =? 69 then handle_memexec
  else if c =? 82 then handle_memread
  else mset_error ERROR_SYNTAX_UNKNOWN.
End dosmemory.
