(* ===== verification/DosTime.v ===== *)
(** * doscmd.c: the time commands

    T-R writes the time of the clock into the error buffer, T-W sets the
    clock; the time is the one that [read_rtc] delivers and [set_rtc] stores. *)

From stdpp Require Import gmap.
From S2P Require Import Prelude EepromFs ErrorMsg Utils Buffers FatFs Dirent World D64Geom D64 D64Files D64Ops.
From S2P Require Import EefsOps FatNames FatFile Callbacks FatOps WrapOps Parser Machine Config DosBlock DosMemory.

(** "SUN.MON.TUESWED.THURFRI.SAT." and " xx/xx/xx xx:xx:xx xM\r" with its end *)
Definition downames : list Z :=
  [83; 85; 78; 46; 77; 79; 78; 46; 84; 85; 69; 83; 87; 69; 68; 46; 84; 72; 85; 82; 70; 82; 73; 46; 83; 65; 84; 46].
Definition asciitime_skel : list Z :=
  [32; 120; 120; 47; 120; 120; 47; 120; 120; 32; 120; 120; 58; 120; 120; 58; 120; 120; 32; 120; 77; 13; 0].

(** The hour on a clock with twelve hours. *)
Definition hour12 (hour : Z) : Z := if hour `mod` 12 =? 0 then 12 else hour `mod` 12.

(** The blocks that T-R stores into the error buffer, in their order, with the
    last index of the answer. *)
Definition timeread_ascii (t : tm) : option (Z * list (Z * list Z)) :=
  day ← load_block downames (4 * tm_wday t) 4;
  Some (25, [(4, asciitime_skel); (0, day);
             (5, appendnumber [] (u8 (tm_mon t + 1))); (8, appendnumber [] (tm_mday t));
             (11, appendnumber [] (tm_year t `mod` 100)); (14, appendnumber [] (hour12 (tm_hour t)));
             (17, appendnumber [] (tm_min t)); (20, appendnumber [] (tm_sec t));
             (23, [if tm_hour t <? 12 then 65 else 80])]).

Definition timeread_bcd (t : tm) : Z * list (Z * list Z) :=
  (8, [(0, [tm_wday t; int2bcd (tm_year t `mod` 100); int2bcd (u8 (tm_mon t + 1)); int2bcd (tm_mday t);
            int2bcd (hour12 (tm_hour t)); int2bcd (tm_min t); int2bcd (tm_sec t); Z.b2z (12 <=? tm_hour t); 13])]).

Definition timeread_decimal (t : tm) : Z * list (Z * list Z) :=
  (8, [(0, [tm_wday t; tm_year t; u8 (tm_mon t + 1); tm_mday t; hour12 (tm_hour t); tm_min t; tm_sec t;
            Z.b2z (12 <=? tm_hour t); 13])]).

Definition timeread_iso (t : tm) : option (Z * list (Z * list Z)) :=
  day ← load_block downames (4 * tm_wday t) 3;
  let n := appendnumber in
  let text := n (n [] (19 + tm_year t / 100)) (tm_year t `mod` 100) ++ [45] in
  let text := n text (u8 (tm_mon t + 1)) ++ [45] in
  let text := n text (tm_mday t) ++ [84] in
  let text := n text (tm_hour t) ++ [58] in
  let text := n text (tm_min t) ++ [58] in
  Some (23, [(0, n text (tm_sec t) ++ [32]); (20, day); (23, [13])]).

(** The answer in the format of the letter [c]; [None] for an unknown one. *)
Definition timeread_format (c : Z) (t : tm) : option (option (Z * list (Z * list Z))) :=
  if c =? 65 then Some (timeread_ascii t)
  else if c =? 66 then Some (Some (timeread_bcd t))
  else if c =? 68 then Some (Some (timeread_decimal t))
  else if c =? 73 then Some (timeread_iso t)
  else None.

Definition day_of_week (y m d : Z) : Z :=
  let y := u16 (y + 1900) in
  let '(d, y) := if m <? 3 then (u8 (d + y), u16 (y - 1)) else (u8 (d + (y - 2)), y) in
  (23 * m / 9 + d + 4 + y / 4 - y / 100 + y / 400) `mod` 7.

(** [time] as T-W has read it, with the month from 1: the final adjustments
    and the check. *)
Definition adjust_time (t : tm) : tm :=
  {| tm_sec := tm_sec t; tm_min := tm_min t; tm_hour := tm_hour t; tm_mday := tm_mday t; tm_mon := u8 (tm_mon t - 1);
     tm_year := if tm_year t <? 80 then tm_year t + 100 else tm_year t; tm_wday := tm_wday t |}.
Definition invalid_time (t : tm) : bool :=
  (tm_mday t =? 0) || (31 <? tm_mday t) || (11 <? tm_mon t) || (6 <? tm_wday t) || (23 <? tm_hour t)
  || (59 <? tm_min t) || (59 <? tm_sec t).

(** Hours from 1 to 12 and a mark for the afternoon. *)
Definition hour24 (hour : Z) (pm : bool) : Z :=
  let h := if hour =? 12 then 0 else hour in if pm then u8 (h + 12) else h.

(** The binary formats: the weekday and six numbers at 4, the mark at 11. *)
Definition timewrite_binary (conv : Z -> Z) (b : list Z) : tm :=
  {| tm_wday := nthZ b 0; tm_year := conv (nthZ b 1); tm_mon := conv (nthZ b 2); tm_mday := conv (nthZ b 3);
     tm_hour := hour24 (conv (nthZ b 4)) (negb (nthZ b 7 =? 0)); tm_min := conv (nthZ b 5); tm_sec := conv (nthZ b 6) |}.

(** A number and the character behind it. *)
Definition number_and_skip (ptr : Z) : comp (list Z) (Z * Z) := r ← parse_number ptr; mret (r.1, r.2 + 1).

(** Which day of the week begins with the two letters? *)
Definition find_downame (letters : list Z) : option Z :=
  List.find (fun i => bool_decide (slice (4 * i) 2 downames = letters)) (seqZ 0 7).

Definition timewrite_ascii : comp (list Z) (option tm) :=
  m ← gets id;
  letters ← of_option (load_block m 4 2);
  match find_downame letters with
  | None => mret None
  | Some wday =>
      mon ← number_and_skip 9;
      day ← number_and_skip mon.2;
      year ← number_and_skip day.2;
      hour ← number_and_skip year.2;
      min ← number_and_skip hour.2;
      sec ← parse_number min.2;
      mark ← peek 28;
      pm ← (if mark =? 77 then peek 27 else mret 0);
      mret (Some {| tm_wday := wday; tm_mon := u8 mon.1; tm_mday := u8 day.1; tm_year := u8 year.1;
                    tm_hour := if mark =? 77 then hour24 (u8 hour.1) (pm =? 80) else u8 hour.1;
                    tm_min := u8 min.1; tm_sec := u8 sec.1 |})
  end.

Definition timewrite_iso : comp (list Z) tm :=
  year ← number_and_skip 4;
  mon ← number_and_skip year.2;
  day ← number_and_skip mon.2;
  hour ← number_and_skip day.2;
  min ← number_and_skip hour.2;
  sec ← parse_number min.2;
  let y := u8 (year.1 - 1900) in
  mret {| tm_wday := day_of_week y (u8 mon.1) (u8 day.1); tm_mon := u8 mon.1; tm_mday := u8 day.1; tm_year := y;
          tm_hour := u8 hour.1; tm_min := u8 min.1; tm_sec := u8 sec.1 |}.

Section dostime.
Context `{FatFs} `{EepromGeom} `{Assertions} `{ErrorConfig} `{BufferConfig} `{SystemConfig} `{BoardConfig}.

(** [read_rtc] and [set_rtc] *)
Definition read_rtc : comp machine tm := gets (fun m => clock (m_world m)).
Definition set_rtc (t : tm) : comp machine unit := on_world (modify (set_clock t)).

Definition err_blocks (blocks : list (Z * list Z)) : comp world unit :=
  for_range 0 (length blocks) (fun i (_ : unit) =>
    match blocks !! Z.to_nat i with Some (p, bs) => err_put p bs | None => mret tt end) tt.

Definition parse_timeread : comp machine unit :=
  m ← gets id;
  if negb (bool_decide (rtc_state m = RTC_OK)) then mset_error ERROR_SYNTAX_UNABLE
  else
    time ← read_rtc;
    c ← mcmd (peek 3);
    match timeread_format c time with
    | None => mset_error ERROR_SYNTAX_UNKNOWN
    | Some answer =>
        answer ← of_option answer;
        mbufs (buf_upd ERRORBUFFER_IDX (set_lastused answer.1));;
        on_world (err_blocks answer.2)
    end.

(** The time in the command; [None] when it is too short or has no day, and
    an error has been set. *)
Definition timewrite_parse (c : Z) : comp machine (option tm) :=
  s ← gets (fun m => w_dos (m_world m));
  let len := command_length s in
  if c =? 65 then
    if len <? 27 then mset_error ERROR_SYNTAX_UNABLE;; mret None
    else
      t ← mcmd timewrite_ascii;
      match t with None => mset_error ERROR_SYNTAX_UNABLE;; mret None | Some t => mret (Some t) end
  else if c =? 66 then
    if len <? 12 then mset_error ERROR_SYNTAX_UNABLE;; mret None
    else b ← on_world (cmd_bytes 4 8); mret (Some (timewrite_binary bcd2int b))
  else if c =? 68 then
    if len <? 12 then mset_error ERROR_SYNTAX_UNABLE;; mret None
    else b ← on_world (cmd_bytes 4 8); mret (Some (timewrite_binary id b))
  else if c =? 73 then
    if len <? 23 then mset_error ERROR_SYNTAX_UNABLE;; mret None
    else t ← mcmd timewrite_iso; mret (Some t)
  else mset_error ERROR_SYNTAX_UNKNOWN;; mret None.

Definition parse_timewrite : comp machine unit :=
  c ← mcmd (peek 3);
  t ← timewrite_parse c;
  match t with
  | None => mret tt
  | Some t =>
      let t := adjust_time t in
      if invalid_time t then mset_error ERROR_SYNTAX_UNABLE else set_rtc t
  end.

(** [parse_time] of doscmd.c *)
Definition parse_timecmd : comp machine unit :=
  m ← gets id;
  if bool_decide (rtc_state m = RTC_NOT_FOUND) then mset_error ERROR_SYNTAX_UNKNOWN
  else
    c ← mcmd (peek 2);
    if c =? 82 then parse_timeread
    else if c =? 87 then parse_timewrite
    else mset_error ERROR_SYNTAX_UNKNOWN.
End dostime.
