(* ===== verification/DosCmd.v ===== *)
(** * doscmd.c: the command parser

    The commands that change settings, U and X, the position command, and
    [parse_doscommand].  The calls of the display are left out. *)

From stdpp Require Import gmap.
From S2P Require Import Prelude EepromFs ErrorMsg Utils Buffers FatFs Dirent World D64Geom D64 D64Files D64Ops.
From S2P Require Import EefsOps FatNames FatFile Callbacks FatOps WrapOps Parser DirLines FileOps DosFiles Machine Config.
From S2P Require Import DosBlock DosMemory DosTime.

Definition ERROR_READ_NOSYNC : Z := 21.

Section doscmd.
Context `{FatFs} `{EepromGeom} `{Assertions} `{ErrorConfig} `{BufferConfig} `{SystemConfig} `{BoardConfig}.
Context `{!DiskDrivers} `{!Fastloaders}.
Context (stack_dent : cbmdirent_t) (copy_fuel : nat).

Definition get_dos : comp machine dos := gets (fun m => w_dos (m_world m)).

(** ** I and P *)

Definition parse_initialize : comp machine unit :=
  m ← gets id;
  if negb (bool_decide (disk_state m = DISK_OK)) then mset_error_ts ERROR_READ_NOSYNC 18 0
  else on_world (free_buffers FMB_USER_CLEAN);; mret tt.

(** [buf->seek(buf, position, index)] *)
Definition run_seek (buf position index : Z) : comp world Z :=
  b ← on_bufs (buf_get buf);
  match seek b with
  | Some cb_d64_seek => d64_seek buf position index
  | Some cb_fat_file_seek => fat_file_seek buf position index
  | _ => stuck
  end.

(** The record and the place in it that a P command names: [None] when the
    place is behind the end of the record. *)
Definition record_position (len recordlen : Z) (cmd : list Z) : option (Z * Z) :=
  let record := nthZ cmd 2 in
  let record := if 2 <? len then Z.lor record (Z.shiftl (nthZ cmd 3) 8) else record in
  let pos := if 3 <? len then nthZ cmd 4 else 1 in
  if recordlen <? pos then None
  else
    let record := if record =? 0 then 0 else record - 1 in
    let pos := if pos =? 0 then 0 else pos - 1 in
    Some (u32 (record * recordlen), pos).

Definition seek_channel (buf : Z) : comp world unit :=
  b ← on_bufs (buf_get buf);
  if bool_decide (seek b = None) then wset_error ERROR_SYNTAX_UNABLE
  else
    s ← gets w_dos;
    cmd ← cmd_bytes 0 6;
    if negb (recordlen b =? 0) then
      match record_position (command_length s) (recordlen b) cmd with
      | None => wset_error ERROR_RECORD_OVERFLOW
      | Some (position, index) => run_seek buf position index;; mret tt
      end
    else run_seek buf (le32 (drop 2 cmd)) 0;; mret tt.

Definition parse_position : comp machine unit :=
  n ← gets (fun m => original_length (m_cmd m));
  on_world (on_dos (modify (set_command_length n)));;
  on_world clean_cmdbuffer;;
  on_world (
    c ← on_cmd (peek 1);
    if n <? 2 then wset_error ERROR_NO_CHANNEL else with_channel (Z.land c 15) seek_channel).

(** ** U commands *)

Definition parse_user : comp machine unit :=
  c1 ← mcmd (peek 1);
  if c1 =? 202 then set_system_reset
  else
    let c := Z.land c1 15 in
    if c =? 0 then
      a ← mcmd (peek 2);
      b ← mcmd (peek 3);
      if (Z.land a 31 =? 30) && (4 <=? b) && (b <=? 30) then modify (set_device_address b)
      else mset_error ERROR_SYNTAX_UNKNOWN
    else if c =? 1 then mcmd (poke 0 45);; mcmd (poke 1 82);; on_world parse_block
    else if c =? 2 then mcmd (poke 0 45);; mcmd (poke 1 87);; on_world parse_block
    else if c =? 57 then
      s ← get_dos;
      if command_length s =? 2 then mset_error ERROR_DOSVERSION
      else
        a ← mcmd (peek 2);
        if a =? 43 then flag_off VC20MODE
        else if a =? 45 then flag_on VC20MODE
        else mset_error ERROR_DOSVERSION
    else if c =? 10 then on_world (free_buffers FMB_USER);; mset_error ERROR_DOSVERSION
    else run_loader (u16 (1280 + 3 * (c1 - 51))).

(** ** X commands *)

Definition status : comp machine unit := m ← gets id; mset_error_ts ERROR_STATUS (device_address m) 0.

Definition parse_bool : comp machine Z :=
  c ← mcmd (peek 2);
  if c =? 43 then mret 1 else if c =? 45 then mret 0 else mset_error ERROR_SYNTAX_UNKNOWN;; mret 255.

(** XE *)
Definition set_extension_mode : comp machine unit :=
  c ← mcmd (peek 2);
  (if c =? 43 then flag_on EXTENSION_HIDING
   else if c =? 45 then flag_off EXTENSION_HIDING
   else
     r ← mcmd (parse_number 2);
     let num := u8 r.1 in
     if 4 <? num then mset_error ERROR_SYNTAX_UNKNOWN
     else upd_settings (set_file_extension_mode num);; when (3 <=? num) (flag_on EXTENSION_HIDING));;
  status.

(** The assignment of a drive, after the check of its number.  The loop over
    the drives compares [map_drive(num)] every time. *)
Definition assign_drive (num val : Z) : comp machine unit :=
  s ← get_settings;
  when (negb (val =? 15) && (map_drive s num =? val)) (mset_error ERROR_SYNTAX_UNKNOWN);;
  let type := Z.shiftr val 1 in
  if (type =? DISK_TYPE_NONE) || (HAVE_SD && (type =? DISK_TYPE_SD)) || (HAVE_ATA && (type =? DISK_TYPE_ATA)) then
    s ← get_settings;
    when (negb (map_drive s num =? val)) (
      upd_settings (set_map_drive num val);;
      s ← get_settings;
      when (drive_config s =? 4294967295) (upd_settings (put_drive_config get_default_driveconfig));;
      on_world (filesystem_init false))
  else mset_error ERROR_SYNTAX_UNKNOWN.

(** XD *)
Definition drive_command : comp machine unit :=
  if negb NEED_DISKMUX then mset_error ERROR_SYNTAX_UNKNOWN
  else
    c ← mcmd (peek 2);
    if c =? 63 then m ← gets id; mset_error_ts ERROR_STATUS (device_address m) 1
    else
      r ← mcmd (parse_number 2);
      let num := u8 r.1 in
      if num <? 8 then
        str ← mcmd (skip_while (fun c => c =? 32) r.2);
        c ← mcmd (peek str);
        if c =? 61 then
          r ← mcmd (parse_number (str + 1));
          when (u8 r.1 <=? 15) (assign_drive num (u8 r.1))
        else mret tt
      else mset_error ERROR_SYNTAX_UNKNOWN.

(** XR *)
Definition set_rom_name : comp machine unit :=
  c ← mcmd (peek 2);
  s ← get_settings;
  if c =? 58 then
    d ← get_dos;
    if ROM_NAME_LENGTH + 3 <? command_length d then mset_error ERROR_SYNTAX_TOOLONG
    else
      name ← on_world (arr ← cmd_array 3; copy_str (rom_filename s) arr);
      upd_settings (set_rom_filename name)
  else rom ← of_option (store (rom_filename s) 0 0); upd_settings (set_rom_filename rom).

(** XM *)
Definition menu_command : comp machine unit :=
  c ← mcmd (peek 2);
  if (c =? 43) || (c =? 45) then
    modify (set_menu_system_enabled (c =? 43));; write_configuration;; set_system_reset
  else mset_error ERROR_SYNTAX_UNKNOWN.

Definition parse_xcommand : comp machine unit :=
  on_world clean_cmdbuffer;;
  c ← mcmd (peek 1);
  if c =? 69 then set_extension_mode
  else if c =? 68 then drive_command
  else if c =? 73 then
    r ← mcmd (parse_number 2);
    let num := u8 r.1 in
    if num <=? 2 then upd_settings (set_image_as_dir num) else mset_error ERROR_SYNTAX_UNKNOWN
  else if CONFIG_HW_ADDR_OR_BUTTONS && (c =? 77) then menu_command
  else if c =? 87 then write_configuration;; status
  else if c =? 82 then set_rom_name
  else if c =? 83 then on_world (parse_path 2 false);; mret tt
  else if c =? 42 then
    num ← parse_bool;
    when (negb (num =? 255)) ((if negb (num =? 0) then flag_on POSTMATCH else flag_off POSTMATCH);; status)
  else if c =? 63 then mset_error ERROR_LONGVERSION
  else if CONFIG_PARALLEL_DOLPHIN && (c =? 81) then load_dolphin
  else if CONFIG_PARALLEL_DOLPHIN && (c =? 90) then save_dolphin
  else
    d ← get_dos;
    if negb (command_length d =? 1) then mset_error ERROR_SYNTAX_UNKNOWN else status.

(** ** The parser *)

(** The command without one carriage return at its end. *)
Definition strip_cr : comp machine unit :=
  d ← get_dos;
  let n := command_length d in
  on_cmds (modify (set_original_length n));;
  when (0 <? n) (
    c ← mcmd (peek (n - 1));
    when (c =? 13) (on_world (on_dos (modify (set_command_length (n - 1)))))).

Definition dispatch (c0 : Z) : comp machine unit :=
  if c0 =? 66 then on_world parse_block
  else if c0 =? 67 then
    c ← mcmd (peek 1);
    if (c =? 80) || (c =? 208) then on_world parse_changepart else on_world (parse_copy stack_dent copy_fuel)
  else if c0 =? 68 then on_world parse_direct
  else if c0 =? 71 then on_world parse_getpartition
  else if c0 =? 73 then parse_initialize
  else if c0 =? 77 then parse_memory
  else if c0 =? 78 then on_world parse_new
  else if c0 =? 80 then parse_position
  else if c0 =? 82 then on_world (parse_rename stack_dent)
  else if c0 =? 83 then
    d ← get_dos;
    c ← mcmd (peek 1);
    if (command_length d =? 3) && (c =? 45) then mset_error ERROR_SYNTAX_UNABLE else on_world (parse_scratch stack_dent)
  else if HAVE_RTC && (c0 =? 84) then parse_timecmd
  else if c0 =? 85 then parse_user
  else if c0 =? 88 then parse_xcommand
  else mset_error ERROR_SYNTAX_UNKNOWN.

Definition parse_doscommand : comp machine unit :=
  mset_error ERROR_OK;;
  d ← get_dos;
  if command_length d =? CONFIG_COMMAND_BUFFER_SIZE then mset_error ERROR_SYNTAX_TOOLONG
  else
    strip_cr;;
    d ← get_dos;
    if command_length d =? 0 then mset_error ERROR_SYNTAX_UNABLE
    else
      c0 ← mcmd (peek 0);
      c1 ← mcmd (peek 1);
      if negb (c0 =? 88) && (c1 =? 68) then on_world (parse_dircommand stack_dent) else dispatch c0.
End doscmd.
