(* ===== verification/SoftI2c.v ===== *)
(** * softi2c.c: the I2C bus on two pins, and a chip on it

    The driver changes one register bit at a time; the devices on the bus see
    the two lines after every change and whenever time passes, and may pull
    them low.  [register_chip] is a device with numbered registers, which may
    stretch the clock.  At the end: what the rest of the program uses, as the
    interfaces [I2C] and [RegisterChip], and that the driver with such a chip
    implements them. *)

From stdpp Require Import functions.
From S2P Require Import Prelude.

(** [dev_step]: the devices see what the master drives (SCL, SDA);
    [dev_scl], [dev_sda]: false where they pull the line low.
    [stretch_fuel]: the passes of the loop that waits for SCL. *)
Class I2CDevices := {
  DEVICES : Type;
  dev_step : bool -> bool -> DEVICES -> DEVICES;
  dev_scl : DEVICES -> bool;
  dev_sda : DEVICES -> bool;
  stretch_fuel : nat
}.

(** The bits of SOFTI2C_DDR and SOFTI2C_PORT for the two pins. *)
Record pins `{I2CDevices} := Pins { ddr_scl : bool; ddr_sda : bool; port_scl : bool; port_sda : bool; devices : DEVICES }.
Arguments Pins {_} _ _ _ _ _.

Section softi2c.
Context `{I2CDevices}.

Definition set_ddr_scl (x : bool) (s : pins) : pins := Pins x (ddr_sda s) (port_scl s) (port_sda s) (devices s).
Definition set_ddr_sda (x : bool) (s : pins) : pins := Pins (ddr_scl s) x (port_scl s) (port_sda s) (devices s).
Definition set_port_scl (x : bool) (s : pins) : pins := Pins (ddr_scl s) (ddr_sda s) x (port_sda s) (devices s).
Definition set_port_sda (x : bool) (s : pins) : pins := Pins (ddr_scl s) (ddr_sda s) (port_scl s) x (devices s).

(** An output pin drives its port bit, an input pin leaves the line to the
    pull-up resistor. *)
Definition drives (ddr port : bool) : bool := if ddr then port else true.
Definition settled (s : pins) : pins :=
  Pins (ddr_scl s) (ddr_sda s) (port_scl s) (port_sda s)
    (dev_step (drives (ddr_scl s) (port_scl s)) (drives (ddr_sda s) (port_sda s)) (devices s)).
Definition write_pins (f : pins -> pins) : comp pins unit := modify (fun s => settled (f s)).
Definition delay_us : comp pins unit := modify settled.
Definition pin_scl (s : pins) : bool := drives (ddr_scl s) (port_scl s) && dev_scl (devices s).
Definition pin_sda (s : pins) : bool := drives (ddr_sda s) (port_sda s) && dev_sda (devices s).

Definition set_scl (x : bool) : comp pins unit :=
  if x then
    write_pins (set_ddr_scl false);;
    write_pins (set_port_scl true);;
    loop stretch_fuel (fun _ : unit => delay_us;; up ← gets pin_scl; mret (if up : bool then inr tt else inl tt)) tt
  else
    write_pins (set_ddr_scl true);;
    write_pins (set_port_scl false).

Definition set_sda (x : bool) : comp pins unit :=
  if x then
    write_pins (set_ddr_sda false);;
    write_pins (set_port_sda true)
  else
    write_pins (set_ddr_sda true);;
    write_pins (set_port_sda false).

Definition start_condition : comp pins unit :=
  set_sda true;;
  set_scl true;;
  delay_us;;
  set_sda false;;
  delay_us;;
  set_scl false.

Definition stop_condition : comp pins unit :=
  set_sda false;;
  delay_us;;
  set_scl true;;
  delay_us;;
  set_sda true;;
  delay_us.

(** One bit of [i2c_send_byte]; the result is the shifted value. *)
Definition send_bit (value : Z) : comp pins Z :=
  set_scl false;;
  delay_us;;
  set_sda (negb (Z.land value 128 =? 0));;
  delay_us;;
  set_scl true;;
  delay_us;;
  mret (u8 (Z.shiftl value 1)).

(** The acknowledge bit: 1 if nobody acknowledged. *)
Definition i2c_send_byte (value : Z) : comp pins Z :=
  for_range 0 8 (fun _ value => send_bit value) value;;
  set_scl false;;
  delay_us;;
  set_sda true;;
  delay_us;;
  set_scl true;;
  delay_us;;
  i ← gets pin_sda;
  delay_us;;
  set_scl false;;
  mret (Z.b2z i).

Definition recv_bit (value : Z) : comp pins Z :=
  delay_us;;
  set_scl true;;
  delay_us;;
  bit ← gets pin_sda;
  let value' := u8 (Z.shiftl value 1 + Z.b2z bit) in
  delay_us;;
  set_scl false;;
  delay_us;;
  mret value'.

Definition i2c_recv_byte (sendack : bool) : comp pins Z :=
  set_sda true;;
  delay_us;;
  value ← for_range 0 8 (fun _ value => recv_bit value) 0;
  set_sda (negb sendack);;
  delay_us;;
  set_scl true;;
  delay_us;;
  set_scl false;;
  set_sda true;;
  mret value.

Definition soft_write_register (address reg val : Z) : comp pins Z :=
  start_condition;;
  nak ← i2c_send_byte address;
  if negb (nak =? 0) then stop_condition;; mret 1
  else i2c_send_byte reg;; i2c_send_byte val;; stop_condition;; mret 0.

Definition soft_write_registers (address startreg count : Z) (data : list Z) : comp pins Z :=
  start_condition;;
  nak ← i2c_send_byte address;
  if negb (nak =? 0) then stop_condition;; mret 1
  else
    i2c_send_byte startreg;;
    for_range 0 (Z.to_nat count) (fun i _ => b ← of_option (load data i); i2c_send_byte b;; mret tt) tt;;
    stop_condition;;
    mret 0.

(** The register, or -1. *)
Definition soft_read_register (address reg : Z) : comp pins Z :=
  start_condition;;
  nak ← i2c_send_byte address;
  if negb (nak =? 0) then stop_condition;; mret (-1)
  else
    i2c_send_byte reg;;
    start_condition;;
    nak ← i2c_send_byte (Z.lor address 1);
    if negb (nak =? 0) then stop_condition;; mret (-1)
    else val ← i2c_recv_byte false; stop_condition;; mret val.

(** The result, and the buffer that [data] points to. *)
Definition soft_read_registers (address startreg count : Z) (data : list Z) : comp pins (Z * list Z) :=
  start_condition;;
  nak ← i2c_send_byte address;
  if negb (nak =? 0) then stop_condition;; mret (1, data)
  else
    i2c_send_byte startreg;;
    start_condition;;
    nak ← i2c_send_byte (Z.lor address 1);
    if negb (nak =? 0) then stop_condition;; mret (1, data)
    else
      data ← for_range 0 (Z.to_nat (count - 1)) (fun i data => b ← i2c_recv_byte true; of_option (store data i b)) data;
      b ← i2c_recv_byte false;
      data ← of_option (store data (Z.max 0 (count - 1)) b);
      stop_condition;;
      mret (0, data).

Definition i2c_init : comp pins unit :=
  write_pins (fun s => set_ddr_scl false (set_ddr_sda false s));;
  write_pins (fun s => set_port_scl false (set_port_sda false s));;
  set_sda true;;
  set_scl true.
End softi2c.

(** ** A chip with registers *)

(** What the byte that the chip receives is. *)
Inductive role := R_ADDRESS | R_POINTER | R_DATA.

(** Waiting for a start condition; [k] bits of a byte received; a byte
    complete; acknowledging it; [k] bits of a byte sent; waiting for the
    acknowledge bit of the master; acknowledged. *)
Inductive chip_phase :=
| C_IDLE
| C_RECV (r : role) (k : nat) (v : Z)
| C_GOT (r : role) (v : Z)
| C_ACK (r : role) (v : Z)
| C_SEND (v : Z) (k : nat)
| C_WAIT
| C_NEXT.

(** [c_address]: with the bit for the direction 0; [c_writable]: the registers
    that can be written; [c_longest]: how long it may stretch the clock. *)
Class ChipKind := { c_address : Z; c_size : Z; c_writable : Z -> bool; c_longest : nat }.

Record memory := Memory { m_pointer : Z; m_regs : Z -> Z }.
Record chip := Chip {
  c_phase : chip_phase;
  c_memory : memory;
  c_last_scl : bool;
  c_last_sda : bool;
  c_hold : nat;
  c_delays : list nat
}.

Section chip.
Context `{ChipKind}.

Definition next_pointer (m : memory) : memory := Memory ((m_pointer m + 1) mod c_size) (m_regs m).
Definition chip_store (v : Z) (m : memory) : memory :=
  next_pointer (Memory (m_pointer m) (if c_writable (m_pointer m) then <[m_pointer m := v]> (m_regs m) else m_regs m)).

(** SDA is low. *)
Definition pulls (ph : chip_phase) : bool :=
  match ph with
  | C_ACK _ _ => true
  | C_SEND v k => negb (Z.testbit v (7 - Z.of_nat k))
  | _ => false
  end.

(** SCL rises with SDA at the level [b]. *)
Definition rise (b : bool) (ph : chip_phase) : chip_phase :=
  match ph with
  | C_RECV r k v => let v' := 2 * v + Z.b2z b in if Nat.eqb k 7 then C_GOT r v' else C_RECV r (S k) v'
  | C_WAIT => if b then C_IDLE else C_NEXT
  | _ => ph
  end.

(** The next byte to send. *)
Definition begin_send (m : memory) : chip_phase * memory := (C_SEND (m_regs m (m_pointer m)) 0, next_pointer m).

(** SCL falls. *)
Definition fall (ph : chip_phase) (m : memory) : chip_phase * memory :=
  match ph with
  | C_GOT R_ADDRESS v => (if Z.clearbit v 0 =? c_address then C_ACK R_ADDRESS v else C_IDLE, m)
  | C_GOT R_POINTER v => (C_ACK R_POINTER v, Memory (v mod c_size) (m_regs m))
  | C_GOT R_DATA v => (C_ACK R_DATA v, chip_store v m)
  | C_ACK R_ADDRESS v => if Z.testbit v 0 then begin_send m else (C_RECV R_POINTER 0 0, m)
  | C_ACK _ _ => (C_RECV R_DATA 0 0, m)
  | C_SEND v k => if Nat.eqb k 7 then (C_WAIT, m) else (C_SEND v (S k), m)
  | C_NEXT => begin_send m
  | _ => (ph, m)
  end.

Definition chip_edge (scl sda : bool) (c : chip) : chip_phase * memory :=
  let ph := c_phase c in
  let m := c_memory c in
  match c_last_scl c, scl with
  | false, true => (rise sda ph, m)
  | true, false => fall ph m
  | true, true =>
      if c_last_sda c && negb sda then (C_RECV R_ADDRESS 0 0, m)
      else if negb (c_last_sda c) && sda then (C_IDLE, m) else (ph, m)
  | false, false => (ph, m)
  end.

Definition chip_step (scl_driven sda_driven : bool) (c : chip) : chip :=
  let hold := Nat.pred (c_hold c) in
  let scl := scl_driven && Nat.eqb hold 0 in
  let sda := sda_driven && negb (pulls (c_phase c)) in
  let e := chip_edge scl sda c in
  let falls := c_last_scl c && negb scl in
  {| c_phase := e.1; c_memory := e.2; c_last_scl := scl; c_last_sda := sda;
     c_hold := if falls then Nat.min (hd 0%nat (c_delays c)) c_longest else hold;
     c_delays := if falls then tl (c_delays c) else c_delays c |}.
End chip.

#[export] Instance register_chip `{ChipKind} : I2CDevices := {|
  DEVICES := chip;
  dev_step := chip_step;
  dev_scl := fun c => Nat.eqb (c_hold c) 0;
  dev_sda := fun c => negb (pulls (c_phase c));
  stretch_fuel := S (S c_longest)
|}.

(** ** The lines and the chip between the steps of the driver *)

Section proofs.
Context `{ChipKind}.
Implicit Types (c : chip) (ph : chip_phase) (m : memory) (s : pins).

(** The chip is in the phase [ph] and has seen the master drive the levels
    [scl] and [sda]. *)
Definition chip_at (scl sda : bool) ph m c : Prop :=
  c_phase c = ph /\ c_memory c = m /\ c_last_scl c = scl /\ (c_hold c <= c_longest)%nat /\
  (scl = true -> c_last_sda c = sda && negb (pulls ph) /\ c_hold c = 0%nat).

Ltac chip_tac :=
  unfold chip_at, chip_step, chip_edge; intros; destruct_and?; subst; simpl in *;
  repeat match goal with
  | Hx : true = true -> _ |- _ => destruct (Hx eq_refl) as [? ?]; clear Hx
  | Hx : c_last_scl ?c = _ |- _ => rewrite Hx in *
  | Hx : c_last_sda ?c = _ |- _ => rewrite Hx in *
  | Hx : c_hold ?c = 0%nat |- _ => rewrite Hx in *
  | Hx : pulls ?p = _ |- _ => rewrite Hx in *
  end; simpl in *.

Lemma step_low b b' ph m c : chip_at false b ph m c -> chip_at false b' ph m (chip_step false b' c).
Proof. chip_tac. repeat split; try done; lia. Qed.

Lemma chip_step_same b ph m c : chip_at true b ph m c -> chip_at true b ph m (chip_step true b c).
Proof. chip_tac. destruct b, (pulls (c_phase c)) eqn:Hp; simpl; repeat split; simpl; rewrite ?Hp; try done; lia. Qed.

Lemma step_fall b b' ph m c ph' m' : fall ph m = (ph', m') -> chip_at true b ph m c -> chip_at false b' ph' m' (chip_step false b' c).
Proof. intros Hf Hc. revert Hf. revert Hc. chip_tac. rewrite Hf. simpl. repeat split; try done; lia. Qed.

Lemma pulls_rise b ph : pulls (rise b ph) = pulls ph.
Proof. destruct ph; simpl; try done; [by destruct (Nat.eqb k 7)|by destruct b]. Qed.

Lemma step_rise b ph m c : chip_at false b ph m c ->
  let c' := chip_step true b c in
  (c_hold c' = 0%nat -> chip_at true b (rise (b && negb (pulls ph)) ph) m c') /\
  (c_hold c' <> 0%nat -> chip_at false b ph m c' /\ (c_hold c' < c_hold c)%nat).
Proof.
  chip_tac. split; intros Hz; [rewrite Hz|destruct (Nat.pred (c_hold c)) eqn:Hp; [done|]]; simpl; repeat split; try done; try lia.
  by rewrite pulls_rise.
Qed.

Lemma step_start ph m c : pulls ph = false -> chip_at true true ph m c -> chip_at true false (C_RECV R_ADDRESS 0 0) m (chip_step true false c).
Proof. intros Hp Hc. revert Hp. revert Hc. chip_tac. repeat split; done || lia. Qed.

Lemma step_stop ph m c : pulls ph = false -> chip_at true false ph m c -> chip_at true true C_IDLE m (chip_step true true c).
Proof. intros Hp Hc. revert Hp. revert Hc. chip_tac. repeat split; done || lia. Qed.

(** The pins of the master are at these levels, too. *)
Definition at_lines (scl sda : bool) ph m s : Prop :=
  exists c, s = Pins (negb scl) (negb sda) scl sda (c : DEVICES) /\ chip_at scl sda ph m c.

Lemma wp_delay_us scl sda ph m Q s :
  at_lines scl sda ph m s -> (forall s', at_lines scl sda ph m s' -> Q tt s') -> wp delay_us Q s.
Proof.
  intros (c & -> & Hc) HQ. unfold delay_us. rewrite wp_modify. apply HQ. eexists. split; [reflexivity|].
  destruct scl; destruct sda; simpl; first [by apply chip_step_same|by eapply step_low].
Qed.

Lemma wp_set_sda_low b b' ph m Q s :
  at_lines false b ph m s -> (forall s', at_lines false b' ph m s' -> Q tt s') -> wp (set_sda b') Q s.
Proof.
  intros (c & -> & Hc) HQ. destruct b'; unfold set_sda, write_pins; rewrite wp_bind, wp_modify, wp_modify;
    apply HQ; (eexists; split; [reflexivity|]); eapply step_low, step_low; exact Hc.
Qed.

Lemma wp_set_scl_low b ph m Q s :
  at_lines false b ph m s -> (forall s', at_lines false b ph m s' -> Q tt s') -> wp (set_scl false) Q s.
Proof.
  intros (c & -> & Hc) HQ. unfold set_scl, write_pins; rewrite wp_bind, wp_modify, wp_modify.
  apply HQ. eexists. split; [reflexivity|]. destruct b; eapply step_low, step_low; exact Hc.
Qed.

(** A falling edge. *)
Lemma wp_set_scl_fall b ph m ph' m' Q s :
  fall ph m = (ph', m') -> at_lines true b ph m s -> (forall s', at_lines false b ph' m' s' -> Q tt s') -> wp (set_scl false) Q s.
Proof.
  intros Hf (c & -> & Hc) HQ. unfold set_scl, write_pins; rewrite wp_bind, wp_modify, wp_modify.
  apply HQ. eexists. split; [reflexivity|]. destruct b; eapply step_fall, chip_step_same; done.
Qed.

(** The chip has seen the rising edge or is stretching the clock. *)
Definition rising b ph m c : Prop :=
  chip_at true b (rise (b && negb (pulls ph)) ph) m c \/ (chip_at false b ph m c /\ c_hold c <> 0%nat).

Lemma rising_start b ph m c : chip_at false b ph m c -> rising b ph m (chip_step true b c).
Proof. intros Hc. pose proof (step_rise b ph m c Hc) as [H0 H1]. destruct (decide (c_hold (chip_step true b c) = 0%nat)) as [Hz|Hz]; [left; by apply H0|right]. split; [by apply H1|done]. Qed.

Lemma rising_step b ph m c : rising b ph m c -> rising b ph m (chip_step true b c) /\
  (c_hold (chip_step true b c) = 0%nat \/ (c_hold (chip_step true b c) < c_hold c)%nat).
Proof.
  intros [Hc|[Hc Hh]].
  - split; [left; by apply chip_step_same|]. left. apply (chip_step_same b) in Hc. by apply Hc.
  - split; [by apply rising_start|]. pose proof (step_rise b ph m c Hc) as [H0 H1].
    destruct (decide (c_hold (chip_step true b c) = 0%nat)) as [Hz|Hz]; [by left|right; by apply H1].
Qed.

Lemma rising_up b ph m c : rising b ph m c -> c_hold c = 0%nat -> chip_at true b (rise (b && negb (pulls ph)) ph) m c.
Proof. intros [Hc|[Hc Hh]]; done. Qed.

Lemma rising_hold b ph m c : rising b ph m c -> (c_hold c <= c_longest)%nat.
Proof. intros [Hc|[Hc _]]; apply Hc. Qed.

Definition rising_lines b ph m s : Prop := exists c, s = Pins false (negb b) true b (c : DEVICES) /\ rising b ph m c.

(** The loop that waits for SCL ends. *)
Lemma wp_set_scl_up b ph m Q s :
  (exists c, s = Pins true (negb b) false b (c : DEVICES) /\ chip_at false b ph m c) \/
  rising_lines b ph m s ->
  (forall s', at_lines true b (rise (b && negb (pulls ph)) ph) m s' -> Q tt s') -> wp (set_scl true) Q s.
Proof.
  intros Hs HQ. unfold set_scl, write_pins. rewrite wp_bind, wp_modify, wp_bind, wp_modify.
  assert (rising_lines b ph m (settled (set_port_scl true (settled (set_ddr_scl false s))))) as (c & -> & Hc).
  { destruct Hs as [(c & -> & Hc)|(c & -> & Hc)].
    - exists (chip_step true b (chip_step true b c)). split; [destruct b; reflexivity|]. by apply rising_step, rising_start.
    - exists (chip_step true b (chip_step true b c)). split; [destruct b; reflexivity|]. by apply rising_step, rising_step. }
  eapply (wp_loop (fun _ => rising_lines b ph m) (fun _ s => c_hold (devices s : chip))).
  - clear c Hc. intros [] s' (c & -> & Hc). unfold delay_us. rewrite wp_bind, wp_modify, wp_bind, wp_gets, wp_ret.
    destruct (rising_step b ph m c Hc) as [Hr Hd].
    replace (settled _) with (Pins false (negb b) true b (chip_step true b c : DEVICES)) by (destruct b; reflexivity).
    revert Hr Hd. generalize (chip_step true b c). intros c' Hr Hd.
    change (pin_scl _) with (Nat.eqb (c_hold c') 0). destruct (Nat.eqb_spec (c_hold c') 0) as [Hz|Hz].
    + apply HQ. eexists. split; [reflexivity|]. by apply rising_up.
    + split; [by eexists|]. simpl. lia.
  - by eexists.
  - apply rising_hold in Hc. unfold stretch_fuel. simpl. lia.
Qed.

(** A rising edge. *)
Lemma wp_set_scl_rise b ph m Q s :
  at_lines false b ph m s -> (forall s', at_lines true b (rise (b && negb (pulls ph)) ph) m s' -> Q tt s') -> wp (set_scl true) Q s.
Proof. intros (c & -> & Hc) HQ. eapply wp_set_scl_up; [|exact HQ]. left. by eexists. Qed.

(** SCL is high already. *)
Lemma wp_set_scl_high b ph m Q s :
  rise (b && negb (pulls ph)) ph = ph -> at_lines true b ph m s -> (forall s', at_lines true b ph m s' -> Q tt s') -> wp (set_scl true) Q s.
Proof.
  intros Hr (c & -> & Hc) HQ. eapply wp_set_scl_up; [|by rewrite Hr]. right. eexists. split; [reflexivity|].
  left. by rewrite Hr.
Qed.

(** SDA while SCL is high: no change, a start condition, a stop condition. *)
Lemma wp_set_sda_high ph m Q s :
  at_lines true true ph m s -> (forall s', at_lines true true ph m s' -> Q tt s') -> wp (set_sda true) Q s.
Proof.
  intros (c & -> & Hc) HQ. unfold set_sda, write_pins; rewrite wp_bind, wp_modify, wp_modify.
  apply HQ. eexists. split; [reflexivity|]. by apply chip_step_same, chip_step_same.
Qed.

Lemma wp_set_sda_start ph m Q s :
  pulls ph = false -> at_lines true true ph m s -> (forall s', at_lines true false (C_RECV R_ADDRESS 0 0) m s' -> Q tt s') ->
  wp (set_sda false) Q s.
Proof.
  intros Hp (c & -> & Hc) HQ. unfold set_sda, write_pins; rewrite wp_bind, wp_modify, wp_modify.
  apply HQ. eexists. split; [reflexivity|]. by eapply step_start, chip_step_same.
Qed.

Lemma wp_set_sda_stop ph m Q s :
  pulls ph = false -> at_lines true false ph m s -> (forall s', at_lines true true C_IDLE m s' -> Q tt s') -> wp (set_sda true) Q s.
Proof.
  intros Hp (c & -> & Hc) HQ. unfold set_sda, write_pins; rewrite wp_bind, wp_modify, wp_modify.
  apply HQ. eexists. split; [reflexivity|]. by eapply chip_step_same, step_stop.
Qed.

(** One operation of a sequence, by its lemma. *)
Ltac pins lem :=
  match goal with Hs : at_lines _ _ _ _ ?s |- wp _ _ ?s =>
    first [rewrite wp_bind; eapply lem|eapply lem];
    [..|solve [exact Hs]|clear s Hs; let s' := fresh "s" in let Hs' := fresh "Hs" in intros s' Hs']
  end.

(** The bus is free, or the master has sent a byte. *)
Definition may_start m s : Prop :=
  at_lines true true C_IDLE m s \/ exists ph, pulls ph = false /\ at_lines false true ph m s.

Lemma wp_start_condition m Q s :
  may_start m s -> (forall s', at_lines false false (C_RECV R_ADDRESS 0 0) m s' -> Q tt s') -> wp start_condition Q s.
Proof.
  intros Hs HQ. unfold start_condition. rewrite wp_bind.
  assert (forall ph s, pulls ph = false -> at_lines true true ph m s ->
    wp (delay_us;; set_sda false;; delay_us;; set_scl false) Q s) as Hrest.
  { clear s Hs. intros ph s Hp Hs. pins wp_delay_us. pins wp_set_sda_start; [done|]. pins wp_delay_us. eapply wp_set_scl_fall; [|exact Hs|exact HQ]; reflexivity. }
  destruct Hs as [Hs|(ph & Hp & Hs)].
  - eapply wp_set_sda_high; [done|]. clear s Hs. intros s Hs. rewrite wp_bind. eapply wp_set_scl_high; [|done|]; [done|].
    intros s' Hs'. eapply Hrest; [|exact Hs']; done.
  - eapply wp_set_sda_low; [done|]. clear s Hs. intros s Hs. rewrite wp_bind. eapply wp_set_scl_rise; [done|].
    intros s' Hs'. eapply Hrest; [|exact Hs']. by rewrite pulls_rise.
Qed.

Lemma wp_stop_condition b ph m Q s :
  pulls ph = false -> at_lines false b ph m s -> (forall s', at_lines true true C_IDLE m s' -> Q tt s') -> wp stop_condition Q s.
Proof.
  intros Hp Hs HQ. unfold stop_condition. pins wp_set_sda_low. pins wp_delay_us. pins wp_set_scl_rise. pins wp_delay_us.
  pins wp_set_sda_stop; [by rewrite pulls_rise|]. pins wp_delay_us. by apply HQ.
Qed.

(** ** A byte from the master to the chip *)

Definition top_bit (value : Z) : bool := negb (Z.land value 128 =? 0).

Fixpoint msb_first (n : nat) (value v : Z) : Z :=
  match n with O => v | S n => msb_first n (u8 (Z.shiftl value 1)) (2 * v + Z.b2z (top_bit value)) end.

Lemma msb_first_byte v : is_byte v -> msb_first 8 v 0 = v.
Proof. intros Hv. apply Z.eqb_eq, (every_byte (fun v => msb_first 8 v 0 =? v)); [by vm_compute|done]. Qed.

Lemma for_range_S {S X} a n (body : Z -> X -> comp S X) x :
  for_range a (Datatypes.S n) body x = x' ← body a x; for_range (a + 1) n body x'.
Proof. done. Qed.

Lemma for_range_O {S X} a (body : Z -> X -> comp S X) x : for_range a 0 body x = mret x.
Proof. done. Qed.

Lemma wp_send_bit scl b r k v m value Q s :
  at_lines scl b (C_RECV r k v) m s ->
  (forall s', at_lines true (top_bit value) (rise (top_bit value) (C_RECV r k v)) m s' -> Q (u8 (Z.shiftl value 1)) s') ->
  wp (send_bit value) Q s.
Proof.
  intros Hs HQ. unfold send_bit. rewrite wp_bind.
  assert (forall s, at_lines false b (C_RECV r k v) m s -> wp (delay_us;; set_sda (top_bit value);; delay_us;; set_scl true;; delay_us;;
    mret (u8 (Z.shiftl value 1))) Q s) as Hrest.
  { clear s Hs. intros s Hs. pins wp_delay_us. pins wp_set_sda_low. pins wp_delay_us. pins wp_set_scl_rise. pins wp_delay_us.
    rewrite wp_ret. apply HQ. by rewrite andb_true_r in Hs. }
  destruct scl; [eapply wp_set_scl_fall; [|exact Hs|exact Hrest]; done|by eapply wp_set_scl_low].
Qed.

Lemma wp_send_bits r m Q : forall n i k v value scl b s, (k + S n = 8)%nat ->
  at_lines scl b (C_RECV r k v) m s ->
  (forall value' b' s', at_lines true b' (C_GOT r (msb_first (S n) value v)) m s' -> Q value' s') ->
  wp (for_range i (S n) (fun _ value => send_bit value) value) Q s.
Proof.
  induction n as [|n IH]; intros i k v value scl b s Hk Hs HQ; simpl; rewrite wp_bind;
    (eapply wp_send_bit; [exact Hs|]); clear s Hs; intros s Hs; simpl in Hs.
  - replace k with 7%nat in Hs by lia. rewrite wp_ret. by eapply HQ.
  - destruct (Nat.eqb_spec k 7) as [|Hk7]; [lia|]. eapply IH; [|exact Hs|]; [lia|]. done.
Qed.

Lemma at_pin scl b ph m s : at_lines scl b ph m s -> pin_sda s = b && negb (pulls ph).
Proof. intros (c & -> & Hph & _). rewrite <- Hph. by destruct b. Qed.

(** The byte is [v]; then comes the acknowledge bit. *)
Lemma wp_i2c_send_byte b r v m ph1 m1 ph2 m2 Q s :
  is_byte v -> fall (C_GOT r v) m = (ph1, m1) -> rise (negb (pulls ph1)) ph1 = ph1 -> fall ph1 m1 = (ph2, m2) ->
  at_lines false b (C_RECV r 0 0) m s -> (forall s', at_lines false true ph2 m2 s' -> Q (Z.b2z (negb (pulls ph1))) s') ->
  wp (i2c_send_byte v) Q s.
Proof.
  intros Hv Hf1 Hr Hf2 Hs HQ. unfold i2c_send_byte. rewrite wp_bind.
  eapply (wp_send_bits r m _ 7 0 0); [done|exact Hs|]. rewrite msb_first_byte by done. clear s Hs. intros value' b' s Hs.
  pins wp_set_scl_fall; [exact Hf1|]. pins wp_delay_us. pins wp_set_sda_low. pins wp_delay_us. pins wp_set_scl_rise.
  simpl andb in Hs. rewrite Hr in Hs. pins wp_delay_us. rewrite wp_bind, wp_gets. cbv beta. rewrite (at_pin _ _ _ _ _ Hs). simpl andb.
  pins wp_delay_us. pins wp_set_scl_fall; [exact Hf2|]. rewrite wp_ret. by apply HQ.
Qed.

(** ** A byte from the chip to the master *)

Fixpoint shifted_in (n k : nat) (v value : Z) : Z :=
  match n with O => value | S n => shifted_in n (S k) v (u8 (Z.shiftl value 1 + Z.b2z (Z.testbit v (7 - Z.of_nat k)))) end.

Lemma shifted_in_S n k v value :
  shifted_in (S n) k v value = shifted_in n (S k) v (u8 (Z.shiftl value 1 + Z.b2z (Z.testbit v (7 - Z.of_nat k)))).
Proof. done. Qed.

Lemma shifted_in_byte v : is_byte v -> shifted_in 8 0 v 0 = v.
Proof. intros Hv. apply Z.eqb_eq, (every_byte (fun v => shifted_in 8 0 v 0 =? v)); [by vm_compute|done]. Qed.

Lemma wp_recv_bit k v m value Q s :
  at_lines false true (C_SEND v k) m s ->
  (forall s', at_lines false true (if Nat.eqb k 7 then C_WAIT else C_SEND v (S k)) m s' ->
    Q (u8 (Z.shiftl value 1 + Z.b2z (Z.testbit v (7 - Z.of_nat k)))) s') ->
  wp (recv_bit value) Q s.
Proof.
  intros Hs HQ. unfold recv_bit. pins wp_delay_us. pins wp_set_scl_rise. simpl rise in Hs. pins wp_delay_us.
  rewrite wp_bind, wp_gets. cbv beta zeta. rewrite (at_pin _ _ _ _ _ Hs). simpl andb. simpl pulls. rewrite negb_involutive.
  pins wp_delay_us. pins (wp_set_scl_fall true (C_SEND v k) m (if Nat.eqb k 7 then C_WAIT else C_SEND v (S k)) m); [by simpl; destruct (Nat.eqb k 7)|].
  pins wp_delay_us. rewrite wp_ret. by apply HQ.
Qed.

Lemma wp_recv_bits m v Q : forall n i k value s, (k + S n = 8)%nat ->
  at_lines false true (C_SEND v k) m s ->
  (forall s', at_lines false true C_WAIT m s' -> Q (shifted_in (S n) k v value) s') ->
  wp (for_range i (S n) (fun _ value => recv_bit value) value) Q s.
Proof.
  induction n as [|n IH]; intros i k value s Hk Hs HQ; rewrite for_range_S, wp_bind; rewrite shifted_in_S in HQ;
    (eapply wp_recv_bit; [exact Hs|]); clear s Hs; intros s Hs.
  - replace k with 7%nat in * by lia. rewrite for_range_O, wp_ret. by apply HQ.
  - destruct (Nat.eqb_spec k 7) as [|Hk7]; [lia|]. eapply IH; [|exact Hs|]; [lia|]. exact HQ.
Qed.

Lemma wp_i2c_recv_byte sendack b v m ph' m' Q s :
  is_byte v -> fall (if sendack : bool then C_NEXT else C_IDLE) m = (ph', m') ->
  at_lines false b (C_SEND v 0) m s -> (forall s', at_lines false true ph' m' s' -> Q v s') ->
  wp (i2c_recv_byte sendack) Q s.
Proof.
  intros Hv Hf Hs HQ. unfold i2c_recv_byte. pins wp_set_sda_low. pins wp_delay_us. rewrite wp_bind.
  eapply (wp_recv_bits m v _ 7 0 0); [done|exact Hs|]. rewrite shifted_in_byte by done. clear s Hs. intros s Hs.
  pins wp_set_sda_low. pins wp_delay_us. pins wp_set_scl_rise. pins wp_delay_us.
  pins wp_set_scl_fall; [by destruct sendack|]. pins wp_set_sda_low. rewrite wp_ret. by apply HQ.
Qed.

(** ** Whole transfers *)

(** The chip holds bytes, and its address is a byte with the bit for the
    direction 0. *)
Definition chip_kind_ok : Prop := 0 < c_size <= 256 /\ is_byte c_address /\ Z.testbit c_address 0 = false.
Definition bus_free m s : Prop := at_lines true true C_IDLE m s.
Definition regs_ok (regs : Z -> Z) : Prop := forall r, is_byte (regs r).

Lemma address_write : chip_kind_ok -> Z.clearbit c_address 0 = c_address.
Proof.
  intros (_ & _ & Hb). apply Z.bits_inj_iff'. intros n Hn. rewrite Z.clearbit_eqb by lia.
  destruct (Z.eqb_spec 0 n) as [<-|]; [rewrite Hb; done|by rewrite andb_true_r].
Qed.

Lemma address_read : chip_kind_ok -> is_byte (Z.lor c_address 1) /\ Z.clearbit (Z.lor c_address 1) 0 = c_address /\ Z.testbit (Z.lor c_address 1) 0 = true.
Proof.
  intros (_ & Ha & Hb). split; [|split].
  - apply (every_byte (fun a => bool_decide (is_byte (Z.lor a 1)))) in Ha; [by apply bool_decide_eq_true in Ha|by vm_compute].
  - apply Z.bits_inj_iff'. intros n Hn. rewrite Z.clearbit_eqb, Z.lor_spec by lia.
    destruct (Z.eqb_spec 0 n) as [<-|]; [rewrite Hb; done|]. rewrite andb_true_r.
    replace (Z.testbit 1 n) with false; [by rewrite orb_false_r|]. symmetry. change 1 with (2 ^ 0). apply Z.pow2_bits_false. lia.
  - rewrite Z.lor_spec. apply orb_true_r.
Qed.

(** The address and the number of the first register. *)
Lemma wp_send_address m Q s : chip_kind_ok ->
  at_lines false false (C_RECV R_ADDRESS 0 0) m s -> (forall s', at_lines false true (C_RECV R_POINTER 0 0) m s' -> Q 0 s') ->
  wp (i2c_send_byte c_address) Q s.
Proof.
  intros Hok Hs HQ. destruct (Hok) as (_ & Ha & Hb). eapply wp_i2c_send_byte; [done| | |..|exact Hs|].
  - unfold fall. by rewrite address_write, Z.eqb_refl.
  - done.
  - unfold fall. by rewrite Hb.
  - exact HQ.
Qed.

Lemma wp_send_address_read m Q s : chip_kind_ok ->
  at_lines false false (C_RECV R_ADDRESS 0 0) m s ->
  (forall s', at_lines false true (C_SEND (m_regs m (m_pointer m)) 0) (next_pointer m) s' -> Q 0 s') ->
  wp (i2c_send_byte (Z.lor c_address 1)) Q s.
Proof.
  intros Hok Hs HQ. destruct (address_read Hok) as (Ha & Hc & Hb). eapply wp_i2c_send_byte; [done| | |..|exact Hs|].
  - unfold fall. by rewrite Hc, Z.eqb_refl.
  - done.
  - unfold fall. by rewrite Hb.
  - exact HQ.
Qed.

Lemma wp_send_other address m Q s : is_byte address -> Z.clearbit address 0 <> c_address ->
  at_lines false false (C_RECV R_ADDRESS 0 0) m s -> (forall s', at_lines false true C_IDLE m s' -> Q 1 s') ->
  wp (i2c_send_byte address) Q s.
Proof.
  intros Ha Hne Hs HQ. apply Z.eqb_neq in Hne. eapply wp_i2c_send_byte; [done| | |..|exact Hs|]; simpl.
  - by rewrite Hne.
  - done.
  - done.
  - exact HQ.
Qed.

Lemma wp_send_pointer v b m Q s : is_byte v ->
  at_lines false b (C_RECV R_POINTER 0 0) m s ->
  (forall s', at_lines false true (C_RECV R_DATA 0 0) (Memory (v mod c_size) (m_regs m)) s' -> Q 0 s') ->
  wp (i2c_send_byte v) Q s.
Proof. intros Hv Hs HQ. eapply wp_i2c_send_byte; [done| | | |exact Hs|]; [reflexivity..|exact HQ]. Qed.

Lemma wp_send_data v b m Q s : is_byte v ->
  at_lines false b (C_RECV R_DATA 0 0) m s -> (forall s', at_lines false true (C_RECV R_DATA 0 0) (chip_store v m) s' -> Q 0 s') ->
  wp (i2c_send_byte v) Q s.
Proof. intros Hv Hs HQ. eapply wp_i2c_send_byte; [done| | | |exact Hs|]; [reflexivity..|exact HQ]. Qed.

(** The registers after writing [data] from the register [start] on. *)
Fixpoint write_regs (writable : Z -> bool) (start : Z) (data : list Z) (regs : Z -> Z) : Z -> Z :=
  match data with
  | [] => regs
  | v :: data => write_regs writable (start + 1) data (if writable start then <[start := v]> regs else regs)
  end.

Lemma next_in_size p regs : 0 <= p -> p + 1 < c_size -> next_pointer (Memory p regs) = Memory (p + 1) regs.
Proof. intros Hp Hlt. unfold next_pointer. simpl. by rewrite Z.mod_small by lia. Qed.

Lemma stores_write_regs data : forall p regs, 0 <= p -> p + zlen data <= c_size -> p < c_size ->
  m_regs (foldl (fun m v => chip_store v m) (Memory p regs) data) = write_regs c_writable p data regs.
Proof.
  unfold zlen. induction data as [|v data IH]; intros p regs Hp Hlen Hlt; [done|]. simpl length in Hlen. simpl foldl. unfold chip_store. simpl.
  destruct data as [|v2 data]; [done|]. rewrite next_in_size by (simpl length in Hlen; lia).
  apply IH; simpl length in *; lia.
Qed.

Lemma written_ok data : forall p regs, Forall is_byte data -> regs_ok regs -> regs_ok (write_regs c_writable p data regs).
Proof.
  induction data as [|v data IH]; intros p regs Hd Hr; simpl; [done|]. inversion Hd; subst. apply IH; [done|].
  destruct (c_writable p); [|done]. intros r. destruct (decide (r = p)) as [->|]; [by rewrite fn_lookup_insert|by rewrite fn_lookup_insert_ne].
Qed.

Lemma wp_send_all data b : forall i done m Q s, i = zlen done -> Forall is_byte data ->
  at_lines false b (C_RECV R_DATA 0 0) m s ->
  (forall b' s', at_lines false b' (C_RECV R_DATA 0 0) (foldl (fun m v => chip_store v m) m data) s' -> Q tt s') ->
  wp (for_range i (length data) (fun i (_ : unit) => x ← of_option (load (done ++ data) i); i2c_send_byte x;; mret tt) tt) Q s.
Proof.
  revert b. induction data as [|v data IH]; intros b i dn m Q s Hi Hd Hs HQ; simpl for_range.
  { rewrite wp_ret. by eapply HQ. }
  inversion Hd as [|? ? Hv Hd']; subst. rewrite !wp_bind. apply (wp_of_option _ _ _ v).
  { rewrite load_some by (unfold zlen; rewrite length_app; simpl; lia). f_equal. unfold zlen. apply nthZ_of_lookup.
    by rewrite list_lookup_middle. }
  rewrite wp_bind. eapply wp_send_data; [done|exact Hs|]. clear s Hs. intros s Hs. rewrite wp_ret.
  replace (dn ++ v :: data) with ((dn ++ [v]) ++ data) by by rewrite <- app_assoc.
  eapply IH; [|done|exact Hs|exact HQ]. unfold zlen. rewrite length_app. simpl. lia.
Qed.

(** Reading from a pointer on, with the acknowledge bit after every byte. *)
Lemma wp_recv_all regs n : regs_ok regs -> forall i p data Q s, 0 <= i -> 0 <= p -> p + Z.of_nat n < c_size -> i + Z.of_nat n <= zlen data ->
  at_lines false true (C_SEND (regs p) 0) (next_pointer (Memory p regs)) s ->
  (forall s', at_lines false true (C_SEND (regs (p + Z.of_nat n)) 0) (next_pointer (Memory (p + Z.of_nat n) regs)) s' ->
     Q (splice i (map regs (seqZ p (Z.of_nat n))) data) s') ->
  wp (for_range i n (fun i data => b ← i2c_recv_byte true; of_option (store data i b)) data) Q s.
Proof.
  intros Hregs. induction n as [|n IH]; intros i p data Q s Hi Hp Hsize Hlen Hs HQ; simpl for_range.
  { rewrite wp_ret. rewrite Z.add_0_r in HQ. specialize (HQ s Hs). simpl in HQ. rewrite splice_nil in HQ by lia. done. }
  rewrite !wp_bind. eapply wp_i2c_recv_byte; [apply Hregs|reflexivity|exact Hs|]. clear s Hs. intros s Hs.
  rewrite next_in_size in Hs by lia. simpl m_regs in Hs. simpl m_pointer in Hs.
  rewrite store_some by lia. rewrite wp_of_option_Some.
  assert (zlen (splice i [regs p] data) = zlen data) as Hz by (apply zlen_splice; unfold zlen in *; simpl; lia).
  rewrite Nat2Z.inj_succ in *.
  eapply (IH (i + 1) (p + 1)); [lia|lia|lia|rewrite Hz; lia|exact Hs|]. clear s Hs. intros s Hs.
  replace (p + 1 + Z.of_nat n) with (p + Z.succ (Z.of_nat n)) in Hs by lia.
  specialize (HQ s Hs). rewrite seqZ_cons in HQ by lia. rewrite map_cons in HQ.
  replace (Z.pred (Z.succ (Z.of_nat n))) with (Z.of_nat n) in HQ by lia. replace (Z.succ p) with (p + 1) in HQ by lia.
  rewrite <- (splice_app i [regs p]); [exact HQ|lia|]. unfold zlen in *. rewrite length_map, length_seqZ. simpl. lia.
Qed.

(** The chip [c_address] takes part; any other address is not answered. *)
Lemma wp_soft_write_registers startreg data Q m s : chip_kind_ok ->
  is_byte startreg -> startreg < c_size -> Forall is_byte data -> startreg + zlen data <= c_size -> bus_free m s ->
  (forall m' s', m_regs m' = write_regs c_writable startreg data (m_regs m) -> bus_free m' s' -> Q 0 s') ->
  wp (soft_write_registers c_address startreg (zlen data) data) Q s.
Proof.
  intros Hok Hst Hlt Hd Hlen Hs HQ. unfold soft_write_registers. rewrite wp_bind. eapply wp_start_condition; [by left|].
  clear s Hs. intros s Hs. rewrite wp_bind. eapply wp_send_address; [done|exact Hs|]. clear s Hs. intros s Hs. simpl negb. cbv iota.
  rewrite wp_bind. eapply wp_send_pointer; [done|exact Hs|]. clear s Hs. intros s Hs. rewrite wp_bind.
  unfold zlen. rewrite Nat2Z.id. eapply (wp_send_all data true 0 []); [done..|exact Hs|]. clear s Hs. intros b s Hs. rewrite wp_bind.
  eapply wp_stop_condition; [|exact Hs|]; [done|]. clear s Hs. intros s Hs. rewrite wp_ret. eapply HQ; [|exact Hs].
  unfold is_byte in Hst. rewrite Z.mod_small by lia. apply stores_write_regs; lia.
Qed.

Lemma wp_soft_write_register reg val Q m s : chip_kind_ok ->
  is_byte reg -> reg < c_size -> is_byte val -> bus_free m s ->
  (forall m' s', m_regs m' = write_regs c_writable reg [val] (m_regs m) -> bus_free m' s' -> Q 0 s') ->
  wp (soft_write_register c_address reg val) Q s.
Proof.
  intros Hok Hr Hlt Hv Hs HQ. unfold soft_write_register. rewrite wp_bind. eapply wp_start_condition; [by left|].
  clear s Hs. intros s Hs. rewrite wp_bind. eapply wp_send_address; [done|exact Hs|]. clear s Hs. intros s Hs. simpl negb. cbv iota.
  rewrite wp_bind. eapply wp_send_pointer; [done|exact Hs|]. clear s Hs. intros s Hs. rewrite wp_bind.
  eapply wp_send_data; [done|exact Hs|]. clear s Hs. intros s Hs. rewrite wp_bind.
  eapply wp_stop_condition; [|exact Hs|]; [done|]. clear s Hs. intros s Hs. rewrite wp_ret. eapply HQ; [|exact Hs].
  unfold is_byte in Hr. rewrite Z.mod_small by lia. apply (stores_write_regs [val]); unfold zlen; simpl; lia.
Qed.

(** The first part of a transfer that reads. *)
Lemma wp_select {A} reg Q (k : comp pins A) (err : comp pins A) m s : chip_kind_ok ->
  is_byte reg -> reg < c_size -> bus_free m s ->
  (forall s', at_lines false true (C_SEND (m_regs m reg) 0) (next_pointer (Memory reg (m_regs m))) s' -> wp k Q s') ->
  wp (start_condition;; nak ← i2c_send_byte c_address;
      if negb (nak =? 0) then stop_condition;; err
      else i2c_send_byte reg;; start_condition;; nak ← i2c_send_byte (Z.lor c_address 1);
           if negb (nak =? 0) then stop_condition;; err else k) Q s.
Proof.
  intros Hok Hr Hlt Hs HQ. rewrite wp_bind. eapply wp_start_condition; [by left|].
  clear s Hs. intros s Hs. rewrite wp_bind. eapply wp_send_address; [done|exact Hs|]. clear s Hs. intros s Hs. simpl negb. cbv iota.
  rewrite wp_bind. eapply wp_send_pointer; [done|exact Hs|]. clear s Hs. intros s Hs.
  unfold is_byte in Hr. rewrite Z.mod_small in Hs by lia.
  rewrite wp_bind. eapply wp_start_condition; [right; eexists; split; [|exact Hs]; done|]. clear s Hs. intros s Hs.
  rewrite wp_bind. eapply wp_send_address_read; [done|exact Hs|]. clear s Hs. intros s Hs. simpl negb. cbv iota. by apply HQ.
Qed.

Lemma wp_soft_read_register reg Q m s : chip_kind_ok -> regs_ok (m_regs m) ->
  is_byte reg -> reg < c_size -> bus_free m s ->
  (forall m' s', m_regs m' = m_regs m -> bus_free m' s' -> Q (m_regs m reg) s') ->
  wp (soft_read_register c_address reg) Q s.
Proof.
  intros Hok Hregs Hr Hlt Hs HQ. unfold soft_read_register. eapply wp_select; [done..|exact Hs|]. clear s Hs. intros s Hs.
  rewrite wp_bind. eapply wp_i2c_recv_byte; [apply Hregs|reflexivity|exact Hs|]. clear s Hs. intros s Hs. rewrite wp_bind.
  eapply wp_stop_condition; [|exact Hs|]; [done|]. clear s Hs. intros s Hs. rewrite wp_ret. by eapply HQ; [|exact Hs].
Qed.

Lemma wp_soft_read_registers startreg count data Q m s : chip_kind_ok -> regs_ok (m_regs m) ->
  is_byte startreg -> 0 < count -> startreg + count <= c_size -> count <= zlen data -> bus_free m s ->
  (forall m' s', m_regs m' = m_regs m -> bus_free m' s' -> Q (0, splice 0 (map (m_regs m) (seqZ startreg count)) data) s') ->
  wp (soft_read_registers c_address startreg count data) Q s.
Proof.
  intros Hok Hregs Hr Hc Hsize Hlen Hs HQ. unfold soft_read_registers. eapply wp_select; [done|done| |exact Hs|]; [lia|]. clear s Hs. intros s Hs.
  unfold is_byte in Hr. rewrite wp_bind. eapply (wp_recv_all (m_regs m) _ Hregs 0 startreg); [lia..|exact Hs|]. rewrite !Z2Nat.id by lia. clear s Hs. intros s Hs.
  rewrite wp_bind. eapply wp_i2c_recv_byte; [apply Hregs|reflexivity|exact Hs|]. clear s Hs. intros s Hs.
  assert (zlen (map (m_regs m) (seqZ startreg (count - 1))) = count - 1) as Hz.
  { unfold zlen. rewrite length_map, length_seqZ. lia. }
  rewrite wp_bind, store_some by (rewrite zlen_splice; lia). rewrite wp_of_option_Some, wp_bind.
  eapply wp_stop_condition; [|exact Hs|]; [done|]. clear s Hs. intros s Hs. rewrite wp_ret.
  replace (splice (Z.max 0 (count - 1)) _ _) with (splice 0 (map (m_regs m) (seqZ startreg count)) data); [by eapply HQ; [|exact Hs]|].
  replace count with ((count - 1) + 1) at 1 by lia. rewrite seqZ_app, map_app by lia.
  replace (Z.max 0 (count - 1)) with (0 + zlen (map (m_regs m) (seqZ startreg (count - 1)))) by lia.
  change (map _ (seqZ _ 1)) with [m_regs m (Z.of_nat 0 + (startreg + (count - 1)))]. change (Z.of_nat 0) with 0. rewrite Z.add_0_l.
  apply splice_app; unfold zlen in *; simpl; lia.
Qed.


(** No chip has this address: the result says so, and nothing happens. *)
Lemma wp_not_answered {A} address Q (k : comp pins A) (err : A) m s :
  is_byte address -> Z.clearbit address 0 <> c_address -> bus_free m s ->
  (forall s', bus_free m s' -> Q err s') ->
  wp (start_condition;; nak ← i2c_send_byte address; if negb (nak =? 0) then stop_condition;; mret err else k) Q s.
Proof.
  intros Ha Hne Hs HQ. rewrite wp_bind. eapply wp_start_condition; [by left|].
  clear s Hs. intros s Hs. rewrite wp_bind. eapply wp_send_other; [done..|exact Hs|]. clear s Hs. intros s Hs. simpl negb. cbv iota.
  rewrite wp_bind. eapply wp_stop_condition; [|exact Hs|]; [done|]. clear s Hs. intros s Hs. rewrite wp_ret. by apply HQ.
Qed.
End proofs.

(** ** What the rest of the program uses *)

(** i2c.h *)
Class I2C := {
  I2CBUS : Type;
  i2c_write_register : Z -> Z -> Z -> comp I2CBUS Z;
  i2c_write_registers : Z -> Z -> Z -> list Z -> comp I2CBUS Z;
  i2c_read_register : Z -> Z -> comp I2CBUS Z;
  i2c_read_registers : Z -> Z -> Z -> list Z -> comp I2CBUS (Z * list Z)
}.

(** A chip with [size] registers at [address], of which the [writable] ones
    can be written.  [registers]: what they hold; [ready]: between two
    transfers. *)
Class RegisterChip `{I2C} (address size : Z) (writable : Z -> bool) := {
  registers : I2CBUS -> Z -> Z;
  ready : I2CBUS -> Prop;
  registers_bytes s : ready s -> regs_ok (registers s);
  wp_i2c_write_register reg val Q s :
    ready s -> 0 <= reg < size -> is_byte val ->
    (forall s', ready s' -> registers s' = write_regs writable reg [val] (registers s) -> Q 0 s') ->
    wp (i2c_write_register address reg val) Q s;
  wp_i2c_write_registers startreg count data Q s :
    ready s -> 0 <= startreg < size -> count = zlen data -> startreg + count <= size -> Forall is_byte data ->
    (forall s', ready s' -> registers s' = write_regs writable startreg data (registers s) -> Q 0 s') ->
    wp (i2c_write_registers address startreg count data) Q s;
  wp_i2c_read_register reg Q s :
    ready s -> 0 <= reg < size ->
    (forall s', ready s' -> registers s' = registers s -> Q (registers s reg) s') ->
    wp (i2c_read_register address reg) Q s;
  wp_i2c_read_registers startreg count data Q s :
    ready s -> 0 <= startreg -> 0 < count -> startreg + count <= size -> count <= zlen data ->
    (forall s', ready s' -> registers s' = registers s -> Q (0, splice 0 (map (registers s) (seqZ startreg count)) data) s') ->
    wp (i2c_read_registers address startreg count data) Q s
}.

(** There is no chip at [address]: transfers fail and keep [inv]. *)
Class NoChip `{I2C} (address : Z) (inv : I2CBUS -> Prop) := {
  wp_absent_write_register reg val Q s :
    inv s -> (forall s', inv s' -> Q 1 s') -> wp (i2c_write_register address reg val) Q s;
  wp_absent_read_register reg Q s :
    inv s -> (forall s', inv s' -> Q (-1) s') -> wp (i2c_read_register address reg) Q s
}.

#[export] Instance softi2c `{I2CDevices} : I2C := {|
  I2CBUS := pins;
  i2c_write_register := soft_write_register;
  i2c_write_registers := soft_write_registers;
  i2c_read_register := soft_read_register;
  i2c_read_registers := soft_read_registers
|}.

Section implementation.
Context `{ChipKind} (Hok : chip_kind_ok).

Definition chip_registers (s : pins) : Z -> Z := m_regs (c_memory (devices s : chip)).
Definition chip_ready (s : pins) : Prop := exists m, bus_free m s /\ regs_ok (m_regs m).

Lemma ready_registers m s : bus_free m s -> chip_registers s = m_regs m.
Proof. intros (c & -> & Hc). unfold chip_registers. simpl. by destruct Hc as (_ & -> & _). Qed.

(** The driver on its two pins, with the chip on the bus, is register
    access. *)
#[export, refine] Instance soft_chip : @RegisterChip softi2c c_address c_size c_writable := {|
  registers := chip_registers; ready := chip_ready
|}.
Proof.
  - intros s (m & Hm & Hr). by rewrite (ready_registers m).
  - intros reg val Q s (m & Hm & Hr) Hreg Hv HQ. destruct (Hok) as (Hsize & _).
    eapply wp_soft_write_register; [done|unfold is_byte; lia|lia|done|done|]. intros m' s' Hm' Hs'.
    apply HQ; [exists m'; split; [done|]; rewrite Hm'; by apply written_ok; [constructor|]|].
    by rewrite (ready_registers m'), (ready_registers m).
  - intros startreg count data Q s (m & Hm & Hr) Hreg -> Hlen Hd HQ. destruct (Hok) as (Hsize & _).
    eapply wp_soft_write_registers; [done|unfold is_byte; lia|lia|done|done|done|]. intros m' s' Hm' Hs'.
    apply HQ; [exists m'; split; [done|]; rewrite Hm'; by apply written_ok|].
    by rewrite (ready_registers m'), (ready_registers m).
  - intros reg Q s (m & Hm & Hr) Hreg HQ. destruct (Hok) as (Hsize & _). rewrite (ready_registers m) in HQ by done.
    eapply wp_soft_read_register; [done..|unfold is_byte; lia|lia|done|]. intros m' s' Hm' Hs'.
    apply HQ; [exists m'; split; [done|]; by rewrite Hm'|]. by rewrite (ready_registers m'), Hm'.
  - intros startreg count data Q s (m & Hm & Hr) Hreg Hc Hlen Hl HQ. destruct (Hok) as (Hsize & _). rewrite (ready_registers m) in HQ by done.
    eapply wp_soft_read_registers; [done..|unfold is_byte; lia|lia|lia|lia|done|]. intros m' s' Hm' Hs'.
    apply HQ; [exists m'; split; [done|]; by rewrite Hm'|]. by rewrite (ready_registers m'), Hm'.
Defined.

Lemma soft_no_chip address : is_byte address -> Z.clearbit address 0 <> c_address -> @NoChip softi2c address chip_ready.
Proof.
  intros Ha Hne. split.
  - intros reg val Q s (m & Hm & Hr) HQ. eapply wp_not_answered; [done..|]. intros s' Hs'. apply HQ. by exists m.
  - intros reg Q s (m & Hm & Hr) HQ. eapply wp_not_answered; [done..|]. intros s' Hs'. apply HQ. by exists m.
Qed.
End implementation.

Lemma write_regs_other writable data : forall start regs r, r < start \/ start + zlen data <= r ->
  write_regs writable start data regs r = regs r.
Proof.
  unfold zlen. induction data as [|v data IH]; intros start regs r Hr; simpl; [done|]. simpl length in Hr.
  rewrite IH by lia. destruct (writable start); [|done]. apply fn_lookup_insert_ne. lia.
Qed.

Lemma write_regs_same writable data : forall start regs, (forall r, start <= r < start + zlen data -> writable r = true) ->
  map (write_regs writable start data regs) (seqZ start (zlen data)) = data.
Proof.
  unfold zlen. induction data as [|v data IH]; intros start regs Hw; [done|]. simpl length in *. rewrite Nat2Z.inj_succ.
  rewrite seqZ_cons, map_cons by lia. rewrite Z.pred_succ. simpl write_regs. rewrite (Hw start) by lia. f_equal.
  - rewrite write_regs_other by lia. apply fn_lookup_insert.
  - apply (IH (start + 1)). intros r Hr. apply Hw. lia.
Qed.

(** C7: The driver for the I2C bus on two pins: bytes that
    [i2c_write_registers] sends to a chip are the ones that
    [i2c_read_registers] gets back, however long the chip stretches the clock;
    both transfers end, the chip's other registers keep their values, and the
    bus is free again. *)
Theorem softi2c_write_read `{ChipKind} (Hok : chip_kind_ok) (s : pins) (Hs : chip_ready s) (startreg : Z) (data buffer : list Z)
  (Hstart : 0 <= startreg) (Hne : 0 < zlen data) (Hend : startreg + zlen data <= c_size) (Hdata : Forall is_byte data)
  (Hw : forall r, startreg <= r < startreg + zlen data -> c_writable r = true) (Hbuffer : zlen buffer = zlen data) :
  wp (soft_write_registers c_address startreg (zlen data) data;; soft_read_registers c_address startreg (zlen data) buffer)
    (fun r s' => r = (0, data) /\ chip_ready s' /\
       forall i, i < startreg \/ startreg + zlen data <= i -> chip_registers s' i = chip_registers s i) s.
Proof.
  destruct Hs as (m & Hm & Hr). destruct (Hok) as (Hsize & _). rewrite wp_bind.
  eapply wp_soft_write_registers; [done|unfold is_byte; lia|lia|done|done|exact Hm|]. intros m1 s1 Hm1 Hs1.
  assert (regs_ok (m_regs m1)) as Hr1 by (rewrite Hm1; by apply written_ok).
  eapply wp_soft_read_registers; [done|done|unfold is_byte; lia|lia|lia|lia|exact Hs1|]. intros m2 s2 Hm2 Hs2.
  rewrite (ready_registers m s Hm), (ready_registers m2 s2 Hs2), Hm2, Hm1, write_regs_same by done.
  rewrite splice_all by done. split; [done|]. split; [exists m2; split; [done|]; by rewrite Hm2|].
  intros i Hi. by apply write_regs_other.
Qed.

(** A DS3231 that stretches the clock, and the pins after a reset. *)
Module Demo.
Definition ds3231 : ChipKind := {| c_address := 208; c_size := 19; c_writable := fun r => r <? 17; c_longest := 5 |}.
#[export] Existing Instance ds3231.
Definition reset : pins := Pins false false false false (Chip C_IDLE (Memory 4 (fun _ => 0)) true true 0 [3; 0; 5; 2; 0; 1]%nat).

Lemma ds3231_ok : chip_kind_ok.
Proof. repeat split; by vm_compute. Qed.

Definition started : pins := match i2c_init reset with Done _ s => s | _ => reset end.

Lemma started_ready : chip_ready started.
Proof.
  exists (Memory 4 (fun _ => 0)). split; [|intros r; unfold is_byte; simpl; lia]. exists (devices started).
  split; [by vm_compute|]. unfold chip_at. split_and!; vm_compute; first [done|lia].
Qed.
End Demo.
Import Demo.

Lemma softi2c_write_read_witness :
  wp (soft_write_registers 208 4 3 [7; 255; 128];; soft_read_registers 208 4 3 [0; 0; 0])
    (fun r s' => r = (0, [7; 255; 128]) /\ chip_ready s' /\
       forall i, i < 4 \/ 4 + 3 <= i -> chip_registers s' i = chip_registers started i) started.
Proof.
  apply (softi2c_write_read ds3231_ok started started_ready 4 [7; 255; 128] [0; 0; 0]);
    [lia|done|done|repeat constructor; lia| |done].
  intros r Hr. change (zlen _) with 3 in Hr. apply Z.ltb_lt. lia.
Defined.
