(* ===== verification/Clocks.v ===== *)
(** * The clocks: ds1307-3231.c, pcf8583.c, softrtc.c, rtc_lpc17xx.c, rtc.c

    The chips on the I2C bus are reached through the interface [I2C], the
    clock of the LPC17xx through [LpcRtc].  The messages on the serial port are
    left out. *)

From S2P Require Import Prelude FatFs Utils Dirent Machine SoftI2c.

(** rtc.c *)
Inductive rtc_type_t := RTC_NONE | RTC_SOFTWARE | RTC_PCF8583 | RTC_LPC17XX | RTC_DSRTC.
(** ds1307-3231.c *)
Inductive dsrtc_kind := RTC_1307 | RTC_3231.
#[export] Instance dsrtc_kind_dec : EqDecision dsrtc_kind.
Proof. solve_decision. Defined.

(** The registers of the clock in the LPC17xx. *)
Inductive lpc_register := L_CCR | L_SEC | L_MIN | L_HOUR | L_DOM | L_MONTH | L_YEAR | L_DOW | L_GPREG0 | L_GPREG1.
#[export] Instance lpc_register_dec : EqDecision lpc_register.
Proof. solve_decision. Defined.

(** The clock goes on while it is read. *)
Class LpcRtc := { LPC_RTC : Type; lpc_get : lpc_register -> LPC_RTC -> Z * LPC_RTC; lpc_put : lpc_register -> Z -> LPC_RTC -> LPC_RTC }.

(** config.h; [lpc_passes]: the passes of the loop in [lpcrtc_read]. *)
Class RtcConfig := {
  CONFIG_RTC_SOFTWARE : bool;
  CONFIG_RTC_PCF8583 : bool;
  CONFIG_RTC_LPC17XX : bool;
  CONFIG_RTC_DSRTC : bool;
  PCF8583_ADDR : Z;
  lpc_passes : nat
}.

Definition rtc_default_date : tm :=
  {| tm_sec := 0; tm_min := 0; tm_hour := 0; tm_mday := 31; tm_mon := 8 - 1; tm_year := 82; tm_wday := 2 |}.

(** The variables of the five files and the hardware. *)
Record clocks `{I2C} `{LpcRtc} := Clocks {
  i2c_bus : I2CBUS;
  lpc : LPC_RTC;
  clk_state : rtcstate_t;
  dsrtc_type : dsrtc_kind;
  current_rtc : rtc_type_t;
  soft_ms : Z;
  soft_rtc : Z
}.

Section clocks.
Context `{I2C} `{LpcRtc} `{RtcConfig}.

Definition set_i2c_bus (x : I2CBUS) (c : clocks) : clocks :=
  Clocks _ _ x (lpc c) (clk_state c) (dsrtc_type c) (current_rtc c) (soft_ms c) (soft_rtc c).
Definition set_lpc (x : LPC_RTC) (c : clocks) : clocks :=
  Clocks _ _ (i2c_bus c) x (clk_state c) (dsrtc_type c) (current_rtc c) (soft_ms c) (soft_rtc c).
Definition set_clk_state (x : rtcstate_t) (c : clocks) : clocks :=
  Clocks _ _ (i2c_bus c) (lpc c) x (dsrtc_type c) (current_rtc c) (soft_ms c) (soft_rtc c).
Definition set_dsrtc_type (x : dsrtc_kind) (c : clocks) : clocks :=
  Clocks _ _ (i2c_bus c) (lpc c) (clk_state c) x (current_rtc c) (soft_ms c) (soft_rtc c).
Definition set_current_rtc (x : rtc_type_t) (c : clocks) : clocks :=
  Clocks _ _ (i2c_bus c) (lpc c) (clk_state c) (dsrtc_type c) x (soft_ms c) (soft_rtc c).
Definition set_soft (ms rtc : Z) (c : clocks) : clocks :=
  Clocks _ _ (i2c_bus c) (lpc c) (clk_state c) (dsrtc_type c) (current_rtc c) ms rtc.
Definition on_i2c {A} (m : comp I2CBUS A) : comp clocks A := zoom i2c_bus set_i2c_bus m.

(** ** ds1307-3231.c *)
Definition RTC_ADDR : Z := 208.
Definition REG_SECOND : Z := 0.
Definition REG_CTLSTATUS : Z := 15.
Definition REG_TEMP_LSB : Z := 18.
Definition REG_CONTROL_07 : Z := 7.
Definition REG_CONTROL_31 : Z := 14.
Definition STATUS_OSF : Z := 128.

(** The registers 0 to 6 (second, minute, hour, day of the week, day, month,
    year) as a time, and back. *)
Definition dsrtc_time (tmp : list Z) : tm :=
  {| tm_sec := bcd2int (Z.land (nthZ tmp 0) 127);
     tm_min := bcd2int (nthZ tmp 1);
     tm_hour := bcd2int (nthZ tmp 2);
     tm_mday := bcd2int (nthZ tmp 4);
     tm_mon := u8 (bcd2int (Z.land (nthZ tmp 5) 127) - 1);
     tm_wday := u8 (bcd2int (nthZ tmp 3) - 1);
     tm_year := u8 (bcd2int (nthZ tmp 6) + 100 * Z.b2z (negb (Z.land (nthZ tmp 5) 128 =? 0)) + 100) |}.

Definition dsrtc_registers (t : tm) : list Z :=
  [int2bcd (tm_sec t); int2bcd (tm_min t); int2bcd (tm_hour t); int2bcd (u8 (tm_wday t + 1)); int2bcd (tm_mday t);
   u8 (Z.lor (int2bcd (u8 (tm_mon t + 1))) (128 * Z.b2z (2100 <=? tm_year t))); int2bcd (tm_year t `mod` 100)].

Definition dsrtc_read : comp clocks tm :=
  st ← gets clk_state;
  if negb (bool_decide (st = RTC_OK)) then mret rtc_default_date
  else
    r ← on_i2c (i2c_read_registers RTC_ADDR REG_SECOND 7 (fill 7 0));
    mret (if negb (r.1 =? 0) then rtc_default_date else dsrtc_time r.2).

Definition dsrtc_set (t : tm) : comp clocks unit :=
  st ← gets clk_state;
  if bool_decide (st = RTC_NOT_FOUND) then mret tt
  else
    on_i2c (i2c_write_registers RTC_ADDR REG_SECOND 7 (dsrtc_registers t));;
    k ← gets dsrtc_type;
    (if bool_decide (k = RTC_1307) then on_i2c (i2c_write_register RTC_ADDR REG_CONTROL_07 0);; mret tt
     else
       on_i2c (i2c_write_register RTC_ADDR REG_CONTROL_31 0);;
       on_i2c (i2c_write_register RTC_ADDR REG_CTLSTATUS 0);; mret tt);;
    modify (set_clk_state RTC_OK).

Definition dsrtc_init : comp clocks unit :=
  modify (set_clk_state RTC_NOT_FOUND);;
  tmp ← on_i2c (i2c_read_register RTC_ADDR 0);
  if tmp <? 0 then mret tt
  else
    on_i2c (i2c_write_register RTC_ADDR REG_TEMP_LSB 85);;
    tmp ← on_i2c (i2c_read_register RTC_ADDR REG_TEMP_LSB);
    tmp ← (if tmp =? 85 then modify (set_dsrtc_type RTC_1307);; on_i2c (i2c_read_register RTC_ADDR REG_SECOND)
           else modify (set_dsrtc_type RTC_3231);; on_i2c (i2c_read_register RTC_ADDR REG_CTLSTATUS));
    modify (set_clk_state (if negb (Z.land tmp STATUS_OSF =? 0) then RTC_INVALID else RTC_OK)).

(** ** pcf8583.c *)
Definition REG_CONTROL : Z := 0.
Definition REG_SECONDS : Z := 2.
Definition REG_YEAR1 : Z := 16.
Definition CTL_STOP_CLOCK : Z := 128.
Definition CTL_START_CLOCK : Z := 0.

(** The words of the union [tmp]. *)
Definition word (tmp : list Z) (k : Z) : Z := nthZ tmp (2 * k) + 256 * nthZ tmp (2 * k + 1).
Definition union_bytes (x : Z) : list Z := [x `mod` 256; x / 256].

(** Seconds, minutes, hours, day and month; the two low bits of the year are
    above the day, the day of the week above the month. *)
Definition pcf_time (tmp : list Z) : tm :=
  {| tm_sec := bcd2int (nthZ tmp 0);
     tm_min := bcd2int (nthZ tmp 1);
     tm_hour := bcd2int (nthZ tmp 2);
     tm_mday := bcd2int (Z.land (nthZ tmp 3) 63);
     tm_mon := u8 (bcd2int (Z.land (nthZ tmp 4) 31) - 1);
     tm_year := tm_year rtc_default_date;
     tm_wday := bcd2int (Z.shiftr (nthZ tmp 4) 5) |}.
Definition set_tm_year (y : Z) (t : tm) : tm :=
  {| tm_sec := tm_sec t; tm_min := tm_min t; tm_hour := tm_hour t; tm_mday := tm_mday t; tm_mon := tm_mon t;
     tm_year := y; tm_wday := tm_wday t |}.

(** [while ((tmp.words[0] & 3) != low) tmp.words[0]++] *)
Definition catch_up (low year : Z) : comp clocks Z :=
  loop 4 (fun y => mret (if Z.land y 3 =? low then inr y else inl (u16 (y + 1)))) year.

Definition pcf8583_read : comp clocks tm :=
  st ← gets clk_state;
  if negb (bool_decide (st = RTC_OK)) then mret rtc_default_date
  else
    r ← on_i2c (i2c_read_registers PCF8583_ADDR REG_SECONDS 5 (fill 5 0));
    if negb (r.1 =? 0) then mret rtc_default_date
    else
      let t := pcf_time r.2 in
      let low := Z.shiftr (nthZ r.2 3) 6 in
      r ← on_i2c (i2c_read_registers PCF8583_ADDR REG_YEAR1 4 (splice 4 [low] r.2));
      let tmp := r.2 in
      year ← (if Z.land (word tmp 0) 3 =? low then mret (word tmp 0)
              else
                year ← catch_up low (word tmp 0);
                on_i2c (i2c_write_registers PCF8583_ADDR REG_YEAR1 4 (union_bytes year ++ union_bytes (Z.lxor year 65535)));;
                mret year);
      mret (set_tm_year (u8 (year - 1900)) t).

Definition pcf8583_set (t : tm) : comp clocks unit :=
  st ← gets clk_state;
  if bool_decide (st = RTC_NOT_FOUND) then mret tt
  else
    on_i2c (i2c_write_register PCF8583_ADDR REG_CONTROL CTL_STOP_CLOCK);;
    on_i2c (i2c_write_registers PCF8583_ADDR REG_SECONDS 5
      [int2bcd (tm_sec t); int2bcd (tm_min t); int2bcd (tm_hour t);
       u8 (Z.lor (int2bcd (tm_mday t)) (Z.shiftl (Z.land (tm_year t) 3) 6));
       u8 (Z.lor (int2bcd (u8 (tm_mon t + 1))) (Z.shiftl (tm_wday t) 5))]);;
    on_i2c (i2c_write_registers PCF8583_ADDR REG_YEAR1 4
      (union_bytes (u16 (tm_year t + 1900)) ++ union_bytes (u16 (Z.lxor (tm_year t + 1900) 65535))));;
    on_i2c (i2c_write_register PCF8583_ADDR REG_CONTROL CTL_START_CLOCK);;
    modify (set_clk_state RTC_OK).

(** [read_rtc] is the function of rtc.h. *)
Definition pcf8583_init (read_rtc : tm -> comp clocks tm) : comp clocks unit :=
  modify (set_clk_state RTC_NOT_FOUND);;
  r ← on_i2c (i2c_write_register PCF8583_ADDR REG_CONTROL CTL_START_CLOCK);
  if negb (r =? 0) then mret tt
  else
    r ← on_i2c (i2c_read_registers PCF8583_ADDR REG_YEAR1 4 (fill 4 0));
    let tmp := r.2 in
    if negb (r.1 =? 0) then mret tt
    else if (nthZ tmp 0 =? Z.lxor (nthZ tmp 2) 255) && (nthZ tmp 1 =? Z.lxor (nthZ tmp 3) 255) then
      modify (set_clk_state RTC_OK);;
      read_rtc rtc_default_date;;
      mret tt
    else modify (set_clk_state RTC_INVALID).

(** ** softrtc.c, with the 16 bits of an int on the AVR *)
Definition month_days : list Z := [31; 28; 31; 30; 31; 30; 31; 31; 30; 31; 30; 31].
Definition is_leap (year : Z) : bool := (year `mod` 4 =? 0) && (negb (year `mod` 100 =? 0) || (year `mod` 400 =? 0)).
Definition days_in_year (a : Z) : Z := if is_leap a then 366 else 365.
Definition days_in_month (a : Z) : option Z := load month_days a.

(** A signed multiplication that must not overflow. *)
Definition int16 (x : Z) : option Z := if (-32768 <=? x) && (x <=? 32767) then Some x else None.

Definition mktime {S} (t : tm) : comp S Z :=
  let mon := u8 (u8 (tm_mon t + 1) - 2) in
  let year := u16 (tm_year t + 1900) in
  let '(mon, year) := if mon <=? 0 then (u8 (mon + 12), u16 (year - 1)) else (mon, year) in
  p ← of_option (int16 (367 * mon));
  let days := u32 (u16 (year / 4 - year / 100 + year / 400 + p / 12 + tm_mday t) + year * 365 - 719499) in
  let hours := u32 (days * 24 + tm_hour t) in
  let minutes := u32 (hours * 60 + tm_min t) in
  mret (u32 (minutes * 60 + tm_sec t)).

(** [year_fuel], [month_fuel]: 2^32 seconds are less than 137 years; the 13th
    month is outside [month_days]. *)
Definition year_fuel : nat := 138.
Definition month_fuel : nat := 13.

Definition years {S} (tim : Z) : comp S (Z * Z) :=
  loop year_fuel (fun v => let '(i, tim) := v in
    mret (if days_in_year i <=? tim then inl (u16 (i + 1), tim - days_in_year i) else inr (i, tim))) (1970, tim).
Definition months {S} (leap : bool) (tim : Z) : comp S (Z * Z) :=
  loop month_fuel (fun v => let '(i, tim) := v in
    d ← of_option (days_in_month i);
    mret (if d <=? tim then
            let tim := tim - d in
            inl (u16 (i + 1), if (i =? 1) && leap then u32 (tim - 1) else tim)
          else inr (i, tim))) (0, tim).

Definition gmtime {S} (t : Z) : comp S tm :=
  let sec := t `mod` 60 in
  let tim := t / 60 in
  let min := tim `mod` 60 in
  let tim := tim / 60 in
  let hour := tim `mod` 24 in
  let tim := tim / 24 in
  let wday := (tim + 4) `mod` 7 in
  y ← years tim;
  let year := u8 (y.1 - 1900) in
  m ← months (is_leap year) y.2;
  mret {| tm_sec := sec; tm_min := min; tm_hour := hour; tm_wday := wday; tm_year := year; tm_mon := u8 m.1;
          tm_mday := u8 (m.2 + 1) |}.

Definition softrtc_tick : comp clocks unit :=
  modify (fun c => let ms := u8 (soft_ms c + 1) in if ms =? 100 then set_soft 0 (u32 (soft_rtc c + 1)) c else set_soft ms (soft_rtc c) c).
Definition softrtc_read : comp clocks tm := t ← gets soft_rtc; gmtime t.
Definition softrtc_set (t : tm) : comp clocks unit := x ← mktime t; modify (fun c => set_soft (soft_ms c) x c).
Definition softrtc_init : comp clocks unit := modify (set_clk_state RTC_OK).

(** ** rtc_lpc17xx.c *)
Definition SIGNATURE_GPREG0 : Z := 3735928559.
Definition SIGNATURE_GPREG1 : Z := 4242729521.
Definition CLKEN : Z := 0.
Definition CTCRST : Z := 1.

Definition lpc_reg (r : lpc_register) : comp clocks Z :=
  c ← gets id; let v := lpc_get r (lpc c) in modify (set_lpc v.2);; mret v.1.
Definition lpc_set_reg (r : lpc_register) (x : Z) : comp clocks unit := modify (fun c => set_lpc (lpc_put r x (lpc c)) c).

Definition lpcrtc_init : comp clocks unit :=
  ccr ← lpc_reg L_CCR;
  if bit_test ccr CLKEN then
    g0 ← lpc_reg L_GPREG0;
    if g0 =? SIGNATURE_GPREG0 then
      g1 ← lpc_reg L_GPREG1;
      modify (set_clk_state (if g1 =? SIGNATURE_GPREG1 then RTC_OK else RTC_INVALID))
    else modify (set_clk_state RTC_INVALID)
  else modify (set_clk_state RTC_INVALID).

(** One pass over the registers; the pass is repeated when the second has
    changed meanwhile. *)
Definition lpcrtc_pass : comp clocks (unit + tm) :=
  sec ← lpc_reg L_SEC;
  min ← lpc_reg L_MIN;
  hour ← lpc_reg L_HOUR;
  mday ← lpc_reg L_DOM;
  mon ← lpc_reg L_MONTH;
  year ← lpc_reg L_YEAR;
  wday ← lpc_reg L_DOW;
  again ← lpc_reg L_SEC;
  mret (if u8 sec =? again then
          inr {| tm_sec := u8 sec; tm_min := u8 min; tm_hour := u8 hour; tm_mday := u8 mday; tm_mon := u8 mon;
                 tm_year := u8 (year - 1900); tm_wday := u8 wday |}
        else inl tt).
Definition lpcrtc_read : comp clocks tm :=
  st ← gets clk_state;
  if negb (bool_decide (st = RTC_OK)) then mret rtc_default_date
  else loop lpc_passes (fun _ => lpcrtc_pass) tt.

Definition lpcrtc_set (t : tm) : comp clocks unit :=
  lpc_set_reg L_CCR (bit_set 0 CTCRST);;
  lpc_set_reg L_SEC (tm_sec t);;
  lpc_set_reg L_MIN (tm_min t);;
  lpc_set_reg L_HOUR (tm_hour t);;
  lpc_set_reg L_DOM (tm_mday t);;
  lpc_set_reg L_MONTH (tm_mon t);;
  lpc_set_reg L_YEAR (tm_year t + 1900);;
  lpc_set_reg L_DOW (tm_wday t);;
  lpc_set_reg L_CCR (bit_set 0 CLKEN);;
  lpc_set_reg L_GPREG0 SIGNATURE_GPREG0;;
  lpc_set_reg L_GPREG1 SIGNATURE_GPREG1;;
  modify (set_clk_state RTC_OK).

(** ** rtc.c: the choice of a clock *)

(** config.h *)
Definition NEED_RTCMUX : bool :=
  1 <? Z.b2z CONFIG_RTC_SOFTWARE + Z.b2z CONFIG_RTC_PCF8583 + Z.b2z CONFIG_RTC_LPC17XX + Z.b2z CONFIG_RTC_DSRTC.

(** [read_rtc(&time)]: what [time] holds afterwards.  With one driver the
    linker takes its functions. *)
Definition mux_read_rtc (time : tm) : comp clocks tm :=
  k ← gets current_rtc;
  match k with
  | RTC_DSRTC => if CONFIG_RTC_DSRTC then dsrtc_read else mret time
  | RTC_PCF8583 => if CONFIG_RTC_PCF8583 then pcf8583_read else mret time
  | RTC_LPC17XX => if CONFIG_RTC_LPC17XX then lpcrtc_read else mret time
  | RTC_SOFTWARE => if CONFIG_RTC_SOFTWARE then softrtc_read else mret time
  | RTC_NONE => mret time
  end.

Definition mux_set_rtc (time : tm) : comp clocks unit :=
  k ← gets current_rtc;
  match k with
  | RTC_DSRTC => when CONFIG_RTC_DSRTC (dsrtc_set time)
  | RTC_PCF8583 => when CONFIG_RTC_PCF8583 (pcf8583_set time)
  | RTC_LPC17XX => when CONFIG_RTC_LPC17XX (lpcrtc_set time)
  | RTC_SOFTWARE => when CONFIG_RTC_SOFTWARE (softrtc_set time)
  | RTC_NONE => mret tt
  end.

(** One of the drivers: true when its clock is there and is taken. *)
Definition try_rtc (configured : bool) (init : comp clocks unit) (k : rtc_type_t) : comp clocks bool :=
  if negb configured then mret false
  else
    init;;
    st ← gets clk_state;
    if bool_decide (st = RTC_NOT_FOUND) then mret false
    else modify (set_current_rtc k);; mret true.

Definition mux_rtc_init : comp clocks unit :=
  found ← try_rtc CONFIG_RTC_DSRTC dsrtc_init RTC_DSRTC;
  if found : bool then mret tt
  else
    found ← try_rtc CONFIG_RTC_PCF8583 (pcf8583_init mux_read_rtc) RTC_PCF8583;
    if found : bool then mret tt
    else
      found ← try_rtc CONFIG_RTC_LPC17XX lpcrtc_init RTC_LPC17XX;
      if found : bool then mret tt
      else if CONFIG_RTC_SOFTWARE then softrtc_init
      else modify (set_clk_state RTC_NOT_FOUND).

Definition rtc_init : comp clocks unit :=
  if NEED_RTCMUX then mux_rtc_init
  else if CONFIG_RTC_DSRTC then dsrtc_init
  else if CONFIG_RTC_PCF8583 then pcf8583_init (fun _ => pcf8583_read)
  else if CONFIG_RTC_LPC17XX then lpcrtc_init
  else when CONFIG_RTC_SOFTWARE softrtc_init.
Definition rtc_read (time : tm) : comp clocks tm :=
  if NEED_RTCMUX then mux_read_rtc time
  else if CONFIG_RTC_DSRTC then dsrtc_read
  else if CONFIG_RTC_PCF8583 then pcf8583_read
  else if CONFIG_RTC_LPC17XX then lpcrtc_read
  else if CONFIG_RTC_SOFTWARE then softrtc_read else mret time.
Definition rtc_set (time : tm) : comp clocks unit :=
  if NEED_RTCMUX then mux_set_rtc time
  else if CONFIG_RTC_DSRTC then dsrtc_set time
  else if CONFIG_RTC_PCF8583 then pcf8583_set time
  else if CONFIG_RTC_LPC17XX then lpcrtc_set time
  else when CONFIG_RTC_SOFTWARE (softrtc_set time).
End clocks.
