(* ===== verification/Ieee.v ===== *)
(** * ieee.c: the IEEE-488 bus

    The controller pins of the bus lines, the handshakes for one byte, the
    listen and talk loops and [handle_ieee488].  What happens on the bus is
    the interface [BusHost]: before every access to a port or to the flag
    [ieee488_ATN_received] the host takes a step, in which it sees the lines that the device drives and may pull ATN
    low; then the interrupt routine runs.  A waiting loop has [bus_fuel]
    passes.  The debug output and the calls of the LCD are left out. *)

From stdpp Require Import gmap.
From S2P Require Import Prelude EepromFs ErrorMsg Utils Buffers FatFs Dirent World D64Geom D64 D64Files D64Ops.
From S2P Require Import EefsOps FatNames FatFile Callbacks FatOps WrapOps Parser DirLines FileOps DosFiles Machine Config.
From S2P Require Import DosBlock DosMemory DosTime DosCmd.

(** Upper three bits of a command with a device number, upper four bits with a
    secondary address. *)
Definition IEEE_LISTEN : Z := 32.
Definition IEEE_UNLISTEN : Z := 63.
Definition IEEE_TALK : Z := 64.
Definition IEEE_UNTALK : Z := 95.
Definition IEEE_SECONDARY : Z := 96.
Definition IEEE_CLOSE : Z := 224.
Definition IEEE_OPEN : Z := 240.

Inductive rx_t := RX_DATA | RX_EOI | RX_ATN | RX_IFC.
Inductive ll_t := LL_RECEIVE | LL_OPEN.

#[export] Instance rx_eq_dec : EqDecision rx_t.
Proof. solve_decision. Defined.
#[export] Instance ll_eq_dec : EqDecision ll_t.
Proof. solve_decision. Defined.

#[export] Instance callback_eq_dec : EqDecision callback.
Proof. solve_decision. Defined.

(** ** The lines *)

(** The lines as the device drives them; [true] is released. *)
Record lines := Lines { l_ndac : bool; l_nrfd : bool; l_dav : bool; l_eoi : bool; l_data : Z }.

(** What the pins read, and whether ATN has just fallen. *)
Record inputs := {
  in_atn : bool;
  in_dav : bool;
  in_ndac : bool;
  in_nrfd : bool;
  in_eoi : bool;
  in_ifc : bool;
  in_data : Z;
  atn_fell : bool
}.

(** The rest of the bus. *)
Class BusHost := { HOST : Type; bus_step : lines -> HOST -> inputs * HOST }.

(** Is IFC attached to the controller, and does the board set the direction
    control of the bus drivers? *)
Class IeeeConfig := { HAVE_IFC : bool; HAVE_DC : bool }.

(** The bits of the direction and output registers: a direction bit is set
    for an output; TE is set for talk mode. *)
Record pins_t := {
  eoi_ddr : bool;
  eoi_port : bool;
  dav_ddr : bool;
  dav_port : bool;
  ndac_ddr : bool;
  ndac_port : bool;
  nrfd_ddr : bool;
  nrfd_port : bool;
  te_port : bool;
  dc_port : bool;
  d_ddr : Z;
  d_port : Z
}.

Definition set_eoi_ddr (x : bool) (p : pins_t) : pins_t :=
  {| eoi_ddr := x; eoi_port := eoi_port p; dav_ddr := dav_ddr p; dav_port := dav_port p; ndac_ddr := ndac_ddr
     p; ndac_port := ndac_port p; nrfd_ddr := nrfd_ddr p; nrfd_port := nrfd_port p; te_port := te_port p;
     dc_port := dc_port p; d_ddr := d_ddr p; d_port := d_port p |}.
Definition set_eoi_port (x : bool) (p : pins_t) : pins_t :=
  {| eoi_ddr := eoi_ddr p; eoi_port := x; dav_ddr := dav_ddr p; dav_port := dav_port p; ndac_ddr := ndac_ddr
     p; ndac_port := ndac_port p; nrfd_ddr := nrfd_ddr p; nrfd_port := nrfd_port p; te_port := te_port p;
     dc_port := dc_port p; d_ddr := d_ddr p; d_port := d_port p |}.
Definition set_dav_ddr (x : bool) (p : pins_t) : pins_t :=
  {| eoi_ddr := eoi_ddr p; eoi_port := eoi_port p; dav_ddr := x; dav_port := dav_port p; ndac_ddr := ndac_ddr
     p; ndac_port := ndac_port p; nrfd_ddr := nrfd_ddr p; nrfd_port := nrfd_port p; te_port := te_port p;
     dc_port := dc_port p; d_ddr := d_ddr p; d_port := d_port p |}.
Definition set_dav_port (x : bool) (p : pins_t) : pins_t :=
  {| eoi_ddr := eoi_ddr p; eoi_port := eoi_port p; dav_ddr := dav_ddr p; dav_port := x; ndac_ddr := ndac_ddr
     p; ndac_port := ndac_port p; nrfd_ddr := nrfd_ddr p; nrfd_port := nrfd_port p; te_port := te_port p;
     dc_port := dc_port p; d_ddr := d_ddr p; d_port := d_port p |}.
Definition set_ndac_ddr (x : bool) (p : pins_t) : pins_t :=
  {| eoi_ddr := eoi_ddr p; eoi_port := eoi_port p; dav_ddr := dav_ddr p; dav_port := dav_port p; ndac_ddr :=
     x; ndac_port := ndac_port p; nrfd_ddr := nrfd_ddr p; nrfd_port := nrfd_port p; te_port := te_port p;
     dc_port := dc_port p; d_ddr := d_ddr p; d_port := d_port p |}.
Definition set_ndac_port (x : bool) (p : pins_t) : pins_t :=
  {| eoi_ddr := eoi_ddr p; eoi_port := eoi_port p; dav_ddr := dav_ddr p; dav_port := dav_port p; ndac_ddr :=
     ndac_ddr p; ndac_port := x; nrfd_ddr := nrfd_ddr p; nrfd_port := nrfd_port p; te_port := te_port p;
     dc_port := dc_port p; d_ddr := d_ddr p; d_port := d_port p |}.
Definition set_nrfd_ddr (x : bool) (p : pins_t) : pins_t :=
  {| eoi_ddr := eoi_ddr p; eoi_port := eoi_port p; dav_ddr := dav_ddr p; dav_port := dav_port p; ndac_ddr :=
     ndac_ddr p; ndac_port := ndac_port p; nrfd_ddr := x; nrfd_port := nrfd_port p; te_port := te_port p;
     dc_port := dc_port p; d_ddr := d_ddr p; d_port := d_port p |}.
Definition set_nrfd_port (x : bool) (p : pins_t) : pins_t :=
  {| eoi_ddr := eoi_ddr p; eoi_port := eoi_port p; dav_ddr := dav_ddr p; dav_port := dav_port p; ndac_ddr :=
     ndac_ddr p; ndac_port := ndac_port p; nrfd_ddr := nrfd_ddr p; nrfd_port := x; te_port := te_port p;
     dc_port := dc_port p; d_ddr := d_ddr p; d_port := d_port p |}.
Definition set_te_port (x : bool) (p : pins_t) : pins_t :=
  {| eoi_ddr := eoi_ddr p; eoi_port := eoi_port p; dav_ddr := dav_ddr p; dav_port := dav_port p; ndac_ddr :=
     ndac_ddr p; ndac_port := ndac_port p; nrfd_ddr := nrfd_ddr p; nrfd_port := nrfd_port p; te_port := x;
     dc_port := dc_port p; d_ddr := d_ddr p; d_port := d_port p |}.
Definition set_dc_port (x : bool) (p : pins_t) : pins_t :=
  {| eoi_ddr := eoi_ddr p; eoi_port := eoi_port p; dav_ddr := dav_ddr p; dav_port := dav_port p; ndac_ddr :=
     ndac_ddr p; ndac_port := ndac_port p; nrfd_ddr := nrfd_ddr p; nrfd_port := nrfd_port p; te_port :=
     te_port p; dc_port := x; d_ddr := d_ddr p; d_port := d_port p |}.
Definition set_d_ddr (x : Z) (p : pins_t) : pins_t :=
  {| eoi_ddr := eoi_ddr p; eoi_port := eoi_port p; dav_ddr := dav_ddr p; dav_port := dav_port p; ndac_ddr :=
     ndac_ddr p; ndac_port := ndac_port p; nrfd_ddr := nrfd_ddr p; nrfd_port := nrfd_port p; te_port :=
     te_port p; dc_port := dc_port p; d_ddr := x; d_port := d_port p |}.
Definition set_d_port (x : Z) (p : pins_t) : pins_t :=
  {| eoi_ddr := eoi_ddr p; eoi_port := eoi_port p; dav_ddr := dav_ddr p; dav_port := dav_port p; ndac_ddr :=
     ndac_ddr p; ndac_port := ndac_port p; nrfd_ddr := nrfd_ddr p; nrfd_port := nrfd_port p; te_port :=
     te_port p; dc_port := dc_port p; d_ddr := d_ddr p; d_port := x |}.


(** A pin pulls its line low when it is a low output and the bus driver works
    in its direction: NDAC and NRFD in listen mode, DAV and EOI in talk mode. *)
Definition released (te mode ddr port : bool) : bool := negb (ddr && Bool.eqb te mode) || port.
Definition lines_of (p : pins_t) : lines :=
  Lines (released (te_port p) false (ndac_ddr p) (ndac_port p)) (released (te_port p) false (nrfd_ddr p) (nrfd_port p))
    (released (te_port p) true (dav_ddr p) (dav_port p)) (released (te_port p) true (eoi_ddr p) (eoi_port p))
    (if te_port p then Z.lor (d_port p) (255 - d_ddr p) else 255).


Section ieee.
Context `{FatFs} `{EepromGeom} `{Assertions} `{ErrorConfig} `{BufferConfig} `{SystemConfig} `{BoardConfig}.
Context `{!DiskDrivers} `{!Fastloaders} `{BusHost} `{IeeeConfig}.
Context (stack_dent : cbmdirent_t) (copy_fuel bus_fuel : nat).

Record ieee := {
  ie_m : machine;
  ieee488_ListenActive : Z;
  ieee488_TalkingDevice : Z;
  command_received : bool;
  open_active : bool;
  open_sa : Z;
  ieee488_IFCreceived : bool;
  ieee488_ATN_received : bool;
  ieee488_TE75160 : bool;
  ieee488_TE75161 : bool;
  atn_interrupt : bool;
  pins : pins_t;
  host : HOST
}.

Definition set_ie_m (x : machine) (s : ieee) : ieee :=
  {| ie_m := x; ieee488_ListenActive := ieee488_ListenActive s; ieee488_TalkingDevice := ieee488_TalkingDevice
     s; command_received := command_received s; open_active := open_active s; open_sa := open_sa s;
     ieee488_IFCreceived := ieee488_IFCreceived s; ieee488_ATN_received := ieee488_ATN_received s;
     ieee488_TE75160 := ieee488_TE75160 s; ieee488_TE75161 := ieee488_TE75161 s; atn_interrupt :=
     atn_interrupt s; pins := pins s; host := host s |}.
Definition set_ieee488_ListenActive (x : Z) (s : ieee) : ieee :=
  {| ie_m := ie_m s; ieee488_ListenActive := x; ieee488_TalkingDevice := ieee488_TalkingDevice s;
     command_received := command_received s; open_active := open_active s; open_sa := open_sa s;
     ieee488_IFCreceived := ieee488_IFCreceived s; ieee488_ATN_received := ieee488_ATN_received s;
     ieee488_TE75160 := ieee488_TE75160 s; ieee488_TE75161 := ieee488_TE75161 s; atn_interrupt :=
     atn_interrupt s; pins := pins s; host := host s |}.
Definition set_ieee488_TalkingDevice (x : Z) (s : ieee) : ieee :=
  {| ie_m := ie_m s; ieee488_ListenActive := ieee488_ListenActive s; ieee488_TalkingDevice := x;
     command_received := command_received s; open_active := open_active s; open_sa := open_sa s;
     ieee488_IFCreceived := ieee488_IFCreceived s; ieee488_ATN_received := ieee488_ATN_received s;
     ieee488_TE75160 := ieee488_TE75160 s; ieee488_TE75161 := ieee488_TE75161 s; atn_interrupt :=
     atn_interrupt s; pins := pins s; host := host s |}.
Definition set_command_received (x : bool) (s : ieee) : ieee :=
  {| ie_m := ie_m s; ieee488_ListenActive := ieee488_ListenActive s; ieee488_TalkingDevice :=
     ieee488_TalkingDevice s; command_received := x; open_active := open_active s; open_sa := open_sa s;
     ieee488_IFCreceived := ieee488_IFCreceived s; ieee488_ATN_received := ieee488_ATN_received s;
     ieee488_TE75160 := ieee488_TE75160 s; ieee488_TE75161 := ieee488_TE75161 s; atn_interrupt :=
     atn_interrupt s; pins := pins s; host := host s |}.
Definition set_open_active (x : bool) (s : ieee) : ieee :=
  {| ie_m := ie_m s; ieee488_ListenActive := ieee488_ListenActive s; ieee488_TalkingDevice :=
     ieee488_TalkingDevice s; command_received := command_received s; open_active := x; open_sa := open_sa s;
     ieee488_IFCreceived := ieee488_IFCreceived s; ieee488_ATN_received := ieee488_ATN_received s;
     ieee488_TE75160 := ieee488_TE75160 s; ieee488_TE75161 := ieee488_TE75161 s; atn_interrupt :=
     atn_interrupt s; pins := pins s; host := host s |}.
Definition set_open_sa (x : Z) (s : ieee) : ieee :=
  {| ie_m := ie_m s; ieee488_ListenActive := ieee488_ListenActive s; ieee488_TalkingDevice :=
     ieee488_TalkingDevice s; command_received := command_received s; open_active := open_active s; open_sa :=
     x; ieee488_IFCreceived := ieee488_IFCreceived s; ieee488_ATN_received := ieee488_ATN_received s;
     ieee488_TE75160 := ieee488_TE75160 s; ieee488_TE75161 := ieee488_TE75161 s; atn_interrupt :=
     atn_interrupt s; pins := pins s; host := host s |}.
Definition set_ieee488_IFCreceived (x : bool) (s : ieee) : ieee :=
  {| ie_m := ie_m s; ieee488_ListenActive := ieee488_ListenActive s; ieee488_TalkingDevice :=
     ieee488_TalkingDevice s; command_received := command_received s; open_active := open_active s; open_sa :=
     open_sa s; ieee488_IFCreceived := x; ieee488_ATN_received := ieee488_ATN_received s; ieee488_TE75160 :=
     ieee488_TE75160 s; ieee488_TE75161 := ieee488_TE75161 s; atn_interrupt := atn_interrupt s; pins := pins
     s; host := host s |}.
Definition set_ieee488_ATN_received (x : bool) (s : ieee) : ieee :=
  {| ie_m := ie_m s; ieee488_ListenActive := ieee488_ListenActive s; ieee488_TalkingDevice :=
     ieee488_TalkingDevice s; command_received := command_received s; open_active := open_active s; open_sa :=
     open_sa s; ieee488_IFCreceived := ieee488_IFCreceived s; ieee488_ATN_received := x; ieee488_TE75160 :=
     ieee488_TE75160 s; ieee488_TE75161 := ieee488_TE75161 s; atn_interrupt := atn_interrupt s; pins := pins
     s; host := host s |}.
Definition set_ieee488_TE75160 (x : bool) (s : ieee) : ieee :=
  {| ie_m := ie_m s; ieee488_ListenActive := ieee488_ListenActive s; ieee488_TalkingDevice :=
     ieee488_TalkingDevice s; command_received := command_received s; open_active := open_active s; open_sa :=
     open_sa s; ieee488_IFCreceived := ieee488_IFCreceived s; ieee488_ATN_received := ieee488_ATN_received s;
     ieee488_TE75160 := x; ieee488_TE75161 := ieee488_TE75161 s; atn_interrupt := atn_interrupt s; pins :=
     pins s; host := host s |}.
Definition set_ieee488_TE75161 (x : bool) (s : ieee) : ieee :=
  {| ie_m := ie_m s; ieee488_ListenActive := ieee488_ListenActive s; ieee488_TalkingDevice :=
     ieee488_TalkingDevice s; command_received := command_received s; open_active := open_active s; open_sa :=
     open_sa s; ieee488_IFCreceived := ieee488_IFCreceived s; ieee488_ATN_received := ieee488_ATN_received s;
     ieee488_TE75160 := ieee488_TE75160 s; ieee488_TE75161 := x; atn_interrupt := atn_interrupt s; pins :=
     pins s; host := host s |}.
Definition set_atn_interrupt (x : bool) (s : ieee) : ieee :=
  {| ie_m := ie_m s; ieee488_ListenActive := ieee488_ListenActive s; ieee488_TalkingDevice :=
     ieee488_TalkingDevice s; command_received := command_received s; open_active := open_active s; open_sa :=
     open_sa s; ieee488_IFCreceived := ieee488_IFCreceived s; ieee488_ATN_received := ieee488_ATN_received s;
     ieee488_TE75160 := ieee488_TE75160 s; ieee488_TE75161 := ieee488_TE75161 s; atn_interrupt := x; pins :=
     pins s; host := host s |}.
Definition set_pins (x : pins_t) (s : ieee) : ieee :=
  {| ie_m := ie_m s; ieee488_ListenActive := ieee488_ListenActive s; ieee488_TalkingDevice :=
     ieee488_TalkingDevice s; command_received := command_received s; open_active := open_active s; open_sa :=
     open_sa s; ieee488_IFCreceived := ieee488_IFCreceived s; ieee488_ATN_received := ieee488_ATN_received s;
     ieee488_TE75160 := ieee488_TE75160 s; ieee488_TE75161 := ieee488_TE75161 s; atn_interrupt :=
     atn_interrupt s; pins := x; host := host s |}.
Definition set_host (x : HOST) (s : ieee) : ieee :=
  {| ie_m := ie_m s; ieee488_ListenActive := ieee488_ListenActive s; ieee488_TalkingDevice :=
     ieee488_TalkingDevice s; command_received := command_received s; open_active := open_active s; open_sa :=
     open_sa s; ieee488_IFCreceived := ieee488_IFCreceived s; ieee488_ATN_received := ieee488_ATN_received s;
     ieee488_TE75160 := ieee488_TE75160 s; ieee488_TE75161 := ieee488_TE75161 s; atn_interrupt :=
     atn_interrupt s; pins := pins s; host := x |}.

Definition get_bus : comp ieee ieee := gets id.
Definition on_machine {A} (m : comp machine A) : comp ieee A := zoom ie_m set_ie_m m.
Definition on_pool {A} (m : comp bufs A) : comp ieee A := on_machine (mbufs m).

(** ** Ports *)

(** The interrupt routine for ATN (atn-ack-petsd+.S). *)
Definition INT0_vect (p : pins_t) : pins_t :=
  {| eoi_ddr := false; eoi_port := eoi_port p; dav_ddr := false; dav_port := dav_port p; ndac_ddr := true; ndac_port := true;
     nrfd_ddr := true; nrfd_port := false; te_port := false; dc_port := dc_port p; d_ddr := 0; d_port := d_port p |}.

(** A step of the host, before an access to a port. *)
Definition port_step : comp ieee inputs :=
  s ← get_bus;
  let '(i, h) := bus_step (lines_of (pins s)) (host s) in
  modify (set_host h);;
  when (atn_fell i && atn_interrupt s) (modify (fun s => set_ieee488_ATN_received true (set_pins (INT0_vect (pins s)) s)));;
  mret i.

Definition port_read {A} (f : inputs -> A) : comp ieee A := i ← port_step; mret (f i).
Definition port_write (f : pins_t -> pins_t) : comp ieee unit := port_step;; modify (fun s => set_pins (f (pins s)) s).

(** The flag that the interrupt routine sets. *)
Definition ATN_received : comp ieee bool := port_step;; s ← get_bus; mret (ieee488_ATN_received s).

Definition ieee488_ATN : comp ieee bool := port_read in_atn.
Definition ieee488_NDAC : comp ieee bool := port_read in_ndac.
Definition ieee488_NRFD : comp ieee bool := port_read in_nrfd.
Definition ieee488_DAV : comp ieee bool := port_read in_dav.
Definition ieee488_EOI : comp ieee bool := port_read in_eoi.
Definition ieee488_IFC : comp ieee bool := if HAVE_IFC then port_read in_ifc else mret true.
Definition ieee488_Data : comp ieee Z := d ← port_read in_data; mret (255 - d).

Definition ieee488_CheckIFC : comp ieee bool :=
  if HAVE_IFC then
    i ← ieee488_IFC; if i : bool then mret false else modify (set_ieee488_IFCreceived true);; mret true
  else mret false.

(** Without a level converter an open collector: high is an input. *)
Definition ieee488_SetEOI (x : bool) : comp ieee unit :=
  if x then port_write (set_eoi_port true);; port_write (set_eoi_ddr false)
  else port_write (set_eoi_port false);; port_write (set_eoi_ddr true).
Definition ieee488_SetData (data : Z) : comp ieee unit := port_write (set_d_port (255 - data)).
Definition ieee488_DataListen : comp ieee unit := port_write (set_d_ddr 0);; modify (set_ieee488_TE75160 false).
Definition ieee488_DataTalk : comp ieee unit :=
  port_write (set_d_port 255);; port_write (set_d_ddr 255);; modify (set_ieee488_TE75160 true).
Definition ieee488_SetDC (x : bool) : comp ieee unit := when HAVE_DC (port_write (set_dc_port x)).
Definition ieee488_SetNDAC (x : bool) : comp ieee unit := port_write (set_ndac_port x).
Definition ieee488_SetNRFD (x : bool) : comp ieee unit := port_write (set_nrfd_port x).
Definition ieee488_SetDAV (x : bool) : comp ieee unit := port_write (set_dav_port x).
Definition ieee488_SetTE (x : bool) : comp ieee unit := port_write (set_te_port x).

Definition ieee488_CtrlPortsListen : comp ieee unit :=
  port_write (set_eoi_ddr false);;
  port_write (set_dav_ddr false);;
  ieee488_SetTE false;;
  port_write (set_ndac_ddr true);;
  port_write (set_nrfd_ddr true);;
  modify (set_ieee488_TE75161 false).

Definition ieee488_CtrlPortsTalk : comp ieee unit :=
  port_write (set_ndac_ddr false);;
  port_write (set_nrfd_ddr false);;
  port_write (set_dav_port true);;
  port_write (set_eoi_port true);;
  ieee488_SetTE true;;
  port_write (set_dav_ddr true);;
  port_write (set_eoi_ddr true);;
  modify (set_ieee488_TE75161 true).

Definition ieee488_EnableAtnInterrupt : comp ieee unit := modify (set_atn_interrupt true).
Definition ieee488_DisableAtnInterrupt : comp ieee unit := modify (set_atn_interrupt false).

(** Data lines to inputs unless they are already. *)
Definition listen_data : comp ieee unit := s ← get_bus; when (ieee488_TE75160 s) ieee488_DataListen.

Definition ieee488_BusIdle : comp ieee unit :=
  s ← get_bus;
  when (ieee488_TE75161 s) ieee488_CtrlPortsListen;;
  ieee488_SetNDAC true;;
  ieee488_SetNRFD true;;
  listen_data.

Definition ieee488_BusSleep (sleep : bool) : comp ieee unit :=
  if sleep then ieee488_DisableAtnInterrupt;; ieee488_BusIdle;; on_pool (modify (set_dirty_led true))
  else ieee488_EnableAtnInterrupt;; on_pool update_leds.

(** The pins of the board stay inputs with a pull-up where the code says so;
    their registers do not matter elsewhere. *)
Definition ieee488_Init : comp ieee unit :=
  modify (fun s => set_ieee488_ListenActive 0 (set_ieee488_TalkingDevice 0 (set_open_sa 0
    (set_command_received false (set_open_active false s)))));;
  on_machine (a ← hw_addr; modify (set_device_address a));;
  ieee488_SetDC true;;
  ieee488_DataListen;;
  ieee488_CtrlPortsListen;;
  ieee488_BusIdle;;
  ieee488_DisableAtnInterrupt;;
  ieee488_EnableAtnInterrupt.

(** ** Receiving *)

(** [while (cond) { if (ATN_received) ...; if (CheckIFC()) ...; }]: [None] when
    [cond] has become false, [Some] of the reason else. *)
Definition check_abort : comp ieee (option rx_t) :=
  atn ← ATN_received;
  if atn : bool then mret (Some RX_ATN)
  else ifc ← ieee488_CheckIFC; mret (if ifc : bool then Some RX_IFC else None).

Definition wait_while (cond : comp ieee bool) (abort : comp ieee (option rx_t)) : comp ieee (option rx_t) :=
  loop bus_fuel (fun _ =>
    c ← cond;
    if c : bool then a ← abort; match a with Some x => mret (inr (Some x)) | None => mret (inl tt) end
    else mret (inr None)) tt.

(** The same with the test at the end. *)
Definition do_while (abort : comp ieee (option rx_t)) (cond : comp ieee bool) : comp ieee (option rx_t) :=
  loop bus_fuel (fun _ =>
    a ← abort;
    match a with
    | Some x => mret (inr (Some x))
    | None => c ← cond; if c : bool then mret (inl tt) else mret (inr None)
    end) tt.

Definition ieee488_RxByte (c : Z) : comp ieee (rx_t * Z) :=
  loop bus_fuel (fun '(eoi, c) =>
    ieee488_SetNRFD true;;
    ieee488_SetNDAC false;;
    listen_data;;
    a ← do_while check_abort ieee488_DAV;
    match a with
    | Some x => mret (inr (x, c))
    | None =>
        ieee488_SetNRFD false;;
        e ← ieee488_EOI;
        let eoi := if e : bool then eoi else RX_EOI in
        c ← ieee488_Data;
        glitch ← ieee488_DAV;
        if glitch : bool then mret (inl (eoi, c))
        else
          ieee488_SetNDAC true;;
          a ← do_while check_abort (d ← ieee488_DAV; mret (negb d));
          match a with
          | Some x => mret (inr (x, c))
          | None => ieee488_SetNDAC false;; mret (inr (eoi, c))
          end
    end) (RX_DATA, c).

Definition RxChar (c : Z) : comp ieee unit :=
  on_machine (on_world (
    d ← gets w_dos;
    when (command_length d <? CONFIG_COMMAND_BUFFER_SIZE) (
      on_cmd (poke (command_length d) c);; on_dos (modify (set_command_length (u8 (command_length d + 1))))))).

Definition ieee488_IgnoreBytes : comp ieee unit :=
  loop bus_fuel (fun c =>
    r ← ieee488_RxByte c;
    if bool_decide (r.1 = RX_ATN) || bool_decide (r.1 = RX_IFC) then mret (inr tt) else mret (inl r.2)) 0.

Definition refill_of (buf : Z) : comp ieee Z := on_machine (on_world (run_refill stack_dent buf)).

(** A byte for the buffer: [None] after a failed refill, else the buffer of
    the channel. *)
Definition listen_byte (sa buf c : Z) (eoi : bool) : comp ieee (option (option Z)) :=
  b ← on_pool (buf_get buf);
  r ← (if mustflush b then
         res ← refill_of buf;
         if negb (res =? 0) then mret None else buf' ← on_pool (find_buffer sa); mret (Some buf')
       else mret (Some (Some buf)));
  match r with
  | None => mret None
  | Some buf' =>
      buf ← of_option buf';
      b ← on_pool (buf_get buf);
      on_pool (data_put buf (position b) [c]);;
      on_pool (mark_buffer_dirty buf);;
      on_pool (buf_upd buf (fun b => if lastused b <? position b then set_lastused (position b) b else b));;
      on_pool (buf_upd buf (fun b => set_position (u8 (position b + 1)) b));;
      on_pool (buf_upd buf (fun b => if position b =? 0 then set_mustflush true b else b));;
      b ← on_pool (buf_get buf);
      if negb (recordlen b =? 0) && eoi then
        res ← refill_of buf;
        mret (if negb (res =? 0) then None else Some (Some buf))
      else mret (Some (Some buf))
  end.

Definition ieee488_ListenLoop (action : ll_t) (sa : Z) : comp ieee unit :=
  buf ← on_pool (find_buffer sa);
  writable ← (match buf with None => mret false | Some i => b ← on_pool (buf_get i); mret (buf_write b) end);
  if negb writable && negb (bool_decide (action = LL_OPEN)) then ieee488_IgnoreBytes
  else
    when (sa =? 15) (modify (set_command_received true));;
    loop bus_fuel (fun '(buf, c) =>
      r ← ieee488_RxByte c;
      if bool_decide (r.1 = RX_ATN) || bool_decide (r.1 = RX_IFC) then mret (inr tt)
      else
        ifc ← ieee488_CheckIFC;
        if ifc : bool then mret (inr tt)
        else
          s ← get_bus;
          if bool_decide (action = LL_OPEN) || command_received s then RxChar r.2;; mret (inl (buf, r.2))
          else
            i ← of_option buf;
            next ← listen_byte sa i r.2 (bool_decide (r.1 = RX_EOI));
            match next with
            | None => ieee488_IgnoreBytes;; mret (inr tt)
            | Some buf => mret (inl (buf, r.2))
            end) (buf, 0).

(** ** Sending *)

(** [buf->data[pos]], also of the error channel *)
Definition channel_byte (buf pos : Z) : comp machine Z :=
  if buf =? ERRORBUFFER_IDX then e ← get_settings; of_option (load (error_buffer e) pos)
  else mbufs (data_get buf pos).

(** [NDAC() || ATN_received] *)
Definition lost_listener : comp ieee bool :=
  n ← ieee488_NDAC;
  if n : bool then mret true else ATN_received.
Definition release_dav : comp ieee unit := ieee488_SetDAV true;; ieee488_SetEOI true.

(** ATN ends the talking: what is left to do is [m]. *)
Definition atn_then (m : comp ieee unit) : comp ieee (option rx_t) :=
  a ← check_abort;
  (match a with Some RX_ATN => m | _ => mret tt end);;
  mret a.

(** The handshake for the byte at [position] in three parts: waiting for the
    listeners, the byte on the lines, and its acceptance.  [false] when the
    loop has to return. *)
Definition talk_ready : comp ieee bool :=
  release_dav;;
  a ← wait_while ieee488_NDAC (atn_then ieee488_BusIdle);
  if bool_decide (a <> None) then mret false
  else a ← wait_while (n ← ieee488_NRFD; mret (negb n)) check_abort; mret (bool_decide (a = None)).

Definition talk_put (buf : Z) : comp ieee bool :=
  b ← on_pool (buf_get buf);
  let LastByte := position b =? lastused b in
  c ← on_machine (channel_byte buf (position b));
  lost ← lost_listener;
  if lost : bool then ieee488_BusIdle;; mret false
  else
    ieee488_SetEOI (negb (LastByte && sendeoi b));;
    (s ← get_bus; when (negb (ieee488_TE75160 s)) ieee488_DataTalk);;
    ieee488_SetData c;;
    lost ← lost_listener;
    if lost : bool then mret false else ieee488_SetDAV false;; mret true.

Definition talk_accept : comp ieee bool :=
  a ← wait_while ieee488_NRFD (
    lost ← lost_listener;
    if lost : bool then release_dav;; ieee488_BusIdle;; mret (Some RX_ATN)
    else ifc ← ieee488_CheckIFC; mret (if ifc : bool then Some RX_IFC else None));
  if bool_decide (a <> None) then mret false
  else a ← wait_while (n ← ieee488_NDAC; mret (negb n)) (atn_then release_dav); mret (bool_decide (a = None)).

Definition talk_byte (buf : Z) : comp ieee bool :=
  ifc ← ieee488_CheckIFC;
  if ifc : bool then mret false
  else
    ok ← talk_ready;
    if negb ok then mret false
    else ok ← talk_put buf; if negb ok then mret false else talk_accept.

(** The bytes of the buffer from [position] on. *)
Definition talk_buffer (buf : Z) : comp ieee bool :=
  loop 257 (fun _ =>
    ok ← talk_byte buf;
    if negb ok then mret (inr false)
    else
      b ← on_pool (buf_get buf);
      on_pool (buf_upd buf (set_position (u8 (position b + 1))));;
      mret (if position b <? lastused b then inl tt else inr true)) tt.

Definition ieee488_TalkLoop (sa : Z) : comp ieee unit :=
  buf ← on_pool (find_buffer sa);
  match buf with
  | None => ieee488_BusIdle
  | Some buf =>
      ieee488_CtrlPortsTalk;;
      loop bus_fuel (fun buf =>
        i ← of_option buf;
        b ← on_pool (buf_get i);
        if negb (buf_read b) then mret (inr tt)
        else
          ok ← talk_buffer i;
          if negb ok then mret (inr tt)
          else
            b ← on_pool (buf_get i);
            if sendeoi b && negb (sa =? 15) && (recordlen b =? 0) && negb (bool_decide (refill b = Some cb_directbuffer_refill)) then
              on_pool (buf_upd i (set_buf_read false));; release_dav;; mret (inr tt)
            else
              res ← refill_of i;
              if negb (res =? 0) then release_dav;; mret (inr tt)
              else buf' ← on_pool (find_buffer sa); mret (inl buf')) (Some buf)
  end.

(** ** Commands *)

Definition ieee488_Unlisten : comp ieee unit :=
  ieee488_BusIdle;;
  s ← get_bus;
  (if command_received s then on_machine (parse_doscommand stack_dent copy_fuel)
   else when (open_active s) (
     on_machine (on_cmds (modify (set_datacrc 65535)));;
     on_machine (on_world (file_open stack_dent (open_sa s)))));;
  modify (fun s => set_ieee488_ListenActive 0 (set_command_received false (set_open_active false s)));;
  on_machine (on_world (on_dos (modify (set_command_length 0)))).

Definition ieee488_Untalk : comp ieee unit := ieee488_BusIdle;; modify (set_ieee488_TalkingDevice 0).

Definition ieee488_ProcessIFC : comp ieee unit :=
  modify (set_ieee488_IFCreceived false);;
  on_machine (on_world (free_buffers FMB_USER_CLEAN));;
  ieee488_Init;;
  on_machine read_configuration;;
  on_machine (mset_error ERROR_DOSVERSION);;
  wait_while (i ← ieee488_IFC; mret (negb i)) (mret None);;
  mret tt.

(** Neither listener nor talker *)
Definition inactive (s : ieee) : bool := (ieee488_ListenActive s =? 0) && (ieee488_TalkingDevice s =? 0).

(** [ATN_received || ATN() || CheckIFC()] *)
Definition cycle_over : comp ieee bool :=
  atn ← ATN_received;
  if atn : bool then mret true
  else a ← ieee488_ATN; if a : bool then mret true else ieee488_CheckIFC.
Definition cycle_over_then (m : comp ieee unit) : comp ieee (option rx_t) :=
  over ← cycle_over; if over : bool then m;; mret (Some RX_ATN) else mret None.

(** CLOSE on a listening device *)
Definition close_channel (sa : Z) : comp ieee unit :=
  if sa =? 15 then on_machine (on_world (free_buffers FMB_USER_CLEAN));; modify (set_ieee488_TalkingDevice 0)
  else
    buf ← on_pool (find_buffer sa);
    match buf with
    | None => mret tt
    | Some i => on_machine (on_world (run_cleanup i));; on_pool (free_buffer (Some i))
    end.

(** A command byte; [true] when the handler has to return. *)
Definition ieee488_command (cmd : Z) : comp ieee bool :=
  let cmd3 := Z.land cmd 224 in
  let cmd4 := Z.land cmd 240 in
  let Device := Z.land cmd 31 in
  let sa := Z.land cmd 15 in
  s ← get_bus;
  if cmd =? IEEE_UNLISTEN then ieee488_Unlisten;; mret false
  else if cmd =? IEEE_UNTALK then ieee488_Untalk;; mret false
  else if cmd3 =? IEEE_LISTEN then
    when (Device =? device_address (ie_m s)) (
      modify (fun s => set_ieee488_ListenActive Device (set_ieee488_TalkingDevice 0 s)));; mret false
  else if cmd3 =? IEEE_TALK then
    when (Device =? device_address (ie_m s)) (
      modify (fun s => set_ieee488_TalkingDevice Device (set_ieee488_ListenActive 0 s)));; mret false
  else if cmd4 =? IEEE_SECONDARY then
    wait_while (a ← ieee488_ATN; mret (negb a)) (mret None);;
    s ← get_bus;
    (if negb (ieee488_ListenActive s =? 0) then ieee488_ListenLoop LL_RECEIVE sa
     else when (negb (ieee488_TalkingDevice s =? 0)) (ieee488_TalkLoop sa));;
    mret false
  else if cmd4 =? IEEE_CLOSE then
    when (negb (ieee488_ListenActive s =? 0)) (close_channel sa);; mret false
  else if cmd4 =? IEEE_OPEN then
    r ← wait_while (a ← ieee488_ATN; mret (negb a))
          (ifc ← ieee488_CheckIFC; mret (if ifc : bool then Some RX_IFC else None));
    if bool_decide (r <> None) then mret true
    else
      s ← get_bus;
      when (negb (ieee488_ListenActive s =? 0)) (
        modify (fun s => set_open_active true (set_open_sa sa s));; ieee488_ListenLoop LL_OPEN sa);;
      mret false
  else mret false.

(** One pass of the loop over the commands of an ATN cycle; [true] when the
    handler has to return. *)
Definition command_pass : comp ieee bool :=
  ieee488_SetNDAC false;;
  ieee488_SetNRFD true;;
  listen_data;;
  r ← wait_while ieee488_DAV (cycle_over_then (s ← get_bus; when (inactive s) ieee488_BusIdle));
  if bool_decide (r <> None) then mret true
  else
    ieee488_SetNRFD false;;
    cmd ← ieee488_Data;
    ieee488_SetNDAC true;;
    r ← wait_while (d ← ieee488_DAV; mret (negb d)) (cycle_over_then (mret tt));
    if bool_decide (r <> None) then mret true else ieee488_command cmd.

Definition handle_ieee488 : comp ieee unit :=
  s ← get_bus;
  ifc ← (if ieee488_IFCreceived s then mret true else ieee488_CheckIFC);
  when ifc ieee488_ProcessIFC;;
  atn ← ATN_received;
  if negb atn then mret tt
  else
    port_step;;
    modify (set_ieee488_ATN_received false);;
    loop bus_fuel (fun _ => over ← command_pass; mret (if over : bool then inr tt else inl tt)) tt.

Definition handle_card_changes : comp ieee unit :=
  when HAVE_HOTPLUG (
    s ← get_bus;
    let disk := disk_state (ie_m s) in
    when (negb (bool_decide (disk = DISK_OK))) (
      on_pool (modify (set_busy_led true));;
      if bool_decide (disk = DISK_CHANGED) || bool_decide (disk = DISK_REMOVED) then
        on_machine (on_world (free_buffers FMB_ALL;; filesystem_init false))
      else on_machine (on_world (filesystem_init true)))).

(** One round of the endless loop of [ieee_mainloop]. *)
Definition ieee_round : comp ieee unit :=
  for_range 0 255 (fun _ _ => handle_ieee488) tt;; handle_card_changes.
End ieee.
