(* ===== verification/BusHosts.v ===== *)
(** * Hosts on the IEEE-488 bus

    A controller that sends a script of command and data bytes with the
    three-wire handshake, and a listener that receives.  After every event
    that it waits for, a host lets a number of steps pass that a list of
    delays gives: the theorems hold for every list. *)

From S2P Require Import Prelude FatFs Dirent World Machine Config DosMemory Ieee.

(** ** The controller *)

(** A byte to send: with ATN pulled low or not, its value, with EOI. *)
Record item := Item { i_atn : bool; i_byte : Z; i_eoi : bool }.
Definition command_item (b : Z) : item := Item true b false.
Definition data_item (x : Z * bool) : item := Item false x.1 x.2.

(** [c_valid]: the first byte of the script is on the bus with DAV low;
    [c_pulled]: ATN is low. *)
Record controller := Controller {
  c_script : list item;
  c_valid : bool;
  c_pulled : bool;
  c_timer : nat;
  c_delays : list nat
}.

Definition default_delay : nat := 8.
Definition delay (h : controller) : nat := hd default_delay (c_delays h).
Definition with_timer (n : nat) (h : controller) : controller := Controller (c_script h) (c_valid h) (c_pulled h) n (c_delays h).
(** The next state, with the next delay. *)
Definition next_event (script : list item) (valid pulled : bool) (h : controller) : controller :=
  Controller script valid pulled (hd default_delay (tl (c_delays h))) (tl (c_delays h)).
(** Count down and then do [h']. *)
Definition after_delay (h h' : controller) : controller := match c_timer h with S n => with_timer n h | O => h' end.

Definition controller_move (l : lines) (h : controller) : controller :=
  if c_valid h then
    if l_ndac l then after_delay h (next_event (tl (c_script h)) false (c_pulled h) h) else with_timer (delay h) h
  else
    match c_script h with
    | [] => if c_pulled h then after_delay h (next_event [] false false h) else h
    | i :: _ =>
        if Bool.eqb (i_atn i) (c_pulled h) then
          if l_nrfd l && negb (l_ndac l) then after_delay h (next_event (c_script h) true (c_pulled h) h)
          else with_timer (delay h) h
        else after_delay h (next_event (c_script h) false (i_atn i) h)
    end.

Definition byte_on_bus (h : controller) : option item := if c_valid h then head (c_script h) else None.

Definition controller_step (l : lines) (h : controller) : inputs * controller :=
  let h' := controller_move l h in
  ({| in_atn := negb (c_pulled h');
      in_dav := negb (c_valid h');
      in_ndac := l_ndac l;
      in_nrfd := l_nrfd l;
      in_eoi := match byte_on_bus h' with Some i => negb (i_eoi i) | None => true end;
      in_ifc := true;
      in_data := match byte_on_bus h' with Some i => 255 - i_byte i | None => 255 end;
      atn_fell := negb (c_pulled h) && c_pulled h' |}, h').

Definition controller_host : BusHost := {| HOST := controller; bus_step := controller_step |}.

(** ** The listener *)

(** Ready for data; busy with a byte; the byte is taken; the byte is gone. *)
Inductive phase := L_READY | L_BUSY | L_TAKEN | L_CLEAR.

(** [n_received]: the bytes with their EOI. *)
Record listener_host := Listener {
  n_phase : phase;
  n_received : list (Z * bool);
  n_timer : nat;
  n_delays : list nat
}.

Definition n_wait (n : nat) (h : listener_host) : listener_host := Listener (n_phase h) (n_received h) n (n_delays h).
Definition n_delay (h : listener_host) : nat := hd default_delay (n_delays h).
Definition n_event (ph : phase) (received : list (Z * bool)) (h : listener_host) : listener_host :=
  Listener ph received (hd default_delay (tl (n_delays h))) (tl (n_delays h)).
Definition n_after (h h' : listener_host) : listener_host := match n_timer h with S n => n_wait n h | O => h' end.

(** What is on the data lines and on EOI. *)
Definition line_byte (l : lines) : Z * bool := (255 - l_data l, negb (l_eoi l)).

Definition listener_move (l : lines) (h : listener_host) : listener_host :=
  match n_phase h with
  | L_READY => if l_dav l then n_wait (n_delay h) h else n_after h (n_event L_BUSY (n_received h) h)
  | L_BUSY => n_after h (n_event L_TAKEN (n_received h ++ [line_byte l]) h)
  | L_TAKEN => if l_dav l then n_after h (n_event L_CLEAR (n_received h) h) else n_wait (n_delay h) h
  | L_CLEAR => n_after h (n_event L_READY (n_received h) h)
  end.

Definition listener_step (l : lines) (h : listener_host) : inputs * listener_host :=
  let h' := listener_move l h in
  ({| in_atn := true;
      in_dav := l_dav l;
      in_ndac := l_ndac l && match n_phase h' with L_TAKEN => true | _ => false end;
      in_nrfd := l_nrfd l && match n_phase h' with L_READY => true | _ => false end;
      in_eoi := l_eoi l;
      in_ifc := true;
      in_data := l_data l;
      atn_fell := false |}, h').

Definition listening_host : BusHost := {| HOST := listener_host; bus_step := listener_step |}.
