(* ===== verification/MachineFacts.v ===== *)
(** * Facts about the state of the program

    Storing several blocks into an array, running a part of the program inside
    the whole state, and reporting an error there; a machine for the witnesses. *)

From stdpp Require Import gmap.
From S2P Require Import Prelude EepromFs EepromFsTheorems Utils ErrorMsg ErrorMsgTheorems Buffers BuffersTheorems FatFs Dirent.
From S2P Require Import World D64Geom D64 D64Demo D64Files FatOps WrapOps Parser DemoWorld Machine Config DosMemory.

(** An array after several blocks have been stored into it. *)
Definition put_blocks (blocks : list (Z * list Z)) (e : list Z) : option (list Z) :=
  foldl (fun o b => e ← o; store_block e b.1 b.2) (Some e) blocks.

(** The first [n] bytes become [r], whatever they were. *)
Definition overwritten (n : nat) (blocks : list (Z * list Z)) (r : list Z) : Prop :=
  forall x, length x = n -> put_blocks blocks x = Some r.

Lemma store_block_app x rest i bs r : store_block x i bs = Some r -> store_block (x ++ rest) i bs = Some (r ++ rest).
Proof.
  unfold store_block. destruct (in_bounds x i (zlen bs)) eqn:E; [|done]. intros [= <-].
  apply in_bounds_spec in E as (? & ? & ?). pose proof (zlen_nonneg rest).
  assert (in_bounds (x ++ rest) i (zlen bs) = true) as -> by (apply in_bounds_spec; rewrite zlen_app; lia).
  f_equal. unfold splice, zlen in *. rewrite take_app_le, drop_app_le by lia. by rewrite <- !app_assoc.
Qed.

Lemma put_blocks_app blocks x rest r : put_blocks blocks x = Some r -> put_blocks blocks (x ++ rest) = Some (r ++ rest).
Proof.
  unfold put_blocks. revert x. induction blocks as [|b blocks IH]; intros x; simpl; [by intros [= ->]|].
  destruct (store_block x b.1 b.2) as [x'|] eqn:E; simpl.
  - intros Hr. rewrite (store_block_app _ _ _ _ _ E). simpl. by apply IH.
  - intros Hr. exfalso. clear -Hr. induction blocks as [|b' blocks IH]; [done|]. by apply IH.
Qed.

Lemma put_blocks_cons b blocks e : put_blocks (b :: blocks) e = (e1 ← store_block e b.1 b.2; put_blocks blocks e1).
Proof.
  unfold put_blocks. simpl. destruct (store_block e b.1 b.2); [done|]. simpl.
  induction blocks as [|x blocks IH]; [done|]. exact IH.
Qed.

(** One pass of a loop. *)
Lemma wp_loop_pass {S L R} fuel (body : L -> comp S (L + R)) l (Q : R -> S -> Prop) s :
  (0 < fuel)%nat ->
  wp (body l) (fun r s' => match r with inl l' => wp (loop (pred fuel) body l') Q s' | inr x => Q x s' end) s ->
  wp (loop fuel body l) Q s.
Proof. destruct fuel as [|fuel]; [lia|]. intros _ Hw. simpl. rewrite wp_bind. eapply wp_mono; [exact Hw|]. by intros [] s'. Qed.

(** A computation that only reads leaves the state as it is. *)
Definition reads {S A} (c : comp S A) : Prop := forall s a s', c s = Done a s' -> s' = s.

Lemma reads_gets {S A} (f : S -> A) : reads (gets f).
Proof. intros s a s' Heq. unfold gets in Heq. by simplify_eq. Qed.
Lemma reads_of_option {S A} (o : option A) : reads (S := S) (of_option o).
Proof. intros s a s'. destruct o; cbn; [|discriminate]. intros Heq. unfold mret, comp_ret in Heq. by simplify_eq. Qed.
Lemma reads_ret {S A} (a : A) : reads (S := S) (mret a).
Proof. intros s a' s' Heq. unfold mret, comp_ret in Heq. by simplify_eq. Qed.
Lemma reads_bind {S A B} (c : comp S A) (k : A -> comp S B) : reads c -> (forall a, reads (k a)) -> reads (c ≫= k).
Proof.
  intros Hc Hk s b s'. unfold mbind, comp_bind. destruct (c s) as [a s1| |] eqn:Hrun; [|discriminate..].
  rewrite (Hc _ _ _ Hrun). apply Hk.
Qed.
Lemma reads_zoom {S T A} (g : S -> T) (p : T -> S -> S) (c : comp T A) :
  (forall s, p (g s) s = s) -> reads c -> reads (zoom g p c).
Proof.
  intros Hp Hc s a s'. unfold zoom. destruct (c (g s)) as [a1 t| |] eqn:Hrun; [|discriminate..].
  rewrite (Hc _ _ _ Hrun), Hp. intros Heq. by simplify_eq.
Qed.
Lemma wp_reads {S A} (c : comp S A) (P : A -> S -> Prop) s : reads c -> wp c P s -> exists a, c s = Done a s /\ P a s.
Proof. intros Hc (a & s' & Hrun & HP)%wp_done. pose proof (Hc _ _ _ Hrun) as ->. eauto. Qed.

(** What an error report keeps of the channel. *)
Record same_settings (s s' : errs) : Prop := {
  ss_flags : globalflags s' = globalflags s;
  ss_ext : file_extension_mode s' = file_extension_mode s;
  ss_dirs : image_as_dir s' = image_as_dir s;
  ss_rom : rom_filename s' = rom_filename s;
  ss_drives : drive_config s' = drive_config s
}.

Section facts.
Context `{ErrorConfig} `{BufferConfig}.

Lemma bset_error_channel s e t sec s' :
  settings_ok (channel s) -> 0 <= e < 256 -> 0 <= t < 256 -> 0 <= sec < 256 ->
  bset_error_ts e t sec s = Done tt s' ->
  zlen (error_buffer (channel s')) = 100 /\ same_settings (channel s) (channel s').
Proof.
  intros Hs He Ht Hsec. destruct (set_error_ts_run _ e t sec Hs He Ht Hsec) as (body & Hl & Hrun).
  unfold bset_error_ts. unfold mbind at 1, comp_bind at 1, zoom. rewrite Hrun.
  unfold mbind at 1, comp_bind at 1, gets, id. set (s1 := put_channel _ s).
  intros Hd. assert (channel s' = channel s1) as ->.
  { revert Hd. unfold mbind at 1, comp_bind at 1, buf_upd. unfold mbind at 1, comp_bind at 1.
    unfold buf_get. unfold mbind at 1, comp_bind at 1, gets, id.
    destruct (_ : option buffer_t) as [bf|]; [|done]. cbn -[update_leds].
    unfold when, update_leds, modify, mret, comp_ret. destruct (negb _ && _); intros [= <-]; done. }
  subst s1. cbn [channel put_channel]. split; [|by split]. cbn [error_buffer ErrorMsg.set_channel].
  rewrite zlen_app, zlen_cons, zlen_fill; [lia|]. lia.
Qed.

Context `{FatFs} `{SystemConfig}.

Lemma wp_on_world {A} (c : comp world A) Q m : wp (on_world c) Q m = wp c (fun a w => Q a (set_m_world w m)) (m_world m).
Proof. apply wp_zoom. Qed.

Lemma wp_on_bufs {A} (c : comp bufs A) Q w : wp (on_bufs c) Q w = wp c (fun a b => Q a (set_w_bufs b w)) (w_bufs w).
Proof. apply wp_zoom. Qed.

Lemma wp_on_dos {A} (c : comp dos A) Q w : wp (on_dos c) Q w = wp c (fun a d => Q a (set_w_dos d w)) (w_dos w).
Proof. apply wp_zoom. Qed.

Lemma wp_on_eefs {A} (c : comp eefs A) Q w : wp (on_eefs c) Q w = wp c (fun a e => Q a (set_w_eefs e w)) (w_eefs w).
Proof. apply wp_zoom. Qed.

Lemma wp_mbufs {A} (c : comp bufs A) Q m :
  wp (mbufs c) Q m = wp c (fun a b => Q a (set_m_world (set_w_bufs b (m_world m)) m)) (w_bufs (m_world m)).
Proof. unfold mbufs. by rewrite wp_on_world, wp_on_bufs. Qed.

(** Reading the command does not change the state. *)
Lemma wp_mcmd_pure {A} (c : comp (list Z) A) Q m a :
  c (command_buffer (w_dos (m_world m))) = Done a (command_buffer (w_dos (m_world m))) -> Q a m -> wp (mcmd c) Q m.
Proof.
  intros Hc HQ. unfold mcmd, on_world, on_cmd, on_dos. rewrite !wp_zoom. eapply wp_intro; [exact Hc|]. cbv beta.
  destruct m as [w ?]. destruct w as [? ? ? ? ? ? ? d]. by destruct d.
Qed.

(** A computation that only reads ends in the state it started in. *)
Definition silent {S A} (c : comp S A) : Prop := forall s a s', c s = Done a s' -> s' = s.

Definition with_bufs (b : bufs) (m : machine) : machine := set_m_world (set_w_bufs b (m_world m)) m.
Definition mbufs_of (m : machine) : bufs := w_bufs (m_world m).

(** The pool keeps its invariant and the error buffer its size. *)
Definition pool_ok (b : bufs) : Prop := bufs_ok b /\ zlen (error_buffer (channel b)) = 100.

Lemma wp_mset_error e t sec Q m :
  bufs_ok (mbufs_of m) -> 0 <= e < 256 -> 0 <= t < 256 -> 0 <= sec < 256 ->
  (forall b, pool_ok b -> same_pool (mbufs_of m) b -> same_settings (channel (mbufs_of m)) (channel b) ->
     current_error (channel b) = e -> Q tt (with_bufs b m)) ->
  wp (mset_error_ts e t sec) Q m.
Proof.
  intros Hb He Ht Hsec HQ. unfold mset_error_ts, wset_error_ts. rewrite wp_on_world, wp_on_bufs.
  destruct (proj1 (wp_done _ _ _) (set_error_ok (mbufs_of m) e t sec Hb He Ht Hsec)) as ([] & b & Hrun & Hok & Hsame & Hcur).
  eapply wp_intro; [exact Hrun|]. cbv beta.
  destruct (bset_error_channel _ e t sec b (bo_settings _ Hb) He Ht Hsec Hrun) as [Hlen Hset].
  exact (HQ b (conj Hok Hlen) Hsame Hset Hcur).
Qed.

Lemma with_bufs_bufs b m : mbufs_of (with_bufs b m) = b.
Proof. done. Qed.

Lemma with_bufs_twice b b' m : with_bufs b (with_bufs b' m) = with_bufs b m.
Proof. done. Qed.
End facts.

(** ** A machine to apply the theorems to

    A board with a clock and no drive that answers, after start-up, with a
    command in its buffer. *)

#[local] Existing Instance demo_config.
#[local] Existing Instance six_buffers.

Definition clock_system : SystemConfig := {|
  HAVE_RTC := true;
  CONFIG_HAVE_EEPROMFS := true;
  CONFIG_HAVE_IEC := false;
  HAVE_HOTPLUG := false;
  CONFIG_MAX_PARTITIONS := 2;
  CONFIG_COMMAND_BUFFER_SIZE := 250;
  CONFIG_P00CACHE_ENTRIES := 4;
  MAX_DRIVES := 1
|}.

Definition demo_board : BoardConfig := {|
  HAVE_DUAL_INTERFACE := false;
  CONFIG_HW_ADDR_OR_BUTTONS := true;
  CONFIG_ONBOARD_DISPLAY := true;
  HAVE_SD := true;
  HAVE_ATA := true;
  CONFIG_TWINSD := false
|}.

(** No drive answers. *)
Definition no_drives : @DiskDrivers names_fatfs := {|
  drv_read _ _ _ d := (RES_ERROR, [], d);
  drv_write _ _ _ _ d := (RES_ERROR, d);
  drv_getinfo _ _ _ d := (RES_ERROR, [], d)
|}.

(** No fastloader is built in. *)
Definition no_loaders : @Fastloaders names_fatfs := {|
  CONFIG_LOADER _ := false;
  run_handler _ _ := mret tt;
  CONFIG_PARALLEL_DOLPHIN := false;
  load_dolphin := mret tt;
  save_dolphin := mret tt
|}.

Definition start_cmds : cmd_state := {|
  original_length := 0;
  datacrc := 65535;
  detected_loader := FL_NONE;
  previous_loader := FL_NONE;
  fast_rxtx := 0;
  capture_address := 0;
  capture_remain := 0;
  capture_offset := 0;
  capture_buffer := None
|}.

(** [cmd] has been received. *)
Definition with_command `{FatFs} (cmd : list Z) (d : dos) : dos :=
  set_command_length (zlen cmd) (set_command_buffer (cmd ++ fill (252 - zlen cmd) 0) d).

Definition demo_machine (cmd : list Z) : @machine names_fatfs := {|
  m_world := let w := @start_world names_fatfs [] Ram.no_file d64ops sample0 in set_w_dos (with_command cmd (w_dos w)) w;
  m_cmd := start_cmds;
  romfile := Ram.no_file;
  device_address := 8;
  hw_address _ := 8;
  active_bus := 0;
  menu_system_enabled := false;
  lcd_contrast := 32;
  lcd_brightness := 255;
  rtc_state := RTC_OK;
  disk_state := DISK_OK;
  was_reset := false
|}.

Lemma demo_machine_bufs cmd : @bufs_ok demo_config six_buffers (w_bufs (m_world (demo_machine cmd))).
Proof. apply demo_bufs_ok. repeat constructor. Qed.
