(* ===== verification/DosTimeTheorems.v ===== *)
(** * The theorems about the time commands

    The weekday of a date, against a calendar that counts the days, and the
    round trip of the time through T-R and T-W. *)

From stdpp Require Import gmap.
From S2P Require Import Prelude EepromFs ErrorMsg ErrorMsgTheorems Utils UtilsTheorems Buffers BuffersTheorems FatFs Dirent World.
From S2P Require Import D64Geom D64 D64Files D64Ops EefsOps FatNames FatFile Callbacks FatOps WrapOps Parser Machine Config.
From S2P Require Import DirLines FileOps DosFiles DosBlock DosMemory DosTime DosCmd MachineFacts EepromFsTheorems P00Cache D64Demo DemoWorld.

(** ** The calendar *)

Definition leap_year (y : Z) : bool := (y `mod` 4 =? 0) && (negb (y `mod` 100 =? 0) || (y `mod` 400 =? 0)).
Definition month_length (y m : Z) : Z :=
  if m =? 2 then (if leap_year y then 29 else 28)
  else if (m =? 4) || (m =? 6) || (m =? 9) || (m =? 11) then 30 else 31.
Definition next_day (t : Z * Z * Z) : Z * Z * Z :=
  let '(y, m, d) := t in
  if d <? month_length y m then (y, m, d + 1)
  else if m <? 12 then (y, m + 1, 1) else (y + 1, 1, 1).

(** The dates from the 1st of January 1980, a Tuesday, on, with their weekdays
    (0 is Sunday). *)
Inductive calendar : Z * Z * Z -> Z -> Prop :=
| first_day : calendar (1980, 1, 1) 2
| tomorrow t w : calendar t w -> calendar (next_day t) ((w + 1) `mod` 7).

(** What the code computes agrees with the calendar exactly while the sum of
    day and year that it keeps in eight bits stays below 8 * 256. *)
Definition sum_fits (t : Z * Z * Z) : bool := let '(y, m, d) := t in d + y - (if m <? 3 then 0 else 2) <? 2048.
Definition weekday_claim (t : Z * Z * Z) (w : Z) : bool :=
  let '(y, m, d) := t in Bool.eqb (day_of_week (y - 1900) m d =? w) (sum_fits t).

Fixpoint check_days (n : nat) (t : Z * Z * Z) (w : Z) : bool :=
  match n with
  | O => bool_decide (t = (2156, 1, 1))
  | S n => weekday_claim t w && check_days n (next_day t) ((w + 1) `mod` 7)
  end.

Definition day_count : nat := Z.to_nat 64283.

Lemma calendar_checked : check_days day_count (1980, 1, 1) 2 = true.
Proof. vm_compute. reflexivity. Qed.

Lemma next_year t : t.1.1 <= (next_day t).1.1.
Proof. destruct t as [[y m] d]. simpl. repeat case_match; simpl; lia. Qed.

Lemma later_year t k : t.1.1 <= (Nat.iter k next_day t).1.1.
Proof. induction k as [|k IH]; simpl; [lia|]. pose proof (next_year (Nat.iter k next_day t)). lia. Qed.

Lemma check_days_spec n t w : check_days n t w = true -> 0 <= w < 7 ->
  forall k, (Nat.iter k next_day t).1.1 < 2156 ->
    weekday_claim (Nat.iter k next_day t) ((w + Z.of_nat k) `mod` 7) = true.
Proof.
  revert t w. induction n as [|n IH]; intros t w Hc Hw k Hk.
  - apply bool_decide_eq_true in Hc as ->. pose proof (later_year (2156, 1, 1) k). simpl in *. lia.
  - simpl in Hc. apply andb_true_iff in Hc as [Hd Hc]. destruct k as [|k].
    + change (Nat.iter 0 next_day t) with t. rewrite Z.add_0_r, Z.mod_small by lia. done.
    + rewrite Nat.iter_succ_r in *. specialize (IH _ _ Hc (Z.mod_pos_bound (w + 1) 7 eq_refl) k Hk).
      rewrite Zplus_mod_idemp_l in IH. by replace (w + Z.of_nat (S k)) with (w + 1 + Z.of_nat k) by lia.
Qed.

Lemma calendar_iter t w : calendar t w ->
  exists k, t = Nat.iter k next_day (1980, 1, 1) /\ w = (2 + Z.of_nat k) `mod` 7.
Proof.
  induction 1 as [|t w _ (k & -> & ->)]; [by exists 0%nat|].
  exists (S k). split; [done|]. rewrite Nat2Z.inj_succ. unfold Z.succ. rewrite Z.add_assoc. apply Zplus_mod_idemp_l.
Qed.

(** C23: The weekday that T-W in the ISO format and the clock menu compute is
    the one of the Gregorian calendar exactly for the dates from 1980 to 2155
    whose sum of day and year (less 2 from March on) is below 2048. *)
Theorem day_of_week_calendar y m d w (Ht : calendar (y, m, d) w) (Hy : y < 2156) :
  day_of_week (y - 1900) m d = w <-> d + y - (if m <? 3 then 0 else 2) < 2048.
Proof.
  destruct (calendar_iter _ _ Ht) as (k & Heq & ->).
  pose proof (check_days_spec _ _ _ calendar_checked ltac:(lia) k) as Hk. rewrite <- Heq in Hk. specialize (Hk Hy).
  unfold weekday_claim, sum_fits in Hk. apply Bool.eqb_prop in Hk.
  rewrite <- Z.eqb_eq, Hk. apply Z.ltb_lt.
Qed.

(** ** The answer of T-R *)

(** The two digits of a number below 100. *)
Definition hi (v : Z) : Z := 48 + v / 10.
Definition lo (v : Z) : Z := 48 + v `mod` 10.

Lemma appendnumber_two msg v : 0 <= v < 100 -> appendnumber msg v = msg ++ [hi v; lo v].
Proof. intros Hv. unfold appendnumber. by replace (100 <=? v) with false by lia. Qed.

Lemma two_digits v : 0 <= v < 100 -> isdigit (hi v) = true /\ isdigit (lo v) = true /\ dec [hi v; lo v] = v.
Proof.
  intros Hv. unfold isdigit, hi, lo, dec. simpl. pose proof (Z.div_mod v 10 ltac:(lia)).
  pose proof (Z.mod_pos_bound v 10 ltac:(lia)). assert (0 <= v / 10 < 10) by (split; [apply Z.div_pos|apply Z.div_lt_upper_bound]; lia).
  split_and!; lia.
Qed.

Lemma ascii_blocks w0 w1 w2 w3 a a' b b' c c' d d' e e' f f' g :
  overwritten 27 [(4, asciitime_skel); (0, [w0; w1; w2; w3]); (5, [a; a']); (8, [b; b']); (11, [c; c']); (14, [d; d']);
    (17, [e; e']); (20, [f; f']); (23, [g])]
    [w0; w1; w2; w3; 32; a; a'; 47; b; b'; 47; c; c'; 32; d; d'; 58; e; e'; 58; f; f'; 32; g; 77; 13; 0].
Proof. intros x Hx. do 27 (destruct x as [|? x]; [done|]). destruct x; [|done]. by vm_compute. Qed.

Lemma binary_blocks a b c d e f g h : overwritten 9 [(0, [a; b; c; d; e; f; g; h; 13])] [a; b; c; d; e; f; g; h; 13].
Proof. intros x Hx. do 9 (destruct x as [|? x]; [done|]). destruct x; [|done]. by vm_compute. Qed.

Lemma iso_blocks y y' z z' a a' b b' d d' e e' f f' w0 w1 w2 :
  overwritten 24 [(0, [y; y'; z; z'; 45; a; a'; 45; b; b'; 84; d; d'; 58; e; e'; 58; f; f'; 32]); (20, [w0; w1; w2]); (23, [13])]
    [y; y'; z; z'; 45; a; a'; 45; b; b'; 84; d; d'; 58; e; e'; 58; f; f'; 32; w0; w1; w2; 13].
Proof. intros x Hx. do 24 (destruct x as [|? x]; [done|]). destruct x; [|done]. by vm_compute. Qed.

(** ** Times *)

(** A time that the clock can hold and the format [c] can tell. *)
Record time_ok (c : Z) (t : tm) : Prop := {
  ok_sec : 0 <= tm_sec t < 60;
  ok_min : 0 <= tm_min t < 60;
  ok_hour : 0 <= tm_hour t < 24;
  ok_mday : 1 <= tm_mday t <= 31;
  ok_mon : 0 <= tm_mon t < 12;
  ok_year : 80 <= tm_year t < (if (c =? 65) || (c =? 66) then 180 else 256);
  ok_wday : 0 <= tm_wday t < 7
}.

(** What comes back: the answer in the ISO format is read without its weekday,
    which is computed from the date. *)
Definition restored (c : Z) (t : tm) : tm :=
  if c =? 73 then
    {| tm_sec := tm_sec t; tm_min := tm_min t; tm_hour := tm_hour t; tm_mday := tm_mday t; tm_mon := tm_mon t;
       tm_year := tm_year t; tm_wday := day_of_week (tm_year t) (tm_mon t + 1) (tm_mday t) |}
  else t.

Lemma day_of_week_range y m d : 0 <= day_of_week y m d < 7.
Proof. unfold day_of_week. cbv zeta. repeat case_match; apply Z.mod_pos_bound; done. Qed.

Lemma restored_ok c t : time_ok c t -> time_ok c (restored c t).
Proof. intros Ht. unfold restored. destruct (c =? 73); [|done]. destruct Ht. split; try done. apply day_of_week_range. Qed.

Lemma hour_back h : 0 <= h < 24 -> 1 <= hour12 h <= 12 /\ hour24 (hour12 h) (12 <=? h) = h.
Proof.
  intros Hh. assert (h ∈ seqZ 0 24) as Hin by (apply elem_of_seqZ; lia). revert Hin.
  apply (proj1 (Forall_forall (fun h => 1 <= hour12 h <= 12 /\ hour24 (hour12 h) (12 <=? h) = h) (seqZ 0 24))).
  repeat (apply Forall_cons; split; [by vm_compute|]). apply Forall_nil_2.
Qed.

Lemma bcd_back v : 0 <= v < 100 -> bcd2int (int2bcd v) = v /\ 0 <= int2bcd v < 256.
Proof.
  intros Hv. assert (v ∈ seqZ 0 100) as Hin by (apply elem_of_seqZ; lia). revert Hin.
  apply (proj1 (Forall_forall (fun v => bcd2int (int2bcd v) = v /\ 0 <= int2bcd v < 256) (seqZ 0 100))).
  repeat (apply Forall_cons; split; [by vm_compute|]). apply Forall_nil_2.
Qed.

(** The years of two digits. *)
Definition century (y : Z) : Z := if y <? 80 then y + 100 else y.
Lemma century_back y : 80 <= y < 180 -> century (y `mod` 100) = y.
Proof.
  intros Hy. unfold century. pose proof (Z.mod_pos_bound y 100 ltac:(lia)). pose proof (Z.div_mod y 100 ltac:(lia)).
  destruct (Z.ltb_spec (y `mod` 100) 80); nia.
Qed.

Lemma downames_find w : 0 <= w < 7 -> exists d0 d1 d2 d3,
  load_block downames (4 * w) 4 = Some [d0; d1; d2; d3] /\ load_block downames (4 * w) 3 = Some [d0; d1; d2] /\
  find_downame [d0; d1] = Some w.
Proof.
  intros Hw. assert (w = 0 \/ w = 1 \/ w = 2 \/ w = 3 \/ w = 4 \/ w = 5 \/ w = 6) as Hc by lia.
  repeat destruct Hc as [->|Hc]; try subst w; do 4 eexists; by vm_compute.
Qed.

(** What T-W makes of the numbers of the answer. *)
Lemma adjust_time_eq t y :
  0 <= tm_mon t < 12 -> century y = tm_year t ->
  adjust_time {| tm_sec := tm_sec t; tm_min := tm_min t; tm_hour := tm_hour t; tm_mday := tm_mday t;
                 tm_mon := tm_mon t + 1; tm_year := y; tm_wday := tm_wday t |} = t.
Proof.
  intros Hm Hy. unfold adjust_time. cbn [tm_sec tm_min tm_hour tm_mday tm_mon tm_year tm_wday]. unfold century in Hy.
  rewrite Hy. replace (tm_mon t + 1 - 1) with (tm_mon t) by lia. rewrite u8_id by lia. by destruct t.
Qed.

Lemma time_ok_valid c t : time_ok c t -> invalid_time t = false.
Proof. intros []. unfold invalid_time. repeat (apply orb_false_iff; split); lia. Qed.

(** ** Reading the numbers back *)

Lemma parse_digits pre p ds c k rest :
  0 <= p <= zlen pre -> digits ds -> ds <> [] -> isdigit c = false -> drop (Z.to_nat p) pre = ds ++ c :: k ->
  parse_number p (pre ++ rest) = Done (u16 (dec ds), p + zlen ds) (pre ++ rest).
Proof.
  intros Hp Hds Hne Hc Hdrop.
  assert (pre ++ rest = take (Z.to_nat p) pre ++ [] ++ ds ++ c :: (k ++ rest)) as ->.
  { rewrite <- (take_drop (Z.to_nat p) pre) at 1. rewrite Hdrop, <- !app_assoc. done. }
  pose proof (parse_number_eq (take (Z.to_nat p) pre) [] ds c (k ++ rest) ltac:(constructor) Hds Hc ltac:(done)) as Hrun.
  cbv zeta in Hrun. rewrite zlen_take, Z.add_0_r in Hrun by lia. exact Hrun.
Qed.

Lemma number_two pre p v c k rest :
  0 <= p <= zlen pre -> 0 <= v < 100 -> isdigit c = false -> drop (Z.to_nat p) pre = hi v :: lo v :: c :: k ->
  parse_number p (pre ++ rest) = Done (v, p + 2) (pre ++ rest) /\
  number_and_skip p (pre ++ rest) = Done (v, p + 3) (pre ++ rest).
Proof.
  intros Hp Hv Hc Hdrop. destruct (two_digits v Hv) as (H1 & H2 & H3).
  assert (parse_number p (pre ++ rest) = Done (v, p + 2) (pre ++ rest)) as Hrun.
  { rewrite (parse_digits pre p [hi v; lo v] c k rest Hp); [|by repeat constructor|done|done|done].
    rewrite H3, u16_id by lia. done. }
  split; [done|]. unfold number_and_skip, mbind, comp_bind. rewrite Hrun. cbn. do 2 f_equal. lia.
Qed.

Lemma peek_pre pre p rest : 0 <= p < zlen pre -> peek p (pre ++ rest) = Done (nthZ pre p) (pre ++ rest).
Proof.
  intros Hp. pose proof (zlen_nonneg rest). unfold peek, mbind, comp_bind, gets, id.
  rewrite load_some by (rewrite zlen_app; lia). unfold of_option, mret, comp_ret. f_equal.
  unfold nthZ, zlen in *. apply app_nth1. lia.
Qed.

(** ** Parsing the answers *)

(** The command that sends an answer back. *)
Definition time_command (c : Z) (answer : list Z) : list Z := 84 :: 45 :: 87 :: c :: answer.

Definition ascii_answer (d : list Z) (t : tm) : list Z :=
  d ++ [32; hi (tm_mon t + 1); lo (tm_mon t + 1); 47; hi (tm_mday t); lo (tm_mday t); 47;
        hi (tm_year t `mod` 100); lo (tm_year t `mod` 100); 32; hi (hour12 (tm_hour t)); lo (hour12 (tm_hour t)); 58;
        hi (tm_min t); lo (tm_min t); 58; hi (tm_sec t); lo (tm_sec t); 32; if tm_hour t <? 12 then 65 else 80; 77; 13].
Definition iso_answer (d : list Z) (t : tm) : list Z :=
  [hi (19 + tm_year t / 100); lo (19 + tm_year t / 100); hi (tm_year t `mod` 100); lo (tm_year t `mod` 100); 45;
   hi (tm_mon t + 1); lo (tm_mon t + 1); 45; hi (tm_mday t); lo (tm_mday t); 84; hi (tm_hour t); lo (tm_hour t); 58;
   hi (tm_min t); lo (tm_min t); 58; hi (tm_sec t); lo (tm_sec t); 32] ++ d ++ [13].

(** The time as the command names it, before [adjust_time]. *)
Definition told (t : tm) (y : Z) : tm :=
  {| tm_sec := tm_sec t; tm_min := tm_min t; tm_hour := tm_hour t; tm_mday := tm_mday t; tm_mon := tm_mon t + 1;
     tm_year := y; tm_wday := tm_wday t |}.

Ltac run_bind H := unfold mbind at 1, comp_bind at 1; rewrite H; cbv beta iota.

Lemma ascii_parsed t d0 d1 d2 d3 rest :
  time_ok 65 t -> find_downame [d0; d1] = Some (tm_wday t) ->
  let m := time_command 65 (ascii_answer [d0; d1; d2; d3] t) ++ rest in
  timewrite_ascii m = Done (Some (told t (tm_year t `mod` 100))) m.
Proof.
  intros [] Hd m. destruct (hour_back (tm_hour t) ok_hour0) as [Hh Hback].
  pose proof (Z.mod_pos_bound (tm_year t) 100 eq_refl). unfold m. set (pre := time_command _ _).
  assert (zlen pre = 30) as Hlen by done. unfold timewrite_ascii. unfold mbind at 1, comp_bind at 1, gets, id.
  assert (load_block (pre ++ rest) 4 2 = Some [d0; d1]) as ->.
  { rewrite load_block_some; [done|..]; [lia..|]. pose proof (zlen_nonneg rest). rewrite zlen_app. lia. }
  unfold mbind at 1, comp_bind at 1, of_option at 1, mret at 1, comp_ret at 1. rewrite Hd.
  edestruct (number_two pre 9 (tm_mon t + 1) 47) as [_ Hmon]; [lia|lia|done|reflexivity|]. run_bind Hmon.
  edestruct (number_two pre 12 (tm_mday t) 47) as [_ Hday]; [lia|lia|done|reflexivity|]. run_bind Hday.
  edestruct (number_two pre 15 (tm_year t `mod` 100) 32) as [_ Hyear]; [lia|lia|done|reflexivity|]. run_bind Hyear.
  edestruct (number_two pre 18 (hour12 (tm_hour t)) 58) as [_ Hhour]; [lia|lia|done|reflexivity|]. run_bind Hhour.
  edestruct (number_two pre 21 (tm_min t) 58) as [_ Hmin]; [lia|lia|done|reflexivity|]. run_bind Hmin.
  edestruct (number_two pre 24 (tm_sec t) 32) as [Hsec _]; [lia|lia|done|reflexivity|]. run_bind Hsec.
  assert (peek 28 (pre ++ rest) = Done 77 (pre ++ rest)) as H28 by (apply peek_pre; lia). run_bind H28.
  assert (peek 27 (pre ++ rest) = Done (if tm_hour t <? 12 then 65 else 80) (pre ++ rest)) as H27 by (apply peek_pre; lia).
  change (77 =? 77) with true. cbv iota. run_bind H27. unfold mret, comp_ret. do 2 f_equal. unfold told.
  cbn [fst snd]. rewrite !u8_id by lia.
  assert (hour24 (hour12 (tm_hour t)) ((if tm_hour t <? 12 then 65 else 80) =? 80) = tm_hour t) as Hx.
  { rewrite <- Hback at 3. f_equal. by destruct (Z.ltb_spec (tm_hour t) 12), (Z.leb_spec 12 (tm_hour t)); try lia. }
  by rewrite Hx.
Qed.

Lemma u16_digits a b : 0 <= a < 100 -> 0 <= b < 100 ->
  digits [hi a; lo a; hi b; lo b] /\ u16 (dec [hi a; lo a; hi b; lo b]) = 100 * a + b.
Proof.
  intros Ha Hb. destruct (two_digits a Ha) as (Ha1 & Ha2 & Ha3), (two_digits b Hb) as (Hb1 & Hb2 & Hb3).
  split; [by repeat constructor|]. unfold dec in *. cbn [fold_left] in *. rewrite u16_id; lia.
Qed.

Lemma iso_parsed t d0 d1 d2 rest :
  time_ok 73 t -> let m := time_command 73 (iso_answer [d0; d1; d2] t) ++ rest in
  timewrite_iso m = Done (told (restored 73 t) (tm_year t)) m.
Proof.
  intros [] m. change ((73 =? 65) || (73 =? 66)) with false in ok_year0. cbv iota in ok_year0.
  pose proof (Z.mod_pos_bound (tm_year t) 100 eq_refl). pose proof (Z.div_mod (tm_year t) 100 ltac:(lia)).
  unfold m. set (pre := time_command _ _). assert (zlen pre = 28) as Hlen by done. unfold timewrite_iso.
  destruct (u16_digits (19 + tm_year t / 100) (tm_year t `mod` 100)) as [Hdig Hval]; [lia|lia|].
  assert (number_and_skip 4 (pre ++ rest) = Done (1900 + tm_year t, 9) (pre ++ rest)) as Hyear.
  { unfold number_and_skip. unfold mbind at 1, comp_bind at 1.
    rewrite (parse_digits pre 4 _ 45 _ rest ltac:(lia) Hdig ltac:(done) eq_refl eq_refl), Hval. cbn [fst snd].
    unfold mret, comp_ret. do 2 f_equal. lia. }
  run_bind Hyear.
  edestruct (number_two pre 9 (tm_mon t + 1) 45) as [_ Hmon]; [lia|lia|done|reflexivity|]. run_bind Hmon.
  edestruct (number_two pre 12 (tm_mday t) 84) as [_ Hday]; [lia|lia|done|reflexivity|]. run_bind Hday.
  edestruct (number_two pre 15 (tm_hour t) 58) as [_ Hhour]; [lia|lia|done|reflexivity|]. run_bind Hhour.
  edestruct (number_two pre 18 (tm_min t) 58) as [_ Hmin]; [lia|lia|done|reflexivity|]. run_bind Hmin.
  edestruct (number_two pre 21 (tm_sec t) 32) as [Hsec _]; [lia|lia|done|reflexivity|]. run_bind Hsec.
  unfold mret, comp_ret. cbn [fst snd]. rewrite Z.add_simpl_l, !u8_id by lia. done.
Qed.

Definition binary_answer (conv : Z -> Z) (y : Z) (t : tm) : list Z :=
  [tm_wday t; conv y; conv (tm_mon t + 1); conv (tm_mday t); conv (hour12 (tm_hour t)); conv (tm_min t); conv (tm_sec t);
   Z.b2z (12 <=? tm_hour t); 13].

Lemma binary_told conv back c t y :
  time_ok c t -> (forall v, 0 <= v < 100 \/ v = y -> back (conv v) = v) ->
  timewrite_binary back (take 8 (binary_answer conv y t)) = told t y.
Proof.
  intros [] Hback. destruct (hour_back (tm_hour t) ok_hour0) as [Hh Hb]. unfold timewrite_binary, told, binary_answer, nthZ.
  simpl. rewrite !Hback by lia.
  replace (negb (Z.b2z (12 <=? tm_hour t) =? 0)) with (12 <=? tm_hour t) by (by destruct (12 <=? tm_hour t)). by rewrite Hb.
Qed.

(** The answer of T-R in the format [c]. *)
Inductive answers (t : tm) : Z -> list Z -> Prop :=
| answers_ascii d0 d1 d2 d3 : find_downame [d0; d1] = Some (tm_wday t) -> answers t 65 (ascii_answer [d0; d1; d2; d3] t)
| answers_bcd : answers t 66 (binary_answer int2bcd (tm_year t `mod` 100) t)
| answers_decimal : answers t 68 (binary_answer id (tm_year t) t)
| answers_iso d0 d1 d2 : answers t 73 (iso_answer [d0; d1; d2] t).

Section machine.
Context `{FatFs} `{EepromGeom} `{Assertions} `{ErrorConfig} `{BufferConfig} `{SystemConfig} `{BoardConfig}.

Definition the_command (m : machine) : list Z := command_buffer (w_dos (m_world m)).
Definition set_time (t : tm) (m : machine) : machine := set_m_world (set_clock t (m_world m)) m.

Lemma cmd_bytes_run (m : machine) pre rest i n Q :
  the_command m = pre ++ rest -> 0 <= i -> 0 <= n -> i + n <= zlen pre -> Q (slice i n pre) m ->
  wp (on_world (cmd_bytes i n)) Q m.
Proof.
  intros Hc Hi Hn Hle HQ. rewrite wp_on_world. unfold cmd_bytes. eapply wp_intro.
  { unfold mbind, comp_bind, gets. change (command_buffer (w_dos (m_world m))) with (the_command m). rewrite Hc, load_block_some; [reflexivity|lia|lia|].
    pose proof (zlen_nonneg rest). rewrite zlen_app. lia. }
  cbv beta. replace (slice i n (pre ++ rest)) with (slice i n pre); [by destruct m|].
  unfold slice, zlen in *. rewrite drop_app_le, take_app_le; [done|rewrite length_drop; lia|lia].
Qed.
Lemma timewrite_parse_ok c t ans rest m Q :
  time_ok c t -> answers t c ans -> the_command m = time_command c ans ++ rest ->
  zlen ans + 3 <= command_length (w_dos (m_world m)) ->
  (forall y, century y = tm_year (restored c t) -> Q (Some (told (restored c t) y)) m) -> wp (timewrite_parse c) Q m.
Proof.
  intros Ht Ha Hm Hlen HQ. unfold timewrite_parse. rewrite wp_bind, wp_gets. cbv beta.
  assert (forall n, n <= zlen ans + 3 -> command_length (w_dos (m_world m)) <? n = false) as Hn by (intros; lia).
  assert (century (tm_year t) = tm_year t) as Hy.
  { destruct Ht. unfold century. replace (tm_year t <? 80) with false; [done|]. symmetry. apply Z.ltb_ge. lia. }
  destruct Ha as [d0 d1 d2 d3 Hd| | |d0 d1 d2].
  - change (65 =? 65) with true. cbv iota. rewrite Hn by done. rewrite wp_bind.
    eapply wp_mcmd_pure; [change (command_buffer _) with (the_command m); rewrite Hm; by apply ascii_parsed|].
    cbv beta iota. rewrite wp_ret. apply HQ, century_back. by destruct Ht.
  - change (66 =? 65) with false. change (66 =? 66) with true. cbv iota. rewrite Hn by done. rewrite wp_bind.
    eapply cmd_bytes_run; [exact Hm|lia|lia|done|]. rewrite wp_ret.
    change (slice 4 8 _) with (take 8 (binary_answer int2bcd (tm_year t `mod` 100) t)).
    pose proof (Z.mod_pos_bound (tm_year t) 100 eq_refl).
    rewrite (binary_told int2bcd bcd2int 66 t) by (done || (intros v Hv; apply bcd_back; lia)).
    apply HQ, century_back. by destruct Ht.
  - change (68 =? 65) with false. change (68 =? 66) with false. change (68 =? 68) with true. cbv iota. rewrite Hn by done.
    rewrite wp_bind. eapply cmd_bytes_run; [exact Hm|lia|lia|done|]. rewrite wp_ret.
    change (slice 4 8 _) with (take 8 (binary_answer id (tm_year t) t)).
    rewrite (binary_told id id 68 t) by done. by apply HQ.
  - change (73 =? 65) with false. change (73 =? 66) with false. change (73 =? 68) with false. change (73 =? 73) with true.
    cbv iota. rewrite Hn by done. rewrite wp_bind.
    eapply wp_mcmd_pure; [change (command_buffer _) with (the_command m); rewrite Hm; by apply iso_parsed|].
    cbv beta iota. rewrite wp_ret. by apply HQ.
Qed.

Lemma timewrite_sets c t ans rest m Q :
  time_ok c t -> answers t c ans -> the_command m = time_command c ans ++ rest ->
  zlen ans + 3 <= command_length (w_dos (m_world m)) ->
  Q tt (set_time (restored c t) m) -> wp parse_timewrite Q m.
Proof.
  intros Ht Ha Hm Hlen HQ. unfold parse_timewrite. rewrite wp_bind.
  eapply wp_mcmd_pure; [change (command_buffer _) with (the_command m); rewrite Hm; apply peek_pre; zlen_simpl; unfold time_command; rewrite !zlen_cons; pose proof (zlen_nonneg ans); lia|].
  cbv beta. change (nthZ _ 3) with c. rewrite wp_bind. eapply timewrite_parse_ok; [done..|].
  intros y Hy. cbv beta iota zeta. unfold told. pose proof (restored_ok c t Ht) as Ht'. rewrite adjust_time_eq by (done || by destruct Ht').
  rewrite (time_ok_valid c _ Ht'). unfold set_rtc. rewrite wp_on_world, wp_modify. exact HQ.
Qed.

(** ** Running T-R *)

Definition channel_answer (m : machine) : option (list Z) :=
  b ← buffers (mbufs_of m) !! Z.to_nat CONFIG_BUFFER_COUNT;
  Some (slice 0 (lastused b + 1) (error_buffer (channel (mbufs_of m)))).

Lemma timeread_format_ok c t : c ∈ [65; 66; 68; 73] -> time_ok c t ->
  exists n blocks len r ans, timeread_format c t = Some (Some (n, blocks)) /\ overwritten len blocks r /\
    0 <= n < zlen r /\ Z.of_nat len <= 100 /\ slice 0 (n + 1) r = ans /\ answers t c ans.
Proof.
  intros Hc Ht. pose proof Ht as Ht'. destruct Ht. destruct (hour_back (tm_hour t) ok_hour0) as [Hh _].
  destruct (downames_find (tm_wday t) ok_wday0) as (d0 & d1 & d2 & d3 & Hd4 & Hd3 & Hfind).
  pose proof (Z.mod_pos_bound (tm_year t) 100 eq_refl).
  assert (0 <= 19 + tm_year t / 100 < 100) as Hcent.
  { assert (tm_year t < 256) by (destruct ((c =? 65) || (c =? 66)); lia).
    assert (0 <= tm_year t / 100 < 3) by (split; [apply Z.div_pos|apply Z.div_lt_upper_bound]; lia). lia. }
  assert (u8 (tm_mon t + 1) = tm_mon t + 1) as Hmon by (apply u8_id; lia).
  repeat setoid_rewrite elem_of_cons in Hc. destruct Hc as [->|[->|[->|[->|[]%elem_of_nil]]]].
  - exists 25. eexists _, 27%nat, _, _. split.
    { cbn. unfold timeread_ascii. rewrite Hd4, Hmon. cbn -[asciitime_skel appendnumber hour12 hi lo Z.add Z.modulo].
      rewrite !appendnumber_two by lia. reflexivity. }
    split; [apply ascii_blocks|]. split; [vm_compute; by split|]. split; [lia|]. split; [reflexivity|]. by apply answers_ascii.
  - exists 8. eexists _, 9%nat, _, _. split; [cbn; unfold timeread_bcd; by rewrite Hmon|].
    split; [apply binary_blocks|]. split; [vm_compute; by split|]. split; [lia|]. split; [reflexivity|]. apply answers_bcd.
  - exists 8. eexists _, 9%nat, _, _. split; [cbn; unfold timeread_decimal; by rewrite Hmon|].
    split; [apply binary_blocks|]. split; [vm_compute; by split|]. split; [lia|]. split; [reflexivity|]. apply answers_decimal.
  - exists 23. eexists _, 24%nat, _, _. split.
    { cbn. unfold timeread_iso. rewrite Hd3, Hmon. cbn -[appendnumber hi lo Z.add Z.modulo Z.div].
      rewrite !appendnumber_two by lia. reflexivity. }
    split; [apply iso_blocks|]. split; [vm_compute; by split|]. split; [lia|]. split; [reflexivity|]. apply answers_iso.
Qed.

Definition put_answer (e : list Z) (b : bufs) : bufs := put_channel (set_error_buffer e (channel b)) b.

Lemma put_answer_twice e e' b : put_answer e (put_answer e' b) = put_answer e b.
Proof. done. Qed.

Lemma err_blocks_from blocks pre w e :
  put_blocks blocks (error_buffer (channel (w_bufs w))) = Some e ->
  for_range (zlen pre) (length blocks) (fun i (_ : unit) =>
    match (pre ++ blocks) !! Z.to_nat i with Some (p, bs) => err_put p bs | None => mret tt end) tt w
  = Done tt (set_w_bufs (put_answer e (w_bufs w)) w).
Proof.
  revert pre w. induction blocks as [|[p bs] blocks IH]; intros pre w He.
  { injection He as <-. simpl. unfold mret, comp_ret. f_equal. destruct w as [b]. unfold put_answer.
    destruct b as [? ? ? ? ? c]. by destruct c. }
  rewrite put_blocks_cons in He. cbn [fst snd] in He. destruct (store_block (error_buffer (channel (w_bufs w))) p bs) as [e1|] eqn:E; [|done]. simpl in He. simpl length. simpl for_range.
  unfold mbind at 1, comp_bind at 1. assert (Z.to_nat (zlen pre) = length pre) as -> by apply Nat2Z.id. rewrite list_lookup_middle by done.
  unfold err_put. unfold mbind at 1, comp_bind at 1, settings, gets. unfold mbind at 1, comp_bind at 1. rewrite E.
  unfold of_option, mret, comp_ret. change ((p, bs) :: blocks) with ([(p, bs)] ++ blocks). rewrite app_assoc.
  replace (zlen pre + 1) with (zlen (pre ++ [(p, bs)])) by (rewrite zlen_app; done).
  unfold on_bufs, zoom, modify. cbn beta iota. exact (IH (pre ++ [(p, bs)]) (set_w_bufs (put_answer e1 (w_bufs w)) w) He).
Qed.

Lemma timeread_answers c t rest m Q :
  c ∈ [65; 66; 68; 73] -> time_ok c t -> clock (m_world m) = t -> rtc_state m = RTC_OK ->
  pool_ok (mbufs_of m) -> the_command m = [84; 45; 82; c] ++ rest ->
  (forall m' ans, answers t c ans -> channel_answer m' = Some ans -> Q tt m') -> wp parse_timeread Q m.
Proof.
  intros Hc Ht Hclock Hrtc [Hb Hlen] Hm HQ. unfold parse_timeread. rewrite wp_bind, wp_gets. cbv beta. unfold id. rewrite Hrtc.
  rewrite bool_decide_true by done. simpl negb. cbv iota. unfold read_rtc. rewrite wp_bind, wp_gets, wp_bind. cbv beta.
  eapply wp_mcmd_pure; [change (command_buffer _) with (the_command m); rewrite Hm; apply peek_pre; done|]. cbv beta.
  change (nthZ _ 3) with c. rewrite Hclock.
  destruct (timeread_format_ok c t Hc Ht) as (n & blocks & len & r & ans & -> & Hover & Hn & Hl & Hans & Ha).
  rewrite wp_bind. simpl of_option. rewrite wp_ret, wp_bind, wp_mbufs. cbn [fst snd].
  destruct (bo_err _ Hb) as (b & Hbuf & _). pose proof (bo_count _ Hb) as Hcount.
  eapply wp_intro; [apply (buf_upd_run ERRORBUFFER_IDX _ b); [unfold ERRORBUFFER_IDX; lia|exact Hbuf]|]. cbv beta.
  rewrite wp_on_world. set (e0 := error_buffer (channel (mbufs_of m))) in *.
  assert (length (take len e0) = len) as Htake by (rewrite length_take; unfold zlen in Hlen; lia).
  eapply wp_intro; [apply (err_blocks_from blocks []) with (e := r ++ drop len e0)|].
  - cbn [w_bufs set_w_bufs m_world set_m_world channel set_buffers]. fold (mbufs_of m). fold e0.
    rewrite <- (take_drop len e0) at 1. apply put_blocks_app, Hover, Htake.
  - cbv beta. apply (HQ _ ans Ha). unfold channel_answer. cbn. fold (mbufs_of m).
    rewrite list_lookup_insert_eq by (apply lookup_lt_is_Some; by eexists). simpl. f_equal. rewrite <- Hans.
    unfold slice. change (Z.to_nat 0) with 0%nat. rewrite !drop_0. apply take_app_le. unfold zlen in Hn. lia.
Qed.
End machine.

(** ** The round trip *)
Section roundtrip.
Context `{FatFs} `{EepromGeom} `{Assertions} `{ErrorConfig} `{BufferConfig} `{SystemConfig} `{BoardConfig}.
Context `{!DiskDrivers} `{!Fastloaders}.
Context (stack_dent : cbmdirent_t) (copy_fuel : nat).

(** The command in the buffer of the program, with anything behind it. *)
Definition command_is (cmd : list Z) (m : machine) : Prop :=
  command_length (w_dos (m_world m)) = zlen cmd /\ exists rest, the_command m = cmd ++ rest.

Lemma doscommand_time tail m Q :
  HAVE_RTC = true -> bufs_ok (mbufs_of m) -> command_is (84 :: 45 :: tail) m ->
  2 + zlen tail < CONFIG_COMMAND_BUFFER_SIZE ->
  (forall m', clock (m_world m') = clock (m_world m) -> rtc_state m' = rtc_state m -> the_command m' = the_command m ->
     pool_ok (mbufs_of m') -> current_error (channel (mbufs_of m')) = ERROR_OK ->
     1 + zlen tail <= command_length (w_dos (m_world m')) -> wp parse_timecmd Q m') ->
  wp (parse_doscommand stack_dent copy_fuel) Q m.
Proof.
  intros Hrtc Hb [Hlen (rest & Hcmd)] Hsize HQ. unfold parse_doscommand. rewrite wp_bind.
  pose proof (zlen_nonneg tail). rewrite !zlen_cons in Hlen.
  apply wp_mset_error; [done|unfold ERROR_OK; lia..|]. intros b Hpool _ _ Herr. set (m1 := with_bufs b m).
  unfold get_dos. rewrite wp_bind, wp_gets. cbv beta. change (w_dos (m_world m1)) with (w_dos (m_world m)).
  replace (command_length (w_dos (m_world m)) =? CONFIG_COMMAND_BUFFER_SIZE) with false by lia.
  unfold strip_cr, get_dos. rewrite !wp_bind, wp_gets. cbv beta zeta. change (w_dos (m_world m1)) with (w_dos (m_world m)).
  rewrite wp_bind. unfold on_cmds. rewrite wp_zoom, wp_modify. set (m2 := set_m_cmd _ m1).
  assert (forall p, 0 <= p < 2 + zlen tail -> forall m', the_command m' = the_command m ->
    forall R : Z -> machine -> Prop, R (nthZ (84 :: 45 :: tail) p) m' -> wp (mcmd (peek p)) R m') as Hpeek.
  { intros p Hp m' Hm' R HR. eapply wp_mcmd_pure; [|exact HR]. change (command_buffer _) with (the_command m').
    rewrite Hm', Hcmd. apply peek_pre. rewrite !zlen_cons. lia. }
  rewrite Hlen. replace (0 <? 1 + (1 + zlen tail)) with true by lia. cbv beta. simpl when. rewrite wp_bind.
  apply Hpeek; [lia|done|]. set (last := nthZ _ _).
  eapply (wp_mono _ (fun _ m' => clock (m_world m') = clock (m_world m) /\ rtc_state m' = rtc_state m /\
    the_command m' = the_command m /\ mbufs_of m' = b /\ 1 + zlen tail <= command_length (w_dos (m_world m')))).
  { destruct (last =? 13); simpl when.
    - unfold on_world, on_dos. rewrite !wp_zoom, wp_modify. cbn. split_and!; [done..|lia].
    - rewrite wp_ret. split_and!; [done..|]. change (w_dos (m_world m2)) with (w_dos (m_world m)). lia. }
  intros u m3 (Hc3 & Hr3 & Hm3 & Hb3 & Hl3). clear u. rewrite wp_bind, wp_gets. cbv beta.
  replace (command_length (w_dos (m_world m3)) =? 0) with false by lia.
  rewrite wp_bind. apply Hpeek; [lia|done|]. rewrite wp_bind. apply Hpeek; [lia|done|].
  change (nthZ (84 :: 45 :: tail) 0) with 84. change (nthZ (84 :: 45 :: tail) 1) with 45.
  change (negb (84 =? 88) && (45 =? 68)) with false. cbv iota. unfold dispatch. rewrite Hrtc.
  change (wp parse_timecmd Q m3). apply HQ; [done..| | |done]; by rewrite Hb3.
Qed.

Lemma timecmd_letter m letter c tail rest Q :
  rtc_state m = RTC_OK -> the_command m = (84 :: 45 :: letter :: c :: tail) ++ rest ->
  wp (if letter =? 82 then parse_timeread else if letter =? 87 then parse_timewrite else mset_error ERROR_SYNTAX_UNKNOWN) Q m ->
  wp parse_timecmd Q m.
Proof.
  intros Hrtc Hcmd Hw. unfold parse_timecmd. rewrite wp_bind, wp_gets. cbv beta. unfold id. rewrite Hrtc, bool_decide_false by done.
  rewrite wp_bind. eapply wp_mcmd_pure; [|exact Hw]. change (command_buffer _) with (the_command m). rewrite Hcmd.
  rewrite peek_pre; [done|]. pose proof (zlen_nonneg tail). rewrite !zlen_cons. lia.
Qed.

(** C18: What T-R answers in any of its four formats, sent back by T-W in the
    same format, sets the clock to the time that was read; in the ISO format
    the weekday is not read back but computed from the date by [day_of_week]
    ([restored]; right as far as [day_of_week_calendar] says). Both commands
    run through the command parser without an error. The years are 1980 to
    2079 in the formats with two digits and 1980 to 2155 in the others. The
    pool has at most 15 buffers ([bufs_ok]). *)
Theorem time_read_write c t m
  (Hrtc : HAVE_RTC = true) (Hsize : 40 < CONFIG_COMMAND_BUFFER_SIZE) (Hc : c ∈ [65; 66; 68; 73]) (Ht : time_ok c t)
  (Hb : bufs_ok (mbufs_of m)) (Hstate : rtc_state m = RTC_OK) (Hclock : clock (m_world m) = t)
  (Hcmd : command_is [84; 45; 82; c] m) :
  wp (parse_doscommand stack_dent copy_fuel) (fun _ m1 => exists answer, channel_answer m1 = Some answer /\
    forall m2, bufs_ok (mbufs_of m2) -> rtc_state m2 = RTC_OK -> command_is ([84; 45; 87; c] ++ answer) m2 ->
      wp (parse_doscommand stack_dent copy_fuel)
         (fun _ m3 => clock (m_world m3) = restored c t /\ current_error (channel (mbufs_of m3)) = ERROR_OK) m2) m.
Proof.
  pose proof Hcmd as [_ (rest & Hm)].
  apply (doscommand_time [82; c]); [done..|change (zlen [82; c]) with 2; lia|].
  intros m' Hc' Hr' Hm' Hp' _ _. eapply timecmd_letter; [congruence|by rewrite Hm'|].
  change (82 =? 82) with true. cbv iota. eapply (timeread_answers c t rest); [done..|congruence|congruence|done|congruence|].
  intros m1 ans Ha Hans. exists ans. split; [done|]. clear m Hb Hstate Hclock Hcmd rest Hm m' Hc' Hr' Hm' Hp' m1 Hans.
  intros m Hb Hstate Hcmd. pose proof Hcmd as [_ (rest & Hm)]. assert (zlen ans <= 30) as Hl by (by destruct Ha).
  pose proof (zlen_nonneg ans).
  apply (doscommand_time (87 :: c :: ans)); [done..|rewrite !zlen_cons; lia|].
  intros m' _ Hr' Hm' _ He' Hl'. eapply timecmd_letter; [congruence|rewrite Hm'; exact Hm|].
  change (87 =? 82) with false. change (87 =? 87) with true. cbv iota.
  eapply (timewrite_sets c t ans rest); [done..|by rewrite Hm'|rewrite !zlen_cons in Hl'; lia|]. done.
Qed.
End roundtrip.

(** ** Witnesses *)

Lemma day_of_week_calendar_witness :
  calendar (1980, 3, 1) 6 /\ (day_of_week (1980 - 1900) 3 1 = 6 <-> 1 + 1980 - (if 3 <? 3 then 0 else 2) < 2048).
Proof.
  assert (calendar (1980, 3, 1) 6) as Hc.
  { assert (forall n t w, calendar t w -> calendar (Nat.iter n next_day t) (Nat.iter n (fun w => (w + 1) `mod` 7) w)) as Hn.
    { intros n t w Ht. induction n as [|n IH]; [done|]. by apply tomorrow. }
    exact (Hn 60%nat _ _ first_day). }
  split; [exact Hc|]. exact (day_of_week_calendar 1980 3 1 6 Hc eq_refl).
Defined.

#[local] Existing Instance sample_asserts.
#[local] Existing Instance avr_geom.
#[local] Existing Instance demo_config.
#[local] Existing Instance six_buffers.

(** The 23rd of January 2024, a Tuesday, ten seconds before one in the afternoon. *)
Definition winter_day : tm :=
  {| tm_sec := 50; tm_min := 59; tm_hour := 12; tm_mday := 23; tm_mon := 0; tm_year := 124; tm_wday := 2 |}.

Lemma time_read_write_witness :
  let parse := @parse_doscommand names_fatfs _ _ _ _ clock_system demo_board no_drives no_loaders zero_dent 1 in
  wp parse (fun _ m1 => exists answer, channel_answer m1 = Some answer /\ answer = iso_answer [84; 85; 69] winter_day /\
    wp parse (fun _ m3 => clock (m_world m3) = winter_day) (demo_machine ([84; 45; 87; 73] ++ answer)))
    (set_time winter_day (demo_machine [84; 45; 82; 73])).
Proof.
  intros parse. set (m := set_time _ _).
  assert (time_ok 73 winter_day) as Hok by (by split; vm_compute; try lia; try (intros; done)).
  pose proof (time_read_write (H4 := clock_system) (H5 := demo_board) (H6 := no_drives) (H7 := no_loaders) zero_dent 1 73 winter_day m eq_refl eq_refl ltac:(set_solver) Hok
    (demo_machine_bufs _) eq_refl eq_refl (conj eq_refl (ex_intro _ _ eq_refl))) as Hw.
  destruct (proj1 (wp_done _ _ _) Hw) as ([] & m1 & Hrun & answer & Hans & Hback).
  eapply wp_intro; [exact Hrun|]. exists answer. split; [exact Hans|].
  assert (match parse m with Done _ m1 => channel_answer m1 = Some (iso_answer [84; 85; 69] winter_day) | _ => False end)
    as Hval by (vm_compute; reflexivity).
  unfold parse in Hval. rewrite Hrun in Hval. rewrite Hans in Hval. injection Hval as ->. split; [reflexivity|].
  eapply wp_mono; [apply Hback|].
  - apply demo_machine_bufs.
  - reflexivity.
  - split; [reflexivity|]. eexists. reflexivity.
  - intros u m3 [Hc _]. exact Hc.
Defined.
