(* ===== verification/ClockTheorems.v ===== *)
(** * The clocks: theorems

    Setting and reading the chips DS1307, DS3231 and PCF8583, the choice
    between them, the clock of the LPC17xx, which goes on while it is read,
    and the clock in software. *)

From stdpp Require Import functions.
From S2P Require Import Prelude FatFs Utils Dirent Machine SoftI2c Clocks DosTimeTheorems.

(** ** Numbers in BCD *)

Definition two_digit (v : Z) : Prop := 0 <= v < 100.

Lemma bcd_masked mask v limit : 0 <= v < limit -> limit <= 100 ->
  forallb (fun v => Z.land (int2bcd v) mask =? int2bcd v) (seqZ 0 limit) = true -> bcd2int (Z.land (int2bcd v) mask) = v.
Proof.
  intros Hv Hl Hc. rewrite forallb_forall in Hc.
  assert (Z.land (int2bcd v) mask = int2bcd v) as ->.
  { apply Z.eqb_eq, Hc, list_elem_of_In, elem_of_seqZ. lia. }
  apply bcd_back. lia.
Qed.

(** A time whose fields are in their ranges. *)
Record tm_ok (t : tm) : Prop := {
  ok_sec : 0 <= tm_sec t < 60;
  ok_min : 0 <= tm_min t < 60;
  ok_hour : 0 <= tm_hour t < 24;
  ok_mday : 1 <= tm_mday t <= 31;
  ok_mon : 0 <= tm_mon t < 12;
  ok_year : 0 <= tm_year t < 256;
  ok_wday : 0 <= tm_wday t < 7
}.

Lemma tm_eq t t' : tm_sec t = tm_sec t' -> tm_min t = tm_min t' -> tm_hour t = tm_hour t' -> tm_mday t = tm_mday t' ->
  tm_mon t = tm_mon t' -> tm_year t = tm_year t' -> tm_wday t = tm_wday t' -> t = t'.
Proof. destruct t, t'. simpl. by intros -> -> -> -> -> -> ->. Qed.

Lemma bcd_byte v : 0 <= v < 100 -> is_byte (int2bcd v).
Proof. intros Hv. by apply bcd_back. Qed.

(** ** DS1307 and DS3231 *)

Lemma dsrtc_registers_bytes t : tm_ok t -> Forall is_byte (dsrtc_registers t).
Proof.
  intros []. pose proof (Z.mod_pos_bound (tm_year t) 100 eq_refl). unfold dsrtc_registers. rewrite !u8_id by lia.
  repeat (apply Forall_cons; split; [first [apply bcd_byte; lia|apply u8_is_byte]|]). apply Forall_nil_2.
Qed.

(** From the seven registers back to the time: the years from 2000 to 2099. *)
Lemma dsrtc_time_registers t : tm_ok t -> 100 <= tm_year t < 200 -> dsrtc_time (dsrtc_registers t) = t.
Proof.
  intros [] Hy. pose proof (Z.mod_pos_bound (tm_year t) 100 eq_refl). pose proof (Z.div_mod (tm_year t) 100 ltac:(lia)).
  assert (int2bcd (u8 (tm_mon t + 1)) = int2bcd (tm_mon t + 1)) as Hm by (by rewrite u8_id by lia).
  assert (Z.land (int2bcd (tm_mon t + 1)) 128 = 0) as Hc.
  { apply Z.eqb_eq. assert (tm_mon t + 1 ∈ seqZ 1 12) as Hin by (apply elem_of_seqZ; lia). revert Hin.
    apply (proj1 (Forall_forall (fun v => (Z.land (int2bcd v) 128 =? 0) = true) (seqZ 1 12))).
    repeat (apply Forall_cons; split; [done|]). apply Forall_nil_2. }
  apply tm_eq; unfold dsrtc_time, dsrtc_registers, nthZ; simpl; rewrite ?Hm;
    replace (2100 <=? tm_year t) with false by lia; simpl; rewrite ?Z.lor_0_r;
    rewrite ?(u8_id (int2bcd _)) by (apply bcd_byte; lia).
  - apply (bcd_masked 127 _ 60); [lia|lia|by vm_compute].
  - apply bcd_back. lia.
  - apply bcd_back. lia.
  - apply bcd_back. lia.
  - rewrite (bcd_masked 127 _ 13) by (lia || by vm_compute). rewrite u8_id by lia. lia.
  - rewrite Hc. simpl. rewrite (proj1 (bcd_back (tm_year t `mod` 100) ltac:(lia))). rewrite u8_id by lia. lia.
  - rewrite (u8_id (tm_wday t + 1)) by lia. rewrite (proj1 (bcd_back (tm_wday t + 1) ltac:(lia))), u8_id; lia.
Qed.

(** ** Registers after a write *)

Lemma map_regs_ext (f g : Z -> Z) start n : (forall r, start <= r < start + n -> f r = g r) -> map f (seqZ start n) = map g (seqZ start n).
Proof. intros Hfg. apply map_ext_in. intros r Hr. apply Hfg. apply list_elem_of_In, elem_of_seqZ in Hr. lia. Qed.

Lemma map_registers_length (f : Z -> Z) start n : 0 <= n -> zlen (map f (seqZ start n)) = n.
Proof. intros Hn. unfold zlen. rewrite length_map, length_seqZ. lia. Qed.

Section ds.
Context `{I2C} `{LpcRtc} `{RtcConfig} {writable : Z -> bool} `{!RegisterChip RTC_ADDR 19 writable}.
Hypothesis Hclock : forall r, 0 <= r < 7 -> writable r = true.

Definition bus_registers (c : clocks) : Z -> Z := registers (i2c_bus c).
Definition bus_ready (c : clocks) : Prop := ready (i2c_bus c).

(** [f] changes nothing but what is on the I2C bus. *)
Lemma wp_put reg val Q (c : clocks) : bus_ready c -> 0 <= reg < 19 -> is_byte val ->
  (forall b, ready b -> registers b = write_regs writable reg [val] (bus_registers c) -> Q 0 (set_i2c_bus b c)) ->
  wp (on_i2c (i2c_write_register RTC_ADDR reg val)) Q c.
Proof. intros Hb Hr Hv HQ. unfold on_i2c. rewrite wp_zoom. by apply wp_i2c_write_register. Qed.

Lemma wp_get reg Q (c : clocks) : bus_ready c -> 0 <= reg < 19 ->
  (forall b, ready b -> registers b = bus_registers c -> Q (bus_registers c reg) (set_i2c_bus b c)) ->
  wp (on_i2c (i2c_read_register RTC_ADDR reg)) Q c.
Proof. intros Hb Hr HQ. unfold on_i2c. rewrite wp_zoom. by apply wp_i2c_read_register. Qed.

(** The chip has been set to [t]. *)
Definition ds_holds (t : tm) (c : clocks) : Prop :=
  bus_ready c /\ clk_state c = RTC_OK /\ map (bus_registers c) (seqZ 0 7) = dsrtc_registers t.

Lemma wp_dsrtc_set t Q (c : clocks) : tm_ok t -> clk_state c <> RTC_NOT_FOUND -> bus_ready c ->
  (forall c', ds_holds t c' -> current_rtc c' = current_rtc c -> Q tt c') -> wp (dsrtc_set t) Q c.
Proof.
  intros Ht Hst Hb HQ. unfold dsrtc_set. rewrite wp_bind, wp_gets. rewrite bool_decide_false by done.
  rewrite wp_bind. unfold on_i2c at 1. rewrite wp_zoom.
  apply wp_i2c_write_registers; [done|unfold REG_SECOND; lia|done|unfold REG_SECOND; lia|by apply dsrtc_registers_bytes|].
  intros b Hrb Hb1. rewrite wp_bind, wp_gets. cbv beta. rewrite wp_bind.
  pose proof (write_regs_same writable (dsrtc_registers t) 0 (registers (i2c_bus c)) Hclock) as Hsame.
  change (zlen (dsrtc_registers t)) with 7 in Hsame. unfold REG_SECOND in Hb1. rewrite <- Hb1 in Hsame.
  case_bool_decide; wp_simpl.
  - apply wp_put; [done|unfold REG_CONTROL_07; lia|done|]. intros b2 Hr2 Hb2. wp_simpl.
    apply HQ; [|done]. split; [done|]. split; [done|]. change (bus_registers _) with (registers b2). rewrite Hb2, <- Hsame.
    apply map_regs_ext. intros r Hr. apply write_regs_other. unfold REG_CONTROL_07. lia.
  - apply wp_put; [done|unfold REG_CONTROL_31; lia|done|]. intros b2 Hr2 Hb2. wp_simpl.
    apply wp_put; [done|unfold REG_CTLSTATUS; lia|done|]. intros b3 Hr3 Hb3. wp_simpl.
    apply HQ; [|done]. split; [done|]. split; [done|]. change (bus_registers _) with (registers b3). rewrite Hb3, <- Hsame.
    change (bus_registers (set_i2c_bus b2 _)) with (registers b2). rewrite Hb2.
    apply map_regs_ext. intros r Hr. rewrite !write_regs_other by (unfold REG_CTLSTATUS, REG_CONTROL_31; simpl; lia). done.
Qed.

Lemma wp_dsrtc_read t Q (c : clocks) : tm_ok t -> 100 <= tm_year t < 200 -> ds_holds t c ->
  (forall c', ds_holds t c' -> current_rtc c' = current_rtc c -> Q t c') -> wp dsrtc_read Q c.
Proof.
  intros Ht Hy (Hb & Hst & Hregs) HQ. unfold dsrtc_read. rewrite wp_bind, wp_gets. rewrite bool_decide_true by done. simpl negb. cbv iota.
  rewrite wp_bind. unfold on_i2c. rewrite wp_zoom.
  apply wp_i2c_read_registers; [done|unfold REG_SECOND; lia|lia|unfold REG_SECOND; lia|done|].
  intros b Hrb Hb1. rewrite wp_ret. unfold REG_SECOND. cbv beta zeta. cbv [fst snd]. change (negb (0 =? 0)) with false. cbv iota.
  rewrite splice_all by done.
  change (map _ _) with (map (bus_registers c) (seqZ 0 7)). rewrite Hregs, dsrtc_time_registers by done. apply HQ; [|done]. split; [done|]. split; [done|].
  change (bus_registers _) with (registers b). by rewrite Hb1.
Qed.

(** The kind of the chip: the last register of the DS3231 cannot be written. *)
Definition ds_kind (regs : Z -> Z) : dsrtc_kind := if writable REG_TEMP_LSB || (regs REG_TEMP_LSB =? 85) then RTC_1307 else RTC_3231.
Definition ds_stopped (regs : Z -> Z) : bool :=
  negb (Z.land (regs (if bool_decide (ds_kind regs = RTC_1307) then REG_SECOND else REG_CTLSTATUS)) STATUS_OSF =? 0).

Lemma wp_dsrtc_init Q (c : clocks) : bus_ready c ->
  (forall c', bus_ready c' -> bus_registers c' = write_regs writable REG_TEMP_LSB [85] (bus_registers c) ->
     current_rtc c' = current_rtc c -> dsrtc_type c' = ds_kind (bus_registers c) ->
     clk_state c' = (if ds_stopped (bus_registers c) then RTC_INVALID else RTC_OK) -> Q tt c') ->
  wp dsrtc_init Q c.
Proof.
  intros Hb HQ. unfold dsrtc_init. wp_simpl. apply wp_get; [done|lia|]. intros b Hrb Hb1.
  assert (is_byte (bus_registers (set_clk_state RTC_NOT_FOUND c) 0)) as Hz by by apply registers_bytes.
  unfold is_byte in Hz. replace (_ <? 0) with false by lia. wp_simpl.
  apply wp_put; [done|unfold REG_TEMP_LSB; lia|done|]. intros b2 Hrb2 Hb2. wp_simpl.
  apply wp_get; [done|unfold REG_TEMP_LSB; lia|]. intros b3 Hrb3 Hb3.
  change (bus_registers (set_i2c_bus b2 _)) with (registers b2) in *. change (bus_registers (set_i2c_bus b _)) with (registers b) in *.
  change (bus_registers (set_clk_state _ c)) with (bus_registers c) in *. rewrite Hb2, Hb1 in *.
  assert ((write_regs writable REG_TEMP_LSB [85] (bus_registers c) REG_TEMP_LSB =? 85) = (writable REG_TEMP_LSB || (bus_registers c REG_TEMP_LSB =? 85))) as Hk.
  { simpl. destruct (writable REG_TEMP_LSB); [by rewrite fn_lookup_insert|done]. }
  assert (forall r, r < REG_TEMP_LSB -> write_regs writable REG_TEMP_LSB [85] (bus_registers c) r = bus_registers c r) as Hr.
  { intros r Hr. apply write_regs_other. by left. }
  rewrite Hk. unfold ds_stopped, ds_kind in HQ. destruct (writable REG_TEMP_LSB || (bus_registers c REG_TEMP_LSB =? 85)); wp_simpl;
    (apply wp_get; [done|unfold REG_SECOND, REG_CTLSTATUS; lia|]); intros b4 Hrb4 Hb4; wp_simpl;
    change (bus_registers (set_dsrtc_type _ _)) with (registers b3) in *; rewrite Hb3 in *; rewrite Hr by done; apply HQ; try done.
Qed.
End ds.

(** ** PCF8583 *)

Lemma range_check2 (f : Z -> Z -> bool) a n b k x y :
  forallb (fun x => forallb (f x) (seqZ b k)) (seqZ a n) = true -> a <= x < a + n -> b <= y < b + k -> f x y = true.
Proof.
  intros Hf Hx Hy. rewrite forallb_forall in Hf. specialize (Hf x). rewrite forallb_forall in Hf.
  apply Hf; apply list_elem_of_In, elem_of_seqZ; lia.
Qed.

(** The registers 2 to 6 for a time. *)
Definition pcf_fields (t : tm) : list Z :=
  [int2bcd (tm_sec t); int2bcd (tm_min t); int2bcd (tm_hour t);
   u8 (Z.lor (int2bcd (tm_mday t)) (Z.shiftl (Z.land (tm_year t) 3) 6));
   u8 (Z.lor (int2bcd (u8 (tm_mon t + 1))) (Z.shiftl (tm_wday t) 5))].
(** The registers 16 to 19 for a year. *)
Definition pcf_year (year : Z) : list Z := union_bytes year ++ union_bytes (Z.lxor year 65535).

Lemma land_3 x : Z.land x 3 = x `mod` 4.
Proof. change 3 with (Z.ones 2). by rewrite Z.land_ones by lia. Qed.

Lemma pcf_day v y : 1 <= v <= 31 -> 0 <= y < 4 ->
  let b := u8 (Z.lor (int2bcd v) (Z.shiftl y 6)) in bcd2int (Z.land b 63) = v /\ Z.shiftr b 6 = y.
Proof.
  intros Hv Hy. pose proof (range_check2 (fun v y => let b := u8 (Z.lor (int2bcd v) (Z.shiftl y 6)) in
    (bcd2int (Z.land b 63) =? v) && (Z.shiftr b 6 =? y)) 1 31 0 4 v y ltac:(by vm_compute) ltac:(lia) Hy) as Hc.
  simpl in Hc. apply andb_true_iff in Hc as [H1 H2]. split; by apply Z.eqb_eq.
Qed.

Lemma pcf_month v w : 0 <= v < 12 -> 0 <= w < 7 ->
  let b := u8 (Z.lor (int2bcd (u8 (v + 1))) (Z.shiftl w 5)) in u8 (bcd2int (Z.land b 31) - 1) = v /\ bcd2int (Z.shiftr b 5) = w.
Proof.
  intros Hv Hw. pose proof (range_check2 (fun v w => let b := u8 (Z.lor (int2bcd (u8 (v + 1))) (Z.shiftl w 5)) in
    (u8 (bcd2int (Z.land b 31) - 1) =? v) && (bcd2int (Z.shiftr b 5) =? w)) 0 12 0 7 v w ltac:(by vm_compute) ltac:(lia) ltac:(lia)) as Hc.
  simpl in Hc. apply andb_true_iff in Hc as [H1 H2]. split; by apply Z.eqb_eq.
Qed.

Lemma pcf_fields_bytes t : tm_ok t -> Forall is_byte (pcf_fields t).
Proof.
  intros []. unfold pcf_fields.
  repeat (apply Forall_cons; split; [first [apply bcd_byte; lia|apply u8_is_byte]|]). apply Forall_nil_2.
Qed.

Lemma pcf_time_fields t : tm_ok t ->
  set_tm_year (tm_year t) (pcf_time (pcf_fields t)) = t /\ Z.shiftr (nthZ (pcf_fields t) 3) 6 = tm_year t `mod` 4.
Proof.
  intros []. destruct (pcf_day (tm_mday t) (Z.land (tm_year t) 3)) as [Hd Hy]; [lia|rewrite land_3; by apply Z.mod_pos_bound|].
  destruct (pcf_month (tm_mon t) (tm_wday t)) as [Hm Hw]; [lia|lia|].
  split; [|rewrite <- land_3; exact Hy].
  apply tm_eq; try done; apply bcd_back; lia.
Qed.

Lemma word_pcf_year y rest : 0 <= y < 65536 -> word (pcf_year y ++ rest) 0 = y.
Proof. intros Hy. unfold word, pcf_year, union_bytes, nthZ. simpl. pose proof (Z.div_mod y 256 ltac:(lia)). lia. Qed.

Lemma pcf_year_bytes y : 0 <= y < 65536 -> Forall is_byte (pcf_year y).
Proof.
  intros Hy. unfold pcf_year.
  assert (forall x, 0 <= x < 65536 -> Forall is_byte (union_bytes x)) as Hx.
  { intros x Hx. unfold union_bytes, is_byte. Z.div_mod_to_equations. repeat constructor; lia. }
  apply Forall_app. split; [by apply Hx|]. apply Hx. split; [apply Z.lxor_nonneg; lia|].
  destruct (Z.eq_dec (Z.lxor y 65535) 0) as [->|]; [lia|].
  apply (Z.log2_lt_pow2 _ 16); [pose proof (proj2 (Z.lxor_nonneg y 65535) ltac:(lia)); lia|].
  pose proof (Z.log2_lxor y 65535 ltac:(lia) ltac:(lia)) as Hl. change (Z.log2 65535) with 15 in Hl.
  pose proof (Z.log2_le_mono y 65535 ltac:(lia)) as Hm. change (Z.log2 65535) with 15 in Hm. lia.
Qed.

Section pcf.
Context `{I2C} `{LpcRtc} `{RtcConfig} {size : Z} {writable : Z -> bool} `{!RegisterChip PCF8583_ADDR size writable}.
Hypothesis Hsize : 20 <= size.
Hypothesis Hall : forall r, 0 <= r < 20 -> writable r = true.

(** The chip shows [t]; the year that the driver has stored in its memory is
    [stored]. *)
Definition pcf_holds (t : tm) (stored : Z) (c : clocks) : Prop :=
  ready (i2c_bus c) /\ clk_state c = RTC_OK /\ map (registers (i2c_bus c)) (seqZ 2 5) = pcf_fields t /\
  map (registers (i2c_bus c)) (seqZ 16 4) = pcf_year stored.

Lemma wp_pcf8583_set t Q (c : clocks) : tm_ok t -> clk_state c <> RTC_NOT_FOUND -> ready (i2c_bus c) ->
  (forall c', pcf_holds t (tm_year t + 1900) c' -> current_rtc c' = current_rtc c -> Q tt c') -> wp (pcf8583_set t) Q c.
Proof.
  intros Ht Hst Hb HQ. destruct (Ht). unfold pcf8583_set. wp_simpl. rewrite bool_decide_false by done. unfold on_i2c. wp_simpl.
  assert (u16 (Z.lxor (tm_year t + 1900) 65535) = Z.lxor (tm_year t + 1900) 65535 /\ u16 (tm_year t + 1900) = tm_year t + 1900) as [-> ->].
  { split; [|apply u16_id; lia]. pose proof (pcf_year_bytes (tm_year t + 1900) ltac:(lia)) as Hy. unfold pcf_year, union_bytes in Hy.
    repeat (apply Forall_cons in Hy as [? Hy]). unfold is_byte in *. apply u16_id. Z.div_mod_to_equations. lia. }
  apply wp_i2c_write_register; [done|unfold REG_CONTROL; lia|done|]. intros b1 Hr1 Hb1. wp_simpl.
  apply wp_i2c_write_registers; [done|unfold REG_SECONDS; lia|done|unfold REG_SECONDS; lia|by apply pcf_fields_bytes|]. intros b2 Hr2 Hb2. wp_simpl.
  apply wp_i2c_write_registers; [done|unfold REG_YEAR1; lia|done|unfold REG_YEAR1; lia|by apply pcf_year_bytes; lia|]. intros b3 Hr3 Hb3. wp_simpl.
  apply wp_i2c_write_register; [done|unfold REG_CONTROL; lia|done|]. intros b4 Hr4 Hb4. wp_simpl.
  apply HQ; [|done]. split; [done|]. split; [done|].
  change (registers (i2c_bus _)) with (registers b4). rewrite Hb4. change (registers (i2c_bus (set_i2c_bus b3 _))) with (registers b3).
  split.
  - rewrite <- (write_regs_same writable (pcf_fields t) 2 (registers b1)) by (intros r Hr; apply Hall; change (zlen _) with 5 in Hr; lia).
    change (zlen (pcf_fields t)) with 5. apply map_regs_ext. intros r Hr. rewrite write_regs_other by (unfold REG_CONTROL; simpl; unfold zlen; simpl; lia).
    rewrite Hb3. rewrite write_regs_other by (unfold REG_YEAR1; lia). change (registers (i2c_bus (set_i2c_bus b2 _))) with (registers b2). by rewrite Hb2.
  - rewrite <- (write_regs_same writable (pcf_year (tm_year t + 1900)) 16 (registers b2)) by (intros r Hr; apply Hall; change (zlen _) with 4 in Hr; lia).
    change (zlen (pcf_year _)) with 4. apply map_regs_ext. intros r Hr. rewrite write_regs_other by (unfold REG_CONTROL; simpl; unfold zlen; simpl; lia).
    by rewrite Hb3.
Qed.

(** The year catches up by at most three. *)
Lemma catch_up_run n : forall k (c : clocks) stored y, (k < n)%nat -> Z.of_nat k < 4 -> stored + Z.of_nat k = y -> 0 <= stored -> y < 65536 ->
  loop n (fun x => mret (if Z.land x 3 =? y `mod` 4 then inr x else inl (u16 (x + 1)))) stored c = Done y c.
Proof.
  induction n as [|n IH]; intros k c stored y Hk Hk4 Hy Hs Hlt; [lia|]. cbn [loop]. unfold mbind, comp_bind, mret at 1, comp_ret at 1.
  rewrite land_3. destruct (Z.eqb_spec (stored `mod` 4) (y `mod` 4)) as [He|Hne].
  - assert (k = 0%nat) as -> by (Z.div_mod_to_equations; lia). by replace stored with y by lia.
  - destruct k as [|k]; [exfalso; apply Hne; f_equal; lia|]. rewrite u16_id by lia. apply (IH k); lia.
Qed.

Lemma wp_pcf8583_read t stored Q (c : clocks) : tm_ok t -> pcf_holds t stored c -> stored <= tm_year t + 1900 < stored + 4 ->
  (forall c', pcf_holds t (tm_year t + 1900) c' -> current_rtc c' = current_rtc c -> Q t c') -> wp pcf8583_read Q c.
Proof.
  intros Ht (Hb & Hst & Hf & Hy) Hroll HQ. destruct (Ht). destruct (pcf_time_fields t Ht) as [Htime Hlow].
  unfold pcf8583_read. wp_simpl. rewrite bool_decide_true by done. change (negb true) with false. cbv iota. unfold on_i2c. wp_simpl.
  apply wp_i2c_read_registers; [done|unfold REG_SECONDS; lia|lia|unfold REG_SECONDS; lia|done|]. intros b1 Hr1 Hb1. cbv [fst snd].
  change (negb (0 =? 0)) with false. cbv iota. rewrite splice_all by done. unfold REG_SECONDS. rewrite Hf, Hlow. wp_simpl.
  apply wp_i2c_read_registers; [done|unfold REG_YEAR1; lia|lia|unfold REG_YEAR1; lia|done|]. intros b2 Hr2 Hb2. cbv [fst snd].
  change (i2c_bus (set_i2c_bus b1 c)) with b1 in *. unfold REG_YEAR1. rewrite Hb1, Hy.
  set (tmp := splice 0 (pcf_year stored) _). assert (word tmp 0 = stored) as ->.
  { unfold tmp, splice. simpl take. rewrite app_nil_l. apply word_pcf_year. lia. }
  assert (tm_year t `mod` 4 = (tm_year t + 1900) `mod` 4) as Hmod by (Z.div_mod_to_equations; lia).
  rewrite land_3, Hmod. destruct (Z.eqb_spec (stored `mod` 4) ((tm_year t + 1900) `mod` 4)) as [He|Hne]; wp_simpl.
  - assert (stored = tm_year t + 1900) as -> by (Z.div_mod_to_equations; lia).
    replace (u8 _) with (tm_year t) by (rewrite u8_id; lia). rewrite Htime. apply HQ; [|done].
    split; [done|]. split; [done|]. change (registers (i2c_bus _)) with (registers b2). by rewrite Hb2, Hb1.
  - unfold catch_up. eapply wp_intro; [apply (catch_up_run 4 (Z.to_nat (tm_year t + 1900 - stored))); lia|]. cbv beta. wp_simpl.
    apply wp_i2c_write_registers; [done|lia|done|lia|by apply pcf_year_bytes; lia|]. intros b3 Hr3 Hb3. wp_simpl.
    replace (u8 _) with (tm_year t) by (rewrite u8_id; lia). rewrite Htime. apply HQ; [|done].
    split; [done|]. split; [done|]. change (registers (i2c_bus _)) with (registers b3). rewrite Hb3.
    change (i2c_bus (set_i2c_bus b2 _)) with b2. rewrite Hb2, Hb1. split.
    + rewrite <- Hf. apply map_regs_ext. intros r Hr. apply write_regs_other. lia.
    + apply (write_regs_same writable (pcf_year (tm_year t + 1900)) 16). intros r Hr. apply Hall. change (zlen _) with 4 in Hr. lia.
Qed.
End pcf.

(** ** rtc.c *)

Section mux.
Context `{I2C} `{LpcRtc} `{RtcConfig}.

Section with_ds.
Context {writable : Z -> bool} `{!RegisterChip RTC_ADDR 19 writable}.

(** [rtc_init] finds the chip, whatever it holds. *)
Lemma wp_rtc_init_ds Q (c : clocks) : CONFIG_RTC_DSRTC = true -> bus_ready c ->
  (forall c', bus_ready c' -> clk_state c' <> RTC_NOT_FOUND -> (NEED_RTCMUX = true -> current_rtc c' = RTC_DSRTC) -> Q tt c') ->
  wp rtc_init Q c.
Proof.
  intros Hcfg Hb HQ. unfold rtc_init, mux_rtc_init, try_rtc. rewrite Hcfg. simpl negb. cbv iota. destruct NEED_RTCMUX; wp_simpl.
  - apply wp_dsrtc_init; [done|]. intros c' Hr' _ _ _ Hst. wp_simpl.
    assert (clk_state c' <> RTC_NOT_FOUND) as Hne by (rewrite Hst; by destruct (ds_stopped _)).
    rewrite bool_decide_false by done. wp_simpl. by apply HQ.
  - apply wp_dsrtc_init; [done|]. intros c' Hr' _ _ _ Hst. apply HQ; [done| |done]. rewrite Hst. by destruct (ds_stopped _).
Qed.
End with_ds.

(** No DS1307 or DS3231 answers. *)
Lemma wp_dsrtc_init_absent {inv : I2CBUS -> Prop} `{!NoChip RTC_ADDR inv} Q (c : clocks) : inv (i2c_bus c) ->
  (forall b, inv b -> Q tt (set_i2c_bus b (set_clk_state RTC_NOT_FOUND c))) -> wp dsrtc_init Q c.
Proof.
  intros Hb HQ. unfold dsrtc_init, on_i2c. wp_simpl. apply wp_absent_read_register; [done|]. intros b Hrb.
  change (-1 <? 0) with true. cbv iota. wp_simpl. by apply HQ.
Qed.

(** On a board with the drivers for these chips and the clock in software,
    [rtc_init] reports the clock as working, but never selects it: setting it
    does nothing, and reading it leaves the caller's variable as it was. *)
Lemma software_clock_not_selected {inv : I2CBUS -> Prop} `{!NoChip RTC_ADDR inv} (c : clocks) t t0 : inv (i2c_bus c) ->
  CONFIG_RTC_DSRTC = true -> CONFIG_RTC_SOFTWARE = true -> CONFIG_RTC_PCF8583 = false -> CONFIG_RTC_LPC17XX = false ->
  current_rtc c = RTC_NONE ->
  wp (rtc_init;; rtc_set t;; rtc_read t0) (fun t' c' => t' = t0 /\ clk_state c' = RTC_OK) c.
Proof.
  intros Hb Hds Hsoft Hpcf Hlpc Hnone. assert (NEED_RTCMUX = true) as Hmux by (unfold NEED_RTCMUX; by rewrite Hds, Hsoft, Hpcf, Hlpc).
  unfold rtc_init, mux_rtc_init, rtc_set, mux_set_rtc, rtc_read, mux_read_rtc, try_rtc, softrtc_init.
  rewrite Hmux, Hds, Hsoft, Hpcf, Hlpc. simpl negb. cbv iota. wp_simpl.
  apply wp_dsrtc_init_absent; [done|]. intros b Hrb. wp_simpl. rewrite bool_decide_true by done. wp_simpl. change (current_rtc _) with (current_rtc c). rewrite Hnone. wp_simpl.
  change (current_rtc _) with (current_rtc c). rewrite Hnone. by wp_simpl.
Qed.

Section with_pcf.
Context {size : Z} {writable : Z -> bool} `{!RegisterChip PCF8583_ADDR size writable} `{!NoChip RTC_ADDR ready}.

Lemma wp_pcf8583_init read_rtc Q (c : clocks) : 20 <= size -> ready (i2c_bus c) ->
  (forall time Q c1, current_rtc c1 = current_rtc c -> (forall t, Q t c1) -> wp (read_rtc time) Q c1) ->
  (forall b st, ready b -> st <> RTC_NOT_FOUND -> Q tt (set_clk_state st (set_i2c_bus b c))) -> wp (pcf8583_init read_rtc) Q c.
Proof.
  intros Hsize Hb Hread HQ. unfold pcf8583_init, on_i2c. wp_simpl.
  apply wp_i2c_write_register; [done|unfold REG_CONTROL; lia|done|]. intros b1 Hr1 Hb1. change (negb (0 =? 0)) with false. cbv iota. wp_simpl.
  apply wp_i2c_read_registers; [done|unfold REG_YEAR1; lia|lia|unfold REG_YEAR1; lia|done|]. intros b2 Hr2 Hb2. cbv [fst snd].
  change (negb (0 =? 0)) with false. cbv iota. case_match; wp_simpl.
  - apply Hread; [done|]. intros t. wp_simpl. by apply (HQ b2 RTC_OK).
  - by apply (HQ b2 RTC_INVALID).
Qed.

(** Without a DS1307 or DS3231 the PCF8583 is found. *)
Lemma wp_rtc_init_pcf Q (c : clocks) : CONFIG_RTC_DSRTC = true -> CONFIG_RTC_PCF8583 = true -> 20 <= size -> ready (i2c_bus c) ->
  current_rtc c = RTC_NONE ->
  (forall c', ready (i2c_bus c') -> clk_state c' <> RTC_NOT_FOUND -> current_rtc c' = RTC_PCF8583 -> Q tt c') ->
  wp rtc_init Q c.
Proof.
  intros Hds Hpcf Hsize Hb Hnone HQ. assert (NEED_RTCMUX = true) as Hmux.
  { unfold NEED_RTCMUX. rewrite Hds, Hpcf. destruct CONFIG_RTC_SOFTWARE, CONFIG_RTC_LPC17XX; done. }
  unfold rtc_init, mux_rtc_init, try_rtc. rewrite Hmux, Hds, Hpcf. simpl negb. cbv iota. wp_simpl.
  apply wp_dsrtc_init_absent; [done|]. intros b Hrb. wp_simpl. rewrite bool_decide_true by done. wp_simpl.
  apply wp_pcf8583_init; [done|done| |].
  - intros time Q' c1 Hc1 HQ'. unfold mux_read_rtc. wp_simpl. rewrite Hc1. simpl. rewrite Hnone. by rewrite wp_ret.
  - intros b2 st Hr2 Hst. wp_simpl. rewrite bool_decide_false by done. wp_simpl. by apply HQ.
Qed.
End with_pcf.
End mux.

(** C15: Whatever the chip holds when the drive is switched on: after
    [rtc_init], a time of the years 2000 to 2099 that [set_rtc] stores in a
    DS1307 or DS3231 is the one that [read_rtc] delivers. *)
Theorem ds_clock_roundtrip `{I2C} `{LpcRtc} `{RtcConfig} {writable : Z -> bool} `{!RegisterChip RTC_ADDR 19 writable}
  (Hclock : forall r, 0 <= r < 7 -> writable r = true) (Hcfg : CONFIG_RTC_DSRTC = true)
  (c : clocks) (Hready : ready (i2c_bus c)) (t t0 : tm) (Ht : tm_ok t) (Hyear : 100 <= tm_year t < 200) :
  wp (rtc_init;; rtc_set t;; rtc_read t0) (fun t' _ => t' = t) c.
Proof.
  rewrite wp_bind. apply wp_rtc_init_ds; [done|done|]. intros c1 Hr1 Hst1 Hmux1. rewrite wp_bind.
  unfold rtc_set, mux_set_rtc, rtc_read, mux_read_rtc. destruct NEED_RTCMUX eqn:Hmux; rewrite Hcfg.
  - rewrite wp_bind, wp_gets, Hmux1 by done. apply wp_dsrtc_set; [done..|]. intros c2 Hds2 Hcur. cbv beta.
    rewrite wp_bind, wp_gets, Hcur, Hmux1 by done. by eapply wp_dsrtc_read.
  - apply wp_dsrtc_set; [done..|]. intros c2 Hds2 Hcur. cbv beta. by eapply wp_dsrtc_read.
Qed.

(** C20: On a board with drivers for both kinds of chips and only a PCF8583 on
    the bus: after [rtc_init], every time that [set_rtc] stores is the one that
    [read_rtc] delivers, up to three turns of the year later, too: the chip
    counts the year modulo four, and the driver keeps the rest. *)
Theorem pcf_clock_roundtrip `{I2C} `{LpcRtc} `{RtcConfig} {size : Z} {writable : Z -> bool} `{!RegisterChip PCF8583_ADDR size writable}
  `{!NoChip RTC_ADDR ready} (Hsize : 20 <= size) (Hall : forall r, 0 <= r < 20 -> writable r = true)
  (Hds : CONFIG_RTC_DSRTC = true) (Hpcf : CONFIG_RTC_PCF8583 = true)
  (c : clocks) (Hready : ready (i2c_bus c)) (Hnone : current_rtc c = RTC_NONE) (t t0 : tm) (Ht : tm_ok t) :
  wp (rtc_init;; rtc_set t;; rtc_read t0) (fun t' c' => t' = t /\
    forall (c2 : clocks) t2, tm_ok t2 -> tm_year t <= tm_year t2 < tm_year t + 4 -> current_rtc c2 = current_rtc c' ->
      pcf_holds t2 (tm_year t + 1900) c2 ->
      wp (rtc_read t0) (fun t' c3 => t' = t2 /\ pcf_holds t2 (tm_year t2 + 1900) c3) c2) c.
Proof.
  assert (NEED_RTCMUX = true) as Hmux.
  { unfold NEED_RTCMUX. rewrite Hds, Hpcf. destruct CONFIG_RTC_SOFTWARE, CONFIG_RTC_LPC17XX; done. }
  rewrite wp_bind. apply wp_rtc_init_pcf; [done..|]. intros c1 Hr1 Hst1 Hcur1. rewrite wp_bind.
  unfold rtc_set, mux_set_rtc, rtc_read, mux_read_rtc. rewrite Hmux, Hpcf.
  rewrite wp_bind, wp_gets, Hcur1. apply wp_pcf8583_set; [done..|]. intros c2 Hp2 Hcur2. cbv beta.
  rewrite wp_bind, wp_gets, Hcur2, Hcur1. eapply wp_pcf8583_read; [done..|lia|]. intros c3 Hp3 Hcur3. split; [done|].
  intros c4 t2 Ht2 Hyear Hcur4 Hp4. rewrite wp_bind, wp_gets, Hcur4, Hcur3, Hcur2, Hcur1.
  eapply wp_pcf8583_read; [done..|lia|]. done.
Qed.

(** A board like petSD+, with drivers for both chips. *)
Module ClockDemo.
#[export] Instance no_lpc : LpcRtc := {| LPC_RTC := unit; lpc_get := fun _ s => (0, s); lpc_put := fun _ _ s => s |}.
#[export] Instance petsd_clocks : RtcConfig := {|
  CONFIG_RTC_SOFTWARE := false; CONFIG_RTC_PCF8583 := true; CONFIG_RTC_LPC17XX := false; CONFIG_RTC_DSRTC := true;
  PCF8583_ADDR := 160; lpc_passes := 1
|}.

Definition switched_on `{I2CDevices} (p : pins) : clocks := Clocks softi2c _ p tt RTC_NOT_FOUND RTC_1307 RTC_NONE 0 0.
(** Wednesday, the 29th of February 2012, 23:59:58. *)
Definition moment : tm := {| tm_sec := 58; tm_min := 59; tm_hour := 23; tm_mday := 29; tm_mon := 1; tm_year := 112; tm_wday := 3 |}.

Lemma moment_ok : tm_ok moment.
Proof. split; simpl; lia. Qed.

Definition pcf8583 : ChipKind := {| c_address := 160; c_size := 256; c_writable := fun _ => true; c_longest := 0 |}.

Lemma pcf8583_ok : @chip_kind_ok pcf8583.
Proof. repeat split; by vm_compute. Qed.

Definition pcf_pins : @pins (@register_chip pcf8583) :=
  @Pins (@register_chip pcf8583) false false true true (Chip C_IDLE (Memory 0 (fun r => r mod 256)) true true 0 []).

Lemma pcf_pins_ready : @chip_ready pcf8583 pcf_pins.
Proof.
  exists (Memory 0 (fun r => r mod 256)). split; [|intros r; apply Z.mod_pos_bound; simpl; lia]. eexists. split; [reflexivity|].
  repeat split; done.
Qed.

Definition pcf_chip : @RegisterChip (@softi2c (@register_chip pcf8583)) PCF8583_ADDR 256 (fun _ => true) := soft_chip pcf8583_ok.

Lemma pcf_absent : @NoChip softi2c RTC_ADDR (@chip_ready pcf8583).
Proof. apply soft_no_chip; [by vm_compute|done]. Qed.

(** The bit for the century is never set, since [tm_year] counts from 1900: a
    date of 2100 is read back as one of 2000. *)
Lemma century_is_lost : tm_year (dsrtc_time (dsrtc_registers (set_tm_year 200 moment))) = 100.
Proof. by vm_compute. Qed.
End ClockDemo.
Import ClockDemo.

Lemma ds_clock_roundtrip_witness :
  let c := @switched_on (@register_chip SoftI2c.Demo.ds3231) SoftI2c.Demo.started in
  wp (rtc_init;; rtc_set moment;; rtc_read rtc_default_date) (fun t' _ => t' = moment) c.
Proof.
  intros c. apply (@ds_clock_roundtrip softi2c no_lpc petsd_clocks (fun r => r <? 17) (soft_chip SoftI2c.Demo.ds3231_ok));
    [|reflexivity|exact SoftI2c.Demo.started_ready|exact moment_ok|simpl; lia].
  intros r Hr. apply Z.ltb_lt. lia.
Defined.

Lemma pcf_clock_roundtrip_witness :
  let c := @switched_on (@register_chip pcf8583) pcf_pins in
  @wp clocks tm (rtc_init;; rtc_set moment;; rtc_read rtc_default_date) (fun t' c' => t' = moment /\
    forall (c2 : clocks) t2, tm_ok t2 -> 112 <= tm_year t2 < 112 + 4 -> current_rtc c2 = current_rtc c' ->
      pcf_holds (RegisterChip0 := pcf_chip) t2 (112 + 1900) c2 ->
      wp (rtc_read rtc_default_date) (fun t' c3 => t' = t2 /\ pcf_holds (RegisterChip0 := pcf_chip) t2 (tm_year t2 + 1900) c3) c2) c.
Proof.
  intros c. apply (@pcf_clock_roundtrip softi2c no_lpc petsd_clocks 256 (fun _ => true) pcf_chip pcf_absent);
    [lia|done|reflexivity|reflexivity|exact pcf_pins_ready|reflexivity|exact moment_ok].
Defined.

(** ** softrtc.c: dates and seconds *)

(** The days from the 1st of January 1970 to the one of the year [y]. *)
Definition days_before (y : Z) : Z := 365 * (y - 1970) + ((y - 1) / 4 - (y - 1) / 100 + (y - 1) / 400) - 477.
(** The days of a year before a month (from 1 on). *)
Definition month_start (y m : Z) : Z := foldr (fun k n => month_length y k + n) 0 (seqZ 1 (m - 1)).
Definition day_number (y m d : Z) : Z := days_before y + month_start y m + (d - 1).

Lemma days_before_next y : days_before (y + 1) = days_before y + days_in_year y.
Proof.
  unfold days_before, days_in_year, is_leap. replace (y + 1 - 1) with y by lia.
  assert (forall n, 0 < n -> y / n = (y - 1) / n + (if y mod n =? 0 then 1 else 0)) as Hdiv.
  { intros n Hn. pose proof (Z.div_mod y n ltac:(lia)) as Hy. pose proof (Z.mod_pos_bound y n Hn) as Hr.
    destruct (Z.eqb_spec (y mod n) 0) as [Hz|Hz].
    - assert ((y - 1) / n = y / n - 1) as ->; [|lia]. symmetry. apply (Z.div_unique _ _ _ (n - 1)); lia.
    - assert ((y - 1) / n = y / n) as ->; [|lia]. symmetry. apply (Z.div_unique _ _ _ (y mod n - 1)); lia. }
  rewrite (Hdiv 4), (Hdiv 100), (Hdiv 400) by lia.
  assert (y mod 100 = 0 -> y mod 4 = 0) as H100.
  { intros Hz. apply Z.mod_divide in Hz; [|lia]. apply Z.mod_divide; [lia|]. destruct Hz as [k ->]. exists (25 * k). lia. }
  assert (y mod 400 = 0 -> y mod 100 = 0) as H400.
  { intros Hz. apply Z.mod_divide in Hz; [|lia]. apply Z.mod_divide; [lia|]. destruct Hz as [k ->]. exists (4 * k). lia. }
  destruct (Z.eqb_spec (y mod 4) 0), (Z.eqb_spec (y mod 100) 0), (Z.eqb_spec (y mod 400) 0); simpl; lia.
Qed.

Lemma days_in_year_range y : 365 <= days_in_year y <= 366.
Proof. unfold days_in_year. destruct (is_leap y); lia. Qed.

Lemma days_before_mono k : forall y, days_before y + 365 * Z.of_nat k <= days_before (y + Z.of_nat k).
Proof.
  induction k as [|k IH]; intros y; [change (Z.of_nat 0) with 0; rewrite !Z.add_0_r; lia|]. rewrite Nat2Z.inj_succ.
  specialize (IH (y + 1)). pose proof (days_before_next y). pose proof (days_in_year_range y).
  replace (y + Z.succ (Z.of_nat k)) with (y + 1 + Z.of_nat k) by lia. lia.
Qed.

(** The loop over the years. *)
Lemma years_run {S} n : forall k i r (s : S), (k < n)%nat -> 0 <= i -> i + Z.of_nat k < 65536 -> 0 <= r < days_in_year (i + Z.of_nat k) ->
  loop n (fun v : Z * Z => let '(i, tim) := v in
    mret (if days_in_year i <=? tim then inl (u16 (i + 1), tim - days_in_year i) else inr (i, tim)))
    (i, days_before (i + Z.of_nat k) - days_before i + r) s = Done (i + Z.of_nat k, r) s.
Proof.
  induction n as [|n IH]; intros k i r s Hk Hi Hlt Hr; [lia|]. cbn [loop]. unfold mbind, comp_bind, mret at 1, comp_ret at 1.
  destruct k as [|k].
  - rewrite Z.add_0_r in *. replace (days_before i - days_before i + r) with r by lia.
    destruct (Z.leb_spec (days_in_year i) r); [lia|done].
  - rewrite Nat2Z.inj_succ in *. replace (i + Z.succ (Z.of_nat k)) with (i + 1 + Z.of_nat k) in * by lia.
    pose proof (days_before_mono k (i + 1)). pose proof (days_before_next i).
    destruct (Z.leb_spec (days_in_year i) (days_before (i + 1 + Z.of_nat k) - days_before i + r)); [|lia].
    rewrite u16_id by lia. rewrite <- (IH k (i + 1) r s) by lia. f_equal. f_equal. lia.
Qed.

Lemma years_spec {S} y r (s : S) : 1970 <= y <= 2107 -> 0 <= r < days_in_year y -> years (days_before y + r) s = Done (y, r) s.
Proof.
  intros Hy Hr. unfold years, year_fuel.
  pose proof (years_run 138 (Z.to_nat (y - 1970)) 1970 r s ltac:(lia) ltac:(lia) ltac:(lia)) as Hrun.
  rewrite Z2Nat.id in Hrun by lia. replace (1970 + (y - 1970)) with y in Hrun by lia.
  change (days_before 1970) with 0 in Hrun. rewrite Z.sub_0_r in Hrun. by apply Hrun.
Qed.

(** Loops that do not touch the state. *)
Lemma loop_any_state {S1 S2 L R} (f : L -> option (L + R)) (b1 : L -> comp S1 (L + R)) (b2 : L -> comp S2 (L + R)) :
  (forall l s, b1 l s = match f l with Some r => Done r s | None => Stuck end) ->
  (forall l s, b2 l s = match f l with Some r => Done r s | None => Stuck end) ->
  forall n l s1 s2, match loop n b1 l s1, loop n b2 l s2 with
                    | Done x1 s1', Done x2 s2' => x1 = x2 /\ s1' = s1 /\ s2' = s2
                    | Stuck, Stuck | OutOfFuel, OutOfFuel => True
                    | _, _ => False
                    end.
Proof.
  intros H1 H2 n. induction n as [|n IH]; intros l s1 s2; [done|]. cbn [loop]. unfold mbind, comp_bind. rewrite H1, H2.
  destruct (f l) as [[l'|x]|]; [apply IH|done|done].
Qed.

Lemma months_any_state {S} leap r (s : S) :
  months leap r s = match months leap r tt with Done v _ => Done v s | Stuck => Stuck | OutOfFuel => OutOfFuel end.
Proof.
  unfold months.
  set (f := fun v : Z * Z => let '(i, tim) := v in match days_in_month i with
    | None => None
    | Some d => Some (if d <=? tim then inl (u16 (i + 1), if (i =? 1) && leap then u32 (tim - d - 1) else tim - d) else inr (i, tim)) end).
  match goal with |- loop month_fuel ?b1 ?l s = match loop month_fuel ?b2 ?l tt with _ => _ end =>
    pose proof (loop_any_state f b1 b2) as Hl end.
  specialize (Hl ltac:(intros [i tim] s0; unfold f, mbind, comp_bind, of_option; by destruct (days_in_month i))
    ltac:(intros [i tim] s0; unfold f, mbind, comp_bind, of_option; by destruct (days_in_month i)) month_fuel (0, r) s tt).
  do 2 (destruct (loop _ _ _ _); try done). by destruct Hl as (-> & -> & _).
Qed.

(** The loop over the months, for every day of a year but the 29th of
    February. *)
Definition months_ok (y : Z) (leap : bool) (m : Z) : bool :=
  forallb (fun d => match months leap (month_start y m + (d - 1)) tt with
                    | Done (i, r) _ => (i =? m - 1) && (r =? d - 1)
                    | _ => false
                    end) (seqZ 1 (if m =? 2 then 28 else month_length y m)).

Lemma months_checked : forallb (months_ok 1 false) (seqZ 1 12) && forallb (months_ok 4 true) (seqZ 1 12) && forallb (months_ok 4 false) (seqZ 1 2) = true.
Proof. vm_compute. reflexivity. Qed.

(** ** The calendar *)

Lemma sum_snoc (f : Z -> Z) l x : foldr (fun k n => f k + n) 0 (l ++ [x]) = foldr (fun k n => f k + n) 0 l + f x.
Proof. induction l as [|a l IH]; simpl; lia. Qed.

Lemma month_start_next y m : 1 <= m -> month_start y (m + 1) = month_start y m + month_length y m.
Proof.
  intros Hm. unfold month_start. replace (m + 1 - 1) with (m - 1 + 1) by lia. rewrite seqZ_app by lia.
  change (seqZ (1 + (m - 1)) 1) with [Z.of_nat 0 + (1 + (m - 1))]. replace (Z.of_nat 0 + (1 + (m - 1))) with m by lia. apply sum_snoc.
Qed.

Lemma one_of_twelve m : 1 <= m <= 12 -> m ∈ [1; 2; 3; 4; 5; 6; 7; 8; 9; 10; 11; 12].
Proof. intros Hm. change [1; 2; 3; 4; 5; 6; 7; 8; 9; 10; 11; 12] with (seqZ 1 12). apply elem_of_seqZ. lia. Qed.

Ltac each_month Hm := apply one_of_twelve in Hm; repeat (apply elem_of_cons in Hm as [->|Hm]); [..|by apply elem_of_nil in Hm].

Lemma month_start_value y m : 1 <= m <= 12 ->
  month_start y m = nthZ [0; 31; 59; 90; 120; 151; 181; 212; 243; 273; 304; 334] (m - 1) + (if m <? 3 then 0 else Z.b2z (leap_year y)).
Proof. intros Hm. each_month Hm; unfold month_start; simpl; unfold month_length; simpl; by destruct (leap_year y). Qed.

Lemma month_length_range y m : 1 <= m <= 12 -> 28 <= month_length y m <= 31.
Proof. intros Hm. unfold month_length. repeat case_match; lia. Qed.

Lemma year_length y : month_start y 12 + 31 = days_in_year y.
Proof. rewrite month_start_value by lia. unfold days_in_year, nthZ. change (is_leap y) with (leap_year y). by destruct (leap_year y). Qed.

Lemma month_start_leap y y' m : 1 <= m <= 12 -> leap_year y = leap_year y' -> month_start y m = month_start y' m /\ month_length y m = month_length y' m.
Proof. intros Hm He. rewrite !month_start_value by done. unfold month_length. by rewrite He. Qed.

(** A day inside its year. *)
Lemma yearday_range y m d : 1 <= m <= 12 -> 1 <= d <= month_length y m -> 0 <= month_start y m + (d - 1) < days_in_year y.
Proof.
  intros Hm Hd. rewrite <- year_length. revert Hd. rewrite !month_start_value by lia. unfold month_length, nthZ.
  each_month Hm; simpl; destruct (leap_year y); simpl; lia.
Qed.

Definition valid_date (t : Z * Z * Z) : Prop := let '(y, m, d) := t in 1 <= m <= 12 /\ 1 <= d <= month_length y m.
Definition number_of (t : Z * Z * Z) : Z := let '(y, m, d) := t in day_number y m d.

Lemma next_day_number t : valid_date t -> valid_date (next_day t) /\ number_of (next_day t) = number_of t + 1.
Proof.
  destruct t as [[y m] d]. intros [Hm Hd]. unfold next_day. destruct (Z.ltb_spec d (month_length y m)); [|destruct (Z.ltb_spec m 12)].
  - split; [by simpl; lia|]. simpl. unfold day_number. lia.
  - pose proof (month_length_range y (m + 1) ltac:(lia)). split; [simpl; lia|]. simpl. unfold day_number. rewrite month_start_next by lia. lia.
  - pose proof (month_length_range (y + 1) 1 ltac:(lia)). split; [simpl; lia|]. assert (m = 12) as -> by lia. simpl. unfold day_number.
    rewrite days_before_next, <- year_length. change (month_start (y + 1) 1) with 0. change (month_length y 12) with 31 in *. lia.
Qed.

Lemma calendar_number y m d w : calendar (y, m, d) w -> 1980 <= y /\ valid_date (y, m, d) /\ (day_number y m d + 4) mod 7 = w.
Proof.
  intros Hc. apply calendar_iter in Hc as (k & Hk & ->).
  assert (1980 <= (Nat.iter k next_day (1980, 1, 1)).1.1 /\ valid_date (Nat.iter k next_day (1980, 1, 1)) /\
    number_of (Nat.iter k next_day (1980, 1, 1)) = 3652 + Z.of_nat k) as (Hy & Hv & Hn).
  { split; [by apply (later_year (1980, 1, 1))|]. clear Hk. induction k as [|k [Hv Hn]]; [by vm_compute|].
    destruct (next_day_number _ Hv) as [Hv' Hn']. split; [done|]. change (number_of (next_day (Nat.iter k next_day (1980, 1, 1))) = 3652 + Z.of_nat (S k)). lia. }
  rewrite <- Hk in Hy, Hv, Hn. split; [done|]. split; [done|]. simpl in Hn. rewrite Hn.
  replace (3652 + Z.of_nat k + 4) with (2 + Z.of_nat k + 522 * 7) by lia. apply Z_mod_plus_full.
Qed.

(** ** [mktime] and [gmtime] *)

Definition seconds (days : Z) (t : tm) : Z := ((days * 24 + tm_hour t) * 60 + tm_min t) * 60 + tm_sec t.

Lemma days_before_bounds y : 1970 <= y <= 2105 -> 0 <= days_before y <= 49308.
Proof. intros Hy. unfold days_before. Z.div_mod_to_equations. lia. Qed.

Lemma leap_sum y : y / 4 - y / 100 + y / 400 + 365 * y = days_before y + days_in_year y + 365 * 1969 + 477.
Proof. pose proof (days_before_next y) as Hn. unfold days_before in Hn at 1. replace (y + 1 - 1) with y in Hn by lia. lia. Qed.

(** Except for January, the seconds since 1970. *)
Lemma mktime_run {S} t (s : S) : tm_ok t -> 70 <= tm_year t <= 205 -> tm_mon t <> 0 ->
  tm_mday t <= month_length (tm_year t + 1900) (tm_mon t + 1) ->
  mktime t s = Done (seconds (day_number (tm_year t + 1900) (tm_mon t + 1) (tm_mday t)) t) s.
Proof.
  intros [] Hy Hmon Hlen. set (y := tm_year t + 1900) in *. set (m := tm_mon t + 1) in *. set (d := tm_mday t) in *.
  pose proof (days_before_bounds y ltac:(lia)) as Hb. pose proof (days_in_year_range y) as Hyear.
  pose proof (yearday_range y m d ltac:(lia) ltac:(lia)) as Hday.
  assert (0 <= y / 4 - y / 100 + y / 400 <= 600 /\ 0 <= (y - 1) / 4 - (y - 1) / 100 + (y - 1) / 400 <= 600) as [Hq Hq'].
  { clear - Hy. subst y. Z.div_mod_to_equations. lia. }
  unfold mktime. fold m y d. rewrite (u8_id m), (u16_id y) by lia.
  assert (exists mon year p, (if u8 (m - 2) <=? 0 then (u8 (u8 (m - 2) + 12), u16 (y - 1)) else (u8 (m - 2), y)) = (mon, year) /\
    int16 (367 * mon) = Some p /\ 0 <= year / 4 - year / 100 + year / 400 <= 600 /\ 0 <= p / 12 <= 400 /\
    year / 4 - year / 100 + year / 400 + p / 12 + d + year * 365 - 719499 = day_number y m d) as (mon & year & p & -> & -> & Hq2 & Hp & Heq).
  { unfold day_number. assert (1 <= m <= 12) as Hm by lia. rewrite month_start_value by done. unfold nthZ.
    pose proof (leap_sum y) as Hl. pose proof (leap_sum (y - 1)) as Hl1. pose proof (days_before_next (y - 1)) as Hn1.
    replace (y - 1 + 1) with y in Hn1 by lia.
    destruct (Z.eq_dec m 2) as [->|Hne].
    - exists 12, (y - 1), 4404. split; [by rewrite u16_id by lia|]. split; [done|]. split; [done|]. split; [done|]. simpl. change (4404 / 12) with 367. lia.
    - exists (m - 2), y, (367 * (m - 2)). rewrite u8_id by lia. destruct (Z.leb_spec (m - 2) 0); [lia|]. split; [done|].
      unfold days_in_year in Hl. change (is_leap y) with (leap_year y) in Hl. clear - Hm Hne Hl Hq Hmon.
      assert (m <> 1) as Hne1 by lia. clear Hmon.
      each_month Hm; try done; simpl; (split; [done|]; split; [done|]; split; [done|]);
        match goal with |- context [?p / 12] => let v := eval vm_compute in (p / 12) in change (p / 12) with v end;
        destruct (leap_year y); simpl in *; lia. }
  unfold mbind, comp_bind, of_option, mret, comp_ret. f_equal. rewrite (u16_id (_ + _)) by lia. rewrite Heq. unfold seconds.
  assert (0 <= day_number y m d <= 49673) as HD by (unfold day_number; lia). set (D := day_number y m d) in *.
  rewrite (u32_id D), (u32_id (D * 24 + _)), (u32_id ((D * 24 + _) * 60 + _)), u32_id; lia.
Qed.

Lemma code_leap y : 1970 <= y <= 2105 -> y <> 2000 -> is_leap (u8 (y - 1900)) = leap_year y.
Proof.
  intros Hy Hne. assert (forallb (fun y => Bool.eqb (is_leap (u8 (y - 1900))) (leap_year y) || (y =? 2000)) (seqZ 1970 136) = true) as Hc by by vm_compute.
  rewrite forallb_forall in Hc. specialize (Hc y). apply orb_true_iff in Hc as [Hc|Hc]; [by apply Bool.eqb_prop|lia|].
  apply list_elem_of_In, elem_of_seqZ. lia.
Qed.

Lemma months_run {S} y m d (s : S) : 1970 <= y <= 2105 -> 1 <= m <= 12 -> 1 <= d <= month_length y m -> (m, d) <> (2, 29) -> (y <> 2000 \/ m <= 2) ->
  months (is_leap (u8 (y - 1900))) (month_start y m + (d - 1)) s = Done (m - 1, d - 1) s.
Proof.
  intros Hy Hm Hd Hfeb H2000. rewrite months_any_state.
  assert (forall y0 leap, leap_year y = leap_year y0 -> months_ok y0 leap m = true ->
    months leap (month_start y m + (d - 1)) tt = Done (m - 1, d - 1) tt) as Hgo.
  { intros y0 leap He Hok. destruct (month_start_leap y y0 m Hm He) as [-> Hl]. unfold months_ok in Hok.
    rewrite forallb_forall in Hok. specialize (Hok d). rewrite <- Hl in Hok.
    destruct (months leap (month_start y0 m + (d - 1)) tt) as [[i r] []| |]; [|exfalso; discriminate Hok..].
    2,3: apply list_elem_of_In, elem_of_seqZ; destruct (Z.eqb_spec m 2); [|lia]; subst m; unfold month_length in Hd; simpl in Hd.
    2,3: destruct (leap_year y); [assert (d <> 29) by congruence|]; lia.
    assert ((i =? m - 1) && (r =? d - 1) = true) as [Hi Hr]%andb_true_iff.
    { apply Hok. apply list_elem_of_In, elem_of_seqZ; destruct (Z.eqb_spec m 2); [|lia]; subst m; unfold month_length in Hd; simpl in Hd.
      destruct (leap_year y); [assert (d <> 29) by congruence|]; lia. }
    apply Z.eqb_eq in Hi as ->. by apply Z.eqb_eq in Hr as ->. }
  pose proof months_checked as Hc. apply andb_true_iff in Hc as [[Hc1 Hc2]%andb_true_iff Hc3]. rewrite forallb_forall in Hc1, Hc2, Hc3.
  destruct (Z.eq_dec y 2000) as [->|Hne].
  - destruct H2000 as [?|Hm2]; [done|]. rewrite (Hgo 4); [done|done|]. apply Hc3, list_elem_of_In, elem_of_seqZ. lia.
  - rewrite code_leap by lia. destruct (leap_year y) eqn:Hl.
    + rewrite (Hgo 4); [done|done|]. apply Hc2, list_elem_of_In, elem_of_seqZ. lia.
    + rewrite (Hgo 1); [done|done|]. apply Hc1, list_elem_of_In, elem_of_seqZ. lia.
Qed.

Lemma gmtime_run {S} t (s : S) : let y := tm_year t + 1900 in let m := tm_mon t + 1 in
  tm_ok t -> 70 <= tm_year t <= 205 -> tm_mday t <= month_length y m -> (m, tm_mday t) <> (2, 29) -> (y <> 2000 \/ m <= 2) ->
  (day_number y m (tm_mday t) + 4) mod 7 = tm_wday t ->
  gmtime (seconds (day_number y m (tm_mday t)) t) s = Done t s.
Proof.
  intros y m [] Hy Hlen Hfeb H2000 Hw. pose proof (days_before_bounds y ltac:(lia)) as Hb.
  pose proof (yearday_range y m (tm_mday t) ltac:(lia) ltac:(lia)) as Hday. unfold gmtime, seconds. set (D := day_number y m (tm_mday t)) in *.
  rewrite (Z.add_comm _ (tm_sec t)), Z_mod_plus_full, Z.mod_small, Z.div_add, (Z.div_small (tm_sec t)), Z.add_0_l by lia.
  rewrite (Z.add_comm _ (tm_min t)), Z_mod_plus_full, Z.mod_small, Z.div_add, (Z.div_small (tm_min t)), Z.add_0_l by lia.
  rewrite (Z.add_comm _ (tm_hour t)), Z_mod_plus_full, Z.mod_small, Z.div_add, (Z.div_small (tm_hour t)), Z.add_0_l by lia.
  rewrite Hw. unfold mbind, comp_bind.
  replace D with (days_before y + (month_start y m + (tm_mday t - 1))) by (unfold D, day_number; lia).
  rewrite years_spec by lia. cbv [fst snd]. rewrite months_run by (done || lia). cbv [fst snd]. unfold mret, comp_ret. f_equal.
  apply tm_eq; simpl; try done; rewrite u8_id by lia; lia.
Qed.

(** ** The clock in software *)

Section soft.
Context `{I2C} `{LpcRtc}.

(** The interrupt of the timer, [n] times. *)
Fixpoint ticks (n : nat) : comp clocks unit :=
  match n with O => mret tt | Datatypes.S n => softrtc_tick;; ticks n end.

Lemma wp_ticks n : forall (c : clocks) Q, 0 <= soft_ms c < 100 -> 0 <= soft_rtc c ->
  soft_rtc c + (soft_ms c + Z.of_nat n) / 100 < 4294967296 ->
  (forall c', soft_rtc c' = soft_rtc c + (soft_ms c + Z.of_nat n) / 100 -> soft_ms c' = (soft_ms c + Z.of_nat n) mod 100 -> Q tt c') ->
  wp (ticks n) Q c.
Proof.
  induction n as [|n IH]; intros c Q Hms Hrtc Hlt HQ; simpl ticks.
  - rewrite wp_ret. change (Z.of_nat 0) with 0 in *. rewrite Z.add_0_r, Z.div_small, Z.mod_small in HQ by lia. apply HQ; lia.
  - rewrite Nat2Z.inj_succ in *. rewrite wp_bind. unfold softrtc_tick. rewrite wp_modify. rewrite u8_id by lia.
    destruct (Z.eqb_spec (soft_ms c + 1) 100) as [He|Hne].
    + assert ((soft_ms c + Z.succ (Z.of_nat n)) / 100 = Z.of_nat n / 100 + 1 /\ (soft_ms c + Z.succ (Z.of_nat n)) mod 100 = Z.of_nat n mod 100) as [Hd Hm].
      { replace (soft_ms c + Z.succ (Z.of_nat n)) with (Z.of_nat n + 1 * 100) by lia. rewrite Z.div_add, Z_mod_plus_full by lia. done. }
      rewrite Hd in *. rewrite Hm in *. pose proof (Z.div_pos (Z.of_nat n) 100 ltac:(lia) ltac:(lia)).
      rewrite u32_id by lia. apply IH; cbn [soft_ms soft_rtc set_soft]; rewrite ?Z.add_0_l; [lia|lia|lia|].
      intros c' Hr Hs. apply HQ; lia.
    + apply IH; cbn [soft_ms soft_rtc set_soft]; [lia|lia| |]; replace (soft_ms c + 1 + Z.of_nat n) with (soft_ms c + Z.succ (Z.of_nat n)) by lia; done.
Qed.

(** The day of a time. *)
Definition date_of (t : tm) : Z * Z * Z := (tm_year t + 1900, tm_mon t + 1, tm_mday t).
(** The times that [gmtime] computes: not on the 29th of February, and not
    from March to December 2000. *)
Definition soft_readable (t : tm) : Prop := (tm_mon t, tm_mday t) <> (1, 29) /\ (tm_year t = 100 -> tm_mon t <= 1).

(** C16: The clock in software: after [softrtc_set] of a time outside January
    and [n] interrupts, [softrtc_read] delivers the time of the calendar that
    is a hundredth of [n] seconds later, with the right weekday, unless it is
    one that [gmtime] cannot compute. *)
Theorem softrtc_keeps_time (c : clocks) (n : nat) (t t' : tm) (Ht : tm_ok t) (Ht' : tm_ok t')
  (Hcal : calendar (date_of t) (tm_wday t)) (Hcal' : calendar (date_of t') (tm_wday t'))
  (Hyear : tm_year t <= 205 /\ tm_year t' <= 205) (Hjanuary : tm_mon t <> 0) (Hread : soft_readable t')
  (Hms : 0 <= soft_ms c < 100)
  (Hlater : seconds (number_of (date_of t')) t' = seconds (number_of (date_of t)) t + (soft_ms c + Z.of_nat n) / 100) :
  wp (softrtc_set t;; ticks n;; softrtc_read) (fun r _ => r = t') c.
Proof.
  destruct (calendar_number _ _ _ _ Hcal) as (Hy & [Hm Hd] & Hw). destruct (calendar_number _ _ _ _ Hcal') as (Hy' & [Hm' Hd'] & Hw').
  destruct Hyear as [Hle Hle']. destruct Hread as [Hfeb H2000]. unfold softrtc_set. wp_simpl.
  eapply wp_intro; [apply mktime_run; [done|lia|done|lia]|]. cbv beta. wp_simpl.
  unfold date_of, number_of in Hlater. set (D := day_number (tm_year t + 1900) _ _) in *. set (D' := day_number (tm_year t' + 1900) _ _) in *.
  assert (0 <= seconds D t) as Hs.
  { unfold D, seconds, day_number. pose proof (days_before_bounds (tm_year t + 1900) ltac:(lia)).
    pose proof (yearday_range _ _ _ Hm Hd). destruct Ht. lia. }
  assert (seconds D' t' < 4294967296) as Hs'.
  { unfold D', seconds, day_number. pose proof (days_before_bounds (tm_year t' + 1900) ltac:(lia)).
    pose proof (yearday_range _ _ _ Hm' Hd'). pose proof (days_in_year_range (tm_year t' + 1900)). destruct Ht'. lia. }
  apply wp_ticks; cbn [soft_ms soft_rtc set_soft]; [lia|done|lia|]. intros c' Hr Hms'. unfold softrtc_read. wp_simpl. rewrite Hr, <- Hlater.
  eapply wp_intro; [apply gmtime_run; [done|lia|lia|intros [=]; apply Hfeb; f_equal; lia|lia|exact Hw']|]. done.
Qed.
End soft.

Lemma calendar_from k : calendar (Nat.iter k next_day (1980, 1, 1)) ((2 + Z.of_nat k) mod 7).
Proof.
  induction k as [|k IH]; [by apply first_day|]. apply tomorrow in IH. rewrite Zplus_mod_idemp_l in IH.
  by replace (2 + Z.of_nat (S k)) with (2 + Z.of_nat k + 1) by lia.
Qed.

(** What the code does with the dates that are left out. *)
Module SoftDemo.
Definition noon (y m d w : Z) : tm := {| tm_sec := 0; tm_min := 0; tm_hour := 12; tm_mday := d; tm_mon := m; tm_year := y; tm_wday := w |}.

(** In January [mon] wraps to 255, and the product overflows. *)
Lemma january_overflows : mktime (noon 112 0 15 0) tt = Stuck.
Proof. by vm_compute. Qed.

(** On a leap day the number of the day wraps below zero, and the loop runs
    out of the table. *)
Lemma leap_day_leaves_table : gmtime (seconds (day_number 2012 2 29) (noon 112 1 29 3)) tt = Stuck.
Proof. by vm_compute. Qed.

(** [is_leap(tm->tm_year)] takes 2000 for 1900 - 1900 + 100: the 1st of April
    becomes the 2nd. *)
Lemma year_2000_no_leap_year : gmtime (seconds (day_number 2000 4 1) (noon 100 3 1 6)) tt = Done (noon 100 3 2 6) tt.
Proof. by vm_compute. Qed.

Definition new_years_eve : tm := {| tm_sec := 59; tm_min := 59; tm_hour := 23; tm_mday := 31; tm_mon := 11; tm_year := 111; tm_wday := 6 |}.
Definition new_year : tm := {| tm_sec := 1; tm_min := 0; tm_hour := 0; tm_mday := 1; tm_mon := 0; tm_year := 112; tm_wday := 0 |}.
End SoftDemo.
Import SoftDemo.

Lemma softrtc_keeps_time_witness :
  wp (softrtc_set new_years_eve;; ticks 203;; softrtc_read) (fun r _ => r = new_year) (switched_on pcf_pins).
Proof.
  apply softrtc_keeps_time.
  - split; simpl; lia.
  - split; simpl; lia.
  - apply (calendar_from 11687).
  - apply (calendar_from 11688).
  - simpl. lia.
  - done.
  - split; [done|]. simpl. lia.
  - simpl. lia.
  - by vm_compute.
Defined.

(** ** The clock of the LPC17xx, which goes on while it is read *)

(** [k_waits]: the seconds that begin before each access to a register. *)
Record ticking := Ticking { k_now : Z; k_waits : list Z }.

(** [shows]: what the registers show at a time. *)
Definition ticking_rtc (shows : Z -> lpc_register -> Z) : LpcRtc := {|
  LPC_RTC := ticking;
  lpc_get := fun r s => let now := k_now s + hd 0 (k_waits s) in (shows now r, Ticking now (tl (k_waits s)));
  lpc_put := fun _ _ s => s
|}.

Definition shown (shows : Z -> lpc_register -> Z) (now : Z) : tm :=
  {| tm_sec := u8 (shows now L_SEC); tm_min := u8 (shows now L_MIN); tm_hour := u8 (shows now L_HOUR); tm_mday := u8 (shows now L_DOM);
     tm_mon := u8 (shows now L_MONTH); tm_year := u8 (shows now L_YEAR - 1900); tm_wday := u8 (shows now L_DOW) |}.

(** The seconds that begin before the next [n] accesses. *)
Fixpoint elapsed (n : nat) (ws : list Z) : Z := match n with O => 0 | Datatypes.S n => hd 0 ws + elapsed n (tl ws) end.
(** No eight accesses take a minute. *)
Definition quick (ws : list Z) : Prop := Forall (Z.le 0) ws /\ forall i, elapsed 8 (drop i ws) < 60.

Lemma quick_tl ws : quick ws -> quick (tl ws) /\ 0 <= hd 0 ws /\ elapsed 8 ws < 60.
Proof.
  intros [Hp Hq]. split; [|split; [by destruct Hp|apply (Hq 0%nat)]]. split; [by destruct Hp|].
  intros i. destruct ws; [apply (Hq i)|apply (Hq (Datatypes.S i))].
Qed.

Section lpc.
Context `{I2C} `{RtcConfig} (shows : Z -> lpc_register -> Z).
Hypothesis Hsec : forall now, shows now L_SEC = now mod 60.
#[local] Instance the_lpc : LpcRtc := ticking_rtc shows.

Lemma wp_lpc_reg r Q (c : clocks) :
  (let now := k_now (lpc c) + hd 0 (k_waits (lpc c)) in Q (shows now r) (set_lpc (Ticking now (tl (k_waits (lpc c)))) c)) ->
  wp (lpc_reg r) Q c.
Proof. intros HQ. unfold lpc_reg. wp_simpl. exact HQ. Qed.

(** A pass that is not repeated has read the registers within one second. *)
Lemma wp_lpcrtc_pass Q (c : clocks) : quick (k_waits (lpc c)) ->
  (forall c' r, quick (k_waits (lpc c')) -> k_now (lpc c) <= k_now (lpc c') -> k_waits (lpc c') = Nat.iter 8 (@tl Z) (k_waits (lpc c)) ->
     match r with inr t => t = shown shows (k_now (lpc c')) | inl _ => k_waits (lpc c) <> [] end -> Q r c') ->
  wp lpcrtc_pass Q c.
Proof.
  intros Hq HQ. unfold lpcrtc_pass. do 8 (rewrite wp_bind; apply wp_lpc_reg; cbv zeta). rewrite wp_ret.
  cbn [lpc set_lpc k_now k_waits].
  destruct (lpc c) as [now ws]. cbn [k_now k_waits] in *.
  assert (elapsed 8 ws < 60) as Hsum by apply (quick_tl ws Hq). simpl elapsed in Hsum.
  assert (forall n, 0 <= hd 0 (Nat.iter n (@tl Z) ws) /\ quick (Nat.iter n (@tl Z) ws)) as Hpos.
  { intros n. assert (quick (Nat.iter n (@tl Z) ws)) as Hn by (induction n; [done|by apply quick_tl]). split; [by apply quick_tl|done]. }
  destruct (Hpos 8%nat) as [_ Hq8].
  pose proof (proj1 (Hpos 0%nat)). pose proof (proj1 (Hpos 1%nat)). pose proof (proj1 (Hpos 2%nat)). pose proof (proj1 (Hpos 3%nat)).
  pose proof (proj1 (Hpos 4%nat)). pose proof (proj1 (Hpos 5%nat)). pose proof (proj1 (Hpos 6%nat)). pose proof (proj1 (Hpos 7%nat)).
  simpl Nat.iter in *. apply HQ; [exact Hq8|cbn [lpc set_lpc k_now]; lia|done|]. cbn [lpc set_lpc k_now]. rewrite !Hsec.
  match goal with |- context [u8 (?a mod 60) =? ?b mod 60] => set (t7 := b); set (t0 := a) end.
  rewrite (u8_id (t0 mod 60)) by (pose proof (Z.mod_pos_bound t0 60 eq_refl); lia).
  destruct (Z.eqb_spec (t0 mod 60) (t7 mod 60)) as [He|Hne].
  - assert (t0 = t7) as Ht.
    { pose proof (Z.div_mod t0 60 ltac:(lia)). pose proof (Z.div_mod t7 60 ltac:(lia)). subst t0 t7. lia. }
    assert (hd 0 (tl ws) = 0 /\ hd 0 (tl (tl ws)) = 0 /\ hd 0 (tl (tl (tl ws))) = 0 /\ hd 0 (tl (tl (tl (tl ws)))) = 0 /\
      hd 0 (tl (tl (tl (tl (tl ws))))) = 0 /\ hd 0 (tl (tl (tl (tl (tl (tl ws)))))) = 0 /\
      hd 0 (tl (tl (tl (tl (tl (tl (tl ws))))))) = 0) as (Z1 & Z2 & Z3 & Z4 & Z5 & Z6 & Z7) by (subst t0 t7; lia).
    subst t0 t7. rewrite ?Z1, ?Z2, ?Z3, ?Z4, ?Z5, ?Z6, ?Z7, ?Z.add_0_r. unfold shown. rewrite !Hsec. f_equal.
    rewrite (u8_id ((now + hd 0 ws) mod 60)); [done|]. pose proof (Z.mod_pos_bound (now + hd 0 ws) 60 eq_refl). lia.
  - intros ->. apply Hne. subst t0 t7. simpl. rewrite ?Z.add_0_r. done.
Qed.

Definition going_on (c c' : clocks) : Prop := quick (k_waits (lpc c')) /\ k_now (lpc c) <= k_now (lpc c').
Definition waits_left (c : clocks) : nat := length (k_waits (lpc c)).

(** C21: [lpcrtc_read] never mixes two times: while the clock goes on between
    the accesses to its registers, by less than a minute in any eight of them,
    the result is what all registers show at one moment of the call, and the
    call ends. *)
Theorem lpcrtc_read_consistent (c : clocks) (Hst : clk_state c = RTC_OK) (Hq : quick (k_waits (lpc c)))
  (Hfuel : (length (k_waits (lpc c)) < lpc_passes)%nat) :
  wp lpcrtc_read (fun t (c' : clocks) => exists now, k_now (lpc c) <= now <= k_now (lpc c') /\ t = shown shows now) c.
Proof.
  unfold lpcrtc_read. wp_simpl. rewrite bool_decide_true by done. simpl negb. cbv iota.
  apply (wp_loop (fun _ => going_on c) (fun _ => waits_left));
    [|by split|done].
  intros [] c1 [Hq1 Hle]. apply wp_lpcrtc_pass; [done|]. intros c' [[]|t] Hq' Hnow Hw Hr.
  - split; [split; [done|lia]|]. unfold waits_left. rewrite Hw. destruct (k_waits (lpc c1)) as [|w ws]; [done|]. simpl.
    assert (forall l : list Z, (length (tl l) <= length l)%nat) as Htl by (intros [|? ?]; simpl; lia).
    pose proof (Htl ws). pose proof (Htl (tl ws)). pose proof (Htl (tl (tl ws))). pose proof (Htl (tl (tl (tl ws)))).
    pose proof (Htl (tl (tl (tl (tl ws))))). pose proof (Htl (tl (tl (tl (tl (tl ws)))))). pose proof (Htl (tl (tl (tl (tl (tl (tl ws))))))). lia.
  - exists (k_now (lpc c')). split; [lia|done].
Qed.
End lpc.

(** The clock at 23:59:59: the second ends after the minute has been read. *)
Module LpcDemo.
Definition midnight (now : Z) (r : lpc_register) : Z :=
  match r with
  | L_SEC => now mod 60 | L_MIN => now / 60 mod 60 | L_HOUR => now / 3600 mod 24 | L_DOM => 1 + now / 86400
  | L_MONTH => 5 | L_YEAR => 2012 | L_DOW => now / 86400 mod 7 | _ => 0
  end.
#[export] Instance passes : RtcConfig := {|
  CONFIG_RTC_SOFTWARE := false; CONFIG_RTC_PCF8583 := false; CONFIG_RTC_LPC17XX := true; CONFIG_RTC_DSRTC := false;
  PCF8583_ADDR := 160; lpc_passes := 4
|}.
Definition at_midnight : @clocks (@softi2c (@register_chip pcf8583)) (ticking_rtc midnight) :=
  @Clocks (@softi2c (@register_chip pcf8583)) (ticking_rtc midnight) pcf_pins (Ticking 86399 [0; 0; 1]) RTC_OK RTC_1307 RTC_NONE 0 0.
End LpcDemo.

Lemma lpcrtc_read_consistent_witness :
  wp (@lpcrtc_read _ _ LpcDemo.passes) (fun t (c' : @clocks (@softi2c (@register_chip pcf8583)) (ticking_rtc LpcDemo.midnight)) => exists now, 86399 <= now <= k_now (lpc c') /\ t = shown LpcDemo.midnight now) LpcDemo.at_midnight.
Proof.
  apply (@lpcrtc_read_consistent _ LpcDemo.passes LpcDemo.midnight); [done|done| |simpl; lia].
  split; [repeat constructor; lia|]. intros [|[|[|i]]]; simpl; [lia..|]. rewrite drop_nil. simpl. lia.
Defined.
