(* ===== verification/ConfigTheorems.v ===== *)
(** * The theorems about the configuration

    What [write_configuration] stores, [read_configuration] brings back; the
    file system in the same EEPROM stays as it is. *)

From stdpp Require Import gmap.
From S2P Require Import Prelude EepromFs EepromFsFacts EepromFsInv EepromFsFile ErrorMsg ErrorMsgTheorems Utils Buffers BuffersTheorems.
From S2P Require Import FatFs Dirent World D64Geom D64 D64Files EefsOps FatNames FatFile Callbacks FatOps WrapOps.
From S2P Require Import Machine Config DosMemory MachineFacts EepromFsTheorems D64Demo DemoWorld.

Section config.
Context `{FatFs} `{EepromGeom} `{Assertions} `{ErrorConfig} `{BufferConfig} `{SystemConfig} `{BoardConfig}.

(** The bytes of the EEPROM and the settings. *)
Definition conf (m : machine) : list Z := eeprom (w_eefs (m_world m)).
Definition set_conf (e : list Z) (m : machine) : machine :=
  set_m_world (set_w_eefs (set_eeprom e (w_eefs (m_world m))) (m_world m)) m.
Definition chan (m : machine) : errs := channel (mbufs_of m).
Definition upd_chan (f : errs -> errs) (m : machine) : machine :=
  with_bufs (put_channel (f (chan m)) (mbufs_of m)) m.

Lemma wp_upd_settings f Q m : wp (upd_settings f) Q m = Q tt (upd_chan f m).
Proof. unfold upd_settings. by rewrite wp_on_world, wp_on_bufs, wp_modify. Qed.

Lemma wp_get_settings Q m : wp get_settings Q m = Q (chan m) m.
Proof. unfold get_settings. rewrite wp_on_world. unfold settings. rewrite wp_gets. by destruct m. Qed.

Lemma wp_conf_put a bs Q m :
  0 <= a -> a + zlen bs <= zlen (conf m) ->
  (forall e, store_block (conf m) a bs = Some e -> zlen e = zlen (conf m) -> Q tt (set_conf e m)) -> wp (conf_put a bs) Q m.
Proof.
  intros Ha Hl HQ. unfold conf_put. rewrite wp_on_world, wp_on_eefs. unfold eeprom_write_block. rewrite wp_bind, wp_gets.
  cbv beta. fold (conf m). pose proof (store_block_some (conf m) a bs Ha Hl) as E. rewrite E, wp_bind. simpl of_option.
  rewrite wp_ret, wp_modify. apply (HQ _ E). apply zlen_splice; lia.
Qed.

Lemma wp_conf_block a n Q m :
  0 <= a -> 0 <= n -> a + n <= zlen (conf m) -> Q (slice a n (conf m)) m -> wp (conf_block a n) Q m.
Proof.
  intros Ha Hn Hl HQ. unfold conf_block. rewrite wp_on_world, wp_on_eefs. unfold eeprom_read_block. rewrite wp_bind, wp_gets.
  cbv beta. fold (conf m). rewrite (load_block_some (conf m) a n Ha Hn Hl). simpl of_option. rewrite wp_ret.
  destruct m as [w]. destruct w as [? e]. by destruct e.
Qed.

Lemma wp_conf_byte a Q m : 0 <= a < zlen (conf m) -> Q (nthZ (conf m) a) m -> wp (conf_byte a) Q m.
Proof.
  intros Ha HQ. unfold conf_byte. rewrite wp_bind. apply wp_conf_block; [lia..|]. rewrite wp_ret.
  rewrite nthZ_slice by lia. by rewrite Z.add_0_r.
Qed.

Lemma wp_conf_word a Q m :
  0 <= a -> a + 2 <= zlen (conf m) -> Q (nthZ (conf m) a + 256 * nthZ (conf m) (a + 1)) m -> wp (conf_word a) Q m.
Proof.
  intros Ha Hl HQ. unfold conf_word. rewrite wp_bind. apply wp_conf_block; [lia..|]. rewrite wp_ret.
  rewrite !nthZ_slice by lia. by rewrite Z.add_0_r.
Qed.

Definition checksum_of (e : list Z) (size : Z) : Z := foldl (fun c b => u8 (c + b)) 0 (slice 2 (size - 2) e).

Lemma wp_conf_checksum size Q m :
  2 <= size <= zlen (conf m) -> Q (checksum_of (conf m) size) m -> wp (conf_checksum size) Q m.
Proof.
  intros Hs HQ. unfold conf_checksum.
  apply (wp_for_range (fun i c m' => m' = m /\ c = foldl (fun c b => u8 (c + b)) 0 (slice 2 (i - 2) (conf m)))); cbv beta.
  - intros i c m' Hi [-> ->]. rewrite wp_bind. apply wp_conf_byte; [lia|]. rewrite wp_ret. split; [done|].
    replace (slice 2 (i + 1 - 2) (conf m)) with (slice 2 (i - 2) (conf m) ++ [nthZ (conf m) i]); [by rewrite foldl_app|].
    apply nthZ_ext; [rewrite zlen_app, !zlen_slice by lia; change (zlen [_]) with 1; lia|].
    rewrite zlen_app, zlen_slice by lia. change (zlen [_]) with 1. intros k Hk. rewrite nthZ_app by lia.
    rewrite zlen_slice by lia. destruct (Z.ltb_spec k (i - 2)); rewrite !nthZ_slice by lia; [done|].
    replace (k - (i - 2)) with 0 by lia. replace (2 + k) with i by lia. done.
  - intros c m' [-> ->]. replace (2 + Z.of_nat (Z.to_nat (size - 2)) - 2) with (size - 2) by lia. exact HQ.
  - split; [done|]. reflexivity.
Qed.

(** ** Writing *)

Definition word_bytes (x : Z) : list Z := [Z.land x 255; Z.land (Z.shiftr x 8) 255].

(** The writes of [write_configuration] before the checksum. *)
Definition config_blocks (mux hw disp : bool) (flags addr haddr ext : Z) (d1 d2 : list Z) (dirs : Z) (rom : list Z)
    (bus menu c b : Z) : list (Z * list Z) :=
  [(2, word_bytes CONF_SIZE); (5, [flags]); (6, [addr]); (7, [haddr]); (8, [ext])]
  ++ (if mux then [(9, d1); (11, d2)] else []) ++ [(13, [dirs]); (14, rom); (30, [bus])]
  ++ (if hw then [(31, [menu])] else []) ++ (if disp then [(32, [c]); (33, [b])] else []).

(** The first bytes of an EEPROM with a configuration. *)
Record stored (mux hw disp : bool) (flags addr haddr ext : Z) (d1 d2 : list Z) (dirs : Z) (rom : list Z)
    (bus menu c b : Z) (e : list Z) : Prop := {
  st_size : nthZ e 2 = 34 /\ nthZ e 3 = 0;
  st_flags : nthZ e 5 = flags;
  st_addr : nthZ e 6 = addr;
  st_haddr : nthZ e 7 = haddr;
  st_ext : nthZ e 8 = ext;
  st_drives : mux = true -> slice 9 2 e = d1 /\ slice 11 2 e = d2;
  st_dirs : nthZ e 13 = dirs;
  st_rom : slice 14 16 e = rom;
  st_bus : nthZ e 30 = bus;
  st_menu : hw = true -> nthZ e 31 = menu;
  st_lcd : disp = true -> nthZ e 32 = c /\ nthZ e 33 = b
}.

Lemma config_blocks_stored mux hw disp flags addr haddr ext x0 x1 x2 x3 dirs rom bus menu c b e0 :
  length rom = 16%nat -> 34 <= zlen e0 ->
  exists e, put_blocks (config_blocks mux hw disp flags addr haddr ext [x0; x1] [x2; x3] dirs rom bus menu c b) e0 = Some e /\
    stored mux hw disp flags addr haddr ext [x0; x1] [x2; x3] dirs rom bus menu c b e /\
    drop 34 e = drop 34 e0 /\ zlen e = zlen e0.
Proof.
  intros Hrom Hl. assert (exists l rest, e0 = l ++ rest /\ length l = 34%nat) as (l & rest & -> & Hlen).
  { exists (take 34 e0), (drop 34 e0). split; [by rewrite take_drop|]. rewrite length_take. unfold zlen in Hl. lia. }
  clear Hl. do 16 (destruct rom as [|? rom]; [done|]). destruct rom; [|done].
  do 34 (destruct l as [|? l]; [done|]). destruct l; [|done].
  destruct mux, hw, disp; (eexists; split; [apply put_blocks_app; vm_compute; reflexivity|]);
    (split; [split; try done; vm_compute; by auto|by split]).
Qed.

(** The name of the ROM image is a string in its array of 17 bytes. *)
Definition rom_ok (m : machine) (name : list Z) : Prop :=
  strz (rom_filename (chan m)) = Some name /\ zlen (rom_filename (chan m)) = 17.
Definition padded (name : list Z) : list Z := name ++ fill (17 - zlen name) 0.

Definition stored_flags (m : machine) : Z := Z.land (globalflags (chan m)) (Z.lor POSTMATCH EXTENSION_HIDING).

(** [e] holds the configuration of [m]. *)
Definition holds (m : machine) (name e : list Z) : Prop :=
  stored NEED_DISKMUX CONFIG_HW_ADDR_OR_BUTTONS CONFIG_ONBOARD_DISPLAY (stored_flags m) (device_address m)
    (hw_address m (menu_system_enabled m)) (file_extension_mode (chan m)) (word_bytes (drive_config (chan m)))
    (word_bytes (Z.shiftr (drive_config (chan m)) 16)) (image_as_dir (chan m)) (take 16 (padded name)) (active_bus m)
    (Z.b2z (menu_system_enabled m)) (lcd_contrast m) (lcd_brightness m) e /\
  nthZ e 1 = checksum_of e 34.

Lemma strz_short l name : strz l = Some name -> zlen name < zlen l.
Proof.
  revert name. induction l as [|c l IH]; intros name; simpl; [done|]. rewrite zlen_cons. pose proof (zlen_nonneg l).
  destruct (c =? 0); [intros [= <-]; change (zlen []) with 0; lia|].
  destruct (strz l) as [r|]; [|done]. intros [= <-]. rewrite zlen_cons. specialize (IH r eq_refl). lia.
Qed.

Lemma set_conf_twice e e' m : set_conf e (set_conf e' m) = set_conf e m.
Proof. done. Qed.
Lemma conf_set_conf e m : conf (set_conf e m) = e.
Proof. done. Qed.

(** The settings are bytes. *)
Record config_bytes (m : machine) (name : list Z) : Prop := {
  cb_flags : is_byte (globalflags (chan m));
  cb_address : is_byte (device_address m);
  cb_hw : is_byte (hw_address m (menu_system_enabled m));
  cb_ext : is_byte (file_extension_mode (chan m));
  cb_dirs : is_byte (image_as_dir (chan m));
  cb_name : bytes name;
  cb_bus : is_byte (active_bus m);
  cb_contrast : is_byte (lcd_contrast m);
  cb_brightness : is_byte (lcd_brightness m)
}.

Lemma put_blocks_bytes blocks e0 e :
  put_blocks blocks e0 = Some e -> Forall (fun b => bytes b.2) blocks -> bytes e0 -> bytes e.
Proof.
  revert e0. induction blocks as [|b blocks IH]; intros e0; [by intros [= <-]|]. rewrite put_blocks_cons.
  intros He [Hb Hbs]%Forall_cons H0'. destruct (store_block e0 b.1 b.2) as [e1|] eqn:E; [|done]. simpl in He.
  apply (IH e1); [done..|]. unfold store_block in E. destruct (in_bounds _ _ _); [|done]. injection E as <-. by apply bytes_splice.
Qed.

Lemma land_byte x : is_byte (Z.land x 255).
Proof. change 255 with (Z.ones 8). rewrite Z.land_ones by lia. apply Z.mod_pos_bound. lia. Qed.

Lemma config_blocks_bytes m name :
  config_bytes m name ->
  Forall (fun b => bytes b.2) (config_blocks NEED_DISKMUX CONFIG_HW_ADDR_OR_BUTTONS CONFIG_ONBOARD_DISPLAY (stored_flags m)
    (device_address m) (hw_address m (menu_system_enabled m)) (file_extension_mode (chan m)) [Z.land (drive_config (chan m)) 255;
    (Z.land (Z.shiftr (drive_config (chan m)) 8) 255)] [ (Z.land (Z.shiftr (drive_config (chan m)) 16) 255);
    (Z.land (Z.shiftr (Z.shiftr (drive_config (chan m)) 16) 8) 255)] (image_as_dir (chan m)) (slice 0 16 (padded name))
    (active_bus m) (Z.b2z (menu_system_enabled m)) (lcd_contrast m) (lcd_brightness m)).
Proof.
  intros []. assert (is_byte (stored_flags m)) as Hf.
  { unfold stored_flags. change (Z.lor POSTMATCH EXTENSION_HIDING) with 24. pose proof (land_byte (Z.land (globalflags (chan m)) 24)) as Hb.
    rewrite <- Z.land_assoc in Hb. exact Hb. }
  assert (bytes (padded name)) as Hp by (apply Forall_app; split; [done|]; apply Forall_replicate; by split).
  assert (is_byte (Z.b2z (menu_system_enabled m))) as Hm by (by destruct (menu_system_enabled m)).
  pose proof land_byte. unfold config_blocks, word_bytes, bytes.
  repeat first [apply Forall_app_2 | apply Forall_cons_2 | apply Forall_nil_2 | case_match | by apply bytes_slice | done | apply land_byte].
Qed.

Lemma checksum_byte e n : is_byte (checksum_of e n).
Proof.
  unfold checksum_of. assert (is_byte 0) as H0' by done. revert H0'. generalize 0.
  induction (slice 2 (n - 2) e) as [|x l IH]; intros c Hc; [done|]. simpl. apply IH, u8_is_byte.
Qed.

(** One more block. *)
Lemma put_blocks_snoc blocks b e0 e1 e2 :
  put_blocks blocks e0 = Some e1 -> store_block e1 b.1 b.2 = Some e2 -> put_blocks (blocks ++ [b]) e0 = Some e2.
Proof. unfold put_blocks. rewrite foldl_app. intros -> Hs. exact Hs. Qed.

(** The writes so far: the state is [m] with the EEPROM after [blocks]. *)
Definition wrote (m : machine) (blocks : list (Z * list Z)) (m' : machine) : Prop :=
  exists e, put_blocks blocks (conf m) = Some e /\ zlen e = zlen (conf m) /\ m' = set_conf e m.

Lemma wrote_put m blocks m' a bs Q :
  wrote m blocks m' -> 0 <= a -> a + zlen bs <= zlen (conf m) ->
  (forall m'', wrote m (blocks ++ [(a, bs)]) m'' -> Q tt m'') -> wp (conf_put a bs) Q m'.
Proof.
  intros (e & He & Hl & ->) Ha Hab HQ. apply wp_conf_put; [done|rewrite conf_set_conf; lia|].
  rewrite conf_set_conf. intros e' Hs Hl'. apply HQ. exists e'. split; [by eapply put_blocks_snoc|]. split; [lia|done].
Qed.

Lemma wrote_when m blocks m' c more b Q :
  wrote m blocks m' -> (b = true -> wp c (fun _ m'' => wrote m (blocks ++ more) m'') m') ->
  (forall m'', wrote m (blocks ++ if b then more else []) m'' -> Q tt m'') -> wp (when b c) Q m'.
Proof.
  intros Hw Hc HQ. destruct b; simpl when.
  - eapply wp_mono; [by apply Hc|]. intros [] m''. apply HQ.
  - rewrite wp_ret. apply HQ. by rewrite app_nil_r.
Qed.

Lemma wrote_upd_chan m blocks m' f : wrote m blocks m' -> wrote (upd_chan f m) blocks (upd_chan f m').
Proof. intros (e & He & Hl & ->). exists e. by split_and!. Qed.

Lemma splice_checksum e x : 34 <= zlen e ->
  (forall i, 2 <= i -> nthZ (splice 1 [x] e) i = nthZ e i) /\
  (forall i n, 2 <= i -> 0 <= n -> i + n <= zlen e -> slice i n (splice 1 [x] e) = slice i n e) /\
  drop 34 (splice 1 [x] e) = drop 34 e /\ nthZ (splice 1 [x] e) 1 = x.
Proof.
  intros Hl. destruct e as [|a [|b e]]; [done..|]. change (splice 1 [x] (a :: b :: e)) with (a :: x :: e). split_and!.
  - intros i Hi. rewrite !nthZ_cons by lia. replace (i =? 0) with false by lia. replace (i - 1 =? 0) with false by lia. done.
  - intros i n Hi _ _. unfold slice. replace (Z.to_nat i) with (S (S (Z.to_nat (i - 2)))) by lia. done.
  - done.
  - done.
Qed.

Ltac put_step Hw :=
  eapply (wrote_put _ _ _ _ _ _ Hw); [done|eapply Z.le_trans; [|eassumption]; by vm_compute|];
  clear Hw; intros ? Hw; let e := fresh "e" in let He := fresh "He" in let Hle := fresh "Hle" in
  pose proof Hw as (e & He & Hle & ->); clear He.

Lemma write_configuration_ok m name Q :
  34 <= zlen (conf m) -> rom_ok m name ->
  (forall e, holds m name e -> drop 34 e = drop 34 (conf m) -> zlen e = zlen (conf m) ->
     (config_bytes m name -> bytes (conf m) -> bytes e) -> Q tt (set_conf e (upd_chan (set_rom_filename (padded name)) m))) ->
  wp write_configuration Q m.
Proof.
  intros Hl [Hname Hrom] HQ. pose proof (strz_short _ _ Hname) as Hshort. pose proof (zlen_nonneg name).
  assert (zlen (padded name) = 17) as Hpad by (unfold padded; rewrite zlen_app, zlen_fill; lia).
  assert (wrote m [] m) as Hw.
  { exists (conf m). split_and!; [done..|]. destruct m as [w]. destruct w as [? e]. by destruct e. }
  unfold write_configuration, conf_put_word.
  rewrite wp_bind. put_step Hw. rewrite wp_bind, wp_get_settings. rewrite wp_bind. put_step Hw.
  rewrite wp_bind, wp_gets. rewrite wp_bind. put_step Hw. unfold hw_addr. rewrite wp_bind, wp_gets. rewrite wp_bind. put_step Hw.
  rewrite wp_bind. put_step Hw.
  rewrite wp_bind. eapply (wrote_when _ _ _ _ [(9, word_bytes (drive_config (chan m)));
    (11, word_bytes (Z.shiftr (drive_config (chan m)) 16))] _ _ Hw).
  { intros _. rewrite wp_bind. put_step Hw. put_step Hw. by rewrite <- app_assoc in Hw. }
  clear Hw. intros ? Hw. pose proof Hw as (e4 & _ & Hle4 & ->). rewrite wp_bind. put_step Hw.
  rewrite wp_bind. eapply wp_of_option; [exact Hname|].
  change (zlen (rom_filename (chan (set_conf ?e m)))) with (zlen (rom_filename (chan m))). rewrite Hrom. fold (padded name).
  rewrite wp_bind, wp_upd_settings, wp_bind.
  eapply wp_of_option; [apply load_block_some; [done..|rewrite Hpad; done]|].
  assert (zlen (slice 0 ROM_NAME_LENGTH (padded name)) = 16) as Hrl by (by rewrite zlen_slice; rewrite ?Hpad).
  apply (wrote_upd_chan _ _ _ (set_rom_filename (padded name))) in Hw. set (m' := upd_chan _ m) in Hw.
  change (zlen (conf m)) with (zlen (conf m')) in Hl.
  rewrite wp_bind. eapply (wrote_put _ _ _ _ _ _ Hw); [done|rewrite Hrl; unfold CONF_ROMNAME; lia|].
  clear Hw. intros ? Hw. pose proof Hw as (e6 & _ & Hle6 & ->). rewrite wp_bind. put_step Hw.
  rewrite wp_bind. eapply (wrote_when _ _ _ _ [(31, [Z.b2z (menu_system_enabled m)])] _ _ Hw).
  { intros _. put_step Hw. exact Hw. }
  clear Hw. intros ? Hw. pose proof Hw as (e8 & _ & Hle8 & ->). rewrite wp_bind.
  eapply (wrote_when _ _ _ _ [(32, [lcd_contrast m]); (33, [lcd_brightness m])] _ _ Hw).
  { intros _. rewrite wp_bind. put_step Hw. put_step Hw. by rewrite <- app_assoc in Hw. }
  clear Hw. intros ? (e9 & He & Hle9 & ->). rewrite wp_bind. apply wp_conf_checksum; [unfold CONF_SIZE; rewrite conf_set_conf; lia|].
  destruct (config_blocks_stored NEED_DISKMUX CONFIG_HW_ADDR_OR_BUTTONS CONFIG_ONBOARD_DISPLAY (stored_flags m)
    (device_address m) (hw_address m (menu_system_enabled m)) (file_extension_mode (chan m)) (Z.land (drive_config (chan m)) 255)
    (Z.land (Z.shiftr (drive_config (chan m)) 8) 255) (Z.land (Z.shiftr (drive_config (chan m)) 16) 255)
    (Z.land (Z.shiftr (Z.shiftr (drive_config (chan m)) 16) 8) 255) (image_as_dir (chan m)) (slice 0 16 (padded name))
    (active_bus m) (Z.b2z (menu_system_enabled m)) (lcd_contrast m) (lcd_brightness m) (conf m'))
    as (e' & He' & Hst & Hdrop & Hlen'); [unfold zlen in Hrl; unfold ROM_NAME_LENGTH in Hrl; lia|done|].
  rewrite <- !app_assoc in He. change (put_blocks _ _) with (put_blocks (config_blocks NEED_DISKMUX CONFIG_HW_ADDR_OR_BUTTONS CONFIG_ONBOARD_DISPLAY (stored_flags m)
    (device_address m) (hw_address m (menu_system_enabled m)) (file_extension_mode (chan m)) [Z.land (drive_config (chan m)) 255;
    (Z.land (Z.shiftr (drive_config (chan m)) 8) 255)] [ (Z.land (Z.shiftr (drive_config (chan m)) 16) 255);
    (Z.land (Z.shiftr (Z.shiftr (drive_config (chan m)) 16) 8) 255)] (image_as_dir (chan m)) (slice 0 16 (padded name))
    (active_bus m) (Z.b2z (menu_system_enabled m)) (lcd_contrast m) (lcd_brightness m)) (conf m')) in He.
  rewrite He' in He. injection He as <-.
  apply wp_conf_put; [done|rewrite conf_set_conf, Hle9; change (zlen [_]) with 1; unfold CONF_CHECKSUM; lia|].
  rewrite conf_set_conf. intros e10 Hs Hl1. rewrite set_conf_twice.
  rewrite store_block_some in Hs by (change (zlen [_]) with 1; unfold CONF_CHECKSUM; lia). injection Hs as <-.
  destruct (splice_checksum e' (checksum_of e' CONF_SIZE) ltac:(lia)) as (Hn & Hs & Hd & Hck).
  apply HQ; [|unfold CONF_CHECKSUM; rewrite Hd; exact Hdrop|rewrite Hl1; exact Hlen'|].
  2: { intros Hb Hold. apply bytes_splice; [by repeat constructor; apply checksum_byte|].
    eapply put_blocks_bytes; [exact He'|by apply config_blocks_bytes|exact Hold]. }
  split.
  - destruct Hst. unfold CONF_CHECKSUM. split; rewrite ?Hn, ?Hs by lia; done.
  - unfold CONF_CHECKSUM, checksum_of in *. rewrite Hck, Hs by lia. done.
Qed.

(** ** Reading *)

Lemma word_back e a x : slice a 2 e = word_bytes x -> 0 <= a -> nthZ e a + 256 * nthZ e (a + 1) = x `mod` 65536.
Proof.
  intros Hs Ha. assert (nthZ e a = Z.land x 255 /\ nthZ e (a + 1) = Z.land (Z.shiftr x 8) 255) as [-> ->].
  { pose proof (f_equal (fun l => nthZ l 0) Hs) as H0'. pose proof (f_equal (fun l => nthZ l 1) Hs) as H1'. cbv beta in *.
    rewrite nthZ_slice in H0', H1' by lia. rewrite Z.add_0_r in H0'. done. }
  change 255 with (Z.ones 8). rewrite !Z.land_ones, Z.shiftr_div_pow2 by lia. change (2 ^ 8) with 256.
  change 65536 with (256 * 256). rewrite Z.rem_mul_r by lia. done.
Qed.

Lemma halves_back x : 0 <= x < 4294967296 ->
  Z.lor (x `mod` 65536) (Z.shiftl (Z.shiftr x 16 `mod` 65536) 16) = x.
Proof.
  intros Hx. change 65536 with (2 ^ 16). apply Z.bits_inj'. intros n Hn. rewrite Z.lor_spec, Z.shiftl_spec by lia.
  destruct (Z.ltb_spec n 16) as [Hlt|Hge].
  - rewrite Z.mod_pow2_bits_low by lia. rewrite (Z.testbit_neg_r _ (n - 16)) by lia. apply orb_false_r.
  - rewrite Z.mod_pow2_bits_high by lia. simpl orb. destruct (Z.ltb_spec (n - 16) 16) as [Hlt|Hge'].
    + rewrite Z.mod_pow2_bits_low, Z.shiftr_spec by lia. f_equal. lia.
    + rewrite Z.mod_pow2_bits_high by lia. rewrite <- (Z.mod_small x (2 ^ 32)) by (change (2 ^ 32) with 4294967296; lia).
      rewrite Z.mod_pow2_bits_high by lia. done.
Qed.

(** The flags after reading. *)
Definition read_flags (g f : Z) : Z := Z.lor (Z.land g (255 - Z.lor POSTMATCH EXTENSION_HIDING)) f.

Lemma read_flags_stored g f :
  Z.land (read_flags g (Z.land f (Z.lor POSTMATCH EXTENSION_HIDING))) (Z.lor POSTMATCH EXTENSION_HIDING)
    = Z.land f (Z.lor POSTMATCH EXTENSION_HIDING) /\
  Z.land (read_flags g (Z.land f (Z.lor POSTMATCH EXTENSION_HIDING))) (255 - Z.lor POSTMATCH EXTENSION_HIDING)
    = Z.land g (255 - Z.lor POSTMATCH EXTENSION_HIDING).
Proof.
  change (255 - Z.lor POSTMATCH EXTENSION_HIDING) with 231. change (Z.lor POSTMATCH EXTENSION_HIDING) with 24.
  unfold read_flags. change (255 - Z.lor POSTMATCH EXTENSION_HIDING) with 231.
  rewrite !Z.land_lor_distr_l, <- !Z.land_assoc. change (Z.land 231 24) with 0. change (Z.land 24 24) with 24.
  change (Z.land 231 231) with 231. change (Z.land 24 231) with 0.
  rewrite !Z.land_0_r. split; [done|]. by rewrite !Z.lor_0_r.
Qed.

(** [m3] has the settings of [m]; what is not stored is as in [m2]. *)
Record restored (m : machine) (name : list Z) (m2 m3 : machine) : Prop := {
  re_flags : Z.land (globalflags (chan m3)) (Z.lor POSTMATCH EXTENSION_HIDING) = stored_flags m;
  re_other : Z.land (globalflags (chan m3)) (255 - Z.lor POSTMATCH EXTENSION_HIDING)
    = Z.land (globalflags (chan m2)) (255 - Z.lor POSTMATCH EXTENSION_HIDING);
  re_address : device_address m3 = device_address m;
  re_ext : file_extension_mode (chan m3) = file_extension_mode (chan m);
  re_drives : drive_config (chan m3) = if NEED_DISKMUX then
      if drive_config (chan m) =? 4294967295 then get_default_driveconfig else drive_config (chan m)
    else drive_config (chan m2);
  re_dirs : image_as_dir (chan m3) = image_as_dir (chan m);
  re_rom : rom_filename (chan m3) = padded name;
  re_bus : active_bus m3 = if HAVE_DUAL_INTERFACE then active_bus m else active_bus m2;
  re_menu : menu_system_enabled m3 = if CONFIG_HW_ADDR_OR_BUTTONS then menu_system_enabled m else menu_system_enabled m2;
  re_contrast : lcd_contrast m3 = if CONFIG_ONBOARD_DISPLAY then lcd_contrast m else lcd_contrast m2;
  re_brightness : lcd_brightness m3 = if CONFIG_ONBOARD_DISPLAY then lcd_brightness m else lcd_brightness m2;
  re_rest : exists c, m_world m3 = set_w_bufs (put_channel c (mbufs_of m2)) (m_world m2)
}.

Lemma wp_when_cases {S} b (c : comp S unit) Q s : (b = true -> wp c Q s) -> (b = false -> Q tt s) -> wp (when b c) Q s.
Proof. intros Ht Hf. destruct b; [by apply Ht|]. simpl when. rewrite wp_ret. by apply Hf. Qed.

Lemma stored_drives e x : slice 9 2 e = word_bytes x -> slice 11 2 e = word_bytes (Z.shiftr x 16) -> 0 <= x < 4294967296 ->
  Z.lor (nthZ e 9 + 256 * nthZ e (9 + 1)) (Z.shiftl (nthZ e 11 + 256 * nthZ e (11 + 1)) 16) = x.
Proof. intros H1' H2' Hx. rewrite (word_back e 9 x), (word_back e 11 (Z.shiftr x 16)) by done. by apply halves_back. Qed.

Lemma padded_stored name : zlen name < 17 ->
  store_block (fill 17 0) 0 (take 16 (padded name)) = Some (padded name).
Proof.
  intros Hn. pose proof (zlen_nonneg name). assert (zlen (padded name) = 17) as Hp by (unfold padded; rewrite zlen_app, zlen_fill; lia).
  assert (length (take 16 (padded name)) = 16%nat) as Ht by (rewrite length_take; unfold zlen in Hp; lia).
  rewrite store_block_some by (unfold zlen; rewrite ?Ht; vm_compute; congruence). f_equal. unfold splice. rewrite Ht.
  change (drop (Z.to_nat 0 + 16) (fill 17 0)) with [0]. change (take (Z.to_nat 0) (fill 17 0)) with (@nil Z). simpl app.
  rewrite <- (take_drop 16 (padded name)) at 2. f_equal. unfold padded. rewrite drop_app_ge by (unfold zlen in Hn; lia).
  unfold fill. rewrite drop_replicate. replace (Z.to_nat (17 - zlen name) - (16 - length name))%nat with 1%nat; [done|].
  unfold zlen in *. lia.
Qed.

Lemma load_configuration_ok m name m2 e Q :
  holds m name e -> conf m2 = e -> 34 <= zlen e -> rom_filename (chan m2) = fill 17 0 -> zlen name < 17 ->
  0 <= drive_config (chan m) < 4294967296 ->
  hw_address m2 (if CONFIG_HW_ADDR_OR_BUTTONS then menu_system_enabled m else menu_system_enabled m2)
    = hw_address m (menu_system_enabled m) ->
  (forall m3, restored m name m2 m3 -> Q tt m3) -> wp (load_configuration 34) Q m2.
Proof.
  intros [[[] ? ? ? ? Hdr ? ? ? Hmenu Hlcd] _] He Hl Hrom Hname Hdc Hhw HQ. unfold load_configuration, load_address, load_drives, hw_addr, flag_off, flag_on.
  unfold CONF_MENU_SYSTEM_ENABLED, CONF_GLOBAL_FLAGS, CONF_HARDADDRESS, CONF_ADDRESS, CONF_FILEEXTS, CONF_DRVCONFIG0,
    CONF_DRVCONFIG1, CONF_IMAGEDIRS, CONF_ROMNAME, CONF_ACTIVE_BUS, CONF_LCD_CONTRAST, CONF_LCD_BRIGHTNESS.
  change (31 <? 34) with true. change (13 <? 34) with true. change (29 <? 34) with true. change (30 <? 34) with true.
  change (32 <? 34) with true. rewrite !andb_true_r.
  assert (forall a Q m', conf m' = e -> 0 <= a < 34 -> Q (nthZ e a) m' -> wp (conf_byte a) Q m') as Hbyte.
  { intros a R m' Hm' Ha HR. apply wp_conf_byte; rewrite Hm'; [lia|done]. }
  assert (forall a Q m', conf m' = e -> 0 <= a < 33 -> Q (nthZ e a + 256 * nthZ e (a + 1)) m' -> wp (conf_word a) Q m') as Hword.
  { intros a R m' Hm' Ha HR. apply wp_conf_word; rewrite ?Hm'; [lia..|done]. }
  rewrite wp_bind. eapply (wp_mono _ (fun _ m' => m' = set_menu_system_enabled
    (if CONFIG_HW_ADDR_OR_BUTTONS then menu_system_enabled m else menu_system_enabled m2) m2)).
  { apply wp_when_cases; intros Hb; rewrite Hb.
    - rewrite wp_bind. apply Hbyte; [done..|]. rewrite wp_modify, Hmenu by done. by destruct (menu_system_enabled m).
    - by destruct m2. }
  intros u m' ->. clear u. rewrite wp_bind. apply Hbyte; [done..|].
  rewrite wp_bind, wp_upd_settings, wp_bind, wp_upd_settings, wp_bind, wp_bind, wp_gets.
  rewrite wp_bind. apply Hbyte; [done..|]. rewrite wp_bind. apply Hbyte; [done..|].
  rewrite wp_bind, wp_modify, wp_ret.
  rewrite st_haddr0, st_addr0, st_flags0.
  match goal with |- context [negb (?x =? hw_address m ?y)] =>
    change x with (hw_address m2 (if CONFIG_HW_ADDR_OR_BUTTONS then menu_system_enabled m else menu_system_enabled m2)) end.
  rewrite Hhw, Z.eqb_refl. cbn [negb]. set (m4 := set_device_address _ _).
  rewrite wp_bind. apply Hbyte; [done..|]. rewrite wp_bind, wp_upd_settings, st_ext0.
  set (ext := file_extension_mode (chan m)). set (m5 := upd_chan _ m4).
  set (drives := if NEED_DISKMUX then if drive_config (chan m) =? 4294967295 then get_default_driveconfig else drive_config (chan m)
    else drive_config (chan m2)).
  rewrite wp_bind. eapply (wp_mono _ (fun _ m' => m' = upd_chan (set_drive_config drives) m5)).
  { unfold drives. apply wp_when_cases; intros Hb; rewrite Hb.
    - destruct (Hdr Hb) as [Hd1 Hd2]. rewrite wp_bind. change (9 <? 34) with true. cbn [when].
      rewrite wp_bind. apply Hword; [done..|]. rewrite wp_bind. apply Hword; [done..|].
      rewrite (stored_drives e _ Hd1 Hd2 Hdc), wp_upd_settings, wp_bind, wp_get_settings.
      unfold put_drive_config. rewrite Hb.
      match goal with |- context [drive_config ?x =? 4294967295] => change (drive_config x) with (drive_config (chan m)) end.
      apply wp_when_cases; intros Hff; rewrite Hff; [by rewrite wp_upd_settings|done].
    - destruct m2 as [w]. destruct w as [b]. destruct b as [? ? ? ? ? c]. by destruct c. }
  intros u m' ->. clear u. rewrite wp_bind. cbn [when]. rewrite wp_bind. apply Hbyte; [done..|]. rewrite wp_upd_settings, st_dirs0.
  set (m6 := upd_chan _ (upd_chan _ _)). assert (conf m6 = e) as H6' by done.
  rewrite wp_bind, wp_bind. apply wp_conf_block; [done..|rewrite H6'; unfold ROM_NAME_LENGTH; lia|].
  rewrite H6'. change (slice 14 ROM_NAME_LENGTH e) with (slice 14 16 e). rewrite st_rom0, wp_bind, wp_get_settings, wp_bind. change (rom_filename (chan m6)) with (rom_filename (chan m2)).
  rewrite Hrom. eapply wp_of_option; [by apply padded_stored|]. rewrite wp_upd_settings.
  set (m7 := upd_chan _ m6). assert (conf m7 = e) as H7' by done.
  rewrite wp_bind. eapply (wp_mono _ (fun _ m' => m' = set_active_bus
    (if HAVE_DUAL_INTERFACE then active_bus m else active_bus m2) m7)).
  { apply wp_when_cases; intros Hb; rewrite Hb; [|by destruct m2].
    rewrite wp_bind. apply Hbyte; [done..|]. by rewrite wp_modify, st_bus0. }
  intros u m' ->. clear u. rewrite wp_bind. eapply (wp_mono _ (fun _ m' => m' = set_lcd_brightness
    (if CONFIG_ONBOARD_DISPLAY then lcd_brightness m else lcd_brightness m2) (set_lcd_contrast
    (if CONFIG_ONBOARD_DISPLAY then lcd_contrast m else lcd_contrast m2)
    (set_active_bus (if HAVE_DUAL_INTERFACE then active_bus m else active_bus m2) m7)))).
  { apply wp_when_cases; intros Hb; rewrite Hb; [|by destruct m2]. destruct (Hlcd Hb) as [Hc Hbr].
    rewrite wp_bind. apply Hbyte; [done..|]. rewrite wp_bind. apply Hbyte; [done..|]. by rewrite wp_modify, Hc, Hbr. }
  intros u m' ->. clear u. simpl when. rewrite wp_ret. apply HQ.
  destruct (read_flags_stored (globalflags (chan m2)) (globalflags (chan m))) as [Hf Ho]. split; try done.
  eexists. reflexivity.
Qed.

(** After the defaults and the checks. *)
Lemma read_configuration_ok m name m2 Q :
  holds m name (conf m2) -> 34 <= zlen (conf m2) -> zlen name < 17 -> 0 <= drive_config (chan m) < 4294967296 ->
  hw_address m2 (if CONFIG_HW_ADDR_OR_BUTTONS then menu_system_enabled m else menu_system_enabled m2)
    = hw_address m (menu_system_enabled m) ->
  (forall m3, restored m name m2 m3 -> Q tt m3) -> wp read_configuration Q m2.
Proof.
  intros Hholds Hl Hname Hdc Hhw HQ. unfold read_configuration, flag_on.
  rewrite wp_bind, wp_upd_settings, wp_bind, wp_upd_settings, wp_bind, wp_upd_settings, wp_bind, wp_upd_settings.
  set (m4 := upd_chan _ (upd_chan _ _)). assert (conf m4 = conf m2) as H4' by done.
  pose proof Hholds as [Hst Hck]. destruct (st_size _ _ _ _ _ _ _ _ _ _ _ _ _ _ _ _ Hst) as [H2' H3'].
  rewrite wp_bind. apply wp_conf_word; [done|rewrite H4'; unfold CONF_STRUCTSIZE; lia|].
  rewrite H4'. change (nthZ (conf m2) CONF_STRUCTSIZE) with (nthZ (conf m2) 2). change (CONF_STRUCTSIZE + 1) with 3.
  rewrite H2', H3'. change (34 + 256 * 0) with 34. change (34 =? 65535) with false. cbv iota.
  rewrite wp_bind. apply wp_conf_checksum; [rewrite H4'; lia|]. rewrite wp_bind. apply wp_conf_byte; [rewrite H4'; unfold CONF_CHECKSUM; lia|].
  rewrite H4'. change (nthZ (conf m2) CONF_CHECKSUM) with (nthZ (conf m2) 1). rewrite Hck, Z.eqb_refl. cbn [negb].
  apply (load_configuration_ok m name m4 (conf m2)); [done..|]. intros m3 []. apply HQ. split; try done.
  - assert (globalflags (chan m4) = Z.lor (globalflags (chan m2)) POSTMATCH) as Hg.
    { subst m4. unfold upd_chan, chan, mbufs_of, put_drive_config. by destruct NEED_DISKMUX. }
    rewrite re_other0, Hg. by rewrite Z.land_lor_distr_l, Z.lor_0_r.
  - rewrite re_drives0. subst m4. unfold upd_chan, chan, mbufs_of, put_drive_config. by destruct NEED_DISKMUX.
Qed.

(** ** The file system in the rest of the EEPROM *)

Context `{!EepromGeomOk}.

Lemma slice_outside (e e' : list Z) i n : drop 34 e' = drop 34 e -> 34 <= i -> slice i n e' = slice i n e.
Proof.
  intros Hd Hi. unfold slice. f_equal. replace (Z.to_nat i) with (34 + (Z.to_nat i - 34))%nat by lia.
  by rewrite <- !drop_drop, Hd.
Qed.

Lemma fs_inv_outside s files e :
  34 <= EEPROMFS_OFFSET -> drop 34 e = drop 34 (eeprom s) -> zlen e = zlen (eeprom s) -> bytes e ->
  fs_inv s files -> fs_inv (set_eeprom e s) files /\ view (set_eeprom e s) files = view s files.
Proof.
  intros Hoff Hdrop Hlen Hb [Hwf Hdisk Hmaps].
  assert (forall j, 0 <= j < EEPROMFS_ENTRIES -> ent (set_eeprom e s) j = ent s j) as Hent.
  { intros j Hj. apply slice_outside; [done|]. unfold entry_addr, ENTRY_SIZE. lia. }
  split.
  - split; [|by apply (disk_ok_ext (ent s))|by destruct Hmaps].
    destruct Hwf. split; try done. cbn [eeprom set_eeprom]. lia.
  - unfold view. apply map_fmap_ext. intros n f Hf. unfold f_data. pose proof (dk_file _ _ Hdisk n f Hf) as Hok.
    rewrite Hent by (eapply chain_entry_range; [apply Hok|apply f_first_in, Hok]). f_equal. apply content_ext. intros x Hx.
    unfold same_sector. apply slice_outside; [done|].
    pose proof (chain_sector_range _ _ _ (fo_chain _ _ _ Hok) Hx). pose proof geom_entries. pose proof geom_sectorsize.
    unfold sector_addr, DATA_OFFSET, ENTRY_SIZE. nia.
Qed.

(** C19: What [write_configuration] stores in the EEPROM, [read_configuration]
    brings back after a restart with the same jumpers; the file system behind
    it in the EEPROM keeps its invariant and the contents of its files. *)
Theorem configuration_roundtrip m name files
  (Hrom : rom_ok m name) (Hbytes : config_bytes m name) (Hdrives : 0 <= drive_config (chan m) < 4294967296)
  (Hoff : 34 <= EEPROMFS_OFFSET) (Hfs : fs_inv (w_eefs (m_world m)) files) :
  wp write_configuration (fun _ m1 =>
    fs_inv (w_eefs (m_world m1)) files /\ view (w_eefs (m_world m1)) files = view (w_eefs (m_world m)) files /\
    forall m2, w_eefs (m_world m2) = w_eefs (m_world m1) ->
      hw_address m2 (if CONFIG_HW_ADDR_OR_BUTTONS then menu_system_enabled m else menu_system_enabled m2)
        = hw_address m (menu_system_enabled m) ->
      wp read_configuration (fun _ m3 => restored m name m2 m3) m2) m.
Proof.
  pose proof (fi_base _ _ Hfs) as Hwf. pose proof (wb_eeprom _ Hwf) as Hlen. pose proof geom_size. pose proof geom_entries.
  assert (34 <= zlen (conf m)) as Hl by (unfold conf, ENTRY_SIZE in *; lia).
  assert (zlen name < 17) as Hname by (destruct Hrom as [Hn <-]; by apply strz_short).
  apply (write_configuration_ok m name); [done..|]. intros e Hholds Hdrop Hzlen Hb.
  destruct (fs_inv_outside (w_eefs (m_world m)) files e Hoff Hdrop Hzlen (Hb Hbytes (wb_eeprom_bytes _ Hwf)) Hfs) as [Hinv Hview].
  split; [exact Hinv|]. split; [exact Hview|]. intros m2 Hm2 Hhw. assert (conf m2 = e) as He by (unfold conf; by rewrite Hm2).
  eapply (read_configuration_ok m name); [by rewrite He|rewrite He; lia|done..|]. done.
Qed.
End config.

(** ** The witness *)
#[local] Existing Instance sample_asserts.
#[local] Existing Instance demo_config.
#[local] Existing Instance six_buffers.

#[local] Existing Instance avr_geom.

(** Two settings differ from the ones after start-up. *)
Definition rom_name : list Z := [68; 79; 83; 46; 66; 73; 78].
Definition configured_machine : @machine names_fatfs :=
  upd_chan (set_rom_filename (rom_name ++ fill 10 0)) (upd_chan (set_image_as_dir 2) (demo_machine [])).

Definition with_eeprom (e : eefs) (m : @machine names_fatfs) : @machine names_fatfs :=
  set_m_world (set_w_eefs e (m_world m)) m.

Lemma configuration_roundtrip_witness :
  wp (write_configuration (H := names_fatfs) (H5 := demo_board)) (fun _ m1 =>
    view (w_eefs (m_world m1)) ∅ = ∅ /\
    wp (read_configuration (H := names_fatfs) (H5 := demo_board))
      (fun _ m3 => image_as_dir (chan m3) = 2 /\ rom_filename (chan m3) = rom_name ++ fill 10 0)
      (with_eeprom (w_eefs (m_world m1)) (demo_machine []))) configured_machine.
Proof.
  pose proof (configuration_roundtrip (H := names_fatfs) (H5 := demo_board) configured_machine rom_name ∅) as Hw.
  eapply wp_mono; [apply Hw; clear Hw|].
  - by split.
  - split; try (vm_compute; by split). repeat (apply Forall_cons; split; [vm_compute; by split|]). apply Forall_nil_2.
  - vm_compute. by split.
  - vm_compute. discriminate.
  - exact blank_inv.
  - intros u m1 (_ & Hview & Hread). split; [exact Hview|].
    eapply wp_mono; [apply Hread|].
    + reflexivity.
    + reflexivity.
    + intros u' m3 []. split; [exact re_dirs0|exact re_rom0].
Defined.
