(* ===== verification/IeeeFacts.v ===== *)
(** * Facts about the bus that hold for every host

    The rules for an access to a port and for the computations of the device
    inside a state of the bus. *)

From stdpp Require Import gmap.
From S2P Require Import Prelude EepromFs ErrorMsg Utils Buffers BuffersTheorems FatFs Dirent World D64Geom D64 D64Files D64Ops.
From S2P Require Import EefsOps FatNames FatFile Callbacks FatOps WrapOps Parser DirLines FileOps DosFiles Machine Config.
From S2P Require Import DosBlock DosMemory DosTime DosCmd Ieee MachineFacts.

Section facts.
Context `{FatFs} `{EepromGeom} `{Assertions} `{ErrorConfig} `{BufferConfig} `{SystemConfig} `{BoardConfig}.
Context `{!DiskDrivers} `{!Fastloaders} `{BusHost} `{IeeeConfig}.

(** The state [s] with other pins, host and ATN flag. *)
Definition at_bus (s : ieee) (p : pins_t) (h : HOST) (a : bool) : ieee :=
  set_pins p (set_host h (set_ieee488_ATN_received a s)).

Definition put_ndac (x : bool) (s : ieee) : ieee := set_pins (set_ndac_port x (pins s)) s.

Definition put_nrfd (x : bool) (s : ieee) : ieee := set_pins (set_nrfd_port x (pins s)) s.

Lemma wp_SetNDAC x Q s' : wp port_step (fun _ s'' => Q tt (put_ndac x s'')) s' -> wp (ieee488_SetNDAC x) Q s'.
Proof. intros Hw. unfold ieee488_SetNDAC, port_write. rewrite wp_bind. eapply wp_mono; [exact Hw|]. intros i s'' HQ. by rewrite wp_modify. Qed.

Lemma wp_SetNRFD x Q s' : wp port_step (fun _ s'' => Q tt (put_nrfd x s'')) s' -> wp (ieee488_SetNRFD x) Q s'.
Proof. intros Hw. unfold ieee488_SetNRFD, port_write. rewrite wp_bind. eapply wp_mono; [exact Hw|]. intros i s'' HQ. by rewrite wp_modify. Qed.

Lemma wp_port_read {A} (f : inputs -> A) Q s' : wp port_step (fun i s'' => Q (f i) s'') s' -> wp (port_read f) Q s'.
Proof. intros Hw. unfold port_read. rewrite wp_bind. eapply wp_mono; [exact Hw|]. intros i s'' HQ. by rewrite wp_ret. Qed.

Lemma wp_atn_flag (Q : bool -> ieee -> Prop) s' :
  wp port_step (fun _ s'' => Q (ieee488_ATN_received s'') s'') s' -> wp ATN_received Q s'.
Proof.
  intros Hw. unfold ATN_received, get_bus. rewrite wp_bind. eapply wp_mono; [exact Hw|]. intros i s'' HQ.
  by rewrite wp_bind, wp_gets, wp_ret.
Qed.

(** IFC is never pulled: the test is a step or nothing. *)
Lemma wp_CheckIFC (Q : bool -> ieee -> Prop) s' :
  wp port_step (fun i s'' => in_ifc i = true /\ Q false s'') s' -> Q false s' -> wp ieee488_CheckIFC Q s'.
Proof.
  intros Hw HQ. unfold ieee488_CheckIFC, ieee488_IFC. destruct HAVE_IFC; [|by rewrite wp_ret].
  rewrite wp_bind. apply wp_port_read. eapply wp_mono; [exact Hw|]. intros i s'' [-> HQ']. by rewrite wp_ret.
Qed.

Definition with_machine (m : machine) (s : ieee) : ieee := set_ie_m m s.

Lemma wp_on_machine {A} (c : comp machine A) Q s' :
  wp (on_machine c) Q s' = wp c (fun x m => Q x (with_machine m s')) (ie_m s').
Proof. apply wp_zoom. Qed.

Lemma with_machine_twice m m' s : with_machine m (with_machine m' s) = with_machine m s.
Proof. done. Qed.

Definition pool (s : ieee) : bufs := mbufs_of (ie_m s).

Lemma with_machine_same s : with_machine (ie_m s) s = s.
Proof. by destruct s. Qed.

Lemma wp_on_pool_same {A} (c : comp bufs A) Q s :
  wp c (fun r b => b = pool s /\ Q r s) (pool s) -> wp (on_pool c) Q s.
Proof.
  intros Hc. unfold on_pool. rewrite wp_on_machine, wp_mbufs. eapply wp_mono; [exact Hc|]. intros r b [-> HQ]. unfold pool, mbufs_of.
  replace (set_w_bufs (w_bufs (m_world (ie_m s))) (m_world (ie_m s))) with (m_world (ie_m s)) by (by destruct (m_world (ie_m s))).
  replace (set_m_world (m_world (ie_m s)) (ie_m s)) with (ie_m s) by (by destruct (ie_m s)). by rewrite with_machine_same.
Qed.

Lemma wp_find_buffer sa Q s :
  bufs_ok (pool s) ->
  (forall r, (forall i, r = Some i -> exists b, 0 <= i /\ buffers (pool s) !! Z.to_nat i = Some b /\ allocated b = true /\ secondary b = sa) ->
     (r = None -> forall j b, 0 <= j <= CONFIG_BUFFER_COUNT -> buffers (pool s) !! Z.to_nat j = Some b -> allocated b = true -> secondary b <> sa) ->
     Q r s) ->
  wp (on_pool (find_buffer sa)) Q s.
Proof.
  intros Hb HQ. apply wp_on_pool_same. eapply wp_mono; [by apply find_buffer_ok|]. intros r b [-> Hr]. split; [done|]. apply HQ.
  - intros i ->. cbv beta iota zeta in Hr. destruct Hr as (Hi & (b' & ? & ? & ?) & _). exists b'. by split_and!; [lia|..].
  - intros -> j b' Hj Hlk Ha Hsec. cbv beta iota zeta in Hr. apply (Hr j Hj). by exists b'.
Qed.

Lemma wp_buf_get i b Q s : 0 <= i -> buffers (pool s) !! Z.to_nat i = Some b -> Q b s -> wp (on_pool (buf_get i)) Q s.
Proof. intros Hi Hb HQ. apply wp_on_pool_same. eapply wp_intro; [by apply buf_get_run|]. done. Qed.
End facts.
