(* ===== verification/IeeeTheorems.v ===== *)
(** * The theorems about the bus: receiving

    The device against the controller of BusHosts.v, for every list of
    delays from [D] to [W] steps. *)

From stdpp Require Import gmap.
From S2P Require Import Prelude EepromFs ErrorMsg Utils Buffers BuffersTheorems FatFs Dirent World D64Geom D64 D64Files D64Ops.
From S2P Require Import EefsOps FatNames FatFile Callbacks FatOps WrapOps Parser DirLines FileOps DosFiles Machine Config.
From S2P Require Import DosBlock DosMemory DosTime DosCmd Ieee IeeeFacts BusHosts MachineFacts.
From S2P Require Import D64Demo DemoWorld ErrorMsgTheorems EepromFsTheorems.

Section receiving.
Context `{FatFs} `{EepromGeom} `{Assertions} `{ErrorConfig} `{BufferConfig} `{SystemConfig} `{BoardConfig}.
Context `{!DiskDrivers} `{!Fastloaders} `{IeeeConfig}.
#[local] Existing Instance controller_host.
Context (stack_dent : cbmdirent_t) (copy_fuel bus_fuel : nat).

(** The controller reacts within [D] to [W] steps; five steps are what the
    device needs from the end of a loop to the test of the ATN flag. *)
Context (D W : nat).
Context (HD : (5 <= D)%nat) (HD8 : (D <= 8)%nat) (HW : (8 <= W)%nat).
Context (Hfuel : (W + 4 < bus_fuel)%nat).

Definition delays_ok (h : controller) : Prop := Forall (fun d => D <= d <= W)%nat (c_delays h).

Lemma delay_ok h : delays_ok h -> (D <= delay h <= W)%nat.
Proof. unfold delay, delays_ok. intros Hd. destruct (c_delays h) as [|d ds]; simpl; [unfold default_delay; lia|]. by apply Forall_cons in Hd as [? _]. Qed.

Lemma delays_ok_tl h : delays_ok h -> Forall (fun d => D <= d <= W)%nat (tl (c_delays h)).
Proof. unfold delays_ok. intros Hd. destruct (c_delays h); [done|]. by apply Forall_cons in Hd as [_ ?]. Qed.

(** The controller waits to send [items]; the timer is at least [lo]. *)
Record setup (items : list item) (lo : nat) (h : controller) : Prop := {
  su_valid : c_valid h = false;
  su_script : c_script h = items;
  su_timer : (lo <= c_timer h <= W)%nat;
  su_delays : delays_ok h
}.
(** The first of [items] is on the bus. *)
Record valid (items : list item) (h : controller) : Prop := {
  va_valid : c_valid h = true;
  va_script : c_script h = items;
  va_timer : (c_timer h <= W)%nat;
  va_delays : delays_ok h
}.

(** The pins of a listening device. *)
Record listen_pins (nd nr : bool) (p : pins_t) : Prop := {
  lp_te : te_port p = false;
  lp_ndac_ddr : ndac_ddr p = true;
  lp_nrfd_ddr : nrfd_ddr p = true;
  lp_ndac : ndac_port p = nd;
  lp_nrfd : nrfd_port p = nr
}.

(** The device listens with the bus drivers in that mode. *)
Record listening (s : ieee) : Prop := {
  li_te0 : ieee488_TE75160 s = false;
  li_te1 : ieee488_TE75161 s = false;
  li_int : atn_interrupt s = true
}.

Lemma next_event_setup script pulled h : delays_ok h -> setup script D (next_event script false pulled h).
Proof.
  intros Hd. pose proof (delays_ok_tl h Hd) as Ht.
  split; try done. cbn. destruct (tl (c_delays h)) as [|d ds]; cbn; [unfold default_delay; lia|].
  apply Forall_cons in Ht as [? _]. lia.
Qed.

Lemma next_event_valid script pulled h : delays_ok h -> valid script (next_event script true pulled h).
Proof.
  intros Hd. pose proof (delays_ok_tl h Hd) as Ht.
  split; try done. cbn. destruct (tl (c_delays h)) as [|d ds]; cbn; [unfold default_delay; lia|].
  apply Forall_cons in Ht as [? _]. lia.
Qed.

(** ** Moves of the controller *)

Definition seen (nd nr : bool) : lines := Lines nd nr true true 255.

Lemma move_same items lo h nd nr i r :
  setup items lo h -> items = i :: r -> i_atn i = c_pulled h ->
  let h' := controller_move (seen nd nr) h in
  c_pulled h' = c_pulled h /\
  if nr && negb nd then
    (setup items (pred lo) h' /\ c_timer h = S (c_timer h')) \/ (lo = 0%nat /\ valid items h' /\ c_timer h = 0%nat)
  else setup items D h'.
Proof.
  intros [Hv Hs Ht Hd] Hi Ha. unfold controller_move. rewrite Hv, Hs, Hi, Ha, Bool.eqb_reflx. cbn [l_nrfd l_ndac seen].
  destruct (nr && negb nd).
  - unfold after_delay. destruct (c_timer h) as [|n] eqn:Hn.
    + split; [done|]. right. split; [lia|]. split; [|done]. by apply next_event_valid.
    + split; [done|]. left. split; [|done]. split; cbn; [done|congruence|lia|done].
  - split; [done|]. pose proof (delay_ok h Hd). split; cbn; [done|congruence|lia|done].
Qed.

Lemma move_other items lo h nd nr i r :
  setup items lo h -> items = i :: r -> i_atn i = negb (c_pulled h) ->
  let h' := controller_move (seen nd nr) h in
  (c_pulled h' = c_pulled h /\ setup items (pred lo) h' /\ c_timer h = S (c_timer h')) \/
  (lo = 0%nat /\ c_pulled h' = i_atn i /\ setup items D h' /\ c_timer h = 0%nat).
Proof.
  intros [Hv Hs Ht Hd] Hi Ha. unfold controller_move. rewrite Hv, Hs, Hi, Ha.
  replace (Bool.eqb (negb (c_pulled h)) (c_pulled h)) with false by (by destruct (c_pulled h)).
  unfold after_delay. destruct (c_timer h) as [|n] eqn:Hn.
  - right. split; [lia|]. split; [done|]. split; [|done]. by apply next_event_setup.
  - left. split; [done|]. split; [|done]. split; cbn; [done|congruence|lia|done].
Qed.

Lemma move_end lo h nd nr :
  setup [] lo h -> let h' := controller_move (seen nd nr) h in
  setup [] 0 h' /\
  if c_pulled h then (c_pulled h' = true /\ c_timer h = S (c_timer h')) \/ c_pulled h' = false else c_pulled h' = false.
Proof.
  intros [Hv Hs Ht Hd]. unfold controller_move. rewrite Hv, Hs. unfold after_delay. destruct (c_pulled h) eqn:Hp.
  - destruct (c_timer h) as [|n] eqn:Hn.
    + split; [|by right]. destruct (next_event_setup [] false h Hd). split; [done|done|lia|done].
    + split; [split; cbn; [done|done|lia|done]|]. by left.
  - split; [split; [done|done|lia|done]|done].
Qed.

Lemma move_valid items h nd nr :
  valid items h -> let h' := controller_move (seen nd nr) h in
  c_pulled h' = c_pulled h /\
  if nd then (valid items h' /\ c_timer h = S (c_timer h')) \/ setup (tl items) D h' else valid items h'.
Proof.
  intros [Hv Hs Ht Hd]. unfold controller_move. rewrite Hv, Hs. cbn [l_ndac seen]. destruct nd.
  - unfold after_delay. destruct (c_timer h) as [|n] eqn:Hn.
    + split; [done|]. right. by apply next_event_setup.
    + split; [done|]. left. split; [|done]. split; cbn; [done|congruence|lia|done].
  - split; [done|]. pose proof (delay_ok h Hd). split; cbn; [done|congruence|lia|done].
Qed.

(** ** Steps of the device *)

Lemma lines_of_listen nd nr p : listen_pins nd nr p -> lines_of p = seen nd nr.
Proof.
  intros [Hte Hd Hr Hn Hf]. unfold lines_of. rewrite Hte, Hd, Hr, Hn, Hf. unfold released, seen. simpl.
  by rewrite !andb_false_r.
Qed.

Definition step_inputs (nd nr : bool) (h : controller) : inputs := (controller_step (seen nd nr) h).1.

Lemma wp_port_step (Q : inputs -> ieee -> Prop) s p h a nd nr :
  listening s -> listen_pins nd nr p ->
  (let h' := controller_move (seen nd nr) h in
   if negb (c_pulled h) && c_pulled h'
   then forall p', listen_pins true false p' -> Q (step_inputs nd nr h) (at_bus s p' h' true)
   else Q (step_inputs nd nr h) (at_bus s p h' a)) ->
  wp port_step Q (at_bus s p h a).
Proof.
  intros Hs Hp HQ. unfold port_step, get_bus. rewrite wp_bind, wp_gets. cbv beta. unfold id.
  change (pins (at_bus s p h a)) with p. change (host (at_bus s p h a)) with h. rewrite (lines_of_listen nd nr p Hp).
  unfold bus_step, controller_host. rewrite (surjective_pairing (controller_step (seen nd nr) h)).
  change (controller_step (seen nd nr) h).2 with (controller_move (seen nd nr) h). rewrite wp_bind, wp_modify, wp_bind.
  change (atn_interrupt (at_bus s p h a)) with (atn_interrupt s). rewrite (li_int s Hs), andb_true_r.
  change (atn_fell (controller_step (seen nd nr) h).1) with (negb (c_pulled h) && c_pulled (controller_move (seen nd nr) h)).
  cbv zeta in HQ. destruct (negb (c_pulled h) && c_pulled (controller_move (seen nd nr) h)); simpl when.
  - rewrite wp_modify, wp_ret. apply (HQ (INT0_vect p)). by split.
  - rewrite !wp_ret. exact HQ.
Qed.

(** The state is [s] on a bus where the controller waits, or sends. *)
Definition at_setup (s : ieee) (nd nr : bool) (items : list item) (lo : nat) (pulled a : bool) (s' : ieee) : Prop :=
  exists p h, listen_pins nd nr p /\ setup items lo h /\ c_pulled h = pulled /\ s' = at_bus s p h a.
Definition at_valid (s : ieee) (nd nr : bool) (items : list item) (pulled a : bool) (s' : ieee) : Prop :=
  exists p h, listen_pins nd nr p /\ valid items h /\ c_pulled h = pulled /\ s' = at_bus s p h a.
Definition timer (s : ieee) : nat := c_timer (host s).

(** What the device reads while nothing is on the bus, or an item. *)
Definition reads_idle (pulled : bool) (i : inputs) : Prop := in_dav i = true /\ in_atn i = negb pulled /\ in_ifc i = true.
Definition reads_item (it : item) (pulled : bool) (i : inputs) : Prop :=
  in_dav i = false /\ in_atn i = negb pulled /\ in_ifc i = true /\ in_data i = 255 - i_byte it /\ in_eoi i = negb (i_eoi it).

Lemma reads_idle_eq nd nr h : c_valid (controller_move (seen nd nr) h) = false ->
  reads_idle (c_pulled (controller_move (seen nd nr) h)) (step_inputs nd nr h).
Proof. intros Hv. unfold reads_idle, step_inputs, controller_step. cbn. by rewrite Hv. Qed.

Lemma reads_item_eq nd nr h it r : valid (it :: r) (controller_move (seen nd nr) h) ->
  reads_item it (c_pulled (controller_move (seen nd nr) h)) (step_inputs nd nr h).
Proof.
  intros [Hv Hs _ _]. unfold reads_item, step_inputs, controller_step. cbn. unfold byte_on_bus. rewrite Hv, Hs. by split_and!.
Qed.

Lemma step_same (Q : inputs -> ieee -> Prop) s nd nr it r lo pulled a s' :
  listening s -> at_setup s nd nr (it :: r) lo pulled a s' -> i_atn it = pulled ->
  (forall i s'', reads_idle pulled i -> at_setup s nd nr (it :: r) (if nr && negb nd then pred lo else D) pulled a s'' ->
     (nr && negb nd = true -> timer s' = S (timer s'')) -> Q i s'') ->
  (nr && negb nd = true -> lo = 0%nat -> forall i s'', reads_item it pulled i -> at_valid s nd nr (it :: r) pulled a s'' ->
     timer s' = 0%nat -> Q i s'') ->
  wp port_step Q s'.
Proof.
  intros Hs (p & h & Hp & Hsu & Hpu & ->) Hit Hidle Hitem. apply (wp_port_step _ s p h a nd nr Hs Hp). cbv zeta.
  destruct (move_same _ lo h nd nr it r Hsu eq_refl ltac:(congruence)) as [Hp' Hm].
  replace (negb (c_pulled h) && c_pulled (controller_move (seen nd nr) h)) with false by (rewrite Hp'; by destruct (c_pulled h)).
  destruct (nr && negb nd) eqn:Hready.
  - destruct Hm as [[Hm Ht]|(Hlo & Hm & Ht)].
    + apply Hidle; [|by exists p, (controller_move (seen nd nr) h); split_and!; [..|congruence|]|done].
      rewrite <- Hpu, <- Hp'. apply reads_idle_eq, Hm.
    + apply Hitem; [done|done| |by exists p, (controller_move (seen nd nr) h); split_and!; [..|congruence|]|done].
      rewrite <- Hpu, <- Hp'. by apply (reads_item_eq nd nr h it r).
  - apply Hidle; [|by exists p, (controller_move (seen nd nr) h); split_and!; [..|congruence|]|done].
    rewrite <- Hpu, <- Hp'. apply reads_idle_eq, Hm.
Qed.

Lemma step_other (Q : inputs -> ieee -> Prop) s nd nr it r lo pulled a s' :
  listening s -> at_setup s nd nr (it :: r) lo pulled a s' -> i_atn it = negb pulled ->
  (forall i s'', reads_idle pulled i -> at_setup s nd nr (it :: r) (pred lo) pulled a s'' -> timer s' = S (timer s'') -> Q i s'') ->
  (lo = 0%nat -> pulled = true -> forall i s'', reads_idle false i -> at_setup s nd nr (it :: r) D false a s'' -> Q i s'') ->
  (lo = 0%nat -> pulled = false -> forall i s'', reads_idle true i -> at_setup s true false (it :: r) D true true s'' -> Q i s'') ->
  wp port_step Q s'.
Proof.
  intros Hs (p & h & Hp & Hsu & Hpu & ->) Hit Hsame Hrise Hfall. apply (wp_port_step _ s p h a nd nr Hs Hp). cbv zeta.
  destruct (move_other _ lo h nd nr it r Hsu eq_refl ltac:(congruence)) as [(Hp' & Hm & Ht)|(Hlo & Hp' & Hm & Ht)].
  - replace (negb (c_pulled h) && c_pulled (controller_move (seen nd nr) h)) with false by (rewrite Hp'; by destruct (c_pulled h)).
    apply Hsame; [|by exists p, (controller_move (seen nd nr) h); split_and!; [..|congruence|]|done].
    rewrite <- Hpu, <- Hp'. apply reads_idle_eq, Hm.
  - rewrite Hp', Hit, Hpu. destruct pulled; simpl.
    + apply Hrise; [done|done| |exists p, (controller_move (seen nd nr) h); split_and!; [done|done|by rewrite Hp', Hit|done]].
      assert (c_pulled (controller_move (seen nd nr) h) = false) as <- by (by rewrite Hp', Hit). apply reads_idle_eq, Hm.
    + intros p' Hl'. apply Hfall; [done|done| |exists p', (controller_move (seen nd nr) h); split_and!; [done|done|by rewrite Hp', Hit|done]].
      assert (c_pulled (controller_move (seen nd nr) h) = true) as <- by (by rewrite Hp', Hit). apply reads_idle_eq, Hm.
Qed.

Lemma step_valid (Q : inputs -> ieee -> Prop) s nd nr it r pulled a s' :
  listening s -> at_valid s nd nr (it :: r) pulled a s' ->
  (forall i s'', reads_item it pulled i -> at_valid s nd nr (it :: r) pulled a s'' -> (nd = true -> timer s' = S (timer s'')) -> Q i s'') ->
  (nd = true -> forall i s'', reads_idle pulled i -> at_setup s nd nr r D pulled a s'' -> Q i s'') ->
  wp port_step Q s'.
Proof.
  intros Hs (p & h & Hp & Hva & Hpu & ->) Hitem Hidle. apply (wp_port_step _ s p h a nd nr Hs Hp). cbv zeta.
  destruct (move_valid _ h nd nr Hva) as [Hp' Hm].
  replace (negb (c_pulled h) && c_pulled (controller_move (seen nd nr) h)) with false by (rewrite Hp'; by destruct (c_pulled h)).
  destruct nd.
  - destruct Hm as [[Hm Ht]|Hm].
    + apply Hitem; [|by exists p, (controller_move (seen true nr) h); split_and!; [..|congruence|]|done].
      rewrite <- Hpu, <- Hp'. by apply (reads_item_eq true nr h it r).
    + apply Hidle; [done| |by exists p, (controller_move (seen true nr) h); split_and!; [..|congruence|]].
      rewrite <- Hpu, <- Hp'. apply reads_idle_eq, Hm.
  - apply Hitem; [|by exists p, (controller_move (seen false nr) h); split_and!; [..|congruence|]|done].
    rewrite <- Hpu, <- Hp'. by apply (reads_item_eq false nr h it r).
Qed.

(** ** Writing the two handshake lines *)

Lemma setup_weaken items lo lo' h : (lo' <= lo)%nat -> setup items lo h -> setup items lo' h.
Proof. intros Hl []. split; [done|done|lia|done]. Qed.

Lemma at_setup_weaken s nd nr items lo lo' pulled a s' :
  (lo' <= lo)%nat -> at_setup s nd nr items lo pulled a s' -> at_setup s nd nr items lo' pulled a s'.
Proof. intros Hl (p & h & ? & ? & ? & ?). exists p, h. split_and!; [done|by eapply setup_weaken|done|done]. Qed.

Lemma listen_pins_ndac x nd nr p : listen_pins nd nr p -> listen_pins x nr (set_ndac_port x p).
Proof. by intros []. Qed.
Lemma listen_pins_nrfd x nd nr p : listen_pins nd nr p -> listen_pins nd x (set_nrfd_port x p).
Proof. by intros []. Qed.

Lemma setup_ndac s nd nr items lo pulled a s' x :
  at_setup s nd nr items lo pulled a s' -> at_setup s x nr items lo pulled a (put_ndac x s').
Proof. intros (p & h & Hp & ? & ? & ->). exists (set_ndac_port x p), h. split_and!; try done. by eapply listen_pins_ndac. Qed.
Lemma setup_nrfd s nd nr items lo pulled a s' x :
  at_setup s nd nr items lo pulled a s' -> at_setup s nd x items lo pulled a (put_nrfd x s').
Proof. intros (p & h & Hp & ? & ? & ->). exists (set_nrfd_port x p), h. split_and!; try done. by eapply listen_pins_nrfd. Qed.
Lemma valid_ndac s nd nr items pulled a s' x :
  at_valid s nd nr items pulled a s' -> at_valid s x nr items pulled a (put_ndac x s').
Proof. intros (p & h & Hp & ? & ? & ->). exists (set_ndac_port x p), h. split_and!; try done. by eapply listen_pins_ndac. Qed.
Lemma valid_nrfd s nd nr items pulled a s' x :
  at_valid s nd nr items pulled a s' -> at_valid s nd x items pulled a (put_nrfd x s').
Proof. intros (p & h & Hp & ? & ? & ->). exists (set_nrfd_port x p), h. split_and!; try done. by eapply listen_pins_nrfd. Qed.

(** The listening device does not switch the data lines. *)
Lemma wp_listen_data s a s' Q :
  listening s -> (exists h p, s' = at_bus s p h a) -> Q tt s' -> wp listen_data Q s'.
Proof.
  intros Hs (h & p & ->) HQ. unfold listen_data, get_bus. rewrite wp_bind, wp_gets. unfold id.
  change (ieee488_TE75160 (at_bus s p h a)) with (ieee488_TE75160 s). rewrite (li_te0 s Hs). simpl when. by rewrite wp_ret.
Qed.

(** ** Waiting for a byte *)

(** The controller is about to send [it], in the state of ATN that [it] wants,
    or has done so while NDAC was low. *)
Definition coming (s : ieee) (nd nr : bool) (it : item) (r : list item) (pulled a : bool) (s' : ieee) : Prop :=
  at_setup s nd nr (it :: r) 0 pulled a s' \/ (nd = false /\ at_valid s nd nr (it :: r) pulled a s').
Definition time_left (s : ieee) : nat := if c_valid (host s) then 0%nat else S (timer s).

Lemma at_setup_time s nd nr items lo pulled a s' : at_setup s nd nr items lo pulled a s' -> time_left s' = S (timer s').
Proof. intros (p & h & _ & [Hv _ _ _] & _ & ->). unfold time_left. cbn. by rewrite Hv. Qed.
Lemma at_setup_bound s nd nr items lo pulled a s' : at_setup s nd nr items lo pulled a s' -> (timer s' <= W)%nat.
Proof. intros (p & h & _ & [_ _ Ht _] & _ & ->). change (timer (at_bus s p h a)) with (c_timer h). lia. Qed.
Lemma at_valid_time s nd nr items pulled a s' : at_valid s nd nr items pulled a s' -> time_left s' = 0%nat.
Proof. intros (p & h & _ & [Hv _ _ _] & _ & ->). unfold time_left. cbn. by rewrite Hv. Qed.
Lemma at_setup_bus s nd nr items lo pulled a s' : at_setup s nd nr items lo pulled a s' -> exists h p, s' = at_bus s p h a.
Proof. intros (p & h & _ & _ & _ & ->). by exists h, p. Qed.
Lemma at_valid_bus s nd nr items pulled a s' : at_valid s nd nr items pulled a s' -> exists h p, s' = at_bus s p h a.
Proof. intros (p & h & _ & _ & _ & ->). by exists h, p. Qed.
Lemma coming_bus s nd nr it r pulled a s' : coming s nd nr it r pulled a s' -> exists h p, s' = at_bus s p h a.
Proof. intros [Hc|[_ Hc]]; [by eapply at_setup_bus|by eapply at_valid_bus]. Qed.
Lemma bus_flag s a s' : (exists h p, s' = at_bus s p h a) -> ieee488_ATN_received s' = a.
Proof. by intros (h & p & ->). Qed.

Lemma step_coming (Q : inputs -> ieee -> Prop) s nd nr it r pulled a s' :
  listening s -> coming s nd nr it r pulled a s' -> i_atn it = pulled ->
  (forall i s'', reads_idle pulled i -> at_setup s nd nr (it :: r) 0 pulled a s'' ->
     (nr && negb nd = true -> time_left s' = S (time_left s'')) -> Q i s'') ->
  (nd = false -> forall i s'', reads_item it pulled i -> at_valid s nd nr (it :: r) pulled a s'' -> Q i s'') ->
  wp port_step Q s'.
Proof.
  intros Hs [Hc|[-> Hc]] Hit Hidle Hitem.
  - eapply step_same; [done|exact Hc|done|..].
    + intros i s'' Hr Hc' Ht. apply Hidle; [done|eapply at_setup_weaken; [|exact Hc']; lia|].
      intros Hready. rewrite (at_setup_time _ _ _ _ _ _ _ _ Hc), (at_setup_time _ _ _ _ _ _ _ _ Hc'), Ht; done.
    + intros Hready _ i s'' Hr Hc' _. apply Hitem; [|done|done]. by destruct nd; [rewrite andb_false_r in Hready|].
  - eapply step_valid; [done|exact Hc|..].
    + intros i s'' Hr Hc' _. by apply Hitem.
    + done.
Qed.

(** After any step it is still coming. *)
Lemma step_coming_any (Q : inputs -> ieee -> Prop) s nd nr it r pulled a s' :
  listening s -> coming s nd nr it r pulled a s' -> i_atn it = pulled ->
  (forall i s'', in_atn i = negb pulled -> in_ifc i = true -> coming s nd nr it r pulled a s'' ->
     (nr && negb nd = true -> time_left s'' <= time_left s')%nat -> Q i s'') -> wp port_step Q s'.
Proof.
  intros Hs Hc Hit HQ. eapply step_coming; [done|exact Hc|done|..].
  - intros i s'' (_ & Ha & Hi) Hc' Ht. apply HQ; [done|done|by left|]. intros Hready. rewrite Ht by done. lia.
  - intros Hnd i s'' (_ & Ha & Hi & _) Hc'. apply HQ; [done|done|by right|]. intros _. rewrite (at_valid_time _ _ _ _ _ _ _ Hc'). lia.
Qed.

Lemma coming_ndac s nd nr it r pulled a s' : coming s nd nr it r pulled a s' -> coming s false nr it r pulled a (put_ndac false s').
Proof. intros [Hc|[-> Hc]]; [left; by eapply setup_ndac|right; split; [done|by eapply valid_ndac]]. Qed.
Lemma coming_nrfd s nd nr it r pulled a s' x : coming s nd nr it r pulled a s' -> coming s nd x it r pulled a (put_nrfd x s').
Proof. intros [Hc|[-> Hc]]; [left; by eapply setup_nrfd|right; split; [done|by eapply valid_nrfd]]. Qed.

Lemma coming_bound s nd nr it r pulled a s' : coming s nd nr it r pulled a s' -> (time_left s' <= S W)%nat.
Proof.
  intros [Hc|[_ Hc]]; [rewrite (at_setup_time _ _ _ _ _ _ _ _ Hc); pose proof (at_setup_bound _ _ _ _ _ _ _ _ Hc); lia|].
  rewrite (at_valid_time _ _ _ _ _ _ _ Hc). lia.
Qed.

(** The loop in [RxByte] that waits for DAV. *)
Lemma wait_data_byte s it r Q s' :
  listening s -> coming s false true it r false false s' -> i_atn it = false ->
  (forall s'', at_valid s false true (it :: r) false false s'' -> Q None s'') ->
  wp (do_while bus_fuel check_abort ieee488_DAV) Q s'.
Proof.
  intros Hs Hc Hit HQ. unfold do_while.
  apply (wp_loop (fun _ s1 => coming s false true it r false false s1) (fun _ s1 => time_left s1)).
  2: exact Hc. 2: { pose proof (coming_bound _ _ _ _ _ _ _ _ Hc). lia. }
  intros _ s1 K1. rewrite wp_bind. unfold check_abort. rewrite wp_bind. apply wp_atn_flag.
  eapply step_coming_any; [done|exact K1|done|]. intros _ s2 _ _ K2 Ht2.
  rewrite (bus_flag _ _ _ (coming_bus _ _ _ _ _ _ _ _ K2)), wp_bind.
  assert (forall s3, coming s false true it r false false s3 -> (time_left s3 <= time_left s2)%nat ->
    wp (mret (if false : bool then Some RX_IFC else None)) (fun a s' => wp (match a with Some x => mret (inr (Some x))
      | None => c ← ieee488_DAV; if c : bool then mret (inl tt) else mret (inr None) end)
      (fun r1 s' => match r1 with inl l' => coming s false true it r false false s' /\ (time_left s' < time_left s1)%nat
        | inr x => Q x s' end) s') s3) as Hrest.
  { intros s3 K3 Ht3. rewrite wp_ret. rewrite wp_bind. apply wp_port_read. eapply step_coming; [done|exact K3|done|..].
    - intros i s4 (-> & _ & _) K4 Ht4. rewrite wp_ret. split; [by left|]. specialize (Ht2 eq_refl). specialize (Ht4 eq_refl). lia.
    - intros _ i s4 (-> & _) K4. rewrite wp_ret. by apply HQ. }
  apply wp_CheckIFC.
  - eapply step_coming_any; [done|exact K2|done|]. intros i s3 _ Hi K3 Ht3. split; [done|]. apply Hrest; [done|by apply Ht3].
  - apply Hrest; [done|lia].
Qed.

(** While the device is not ready and the timer runs, nothing happens. *)
Lemma step_quiet (Q : inputs -> ieee -> Prop) s nd nr it r lo pulled a s' :
  listening s -> at_setup s nd nr (it :: r) (S lo) pulled a s' -> nr && negb nd = false -> (lo <= D)%nat ->
  (forall i s'', reads_idle pulled i -> at_setup s nd nr (it :: r) lo pulled a s'' -> Q i s'') -> wp port_step Q s'.
Proof.
  intros Hs Hc Hready Hlo HQ. destruct (decide (i_atn it = pulled)) as [Hit|Hit].
  - eapply step_same; [done|exact Hc|done|..].
    + rewrite Hready. intros i s'' Hr Hc' _. apply HQ; [done|]. by eapply at_setup_weaken; [|exact Hc'].
    + rewrite Hready. done.
  - assert (i_atn it = negb pulled) as Hit' by (destruct (i_atn it), pulled; done).
    eapply step_other; [done|exact Hc|done|..]; [|done|done]. intros i s'' Hr Hc' _. by apply HQ.
Qed.

(** The loop in [RxByte] that waits for the end of DAV. *)
Lemma wait_data_release s it it2 r lo Q s' :
  listening s -> at_valid s true false (it :: it2 :: r) false false s' -> S (S lo) = D ->
  (forall s'', at_setup s true false (it2 :: r) lo false false s'' -> Q None s'') ->
  wp (do_while bus_fuel check_abort (d ← ieee488_DAV; mret (negb d))) Q s'.
Proof.
  intros Hs Hc Hlo HQ. unfold do_while.
  apply (wp_loop (fun _ s1 => at_valid s true false (it :: it2 :: r) false false s1) (fun _ s1 => timer s1)).
  2: exact Hc. 2: { destruct Hc as (p & h & _ & [_ _ Ht _] & _ & ->). change (timer (at_bus s p h false)) with (c_timer h). lia. }
  intros _ s1 K1. rewrite wp_bind. unfold check_abort. rewrite wp_bind. apply wp_atn_flag.
  (* the test of IFC and then DAV, from a state that still sends or has stopped *)
  set (R := fun s3 => wp (mret (if false : bool then Some RX_IFC else None)) (fun a s' => wp (match a with Some x => mret (inr (Some x))
      | None => c ← (d ← ieee488_DAV; mret (negb d)); if c : bool then mret (inl tt) else mret (inr None) end)
      (fun r1 s' => match r1 with inl l' => at_valid s true false (it :: it2 :: r) false false s' /\ (timer s' < timer s1)%nat
        | inr x => Q x s' end) s') s3).
  assert (forall s3, at_valid s true false (it :: it2 :: r) false false s3 -> (timer s3 < timer s1)%nat -> R s3) as Hsend.
  { intros s3 K3 Ht3. unfold R. rewrite wp_ret, wp_bind, wp_bind. apply wp_port_read. eapply step_valid; [done|exact K3|..].
    - intros i s4 (-> & _) K4 Ht4. rewrite wp_ret. cbn [negb]. rewrite wp_ret. split; [done|]. specialize (Ht4 eq_refl). lia.
    - intros _ i s4 (-> & _) K4. rewrite wp_ret. cbn [negb]. rewrite wp_ret. apply HQ. eapply at_setup_weaken; [|exact K4]. lia. }
  assert (forall s3, at_setup s true false (it2 :: r) (S lo) false false s3 -> R s3) as Hstop.
  { intros s3 K3. unfold R. rewrite wp_ret, wp_bind, wp_bind. apply wp_port_read. eapply step_quiet; [done|exact K3|done|lia|].
    intros i s4 (-> & _) K4. rewrite wp_ret. cbn [negb]. rewrite wp_ret. by apply HQ. }
  eapply step_valid; [done|exact K1|..].
  - intros _ s2 _ K2 Ht2. specialize (Ht2 eq_refl). rewrite (bus_flag _ _ _ (at_valid_bus _ _ _ _ _ _ _ K2)), wp_bind.
    apply wp_CheckIFC; [|apply Hsend; [done|lia]]. eapply step_valid; [done|exact K2|..].
    + intros i s3 (_ & _ & Hi & _) K3 Ht3. split; [done|]. specialize (Ht3 eq_refl). apply Hsend; [done|lia].
    + intros _ i s3 (_ & _ & Hi) K3. split; [done|]. apply Hstop. eapply at_setup_weaken; [|exact K3]. lia.
  - intros _ _ s2 _ K2. rewrite (bus_flag _ _ _ (at_setup_bus _ _ _ _ _ _ _ _ K2)), wp_bind.
    apply wp_CheckIFC; [|apply Hstop; eapply at_setup_weaken; [|exact K2]; lia].
    eapply step_quiet; [done|rewrite <- Hlo in K2; exact K2|done|lia|]. intros i s3 (_ & _ & Hi) K3. split; [done|by apply Hstop].
Qed.

(** A data byte: it is received with its EOI, and the controller goes on. *)
Lemma rx_data s nd it it2 r c lo Q s' :
  listening s -> at_setup s nd false (it :: it2 :: r) 0 false false s' -> i_atn it = false -> S (S (S lo)) = D ->
  0 <= i_byte it < 256 ->
  (forall s'', at_setup s false false (it2 :: r) lo false false s'' ->
     Q (if i_eoi it then RX_EOI else RX_DATA, i_byte it) s'') ->
  wp (ieee488_RxByte bus_fuel c) Q s'.
Proof.
  intros Hs Hc Hit Hlo Hb HQ. unfold ieee488_RxByte. apply wp_loop_pass; [lia|].
  rewrite wp_bind. apply wp_SetNRFD.
  eapply step_coming_any; [done|left; exact Hc|done|]. intros _ s1 _ _ K1 _. rewrite wp_bind. apply wp_SetNDAC.
  eapply step_coming_any; [done|eapply coming_nrfd; exact K1|done|]. intros _ s2 _ _ K2 _. rewrite wp_bind.
  apply coming_ndac in K2. eapply wp_listen_data; [done|by eapply coming_bus|]. rewrite wp_bind.
  eapply wait_data_byte; [done|exact K2|done|]. intros s3 K3. cbv beta iota. rewrite wp_bind. apply wp_SetNRFD.
  eapply step_valid; [done|exact K3| |done]. intros _ s4 _ K4 _. apply (valid_nrfd _ _ _ _ _ _ _ false) in K4.
  rewrite wp_bind. unfold ieee488_EOI. apply wp_port_read. eapply step_valid; [done|exact K4| |done].
  intros i s5 (_ & _ & _ & _ & ->) K5 _. rewrite wp_bind. unfold ieee488_Data. rewrite wp_bind. apply wp_port_read.
  eapply step_valid; [done|exact K5| |done]. intros i6 s6 (_ & _ & _ & -> & _) K6 _. rewrite wp_ret, wp_bind.
  unfold ieee488_DAV at 1. apply wp_port_read. eapply step_valid; [done|exact K6| |done]. intros i7 s7 (-> & _) K7 _.
  cbv iota. rewrite wp_bind. apply wp_SetNDAC. eapply step_valid; [done|exact K7| |done]. intros _ s8 _ K8 _.
  apply (valid_ndac _ _ _ _ _ _ _ true) in K8. rewrite wp_bind. eapply (wait_data_release s it it2 r (S lo)); [done|exact K8|done|].
  intros s9 K9. cbv beta iota. rewrite wp_bind. apply wp_SetNDAC. eapply step_quiet; [done|exact K9|done|lia|].
  intros _ s10 _ K10. apply (setup_ndac _ _ _ _ _ _ _ _ false) in K10. rewrite wp_ret.
  replace (255 - (255 - i_byte it)) with (i_byte it) by lia. destruct (i_eoi it); by apply HQ.
Qed.

(** ** ATN interrupts the reception *)

(** ATN is about to fall, or has fallen and the interrupt has run. *)
Definition falling (s : ieee) (nd nr : bool) (items : list item) (s' : ieee) : Prop :=
  at_setup s nd nr items 0 false false s' \/ exists nd' nr', at_setup s nd' nr' items D true true s'.
Definition time_to_fall (s : ieee) : nat := if ieee488_ATN_received s then 0%nat else S (timer s).

Lemma setup_flag s nd nr items lo pulled a s' : at_setup s nd nr items lo pulled a s' -> ieee488_ATN_received s' = a.
Proof. intros Hc. by eapply bus_flag, at_setup_bus. Qed.

Lemma setup_time_to_fall s nd nr items lo pulled a s' :
  at_setup s nd nr items lo pulled a s' -> time_to_fall s' = if a then 0%nat else S (timer s').
Proof. intros Hc. unfold time_to_fall. by rewrite (setup_flag _ _ _ _ _ _ _ _ Hc). Qed.

(** ATN stays low after it fell. *)
Lemma step_pending (Q : inputs -> ieee -> Prop) s nd nr it r lo s' :
  listening s -> at_setup s nd nr (it :: r) (S lo) true true s' -> i_atn it = true -> (lo < D)%nat ->
  (forall i s'', reads_idle true i -> at_setup s nd nr (it :: r) lo true true s'' -> Q i s'') -> wp port_step Q s'.
Proof.
  intros Hs Hc Hit Hlo HQ. eapply step_same; [done|exact Hc|done|..]; [|done].
  intros i s'' Hr Hc' _. apply HQ; [done|]. eapply at_setup_weaken; [|exact Hc']. destruct (nr && negb nd); simpl; lia.
Qed.

(** Before it fell, it may fall in the step. *)
Lemma step_falling (Q : inputs -> ieee -> Prop) s nd nr it r s' :
  listening s -> at_setup s nd nr (it :: r) 0 false false s' -> i_atn it = true ->
  (forall i s'', in_dav i = true -> in_ifc i = true -> at_setup s nd nr (it :: r) 0 false false s'' -> timer s' = S (timer s'') -> Q i s'') ->
  (forall i s'', in_dav i = true -> in_ifc i = true -> at_setup s true false (it :: r) D true true s'' -> Q i s'') ->
  wp port_step Q s'.
Proof.
  intros Hs Hc Hit Hsame Hfall. eapply step_other; [done|exact Hc|done|..].
  - intros i s'' (? & _ & ?) Hc' Ht. by apply Hsame.
  - done.
  - intros _ _ i s'' (? & _ & ?) Hc'. by apply Hfall.
Qed.

Definition aborted (s : ieee) (it : item) (r : list item) (s' : ieee) : Prop :=
  exists nd nr, at_setup s nd nr (it :: r) (D - 1) true true s'.

Lemma wait_data_atn s it r Q s' :
  listening s -> falling s false true (it :: r) s' -> i_atn it = true ->
  (forall s'', aborted s it r s'' -> Q (Some RX_ATN) s'') -> wp (do_while bus_fuel check_abort ieee488_DAV) Q s'.
Proof.
  intros Hs Hc Hit HQ. unfold do_while.
  apply (wp_loop (fun _ s1 => falling s false true (it :: r) s1) (fun _ s1 => time_to_fall s1)).
  2: exact Hc.
  2: { destruct Hc as [Hc|(nd & nr & Hc)]; rewrite (setup_time_to_fall _ _ _ _ _ _ _ _ Hc); [|lia].
       pose proof (at_setup_bound _ _ _ _ _ _ _ _ Hc). lia. }
  intros _ s1 K1. rewrite wp_bind. unfold check_abort. rewrite wp_bind. apply wp_atn_flag.
  destruct K1 as [K1|(nd & nr & K1)].
  2: { replace D with (S (D - 1)) in K1 by lia. eapply step_pending; [done|exact K1|done|lia|]. intros _ s2 _ K2.
       rewrite (setup_flag _ _ _ _ _ _ _ _ K2). rewrite wp_ret, wp_ret. apply HQ. by exists nd, nr. }
  set (R := fun s3 => wp (mret (if false : bool then Some RX_IFC else None)) (fun a s' => wp (match a with Some x => mret (inr (Some x))
      | None => c ← ieee488_DAV; if c : bool then mret (inl tt) else mret (inr None) end)
      (fun r1 s' => match r1 with inl l' => falling s false true (it :: r) s' /\ (time_to_fall s' < time_to_fall s1)%nat
        | inr x => Q x s' end) s') s3).
  pose proof (setup_time_to_fall _ _ _ _ _ _ _ _ K1) as Hf. cbv iota in Hf.
  assert (forall s3, at_setup s false true (it :: r) 0 false false s3 -> (timer s3 < timer s1)%nat -> R s3) as Hbefore.
  { intros s3 K3 Ht3. unfold R. rewrite wp_ret, wp_bind. apply wp_port_read. eapply step_falling; [done|exact K3|done|..].
    - intros i s4 -> _ K4 Ht4. rewrite wp_ret. split; [by left|]. rewrite (setup_time_to_fall _ _ _ _ _ _ _ _ K4). lia.
    - intros i s4 -> _ K4. rewrite wp_ret. split; [right; by exists true, false|]. rewrite (setup_time_to_fall _ _ _ _ _ _ _ _ K4). lia. }
  assert (forall s3, at_setup s true false (it :: r) D true true s3 -> R s3) as Hafter.
  { intros s3 K3. unfold R. rewrite wp_ret, wp_bind. apply wp_port_read.
    eapply step_same; [done|exact K3|done|..]; [|done]. intros i s4 (-> & _) K4 _. rewrite wp_ret.
    split; [right; by exists true, false|]. rewrite (setup_time_to_fall _ _ _ _ _ _ _ _ K4). lia. }
  eapply step_falling; [done|exact K1|done|..].
  - intros _ s2 _ _ K2 Ht2. rewrite (setup_flag _ _ _ _ _ _ _ _ K2), wp_bind. apply wp_CheckIFC; [|apply Hbefore; [done|lia]].
    eapply step_falling; [done|exact K2|done|..].
    + intros i s3 _ Hi K3 Ht3. split; [done|]. apply Hbefore; [done|lia].
    + intros i s3 _ Hi K3. split; [done|]. by apply Hafter.
  - intros _ s2 _ _ K2. rewrite (setup_flag _ _ _ _ _ _ _ _ K2). rewrite wp_ret, wp_ret. apply HQ. exists true, false.
    eapply at_setup_weaken; [|exact K2]. lia.
Qed.

Lemma rx_atn s nd it r c Q s' :
  listening s -> at_setup s nd false (it :: r) 0 false false s' -> i_atn it = true ->
  (forall s'', aborted s it r s'' -> Q (RX_ATN, c) s'') -> wp (ieee488_RxByte bus_fuel c) Q s'.
Proof.
  intros Hs Hc Hit HQ. unfold ieee488_RxByte. apply wp_loop_pass; [lia|].
  rewrite wp_bind. apply wp_SetNRFD.
  assert (forall s2, falling s false true (it :: r) s2 -> (exists h p a, s2 = at_bus s p h a) ->
    forall (k : comp ieee ((rx_t * Z) + (rx_t * Z))) (P : (rx_t * Z) + (rx_t * Z) -> ieee -> Prop),
      (forall s3, Q (RX_ATN, c) s3 -> P (inr (RX_ATN, c)) s3) ->
      wp (listen_data;; a ← do_while bus_fuel check_abort ieee488_DAV;
        match a with Some x => mret (inr (x, c)) | None => k end) P s2) as Hrest.
  { intros s2 K2 (h & p & a & Hs2) k P HP. rewrite wp_bind. eapply wp_listen_data; [done|by exists h, p|]. rewrite wp_bind.
    eapply wait_data_atn; [done|exact K2|done|]. intros s3 K3. rewrite wp_ret. by apply HP, HQ. }
  eapply step_falling; [done|exact Hc|done|..]; intros _ s1 _ _ K1.
  - intros _. apply (setup_nrfd _ _ _ _ _ _ _ _ true) in K1. rewrite wp_bind. apply wp_SetNDAC.
    eapply step_falling; [done|exact K1|done|..]; intros _ s2 _ _ K2.
    + intros _. apply (setup_ndac _ _ _ _ _ _ _ _ false) in K2. apply Hrest; [by left| |done]. destruct (at_setup_bus _ _ _ _ _ _ _ _ K2) as (h & p & ->). eauto.
    + apply (setup_ndac _ _ _ _ _ _ _ _ false) in K2. apply Hrest; [right; eauto| |done]. destruct (at_setup_bus _ _ _ _ _ _ _ _ K2) as (h & p & ->). eauto.
  - apply (setup_nrfd _ _ _ _ _ _ _ _ true) in K1. rewrite wp_bind. apply wp_SetNDAC.
    eapply step_same; [done|exact K1|done|..]; [|done]. intros _ s2 _ K2 _. apply (setup_ndac _ _ _ _ _ _ _ _ false) in K2.
    apply Hrest; [right; eauto| |done]. destruct (at_setup_bus _ _ _ _ _ _ _ _ K2) as (h & p & ->). eauto.
Qed.

(** ** Receiving a name *)

Lemma at_setup_machine m s nd nr items lo pulled a s' :
  at_setup s nd nr items lo pulled a s' -> at_setup (with_machine m s) nd nr items lo pulled a (with_machine m s').
Proof. intros (p & h & ? & ? & ? & ->). by exists p, h. Qed.
Lemma at_setup_ie_m s nd nr items lo pulled a s' : at_setup s nd nr items lo pulled a s' -> ie_m s' = ie_m s.
Proof. by intros (p & h & _ & _ & _ & ->). Qed.
Lemma listening_machine m s : listening s -> listening (with_machine m s).
Proof. by intros []. Qed.

(** The characters [bs] in the command buffer. *)
Definition typed (bs : list Z) (w : world) : world :=
  set_w_dos (set_command_length (zlen bs) (set_command_buffer (splice 0 bs (command_buffer (w_dos w))) (w_dos w))) w.
Definition typed_m (bs : list Z) (m : machine) : machine := set_m_world (typed bs (m_world m)) m.

Lemma RxChar_typed bs c m Q s' :
  ie_m s' = typed_m bs m -> zlen bs < CONFIG_COMMAND_BUFFER_SIZE <= 255 ->
  zlen bs < zlen (command_buffer (w_dos (m_world m))) ->
  Q tt (with_machine (typed_m (bs ++ [c]) m) s') -> wp (RxChar c) Q s'.
Proof.
  intros Hm Hsize Hlen HQ. pose proof (zlen_nonneg bs). unfold RxChar. rewrite wp_on_machine, Hm, wp_on_world.
  rewrite wp_bind, wp_gets. change (command_length (w_dos (m_world (typed_m bs m)))) with (zlen bs).
  replace (zlen bs <? CONFIG_COMMAND_BUFFER_SIZE) with true by lia. cbn [when]. rewrite wp_bind.
  unfold on_cmd, on_dos. rewrite !wp_zoom. unfold poke. rewrite wp_bind, wp_gets, wp_bind.
  set (cb := command_buffer (w_dos (m_world m))) in *.
  change (command_buffer (w_dos (m_world (typed_m bs m)))) with (splice 0 bs cb). unfold id.
  eapply wp_of_option.
  { apply store_some. rewrite zlen_splice by lia. lia. }
  rewrite wp_modify, wp_zoom, wp_modify.
  replace (splice (zlen bs) [c] (splice 0 bs cb)) with (splice 0 (bs ++ [c]) cb) by (rewrite splice_app; [done|..]; zlen_simpl; lia).
  cbn. rewrite u8_id by lia. revert HQ. unfold typed_m, typed. rewrite zlen_app. exact id.
Qed.

(** The room for the name: the buffer, the 8-bit length and the passes. *)
Definition room_for (n : Z) (m : machine) : Prop :=
  n < CONFIG_COMMAND_BUFFER_SIZE <= 255 /\ CONFIG_COMMAND_BUFFER_SIZE <= zlen (command_buffer (w_dos (m_world m))) /\
  n + 2 < Z.of_nat bus_fuel.

Definition receiving_name (action : ll_t) (s : ieee) : Prop := action = LL_OPEN \/ command_received s = true.

Definition listen_body (action : ll_t) (sa : Z) : option Z * Z -> comp ieee ((option Z * Z) + unit) := fun '(buf, c) =>
  r ← ieee488_RxByte bus_fuel c;
  if bool_decide (r.1 = RX_ATN) || bool_decide (r.1 = RX_IFC) then mret (inr tt)
  else
    ifc ← ieee488_CheckIFC;
    if ifc : bool then mret (inr tt)
    else
      s ← get_bus;
      if bool_decide (action = LL_OPEN) || command_received s then RxChar r.2;; mret (inl (buf, r.2))
      else
        i ← of_option buf;
        next ← listen_byte stack_dent sa i r.2 (bool_decide (r.1 = RX_EOI));
        match next with
        | None => ieee488_IgnoreBytes bus_fuel;; mret (inr tt)
        | Some buf => mret (inl (buf, r.2))
        end.

Lemma at_setup_command s nd nr items lo pulled a s' :
  at_setup s nd nr items lo pulled a s' -> command_received s' = command_received s.
Proof. by intros (p & h & _ & _ & _ & ->). Qed.

Definition bytes_ok (xs : list (Z * bool)) : Prop := Forall (fun x => 0 <= x.1 < 256) xs.

Lemma listen_name xs : forall fuel bs buf c nd action sa s m it r Q s',
  listening s -> receiving_name action s -> bytes_ok xs -> i_atn it = true ->
  ie_m s = typed_m bs m -> room_for (zlen bs + zlen xs) m -> (length xs < fuel)%nat ->
  at_setup s nd false ((data_item <$> xs) ++ it :: r) 0 false false s' ->
  (forall s'', aborted (with_machine (typed_m (bs ++ xs.*1) m) s) it r s'' -> Q tt s'') ->
  wp (loop fuel (listen_body action sa) (buf, c)) Q s'.
Proof.
  induction xs as [|x xs IH]; intros fuel bs buf c nd action sa s m it r Q s' Hs Hname Hxs Hit Hm Hroom Hfu Hc HQ.
  - apply wp_loop_pass; [lia|]. unfold listen_body. rewrite wp_bind. eapply rx_atn; [done|exact Hc|done|].
    intros s'' K. cbn [fst]. rewrite bool_decide_true by done. cbn [orb]. rewrite wp_ret. apply HQ.
    simpl. rewrite app_nil_r, <- Hm. destruct K as (nd' & nr' & K). exists nd', nr'. destruct s. exact K.
  - apply Forall_cons in Hxs as [Hx Hxs]. apply wp_loop_pass; [simpl in Hfu; lia|]. unfold listen_body at 1. rewrite wp_bind.
    assert (exists it2 r2, (data_item <$> xs) ++ it :: r = it2 :: r2) as (it2 & r2 & Hr) by (destruct xs; simpl; eauto).
    change ((data_item <$> x :: xs) ++ it :: r) with (data_item x :: (data_item <$> xs) ++ it :: r) in Hc. rewrite Hr in Hc.
    eapply (rx_data _ _ _ _ _ _ (D - 3)%nat); [done|exact Hc|done|lia|exact Hx|]. intros s2 K2.
    change (i_eoi (data_item x)) with x.2. change (i_byte (data_item x)) with x.1. cbn [fst snd].
    rewrite !bool_decide_false by (by destruct x.2). cbn [orb]. rewrite wp_bind.
    assert (forall s3, at_setup s false false (it2 :: r2) 0 false false s3 ->
      wp (get_bus ≫= fun s4 => if bool_decide (action = LL_OPEN) || command_received s4 then RxChar x.1;; mret (inl (buf, x.1))
          else i ← of_option buf; next ← listen_byte stack_dent sa i x.1 (bool_decide ((if x.2 then RX_EOI else RX_DATA) = RX_EOI));
            match next with None => ieee488_IgnoreBytes bus_fuel;; mret (inr tt) | Some buf => mret (inl (buf, x.1)) end)
        (fun r1 s5 => match r1 with inl l' => wp (loop (pred fuel) (listen_body action sa) l') Q s5 | inr y => Q y s5 end) s3) as Hrest.
    { intros s3 K3. unfold get_bus. rewrite wp_bind, wp_gets. unfold id. rewrite (at_setup_command _ _ _ _ _ _ _ _ K3).
      replace (bool_decide (action = LL_OPEN) || command_received s) with true
        by (destruct Hname as [->| ->]; [by rewrite bool_decide_true|by rewrite orb_true_r]).
      destruct Hroom as (Hr1 & Hr2 & Hr3). rewrite zlen_cons in Hr1, Hr3. pose proof (zlen_nonneg xs). pose proof (zlen_nonneg bs).
      rewrite wp_bind. eapply (RxChar_typed bs x.1 m); [by rewrite (at_setup_ie_m _ _ _ _ _ _ _ _ K3)|lia|lia|]. rewrite wp_ret.
      apply (at_setup_machine (typed_m (bs ++ [x.1]) m)) in K3. rewrite <- Hr in K3.
      eapply (IH (pred fuel) (bs ++ [x.1]) buf x.1 false action sa _ m it r Q _); [by apply listening_machine| |done|done|done| |simpl in Hfu; lia|exact K3|].
      - destruct Hname as [->|Hn]; [by left|right; exact Hn].
      - rewrite zlen_app. change (zlen [x.1]) with 1. split_and!; lia.
      - intros s4 K4. apply HQ. rewrite with_machine_twice in K4. rewrite <- app_assoc in K4. exact K4. }
    apply wp_CheckIFC; [|apply Hrest; eapply at_setup_weaken; [|exact K2]; lia].
    replace (D - 3)%nat with (S (D - 4)) in K2 by lia. eapply step_quiet; [done|exact K2|done|lia|].
    intros i s3 (_ & _ & Hi) K3. split; [done|]. apply Hrest. eapply at_setup_weaken; [|exact K3]. lia.
Qed.

(** Channel 15 takes commands. *)
Definition command_channel_writable (s : ieee) : Prop :=
  forall i b, buffers (pool s) !! i = Some b -> allocated b = true -> secondary b = 15 -> buf_write b = true.

Definition mark_command (sa : Z) (s : ieee) : ieee := if sa =? 15 then set_command_received true s else s.

Lemma at_setup_mark sa s nd nr items lo pulled a s' :
  at_setup s nd nr items lo pulled a s' -> at_setup (mark_command sa s) nd nr items lo pulled a (mark_command sa s').
Proof. intros (p & h & ? & ? & ? & ->). exists p, h. unfold mark_command. by destruct (sa =? 15). Qed.

Lemma at_setup_pool s nd nr items lo pulled a s' : at_setup s nd nr items lo pulled a s' -> pool s' = pool s.
Proof. intros Hc. unfold pool. by rewrite (at_setup_ie_m _ _ _ _ _ _ _ _ Hc). Qed.

Lemma listen_loop_name xs nd action sa s m it r Q s' :
  listening s -> (action = LL_OPEN \/ sa = 15) -> bufs_ok (pool s) -> command_channel_writable s -> bytes_ok xs -> i_atn it = true ->
  ie_m s = typed_m [] m -> room_for (zlen xs) m ->
  at_setup s nd false ((data_item <$> xs) ++ it :: r) 0 false false s' ->
  (forall s'', aborted (with_machine (typed_m xs.*1 m) (mark_command sa s)) it r s'' -> Q tt s'') ->
  wp (ieee488_ListenLoop stack_dent bus_fuel action sa) Q s'.
Proof.
  intros Hs Hact Hb Hw Hxs Hit Hm Hroom Hc HQ. pose proof (at_setup_pool _ _ _ _ _ _ _ _ Hc) as Hpool.
  unfold ieee488_ListenLoop. rewrite wp_bind. apply wp_find_buffer; [by rewrite Hpool|]. intros buf Hbuf Hnone. rewrite wp_bind.
  eapply (wp_mono _ (fun wr s1 => s1 = s' /\ (sa = 15 -> wr = true))).
  { destruct buf as [i|].
    - destruct (Hbuf i eq_refl) as (b & Hi & Hlk & Ha & Hsec). rewrite wp_bind. eapply wp_buf_get; [done|exact Hlk|]. rewrite wp_ret.
      split; [done|]. intros ->. rewrite Hpool in Hlk. by eapply Hw.
    - rewrite wp_ret. split; [done|]. intros ->. exfalso. rewrite Hpool in Hnone. destruct (bo_err _ Hb) as (b & Hlk & Ha & Hsec & _).
      pose proof (bo_count _ Hb). by eapply (Hnone eq_refl CONFIG_BUFFER_COUNT b); [lia|..]. }
  intros wr s1 [-> Hwr]. cbv beta. replace (negb wr && negb (bool_decide (action = LL_OPEN))) with false.
  2: { destruct Hact as [->| ->]; [rewrite bool_decide_true by done; by rewrite andb_false_r|by rewrite Hwr]. }
  rewrite wp_bind. apply (at_setup_mark sa) in Hc.
  eapply (wp_mono _ (fun _ s2 => s2 = mark_command sa s')).
  { unfold mark_command. destruct (sa =? 15); simpl when; [by rewrite wp_modify|by rewrite wp_ret]. }
  intros u s2 ->. change (wp (loop bus_fuel (listen_body action sa) (buf, 0)) Q (mark_command sa s')).
  eapply (listen_name xs bus_fuel [] buf 0 nd action sa (mark_command sa s) m it r); [|..|exact Hc|].
  - destruct Hs. unfold mark_command. destruct (sa =? 15); by split.
  - destruct Hact as [->| ->]; [by left|right; done].
  - done.
  - done.
  - unfold mark_command. by destruct (sa =? 15).
  - change (zlen []) with 0. by rewrite Z.add_0_l.
  - destruct Hroom as (_ & _ & Hf). unfold zlen in Hf. lia.
  - exact HQ.
Qed.

(** ** Receiving a command byte *)

(** While the device is not ready and the timer runs, nothing happens, at the
    end of the script too. *)
Lemma step_hold (Q : inputs -> ieee -> Prop) s nd nr items lo pulled a s' :
  listening s -> at_setup s nd nr items (S lo) pulled a s' -> nr && negb nd = false -> (lo <= D)%nat ->
  (forall i s'', reads_idle pulled i -> at_setup s nd nr items lo pulled a s'' -> Q i s'') -> wp port_step Q s'.
Proof.
  intros Hs Hc Hready Hlo HQ. destruct items as [|it r]; [|by eapply step_quiet].
  destruct Hc as (p & h & Hp & Hsu & Hpu & ->). apply (wp_port_step _ s p h a nd nr Hs Hp). cbv zeta.
  destruct Hsu as [Hv Hsc Ht Hd].
  assert (setup [] lo (controller_move (seen nd nr) h) /\ c_pulled (controller_move (seen nd nr) h) = c_pulled h) as [Hm Hp'].
  { unfold controller_move, after_delay. rewrite Hv, Hsc. destruct (c_pulled h) eqn:Hpp; [|by split; [split; [..|lia|]|]].
    destruct (c_timer h) as [|n] eqn:Hn; [lia|]. split; [split; cbn; [done|done|lia|done]|done]. }
  rewrite Hp'. replace (negb (c_pulled h) && c_pulled h) with false by (by destruct (c_pulled h)).
  apply HQ; [rewrite <- Hpu, <- Hp'; apply reads_idle_eq, Hm|].
  exists p, (controller_move (seen nd nr) h). by split_and!; [..|congruence|].
Qed.

(** The controller still sends the command [it], or has stopped. *)
Definition releasing (s : ieee) (it : item) (r : list item) (lo : nat) (s' : ieee) : Prop :=
  at_valid s true false (it :: r) true false s' \/ at_setup s true false r lo true false s'.
Definition time_to_release (s : ieee) : nat := if c_valid (host s) then S (timer s) else 0%nat.

Lemma at_valid_release s nd nr items pulled a s' : at_valid s nd nr items pulled a s' -> time_to_release s' = S (timer s').
Proof. intros (p & h & _ & [Hv _ _ _] & _ & ->). unfold time_to_release. cbn. by rewrite Hv. Qed.
Lemma at_setup_release s nd nr items lo pulled a s' : at_setup s nd nr items lo pulled a s' -> time_to_release s' = 0%nat.
Proof. intros (p & h & _ & [Hv _ _ _] & _ & ->). unfold time_to_release. cbn. by rewrite Hv. Qed.
Lemma releasing_flag s it r lo s' : releasing s it r lo s' -> ieee488_ATN_received s' = false.
Proof. intros [K|K]; eapply bus_flag; [by eapply at_valid_bus|by eapply at_setup_bus]. Qed.

Lemma step_releasing (Q : inputs -> ieee -> Prop) s it r lo s' :
  listening s -> releasing s it r (S lo) s' -> (lo <= D)%nat ->
  (forall i s'', in_atn i = false -> in_ifc i = true -> in_dav i = (time_to_release s'' =? 0)%nat -> releasing s it r lo s'' ->
     (time_to_release s'' <= pred (time_to_release s'))%nat -> Q i s'') -> wp port_step Q s'.
Proof.
  intros Hs [Hc|Hc] Hlo HQ.
  - eapply step_valid; [done|exact Hc|..].
    + intros i s'' (? & ? & ? & _) K Ht. specialize (Ht eq_refl).
      apply HQ; [done|done|by rewrite (at_valid_release _ _ _ _ _ _ _ K)|by left|].
      rewrite (at_valid_release _ _ _ _ _ _ _ K), (at_valid_release _ _ _ _ _ _ _ Hc). lia.
    + intros _ i s'' (? & ? & ?) K. pose proof (at_setup_release _ _ _ _ _ _ _ _ K) as Hr.
      apply HQ; [done|done|by rewrite Hr|right; eapply at_setup_weaken; [|exact K]; lia|lia].
  - eapply step_hold; [done|exact Hc|done|lia|]. intros i s'' (? & ? & ?) K. pose proof (at_setup_release _ _ _ _ _ _ _ _ K) as Hr.
    apply HQ; [done|done|by rewrite Hr|by right|lia].
Qed.

(** The loop in [handle_ieee488] that waits for the end of DAV. *)
Lemma wait_command_release s it r P Q s' :
  listening s -> at_valid s true false (it :: r) true false s' ->
  (forall s'', at_setup s true false r (D - 3) true false s'' -> Q None s'') ->
  wp (wait_while bus_fuel (d ← ieee488_DAV; mret (negb d)) (cycle_over_then P)) Q s'.
Proof.
  intros Hs Hc HQ. unfold wait_while.
  apply (wp_loop (fun _ s1 => releasing s it r (D - 2) s1) (fun _ s1 => time_to_release s1)).
  2: by left. 2: { rewrite (at_valid_release _ _ _ _ _ _ _ Hc). destruct Hc as (p & h & _ & [_ _ Ht _] & _ & ->).
    change (timer (at_bus s p h false)) with (c_timer h). lia. }
  intros _ s1 K1. rewrite wp_bind, wp_bind. apply wp_port_read. replace (D - 2)%nat with (S (D - 3)) in K1 by lia.
  eapply step_releasing; [done|exact K1|lia|]. intros i s2 _ _ -> K2 Ht2. rewrite wp_ret.
  destruct (time_to_release s2 =? 0)%nat eqn:Hz; cbn [negb].
  { rewrite wp_ret. apply HQ. destruct K2 as [K2|K2]; [|exact K2]. rewrite (at_valid_release _ _ _ _ _ _ _ K2) in Hz. done. }
  apply Nat.eqb_neq in Hz. assert (releasing s it r (S (S (S (D - 2)))) s2) as K2'.
  { destruct K2 as [K2|K2]; [by left|]. by rewrite (at_setup_release _ _ _ _ _ _ _ _ K2) in Hz. }
  rewrite wp_bind. unfold cycle_over_then, cycle_over. rewrite wp_bind, wp_bind. apply wp_atn_flag.
  eapply step_releasing; [done|exact K2'|lia|]. intros _ s3 _ _ _ K3 Ht3. rewrite (releasing_flag _ _ _ _ _ K3), wp_bind.
  apply wp_port_read. eapply step_releasing; [done|exact K3|lia|]. intros i4 s4 -> _ _ K4 Ht4.
  apply wp_CheckIFC.
  - eapply step_releasing; [done|exact K4|lia|]. intros i5 s5 _ ? _ K5 Ht5. split; [done|]. rewrite !wp_ret. split; [done|lia].
  - rewrite !wp_ret. split; [|lia]. destruct K4 as [K4|K4]; [by left|right]. eapply at_setup_weaken; [|exact K4]. lia.
Qed.

(** The loop that waits for DAV. *)
Lemma wait_command_byte s it r P Q s' :
  listening s -> coming s false true it r true false s' -> i_atn it = true ->
  (forall s'', at_valid s false true (it :: r) true false s'' -> Q None s'') ->
  wp (wait_while bus_fuel ieee488_DAV (cycle_over_then P)) Q s'.
Proof.
  intros Hs Hc Hit HQ. unfold wait_while.
  apply (wp_loop (fun _ s1 => coming s false true it r true false s1) (fun _ s1 => time_left s1)).
  2: exact Hc. 2: { pose proof (coming_bound _ _ _ _ _ _ _ _ Hc). lia. }
  intros _ s1 K1. rewrite wp_bind. apply wp_port_read. eapply step_coming; [done|exact K1|done|..].
  2: { intros _ i s2 (-> & _) K2. rewrite wp_ret. by apply HQ. }
  intros i s2 (-> & _ & _) K2 Ht2. specialize (Ht2 eq_refl).
  assert (coming s false true it r true false s2) as K2' by (by left).
  rewrite wp_bind. unfold cycle_over_then, cycle_over. rewrite wp_bind, wp_bind. apply wp_atn_flag.
  eapply step_coming_any; [done|exact K2'|done|]. intros _ s3 _ _ K3 Ht3. specialize (Ht3 eq_refl).
  rewrite (bus_flag _ _ _ (coming_bus _ _ _ _ _ _ _ _ K3)), wp_bind. apply wp_port_read.
  eapply step_coming_any; [done|exact K3|done|]. intros i4 s4 -> _ K4 Ht4. specialize (Ht4 eq_refl). cbn [negb].
  apply wp_CheckIFC.
  - eapply step_coming_any; [done|exact K4|done|]. intros i5 s5 _ ? K5 Ht5. specialize (Ht5 eq_refl). split; [done|].
    rewrite !wp_ret. split; [done|lia].
  - rewrite !wp_ret. split; [done|lia].
Qed.

Notation pass := (command_pass stack_dent copy_fuel bus_fuel).

(** A command byte while ATN is low is received and executed. *)
Lemma pass_command s nd nr it r Q s' :
  listening s -> coming s nd nr it r true false s' -> i_atn it = true -> 0 <= i_byte it < 256 ->
  (forall s'', at_setup s true false r (D - 3) true false s'' ->
     wp (ieee488_command stack_dent copy_fuel bus_fuel (i_byte it)) Q s'') -> wp pass Q s'.
Proof.
  intros Hs Hc Hit Hb HQ. unfold command_pass. rewrite wp_bind. apply wp_SetNDAC.
  eapply step_coming_any; [done|exact Hc|done|]. intros _ s1 _ _ K1 _. apply coming_ndac in K1. rewrite wp_bind. apply wp_SetNRFD.
  eapply step_coming_any; [done|exact K1|done|]. intros _ s2 _ _ K2 _. apply (coming_nrfd _ _ _ _ _ _ _ _ true) in K2. rewrite wp_bind.
  eapply wp_listen_data; [done|by eapply coming_bus|]. rewrite wp_bind.
  eapply wait_command_byte; [done|exact K2|done|]. intros s3 K3. rewrite bool_decide_false by naive_solver. rewrite wp_bind. apply wp_SetNRFD.
  eapply step_valid; [done|exact K3| |done]. intros _ s4 _ K4 _. apply (valid_nrfd _ _ _ _ _ _ _ false) in K4. rewrite wp_bind.
  unfold ieee488_Data. rewrite wp_bind. apply wp_port_read. eapply step_valid; [done|exact K4| |done].
  intros i5 s5 (_ & _ & _ & -> & _) K5 _. rewrite wp_ret, wp_bind. apply wp_SetNDAC.
  eapply step_valid; [done|exact K5| |done]. intros _ s6 _ K6 _. apply (valid_ndac _ _ _ _ _ _ _ true) in K6. rewrite wp_bind.
  eapply wait_command_release; [done|exact K6|]. intros s7 K7. rewrite bool_decide_false by naive_solver.
  replace (255 - (255 - i_byte it)) with (i_byte it) by lia. by apply HQ.
Qed.

(** ** The end of a pass *)

(** After the bytes ATN is low again with the flag set: the handler returns. *)
Lemma pass_pending s it r Q s' :
  listening s -> aborted s it r s' -> i_atn it = true -> inactive s = false ->
  (forall s'', coming s false true it r true true s'' -> Q true s'') -> wp pass Q s'.
Proof.
  intros Hs (nd & nr & K) Hit Hin HQ. unfold command_pass. rewrite wp_bind. apply wp_SetNDAC.
  replace (D - 1)%nat with (S (D - 2)) in K by lia. eapply step_pending; [done|exact K|done|lia|]. intros _ s1 _ K1.
  apply (setup_ndac _ _ _ _ _ _ _ _ false) in K1. rewrite wp_bind. apply wp_SetNRFD.
  replace (D - 2)%nat with (S (D - 3)) in K1 by lia. eapply step_pending; [done|exact K1|done|lia|]. intros _ s2 _ K2.
  apply (setup_nrfd _ _ _ _ _ _ _ _ true) in K2. rewrite wp_bind. eapply wp_listen_data; [done|by eapply at_setup_bus|].
  rewrite wp_bind. unfold wait_while. apply wp_loop_pass; [lia|]. rewrite wp_bind. apply wp_port_read.
  replace (D - 3)%nat with (S (D - 4)) in K2 by lia. eapply step_pending; [done|exact K2|done|lia|]. intros i s3 (-> & _ & _) K3.
  rewrite wp_bind. unfold cycle_over_then, cycle_over. rewrite wp_bind, wp_bind. apply wp_atn_flag.
  replace (D - 4)%nat with (S (D - 5)) in K3 by lia. eapply step_pending; [done|exact K3|done|lia|]. intros _ s4 _ K4.
  rewrite (setup_flag _ _ _ _ _ _ _ _ K4), wp_ret, wp_bind. unfold get_bus. rewrite wp_bind, wp_gets. unfold id.
  assert (inactive s4 = false) as -> by (destruct K4 as (p & h & _ & _ & _ & ->); exact Hin). simpl when.
  rewrite !wp_ret. rewrite bool_decide_true by done. rewrite wp_ret. apply HQ. left. eapply at_setup_weaken; [|exact K4]. lia.
Qed.

(** The controller has sent everything and releases ATN. *)
Definition ending (s : ieee) (nd nr a : bool) (s' : ieee) : Prop := exists pulled, at_setup s nd nr [] 0 pulled a s'.
Definition time_to_end (s : ieee) : nat := if c_pulled (host s) then S (timer s) else 0%nat.

Lemma ending_flag s nd nr a s' : ending s nd nr a s' -> ieee488_ATN_received s' = a.
Proof. intros (pulled & K). by eapply setup_flag. Qed.
Lemma ending_bus s nd nr a s' : ending s nd nr a s' -> exists h p, s' = at_bus s p h a.
Proof. intros (pulled & K). by eapply at_setup_bus. Qed.

Lemma step_ending (Q : inputs -> ieee -> Prop) s nd nr a s' :
  listening s -> ending s nd nr a s' ->
  (forall i s'', in_dav i = true -> in_ifc i = true -> in_atn i = (time_to_end s'' =? 0)%nat -> ending s nd nr a s'' ->
     (time_to_end s'' <= pred (time_to_end s'))%nat -> Q i s'') -> wp port_step Q s'.
Proof.
  intros Hs (pulled & p & h & Hp & Hsu & Hpu & ->) HQ. apply (wp_port_step _ s p h a nd nr Hs Hp). cbv zeta.
  destruct (move_end 0 h nd nr Hsu) as [Hm Hpulled].
  replace (negb (c_pulled h) && c_pulled (controller_move (seen nd nr) h)) with false.
  2: { destruct (c_pulled h); [done|]. by rewrite Hpulled. }
  destruct (reads_idle_eq nd nr h (su_valid _ _ _ Hm)) as (Hdav & Hatn & Hifc). apply HQ; [done|done|..].
  - rewrite Hatn. unfold time_to_end. cbn. by destruct (c_pulled (controller_move (seen nd nr) h)).
  - eexists _, p, (controller_move (seen nd nr) h). by split_and!.
  - unfold time_to_end, timer. change (host (at_bus s p (controller_move (seen nd nr) h) a)) with (controller_move (seen nd nr) h).
    change (host (at_bus s p h a)) with h. destruct (c_pulled h); [|by rewrite Hpulled].
    destruct Hpulled as [[-> Ht]| ->]; [rewrite Ht|]; simpl; lia.
Qed.

(** The device on the released bus. *)
Definition at_rest (s : ieee) (s' : ieee) : Prop := at_setup s true true [] 0 false false s'.

Lemma BusIdle_end s nd nr Q s' :
  listening s -> ending s nd nr false s' -> time_to_end s' = 0%nat -> (forall s'', at_rest s s'' -> Q tt s'') ->
  wp ieee488_BusIdle Q s'.
Proof.
  intros Hs K Ht HQ. unfold ieee488_BusIdle, get_bus. rewrite wp_bind, wp_gets. unfold id.
  assert (ieee488_TE75161 s' = false) as ->.
  { destruct (ending_bus _ _ _ _ _ K) as (h & p & ->). apply (li_te1 s Hs). }
  simpl when. rewrite wp_bind, wp_ret, wp_bind. apply wp_SetNDAC. eapply step_ending; [done|exact K|].
  intros _ s1 _ _ _ (pulled & K1) Ht1. apply (setup_ndac _ _ _ _ _ _ _ _ true) in K1. rewrite wp_bind. apply wp_SetNRFD.
  eapply step_ending; [done|eexists; exact K1|]. intros _ s2 _ _ _ (pulled2 & K2) Ht2.
  apply (setup_nrfd _ _ _ _ _ _ _ _ true) in K2. eapply wp_listen_data; [done|by eapply at_setup_bus|]. apply HQ.
  assert (time_to_end (put_nrfd true s2) = 0%nat) as Hz.
  { change (time_to_end (put_nrfd true s2)) with (time_to_end s2). change (time_to_end (put_ndac true s1)) with (time_to_end s1) in Ht2. lia. }
  destruct K2 as (p & h & Hp & Hsu & Hpu & Heq). exists p, h. split_and!; [done|done| |done].
  rewrite Heq in Hz. unfold time_to_end in Hz. change (host (at_bus s p h false)) with h in Hz. by destruct (c_pulled h).
Qed.

Lemma pass_end s nd nr Q s' :
  listening s -> ending s nd nr false s' -> inactive s = true -> (forall s'', at_rest s s'' -> Q true s'') -> wp pass Q s'.
Proof.
  intros Hs K Hin HQ. unfold command_pass. rewrite wp_bind. apply wp_SetNDAC. eapply step_ending; [done|exact K|].
  intros _ s1 _ _ _ (pulled1 & K1) _. apply (setup_ndac _ _ _ _ _ _ _ _ false) in K1. rewrite wp_bind. apply wp_SetNRFD.
  eapply step_ending; [done|eexists; exact K1|]. intros _ s2 _ _ _ (pulled2 & K2) _.
  apply (setup_nrfd _ _ _ _ _ _ _ _ true) in K2. rewrite wp_bind. eapply wp_listen_data; [done|by eapply at_setup_bus|].
  rewrite wp_bind. unfold wait_while.
  apply (wp_loop (fun _ s1 => ending s false true false s1) (fun _ s1 => time_to_end s1)).
  2: by eexists.
  2: { destruct K2 as (p & h & _ & [_ _ Hb _] & _ & ->). unfold time_to_end. change (timer (at_bus s p h false)) with (c_timer h).
       destruct (c_pulled _); lia. }
  intros _ s3 K3. rewrite wp_bind. apply wp_port_read. eapply step_ending; [done|exact K3|]. intros i s4 -> _ _ K4 Ht4.
  rewrite wp_bind. unfold cycle_over_then, cycle_over. rewrite wp_bind, wp_bind. apply wp_atn_flag.
  eapply step_ending; [done|exact K4|]. intros _ s5 _ _ _ K5 Ht5. rewrite (ending_flag _ _ _ _ _ K5), wp_bind.
  apply wp_port_read. eapply step_ending; [done|exact K5|]. intros i6 s6 _ _ -> K6 Ht6.
  destruct (time_to_end s6 =? 0)%nat eqn:Hz.
  - apply Nat.eqb_eq in Hz. rewrite wp_ret, wp_bind. unfold get_bus. rewrite wp_bind, wp_gets. unfold id.
    assert (inactive s6 = true) as -> by (destruct (ending_bus _ _ _ _ _ K6) as (h & p & ->); exact Hin). simpl when.
    eapply BusIdle_end; [done|exact K6|done|]. intros s7 K7. rewrite !wp_ret. rewrite bool_decide_true by done. rewrite wp_ret. by apply HQ.
  - apply Nat.eqb_neq in Hz. apply wp_CheckIFC.
    + eapply step_ending; [done|exact K6|]. intros i7 s7 _ ? _ K7 Ht7. split; [done|]. rewrite !wp_ret. split; [done|]. lia.
    + rewrite !wp_ret. split; [done|]. lia.
Qed.

(** The end of an ATN cycle with UNLISTEN as the last command. *)
Lemma BusIdle_command s items lo Q s' :
  listening s -> at_setup s true false items (S (S lo)) true false s' -> (lo < D)%nat ->
  (forall s'', at_setup s true true items lo true false s'' -> Q tt s'') -> wp ieee488_BusIdle Q s'.
Proof.
  intros Hs K Hlo HQ. unfold ieee488_BusIdle, get_bus. rewrite wp_bind, wp_gets. unfold id.
  assert (ieee488_TE75161 s' = false) as ->.
  { destruct (at_setup_bus _ _ _ _ _ _ _ _ K) as (h & p & ->). apply (li_te1 s Hs). }
  simpl when. rewrite wp_bind, wp_ret, wp_bind. apply wp_SetNDAC. eapply step_hold; [done|exact K|done|lia|].
  intros _ s1 _ K1. apply (setup_ndac _ _ _ _ _ _ _ _ true) in K1. rewrite wp_bind. apply wp_SetNRFD.
  eapply step_hold; [done|exact K1|done|lia|]. intros _ s2 _ K2. apply (setup_nrfd _ _ _ _ _ _ _ _ true) in K2.
  eapply wp_listen_data; [done|by eapply at_setup_bus|]. by apply HQ.
Qed.

(** ** A session: LISTEN, a secondary address, bytes, UNLISTEN *)

Lemma at_setup_map (f : ieee -> ieee) s nd nr items lo pulled a s' :
  (forall p h b, f (at_bus s p h b) = at_bus (f s) p h b) ->
  at_setup s nd nr items lo pulled a s' -> at_setup (f s) nd nr items lo pulled a (f s').
Proof. intros Hf (p & h & ? & ? & ? & ->). exists p, h. by rewrite Hf. Qed.

(** The loop that waits for the end of ATN before the data. *)
Lemma wait_atn_high s it r lo abort Q s' :
  listening s -> at_setup s true false (it :: r) lo true false s' -> i_atn it = false ->
  abort = mret None \/ abort = (ifc ← ieee488_CheckIFC; mret (if ifc : bool then Some RX_IFC else None)) ->
  (forall s'', at_setup s true false (it :: r) 0 false false s'' -> Q None s'') ->
  wp (wait_while bus_fuel (a ← ieee488_ATN; mret (negb a)) abort) Q s'.
Proof.
  intros Hs K Hit Habort HQ. unfold wait_while.
  assert (forall (P : inputs -> ieee -> Prop) pulled s1, at_setup s true false (it :: r) 0 pulled false s1 ->
    (forall i s2 pulled', in_ifc i = true -> in_atn i = negb pulled' -> at_setup s true false (it :: r) 0 pulled' false s2 ->
       (time_to_end s2 <= pred (time_to_end s1))%nat -> P i s2) -> wp port_step P s1) as Hstep.
  { assert (forall pulled s1 n, at_setup s true false (it :: r) n pulled false s1 -> time_to_end s1 = if pulled then S (timer s1) else 0%nat) as Htime.
    { by intros pulled s1 n (p & h & _ & _ & <- & ->). }
    intros P pulled s1 K1 HP. destruct pulled.
    - eapply step_other; [done|exact K1|done|..].
      + intros i s2 (_ & Ha2 & Hi2) K2 Ht. eapply HP; [done|exact Ha2|eapply at_setup_weaken; [|exact K2]; lia|].
        rewrite (Htime _ _ _ K1), (Htime _ _ _ K2). simpl. lia.
      + intros _ _ i s2 (_ & ? & ?) K2. apply (HP i s2 false); [done|done|eapply at_setup_weaken; [|exact K2]; lia|].
        rewrite (Htime _ _ _ K2). lia.
      + done.
    - eapply step_same; [done|exact K1|done|..]; [|done]. intros i s2 (_ & ? & ?) K2 _.
      apply (HP i s2 false); [done|done|eapply at_setup_weaken; [|exact K2]; simpl; lia|]. rewrite (Htime _ _ _ K2). lia. }
  apply (wp_loop (fun _ s1 => exists pulled, at_setup s true false (it :: r) 0 pulled false s1) (fun _ s1 => time_to_end s1)).
  2: { exists true. eapply at_setup_weaken; [|exact K]. lia. }
  2: { destruct K as (p & h & _ & [_ _ Hb _] & _ & ->). unfold time_to_end. change (timer (at_bus s p h false)) with (c_timer h).
       destruct (c_pulled _); lia. }
  intros _ s1 (pulled & K1). rewrite wp_bind, wp_bind. apply wp_port_read. eapply Hstep; [exact K1|].
  intros i s2 pulled2 _ -> K2 Ht2. rewrite wp_ret, negb_involutive. destruct pulled2; [|rewrite wp_ret; by apply HQ].
  assert (time_to_end s2 = S (timer s2)) as Ht by (by destruct K2 as (p & h & _ & _ & Hp & ->); unfold time_to_end; cbn; rewrite Hp).
  rewrite wp_bind. destruct Habort as [->| ->].
  - rewrite !wp_ret. split; [by eexists|]. lia.
  - rewrite wp_bind. apply wp_CheckIFC.
    + eapply Hstep; [exact K2|]. intros i3 s3 pulled3 ? _ K3 Ht3. split; [done|]. rewrite !wp_ret. split; [by eexists|]. lia.
    + rewrite !wp_ret. split; [by eexists|]. lia.
Qed.

(** The handler begins: the flag is set, and reset. *)
Notation handle := (handle_ieee488 stack_dent copy_fuel bus_fuel).
Notation passes n := (loop n (fun _ => over ← pass; mret (if over : bool then inr tt else inl tt)) tt).

Lemma coming_clear s nd nr it r pulled a s' :
  coming s nd nr it r pulled a s' -> coming s nd nr it r pulled false (set_ieee488_ATN_received false s').
Proof. intros [(p & h & ? & ? & ? & ->)|[? (p & h & ? & ? & ? & ->)]]; [left|right; split; [done|]]; by exists p, h. Qed.

Lemma handle_enter s nd nr it r Q s' :
  listening s -> ieee488_IFCreceived s = false -> coming s nd nr it r true true s' -> i_atn it = true ->
  (forall s'', coming s nd nr it r true false s'' -> wp (passes bus_fuel) Q s'') -> wp handle Q s'.
Proof.
  intros Hs Hifc K Hit HQ. unfold handle_ieee488, get_bus. rewrite wp_bind, wp_gets. unfold id.
  assert (ieee488_IFCreceived s' = false) as -> by (destruct (coming_bus _ _ _ _ _ _ _ _ K) as (h & p & ->); exact Hifc).
  rewrite wp_bind.
  assert (forall s1, coming s nd nr it r true true s1 -> wp (when false (ieee488_ProcessIFC bus_fuel);;
     atn ← ATN_received; if negb atn then mret tt else port_step;; modify (set_ieee488_ATN_received false);; passes bus_fuel) Q s1) as Hrest.
  { intros s1 K1. rewrite wp_bind. simpl when. rewrite wp_ret, wp_bind. apply wp_atn_flag.
    eapply step_coming_any; [done|exact K1|done|]. intros _ s2 _ _ K2 _. rewrite (bus_flag _ _ _ (coming_bus _ _ _ _ _ _ _ _ K2)). cbn [negb].
    rewrite wp_bind. eapply step_coming_any; [done|exact K2|done|]. intros _ s3 _ _ K3 _. rewrite wp_bind, wp_modify.
    apply HQ. eapply coming_clear, K3. }
  apply wp_CheckIFC; [|by apply Hrest]. eapply step_coming_any; [done|exact K|done|]. intros i s1 _ ? K1 _. split; [done|]. by apply Hrest.
Qed.

Lemma passes_go_on n Q s :
  (0 < n)%nat -> wp pass (fun over s' => if over : bool then Q tt s' else wp (passes (pred n)) Q s') s -> wp (passes n) Q s.
Proof.
  intros Hn Hw. apply wp_loop_pass; [done|]. rewrite wp_bind. eapply wp_mono; [exact Hw|]. intros [] s' Hq; by rewrite wp_ret.
Qed.

(** The command bytes. *)
Lemma listen_command_bits dev : 1 <= dev <= 30 ->
  IEEE_LISTEN + dev <> IEEE_UNLISTEN /\ IEEE_LISTEN + dev <> IEEE_UNTALK /\
  Z.land (IEEE_LISTEN + dev) 224 = IEEE_LISTEN /\ Z.land (IEEE_LISTEN + dev) 31 = dev.
Proof.
  intros Hd. assert (Forall (fun dev => IEEE_LISTEN + dev <> IEEE_UNLISTEN /\ IEEE_LISTEN + dev <> IEEE_UNTALK /\
    Z.land (IEEE_LISTEN + dev) 224 = IEEE_LISTEN /\ Z.land (IEEE_LISTEN + dev) 31 = dev) (seqZ 1 30)) as Hall
    by (repeat constructor; done).
  rewrite Forall_forall in Hall. apply Hall, elem_of_seqZ. lia.
Qed.

Lemma secondary_command_bits base sa : base = IEEE_SECONDARY \/ base = IEEE_OPEN -> 0 <= sa < 16 ->
  base + sa <> IEEE_UNLISTEN /\ base + sa <> IEEE_UNTALK /\ Z.land (base + sa) 224 <> IEEE_LISTEN /\ Z.land (base + sa) 224 <> IEEE_TALK /\
  Z.land (base + sa) 240 = base /\ Z.land (base + sa) 15 = sa /\ 0 <= base + sa < 256.
Proof.
  intros Hb Hsa. assert (Forall (fun sa => base + sa <> IEEE_UNLISTEN /\ base + sa <> IEEE_UNTALK /\ Z.land (base + sa) 224 <> IEEE_LISTEN /\
    Z.land (base + sa) 224 <> IEEE_TALK /\ Z.land (base + sa) 240 = base /\ Z.land (base + sa) 15 = sa /\ 0 <= base + sa < 256) (seqZ 0 16)) as Hall
    by (destruct Hb as [->| ->]; repeat constructor; done).
  rewrite Forall_forall in Hall. apply Hall, elem_of_seqZ. lia.
Qed.

(** What the device does with the bytes after UNLISTEN: a command, or the name
    of a file to open. *)
Definition received_job (sa : Z) : comp machine unit :=
  if sa =? 15 then parse_doscommand stack_dent copy_fuel
  else on_cmds (modify (set_datacrc 65535));; on_world (file_open stack_dent sa).

(** The device after UNLISTEN. *)
Definition release_listener (s : ieee) : ieee :=
  set_ieee488_ListenActive 0 (set_command_received false (set_open_active false s)).
Definition no_command (m : machine) : machine := set_m_world (set_w_dos (set_command_length 0 (w_dos (m_world m))) (m_world m)) m.

Lemma command_listen dev r s Q s' :
  1 <= dev <= 30 -> device_address (ie_m s) = dev -> at_setup s true false r (D - 3) true false s' ->
  (forall s'', at_setup (set_ieee488_ListenActive dev (set_ieee488_TalkingDevice 0 s)) true false r (D - 3) true false s'' -> Q false s'') ->
  wp (ieee488_command stack_dent copy_fuel bus_fuel (IEEE_LISTEN + dev)) Q s'.
Proof.
  intros Hdev Haddr K HQ. destruct (listen_command_bits dev Hdev) as (H1' & H2' & H3' & H4'). unfold ieee488_command, get_bus.
  rewrite wp_bind, wp_gets. unfold id. rewrite (proj2 (Z.eqb_neq _ _) H1'), (proj2 (Z.eqb_neq _ _) H2'), H3', H4', Z.eqb_refl.
  rewrite (at_setup_ie_m _ _ _ _ _ _ _ _ K), Haddr, Z.eqb_refl. simpl when. rewrite wp_bind, wp_modify, wp_ret. apply HQ.
  by apply (at_setup_map (fun s => set_ieee488_ListenActive dev (set_ieee488_TalkingDevice 0 s))) in K.
Qed.

(** OPEN, or the secondary address 15, with a name behind it. *)
Lemma command_secondary (open : bool) sa xs it r s m Q s' :
  listening s -> 0 <= sa < 16 -> (open = true \/ sa = 15) -> ieee488_ListenActive s <> 0 ->
  bufs_ok (pool s) -> command_channel_writable s -> xs <> [] -> bytes_ok xs -> i_atn it = true ->
  ie_m s = typed_m [] m -> room_for (zlen xs) m ->
  at_setup s true false ((data_item <$> xs) ++ it :: r) (D - 3) true false s' ->
  (forall s'', aborted (with_machine (typed_m xs.*1 m) (mark_command sa ((if open then fun s => set_open_active true (set_open_sa sa s) else id) s))) it r s'' ->
     Q false s'') ->
  wp (ieee488_command stack_dent copy_fuel bus_fuel ((if open then IEEE_OPEN else IEEE_SECONDARY) + sa)) Q s'.
Proof.
  intros Hs Hsa Hact Hla Hb Hw Hne Hxs Hit Hm Hroom K HQ.
  destruct (secondary_command_bits (if open then IEEE_OPEN else IEEE_SECONDARY) sa ltac:(destruct open; auto) Hsa)
    as (B1 & B2 & B3 & B4 & B5 & B6 & _).
  assert (exists it1 r1, (data_item <$> xs) ++ it :: r = it1 :: r1 /\ i_atn it1 = false) as (it1 & r1 & Hr & Hit1)
    by (destruct xs; [done|simpl; eauto]).
  rewrite Hr in K. unfold ieee488_command, get_bus. rewrite wp_bind, wp_gets. unfold id at 1.
  rewrite (proj2 (Z.eqb_neq _ _) B1), (proj2 (Z.eqb_neq _ _) B2), (proj2 (Z.eqb_neq _ _) B3), (proj2 (Z.eqb_neq _ _) B4), B5, B6.
  assert (forall s2, at_setup s true false (it1 :: r1) 0 false false s2 -> ieee488_ListenActive s2 <> 0) as Hla2
    by (intros s2 (p & h & _ & _ & _ & ->); exact Hla).
  destruct open.
  - change (IEEE_OPEN =? IEEE_SECONDARY) with false. change (IEEE_OPEN =? IEEE_CLOSE) with false. rewrite Z.eqb_refl. cbv iota.
    rewrite wp_bind. eapply wait_atn_high; [done|exact K|done|by right|]. intros s2 K2. rewrite bool_decide_false by naive_solver.
    rewrite wp_bind, wp_gets. unfold id. rewrite (proj2 (Z.eqb_neq _ _) (Hla2 s2 K2)). cbn [negb when].
    rewrite wp_bind, wp_bind, wp_modify.
    apply (at_setup_map (fun s => set_open_active true (set_open_sa sa s))) in K2; [|done]. rewrite <- Hr in K2.
    eapply (listen_loop_name xs true LL_OPEN sa (set_open_active true (set_open_sa sa s)) m); [by destruct Hs|by left|done|done|done|done|done|done|exact K2|].
    intros s3 K3. rewrite wp_ret. by apply HQ.
  - destruct Hact as [?| ->]; [done|]. rewrite Z.eqb_refl. cbv iota. rewrite wp_bind. eapply wait_atn_high; [done|exact K|done|by left|].
    intros s2 K2. rewrite wp_bind, wp_gets. unfold id at 1. rewrite (proj2 (Z.eqb_neq _ _) (Hla2 s2 K2)). cbn [negb]. rewrite wp_bind. rewrite <- Hr in K2.
    eapply (listen_loop_name xs true LL_RECEIVE 15 s m); [done|by right|done|done|done|done|done|done|exact K2|].
    intros s3 K3. rewrite wp_ret. by apply HQ.
Qed.

(** UNLISTEN runs the job. *)
Lemma command_unlisten (R : machine -> Prop) sa s Q s' :
  listening s -> (if sa =? 15 then command_received s = true else command_received s = false /\ open_active s = true /\ open_sa s = sa) ->
  wp (received_job sa) (fun _ => R) (ie_m s) ->
  at_setup s true false [] (D - 3) true false s' ->
  (forall m s'', R m -> ending (release_listener (with_machine (no_command m) s)) true true false s'' -> Q false s'') ->
  wp (ieee488_command stack_dent copy_fuel bus_fuel IEEE_UNLISTEN) Q s'.
Proof.
  intros Hs Hjob HR K HQ. unfold ieee488_command, get_bus. rewrite wp_bind, wp_gets. unfold id. rewrite Z.eqb_refl, wp_bind.
  unfold ieee488_Unlisten. rewrite wp_bind. apply (at_setup_weaken _ _ _ _ (D - 3) 2 _ _ _ ltac:(lia)) in K.
  eapply BusIdle_command; [done|exact K|lia|]. intros s1 K1. unfold get_bus. rewrite wp_bind, wp_gets. unfold id. rewrite wp_bind.
  assert (exists h p, s1 = at_bus s p h false) as (h & p & Hs1) by (by eapply at_setup_bus).
  eapply (wp_mono _ (fun _ s2 => exists m, R m /\ s2 = with_machine m s1)).
  - unfold received_job in HR. replace (command_received s1) with (command_received s) by (by rewrite Hs1).
    replace (open_active s1) with (open_active s) by (by rewrite Hs1). replace (open_sa s1) with (open_sa s) by (by rewrite Hs1).
    destruct (sa =? 15).
    + rewrite Hjob. rewrite wp_on_machine. rewrite Hs1. change (ie_m (at_bus s p h false)) with (ie_m s).
      eapply wp_mono; [exact HR|]. intros [] m Hm. by exists m.
    + destruct Hjob as (-> & -> & ->). simpl when. rewrite wp_bind, wp_on_machine. rewrite wp_bind in HR. rewrite Hs1.
      change (ie_m (at_bus s p h false)) with (ie_m s). eapply wp_mono; [exact HR|]. intros [] m Hm. rewrite wp_on_machine.
      change (ie_m (with_machine m (at_bus s p h false))) with m.
      eapply wp_mono; [exact Hm|]. intros [] m' Hm'. by exists m'.
  - intros [] s2 (m & HRm & ->). rewrite wp_bind, wp_modify, wp_on_machine, wp_on_world. unfold on_dos. rewrite wp_zoom, wp_modify.
    rewrite wp_ret. apply (HQ m); [done|]. exists true. rewrite Hs1 in K1 |- *.
    apply (at_setup_map (fun s => release_listener (with_machine (no_command m) s))) in K1; [|done]. exact K1.
Qed.

(** ATN is low and the interrupt has answered it; the controller is going to
    send [script]. *)
Record called (script : list item) (s : ieee) : Prop := {
  ca_listening : listening s;
  ca_pins : listen_pins true false (pins s);
  ca_host : setup script 0 (host s);
  ca_pulled : c_pulled (host s) = true;
  ca_flag : ieee488_ATN_received s = true;
  ca_ifc : ieee488_IFCreceived s = false;
  ca_command : command_received s = false;
  ca_open : open_active s = false
}.

(** The controller is done, the device has released the bus. *)
Record idle (s : ieee) : Prop := {
  id_listening : listening s;
  id_pins : listen_pins true true (pins s);
  id_script : c_script (host s) = [];
  id_pulled : c_pulled (host s) = false;
  id_flag : ieee488_ATN_received s = false;
  id_ifc : ieee488_IFCreceived s = false;
  id_inactive : inactive s = true;
  id_command : command_received s = false;
  id_open : open_active s = false
}.

Lemma called_at_setup script s : called script s -> at_setup s true false script 0 true true s.
Proof. intros []. exists (pins s), (host s). split_and!; try done. unfold at_bus. destruct s. simpl in *. by subst. Qed.

Lemma typed_nothing m : command_length (w_dos (m_world m)) = 0 -> typed_m [] m = m.
Proof.
  intros Hc. unfold typed_m, typed, splice. simpl. destruct m as [w]. simpl in *. f_equal. destruct w. simpl in *. f_equal.
  destruct w_dos. simpl in *. by subst.
Qed.

Lemma at_rest_idle s s' :
  listening s -> ieee488_IFCreceived s = false -> inactive s = true -> command_received s = false -> open_active s = false ->
  at_rest s s' -> idle s' /\ ie_m s' = ie_m s.
Proof. intros [] ? ? ? ? (p & h & Hp & [] & ? & ->). by split. Qed.

(** C5: A session on the bus delivers: when a controller that waits at least
    [D] and at most [W] steps before each of its moves pulls ATN low and sends
    LISTEN with the address of the device, OPEN with a channel (or the
    secondary address of the command channel), the bytes of a name that is not
    empty and fits the command buffer and UNLISTEN, then in two calls of
    [handle_ieee488] the device has received exactly these bytes, has run
    [file_open] for the channel (or [parse_doscommand] for channel 15) on
    them, and leaves the bus idle with an empty command buffer. The device has
    an address from 1 to 30 and at most 15 buffers. A controller that is
    faster than five steps can lose its UNLISTEN
    ([fast_controller_loses_unlisten]). *)
Theorem bus_session_delivers (open : bool) dev sa xs s (R : machine -> Prop) :
  called ([command_item (IEEE_LISTEN + dev); command_item ((if open then IEEE_OPEN else IEEE_SECONDARY) + sa)]
          ++ (data_item <$> xs) ++ [command_item IEEE_UNLISTEN]) s ->
  1 <= dev <= 30 -> device_address (ie_m s) = dev -> 0 <= sa < 16 -> open = true \/ sa = 15 ->
  bufs_ok (pool s) -> command_channel_writable s ->
  xs <> [] -> bytes_ok xs -> command_length (w_dos (m_world (ie_m s))) = 0 -> room_for (zlen xs) (ie_m s) ->
  wp (received_job sa) (fun _ => R) (typed_m xs.*1 (ie_m s)) ->
  wp (handle;; handle) (fun _ s' => idle s' /\ exists m, R m /\ ie_m s' = no_command m) s.
Proof.
  intros Hc Hdev Haddr Hsa Hact Hb Hw Hne Hxs Hlen Hroom HR. pose proof (called_at_setup _ _ Hc) as K.
  destruct Hc as [Hs _ _ _ _ Hifc Hcmd Hopen]. set (m := ie_m s) in *.
  pose proof (typed_nothing m Hlen) as Hm. pose proof (zlen_nonneg xs). assert (4 <= Z.of_nat bus_fuel) as Hf by lia.
  rewrite wp_bind. eapply handle_enter; [done|done|left; exact K|done|]. clear K. intros s1 K1.
  apply passes_go_on; [lia|]. eapply pass_command; [done|exact K1|done|simpl; unfold IEEE_LISTEN; lia|]. clear K1. intros s2 K2.
  eapply command_listen; [done|done|exact K2|]. clear K2. intros s3 K3.
  set (sl := set_ieee488_ListenActive dev (set_ieee488_TalkingDevice 0 s)) in *.
  assert (listening sl) as Hsl by (by destruct Hs).
  destruct (secondary_command_bits (if open then IEEE_OPEN else IEEE_SECONDARY) sa ltac:(destruct open; auto) Hsa) as (_ & _ & _ & _ & _ & _ & Hbyte).
  apply passes_go_on; [lia|]. eapply pass_command; [done|left; eapply at_setup_weaken; [|exact K3]; lia|done|exact Hbyte|].
  clear K3. intros s4 K4. eapply (command_secondary open sa xs (command_item IEEE_UNLISTEN) [] sl m);
    [done|done|done|subst sl; simpl; lia|done|done|done|done|done|by rewrite Hm|done|exact K4|]. clear K4. intros s5 K5.
  set (sr := with_machine (typed_m xs.*1 m) (mark_command sa ((if open then fun s => set_open_active true (set_open_sa sa s) else id) sl))) in *.
  assert (listening sr /\ ieee488_IFCreceived sr = false /\ inactive sr = false /\ ieee488_TalkingDevice sr = 0 /\ ie_m sr = typed_m xs.*1 m /\
    (if sa =? 15 then command_received sr = true else command_received sr = false /\ open_active sr = true /\ open_sa sr = sa))
    as (Hsr & Hifcr & Hinr & Htalk & Hmr & Hjob).
  { subst sr sl. unfold mark_command, inactive. destruct Hs.
    destruct (sa =? 15) eqn:H15, open; simpl; rewrite ?(proj2 (Z.eqb_neq dev 0) ltac:(lia)); try (by split_and!).
    all: exfalso; apply Z.eqb_neq in H15; destruct Hact; congruence. }
  apply passes_go_on; [lia|]. eapply pass_pending; [done|exact K5|done|done|]. clear K5. intros s6 K6.
  eapply handle_enter; [done|done|exact K6|done|]. clear K6. intros s7 K7.
  apply passes_go_on; [lia|]. eapply pass_command; [done|exact K7|done|done|]. clear K7. intros s8 K8.
  eapply (command_unlisten R sa sr); [done|exact Hjob|by rewrite Hmr|exact K8|]. clear K8. intros m' s9 HRm K9.
  set (se := release_listener (with_machine (no_command m') sr)) in *.
  assert (listening se /\ inactive se = true) as [Hse Hine]
    by (destruct Hsr; split; [by split|unfold inactive; change (ieee488_TalkingDevice se) with (ieee488_TalkingDevice sr); by rewrite Htalk]).
  apply passes_go_on; [lia|]. eapply pass_end; [exact Hse|exact K9|done|]. intros s10 K10.
  destruct (at_rest_idle se s10) as [Hidle Hie]; try done. split; [done|]. exists m'. by rewrite Hie.
Qed.
End receiving.

(** ** A witness: OPEN 2,8,2 with the name of a direct access buffer *)

#[local] Existing Instance sample_asserts.
#[local] Existing Instance avr_geom.
#[local] Existing Instance demo_config.
#[local] Existing Instance six_buffers.
#[local] Existing Instance clock_system.
#[local] Existing Instance demo_board.
#[local] Existing Instance no_drives.
#[local] Existing Instance no_loaders.

Definition plain_bus : IeeeConfig := {| HAVE_IFC := true; HAVE_DC := false |}.
#[local] Existing Instance plain_bus.

Definition demo_pins : pins_t := {|
  eoi_ddr := false; eoi_port := true; dav_ddr := false; dav_port := true; ndac_ddr := true; ndac_port := true;
  nrfd_ddr := true; nrfd_port := false; te_port := false; dc_port := true; d_ddr := 0; d_port := 255
|}.

Definition demo_script : list item :=
  [command_item (IEEE_LISTEN + 8); command_item (IEEE_OPEN + 2)] ++ (data_item <$> [(35, true)]) ++ [command_item IEEE_UNLISTEN].

Definition demo_called (delays : list nat) : ieee (H := names_fatfs) (H8 := controller_host) := {|
  ie_m := demo_machine [];
  ieee488_ListenActive := 0;
  ieee488_TalkingDevice := 0;
  command_received := false;
  open_active := false;
  open_sa := 0;
  ieee488_IFCreceived := false;
  ieee488_ATN_received := true;
  ieee488_TE75160 := false;
  ieee488_TE75161 := false;
  atn_interrupt := true;
  pins := demo_pins;
  host := Controller demo_script false true 6 delays : @HOST controller_host
|}.

(** The buffer of channel 2 is open for direct access. *)
Definition channel_2_open (m : @machine names_fatfs) : Prop :=
  exists b, find (fun b => allocated b && (secondary b =? 2)) (buffers (w_bufs (m_world m))) = Some b /\ buf_write b = true /\ lastused b = 255.

Lemma bus_session_delivers_witness :
  called 5 60 demo_script (demo_called [7%nat; 50%nat]) /\
  wp (handle_ieee488 (H := names_fatfs) (H8 := controller_host) zero_dent 1 100;; handle_ieee488 zero_dent 1 100)
    (fun _ s' => idle s' /\ exists m, channel_2_open m /\ ie_m s' = no_command m) (demo_called [7%nat; 50%nat]).
Proof.
  assert (called 5 60 demo_script (demo_called [7%nat; 50%nat])) as Hc.
  { split; try done; split; try done; simpl; try lia. repeat constructor; lia. }
  split; [exact Hc|].
  apply (bus_session_delivers (H := names_fatfs) zero_dent 1 100 5 60 ltac:(lia) ltac:(lia) ltac:(lia) ltac:(lia)
    true 8 2 [(35, true)] _ channel_2_open Hc).
  - lia.
  - reflexivity.
  - lia.
  - by left.
  - apply demo_machine_bufs.
  - intros i b Hb Ha Hs. revert Ha Hs. do 9 (destruct i as [|i]; [revert Hb; vm_compute; intros [= <-]; try discriminate; try reflexivity|]).
    revert Hb. vm_compute. discriminate.
  - discriminate.
  - repeat constructor; simpl; lia.
  - reflexivity.
  - vm_compute. repeat split; discriminate.
  - apply wp_done. eexists _, _. split; [vm_compute; reflexivity|]. eexists. vm_compute. repeat split.
Defined.

(** A controller that answers within two steps puts UNLISTEN on the bus before
    the device has looked at the flag: the device accepts the byte, sees the
    flag of the interrupt that ended the reception and drops the command.  It
    still listens, with the name in the command buffer. *)
Lemma fast_controller_loses_unlisten :
  match (handle_ieee488 (H := names_fatfs) (H8 := controller_host) zero_dent 1 100;; handle_ieee488 zero_dent 1 100;;
         handle_ieee488 zero_dent 1 100) (demo_called (replicate 20 2%nat)) with
  | Done _ s => c_script (host s) = [] /\ ieee488_ListenActive s = 8 /\ open_active s = true /\ command_length (w_dos (m_world (ie_m s))) = 1
  | _ => False
  end.
Proof. vm_compute. by repeat split. Qed.
