(* ===== verification/TalkTheorems.v ===== *)
(** * The theorems about the bus: sending

    The talk loop against the listener of BusHosts.v, for every list of
    delays from [D] to [W] steps: the bus adds nothing and loses nothing.
    [channel_sent] is the talk loop without the bus. *)

From stdpp Require Import gmap.
From S2P Require Import Prelude EepromFs ErrorMsg Utils Buffers BuffersTheorems FatFs Dirent World D64Geom D64 D64Files D64Ops.
From S2P Require Import EefsOps FatNames FatFile Callbacks FatOps WrapOps Parser DirLines FileOps DosFiles Machine Config.
From S2P Require Import DosBlock DosMemory DosTime DosCmd Ieee IeeeFacts BusHosts MachineFacts.
From S2P Require Import D64Demo DemoWorld ErrorMsgTheorems EepromFsTheorems.

Section talking.
Context `{FatFs} `{EepromGeom} `{Assertions} `{ErrorConfig} `{BufferConfig} `{SystemConfig} `{BoardConfig}.
Context `{!DiskDrivers} `{!Fastloaders} `{IeeeConfig}.
#[local] Existing Instance listening_host.
Context (stack_dent : cbmdirent_t) (bus_fuel : nat).

(** Three steps are what the device needs from the moment NRFD falls to the
    next look at it. *)
Context (D W : nat).
Context (HD : (3 <= D)%nat) (HD8 : (D <= 8)%nat) (HW : (8 <= W)%nat).
Context (Hfuel : (W + W + 4 < bus_fuel)%nat).

(** ** The reference: what a channel sends *)

Definition next_sent (buf : Z) : comp machine (Z * bool) :=
  b ← mbufs (buf_get buf);
  c ← channel_byte buf (position b);
  mret (c, (position b =? lastused b) && sendeoi b).

Definition buffer_sent (buf : Z) (sent : list (Z * bool)) : comp machine (list (Z * bool)) :=
  loop 257 (fun sent =>
    x ← next_sent buf;
    b ← mbufs (buf_get buf);
    mbufs (buf_upd buf (set_position (u8 (position b + 1))));;
    mret (if position b <? lastused b then inl (sent ++ [x]) else inr (sent ++ [x]))) sent.

(** Nothing more is sent after the last buffer of a file that is no REL file. *)
Definition at_end_of_file (sa : Z) (b : buffer_t) : bool :=
  sendeoi b && negb (sa =? 15) && (recordlen b =? 0) && negb (bool_decide (refill b = Some cb_directbuffer_refill)).

Definition channel_sent (sa : Z) : comp machine (list (Z * bool)) :=
  buf ← mbufs (find_buffer sa);
  match buf with
  | None => mret []
  | Some buf =>
      loop bus_fuel (fun '(buf, sent) =>
        i ← of_option buf;
        b ← mbufs (buf_get i);
        if negb (buf_read b) then mret (inr sent)
        else
          sent ← buffer_sent i sent;
          b ← mbufs (buf_get i);
          if at_end_of_file sa b then mbufs (buf_upd i (set_buf_read false));; mret (inr sent)
          else
            res ← on_world (run_refill stack_dent i);
            if negb (res =? 0) then mret (inr sent)
            else buf' ← mbufs (find_buffer sa); mret (inl (buf', sent))) (Some buf, [])
  end.

(** ** The states *)

Record talk_pins (dav : bool) (p : pins_t) : Prop := {
  tp_te : te_port p = true;
  tp_ndac : ndac_ddr p = false;
  tp_nrfd : nrfd_ddr p = false;
  tp_dav_ddr : dav_ddr p = true;
  tp_dav : dav_port p = dav
}.
Definition host_delays (h : listener_host) : Prop := Forall (fun d => D <= d <= W)%nat (n_delays h).
Record hearing (ph : phase) (recv : list (Z * bool)) (lo : nat) (h : listener_host) : Prop := {
  he_phase : n_phase h = ph;
  he_received : n_received h = recv;
  he_timer : (lo <= n_timer h <= W)%nat;
  he_delays : host_delays h
}.

Definition on_bus (s : ieee) (te : bool) (p : pins_t) (h : listener_host) : ieee := at_bus (set_ieee488_TE75160 te s) p h false.

(** DAV is high: the listener has nothing to take. *)
Definition quiet (s : ieee) (recv : list (Z * bool)) (s' : ieee) : Prop :=
  exists te p h ph, talk_pins true p /\ (te = true -> d_ddr p = 255) /\ hearing ph recv 0 h /\ ph <> L_BUSY /\ s' = on_bus s te p h.
Definition settle (s : ieee) : nat :=
  match n_phase (host s) with
  | L_TAKEN => n_timer (host s) + W + 2
  | L_CLEAR => S (n_timer (host s))
  | _ => 0
  end%nat.
(** DAV is low with [x] on the lines. *)
Definition sends (s : ieee) (ph : phase) (x : Z * bool) (recv : list (Z * bool)) (lo : nat) (s' : ieee) : Prop :=
  exists p h, talk_pins false p /\ d_ddr p = 255 /\ line_byte (lines_of p) = x /\ hearing ph recv lo h /\ s' = on_bus s true p h.
Definition ntimer (s : ieee) : nat := n_timer (host s).

Lemma n_delay_ok h : host_delays h -> (D <= n_delay h <= W)%nat.
Proof. unfold n_delay, host_delays. intros Hd. destruct (n_delays h); simpl; [unfold default_delay; lia|]. by apply Forall_cons in Hd as [? _]. Qed.

Lemma n_event_hearing ph recv h : host_delays h -> hearing ph recv D (n_event ph recv h).
Proof.
  unfold host_delays. intros Hd. assert (Forall (fun d => D <= d <= W)%nat (tl (n_delays h))) as Ht
    by (destruct (n_delays h); [done|]; by apply Forall_cons in Hd as [_ ?]).
  split; try done. cbn. destruct (tl (n_delays h)) as [|d ds]; cbn; [unfold default_delay; lia|].
  apply Forall_cons in Ht as [? _]. lia.
Qed.
Lemma n_wait_hearing ph recv lo n h : (lo <= n <= W)%nat -> hearing ph recv 0 h -> hearing ph recv lo (n_wait n h).
Proof. intros Hn []. by split. Qed.

Lemma hearing_weaken ph recv lo lo' h : (lo' <= lo)%nat -> hearing ph recv lo h -> hearing ph recv lo' h.
Proof. intros Hl []. split; [done|done|lia|done]. Qed.
Lemma sends_weaken s ph x recv lo lo' s' : (lo' <= lo)%nat -> sends s ph x recv lo s' -> sends s ph x recv lo' s'.
Proof. intros Hl (p & h & ? & ? & ? & ? & ?). exists p, h. split_and!; try done. by eapply hearing_weaken. Qed.

Lemma lines_of_talk dav p : talk_pins dav p -> l_ndac (lines_of p) = true /\ l_nrfd (lines_of p) = true /\ l_dav (lines_of p) = dav.
Proof. intros [Hte Hn Hr Hd Hp]. unfold lines_of, released. simpl. rewrite Hte, Hn, Hr, Hd, Hp. by destruct dav. Qed.

Lemma listener_ndac p h : l_ndac (lines_of p) = true ->
  in_ndac (listener_step (lines_of p) h).1 = match n_phase (listener_move (lines_of p) h) with L_TAKEN => true | _ => false end.
Proof. intros Ln. unfold listener_step. cbn [in_ndac fst]. by rewrite Ln. Qed.
Lemma listener_nrfd p h : l_nrfd (lines_of p) = true ->
  in_nrfd (listener_step (lines_of p) h).1 = match n_phase (listener_move (lines_of p) h) with L_READY => true | _ => false end.
Proof. intros Lr. unfold listener_step. cbn [in_nrfd fst]. by rewrite Lr. Qed.

Lemma wp_talk_step (Q : inputs -> ieee -> Prop) s te p h :
  Q (listener_step (lines_of p) h).1 (on_bus s te p (listener_move (lines_of p) h)) -> wp port_step Q (on_bus s te p h).
Proof.
  intros HQ. unfold port_step, get_bus. rewrite wp_bind, wp_gets. unfold id.
  change (bus_step (lines_of (pins (on_bus s te p h))) (host (on_bus s te p h))) with (listener_step (lines_of p) h).
  rewrite (surjective_pairing (listener_step (lines_of p) h)), wp_bind, wp_modify, wp_bind.
  change (atn_fell (listener_step (lines_of p) h).1) with false. simpl when. rewrite !wp_ret. exact HQ.
Qed.

Lemma talk_step_quiet (Q : inputs -> ieee -> Prop) s recv s' :
  quiet s recv s' ->
  (forall i s'', in_ndac i = (W + 1 <? settle s'')%nat -> in_nrfd i = (settle s'' =? 0)%nat -> in_ifc i = true ->
     quiet s recv s'' -> (settle s'' <= pred (settle s'))%nat -> Q i s'') -> wp port_step Q s'.
Proof.
  intros (te & p & h & ph & Hp & Hddr & Hh & Hph & ->) HQ. apply wp_talk_step.
  destruct (lines_of_talk true p Hp) as (Ln & Lr & Ld).
  assert (exists ph', ph' <> L_BUSY /\ hearing ph' recv 0 (listener_move (lines_of p) h) /\
    (settle (on_bus s te p (listener_move (lines_of p) h)) <= pred (settle (on_bus s te p h)))%nat) as (ph' & Hph' & Hh' & Hset).
  { destruct Hh as [Hp1 Hr1 Ht1 Hd1]. pose proof (n_delay_ok h Hd1). unfold listener_move, settle.
    change (host (on_bus s te p h)) with h. rewrite Hp1, Ld. destruct ph; try done.
    - exists L_READY. split; [done|]. split; [by apply n_wait_hearing; [lia|]|]. cbn. rewrite Hp1. lia.
    - unfold n_after. destruct (n_timer h) as [|n] eqn:Hn.
      + exists L_CLEAR. split; [done|]. rewrite Hr1. pose proof (n_event_hearing L_CLEAR recv h Hd1) as He.
        split; [by eapply hearing_weaken; [|exact He]; lia|]. cbn. destruct He as [_ _ He _]. cbn in He. lia.
      + exists L_TAKEN. split; [done|]. split; [apply n_wait_hearing; [lia|by split; [..|lia|]]|]. cbn. rewrite Hp1. lia.
    - unfold n_after. destruct (n_timer h) as [|n] eqn:Hn.
      + exists L_READY. split; [done|]. rewrite Hr1. pose proof (n_event_hearing L_READY recv h Hd1) as He.
        split; [by eapply hearing_weaken; [|exact He]; lia|]. cbn. lia.
      + exists L_CLEAR. split; [done|]. split; [apply n_wait_hearing; [lia|by split; [..|lia|]]|]. cbn. rewrite Hp1. lia. }
  apply HQ; [| |done| |exact Hset].
  - rewrite listener_ndac by done. unfold settle. change (host (on_bus s te p (listener_move (lines_of p) h))) with (listener_move (lines_of p) h). rewrite (he_phase _ _ _ _ Hh'). pose proof (he_timer _ _ _ _ Hh').
    symmetry. destruct ph'; try done; first [apply Nat.ltb_lt; lia|apply Nat.ltb_ge; lia].
  - rewrite listener_nrfd by done. unfold settle. change (host (on_bus s te p (listener_move (lines_of p) h))) with (listener_move (lines_of p) h). rewrite (he_phase _ _ _ _ Hh').
    symmetry. destruct ph'; try done; apply Nat.eqb_neq; lia.
  - by exists te, p, (listener_move (lines_of p) h), ph'.
Qed.

(** The listener answers to DAV. *)
Lemma step_ready (Q : inputs -> ieee -> Prop) s x recv s' :
  sends s L_READY x recv 0 s' ->
  (forall i s'', in_nrfd i = true -> in_ndac i = false -> in_ifc i = true -> sends s L_READY x recv 0 s'' -> ntimer s' = S (ntimer s'') -> Q i s'') ->
  (forall i s'', in_nrfd i = false -> in_ndac i = false -> in_ifc i = true -> sends s L_BUSY x recv D s'' -> Q i s'') -> wp port_step Q s'.
Proof.
  intros (p & h & Hp & Hddr & Hx & [Hp1 Hr1 Ht1 Hd1] & ->) Hstay Hgo. destruct (lines_of_talk false p Hp) as (Ln & Lr & Ld).
  apply wp_talk_step. destruct (n_timer h) as [|n] eqn:Hn.
  - assert (listener_move (lines_of p) h = n_event L_BUSY recv h) as Hm
      by (unfold listener_move, n_after; by rewrite Hp1, Ld, Hn, Hr1).
    apply Hgo; [by rewrite listener_nrfd, Hm|by rewrite listener_ndac, Hm|done|]. rewrite Hm. exists p, (n_event L_BUSY recv h).
    split_and!; try done. by apply n_event_hearing.
  - assert (listener_move (lines_of p) h = n_wait n h) as Hm by (unfold listener_move, n_after; by rewrite Hp1, Ld, Hn).
    apply Hstay; [rewrite listener_nrfd, Hm by done; cbn; by rewrite Hp1|rewrite listener_ndac, Hm by done; cbn; by rewrite Hp1|done| |].
    + rewrite Hm. exists p, (n_wait n h). split_and!; try done. apply n_wait_hearing; [lia|]. by split; [..|lia|].
    + rewrite Hm. unfold ntimer. cbn. by rewrite Hn.
Qed.

Lemma step_busy (Q : inputs -> ieee -> Prop) s x recv lo s' :
  sends s L_BUSY x recv lo s' ->
  (forall i s'', in_nrfd i = false -> in_ndac i = false -> in_ifc i = true -> sends s L_BUSY x recv (pred lo) s'' -> ntimer s' = S (ntimer s'') -> Q i s'') ->
  (lo = 0%nat -> forall i s'', in_nrfd i = false -> in_ndac i = true -> in_ifc i = true -> sends s L_TAKEN x (recv ++ [x]) 0 s'' -> Q i s'') ->
  wp port_step Q s'.
Proof.
  intros (p & h & Hp & Hddr & Hx & [Hp1 Hr1 Ht1 Hd1] & ->) Hstay Hgo. destruct (lines_of_talk false p Hp) as (Ln & Lr & Ld).
  apply wp_talk_step. destruct (n_timer h) as [|n] eqn:Hn.
  - assert (listener_move (lines_of p) h = n_event L_TAKEN (recv ++ [x]) h) as Hm
      by (unfold listener_move, n_after; by rewrite Hp1, Hn, Hr1, Hx).
    apply Hgo; [lia|by rewrite listener_nrfd, Hm|by rewrite listener_ndac, Hm|done|]. rewrite Hm. exists p, (n_event L_TAKEN (recv ++ [x]) h).
    split_and!; try done. eapply hearing_weaken; [|by apply n_event_hearing]. lia.
  - assert (listener_move (lines_of p) h = n_wait n h) as Hm by (unfold listener_move, n_after; by rewrite Hp1, Hn).
    apply Hstay; [rewrite listener_nrfd, Hm by done; cbn; by rewrite Hp1|rewrite listener_ndac, Hm by done; cbn; by rewrite Hp1|done| |].
    + rewrite Hm. exists p, (n_wait n h). split_and!; try done. apply n_wait_hearing; [lia|]. by split; [..|lia|].
    + rewrite Hm. unfold ntimer. cbn. by rewrite Hn.
Qed.

Lemma step_taken (Q : inputs -> ieee -> Prop) s x recv s' :
  sends s L_TAKEN x recv 0 s' ->
  (forall i s'', in_nrfd i = false -> in_ndac i = true -> in_ifc i = true -> sends s L_TAKEN x recv 0 s'' -> Q i s'') -> wp port_step Q s'.
Proof.
  intros (p & h & Hp & Hddr & Hx & [Hp1 Hr1 Ht1 Hd1] & ->) HQ. destruct (lines_of_talk false p Hp) as (Ln & Lr & Ld).
  pose proof (n_delay_ok h Hd1). apply wp_talk_step.
  assert (listener_move (lines_of p) h = n_wait (n_delay h) h) as Hm by (unfold listener_move; by rewrite Hp1, Ld).
  apply HQ; [rewrite listener_nrfd, Hm by done; cbn; by rewrite Hp1|rewrite listener_ndac, Hm by done; cbn; by rewrite Hp1|done|].
  rewrite Hm. exists p, (n_wait (n_delay h) h). split_and!; try done. apply n_wait_hearing; [lia|]. by split; [..|lia|].
Qed.

(** ** The handshake for one byte *)

Lemma quiet_flag s recv s' : quiet s recv s' -> ieee488_ATN_received s' = false.
Proof. by intros (te & p & h & ph & _ & _ & _ & _ & ->). Qed.
Lemma sends_flag s ph x recv lo s' : sends s ph x recv lo s' -> ieee488_ATN_received s' = false.
Proof. by intros (p & h & _ & _ & _ & _ & ->). Qed.
Lemma settle_bound s recv s' : quiet s recv s' -> (settle s' <= W + W + 2)%nat.
Proof.
  intros (te & p & h & ph & _ & _ & Hh & _ & ->). unfold settle. change (host (on_bus s te p h)) with h.
  pose proof (he_timer _ _ _ _ Hh). destruct (n_phase h); lia.
Qed.

(** The tests of ATN and of IFC change nothing while DAV is high. *)
Lemma quiet_check_abort s recv s' Q :
  quiet s recv s' -> (forall s'', quiet s recv s'' -> (settle s'' <= settle s')%nat -> Q None s'') -> wp check_abort Q s'.
Proof.
  intros K HQ. unfold check_abort. rewrite wp_bind. apply wp_atn_flag. eapply talk_step_quiet; [exact K|].
  intros i s1 _ _ _ K1 Ht1. rewrite (quiet_flag _ _ _ K1), wp_bind. apply wp_CheckIFC.
  - eapply talk_step_quiet; [exact K1|]. intros i2 s2 _ _ ? K2 Ht2. split; [done|]. rewrite wp_ret. apply HQ; [done|]. lia.
  - rewrite wp_ret. apply HQ; [done|]. lia.
Qed.

(** The device waits while the byte before is cleared away. *)
Lemma quiet_wait (cond : comp ieee bool) (bound : nat) abort s recv s' Q :
  (forall s1 P, quiet s recv s1 ->
     (forall s2, quiet s recv s2 -> (settle s2 <= pred (settle s1))%nat -> P (bound <? settle s2)%nat s2) -> wp cond P s1) ->
  (forall s1 P, quiet s recv s1 -> (forall s2, quiet s recv s2 -> (settle s2 <= settle s1)%nat -> P None s2) -> wp abort P s1) ->
  quiet s recv s' ->
  (forall s'', quiet s recv s'' -> (settle s'' <= bound)%nat -> Q None s'') -> wp (wait_while bus_fuel cond abort) Q s'.
Proof.
  intros Hcond Habort K HQ. unfold wait_while.
  apply (wp_loop (fun _ s1 => quiet s recv s1) (fun _ s1 => settle s1)).
  2: exact K. 2: { pose proof (settle_bound _ _ _ K). lia. }
  intros _ s1 K1. rewrite wp_bind. apply Hcond; [exact K1|]. intros s2 K2 Ht2. destruct (bound <? settle s2)%nat eqn:Hb.
  - apply Nat.ltb_lt in Hb. rewrite wp_bind. apply Habort; [exact K2|]. intros s3 K3 Ht3. rewrite wp_ret. split; [done|]. lia.
  - apply Nat.ltb_ge in Hb. rewrite wp_ret. by apply HQ.
Qed.

Lemma quiet_wait_ndac s recv s' Q :
  quiet s recv s' -> (forall s'', quiet s recv s'' -> (settle s'' <= W + 1)%nat -> Q None s'') ->
  wp (wait_while bus_fuel ieee488_NDAC (atn_then ieee488_BusIdle)) Q s'.
Proof.
  intros K HQ. eapply (quiet_wait _ (W + 1)); [| |exact K|exact HQ].
  - intros s1 P K1 HP. apply wp_port_read. eapply talk_step_quiet; [exact K1|]. intros i s2 -> _ _ K2 Ht2. by apply HP.
  - intros s1 P K1 HP. unfold atn_then. rewrite wp_bind. eapply quiet_check_abort; [exact K1|]. intros s2 K2 Ht2.
    rewrite wp_bind, !wp_ret. by apply HP.
Qed.

Lemma quiet_wait_nrfd s recv s' Q :
  quiet s recv s' -> (forall s'', quiet s recv s'' -> settle s'' = 0%nat -> Q None s'') ->
  wp (wait_while bus_fuel (n ← ieee488_NRFD; mret (negb n)) check_abort) Q s'.
Proof.
  intros K HQ. eapply (quiet_wait _ 0); [| |exact K|intros s2 K2 Ht2; apply HQ; [done|lia]].
  - intros s1 P K1 HP. rewrite wp_bind. apply wp_port_read. eapply talk_step_quiet; [exact K1|]. intros i s2 _ -> _ K2 Ht2.
    rewrite wp_ret. replace (negb (settle s2 =? 0)%nat) with (0 <? settle s2)%nat by (by destruct (settle s2)). by apply HP.
  - intros s1 P K1 HP. by eapply quiet_check_abort.
Qed.

(** While the listener is ready it stays so. *)
Definition ready (s : ieee) (recv : list (Z * bool)) (s' : ieee) : Prop := quiet s recv s' /\ settle s' = 0%nat.
Lemma step_stay_ready (Q : inputs -> ieee -> Prop) s recv s' :
  ready s recv s' -> (forall i s'', in_ndac i = false -> ready s recv s'' -> Q i s'') -> wp port_step Q s'.
Proof.
  intros [K Ht] HQ. eapply talk_step_quiet; [exact K|]. intros i s1 Hn _ _ K1 Ht1. apply HQ; [|split; [done|lia]].
  rewrite Hn. apply Nat.ltb_ge. lia.
Qed.
Lemma ready_listener s recv s' Q : ready s recv s' -> (forall s'', ready s recv s'' -> Q false s'') -> wp lost_listener Q s'.
Proof.
  intros K HQ. unfold lost_listener. rewrite wp_bind. apply wp_port_read. eapply step_stay_ready; [exact K|]. intros i s1 -> K1.
  apply wp_atn_flag. eapply step_stay_ready; [exact K1|]. intros _ s2 _ K2. rewrite (quiet_flag _ _ _ (proj1 K2)). by apply HQ.
Qed.

(** Writing to the pins of the lines that the listener does not watch. *)
Definition put_pins (f : pins_t -> pins_t) (s : ieee) : ieee := set_pins (f (pins s)) s.
Lemma wp_port_write f Q s' : wp port_step (fun _ s'' => Q tt (put_pins f s'')) s' -> wp (port_write f) Q s'.
Proof. intros Hw. unfold port_write. rewrite wp_bind. eapply wp_mono; [exact Hw|]. intros i s'' HQ. by rewrite wp_modify. Qed.

Lemma quiet_put f s recv s' :
  (forall p, talk_pins true p -> talk_pins true (f p)) -> (forall p, d_ddr p = 255 -> d_ddr (f p) = 255) ->
  quiet s recv s' -> quiet s recv (put_pins f s') /\ settle (put_pins f s') = settle s'.
Proof. intros Hf Hd (te & p & h & ph & ? & ? & ? & ? & ->). split; [|done]. exists te, (f p), h, ph. split_and!; auto. Qed.
Lemma ready_put f s recv s' :
  (forall p, talk_pins true p -> talk_pins true (f p)) -> (forall p, d_ddr p = 255 -> d_ddr (f p) = 255) ->
  ready s recv s' -> ready s recv (put_pins f s').
Proof. intros Hf Hd [K Ht]. destruct (quiet_put f s recv s' Hf Hd K) as [K' Ht']. split; [done|lia]. Qed.

(** The listener is ready; EOI is [e] and the data register [d]. *)
Definition prepared (s : ieee) (te e : bool) (d : option Z) (recv : list (Z * bool)) (s' : ieee) : Prop :=
  exists p h, talk_pins true p /\ (te = true -> d_ddr p = 255) /\ hearing L_READY recv 0 h /\
    l_eoi (lines_of p) = e /\ match d with Some d => d_port p = d | None => True end /\ s' = on_bus s te p h.

Lemma ready_prepared s recv s' : ready s recv s' -> exists te e, prepared s te e None recv s'.
Proof.
  intros [(te & p & h & ph & Hp & Hd & Hh & Hph & ->) Ht]. exists te, (l_eoi (lines_of p)), p, h. split_and!; try done.
  assert (ph = L_READY) as ->; [|done]. unfold settle in Ht. change (host (on_bus s te p h)) with h in Ht.
  rewrite (he_phase _ _ _ _ Hh) in Ht. destruct ph; [done|done|lia|lia].
Qed.

Lemma step_prepared (Q : inputs -> ieee -> Prop) s te e d recv s' :
  prepared s te e d recv s' ->
  (forall i s'', in_ndac i = false -> prepared s te e d recv s'' -> Q i s'') -> wp port_step Q s'.
Proof.
  intros (p & h & Hp & Hd & Hh & He & Hdp & ->) HQ. destruct (lines_of_talk true p Hp) as (Ln & Lr & Ld).
  apply wp_talk_step. pose proof Hh as [Hp1 Hr1 Ht1 Hd1]. pose proof (n_delay_ok h Hd1).
  assert (listener_move (lines_of p) h = n_wait (n_delay h) h) as Hm by (unfold listener_move; by rewrite Hp1, Ld).
  apply HQ; [rewrite listener_ndac, Hm by done; cbn; by rewrite Hp1|]. rewrite Hm.
  exists p, (n_wait (n_delay h) h). split_and!; try done. apply n_wait_hearing; [lia|done].
Qed.

Lemma prepared_flag s te e d recv s' : prepared s te e d recv s' -> ieee488_ATN_received s' = false.
Proof. by intros (p & h & _ & _ & _ & _ & _ & ->). Qed.
Lemma prepared_listener s te e d recv s' Q :
  prepared s te e d recv s' -> (forall s'', prepared s te e d recv s'' -> Q false s'') -> wp lost_listener Q s'.
Proof.
  intros K HQ. unfold lost_listener. rewrite wp_bind. apply wp_port_read. eapply step_prepared; [exact K|]. intros i s1 -> K1.
  apply wp_atn_flag. eapply step_prepared; [exact K1|]. intros _ s2 _ K2. rewrite (prepared_flag _ _ _ _ _ _ K2). by apply HQ.
Qed.

Lemma talk_pins_put dav p :
  talk_pins dav p -> (forall x, talk_pins dav (set_eoi_port x p)) /\ (forall x, talk_pins dav (set_eoi_ddr x p)) /\
  (forall x, talk_pins dav (set_d_port x p)) /\ (forall x, talk_pins dav (set_d_ddr x p)) /\ (forall x, talk_pins x (set_dav_port x p)).
Proof. intros []. split_and!; intros x; by split. Qed.

Lemma prepare_eoi s te e x recv s' Q :
  prepared s te e None recv s' -> (forall s'', prepared s te x None recv s'' -> Q tt s'') -> wp (ieee488_SetEOI x) Q s'.
Proof.
  intros K HQ.
  assert (forall s1, prepared s te e None recv s1 -> exists e', prepared s te e' None recv (put_pins (set_eoi_port x) s1)) as Hfirst.
  { intros s1 (p & h & Hp & Hd & Hh & _ & _ & ->). eexists _, (set_eoi_port x p), h. split_and!; [by apply talk_pins_put|done|done|done|done|done]. }
  assert (forall s1, (exists e1, prepared s te e1 None recv s1 /\ eoi_port (pins s1) = x) ->
    prepared s te x None recv (put_pins (set_eoi_ddr (negb x)) s1)) as Hlast.
  { intros s1 (e1 & (p & h & Hp & Hd & Hh & _ & _ & ->) & Hx). exists (set_eoi_ddr (negb x) p), h.
    split_and!; [by apply talk_pins_put|done|done| |done|done]. change (pins (on_bus s te p h)) with p in Hx.
    unfold lines_of, released. simpl. rewrite (tp_te _ _ Hp), Hx. by destruct x. }
  assert (ieee488_SetEOI x = (port_write (set_eoi_port x);; port_write (set_eoi_ddr (negb x)))) as -> by (by destruct x).
  rewrite wp_bind. apply wp_port_write. eapply step_prepared; [exact K|]. intros _ s1 _ K1.
  destruct (Hfirst _ K1) as (e1 & p & h & Hp & Hd & Hh & He & _ & Heq). apply wp_port_write.
  assert (eoi_port p = x) as Hx by (change p with (pins (on_bus s te p h)); by rewrite <- Heq).
  rewrite Heq. apply wp_talk_step. destruct (lines_of_talk true p Hp) as (Ln & Lr & Ld).
  pose proof Hh as [Hp1 Hr1 Ht1 Hd1]. pose proof (n_delay_ok h Hd1).
  assert (listener_move (lines_of p) h = n_wait (n_delay h) h) as Hm by (unfold listener_move; by rewrite Hp1, Ld).
  rewrite Hm. apply HQ, Hlast. exists e1. split; [|exact Hx]. exists p, (n_wait (n_delay h) h). split_and!; try done.
  apply n_wait_hearing; [lia|done].
Qed.

Lemma prepare_direction s te e recv s' Q :
  prepared s te e None recv s' -> (forall s'', prepared s true e None recv s'' -> Q tt s'') ->
  wp (s ← get_bus; when (negb (ieee488_TE75160 s)) ieee488_DataTalk) Q s'.
Proof.
  intros K HQ. unfold get_bus. rewrite wp_bind, wp_gets. unfold id.
  assert (ieee488_TE75160 s' = te) as -> by (by destruct K as (p & h & _ & _ & _ & _ & _ & ->)).
  destruct te; simpl when; [rewrite wp_ret; by apply HQ|]. unfold ieee488_DataTalk. rewrite wp_bind. apply wp_port_write.
  eapply step_prepared; [exact K|]. intros _ s1 _ (p & h & Hp & _ & Hh & He & _ & ->). rewrite wp_bind. apply wp_port_write.
  assert (prepared s false e None recv (put_pins (set_d_port 255) (on_bus s false p h))) as K1.
  { exists (set_d_port 255 p), h. split_and!; [by apply talk_pins_put|done|done|done|done|done]. }
  eapply step_prepared; [exact K1|]. intros _ s2 _ (p2 & h2 & Hp2 & _ & Hh2 & He2 & _ & ->). rewrite wp_modify. apply HQ.
  exists (set_d_ddr 255 p2), h2. split_and!; [by apply talk_pins_put|done|done|done|done|done].
Qed.

(** DAV falls with the byte on the lines. *)
Lemma prepare_byte s e c recv s' Q :
  prepared s true e None recv s' ->
  (forall s'', sends s L_READY (c, negb e) recv 0 s'' -> Q true s'') ->
  wp (ieee488_SetData c;; lost ← lost_listener; if lost : bool then mret false else ieee488_SetDAV false;; mret true) Q s'.
Proof.
  intros K HQ. rewrite wp_bind. unfold ieee488_SetData. apply wp_port_write. eapply step_prepared; [exact K|].
  intros _ s1 _ (p & h & Hp & Hd & Hh & He & _ & ->). rewrite wp_bind.
  assert (prepared s true e (Some (255 - c)) recv (put_pins (set_d_port (255 - c)) (on_bus s true p h))) as K1.
  { exists (set_d_port (255 - c) p), h. split_and!; [by apply talk_pins_put|done|done|done|done|done]. }
  eapply prepared_listener; [exact K1|]. intros s2 K2. rewrite wp_bind. unfold ieee488_SetDAV. apply wp_port_write.
  eapply step_prepared; [exact K2|]. intros _ s3 _ (p3 & h3 & Hp3 & Hd3 & Hh3 & He3 & Hc3 & ->). rewrite wp_ret. apply HQ.
  exists (set_dav_port false p3), h3. split_and!; [by eapply talk_pins_put|by apply Hd3| |done|done].
  unfold line_byte, lines_of. simpl. rewrite (tp_te _ _ Hp3), Hd3, Hc3 by done. change (255 - 255) with 0. rewrite Z.lor_0_r.
  f_equal; [lia|]. rewrite <- He3. unfold lines_of. simpl. by rewrite (tp_te _ _ Hp3).
Qed.

Definition ready_time (s : ieee) : nat := match n_phase (host s) with L_READY => S (ntimer s) | _ => 0 end.
Definition busy_time (s : ieee) : nat := match n_phase (host s) with L_BUSY => S (ntimer s) | _ => 0 end.

(** The listener pulls NRFD. *)
Lemma sends_wait_nrfd s x recv s' Q :
  sends s L_READY x recv 0 s' -> (forall s'', sends s L_BUSY x recv 0 s'' -> Q None s'') ->
  wp (wait_while bus_fuel ieee488_NRFD (
    lost ← lost_listener;
    if lost : bool then release_dav;; ieee488_BusIdle;; mret (Some RX_ATN)
    else ifc ← ieee488_CheckIFC; mret (if ifc : bool then Some RX_IFC else None))) Q s'.
Proof.
  intros K HQ. unfold wait_while.
  apply (wp_loop (fun _ s1 => sends s L_READY x recv 0 s1 \/ sends s L_BUSY x recv 1 s1)
    (fun _ => ready_time)).
  2: by left. 2: { destruct K as (p & h & _ & _ & _ & [Hp1 _ Ht1 _] & ->). unfold ready_time, ntimer. change (host (on_bus s true p h)) with h. rewrite Hp1. lia. }
  assert (forall s1 lo, sends s L_READY x recv lo s1 -> ready_time s1 = S (ntimer s1)) as Hready
    by (intros s1 lo (p & h & _ & _ & _ & [Hp1 _ _ _] & ->); unfold ready_time; change (host (on_bus s true p h)) with h; by rewrite Hp1).
  assert (forall s1 lo, sends s L_BUSY x recv lo s1 -> ready_time s1 = 0%nat) as Hbusy
    by (intros s1 lo (p & h & _ & _ & _ & [Hp1 _ _ _] & ->); unfold ready_time; change (host (on_bus s true p h)) with h; by rewrite Hp1).
  intros _ s1 [K1|K1]; rewrite wp_bind; apply wp_port_read.
  2: { eapply step_busy; [exact K1| |done]. intros i s2 -> _ _ K2 _. rewrite wp_ret. apply HQ. eapply sends_weaken; [|exact K2]. lia. }
  eapply step_ready; [exact K1|..].
  2: { intros i s2 -> _ _ K2. rewrite wp_ret. apply HQ. eapply sends_weaken; [|exact K2]. lia. }
  intros i s2 -> _ _ K2 Ht2. rewrite wp_bind, wp_bind. unfold lost_listener. rewrite wp_bind. apply wp_port_read.
  rewrite (Hready _ _ K1). set (P := fun b s4 => wp (if b : bool then _ else _) _ s4).
  assert (forall s4, sends s L_READY x recv 0 s4 /\ (ntimer s4 < ntimer s1)%nat \/ sends s L_BUSY x recv 2 s4 -> P false s4) as HP.
  { intros s4 K4. unfold P. rewrite wp_bind. apply wp_CheckIFC.
    - destruct K4 as [[K4 Ht4]|K4].
      + eapply step_ready; [exact K4|..].
        * intros i5 s5 _ _ ? K5 Ht5. split; [done|]. rewrite !wp_ret. split; [by left|]. rewrite (Hready _ _ K5). lia.
        * intros i5 s5 _ _ ? K5. split; [done|]. rewrite !wp_ret. split; [right; eapply sends_weaken; [|exact K5]; lia|]. rewrite (Hbusy _ _ K5). lia.
      + eapply step_busy; [exact K4| |done]. intros i5 s5 _ _ ? K5 _. split; [done|]. rewrite !wp_ret. split; [by right|]. rewrite (Hbusy _ _ K5). lia.
    - rewrite !wp_ret. destruct K4 as [[K4 Ht4]|K4]; (split; [first [by left|right; eapply sends_weaken; [|exact K4]; lia]|]);
        rewrite ?(Hready _ _ K4), ?(Hbusy _ _ K4); lia. }
  eapply step_ready; [exact K2|..].
  - intros i3 s3 _ -> _ K3 Ht3. apply wp_atn_flag. eapply step_ready; [exact K3|..].
    + intros _ s4 _ _ _ K4 Ht4. rewrite (sends_flag _ _ _ _ _ _ K4). apply HP. left. split; [done|lia].
    + intros _ s4 _ _ _ K4. rewrite (sends_flag _ _ _ _ _ _ K4). apply HP. right. eapply sends_weaken; [|exact K4]. lia.
  - intros i3 s3 _ -> _ K3. apply wp_atn_flag. replace D with (S (D - 1)) in K3 by lia. eapply step_busy; [exact K3| |done].
    intros _ s4 _ _ _ K4 _. rewrite (sends_flag _ _ _ _ _ _ K4). apply HP. right. eapply sends_weaken; [|exact K4]. lia.
Qed.

(** The listener takes the byte and releases NDAC. *)
Lemma sends_wait_ndac s x recv s' Q :
  sends s L_BUSY x recv 0 s' -> (forall s'', sends s L_TAKEN x (recv ++ [x]) 0 s'' -> Q None s'') ->
  wp (wait_while bus_fuel (n ← ieee488_NDAC; mret (negb n)) (atn_then release_dav)) Q s'.
Proof.
  intros K HQ. unfold wait_while.
  set (time := busy_time).
  assert (forall s1 lo, sends s L_BUSY x recv lo s1 -> time s1 = S (ntimer s1)) as Hbusy
    by (intros s1 lo (p & h & _ & _ & _ & [Hp1 _ _ _] & ->); unfold time, busy_time; change (host (on_bus s true p h)) with h; by rewrite Hp1).
  assert (forall s1 lo, sends s L_TAKEN x (recv ++ [x]) lo s1 -> time s1 = 0%nat) as Htaken
    by (intros s1 lo (p & h & _ & _ & _ & [Hp1 _ _ _] & ->); unfold time, busy_time; change (host (on_bus s true p h)) with h; by rewrite Hp1).
  set (on := fun s1 => sends s L_BUSY x recv 0 s1 \/ sends s L_TAKEN x (recv ++ [x]) 0 s1).
  assert (forall (P : inputs -> ieee -> Prop) s1, on s1 ->
    (forall i s2, in_ndac i = (time s2 =? 0)%nat -> in_ifc i = true -> on s2 -> (time s2 <= pred (time s1))%nat -> P i s2) -> wp port_step P s1) as Hstep.
  { intros P s1 [K1|K1] HP.
    - eapply step_busy; [exact K1|..].
      + intros i s2 _ Hn ? K2 Ht2. apply HP; [by rewrite Hn, (Hbusy _ _ K2)|done|by left|]. rewrite (Hbusy _ _ K1), (Hbusy _ _ K2). simpl. lia.
      + intros _ i s2 _ Hn ? K2. apply HP; [by rewrite Hn, (Htaken _ _ K2)|done|by right|]. rewrite (Htaken _ _ K2). lia.
    - eapply step_taken; [exact K1|]. intros i s2 _ Hn ? K2. apply HP; [by rewrite Hn, (Htaken _ _ K2)|done|by right|]. rewrite (Htaken _ _ K2). lia. }
  apply (wp_loop (fun _ => on) (fun _ => time)).
  2: by left. 2: { rewrite (Hbusy _ _ K). destruct K as (p & h & _ & _ & _ & [_ _ Ht1 _] & ->). unfold ntimer. change (host (on_bus s true p h)) with h. lia. }
  intros _ s1 K1. rewrite wp_bind, wp_bind. apply wp_port_read. apply Hstep; [done|]. intros i s2 -> _ K2 Ht2. rewrite wp_ret.
  destruct (time s2 =? 0)%nat eqn:Hz; cbn [negb].
  { rewrite wp_ret. apply HQ. destruct K2 as [K2|K2]; [|done]. by rewrite (Hbusy _ _ K2) in Hz. }
  apply Nat.eqb_neq in Hz. rewrite wp_bind. unfold atn_then, check_abort. rewrite wp_bind, wp_bind. apply wp_atn_flag.
  apply Hstep; [done|]. intros _ s3 _ _ K3 Ht3.
  assert (ieee488_ATN_received s3 = false) as -> by (destruct K3 as [K3|K3]; by eapply sends_flag).
  rewrite wp_bind. apply wp_CheckIFC.
  - apply Hstep; [done|]. intros i4 s4 _ ? K4 Ht4. split; [done|]. rewrite wp_ret, wp_bind, !wp_ret. split; [done|]. lia.
  - rewrite wp_ret, wp_bind, !wp_ret. split; [done|]. lia.
Qed.

(** Before a byte: nothing is on the bus, or the last byte has been taken. *)
Definition between (s : ieee) (recv : list (Z * bool)) (s' : ieee) : Prop :=
  quiet s recv s' \/ exists x, sends s L_TAKEN x recv 0 s'.

Lemma step_between (Q : inputs -> ieee -> Prop) s recv s' :
  between s recv s' -> (forall i s'', in_ifc i = true -> between s recv s'' -> Q i s'') -> wp port_step Q s'.
Proof.
  intros [K|(x & K)] HQ.
  - eapply talk_step_quiet; [exact K|]. intros i s1 _ _ ? K1 _. apply HQ; [done|by left].
  - eapply step_taken; [exact K|]. intros i s1 _ _ ? K1. apply HQ; [done|]. right. by exists x.
Qed.

Lemma release_dav_quiet s recv s' Q :
  between s recv s' -> (forall s'', quiet s recv s'' -> Q tt s'') -> wp release_dav Q s'.
Proof.
  intros K HQ. unfold release_dav, ieee488_SetDAV. rewrite wp_bind. apply wp_port_write. eapply step_between; [exact K|].
  intros _ s1 _ K1. assert (quiet s recv (put_pins (set_dav_port true) s1)) as K2.
  { destruct K1 as [(te & p & h & ph & Hp & Hd & Hh & Hph & ->)|(x & p & h & Hp & Hd & _ & Hh & ->)].
    - exists te, (set_dav_port true p), h, ph. split_and!; try done. by eapply talk_pins_put.
    - exists true, (set_dav_port true p), h, L_TAKEN. split_and!; try done. by eapply talk_pins_put. }
  unfold ieee488_SetEOI. rewrite wp_bind. apply wp_port_write. eapply talk_step_quiet; [exact K2|]. intros _ s3 _ _ _ K3 _.
  apply wp_port_write. apply (quiet_put (set_eoi_port true)) in K3; [|intros; by apply talk_pins_put|done].
  eapply talk_step_quiet; [exact (proj1 K3)|]. intros _ s4 _ _ _ K4 _. apply HQ. apply quiet_put; [intros; by apply talk_pins_put|done|done].
Qed.

Lemma quiet_m s recv s' : quiet s recv s' -> ie_m s' = ie_m s.
Proof. by intros (te & p & h & ph & _ & _ & _ & _ & ->). Qed.

Lemma reads_pool {A} (c : comp bufs A) : reads c -> reads (mbufs c).
Proof. intros Hc. apply reads_zoom; [by intros []|]. apply reads_zoom; [by intros []|done]. Qed.

Lemma reads_buf_get i : reads (buf_get i).
Proof. apply reads_bind; [apply reads_gets|]. intros b. apply reads_of_option. Qed.

Lemma reads_channel_byte buf pos : reads (channel_byte buf pos).
Proof.
  unfold channel_byte. destruct (buf =? ERRORBUFFER_IDX).
  - apply reads_bind; [|intros e; apply reads_of_option]. apply reads_zoom; [by intros []|apply reads_gets].
  - apply reads_pool, reads_bind; [apply reads_gets|]. intros b. apply reads_of_option.
Qed.

Lemma wp_read_on_machine {A} (c : comp machine A) a s' (Q : A -> ieee -> Prop) :
  c (ie_m s') = Done a (ie_m s') -> Q a s' -> wp (on_machine c) Q s'.
Proof. intros Hrun HQ. rewrite wp_on_machine. eapply wp_intro; [exact Hrun|]. by rewrite with_machine_same. Qed.

(** The byte at [position] is what the listener receives. *)
Lemma talk_byte_sends buf s recv s' x m Q :
  between s recv s' -> next_sent buf (ie_m s) = Done x m ->
  (m = ie_m s -> forall s'', sends s L_TAKEN x (recv ++ [x]) 0 s'' -> Q true s'') -> wp (talk_byte bus_fuel buf) Q s'.
Proof.
  intros K Hrun HQ.
  assert (wp (next_sent buf) (fun x1 m1 => x1 = x /\ m1 = m) (ie_m s)) as Hw by (by eapply wp_intro).
  unfold next_sent in Hw. rewrite wp_bind in Hw. apply wp_reads in Hw as (b & Hb & Hw); [|apply reads_pool, reads_buf_get].
  rewrite wp_bind in Hw. apply wp_reads in Hw as (c & Hc & Hw); [|apply reads_channel_byte]. rewrite wp_ret in Hw. destruct Hw as [Hx Hm].
  assert (forall s1, between s recv s1 -> wp (ok ← talk_ready bus_fuel; if negb ok then mret false
    else ok ← talk_put buf; if negb ok then mret false else talk_accept bus_fuel) Q s1) as Hrest.
  2: { unfold talk_byte. rewrite wp_bind. apply wp_CheckIFC; [|by apply Hrest]. eapply step_between; [exact K|].
       intros i s1 ? K1. split; [done|]. by apply Hrest. }
  clear s' K. intros s1 K1. unfold talk_ready. rewrite !wp_bind. eapply release_dav_quiet; [exact K1|]. clear s1 K1. intros s1 K1.
  rewrite wp_bind. eapply quiet_wait_ndac; [exact K1|]. clear s1 K1. intros s1 K1 _. rewrite bool_decide_false by naive_solver.
  rewrite wp_bind. eapply quiet_wait_nrfd; [exact K1|]. clear s1 K1. intros s1 K1 Ht1. rewrite wp_ret, bool_decide_true by done. cbn [negb].
  assert (ready s recv s1) as K2 by (by split). clear K1 Ht1. pose proof (quiet_m _ _ _ (proj1 K2)) as Hm1.
  unfold talk_put. rewrite !wp_bind. apply (wp_read_on_machine _ b); [by rewrite Hm1|]. cbv zeta. rewrite wp_bind.
  apply (wp_read_on_machine _ c); [by rewrite Hm1|]. rewrite wp_bind. eapply ready_listener; [exact K2|]. clear s1 K2 Hm1. intros s1 K1.
  destruct (ready_prepared _ _ _ K1) as (te & e & K2). clear K1. rewrite wp_bind. eapply prepare_eoi; [exact K2|]. clear s1 K2. intros s1 K1.
  rewrite wp_bind. eapply prepare_direction; [exact K1|]. clear s1 K1. intros s1 K1. eapply prepare_byte; [exact K1|]. clear s1 K1. intros s1 K1.
  rewrite negb_involutive, Hx in K1. cbn [negb]. unfold talk_accept. rewrite wp_bind. eapply sends_wait_nrfd; [exact K1|]. clear s1 K1. intros s1 K1.
  rewrite bool_decide_false by naive_solver. rewrite wp_bind. eapply sends_wait_ndac; [exact K1|]. clear s1 K1. intros s1 K1.
  rewrite wp_ret, bool_decide_true by done. by apply HQ.
Qed.

(** ** A buffer *)

Lemma between_machine m s recv s' : between s recv s' -> between (with_machine m s) recv (with_machine m s').
Proof.
  intros [(te & p & h & ph & ? & ? & ? & ? & ->)|(x & p & h & ? & ? & ? & ? & ->)]; [left; by exists te, p, h, ph|right; by exists x, p, h].
Qed.
Lemma between_m s recv s' : between s recv s' -> ie_m s' = ie_m s.
Proof. intros [K|(x & p & h & _ & _ & _ & _ & ->)]; [by eapply quiet_m|done]. Qed.
Lemma quiet_machine m s recv s' : quiet s recv s' -> quiet (with_machine m s) recv (with_machine m s').
Proof. intros (te & p & h & ph & ? & ? & ? & ? & ->). by exists te, p, h, ph. Qed.

(** A step of the machine, in the device and in the reference. *)
Lemma between_step {A} (c : comp machine A) a m s recv s' (Q : A -> ieee -> Prop) :
  between s recv s' -> c (ie_m s) = Done a m ->
  (forall s'', between (with_machine m s) recv s'' -> Q a s'') -> wp (on_machine c) Q s'.
Proof.
  intros K Hrun HQ. rewrite wp_on_machine, (between_m _ _ _ K). eapply wp_intro; [exact Hrun|]. by apply HQ, between_machine.
Qed.

Lemma bind_done {A B} (c : comp machine A) (k : A -> comp machine B) b m m' :
  (c ≫= k) m = Done b m' -> exists a m1, c m = Done a m1 /\ k a m1 = Done b m'.
Proof. unfold mbind, comp_bind. destruct (c m) as [a m1| |]; [|discriminate..]. eauto. Qed.

Lemma loop_done {L A} fuel (body : L -> comp machine (L + A)) l m x m' :
  loop fuel body l m = Done x m' ->
  exists fuel', fuel = S fuel' /\ exists r m1, body l m = Done r m1 /\
    match r with inl l' => loop fuel' body l' m1 = Done x m' | inr y => y = x /\ m1 = m' end.
Proof.
  destruct fuel as [|fuel]; [discriminate|]. intros (r & m1 & Hb & Hk)%bind_done. exists fuel. split; [done|]. exists r, m1. split; [done|].
  destruct r; [done|]. unfold mret, comp_ret in Hk. by simplify_eq.
Qed.

Notation sent_body buf := (fun sent : list (Z * bool) =>
  x ← next_sent buf;
  b ← mbufs (buf_get buf);
  mbufs (buf_upd buf (set_position (u8 (position b + 1))));;
  mret (if position b <? lastused b then inl (sent ++ [x]) else inr (sent ++ [x]))).
Notation talk_body buf := (fun _ : unit =>
  ok ← talk_byte bus_fuel buf;
  if negb ok then mret (inr false)
  else
    b ← on_pool (buf_get buf);
    on_pool (buf_upd buf (set_position (u8 (position b + 1))));;
    mret (if position b <? lastused b then inl tt else inr true)).

Lemma talk_buffer_sends buf old : forall fuel sent sent' s s' m Q,
  between s (old ++ sent) s' -> loop fuel (sent_body buf) sent (ie_m s) = Done sent' m ->
  (forall s'', between (with_machine m s) (old ++ sent') s'' -> Q true s'') ->
  wp (loop fuel (talk_body buf) tt) Q s'.
Proof.
  induction fuel as [|fuel IH]; intros sent sent' s s' m Q K Hrun HQ; [discriminate|].
  apply loop_done in Hrun as (fuel' & [= <-] & r & m1 & Hrun & Hr). apply bind_done in Hrun as (x & m2 & Hx & Hrun).
  apply wp_loop_pass; [lia|]. rewrite wp_bind. eapply talk_byte_sends; [exact K|exact Hx|]. intros -> s1 K1. cbn [negb].
  apply bind_done in Hrun as (b & m3 & Hb & Hrun). apply bind_done in Hrun as ([] & m4 & Hu & Hrun).
  unfold mret, comp_ret in Hrun. simplify_eq.
  assert (between s ((old ++ sent) ++ [x]) s1) as K2 by (right; by exists x). rewrite <- app_assoc in K2.
  rewrite wp_bind. eapply between_step; [exact K2|exact Hb|]. clear s1 K1 K2. intros s1 K1.
  rewrite wp_bind. eapply between_step; [exact K1|exact Hu|]. clear s1 K1. intros s1 K1. rewrite with_machine_twice in K1. rewrite wp_ret.
  cbn [pred]. destruct (position b <? lastused b).
  - eapply (IH (sent ++ [x])); [exact K1|exact Hr|]. intros s2 K2. apply HQ. by rewrite with_machine_twice in K2.
  - destruct Hr as [<- <-]. by apply HQ.
Qed.

(** ** The loop over the buffers *)

Lemma reads_loop {S L A} (body : L -> comp S (L + A)) : (forall l, reads (body l)) -> forall fuel l, reads (loop fuel body l).
Proof.
  intros Hb. induction fuel as [|fuel IH]; intros l; [intros s a s'; discriminate|]. simpl. apply reads_bind; [done|].
  intros [l'|a]; [apply IH|apply reads_ret].
Qed.
Lemma reads_find_buffer sa : reads (find_buffer sa).
Proof.
  apply reads_loop. intros i. destruct (i <? _); [|apply reads_ret]. apply reads_bind; [apply reads_buf_get|].
  intros b. destruct (_ && _); apply reads_ret.
Qed.

Notation channel_body sa := (fun '(buf, sent) =>
  i ← of_option buf;
  b ← mbufs (buf_get i);
  if negb (buf_read b) then mret (inr sent)
  else
    sent ← buffer_sent i sent;
    b ← mbufs (buf_get i);
    if at_end_of_file sa b then mbufs (buf_upd i (set_buf_read false));; mret (inr sent)
    else
      res ← on_world (run_refill stack_dent i);
      if negb (res =? 0) then mret (inr sent)
      else buf' ← mbufs (find_buffer sa); mret (inl (buf', sent))).
Notation loop_body sa := (fun buf =>
  i ← of_option buf;
  b ← on_pool (buf_get i);
  if negb (buf_read b) then mret (inr tt)
  else
    ok ← talk_buffer bus_fuel i;
    if negb ok then mret (inr tt)
    else
      b ← on_pool (buf_get i);
      if sendeoi b && negb (sa =? 15) && (recordlen b =? 0) && negb (bool_decide (refill b = Some cb_directbuffer_refill)) then
        on_pool (buf_upd i (set_buf_read false));; release_dav;; mret (inr tt)
      else
        res ← refill_of stack_dent i;
        if negb (res =? 0) then release_dav;; mret (inr tt)
        else buf' ← on_pool (find_buffer sa); mret (inl buf')).

Lemma channel_loop_sends sa old : forall fuel buf sent sent' s s' m (Q : unit -> ieee -> Prop),
  between s (old ++ sent) s' -> loop fuel (channel_body sa) (buf, sent) (ie_m s) = Done sent' m ->
  (forall s'', between (with_machine m s) (old ++ sent') s'' -> Q tt s'') ->
  wp (loop fuel (loop_body sa) buf) Q s'.
Proof.
  induction fuel as [|fuel IH]; intros buf sent sent' s s' m Q K Hrun HQ; [discriminate|].
  apply loop_done in Hrun as (fuel' & [= <-] & r & m1 & Hrun & Hr). apply bind_done in Hrun as (i & m2 & Hi & Hrun).
  destruct buf as [j|]; [|discriminate]. cbn in Hi. unfold mret, comp_ret in Hi. simplify_eq.
  apply wp_loop_pass; [lia|]. rewrite wp_bind. cbn [of_option]. rewrite wp_ret.
  apply bind_done in Hrun as (b & m3 & Hb & Hrun). rewrite wp_bind. eapply between_step; [exact K|exact Hb|]. clear s' K. intros s1 K1.
  destruct (buf_read b); cbn [negb] in Hrun |- *.
  2: { unfold mret, comp_ret in Hrun. simplify_eq. rewrite wp_ret. destruct Hr as [<- <-]. by apply HQ. }
  apply bind_done in Hrun as (sent1 & m4 & Hsent & Hrun). rewrite wp_bind. unfold talk_buffer, buffer_sent in *.
  eapply talk_buffer_sends; [exact K1|exact Hsent|]. clear s1 K1. intros s1 K1. cbn [negb]. rewrite with_machine_twice in K1.
  apply bind_done in Hrun as (b1 & m5 & Hb1 & Hrun). rewrite wp_bind. eapply between_step; [exact K1|exact Hb1|]. clear s1 K1. intros s1 K1.
  rewrite with_machine_twice in K1. unfold at_end_of_file in Hrun. destruct (_ && _ && _ && _).
  - apply bind_done in Hrun as ([] & m6 & Hu & Hrun). unfold mret, comp_ret in Hrun. simplify_eq. destruct Hr as [<- <-].
    rewrite wp_bind. eapply between_step; [exact K1|exact Hu|]. clear s1 K1. intros s1 K1. rewrite wp_bind.
    eapply release_dav_quiet; [exact K1|]. intros s2 K2. rewrite wp_ret. apply HQ. left. by rewrite with_machine_twice in K2.
  - apply bind_done in Hrun as (res & m6 & Hres & Hrun). rewrite wp_bind. unfold refill_of. eapply between_step; [exact K1|exact Hres|].
    clear s1 K1. intros s1 K1. rewrite with_machine_twice in K1. destruct (negb (res =? 0)).
    + unfold mret, comp_ret in Hrun. simplify_eq. destruct Hr as [<- <-]. rewrite wp_bind. eapply release_dav_quiet; [exact K1|].
      intros s2 K2. rewrite wp_ret. apply HQ. by left.
    + apply bind_done in Hrun as (buf' & m7 & Hbuf & Hrun). unfold mret, comp_ret in Hrun. simplify_eq.
      rewrite wp_bind. eapply between_step; [exact K1|exact Hbuf|]. clear s1 K1. intros s1 K1. rewrite with_machine_twice in K1. rewrite wp_ret.
      cbn [pred]. eapply (IH buf' sent1); [exact K1|exact Hr|]. intros s2 K2. apply HQ. by rewrite with_machine_twice in K2.
Qed.

(** ** Entering the talk mode *)

Definition listening_host_ok (recv : list (Z * bool)) (h : listener_host) : Prop := exists ph, ph <> L_BUSY /\ hearing ph recv 0 h.

Lemma step_free (Q : inputs -> ieee -> Prop) s p h recv :
  l_dav (lines_of p) = true -> listening_host_ok recv h ->
  (forall i h', listening_host_ok recv h' -> Q i (at_bus s p h' false)) -> wp port_step Q (at_bus s p h false).
Proof.
  intros Hdav (ph & Hph & [Hp1 Hr1 Ht1 Hd1]) HQ. unfold port_step, get_bus. rewrite wp_bind, wp_gets. unfold id.
  change (bus_step (lines_of (pins (at_bus s p h false))) (host (at_bus s p h false))) with (listener_step (lines_of p) h).
  rewrite (surjective_pairing (listener_step (lines_of p) h)), wp_bind, wp_modify, wp_bind.
  change (atn_fell (listener_step (lines_of p) h).1) with false. simpl when. rewrite !wp_ret. apply (HQ _ (listener_move (lines_of p) h)).
  pose proof (n_delay_ok h Hd1).
  assert (hearing ph recv 0 h) as Hh by (by split). unfold listener_move, n_after. rewrite Hp1, Hdav. destruct ph; try done.
  - exists L_READY. split; [done|]. by apply n_wait_hearing; [lia|].
  - destruct (n_timer h) as [|n].
    + exists L_CLEAR. split; [done|]. rewrite Hr1. eapply hearing_weaken; [|by apply n_event_hearing]. lia.
    + exists L_TAKEN. split; [done|]. by apply n_wait_hearing; [lia|].
  - destruct (n_timer h) as [|n].
    + exists L_READY. split; [done|]. rewrite Hr1. eapply hearing_weaken; [|by apply n_event_hearing]. lia.
    + exists L_CLEAR. split; [done|]. by apply n_wait_hearing; [lia|].
Qed.

Lemma wp_free_write f (Q : unit -> ieee -> Prop) s p h recv :
  l_dav (lines_of p) = true -> listening_host_ok recv h ->
  (forall h', listening_host_ok recv h' -> Q tt (at_bus s (f p) h' false)) -> wp (port_write f) Q (at_bus s p h false).
Proof. intros Hd Hh HQ. apply wp_port_write. eapply step_free; [done|exact Hh|]. intros _ h' Hh'. by apply HQ. Qed.

Lemma CtrlPortsTalk_between s p h recv Q :
  te_port p = false -> (ieee488_TE75160 s = true -> d_ddr p = 255) -> listening_host_ok recv h ->
  (forall s'', between (set_ieee488_TE75161 true s) recv s'' -> Q tt s'') -> wp ieee488_CtrlPortsTalk Q (at_bus s p h false).
Proof.
  intros Hte Hddr Hh HQ. unfold ieee488_CtrlPortsTalk, ieee488_SetTE.
  assert (forall q, te_port q = false -> l_dav (lines_of q) = true) as Hl
    by (intros q Hq; unfold lines_of, released; simpl; rewrite Hq; by destruct (dav_ddr q)).
  assert (forall q, dav_port q = true -> l_dav (lines_of q) = true) as Hd
    by (intros q Hq; unfold lines_of, released; simpl; rewrite Hq; by rewrite orb_true_r).
  do 7 (rewrite wp_bind; eapply wp_free_write; [first [by apply Hd|by apply Hl]|exact Hh|]; clear h Hh; intros h Hh).
  rewrite wp_modify. apply HQ. left. destruct Hh as (ph & Hph & Hh).
  eexists (ieee488_TE75160 s), _, h, ph. split_and!; [| |exact Hh|exact Hph|].
  3: { unfold on_bus, at_bus, put_pins. destruct s. reflexivity. }
  - by split.
  - exact Hddr.
Qed.

(** A device that has been addressed to talk; the listener has received
    [recv] so far. *)
Record talker (recv : list (Z * bool)) (s : ieee) : Prop := {
  ta_flag : ieee488_ATN_received s = false;
  ta_te : te_port (pins s) = false;
  ta_te0 : ieee488_TE75160 s = false;
  ta_te1 : ieee488_TE75161 s = false;
  ta_host : listening_host_ok recv (host s)
}.

(** C6: The bus is transparent: whatever the talk loop would send without a
    bus - the bytes of the buffers of the channel, refilled until the end,
    each with its EOI - a listener on the bus receives, exactly these bytes in
    this order, when its delays are at least [D] (3 or more) and at most [W]
    steps, and the device ends in the same state. A listener that changes both
    lines within two steps can be taken for lost (ieee.c:641) and is excluded.
    *)
Theorem talk_loop_transparent sa s recv sent m :
  talker recv s -> channel_sent sa (ie_m s) = Done sent m ->
  wp (ieee488_TalkLoop stack_dent bus_fuel sa) (fun _ s' => n_received (host s') = recv ++ sent /\ ie_m s' = m) s.
Proof.
  intros [Hflag Hte Hte0 Hte1 Hhost] Hrun. apply bind_done in Hrun as (buf & m1 & Hfind & Hrun).
  pose proof (reads_pool _ (reads_find_buffer sa) _ _ _ Hfind) as ->.
  assert (s = at_bus s (pins s) (host s) false) as Hs by (destruct s; simpl in *; by subst).
  unfold ieee488_TalkLoop. rewrite wp_bind. apply (wp_read_on_machine _ buf); [exact Hfind|]. rewrite Hs.
  generalize (host s), (pins s), Hhost, Hte. intros h p Hh Hp. destruct buf as [buf|].
  - rewrite wp_bind. eapply (CtrlPortsTalk_between s p h recv); [exact Hp|by rewrite Hte0|exact Hh|]. intros s1 K1.
    assert (forall s2, between (with_machine m (set_ieee488_TE75161 true s)) (recv ++ sent) s2 -> n_received (host s2) = recv ++ sent /\ ie_m s2 = m) as Hend.
    { intros s2 K2. rewrite (between_m _ _ _ K2). split; [|done].
      destruct K2 as [(te & p2 & h2 & ph & _ & _ & Hh2 & _ & ->)|(x & p2 & h2 & _ & _ & _ & Hh2 & ->)]; by destruct Hh2. }
    eapply (channel_loop_sends sa recv bus_fuel (Some buf) []); [by rewrite app_nil_r|exact Hrun|]. intros s2 K2. by apply Hend.
  - unfold mret, comp_ret in Hrun. simplify_eq. rewrite app_nil_r. unfold ieee488_BusIdle, get_bus. rewrite wp_bind, wp_gets. unfold id.
    change (ieee488_TE75161 (at_bus s p h false)) with (ieee488_TE75161 s). rewrite Hte1. simpl when. rewrite wp_bind, wp_ret.
    assert (forall q, te_port q = false -> l_dav (lines_of q) = true) as Hl
      by (intros q Hq; unfold lines_of, released; simpl; rewrite Hq; by destruct (dav_ddr q)).
    rewrite wp_bind. eapply wp_free_write; [by apply Hl|exact Hh|]. clear h Hh. intros h Hh.
    rewrite wp_bind. eapply wp_free_write; [by apply Hl|exact Hh|]. clear h Hh. intros h Hh.
    unfold listen_data, get_bus. rewrite wp_bind, wp_gets. unfold id. 
    match goal with |- context [ieee488_TE75160 ?x] => change (ieee488_TE75160 x) with (ieee488_TE75160 s) end. rewrite Hte0. simpl when.
    rewrite wp_ret. split; [|done]. destruct Hh as (ph & _ & Hh). by destruct Hh.
Qed.
End talking.

(** ** A witness: a channel with two bytes *)

#[local] Existing Instance sample_asserts.
#[local] Existing Instance avr_geom.
#[local] Existing Instance demo_config.
#[local] Existing Instance six_buffers.
#[local] Existing Instance clock_system.
#[local] Existing Instance demo_board.
#[local] Existing Instance no_drives.
#[local] Existing Instance no_loaders.

Definition bus_without_ifc : IeeeConfig := {| HAVE_IFC := false; HAVE_DC := false |}.
#[local] Existing Instance bus_without_ifc.

(** Channel 3 is open for reading, with the bytes 72 and 73 left. *)
Definition open_channel : comp bufs unit :=
  buf ← alloc_buffer;
  i ← of_option buf;
  buf_upd i (fun b => set_secondary 3 (set_buf_read true (set_sendeoi true (set_position 2 (set_lastused 3 b)))));;
  data_put i 2 [72; 73].
Definition talk_machine : @machine names_fatfs :=
  match mbufs open_channel (demo_machine []) with Done _ m => m | _ => demo_machine [] end.

Definition talk_state (delays : list nat) : ieee (H := names_fatfs) (H8 := listening_host) := {|
  ie_m := talk_machine;
  ieee488_ListenActive := 0;
  ieee488_TalkingDevice := 8;
  command_received := false;
  open_active := false;
  open_sa := 0;
  ieee488_IFCreceived := false;
  ieee488_ATN_received := false;
  ieee488_TE75160 := false;
  ieee488_TE75161 := false;
  atn_interrupt := true;
  pins := {| eoi_ddr := false; eoi_port := true; dav_ddr := false; dav_port := true; ndac_ddr := true; ndac_port := true;
             nrfd_ddr := true; nrfd_port := false; te_port := false; dc_port := true; d_ddr := 0; d_port := 255 |};
  host := Listener L_CLEAR [] 9 delays : @HOST listening_host
|}.

Lemma talk_loop_transparent_witness :
  wp (ieee488_TalkLoop (H := names_fatfs) (H8 := listening_host) zero_dent 100 3)
    (fun _ s' => n_received (host s') = [(72, false); (73, true)]) (talk_state [4%nat; 30%nat]).
Proof.
  eapply wp_mono.
  - eapply (talk_loop_transparent (H := names_fatfs) zero_dent 100 3 40 ltac:(lia) ltac:(lia) ltac:(lia) ltac:(lia) 3 (talk_state [4%nat; 30%nat]) []
      [(72, false); (73, true)]).
    + split; try done. exists L_CLEAR. split; [done|]. split; [done|done|simpl; lia|]. repeat constructor; lia.
    + vm_compute. reflexivity.
  - intros u s' [Hr _]. exact Hr.
Defined.
